(* ===== verification/_CoqProject ===== *)
-Q . S2P
Prelude.v
Pmm.v
Heap.v
Disk.v
Fat32Names.v
Fat32.v
Fat32Table.v
Fat32Files.v
Fat32Dirs.v
Fat32Lookup.v
Fat32Remove.v
Fat32Spec.v
Sched.v
SchedProps.v
SchedFrame.v
Pipe.v
Paging.v
PagingProps.v
Elf.v
Vfs.v
CString.v
KString.v
CNumbers.v
Qsort.v
CStdio.v
Vga.v
LineEdit.v
UshRun.v
Drivers.v
ShellEdit.v
ShellScreen.v
Kern.v
Syscall.v
UserMem.v
ShellCmd.v
UshEdit.v
KernInv.v
KernOps.v
KernFrame.v
KernProcs.v
KernRun.v
KernCalls.v
KernSteps.v
ShellFrame.v
KernDemo.v
CallSpecs.v
UserHeap.v
KernProps.v
FileCalls.v
FileWrites.v
UserRun.v
Samples.v
SampleRuns.v
Redir.v
SelfTests.v
FpuTest.v
Ports.v
Ata.v
Cpu.v
GordonArt.v
Vga13.v
Vga13Draw.v
Splash.v
Fetch.v
Boot.v
