(* ===== verification/Prelude.v ===== *)
(** * GordOS: a verified model of the kernel and its C library

    GordOS is a 32-bit operating system in C: a multiboot kernel with paging,
    preemptive round-robin scheduling, ring-3 processes loaded from ELF files, pipes,
    a FAT32 file system with long names, drivers for disk, keyboard, clock, timer,
    serial line and screen, and a small C library for the programs it runs.  This
    development translates that code into executable definitions and proves what
    makes each part, and the kernel as a whole, correct.

    ** How the parts interact

    The physical page allocator ([src/memory/pmm.c]) feeds the kernel heap
    ([src/memory/kmalloc.c]) and the page tables ([src/memory/paging.c]).  Process records,
    pipes and write buffers live on the kernel heap; the scheduler links process records
    into a ready ring, a blocked list and a list of zombies.  System calls
    ([src/kernel/syscall.c]) run on the current process, go through its descriptor table
    to the console, the keyboard, a pipe, a write buffer or the file system
    ([src/fs/vfs.c], [src/fs/fat32.c]), and may block; the timer and keyboard interrupts
    and the kernel task's reaper interleave with them.  The kernel shell
    ([src/kernel/shell.c]) runs from the keyboard interrupt and starts programs, the
    user shell ([src/user/ush.c]) is one of them.  Programs see the kernel through the C
    library ([src/user/string.c], [src/user/stdlib.c], [src/user/stdio.c]).

    ** Files, and the code each models

    - [Prelude]: machine integers, byte memories, loops, the state monad, tactics and hints.
    - [Pmm]: [src/memory/pmm.c].  Bitmap and counters as a record, the memory-map walk.
    - [Heap]: [src/memory/kmalloc.c].  Header chain as a finite map from addresses to
      headers; the class [BlockSource] is what it needs of its source of pages (the page
      allocator implements it for the kernel, [sbrk] for programs), [KernelHeap] what the
      rest of the kernel relies on.
    - [Disk]: the class [BlockDev], what the file system needs of a block device, with an
      in-memory instance.
    - [Fat32Names], [Fat32]: [src/fs/fat32.c].  Short and long names; tables, directories,
      files, paths.  [Fat32Table], [Fat32Files], [Fat32Dirs], [Fat32Lookup], [Fat32Remove]:
      what the loops do on an abstract volume (table entries [F], clusters [B]): chains,
      contents, the scan of a directory as a scan of one array, added and erased entries.
      [Fat32Spec]: writing, reading and deleting files.
    - [Sched], [SchedProps], [SchedFrame]: [src/kernel/scheduler.c] with the process
      record of [src/kernel/process.h].  Records in a finite map indexed by their address,
      [next] pointers as addresses; invariant, theorems, frame lemmas.
    - [Pipe]: [src/kernel/pipe.c] and [src/kernel/wbuf.c].
    - [Paging], [PagingProps]: [src/memory/paging.c].  Page tables as words of memory, the
      walk of the processor as a function of them; translations, isolation, user stacks.
    - [Elf]: [src/kernel/elf.c].  Header decoding, page mapping, segment copying.
    - [Vfs]: [src/fs/vfs.c].  The record of file-system operations.
    - [CString], [CNumbers], [Qsort], [CStdio]: [src/user/string.c], [src/user/ctype.c],
      [src/lib/string.c], [src/user/stdlib.c] and [src/user/stdio.c] over a byte memory; the class
      [FdCalls] is what streams need of the system calls.
    - [Vga]: [src/display/vga.c] and [src/drivers/serial.c].
    - [Drivers]: [src/drivers/keyboard.c], [src/drivers/rtc.c], [src/drivers/pit.c].
    - [Ports], [Ata], [Cpu]: port input and output as an interface; [src/drivers/ata.c]; the
      tables of [src/cpu/gdt.c] and [src/cpu/idt.c], [src/drivers/pic.c], [src/cpu/fpu.c] and
      [src/kernel/usermode.c].  The classes [AtaDrive] and [PicPair] state what the code
      relies on of the devices behind the ports; [ata_block_dev] makes the driver a [BlockDev].
    - [GordonArt], [Vga13], [Vga13Draw]: [src/display/gordon_art.h] and [src/display/vga13.c]
      over the class [VgaCard]; [Splash]: [src/display/splash.c]; [Fetch]: [cpu_get_name] and the
      graphics commands of [src/kernel/shell.c] and [src/kernel/syscall.c].
    - [LineEdit]: the line buffers of both shells ([src/kernel/shell.c], [src/user/ush.c]):
      the loops on their arrays, what they do on lists, and refinement between the two.  The
      class [ShellHost] is what an editor needs of the system.
    - [ShellEdit], [ShellScreen]: [shell_handle_char], [shell_prompt], [shell_init] of
      [src/kernel/shell.c], the editor on lists, and what the screen shows ([ScreenHost] is a
      host whose output goes to the tape of [Vga]).
    - [UshRun], [UshEdit]: [src/user/ush.c].  [tokenise], [run_simple], [run_pipe], the built-in
      commands and [dispatch] as trees of system calls; [readline], completion, history.
    - [Kern]: the whole kernel state and [src/kernel/process.c]; starting a program
      ([start_program] and [shell_launch_ush] of [src/kernel/shell.c]).
    - [Syscall]: every system call of [src/kernel/syscall.c], the dispatcher, and the
      exception handler of [src/cpu/idt.c].  A call that sleeps stops with the rest of its
      work recorded in [k_pending].
    - [ShellCmd]: [shell_execute] and the commands of [src/kernel/shell.c] on the kernel's
      state, which is a [ShellHost]; [kstep], the step relation of the machine: a call of the
      running process, the resumption of a call, a computation in user mode, a fault, a
      timer tick, a key, a key handled by the kernel shell, the reaper, the start of a shell.
    - [KernInv], [KernOps], [KernFrame], [KernProcs], [KernRun], [KernCalls], [KernSteps],
      [ShellFrame]: the invariant of the kernel state and that every step keeps it.
    - [KernDemo], [KernProps]: a booted machine on which the model runs, and what the
      invariant says of every reachable state.
    - [CallSpecs]: what single calls do: [sbrk], [wait], copying of paths.
    - [KString]: [src/lib/string.c], and the functions on lists that stand for it elsewhere.
    - [UserMem]: buffers and strings in the memory of a process.  [FileCalls], [FileWrites]:
      the descriptor calls of [src/kernel/syscall.c] on a mounted volume, for reading and for
      writing through [src/kernel/wbuf.c].
    - [UserRun]: a program as a tree of system calls and accesses to its memory ([uprog]), and
      [urun], which runs it on the kernel.  [Samples]: the programs of [src/user] as such
      trees; [SampleRuns], [Redir]: what echo, crash, cat2 and redir do on the whole system.
    - [SelfTests], [FpuTest]: the test programs of [src/user/tests] over the models of the
      library they test.
    - [UserHeap]: [malloc], [free], [realloc], [calloc] over the class [SbrkCall], which
      the kernel's [sys_sbrk] implements.
    - [Boot]: [kernel_main] of [src/kernel/kernel.c] on the state of all components.

    ** What the theorems show

    - The kernel as a whole, over every interleaving from boot: reference counts of
      pipes and write buffers equal the number of descriptors that point at them; no
      descriptor dangles; the three queues are disjoint lists of allocated processes in the
      matching states; a process recorded as asleep on a pipe is asleep there.
    - Boot: [kernel_main] succeeds from the state a multiboot loader leaves, whatever the
      drive answers, and ends where those interleavings start.
    - Files: what [fat32_write_file] stores [fat32_read_file] returns, other files are left
      alone by writing and deleting, a failed write means lack of space or memory.
    - Files through descriptors: an open file behaves as an array with a position under any
      reads and seeks; what is written through a descriptor is stored when the last reference
      to it goes, and everything allocated on the way is given back.
    - Programs in user mode: redirection works from [open] and [dup2] to the sectors and back
      to the screen; a program that follows a null pointer is killed and reported and nothing
      else happens; echo and cat2 print what they should for every input.
    - Devices: the disk driver stores and retrieves sectors on a drive in order, and stays
      in the failed state after an error; interrupt lines reach their handlers; the way
      into ring 3 passes the processor's checks; pictures are drawn inside the frame buffer
      and give the text mode back.
    - Memory: allocations never overlap and lose no byte; pages are handed out
      once; a mapping changes one translation of one address space; new address spaces
      share exactly the kernel half; the initial stack holds the arguments.
    - Scheduling: operations never fail or corrupt the queues; every ready process is
      dispatched within one round; the processor context is exchanged as it should.
    - Data paths: pipes are first-in first-out over any interleaving of partial reads and
      writes, the keyboard ring is a bounded queue, the screen shows the last lines of
      what was written, cluster chains are allocated, linked and freed exactly.
    - Shells: both line editors do on their arrays what an editor on lists does, with the
      same output, and stay inside the arrays but for the stated completions; the screen
      shows prompt, line and cursor as long as the line fits its row; a pipeline joins
      its two programs by the pipe and leaves no end open elsewhere; the tokenizer
      agrees with splitting at spaces.
    - C library: [qsort] sorts, terminates and permutes; [realloc] preserves contents;
      printed numbers read back; [memmove] is a simultaneous move for every overlap; string
      functions agree with functions on lists.

    ** Bounds and fuel

    Loops over linked structures take the size of the map they walk as fuel
    ([list_fuel]): a list without repetitions is never longer, and the invariants
    rule repetitions out, so the theorems show that the loops end.  Cluster chains use the
    number of clusters in the same way.  [qsort] has as fuel one more than the number of
    elements (each partition is strictly smaller), number printing 16 digits (a 32-bit
    number has at most 11 in the bases used), a tabulator 80 columns (a line has
    80), the clock the number of reads during which its registers change, the status loops of
    the disk driver a bound on the time a drive is busy ([dr_patience]), waiting for a key
    the polls until one comes (the theorem says what follows when it does).  The loops of
    the sample programs take a number of rounds, which their theorems bound by the length of
    the input; strings of programs have less than 255 characters ([SLEN_FUEL]).  Running
    out of fuel is the value [None], and each theorem about a result states that there is one.
    Accesses outside an array or to a freed record are [None] too, so these theorems
    also exclude them.

    ** Not modelled

    - [src/tcc]: the Tiny C Compiler, a vendored third-party program of 31,000 lines that GordOS
      only builds and runs; what it needs of the system is the C library above.
    - Assembly ([src/boot], [src/cpu] stubs): the context switch is the exchange of
      saved contexts, entering a process is the frame on its stack, a stub is its address.
    - The devices: drive, interrupt controllers and graphics card are the classes above,
      with simulated instances as witnesses.
    - In the state of [Kern], [fasterfetch] and [peter] are single codes in the log of the
      terminal; their pictures are in [Fetch] and [Vga13Draw].
    - Two programs side by side: [urun] runs one program until it sleeps or ends; what the
      kernel does between the steps of several is covered by the runs of [ShellCmd].
    - TLB flushes, waiting for the serial transmitter, and the timing of interrupts
      within one kernel operation (the kernel runs with interrupts disabled). *)

From stdpp Require Export base gmap list numbers option sorting.
From Stdlib Require Export ZArith Lia.
From Stdlib Require Ascii String.
Export String.StringSyntax.

Global Open Scope Z_scope.

(** ** Machine integers

    A C value of width [w] is a [Z]; the conversions below write the
    wrap-around of the i686 target out. *)

Definition u8 (x : Z) : Z := x mod 256.
Definition u16 (x : Z) : Z := x mod 65536.
Definition u32 (x : Z) : Z := x mod 4294967296.

(** Conversion to [int]: two's complement reinterpretation of the low 32 bits. *)
Definition s32 (x : Z) : Z :=
  let y := u32 x in if y <? 2147483648 then y else y - 4294967296.

(** Conversion to the (signed) [char] of the target. *)
Definition s8 (x : Z) : Z :=
  let y := u8 x in if y <? 128 then y else y - 256.

Definition is_u32 (x : Z) : Prop := 0 <= x < 4294967296.
Definition is_byte (x : Z) : Prop := 0 <= x < 256.

(** ** Function-valued memories *)

Definition upd {A} (m : Z -> A) (a : Z) (v : A) : Z -> A :=
  fun x => if x =? a then v else m x.

Declare Scope mem_scope.
Notation "m '.[' a '<-' v ]" := (upd m a v)
  (at level 1, left associativity, a at level 99, v at level 99, format "m '.[' a  '<-'  v ]") : mem_scope.
Global Open Scope mem_scope.

(** [copy dst d src s n]: [n] cells of [src] from [s] on, written at [d]. *)
Definition blit {A} (dst : Z -> A) (d : Z) (src : Z -> A) (s n : Z) : Z -> A :=
  fun x => if (d <=? x) && (x <? d + n) then src (s + (x - d)) else dst x.

(** ** Bounded loops *)

(** [for (i = lo; i < lo + n; i++) s = body i s]. *)
Fixpoint for_loop {S} (n : nat) (lo : Z) (body : Z -> S -> S) (s : S) : S :=
  match n with
  | O => s
  | Datatypes.S k => for_loop k (lo + 1) body (body lo s)
  end.

(** First index of [lo .. lo + n - 1] that satisfies a test, as a search loop
    with an early exit finds it. *)
Fixpoint find_from (test : Z -> bool) (lo : Z) (n : nat) : option Z :=
  match n with
  | O => None
  | Datatypes.S k => if test lo then Some lo else find_from test (lo + 1) k
  end.

(** ** State with undefined behaviour

    A C function that reads and writes a state [S] is a [st S A]; [None] is
    undefined behaviour (an access outside its object, a freed pointer). *)

Definition st (S A : Type) : Type := S -> option (A * S).

Definition ret {S A} (x : A) : st S A := fun s => Some (x, s).
Definition bind {S A B} (m : st S A) (k : A -> st S B) : st S B :=
  fun s => match m s with Some (x, s) => k x s | None => None end.
Definition undef {S A} : st S A := fun _ => None.
Definition lift_opt {S A} (o : option A) : st S A :=
  fun s => match o with Some x => Some (x, s) | None => None end.
Definition gets {S A} (f : S -> A) : st S A := fun s => Some (f s, s).
Definition modify {S} (f : S -> S) : st S unit := fun s => Some (tt, f s).

Declare Scope st_scope.
Notation "'let*' x := m 'in' k" := (bind m (fun x => k))
  (at level 10, x pattern, m at level 100, k at level 200) : st_scope.
Notation "m ';;' k" := (bind m (fun _ => k))
  (at level 100, k at level 200, right associativity) : st_scope.
Global Open Scope st_scope.

Lemma bind_ok {S A B} (m : st S A) (k : A -> st S B) s x s' :
  m s = Some (x, s') -> bind m k s = k x s'.
Proof. unfold bind. by intros ->. Qed.

Lemma bind_inv {S A B} (m : st S A) (k : A -> st S B) s r :
  bind m k s = Some r -> exists x s1, m s = Some (x, s1) /\ k x s1 = Some r.
Proof. unfold bind. destruct (m s) as [[x s1]|]; [|done]. eauto. Qed.

(** [for (i = lo; i < lo + n; i++) body i] on a state. *)
Fixpoint for_st {S} (n : nat) (lo : Z) (body : Z -> st S unit) : st S unit :=
  match n with
  | O => ret tt
  | Datatypes.S k => body lo ;; for_st k (lo + 1) body
  end.

(** Total correctness of such a loop by an invariant. *)
Lemma for_st_ind {S} (P : Z -> S -> Prop) n lo (body : Z -> st S unit) s :
  P lo s ->
  (forall i t, lo <= i < lo + Z.of_nat n -> P i t -> exists t', body i t = Some (tt, t') /\ P (i + 1) t') ->
  exists s', for_st n lo body s = Some (tt, s') /\ P (lo + Z.of_nat n) s'.
Proof.
  revert lo s. induction n as [|n IH]; intros lo s H0 Hs; simpl.
  - exists s. by rewrite Z.add_0_r.
  - destruct (Hs lo s ltac:(lia) H0) as (t & Et & Ht). rewrite (bind_ok _ _ _ _ _ Et).
    destruct (IH (lo + 1) t Ht) as (s' & E & H).
    + intros i u Hi. apply Hs. lia.
    + exists s'. split; [done|]. by replace (lo + Z.of_nat (Datatypes.S n)) with (lo + 1 + Z.of_nat n) by lia.
Qed.

(** ** C strings

    A NUL-terminated string is the list of its characters, the terminator left
    out; [ch s i] is [s[i]], which is the terminator at the end. *)

Definition ch (s : list Z) (i : Z) : Z := nth (Z.to_nat i) s 0.

Definition chars (s : String.string) : list Z :=
  map (fun a => Z.of_N (Ascii.N_of_ascii a)) (String.list_ascii_of_string s).

Arguments chars s%_string_scope.

(** The string that starts at [i] in a buffer of which [n] cells are left. *)
Fixpoint cstr (n : nat) (buf : Z -> Z) (i : Z) : list Z :=
  match n with
  | O => []
  | Datatypes.S k => if buf i =? 0 then [] else buf i :: cstr k buf (i + 1)
  end.

(** The string at the start of an array given by its cells. *)
Fixpoint cut_nul (l : list Z) : list Z :=
  match l with
  | [] => []
  | c :: l => if c =? 0 then [] else c :: cut_nul l
  end.

(** ** Tactics *)

Ltac zmod := Z.div_mod_to_equations; lia.

(** Turn the boolean comparisons of a branch into propositions. *)
Ltac zbool :=
  repeat match goal with
  | H : (_ =? _) = true |- _ => apply Z.eqb_eq in H
  | H : (_ =? _) = false |- _ => apply Z.eqb_neq in H
  | H : (_ <? _) = true |- _ => apply Z.ltb_lt in H
  | H : (_ <? _) = false |- _ => apply Z.ltb_ge in H
  | H : (_ <=? _) = true |- _ => apply Z.leb_le in H
  | H : (_ <=? _) = false |- _ => apply Z.leb_gt in H
  | H : andb _ _ = true |- _ => apply andb_true_iff in H; destruct H
  | H : orb _ _ = false |- _ => apply orb_false_iff in H; destruct H
  | H : negb _ = true |- _ => apply negb_true_iff in H
  | H : negb _ = false |- _ => apply negb_false_iff in H
  end.

(** Split on the conditional at the head of the goal. *)
Ltac zcase :=
  match goal with
  | |- context [if ?b then _ else _] => destruct b eqn:?; zbool
  end.

Ltac zcase_in H :=
  match type of H with
  | context [if ?b then _ else _] => destruct b eqn:?; zbool
  end.

(** Reflect every integer comparison of the goal. *)
Ltac zspec :=
  repeat match goal with
  | |- context [?a =? ?b] => destruct (Z.eqb_spec a b)
  | |- context [?a <? ?b] => destruct (Z.ltb_spec a b)
  | |- context [?a <=? ?b] => destruct (Z.leb_spec a b)
  end.

(** ** Lemmas on words *)

Create HintDb word.
Create Rewrite HintDb wordrw.

Lemma u32_bound x : 0 <= u32 x < 4294967296.
Proof. unfold u32. zmod. Qed.

Lemma u32_small x : is_u32 x -> u32 x = x.
Proof. unfold u32, is_u32. intros. apply Z.mod_small. lia. Qed.

Lemma u32_idem x : u32 (u32 x) = u32 x.
Proof. apply u32_small, u32_bound. Qed.

Lemma u8_bound x : 0 <= u8 x < 256.
Proof. unfold u8. zmod. Qed.

Lemma u8_small x : is_byte x -> u8 x = x.
Proof. unfold u8, is_byte. intros. apply Z.mod_small. lia. Qed.

Lemma s32_u32 x : is_u32 x -> u32 (s32 x) = x.
Proof.
  unfold is_u32, s32. intros. rewrite (u32_small x) by done.
  zcase; unfold u32; zmod.
Qed.

Lemma s32_small x : -2147483648 <= x < 2147483648 -> s32 x = x.
Proof. unfold s32, u32. intros. zcase; zmod. Qed.

(** Masking with [~(2^k - 1)] rounds a [w]-bit word down to a multiple of [2^k]. *)
Lemma land_mask_hi k w x : 0 <= k <= w -> 0 <= x < 2 ^ w ->
  Z.land x (2 ^ w - 2 ^ k) = x / 2 ^ k * 2 ^ k.
Proof.
  intros Hk Hx. rewrite <- Z.shiftr_div_pow2, <- Z.shiftl_mul_pow2 by lia.
  assert (2 ^ w - 2 ^ k = Z.shiftl (Z.ones (w - k)) k) as ->.
  { rewrite Z.ones_equiv, Z.shiftl_mul_pow2 by lia.
    replace (2 ^ w) with (2 ^ (w - k) * 2 ^ k) by (rewrite <- Z.pow_add_r by lia; f_equal; lia).
    lia. }
  apply Z.bits_inj'. intros n Hn. rewrite Z.land_spec, !Z.shiftl_spec by lia.
  destruct (Z.ltb_spec n k).
  - rewrite (Z.testbit_neg_r (Z.ones _)), (Z.testbit_neg_r (Z.shiftr _ _)) by lia.
    apply andb_false_r.
  - rewrite Z.shiftr_spec by lia. replace (n - k + k) with n by lia.
    destruct (Z.ltb_spec n w).
    + rewrite Z.ones_spec_low by lia. apply andb_true_r.
    + rewrite Z.ones_spec_high by lia. rewrite andb_false_r. symmetry.
      rewrite <- (Z.mod_small x (2 ^ w)) by done. apply Z.mod_pow2_bits_high. lia.
Qed.

Lemma land_align4 x : 0 <= x < 4294967296 -> Z.land x 0xFFFFFFFC = x / 4 * 4.
Proof. apply (land_mask_hi 2 32). lia. Qed.

Lemma land_align_page x : 0 <= x < 4294967296 -> Z.land x 0xFFFFF000 = x / 4096 * 4096.
Proof. apply (land_mask_hi 12 32). lia. Qed.

(** Masking with [2^k - 1] keeps the remainder. *)
Lemma land_mask_lo k x : 0 <= k -> Z.land x (2 ^ k - 1) = x mod 2 ^ k.
Proof. intros. rewrite <- Z.land_ones by lia. f_equal. rewrite Z.ones_equiv. lia. Qed.

(** Bytes put together with shifts do not overlap. *)
Lemma lor_shiftl_add a b k : 0 <= k -> 0 <= a < 2 ^ k -> Z.lor a (Z.shiftl b k) = a + b * 2 ^ k.
Proof.
  intros Hk Ha. rewrite Z.shiftl_mul_pow2 by lia.
  rewrite <- Z.lxor_lor, <- Z.add_nocarry_lxor; try done.
  all: apply Z.bits_inj'; intros n Hn; rewrite Z.land_spec, Z.bits_0;
    destruct (Z.ltb_spec n k);
    [ rewrite Z.mul_pow2_bits_low by lia; apply andb_false_r
    | rewrite <- (Z.mod_small a (2 ^ k)) by done;
      rewrite Z.mod_pow2_bits_high by lia; done ].
Qed.

Lemma land_page_offset x : Z.land x 0xFFF = x mod 4096.
Proof. by apply (land_mask_lo 12). Qed.

#[export] Hint Resolve u32_bound u8_bound : word.
#[export] Hint Rewrite u32_idem : wordrw.

(** ** Lemmas on memories *)

Lemma upd_same {A} (m : Z -> A) a v : (m.[a <- v]) a = v.
Proof. unfold upd. by rewrite Z.eqb_refl. Qed.

Lemma upd_other {A} (m : Z -> A) a v x : x <> a -> (m.[a <- v]) x = m x.
Proof. unfold upd. intros. destruct (Z.eqb_spec x a); congruence. Qed.

Lemma blit_in {A} (dst : Z -> A) d src s n x :
  d <= x < d + n -> blit dst d src s n x = src (s + (x - d)).
Proof. intros. unfold blit. zspec; simpl; done || lia. Qed.

Lemma blit_out {A} (dst : Z -> A) d src s n x :
  ~ d <= x < d + n -> blit dst d src s n x = dst x.
Proof. intros. unfold blit. zspec; simpl; done || lia. Qed.

Create Rewrite HintDb mem.
#[export] Hint Rewrite @upd_same : mem.
#[export] Hint Rewrite @upd_other using lia : mem.

(** ** Lemmas on loops *)

Lemma for_loop_add {S} n k lo (body : Z -> S -> S) s :
  for_loop (n + k) lo body s
  = for_loop k (lo + Z.of_nat n) body (for_loop n lo body s).
Proof.
  revert lo s. induction n as [|n IH]; intros lo s; simpl.
  - by rewrite Z.add_0_r.
  - rewrite IH. f_equal. lia.
Qed.

Lemma for_loop_last {S} n lo (body : Z -> S -> S) s :
  for_loop (Datatypes.S n) lo body s
  = body (lo + Z.of_nat n) (for_loop n lo body s).
Proof.
  replace (Datatypes.S n) with (n + 1)%nat by lia. by rewrite for_loop_add.
Qed.

Lemma for_loop_ext {S} n lo (f g : Z -> S -> S) s :
  (forall i t, lo <= i < lo + Z.of_nat n -> f i t = g i t) ->
  for_loop n lo f s = for_loop n lo g s.
Proof.
  revert lo s. induction n as [|n IH]; intros lo s H; simpl; [done|].
  rewrite H by lia. apply IH. intros i t Hi. apply H. lia.
Qed.

(** Loop invariant rule: [P i s] holds before iteration [i]. *)
Lemma for_loop_ind {S} (P : Z -> S -> Prop) n lo (body : Z -> S -> S) s :
  P lo s ->
  (forall i t, lo <= i < lo + Z.of_nat n -> P i t -> P (i + 1) (body i t)) ->
  P (lo + Z.of_nat n) (for_loop n lo body s).
Proof.
  revert lo s. induction n as [|n IH]; intros lo s H0 Hs; simpl.
  - by rewrite Z.add_0_r.
  - replace (lo + Z.of_nat (Datatypes.S n)) with (lo + 1 + Z.of_nat n) by lia.
    apply IH.
    + apply Hs; [lia | done].
    + intros i t Hi. apply Hs. lia.
Qed.

Lemma find_from_Some test lo n i :
  find_from test lo n = Some i ->
  lo <= i < lo + Z.of_nat n /\ test i = true
  /\ forall j, lo <= j < i -> test j = false.
Proof.
  revert lo. induction n as [|n IH]; intros lo; simpl; [done|].
  destruct (test lo) eqn:E.
  - intros [= ->]. repeat split; [lia|lia|done|lia].
  - intros H%IH. destruct H as (? & ? & Hj). repeat split; [lia|lia|done|].
    intros j Hjr. destruct (decide (j = lo)) as [->|]; [done|]. apply Hj. lia.
Qed.

Lemma find_from_None test lo n :
  find_from test lo n = None ->
  forall j, lo <= j < lo + Z.of_nat n -> test j = false.
Proof.
  revert lo. induction n as [|n IH]; intros lo; simpl; [lia|].
  destruct (test lo) eqn:E; [done|].
  intros H j Hj. destruct (decide (j = lo)) as [->|]; [done|].
  apply (IH (lo + 1)); [done|lia].
Qed.

Lemma find_from_first test lo n i :
  lo <= i < lo + Z.of_nat n -> test i = true ->
  (forall j, lo <= j < i -> test j = false) ->
  find_from test lo n = Some i.
Proof.
  intros Hi Ht Hj. destruct (find_from test lo n) as [k|] eqn:E.
  - apply find_from_Some in E as (Hk & Htk & Hjk).
    destruct (Z.lt_trichotomy i k) as [?|[->|?]]; [|done|].
    + by rewrite Hjk in Ht by lia.
    + by rewrite Hj in Htk by lia.
  - by rewrite (find_from_None _ _ _ E) in Ht.
Qed.

(** A property of the numbers below [n], checked one by one. *)
Lemma all_below (n : nat) (P : Z -> bool) : forallb (fun i => P (Z.of_nat i)) (seq 0 n) = true ->
  forall x, 0 <= x < Z.of_nat n -> P x = true.
Proof.
  rewrite forallb_forall. intros H x Hx. specialize (H (Z.to_nat x)). rewrite Z2Nat.id in H by lia.
  apply H, in_seq. lia.
Qed.

(** ** Lemmas on lists *)

Lemma elem_of_mid {A} (l k : list A) x : x ∈ l ++ x :: k.
Proof. apply elem_of_app. right. apply elem_of_cons. by left. Qed.

#[export] Hint Resolve elem_of_mid : core.

Lemma elem_of_mid_l {A} (l k : list A) x y : x ∈ l ++ k -> x ∈ l ++ y :: k.
Proof. rewrite !elem_of_app, elem_of_cons. intros [?|?]; auto. Qed.

Lemma elem_of_mid_inv {A} (l k : list A) x y : x ∈ l ++ y :: k -> x <> y -> x ∈ l ++ k.
Proof. rewrite !elem_of_app, elem_of_cons. intros [?|[?|?]] ?; auto. done. Qed.

Lemma elem_of_second {A} (l : list A) x y z : x ∈ y :: l -> x ∈ y :: z :: l.
Proof. rewrite !elem_of_cons. intros [?|?]; auto. Qed.

Lemma NoDup_mid {A} (l k : list A) x :
  NoDup (l ++ x :: k) -> (x ∉ l) /\ (x ∉ k) /\ NoDup (l ++ k).
Proof.
  rewrite <- Permutation_middle. intros [H1 H2]%NoDup_cons. rewrite not_elem_of_app in H1. naive_solver.
Qed.

(** ** Lemmas on strings *)

Lemma ch_beyond (s : list Z) p : Z.of_nat (length s) <= p -> ch s p = 0.
Proof. intros. unfold ch. apply nth_overflow. lia. Qed.

Lemma cstr_name (name : list Z) buf (n : nat) i :
  Forall (fun c => c <> 0) name -> (length name < n)%nat ->
  (forall p, 0 <= p <= Z.of_nat (length name) -> buf (i + p) = ch name p) ->
  cstr n buf i = name.
Proof.
  revert n i. induction name as [|c name IH]; intros n i Hf Hn Hb; destruct n as [|n]; simpl in *;
    try lia.
  - specialize (Hb 0 ltac:(lia)). rewrite Z.add_0_r in Hb. by rewrite Hb.
  - apply Forall_cons in Hf as [Hc Hf].
    pose proof (Hb 0 ltac:(lia)) as H0. rewrite Z.add_0_r in H0. unfold ch in H0. simpl in H0.
    rewrite H0. destruct (Z.eqb_spec c 0); [done|]. f_equal. apply IH; [done|lia|].
    intros p Hp. replace (i + 1 + p) with (i + (p + 1)) by lia. rewrite Hb by lia.
    unfold ch. by replace (Z.to_nat (p + 1)) with (S (Z.to_nat p)) by lia.
Qed.
