(* ===== verification/Pmm.v ===== *)
(** * Physical memory manager (memory/pmm.c)

    The bitmap of 4 KB frames with its two counters, the walk over the
    multiboot memory map that fills it, and the allocation routines. *)

From S2P Require Import Prelude.

Module Pmm.

(** ** Constants (memory/pmm.c, memory/pmm.h) *)

Definition PAGE_SIZE : Z := 4096.
Definition MAX_PAGES : Z := 1048576.
Definition IDENTITY_MAPPED_PAGES : Z := 1024.

(** ** State *)

(** [bitmap] is the [uint8_t bitmap[BITMAP_SIZE]] array. *)
Record pmm_state := mk_pmm {
  bitmap : Z -> Z;
  total_pages : Z;
  free_pages : Z
}.

Definition with_bitmap (f : Z -> Z) (st : pmm_state) : pmm_state :=
  mk_pmm f (total_pages st) (free_pages st).

Definition dec_free (st : pmm_state) : pmm_state :=
  mk_pmm (bitmap st) (total_pages st) (u32 (free_pages st - 1)).

Definition inc_free (st : pmm_state) : pmm_state :=
  mk_pmm (bitmap st) (total_pages st) (u32 (free_pages st + 1)).

Definition inc_total (st : pmm_state) : pmm_state :=
  mk_pmm (bitmap st) (u32 (total_pages st + 1)) (free_pages st).

(** ** Bitmap primitives *)

Definition bitmap_set (page : Z) (st : pmm_state) : pmm_state :=
  with_bitmap (bitmap st).[page / 8 <-
    u8 (Z.lor (bitmap st (page / 8)) (Z.shiftl 1 (page mod 8)))] st.

Definition bitmap_clear (page : Z) (st : pmm_state) : pmm_state :=
  with_bitmap (bitmap st).[page / 8 <-
    u8 (Z.land (bitmap st (page / 8)) (Z.lnot (Z.shiftl 1 (page mod 8))))] st.

(** The C function returns the masked byte; it is used as a truth value. *)
Definition bitmap_test (page : Z) (st : pmm_state) : Z :=
  Z.land (bitmap st (page / 8)) (Z.shiftl 1 (page mod 8)).

(** ** The multiboot memory map (boot/multiboot.h) *)

Record multiboot_mmap := {
  mm_size : Z; addr_low : Z; addr_high : Z; len_low : Z; len_high : Z; mm_type : Z
}.

(** [rd] reads a 32-bit word of physical memory. *)
Definition read_mmap (rd : Z -> Z) (a : Z) : multiboot_mmap :=
  {| mm_size := rd a; addr_low := rd (a + 4); addr_high := rd (a + 8);
     len_low := rd (a + 12); len_high := rd (a + 16); mm_type := rd (a + 20) |}.

(** Body of the region loop: free page [addr / PAGE_SIZE + i] if it is tracked. *)
Definition free_region_page (e : multiboot_mmap) (i : Z) (st : pmm_state) : pmm_state :=
  let page := u32 (addr_low e / PAGE_SIZE + i) in
  if page <? MAX_PAGES then inc_total (inc_free (bitmap_clear page st)) else st.

Definition add_region (e : multiboot_mmap) (st : pmm_state) : pmm_state :=
  if (mm_type e =? 1) && (addr_high e =? 0)
  then for_loop (Z.to_nat (len_low e / PAGE_SIZE)) 0 (free_region_page e) st
  else st.

(** [while (mmap < end)]; [None] is a walk that does not finish in [fuel] steps. *)
Fixpoint mmap_loop (fuel : nat) (rd : Z -> Z) (mmap end_ : Z) (st : pmm_state)
  : option pmm_state :=
  match fuel with
  | O => None
  | S k =>
    if mmap <? end_ then
      let e := read_mmap rd mmap in
      mmap_loop k rd (u32 (mmap + mm_size e + 4)) end_ (add_region e st)
    else Some st
  end.

(** Re-mark one kernel page as used, keeping the counter in step. *)
Definition reserve_page (page : Z) (st : pmm_state) : pmm_state :=
  if bitmap_test page st =? 0 then dec_free (bitmap_set page st) else st.

(** [pmm_init]. Every iteration of the walk moves the cursor by at least the
    four bytes of the [size] field, so [mmap_length / 4 + 1] steps are enough
    unless the cursor wraps. *)
Definition pmm_init (rd : Z -> Z) (mbi : Z) (st : pmm_state) : option pmm_state :=
  let st := with_bitmap (fun _ => 255) st in
  let mmap_length := rd (mbi + 44) in
  let mmap_addr := rd (mbi + 48) in
  match mmap_loop (S (Z.to_nat (mmap_length / 4 + 1))) rd mmap_addr
                  (u32 (mmap_addr + mmap_length)) st with
  | None => None
  | Some st =>
    let st := bitmap_set 0 st in
    Some (for_loop (Z.to_nat 512) 512 reserve_page st)
  end.

(** ** Allocation *)

(** [for (j = 0; j < n; j++) if (bitmap_test(i + j)) { ok = 0; break; }] *)
Definition run_free (st : pmm_state) (n i : Z) : bool :=
  match find_from (fun p => negb (bitmap_test p st =? 0)) i (Z.to_nat n) with
  | Some _ => false
  | None => true
  end.

Definition pmm_alloc_contiguous (n : Z) (st : pmm_state) : Z * pmm_state :=
  match find_from (run_free st n) 0 (Z.to_nat (IDENTITY_MAPPED_PAGES - n + 1)) with
  | Some i =>
    (i * PAGE_SIZE,
     for_loop (Z.to_nat n) i (fun p st => dec_free (bitmap_set p st)) st)
  | None => (0, st)
  end.

Definition page_clear (st : pmm_state) (i : Z) : bool := bitmap_test i st =? 0.

Definition take_page (i : Z) (st : pmm_state) : Z * pmm_state :=
  (u32 (i * PAGE_SIZE), dec_free (bitmap_set i st)).

Definition pmm_alloc_page (st : pmm_state) : Z * pmm_state :=
  match find_from (page_clear st) IDENTITY_MAPPED_PAGES
                  (Z.to_nat (MAX_PAGES - IDENTITY_MAPPED_PAGES)) with
  | Some i => take_page i st
  | None =>
    match find_from (page_clear st) 0 (Z.to_nat IDENTITY_MAPPED_PAGES) with
    | Some i => take_page i st
    | None => (0, st)
    end
  end.

Definition pmm_free_page (addr : Z) (st : pmm_state) : pmm_state :=
  let page := addr / PAGE_SIZE in
  if MAX_PAGES <=? page then st
  else if bitmap_test page st =? 0 then st
  else inc_free (bitmap_clear page st).

Definition pmm_free_pages (st : pmm_state) : Z := free_pages st.
Definition pmm_total_pages (st : pmm_state) : Z := total_pages st.

(** ** Specification: which pages are in use *)

Definition used (st : pmm_state) (p : Z) : bool :=
  Z.testbit (bitmap st (p / 8)) (p mod 8).

Lemma land_bit_zero x k : 0 <= k ->
  (Z.land x (Z.shiftl 1 k) =? 0) = negb (Z.testbit x k).
Proof.
  intros Hk. destruct (Z.testbit x k) eqn:E; simpl.
  - apply Z.eqb_neq. intros H0.
    assert (Z.testbit (Z.land x (Z.shiftl 1 k)) k = true) as Hb.
    { rewrite Z.land_spec, E, Z.shiftl_spec by lia.
      by replace (k - k) with 0 by lia. }
    by rewrite H0, Z.bits_0 in Hb.
  - apply Z.eqb_eq, Z.bits_inj'. intros n Hn.
    rewrite Z.land_spec, Z.bits_0, Z.shiftl_spec by lia.
    destruct (decide (n = k)) as [->|].
    + by rewrite E.
    + destruct (Z.testbit 1 (n - k)) eqn:E1; [|by rewrite andb_false_r].
      apply (f_equal negb) in E1. exfalso. revert E1.
      destruct (decide (n < k)).
      * by rewrite Z.testbit_neg_r by lia.
      * rewrite Z.bits_above_log2; simpl; lia || done.
Qed.

Lemma bitmap_test_used p st : (bitmap_test p st =? 0) = negb (used st p).
Proof. unfold bitmap_test, used. apply land_bit_zero. zmod. Qed.

Lemma page_clear_used st p : page_clear st p = negb (used st p).
Proof. apply bitmap_test_used. Qed.

Lemma testbit_u8 x k : 0 <= k < 8 -> Z.testbit (u8 x) k = Z.testbit x k.
Proof. intros. unfold u8. change 256 with (2 ^ 8). apply Z.mod_pow2_bits_low. lia. Qed.

Lemma testbit_one_shift k n : 0 <= k -> 0 <= n ->
  Z.testbit (Z.shiftl 1 k) n = (n =? k).
Proof.
  intros. rewrite Z.shiftl_spec by lia.
  destruct (Z.eqb_spec n k) as [->|].
  - by replace (k - k) with 0 by lia.
  - destruct (decide (n < k)).
    + by rewrite Z.testbit_neg_r by lia.
    + rewrite Z.bits_above_log2; simpl; lia || done.
Qed.

Lemma page_index_inj p q : p / 8 = q / 8 -> p mod 8 = q mod 8 -> p = q.
Proof. intros. zmod. Qed.

Lemma bit_index_eq p q : p / 8 = q / 8 -> (p mod 8 =? q mod 8) = (p =? q).
Proof.
  intros Hd. destruct (Z.eqb_spec p q) as [->|Hne]; [by rewrite Z.eqb_refl|].
  apply Z.eqb_neq. intros Hm. by apply Hne, page_index_inj.
Qed.

Lemma used_set p q st : used (bitmap_set p st) q = (q =? p) || used st q.
Proof.
  unfold used, bitmap_set, with_bitmap; simpl.
  pose proof (Z.mod_pos_bound q 8). pose proof (Z.mod_pos_bound p 8).
  destruct (decide (q / 8 = p / 8)) as [Hd|Hd].
  - rewrite Hd, upd_same, testbit_u8, Z.lor_spec, testbit_one_shift by lia.
    rewrite (bit_index_eq q p) by done. by rewrite orb_comm.
  - rewrite upd_other by done. destruct (Z.eqb_spec q p) as [->|]; done.
Qed.

Lemma used_clear p q st : used (bitmap_clear p st) q = negb (q =? p) && used st q.
Proof.
  unfold used, bitmap_clear, with_bitmap; simpl.
  pose proof (Z.mod_pos_bound q 8). pose proof (Z.mod_pos_bound p 8).
  destruct (decide (q / 8 = p / 8)) as [Hd|Hd].
  - rewrite Hd, upd_same, testbit_u8, Z.land_spec, Z.lnot_spec, testbit_one_shift by lia.
    rewrite (bit_index_eq q p) by done. by rewrite andb_comm.
  - rewrite upd_other by done. destruct (Z.eqb_spec q p) as [->|]; done.
Qed.

Lemma used_dec_free st p : used (dec_free st) p = used st p.
Proof. done. Qed.
Lemma used_inc_free st p : used (inc_free st) p = used st p.
Proof. done. Qed.
Lemma used_inc_total st p : used (inc_total st) p = used st p.
Proof. done. Qed.

Create Rewrite HintDb pmm.
#[export] Hint Rewrite used_set used_clear used_dec_free used_inc_free used_inc_total
  bitmap_test_used page_clear_used : pmm.

(** ** Loops that set or clear a run of pages *)

Lemma set_run_used n i st q :
  used (for_loop n i (fun p st => dec_free (bitmap_set p st)) st) q
  = ((i <=? q) && (q <? i + Z.of_nat n)) || used st q.
Proof.
  revert i st. induction n as [|n IH]; intros i st; cbn [for_loop].
  - zspec; simpl; lia || done.
  - rewrite IH. autorewrite with pmm. zspec; simpl; lia || done.
Qed.

Lemma run_free_spec st n i : 0 <= n ->
  run_free st n i = true <-> forall p, i <= p < i + n -> used st p = false.
Proof.
  intros Hn. unfold run_free. destruct (find_from _ i (Z.to_nat n)) as [k|] eqn:E.
  - apply find_from_Some in E as (Hk & Ht & _). rewrite bitmap_test_used, negb_involutive in Ht.
    split; [done|]. intros H. by rewrite H in Ht by lia.
  - split; [|done]. intros _ p Hp. pose proof (find_from_None _ _ _ E p) as Hf. cbv beta in Hf.
    rewrite bitmap_test_used, negb_involutive in Hf. apply Hf. lia.
Qed.

(** ** Page accounting *)

Definition free_set (st : pmm_state) : list Z :=
  filter (fun p => used st p = false) (seqZ 0 MAX_PAGES).

(** The number of tracked pages whose bit is clear. *)
Definition count_free (st : pmm_state) : Z := Z.of_nat (length (free_set st)).

(** The counter is [d] above the number of clear bits, with [d] 0 or 1. *)
Definition accounted (d : Z) (st : pmm_state) : Prop := 0 <= d <= 1 /\ free_pages st = count_free st + d.

Lemma filter_flip (P Q : Z -> Prop) `{!forall x, Decision (P x), !forall x, Decision (Q x)} (l : list Z) p :
  NoDup l -> p ∈ l -> P p -> ~ Q p -> (forall x, x <> p -> P x <-> Q x) ->
  length (filter P l) = S (length (filter Q l)).
Proof.
  intros Hnd Hin HP HQ Hx. induction l as [|a l IH]; [by apply not_elem_of_nil in Hin|].
  apply NoDup_cons in Hnd as [Ha Hnd]. rewrite !filter_cons.
  destruct (decide (a = p)) as [->|Hne].
  - rewrite decide_True, decide_False by done. simpl. f_equal. f_equal.
    clear -Ha Hx. induction l as [|b l IHl]; [done|]. apply not_elem_of_cons in Ha as [Hb Hl].
    rewrite !filter_cons. destruct (decide (P b)), (decide (Q b)); rewrite IHl; done || naive_solver.
  - apply elem_of_cons in Hin as [?|Hin]; [congruence|].
    destruct (decide (P a)), (decide (Q a)); simpl; rewrite IH; done || naive_solver.
Qed.

Lemma count_free_flip st st' p :
  0 <= p < MAX_PAGES -> used st p = false -> used st' p = true ->
  (forall q, q <> p -> used st' q = used st q) ->
  count_free st = count_free st' + 1.
Proof.
  intros Hp H0 H1 Hq. unfold count_free, free_set.
  rewrite (filter_flip (fun p => used st p = false) (fun p => used st' p = false) _ p).
  - lia.
  - apply NoDup_seqZ.
  - apply elem_of_seqZ. lia.
  - done.
  - by rewrite H1.
  - intros x Hx. by rewrite Hq.
Qed.

Lemma filter_same (P Q : Z -> Prop) `{!forall x, Decision (P x), !forall x, Decision (Q x)} (l : list Z) :
  (forall x, P x <-> Q x) -> filter P l = filter Q l.
Proof.
  intros Hpq. induction l as [|a l IH]; [done|]. rewrite !filter_cons, IH.
  destruct (decide (P a)), (decide (Q a)); naive_solver.
Qed.

Lemma count_free_ext st st' :
  (forall q, used st' q = used st q) -> count_free st' = count_free st.
Proof.
  intros H. unfold count_free, free_set. do 2 f_equal. apply filter_same.
  intros x. by rewrite H.
Qed.

Lemma filter_none (P : Z -> Prop) `{!forall x, Decision (P x)} (l : list Z) :
  (forall x, ~ P x) -> filter P l = [].
Proof.
  intros Hp. induction l as [|a l IH]; [done|]. by rewrite filter_cons, decide_False.
Qed.

Lemma count_free_none st : (forall q, used st q = true) -> count_free st = 0.
Proof.
  intros H. unfold count_free, free_set. rewrite filter_none; [done|].
  intros x. by rewrite H.
Qed.

Lemma count_free_bounds st : 0 <= count_free st <= MAX_PAGES.
Proof.
  unfold count_free, free_set. split; [lia|].
  etrans; [apply inj_le, length_filter|]. rewrite length_seqZ. unfold MAX_PAGES. lia.
Qed.

Lemma accounted_take d st p :
  accounted d st -> 0 <= p < MAX_PAGES -> used st p = false ->
  accounted d (dec_free (bitmap_set p st)).
Proof.
  unfold accounted. intros [Hd Ha] Hp Hu. split; [done|]. simpl.
  rewrite (count_free_flip st (dec_free (bitmap_set p st)) p) in Ha; [|done|done| |].
  - rewrite Ha. unfold u32. pose proof (count_free_bounds (dec_free (bitmap_set p st))).
    unfold MAX_PAGES in *. rewrite Z.mod_small; lia.
  - autorewrite with pmm. by rewrite Z.eqb_refl.
  - intros q Hq. autorewrite with pmm. by destruct (Z.eqb_spec q p).
Qed.

(** ** Allocation of one page *)

(** What a successful single-page allocation does. *)
Definition page_taken (st : pmm_state) (p : Z) (st' : pmm_state) : Prop :=
  0 <= p < MAX_PAGES /\ used st p = false /\ used st' p = true
  /\ (forall q, q <> p -> used st' q = used st q)
  /\ free_pages st' = u32 (free_pages st - 1) /\ total_pages st' = total_pages st.

Lemma take_page_taken st p :
  0 <= p < MAX_PAGES -> used st p = false ->
  page_taken st p (dec_free (bitmap_set p st)).
Proof.
  intros Hp Hu. repeat split; try done || lia.
  - autorewrite with pmm. by rewrite Z.eqb_refl.
  - intros q Hq. autorewrite with pmm. by destruct (Z.eqb_spec q p).
Qed.

Lemma pmm_alloc_page_cases st :
  (exists p, pmm_alloc_page st = (p * PAGE_SIZE, dec_free (bitmap_set p st))
     /\ 0 <= p < MAX_PAGES /\ used st p = false
     /\ (IDENTITY_MAPPED_PAGES <= p
         \/ forall q, IDENTITY_MAPPED_PAGES <= q < MAX_PAGES -> used st q = true))
  \/ (pmm_alloc_page st = (0, st) /\ forall q, 0 <= q < MAX_PAGES -> used st q = true).
Proof.
  unfold pmm_alloc_page, take_page, IDENTITY_MAPPED_PAGES, MAX_PAGES, PAGE_SIZE.
  destruct (find_from _ 1024 _) as [i|] eqn:E1.
  - apply find_from_Some in E1 as (Hi & Ht & _). rewrite page_clear_used in Ht. zbool.
    left. exists i. rewrite u32_small by (unfold is_u32; lia).
    repeat split; [lia|lia|done|left; lia].
  - pose proof (find_from_None _ _ _ E1) as Hhi.
    assert (forall q, 1024 <= q < 1048576 -> used st q = true) as Hhi'.
    { intros q Hq. specialize (Hhi q ltac:(lia)). rewrite page_clear_used in Hhi. by zbool. }
    destruct (find_from _ 0 _) as [i|] eqn:E2.
    + apply find_from_Some in E2 as (Hi & Ht & _). rewrite page_clear_used in Ht. zbool.
      left. exists i. rewrite u32_small by (unfold is_u32; lia).
      repeat split; [lia|lia|done|by right].
    + right. split; [done|]. intros q Hq. destruct (decide (1024 <= q)); [apply Hhi'; lia|].
      pose proof (find_from_None _ _ _ E2 q ltac:(lia)) as Hlo.
      rewrite page_clear_used in Hlo. by zbool.
Qed.

Lemma accounted_release d st p :
  accounted d st -> 0 <= p < MAX_PAGES -> used st p = true ->
  accounted d (inc_free (bitmap_clear p st)).
Proof.
  unfold accounted. intros [Hd Ha] Hp Hu. split; [done|]. simpl.
  rewrite (count_free_flip (inc_free (bitmap_clear p st)) st p); [|done| |done|].
  - rewrite Ha. pose proof (count_free_bounds st). unfold MAX_PAGES in *.
    rewrite u32_small by (unfold is_u32; lia). lia.
  - autorewrite with pmm. by rewrite Z.eqb_refl.
  - intros q Hq. autorewrite with pmm. by destruct (Z.eqb_spec q p).
Qed.

Lemma accounted_take_run d n i st :
  accounted d st -> 0 <= i -> i + Z.of_nat n <= MAX_PAGES ->
  (forall p, i <= p < i + Z.of_nat n -> used st p = false) ->
  accounted d (for_loop n i (fun p st => dec_free (bitmap_set p st)) st).
Proof.
  revert i st. induction n as [|n IH]; intros i st Ha Hi Hn Hf; [done|].
  cbn [for_loop]. apply IH; [|lia|lia|].
  - apply accounted_take; [done|lia|apply Hf; lia].
  - intros p Hp. autorewrite with pmm. rewrite Hf by lia. zspec; lia || done.
Qed.

Lemma accounted_inc_total d st : accounted d st -> accounted d (inc_total st).
Proof. unfold accounted. intros [Hd H]. split; [done|]. simpl. by rewrite (count_free_ext st (inc_total st)). Qed.

Global Opaque count_free.

(** ** The memory-map walk *)

(** [mmap_at rd a es b]: the words at [a .. b) hold exactly the entries [es]. *)
Inductive mmap_at (rd : Z -> Z) : Z -> list multiboot_mmap -> Z -> Prop :=
| mmap_at_nil a : mmap_at rd a [] a
| mmap_at_cons a es b :
    is_u32 (a + mm_size (read_mmap rd a) + 4) ->
    0 <= mm_size (read_mmap rd a) ->
    mmap_at rd (a + mm_size (read_mmap rd a) + 4) es b ->
    mmap_at rd a (read_mmap rd a :: es) b.

Lemma mmap_at_le rd a es b : mmap_at rd a es b -> a + 4 * Z.of_nat (length es) <= b.
Proof. induction 1; simpl length; lia. Qed.

Lemma mmap_loop_entries rd a es b st fuel :
  mmap_at rd a es b -> (length es < fuel)%nat ->
  mmap_loop fuel rd a b st = Some (foldl (fun st e => add_region e st) st es).
Proof.
  intros H. revert st fuel. induction H as [a|a es b Hu Hs H IH]; intros st fuel Hf.
  - destruct fuel; [simpl in Hf; lia|]. simpl. by rewrite Z.ltb_irrefl.
  - destruct fuel; [simpl in Hf; lia|]. simpl in Hf. cbn [mmap_loop].
    pose proof (mmap_at_le _ _ _ _ H). destruct (Z.ltb_spec a b); [|lia].
    rewrite u32_small by done. cbn [foldl]. apply IH. lia.
Qed.

(** The pages an entry makes available. *)
Definition covers (e : multiboot_mmap) (q : Z) : bool :=
  (mm_type e =? 1) && (addr_high e =? 0)
  && (addr_low e / PAGE_SIZE <=? q) && (q <? addr_low e / PAGE_SIZE + len_low e / PAGE_SIZE)
  && (q <? MAX_PAGES).

Definition entry_ok (e : multiboot_mmap) : Prop := is_u32 (addr_low e) /\ is_u32 (len_low e).

Lemma page_word e i :
  entry_ok e -> 0 <= i < len_low e / PAGE_SIZE ->
  u32 (addr_low e / PAGE_SIZE + i) = addr_low e / PAGE_SIZE + i.
Proof.
  unfold entry_ok, is_u32, PAGE_SIZE. intros [? ?] ?. apply u32_small. unfold is_u32. zmod.
Qed.

Lemma used_free_region_page e i st q :
  entry_ok e -> 0 <= i < len_low e / PAGE_SIZE ->
  used (free_region_page e i st) q
  = negb ((q =? addr_low e / PAGE_SIZE + i) && (q <? MAX_PAGES)) && used st q.
Proof.
  intros He Hi. unfold free_region_page. rewrite page_word by done.
  destruct (Z.ltb_spec (addr_low e / PAGE_SIZE + i) MAX_PAGES); autorewrite with pmm;
    zspec; simpl; try done; lia.
Qed.

Lemma add_region_used e st q :
  entry_ok e -> used (add_region e st) q = negb (covers e q) && used st q.
Proof.
  intros He. unfold add_region, covers.
  destruct ((mm_type e =? 1) && (addr_high e =? 0)); simpl; [|done].
  set (n := len_low e / PAGE_SIZE) in *. set (b := addr_low e / PAGE_SIZE) in *.
  assert (0 <= n) as Hn. { subst n. destruct He as [_ He]. unfold is_u32, PAGE_SIZE in *. zmod. }
  pose proof (for_loop_ind
    (fun i t => used t q = negb ((b <=? q) && (q <? b + i) && (q <? MAX_PAGES)) && used st q)
    (Z.to_nat n) 0 (free_region_page e) st) as Hl.
  replace (0 + Z.of_nat (Z.to_nat n)) with n in Hl by lia. apply Hl.
  - zspec; simpl; lia || done.
  - intros i t Hi Ht. rewrite used_free_region_page, Ht by (done || lia). fold b.
    zspec; simpl; lia || done.
Qed.

Lemma add_region_accounted d e st :
  entry_ok e -> accounted d st -> (forall q, covers e q = true -> used st q = true) ->
  accounted d (add_region e st).
Proof.
  intros He Ha Hu. unfold add_region. destruct (_ && _) eqn:Hty; [|done].
  set (n := len_low e / PAGE_SIZE) in *. set (b := addr_low e / PAGE_SIZE) in *.
  assert (0 <= n /\ 0 <= b) as [Hn Hb].
  { subst n b. destruct He as [? ?]. unfold is_u32, PAGE_SIZE in *. split; zmod. }
  assert (accounted d (for_loop (Z.to_nat n) 0 (free_region_page e) st)
    /\ forall q, b + n <= q -> covers e q = true ->
         used (for_loop (Z.to_nat n) 0 (free_region_page e) st) q = true) as [H _]; [|exact H].
  pose proof (for_loop_ind
    (fun i t => accounted d t /\ forall q, b + i <= q -> covers e q = true -> used t q = true)
    (Z.to_nat n) 0 (free_region_page e) st) as Hl.
  replace (0 + Z.of_nat (Z.to_nat n)) with n in Hl by lia. apply Hl.
  - split; [done|]. intros q _. apply Hu.
  - intros i t Hi [Hat Hut]. split.
    + unfold free_region_page. rewrite page_word by (done || lia). fold b.
      destruct (Z.ltb_spec (b + i) MAX_PAGES); [|done].
      apply accounted_inc_total, (accounted_release d t (b + i)); [done|lia|].
      apply Hut; [lia|]. unfold covers. rewrite Hty. fold b n. zspec; simpl; lia || done.
    + intros q Hq Hc. rewrite used_free_region_page by (done || lia). fold b.
      rewrite Hut by (lia || done). zspec; simpl; lia || done.
Qed.

Lemma regions_used es st q :
  Forall entry_ok es ->
  used (foldl (fun st e => add_region e st) st es) q
  = negb (existsb (fun e => covers e q) es) && used st q.
Proof.
  intros H. revert st. induction H as [|e es He H IH]; intros st; simpl; [done|].
  rewrite IH, add_region_used by done.
  destruct (covers e q), (existsb (fun e => covers e q) es); simpl; done.
Qed.

(** No page is listed by two usable entries. *)
Definition regions_disjoint (es : list multiboot_mmap) : Prop :=
  forall q i j e f, es !! i = Some e -> es !! j = Some f -> i <> j ->
    covers e q = true -> covers f q = false.

Lemma regions_disjoint_cons e es :
  regions_disjoint (e :: es) ->
  regions_disjoint es /\ forall q, covers e q = true -> existsb (fun f => covers f q) es = false.
Proof.
  intros H. split.
  - intros q i j a b Hi Hj Hij. apply (H q (S i) (S j)); [done..|congruence].
  - intros q Hq. apply not_true_is_false. intros Hex.
    apply existsb_exists in Hex as (f & Hin & Hf).
    apply list_elem_of_In, list_elem_of_lookup in Hin as (i & Hi).
    rewrite (H q 0%nat (S i) e f) in Hf; done || congruence.
Qed.

Lemma regions_accounted d es st :
  Forall entry_ok es -> regions_disjoint es -> accounted d st ->
  (forall q, existsb (fun e => covers e q) es = true -> used st q = true) ->
  accounted d (foldl (fun st e => add_region e st) st es).
Proof.
  intros H. revert st. induction H as [|e es He H IH]; intros st Hd Ha Hu; simpl; [done|].
  apply regions_disjoint_cons in Hd as [Hd He']. apply IH; [done| |].
  - apply add_region_accounted; [done|done|]. intros q Hq. apply Hu. simpl. by rewrite Hq.
  - intros q Hq. rewrite add_region_used by done. destruct (covers e q) eqn:Hc.
    + by rewrite He' in Hq.
    + simpl. apply Hu. simpl. by rewrite Hq, orb_true_r.
Qed.

(** ** The kernel reservation at the end of [pmm_init] *)

Lemma reserve_loop_used n i st q :
  used (for_loop n i reserve_page st) q
  = ((i <=? q) && (q <? i + Z.of_nat n)) || used st q.
Proof.
  revert i st. induction n as [|n IH]; intros i st; cbn [for_loop].
  - zspec; simpl; lia || done.
  - rewrite IH. unfold reserve_page. rewrite bitmap_test_used.
    destruct (used st i) eqn:Hu; simpl; autorewrite with pmm.
    + destruct (decide (q = i)) as [->|]; [rewrite Hu; by rewrite !orb_true_r|].
      zspec; simpl; lia || done.
    + zspec; simpl; lia || done.
Qed.

(** Reserving keeps the difference between counter and bitmap. *)
Lemma reserve_loop_balance n i st d :
  0 <= d <= 1 -> 0 <= i -> i + Z.of_nat n <= MAX_PAGES ->
  free_pages st = count_free st + d ->
  free_pages (for_loop n i reserve_page st) = count_free (for_loop n i reserve_page st) + d.
Proof.
  intros Hd. revert i st. induction n as [|n IH]; intros i st Hi Hn H; [done|].
  cbn [for_loop]. apply IH; [lia|lia|]. unfold reserve_page. rewrite bitmap_test_used.
  destruct (used st i) eqn:Hu; simpl; [done|].
  set (st' := dec_free (bitmap_set i st)).
  assert (count_free st = count_free st' + 1) as Hc.
  { apply (count_free_flip st st' i); [lia|done| |].
    - unfold st'. autorewrite with pmm. by rewrite Z.eqb_refl.
    - intros q Hq. unfold st'. autorewrite with pmm. zspec; simpl; congruence || done. }
  change (free_pages st') with (u32 (free_pages st - 1)).
  rewrite H, Hc. pose proof (count_free_bounds st').
  unfold MAX_PAGES in *. rewrite u32_small; unfold is_u32; lia.
Qed.

Lemma pmm_init_unfold rd mbi es b st :
  is_u32 (rd (mbi + 48) + rd (mbi + 44)) -> b = rd (mbi + 48) + rd (mbi + 44) ->
  mmap_at rd (rd (mbi + 48)) es b ->
  pmm_init rd mbi st
  = Some (for_loop 512 512 reserve_page
           (bitmap_set 0 (foldl (fun st e => add_region e st) (with_bitmap (fun _ => 255) st) es))).
Proof.
  intros Hb -> Hm. unfold pmm_init. rewrite (u32_small _ Hb).
  pose proof (mmap_at_le _ _ _ _ Hm).
  rewrite (mmap_loop_entries _ _ _ _ _ _ Hm); [done|].
  apply Nat.lt_succ_r, Nat2Z.inj_le. assert (Z.of_nat (length es) <= rd (mbi + 44) / 4 + 1) by zmod. lia.
Qed.

Lemma used_all_ones st q : used (with_bitmap (fun _ => 255) st) q = true.
Proof.
  unfold used; simpl. pose proof (Z.mod_pos_bound q 8).
  assert (exists k, q mod 8 = k /\ 0 <= k < 8) as (k & -> & Hk) by (eexists; split; [done|lia]).
  assert (k = 0 \/ k = 1 \/ k = 2 \/ k = 3 \/ k = 4 \/ k = 5 \/ k = 6 \/ k = 7) as Hc by lia.
  by repeat destruct Hc as [->|Hc]; subst.
Qed.

(** Everything is free that no bit marks, so an all-ones bitmap has none. *)
Lemma accounted_all_ones st :
  free_pages st = 0 -> accounted 0 (with_bitmap (fun _ => 255) st).
Proof.
  intros H. unfold accounted. rewrite count_free_none by apply used_all_ones. simpl. lia.
Qed.

(** ** Properties *)

(** A state in which page 0 is withheld and the counter is [d] above the number of free
    pages: right, or one too high, as [pmm_init] may leave it ([pmm_init_counter]). *)
Definition pmm_ok (d : Z) (st : pmm_state) : Prop := used st 0 = true /\ accounted d st.

Lemma pmm_alloc_contiguous_cases d n st :
  0 < n -> pmm_ok d st ->
  (exists i, pmm_alloc_contiguous n st = (i * PAGE_SIZE, snd (pmm_alloc_contiguous n st))
     /\ 0 < i /\ i + n <= IDENTITY_MAPPED_PAGES
     /\ (forall p, i <= p < i + n -> used st p = false)
     /\ (forall k, 0 <= k < i -> exists p, k <= p < k + n /\ used st p = true)
     /\ (forall q, used (snd (pmm_alloc_contiguous n st)) q
                   = ((i <=? q) && (q <? i + n)) || used st q)
     /\ pmm_ok d (snd (pmm_alloc_contiguous n st)))
  \/ (pmm_alloc_contiguous n st = (0, st)
      /\ forall i, 0 <= i -> i + n <= IDENTITY_MAPPED_PAGES ->
           exists p, i <= p < i + n /\ used st p = true).
Proof.
  intros Hn [H0 Ha].
  assert (forall i, run_free st n i = false -> exists p, i <= p < i + n /\ used st p = true) as Hno.
  { intros i. unfold run_free. destruct (find_from _ i (Z.to_nat n)) as [p|] eqn:E; [|done].
    intros _. apply find_from_Some in E as (Hp & Ht & _). exists p.
    rewrite bitmap_test_used, negb_involutive in Ht. split; [lia|done]. }
  unfold pmm_alloc_contiguous.
  destruct (find_from _ 0 _) as [i|] eqn:E; [left|right].
  - apply find_from_Some in E as (Hi & Hr & Hmin).
    rewrite run_free_spec in Hr by lia.
    assert (i <> 0). { intros ->. by rewrite Hr in H0 by lia. }
    exists i. unfold IDENTITY_MAPPED_PAGES in *. simpl. split_and!; try lia; try done; [..|split].
    + intros k Hk. apply Hno, Hmin. lia.
    + intros q. rewrite set_run_used. by rewrite Z2Nat.id by lia.
    + rewrite set_run_used. by rewrite H0, orb_true_r.
    + apply accounted_take_run; [done|lia| |]; rewrite Z2Nat.id by lia; [unfold MAX_PAGES; lia|done].
  - split; [done|]. intros i Hi Hin. apply Hno, (find_from_None _ _ _ E). lia.
Qed.

(** C37: [pmm_alloc_page] hands out a page that was free, marks exactly that page,
    keeps the difference between the free-page counter and the number of clear bits (0 or
    1), prefers pages above the identity-mapped 4 MB, never returns the null address for a page, and
    returns 0 (leaving the state alone) only when every tracked page is in use. *)
Theorem pmm_alloc_page_correct d st :
  pmm_ok d st ->
  (exists p, pmm_alloc_page st = (p * PAGE_SIZE, snd (pmm_alloc_page st)) /\ p * PAGE_SIZE <> 0
     /\ page_taken st p (snd (pmm_alloc_page st)) /\ pmm_ok d (snd (pmm_alloc_page st))
     /\ (IDENTITY_MAPPED_PAGES <= p
         \/ forall q, IDENTITY_MAPPED_PAGES <= q < MAX_PAGES -> used st q = true))
  \/ (pmm_alloc_page st = (0, st) /\ forall q, 0 <= q < MAX_PAGES -> used st q = true).
Proof.
  intros [H0 Ha]. destruct (pmm_alloc_page_cases st) as [(p & -> & Hp & Hu & Hh)|H]; [left|by right].
  exists p. assert (p <> 0) by congruence. split; [done|]. split; [unfold PAGE_SIZE; lia|]. split; [|split; [split|done]]; simpl.
  - by apply take_page_taken.
  - autorewrite with pmm. by rewrite H0, orb_true_r.
  - by apply accounted_take.
Qed.

(** A machine with a single usable 16 MB region above page 0, as a state. *)
Definition demo_state : pmm_state :=
  mk_pmm (fun i => if (i =? 128) then 254 else 255) 1 1.

Lemma demo_used q : used demo_state q = negb (q =? 1024).
Proof.
  unfold used, demo_state; simpl. destruct (Z.eqb_spec (q / 8) 128) as [Hd|Hd].
  - assert (exists k, q = 1024 + k /\ 0 <= k < 8) as (k & -> & Hk) by (exists (q mod 8); zmod).
    assert (k = 0 \/ k = 1 \/ k = 2 \/ k = 3 \/ k = 4 \/ k = 5 \/ k = 6 \/ k = 7) as Hc by lia.
    by repeat destruct Hc as [->|Hc]; subst.
  - transitivity true; [apply (used_all_ones demo_state)|].
    destruct (Z.eqb_spec q 1024) as [->|]; [|done]. by contradiction Hd.
Qed.

Lemma demo_ok : pmm_ok 0 demo_state.
Proof.
  split; [by rewrite demo_used|]. unfold accounted. split; [lia|].
  rewrite (count_free_flip demo_state (with_bitmap (fun _ => 255) demo_state) 1024).
  - by rewrite count_free_none by apply used_all_ones.
  - unfold MAX_PAGES. lia.
  - by rewrite demo_used.
  - apply used_all_ones.
  - intros q Hq. rewrite demo_used, used_all_ones. by destruct (Z.eqb_spec q 1024).
Qed.

Lemma pmm_alloc_page_correct_witness :
  pmm_ok 0 demo_state /\ fst (pmm_alloc_page demo_state) = 1024 * PAGE_SIZE
  /\ ((exists p, pmm_alloc_page demo_state = (p * PAGE_SIZE, snd (pmm_alloc_page demo_state))
         /\ p * PAGE_SIZE <> 0
         /\ page_taken demo_state p (snd (pmm_alloc_page demo_state))
         /\ pmm_ok 0 (snd (pmm_alloc_page demo_state))
         /\ (IDENTITY_MAPPED_PAGES <= p
             \/ forall q, IDENTITY_MAPPED_PAGES <= q < MAX_PAGES -> used demo_state q = true))
      \/ (pmm_alloc_page demo_state = (0, demo_state)
          /\ forall q, 0 <= q < MAX_PAGES -> used demo_state q = true)).
Proof.
  split; [exact demo_ok|]. split; [vm_compute; reflexivity|].
  exact (pmm_alloc_page_correct 0 demo_state demo_ok).
Defined.

(** [pmm_alloc_contiguous n] returns the lowest run of [n] free pages inside the
    identity-mapped region, marks exactly that run, keeps the counter in step, and
    returns 0 without a change only if no such run exists. *)
Theorem pmm_alloc_contiguous_correct d n st :
  0 < n -> pmm_ok d st ->
  (exists i, pmm_alloc_contiguous n st = (i * PAGE_SIZE, snd (pmm_alloc_contiguous n st))
     /\ 0 < i /\ i + n <= IDENTITY_MAPPED_PAGES
     /\ (forall p, i <= p < i + n -> used st p = false)
     /\ (forall k, 0 <= k < i -> exists p, k <= p < k + n /\ used st p = true)
     /\ (forall q, used (snd (pmm_alloc_contiguous n st)) q
                   = ((i <=? q) && (q <? i + n)) || used st q)
     /\ pmm_ok d (snd (pmm_alloc_contiguous n st)))
  \/ (pmm_alloc_contiguous n st = (0, st)
      /\ forall i, 0 <= i -> i + n <= IDENTITY_MAPPED_PAGES ->
           exists p, i <= p < i + n /\ used st p = true).
Proof. apply pmm_alloc_contiguous_cases. Qed.

Lemma demo_contiguous_ok :
  pmm_ok 0 (pmm_free_page (3 * PAGE_SIZE) (pmm_free_page (2 * PAGE_SIZE) demo_state)).
Proof.
  assert (forall p st, pmm_ok 0 st -> 0 < p < MAX_PAGES -> pmm_ok 0 (pmm_free_page (p * PAGE_SIZE) st)) as H.
  { intros p st [H0 Ha] Hp. unfold pmm_free_page, PAGE_SIZE. rewrite Z.div_mul by lia.
    destruct (Z.leb_spec MAX_PAGES p); [lia|]. rewrite bitmap_test_used.
    destruct (used st p) eqn:Hu; simpl; [|done]. split.
    - autorewrite with pmm. rewrite H0. destruct (Z.eqb_spec 0 p); [lia|done].
    - apply accounted_release; [done|lia|done]. }
  apply H; [|unfold MAX_PAGES; lia]. apply H; [exact demo_ok|unfold MAX_PAGES; lia].
Qed.

Lemma pmm_alloc_contiguous_correct_witness :
  let st := pmm_free_page (3 * PAGE_SIZE) (pmm_free_page (2 * PAGE_SIZE) demo_state) in
  fst (pmm_alloc_contiguous 2 st) = 2 * PAGE_SIZE
  /\ ((exists i, pmm_alloc_contiguous 2 st = (i * PAGE_SIZE, snd (pmm_alloc_contiguous 2 st))
     /\ 0 < i /\ i + 2 <= IDENTITY_MAPPED_PAGES
     /\ (forall p, i <= p < i + 2 -> used st p = false)
     /\ (forall k, 0 <= k < i -> exists p, k <= p < k + 2 /\ used st p = true)
     /\ (forall q, used (snd (pmm_alloc_contiguous 2 st)) q
                   = ((i <=? q) && (q <? i + 2)) || used st q)
     /\ pmm_ok 0 (snd (pmm_alloc_contiguous 2 st)))
  \/ (pmm_alloc_contiguous 2 st = (0, st)
      /\ forall i, 0 <= i -> i + 2 <= IDENTITY_MAPPED_PAGES ->
           exists p, i <= p < i + 2 /\ used st p = true)).
Proof.
  intros st. split; [vm_compute; reflexivity|].
  apply (pmm_alloc_contiguous_correct 0 2 st); [lia|exact demo_contiguous_ok].
Defined.

(** Freeing clears exactly the page that contains the address, refuses
    out-of-range addresses and double frees, keeps the counter in step, and undoes an
    allocation: the pages in use are again those before it. *)
Theorem pmm_free_page_correct d st addr :
  pmm_ok d st -> is_u32 addr -> PAGE_SIZE <= addr ->
  pmm_ok d (pmm_free_page addr st)
  /\ (forall q, used (pmm_free_page addr st) q = negb (q =? addr / PAGE_SIZE) && used st q)
  /\ pmm_free_page addr (pmm_free_page addr st) = pmm_free_page addr st
  /\ (forall p, page_taken st p (snd (pmm_alloc_page st)) -> 0 < p ->
        forall q, used (pmm_free_page (p * PAGE_SIZE) (snd (pmm_alloc_page st))) q = used st q).
Proof.
  intros [H0 Ha] Hu Hlo. unfold is_u32, PAGE_SIZE in *.
  assert (forall st a, 0 < a / 4096 < MAX_PAGES ->
    forall q, used (pmm_free_page a st) q = negb (q =? a / 4096) && used st q) as Hfree.
  { intros t a Hr q. unfold pmm_free_page, PAGE_SIZE. rewrite bitmap_test_used.
    destruct (Z.leb_spec MAX_PAGES (a / 4096)); [lia|].
    destruct (used t (a / 4096)) eqn:E; simpl; autorewrite with pmm; [done|].
    destruct (Z.eqb_spec q (a / 4096)) as [->|]; simpl; congruence. }
  assert (0 < addr / 4096 < MAX_PAGES) as Hr by (unfold MAX_PAGES; zmod).
  split; [|split; [by apply Hfree|split]].
  - unfold pmm_free_page, PAGE_SIZE. destruct (Z.leb_spec MAX_PAGES (addr / 4096)); [lia|].
    rewrite bitmap_test_used. destruct (used st (addr / 4096)) eqn:E; simpl; [|done].
    split; [|by apply accounted_release; [|lia|]].
    autorewrite with pmm. rewrite H0. destruct (Z.eqb_spec 0 (addr / 4096)); [lia|done].
  - unfold pmm_free_page at 1, PAGE_SIZE. rewrite bitmap_test_used, Hfree by done.
    rewrite Z.eqb_refl. simpl. by destruct (MAX_PAGES <=? addr / 4096).
  - intros p (Hp & Hf & Ht & Hq & _) Hp0 q. unfold PAGE_SIZE.
    rewrite Hfree by (rewrite Z.div_mul; lia). rewrite Z.div_mul by lia.
    destruct (Z.eqb_spec q p) as [->|Hne]; simpl; [congruence|by apply Hq].
Qed.

Lemma pmm_free_page_correct_witness :
  used (pmm_free_page 0x5000 demo_state) 5 = false
  /\ pmm_ok 0 (pmm_free_page 0x5000 demo_state).
Proof.
  destruct (pmm_free_page_correct 0 demo_state 0x5000 demo_ok) as (H1 & H2 & _).
  - unfold is_u32. lia.
  - unfold PAGE_SIZE. lia.
  - split; [rewrite H2; reflexivity|exact H1].
Defined.

(** Whatever memory map the boot loader describes, [pmm_init] terminates and leaves
    free exactly the pages that a usable entry covers, less page 0 and the kernel's
    2 MB-4 MB window. *)
Theorem pmm_init_pages rd mbi es st :
  is_u32 (rd (mbi + 48) + rd (mbi + 44)) ->
  mmap_at rd (rd (mbi + 48)) es (rd (mbi + 48) + rd (mbi + 44)) ->
  Forall entry_ok es ->
  exists st', pmm_init rd mbi st = Some st'
    /\ forall q, used st' q
         = negb (existsb (fun e => covers e q) es) || (q =? 0) || ((512 <=? q) && (q <? 1024)).
Proof.
  intros Hb Hm He. rewrite (pmm_init_unfold rd mbi es _ st Hb eq_refl Hm).
  eexists. split; [reflexivity|]. intros q.
  rewrite reserve_loop_used, used_set, regions_used, used_all_ones by done.
  destruct (existsb _ es); simpl; zspec; simpl; lia || done.
Qed.

(** A multiboot block with one usable region [0, 0x9F000) at 0x9000. *)
Definition demo_rd (a : Z) : Z :=
  if a =? 0x9000 + 44 then 24 else if a =? 0x9000 + 48 then 0xA000
  else if a =? 0xA000 then 20 else if a =? 0xA000 + 12 then 0x9F000
  else if a =? 0xA000 + 20 then 1 else 0.

Lemma demo_mmap : mmap_at demo_rd 0xA000 [read_mmap demo_rd 0xA000] (0xA000 + 24).
Proof.
  apply mmap_at_cons; [vm_compute; split; congruence|vm_compute; congruence|].
  apply mmap_at_nil.
Qed.

Lemma pmm_init_pages_witness :
  exists st', pmm_init demo_rd 0x9000 (mk_pmm (fun _ => 0) 0 0) = Some st'
    /\ used st' 7 = false /\ used st' 0 = true /\ used st' 600 = true.
Proof.
  destruct (pmm_init_pages demo_rd 0x9000 [read_mmap demo_rd 0xA000] (mk_pmm (fun _ => 0) 0 0))
    as (st' & Hi & Hu).
  - vm_compute. split; congruence.
  - exact demo_mmap.
  - constructor; [|constructor]. split; vm_compute; split; congruence.
  - exists st'. split; [exact Hi|]. rewrite !Hu. repeat split; vm_compute; reflexivity.
Defined.

(** After [pmm_init] on a map without overlaps, the free-page counter equals the
    number of free pages plus one exactly when the map lists page 0 as usable: the
    reservation of page 0 is not subtracted. *)
Theorem pmm_init_counter rd mbi es st :
  free_pages st = 0 ->
  is_u32 (rd (mbi + 48) + rd (mbi + 44)) ->
  mmap_at rd (rd (mbi + 48)) es (rd (mbi + 48) + rd (mbi + 44)) ->
  Forall entry_ok es -> regions_disjoint es ->
  exists st', pmm_init rd mbi st = Some st'
    /\ free_pages st' = count_free st' + (if existsb (fun e => covers e 0) es then 1 else 0).
Proof.
  intros Hf Hb Hm He Hd. rewrite (pmm_init_unfold rd mbi es _ st Hb eq_refl Hm).
  set (st1 := foldl _ _ es).
  assert (accounted 0 st1) as [_ Ha].
  { apply regions_accounted; [done|done|by apply accounted_all_ones|].
    intros q _. apply used_all_ones. }
  eexists. split; [reflexivity|]. apply reserve_loop_balance;
    [destruct (existsb _ es); lia|lia|unfold MAX_PAGES; lia|].
  assert (used st1 0 = negb (existsb (fun e => covers e 0) es)) as H0.
  { unfold st1. rewrite regions_used, used_all_ones by done. apply andb_true_r. }
  rewrite Z.add_0_r in Ha. destruct (existsb _ es); simpl in H0; simpl.
  - rewrite Ha. apply (count_free_flip _ _ 0); [unfold MAX_PAGES; lia|done| |].
    + by autorewrite with pmm.
    + intros q Hq. autorewrite with pmm. by destruct (Z.eqb_spec q 0).
  - rewrite Ha, Z.add_0_r. symmetry. apply count_free_ext. intros q.
    autorewrite with pmm. by destruct (Z.eqb_spec q 0) as [->|].
Qed.

Lemma pmm_init_counter_witness :
  exists st', pmm_init demo_rd 0x9000 (mk_pmm (fun _ => 0) 0 0) = Some st'
    /\ free_pages st' = count_free st' + 1.
Proof.
  apply (pmm_init_counter demo_rd 0x9000 [read_mmap demo_rd 0xA000] (mk_pmm (fun _ => 0) 0 0)).
  - reflexivity.
  - vm_compute. split; congruence.
  - exact demo_mmap.
  - constructor; [|constructor]. split; vm_compute; split; congruence.
  - intros q i j e f Hi Hj Hij. apply lookup_lt_Some in Hi, Hj. simpl in Hi, Hj. lia.
Defined.

(** The state [pmm_init] leaves is one the allocators work on. *)
Lemma pmm_init_ok rd mbi es st :
  free_pages st = 0 ->
  is_u32 (rd (mbi + 48) + rd (mbi + 44)) ->
  mmap_at rd (rd (mbi + 48)) es (rd (mbi + 48) + rd (mbi + 44)) ->
  Forall entry_ok es -> regions_disjoint es ->
  exists st' d, pmm_init rd mbi st = Some st' /\ pmm_ok d st'.
Proof.
  intros Hf Hb Hm He Hd. destruct (pmm_init_counter rd mbi es st Hf Hb Hm He Hd) as (st' & E & Hc).
  exists st', (if existsb (fun e => covers e 0) es then 1 else 0). split; [done|]. split; [|split; [by destruct (existsb _ es)|done]].
  rewrite (pmm_init_unfold rd mbi es _ st Hb eq_refl Hm) in E. apply (inj Some) in E. rewrite <- E.
  by rewrite reserve_loop_used, used_set, Z.eqb_refl, orb_true_r.
Qed.


End Pmm.
