(* ===== verification/Heap.v ===== *)
(** * The coalescing free-list allocator (memory/kmalloc.c, user/stdlib.c)

    Kernel [kmalloc]/[kfree] and user [malloc]/[free] are the same code over two
    sources of fresh pages: [pmm_alloc_contiguous] and [sys_sbrk].  The code is
    modelled once over the interface [BlockSource]; the kernel instance is at the
    end of the file.  The headers of the chain live in a map from addresses to
    [block_header] records, so that splitting and merging manipulate the same
    pointers as the C code. *)

From S2P Require Import Prelude Pmm.

(** What an allocator needs from its source of pages: growing by up to [bs_max] pages
    returns either 0 or the base of [n] fresh pages that nobody owned. *)
Class BlockSource (S : Type) := {
  bs_grow : Z -> S -> Z * S;
  bs_max : Z;
  bs_max_range : 1024 <= bs_max <= 1048575;
  bs_ok : S -> Prop;
  bs_owned : S -> Z -> Prop;
  bs_grow_spec : forall n s, 0 < n -> n <= bs_max -> bs_ok s ->
    let '(b, s') := bs_grow n s in
    bs_ok s' /\ (forall x, bs_owned s x -> bs_owned s' x)
    /\ (b = 0
        \/ 4096 <= b /\ b mod 4 = 0 /\ b + n * 4096 <= 4294967296
           /\ forall x, b <= x < b + n * 4096 -> ~ bs_owned s x /\ bs_owned s' x)
}.

(** What the rest of the kernel relies on of [kmalloc] and [kfree]: [kh_ok a L] says that exactly the pointers [L] are allocated.  A
    state that is [kh_rich] never runs out of memory. *)
Class KernelHeap (A : Type) := {
  kh_malloc : Z -> A -> option (Z * A);
  kh_free : Z -> A -> option A;
  kh_ok : A -> list Z -> Prop;
  kh_rich : A -> Prop;
  kh_malloc_spec : forall n a L, 0 <= n < 1048576 -> kh_ok a L ->
    exists p a', kh_malloc n a = Some (p, a')
    /\ (p = 0 /\ kh_ok a' L \/ p <> 0 /\ kh_ok a' (p :: L))
    /\ (kh_rich a -> 0 < n -> p <> 0 /\ kh_rich a');
  kh_free_spec : forall p a L, kh_ok a (p :: L) ->
    exists a', kh_free p a = Some a' /\ kh_ok a' L /\ (kh_rich a -> kh_rich a');
  kh_ok_nodup : forall a L, kh_ok a L -> NoDup L
}.

Module Heap.

Definition HEADER_SIZE : Z := 12.

Record block_header := mk_hdr { bsize : Z; bfree : Z; bnext : Z }.

(** [heap_start] and the headers in memory. *)
Record heap := mk_heap { heap_start : Z; hdrs : gmap Z block_header }.

Definition set_hdr (a : Z) (b : block_header) (h : heap) : heap :=
  mk_heap (heap_start h) (<[a := b]> (hdrs h)).

Definition kmalloc_init : heap := mk_heap 0 ∅.

(** Result of the search loop: a fitting block, or the last block of the chain. *)
Inductive walk_result :=
| WFound (current : Z)
| WEnd (previous : Z)
| WStuck.

(** [while (current)]: first free block of at least [size] bytes.  Reading through
    a pointer that is no header is [WStuck], as is a chain longer than the fuel. *)
Fixpoint find_fit (fuel : nat) (m : gmap Z block_header) (current previous size : Z)
  : walk_result :=
  match fuel with
  | O => WStuck
  | S k =>
    if current =? 0 then WEnd previous
    else match m !! current with
         | None => WStuck
         | Some b =>
           if negb (bfree b =? 0) && (size <=? bsize b) then WFound current
           else find_fit k m (bnext b) current size
         end
  end.

(** The split-and-claim branch of [kmalloc]. *)
Definition claim_block (current size : Z) (b : block_header) (h : heap) : Z * heap :=
  let h :=
    if u32 (size + HEADER_SIZE + 4) <=? bsize b then
      let split := u32 (current + HEADER_SIZE + size) in
      let h := set_hdr split (mk_hdr (u32 (bsize b - size - HEADER_SIZE)) 1 (bnext b)) h in
      set_hdr current (mk_hdr size 0 split) h
    else set_hdr current (mk_hdr (bsize b) 0 (bnext b)) h in
  (u32 (current + HEADER_SIZE), h).

(** The largest request that needs at most [bs_max] pages. *)
Definition max_request (S : Type) `{BS : BlockSource S} : Z := bs_max * 4096 - 16.

Section Allocator.
Context {S : Type} `{BS : BlockSource S}.

(** [new_block]: whole pages for [size] bytes and a header. *)
Definition new_block (size : Z) (h : heap) (s : S) : Z * heap * S :=
  let pages_needed := u32 (size + HEADER_SIZE + 4096 - 1) / 4096 in
  let '(block, s) := bs_grow pages_needed s in
  if block =? 0 then (0, h, s)
  else (block, set_hdr block (mk_hdr (u32 (pages_needed * 4096 - HEADER_SIZE)) 0 0) h, s).

(** [kmalloc]; [None] only if the chain is broken. *)
Definition kmalloc (size : Z) (h : heap) (s : S) : option (Z * heap * S) :=
  if size =? 0 then Some (0, h, s)
  else
    let size := Z.land (u32 (size + 3)) 0xFFFFFFFC in
    match find_fit (Datatypes.S (base.size (hdrs h))) (hdrs h) (heap_start h) 0 size with
    | WStuck => None
    | WFound current =>
      match hdrs h !! current with
      | None => None
      | Some b => let '(p, h) := claim_block current size b h in Some (p, h, s)
      end
    | WEnd previous =>
      let '(block, h, s) := new_block size h s in
      if block =? 0 then Some (0, h, s)
      else if heap_start h =? 0 then
        Some (u32 (block + HEADER_SIZE), mk_heap block (hdrs h), s)
      else
        match hdrs h !! previous with
        | None => None
        | Some pb =>
          Some (u32 (block + HEADER_SIZE),
                set_hdr previous (mk_hdr (bsize pb) (bfree pb) block) h, s)
        end
    end.

End Allocator.

(** [kfree]; [None] if the pointer does not have a header in front of it. *)
Definition kfree (ptr : Z) (h : heap) : option heap :=
  if ptr =? 0 then Some h
  else
    let block := u32 (ptr - HEADER_SIZE) in
    match hdrs h !! block with
    | None => None
    | Some b =>
      let b := mk_hdr (bsize b) 1 (bnext b) in
      let h := set_hdr block b h in
      if bnext b =? 0 then Some h
      else match hdrs h !! bnext b with
           | None => None
           | Some n =>
             if negb (bfree n =? 0) && (u32 (block + HEADER_SIZE + bsize b) =? bnext b)
             then Some (set_hdr block (mk_hdr (u32 (bsize b + HEADER_SIZE + bsize n)) 1 (bnext n)) h)
             else Some h
           end
    end.

(** ** Abstract view: the chain as a list of blocks *)

Record blk := mk_blk { b_addr : Z; b_size : Z; b_free : bool }.

Definition b_end (b : blk) : Z := b_addr b + HEADER_SIZE + b_size b.

(** The headers from [p] on spell the list [l] and then point to [q]. *)
Fixpoint seg (m : gmap Z block_header) (p : Z) (l : list blk) (q : Z) : Prop :=
  match l with
  | [] => p = q
  | b :: l =>
    p = b_addr b
    /\ exists n, m !! p = Some (mk_hdr (b_size b) (if b_free b then 1 else 0) n) /\ seg m n l q
  end.

Definition blk_ok (b : blk) : Prop :=
  4096 <= b_addr b /\ b_addr b mod 4 = 0 /\ 0 < b_size b /\ b_size b mod 4 = 0
  /\ b_end b <= 4294967296.

Definition blk_disjoint (a b : blk) : Prop := b_end a <= b_addr b \/ b_end b <= b_addr a.

Definition blks_ok (l : list blk) : Prop := Forall blk_ok l /\ ForallOrdPairs blk_disjoint l.

(** The allocations in progress: the blocks that are not free. *)
Definition live (l : list blk) : list blk := filter (fun b => b_free b = false) l.

(** Bytes under management, headers included. *)
Definition footprint (l : list blk) : Z := foldr (fun b n => HEADER_SIZE + b_size b + n) 0 l.

Lemma blk_disjoint_sym a b : blk_disjoint a b -> blk_disjoint b a.
Proof. unfold blk_disjoint. tauto. Qed.

Lemma ordpairs_app (l k : list blk) :
  ForallOrdPairs blk_disjoint (l ++ k)
  <-> ForallOrdPairs blk_disjoint l /\ ForallOrdPairs blk_disjoint k
      /\ Forall (fun a => Forall (blk_disjoint a) k) l.
Proof.
  induction l as [|a l IH]; simpl.
  - split; [intros H; repeat split; [constructor|done|constructor]|tauto].
  - split.
    + inversion_clear 1 as [|? ? Ha Hl]. apply Forall_app in Ha as [Ha Hk].
      apply IH in Hl as (Hl & Hkk & Hlk). repeat split; [by constructor|done|by constructor].
    + intros (Hl & Hk & Hlk). inversion_clear Hl. inversion_clear Hlk.
      constructor; [by apply Forall_app|]. by apply IH.
Qed.

(** Replacing a block by blocks inside it keeps disjointness. *)
Lemma blks_ok_replace pre b post bs :
  blks_ok (pre ++ b :: post) -> Forall blk_ok bs -> ForallOrdPairs blk_disjoint bs ->
  Forall (fun c => b_addr b <= b_addr c /\ b_end c <= b_end b) bs ->
  blks_ok (pre ++ bs ++ post).
Proof.
  intros [Hok Hd] Hbs Hdbs Hin.
  apply Forall_app in Hok as [Hpre Hb]. apply Forall_cons in Hb as [Hb Hpost].
  apply ordpairs_app in Hd as (Hdpre & Hdb & Hcross). inversion_clear Hdb as [|? ? Hbp Hdpost].
  assert (forall c d, blk_disjoint b d -> b_addr b <= b_addr c /\ b_end c <= b_end b ->
    blk_disjoint c d) as Hsub by (unfold blk_disjoint; lia).
  split; [by rewrite !Forall_app|]. apply ordpairs_app. split; [done|]. split.
  - apply ordpairs_app. split; [done|]. split; [done|].
    eapply Forall_impl; [exact Hin|]. intros c Hc. eapply Forall_impl; [exact Hbp|]. eauto.
  - eapply Forall_impl; [exact Hcross|]. intros a Ha. apply Forall_cons in Ha as [Hab Hap].
    apply Forall_app. split; [|done]. eapply Forall_impl; [exact Hin|].
    intros c Hc. apply blk_disjoint_sym. eauto using blk_disjoint_sym.
Qed.

(** ** Segments of the chain *)

Lemma hseg_app m p l k q : seg m p (l ++ k) q <-> exists r, seg m p l r /\ seg m r k q.
Proof.
  revert p. induction l as [|b l IH]; intros p; simpl.
  - split; [by exists p|]. intros (r & -> & H). done.
  - split.
    + intros (-> & n & Hn & H). apply IH in H as (r & H1 & H2). eauto 10.
    + intros (r & (-> & n & Hn & H1) & H2). split; [done|]. exists n. split; [done|].
      apply IH. eauto.
Qed.

Lemma hseg_insert_ne m a v p l q :
  a ∉ (b_addr <$> l) -> seg m p l q -> seg (<[a := v]> m) p l q.
Proof.
  revert p. induction l as [|b l IH]; intros p Ha; simpl; [done|].
  intros (-> & n & Hn & H). apply not_elem_of_cons in Ha as [Hab Hal].
  split; [done|]. exists n. split; [by rewrite lookup_insert_ne|by apply IH].
Qed.

Lemma seg_length m p l q :
  seg m p l q -> NoDup (b_addr <$> l) -> (length l <= base.size m)%nat.
Proof.
  intros Hs Hnd. rewrite <- (length_fmap b_addr), <- size_dom, <- (size_list_to_set (C := gset Z)) by done.
  apply subseteq_size. intros a Ha. apply elem_of_list_to_set in Ha. apply elem_of_dom.
  clear Hnd. revert p Hs. induction l as [|b l IH]; intros p; simpl; [by apply not_elem_of_nil in Ha|].
  intros (-> & n & Hn & H). apply elem_of_cons in Ha as [->|Ha]; [by eexists|eauto].
Qed.

Lemma disjoint_addr_ne a b : blk_ok a -> blk_ok b -> blk_disjoint a b -> b_addr a <> b_addr b.
Proof. unfold blk_ok, blk_disjoint, b_end, HEADER_SIZE. lia. Qed.

Lemma blks_ok_NoDup l : blks_ok l -> NoDup (b_addr <$> l).
Proof.
  intros [Hok Hd]. induction l as [|b l IH]; simpl; [constructor|].
  apply Forall_cons in Hok as [Hb Hok]. inversion_clear Hd as [|? ? Hbl Hl].
  constructor; [|auto]. intros (c & Hc & Hin)%list_elem_of_fmap.
  rewrite Forall_forall in Hbl, Hok. by eapply (disjoint_addr_ne b c); eauto.
Qed.

Lemma NoDup_split_notin pre (b : blk) post :
  NoDup (b_addr <$> (pre ++ b :: post)) ->
  (b_addr b ∉ (b_addr <$> pre)) /\ (b_addr b ∉ (b_addr <$> post)).
Proof.
  rewrite fmap_app, fmap_cons. intros (Hp & Hd & Hb)%NoDup_app.
  apply NoDup_cons in Hb as [Hb _]. split; [|done].
  intros Hin. eapply Hd; [done|]. apply elem_of_cons. by left.
Qed.

(** Rewriting the size and the flag of one header of the chain. *)
Lemma seg_update m p pre b post q n b' :
  seg m p (pre ++ b :: post) q -> NoDup (b_addr <$> (pre ++ b :: post)) ->
  (exists h, m !! b_addr b = Some h /\ bnext h = n) -> b_addr b' = b_addr b ->
  seg (<[b_addr b := mk_hdr (b_size b') (if b_free b' then 1 else 0) n]> m) p
      (pre ++ b' :: post) q.
Proof.
  intros Hs Hnd (h & Hh & Hn) Ha. destruct (NoDup_split_notin _ _ _ Hnd) as [Npre Npost].
  apply hseg_app in Hs as (r & Hpre & -> & n' & Hn' & Hpost).
  rewrite Hh in Hn'. injection Hn' as ->. simpl in Hn. subst n'.
  apply hseg_app. exists (b_addr b). split; [by apply hseg_insert_ne|].
  simpl. split; [done|]. exists n. rewrite lookup_insert_eq. split; [done|]. by apply hseg_insert_ne.
Qed.

(** A block that lies inside block [b] but does not start with it has an address
    that no block of the list uses. *)
Lemma inner_addr_fresh l b a :
  blks_ok l -> b ∈ l -> b_addr b < a < b_end b -> a ∉ (b_addr <$> l).
Proof.
  intros [Hok Hd] Hb Ha (c & -> & Hc)%list_elem_of_fmap.
  assert (blk_ok c) as Hcok by (rewrite Forall_forall in Hok; auto).
  destruct (ForallOrdPairs_In Hd b c) as [->|[H|H]]; try by apply list_elem_of_In.
  - lia.
  - unfold blk_disjoint, blk_ok, b_end, HEADER_SIZE in *. lia.
  - unfold blk_disjoint, blk_ok, b_end, HEADER_SIZE in *. lia.
Qed.

(** ** The search loop *)

Definition fits (size : Z) (b : blk) : Prop := b_free b = true /\ size <= b_size b.

Lemma find_fit_spec m p l prev size fuel :
  seg m p l 0 -> Forall blk_ok l -> (length l < fuel)%nat ->
  (exists pre b post, l = pre ++ b :: post /\ fits size b
     /\ find_fit fuel m p prev size = WFound (b_addr b))
  \/ (Forall (fun b => ~ fits size b) l
      /\ find_fit fuel m p prev size = WEnd (from_option b_addr prev (last l))).
Proof.
  revert p prev fuel. induction l as [|b l IH]; intros p prev fuel Hs Hok Hf;
    (destruct fuel as [|fuel]; [simpl in Hf; lia|]); cbn [find_fit].
  - simpl in Hs. subst p. right. split; [constructor|done].
  - destruct Hs as (-> & n & Hn & Hs). apply Forall_cons in Hok as [Hb Hok].
    destruct (Z.eqb_spec (b_addr b) 0) as [H0|_]; [unfold blk_ok in Hb; lia|].
    rewrite Hn. cbn [bfree bsize bnext].
    destruct (b_free b) eqn:Hfree; simpl; [destruct (Z.leb_spec size (b_size b))|].
    + left. exists [], b, l. repeat split; done.
    + destruct (IH n (b_addr b) fuel Hs Hok ltac:(simpl in Hf; lia))
        as [(pre & c & post & -> & Hc & ->)|[Hno ->]].
      * left. exists (b :: pre), c, post. repeat split; apply Hc.
      * right. split; [constructor; [unfold fits; intros [_ ?]; lia|done]|].
        f_equal. rewrite last_cons. by destruct (last l).
    + destruct (IH n (b_addr b) fuel Hs Hok ltac:(simpl in Hf; lia))
        as [(pre & c & post & -> & Hc & ->)|[Hno ->]].
      * left. exists (b :: pre), c, post. repeat split; apply Hc.
      * right. split; [constructor; [unfold fits; intros [? _]; congruence|done]|].
        f_equal. rewrite last_cons. by destruct (last l).
Qed.

(** ** Claiming a free block *)

(** The pieces a claimed block is cut into. *)
Definition claimed (b : blk) (size : Z) : list blk :=
  if size + HEADER_SIZE + 4 <=? b_size b then
    [mk_blk (b_addr b) size false;
     mk_blk (b_addr b + HEADER_SIZE + size) (b_size b - size - HEADER_SIZE) true]
  else [mk_blk (b_addr b) (b_size b) false].

Ltac blk_arith := unfold blk_ok, blk_disjoint, fits, b_end, HEADER_SIZE in *; simpl in *; lia.

Lemma claimed_ok b size :
  blk_ok b -> fits size b -> 0 < size -> size mod 4 = 0 ->
  Forall blk_ok (claimed b size) /\ ForallOrdPairs blk_disjoint (claimed b size)
  /\ Forall (fun c => b_addr b <= b_addr c /\ b_end c <= b_end b) (claimed b size)
  /\ footprint (claimed b size) = footprint [b]
  /\ exists n, size <= n /\ live (claimed b size) = [mk_blk (b_addr b) n false].
Proof.
  intros Hb Hf Hs Ha. unfold claimed.
  destruct (Z.leb_spec (size + HEADER_SIZE + 4) (b_size b)); split_and!.
  - unfold blk_ok, fits, b_end, HEADER_SIZE in *; simpl in *.
    repeat constructor; simpl; try lia; zmod.
  - constructor; [constructor; [left; blk_arith|constructor]|repeat constructor].
  - constructor; [blk_arith|constructor; [blk_arith|constructor]].
  - simpl. unfold HEADER_SIZE in *. lia.
  - exists size. by split.
  - constructor; [blk_arith|constructor].
  - repeat constructor.
  - constructor; [blk_arith|constructor].
  - done.
  - exists (b_size b). split; [by destruct Hf|done].
Qed.

Lemma claim_block_refines h pre b post size n :
  seg (hdrs h) (heap_start h) (pre ++ b :: post) 0 -> blks_ok (pre ++ b :: post) ->
  fits size b -> 0 < size -> size mod 4 = 0 ->
  hdrs h !! b_addr b = Some (mk_hdr (b_size b) 1 n) ->
  exists h', claim_block (b_addr b) size (mk_hdr (b_size b) 1 n) h = (b_addr b + HEADER_SIZE, h')
    /\ seg (hdrs h') (heap_start h') (pre ++ claimed b size ++ post) 0.
Proof.
  intros Hs Hok Hf H0 Ha Hn.
  pose proof (blks_ok_NoDup _ Hok) as Hnd.
  destruct (NoDup_split_notin pre b post Hnd) as [Npre Npost].
  assert (blk_ok b) as Hb. { destruct Hok as [Hok _]. rewrite Forall_forall in Hok. auto. }
  apply hseg_app in Hs as (r & Hpre & Hr). destruct Hr as (-> & n' & Hn' & Hpost).
  rewrite Hn in Hn'. injection Hn' as -> <-.
  unfold claim_block, claimed. cbn [bsize bnext].
  rewrite (u32_small (b_addr b + HEADER_SIZE)), (u32_small (size + HEADER_SIZE + 4))
    by (unfold is_u32; blk_arith).
  destruct (Z.leb_spec (size + HEADER_SIZE + 4) (b_size b)) as [Hle|Hle].
  - rewrite !u32_small by (unfold is_u32; blk_arith).
    set (sp := b_addr b + HEADER_SIZE + size).
    assert (sp ∉ (b_addr <$> (pre ++ b :: post))) as Hfresh.
    { apply (inner_addr_fresh _ b); [done|auto|]. unfold sp. blk_arith. }
    rewrite fmap_app, fmap_cons, not_elem_of_app, not_elem_of_cons in Hfresh.
    destruct Hfresh as (Fpre & Fb & Fpost).
    eexists. split; [reflexivity|]. simpl. apply hseg_app. exists (b_addr b). split.
    + by apply hseg_insert_ne, hseg_insert_ne.
    + simpl. split; [done|]. exists sp. rewrite lookup_insert_eq. split; [done|].
      split; [done|]. exists n. rewrite lookup_insert_ne by congruence.
      rewrite lookup_insert_eq. split; [done|]. by apply hseg_insert_ne, hseg_insert_ne.
  - eexists. split; [reflexivity|].
    apply (seg_update _ _ pre b post 0 n (mk_blk (b_addr b) (b_size b) false)); [|done|by eauto|done].
    apply hseg_app. exists (b_addr b). split; [done|]. split; [done|]. exists n. split; [|done].
    destruct Hf as [Hf _]. by rewrite Hf.
Qed.

(** ** The invariant and the allocation contract *)

Section Contract.
Context {S : Type} `{BS : BlockSource S}.

(** The heap [h] over source [s] holds the blocks [l]: a well-formed chain of
    pairwise disjoint blocks, all inside memory the source has handed out. *)
Definition heap_inv (h : heap) (s : S) (l : list blk) : Prop :=
  seg (hdrs h) (heap_start h) l 0 /\ blks_ok l /\ bs_ok s
  /\ forall b x, b ∈ l -> b_addr b <= x < b_end b -> bs_owned s x.

Lemma live_app l k : live (l ++ k) = live l ++ live k.
Proof. apply filter_app. Qed.

Lemma live_cons b l : live (b :: l) = if b_free b then live l else b :: live l.
Proof. unfold live. rewrite filter_cons. by destruct (b_free b). Qed.

Lemma footprint_app l k : footprint (l ++ k) = footprint l + footprint k.
Proof. unfold footprint. induction l as [|b l IH]; simpl; [done|]. rewrite IH. lia. Qed.

Lemma owned_inside (s : S) (l : list blk) b c x :
  (forall b x, b ∈ l -> b_addr b <= x < b_end b -> bs_owned s x) ->
  b ∈ l -> b_addr b <= b_addr c -> b_end c <= b_end b ->
  b_addr c <= x < b_end c -> bs_owned s x.
Proof. intros H Hb H1 H2 Hx. apply (H b); [done|lia]. Qed.

Lemma kmalloc_found_inv h s pre b post size n :
  heap_inv h s (pre ++ b :: post) -> fits size b -> 0 < size -> size mod 4 = 0 ->
  hdrs h !! b_addr b = Some (mk_hdr (b_size b) 1 n) ->
  exists h', claim_block (b_addr b) size (mk_hdr (b_size b) 1 n) h = (b_addr b + HEADER_SIZE, h')
    /\ heap_inv h' s (pre ++ claimed b size ++ post).
Proof.
  intros (Hs & Hok & Hbs & Hown) Hf H0 Ha Hn.
  destruct (claim_block_refines h pre b post size n) as (h' & He & Hs'); try done.
  exists h'. split; [done|].
  assert (blk_ok b) as Hb. { destruct Hok as [Hf' _]. rewrite Forall_forall in Hf'. set_solver. }
  destruct (claimed_ok b size) as (H1 & H2 & H3 & _ & _); try done.
  split; [done|]. split; [by eapply blks_ok_replace|]. split; [done|].
  intros c x Hc Hx. apply elem_of_app in Hc as [Hc|Hc]; [apply (Hown c); set_solver|].
  apply elem_of_app in Hc as [Hc|Hc]; [|apply (Hown c); set_solver].
  rewrite Forall_forall in H3. destruct (H3 c Hc) as [? ?].
  eapply (owned_inside s _ b c x Hown); set_solver.
Qed.

(** Appending the block of fresh pages that [new_block] made. *)
Lemma heap_inv_append h s s' l a n hd m :
  heap_inv h s l -> bs_ok s' -> (forall x, bs_owned s x -> bs_owned s' x) ->
  4096 <= a -> a mod 4 = 0 -> 0 < n -> n mod 4 = 0 -> a + HEADER_SIZE + n <= 4294967296 ->
  (forall x, a <= x < a + HEADER_SIZE + n -> ~ bs_owned s x /\ bs_owned s' x) ->
  seg m hd (l ++ [mk_blk a n false]) 0 ->
  heap_inv (mk_heap hd m) s' (l ++ [mk_blk a n false]).
Proof.
  intros (Hs & [Hok Hd] & Hbs & Hown) Hbs' Hmono Ha Ha4 Hn Hn4 Hend Hnew Hseg.
  split; [done|]. split; [|split; [done|]].
  - split.
    + apply Forall_app. split; [done|]. constructor; [|constructor]. blk_arith.
    + apply ordpairs_app. split; [done|]. split; [repeat constructor|].
      apply Forall_forall. intros c Hc. constructor; [|constructor].
      rewrite Forall_forall in Hok. specialize (Hok c Hc).
      destruct (decide (blk_disjoint c (mk_blk a n false))) as [|Hnd]; [done|exfalso].
      set (x := Z.max (b_addr c) a).
      assert (b_addr c <= x < b_end c /\ a <= x < a + HEADER_SIZE + n) as [Hx1 Hx2]
        by (unfold x; blk_arith).
      destruct (Hnew x Hx2) as [Hno _]. by apply Hno, (Hown c).
  - intros c x Hc Hx. apply elem_of_app in Hc as [Hc|Hc]; [by apply Hmono, (Hown c)|].
    apply list_elem_of_singleton in Hc as ->. apply Hnew. exact Hx.
Qed.

Lemma align_size size : 0 < size <= 4294963184 ->
  let a := Z.land (u32 (size + 3)) 0xFFFFFFFC in size <= a <= size + 3 /\ a mod 4 = 0.
Proof.
  intros Hs a. subst a. rewrite u32_small by (unfold is_u32; lia).
  rewrite land_align4 by lia. zmod.
Qed.

Lemma align_request size : 0 < size <= max_request S ->
  let a := Z.land (u32 (size + 3)) 0xFFFFFFFC in size <= a <= size + 3 /\ a mod 4 = 0.
Proof. pose proof bs_max_range. unfold max_request. intros. apply align_size. lia. Qed.

(** The pages [new_block] asks for. *)
Definition pages_for (size : Z) : Z := (size + HEADER_SIZE + 4096 - 1) / 4096.

(** What one call of [kmalloc] may do to the list of blocks. *)
Inductive alloc_step (size : Z) (l : list blk) : Z -> list blk -> Prop :=
| alloc_reuse pre b post p :
    l = pre ++ b :: post -> fits size b -> p = b_addr b + HEADER_SIZE ->
    alloc_step size l p (pre ++ claimed b size ++ post)
| alloc_grow a n :
    Forall (fun b => ~ fits size b) l -> size <= n ->
    HEADER_SIZE + n = pages_for size * 4096 ->
    alloc_step size l (a + HEADER_SIZE) (l ++ [mk_blk a n false])
| alloc_fail : Forall (fun b => ~ fits size b) l -> alloc_step size l 0 l.

Lemma last_in_seg m p l q b : seg m p l q -> last l = Some b ->
  exists k, l = k ++ [b] /\ m !! b_addr b = Some (mk_hdr (b_size b) (if b_free b then 1 else 0) q).
Proof.
  intros Hs Hl. apply last_Some in Hl as [k ->]. exists k. split; [done|].
  apply hseg_app in Hs as (r & _ & -> & n & Hn & ->). done.
Qed.

Lemma seg_append m p l a n b :
  seg m p (l ++ [b]) 0 -> NoDup (b_addr <$> (l ++ [b])) -> a ∉ (b_addr <$> (l ++ [b])) ->
  seg (<[b_addr b := mk_hdr (b_size b) (if b_free b then 1 else 0) a]> (<[a := mk_hdr n 0 0]> m))
      p ((l ++ [b]) ++ [mk_blk a n false]) 0.
Proof.
  intros Hs Hnd Ha. destruct (NoDup_split_notin l b [] Hnd) as [Nl _].
  rewrite fmap_app, not_elem_of_app in Ha. destruct Ha as [Hal Hab].
  assert (a <> b_addr b) by set_solver.
  apply hseg_app in Hs as (r & Hl & -> & q & Hq & ->).
  rewrite <- app_assoc. apply hseg_app. exists (b_addr b). split.
  - by apply hseg_insert_ne, hseg_insert_ne.
  - simpl. split; [done|]. exists a. rewrite lookup_insert_eq. split; [done|].
    split; [done|]. exists 0. rewrite lookup_insert_ne by congruence.
    by rewrite lookup_insert_eq.
Qed.

(** Linking the fresh block [a] of [n] bytes behind the last block. *)
Lemma link_fresh h s s' l a n size :
  heap_inv h s l -> bs_ok s' -> (forall x, bs_owned s x -> bs_owned s' x) ->
  4096 <= a -> a mod 4 = 0 -> HEADER_SIZE + n = pages_for size * 4096 -> 0 < n -> size <= n ->
  a + HEADER_SIZE + n <= 4294967296 ->
  (forall x, a <= x < a + HEADER_SIZE + n -> ~ bs_owned s x /\ bs_owned s' x) ->
  Forall (fun b => ~ fits size b) l ->
  exists h',
    (let h1 := set_hdr a (mk_hdr n 0 0) h in
     if heap_start h1 =? 0 then Some (a + HEADER_SIZE, mk_heap a (hdrs h1), s')
     else match hdrs h1 !! from_option b_addr 0 (last l) with
          | None => None
          | Some pb => Some (a + HEADER_SIZE,
              set_hdr (from_option b_addr 0 (last l)) (mk_hdr (bsize pb) (bfree pb) a) h1, s')
          end) = Some (a + HEADER_SIZE, h', s')
    /\ heap_inv h' s' (l ++ [mk_blk a n false])
    /\ alloc_step size l (a + HEADER_SIZE) (l ++ [mk_blk a n false]).
Proof.
  intros Hinv Hbs' Hmono Ha Ha4 Hn Hn0 Hsz Hend Hfr Hno. pose proof Hinv as (Hs & Hok & _ & Hown).
  assert (n mod 4 = 0) as Hn4 by (unfold HEADER_SIZE in *; zmod).
  assert (a ∉ (b_addr <$> l)) as Hal.
  { intros (b & -> & Hb)%list_elem_of_fmap. destruct (Hfr (b_addr b)) as [Hnot _];
      [unfold HEADER_SIZE in *; lia|]. apply Hnot, (Hown b); [done|].
    destruct Hok as [Hok _]. rewrite Forall_forall in Hok. specialize (Hok b Hb). blk_arith. }
  cbv zeta. cbn [set_hdr heap_start hdrs]. destruct (last l) as [lb|] eqn:Hlast; simpl from_option.
  - destruct (last_in_seg _ _ _ _ _ Hs Hlast) as (k & -> & Hlb).
    assert (heap_start h <> 0) as Hhd.
    { destruct k as [|c k]; simpl in Hs; destruct Hs as [-> _];
        destruct Hok as [Hok _]; apply Forall_cons in Hok as [Hok _]; blk_arith. }
    destruct (Z.eqb_spec (heap_start h) 0) as [|_]; [done|].
    assert (a <> b_addr lb) as Hne.
    { intros ->. apply Hal, list_elem_of_fmap. exists lb. auto. }
    rewrite lookup_insert_ne, Hlb by done.
    eexists. split; [reflexivity|]. split; [|by apply alloc_grow].
    eapply heap_inv_append; try done. apply seg_append; [done|by apply blks_ok_NoDup|done].
  - apply last_None in Hlast as ->. simpl in Hs. rewrite Hs. simpl.
    eexists. split; [reflexivity|]. split; [|by apply (alloc_grow size [] a n)].
    eapply (heap_inv_append h s s' [] a n); try done. simpl. split; [done|]. exists 0.
    by rewrite lookup_insert_eq.
Qed.

(** [kmalloc] never gets stuck, keeps the invariant and performs an [alloc_step]. *)
Lemma kmalloc_step h s l size :
  heap_inv h s l -> 0 < size <= max_request S ->
  exists p h' s' l', kmalloc size h s = Some (p, h', s') /\ heap_inv h' s' l'
    /\ alloc_step (Z.land (u32 (size + 3)) 0xFFFFFFFC) l p l'.
Proof.
  intros Hinv Hsize. pose proof (align_request size Hsize) as Ha. cbv zeta in Ha.
  pose proof bs_max_range as Hmax. unfold max_request in Hsize.
  unfold kmalloc. destruct (Z.eqb_spec size 0) as [|_]; [lia|]. cbv zeta.
  set (sz := Z.land (u32 (size + 3)) 0xFFFFFFFC) in *.
  pose proof Hinv as (Hs & Hok & Hbs & Hown).
  pose proof (seg_length _ _ _ _ Hs (blks_ok_NoDup _ Hok)) as Hlen.
  destruct (find_fit_spec (hdrs h) (heap_start h) l 0 sz (Datatypes.S (base.size (hdrs h))))
    as [(pre & b & post & -> & Hf & ->)|[Hno ->]]; [done|apply Hok|lia| |].
  - assert (exists n, hdrs h !! b_addr b = Some (mk_hdr (b_size b) 1 n)) as [n Hn].
    { apply hseg_app in Hs as (r & _ & -> & n & Hn & _). destruct Hf as [Hf _].
      rewrite Hf in Hn. eauto. }
    rewrite Hn. destruct (kmalloc_found_inv h s pre b post sz n) as (h' & -> & Hinv');
      [done|done|lia|lia|done|].
    exists (b_addr b + HEADER_SIZE), h', s, (pre ++ claimed b sz ++ post).
    split; [done|]. split; [done|]. by eapply alloc_reuse.
  - unfold new_block. rewrite (u32_small (sz + HEADER_SIZE + 4096 - 1))
      by (unfold is_u32, HEADER_SIZE; lia). fold (pages_for sz).
    assert (0 < pages_for sz <= bs_max /\ sz + HEADER_SIZE <= pages_for sz * 4096) as [Hp Hpg]
      by (unfold pages_for, HEADER_SIZE; zmod).
    pose proof (bs_grow_spec (pages_for sz) s (proj1 Hp) (proj2 Hp) Hbs) as Hg.
    destruct (bs_grow (pages_for sz) s) as [a s']. destruct Hg as (Hbs' & Hmono & Hnew).
    destruct (Z.eqb_spec a 0) as [->|Hna].
    + simpl. exists 0, h, s', l. split; [done|]. split; [|by constructor].
      split; [done|]. split; [done|]. split; [done|]. intros b x Hb Hx. by apply Hmono, (Hown b).
    + destruct Hnew as [->|(Hlo & Ha4 & Hhi & Hfr)]; [done|].
      destruct (Z.eqb_spec a 0) as [|_]; [done|].
      rewrite (u32_small (pages_for sz * 4096 - HEADER_SIZE)), (u32_small (a + HEADER_SIZE))
        by (unfold is_u32, HEADER_SIZE in *; lia).
      unfold HEADER_SIZE in Hpg.
      destruct (link_fresh h s s' l a (pages_for sz * 4096 - HEADER_SIZE) sz) as (h' & He & ?);
        try done; try (unfold HEADER_SIZE; lia).
      { intros x Hx. apply Hfr. lia. }
      eexists _, h', s', _. split; [exact He|done].
Qed.

(** The blocks left behind when [b], followed by [post], is freed. *)
Definition freed (b : blk) (post : list blk) : list blk :=
  match post with
  | c :: post' =>
    if b_free c && (b_end b =? b_addr c)
    then mk_blk (b_addr b) (b_size b + HEADER_SIZE + b_size c) true :: post'
    else mk_blk (b_addr b) (b_size b) true :: post
  | [] => [mk_blk (b_addr b) (b_size b) true]
  end.

(** The end of the last block of memory may wrap to 0, which is no block. *)
Lemma end_wraps b c :
  blk_ok b -> blk_ok c ->
  (u32 (b_addr b + HEADER_SIZE + b_size b) =? b_addr c) = (b_end b =? b_addr c).
Proof.
  unfold u32, blk_ok, b_end, HEADER_SIZE. intros Hb Hc.
  destruct (decide (b_addr b + 12 + b_size b = 4294967296)) as [->|].
  - change (4294967296 mod 4294967296) with 0. zspec; lia.
  - by rewrite Z.mod_small by lia.
Qed.

Lemma kfree_refines h pre b post :
  seg (hdrs h) (heap_start h) (pre ++ b :: post) 0 -> blks_ok (pre ++ b :: post) ->
  exists h', kfree (b_addr b + HEADER_SIZE) h = Some h'
    /\ seg (hdrs h') (heap_start h') (pre ++ freed b post) 0.
Proof.
  intros Hs Hok.
  pose proof (blks_ok_NoDup _ Hok) as Hnd.
  destruct (NoDup_split_notin pre b post Hnd) as [Npre Npost].
  pose proof Hs as Hs0. apply hseg_app in Hs0 as (r & Hpre & -> & n & Hn & Hpost).
  destruct Hok as [Hf Hd]. apply Forall_app in Hf as [_ Hf]. apply Forall_cons in Hf as [Hb Hf].
  unfold kfree. destruct (Z.eqb_spec (b_addr b + HEADER_SIZE) 0); [blk_arith|]. cbv zeta.
  replace (b_addr b + HEADER_SIZE - HEADER_SIZE) with (b_addr b) by lia.
  rewrite (u32_small (b_addr b)), Hn by (unfold is_u32; blk_arith).
  cbn [bsize bnext bfree set_hdr hdrs heap_start].
  pose proof (seg_update _ _ pre b post 0 n (mk_blk (b_addr b) (b_size b) true) Hs Hnd
    ltac:(eauto) eq_refl) as Hset.
  destruct post as [|c post].
  - simpl in Hpost. subst n. simpl. eexists. split; [reflexivity|]. exact Hset.
  - apply Forall_cons in Hf as [Hc Hf]. destruct Hpost as (-> & k & Hcn & Hpost).
    destruct (Z.eqb_spec (b_addr c) 0) as [|_]; [blk_arith|].
    rewrite fmap_cons in Npost. apply not_elem_of_cons in Npost as [Nc Npost].
    rewrite lookup_insert_ne, Hcn by done. cbn [bfree bsize bnext].
    rewrite (end_wraps b c Hb Hc).
    unfold freed. destruct (b_free c) eqn:Hcf; simpl; [destruct (Z.eqb_spec (b_end b) (b_addr c))|];
      (eexists; split; [reflexivity|]); [|exact Hset|exact Hset].
    simpl. rewrite insert_insert_eq. apply hseg_app. exists (b_addr b). split; [by apply hseg_insert_ne|].
    simpl. split; [done|]. exists k. rewrite lookup_insert_eq. split; [|by apply hseg_insert_ne].
    do 2 f_equal. apply u32_small. unfold is_u32. blk_arith.
Qed.

(** Merging two adjacent blocks keeps the list well-formed. *)
Lemma blks_ok_merge pre b c post d :
  blks_ok (pre ++ b :: c :: post) -> b_end b = b_addr c ->
  b_addr d = b_addr b -> b_size d = b_size b + HEADER_SIZE + b_size c ->
  blks_ok (pre ++ d :: post).
Proof.
  intros [Hok Hd] He Hda Hds.
  apply Forall_app in Hok as [Hpre Hb]. apply Forall_cons in Hb as [Hb Hc].
  apply Forall_cons in Hc as [Hc Hpost].
  apply ordpairs_app in Hd as (Hdpre & Hdb & Hcross).
  inversion_clear Hdb as [|? ? Hbp Hdc]. inversion_clear Hdc as [|? ? Hcp Hdpost].
  apply Forall_cons in Hbp as [_ Hbp].
  assert (b_end d = b_end c) as Hend by (unfold b_end, HEADER_SIZE in *; lia).
  split.
  - apply Forall_app. split; [done|]. constructor; [|done].
    unfold blk_ok in *. rewrite Hend, Hda, Hds. unfold b_end, HEADER_SIZE in *.
    split_and!; try lia. clear -Hb Hc. zmod.
  - apply ordpairs_app. split; [done|]. split; [constructor; [|done]|].
    + rewrite Forall_forall in Hbp, Hcp, Hpost. apply Forall_forall. intros x Hx.
      specialize (Hbp x Hx). specialize (Hcp x Hx). specialize (Hpost x Hx).
      unfold blk_disjoint. rewrite Hend, Hda. unfold blk_disjoint, blk_ok, b_end, HEADER_SIZE in *. lia.
    + rewrite Forall_forall in Hcross, Hpre. apply Forall_forall. intros x Hin.
      specialize (Hpre x Hin). pose proof (Hcross x Hin) as Hx. apply Forall_cons in Hx as [Hxb Hx]. apply Forall_cons in Hx as [Hxc Hx].
      constructor; [|done]. unfold blk_disjoint. rewrite Hend, Hda.
      unfold blk_disjoint, blk_ok, b_end, HEADER_SIZE in *. lia.
Qed.

Lemma freed_ok pre b post :
  blks_ok (pre ++ b :: post) -> blks_ok (pre ++ freed b post).
Proof.
  intros Hok.
  assert (blks_ok (pre ++ [mk_blk (b_addr b) (b_size b) true] ++ post)) as Hsame.
  { eapply blks_ok_replace; [exact Hok| |repeat constructor|].
    - destruct Hok as [Hf _]. apply Forall_app in Hf as [_ Hf]. apply Forall_cons in Hf as [Hb _].
      by constructor; [|constructor].
    - constructor; [unfold b_end; simpl; lia|constructor]. }
  destruct post as [|c post]; [done|]. unfold freed.
  destruct (b_free c && (b_end b =? b_addr c)) eqn:E; [|done]. zbool.
  by eapply blks_ok_merge.
Qed.

Lemma freed_live b post :
  b_free b = false -> live (b :: post) = b :: live (freed b post) /\
  footprint (freed b post) = footprint (b :: post).
Proof.
  intros Hb. destruct b as [a n f]. simpl in Hb. subst f.
  destruct post as [|c post]; [done|]. unfold freed.
  destruct (b_free c && _) eqn:E; simpl b_addr; simpl b_size.
  - zbool. destruct c as [a' n' f']. simpl in *. subst. unfold live. simpl. split; [done|lia].
  - done.
Qed.

Lemma freed_inside b post x c :
  c ∈ freed b post -> blk_ok b -> Forall blk_ok post -> b_addr c <= x < b_end c ->
  exists d, d ∈ b :: post /\ b_addr d <= x < b_end d.
Proof.
  intros Hc Hb Hp Hx. destruct post as [|d post].
  - apply list_elem_of_singleton in Hc as ->. exists b. split; [set_solver|done].
  - unfold freed in Hc. destruct (b_free d && (b_end b =? b_addr d)) eqn:E.
    + zbool. apply elem_of_cons in Hc as [->|Hc]; [|exists c; split; [set_solver|done]].
      unfold b_end, HEADER_SIZE in *; simpl in *.
      destruct (decide (x < b_addr d)); [exists b|exists d]; (split; [set_solver|lia]).
    + apply elem_of_cons in Hc as [->|Hc].
      * exists b. split; [set_solver|done].
      * exists c. split; [set_solver|done].
Qed.

Lemma kfree_step h s pre b post :
  heap_inv h s (pre ++ b :: post) ->
  exists h', kfree (b_addr b + HEADER_SIZE) h = Some h' /\ heap_inv h' s (pre ++ freed b post).
Proof.
  intros (Hs & Hok & Hbs & Hown).
  destruct (kfree_refines h pre b post Hs Hok) as (h' & He & Hs').
  exists h'. split; [done|]. split; [done|]. split; [by apply freed_ok|]. split; [done|].
  intros c x Hc Hx. apply elem_of_app in Hc as [Hc|Hc].
  - apply (Hown c); [|done]. apply elem_of_app. by left.
  - destruct Hok as [Hf _]. apply Forall_app in Hf as [_ Hf]. apply Forall_cons in Hf as [Hb Hp].
    destruct (freed_inside b post x c Hc Hb Hp Hx) as (d & Hd & Hdx).
    apply (Hown d); [|done]. apply elem_of_app. by right.
Qed.

Lemma alloc_step_live size l p l' :
  alloc_step size l p l' -> blks_ok l -> blks_ok l' -> 0 < size -> size mod 4 = 0 ->
  (p = 0 /\ l' = l /\ Forall (fun b => ~ fits size b) l)
  \/ (p <> 0 /\ p mod 4 = 0 /\ exists n, size <= n
      /\ live l' ≡ₚ mk_blk (p - HEADER_SIZE) n false :: live l).
Proof.
  intros Hstep [Hok _] [Hok' _] H0 H4. destruct Hstep as [pre b post p -> Hf ->|a n Hno Hsz Hn|Hno].
  - right. assert (blk_ok b) as Hb by (rewrite Forall_forall in Hok; auto).
    destruct (claimed_ok b size Hb Hf H0 H4) as (_ & _ & _ & _ & n & Hn & Hl).
    split; [blk_arith|]. split; [unfold blk_ok, HEADER_SIZE in *; zmod|].
    exists n. split; [done|]. rewrite !live_app, Hl, live_cons. destruct Hf as [-> _].
    replace (b_addr b + HEADER_SIZE - HEADER_SIZE) with (b_addr b) by lia.
    symmetry. apply Permutation_middle.
  - right. apply Forall_app in Hok' as [_ Hok']. apply Forall_cons in Hok' as [Hb _].
    split; [blk_arith|]. split; [unfold blk_ok, HEADER_SIZE in *; simpl in *; zmod|].
    exists n. split; [done|]. rewrite live_app.
    replace (a + HEADER_SIZE - HEADER_SIZE) with a by lia.
    rewrite Permutation_app_comm. done.
  - left. done.
Qed.

Lemma live_perm_split l bs b : live l ≡ₚ b :: bs -> exists pre post, l = pre ++ b :: post /\ b_free b = false.
Proof.
  intros Hp. assert (b ∈ live l) as Hb by (rewrite Hp; apply elem_of_cons; by left).
  apply list_elem_of_filter in Hb as [Hf Hb]. apply list_elem_of_split in Hb as (pre & post & ->).
  eauto.
Qed.

(** ** Clients: any sequence of allocations and frees *)

(** [client h s ps]: a run from the empty heap in which the caller holds the
    allocations [ps], each a pointer with the size it asked for. *)
Inductive client : heap -> S -> list (Z * Z) -> Prop :=
| client_init s : bs_ok s -> client kmalloc_init s []
| client_alloc h s ps size p h' s' :
    client h s ps -> 0 < size <= max_request S -> kmalloc size h s = Some (p, h', s') ->
    client h' s' (if p =? 0 then ps else (p, size) :: ps)
| client_free h s ps qs p n h' :
    client h s (ps ++ (p, n) :: qs) -> kfree p h = Some h' -> client h' s (ps ++ qs).

(** The caller's view agrees with the blocks in use. *)
Definition holds (ps : list (Z * Z)) (l : list blk) : Prop :=
  exists bs, bs ≡ₚ live l
    /\ Forall2 (fun pn b => fst pn = b_addr b + HEADER_SIZE /\ snd pn <= b_size b) ps bs.

Lemma alloc_holds h s l ps size p h' s' :
  heap_inv h s l -> holds ps l -> 0 < size <= max_request S -> kmalloc size h s = Some (p, h', s') ->
  exists l', heap_inv h' s' l' /\ holds (if p =? 0 then ps else (p, size) :: ps) l'.
Proof.
  intros Hinv (bs & Hp & Hf) Hsz Hk.
  destruct (kmalloc_step h s l size Hinv Hsz) as (p1 & h1 & s1 & l1 & Hk1 & Hinv1 & Hstep).
  rewrite Hk in Hk1. injection Hk1 as <- <- <-. exists l1. split; [done|].
  destruct (align_request size Hsz) as [Ha1 Ha2].
  destruct (alloc_step_live _ _ _ _ Hstep) as [(-> & -> & _)|(Hp0 & _ & k & Hk1 & Hl)];
    [apply Hinv|apply Hinv1|lia|done| |].
  - exists bs. done.
  - destruct (Z.eqb_spec p 0); [done|]. exists (mk_blk (p - HEADER_SIZE) k false :: bs).
    split; [by rewrite Hp, Hl|]. constructor; [simpl; lia|done].
Qed.

Lemma free_holds h s l ps qs p n :
  heap_inv h s l -> holds (ps ++ (p, n) :: qs) l ->
  exists h' l', kfree p h = Some h' /\ heap_inv h' s l' /\ holds (ps ++ qs) l'.
Proof.
  intros Hinv (bs & Hp & Hf).
  apply Forall2_app_inv_l in Hf as (bs1 & bs2 & Hf1 & Hf2 & ->).
  apply Forall2_cons_inv_l in Hf2 as (b & bs3 & [Hb Hn] & Hf2 & ->). simpl in Hb. subst p.
  assert (live l ≡ₚ b :: (bs1 ++ bs3)) as Hl by (rewrite <- Hp; symmetry; apply Permutation_middle).
  destruct (live_perm_split _ _ _ Hl) as (pre & post & -> & Hbf).
  destruct (kfree_step h s pre b post Hinv) as (h1 & Hk1 & Hinv1).
  exists h1, (pre ++ freed b post). split; [done|]. split; [done|].
  exists (bs1 ++ bs3). split; [|by apply Forall2_app].
  destruct (freed_live b post Hbf) as [Hfl _].
  rewrite live_app, Hfl in Hl. rewrite live_app. apply (Permutation_cons_inv (a := b)).
  rewrite <- Hl. symmetry. apply Permutation_middle.
Qed.

Lemma client_inv h s ps : client h s ps -> exists l, heap_inv h s l /\ holds ps l.
Proof.
  induction 1 as [s Hs|h s ps size p h' s' _ (l & Hinv & Hh) Hsz Hk
                 |h s ps qs p n h' _ (l & Hinv & Hh) Hk].
  - exists []. split; [|exists []; split; [done|constructor]].
    split; [done|]. split; [split; constructor|]. split; [done|].
    intros b x Hb. by apply not_elem_of_nil in Hb.
  - by eapply alloc_holds.
  - destruct (free_holds h s l ps qs p n Hinv Hh) as (h1 & l1 & Hk1 & H). rewrite Hk in Hk1. injection Hk1 as <-. by exists l1.
Qed.

(** The header of an allocation, and the room it really has. *)
Lemma holds_header h s l ps qs p n : heap_inv h s l -> holds (ps ++ (p, n) :: qs) l ->
  exists b, hdrs h !! u32 (p - HEADER_SIZE) = Some b /\ n <= bsize b /\ holds (ps ++ (p, bsize b) :: qs) l.
Proof.
  intros (Hs & [Hok _] & _) (bs & Hp & Hf).
  apply Forall2_app_inv_l in Hf as (bs1 & bs2 & Hf1 & Hf2 & ->).
  apply Forall2_cons_inv_l in Hf2 as (b & bs3 & [Hb Hn] & Hf2 & ->). simpl in Hb, Hn. subst p.
  assert (live l ≡ₚ b :: (bs1 ++ bs3)) as Hl by (rewrite <- Hp; symmetry; apply Permutation_middle).
  destruct (live_perm_split _ _ _ Hl) as (pre & post & -> & Hbf).
  apply hseg_app in Hs as (r & _ & -> & nx & Hnx & _).
  assert (blk_ok b) as Hbk by (rewrite Forall_forall in Hok; auto).
  replace (b_addr b + HEADER_SIZE - HEADER_SIZE) with (b_addr b) by lia.
  rewrite u32_small by (unfold blk_ok, b_end, HEADER_SIZE, is_u32 in *; lia).
  eexists. split; [exact Hnx|]. simpl. split; [done|].
  exists (bs1 ++ b :: bs3). split; [done|]. apply Forall2_app; [done|]. constructor; [simpl; lia|done].
Qed.

Lemma live_blks_ok l bs : blks_ok l -> bs ≡ₚ live l -> ForallOrdPairs blk_disjoint bs /\ Forall blk_ok bs.
Proof.
  intros [Hok Hd] Hp. assert (ForallOrdPairs blk_disjoint (live l)) as Hl.
  { clear Hp Hok. unfold live. induction Hd as [|b l Hb Hd IH]; [constructor|].
    rewrite filter_cons. destruct (decide (b_free b = false)); [|done]. constructor; [|done].
    apply Forall_forall. intros x Hx. apply list_elem_of_filter in Hx as [_ Hx].
    rewrite Forall_forall in Hb. auto. }
  split.
  - revert Hl. assert (forall l k : list blk, l ≡ₚ k -> ForallOrdPairs blk_disjoint l ->
      ForallOrdPairs blk_disjoint k) as Hperm.
    { clear. induction 1 as [|x l k Hp IH|x y l|l k m H1 IH1 H2 IH2]; intros H; auto.
      - inversion_clear H. constructor; [by rewrite <- Hp|auto].
      - inversion_clear H as [|? ? Hx Hl]. inversion_clear Hl. apply Forall_cons in Hx as [Hx Hl'].
        constructor; [constructor; [by apply blk_disjoint_sym|done]|by constructor]. }
    apply Hperm. done.
  - rewrite Hp. apply Forall_forall. intros x Hx. apply list_elem_of_filter in Hx as [_ Hx].
    rewrite Forall_forall in Hok. auto.
Qed.

(** Two allocations, as pointer and requested size, that do not share a byte. *)
Definition apart (a b : Z * Z) : Prop :=
  fst a + snd a <= fst b \/ fst b + snd b <= fst a.

Lemma holds_apart ps l :
  blks_ok l -> holds ps l ->
  ForallOrdPairs apart ps /\ Forall (fun a => fst a mod 4 = 0 /\ fst a + snd a <= 4294967296) ps.
Proof.
  intros Hok (bs & Hp & Hf). destruct (live_blks_ok l bs Hok Hp) as [Hd Hb]. clear Hp Hok.
  induction Hf as [|[p n] b ps bs [Hpb Hn] Hf IH]; [split; constructor|]. simpl in *.
  inversion_clear Hd as [|? ? Hbd Hd']. apply Forall_cons in Hb as [Hbk Hb].
  destruct (IH Hd' Hb) as [IH1 IH2]. split; constructor; auto.
  - apply Forall_forall. intros [q m] Hin. apply list_elem_of_lookup in Hin as [i Hi].
    destruct (Forall2_lookup_l _ _ _ _ _ Hf Hi) as (c & Hc & [Hqc Hm]). simpl in *.
    apply list_elem_of_lookup_2 in Hc. rewrite Forall_forall in Hbd, Hb.
    specialize (Hbd c Hc). specialize (Hb c Hc). unfold apart. simpl. blk_arith.
  - simpl. unfold blk_ok, b_end, HEADER_SIZE in *. split; [zmod|lia].
Qed.

(** Live allocations have different addresses. *)
Lemma holds_NoDup ps l : blks_ok l -> holds ps l -> NoDup ps.*1.
Proof.
  intros Hok (bs & Hp & Hf). assert (ps.*1 = (fun b => b_addr b + HEADER_SIZE) <$> bs) as ->.
  { clear Hp. induction Hf as [|[p n] b ps bs [Hpb _] Hf IH]; [done|]. rewrite !fmap_cons. cbn [fst] in *. by rewrite Hpb, IH. }
  assert (NoDup (b_addr <$> bs)) as Hn.
  { rewrite Hp. unfold live. apply (sublist_NoDup _ (b_addr <$> l)); [by apply blks_ok_NoDup|]. apply fmap_sublist, sublist_filter. }
  change (NoDup (((fun a => a + HEADER_SIZE) ∘ b_addr) <$> bs)). rewrite list_fmap_compose. apply NoDup_fmap_2; [|done]. intros x y. lia.
Qed.

(** Heap and page source together, as the rest of the kernel sees them. *)
Definition heap_malloc (n : Z) (a : heap * S) : option (Z * (heap * S)) :=
  match kmalloc n a.1 a.2 with Some (p, h, s) => Some (p, (h, s)) | None => None end.
Definition heap_free (p : Z) (a : heap * S) : option (heap * S) :=
  match kfree p a.1 with Some h => Some (h, a.2) | None => None end.

(** The heap keeps the promise [KernelHeap] to its clients. *)
#[export] Program Instance heap_kernel : KernelHeap (heap * S) := {
  kh_malloc := heap_malloc;
  kh_free := heap_free;
  kh_ok a L := exists ps, client a.1 a.2 ps /\ ps.*1 ≡ₚ L;
  kh_rich _ := False
}.
Next Obligation.
  intros n [h s] L Hn (ps & Hc & HL). simpl in Hc. unfold heap_malloc. simpl.
  destruct (decide (n = 0)) as [->|Hn0].
  { exists 0, (h, s). repeat split; try done. left. split; [done|]. by exists ps. }
  destruct (client_inv _ _ _ Hc) as (l & Hinv & _).
  assert (0 < n <= max_request S) as Hn1 by (pose proof bs_max_range; unfold max_request; lia).
  destruct (kmalloc_step h s l n Hinv Hn1) as (p & h' & s' & l' & Hk & _).
  pose proof (client_alloc _ _ _ _ _ _ _ Hc Hn1 Hk) as Hc'.
  rewrite Hk. exists p, (h', s'). split; [done|]. split; [|done].
  destruct (Z.eqb_spec p 0) as [->|Hp].
  - left. split; [done|]. by exists ps.
  - right. split; [done|]. exists ((p, n) :: ps). split; [done|]. simpl. by rewrite HL.
Qed.
Next Obligation.
  intros p [h s] L (ps & Hc & HL). unfold heap_free. simpl in *.
  assert (p ∈ ps.*1) as Hin by (rewrite HL; apply elem_of_cons; by left).
  apply list_elem_of_fmap in Hin as ([p' n] & -> & Hin). simpl in *.
  apply list_elem_of_split in Hin as (ps1 & ps2 & ->).
  destruct (client_inv _ _ _ Hc) as (l & Hinv & bs & Hp & Hf).
  apply Forall2_app_inv_l in Hf as (bs1 & bs2 & Hf1 & Hf2 & ->).
  apply Forall2_cons_inv_l in Hf2 as (b & bs3 & [Hb _] & Hf2 & ->). simpl in Hb. subst p'.
  assert (live l ≡ₚ b :: (bs1 ++ bs3)) as Hl by (rewrite <- Hp; symmetry; apply Permutation_middle).
  destruct (live_perm_split _ _ _ Hl) as (pre & post & -> & _).
  destruct (kfree_step h s pre b post Hinv) as (h' & Hk & _). rewrite Hk.
  exists (h', s). split; [done|]. split; [|done]. exists (ps1 ++ ps2). simpl.
  split; [by eapply client_free|]. rewrite fmap_app in HL. simpl in HL. rewrite fmap_app.
  apply (Permutation_cons_inv (a := b_addr b + HEADER_SIZE)).
  rewrite <- HL. apply Permutation_middle.
Qed.
Next Obligation.
  intros [h s] L (ps & Hc & HL). simpl in Hc. rewrite <- HL. destruct (client_inv _ _ _ Hc) as (l & (_ & Hok & _) & Hh).
  by eapply holds_NoDup.
Qed.

End Contract.

(** ** The kernel heap: pages from the physical memory manager *)

Definition KERNEL_VIRTUAL_BASE : Z := 0xC0000000.

Definition pmm_grow (n : Z) (st : Pmm.pmm_state) : Z * Pmm.pmm_state :=
  let '(phys, st) := Pmm.pmm_alloc_contiguous n st in
  if phys =? 0 then (0, st) else (u32 (phys + KERNEL_VIRTUAL_BASE), st).

(** A higher-half address whose page is marked in the bitmap. *)
Definition pmm_owned (st : Pmm.pmm_state) (x : Z) : Prop :=
  KERNEL_VIRTUAL_BASE <= x /\ Pmm.used st ((x - KERNEL_VIRTUAL_BASE) / 4096) = true.

#[export] Program Instance pmm_source : BlockSource Pmm.pmm_state := {
  bs_grow := pmm_grow;
  bs_max := 1048575;
  bs_ok st := exists d, Pmm.pmm_ok d st;
  bs_owned := pmm_owned
}.
Next Obligation. lia. Qed.
Next Obligation.
  intros n st Hn Hn' [d Hok]. unfold pmm_grow.
  destruct (Pmm.pmm_alloc_contiguous_cases d n st Hn Hok)
    as [(i & -> & Hi & Hin & Hfree & _ & Hused & Hok')|[-> _]].
  - unfold Pmm.PAGE_SIZE, Pmm.IDENTITY_MAPPED_PAGES in *.
    destruct (Z.eqb_spec (i * 4096) 0); [lia|].
    rewrite u32_small by (unfold is_u32, KERNEL_VIRTUAL_BASE; lia).
    split; [by exists d|]. split.
    + intros x [Hx1 Hx2]. split; [done|]. rewrite Hused, Hx2. apply orb_true_r.
    + right. unfold KERNEL_VIRTUAL_BASE. split; [lia|]. split; [zmod|]. split; [lia|].
      intros x Hx. unfold pmm_owned, KERNEL_VIRTUAL_BASE. rewrite Hused.
      assert (i <= (x - 0xC0000000) / 4096 < i + n) as Hr by zmod.
      rewrite Hfree by done. split; [intros [_ ?]; done|]. split; [lia|]. zspec; lia || done.
  - simpl. split; [by exists d|]. split; [done|by left].
Qed.

(** ** Properties *)

Section Properties.
Context {S : Type} `{BS : BlockSource S}.


(** Freeing a block in use never fails, keeps the invariant, removes exactly that
    block from those in use, loses no byte of the heap, and leaves no pair of adjacent
    free blocks at the freed position's right edge. *)
Theorem kfree_correct (h : heap) (s : S) pre b post :
  heap_inv h s (pre ++ b :: post) -> b_free b = false ->
  exists h' l', kfree (b_addr b + HEADER_SIZE) h = Some h' /\ heap_inv h' s l'
    /\ live (pre ++ b :: post) ≡ₚ b :: live l'
    /\ footprint l' = footprint (pre ++ b :: post)
    /\ exists f post', l' = pre ++ f :: post' /\ b_addr f = b_addr b /\ b_free f = true
         /\ (forall c, head post = Some c -> b_free c = true -> b_end b = b_addr c ->
               b_end f = b_end c /\ post' = tail post).
Proof.
  intros Hinv Hb. destruct (kfree_step h s pre b post Hinv) as (h' & Hk & Hinv').
  exists h', (pre ++ freed b post). destruct (freed_live b post Hb) as [Hl Hfp].
  split_and!; try done.
  - rewrite !live_app, Hl. symmetry. apply Permutation_middle.
  - by rewrite !footprint_app, Hfp.
  - destruct post as [|c post]; simpl.
    + eexists _, _. split; [reflexivity|]. split_and!; done.
    + destruct (b_free c && (b_end b =? b_addr c)) eqn:E; zbool.
      * eexists _, _. split; [reflexivity|]. split_and!; [done|done|].
        intros d [= <-] _ _. split; [|done]. unfold b_end, HEADER_SIZE in *; simpl. lia.
      * eexists _, _. split; [reflexivity|]. split_and!; [done|done|].
        intros d [= <-] Hc He. rewrite Hc, He, Z.eqb_refl in E. done.
Qed.

(** C7: whatever sequence of allocations and frees a client performs from boot, the
    allocations it holds never overlap and stay 4-aligned below 2^32, and neither the
    next [kmalloc] nor the [kfree] of any pointer it holds can get stuck. *)
Theorem heap_client_safe (h : heap) (s : S) ps :
  client h s ps ->
  ForallOrdPairs apart ps
  /\ Forall (fun a => fst a mod 4 = 0 /\ fst a + snd a <= 4294967296) ps
  /\ (forall size, 0 < size <= max_request S -> exists r, kmalloc size h s = Some r)
  /\ (forall p n, (p, n) ∈ ps -> exists h', kfree p h = Some h').
Proof.
  intros Hc. destruct (client_inv h s ps Hc) as (l & Hinv & Hh).
  destruct (holds_apart ps l) as [Hap Hal]; [apply Hinv|done|].
  split; [done|]. split; [done|]. split.
  - intros size Hsz. destruct (kmalloc_step h s l size Hinv Hsz) as (p & h' & s' & l' & Hk & _). eauto.
  - intros p n Hin. destruct Hh as (bs & Hp & Hf). apply list_elem_of_lookup in Hin as [i Hi].
    destruct (Forall2_lookup_l _ _ _ _ _ Hf Hi) as (b & Hb & [Hpb _]). simpl in Hpb. subst p.
    apply list_elem_of_lookup_2 in Hb. rewrite Hp in Hb. apply list_elem_of_filter in Hb as [_ Hb].
    apply list_elem_of_split in Hb as (pre & post & ->).
    destruct (kfree_step h s pre b post Hinv) as (h' & Hk & _). eauto.
Qed.

End Properties.

(** A kernel heap over a machine with free low pages 2 and 3. *)
Definition demo_pmm : Pmm.pmm_state :=
  Pmm.pmm_free_page (3 * Pmm.PAGE_SIZE) (Pmm.pmm_free_page (2 * Pmm.PAGE_SIZE) Pmm.demo_state).

Lemma demo_empty_inv : heap_inv kmalloc_init demo_pmm [].
Proof.
  split; [done|]. split; [split; constructor|]. split; [exists 0; exact Pmm.demo_contiguous_ok|].
  intros b x Hb. by apply not_elem_of_nil in Hb.
Qed.


(** The heap after one allocation of 100 bytes: one 4 KB block, in use. *)
Definition demo_heap : heap :=
  mk_heap 0xC0002000 {[ 0xC0002000 := mk_hdr 4084 0 0 ]}.

Definition demo_pmm' : Pmm.pmm_state := snd (Pmm.pmm_alloc_contiguous 1 demo_pmm).

Lemma demo_heap_run : kmalloc 100 kmalloc_init demo_pmm = Some (0xC000200C, demo_heap, demo_pmm').
Proof. reflexivity. Qed.

Lemma demo_client : client demo_heap demo_pmm' [(0xC000200C, 100)].
Proof.
  apply (client_alloc kmalloc_init demo_pmm [] 100 0xC000200C); [|vm_compute; intuition congruence|exact demo_heap_run].
  constructor. exists 0. exact Pmm.demo_contiguous_ok.
Qed.

Lemma demo_heap_inv : heap_inv demo_heap demo_pmm' [mk_blk 0xC0002000 4084 false].
Proof.
  assert (1 <= bs_max (S := Pmm.pmm_state)) as H1 by (vm_compute; discriminate).
  pose proof (bs_grow_spec 1 demo_pmm eq_refl H1 (ex_intro _ 0 Pmm.demo_contiguous_ok)) as H. clear H1.
  change (bs_grow 1 demo_pmm) with (pmm_grow 1 demo_pmm) in H.
  assert (pmm_grow 1 demo_pmm = (0xC0002000, demo_pmm')) as E by (vm_compute; reflexivity).
  rewrite E in H. destruct H as (H1 & H2 & [H3|(_ & _ & _ & H3)]); [discriminate H3|].
  apply (heap_inv_append kmalloc_init demo_pmm demo_pmm' [] 0xC0002000 4084).
  - exact demo_empty_inv.
  - exact H1.
  - exact H2.
  - lia.
  - reflexivity.
  - lia.
  - reflexivity.
  - unfold HEADER_SIZE. lia.
  - unfold HEADER_SIZE. exact H3.
  - simpl. split; [reflexivity|]. exists 0. split; reflexivity.
Qed.

Lemma kfree_correct_witness :
  exists h' l', kfree 0xC000200C demo_heap = Some h' /\ heap_inv h' demo_pmm' l'
    /\ live [mk_blk 0xC0002000 4084 false] ≡ₚ mk_blk 0xC0002000 4084 false :: live l'
    /\ footprint l' = 4096.
Proof.
  destruct (kfree_correct demo_heap demo_pmm' [] (mk_blk 0xC0002000 4084 false) []
              demo_heap_inv eq_refl) as (h' & l' & H1 & H2 & H3 & H4 & _).
  exists h', l'. split; [exact H1|]. split; [exact H2|]. split; [exact H3|exact H4].
Defined.

Lemma heap_client_safe_witness :
  (exists r, kmalloc 16 demo_heap demo_pmm' = Some r)
  /\ exists h', kfree 0xC000200C demo_heap = Some h'.
Proof.
  destruct (heap_client_safe demo_heap demo_pmm' _ demo_client) as (_ & _ & H1 & H2).
  split; [apply H1; vm_compute; intuition congruence|apply (H2 _ 100)]. apply elem_of_cons. left. reflexivity.
Defined.

(** The rounding [(size + 3) & ~3] wraps for the last three sizes: such a request is
    served by a block of 4084 bytes instead of failing. *)
Lemma kmalloc_wraps_huge_request :
  kmalloc 0xFFFFFFFE kmalloc_init demo_pmm = Some (0xC000200C, demo_heap, demo_pmm')
  /\ bsize <$> hdrs demo_heap !! 0xC0002000 = Some 4084.
Proof. split; reflexivity. Qed.

End Heap.

(** ** A heap that never runs out

    The [KernelHeap] instance used to run the clients on concrete inputs: fresh
    pointers from a counter. *)

Module BumpHeap.

Record bump := mk_bump { next_ptr : positive; in_use : list Z }.

Definition malloc (n : Z) (a : bump) : option (Z * bump) :=
  if n =? 0 then Some (0, a)
  else Some (Z.pos (next_ptr a), mk_bump (Pos.succ (next_ptr a)) (Z.pos (next_ptr a) :: in_use a)).

Fixpoint remove_one (p : Z) (l : list Z) : option (list Z) :=
  match l with
  | [] => None
  | q :: l => if q =? p then Some l else option_map (cons q) (remove_one p l)
  end.

Definition free (p : Z) (a : bump) : option bump :=
  option_map (mk_bump (next_ptr a)) (remove_one p (in_use a)).

Lemma remove_one_perm p l L : l ≡ₚ p :: L -> exists k, remove_one p l = Some k /\ k ≡ₚ L.
Proof.
  revert L. induction l as [|q l IH]; intros L HL.
  { by apply Permutation_nil_cons in HL. }
  simpl. destruct (Z.eqb_spec q p) as [->|Hne].
  - exists l. split; [done|]. by apply Permutation_cons_inv in HL.
  - assert (p ∈ l) as Hp.
    { assert (p ∈ q :: l) as H by (rewrite HL; apply elem_of_cons; by left).
      apply elem_of_cons in H as [->|]; done. }
    apply list_elem_of_split in Hp as (l1 & l2 & ->).
    destruct (IH (l1 ++ l2)) as (k & -> & Hk); [symmetry; apply Permutation_middle|].
    exists (q :: k). split; [done|]. rewrite Hk.
    apply (Permutation_cons_inv (a := p)). rewrite <- HL.
    rewrite (Permutation_app_comm l1 (p :: l2)). simpl. rewrite (Permutation_app_comm l2 l1).
    apply Permutation_swap.
Qed.

#[global] Program Instance bump_heap : KernelHeap bump := {
  kh_malloc := malloc;
  kh_free := free;
  kh_ok a L := in_use a ≡ₚ L /\ NoDup L /\ Forall (fun p => p < Z.pos (next_ptr a)) L;
  kh_rich _ := True
}.
Next Obligation.
  intros n a L Hn (HL & Hnd & Hlt). unfold malloc. destruct (Z.eqb_spec n 0) as [->|].
  - exists 0, a. split; [done|]. split; [by left|lia].
  - eexists _, _. split; [done|]. split; [|done]. right. split; [done|]. simpl. split; [by rewrite HL|]. split.
    + constructor; [|done]. intros Hin. rewrite Forall_forall in Hlt. specialize (Hlt _ Hin). lia.
    + constructor; [lia|]. eapply Forall_impl; [exact Hlt|]. simpl. lia.
Qed.
Next Obligation.
  intros p a L (HL & Hnd & Hlt). unfold free. destruct (remove_one_perm p (in_use a) L HL) as (k & -> & Hk).
  apply NoDup_cons in Hnd as [_ Hnd]. apply Forall_cons in Hlt as [_ Hlt]. by eexists.
Qed.
Next Obligation. by intros a L (_ & ? & _). Qed.

Definition bump_init : bump := mk_bump 1 [].

Lemma bump_init_ok : kh_ok bump_init [].
Proof. split; [done|]. split; constructor. Qed.

End BumpHeap.
