(* ===== verification/Disk.v ===== *)
(** * The sector device

    What fs/fat32.c relies on of [ata_read] and [ata_write] (drivers/ata.c), as an
    interface, and a disk in memory that satisfies it. *)

From S2P Require Import Prelude.

(** A disk of 512-byte sectors.  A transfer inside the disk may fail; a read never
    changes the contents, a write that succeeds changes exactly the sectors it names,
    and a device that is [bd_good] serves every such transfer. *)
Class BlockDev (D : Type) := {
  ata_read : Z -> Z -> D -> option (Z -> Z) * D;
  ata_write : Z -> Z -> (Z -> Z) -> D -> Z * D;
  bd_byte : D -> Z -> Z;
  bd_sectors : D -> Z;
  bd_good : D -> Prop;
  bd_byte_range : forall d x, is_byte (bd_byte d x);
  bd_read_spec : forall lba n d, 0 < n < 256 -> 0 <= lba -> lba + n <= bd_sectors d ->
    let '(r, d') := ata_read lba n d in
    (forall x, bd_byte d' x = bd_byte d x) /\ bd_sectors d' = bd_sectors d
    /\ match r with
       | Some b => forall i, 0 <= i < 512 * n -> b i = bd_byte d (512 * lba + i)
       | None => True
       end;
  bd_read_good : forall lba n d,
    bd_good d -> 0 < n < 256 -> 0 <= lba -> lba + n <= bd_sectors d ->
    let '(r, d') := ata_read lba n d in bd_good d' /\ r <> None;
  bd_write_spec : forall lba n buf d, 0 < n < 256 -> 0 <= lba -> lba + n <= bd_sectors d ->
    let '(r, d') := ata_write lba n buf d in
    bd_sectors d' = bd_sectors d
    /\ (r = 0 -> forall x, bd_byte d' x = blit (bd_byte d) (512 * lba) (fun i => u8 (buf i)) 0 (512 * n) x);
  bd_write_good : forall lba n buf d,
    bd_good d -> 0 < n < 256 -> 0 <= lba -> lba + n <= bd_sectors d ->
    let '(r, d') := ata_write lba n buf d in bd_good d' /\ r = 0
}.

(** ** A disk in memory *)

Module RamDisk.

Record disk := mk_disk { bytes : Z -> Z; sectors : Z }.

Definition inside (lba n : Z) (d : disk) : bool :=
  (0 <=? lba) && (0 <? n) && (lba + n <=? sectors d).

Definition read (lba n : Z) (d : disk) : option (Z -> Z) * disk :=
  if inside lba n d then (Some (fun i => u8 (bytes d (512 * lba + i))), d) else (None, d).

Definition write (lba n : Z) (buf : Z -> Z) (d : disk) : Z * disk :=
  if inside lba n d
  then (0, mk_disk (blit (bytes d) (512 * lba) buf 0 (512 * n)) (sectors d))
  else (-1, d).

#[global] Program Instance ram_disk : BlockDev disk := {
  ata_read := read;
  ata_write := write;
  bd_byte d x := u8 (bytes d x);
  bd_sectors := sectors;
  bd_good _ := True
}.
Next Obligation. intros. apply u8_bound. Qed.
Next Obligation. intros lba n d _ _ _. unfold read. by destruct (inside lba n d). Qed.
Next Obligation.
  intros lba n d _ Hn Hl Hs. unfold read, inside. by zspec; simpl; try lia.
Qed.
Next Obligation.
  intros lba n buf d _ _ _. unfold write. destruct (inside lba n d); [|done].
  split; [done|]. intros _ x. simpl. unfold blit. by zcase.
Qed.
Next Obligation.
  intros lba n buf d _ Hn Hl Hs. unfold write, inside. by zspec; simpl; try lia.
Qed.

End RamDisk.
