(* ===== verification/Fat32Names.v ===== *)
(** * Directory-entry encodings of the FAT32 driver (fs/fat32.c)

    The pure helpers of the driver: little-endian fields, 8.3 short names, VFAT
    long-name entries and the case-insensitive match.  A byte array is a function
    from offsets; a directory entry is such an array of 32 bytes. *)

From S2P Require Import Prelude.

Module Names.

Definition FAT_ATTR_DIRECTORY : Z := 0x10.
Definition FAT_ATTR_ARCHIVE : Z := 0x20.

Definition read16 (buf : Z -> Z) (offset : Z) : Z :=
  u16 (Z.lor (buf offset) (Z.shiftl (buf (offset + 1)) 8)).

Definition read32 (buf : Z -> Z) (offset : Z) : Z :=
  u32 (Z.lor (Z.lor (Z.lor (buf offset) (Z.shiftl (buf (offset + 1)) 8))
                    (Z.shiftl (buf (offset + 2)) 16))
             (Z.shiftl (buf (offset + 3)) 24)).

Definition to_upper (c : Z) : Z := if (97 <=? c) && (c <=? 122) then c - 32 else c.

Definition LFN_CHAR_OFFSETS : list Z := [1; 3; 5; 7; 9; 14; 16; 18; 20; 22; 24; 28; 30].
Definition lfn_off (k : Z) : Z := nth (Z.to_nat k) LFN_CHAR_OFFSETS 0.

Definition sfn_checksum (sfn : Z -> Z) : Z :=
  for_loop 11 0 (fun i sum =>
    u8 ((if negb (Z.land sum 1 =? 0) then 0x80 else 0) + Z.shiftr sum 1 + sfn i)) 0.

(** The characters of [e[j..lim-1]] up to the first space. *)
Fixpoint until_space (n : nat) (e : Z -> Z) (j : Z) : list Z :=
  match n with
  | O => []
  | S k => if e j =? 32 then [] else e j :: until_space k e (j + 1)
  end.

(** The display name, as the characters written to [out]. *)
Definition sfn_to_name (e : Z -> Z) : list Z :=
  until_space 8 e 0 ++ (if e 8 =? 32 then [] else 46 :: until_space 3 e 8).

(** State of a long name under reassembly: [lfn_buf], [lfn_chk], [lfn_remain] and
    the positions recorded in [lfn_track] by the functions that delete. *)
Record lfn := mk_lfn {
  lfn_buf : Z -> Z; lfn_chk : Z; lfn_remain : Z; lfn_track : list (Z * Z) }.

Definition lfn_init : lfn := mk_lfn (fun _ => 0) 0 0 [].

(** [lfn_remain = 0; lfn_buf[0] = '\0'; lfn_track_count = 0]. *)
Definition lfn_reset (l : lfn) : lfn :=
  mk_lfn ((lfn_buf l).[0 <- 0]) (lfn_chk l) 0 [].

Definition lfn_char (e : Z -> Z) (k : Z) : Z :=
  Z.lor (e (lfn_off k)) (Z.shiftl (e (lfn_off k + 1)) 8).

(** The 13-character loop of [lfn_accumulate]; a negative index is outside
    [lfn_buf]. *)
Fixpoint lfn_copy (n : nat) (k base : Z) (e buf : Z -> Z) : option (Z -> Z) :=
  match n with
  | O => Some buf
  | S n =>
    if base + k <? 255 then
      let c := lfn_char e k in
      if (c =? 0x0000) || (c =? 0xFFFF) then Some buf
      else if base + k <? 0 then None
      else lfn_copy n (k + 1) base e (buf.[base + k <- if c <? 0x80 then c else 63])
    else Some buf
  end.

Definition lfn_accumulate (e : Z -> Z) (l : lfn) : option lfn :=
  let l := if negb (Z.land (e 0) 0x40 =? 0)
           then mk_lfn (fun _ => 0) (e 13) (Z.land (e 0) 0x3F) (lfn_track l) else l in
  let seq := Z.land (e 0) 0x3F in
  let base := (seq - 1) * 13 in
  match lfn_copy 13 0 base e (lfn_buf l) with
  | None => None
  | Some buf =>
    let remain := if 0 <? lfn_remain l then lfn_remain l - 1 else lfn_remain l in
    Some (mk_lfn buf (lfn_chk l) remain (lfn_track l))
  end.

Definition lfn_name (l : lfn) : list Z := cstr 256 (lfn_buf l) 0.

(** [for (i = 0; a[i] || b[i]; i++) if (to_upper(a[i]) != to_upper(b[i])) return 0;] *)
Fixpoint name_match (a b : list Z) : bool :=
  match a, b with
  | [], [] => true
  | x :: a, y :: b => if to_upper x =? to_upper y then name_match a b else false
  | _, _ => false
  end.

(** The long name is complete and belongs to the short entry [e]. *)
Definition lfn_valid (l : lfn) (e : Z -> Z) : bool :=
  negb (lfn_buf l 0 =? 0) && (lfn_remain l =? 0) && (sfn_checksum e =? lfn_chk l).

(** The long name is tried first, then the 8.3 name. *)
Definition entry_match (l : lfn) (e : Z -> Z) (name : list Z) : bool :=
  (lfn_valid l e && name_match (lfn_name l) name)
  || name_match (cut_nul (sfn_to_name e)) name.

(** The loop of [is_valid_83] from the state [base, dot, ext]. *)
Fixpoint valid_83_from (name : list Z) (base : Z) (dot : bool) (ext : Z) : bool :=
  match name with
  | [] => 0 <? base
  | c :: name =>
    if (97 <=? c) && (c <=? 122) then false
    else if c =? 46 then
      if dot then false else if base =? 0 then false else valid_83_from name base true ext
    else if dot then
      if 3 <? ext + 1 then false else valid_83_from name base dot (ext + 1)
    else
      if 8 <? base + 1 then false else valid_83_from name (base + 1) dot ext
  end.

Definition is_valid_83 (name : list Z) : bool := valid_83_from name 0 false 0.

(** [sfn[j++] = to_upper(name[i])] while the name lasts and [j < lim]. *)
Fixpoint copy_upper (name : list Z) (j lim : Z) (sfn : Z -> Z) : Z -> Z :=
  match name with
  | [] => sfn
  | c :: name => if j <? lim then copy_upper name (j + 1) lim (sfn.[j <- to_upper c]) else sfn
  end.

Fixpoint last_dot (name : list Z) (i dot : Z) : Z :=
  match name with
  | [] => dot
  | c :: name => last_dot name (i + 1) (if c =? 46 then i else dot)
  end.

(** Space + , ; = [ ] . double quote * / : < > ? \ | *)
Definition sfn_illegal (c : Z) : bool :=
  existsb (Z.eqb c) [32; 43; 44; 59; 61; 91; 93; 46; 34; 42; 47; 58; 60; 62; 63; 92; 124].

Fixpoint sfn_base (name : list Z) (j : Z) (sfn : Z -> Z) : Z * (Z -> Z) :=
  match name with
  | [] => (j, sfn)
  | c :: name =>
    if j <? 6 then
      let c := to_upper c in
      if sfn_illegal c then sfn_base name j sfn else sfn_base name (j + 1) (sfn.[j <- c])
    else (j, sfn)
  end.

Definition make_sfn (name : list Z) : Z -> Z :=
  let sfn := fun _ => 32 in
  let dot := last_dot name 0 (-1) in
  let base_end := if 0 <=? dot then dot else Z.of_nat (length name) in
  let '(j, sfn) := sfn_base (take (Z.to_nat base_end) name) 0 sfn in
  let sfn := (sfn.[j <- 126]).[j + 1 <- 49] in
  if 0 <=? dot then copy_upper (drop (Z.to_nat (dot + 1)) name) 8 11 sfn else sfn.

Definition lfn_entries_needed (name : list Z) : Z :=
  if is_valid_83 name then 0 else (Z.of_nat (length name) + 12) / 13.

(** One entry of [write_lfn_entries]: number [n] of [lfn_count]. *)
Definition lfn_entry (name : list Z) (sfn_chk lfn_count n : Z) : Z -> Z :=
  let name_len := Z.of_nat (length name) in
  let base := (n - 1) * 13 in
  let e := fun _ => 0 in
  let e := e.[0 <- u8 n] in
  let e := if n =? lfn_count then e.[0 <- Z.lor (e 0) 0x40] else e in
  let e := ((e.[11 <- 0x0F]).[12 <- 0]).[13 <- sfn_chk] in
  for_loop 13 0 (fun k e =>
    let off := lfn_off k in
    let char_pos := base + k in
    let c := if char_pos <? name_len then ch name char_pos
             else if char_pos =? name_len then 0x0000 else 0xFFFF in
    (e.[off <- u8 (Z.land c 0xFF)]).[off + 1 <- u8 (Z.shiftr c 8)]) e.

Definition write_lfn_entries (entries_buf : Z -> Z) (start : Z) (name : list Z)
    (sfn_chk lfn_count : Z) : Z -> Z :=
  for_loop (Z.to_nat lfn_count) 0 (fun m buf =>
    let n := lfn_count - m in
    blit buf ((start + (lfn_count - n)) * 32) (lfn_entry name sfn_chk lfn_count n) 0 32)
    entries_buf.

(** [while (name[ni] && name[ni] != '.' && j < 8)]: the rest of the name and the
    bytes copied. *)
Fixpoint copy_base (name : list Z) (j : Z) (sfn : Z -> Z) : list Z * (Z -> Z) :=
  match name with
  | [] => ([], sfn)
  | c :: rest =>
    if negb (c =? 46) && (j <? 8) then copy_base rest (j + 1) (sfn.[j <- to_upper c])
    else (name, sfn)
  end.

(** The short name of a name that fits in 8.3. *)
Definition encode_83 (name : list Z) : Z -> Z :=
  let '(rest, sfn) := copy_base name 0 (fun _ => 32) in
  match rest with
  | c :: rest => if c =? 46 then copy_upper rest 8 11 sfn else sfn
  | [] => sfn
  end.

Definition entry_sfn (name : list Z) (lfn_count : Z) : Z -> Z :=
  if lfn_count =? 0 then encode_83 name else make_sfn name.

(** ** Entries agree on their 32 bytes *)

Definition entry_eq (e e' : Z -> Z) : Prop := forall j, 0 <= j < 32 -> e j = e' j.

#[global] Instance entry_eq_equiv : Equivalence entry_eq.
Proof.
  split; [by intros e j | intros e e' H j Hj; symmetry; auto |].
  intros e1 e2 e3 H1 H2 j Hj. rewrite H1; auto.
Qed.

#[global] Instance sfn_checksum_proper : Proper (entry_eq ==> eq) sfn_checksum.
Proof.
  intros e e' H. unfold sfn_checksum. apply for_loop_ext. intros i t Hi.
  by rewrite (H i) by lia.
Qed.

Lemma until_space_ext n e e' j :
  0 <= j -> j + Z.of_nat n <= 32 -> entry_eq e e' -> until_space n e j = until_space n e' j.
Proof.
  revert j. induction n as [|n IH]; intros j H0 H1 H; simpl; [done|].
  rewrite (H j) by lia. zcase; [done|]. f_equal. apply IH; [lia|lia|done].
Qed.

#[global] Instance sfn_to_name_proper : Proper (entry_eq ==> eq) sfn_to_name.
Proof.
  intros e e' H. unfold sfn_to_name.
  rewrite (until_space_ext 8 e e'), (until_space_ext 3 e e'), (H 8) by (lia || done). done.
Qed.

Lemma lfn_off_range k : 0 <= k < 13 -> 1 <= lfn_off k <= 30.
Proof.
  intros Hk. unfold lfn_off.
  assert (Z.to_nat k < 13)%nat as Hn by lia. revert Hn. generalize (Z.to_nat k).
  intros n Hn. do 13 (destruct n as [|n]; [simpl; lia|]). lia.
Qed.

Lemma lfn_char_ext e e' k : 0 <= k < 13 -> entry_eq e e' -> lfn_char e k = lfn_char e' k.
Proof.
  intros Hk H. pose proof (lfn_off_range k Hk). unfold lfn_char.
  rewrite (H (lfn_off k)), (H (lfn_off k + 1)) by lia. done.
Qed.

Lemma lfn_copy_ext n k base e e' buf :
  0 <= k -> k + Z.of_nat n <= 13 -> entry_eq e e' ->
  lfn_copy n k base e buf = lfn_copy n k base e' buf.
Proof.
  revert k buf. induction n as [|n IH]; intros k buf H0 H1 H; [done|].
  cbn [lfn_copy]. rewrite (lfn_char_ext e e') by (lia || done). cbv zeta.
  repeat zcase; try done; (apply IH; [lia|lia|done]).
Qed.

#[global] Instance lfn_accumulate_proper : Proper (entry_eq ==> eq ==> eq) lfn_accumulate.
Proof.
  intros e e' H l ? <-. unfold lfn_accumulate.
  by rewrite (lfn_copy_ext 13 0 _ e e'), (H 0), (H 13) by (lia || done).
Qed.

#[global] Instance lfn_valid_proper : Proper (eq ==> entry_eq ==> eq) lfn_valid.
Proof. intros l ? <- e e' H. unfold lfn_valid. by rewrite H. Qed.

#[global] Instance entry_match_proper : Proper (eq ==> entry_eq ==> eq ==> eq) entry_match.
Proof. intros l ? <- e e' H n ? <-. unfold entry_match. by rewrite H. Qed.

(** ** Little-endian fields *)

Lemma read16_eq buf o : is_byte (buf o) -> is_byte (buf (o + 1)) ->
  read16 buf o = buf o + 256 * buf (o + 1).
Proof.
  unfold is_byte, read16, u16. intros.
  rewrite lor_shiftl_add by lia. zmod.
Qed.

Lemma read32_eq buf o :
  is_byte (buf o) -> is_byte (buf (o + 1)) -> is_byte (buf (o + 2)) -> is_byte (buf (o + 3)) ->
  read32 buf o = buf o + 256 * buf (o + 1) + 65536 * buf (o + 2) + 16777216 * buf (o + 3).
Proof.
  unfold is_byte, read32, u32. intros.
  rewrite (lor_shiftl_add _ _ 8), (lor_shiftl_add _ _ 16), (lor_shiftl_add _ _ 24) by lia.
  rewrite Z.mod_small; lia.
Qed.

(** ** Long names *)

(** The names the proofs are about: 7-bit characters, no NUL. *)
Definition ascii_name (name : list Z) : Prop := Forall (fun c => 1 <= c < 128) name.

Lemma ascii_ch name p : ascii_name name -> 0 <= p < Z.of_nat (length name) -> 1 <= ch name p < 128.
Proof.
  intros H Hp. unfold ch. rewrite nth_lookup.
  destruct (lookup_lt_is_Some_2 name (Z.to_nat p)) as [c E]; [lia|]. rewrite E. simpl.
  by apply (Forall_lookup_1 _ _ _ _ H) in E.
Qed.

(** The code unit stored for position [p] of a name. *)
Definition lfn_unit (name : list Z) (p : Z) : Z :=
  if p <? Z.of_nat (length name) then ch name p
  else if p =? Z.of_nat (length name) then 0 else 0xFFFF.

Lemma lfn_unit_bytes name p : ascii_name name -> 0 <= p ->
  let c := lfn_unit name p in
  Z.lor (u8 (Z.land c 0xFF)) (Z.shiftl (u8 (Z.shiftr c 8)) 8) = c.
Proof.
  intros H Hp. unfold lfn_unit. zcase; [|by zcase].
  pose proof (ascii_ch name p H ltac:(lia)) as Hc. cbv zeta.
  change 0xFF with (2 ^ 8 - 1). rewrite land_mask_lo, Z.shiftr_div_pow2 by lia.
  rewrite Z.div_small, Z.mod_small by lia. rewrite u8_small by (unfold is_byte; lia).
  by rewrite Z.lor_0_r.
Qed.

Lemma lfn_entry_char name chk cnt n k : ascii_name name -> 1 <= n -> 0 <= k < 13 ->
  lfn_char (lfn_entry name chk cnt n) k = lfn_unit name ((n - 1) * 13 + k).
Proof.
  intros H Hn Hk. rewrite <- (lfn_unit_bytes name ((n - 1) * 13 + k)) by (done || lia).
  unfold lfn_entry, lfn_char.
  generalize (((((if n =? cnt
             then (((λ _ : Z, 0).[0 <- u8 n])).[0 <- Z.lor (((λ _ : Z, 0).[0 <- u8 n]) 0) 0x40]
             else ((λ _ : Z, 0).[0 <- u8 n])).[11 <- 0x0F]).[12 <- 0]).[13 <- chk])). intros e0.
  fold (lfn_unit name).
  assert (exists i, k = Z.of_nat i /\ (i < 13)%nat) as (i & -> & Hi).
  { exists (Z.to_nat k). lia. }
  clear Hk H. do 13 (destruct i as [|i]; [reflexivity|]). lia.
Qed.

Lemma lfn_entry_fixed name chk cnt n : 1 <= n < 64 ->
  let e := lfn_entry name chk cnt n in
  e 0 = (if n =? cnt then Z.lor n 0x40 else n) /\ e 11 = 0x0F /\ e 13 = chk.
Proof.
  intros Hn. cbv zeta. unfold lfn_entry. rewrite (u8_small n) by (unfold is_byte; lia).
  destruct (n =? cnt); cbn; auto.
Qed.

Lemma lfn_seq n : 1 <= n < 64 ->
  Z.land n 0x40 = 0 /\ Z.land n 0x3F = n
  /\ Z.land (Z.lor n 0x40) 0x40 = 0x40 /\ Z.land (Z.lor n 0x40) 0x3F = n.
Proof.
  intros Hn. pose (chk := fun n => (Z.land n 0x40 =? 0) && (Z.land n 0x3F =? n)
    && (Z.land (Z.lor n 0x40) 0x40 =? 0x40) && (Z.land (Z.lor n 0x40) 0x3F =? n)).
  assert (forallb chk (map Z.of_nat (seq 0 64)) = true) as H by (vm_compute; done).
  rewrite forallb_forall in H. specialize (H n).
  rewrite in_map_iff in H. unfold chk in H.
  assert (exists x, Z.of_nat x = n /\ In x (seq 0 64)) as Hin%H.
  { exists (Z.to_nat n). rewrite in_seq. lia. }
  zbool. auto.
Qed.

(** What the 13-character loop stores for entry number [base / 13 + 1]. *)
Lemma lfn_copy_entry name e n k base buf :
  ascii_name name -> Z.of_nat (length name) <= 255 -> 0 <= base -> 0 <= k ->
  k + Z.of_nat n = 13 ->
  (forall k, 0 <= k < 13 -> lfn_char e k = lfn_unit name (base + k)) ->
  exists buf', lfn_copy n k base e buf = Some buf' /\
  forall p, buf' p = if (base + k <=? p) && (p <? base + 13) && (p <? Z.of_nat (length name))
                     then ch name p else buf p.
Proof.
  intros Ha Hlen Hb Hk Hn He. revert k buf Hk Hn.
  induction n as [|n IH]; intros k buf Hk Hn; cbn [lfn_copy].
  { exists buf. split; [done|]. intros p. zspec; simpl; done || lia. }
  rewrite He by lia. unfold lfn_unit. cbv zeta.
  destruct (Z.ltb_spec (base + k) 255) as [H255|H255].
  2:{ exists buf. split; [done|]. intros p. zspec; simpl; done || lia. }
  destruct (Z.ltb_spec (base + k) (Z.of_nat (length name))) as [Hin|Hout].
  - pose proof (ascii_ch name (base + k) Ha ltac:(lia)) as Hc.
    destruct (Z.eqb_spec (ch name (base + k)) 0); [lia|].
    destruct (Z.eqb_spec (ch name (base + k)) 0xFFFF); [lia|]. simpl orb.
    destruct (Z.ltb_spec (base + k) 0); [lia|].
    destruct (Z.ltb_spec (ch name (base + k)) 0x80); [|lia]. cbv iota.
    destruct (IH (k + 1) (buf.[base + k <- ch name (base + k)])) as (buf' & -> & Hp); [lia|lia|].
    exists buf'. split; [done|]. intros p. rewrite Hp. unfold upd.
    zspec; simpl; try done; try lia. by subst.
  - exists buf. split; [by destruct (Z.eqb_spec (base + k) (Z.of_nat (length name)))|].
    intros p. zspec; simpl; done || lia.
Qed.

(** One [lfn_accumulate] on entry number [n] of a name in [cnt] entries. *)
Lemma lfn_accumulate_entry name chk cnt n l :
  ascii_name name -> Z.of_nat (length name) <= 255 -> 1 <= n <= cnt -> cnt < 64 ->
  (n = cnt \/ lfn_chk l = chk /\ lfn_remain l = n
              /\ forall p, lfn_buf l p = if (n * 13 <=? p) && (p <? Z.of_nat (length name))
                                        then ch name p else 0) ->
  (n = cnt -> Z.of_nat (length name) <= cnt * 13) ->
  exists l', lfn_accumulate (lfn_entry name chk cnt n) l = Some l'
  /\ lfn_chk l' = chk /\ lfn_remain l' = n - 1 /\ lfn_track l' = lfn_track l
  /\ forall p, lfn_buf l' p = if ((n - 1) * 13 <=? p) && (p <? Z.of_nat (length name))
                              then ch name p else 0.
Proof.
  intros Ha Hlen Hn Hcnt Hl Hfit.
  destruct (lfn_entry_fixed name chk cnt n) as (E0 & _ & E13); [lia|].
  destruct (lfn_seq n) as (S1 & S2 & S3 & S4); [lia|].
  unfold lfn_accumulate. rewrite E0, E13.
  assert (forall b, exists buf', lfn_copy 13 0 ((n - 1) * 13) (lfn_entry name chk cnt n) b = Some buf' /\
    forall p, buf' p = if ((n - 1) * 13 <=? p) && (p <? n * 13) && (p <? Z.of_nat (length name))
                       then ch name p else b p) as Hc.
  { intros b. destruct (lfn_copy_entry name (lfn_entry name chk cnt n) 13 0 ((n - 1) * 13) b)
      as (buf' & E & Hp); try done; try lia.
    { intros k Hk. rewrite lfn_entry_char by (done || lia). done. }
    exists buf'. split; [done|]. intros p. rewrite Hp.
    replace ((n - 1) * 13 + 0) with ((n - 1) * 13) by lia.
    replace ((n - 1) * 13 + 13) with (n * 13) by lia. done. }
  destruct (Z.eqb_spec n cnt) as [->|Hne].
  - rewrite S3, S4. simpl negb. cbv iota. simpl lfn_buf. simpl lfn_remain.
    destruct (Hc (fun _ => 0)) as (buf' & -> & Hp). eexists. split; [done|]. simpl.
    destruct (Z.ltb_spec 0 cnt); [|lia]. repeat split; try done.
    intros p. rewrite Hp. specialize (Hfit eq_refl). zspec; simpl; done || lia.
  - rewrite S1, S2. simpl negb. cbv iota.
    destruct Hl as [->|(Hchk & Hrem & Hbuf)]; [done|].
    destruct (Hc (lfn_buf l)) as (buf' & -> & Hp). eexists. split; [done|]. simpl.
    rewrite Hrem. destruct (Z.ltb_spec 0 n); [|lia]. repeat split; try done.
    intros p. rewrite Hp, Hbuf. zspec; simpl; done || lia.
Qed.

(** [write_lfn_entries] fills slot [start + m] with entry number [cnt - m] and
    touches nothing outside its [cnt] slots. *)
Lemma write_lfn_entries_at buf start name chk cnt x : 0 <= cnt ->
  write_lfn_entries buf start name chk cnt x
  = if (start * 32 <=? x) && (x <? (start + cnt) * 32)
    then lfn_entry name chk cnt (cnt - (x - start * 32) / 32) ((x - start * 32) mod 32)
    else buf x.
Proof.
  intros Hc. unfold write_lfn_entries.
  replace (start + cnt) with (start + (0 + Z.of_nat (Z.to_nat cnt))) by lia.
  apply (for_loop_ind (fun m b => forall x, b x =
    if (start * 32 <=? x) && (x <? (start + m) * 32)
    then lfn_entry name chk cnt (cnt - (x - start * 32) / 32) ((x - start * 32) mod 32)
    else buf x)); clear x.
  { intros x. zspec; simpl; done || lia. }
  intros m b Hm IH x. replace (cnt - (cnt - m)) with m by lia.
  destruct (decide ((start + m) * 32 <= x < (start + m) * 32 + 32)).
  - rewrite blit_in by lia.
    assert ((x - start * 32) / 32 = m) as -> by zmod.
    replace ((x - start * 32) mod 32) with (0 + (x - (start + m) * 32)) by zmod.
    zspec; simpl; done || lia.
  - rewrite blit_out, IH by lia. zspec; simpl; done || lia.
Qed.

(** Slots [m .. m + n - 1] of a directory buffer, accumulated in order. *)
Fixpoint read_slots (n : nat) (m : Z) (buf : Z -> Z) (l : lfn) : option lfn :=
  match n with
  | O => Some l
  | S n => match lfn_accumulate (fun j => buf (m * 32 + j)) l with
           | Some l => read_slots n (m + 1) buf l
           | None => None
           end
  end.

Lemma ascii_nonzero name : ascii_name name -> Forall (fun c => c <> 0) name.
Proof. intros H. eapply Forall_impl; [exact H|]. simpl. lia. Qed.

Lemma read_slots_lfn name chk cnt buf start (n : nat) l :
  ascii_name name -> 1 <= Z.of_nat (length name) <= 255 ->
  cnt = (Z.of_nat (length name) + 12) / 13 -> Z.of_nat n <= cnt ->
  (forall x, start * 32 <= x < (start + cnt) * 32 ->
     buf x = lfn_entry name chk cnt (cnt - (x - start * 32) / 32) ((x - start * 32) mod 32)) ->
  (Z.of_nat n = cnt \/ lfn_chk l = chk /\ lfn_remain l = Z.of_nat n
     /\ forall p, lfn_buf l p = if (Z.of_nat n * 13 <=? p) && (p <? Z.of_nat (length name))
                               then ch name p else 0) ->
  exists l', read_slots n (start + cnt - Z.of_nat n) buf l = Some l'
  /\ (n <> O -> lfn_chk l' = chk /\ lfn_remain l' = 0 /\ lfn_track l' = lfn_track l
     /\ forall p, lfn_buf l' p = if (0 <=? p) && (p <? Z.of_nat (length name)) then ch name p else 0).
Proof.
  intros Ha Hlen Hcnt Hn Hbuf. revert l Hn. induction n as [|n IH]; intros l Hn Hl.
  { by exists l. }
  cbn [read_slots]. set (k := Z.of_nat (S n)) in *.
  rewrite (lfn_accumulate_proper _ (lfn_entry name chk cnt k)) with (y := l); [|..|reflexivity].
  2:{ intros j Hj. rewrite Hbuf by lia.
      assert (((start + cnt - k) * 32 + j - start * 32) / 32 = cnt - k) as -> by zmod.
      replace (cnt - (cnt - k)) with k by lia. f_equal. zmod. }
  assert (cnt * 13 >= Z.of_nat (length name) /\ cnt < 64) as [? ?] by (subst cnt; zmod).
  destruct (lfn_accumulate_entry name chk cnt k l) as (l1 & E & Hc & Hr & Ht & Hb); try done; try lia.
  rewrite E. destruct n as [|n].
  - exists l1. split; [done|]. intros _. repeat split; try done; try lia.
  - destruct (IH l1) as (l' & E' & Hl'); [lia| |].
    { right. repeat split; [done | lia |]. intros p. rewrite Hb. by replace (k - 1) with (Z.of_nat (S n)) by lia. }
    exists l'. replace (start + cnt - k + 1) with (start + cnt - Z.of_nat (S n)) by lia.
    split; [done|]. intros _. destruct Hl' as (? & ? & ? & ?); [done|]. repeat split; try done. congruence.
Qed.

(** Reading back the slots [write_lfn_entries] wrote gives the name. *)
Lemma lfn_slots_roundtrip name chk buf start l :
  ascii_name name -> 1 <= Z.of_nat (length name) <= 255 ->
  let cnt := (Z.of_nat (length name) + 12) / 13 in
  exists l', read_slots (Z.to_nat cnt) start (write_lfn_entries buf start name chk cnt) l = Some l'
  /\ lfn_name l' = name /\ lfn_chk l' = chk /\ lfn_remain l' = 0 /\ lfn_track l' = lfn_track l
  /\ lfn_buf l' 0 <> 0.
Proof.
  intros Ha Hlen cnt. assert (0 < cnt) by (subst cnt; zmod).
  destruct (read_slots_lfn name chk cnt (write_lfn_entries buf start name chk cnt) start (Z.to_nat cnt) l)
    as (l' & E & Hl); try done; try lia.
  { intros x Hx. rewrite write_lfn_entries_at by lia. zspec; simpl; done || lia. }
  replace (start + cnt - Z.of_nat (Z.to_nat cnt)) with start in E by lia.
  destruct Hl as (Hc & Hr & Ht & Hb); [lia|].
  exists l'. repeat split; try done.
  - apply cstr_name; [by apply ascii_nonzero | lia |]. intros p Hp. rewrite Hb, Z.add_0_l.
    zspec; simpl; try done; try lia. by rewrite ch_beyond by lia.
  - rewrite Hb. pose proof (ascii_ch name 0 Ha ltac:(lia)). zspec; simpl; lia.
Qed.

(** ** Short names *)

Lemma to_upper_id c : ~ 97 <= c <= 122 -> to_upper c = c.
Proof. intros. unfold to_upper. zspec; simpl; done || lia. Qed.

(** A character that is stored unchanged in a short name and read back. *)
Definition plain_char (c : Z) : Prop := c <> 46 /\ c <> 32 /\ c <> 0 /\ ~ 97 <= c <= 122.

Lemma valid_83_ext name base ext :
  valid_83_from name base true ext = true -> 0 <= ext <= 3 -> Forall (fun c => c <> 32 /\ c <> 0) name ->
  ext + Z.of_nat (length name) <= 3 /\ Forall plain_char name.
Proof.
  revert ext. induction name as [|c name IH]; intros ext H He Hf; [split; [simpl; lia | done]|].
  apply Forall_cons in Hf as [Hc Hf]. cbn [valid_83_from] in H.
  destruct (Z.leb_spec 97 c), (Z.leb_spec c 122); simpl in H; try done; (zcase_in H; [done|]);
    (zcase_in H; [done|]); apply IH in H as [? ?]; try lia; try done;
    (split; [simpl; lia | constructor; [unfold plain_char; lia | done]]).
Qed.

(** A valid 8.3 name is a base of one to eight characters, alone or followed by a
    dot and at most three more. *)
Lemma valid_83_split name base :
  valid_83_from name base false 0 = true -> 0 <= base <= 8 ->
  Forall (fun c => c <> 32 /\ c <> 0) name ->
  exists b r, name = b ++ r /\ Forall plain_char b /\ 1 <= base + Z.of_nat (length b) <= 8
  /\ (r = [] \/ exists ext, r = 46 :: ext /\ Forall plain_char ext /\ Z.of_nat (length ext) <= 3).
Proof.
  revert base. induction name as [|c name IH]; intros base H Hb Hf; cbn [valid_83_from] in H.
  { zbool. exists [], []. repeat split; try constructor; simpl; try lia. done. }
  apply Forall_cons in Hf as [Hc Hf].
  destruct (Z.leb_spec 97 c), (Z.leb_spec c 122); simpl in H; try done.
  all: destruct (Z.eqb_spec c 46) as [->|];
    [ destruct (Z.eqb_spec base 0); [done|]; apply valid_83_ext in H as [? ?]; [|lia|done];
      exists [], (46 :: name); repeat split; [constructor | simpl; lia | simpl; lia |]; right;
      exists name; repeat split; done || lia
    | zcase_in H; [done|]; apply IH in H as (b & r & -> & Hpb & Hl & Hr); [|lia|done];
      exists (c :: b), r; repeat split; [|simpl in *; lia|simpl in *; lia|done];
      constructor; [unfold plain_char; lia | done] ].
Qed.

Lemma copy_upper_at name j lim sfn x :
  Forall plain_char name -> j + Z.of_nat (length name) <= lim ->
  copy_upper name j lim sfn x
  = if (j <=? x) && (x <? j + Z.of_nat (length name)) then ch name (x - j) else sfn x.
Proof.
  revert j sfn. induction name as [|c name IH]; intros j sfn Hf Hl; cbn [copy_upper length] in *.
  { zspec; simpl; done || lia. }
  apply Forall_cons in Hf as [Hc Hf]. destruct (Z.ltb_spec j lim); [|lia].
  rewrite IH by (done || lia). rewrite to_upper_id by apply Hc. unfold upd.
  destruct (Z.eqb_spec x j) as [->|].
  - rewrite Z.sub_diag. zspec; simpl; try done; try lia.
  - unfold ch. zspec; simpl; try done; try lia.
    by replace (Z.to_nat (x - j)) with (S (Z.to_nat (x - (j + 1)))) by lia.
Qed.

Lemma copy_base_eq b r j sfn :
  Forall plain_char b -> j + Z.of_nat (length b) <= 8 -> (r = [] \/ exists ext, r = 46 :: ext) ->
  copy_base (b ++ r) j sfn = (r, copy_upper b j 8 sfn).
Proof.
  intros Hf. revert j sfn. induction Hf as [|c b Hc Hf IH]; intros j sfn Hl Hr; simpl.
  { by destruct Hr as [->|[ext ->]]. }
  simpl in Hl. destruct (Z.eqb_spec c 46); [by apply Hc in e|].
  destruct (Z.ltb_spec j 8); [|lia]. simpl. apply IH; [lia|done].
Qed.

Lemma until_space_eq (l : list Z) (n : nat) e j :
  Forall plain_char l -> (length l <= n)%nat ->
  (forall i, 0 <= i < Z.of_nat (length l) -> e (j + i) = ch l i) ->
  ((length l < n)%nat -> e (j + Z.of_nat (length l)) = 32) ->
  until_space n e j = l.
Proof.
  intros Hf. revert n j. induction Hf as [|c l Hc Hf IH]; intros n j Hn He Hs; simpl in *.
  { destruct n; [done|]. simpl. rewrite Z.add_0_r in Hs. by rewrite Hs by lia. }
  destruct n as [|n]; [lia|]. simpl.
  pose proof (He 0 ltac:(lia)) as H0. rewrite Z.add_0_r in H0. rewrite H0.
  unfold ch at 1. simpl. destruct (Z.eqb_spec c 32); [by apply Hc in e0|].
  unfold ch. simpl. f_equal. apply IH; [lia| |].
  - intros i Hi. replace (j + 1 + i) with (j + (i + 1)) by lia. rewrite He by lia.
    unfold ch. by replace (Z.to_nat (i + 1)) with (S (Z.to_nat i)) by lia.
  - intros. rewrite <- Hs by lia. f_equal. lia.
Qed.

(** Encoding a valid 8.3 name without blanks and without a final dot, and reading
    the entry back, gives the name. *)
Lemma sfn_roundtrip name :
  is_valid_83 name = true -> Forall (fun c => c <> 32 /\ c <> 0) name -> last name <> Some 46 ->
  sfn_to_name (encode_83 name) = name.
Proof.
  intros Hv Hf Hlast. unfold is_valid_83 in Hv.
  apply valid_83_split in Hv as (b & r & -> & Hpb & Hl & Hr); [|lia|done].
  unfold encode_83. rewrite copy_base_eq; [|done|lia|destruct Hr as [->|(x & -> & _)]; eauto].
  unfold sfn_to_name. destruct Hr as [->|(ext & -> & Hpe & Hle)].
  - rewrite (until_space_eq b 8) by (try done; try lia; intros; rewrite copy_upper_at by (done || lia);
      zspec; simpl; try lia; f_equal; lia).
    assert (copy_upper b 0 8 (fun _ => 32) 8 = 32) as ->; [|done].
    rewrite copy_upper_at by (done || lia). destruct (Z.ltb_spec 8 (0 + Z.of_nat (length b))); [lia|].
    by rewrite andb_false_r.
  - rewrite Z.eqb_refl.
    assert (forall x, copy_upper ext 8 11 (copy_upper b 0 8 (fun _ => 32)) x
      = if (8 <=? x) && (x <? 8 + Z.of_nat (length ext)) then ch ext (x - 8)
        else if (0 <=? x) && (x <? Z.of_nat (length b)) then ch b x else 32) as He.
    { intros x. rewrite !copy_upper_at by (done || lia). by rewrite Z.sub_0_r, Z.add_0_l. }
    rewrite (until_space_eq b 8) by (try done; try lia; intros; rewrite He;
      zspec; simpl; try lia; f_equal; lia).
    destruct ext as [|c ext]; [by rewrite last_snoc in Hlast|].
    rewrite (until_space_eq (c :: ext) 3) by (try done; simpl in *; try lia; intros; rewrite He;
      simpl length; zspec; simpl; try lia; f_equal; lia).
    rewrite He. simpl length. apply Forall_cons in Hpe as [(? & ? & ?) _].
    destruct (Z.leb_spec 8 8); [|lia]. destruct (Z.ltb_spec 8 (8 + Z.of_nat (S (length ext)))); [|lia].
    change (ch (c :: ext) (8 - 8)) with c. cbn [andb].
    destruct (Z.eqb_spec c 32); [done|]. done.
Qed.

End Names.
