(* ===== verification/Fat32.v ===== *)
(** * The FAT32 driver (fs/fat32.c)

    The driver's operations over a sector device and the kernel heap.  The fields
    that [fat32_init] extracts from the boot sector are a [geom], constant after
    mounting; the rest of the driver's variables, the device, the heap and the
    characters sent to the terminal are the state [fs].  A [char*] that may be NULL
    is an [option]; buffers are functions from offsets to bytes.  Every cluster-chain
    walk is bounded in the source by [chain_limit], which is the fuel here. *)

From S2P Require Import Prelude Heap Disk Fat32Names.

Module Fat32.

Import Names.

Definition FAT32_EOC : Z := 0x0FFFFFF8.
Definition FAT32_FREE : Z := 0.
Definition MAX_LFN_TRACK : nat := 20.

(** Fields extracted from the BPB and the two computed ones. *)
Record geom := mk_geom {
  bytes_per_sector : Z; sectors_per_cluster : Z; reserved_sectors : Z; fat_count : Z;
  total_sectors : Z; fat_size : Z; root_cluster : Z;
  fat_start : Z; data_start : Z }.

Section Driver.
Context {D A : Type} `{BD : BlockDev D} `{KH : KernelHeap A}.

Record fs := mk_fs { cwd_cluster : Z; cwd_path : list Z; dev : D; mem : A; term : list Z }.

Definition set_dev (d : D) (s : fs) : fs := mk_fs (cwd_cluster s) (cwd_path s) d (mem s) (term s).
Definition set_mem (a : A) (s : fs) : fs := mk_fs (cwd_cluster s) (cwd_path s) (dev s) a (term s).
Definition set_cwd (c : Z) (p : list Z) (s : fs) : fs := mk_fs c p (dev s) (mem s) (term s).
Definition put_term (t : list Z) (s : fs) : fs :=
  mk_fs (cwd_cluster s) (cwd_path s) (dev s) (mem s) (term s ++ t).

(** Calls into the drivers and the heap. *)
Definition disk_read (lba n : Z) : st fs (option (Z -> Z)) := fun s =>
  let '(r, d) := ata_read lba n (dev s) in Some (r, set_dev d s).
Definition disk_write (lba n : Z) (buf : Z -> Z) : st fs Z := fun s =>
  let '(r, d) := ata_write lba n buf (dev s) in Some (r, set_dev d s).
Definition kmalloc (n : Z) : st fs Z := fun s =>
  match kh_malloc n (mem s) with Some (p, a) => Some (p, set_mem a s) | None => None end.
Definition kfree (p : Z) : st fs unit := fun s =>
  match kh_free p (mem s) with Some a => Some (tt, set_mem a s) | None => None end.

(** [fat32_init]: the geometry of the mounted volume, or [None] for -1. *)
Definition fat32_init (s : fs) : option geom * fs :=
  match ata_read 0 1 (dev s) with
  | (None, d) => (None, set_dev d s)
  | (Some boot_sector, d) =>
    let bps := read16 boot_sector 11 in
    let spc := boot_sector 13 in
    let reserved := read16 boot_sector 14 in
    let count := boot_sector 16 in
    let total := read32 boot_sector 32 in
    let fsize := read32 boot_sector 36 in
    let root := read32 boot_sector 44 in
    if negb (bps =? 512) then (None, set_dev d s)
    else if spc =? 0 then (None, set_dev d s)
    else if count =? 0 then (None, set_dev d s)
    else
      let fat_start := reserved in
      let data_start := u32 (fat_start + count * fsize) in
      (Some (mk_geom bps spc reserved count total fsize root fat_start data_start),
       set_cwd root [47] (set_dev d s))
  end.

Context (g : geom).

Definition cluster_bytes : Z := sectors_per_cluster g * 512.
Definition entries_per_cluster : nat := Z.to_nat (sectors_per_cluster g * 512 / 32).

Definition max_chain_length : Z :=
  u32 (total_sectors g - data_start g) / sectors_per_cluster g.

Definition cluster_to_lba (cluster : Z) : Z :=
  if cluster <? 2 then 0xFFFFFFFF
  else u32 (data_start g + (cluster - 2) * sectors_per_cluster g).

(** A cluster number that a chain walk follows. *)
Definition in_chain (cluster : Z) : bool := (2 <=? cluster) && (cluster <? FAT32_EOC).

(** ** The file allocation table *)

Definition fat_next_cluster (cluster : Z) : st fs Z :=
  let fat_offset := u32 (cluster * 4) in
  let fat_sector := u32 (fat_start g + fat_offset / bytes_per_sector g) in
  let entry_offset := fat_offset mod bytes_per_sector g in
  let* r := disk_read fat_sector 1 in
  match r with
  | None => ret 0
  | Some sector => ret (Z.land (read32 sector entry_offset) 0x0FFFFFFF)
  end.

Definition fat_set_cluster (cluster value : Z) : st fs Z :=
  let fat_offset := u32 (cluster * 4) in
  let fat_sector := u32 (fat_start g + fat_offset / bytes_per_sector g) in
  let entry_offset := fat_offset mod bytes_per_sector g in
  let* r := disk_read fat_sector 1 in
  match r with
  | None => ret (-1)
  | Some sector =>
    let existing := read32 sector entry_offset in
    let newval := Z.lor (Z.land existing 0xF0000000) (Z.land value 0x0FFFFFFF) in
    let sector := sector.[entry_offset + 0 <- u8 (Z.land newval 0xFF)] in
    let sector := sector.[entry_offset + 1 <- u8 (Z.land (Z.shiftr newval 8) 0xFF)] in
    let sector := sector.[entry_offset + 2 <- u8 (Z.land (Z.shiftr newval 16) 0xFF)] in
    let sector := sector.[entry_offset + 3 <- u8 (Z.land (Z.shiftr newval 24) 0xFF)] in
    let* w := disk_write fat_sector 1 sector in
    if negb (w =? 0) then ret (-1) else ret 0
  end.

Fixpoint free_chain_loop (chain_left : nat) (cluster : Z) : st fs unit :=
  if in_chain cluster then
    match chain_left with
    | O => ret tt
    | S k =>
      let* next := fat_next_cluster cluster in
      fat_set_cluster cluster FAT32_FREE ;;
      free_chain_loop k next
    end
  else ret tt.

Definition fat_free_chain (cluster : Z) : st fs unit :=
  free_chain_loop (Z.to_nat max_chain_length) cluster.

(** [for (cluster = 2; cluster < total_clusters + 2; cluster++)]. *)
Fixpoint alloc_cluster_loop (n : nat) (cluster : Z) : st fs Z :=
  match n with
  | O => ret 0
  | S k =>
    let* val := fat_next_cluster cluster in
    if val =? FAT32_FREE then
      let* r := fat_set_cluster cluster 0x0FFFFFFF in
      if negb (r =? 0) then ret 0 else ret cluster
    else alloc_cluster_loop k (cluster + 1)
  end.

Definition fat_alloc_cluster : st fs Z :=
  let total_clusters := u32 (total_sectors g - data_start g) / sectors_per_cluster g in
  alloc_cluster_loop (Z.to_nat (u32 (total_clusters + 2) - 2)) 2.

Definition read_cluster (cluster : Z) : st fs (option (Z -> Z)) :=
  disk_read (cluster_to_lba cluster) (sectors_per_cluster g).

Definition write_cluster (cluster : Z) (buffer : Z -> Z) : st fs Z :=
  if cluster <? 2 then ret (-1)
  else disk_write (cluster_to_lba cluster) (sectors_per_cluster g) buffer.

(** ** Scanning a directory *)

Definition entry (buf : Z -> Z) (i : Z) : Z -> Z := fun j => buf (i * 32 + j).

Definition entry_cluster (e : Z -> Z) : Z :=
  Z.lor (Z.shiftl (read16 e 20) 16) (read16 e 26).

(** What the loop over the entries of one cluster ends with: a hit at an index, the
    0x00 end marker, or the end of the cluster. *)
Inductive scan_result :=
| SHit (i : Z) (l : lfn)
| SEnd
| SMore (l : lfn).

(** [lfn_track[lfn_track_count++] = (cluster, i)] while there is room. *)
Definition track (cluster i : Z) (l : lfn) : lfn :=
  if (length (lfn_track l) <? MAX_LFN_TRACK)%nat
  then mk_lfn (lfn_buf l) (lfn_chk l) (lfn_remain l) (lfn_track l ++ [(cluster, i)])
  else l.

(** The entry loop of every lookup: deleted, long-name, volume-label and unwanted
    entries are passed over; [want] is the test on the attribute byte.  The
    functions that do not delete keep no [lfn_track]. *)
Fixpoint scan_entries (want : Z -> bool) (name : list Z) (cluster : Z) (buf : Z -> Z)
    (n : nat) (i : Z) (l : lfn) : option scan_result :=
  match n with
  | O => Some (SMore l)
  | S k =>
    let e := entry buf i in
    if e 0 =? 0x00 then Some SEnd
    else if e 0 =? 0xE5 then scan_entries want name cluster buf k (i + 1) (lfn_reset l)
    else
      let attr := e 11 in
      if attr =? 0x0F then
        match lfn_accumulate e l with
        | None => None
        | Some l => scan_entries want name cluster buf k (i + 1) (track cluster i l)
        end
      else if attr =? 0x08 then scan_entries want name cluster buf k (i + 1) (lfn_reset l)
      else if negb (want attr) then scan_entries want name cluster buf k (i + 1) (lfn_reset l)
      else if entry_match l e name then Some (SHit i l)
      else scan_entries want name cluster buf k (i + 1) (lfn_reset l)
  end.

(** A hit: the cluster, the index in it, the cluster's bytes and the long-name
    state at the entry. *)
Record hit := mk_hit { h_cluster : Z; h_idx : Z; h_buf : Z -> Z; h_lfn : lfn }.

Definition h_entry (h : hit) : Z -> Z := entry (h_buf h) (h_idx h).

Fixpoint scan_chain (chain_left : nat) (want : Z -> bool) (name : list Z) (cluster : Z) (l : lfn)
  : st fs (option hit) :=
  if in_chain cluster then
    match chain_left with
    | O => ret None
    | S k =>
      let* r := read_cluster cluster in
      match r with
      | None => ret None
      | Some buf =>
        let* res := lift_opt (scan_entries want name cluster buf entries_per_cluster 0 l) in
        match res with
        | SHit i l => ret (Some (mk_hit cluster i buf l))
        | SEnd => ret None
        | SMore l =>
          let* next := fat_next_cluster cluster in
          scan_chain k want name next l
        end
      end
    end
  else ret None.

Definition scan_dir (want : Z -> bool) (name : list Z) (cluster : Z) : st fs (option hit) :=
  scan_chain (Z.to_nat max_chain_length) want name cluster lfn_init.

Definition want_dir (attr : Z) : bool := negb (Z.land attr FAT_ATTR_DIRECTORY =? 0).
Definition want_file (attr : Z) : bool := Z.land attr FAT_ATTR_DIRECTORY =? 0.
Definition want_any (attr : Z) : bool := true.

(** The cluster a directory entry points to; 0 stands for the root. *)
Definition dir_target (h : hit) : Z :=
  let c := entry_cluster (h_entry h) in if c =? 0 then root_cluster g else c.

(** Search for a subdirectory, with its own buffer: [None] when [kmalloc] fails or
    nothing matches. *)
Definition find_subdir (name : list Z) (cluster : Z) : st fs (option Z) :=
  let* buf := kmalloc cluster_bytes in
  if buf =? 0 then ret None
  else
    let* h := scan_dir want_dir name cluster in
    kfree buf ;;
    match h with
    | Some h => ret (Some (dir_target h))
    | None => ret None
    end.

(** [while (path[i] && path[i] != '/') i++]. *)
Fixpoint upto_slash (path : list Z) : nat :=
  match path with
  | [] => O
  | c :: path => if c =? 47 then O else S (upto_slash path)
  end.

(** The component loop of [fat32_resolve_path]; each round drops at least the slash
    from the path. *)
Fixpoint resolve_loop (fuel : nat) (cluster : Z) (path : list Z) : st fs (option (Z * list Z)) :=
  match fuel with
  | O => undef
  | S k =>
    let i := upto_slash path in
    if ch path (Z.of_nat i) =? 0 then ret (Some (cluster, path))
    else
      let component := take 255 (take i path) in
      let* found := find_subdir component cluster in
      match found with
      | None => ret None
      | Some cluster => resolve_loop k cluster (drop (S i) path)
      end
  end.

(** [fat32_resolve_path]: the directory cluster and the last component. *)
Definition fat32_resolve_path (path : list Z) : st fs (option (Z * list Z)) :=
  let* cwd := gets cwd_cluster in
  let cluster := if ch path 0 =? 47 then root_cluster g else cwd in
  let path := if ch path 0 =? 47 then drop 1 path else path in
  resolve_loop (S (length path)) cluster path.

(** ** Listing and completion *)

(** The loop over displayed entries: [f] is the loop's body for a name and its
    attributes. *)
Fixpoint visit_entries {X} (f : list Z -> Z -> X -> X) (buf : Z -> Z) (n : nat) (i : Z)
    (l : lfn) (x : X) : option ((lfn + unit) * X) :=
  match n with
  | O => Some (inl l, x)
  | S k =>
    let e := entry buf i in
    if e 0 =? 0x00 then Some (inr tt, x)
    else if e 0 =? 0xE5 then visit_entries f buf k (i + 1) (lfn_reset l) x
    else
      let attr := e 11 in
      if attr =? 0x0F then
        match lfn_accumulate e l with
        | None => None
        | Some l => visit_entries f buf k (i + 1) l x
        end
      else if attr =? 0x08 then visit_entries f buf k (i + 1) (lfn_reset l) x
      else
        let display := if lfn_valid l e then take 254 (lfn_name l) else cut_nul (sfn_to_name e) in
        visit_entries f buf k (i + 1) (lfn_reset l) (f display attr x)
  end.

Fixpoint visit_chain {X} (f : list Z -> Z -> X -> X) (chain_left : nat) (cluster : Z)
    (l : lfn) (x : X) : st fs X :=
  if in_chain cluster then
    match chain_left with
    | O => ret x
    | S k =>
      let* r := read_cluster cluster in
      match r with
      | None => ret x
      | Some buf =>
        let* res := lift_opt (visit_entries f buf entries_per_cluster 0 l x) in
        match res with
        | (inr _, x) => ret x
        | (inl l, x) =>
          let* next := fat_next_cluster cluster in
          visit_chain f k next l x
        end
      end
    end
  else ret x.

(** What [fat32_list_dir] prints for one entry. *)
Definition list_line (display : list Z) (attr : Z) (out : list Z) : list Z :=
  out ++ display ++ (if want_dir attr then [47] else []) ++ [10].

Definition list_cluster (cluster : Z) : st fs Z :=
  let* buf := kmalloc cluster_bytes in
  if buf =? 0 then ret (-1)
  else
    let* out := visit_chain list_line (Z.to_nat max_chain_length) cluster lfn_init [] in
    modify (put_term out) ;;
    kfree buf ;;
    ret 0.

Definition fat32_list_dir (path : option (list Z)) : st fs Z :=
  match path with
  | None | Some [] => let* cwd := gets cwd_cluster in list_cluster cwd
  | Some [47] => list_cluster (root_cluster g)
  | Some path =>
    let* r := fat32_resolve_path path in
    match r with
    | None => ret (-1)
    | Some (parent, dirname) =>
      let* c := find_subdir dirname parent in
      match c with
      | None => ret (-1)
      | Some cluster => list_cluster cluster
      end
    end
  end.

(** [for (j < name_prefix_len) if (to_upper(display[j]) != to_upper(name_prefix[j]))]. *)
Fixpoint prefix_match (display prefix : list Z) : bool :=
  match prefix with
  | [] => true
  | p :: prefix =>
    match display with
    | [] => false
    | c :: display => if to_upper c =? to_upper p then prefix_match display prefix else false
    end
  end.

Definition prefix_entry (name_prefix dir_part : list Z) (max_matches : Z)
    (display : list Z) (attr : Z) (matches : list (list Z)) : list (list Z) :=
  if ch display 0 =? 46 then matches
  else if prefix_match display name_prefix && (Z.of_nat (length matches) <? max_matches)
  then matches ++ [take 255 (dir_part ++ display)]
  else matches.

Definition prefix_scan (name_prefix dir_part : list Z) (max_matches cluster : Z)
  : st fs (list (list Z)) :=
  let* buf := kmalloc cluster_bytes in
  if buf =? 0 then ret []
  else
    let* m := visit_chain (prefix_entry name_prefix dir_part max_matches)
                (Z.to_nat max_chain_length) cluster lfn_init [] in
    kfree buf ;;
    ret m.

Fixpoint last_slash (path : list Z) (i acc : Z) : Z :=
  match path with
  | [] => acc
  | c :: path => last_slash path (i + 1) (if c =? 47 then i else acc)
  end.

(** [fat32_find_prefix]: the matches, whose number is the return value. *)
Definition fat32_find_prefix (prefix : option (list Z)) (max_matches : Z)
  : st fs (list (list Z)) :=
  match prefix with
  | None => ret []
  | Some prefix =>
    let ls := last_slash prefix 0 (-1) in
    if 0 <=? ls then
      let dir_part := take 255 (take (Z.to_nat (ls + 1)) prefix) in
      let name_prefix := drop (Z.to_nat (ls + 1)) prefix in
      let rp := take 254 dir_part in
      let rp := if negb (length rp =? 0)%nat && (ch rp (Z.of_nat (length rp) - 1) =? 47)
                then take (length rp - 1) rp else rp in
      let* r := fat32_resolve_path rp in
      match r with
      | None => ret []
      | Some (parent, dirname) =>
        if (length dirname =? 0)%nat then prefix_scan name_prefix dir_part max_matches parent
        else
          let* c := find_subdir dirname parent in
          match c with
          | None => ret []
          | Some cluster => prefix_scan name_prefix dir_part max_matches cluster
          end
      end
    else
      let* cwd := gets cwd_cluster in
      prefix_scan prefix [] max_matches cwd
  end.

(** ** Reading files *)

(** [fat32_lookup_file]: first cluster and size.  After a hit the source still asks
    for the next cluster before it leaves the loop. *)
Definition fat32_lookup_file (path : option (list Z)) : st fs (option (Z * Z)) :=
  match path with
  | None => ret None
  | Some path =>
    let* r := fat32_resolve_path path in
    match r with
    | None => ret None
    | Some (cluster, name) =>
      let* buf := kmalloc cluster_bytes in
      if buf =? 0 then ret None
      else
        let* h := scan_dir want_file name cluster in
        match h with
        | None => kfree buf ;; ret None
        | Some h =>
          let e := h_entry h in
          fat_next_cluster (h_cluster h) ;;
          kfree buf ;;
          ret (Some (entry_cluster e, read32 e 28))
        end
    end
  end.

(** The copy loop of [fat32_read_file]: bytes read so far and the output buffer. *)
Fixpoint read_loop (chain_left : nat) (cluster file_size bytes_read : Z) (out : Z -> Z)
  : st fs (Z * (Z -> Z)) :=
  if in_chain cluster && (bytes_read <? file_size) then
    match chain_left with
    | O => ret (bytes_read, out)
    | S k =>
      let* r := read_cluster cluster in
      match r with
      | None => ret (bytes_read, out)
      | Some buf =>
        let remaining := u32 (file_size - bytes_read) in
        let to_copy := if remaining <? cluster_bytes then remaining else cluster_bytes in
        let out := blit out bytes_read buf 0 to_copy in
        let* next := fat_next_cluster cluster in
        read_loop k next file_size (u32 (bytes_read + to_copy)) out
      end
    end
  else ret (bytes_read, out).

(** [fat32_read_file]: [None] for -1, else [*size] and the buffer. *)
Definition fat32_read_file (path : option (list Z)) (buffer : option (Z -> Z)) (bufsize : Z)
  : st fs (option (Z * (Z -> Z))) :=
  match path, buffer with
  | Some path, Some out =>
    let* r := fat32_lookup_file (Some path) in
    match r with
    | None => ret None
    | Some (file_cluster, file_size) =>
      let* buf := kmalloc cluster_bytes in
      if buf =? 0 then ret None
      else
        let file_size := if bufsize <? file_size then bufsize else file_size in
        let* res := read_loop (Z.to_nat max_chain_length) file_cluster file_size 0 out in
        kfree buf ;;
        ret (Some res)
    end
  | _, _ => ret None
  end.

Definition fat32_cluster_size : Z := cluster_bytes.
Definition fat32_next_cluster (cluster : Z) : st fs Z := fat_next_cluster cluster.
Definition fat32_read_cluster (cluster : Z) : st fs (option (Z -> Z)) := read_cluster cluster.

(** ** Creating directory entries *)

(** First entry of a cluster whose first byte is 0x00. *)
Definition free_slot (buf : Z -> Z) : option Z :=
  find_from (fun i => buf (i * 32) =? 0x00) 0 entries_per_cluster.

(** The search loop of [dir_write_entries]: the cluster and index of the first free
    slot, or the last cluster visited when there is none. *)
Fixpoint find_slot (chain_left : nat) (cluster prev_cluster : Z) : st fs (Z * Z + Z) :=
  if in_chain cluster then
    match chain_left with
    | O => ret (inr prev_cluster)
    | S k =>
      let* r := read_cluster cluster in
      match r with
      | None => ret (inr prev_cluster)
      | Some buf =>
        match free_slot buf with
        | Some i => ret (inl (cluster, i))
        | None =>
          let* next := fat_next_cluster cluster in
          find_slot k next cluster
        end
      end
    end
  else ret (inr prev_cluster).

(** The copy loop: entries [written .. count - 1] into [buf], the bytes of
    [cluster], from slot [idx] on; a full cluster is flushed and the chain followed
    or extended.  The result is 0, or -1 on failure. *)
Fixpoint put_entries (n : nat) (entries_buf : Z -> Z) (written cluster idx : Z) (buf : Z -> Z)
  : st fs Z :=
  match n with
  | O =>
    let* w := write_cluster cluster buf in
    if negb (w =? 0) then ret (-1) else ret 0
  | S k =>
    let put cluster idx buf :=
      put_entries k entries_buf (written + 1) cluster (idx + 1)
        (blit buf (idx * 32) entries_buf (written * 32) 32) in
    if Z.of_nat entries_per_cluster <=? idx then
      let* w := write_cluster cluster buf in
      if negb (w =? 0) then ret (-1)
      else
        let* next := fat_next_cluster cluster in
        if (next <? 2) || (FAT32_EOC <=? next) then
          let* next := fat_alloc_cluster in
          if next =? 0 then ret (-1)
          else
            fat_set_cluster cluster next ;;
            write_cluster next (fun _ => 0) ;;
            put next 0 (fun _ => 0)
        else
          let* r := read_cluster next in
          match r with
          | None => ret (-1)
          | Some buf => put next 0 buf
          end
    else put cluster idx buf
  end.

Definition dir_write_entries (dir_cluster : Z) (entries_buf : Z -> Z) (count : Z) : st fs Z :=
  if count <=? 0 then ret 0
  else
    let* p := kmalloc cluster_bytes in
    if p =? 0 then ret (-1)
    else
      let* slot := find_slot (Z.to_nat max_chain_length) dir_cluster 0 in
      let* start :=
        match slot with
        | inl (cluster, idx) => ret (Some (cluster, idx))
        | inr prev_cluster =>
          let* new_cl := fat_alloc_cluster in
          if new_cl =? 0 then ret None
          else
            write_cluster new_cl (fun _ => 0) ;;
            (if negb (prev_cluster =? 0)
             then let* _ := fat_set_cluster prev_cluster new_cl in ret tt else ret tt) ;;
            ret (Some (new_cl, 0))
        end in
      match start with
      | None => kfree p ;; ret (-1)
      | Some (cluster, idx) =>
        let* r := read_cluster cluster in
        match r with
        | None => kfree p ;; ret (-1)
        | Some buf =>
          let* res := put_entries (Z.to_nat count) entries_buf 0 cluster idx buf in
          kfree p ;;
          ret res
        end
      end.

(** The bytes of the short entry. *)
Definition sfn_entry (sfn : Z -> Z) (cluster size attr : Z) : Z -> Z :=
  let e := blit (fun _ => 0) 0 sfn 0 11 in
  let e := e.[11 <- attr] in
  let e := e.[20 <- u8 (Z.land (Z.shiftr cluster 16) 0xFF)] in
  let e := e.[21 <- u8 (Z.land (Z.shiftr cluster 24) 0xFF)] in
  let e := e.[26 <- u8 (Z.land cluster 0xFF)] in
  let e := e.[27 <- u8 (Z.land (Z.shiftr cluster 8) 0xFF)] in
  let e := e.[28 <- u8 (Z.land size 0xFF)] in
  let e := e.[29 <- u8 (Z.land (Z.shiftr size 8) 0xFF)] in
  let e := e.[30 <- u8 (Z.land (Z.shiftr size 16) 0xFF)] in
  e.[31 <- u8 (Z.land (Z.shiftr size 24) 0xFF)].

(** The entries [fat32_create_entry] builds: long-name entries, then the short one. *)
Definition build_entries (name : list Z) (cluster size attr : Z) : Z -> Z :=
  let lfn_count := lfn_entries_needed name in
  let sfn := entry_sfn name lfn_count in
  let chk := sfn_checksum sfn in
  let entries := if 0 <? lfn_count
                 then write_lfn_entries (fun _ => 0) 0 name chk lfn_count else fun _ => 0 in
  blit entries (lfn_count * 32) (sfn_entry sfn cluster size attr) 0 32.

Definition fat32_create_entry (name : list Z) (dir_cluster cluster size attr : Z) : st fs Z :=
  let total := lfn_entries_needed name + 1 in
  let* p := kmalloc (u32 (total * 32)) in
  if p =? 0 then ret (-1)
  else
    let* r := dir_write_entries dir_cluster (build_entries name cluster size attr) total in
    kfree p ;;
    ret r.

(** ** Removing directory entries *)

(** [for (m ...) if (lfn_track[m].cluster == lc) buf[lfn_track[m].idx * 32] = 0xE5]. *)
Fixpoint mark_deleted (lc : Z) (tr : list (Z * Z)) (buf : Z -> Z) : Z -> Z :=
  match tr with
  | [] => buf
  | (c, i) :: tr => mark_deleted lc tr (if c =? lc then buf.[i * 32 <- 0xE5] else buf)
  end.

(** The loop that marks long-name entries left behind in other clusters, from index
    [k] of [tr] on; a cluster that was done is set to 0 in the rest of [tr]. *)
Fixpoint clear_others (n k : nat) (cur : Z) (tr : list (Z * Z)) : st fs unit :=
  match n with
  | O => ret tt
  | S n =>
    let lc := (nth k tr (0, 0)).1 in
    if (lc =? cur) || (lc =? 0) then clear_others n (S k) cur tr
    else
      let* lbuf := kmalloc cluster_bytes in
      if lbuf =? 0 then clear_others n (S k) cur tr
      else
        let* r := read_cluster lc in
        (match r with
         | Some buf => let* _ := write_cluster lc (mark_deleted lc tr buf) in ret tt
         | None => ret tt
         end) ;;
        kfree lbuf ;;
        clear_others n (S k) cur
          (take k tr ++ map (fun t => if t.1 =? lc then (0, t.2) else t) (drop k tr))
  end.

(** Mark the short entry of a hit and its long-name entries deleted. *)
Definition remove_entry (h : hit) : st fs unit :=
  let tr := lfn_track (h_lfn h) in
  let buf := (h_buf h).[h_idx h * 32 <- 0xE5] in
  write_cluster (h_cluster h) (mark_deleted (h_cluster h) tr buf) ;;
  clear_others (length tr) 0 (h_cluster h) tr.

(** [if (fc >= 2) fat_free_chain(fc)]. *)
Definition free_file (h : hit) : st fs unit :=
  let fc := entry_cluster (h_entry h) in
  if 2 <=? fc then fat_free_chain fc else ret tt.

(** ** Writing, deleting and renaming files *)

(** The allocation loop of [fat32_write_file]: the first cluster, or [None] for -1. *)
Fixpoint write_loop (fuel : nat) (data : Z -> Z) (size bytes_written first_cluster prev_cluster : Z)
  : st fs (option Z) :=
  if bytes_written <? size then
    match fuel with
    | O => undef
    | S k =>
      let* cluster := fat_alloc_cluster in
      if cluster =? 0 then ret None
      else
        let* first_cluster :=
          (if negb (prev_cluster =? 0)
           then let* _ := fat_set_cluster prev_cluster cluster in ret first_cluster
           else ret cluster) in
        let remaining := u32 (size - bytes_written) in
        let to_write := if remaining <? cluster_bytes then remaining else cluster_bytes in
        let buf := blit (fun _ => 0) 0 data bytes_written to_write in
        let* w := write_cluster cluster buf in
        if negb (w =? 0) then ret None
        else write_loop k data size (u32 (bytes_written + to_write)) first_cluster cluster
    end
  else ret (Some first_cluster).

Definition fat32_write_file (path : option (list Z)) (buffer : option (Z -> Z)) (size : Z) : st fs Z :=
  match path, buffer with
  | Some path, Some data =>
    let* r := fat32_resolve_path path in
    match r with
    | None => ret (-1)
    | Some (dir_cluster, name) =>
      let* scan_buf := kmalloc cluster_bytes in
      if scan_buf =? 0 then ret (-1)
      else
        let* h := scan_dir want_file name dir_cluster in
        (match h with
         | Some h => free_file h ;; remove_entry h
         | None => ret tt
         end) ;;
        kfree scan_buf ;;
        if size =? 0 then fat32_create_entry name dir_cluster 0 0 FAT_ATTR_ARCHIVE
        else
          let* buf := kmalloc cluster_bytes in
          if buf =? 0 then ret (-1)
          else
            let* first := write_loop (Z.to_nat (size / cluster_bytes + 1)) data size 0 0 0 in
            kfree buf ;;
            match first with
            | None => ret (-1)
            | Some first_cluster =>
              fat32_create_entry name dir_cluster first_cluster size FAT_ATTR_ARCHIVE
            end
    end
  | _, _ => ret (-1)
  end.

Definition fat32_delete_file (path : option (list Z)) : st fs Z :=
  match path with
  | None => ret (-1)
  | Some path =>
    let* r := fat32_resolve_path path in
    match r with
    | None => ret (-1)
    | Some (dir_cluster, name) =>
      let* buf := kmalloc cluster_bytes in
      if buf =? 0 then ret (-1)
      else
        let* h := scan_dir want_file name dir_cluster in
        match h with
        | Some h => free_file h ;; remove_entry h ;; kfree buf ;; ret 0
        | None => kfree buf ;; ret (-1)
        end
    end
  end.

Definition fat32_rename_file (oldpath newname : option (list Z)) : st fs Z :=
  match oldpath, newname with
  | Some oldpath, Some newname =>
    let* r := fat32_resolve_path oldpath in
    match r with
    | None => ret (-1)
    | Some (dir_cluster, name) =>
      let* buf := kmalloc cluster_bytes in
      if buf =? 0 then ret (-1)
      else
        let* h := scan_dir want_any name dir_cluster in
        match h with
        | Some h =>
          let e := h_entry h in
          let fc := entry_cluster e in
          let fsz := read32 e 28 in
          let fat := e 11 in
          remove_entry h ;;
          kfree buf ;;
          fat32_create_entry newname dir_cluster fc fsz fat
        | None => kfree buf ;; ret (-1)
        end
    end
  | _, _ => ret (-1)
  end.

(** ** Directories *)

(** A dot entry: the short name [n] dots long, pointing to [cluster]. *)
Definition dot_entry (n cluster : Z) : Z -> Z :=
  let e := fun j => if j <? n then 46 else if j <? 11 then 32 else 0 in
  let e := e.[11 <- FAT_ATTR_DIRECTORY] in
  let e := e.[20 <- u8 (Z.land (Z.shiftr cluster 16) 0xFF)] in
  let e := e.[21 <- u8 (Z.land (Z.shiftr cluster 24) 0xFF)] in
  let e := e.[26 <- u8 (Z.land cluster 0xFF)] in
  e.[27 <- u8 (Z.land (Z.shiftr cluster 8) 0xFF)].

Definition dir_block (new_cluster parent_cluster : Z) : Z -> Z :=
  blit (blit (fun _ => 0) 0 (dot_entry 1 new_cluster) 0 32) 32 (dot_entry 2 parent_cluster) 0 32.

Definition fat32_mkdir (name : option (list Z)) : st fs Z :=
  match name with
  | None => ret (-1)
  | Some name =>
    let* r := fat32_resolve_path name in
    match r with
    | None => ret (-1)
    | Some (parent_cluster, name) =>
      let* new_cluster := fat_alloc_cluster in
      if new_cluster =? 0 then ret (-1)
      else
        let* buf := kmalloc cluster_bytes in
        if buf =? 0 then ret (-1)
        else
          let* w := write_cluster new_cluster (dir_block new_cluster parent_cluster) in
          kfree buf ;;
          if negb (w =? 0) then
            fat_set_cluster new_cluster FAT32_FREE ;;
            ret (-1)
          else fat32_create_entry name parent_cluster new_cluster 0 FAT_ATTR_DIRECTORY
    end
  end.

(** [while (len > 0 && cwd_path[len] != '/') len--]. *)
Fixpoint back_to_slash (path : list Z) (len : nat) : nat :=
  match len with
  | O => O
  | S k => if ch path (Z.of_nat len) =? 47 then len else back_to_slash path k
  end.

(** The path after [cd ..]. *)
Definition parent_path (path : list Z) : list Z :=
  if (1 <? length path)%nat then
    let len := back_to_slash path (length path - 1) in
    let len := if (len =? 0)%nat then 1%nat else len in
    take len path
  else path.

(** The path after a successful [cd name]; [None] is a write past [cwd_path[255]]. *)
Definition enter_path (path name : list Z) : option (list Z) :=
  if ch name 0 =? 47 then Some (47 :: take 254 (drop 1 name))
  else
    let path := if (1 <? length path)%nat then path ++ [47] else path in
    let path := path ++ take (255 - length path) name in
    if (255 <? length path)%nat then None else Some path.

Definition fat32_cd (name : option (list Z)) : st fs Z :=
  match name with
  | None => ret (-1)
  | Some [46; 46] =>
    let* buf := kmalloc cluster_bytes in
    if buf =? 0 then ret (-1)
    else
      let* cwd := gets cwd_cluster in
      let* r := read_cluster cwd in
      match r with
      | None => kfree buf ;; ret (-1)
      | Some b =>
        let parent := entry_cluster (entry b 1) in
        kfree buf ;;
        let parent := if parent =? 0 then root_cluster g else parent in
        let* path := gets cwd_path in
        modify (set_cwd parent (parent_path path)) ;;
        ret 0
      end
  | Some [47] =>
    modify (set_cwd (root_cluster g) [47]) ;;
    ret 0
  | Some name =>
    let* r := fat32_resolve_path name in
    match r with
    | None => ret (-1)
    | Some (parent, dirname) =>
      let* buf := kmalloc cluster_bytes in
      if buf =? 0 then ret (-1)
      else
        let* h := scan_dir want_dir dirname parent in
        match h with
        | None => kfree buf ;; ret (-1)
        | Some h =>
          let* path := gets cwd_path in
          let* path := lift_opt (enter_path path name) in
          modify (set_cwd (dir_target h) path) ;;
          kfree buf ;;
          ret 0
        end
    end
  end.

Definition fat32_get_cwd_cluster : st fs Z := gets cwd_cluster.
Definition fat32_get_cwd_path : st fs (list Z) := gets cwd_path.

End Driver.
End Fat32.
