(* ===== verification/Fat32Table.v ===== *)
(** * The cluster view of a FAT32 volume

    The sector-level routines of fs/fat32.c implement an allocation table and an
    array of clusters: [repr s F B] says that the volume in state [s] holds the
    table words [F] and the cluster contents [B].  The rest of the driver's proofs
    reason about [F] and [B] only. *)

From S2P Require Import Prelude Heap Disk Fat32Names Fat32.

Module Table.

Import Names Fat32.

(** Low and high parts of a table word. *)
Definition MASK28 : Z := 0x0FFFFFFF.

Lemma land_mask28 x : Z.land x 0x0FFFFFFF = x mod 268435456.
Proof. exact (land_mask_lo 28 x ltac:(lia)). Qed.

(** The word [fat_set_cluster] stores: the top four bits stay. *)
Definition merge28 (existing value : Z) : Z :=
  Z.lor (Z.land existing 0xF0000000) (Z.land value 0x0FFFFFFF).

Lemma merge28_eq x v : is_u32 x ->
  merge28 x v = x / 268435456 * 268435456 + v mod 268435456.
Proof.
  intros Hx. unfold merge28. rewrite land_mask28.
  change 0xF0000000 with (2 ^ 32 - 2 ^ 28).
  rewrite (land_mask_hi 28 32 x) by (unfold is_u32 in Hx; lia).
  rewrite Z.lor_comm, <- Z.shiftl_mul_pow2 by lia.
  rewrite lor_shiftl_add by (lia || (apply (Z.mod_pos_bound v (2 ^ 28)); lia)).
  change (2 ^ 28) with 268435456. lia.
Qed.

Lemma merge28_low x v : is_u32 x -> Z.land (merge28 x v) 0x0FFFFFFF = Z.land v 0x0FFFFFFF.
Proof. intros Hx. rewrite merge28_eq, !land_mask28 by done. zmod. Qed.

Lemma merge28_u32 x v : is_u32 x -> is_u32 (merge28 x v).
Proof. intros Hx. rewrite merge28_eq by done. unfold is_u32 in *. zmod. Qed.

(** Byte [k] of a word, as the driver stores it. *)
Definition byte_of (v k : Z) : Z := u8 (Z.land (Z.shiftr v (8 * k)) 0xFF).

Lemma byte_of_eq v k : 0 <= k -> byte_of v k = v / 2 ^ (8 * k) mod 256.
Proof.
  intros Hk. unfold byte_of, u8. rewrite Z.shiftr_div_pow2 by lia.
  change 0xFF with (2 ^ 8 - 1). rewrite land_mask_lo by lia. change (2 ^ 8) with 256. zmod.
Qed.

Lemma read32_bytes buf o v : is_u32 v ->
  buf o = byte_of v 0 -> buf (o + 1) = byte_of v 1 ->
  buf (o + 2) = byte_of v 2 -> buf (o + 3) = byte_of v 3 -> read32 buf o = v.
Proof.
  intros Hv H0 H1 H2 H3. unfold is_u32 in Hv. rewrite byte_of_eq in * by lia. simpl in *.
  assert (forall i, is_byte (v / i mod 256)) by (intros; unfold is_byte; zmod).
  rewrite read32_eq by (rewrite ?H0, ?H1, ?H2, ?H3; done). rewrite H0, H1, H2, H3.
  change (Z.pow_pos 2 8) with 256. change (Z.pow_pos 2 16) with 65536.
  change (Z.pow_pos 2 24) with 16777216. rewrite Z.div_1_r. zmod.
Qed.

Section Volume.
Context {D A : Type} `{BD : BlockDev D} `{KH : KernelHeap A}.
Context (g : geom).

#[local] Abbreviation fs := (@Fat32.fs D A).

(** Number of data clusters. *)
Definition clusters : Z := (total_sectors g - data_start g) / sectors_per_cluster g.

(** A volume the driver can serve: what [fat32_init] checks, a table that covers
    the data clusters, and everything inside the device. *)
Record geom_ok : Prop := {
  go_bps : bytes_per_sector g = 512;
  go_spc : 1 <= sectors_per_cluster g <= 255;
  go_fat : 0 <= fat_start g;
  go_cover : 512 * fat_start g + 4 * (clusters + 2) <= 512 * data_start g;
  go_total : data_start g <= total_sectors g < 4294967296;
  go_max : clusters + 2 < FAT32_EOC
}.

Context (Hg : geom_ok).

Definition valid (c : Z) : Prop := 2 <= c < clusters + 2.
Definition lba_of (c : Z) : Z := data_start g + (c - 2) * sectors_per_cluster g.

Definition fat_pos (c : Z) : Z := 512 * fat_start g + 4 * c.

Record repr (s : fs) (F : Z -> Z) (B : Z -> Z -> Z) : Prop := {
  rp_good : bd_good (dev s);
  rp_size : total_sectors g <= bd_sectors (dev s);
  rp_fat : forall c, 0 <= c < clusters + 2 ->
    read32 (fun i => bd_byte (dev s) (fat_pos c + i)) 0 = F c;
  rp_data : forall c i, valid c -> 0 <= i < cluster_bytes g ->
    bd_byte (dev s) (512 * lba_of c + i) = B c i
}.

(** Everything but the device is as before. *)
Definition rest_eq (s s' : fs) : Prop :=
  cwd_cluster s' = cwd_cluster s /\ cwd_path s' = cwd_path s /\ mem s' = mem s /\ term s' = term s.

Lemma rest_eq_refl s : rest_eq s s.
Proof. done. Qed.

Lemma rest_eq_trans s1 s2 s3 : rest_eq s1 s2 -> rest_eq s2 s3 -> rest_eq s1 s3.
Proof. unfold rest_eq. intuition congruence. Qed.

Lemma rest_set_dev d s : rest_eq s (set_dev d s).
Proof. done. Qed.

Lemma repr_ext s F B F' B' :
  repr s F B -> (forall c, 0 <= c < clusters + 2 -> F c = F' c) ->
  (forall c i, valid c -> 0 <= i < cluster_bytes g -> B c i = B' c i) -> repr s F' B'.
Proof.
  intros [H1 H2 H3 H4] HF HB. split; [done|done| |].
  - intros c Hc. by rewrite H3, HF.
  - intros c i Hc Hi. by rewrite H4, HB.
Qed.

Lemma clusters_nonneg : 0 <= clusters.
Proof. unfold clusters. destruct Hg. apply Z.div_pos; lia. Qed.

Lemma lba_bounds c : valid c ->
  data_start g <= lba_of c /\ lba_of c + sectors_per_cluster g <= total_sectors g.
Proof.
  unfold valid, lba_of, clusters. intros Hc. destruct Hg.
  set (n := total_sectors g - data_start g) in *. set (k := sectors_per_cluster g) in *.
  assert (n / k * k <= n) by (rewrite Z.mul_comm; apply Z.mul_div_le; lia). nia.
Qed.

Lemma cluster_to_lba_valid c : valid c -> cluster_to_lba g c = lba_of c.
Proof.
  intros Hc. pose proof (lba_bounds c Hc). pose proof clusters_nonneg. destruct Hg.
  unfold cluster_to_lba. destruct (Z.ltb_spec c 2); [unfold valid in Hc; lia|].
  apply u32_small. unfold is_u32, lba_of in *. lia.
Qed.

Lemma max_chain_eq : max_chain_length g = clusters.
Proof.
  unfold max_chain_length, clusters. destruct Hg. rewrite u32_small; [done|].
  unfold is_u32. assert (0 <= clusters + 2) by (pose proof clusters_nonneg; lia). lia.
Qed.

Lemma valid_in_chain c : valid c -> in_chain c = true.
Proof. unfold valid, in_chain. destruct Hg. intros. zspec; simpl; lia || done. Qed.

(** Sector and offset of a table entry. *)
Lemma fat_entry_pos c : 0 <= c < clusters + 2 ->
  let off := u32 (c * 4) in
  let sec := u32 (fat_start g + off / bytes_per_sector g) in
  512 * sec + off mod bytes_per_sector g = fat_pos c
  /\ 0 <= sec /\ fat_start g <= sec < data_start g
  /\ 0 <= off mod bytes_per_sector g <= 508.
Proof.
  intros Hc. destruct Hg. rewrite go_bps0. unfold FAT32_EOC in *. cbv zeta.
  rewrite (u32_small (c * 4)) by (unfold is_u32; lia).
  assert (fat_start g + c * 4 / 512 < data_start g) by zmod.
  rewrite u32_small by (unfold is_u32; zmod). unfold fat_pos. zmod.
Qed.

Lemma disk_read_ok s F B lba n :
  repr s F B -> 0 < n < 256 -> 0 <= lba -> lba + n <= total_sectors g ->
  exists b s', disk_read lba n s = Some (Some b, s')
  /\ (forall i, 0 <= i < 512 * n -> b i = bd_byte (dev s) (512 * lba + i))
  /\ repr s' F B /\ rest_eq s s'
  /\ forall x, bd_byte (dev s') x = bd_byte (dev s) x.
Proof.
  intros [Hgood Hsize Hfat Hdata] Hn Hl Ht. unfold disk_read.
  assert (lba + n <= bd_sectors (dev s)) as Hin by lia. pose proof (bd_read_spec lba n (dev s) Hn Hl Hin) as Hs.
  pose proof (bd_read_good lba n (dev s) Hgood Hn Hl ltac:(lia)) as Hok.
  destruct (ata_read lba n (dev s)) as [r d]. destruct Hs as (Hbyte & Hsec & Hr), Hok as [Hgd Hne].
  destruct r as [b|]; [|done]. exists b, (set_dev d s). repeat split; simpl; try done.
  - by rewrite Hsec.
  - intros c Hc. rewrite <- Hfat by done. unfold read32. by rewrite !Hbyte.
  - intros c i Hc Hi. by rewrite Hbyte, Hdata.
Qed.

Lemma read32_shift f a b : read32 f (a + b) = read32 (fun i => f (a + i)) b.
Proof. unfold read32. by rewrite <- !Z.add_assoc. Qed.

Lemma read32_ext f f' a : (forall i, 0 <= i < 4 -> f (a + i) = f' (a + i)) -> read32 f a = read32 f' a.
Proof.
  intros H. unfold read32. rewrite <- (Z.add_0_r a) at 1 5.
  rewrite !H by lia. by rewrite Z.add_0_r.
Qed.

Lemma read32_u32 f a : is_u32 (read32 f a).
Proof. apply u32_bound. Qed.

(** [fat_next_cluster] reads the entry and changes nothing. *)
Lemma fat_next_ok s F B c :
  repr s F B -> 0 <= c < clusters + 2 ->
  exists s', fat_next_cluster g c s = Some (Z.land (F c) 0x0FFFFFFF, s') /\ repr s' F B /\ rest_eq s s'.
Proof.
  intros Hr Hc. destruct (fat_entry_pos c Hc) as (Hpos & H0 & Hsec & Hoff).
  unfold fat_next_cluster. cbv zeta in Hpos, H0, Hsec, Hoff |- *.
  set (off := u32 (c * 4)) in *. set (sec := u32 (fat_start g + off / bytes_per_sector g)) in *.
  destruct (disk_read_ok s F B sec 1 Hr) as (b & s' & E & Hb & Hr' & Hrest & _);
    [lia|lia|destruct Hg; lia|].
  rewrite (bind_ok _ _ _ _ _ E). unfold ret. exists s'. split; [|done]. do 3 f_equal.
  rewrite <- (rp_fat _ _ _ Hr) by done. rewrite (read32_ext _ (fun i => bd_byte (dev s) (512 * sec + i)))
    by (intros; apply Hb; lia).
  set (o := off mod bytes_per_sector g) in *.
  pose proof (read32_shift (fun i => bd_byte (dev s) (512 * sec + i)) o 0) as E1.
  rewrite Z.add_0_r in E1. rewrite E1. apply read32_ext. intros i Hi. f_equal. lia.
Qed.

Lemma disk_write_ok s F B lba n buf :
  repr s F B -> 0 < n < 256 -> 0 <= lba -> lba + n <= total_sectors g ->
  exists s', disk_write lba n buf s = Some (0, s') /\ rest_eq s s'
  /\ bd_good (dev s') /\ total_sectors g <= bd_sectors (dev s')
  /\ forall x, bd_byte (dev s') x
       = blit (bd_byte (dev s)) (512 * lba) (fun i => u8 (buf i)) 0 (512 * n) x.
Proof.
  intros [Hgood Hsize Hfat Hdata] Hn Hl Ht. unfold disk_write.
  assert (lba + n <= bd_sectors (dev s)) as Hin by lia. pose proof (bd_write_spec lba n buf (dev s) Hn Hl Hin) as Hs.
  pose proof (bd_write_good lba n buf (dev s) Hgood Hn Hl ltac:(lia)) as Hok.
  destruct (ata_write lba n buf (dev s)) as [r d]. destruct Hs as [Hsec Hb], Hok as [Hgd ->].
  exists (set_dev d s). repeat split; simpl; try done; [by rewrite Hsec|auto].
Qed.

(** [fat_set_cluster] stores the low 28 bits of one entry. *)
Lemma fat_set_ok s F B c v :
  repr s F B -> 0 <= c < clusters + 2 ->
  exists s', fat_set_cluster g c v s = Some (0, s')
  /\ repr s' (F.[c <- merge28 (F c) v]) B /\ rest_eq s s'.
Proof.
  intros Hr Hc. destruct (fat_entry_pos c Hc) as (Hpos & H0 & Hsec & Hoff).
  unfold fat_set_cluster. cbv zeta in Hpos, H0, Hsec, Hoff |- *.
  set (off := u32 (c * 4)) in *. set (sec := u32 (fat_start g + off / bytes_per_sector g)) in *.
  set (o := off mod bytes_per_sector g) in *.
  destruct (disk_read_ok s F B sec 1 Hr) as (b & s1 & E & Hb & Hr1 & Hrest1 & Hby);
    [lia|lia|destruct Hg; lia|].
  rewrite (bind_ok _ _ _ _ _ E).
  assert (read32 b o = F c) as HFc.
  { rewrite <- (rp_fat _ _ _ Hr) by done. rewrite (read32_ext _ (fun i => bd_byte (dev s) (512 * sec + i)))
      by (intros; apply Hb; lia).
    pose proof (read32_shift (fun i => bd_byte (dev s) (512 * sec + i)) o 0) as E1.
    rewrite Z.add_0_r in E1. rewrite E1. apply read32_ext. intros i Hi. f_equal. lia. }
  rewrite HFc. fold (merge28 (F c) v). set (nv := merge28 (F c) v).
  assert (is_u32 nv) as Hnv by (apply merge28_u32; rewrite <- HFc; apply read32_u32).
  match goal with |- context [disk_write sec 1 ?x] => set (buf := x) end.
  destruct (disk_write_ok s1 F B sec 1 buf Hr1) as (s2 & E2 & Hrest2 & Hgood2 & Hsz2 & Hb2);
    [lia|lia|destruct Hg; lia|].
  rewrite (bind_ok _ _ _ _ _ E2). simpl. exists s2. split; [done|].
  split; [|by eapply rest_eq_trans].
  assert (forall x, bd_byte (dev s2) x =
    if (fat_pos c <=? x) && (x <? fat_pos c + 4) then byte_of nv (x - fat_pos c)
    else bd_byte (dev s) x) as Hx.
  { intros x. rewrite Hb2. unfold blit.
    destruct (decide (512 * sec <= x < 512 * sec + 512)) as [Hin|Hout].
    2:{ rewrite Hby. zspec; simpl; done || lia. }
    destruct (Z.leb_spec (512 * sec) x); [|lia]. destruct (Z.ltb_spec x (512 * sec + 512 * 1)); [|lia].
    simpl andb. cbv iota. rewrite Z.add_0_l. unfold buf, upd.
    assert (forall k, byte_of nv k = u8 (byte_of nv k)) as Hu.
    { intros k. unfold byte_of at 2. symmetry. apply u8_small, u8_bound. }
    set (y := x - 512 * sec). replace x with (512 * sec + y) by lia. rewrite <- Hpos.
    replace (512 * sec + y - (512 * sec + o)) with (y - o) by lia.
    destruct (Z.eqb_spec y (o + 3)) as [->|]; [|destruct (Z.eqb_spec y (o + 2)) as [->|];
      [|destruct (Z.eqb_spec y (o + 1)) as [->|]; [|destruct (Z.eqb_spec y (o + 0)) as [->|]]]].
    1-4: match goal with |- _ = (if ?c then _ else _) => replace c with true by (symmetry; zspec; simpl; lia) end;
         match goal with |- context [byte_of _ ?k] => ring_simplify k end;
         rewrite Hu; unfold byte_of; rewrite ?Z.shiftr_0_r; done.
    rewrite Hb by lia. rewrite u8_small by apply bd_byte_range.
    match goal with |- _ = (if ?c then _ else _) => replace c with false by (symmetry; zspec; simpl; lia) end.
    done. }
  split; [done|done| |].
  - intros c' Hc'. unfold upd. destruct (Z.eqb_spec c' c) as [->|Hne].
    + apply read32_bytes; [done|..]; rewrite Hx; unfold fat_pos; zspec; simpl; try lia; f_equal; lia.
    + rewrite <- (rp_fat _ _ _ Hr) by done. apply read32_ext. intros i Hi.
      rewrite Hx. unfold fat_pos. zspec; simpl; done || lia.
  - intros c' i Hc' Hi. rewrite <- (rp_data _ _ _ Hr) by done. rewrite Hx.
    pose proof (lba_bounds c' Hc') as [Hlo _]. destruct Hg. unfold fat_pos. zspec; simpl; done || lia.
Qed.

(** [read_cluster] returns the bytes of the cluster. *)
Lemma read_cluster_ok s F B c :
  repr s F B -> valid c ->
  exists b s', read_cluster g c s = Some (Some b, s')
  /\ (forall i, 0 <= i < cluster_bytes g -> b i = B c i) /\ repr s' F B /\ rest_eq s s'.
Proof.
  intros Hr Hc. pose proof (lba_bounds c Hc) as [Hlo Hhi]. unfold read_cluster.
  rewrite cluster_to_lba_valid by done. pose proof clusters_nonneg.
  destruct (disk_read_ok s F B (lba_of c) (sectors_per_cluster g) Hr) as (b & s' & E & Hb & Hr' & Hrest & _);
    [destruct Hg; lia|destruct Hg; lia|lia|].
  exists b, s'. repeat split; try done; try apply Hrest.
  - intros i Hi. unfold cluster_bytes in Hi. rewrite Hb by lia. apply (rp_data _ _ _ Hr); [done|].
    unfold cluster_bytes. lia.
  - apply Hr'.
  - apply Hr'.
  - apply Hr'.
  - apply Hr'.
Qed.

(** [write_cluster] replaces the bytes of exactly that cluster. *)
Lemma write_cluster_ok s F B c buf :
  repr s F B -> valid c ->
  exists s', write_cluster g c buf s = Some (0, s')
  /\ repr s' F (B.[c <- fun i => u8 (buf i)]) /\ rest_eq s s'.
Proof.
  intros Hr Hc. pose proof (lba_bounds c Hc) as [Hlo Hhi]. unfold write_cluster.
  destruct (Z.ltb_spec c 2); [unfold valid in Hc; lia|].
  rewrite cluster_to_lba_valid by done. pose proof clusters_nonneg.
  destruct (disk_write_ok s F B (lba_of c) (sectors_per_cluster g) buf Hr)
    as (s' & E & Hrest & Hgd & Hsz & Hb); [destruct Hg; lia|destruct Hg; lia|lia|].
  exists s'. split; [done|]. split; [|done]. split; [done|done| |].
  - intros c' Hc'. rewrite <- (rp_fat _ _ _ Hr) by done. apply read32_ext. intros i Hi.
    rewrite Hb, blit_out; [done|]. destruct Hg. unfold fat_pos. lia.
  - intros c' i Hc' Hi. unfold upd. rewrite Hb. unfold cluster_bytes in Hi.
    destruct (Z.eqb_spec c' c) as [->|Hne].
    + rewrite blit_in by lia. f_equal. f_equal. lia.
    + rewrite blit_out; [by apply (rp_data _ _ _ Hr)|]. unfold lba_of. destruct Hg. nia.
Qed.

(** The successor the table gives a cluster. *)
Definition next_of (F : Z -> Z) (c : Z) : Z := Z.land (F c) 0x0FFFFFFF.

Definition is_free (F : Z -> Z) (c : Z) : bool := next_of F c =? FAT32_FREE.

Lemma next_of_range F c : 0 <= next_of F c < 268435456.
Proof. unfold next_of. rewrite land_mask28. zmod. Qed.

(** ** Allocation *)

Lemma alloc_loop_ok s F B (n : nat) c :
  repr s F B -> 2 <= c -> c + Z.of_nat n = clusters + 2 ->
  (exists r s', alloc_cluster_loop g n c s = Some (r, s') /\ rest_eq s s'
   /\ c <= r < clusters + 2 /\ is_free F r = true
   /\ (forall x, c <= x < r -> is_free F x = false)
   /\ repr s' (F.[r <- merge28 (F r) 0x0FFFFFFF]) B)
  \/ (exists s', alloc_cluster_loop g n c s = Some (0, s') /\ rest_eq s s' /\ repr s' F B
     /\ forall x, c <= x < clusters + 2 -> is_free F x = false).
Proof.
  revert s c. induction n as [|n IH]; intros s c Hr Hc Hn; cbn [alloc_cluster_loop].
  { right. exists s. repeat split; try done; try apply Hr; intros; lia. }
  destruct (fat_next_ok s F B c Hr) as (s1 & E & Hr1 & Hrest); [lia|].
  rewrite (bind_ok _ _ _ _ _ E). fold (next_of F c). fold (is_free F c).
  destruct (is_free F c) eqn:Ef.
  - destruct (fat_set_ok s1 F B c 0x0FFFFFFF Hr1) as (s2 & E2 & Hr2 & Hrest2); [lia|].
    rewrite (bind_ok _ _ _ _ _ E2). left. exists c, s2.
    split; [done|]. split; [by eapply rest_eq_trans|]. split; [lia|]. split; [done|].
    split; [lia|done].
  - destruct (IH s1 (c + 1) Hr1) as [(r & s' & E' & Hrest' & Hr' & Hf & Hx & Hrep)|(s' & E' & Hrest' & Hrep & Hx)];
      [lia|lia| |].
    + left. exists r, s'. split; [done|]. split; [by eapply rest_eq_trans|]. split; [lia|].
      split; [done|]. split; [|done]. intros x Hxr. destruct (decide (x = c)) as [->|]; [done|].
      apply Hx. lia.
    + right. exists s'. split; [done|]. split; [by eapply rest_eq_trans|]. split; [done|].
      intros x Hxr. destruct (decide (x = c)) as [->|]; [done|]. apply Hx. lia.
Qed.

Lemma fat_alloc_ok s F B :
  repr s F B ->
  (exists r s', fat_alloc_cluster g s = Some (r, s') /\ rest_eq s s' /\ valid r
   /\ is_free F r = true /\ (forall x, valid x -> x < r -> is_free F x = false)
   /\ repr s' (F.[r <- merge28 (F r) 0x0FFFFFFF]) B)
  \/ (exists s', fat_alloc_cluster g s = Some (0, s') /\ rest_eq s s' /\ repr s' F B
     /\ forall x, valid x -> is_free F x = false).
Proof.
  intros Hr. pose proof clusters_nonneg. unfold fat_alloc_cluster.
  change (u32 (total_sectors g - data_start g) / sectors_per_cluster g) with (max_chain_length g).
  rewrite max_chain_eq. rewrite (u32_small (clusters + 2)) by (destruct Hg; unfold is_u32, FAT32_EOC in *; lia).
  destruct (alloc_loop_ok s F B (Z.to_nat (clusters + 2 - 2)) 2 Hr)
    as [(r & s' & E & Hrest & Hrg & Hf & Hx & Hrep)|(s' & E & Hrest & Hrep & Hx)]; [lia|lia| |].
  - left. exists r, s'. repeat split; try done; try apply Hrest; try apply Hrep; try lia.
    intros x Hv Hlt. apply Hx. unfold valid in Hv. lia.
  - right. exists s'. repeat split; try done; try apply Hrest; try apply Hrep.
Qed.

(** ** Chains *)

Inductive chain (F : Z -> Z) : Z -> list Z -> Prop :=
| chain_last c : valid c -> FAT32_EOC <= next_of F c -> chain F c [c]
| chain_next c l : valid c -> chain F (next_of F c) l -> chain F c (c :: l).

Lemma chain_valid F c l : chain F c l -> Forall valid l.
Proof. induction 1 as [c Hv|c l Hv _ IH]; [by apply Forall_singleton | by constructor]. Qed.

Lemma chain_head F c l : chain F c l -> exists l', l = c :: l'.
Proof. destruct 1; eauto. Qed.

Lemma chain_head_valid F c l : chain F c l -> valid c.
Proof. by destruct 1. Qed.

Lemma valid_not_eoc c : valid c -> ~ FAT32_EOC <= c.
Proof. unfold valid. destruct Hg. lia. Qed.

Lemma chain_det F c l k : chain F c l -> chain F c k -> l = k.
Proof.
  intros H. revert k. induction H as [c Hv He|c l Hv H IH]; intros k Hk; inversion Hk; subst.
  - done.
  - match goal with Hc : chain F (next_of F c) _ |- _ => by apply chain_head_valid, valid_not_eoc in Hc end.
  - by apply chain_head_valid, valid_not_eoc in H.
  - f_equal. auto.
Qed.

Lemma chain_suffix F c l x : chain F c l -> x ∈ l -> exists k, chain F x k /\ (length k <= length l)%nat.
Proof.
  induction 1 as [c Hv He|c l Hv H IH]; intros Hx.
  - apply list_elem_of_singleton in Hx as ->. eexists; split; [by constructor|done].
  - apply elem_of_cons in Hx as [->|Hx].
    + eexists; split; [by econstructor|done].
    + destruct (IH Hx) as (k & Hk & Hl). exists k. split; [done|]. simpl. lia.
Qed.

(** A chain that ends does not revisit a cluster, so the walk limit is enough. *)
Lemma chain_NoDup F c l : chain F c l -> NoDup l.
Proof.
  induction 1 as [c Hv He|c l Hv H IH]; [apply NoDup_singleton|]. constructor; [|done].
  intros Hin. destruct (chain_suffix _ _ _ _ H Hin) as (k & Hk & Hl).
  assert (k = c :: l) as -> by (eapply chain_det; [done|by constructor]). simpl in Hl. lia.
Qed.

Lemma valid_NoDup_length (l : list Z) : NoDup l -> Forall valid l -> (length l <= Z.to_nat clusters)%nat.
Proof.
  intros Hnd Hv. pose proof clusters_nonneg.
  transitivity (length (seqZ 2 clusters)); [|by rewrite length_seqZ].
  apply submseteq_length, NoDup_submseteq; [done|]. intros x Hx. rewrite elem_of_seqZ.
  rewrite Forall_forall in Hv. specialize (Hv x Hx). unfold valid in Hv. lia.
Qed.

Lemma chain_length F c l : chain F c l -> (length l <= Z.to_nat clusters)%nat.
Proof. intros H. apply valid_NoDup_length; [by eapply chain_NoDup | by eapply chain_valid]. Qed.

Lemma chain_ext F F' c l : (forall x, x ∈ l -> next_of F x = next_of F' x) -> chain F c l -> chain F' c l.
Proof.
  intros Hx H. induction H as [c Hv He|c l Hv H IH].
  - constructor; [done|]. rewrite <- Hx by (by apply list_elem_of_singleton). done.
  - constructor; [done|]. rewrite <- Hx by (apply elem_of_cons; by left). apply IH.
    intros x Hin. apply Hx. apply elem_of_cons. by right.
Qed.

(** The table after the entries of [l] were set to free. *)
Definition freed_table (F : Z -> Z) (l : list Z) : Z -> Z :=
  fun c => if bool_decide (c ∈ l) then merge28 (F c) FAT32_FREE else F c.

Lemma free_chain_loop_ok F c l : chain F c l ->
  forall s B (n : nat), repr s F B -> (length l <= n)%nat ->
  exists s', free_chain_loop g n c s = Some (tt, s') /\ rest_eq s s' /\ repr s' (freed_table F l) B.
Proof.
  intros Hch. assert (forall F', (forall x, x ∈ l -> F' x = F x) ->
    forall s B (n : nat), repr s F' B -> (length l <= n)%nat ->
    exists s', free_chain_loop g n c s = Some (tt, s') /\ rest_eq s s' /\ repr s' (freed_table F' l) B) as H.
  2:{ intros s B n Hr Hn. by apply (H F). }
  pose proof (chain_NoDup _ _ _ Hch) as Hnd.
  induction Hch as [c Hv He|c l Hv Hch IH]; intros F' HF s B n Hr Hn;
    (destruct n as [|n]; [simpl in Hn; lia|]); cbn [free_chain_loop];
    rewrite (valid_in_chain c Hv);
    destruct (fat_next_ok s F' B c Hr ltac:(unfold valid in Hv; lia)) as (s1 & E1 & Hr1 & Hrest1);
    rewrite (bind_ok _ _ _ _ _ E1);
    destruct (fat_set_ok s1 F' B c FAT32_FREE Hr1 ltac:(unfold valid in Hv; lia)) as (s2 & E2 & Hr2 & Hrest2);
    rewrite (bind_ok _ _ _ _ _ E2); fold (next_of F' c).
  - assert (in_chain (next_of F' c) = false) as Hic.
    { unfold next_of in *. rewrite HF by (by apply list_elem_of_singleton).
      unfold in_chain. zspec; simpl; done || lia. }
    exists s2. destruct n; cbn [free_chain_loop]; rewrite Hic;
      (split; [done|]; split; [by eapply rest_eq_trans|]; eapply repr_ext; [exact Hr2| |done];
       intros x Hx; unfold freed_table, upd; case_bool_decide as Hd;
       rewrite list_elem_of_singleton in Hd; destruct (Z.eqb_spec x c); congruence).
  - apply NoDup_cons in Hnd as [Hnin Hnd].
    assert (next_of F' c = next_of F c) as HE
      by (unfold next_of; rewrite HF by (apply elem_of_cons; by left); done).
    rewrite HE. destruct (IH Hnd (F'.[c <- merge28 (F' c) FAT32_FREE])) with (s := s2) (B := B) (n := n)
      as (s' & E' & Hrest' & Hr').
    { intros x Hx. rewrite upd_other by congruence. apply HF. apply elem_of_cons. by right. }
    { done. }
    { simpl in Hn. lia. }
    exists s'. split; [done|]. split; [by eapply rest_eq_trans; [|eapply rest_eq_trans]|].
    eapply repr_ext; [exact Hr'| |done]. intros x Hx. unfold freed_table, upd.
    destruct (Z.eqb_spec x c) as [->|Hne].
    + rewrite bool_decide_eq_false_2 by done. rewrite bool_decide_eq_true_2; [done|]. apply elem_of_cons. by left.
    + erewrite bool_decide_ext; [done|]. rewrite elem_of_cons. naive_solver.
Qed.

Lemma fat_free_chain_ok s F B c l : repr s F B -> chain F c l ->
  exists s', fat_free_chain g c s = Some (tt, s') /\ rest_eq s s' /\ repr s' (freed_table F l) B.
Proof.
  intros Hr Hch. unfold fat_free_chain. rewrite max_chain_eq.
  eapply free_chain_loop_ok; [done|done|]. by eapply chain_length.
Qed.

(** Every good device that is large enough holds some table and clusters. *)
Lemma repr_self s : bd_good (dev s) -> total_sectors g <= bd_sectors (dev s) ->
  repr s (fun c => read32 (fun i => bd_byte (dev s) (fat_pos c + i)) 0)
         (fun c i => bd_byte (dev s) (512 * lba_of c + i)).
Proof. by split. Qed.

End Volume.

(** ** Claims on the allocation table *)

Section Claims.
Context {D A : Type} `{BD : BlockDev D} `{KH : KernelHeap A}.

(** [fat_set_cluster] followed by [fat_next_cluster] reads back the 28-bit value
    just stored, keeps the reserved top four bits of the entry, and changes no other
    entry of the table and no byte of any data cluster. *)
Theorem fat_set_next_roundtrip (g : geom) (s : @fs D A) F B c v :
  geom_ok g -> repr g s F B -> 0 <= c < clusters g + 2 ->
  exists s1 s2, fat_set_cluster g c v s = Some (0, s1)
  /\ fat_next_cluster g c s1 = Some (v mod 2 ^ 28, s2)
  /\ exists F', repr g s2 F' B /\ F' c / 2 ^ 28 = F c / 2 ^ 28
     /\ forall x, x <> c -> F' x = F x.
Proof.
  intros Hg Hr Hc. destruct (fat_set_ok g Hg s F B c v Hr Hc) as (s1 & E1 & Hr1 & _).
  destruct (fat_next_ok g Hg s1 _ B c Hr1 Hc) as (s2 & E2 & Hr2 & _).
  assert (is_u32 (F c)) as Hu by (rewrite <- (rp_fat _ _ _ _ Hr c Hc); apply read32_u32).
  rewrite upd_same, merge28_low, land_mask28 in E2 by done.
  exists s1, s2. split; [done|]. split; [done|]. eexists. split; [done|].
  split; [|intros; by rewrite upd_other].
  rewrite upd_same, merge28_eq by done. change (2 ^ 28) with 268435456. zmod.
Qed.

(** [fat_alloc_cluster] returns the lowest-numbered free data cluster, marks it
    end-of-chain and touches nothing else; it returns 0, leaving the volume as it
    was, exactly when no data cluster is free. *)
Theorem fat_alloc_cluster_correct (g : geom) (s : @fs D A) F B :
  geom_ok g -> repr g s F B ->
  exists r s', fat_alloc_cluster g s = Some (r, s') /\ rest_eq s s'
  /\ (r = 0 /\ repr g s' F B /\ (forall x, valid g x -> is_free F x = false)
      \/ valid g r /\ is_free F r = true
         /\ (forall x, valid g x -> x < r -> is_free F x = false)
         /\ exists F', repr g s' F' B /\ next_of F' r = 0x0FFFFFFF
            /\ forall x, x <> r -> F' x = F x).
Proof.
  intros Hg Hr. destruct (fat_alloc_ok g Hg s F B Hr)
    as [(r & s' & E & Hrest & Hv & Hf & Hlow & Hr')|(s' & E & Hrest & Hr' & Hnone)].
  - exists r, s'. split; [done|]. split; [done|]. right. repeat split; try done; try apply Hv.
    eexists. split; [done|]. split; [|intros; by rewrite upd_other].
    unfold next_of. rewrite upd_same, merge28_low; [done|].
    rewrite <- (rp_fat _ _ _ _ Hr r) by (unfold valid in Hv; lia). apply read32_u32.
  - exists 0, s'. split; [done|]. split; [done|]. by left.
Qed.

(** [fat_free_chain] on the head of a chain frees every cluster of the chain and
    only those; the chain limit never cuts the walk short. *)
Theorem fat_free_chain_correct (g : geom) (s : @fs D A) F B c l :
  geom_ok g -> repr g s F B -> chain g F c l ->
  exists s' F', fat_free_chain g c s = Some (tt, s') /\ rest_eq s s' /\ repr g s' F' B
  /\ (forall x, x ∈ l -> is_free F' x = true) /\ (forall x, x ∉ l -> F' x = F x).
Proof.
  intros Hg Hr Hch. destruct (fat_free_chain_ok g Hg s F B c l Hr Hch) as (s' & E & Hrest & Hr').
  exists s', (freed_table F l). split; [done|]. split; [done|]. split; [done|].
  unfold freed_table. split; intros x Hx.
  - unfold is_free, next_of. rewrite bool_decide_eq_true_2 by done.
    rewrite merge28_low; [done|]. pose proof (chain_valid _ _ _ _ Hch) as Hv.
    rewrite Forall_forall in Hv. specialize (Hv x Hx).
    rewrite <- (rp_fat _ _ _ _ Hr x) by (unfold valid in Hv; lia). apply read32_u32.
  - by rewrite bool_decide_eq_false_2.
Qed.

End Claims.

(** ** A concrete volume

    One sector per cluster, one reserved sector, one table of one sector: 32 data
    clusters from sector 2 on.  The root directory is cluster 2; clusters 3 and 4
    are a file. *)

Module Demo.

Definition boot_byte (x : Z) : Z :=
  if x =? 12 then 2 else if x =? 13 then 1 else if x =? 14 then 1 else if x =? 16 then 1
  else if x =? 32 then 34 else if x =? 36 then 1 else if x =? 44 then 2 else 0.

Definition fat_byte (c k : Z) : Z :=
  if (c =? 2) || (c =? 4) then (if k =? 3 then 0x0F else 0xFF)
  else if c =? 3 then (if k =? 0 then 4 else 0) else 0.

Definition disk_byte (x : Z) : Z :=
  if x <? 512 then boot_byte x
  else if x <? 1024 then fat_byte ((x - 512) / 4) ((x - 512) mod 4)
  else if (1536 <=? x) && (x <? 2048) then 65 else 0.

Definition boot_state : @fs RamDisk.disk BumpHeap.bump :=
  mk_fs 0 [] (RamDisk.mk_disk disk_byte 34) BumpHeap.bump_init [].

Definition demo_geom : geom := mk_geom 512 1 1 1 34 1 2 1 2.
Definition demo_fs : @fs RamDisk.disk BumpHeap.bump :=
  mk_fs 2 [47] (RamDisk.mk_disk disk_byte 34) BumpHeap.bump_init [].

Lemma demo_mounted : fat32_init boot_state = (Some demo_geom, demo_fs).
Proof. vm_compute. reflexivity. Qed.

Lemma demo_geom_ok : geom_ok demo_geom.
Proof. split; vm_compute; intuition congruence. Qed.

Definition demo_table (c : Z) : Z :=
  read32 (fun i => bd_byte (dev demo_fs) (fat_pos demo_geom c + i)) 0.
Definition demo_clusters (c i : Z) : Z := bd_byte (dev demo_fs) (512 * lba_of demo_geom c + i).

Lemma demo_repr : repr demo_geom demo_fs demo_table demo_clusters.
Proof. apply repr_self; [done|]. vm_compute. congruence. Qed.

Lemma demo_valid c : 2 <= c < 34 -> valid demo_geom c.
Proof. done. Qed.

Lemma demo_chain : chain demo_geom demo_table 3 [3; 4].
Proof.
  apply chain_next; [by apply demo_valid|]. change (next_of demo_table 3) with 4.
  apply chain_last; [by apply demo_valid|]. vm_compute. congruence.
Qed.

End Demo.

Lemma fat_set_next_roundtrip_witness :
  exists s1 s2, fat_set_cluster Demo.demo_geom 5 0x12345678 Demo.demo_fs = Some (0, s1)
  /\ fat_next_cluster Demo.demo_geom 5 s1 = Some (0x2345678, s2).
Proof.
  destruct (fat_set_next_roundtrip Demo.demo_geom Demo.demo_fs Demo.demo_table Demo.demo_clusters 5 0x12345678)
    as (s1 & s2 & E1 & E2 & _); [apply Demo.demo_geom_ok|apply Demo.demo_repr|vm_compute; split; congruence|].
  exists s1, s2. split; [exact E1|exact E2].
Defined.

Lemma fat_alloc_cluster_correct_witness :
  exists s', fat_alloc_cluster Demo.demo_geom Demo.demo_fs = Some (5, s').
Proof.
  destruct (fat_alloc_cluster_correct Demo.demo_geom Demo.demo_fs Demo.demo_table Demo.demo_clusters)
    as (r & s' & E & _); [apply Demo.demo_geom_ok|apply Demo.demo_repr|].
  exists s'. rewrite E. f_equal. f_equal.
  assert (option_map fst (fat_alloc_cluster Demo.demo_geom Demo.demo_fs) = Some 5) as H by (vm_compute; reflexivity).
  rewrite E in H. simpl in H. congruence.
Defined.

Lemma fat_free_chain_correct_witness :
  exists s' F', fat_free_chain Demo.demo_geom 3 Demo.demo_fs = Some (tt, s')
  /\ is_free F' 3 = true /\ is_free F' 4 = true.
Proof.
  destruct (fat_free_chain_correct Demo.demo_geom Demo.demo_fs Demo.demo_table Demo.demo_clusters 3 [3; 4])
    as (s' & F' & E & _ & _ & Hf & _);
    [apply Demo.demo_geom_ok|apply Demo.demo_repr|apply Demo.demo_chain|].
  exists s', F'. split; [exact E|]. split; apply Hf; repeat constructor.
Defined.

End Table.
