(* ===== verification/Fat32Files.v ===== *)
(** * File contents on a FAT32 volume

    Cluster chains as byte arrays.  The copy loops of [fat32_read_file] and
    [fat32_write_file] (fs/fat32.c) read and build such arrays: what one stores the
    other returns, nothing else on the volume changes, and a write fails exactly when
    the free clusters do not suffice. *)

From S2P Require Import Prelude Heap Disk Fat32Names Fat32 Fat32Table.

Module Files.

Import Names Fat32 Table.

Section Files.
Context {D A : Type} `{BD : BlockDev D} `{KH : KernelHeap A}.
Context (g : geom) (Hg : geom_ok g).

#[local] Abbreviation fs := (@Fat32.fs D A).
#[local] Abbreviation cb := (cluster_bytes g).

Lemma cb_range : 512 <= cb <= 130560.
Proof. unfold cluster_bytes. destruct Hg. lia. Qed.

(** Byte [x] of the chain [l]. *)
Definition contents (B : Z -> Z -> Z) (l : list Z) (x : Z) : Z := B (ch l (x / cb)) (x mod cb).

Lemma contents_cons B c l x : 0 <= x ->
  contents B (c :: l) x = if x <? cb then B c x else contents B l (x - cb).
Proof.
  intros Hx. pose proof cb_range. unfold contents. destruct (Z.ltb_spec x cb).
  - by rewrite Z.div_small, Z.mod_small.
  - replace x with (x - cb + 1 * cb) at 1 2 by lia. rewrite Z.div_add, Z.mod_add by lia.
    assert (0 <= (x - cb) / cb) by (apply Z.div_pos; lia).
    unfold ch. by replace (Z.to_nat ((x - cb) / cb + 1)) with (S (Z.to_nat ((x - cb) / cb))) by lia.
Qed.

Lemma contents_ext B B' l x : 0 <= x < Z.of_nat (length l) * cb -> (forall c, c ∈ l -> forall i, 0 <= i < cb -> B c i = B' c i) ->
  contents B l x = contents B' l x.
Proof.
  intros Hx H. pose proof cb_range. unfold contents. apply H; [|apply Z.mod_pos_bound; lia].
  unfold ch. apply list_elem_of_In, nth_In. assert (x / cb < Z.of_nat (length l)) by (apply Z.div_lt_upper_bound; lia).
  assert (0 <= x / cb) by (apply Z.div_pos; lia). lia.
Qed.

(** ** Reading *)

Lemma read_loop_done n c size out (s : fs) : read_loop g n c size size out s = Some ((size, out), s).
Proof. destruct n; cbn [read_loop]; by rewrite Z.ltb_irrefl, andb_false_r. Qed.

(** The copy loop returns the bytes of the chain. *)
Lemma read_loop_ok F B c l : chain g F c l -> forall (s : fs) (n : nat) size from out,
  repr g s F B -> (length l <= n)%nat -> 0 <= from <= size -> size - from <= Z.of_nat (length l) * cb ->
  size < 4294967296 ->
  exists s' out', read_loop g n c size from out s = Some ((size, out'), s') /\ repr g s' F B /\ rest_eq s s'
  /\ forall x, out' x = if (from <=? x) && (x <? size) then contents B l (x - from) else out x.
Proof.
  intros Hch. induction Hch as [c Hv He|c l Hv Hch IH]; intros s n size from out Hr Hn Hfrom Hsize Hmax;
    pose proof cb_range as Hcb; (destruct n as [|n]; [simpl in Hn; lia|]); cbn [read_loop];
    rewrite (valid_in_chain g Hg c Hv); cbn [andb].
  1-2: destruct (Z.ltb_spec from size) as [Hlt|Hge];
    [|exists s, out; replace from with size by lia; split; [done|]; split; [done|]; split; [done|];
      intros x; zspec; simpl; done || lia].
  1-2: destruct (read_cluster_ok g Hg s F B c Hr Hv) as (b & s1 & E1 & Hb & Hr1 & Hrest1);
    rewrite (bind_ok _ _ _ _ _ E1); rewrite (u32_small (size - from)) by (unfold is_u32; lia);
    destruct (fat_next_ok g Hg s1 F B c Hr1 ltac:(unfold valid in Hv; lia)) as (s2 & E2 & Hr2 & Hrest2);
    rewrite (bind_ok _ _ _ _ _ E2); fold (next_of F c).
  - simpl in Hsize. exists s2. eexists. rewrite u32_small by (unfold is_u32; zcase; lia).
    assert (from + (if size - from <? cb then size - from else cb) = size) as -> by (zcase; lia).
    rewrite read_loop_done. split; [done|]. split; [done|]. split; [by eapply rest_eq_trans|].
    intros x. unfold blit. replace (from + (if size - from <? cb then size - from else cb)) with size by (zcase; lia).
    destruct (Z.leb_spec from x), (Z.ltb_spec x size); simpl; try done.
    rewrite contents_cons by lia. destruct (Z.ltb_spec (x - from) cb); [|lia]. rewrite Hb; [f_equal; lia|lia].
  - set (k := if size - from <? cb then size - from else cb).
    assert (0 <= k <= cb /\ from + k <= size /\ (k = cb \/ from + k = size)) as (Hk & Hks & Hk2) by (subst k; zcase; lia).
    rewrite (u32_small (from + k)) by (unfold is_u32; lia). cbn [length] in *.
    destruct (IH s2 n size (from + k) (blit out from b 0 k) Hr2) as (s' & out' & E & Hr' & Hrest' & Hout); [lia..|].
    exists s', out'. split; [exact E|]. split; [done|]. split; [by eapply rest_eq_trans; [|eapply rest_eq_trans]|].
    intros x. rewrite Hout. unfold blit.
    destruct (Z.leb_spec from x), (Z.ltb_spec x size), (Z.leb_spec (from + k) x); simpl; try lia.
    + rewrite contents_cons by lia. destruct (Z.ltb_spec (x - from) cb); [lia|]. f_equal. lia.
    + destruct (Z.ltb_spec x (from + k)); [|lia]. rewrite contents_cons by lia.
      destruct (Z.ltb_spec (x - from) cb); [|lia]. rewrite Hb; [f_equal; lia|lia].
    + destruct (Z.ltb_spec x (from + k)); [lia|done].
Qed.

(** ** Writing *)

Lemma repr_u32 (s : fs) F B c : repr g s F B -> 0 <= c < clusters g + 2 -> is_u32 (F c).
Proof. intros Hr Hc. rewrite <- (rp_fat _ _ _ _ Hr c Hc). apply read32_u32. Qed.

Lemma valid_table c : valid g c -> 0 <= c < clusters g + 2.
Proof. unfold valid. lia. Qed.

Lemma next_of_merge F c v x : is_u32 (F c) -> 0 <= v < 268435456 ->
  next_of (F.[c <- merge28 (F c) v]) x = if x =? c then v else next_of F x.
Proof.
  intros Hu Hv. unfold next_of, upd. destruct (Z.eqb_spec x c); [|done].
  rewrite merge28_low, land_mask28 by done. by apply Z.mod_small.
Qed.

Lemma valid_28 c : valid g c -> 0 <= c < 268435456.
Proof. unfold valid. destruct Hg. unfold FAT32_EOC in *. lia. Qed.

(** How many clusters are free. *)
Definition free_clusters (F : Z -> Z) : list Z := filter (fun c => is_free F c = true) (seqZ 2 (clusters g)).

Lemma elem_free F c : c ∈ free_clusters F <-> valid g c /\ is_free F c = true.
Proof.
  unfold free_clusters. rewrite list_elem_of_filter, elem_of_seqZ. unfold valid.
  pose proof (clusters_nonneg g Hg). intuition lia.
Qed.

Lemma no_free F : (forall x, valid g x -> is_free F x = false) -> free_clusters F = [].
Proof.
  intros Hnone. destruct (free_clusters F) as [|c l] eqn:E; [done|]. destruct (proj1 (elem_free F c)) as [Hv Hf].
  - rewrite E. apply elem_of_cons. by left.
  - by rewrite Hnone in Hf.
Qed.

Lemma free_taken F F' c : valid g c -> is_free F c = true -> is_free F' c = false ->
  (forall x, x <> c -> is_free F' x = is_free F x) -> S (length (free_clusters F')) = length (free_clusters F).
Proof.
  intros Hv Hf Hf' Hx. change (S (length (free_clusters F'))) with (length (c :: free_clusters F')).
  apply Permutation_length, NoDup_Permutation.
  - constructor; [rewrite elem_free; intros [_ ?]; congruence|]. apply NoDup_filter, NoDup_seqZ.
  - apply NoDup_filter, NoDup_seqZ.
  - intros x. rewrite elem_of_cons, !elem_free. destruct (decide (x = c)) as [->|Hne]; [tauto|].
    rewrite Hx by done. intuition congruence.
Qed.

(** Clusters needed for [n] bytes. *)
Definition needed (n : Z) : Z := (n + cb - 1) / cb.

Lemma needed_step n : 0 < n -> needed n = 1 + needed (n - (if n <? cb then n else cb)).
Proof.
  intros Hn. pose proof cb_range. unfold needed. zcase.
  - rewrite Z.sub_diag. rewrite (Z.div_small (0 + cb - 1)) by lia.
    replace (n + cb - 1) with (n - 1 + 1 * cb) by lia. rewrite Z.div_add by lia. rewrite Z.div_small; lia.
  - replace (n + cb - 1) with (n - cb + cb - 1 + 1 * cb) by lia. rewrite Z.div_add; lia.
Qed.

Lemma needed_nonneg n : 0 <= n -> 0 <= needed n.
Proof. intros. pose proof cb_range. apply Z.div_pos; lia. Qed.

Lemma needed_pos n : 0 < n -> 1 <= needed n.
Proof.
  intros Hn. rewrite needed_step by done.
  assert (0 <= needed (n - (if n <? cb then n else cb))); [apply needed_nonneg; zcase; lia|lia].
Qed.

(** What the loop leaves behind: the clusters it took, linked behind [p]. *)
Record written (F F' : Z -> Z) (B B' : Z -> Z -> Z) (data : Z -> Z) (from size p : Z) (l : list Z) : Prop := {
  wr_free : Forall (fun x => valid g x /\ is_free F x = true) l;
  wr_len : Z.of_nat (length l) = needed (size - from);
  wr_table : forall x, x ∉ l -> (x <> p \/ l = []) -> F' x = F x;
  wr_data : forall x, x ∉ l -> B' x = B x;
  wr_chain : l <> [] -> chain g F' (ch l 0) l;
  wr_link : l <> [] -> p <> 0 -> next_of F' p = ch l 0;
  wr_bytes : forall i, 0 <= i < size - from -> contents B' l i = u8 (data (from + i)) }.

Lemma written_nil F B data from p : written F F B B data from from p [].
Proof.
  pose proof cb_range. split; try done; try (by intros); try (intros; lia).
  rewrite Z.sub_diag. unfold needed. simpl. symmetry. apply Z.div_small. lia.
Qed.

(** A free cluster [c] taken and linked behind [p]. *)
Record taken (F F' : Z -> Z) (c p : Z) : Prop := {
  tk_valid : valid g c;
  tk_free : is_free F c = true;
  tk_end : next_of F' c = 0x0FFFFFFF;
  tk_link : p <> 0 -> next_of F' p = c;
  tk_other : forall x, x <> c -> (x <> p \/ p = 0) -> F' x = F x;
  tk_count : forall x, x <> c -> is_free F' x = is_free F x }.

Lemma taken_alone (s : fs) F B c : repr g s F B -> valid g c -> is_free F c = true ->
  taken F (F.[c <- merge28 (F c) 0x0FFFFFFF]) c 0.
Proof.
  intros Hr Hv Hf. pose proof (repr_u32 s F B c Hr (valid_table c Hv)) as Hu.
  split; try done; intros.
  - by rewrite next_of_merge, Z.eqb_refl.
  - by rewrite upd_other.
  - unfold is_free. rewrite next_of_merge by done. by destruct (Z.eqb_spec x c).
Qed.

Lemma taken_linked (s : fs) F F1 B c p : repr g s F1 B -> taken F F1 c 0 -> valid g p -> is_free F p = false ->
  taken F (F1.[p <- merge28 (F1 p) c]) c p.
Proof.
  intros Hr [Hv Hf He _ Ho Hc] Hp Hpf. pose proof (repr_u32 s F1 B p Hr (valid_table p Hp)) as Hu.
  pose proof (valid_28 c Hv). assert (c <> p) as Hcp by congruence.
  split; try done; intros.
  - rewrite next_of_merge by done. by destruct (Z.eqb_spec c p).
  - by rewrite next_of_merge, Z.eqb_refl.
  - destruct (decide (x = p)) as [->|].
    + assert (p = 0) by tauto. unfold valid in Hp. lia.
    + rewrite upd_other by done. apply Ho; tauto.
  - unfold is_free. rewrite next_of_merge by done. destruct (Z.eqb_spec x p) as [->|].
    + fold (is_free F p). rewrite Hpf. unfold FAT32_FREE. unfold valid in Hv. zspec; lia || done.
    + fold (is_free F1 x). by apply Hc.
Qed.

(** One cluster more in front of what the rest of the loop writes. *)
Lemma written_cons F F2 F' B B' data from k size p c l :
  taken F F2 c p -> 0 < size - from -> k = (if size - from <? cb then size - from else cb) ->
  (p = 0 \/ valid g p /\ is_free F p = false) ->
  written F2 F' (B.[c <- fun i => u8 (blit (fun _ => 0) 0 data from k i)]) B' data (from + k) size c l ->
  written F F' B B' data from size p (c :: l).
Proof.
  intros Ht Hn Hk Hp [Wf Wl Wt Wd Wc Wk Wb]. pose proof cb_range. destruct Ht as [Tv Tf Te Tl To Tc].
  assert (c ∉ l) as Hcl.
  { intros Hin. rewrite Forall_forall in Wf. destruct (Wf c Hin) as [_ Hx]. unfold is_free in Hx. by rewrite Te in Hx. }
  assert (forall x, x ∈ l -> valid g x /\ is_free F x = true) as Hl.
  { intros x Hx. rewrite Forall_forall in Wf. destruct (Wf x Hx) as [Hv Hx2]. rewrite Tc in Hx2 by (intros ->; done). done. }
  assert (p <> 0 -> (p ∉ l) /\ p <> c) as Hpl.
  { intros Hp0. destruct Hp as [|[_ Hpf]]; [done|]. split; [|congruence]. intros Hin%Hl. destruct Hin. congruence. }
  assert (l = [] \/ l <> []) as Hl0 by (destruct l; auto).
  assert (forall x, x <> c -> x ∉ l -> F' x = F2 x) as Hfr by (intros x H1 H2; apply Wt; auto).
  assert (l = [] -> F' c = F2 c) as Hfc by (intros; apply Wt; auto).
  split.
  - constructor; [done|]. apply Forall_forall. intros x Hx. by apply Hl.
  - cbn [length]. rewrite needed_step by done. rewrite <- Hk.
    replace (size - from - k) with (size - (from + k)) by lia. rewrite <- Wl. lia.
  - intros x Hx [Hxp|]; [|done]. apply not_elem_of_cons in Hx as [Hxc Hx]. rewrite Hfr by done. apply To; auto.
  - intros x Hx. apply not_elem_of_cons in Hx as [Hxc Hx]. rewrite Wd by done. by rewrite upd_other.
  - intros _. change (ch (c :: l) 0) with c. destruct Hl0 as [->|Hl0].
    + constructor; [done|]. unfold next_of in *. rewrite Hfc, Te by done. unfold FAT32_EOC. lia.
    + constructor; [done|]. rewrite Wk; [auto|done|]. unfold valid in Tv. lia.
  - intros _ Hp0. destruct (Hpl Hp0) as [Hp1 Hp2]. unfold next_of in *. rewrite Hfr by done. auto.
  - intros i Hi. rewrite contents_cons by lia. destruct (Z.ltb_spec i cb).
    + rewrite Wd, upd_same by done. rewrite blit_in; [f_equal; f_equal; lia|]. rewrite Hk. zcase; lia.
    + assert (k = cb) as -> by (rewrite Hk; zcase; lia). rewrite Wb by lia. f_equal. f_equal. lia.
Qed.

(** The allocation loop: it writes the data into free clusters, or runs out of them. *)
Lemma write_loop_ok data size : size < 4294967296 -> forall (fuel : nat) (s : fs) F B from first p,
  repr g s F B -> 0 <= from <= size -> needed (size - from) <= Z.of_nat fuel ->
  (p = 0 \/ valid g p /\ is_free F p = false) ->
  exists r s' F' B', write_loop g fuel data size from first p s = Some (r, s') /\ rest_eq s s' /\ repr g s' F' B'
  /\ match r with
     | Some f => exists l, written F F' B B' data from size p l
         /\ f = (if (p =? 0) && (from <? size) then ch l 0 else first)
     | None => Z.of_nat (length (free_clusters F)) < needed (size - from)
         /\ (forall x, is_free F x = false -> x <> p -> F' x = F x) /\ (forall x, is_free F x = false -> B' x = B x)
     end.
Proof.
  intros Hmax. induction fuel as [|fuel IH]; intros s F B from first p Hr Hfrom Hfuel Hp; cbn [write_loop];
    pose proof cb_range as Hcb; destruct (Z.ltb_spec from size) as [Hlt|Hge].
  2,4: exists (Some first), s, F, B; split; [done|]; split; [done|]; split; [done|]; exists [];
    replace size with from by lia; rewrite andb_false_r; split; [apply written_nil|done].
  { pose proof (needed_pos (size - from)). lia. }
  destruct (fat_alloc_ok g Hg s F B Hr) as [(c & s1 & E1 & Hrest1 & Hv & Hf & _ & Hr1)|(s1 & E1 & Hrest1 & Hr1 & Hnone)];
    rewrite (bind_ok _ _ _ _ _ E1).
  2:{ exists None, s1, F, B. split; [done|]. split; [done|]. split; [done|]. split; [|done].
      rewrite (no_free F Hnone).
      pose proof (needed_pos (size - from)). simpl. lia. }
  destruct (Z.eqb_spec c 0); [unfold valid in Hv; lia|].
  set (k := if size - from <? cb then size - from else cb).
  assert (0 < k <= cb /\ from + k <= size) as [Hk Hks] by (subst k; zcase; lia).
  pose proof (taken_alone s F B c Hr Hv Hf) as Ht. set (F1 := F.[c <- merge28 (F c) 0x0FFFFFFF]) in *.
  assert (exists s2 F2, (if negb (p =? 0) then let* _ := fat_set_cluster g p c in ret first else ret c) s1
      = Some (if p =? 0 then c else first, s2) /\ rest_eq s s2 /\ repr g s2 F2 B /\ taken F F2 c p) as (s2 & F2 & E2 & Hrest2 & Hr2 & Ht2).
  { destruct (Z.eqb_spec p 0) as [->|Hp0]; cbn [negb]; [by exists s1, F1|].
    destruct Hp as [|[Hpv Hpf]]; [done|].
    destruct (fat_set_ok g Hg s1 F1 B p c Hr1 (valid_table p Hpv)) as (s2 & E2 & Hr2 & Hrest2).
    exists s2, (F1.[p <- merge28 (F1 p) c]). rewrite (bind_ok _ _ _ _ _ E2).
    split; [done|]. split; [by eapply rest_eq_trans|]. split; [done|]. by eapply taken_linked. }
  rewrite (bind_ok _ _ _ _ _ E2), (u32_small (size - from)) by (unfold is_u32; lia). fold k.
  destruct (write_cluster_ok g Hg s2 F2 B c (blit (fun _ => 0) 0 data from k) Hr2 Hv) as (s3 & E3 & Hr3 & Hrest3).
  rewrite (bind_ok _ _ _ _ _ E3), (u32_small (from + k)) by (unfold is_u32; lia). cbn [negb Z.eqb].
  rewrite needed_step in Hfuel by lia. fold k in Hfuel. replace (size - from - k) with (size - (from + k)) in Hfuel by lia.
  destruct (IH s3 F2 _ (from + k) (if p =? 0 then c else first) c Hr3) as (r & s' & F' & B' & E & Hrest & Hr' & Hres); [lia|lia| |].
  { right. split; [done|]. unfold is_free. by rewrite (tk_end _ _ _ _ Ht2). }
  exists r, s', F', B'. split; [exact E|]. split; [by eapply rest_eq_trans; [exact Hrest2|eapply rest_eq_trans]|]. split; [done|].
  destruct r as [f|].
  - destruct Hres as (l & Hw & ->). exists (c :: l). split; [by eapply written_cons; [..|exact Hw]; try lia|].
    destruct (Z.eqb_spec c 0); [done|]. simpl andb. cbv iota. destruct (p =? 0); [|done]. done.
  - destruct Hres as (Hfew & HF & HB). rewrite needed_step by lia. fold k. replace (size - from - k) with (size - (from + k)) by lia.
    assert (is_free F2 c = false) as Hc2 by (unfold is_free; by rewrite (tk_end _ _ _ _ Ht2)).
    pose proof (free_taken F F2 c Hv Hf Hc2 (tk_count _ _ _ _ Ht2)). split; [lia|]. split; intros x Hx.
    + intros Hxp. assert (x <> c) as Hxc by congruence. rewrite HF by (rewrite ?(tk_count _ _ _ _ Ht2); done).
      by apply (tk_other _ _ _ _ Ht2); [|left].
    + assert (x <> c) as Hxc by congruence. rewrite HB by (rewrite (tk_count _ _ _ _ Ht2); done). by rewrite upd_other.
Qed.

End Files.
End Files.
