(* ===== verification/Fat32Dirs.v ===== *)
(** * Directories on a FAT32 volume

    A directory is the byte array of its cluster chain, cut into slots of 32 bytes; the
    cluster by cluster walks of fs/fat32.c are scans of that array.  A name that
    [fat32_create_entry] stores is found by the next lookup, and every other name is
    found where it was. *)

From S2P Require Import Prelude Heap Disk Fat32Names Fat32 Fat32Table Fat32Files.

Module Dirs.

Import Names Fat32 Table Files.

(** The branches of one step of a scan. *)
Ltac scan_cases :=
  repeat match goal with |- context [if ?b then _ else _] => destruct b end;
  repeat match goal with |- context [match lfn_accumulate ?e ?l with _ => _ end] => destruct (lfn_accumulate e l) end.

Section Dirs.
Context {D A : Type} `{BD : BlockDev D} `{KH : KernelHeap A}.
Context (g : geom) (Hg : geom_ok g).

#[local] Abbreviation fs := (@Fat32.fs D A).
#[local] Abbreviation cb := (cluster_bytes g).

(** Slots per cluster. *)
Definition epc : Z := sectors_per_cluster g * 16.

Lemma epc_facts : 16 <= epc <= 4080 /\ cb = epc * 32 /\ Z.of_nat (entries_per_cluster g) = epc.
Proof.
  unfold epc, entries_per_cluster, cluster_bytes. destruct Hg.
  replace (sectors_per_cluster g * 512) with (sectors_per_cluster g * 16 * 32) by lia. rewrite Z.div_mul by lia. lia.
Qed.

(** The scan of the slots [i .. i + n - 1] of the array [d] of the chain [dir]. *)
Fixpoint scan_slots (want : Z -> bool) (name : list Z) (dir : list Z) (d : Z -> Z) (n : nat) (i : Z) (l : lfn)
  : option scan_result :=
  match n with
  | O => Some (SMore l)
  | S k =>
    let e := entry d i in
    if e 0 =? 0x00 then Some SEnd
    else if e 0 =? 0xE5 then scan_slots want name dir d k (i + 1) (lfn_reset l)
    else
      let attr := e 11 in
      if attr =? 0x0F then
        match lfn_accumulate e l with
        | None => None
        | Some l => scan_slots want name dir d k (i + 1) (track (ch dir (i / epc)) (i mod epc) l)
        end
      else if attr =? 0x08 then scan_slots want name dir d k (i + 1) (lfn_reset l)
      else if negb (want attr) then scan_slots want name dir d k (i + 1) (lfn_reset l)
      else if entry_match l e name then Some (SHit i l)
      else scan_slots want name dir d k (i + 1) (lfn_reset l)
  end.

(** A scan in two parts. *)
Lemma scan_slots_app want name dir d n m i l :
  scan_slots want name dir d (n + m) i l =
  match scan_slots want name dir d n i l with
  | Some (SMore l) => scan_slots want name dir d m (i + Z.of_nat n) l
  | r => r
  end.
Proof.
  revert i l. induction n as [|n IH]; intros i l; [by rewrite Z.add_0_r|].
  cbn [scan_slots Nat.add]. replace (i + Z.of_nat (S n)) with (i + 1 + Z.of_nat n) by lia.
  scan_cases; try done; apply IH.
Qed.

Lemma entry_same d d' i : (forall x, i * 32 <= x < i * 32 + 32 -> d x = d' x) -> entry_eq (entry d i) (entry d' i).
Proof. intros H j Hj. unfold entry. apply H. lia. Qed.

(** Only the bytes of the slots and their clusters matter. *)
Lemma scan_slots_ext want name dir dir' d d' n i l :
  (forall x, i * 32 <= x < (i + Z.of_nat n) * 32 -> d x = d' x) ->
  (forall j, i <= j < i + Z.of_nat n -> ch dir (j / epc) = ch dir' (j / epc)) ->
  scan_slots want name dir d n i l = scan_slots want name dir' d' n i l.
Proof.
  revert i l. induction n as [|n IH]; intros i l Hd Hc; [done|]. cbn [scan_slots].
  pose proof (entry_same d d' i ltac:(intros; apply Hd; lia)) as He.
  assert (forall l, scan_slots want name dir d n (i + 1) l = scan_slots want name dir' d' n (i + 1) l) as IH1.
  { intros l1. apply IH; intros; [apply Hd|apply Hc]; lia. }
  rewrite (He 0), (He 11), (lfn_accumulate_proper _ _ He l l eq_refl), (entry_match_proper l l eq_refl _ _ He name name eq_refl), (Hc i) by lia.
  scan_cases; try done; apply IH1.
Qed.

(** The entry loop on one cluster is the scan of its slots. *)
Lemma scan_entries_slots want name dir d buf c q n i l :
  0 <= i -> i + Z.of_nat n <= epc -> 0 <= q -> ch dir q = c ->
  (forall x, 0 <= x < cb -> buf x = d (q * cb + x)) ->
  scan_slots want name dir d n (q * epc + i) l
  = match scan_entries want name c buf n i l with Some (SHit j l) => Some (SHit (q * epc + j) l) | r => r end.
Proof.
  intros Hi Hn Hq Hc Hb. destruct epc_facts as (He & Hcb & _). revert i l Hi Hn.
  induction n as [|n IH]; intros i l Hi Hn; [done|]. cbn [scan_slots scan_entries].
  assert (entry_eq (entry d (q * epc + i)) (entry buf i)) as Hen.
  { intros j Hj. unfold entry. rewrite Hb by nia. f_equal. nia. }
  replace (q * epc + i + 1) with (q * epc + (i + 1)) by lia.
  rewrite (Hen 0), (Hen 11), (lfn_accumulate_proper _ _ Hen l l eq_refl), (entry_match_proper l l eq_refl _ _ Hen name name eq_refl) by lia.
  assert ((q * epc + i) / epc = q /\ (q * epc + i) mod epc = i) as [-> ->].
  { rewrite Z.add_comm, Z.div_add, Z.mod_add, Z.div_small, Z.mod_small by lia. lia. }
  rewrite Hc. scan_cases; try done; rewrite IH by lia; done.
Qed.

Lemma scan_entries_range want name c buf n i l j l' :
  scan_entries want name c buf n i l = Some (SHit j l') -> i <= j < i + Z.of_nat n.
Proof.
  revert i l. induction n as [|n IH]; intros i l; [done|]. cbn [scan_entries].
  scan_cases; try done; try (intros ?%IH; lia). intros [= -> ->]. lia.
Qed.

(** The cluster at index [q] of a chain holds its part of the array. *)
Lemma contents_part B dir q x : 0 <= q -> 0 <= x < cb -> contents g B dir (q * cb + x) = B (ch dir q) x.
Proof.
  intros Hq Hx. unfold contents. rewrite Z.add_comm, Z.div_add, Z.mod_add, Z.div_small, Z.mod_small by lia. done.
Qed.

Lemma ch_middle (pre : list Z) c suf : ch (pre ++ c :: suf) (Z.of_nat (length pre)) = c.
Proof. unfold ch. rewrite Nat2Z.id, app_nth2, Nat.sub_diag by lia. done. Qed.

(** What a walk over the chain answers, in terms of the scan of the whole array. *)
Definition scan_answer (B : Z -> Z -> Z) (dir : list Z) (r : option scan_result) (o : option (option hit * fs)) (s' : fs) : Prop :=
  match r with
  | None => o = None
  | Some (SHit i l) => exists buf, o = Some (Some (mk_hit (ch dir (i / epc)) (i mod epc) buf l), s')
      /\ forall x, 0 <= x < cb -> buf x = B (ch dir (i / epc)) x
  | Some _ => o = Some (None, s')
  end.

Lemma scan_chain_ok F B want name dir : forall suf c pre (s : fs) (n : nat) l,
  chain g F c suf -> dir = pre ++ suf -> repr g s F B -> (length suf <= n)%nat ->
  exists s', repr g s' F B /\ rest_eq s s' /\
  scan_answer B dir (scan_slots want name dir (contents g B dir) (length suf * Z.to_nat epc) (Z.of_nat (length pre) * epc) l)
    (scan_chain g n want name c l s) s'.
Proof.
  destruct epc_facts as (He & Hcb & Hepc). pose proof (cb_range g Hg).
  intros suf c pre s n l Hch. revert pre s n l.
  induction Hch as [c Hv Hend|c suf Hv Hch IH]; intros pre s n l Hdir Hr Hn;
    (destruct n as [|n]; [simpl in Hn; lia|]); cbn [scan_chain];
    rewrite (valid_in_chain g Hg c Hv);
    destruct (read_cluster_ok g Hg s F B c Hr Hv) as (buf & s1 & E1 & Hb & Hr1 & Hrest1);
    rewrite (bind_ok _ _ _ _ _ E1).
  all: set (q := Z.of_nat (length pre)) in *.
  all: assert (ch dir q = c) as Hc by (subst; apply ch_middle).
  all: replace (entries_per_cluster g) with (Z.to_nat epc) by lia; cbn [length Nat.mul];
    rewrite scan_slots_app.
  all: assert (forall x, 0 <= x < cb -> buf x = contents g B dir (q * cb + x)) as Hbuf
    by (intros x Hx; rewrite contents_part, Hc by lia; auto).
  all: pose proof (scan_entries_slots want name dir (contents g B dir) buf c q (Z.to_nat epc) 0 l
    ltac:(lia) ltac:(lia) ltac:(lia) Hc Hbuf) as Hsl; rewrite Z.add_0_r in Hsl; rewrite Hsl; clear Hsl.
  all: unfold lift_opt; destruct (scan_entries want name c buf (Z.to_nat epc) 0 l) as [[j l'| |l']|] eqn:Es;
    [|exists s1; split; [done|]; split; [done|]; reflexivity| |exists s1; split; [done|]; split; [done|]; reflexivity].
  1,3: apply scan_entries_range in Es; exists s1; split; [done|]; split; [done|]; exists buf;
    assert ((q * epc + j) / epc = q /\ (q * epc + j) mod epc = j) as [-> ->]
      by (rewrite Z.add_comm, Z.div_add, Z.mod_add, Z.div_small, Z.mod_small by lia; lia);
    rewrite Hc; split; [reflexivity|]; auto.
  all: unfold bind at 1; cbv beta iota;
    destruct (fat_next_ok g Hg s1 F B c Hr1 (valid_table g c Hv)) as (s2 & E2 & Hr2 & Hrest2);
    rewrite (bind_ok _ _ _ _ _ E2); fold (next_of F c).
  - exists s2. split; [done|]. split; [by eapply rest_eq_trans|]. cbn [scan_slots scan_answer Nat.mul].
    assert (in_chain (next_of F c) = false) as Hin by (unfold in_chain; zspec; simpl; done || lia).
    destruct n; cbn [scan_chain]; by rewrite Hin.
  - destruct (IH (pre ++ [c]) s2 n l') as (s3 & Hr3 & Hrest3 & Ha); [by subst; rewrite <- app_assoc|done|simpl in Hn; lia|].
    exists s3. split; [done|]. split; [by eapply rest_eq_trans; [|eapply rest_eq_trans]|].
    rewrite length_app in Ha. cbn [length] in Ha.
    replace (q * epc + Z.of_nat (Z.to_nat epc)) with (Z.of_nat (length pre + 1) * epc) by lia. exact Ha.
Qed.

(** ** The end of a directory *)

(** The first [m] slots are in use, the others start with the end marker. *)
Definition ends_at (d : Z -> Z) (n m : Z) : Prop :=
  0 <= m <= n /\ (forall i, 0 <= i < m -> d (i * 32) <> 0) /\ (forall i, m <= i < n -> d (i * 32) = 0).

Definition slots (dir : list Z) : Z := Z.of_nat (length dir) * epc.

(** The first free slot of the cluster at index [q]. *)
Lemma free_slot_ok B dir m buf q :
  ends_at (contents g B dir) (slots dir) m -> 0 <= q < Z.of_nat (length dir) -> q * epc <= m ->
  (forall x, 0 <= x < cb -> buf x = B (ch dir q) x) ->
  free_slot g buf = if m <? (q + 1) * epc then Some (m - q * epc) else None.
Proof.
  intros (Hm & Hu & Hz) Hq Hqm Hb. destruct epc_facts as (He & Hcb & Hepc). unfold free_slot.
  assert (forall i, 0 <= i < epc -> buf (i * 32) = contents g B dir ((q * epc + i) * 32)) as Hx.
  { intros i Hi. rewrite Hb by lia. replace ((q * epc + i) * 32) with (q * cb + i * 32) by lia. by rewrite contents_part by lia. }
  destruct (Z.ltb_spec m ((q + 1) * epc)).
  - apply find_from_first; [lia| |].
    + rewrite Hx by lia. replace (q * epc + (m - q * epc)) with m by lia. rewrite Hz; [done|]. unfold slots. nia.
    + intros j Hj. rewrite Hx by lia. apply Z.eqb_neq, Hu. lia.
  - destruct (find_from _ _ _) as [j|] eqn:E; [|done]. apply find_from_Some in E as (Hj & Ht & _).
    rewrite Hx in Ht by lia. apply Z.eqb_eq in Ht. exfalso. revert Ht. apply Hu. nia.
Qed.

Lemma last_snoc_ch (dir : list Z) : dir <> [] -> ch dir (Z.of_nat (length dir) - 1) = default 0 (last dir).
Proof.
  intros Hd. destruct (exists_last Hd) as (l & x & ->). rewrite last_snoc, length_app. cbn [length default].
  replace (Z.of_nat (length l + 1) - 1) with (Z.of_nat (length l)) by lia. apply ch_middle.
Qed.

Lemma find_slot_ok F B dir m : ends_at (contents g B dir) (slots dir) m ->
  forall suf c pre prev (s : fs) (n : nat), chain g F c suf -> dir = pre ++ suf -> repr g s F B -> (length suf <= n)%nat ->
  Z.of_nat (length pre) * epc <= m ->
  exists s', repr g s' F B /\ rest_eq s s' /\
  find_slot g n c prev s = Some (if m <? slots dir then inl (ch dir (m / epc), m mod epc) else inr (default 0 (last dir)), s').
Proof.
  intros Hend suf c pre prev s n Hch. destruct epc_facts as (He & Hcb & Hepc). revert pre prev s n.
  induction Hch as [c Hv Hlast|c suf Hv Hch IH]; intros pre prev s n Hdir Hr Hn Hm;
    (destruct n as [|n]; [simpl in Hn; lia|]); cbn [find_slot];
    rewrite (valid_in_chain g Hg c Hv);
    destruct (read_cluster_ok g Hg s F B c Hr Hv) as (buf & s1 & E1 & Hb & Hr1 & Hrest1);
    rewrite (bind_ok _ _ _ _ _ E1); set (q := Z.of_nat (length pre)) in *;
    assert (ch dir q = c) as Hc by (subst; apply ch_middle);
    assert (q < Z.of_nat (length dir)) as Hq by (subst dir; rewrite length_app; simpl; lia);
    rewrite (free_slot_ok B dir m buf q) by (try done; try lia; by rewrite Hc).
  all: destruct (Z.ltb_spec m ((q + 1) * epc)) as [Hlt|Hge].
  1,3: exists s1; split; [done|]; split; [done|]; destruct (Z.ltb_spec m (slots dir)); [|unfold slots in *; nia];
    assert (m / epc = q /\ m mod epc = m - q * epc) as [-> ->]
      by (replace m with (m - q * epc + q * epc) at 1 2 by lia; rewrite Z.div_add, Z.mod_add, Z.div_small, Z.mod_small by lia; lia);
    by rewrite Hc.
  all: destruct (fat_next_ok g Hg s1 F B c Hr1 (valid_table g c Hv)) as (s2 & E2 & Hr2 & Hrest2);
    rewrite (bind_ok _ _ _ _ _ E2); fold (next_of F c).
  - exists s2. split; [done|]. split; [by eapply rest_eq_trans|].
    assert (in_chain (next_of F c) = false) as Hin by (unfold in_chain; zspec; simpl; done || lia).
    assert (slots dir = (q + 1) * epc) as Hs by (unfold slots; subst dir; rewrite length_app; simpl; lia).
    destruct (Z.ltb_spec m (slots dir)); [lia|]. subst dir. rewrite last_snoc.
    destruct n; cbn [find_slot]; by rewrite Hin.
  - destruct (IH (pre ++ [c]) c s2 n) as (s3 & Hr3 & Hrest3 & E3);
      [by subst; rewrite <- app_assoc|done|simpl in Hn; lia|rewrite length_app; simpl; lia|].
    exists s3. split; [done|]. split; [by eapply rest_eq_trans; [|eapply rest_eq_trans]|]. exact E3.
Qed.

(** ** Storing entries *)

Lemma chain_not_free F c l x : chain g F c l -> x ∈ l -> is_free F x = false.
Proof.
  unfold is_free, FAT32_FREE. induction 1 as [c Hv He|c l Hv Hch IH]; intros Hx.
  - apply list_elem_of_singleton in Hx as ->. apply Z.eqb_neq. unfold FAT32_EOC in He. lia.
  - apply elem_of_cons in Hx as [->|Hx]; [|auto]. apply Z.eqb_neq.
    apply chain_head_valid in Hch. unfold valid in Hch. lia.
Qed.

Lemma chain_nonempty F c l : chain g F c l -> l <> [] /\ ch l 0 = c.
Proof. by destruct 1. Qed.

Lemma chain_last_end F c l : chain g F c l -> FAT32_EOC <= next_of F (default 0 (last l)).
Proof.
  induction 1 as [c Hv He|c l Hv Hch IH]; [done|]. destruct (chain_head _ _ _ _ Hch) as [l' ->]. exact IH.
Qed.

Lemma last_cons_ne (c : Z) l : l <> [] -> last (c :: l) = last l.
Proof. by destruct l. Qed.

Lemma chain_snoc F F' c l x : chain g F c l -> taken g F F' x (default 0 (last l)) -> chain g F' c (l ++ [x]).
Proof.
  induction 1 as [c Hv He|c l Hv Hch IH]; intros Ht; pose proof Ht as [Tv Tf Te Tl To Tc].
  - simpl in *. apply chain_next; [done|]. rewrite Tl by (unfold valid in Hv; lia). apply chain_last; [done|].
    rewrite Te. unfold FAT32_EOC. lia.
  - destruct (chain_nonempty _ _ _ Hch) as [Hne _]. rewrite last_cons_ne in Ht, To by done.
    pose proof (chain_NoDup g Hg _ _ _ (chain_next g F c l Hv Hch)) as [Hnin _]%NoDup_cons.
    assert (F' c = F c) as Hc.
    { apply To.
      - intros ->. assert (is_free F x = false) by (eapply chain_not_free; [by apply chain_next|apply elem_of_cons; by left]). congruence.
      - left. intros ->. apply Hnin. apply last_Some_elem_of. destruct (exists_last Hne) as (k & y & ->). by rewrite last_snoc. }
    simpl. apply chain_next; [done|]. unfold next_of. rewrite Hc. apply IH, Ht.
Qed.

Lemma chain_step F c l (i : nat) x : chain g F c l -> l !! i = Some x ->
  match l !! S i with Some y => next_of F x = y | None => FAT32_EOC <= next_of F x end.
Proof.
  intros Hch. revert i. induction Hch as [c Hv He|c l Hv Hch IH]; intros i Hi.
  - destruct i; [|done]. by simplify_eq/=.
  - destruct i as [|i]; [|by apply IH]. simplify_eq/=. destruct (chain_head _ _ _ _ Hch) as [l' ->]. done.
Qed.


Lemma ch_elem (l : list Z) q : 0 <= q < Z.of_nat (length l) -> l !! Z.to_nat q = Some (ch l q).
Proof.
  intros Hq. destruct (lookup_lt_is_Some_2 l (Z.to_nat q)) as [x Hx]; [lia|]. unfold ch. rewrite Hx.
  by rewrite (nth_lookup_Some _ _ _ _ Hx).
Qed.

(** Replacing the cluster at index [q] of a chain. *)
Lemma contents_upd B dir q f x : NoDup dir -> 0 <= q < Z.of_nat (length dir) -> 0 <= x < Z.of_nat (length dir) * cb ->
  contents g (B.[ch dir q <- f]) dir x = if (q * cb <=? x) && (x <? (q + 1) * cb) then f (x - q * cb) else contents g B dir x.
Proof.
  intros Hnd Hq Hx. pose proof (cb_range g Hg). unfold contents.
  assert (0 <= x / cb < Z.of_nat (length dir)) by (split; [apply Z.div_pos; lia|apply Z.div_lt_upper_bound; lia]).
  pose proof (Z.div_mod x cb ltac:(lia)). pose proof (Z.mod_pos_bound x cb ltac:(lia)).
  destruct (decide (x / cb = q)) as [E|Hne].
  - rewrite E, upd_same. destruct (Z.leb_spec (q * cb) x), (Z.ltb_spec x ((q + 1) * cb)); simpl; try nia. f_equal. nia.
  - rewrite upd_other.
    + destruct (Z.leb_spec (q * cb) x), (Z.ltb_spec x ((q + 1) * cb)); simpl; try done. exfalso. apply Hne.
      symmetry. apply (Z.div_unique x cb q (x - q * cb)); nia.
    + intros Heq. apply Hne. pose proof (ch_elem dir (x / cb) ltac:(lia)) as L1. pose proof (ch_elem dir q Hq) as L2.
      rewrite Heq in L1. pose proof (NoDup_lookup _ _ _ _ Hnd L1 L2). lia.
Qed.

(** A directory array with [n] entries stored from slot [pos] on, behind it zeros. *)
Definition stored (d : Z -> Z) (size : Z) (ents : Z -> Z) (w pos n : Z) (x : Z) : Z :=
  if (pos * 32 <=? x) && (x <? (pos + n) * 32) then u8 (ents (w * 32 + (x - pos * 32)))
  else if x <? size then d x else 0.

(** What storing entries does to a volume: the chain [dir] is extended by free
    clusters, its array becomes [d], and nothing else changes. *)
Record extended (F F' : Z -> Z) (B B' : Z -> Z -> Z) (c : Z) (dir ext : list Z) (d : Z -> Z) : Prop := {
  ex_chain : chain g F' c (dir ++ ext);
  ex_free : Forall (fun x => valid g x /\ is_free F x = true) ext;
  ex_table : forall x, x ∉ dir ++ ext -> F' x = F x;
  ex_data : forall x, x ∉ dir ++ ext -> B' x = B x;
  ex_bytes : forall x, 0 <= x < Z.of_nat (length (dir ++ ext)) * cb -> contents g B' (dir ++ ext) x = d x }.

(** The outcome of a store of [n] entries from slot [pos] on, over an array [d]. *)
Definition store_outcome (F : Z -> Z) (B : Z -> Z -> Z) (c : Z) (dir : list Z) (d ents : Z -> Z) (w pos n : Z)
    (s : fs) (o : option (Z * fs)) : Prop :=
  exists r s' F' B', o = Some (r, s') /\ rest_eq s s' /\ repr g s' F' B'
  /\ (r = 0 /\ (exists ext, extended F F' B B' c dir ext (stored d (Z.of_nat (length dir) * cb) ents w pos n)
                 /\ pos + n <= slots (dir ++ ext))
      \/ r = -1 /\ Z.of_nat (length (free_clusters g F)) * epc < pos + n - slots dir
         /\ forall x, is_free F x = false -> x ∉ dir -> F' x = F x /\ B' x = B x).

Lemma slots_bytes dir : slots dir * 32 = Z.of_nat (length dir) * cb.
Proof. destruct epc_facts as (_ & Hcb & _). unfold slots. lia. Qed.

(** Storing the entry at the slot [pos] and then the rest is storing all. *)
Lemma stored_step d size ents w pos n x : 0 <= pos -> (pos + 1) * 32 <= size -> 0 <= n ->
  stored (fun x => if (pos * 32 <=? x) && (x <? pos * 32 + 32) then u8 (ents (w * 32 + (x - pos * 32))) else d x) size ents (w + 1) (pos + 1) n x
  = stored d size ents w pos (n + 1) x.
Proof.
  intros Hp Hs Hn. unfold stored.
  destruct (Z.leb_spec (pos * 32) x), (Z.leb_spec ((pos + 1) * 32) x), (Z.ltb_spec x (pos * 32 + 32)),
    (Z.ltb_spec x ((pos + 1 + n) * 32)), (Z.ltb_spec x ((pos + (n + 1)) * 32)), (Z.ltb_spec x size); simpl; try lia;
    try done; f_equal; f_equal; lia.
Qed.

Lemma stored_ext d d' size ents w pos n x : 0 <= x -> (forall x, 0 <= x < size -> d x = d' x) ->
  stored d size ents w pos n x = stored d' size ents w pos n x.
Proof. intros Hx H. unfold stored. destruct (_ && _); [done|]. destruct (Z.ltb_spec x size); [|done]. apply H. lia. Qed.

Lemma outcome_ext F B c dir d d' ents w pos n s o :
  (forall x, 0 <= x < Z.of_nat (length dir) * cb -> d x = d' x) ->
  store_outcome F B c dir d ents w pos n s o -> store_outcome F B c dir d' ents w pos n s o.
Proof.
  intros Hd (r & s' & F' & B' & E & Hrest & Hr & Hcase). exists r, s', F', B'. split; [done|]. split; [done|]. split; [done|].
  destruct Hcase as [(-> & ext & [X1 X2 X3 X4 X5] & Hs)|Hf]; [left|by right]. split; [done|]. exists ext. split; [|done].
  split; try done. intros x Hx. rewrite X5 by done. apply stored_ext; [lia|done].
Qed.

(** One entry into the cluster at index [q], then the rest. *)
Lemma put_step F B c dir q idx w n ents buf (s : fs) o :
  NoDup dir -> 0 <= q < Z.of_nat (length dir) -> 0 <= idx < epc ->
  store_outcome F B c dir (contents g (B.[ch dir q <- fun i => u8 (blit buf (idx * 32) ents (w * 32) 32 i)]) dir)
    ents (w + 1) (q * epc + (idx + 1)) (Z.of_nat n) s o ->
  store_outcome F B c dir (contents g (B.[ch dir q <- fun i => u8 (buf i)]) dir) ents w (q * epc + idx) (Z.of_nat (S n)) s o.
Proof.
  intros Hnd Hq Hidx H. destruct epc_facts as (He & Hcb & _). pose proof (slots_bytes dir) as Hsl.
  assert (q * epc + idx + 1 <= slots dir) as Hin by (unfold slots; nia).
  destruct H as (r & s' & F' & B' & E & Hrest & Hr & Hcase). exists r, s', F', B'. split; [done|]. split; [done|]. split; [done|].
  replace (Z.of_nat (S n)) with (Z.of_nat n + 1) by lia.
  destruct Hcase as [(-> & ext & [X1 X2 X3 X4 X5] & Hs)|(-> & Hf & Hfr)].
  - left. split; [done|]. exists ext. split; [|lia]. split; try done. intros x Hx. rewrite X5 by done.
    rewrite <- stored_step by lia. replace (q * epc + (idx + 1)) with (q * epc + idx + 1) by lia.
    apply stored_ext; [lia|]. intros y Hy. rewrite !contents_upd by done. unfold blit.
    destruct (Z.leb_spec (q * cb) y), (Z.ltb_spec y ((q + 1) * cb)), (Z.leb_spec ((q * epc + idx) * 32) y),
      (Z.ltb_spec y ((q * epc + idx) * 32 + 32)), (Z.leb_spec (idx * 32) (y - q * cb)), (Z.ltb_spec (y - q * cb) (idx * 32 + 32));
      simpl; try nia; try done; f_equal; f_equal; lia.
  - right. split; [done|]. split; [lia|done].
Qed.

Lemma rest_outcome F B c dir d ents w pos n (s s1 : fs) o :
  rest_eq s s1 -> store_outcome F B c dir d ents w pos n s1 o -> store_outcome F B c dir d ents w pos n s o.
Proof.
  intros H (r & s' & F' & B' & E & Hrest & Hx). exists r, s', F', B'. split; [done|]. split; [by eapply rest_eq_trans|done].
Qed.

(** The contents of other clusters of the chain are stored first. *)
Lemma outcome_data F B B1 c dir d ents w pos n (s : fs) o :
  (forall x, x ∉ dir -> B1 x = B x) -> store_outcome F B1 c dir d ents w pos n s o -> store_outcome F B c dir d ents w pos n s o.
Proof.
  intros HB (r & s' & F' & B' & E & Hrest & Hr & Hcase). exists r, s', F', B'. split; [done|]. split; [done|]. split; [done|].
  destruct Hcase as [(-> & ext & [X1 X2 X3 X4 X5] & Hs)|(-> & Hf & Hfr)].
  - left. split; [done|]. exists ext. split; [|done]. split; try done. intros x Hx. rewrite X4 by done. apply HB.
    intros H. apply Hx, elem_of_app. by left.
  - right. split; [done|]. split; [done|]. intros x Hx Hd. destruct (Hfr x Hx Hd) as [-> ->]. by rewrite HB.
Qed.

(** The chain is extended by one cleared cluster first. *)
Lemma outcome_grow F F2 B B2 c dir new d d1 ents w pos n (s : fs) o :
  chain g F c dir -> taken g F F2 new (default 0 (last dir)) ->
  (forall x, x ∉ dir ++ [new] -> B2 x = B x) ->
  (forall x, 0 <= x < Z.of_nat (length (dir ++ [new])) * cb -> d1 x = if x <? Z.of_nat (length dir) * cb then d x else 0) ->
  store_outcome F2 B2 c (dir ++ [new]) d1 ents w pos n s o -> store_outcome F B c dir d ents w pos n s o.
Proof.
  intros Hch Ht HB Hd (r & s' & F' & B' & E & Hrest & Hr & Hcase). pose proof Ht as [Tv Tf Te Tl To Tc].
  destruct epc_facts as (He & Hcb & _). pose proof (cb_range g Hg).
  assert (is_free F2 new = false) as Hn2 by (unfold is_free; by rewrite Te).
  assert (default 0 (last dir) ∈ dir) as Hlast.
  { destruct (chain_nonempty _ _ _ Hch) as [Hne _]. destruct (exists_last Hne) as (k & y & ->). rewrite last_snoc. apply elem_of_app. right. by apply list_elem_of_singleton. }
  assert (forall x, x <> new -> x ∉ dir -> F2 x = F x) as HF2.
  { intros x Hx Hxd. apply To; [done|]. left. intros ->. done. }
  exists r, s', F', B'. split; [done|]. split; [done|]. split; [done|].
  destruct Hcase as [(-> & ext & [X1 X2 X3 X4 X5] & Hs)|(-> & Hf & Hfr)].
  - left. split; [done|]. exists (new :: ext). rewrite <- app_assoc in *. split; [|done]. split; try done.
    + constructor; [done|]. rewrite Forall_forall in *. intros x Hx. destruct (X2 x Hx) as [Hv Hfx]. split; [done|].
      rewrite <- Tc; [done|]. intros ->. congruence.
    + intros x Hx. rewrite X3 by done. rewrite !elem_of_app, elem_of_cons in Hx. apply HF2; tauto.
    + intros x Hx. rewrite X4 by done. apply HB. rewrite elem_of_app, list_elem_of_singleton. rewrite elem_of_app, elem_of_cons in Hx. tauto.
    + intros x Hx. rewrite X5 by done. unfold stored. destruct (_ && _); [done|].
      rewrite length_app in *. cbn [length] in *.
      destruct (Z.ltb_spec x (Z.of_nat (length dir + 1) * cb)), (Z.ltb_spec x (Z.of_nat (length dir) * cb)); try lia;
        rewrite ?Hd by lia; destruct (Z.ltb_spec x (Z.of_nat (length dir) * cb)); done || lia.
  - right. split; [done|]. pose proof (free_taken g Hg F F2 new Tv Tf Hn2 Tc) as Hcount.
    unfold slots in *. rewrite length_app in Hf. cbn [length] in Hf. split; [nia|].
    intros x Hx Hxd. assert (x <> new) as Hne by congruence. destruct (Hfr x) as [-> ->].
    + by rewrite Tc.
    + rewrite elem_of_app, list_elem_of_singleton. tauto.
    + split; [by apply HF2|]. apply HB. rewrite elem_of_app, list_elem_of_singleton. tauto.
Qed.

Lemma repr_byte (s : fs) F B c i : repr g s F B -> valid g c -> 0 <= i < cb -> is_byte (B c i).
Proof. intros Hr Hv Hi. rewrite <- (rp_data _ _ _ _ Hr c i Hv Hi). apply bd_byte_range. Qed.

(** Writing back a cluster just read changes nothing. *)
Lemma contents_same (s : fs) F B dir q buf x : repr g s F B -> NoDup dir -> Forall (valid g) dir -> 0 <= q < Z.of_nat (length dir) ->
  (forall i, 0 <= i < cb -> buf i = B (ch dir q) i) -> 0 <= x < Z.of_nat (length dir) * cb ->
  contents g (B.[ch dir q <- fun i => u8 (buf i)]) dir x = contents g B dir x.
Proof.
  intros Hr Hnd Hv Hq Hb Hx. rewrite contents_upd by done. destruct (Z.leb_spec (q * cb) x), (Z.ltb_spec x ((q + 1) * cb)); simpl; try done.
  rewrite Hb by lia. rewrite u8_small.
  - rewrite <- contents_part by lia. f_equal. lia.
  - eapply repr_byte; [done| |lia]. rewrite Forall_forall in Hv. apply Hv. eapply list_elem_of_lookup_2, ch_elem. lia.
Qed.

(** A cleared cluster at the end of a chain. *)
Lemma contents_grown B dir new f x : new ∉ dir -> 0 <= x < Z.of_nat (length (dir ++ [new])) * cb ->
  contents g (B.[new <- f]) (dir ++ [new]) x
  = if x <? Z.of_nat (length dir) * cb then contents g B dir x else f (x - Z.of_nat (length dir) * cb).
Proof.
  intros Hn Hx. pose proof (cb_range g Hg). rewrite length_app in Hx. cbn [length] in Hx. unfold contents.
  pose proof (Z.div_mod x cb ltac:(lia)). pose proof (Z.mod_pos_bound x cb ltac:(lia)).
  destruct (Z.ltb_spec x (Z.of_nat (length dir) * cb)).
  - assert (0 <= x / cb < Z.of_nat (length dir)) by (split; [apply Z.div_pos; lia|apply Z.div_lt_upper_bound; lia]).
    assert (ch (dir ++ [new]) (x / cb) = ch dir (x / cb)) as -> by (unfold ch; rewrite app_nth1 by lia; done).
    rewrite upd_other; [done|]. intros E. apply Hn. rewrite <- E. eapply list_elem_of_lookup_2, ch_elem. lia.
  - assert (x / cb = Z.of_nat (length dir)) as E by (symmetry; apply (Z.div_unique x cb _ (x - Z.of_nat (length dir) * cb)); nia).
    rewrite E, ch_middle, upd_same. f_equal. nia.
Qed.

Lemma put_entries_ok ents c : forall (n : nat) F B (s : fs) dir q idx w buf,
  chain g F c dir -> repr g s F B -> 0 <= q < Z.of_nat (length dir) -> 0 <= idx <= epc ->
  store_outcome F B c dir (contents g (B.[ch dir q <- fun i => u8 (buf i)]) dir) ents w (q * epc + idx) (Z.of_nat n) s
    (put_entries g n ents w (ch dir q) idx buf s).
Proof.
  destruct epc_facts as (He & Hcb & Hepc). pose proof (cb_range g Hg) as Hcbr.
  induction n as [|n IH]; intros F B s dir q idx w buf Hch Hr Hq Hidx; cbn [put_entries];
    pose proof (chain_NoDup g Hg _ _ _ Hch) as Hnd; pose proof (chain_valid _ _ _ _ Hch) as Hval;
    pose proof (ch_elem dir q Hq) as Hlook;
    assert (valid g (ch dir q)) as Hv by (rewrite Forall_forall in Hval; by eapply Hval, list_elem_of_lookup_2);
    destruct (write_cluster_ok g Hg s F B (ch dir q) buf Hr Hv) as (s1 & E1 & Hr1 & Hrest1);
    set (B1 := B.[ch dir q <- fun i => u8 (buf i)]) in *;
    assert (forall x, x ∉ dir -> B1 x = B x) as HB1 by (intros x Hx; apply upd_other; intros ->; apply Hx; by eapply list_elem_of_lookup_2).
  { rewrite (bind_ok _ _ _ _ _ E1). exists 0, s1, F, B1. split; [done|]. split; [done|]. split; [done|]. left. split; [done|].
    exists []. rewrite app_nil_r. split; [|unfold slots; nia]. split; rewrite ?app_nil_r; try done.
    intros x Hx. unfold stored. destruct (Z.leb_spec ((q * epc + idx) * 32) x), (Z.ltb_spec x ((q * epc + idx + Z.of_nat 0) * 32)),
      (Z.ltb_spec x (Z.of_nat (length dir) * cb)); simpl; done || lia. }
  rewrite Hepc. destruct (Z.leb_spec epc idx) as [Hfull|Hroom].
  2:{ apply put_step; [done|done|lia|]. apply IH; [done|done|done|lia]. }
  rewrite (bind_ok _ _ _ _ _ E1). cbn [negb Z.eqb].
  destruct (fat_next_ok g Hg s1 F B1 (ch dir q) Hr1 (valid_table g _ Hv)) as (s2 & E2 & Hr2 & Hrest2).
  rewrite (bind_ok _ _ _ _ _ E2). fold (next_of F (ch dir q)).
  pose proof (chain_step F c dir (Z.to_nat q) (ch dir q) Hch Hlook) as Hnext.
  apply (rest_outcome _ _ _ _ _ _ _ _ _ s s2); [by eapply rest_eq_trans|]. apply (outcome_data F B B1); [done|].
  replace (q * epc + idx) with ((q + 1) * epc + 0) by lia.
  destruct (dir !! S (Z.to_nat q)) as [y|] eqn:Ey.
  - pose proof (lookup_lt_Some _ _ _ Ey) as Hq1. pose proof (ch_elem dir (q + 1) ltac:(lia)) as Hy.
    replace (Z.to_nat (q + 1)) with (S (Z.to_nat q)) in Hy by lia. assert (y = ch dir (q + 1)) as -> by congruence.
    assert (valid g (ch dir (q + 1))) as Hvy by (rewrite Forall_forall in Hval; by eapply Hval, list_elem_of_lookup_2).
    rewrite Hnext. pose proof (valid_in_chain g Hg _ Hvy) as Hic. unfold in_chain in Hic.
    replace ((ch dir (q + 1) <? 2) || (FAT32_EOC <=? ch dir (q + 1))) with false by (symmetry; revert Hic; zspec; simpl; done || lia).
    destruct (read_cluster_ok g Hg s2 F B1 _ Hr2 Hvy) as (buf2 & s3 & E3 & Hb3 & Hr3 & Hrest3). rewrite (bind_ok _ _ _ _ _ E3).
    apply (rest_outcome _ _ _ _ _ _ _ _ _ s2 s3); [done|].
    eapply outcome_ext; [|apply put_step; [done|split; lia|lia|apply (IH F B1 s3 dir (q + 1) (0 + 1)); [done|done|lia|lia]]].
    intros x Hx. by apply (contents_same s3 F B1 dir (q + 1) buf2); try lia.
  - apply lookup_ge_None in Ey. assert (ch dir q = default 0 (last dir)) as Hlast.
    { replace q with (Z.of_nat (length dir) - 1) by lia. apply last_snoc_ch. by destruct (chain_nonempty _ _ _ Hch). }
    replace ((next_of F (ch dir q) <? 2) || (FAT32_EOC <=? next_of F (ch dir q))) with true
      by (symmetry; apply orb_true_iff; right; by apply Z.leb_le).
    destruct (fat_alloc_ok g Hg s2 F B1 Hr2) as [(new & s3 & E3 & Hrest3 & Hvn & Hfn & _ & Hr3)|(s3 & E3 & Hrest3 & Hr3 & Hnone)];
      rewrite (bind_ok _ _ _ _ _ E3).
    2:{ exists (-1), s3, F, B1. split; [done|]. split; [done|]. split; [done|]. right. split; [done|]. split; [|done].
        rewrite (no_free g Hg F Hnone). unfold slots. simpl length. nia. }
    destruct (Z.eqb_spec new 0); [unfold valid in Hvn; lia|].
    assert (new ∉ dir) as Hnd' by (intros Hin; pose proof (chain_not_free _ _ _ _ Hch Hin); congruence).
    pose proof (taken_alone g s2 F B1 new Hr2 Hvn Hfn) as Ht. set (F1 := F.[new <- merge28 (F new) 0x0FFFFFFF]) in *.
    destruct (fat_set_ok g Hg s3 F1 B1 (ch dir q) new Hr3 (valid_table g _ Hv)) as (s4 & E4 & Hr4 & Hrest4).
    rewrite (bind_ok _ _ _ _ _ E4).
    assert (is_free F (ch dir q) = false) as Hnf by (eapply chain_not_free; [done|by eapply list_elem_of_lookup_2]).
    pose proof (taken_linked g Hg s3 F F1 B1 new (ch dir q) Hr3 Ht Hv Hnf) as Ht2. rewrite Hlast in Ht2.
    rewrite Hlast in Hr4. set (F2 := F1.[default 0 (last dir) <- _]) in *.
    destruct (write_cluster_ok g Hg s4 F2 B1 new (fun _ => 0) Hr4 Hvn) as (s5 & E5 & Hr5 & Hrest5).
    rewrite (bind_ok _ _ _ _ _ E5). pose proof (chain_snoc F F2 c dir new Hch Ht2) as Hch2.
    pose proof (chain_NoDup g Hg _ _ _ Hch2) as Hnd2.
    assert (ch (dir ++ [new]) (q + 1) = new) as Hnew by (replace (q + 1) with (Z.of_nat (length dir)) by lia; apply ch_middle).
    apply (rest_outcome _ _ _ _ _ _ _ _ _ s2 s5); [by eapply rest_eq_trans; [|eapply rest_eq_trans]|].
    eapply (outcome_grow F F2 B1 (B1.[new <- fun _ => u8 0])); [done|done| | |].
    { intros x Hx. apply upd_other. intros ->. apply Hx, elem_of_app. right. by apply list_elem_of_singleton. }
    2:{ rewrite <- Hnew at 3. apply put_step; [done|rewrite length_app; simpl; lia|lia|].
        apply (IH F2 _ s5 (dir ++ [new]) (q + 1) (0 + 1)); [done|done|rewrite length_app; simpl; lia|lia]. }
    intros x Hx. rewrite Hnew, (contents_ext g Hg _ (B1.[new <- fun _ => 0]) (dir ++ [new])); [|exact Hx|].
    + by rewrite contents_grown by done.
    + intros y Hy i Hi. unfold upd. by destruct (y =? new).
Qed.

(** ** With the kernel heap *)

(** Everything but the device and the heap is as before. *)
Definition place_eq (s s' : fs) : Prop :=
  cwd_cluster s' = cwd_cluster s /\ cwd_path s' = cwd_path s /\ term s' = term s.

Lemma place_trans s1 s2 s3 : place_eq s1 s2 -> place_eq s2 s3 -> place_eq s1 s3.
Proof. unfold place_eq. intuition congruence. Qed.

Lemma rest_place s s' : rest_eq s s' -> place_eq s s' /\ mem s' = mem s.
Proof. unfold rest_eq, place_eq. tauto. Qed.

Lemma repr_dev (s s' : fs) F B : dev s' = dev s -> repr g s F B -> repr g s' F B.
Proof. intros E [H1 H2 H3 H4]. split; by rewrite E. Qed.

(** The allocations [L] are in use; a rich heap stays rich. *)
Definition heap_step (L L' : list Z) (s s' : fs) : Prop :=
  kh_ok (mem s') L' /\ (kh_rich (mem s) -> kh_rich (mem s')).

Lemma kmalloc_ok (s : fs) F B L n : kh_ok (mem s) L -> repr g s F B -> 0 < n < 1048576 ->
  exists p s', kmalloc n s = Some (p, s') /\ place_eq s s' /\ repr g s' F B
  /\ (p = 0 /\ heap_step L L s s' /\ ~ kh_rich (mem s) \/ p <> 0 /\ heap_step L (p :: L) s s').
Proof.
  intros Hk Hr Hn. unfold kmalloc. destruct (kh_malloc_spec n (mem s) L) as (p & a & E & Hc & Hrich); [lia|done|].
  rewrite E. exists p, (set_mem a s). split; [done|]. split; [done|]. split; [by apply (repr_dev s)|].
  unfold heap_step. simpl. destruct Hc as [[-> Ho]|[Hp Ho]].
  - left. split; [done|]. split; [split; [done|]; intros H; by destruct (Hrich H ltac:(lia))|]. intros H. by destruct (Hrich H ltac:(lia)).
  - right. split; [done|]. split; [done|]. intros H. by destruct (Hrich H ltac:(lia)).
Qed.

Lemma kfree_ok (s : fs) F B L p : kh_ok (mem s) (p :: L) -> repr g s F B ->
  exists s', kfree p s = Some (tt, s') /\ place_eq s s' /\ repr g s' F B /\ heap_step (p :: L) L s s'.
Proof.
  intros Hk Hr. unfold kfree. destruct (kh_free_spec p (mem s) L Hk) as (a & E & Ho & Hrich). rewrite E.
  exists (set_mem a s). split; [done|]. split; [done|]. split; [by apply (repr_dev s)|]. by split.
Qed.

(** The outcome of [dir_write_entries]. *)
Definition create_outcome (F : Z -> Z) (B : Z -> Z -> Z) (c : Z) (dir : list Z) (ents : Z -> Z) (m n : Z) (L : list Z)
    (s : fs) (o : option (Z * fs)) : Prop :=
  exists r s' F' B', o = Some (r, s') /\ place_eq s s' /\ heap_step L L s s' /\ repr g s' F' B'
  /\ (r = 0 /\ (exists ext, extended F F' B B' c dir ext (stored (contents g B dir) (Z.of_nat (length dir) * cb) ents 0 m n)
                 /\ m + n <= slots (dir ++ ext))
      \/ r = -1 /\ (kh_rich (mem s) -> Z.of_nat (length (free_clusters g F)) * epc < m + n - slots dir)
         /\ forall x, is_free F x = false -> x ∉ dir -> F' x = F x /\ B' x = B x).

(** An outcome of the copy loop, with the buffer given back. *)
Lemma outcome_free F B c dir ents m n L p (s s0 : fs) (o : st fs Z) :
  place_eq s s0 -> heap_step L (p :: L) s s0 ->
  store_outcome F B c dir (contents g B dir) ents 0 m n s0 (o s0) ->
  create_outcome F B c dir ents m n L s ((let* res := o in kfree p ;; ret res) s0).
Proof.
  intros Hpl [Hk Hrich] (r & s1 & F' & B' & E & Hrest & Hr & Hcase). apply rest_place in Hrest as [Hpl1 Hmem].
  destruct (kfree_ok s1 F' B' L p) as (s2 & E2 & Hpl2 & Hr2 & [Hk2 Hrich2]); [by rewrite Hmem|done|].
  exists r, s2, F', B'. rewrite (bind_ok _ _ _ _ _ E), (bind_ok _ _ _ _ _ E2).
  split; [done|]. split; [by eapply place_trans; [|eapply place_trans]|]. rewrite Hmem in Hrich2.
  split; [split; [done|auto]|]. split; [done|]. destruct Hcase as [?|(-> & Hf & Hfr)]; [by left|right]. split; [done|]. by split.
Qed.

(** The new last cluster of a full directory: cleared, then linked. *)
Lemma clear_and_link F B c dir new (s s3 : fs) :
  chain g F c dir -> repr g s F B -> valid g new -> is_free F new = true ->
  repr g s3 (F.[new <- merge28 (F new) 0x0FFFFFFF]) B ->
  let prev := default 0 (last dir) in
  exists s5 F2, (write_cluster g new (fun _ => 0) ;;
    (if negb (prev =? 0) then let* _ := fat_set_cluster g prev new in ret tt else ret tt) ;; ret (Some (new, 0))) s3
    = Some (Some (new, 0), s5)
  /\ rest_eq s3 s5 /\ repr g s5 F2 (B.[new <- fun _ => 0]) /\ taken g F F2 new prev.
Proof.
  intros Hch Hr Hvn Hfn Hr3 prev. pose proof (taken_alone g s F B new Hr Hvn Hfn) as Ht.
  destruct (chain_nonempty _ _ _ Hch) as [Hne _].
  assert (prev ∈ dir) as Hin.
  { unfold prev. destruct (exists_last Hne) as (k & y & ->). rewrite last_snoc. apply elem_of_app. right. by apply list_elem_of_singleton. }
  pose proof (chain_valid _ _ _ _ Hch) as Hv. rewrite Forall_forall in Hv. specialize (Hv prev Hin).
  destruct (write_cluster_ok g Hg s3 _ B new (fun _ => 0) Hr3 Hvn) as (s4 & E4 & Hr4 & Hrest4).
  rewrite (bind_ok _ _ _ _ _ E4). destruct (Z.eqb_spec prev 0); [unfold valid in Hv; lia|]. cbn [negb].
  destruct (fat_set_ok g Hg s4 _ _ prev new Hr4 (valid_table g _ Hv)) as (s5 & E5 & Hr5 & Hrest5).
  erewrite bind_ok; [|by rewrite (bind_ok _ _ _ _ _ E5)].
  do 2 eexists. split; [done|]. split; [by eapply rest_eq_trans|]. split; [exact Hr5|].
  eapply taken_linked; [done|exact Hr4|done|done|]. by eapply chain_not_free.
Qed.

Lemma dir_write_entries_ok F B c dir ents m n L (s : fs) :
  chain g F c dir -> repr g s F B -> ends_at (contents g B dir) (slots dir) m -> kh_ok (mem s) L -> 0 < n ->
  create_outcome F B c dir ents m n L s (dir_write_entries g c ents n s).
Proof.
  intros Hch Hr Hend Hk Hn. destruct epc_facts as (He & Hcb & Hepc). pose proof (cb_range g Hg).
  pose proof (chain_NoDup g Hg _ _ _ Hch) as Hnd. pose proof (chain_valid _ _ _ _ Hch) as Hval.
  unfold dir_write_entries. destruct (Z.leb_spec n 0); [lia|].
  destruct (kmalloc_ok s F B L cb Hk Hr) as (p & s1 & E1 & Hpl1 & Hr1 & Hc1); [lia|]. rewrite (bind_ok _ _ _ _ _ E1).
  destruct (Z.eqb_spec p 0) as [->|Hp].
  { exists (-1), s1, F, B. split; [done|]. split; [done|]. destruct Hc1 as [(_ & Hs & Hpoor)|[? _]]; [|done].
    split; [done|]. split; [done|]. right. split; [done|]. split; [tauto|done]. }
  destruct Hc1 as [[? _]|[_ Hs1]]; [done|]. rewrite (max_chain_eq g Hg).
  destruct (find_slot_ok F B dir m Hend dir c [] 0 s1 (Z.to_nat (clusters g)) Hch eq_refl Hr1 (chain_length g Hg _ _ _ Hch))
    as (s2 & Hr2 & Hrest2 & E2); [destruct Hend; simpl; lia|]. rewrite (bind_ok _ _ _ _ _ E2).
  apply rest_place in Hrest2 as [Hpl2 Hmem2].
  assert (forall s3, rest_eq s2 s3 -> place_eq s s3 /\ heap_step L (p :: L) s s3) as Hback.
  { intros s3 [Hpl3 Hmem3]%rest_place. split; [by eapply place_trans; [|eapply place_trans]|].
    unfold heap_step in *. by rewrite Hmem3, Hmem2. }
  assert (n = Z.of_nat (Z.to_nat n)) as HnZ by lia.
  destruct (Z.ltb_spec m (slots dir)) as [Hin|Hout].
  - erewrite bind_ok by reflexivity. cbv beta iota. set (q := m / epc). set (idx := m mod epc).
    assert (m = q * epc + idx /\ 0 <= idx < epc) as [Hmq Hidx].
    { pose proof (Z.div_mod m epc ltac:(lia)). pose proof (Z.mod_pos_bound m epc ltac:(lia)). subst q idx. lia. }
    assert (0 <= q < Z.of_nat (length dir)) as Hq by (unfold slots in Hin; destruct Hend; nia).
    assert (valid g (ch dir q)) as Hv by (rewrite Forall_forall in Hval; eapply Hval, list_elem_of_lookup_2, ch_elem; lia).
    destruct (read_cluster_ok g Hg s2 F B _ Hr2 Hv) as (buf & s3 & E3 & Hb & Hr3 & Hrest3). rewrite (bind_ok _ _ _ _ _ E3).
    destruct (Hback s3 Hrest3) as [Hpl3 Hs3]. apply outcome_free; [done|done|].
    pose proof (put_entries_ok ents c (Z.to_nat n) F B s3 dir q idx 0 buf Hch Hr3 Hq ltac:(lia)) as Hput.
    rewrite <- Hmq, <- HnZ in Hput. eapply outcome_ext; [|exact Hput]. intros x Hx. by apply (contents_same s3 F B dir q buf).
  - unfold bind at 1.
    assert (m = slots dir) as -> by (destruct Hend; lia).
    destruct (fat_alloc_ok g Hg s2 F B Hr2) as [(new & s3 & E3 & Hrest3 & Hvn & Hfn & _ & Hr3)|(s3 & E3 & Hrest3 & Hr3 & Hnone)];
      rewrite (bind_ok _ _ _ _ _ E3).
    + destruct (Z.eqb_spec new 0); [unfold valid in Hvn; lia|].
      destruct (clear_and_link F B c dir new s2 s3 Hch Hr2 Hvn Hfn Hr3) as (s4 & F2 & -> & Hrest4 & Hr4 & Ht).
      pose proof (chain_snoc F F2 c dir new Hch Ht) as Hch2.
      assert (new ∉ dir) as Hnin by (intros Hin; pose proof (chain_not_free _ _ _ _ Hch Hin); congruence).
      destruct (read_cluster_ok g Hg s4 F2 _ new Hr4 Hvn) as (buf & s5 & E5 & Hb & Hr5 & Hrest5). rewrite (bind_ok _ _ _ _ _ E5).
      destruct (Hback s5) as [Hpl5 Hs5]; [by eapply rest_eq_trans; [|eapply rest_eq_trans]|]. apply outcome_free; [done|done|].
      assert (ch (dir ++ [new]) (Z.of_nat (length dir)) = new) as Hnew by apply ch_middle.
      pose proof (put_entries_ok ents c (Z.to_nat n) F2 (B.[new <- fun _ => 0]) s5 (dir ++ [new]) (Z.of_nat (length dir)) 0 0 buf Hch2 Hr5
        ltac:(rewrite length_app; simpl; lia) ltac:(lia)) as Hput.
      rewrite Hnew, <- HnZ in Hput. replace (Z.of_nat (length dir) * epc + 0) with (slots dir) in Hput by (unfold slots; lia).
      eapply (outcome_grow F F2 B (B.[new <- fun _ => 0])); [done|done| | |exact Hput].
      * intros x Hx. apply upd_other. intros ->. apply Hx, elem_of_app. right. by apply list_elem_of_singleton.
      * intros x Hx. rewrite (contents_ext g Hg _ (B.[new <- fun _ => 0]) (dir ++ [new])); [by rewrite contents_grown|exact Hx|].
        intros y Hy i Hi. unfold upd. destruct (y =? new); [|done]. rewrite Hb, upd_same by done. done.
    + destruct (Hback s3 Hrest3) as [Hpl3 [Hk3 Hrich3]]. destruct (kfree_ok s3 F B L p Hk3 Hr3) as (s4 & E4 & Hpl4 & Hr4 & [Hk4 Hrich4]).
      cbn [Z.eqb]. unfold ret at 1. rewrite (bind_ok _ _ _ _ _ E4).
      exists (-1), s4, F, B. split; [done|]. split; [by eapply place_trans|]. split; [split; [done|auto]|]. split; [done|].
      right. split; [done|]. split; [|done]. intros _. rewrite (no_free g Hg F Hnone). simpl length. lia.
Qed.

End Dirs.
End Dirs.
