(* ===== verification/Fat32Lookup.v ===== *)
(** * Creating and finding directory entries

    The slots [fat32_create_entry] (fs/fat32.c) builds, read back by the directory scans:
    the new name is found with its cluster, size and attributes, and the scan for every
    other name ends where it ended before. *)

From S2P Require Import Prelude Heap Disk Fat32Names Fat32 Fat32Table Fat32Files Fat32Dirs.

Module Lookup.

Import Names Fat32 Table Files Dirs.

(** ** The bytes of new entries *)

(** Names that can be stored: 7-bit characters, at most 255 of them; a name kept as 8.3
    only has no blank and no final dot. *)
Definition storable (name : list Z) : Prop :=
  ascii_name name /\ (1 <= length name <= 255)%nat
  /\ (is_valid_83 name = true -> Forall (fun c => c <> 32) name /\ last name <> Some 46).

Definition bytes (e : Z -> Z) : Prop := forall j, is_byte (e j).

Lemma upd_bytes e a v : bytes e -> is_byte v -> bytes (e.[a <- v]).
Proof. intros He Hv j. unfold upd. by destruct (j =? a). Qed.

Lemma blit_bytes e d e' s n : bytes e -> bytes e' -> bytes (blit e d e' s n).
Proof. intros He He' j. unfold blit. by destruct (_ && _). Qed.

Lemma const_bytes v : is_byte v -> bytes (fun _ => v).
Proof. by intros Hv j. Qed.

Lemma u8_byte x : is_byte (u8 x).
Proof. apply u8_bound. Qed.

Create HintDb bytes.
#[local] Hint Resolve upd_bytes blit_bytes const_bytes u8_byte : bytes.
#[local] Hint Extern 1 (is_byte _) => (unfold is_byte; lia) : bytes.

Lemma lfn_entry_bytes name chk cnt n : is_byte chk -> 1 <= n < 64 -> bytes (lfn_entry name chk cnt n).
Proof.
  intros Hc Hn. unfold lfn_entry. apply (for_loop_ind (fun _ e => bytes e)).
  - repeat apply upd_bytes; auto with bytes. rewrite (u8_small n) by auto with bytes.
    destruct (n =? cnt); repeat apply upd_bytes; auto with bytes.
    rewrite upd_same. pose (chk64 := fun n => (0 <=? Z.lor n 0x40) && (Z.lor n 0x40 <? 256)).
    assert (forallb chk64 (map Z.of_nat (seq 0 64)) = true) as H by (vm_compute; done).
    rewrite forallb_forall in H. specialize (H n). rewrite in_map_iff in H. unfold chk64 in H.
    assert (exists x, Z.of_nat x = n /\ In x (seq 0 64)) as Hin%H by (exists (Z.to_nat n); rewrite in_seq; lia).
    zbool. by split.
  - intros i e _ He. auto with bytes.
Qed.

Lemma sfn_checksum_byte sfn : is_byte (sfn_checksum sfn).
Proof.
  unfold sfn_checksum. apply (for_loop_ind (fun _ x => is_byte x)); [unfold is_byte; lia|]. intros. apply u8_byte.
Qed.

(** A short name: upper-case 7-bit characters. *)
Definition sfn_ok (sfn : Z -> Z) : Prop := (forall j, 1 <= sfn j < 128).

Lemma to_upper_ok c : 1 <= c < 128 -> 1 <= to_upper c < 128.
Proof. intros. unfold to_upper. zspec; simpl; lia. Qed.

Lemma upd_ok e a v : sfn_ok e -> 1 <= v < 128 -> sfn_ok (e.[a <- v]).
Proof. intros He Hv j. unfold upd. by destruct (j =? a). Qed.

Lemma copy_upper_ok name j lim sfn : ascii_name name -> sfn_ok sfn -> sfn_ok (copy_upper name j lim sfn).
Proof.
  intros Hn. revert j sfn. induction Hn as [|c name Hc Hn IH]; intros j sfn Hs; cbn [copy_upper]; [done|].
  destruct (j <? lim); [|done]. apply IH, upd_ok; [done|]. by apply to_upper_ok.
Qed.

Lemma copy_base_ok name j sfn rest sfn' : ascii_name name -> sfn_ok sfn -> copy_base name j sfn = (rest, sfn') ->
  ascii_name rest /\ sfn_ok sfn'.
Proof.
  intros Hn. revert j sfn. induction Hn as [|c name Hc Hn IH]; intros j sfn Hs; cbn [copy_base].
  - intros [= <- <-]. split; [constructor|done].
  - destruct (_ && _).
    + apply IH, upd_ok; [done|]. by apply to_upper_ok.
    + intros [= <- <-]. split; [by constructor|done].
Qed.

Lemma sfn_base_ok name j sfn j' sfn' : ascii_name name -> sfn_ok sfn -> sfn_base name j sfn = (j', sfn') -> sfn_ok sfn'.
Proof.
  intros Hn. revert j sfn. induction Hn as [|c name Hc Hn IH]; intros j sfn Hs; cbn [sfn_base].
  - by intros [= <- <-].
  - destruct (j <? 6); [|by intros [= <- <-]]. destruct (sfn_illegal _); [by apply IH|].
    apply IH, upd_ok; [done|]. by apply to_upper_ok.
Qed.

Lemma entry_sfn_ok name cnt : ascii_name name -> sfn_ok (entry_sfn name cnt).
Proof.
  intros Hn. unfold entry_sfn. assert (sfn_ok (fun _ => 32)) as H0 by (intros j; lia). destruct (cnt =? 0).
  - unfold encode_83. destruct (copy_base name 0 _) as [rest sfn] eqn:E.
    destruct (copy_base_ok _ _ _ _ _ Hn H0 E) as [Hr Hs]. destruct rest as [|c rest]; [done|].
    apply Forall_cons in Hr as [_ Hr]. destruct (c =? 46); [by apply copy_upper_ok|done].
  - unfold make_sfn. destruct (sfn_base _ _ _) as [j sfn] eqn:E.
    assert (sfn_ok sfn) as Hs by (eapply sfn_base_ok; [|exact H0|exact E]; by apply Forall_take).
    destruct (0 <=? _); [apply copy_upper_ok; [by apply Forall_drop|]|]; repeat apply upd_ok; done || lia.
Qed.

Lemma byte_of_0 v : byte_of v 0 = u8 (Z.land v 0xFF).
Proof. unfold byte_of. change (8 * 0) with 0. by rewrite Z.shiftr_0_r. Qed.

Lemma sfn_entry_fields sfn cl size attr : is_u32 cl -> is_u32 size ->
  let e := sfn_entry sfn cl size attr in
  (forall j, 0 <= j < 11 -> e j = sfn j) /\ e 11 = attr /\ entry_cluster e = cl /\ read32 e 28 = size.
Proof.
  intros Hc Hs e. split; [|split; [done|]].
  { intros j Hj. unfold e, sfn_entry, upd, blit. zspec; simpl; done || lia || (f_equal; lia). }
  assert (e 20 = byte_of cl 2 /\ e 21 = byte_of cl 3 /\ e 26 = byte_of cl 0 /\ e 27 = byte_of cl 1) as (E1 & E2 & E3 & E4).
  { rewrite byte_of_0. repeat split; reflexivity. }
  split; [|apply (read32_bytes e 28 size Hs); rewrite ?byte_of_0; reflexivity]. clearbody e.
  assert (forall k, is_byte (byte_of cl k)) as Hb by (intros; apply u8_byte).
  unfold entry_cluster. rewrite (read16_eq e 20), (read16_eq e 26) by (change (20 + 1) with 21; change (26 + 1) with 27; rewrite ?E1, ?E2, ?E3, ?E4; apply Hb).
  change (20 + 1) with 21. change (26 + 1) with 27. rewrite E1, E2, E3, E4, !byte_of_eq by lia. unfold is_u32 in Hc.
  change (2 ^ (8 * 2)) with 65536. change (2 ^ (8 * 3)) with 16777216. change (2 ^ (8 * 0)) with 1. change (2 ^ (8 * 1)) with 256.
  rewrite Z.lor_comm, lor_shiftl_add by (change (2 ^ 16) with 65536; zmod). change (2 ^ 16) with 65536. zmod.
Qed.

Lemma sfn_entry_bytes sfn cl size attr : sfn_ok sfn -> is_byte attr -> bytes (sfn_entry sfn cl size attr).
Proof.
  intros Hs Ha. unfold sfn_entry. cbv zeta. assert (bytes sfn) as Hb by (intros j; specialize (Hs j); unfold is_byte; lia).
  repeat apply upd_bytes; auto with bytes.
Qed.

(** Slot by slot, what [fat32_create_entry] builds. *)
Definition new_slot (name : list Z) (cl size attr : Z) (k : Z) : Z -> Z :=
  let cnt := lfn_entries_needed name in
  let sfn := entry_sfn name cnt in
  if k <? cnt then lfn_entry name (sfn_checksum sfn) cnt (cnt - k) else sfn_entry sfn cl size attr.

Lemma lfn_count name : storable name -> 0 <= lfn_entries_needed name <= 20
  /\ (is_valid_83 name = false -> lfn_entries_needed name = (Z.of_nat (length name) + 12) / 13 /\ 1 <= lfn_entries_needed name).
Proof.
  intros (_ & Hl & _). unfold lfn_entries_needed. destruct (is_valid_83 name); [split; [lia|done]|]. split; [zmod|]. intros _. zmod.
Qed.

Lemma build_entries_slot name cl size attr k j : storable name -> 0 <= k <= lfn_entries_needed name -> 0 <= j < 32 ->
  build_entries name cl size attr (k * 32 + j) = new_slot name cl size attr k j.
Proof.
  intros Hn Hk Hj. destruct (lfn_count name Hn) as [Hc _]. unfold build_entries, new_slot.
  set (cnt := lfn_entries_needed name) in *. destruct (Z.ltb_spec k cnt).
  - rewrite blit_out by lia. destruct (Z.ltb_spec 0 cnt); [|lia]. rewrite write_lfn_entries_at by lia.
    destruct (Z.leb_spec (0 * 32) (k * 32 + j)); [|lia]. destruct (Z.ltb_spec (k * 32 + j) ((0 + cnt) * 32)); [|lia]. simpl andb. cbv iota.
    assert ((k * 32 + j - 0 * 32) / 32 = k /\ (k * 32 + j - 0 * 32) mod 32 = j) as [-> ->] by zmod. done.
  - assert (k = cnt) as -> by lia. rewrite blit_in by lia. f_equal. lia.
Qed.

Lemma new_slot_bytes name cl size attr k : storable name -> is_byte attr -> 0 <= k -> bytes (new_slot name cl size attr k).
Proof.
  intros Hn Ha Hk. destruct (lfn_count name Hn) as [Hc _]. unfold new_slot. zcase.
  - apply lfn_entry_bytes; [apply sfn_checksum_byte|lia].
  - apply sfn_entry_bytes; [|done]. apply entry_sfn_ok, Hn.
Qed.

(** ** Scanning new entries *)

(** Long-name states that differ only in the recorded positions. *)
Definition lfn_sim (l l' : lfn) : Prop := lfn_buf l = lfn_buf l' /\ lfn_chk l = lfn_chk l' /\ lfn_remain l = lfn_remain l'.

Lemma lfn_sim_track c i l l' : lfn_sim l l' -> lfn_sim (track c i l) l'.
Proof. unfold track. by destruct (_ <? _)%nat. Qed.

Lemma accumulate_sim e l l' l1 : lfn_sim l l' -> lfn_accumulate e l' = Some l1 ->
  exists l2, lfn_accumulate e l = Some l2 /\ lfn_sim l2 l1.
Proof.
  destruct l as [b k r t], l' as [b' k' r' t']. intros (Hb & Hk & Hr). simpl in *. subst. unfold lfn_accumulate.
  destruct (negb _); cbn [lfn_buf lfn_chk lfn_remain lfn_track]; (match goal with |- context [lfn_copy ?n ?k ?b ?e ?f] => destruct (lfn_copy n k b e f) as [b0|] end; [|done]); intros [= <-]; eexists; (split; [done|]); done.
Qed.

Lemma match_sim l l' e name : lfn_sim l l' -> entry_match l e name = entry_match l' e name.
Proof.
  destruct l as [b k r t], l' as [b' k' r' t']. intros (Hb & Hk & Hr). simpl in *. subst. done.
Qed.

(** Checksum and short name depend on the first eleven bytes only. *)
Lemma checksum_name e e' : (forall j, 0 <= j < 11 -> e j = e' j) -> sfn_checksum e = sfn_checksum e'.
Proof. intros H. unfold sfn_checksum. apply for_loop_ext. intros i t Hi. by rewrite H by lia. Qed.

Lemma until_space_name n e e' j : 0 <= j -> j + Z.of_nat n <= 11 -> (forall j, 0 <= j < 11 -> e j = e' j) ->
  until_space n e j = until_space n e' j.
Proof.
  intros H0 H1 H. revert j H0 H1. induction n as [|n IH]; intros j H0 H1; simpl; [done|].
  rewrite (H j) by lia. zcase; [done|]. f_equal. apply IH; lia.
Qed.

Lemma sfn_name e e' : (forall j, 0 <= j < 11 -> e j = e' j) -> sfn_to_name e = sfn_to_name e'.
Proof.
  intros H. unfold sfn_to_name. rewrite (until_space_name 8 e e'), (until_space_name 3 e e'), (H 8) by (lia || done). done.
Qed.

Lemma name_match_refl name : name_match name name = true.
Proof. induction name as [|c name IH]; [done|]. simpl. by rewrite Z.eqb_refl. Qed.

Lemma name_cut_id name : Forall (fun c => c <> 0) name -> cut_nul name = name.
Proof. induction 1 as [|c name Hc Hn IH]; [done|]. simpl. destruct (Z.eqb_spec c 0); [done|]. by f_equal. Qed.

(** How a stored name is shown by its short entry. *)
Definition short_name (name : list Z) : list Z := cut_nul (sfn_to_name (entry_sfn name (lfn_entries_needed name))).

Section Scan.
Context (g : geom) (Hg : geom_ok g).

Lemma scan_lfn_run want name dir d n i l l' l1 : lfn_sim l l' -> read_slots n i d l' = Some l1 ->
  (forall k, i <= k < i + Z.of_nat n -> entry d k 0 <> 0 /\ entry d k 0 <> 0xE5 /\ entry d k 11 = 0x0F) ->
  exists l2, scan_slots g want name dir d n i l = Some (SMore l2) /\ lfn_sim l2 l1.
Proof.
  revert i l l'. induction n as [|n IH]; intros i l l' Hs Hrd Hk; cbn [scan_slots read_slots] in *.
  { injection Hrd as <-. by exists l. }
  destruct (Hk i ltac:(lia)) as (H0 & H5 & Hf). apply Z.eqb_neq in H0, H5. rewrite H0, H5, Hf.
  change (15 =? 15) with true. cbv iota.
  destruct (lfn_accumulate (fun j => d (i * 32 + j)) l') as [la|] eqn:Ea; [|done].
  destruct (accumulate_sim _ _ _ _ Hs Ea) as (lb & Eb & Hs2). change (fun j => d (i * 32 + j)) with (entry d i) in Eb. rewrite Eb.
  eapply IH; [by apply lfn_sim_track|exact Hrd|]. intros k Hk'. apply Hk. lia.
Qed.

(** The long-name slots of a new entry leave the complete name behind. *)
Lemma scan_new_lfn want n' dir d name cl size attr m l0 : storable name ->
  (forall k, 0 <= k <= lfn_entries_needed name -> entry_eq (entry d (m + k)) (new_slot name cl size attr k)) ->
  exists l2, scan_slots g want n' dir d (Z.to_nat (lfn_entries_needed name)) m l0 = Some (SMore l2)
  /\ (is_valid_83 name = true -> l2 = l0)
  /\ (is_valid_83 name = false -> lfn_name l2 = name /\ lfn_valid l2 (entry d (m + lfn_entries_needed name)) = true).
Proof.
  intros Hn Hd. destruct (lfn_count name Hn) as [Hc Hc2]. destruct Hn as (Ha & Hl & _).
  set (cnt := lfn_entries_needed name) in *. set (sfn := entry_sfn name cnt). set (chk := sfn_checksum sfn).
  destruct (is_valid_83 name) eqn:E83.
  { assert (cnt = 0) as -> by (unfold cnt, lfn_entries_needed; by rewrite E83). by exists l0. }
  destruct (Hc2 eq_refl) as [Hcnt Hc1]. clear Hc2.
  assert (forall k j, 0 <= k < cnt -> 0 <= j < 32 -> d ((m + k) * 32 + j) = lfn_entry name chk cnt (cnt - k) j) as Hslot.
  { intros k j Hk Hj. rewrite (Hd k ltac:(lia) j Hj : d _ = _). unfold new_slot. fold cnt sfn chk. by destruct (Z.ltb_spec k cnt); [|lia]. }
  destruct (read_slots_lfn name chk cnt d m (Z.to_nat cnt) l0) as (l1 & E & Hl1); [done|lia|done|lia| |by left; lia|].
  { intros x Hx. assert (x = (m + (x - m * 32) / 32) * 32 + (x - m * 32) mod 32) as Hx2 by zmod.
    rewrite Hx2 at 1. apply Hslot; zmod. }
  replace (m + cnt - Z.of_nat (Z.to_nat cnt)) with m in E by lia. destruct Hl1 as (Hk & Hr & _ & Hb); [lia|].
  destruct (scan_lfn_run want n' dir d (Z.to_nat cnt) m l0 l0 l1 ltac:(done) E) as (l2 & E2 & (Sb & Sk & Sr)).
  { intros k Hk2. unfold entry. pose proof (Hslot (k - m)) as Hs. replace (m + (k - m)) with k in Hs by lia.
    rewrite !Hs by lia. destruct (lfn_entry_fixed name chk cnt (cnt - (k - m))) as (-> & -> & _); [lia|].
    destruct (lfn_seq (cnt - (k - m))) as (L1 & L2 & L3 & L4); [lia|]. zcase; repeat split; try lia.
    - intros E0. rewrite E0 in L3. done.
    - intros E5. rewrite E5 in L4. change (Z.land 0xE5 0x3F) with 37 in L4. by rewrite <- L4 in E5. }
  exists l2. split; [done|]. split; [done|]. intros _. split.
  - unfold lfn_name. rewrite Sb. apply cstr_name; [by apply ascii_nonzero|lia|]. intros p Hp. rewrite Hb, Z.add_0_l.
    zspec; simpl; try done; try lia. by rewrite ch_beyond by lia.
  - unfold lfn_valid. rewrite Sb, Sk, Sr, Hb, Hk, Hr. pose proof (ascii_ch name 0 Ha ltac:(lia)).
    destruct (Z.leb_spec 0 0), (Z.ltb_spec 0 (Z.of_nat (length name))); try lia. cbn [andb].
    destruct (Z.eqb_spec (ch name 0) 0); [lia|]. cbn [negb andb]. apply Z.eqb_eq.
    unfold chk. apply checksum_name. intros j Hj. rewrite (Hd cnt ltac:(lia) j ltac:(lia)). unfold new_slot. fold cnt sfn.
    rewrite Z.ltb_irrefl. unfold sfn_entry, upd, blit. zspec; simpl; done || lia || (f_equal; lia).
Qed.

Lemma sfn_slot_eq d name cl size attr m : is_u32 cl -> is_u32 size ->
  entry_eq (entry d (m + lfn_entries_needed name)) (new_slot name cl size attr (lfn_entries_needed name)) ->
  let e := entry d (m + lfn_entries_needed name) in
  (forall j, 0 <= j < 11 -> e j = entry_sfn name (lfn_entries_needed name) j) /\ e 11 = attr
  /\ entry_cluster e = cl /\ read32 e 28 = size.
Proof.
  intros Hc Hs Hd e. unfold new_slot in Hd. rewrite Z.ltb_irrefl in Hd. fold e in Hd.
  destruct (sfn_entry_fields (entry_sfn name (lfn_entries_needed name)) cl size attr Hc Hs) as (H1 & H2 & H3 & H4).
  split; [intros j Hj; rewrite Hd by lia; by apply H1|]. split; [by rewrite Hd|]. split.
  - rewrite <- H3. unfold entry_cluster, read16. by rewrite !Hd.
  - rewrite <- H4. apply read32_ext. intros i Hi. apply Hd. lia.
Qed.

(** A new entry matches its own name. *)
Lemma own_match name e l : storable name -> (forall j, 0 <= j < 11 -> e j = entry_sfn name (lfn_entries_needed name) j) ->
  (is_valid_83 name = false -> lfn_name l = name /\ lfn_valid l e = true) -> entry_match l e name = true.
Proof.
  intros (Ha & _ & H83) He Hl. unfold entry_match. destruct (is_valid_83 name) eqn:E.
  - rewrite (sfn_name e _ He). unfold entry_sfn, lfn_entries_needed. rewrite E, Z.eqb_refl. destruct (H83 eq_refl) as [Hsp Hdot].
    pose proof (ascii_nonzero name Ha) as Hnz.
    rewrite sfn_roundtrip; [|done|rewrite Forall_forall in *; auto|done]. by rewrite name_cut_id, name_match_refl, orb_true_r.
  - destruct (Hl eq_refl) as [Hn Hv]. by rewrite Hv, Hn, name_match_refl.
Qed.

(** It matches nothing but its name and its short name. *)
Lemma other_match name n' e l : name_match name n' = false -> name_match (short_name name) n' = false ->
  (forall j, 0 <= j < 11 -> e j = entry_sfn name (lfn_entries_needed name) j) ->
  (is_valid_83 name = false -> lfn_name l = name /\ lfn_valid l e = true) ->
  (is_valid_83 name = true -> lfn_valid l e = false) -> entry_match l e n' = false.
Proof.
  intros H1 H2 He Hl Hs. unfold entry_match. rewrite (sfn_name e _ He). fold (short_name name). rewrite H2, orb_false_r.
  destruct (is_valid_83 name); [by rewrite Hs|]. destruct (Hl eq_refl) as [-> ->]. by rewrite H1.
Qed.

(** ** Scanning a directory with new entries *)

Definition no_hit (r : option scan_result) : Prop :=
  match r with Some SEnd | Some (SMore _) => True | _ => False end.

Lemma scan_end want name dir d n i l : ((0 < n)%nat -> d (i * 32) = 0) -> no_hit (scan_slots g want name dir d n i l).
Proof. intros H. destruct n as [|n]; [done|]. cbn [scan_slots]. unfold entry. rewrite Z.add_0_r, H by lia. done. Qed.

(** A scan of the slots in use does not meet the end marker. *)
Lemma scan_used want name dir d n i l : (forall k, i <= k < i + Z.of_nat n -> d (k * 32) <> 0) ->
  scan_slots g want name dir d n i l <> Some SEnd.
Proof.
  revert i l. induction n as [|n IH]; intros i l H; [done|]. cbn [scan_slots].
  destruct (Z.eqb_spec (entry d i 0) 0) as [E|_]; [exfalso; apply (H i); [lia|]; unfold entry in E; by rewrite Z.add_0_r in E|].
  assert (forall l, scan_slots g want name dir d n (i + 1) l <> Some SEnd) as IH1 by (intros l1; apply IH; intros; apply H; lia).
  scan_cases; try done; apply IH1.
Qed.

Lemma scan_split want name dir d n m : ends_at d n m ->
  let r := scan_slots g want name dir d (Z.to_nat m) 0 lfn_init in
  match scan_slots g want name dir d (Z.to_nat n) 0 lfn_init with
  | Some (SHit i l) => r = Some (SHit i l)
  | None => r = None
  | _ => exists l, r = Some (SMore l)
  end.
Proof.
  intros (Hm & Hu & Hz) r. replace (Z.to_nat n) with (Z.to_nat m + Z.to_nat (n - m))%nat by lia. rewrite scan_slots_app. fold r.
  pose proof (scan_used want name dir d (Z.to_nat m) 0 lfn_init ltac:(intros; apply Hu; lia)) as Hne. fold r in Hne.
  destruct r as [[i l| |l]|]; try done.
  pose proof (scan_end want name dir d (Z.to_nat (n - m)) (0 + Z.of_nat (Z.to_nat m)) l) as He.
  destruct (scan_slots g want name dir d (Z.to_nat (n - m)) _ l) as [[i' l'| |l']|]; eauto; exfalso; apply He; intros; apply Hz; lia.
Qed.

(** The last slot in use is not a long-name entry waiting for its short one. *)
Definition closed (d : Z -> Z) (m : Z) : Prop := m = 0 \/ entry d (m - 1) 11 <> 0x0F \/ entry d (m - 1) 0 = 0xE5.

Lemma closed_reset want name dir d m l : 0 <= m -> closed d m ->
  scan_slots g want name dir d (Z.to_nat m) 0 lfn_init = Some (SMore l) -> lfn_buf l 0 = 0.
Proof.
  intros Hm [->|Hc]; [by intros [= <-]|]. destruct (decide (m = 0)) as [->|]; [by intros [= <-]|].
  replace (Z.to_nat m) with (Z.to_nat (m - 1) + 1)%nat by lia. rewrite scan_slots_app.
  destruct (scan_slots g want name dir d (Z.to_nat (m - 1)) 0 lfn_init) as [[i l'| |l']|]; try done.
  replace (0 + Z.of_nat (Z.to_nat (m - 1))) with (m - 1) by lia. cbn [scan_slots].
  destruct (entry d (m - 1) 0 =? 0); [done|]. destruct (Z.eqb_spec (entry d (m - 1) 0) 0xE5) as [|H5]; [by intros [= <-]|].
  destruct (Z.eqb_spec (entry d (m - 1) 11) 0x0F) as [|]; [tauto|]. scan_cases; try done; by intros [= <-].
Qed.

(** The array [d'] of [n'] slots is [d] with the entries of a name behind its [m] slots in use. *)
Record grown (d d' : Z -> Z) (n' m : Z) (dir dir' : list Z) (name : list Z) (cl size attr : Z) : Prop := {
  gr_old : forall x, 0 <= x < m * 32 -> d' x = d x;
  gr_new : forall k, 0 <= k <= lfn_entries_needed name -> entry_eq (entry d' (m + k)) (new_slot name cl size attr k);
  gr_rest : forall i, m + lfn_entries_needed name + 1 <= i < n' -> d' (i * 32) = 0;
  gr_room : m + lfn_entries_needed name + 1 <= n';
  gr_dir : forall j, 0 <= j < m -> ch dir (j / epc g) = ch dir' (j / epc g) }.

(** Attributes of files and directories. *)
Definition attr_ok (attr : Z) : Prop := is_byte attr /\ attr <> 0x0F /\ attr <> 0x08.

Section Grown.
Context (d d' : Z -> Z) (n n' m : Z) (dir dir' : list Z) (name : list Z) (cl size attr : Z).
Context (Hn : storable name) (Hc : is_u32 cl) (Hs : is_u32 size) (Ha : attr_ok attr).
Context (Hend : ends_at d n m) (Hgr : grown d d' n' m dir dir' name cl size attr).

#[local] Abbreviation cnt := (lfn_entries_needed name).

Lemma new_slot_first k : 0 <= k <= cnt -> d' ((m + k) * 32) <> 0 /\ d' ((m + k) * 32) <> 0xE5.
Proof.
  intros Hk. destruct (lfn_count name Hn) as [Hcnt _]. destruct Hgr as [_ Hnew _ _ _].
  pose proof (Hnew k Hk 0 ltac:(lia)) as H0. unfold entry in H0. rewrite Z.add_0_r in H0. rewrite H0. unfold new_slot. zcase.
  - destruct (lfn_entry_fixed name (sfn_checksum (entry_sfn name cnt)) cnt (cnt - k)) as (-> & _); [lia|].
    destruct (lfn_seq (cnt - k)) as (L1 & L2 & L3 & L4); [lia|]. zcase; [|lia]. split.
    + intros E0. by rewrite E0 in L3.
    + intros E5. rewrite E5 in L4. change (Z.land 0xE5 0x3F) with 37 in L4. by rewrite <- L4 in E5.
  - destruct (sfn_entry_fields (entry_sfn name cnt) cl size attr Hc Hs) as (H1 & _). rewrite H1 by lia.
    pose proof (entry_sfn_ok name cnt (proj1 Hn) 0). lia.
Qed.

(** The directory still ends, behind the new entries, and is closed. *)
Lemma grown_ends : ends_at d' n' (m + cnt + 1) /\ closed d' (m + cnt + 1).
Proof.
  destruct (lfn_count name Hn) as [Hcnt _]. pose proof Hgr as [Hold Hnew Hrest Hroom _]. destruct Hend as (Hm & Hu & Hz). split.
  - split; [lia|]. split; [|intros; apply Hrest; lia]. intros i Hi. destruct (decide (i < m)).
    + rewrite Hold by lia. apply Hu. lia.
    + replace i with (m + (i - m)) by lia. apply new_slot_first. lia.
  - right. left. replace (m + cnt + 1 - 1) with (m + cnt) by lia.
    destruct (sfn_slot_eq d' name cl size attr m Hc Hs (Hnew cnt ltac:(lia))) as (_ & -> & _). apply Ha.
Qed.

(** The scan of the new array, once the old slots are passed. *)
Lemma scan_grown want x l0 : scan_slots g want x dir d (Z.to_nat m) 0 lfn_init = Some (SMore l0) ->
  exists l2, (is_valid_83 name = true -> l2 = l0)
  /\ (is_valid_83 name = false -> lfn_name l2 = name /\ lfn_valid l2 (entry d' (m + cnt)) = true)
  /\ let r := scan_slots g want x dir' d' (Z.to_nat n') 0 lfn_init in
     if want attr && entry_match l2 (entry d' (m + cnt)) x then r = Some (SHit (m + cnt) l2) else no_hit r.
Proof.
  intros E0. destruct (lfn_count name Hn) as [Hcnt _]. pose proof Hgr as [Hold Hnew Hrest Hroom Hdir]. destruct Hend as (Hm & _).
  destruct (scan_new_lfn want x dir' d' name cl size attr m l0 Hn Hnew) as (l2 & E2 & H83 & Hlfn).
  exists l2. split; [done|]. split; [done|]. intros r.
  assert (r = scan_slots g want x dir' d' (S (Z.to_nat (n' - (m + cnt + 1)))) (m + cnt) l2) as ->.
  { unfold r. replace (Z.to_nat n') with (Z.to_nat m + (Z.to_nat cnt + S (Z.to_nat (n' - (m + cnt + 1)))))%nat by lia.
    rewrite scan_slots_app. rewrite (scan_slots_ext g want x dir' dir d' d) by (intros; (rewrite Hold || rewrite Hdir); done || lia).
    rewrite E0, scan_slots_app. replace (0 + Z.of_nat (Z.to_nat m)) with m by lia. rewrite E2. f_equal. lia. }
  cbn [scan_slots]. destruct (new_slot_first cnt ltac:(lia)) as [H0 H5].
  assert (entry d' (m + cnt) 0 = d' ((m + cnt) * 32)) as -> by (unfold entry; by rewrite Z.add_0_r).
  apply Z.eqb_neq in H0, H5. rewrite H0, H5.
  destruct (sfn_slot_eq d' name cl size attr m Hc Hs (Hnew cnt ltac:(lia))) as (_ & -> & _).
  destruct Ha as (_ & HF & H8). apply Z.eqb_neq in HF, H8. rewrite HF, H8.
  destruct (want attr); cbn [negb andb]; [destruct (entry_match l2 _ x); [done|]|]; apply scan_end; intros; apply Hrest; lia.
Qed.

(** The new name is found. *)
Lemma scan_own want : want attr = true -> no_hit (scan_slots g want name dir d (Z.to_nat n) 0 lfn_init) ->
  exists l, scan_slots g want name dir' d' (Z.to_nat n') 0 lfn_init = Some (SHit (m + cnt) l).
Proof.
  intros Hw Hno. pose proof (scan_split want name dir d n m Hend) as Hsp.
  assert (exists l0, scan_slots g want name dir d (Z.to_nat m) 0 lfn_init = Some (SMore l0)) as [l0 E0]
    by (destruct (scan_slots g want name dir d (Z.to_nat n) 0 lfn_init) as [[| |]|]; done).
  destruct (scan_grown want name l0 E0) as (l2 & _ & Hl & Hr). exists l2. destruct (lfn_count name Hn) as [Hcnt _].
  pose proof (gr_new _ _ _ _ _ _ _ _ _ _ Hgr cnt ltac:(lia)) as Hnew.
  destruct (sfn_slot_eq d' name cl size attr m Hc Hs Hnew) as (He & _).
  by rewrite Hw, (own_match name _ l2 Hn He Hl) in Hr.
Qed.

(** Any other name is found where it was, or not at all as before. *)
Lemma scan_other want x : closed d m -> name_match name x = false -> name_match (short_name name) x = false ->
  let r := scan_slots g want x dir d (Z.to_nat n) 0 lfn_init in
  let r' := scan_slots g want x dir' d' (Z.to_nat n') 0 lfn_init in
  r' = r \/ no_hit r /\ no_hit r'.
Proof.
  intros Hcl Hx1 Hx2 r r'. destruct (lfn_count name Hn) as [Hcnt _]. pose proof Hgr as [Hold Hnew Hrest Hroom Hdir].
  destruct Hend as (Hm & _). pose proof (scan_split want x dir d n m Hend) as Hsp. fold r in Hsp.
  assert (forall res, scan_slots g want x dir d (Z.to_nat m) 0 lfn_init = res -> (forall l, res <> Some (SMore l)) -> r' = res) as Hpre.
  { intros res E0 Hne. unfold r'. replace (Z.to_nat n') with (Z.to_nat m + Z.to_nat (n' - m))%nat by lia. rewrite scan_slots_app.
    rewrite (scan_slots_ext g want x dir' dir d' d) by (intros; (rewrite Hold || rewrite Hdir); done || lia). rewrite E0.
    destruct res as [[| |l]|]; try done. by destruct (Hne l). }
  assert (forall l0, scan_slots g want x dir d (Z.to_nat m) 0 lfn_init = Some (SMore l0) -> no_hit r') as Hmore.
  { intros l0 E0. destruct (scan_grown want x l0 E0) as (l2 & H83 & Hl & Hr). fold r' in Hr.
    destruct (sfn_slot_eq d' name cl size attr m Hc Hs (Hnew cnt ltac:(lia))) as (He & _).
    rewrite (other_match name x _ l2) in Hr by (try done; intros Hv; rewrite (H83 Hv); unfold lfn_valid;
      by rewrite (closed_reset want x dir d m l0 ltac:(lia) Hcl E0)). by rewrite andb_false_r in Hr. }
  destruct r as [[i l| |l]|].
  - left. by apply Hpre.
  - right. destruct Hsp as [l0 E0]. split; [done|]. by eapply Hmore.
  - right. destruct Hsp as [l0 E0]. split; [done|]. by eapply Hmore.
  - left. by apply Hpre.
Qed.

End Grown.

End Scan.

(** ** Directories *)

(** Long-name entries are numbered from 1. *)
Definition safe (d : Z -> Z) (m : Z) : Prop :=
  forall i, 0 <= i < m -> entry d i 11 = 0x0F -> Z.land (entry d i 0) 0x3F <> 0.

Lemma lfn_copy_some n k base e buf : 0 <= base -> 0 <= k -> lfn_copy n k base e buf <> None.
Proof.
  intros Hb. revert k buf. induction n as [|n IH]; intros k buf Hk; [done|]. cbn [lfn_copy].
  destruct (base + k <? 255); [|done]. destruct (_ || _); [done|]. destruct (Z.ltb_spec (base + k) 0); [lia|]. apply IH. lia.
Qed.

Lemma accumulate_some e l : Z.land (e 0) 0x3F <> 0 -> lfn_accumulate e l <> None.
Proof.
  intros Hs. assert (0 <= Z.land (e 0) 0x3F) by (apply Z.land_nonneg; by right). unfold lfn_accumulate.
  match goal with |- context [lfn_copy ?n ?k ?b ?e ?f] => pose proof (lfn_copy_some n k b e f ltac:(lia) ltac:(lia)); destruct (lfn_copy n k b e f) end; done.
Qed.

Section Create.
Context {D A : Type} `{BD : BlockDev D} `{KH : KernelHeap A}.
Context (g : geom) (Hg : geom_ok g).

#[local] Abbreviation fs := (@Fat32.fs D A).
#[local] Abbreviation cb := (cluster_bytes g).

Lemma scan_safe want name dir d n i l : (forall k, i <= k < i + Z.of_nat n -> entry d k 11 = 0x0F -> Z.land (entry d k 0) 0x3F <> 0) ->
  scan_slots g want name dir d n i l <> None.
Proof.
  revert i l. induction n as [|n IH]; intros i l H; [done|]. cbn [scan_slots].
  assert (forall l, scan_slots g want name dir d n (i + 1) l <> None) as IH1 by (intros l1; apply IH; intros; apply H; [lia|done]).
  destruct (entry d i 0 =? 0); [done|]. destruct (entry d i 0 =? 0xE5); [apply IH1|].
  destruct (Z.eqb_spec (entry d i 11) 0x0F) as [E|]; [|scan_cases; done].
  pose proof (accumulate_some (entry d i) l (H i ltac:(lia) E)). by destruct (lfn_accumulate (entry d i) l).
Qed.

(** A directory: its chain, [m] slots in use, nothing left open at the end. *)
Record dir_at (F : Z -> Z) (B : Z -> Z -> Z) (c : Z) (dir : list Z) (m : Z) : Prop := {
  da_chain : chain g F c dir;
  da_end : ends_at (contents g B dir) (slots g dir) m;
  da_closed : closed (contents g B dir) m;
  da_safe : safe (contents g B dir) m }.

(** What a lookup scans. *)
Definition dir_scan (B : Z -> Z -> Z) (dir : list Z) (want : Z -> bool) (name : list Z) : option scan_result :=
  scan_slots g want name dir (contents g B dir) (Z.to_nat (slots g dir)) 0 lfn_init.

Lemma dir_scan_some F B c dir m want name : dir_at F B c dir m -> dir_scan B dir want name <> None.
Proof.
  intros [Hch Hend Hcl Hs] E. pose proof (scan_split g want name dir _ _ _ Hend) as Hsp. unfold dir_scan in E. rewrite E in Hsp.
  revert Hsp. apply scan_safe. destruct Hend. intros. apply Hs; [lia|done].
Qed.

Lemma scan_dir_ok F B c dir want name (s : fs) : chain g F c dir -> repr g s F B ->
  exists s', repr g s' F B /\ rest_eq s s' /\ scan_answer g B dir (dir_scan B dir want name) (scan_dir g want name c s) s'.
Proof.
  intros Hch Hr. destruct (epc_facts g Hg) as (He & _ & _). unfold scan_dir. rewrite (max_chain_eq g Hg).
  destruct (scan_chain_ok g Hg F B want name dir dir c [] s (Z.to_nat (clusters g)) lfn_init Hch eq_refl Hr (chain_length g Hg _ _ _ Hch))
    as (s' & Hr' & Hrest & Ha). exists s'. split; [done|]. split; [done|]. unfold dir_scan.
  replace (Z.to_nat (slots g dir)) with (length dir * Z.to_nat (epc g))%nat by (unfold slots; lia). exact Ha.
Qed.

(** Storing the entries of a name. *)
Lemma create_entry_ok F B c dir m L name cl size attr (s : fs) :
  dir_at F B c dir m -> repr g s F B -> kh_ok (mem s) L -> storable name ->
  create_outcome g F B c dir (build_entries name cl size attr) m (lfn_entries_needed name + 1) L s
    (fat32_create_entry g name c cl size attr s).
Proof.
  intros Hd Hr Hk Hn. destruct (lfn_count name Hn) as [Hcnt _]. unfold fat32_create_entry. set (total := lfn_entries_needed name + 1).
  rewrite u32_small by (unfold is_u32; lia).
  destruct (kmalloc_ok g s F B L (total * 32) Hk Hr) as (p & s1 & E1 & Hpl1 & Hr1 & Hc1); [lia|]. rewrite (bind_ok _ _ _ _ _ E1).
  destruct (Z.eqb_spec p 0) as [->|Hp].
  { exists (-1), s1, F, B. split; [done|]. split; [done|]. destruct Hc1 as [(_ & Hs & Hpoor)|[? _]]; [|done].
    split; [done|]. split; [done|]. right. split; [done|]. split; [tauto|done]. }
  destruct Hc1 as [[? _]|[_ [Hk1 Hrich1]]]; [done|].
  destruct (dir_write_entries_ok g Hg F B c dir (build_entries name cl size attr) m total (p :: L) s1 (da_chain _ _ _ _ _ Hd) Hr1 (da_end _ _ _ _ _ Hd) Hk1 ltac:(lia))
    as (r & s2 & F' & B' & E2 & Hpl2 & [Hk2 Hrich2] & Hr2 & Hcase). rewrite (bind_ok _ _ _ _ _ E2).
  destruct (kfree_ok g s2 F' B' L p Hk2 Hr2) as (s3 & E3 & Hpl3 & Hr3 & [Hk3 Hrich3]). rewrite (bind_ok _ _ _ _ _ E3).
  exists r, s3, F', B'. split; [done|]. split; [by eapply place_trans; [|eapply place_trans]|]. split; [split; [done|auto]|]. split; [done|].
  destruct Hcase as [?|(-> & Hf & Hfr)]; [by left|right]. split; [done|]. split; [auto|done].
Qed.

(** The directory afterwards is the old one with the new entries. *)
Lemma extended_grown F F' B B' c dir ext m name cl size attr :
  dir_at F B c dir m -> storable name -> is_byte attr ->
  extended g F F' B B' c dir ext (stored (contents g B dir) (Z.of_nat (length dir) * cb) (build_entries name cl size attr) 0 m (lfn_entries_needed name + 1)) ->
  m + (lfn_entries_needed name + 1) <= slots g (dir ++ ext) ->
  grown g (contents g B dir) (contents g B' (dir ++ ext)) (slots g (dir ++ ext)) m dir (dir ++ ext) name cl size attr.
Proof.
  intros Hd Hn Hb [_ _ _ _ Hx] Hroom. destruct (lfn_count name Hn) as [Hcnt _]. destruct (epc_facts g Hg) as (He & Hcb & _).
  pose proof (slots_bytes g Hg dir) as S1. pose proof (slots_bytes g Hg (dir ++ ext)) as S2.
  assert (slots g dir <= slots g (dir ++ ext)) by (unfold slots; rewrite length_app; nia). destruct (da_end _ _ _ _ _ Hd) as (Hm & Hu & Hz).
  split; [| | |lia|].
  - intros x Hx1. rewrite Hx by lia. unfold stored. destruct (Z.leb_spec (m * 32) x); [lia|]. simpl. by destruct (Z.ltb_spec x (Z.of_nat (length dir) * cb)); [|lia].
  - intros k Hk j Hj. unfold entry. rewrite Hx by lia. unfold stored.
    destruct (Z.leb_spec (m * 32) ((m + k) * 32 + j)), (Z.ltb_spec ((m + k) * 32 + j) ((m + (lfn_entries_needed name + 1)) * 32)); try lia. simpl andb. cbv iota.
    replace (0 * 32 + ((m + k) * 32 + j - m * 32)) with (k * 32 + j) by lia. rewrite build_entries_slot by done.
    apply u8_small, new_slot_bytes; [done|done|lia].
  - intros i Hi. rewrite Hx by lia. unfold stored. destruct (Z.ltb_spec (i * 32) ((m + (lfn_entries_needed name + 1)) * 32)); [lia|].
    rewrite andb_false_r. destruct (Z.ltb_spec (i * 32) (Z.of_nat (length dir) * cb)); [apply Hz; lia|done].
  - intros j Hj. unfold ch. rewrite app_nth1; [done|]. assert (j / epc g < Z.of_nat (length dir)) by (apply Z.div_lt_upper_bound; unfold slots in *; lia).
    assert (0 <= j / epc g) by (apply Z.div_pos; lia). lia.
Qed.

Lemma grown_dir F F' B B' c dir ext m name cl size attr :
  dir_at F B c dir m -> storable name -> is_u32 cl -> is_u32 size -> attr_ok attr -> chain g F' c (dir ++ ext) ->
  grown g (contents g B dir) (contents g B' (dir ++ ext)) (slots g (dir ++ ext)) m dir (dir ++ ext) name cl size attr ->
  dir_at F' B' c (dir ++ ext) (m + lfn_entries_needed name + 1).
Proof.
  intros Hd Hn Hc Hs Ha Hch Hgr. destruct (lfn_count name Hn) as [Hcnt _].
  destruct (grown_ends g _ _ _ _ _ _ _ _ _ _ _ Hn Hc Hs Ha (da_end _ _ _ _ _ Hd) Hgr) as [H1 H2]. split; [done|done|done|].
  intros i Hi HF. destruct (decide (i < m)).
  - assert (forall j, 0 <= j < 32 -> entry (contents g B' (dir ++ ext)) i j = entry (contents g B dir) i j) as Heq
      by (intros j Hj; apply (gr_old _ _ _ _ _ _ _ _ _ _ _ Hgr); lia).
    rewrite Heq in * by lia. apply (da_safe _ _ _ _ _ Hd); [lia|done].
  - pose proof (gr_new _ _ _ _ _ _ _ _ _ _ _ Hgr (i - m) ltac:(lia)) as Hnew. replace (m + (i - m)) with i in Hnew by lia.
    rewrite (Hnew 11 ltac:(lia)) in HF. rewrite (Hnew 0 ltac:(lia)). unfold new_slot in *. zcase.
    + destruct (lfn_entry_fixed name (sfn_checksum (entry_sfn name (lfn_entries_needed name))) (lfn_entries_needed name) (lfn_entries_needed name - (i - m))) as (-> & _); [lia|].
      destruct (lfn_seq (lfn_entries_needed name - (i - m))) as (L1 & L2 & L3 & L4); [lia|]. zcase; rewrite ?L4, ?L2; lia.
    + destruct (sfn_entry_fields (entry_sfn name (lfn_entries_needed name)) cl size attr Hc Hs) as (_ & E11 & _).
      rewrite E11 in HF. by destruct Ha as (_ & ? & _).
Qed.

End Create.

End Lookup.
