(* ===== verification/Fat32Remove.v ===== *)
(** * Removing directory entries

    [remove_entry] (the deletion code of [fat32_write_file] and [fat32_delete_file],
    fs/fat32.c) marks the short entry of a hit and the long-name slots in front of it.
    The name is gone afterwards and the scan for every other name ends at the same slot. *)

From S2P Require Import Prelude Heap Disk Fat32Names Fat32 Fat32Table Fat32Files Fat32Dirs Fat32Lookup.

Module Remove.

Import Names Fat32 Table Files Dirs Lookup.

(** ** Long-name runs *)

Definition live_lfn (d : Z -> Z) (i : Z) : Prop := entry d i 11 = 0x0F /\ entry d i 0 <> 0xE5.

#[global] Instance live_lfn_dec d i : Decision (live_lfn d i).
Proof. unfold live_lfn. apply _. Defined.

(** Every run starts with a slot marked as the last part of its name, and is at most
    twenty slots long. *)
Record tidy (d : Z -> Z) (m : Z) : Prop := {
  td_start : forall i, 0 <= i < m -> live_lfn d i -> Z.land (entry d i 0) 0x40 <> 0 \/ 0 < i /\ live_lfn d (i - 1);
  td_runs : forall i, 0 <= i -> i + 21 <= m -> exists j, i <= j < i + 21 /\ ~ live_lfn d j }.

(** No long name pending. *)
Definition lfn_idle (l : lfn) : Prop := lfn_buf l 0 = 0 /\ lfn_track l = [].

Lemma reset_idle l : lfn_idle (lfn_reset l).
Proof. split; [apply upd_same|done]. Qed.

Lemma init_idle : lfn_idle lfn_init.
Proof. done. Qed.

Lemma idle_match l l' e x : lfn_idle l -> lfn_idle l' -> entry_match l e x = entry_match l' e x.
Proof. intros [H _] [H' _]. unfold entry_match, lfn_valid. by rewrite H, H'. Qed.

Lemma idle_start e l l' : lfn_idle l -> lfn_idle l' -> Z.land (e 0) 0x40 <> 0 -> lfn_accumulate e l = lfn_accumulate e l'.
Proof. intros [_ H] [_ H'] He. apply Z.eqb_neq in He. unfold lfn_accumulate. by rewrite He, H, H'. Qed.

Lemma accumulate_track e l l' : lfn_accumulate e l = Some l' -> lfn_track l' = lfn_track l.
Proof.
  unfold lfn_accumulate. destruct (negb _); cbn [lfn_buf lfn_track lfn_chk lfn_remain];
    (match goal with |- context [lfn_copy ?n ?k ?b ?e ?f] => destruct (lfn_copy n k b e f) end; [|done]); by intros [= <-].
Qed.

(** Scans that answer alike. *)
Definition same_scan (r r' : option scan_result) : Prop :=
  match r, r' with
  | Some (SHit i l), Some (SHit j l') => i = j /\ lfn_track l = lfn_track l'
  | Some (SHit _ _), _ | _, Some (SHit _ _) => False
  | Some _, Some _ | None, None => True
  | _, _ => False
  end.

#[global] Instance same_scan_equiv : Equivalence same_scan.
Proof.
  split.
  - by intros [[]|].
  - intros [[]|] [[]|]; try done. intros [? ?]. split; congruence.
  - intros [[]|] [[]|] [[]|]; try done. intros [? ?] [? ?]. split; congruence.
Qed.

Lemma same_hit r r' i l : same_scan r r' -> r = Some (SHit i l) -> exists l', r' = Some (SHit i l') /\ lfn_track l' = lfn_track l.
Proof. intros H ->. destruct r' as [[]|]; try done. destruct H as [-> ->]. eauto. Qed.

Lemma same_no_hit r r' : same_scan r r' -> no_hit r -> no_hit r'.
Proof. by destruct r as [[]|], r' as [[]|]. Qed.

Section Scan.
Context (g : geom) (Hg : geom_ok g).

#[local] Abbreviation scan := (scan_slots g).

(** A hit is one of the slots scanned. *)
Lemma scan_range want name dir d n i l j l' :
  scan_slots g want name dir d n i l = Some (SHit j l') -> i <= j < i + Z.of_nat n.
Proof.
  revert i l. induction n as [|n IH]; intros i l; [done|]. cbn [scan_slots].
  scan_cases; try done; try (intros ?%IH; lia). intros [= -> ->]. lia.
Qed.

(** From an idle state at the start of a run only the slots matter. *)
Lemma scan_idle want x dir d m (n : nat) i l l' : tidy d m -> 0 <= i -> i + Z.of_nat n <= m ->
  (i = 0 \/ ~ live_lfn d (i - 1)) -> lfn_idle l -> lfn_idle l' -> same_scan (scan want x dir d n i l) (scan want x dir d n i l').
Proof.
  intros Ht. revert i l l'. induction n as [|n IH]; intros i l l' H0 Hm Hp Hl Hl'; [done|]. cbn [scan_slots].
  destruct (entry d i 0 =? 0); [done|].
  assert (~ live_lfn d i -> same_scan (scan want x dir d n (i + 1) (lfn_reset l)) (scan want x dir d n (i + 1) (lfn_reset l'))) as Hn.
  { intros Hni. apply IH; [lia|lia| |apply reset_idle..]. right. by replace (i + 1 - 1) with i by lia. }
  destruct (Z.eqb_spec (entry d i 0) 0xE5) as [E5|E5]; [apply Hn; by intros []|].
  destruct (Z.eqb_spec (entry d i 11) 0x0F) as [EF|EF].
  - destruct (td_start _ _ Ht i) as [H4|[Hi Hli]]; [lia|done| |destruct Hp; [lia|done]].
    rewrite (idle_start _ l l' Hl Hl' H4). reflexivity.
  - assert (~ live_lfn d i) as Hni by (by intros []). rewrite (idle_match l l' _ x Hl Hl').
    destruct (_ =? 8); [by apply Hn|]. destruct (negb _); [by apply Hn|]. destruct (entry_match _ _ _); [|by apply Hn].
    destruct Hl, Hl'. split; congruence.
Qed.

(** The slots a scan has tracked: the run in front of it. *)
Record run (d : Z -> Z) (i k : Z) : Prop := {
  rn_range : 0 <= k <= i;
  rn_live : forall j, i - k <= j < i -> live_lfn d j;
  rn_start : i = k \/ ~ live_lfn d (i - k - 1) }.

Definition slot_pos (dir : list Z) (j : Z) : Z * Z := (ch dir (j / epc g), j mod epc g).

Definition tracked (dir : list Z) (d : Z -> Z) (i : Z) (l : lfn) : Prop :=
  exists k, run d i k /\ k <= 20 /\ lfn_track l = map (slot_pos dir) (seqZ (i - k) k).

Lemma tracked_reset dir d i l : 0 <= i -> ~ live_lfn d i -> tracked dir d (i + 1) (lfn_reset l).
Proof.
  intros Hi Hl. exists 0. split; [|split; [lia|done]]. split; [lia|lia|]. right. by replace (i + 1 - 0 - 1) with i by lia.
Qed.

Lemma tracked_init dir d : tracked dir d 0 lfn_init.
Proof. exists 0. split; [|done]. split; [lia|lia|by left]. Qed.

Lemma tracked_next dir d m i l l' : tidy d m -> i < m -> live_lfn d i -> tracked dir d i l -> lfn_track l' = lfn_track l ->
  tracked dir d (i + 1) (track (ch dir (i / epc g)) (i mod epc g) l').
Proof.
  intros Ht Hm Hl (k & [Hk Hlive Hst] & H20 & Htr) Hl'. assert (k < 20) as Hk20.
  { destruct (decide (k = 20)) as [->|]; [|lia]. destruct (td_runs _ _ Ht (i - 20)) as (j & Hj & Hnl); [lia|lia|].
    exfalso. apply Hnl. destruct (decide (j = i)) as [->|]; [done|]. apply Hlive. lia. }
  exists (k + 1). split; [|split; [lia|]].
  - split; [lia| |].
    + intros j Hj. destruct (decide (j = i)) as [->|]; [done|]. apply Hlive. lia.
    + replace (i + 1 - (k + 1) - 1) with (i - k - 1) by lia. destruct Hst; [left; lia|by right].
  - unfold track. rewrite Hl', Htr, length_map, length_seqZ. destruct (Nat.ltb_spec (Z.to_nat k) MAX_LFN_TRACK); [|unfold MAX_LFN_TRACK in *; lia].
    cbn [lfn_track]. replace (i + 1 - (k + 1)) with (i - k) by lia. rewrite seqZ_app, map_app by lia. f_equal.
    replace (i - k + k) with i by lia. done.
Qed.

(** The slot of a hit. *)
Record file_slot (want : Z -> bool) (d : Z -> Z) (i : Z) : Prop := {
  fl_used : entry d i 0 <> 0;
  fl_live : entry d i 0 <> 0xE5;
  fl_kind : entry d i 11 <> 0x0F /\ entry d i 11 <> 0x08;
  fl_want : want (entry d i 11) = true }.

Lemma scan_tracked want x dir d m (n : nat) i l j l' : tidy d m -> 0 <= i -> i + Z.of_nat n <= m -> tracked dir d i l ->
  scan want x dir d n i l = Some (SHit j l') -> tracked dir d j l' /\ file_slot want d j.
Proof.
  intros Ht. revert i l. induction n as [|n IH]; intros i l Hi Hm Htr; [done|]. cbn [scan_slots].
  destruct (Z.eqb_spec (entry d i 0) 0) as [|E0]; [done|].
  assert (~ live_lfn d i -> scan want x dir d n (i + 1) (lfn_reset l) = Some (SHit j l') -> tracked dir d j l' /\ file_slot want d j) as Hn.
  { intros Hl. apply IH; [lia|lia|by apply tracked_reset]. }
  destruct (Z.eqb_spec (entry d i 0) 0xE5) as [E5|E5]; [apply Hn; by intros []|].
  destruct (Z.eqb_spec (entry d i 11) 0x0F) as [EF|EF].
  - destruct (lfn_accumulate _ l) as [l1|] eqn:Ea; [|done]. apply IH; [lia|lia|].
    eapply tracked_next; [done|lia|done|done|by eapply accumulate_track].
  - assert (~ live_lfn d i) as Hni by (by intros []). destruct (Z.eqb_spec (entry d i 11) 8); [by apply Hn|].
    destruct (want (entry d i 11)) eqn:Ew; [|by apply Hn]. cbn [negb]. destruct (entry_match _ _ _); [|by apply Hn]. intros [= <- <-]. done.
Qed.

(** The slots behind the end do not matter. *)
Lemma scan_to want x dir d n m i l : ends_at d n m -> 0 <= i <= m ->
  same_scan (scan want x dir d (Z.to_nat (n - i)) i l) (scan want x dir d (Z.to_nat (m - i)) i l).
Proof.
  intros (Hm & _ & Hz) Hi. replace (Z.to_nat (n - i)) with (Z.to_nat (m - i) + Z.to_nat (n - m))%nat by lia. rewrite scan_slots_app.
  destruct (scan want x dir d (Z.to_nat (m - i)) i l) as [[| |l']|]; try done.
  pose proof (scan_end g want x dir d (Z.to_nat (n - m)) (i + Z.of_nat (Z.to_nat (m - i))) l') as He.
  destruct (scan_slots _ _ _ _ _ _ _ _) as [[]|]; try done; apply He; intros; apply Hz; lia.
Qed.

(** New entries keep the runs in order. *)
Lemma grown_tidy d d' n n' m dir dir' name cl size attr : storable name -> is_u32 cl -> is_u32 size -> attr_ok attr ->
  ends_at d n m -> closed d m -> grown g d d' n' m dir dir' name cl size attr -> tidy d m -> tidy d' (m + lfn_entries_needed name + 1).
Proof.
  intros Hn Hc Hs Ha Hend Hcl Hgr [Hst Hruns]. destruct (lfn_count name Hn) as [Hcnt _]. set (cnt := lfn_entries_needed name) in *. destruct Hend as (Hm & _).
  assert (forall i y, 0 <= i < m -> 0 <= y < 32 -> entry d' i y = entry d i y) as Hold by (intros; apply (gr_old _ _ _ _ _ _ _ _ _ _ _ Hgr); lia).
  assert (forall i, 0 <= i < m -> live_lfn d' i <-> live_lfn d i) as Hl by (intros; unfold live_lfn; by rewrite !Hold by lia).
  assert (forall k, 0 <= k < cnt -> live_lfn d' (m + k) /\ (k = 0 -> Z.land (entry d' (m + k) 0) 0x40 <> 0)) as Hnew.
  { intros k Hk. pose proof (gr_new _ _ _ _ _ _ _ _ _ _ _ Hgr k ltac:(lia)) as He. unfold live_lfn. rewrite (He 11), (He 0) by lia. unfold new_slot.
    fold cnt. destruct (Z.ltb_spec k cnt); [|lia].
    destruct (lfn_entry_fixed name (sfn_checksum (entry_sfn name cnt)) cnt (cnt - k)) as (E0 & -> & _); [lia|]. rewrite E0.
    destruct (lfn_seq (cnt - k)) as (L1 & L2 & L3 & L4); [lia|]. split.
    - split; [done|]. zcase; [|lia]. intros E5. rewrite E5 in L4. change (Z.land 0xE5 0x3F) with 37 in L4. by rewrite <- L4 in E5.
    - intros ->. destruct (Z.eqb_spec (cnt - 0) cnt); [|lia]. by rewrite L3. }
  assert (~ live_lfn d' (m + cnt)) as Hsfn.
  { intros [HF _]. destruct (sfn_slot_eq d' name cl size attr m Hc Hs (gr_new _ _ _ _ _ _ _ _ _ _ _ Hgr cnt ltac:(lia))) as (_ & E & _).
    fold cnt in E. rewrite E in HF. by destruct Ha as (_ & ? & _). }
  split.
  - intros i Hi Hli. destruct (decide (i < m)).
    + rewrite Hl in Hli by lia. rewrite Hold by lia. destruct (Hst i ltac:(lia) Hli) as [?|[? ?]]; [by left|right]. rewrite Hl by lia. done.
    + destruct (decide (i = m + cnt)) as [->|]; [done|]. destruct (Hnew (i - m)) as [_ H0]; [lia|]. replace (m + (i - m)) with i in H0 by lia.
      destruct (decide (i = m)); [left; apply H0; lia|right]. split; [lia|]. replace (i - 1) with (m + (i - 1 - m)) by lia. apply Hnew. lia.
  - intros i Hi Hm2. destruct (decide (i + 21 <= m)) as [Him|].
    + destruct (Hruns i Hi Him) as (j & Hj & Hnl). exists j. split; [done|]. by rewrite Hl by lia.
    + destruct (decide (i + 20 = m + cnt)); [exists (m + cnt); split; [lia|done]|]. exists (m - 1). split; [lia|].
      rewrite Hl by lia. intros [HF H5]. destruct Hcl as [?|[?|?]]; [lia|done|done].
Qed.

(** ** The array without an entry *)

(** The slots from [i - k] to [i] of [d] are marked deleted. *)
Definition erased (d : Z -> Z) (i k x : Z) : Z :=
  if (x mod 32 =? 0) && (i - k <=? x / 32) && (x / 32 <=? i) then 0xE5 else d x.

Lemma erased_slot d i k j y : 0 <= y < 32 ->
  entry (erased d i k) j y = if (y =? 0) && (i - k <=? j) && (j <=? i) then 0xE5 else entry d j y.
Proof. intros Hy. unfold entry, erased. by assert ((j * 32 + y) mod 32 = y /\ (j * 32 + y) / 32 = j) as [-> ->] by zmod. Qed.

Lemma erased_marked d i k j : i - k <= j <= i -> entry (erased d i k) j 0 = 0xE5.
Proof. intros Hj. rewrite erased_slot by lia. zspec; simpl; done || lia. Qed.

Lemma erased_other d i k j y : j < i - k \/ i < j -> 0 <= y < 32 -> entry (erased d i k) j y = entry d j y.
Proof. intros Hj Hy. rewrite erased_slot by lia. zspec; simpl; done || lia. Qed.

Lemma erased_attr d i k j : entry (erased d i k) j 11 = entry d j 11.
Proof. by rewrite erased_slot by lia. Qed.

Lemma scan_deleted want x dir d (n : nat) i l : (0 < n)%nat -> (forall j, i <= j < i + Z.of_nat n -> entry d j 0 = 0xE5) ->
  exists l', scan want x dir d n i l = Some (SMore l') /\ lfn_idle l'.
Proof.
  revert i l. induction n as [|n IH]; intros i l Hn Hd; [lia|]. cbn [scan_slots]. rewrite (Hd i) by lia. change (229 =? 0) with false. change (229 =? 229) with true. cbv iota.
  destruct n as [|n]; [eexists; split; [done|apply reset_idle]|]. apply IH; [lia|]. intros. apply Hd. lia.
Qed.

Lemma scan_run_more want x dir d (n : nat) i l : (forall j, i <= j < i + Z.of_nat n -> live_lfn d j /\ entry d j 0 <> 0) ->
  (forall j, i <= j < i + Z.of_nat n -> Z.land (entry d j 0) 0x3F <> 0) ->
  exists l', scan want x dir d n i l = Some (SMore l').
Proof.
  revert i l. induction n as [|n IH]; intros i l Hl Hs; [by exists l|]. cbn [scan_slots].
  destruct (Hl i ltac:(lia)) as [[HF H5] H0]. apply Z.eqb_neq in H0, H5. rewrite H0, H5, HF. change (15 =? 15) with true. cbv iota.
  pose proof (accumulate_some (entry d i) l (Hs i ltac:(lia))). destruct (lfn_accumulate _ l) as [l1|]; [|done].
  apply IH; intros; [apply Hl|apply Hs]; lia.
Qed.

Section Erase.
Context (want : Z -> bool) (dir : list Z) (d : Z -> Z) (m i k : Z).
Context (Hused : forall j, 0 <= j < m -> d (j * 32) <> 0) (Hsafe : safe d m) (Ht : tidy d m).
Context (Hi : i < m) (Hrun : run d i k) (Hslot : file_slot want d i).

Lemma slot_not_lfn : ~ live_lfn d i.
Proof. destruct Hslot as [_ _ [? _] _]. by intros []. Qed.

(** Behind the erased slots the scan goes on as if it started there. *)
Lemma scan_behind x : exists l', lfn_idle l'
  /\ let r0 := scan want x dir d (Z.to_nat (i - k)) 0 lfn_init in
     scan want x dir (erased d i k) (Z.to_nat m) 0 lfn_init
     = match r0 with Some (SMore l) => scan want x dir d (Z.to_nat (m - (i + 1))) (i + 1) l' | r => r end.
Proof.
  destruct Hrun as [Hk _ _]. pose proof (scan_slots_app g want x dir (erased d i k) (Z.to_nat (i - k)) (Z.to_nat (k + 1) + Z.to_nat (m - (i + 1)))) as Happ.
  set (r0 := scan want x dir d (Z.to_nat (i - k)) 0 lfn_init).
  assert (scan want x dir (erased d i k) (Z.to_nat (i - k)) 0 lfn_init = r0) as E0.
  { apply scan_slots_ext; [|done]. intros y Hy. pose proof (erased_other d i k (y / 32) (y mod 32)) as He. unfold entry in He.
    replace (y / 32 * 32 + y mod 32) with y in He by zmod. apply He; zmod. }
  destruct (scan_deleted want x dir (erased d i k) (Z.to_nat (k + 1)) (0 + Z.of_nat (Z.to_nat (i - k)))
    (match r0 with Some (SMore l) => l | _ => lfn_init end)) as (l' & E1 & Hl'); [lia|intros; apply erased_marked; lia|].
  exists l'. split; [done|]. intros r. replace (Z.to_nat m) with (Z.to_nat (i - k) + (Z.to_nat (k + 1) + Z.to_nat (m - (i + 1))))%nat by lia.
  rewrite Happ, E0. unfold r. fold r0. destruct r0 as [[| |l]|]; try done. rewrite scan_slots_app, E1.
  replace (0 + Z.of_nat (Z.to_nat (i - k)) + Z.of_nat (Z.to_nat (k + 1))) with (i + 1) by lia.
  apply scan_slots_ext; [|done]. intros y Hy. pose proof (erased_other d i k (y / 32) (y mod 32)) as He. unfold entry in He.
  replace (y / 32 * 32 + y mod 32) with y in He by zmod. apply He; zmod.
Qed.

(** The scan of the full array up to the slot. *)
Lemma scan_before x : exists l1,
  let r0 := scan want x dir d (Z.to_nat (i - k)) 0 lfn_init in
  scan want x dir d (Z.to_nat m) 0 lfn_init
  = match r0 with
    | Some (SMore _) => if entry_match l1 (entry d i) x then Some (SHit i l1)
                        else scan want x dir d (Z.to_nat (m - (i + 1))) (i + 1) (lfn_reset l1)
    | r => r
    end.
Proof.
  destruct Hrun as [Hk Hlive _]. set (r0 := scan want x dir d (Z.to_nat (i - k)) 0 lfn_init).
  assert (forall j, 0 <= j < m -> entry d j 0 <> 0) as Hu by (intros j Hj; unfold entry; rewrite Z.add_0_r; by apply Hused).
  destruct (scan_run_more want x dir d (Z.to_nat k) (0 + Z.of_nat (Z.to_nat (i - k))) (match r0 with Some (SMore l) => l | _ => lfn_init end)) as [l1 E1].
  { intros j Hj. split; [apply Hlive|apply Hu]; lia. }
  { intros j Hj. apply Hsafe; [lia|]. apply Hlive. lia. }
  exists l1. intros r. replace (Z.to_nat m) with (Z.to_nat (i - k) + (Z.to_nat k + S (Z.to_nat (m - (i + 1)))))%nat by lia.
  rewrite scan_slots_app. unfold r. fold r0. destruct r0 as [[| |l]|]; try done. rewrite scan_slots_app, E1. cbn [scan_slots].
  replace (0 + Z.of_nat (Z.to_nat (i - k)) + Z.of_nat (Z.to_nat k)) with i by lia.
  destruct Hslot as [H0 H5 [HF H8] Hw]. apply Z.eqb_neq in H0, H5, HF, H8. by rewrite H0, H5, HF, H8, Hw.
Qed.

(** A scan that did not end at the slot ends as before; one that did goes on behind it. *)
Lemma scan_erased x :
  let r := scan want x dir d (Z.to_nat m) 0 lfn_init in
  let r' := scan want x dir (erased d i k) (Z.to_nat m) 0 lfn_init in
  let rest := scan want x dir d (Z.to_nat (m - (i + 1))) (i + 1) lfn_init in
  (exists l, r = Some (SHit i l) /\ same_scan rest r') \/ (forall l, r <> Some (SHit i l)) /\ same_scan r r'.
Proof.
  intros r r' rest. destruct (scan_before x) as [l1 E1]. destruct (scan_behind x) as (l' & Hl' & E2). fold r in E1. fold r' in E2. cbv zeta in *.
  destruct Hrun as [Hk Hlive Hst]. assert (forall l2, lfn_idle l2 -> same_scan (scan want x dir d (Z.to_nat (m - (i + 1))) (i + 1) l2)
    (scan want x dir d (Z.to_nat (m - (i + 1))) (i + 1) l')) as Hs.
  { intros l2 Hl2. eapply scan_idle; [done|lia|lia| |done|done]. right. replace (i + 1 - 1) with i by lia. apply slot_not_lfn. }
  destruct (scan want x dir d (Z.to_nat (i - k)) 0 lfn_init) as [[j l| |l]|] eqn:E0.
  - right. rewrite E1, E2. split; [|done]. apply scan_range in E0. intros l2 [= ? ?]. lia.
  - right. by rewrite E1, E2.
  - rewrite E1, E2. destruct (entry_match l1 (entry d i) x); [left; exists l1; split; [done|by apply Hs]|]. right.
    split; [|apply Hs, reset_idle]. intros l2 E. apply scan_range in E. lia.
  - right. by rewrite E1, E2.
Qed.

Lemma erased_used j : 0 <= j < m -> erased d i k (j * 32) <> 0.
Proof. intros Hj. unfold erased. destruct (_ && _); [done|by apply Hused]. Qed.

Lemma erased_live j : live_lfn (erased d i k) j <-> live_lfn d j /\ (j < i - k \/ i < j).
Proof.
  unfold live_lfn. rewrite erased_attr, erased_slot by lia. destruct (Z.leb_spec (i - k) j), (Z.leb_spec j i); simpl; intuition lia.
Qed.

Lemma erased_tidy : tidy (erased d i k) m.
Proof.
  pose proof slot_not_lfn as Hnl. destruct Ht as [Hst Hruns], Hrun as [Hk _ _]. split.
  - intros j Hj [Hl Ho]%erased_live. rewrite erased_other by lia. destruct (Hst j Hj Hl) as [?|[H0 Hp]]; [by left|right].
    split; [done|]. apply erased_live. split; [done|]. destruct Ho; [lia|]. destruct (decide (j = i + 1)) as [->|]; [|lia].
    by replace (i + 1 - 1) with i in Hp by lia.
  - intros j Hj Hm. destruct (Hruns j Hj Hm) as (j' & Hj' & Hn'). exists j'. split; [done|]. rewrite erased_live. tauto.
Qed.

Lemma erased_safe : safe (erased d i k) m.
Proof.
  intros j Hj HF. rewrite erased_attr in HF. rewrite erased_slot by lia. destruct (_ && _); [done|by apply Hsafe].
Qed.

Lemma erased_closed : closed d m -> closed (erased d i k) m.
Proof.
  unfold closed. intros [?|[?|?]]; [by left|right; left; by rewrite erased_attr|]. right. right. rewrite erased_slot by lia. by destruct (_ && _).
Qed.

End Erase.


End Scan.

(** ** What the slots of a directory satisfy *)

Record shape (d : Z -> Z) (n m : Z) : Prop := {
  sh_end : ends_at d n m;
  sh_closed : closed d m;
  sh_safe : safe d m;
  sh_tidy : tidy d m }.

Lemma shape_ext d d' n m : (forall x, 0 <= x < n * 32 -> d' x = d x) -> shape d n m -> shape d' n m.
Proof.
  intros H [(Hm & Hu & Hz) Hc Hs [Ht1 Ht2]].
  assert (forall i y, 0 <= i < m -> 0 <= y < 32 -> entry d' i y = entry d i y) as He by (intros; apply H; lia).
  assert (forall i, 0 <= i < m -> live_lfn d' i <-> live_lfn d i) as Hl by (intros; unfold live_lfn; by rewrite !He by lia). split.
  - split; [done|]. split; intros i Hi; rewrite H by lia; auto.
  - destruct (decide (m = 0)); [by left|]. unfold closed in *. by rewrite !He by lia.
  - intros i Hi. rewrite !He by lia. by apply Hs.
  - split.
    + intros i Hi. rewrite Hl, He by lia. intros Hli. destruct (Ht1 i Hi Hli) as [?|[? ?]]; [by left|right]. by rewrite Hl by lia.
    + intros i H0 Hi. destruct (Ht2 i H0 Hi) as (j & Hj & Hn). exists j. split; [done|]. by rewrite Hl by lia.
Qed.

Lemma erased_shape want d n m i k : shape d n m -> i < m -> run d i k -> file_slot want d i -> shape (erased d i k) n m.
Proof.
  intros [(Hm & Hu & Hz) Hc Hs Ht] Hi Hr Hf. split.
  - split; [done|]. split; [intros; by eapply erased_used|]. intros j Hj. unfold erased. destruct Hr as [Hk _ _].
    destruct (_ && _ && _) eqn:E; [|by apply Hz]. zbool. assert (j * 32 / 32 = j) by zmod. lia.
  - by apply erased_closed.
  - by apply erased_safe.
  - by eapply erased_tidy.
Qed.


(** ** On disk *)

Lemma mark_deleted_at lc tr buf x :
  mark_deleted lc tr buf x = if bool_decide (x mod 32 = 0 /\ (lc, x / 32) ∈ tr) then 0xE5 else buf x.
Proof.
  revert buf. induction tr as [|[c i] tr IH]; intros buf; cbn [mark_deleted].
  - rewrite bool_decide_eq_false_2; [done|]. by intros [_ ?%not_elem_of_nil].
  - rewrite IH. case_bool_decide as H1.
    + rewrite bool_decide_eq_true_2; [done|]. split; [apply H1|]. apply elem_of_cons. right. apply H1.
    + destruct (Z.eqb_spec c lc) as [->|Hne].
      * unfold upd. destruct (Z.eqb_spec x (i * 32)) as [->|Hx].
        -- rewrite bool_decide_eq_true_2; [done|]. split; [zmod|]. apply elem_of_cons. left. f_equal. zmod.
        -- rewrite bool_decide_eq_false_2; [done|]. intros [Hm [[= Hi]|?]%elem_of_cons]; [subst i; apply Hx; zmod|tauto].
      * rewrite bool_decide_eq_false_2; [done|]. intros [Hm [[= Hi]|?]%elem_of_cons]; [done|tauto].
Qed.

(** The positions whose clusters are done are set to cluster 0. *)
Definition zap (done : list Z) (tr : list (Z * Z)) : list (Z * Z) :=
  map (fun t => if bool_decide (t.1 ∈ done) then (0, t.2) else t) tr.

Lemma zap_nil tr : zap [] tr = tr.
Proof. unfold zap. rewrite <- (map_id tr) at 2. apply map_ext. intros t. by rewrite bool_decide_eq_false_2 by apply not_elem_of_nil. Qed.

Lemma zap_elem done tr lc i : lc ∉ done -> lc <> 0 -> (lc, i) ∈ zap done tr <-> (lc, i) ∈ tr.
Proof.
  intros Hd H0. unfold zap. rewrite list_elem_of_In, in_map_iff. setoid_rewrite <- list_elem_of_In. split.
  - intros ([c j] & E & Hin). cbn [fst snd] in E. case_bool_decide; congruence.
  - intros Hin. exists (lc, i). split; [|done]. cbn [fst snd]. by rewrite bool_decide_eq_false_2.
Qed.

Lemma zap_step done tr (k : nat) lc : lc <> 0 -> (forall t, t ∈ take k tr -> t.1 <> lc) ->
  take k (zap done tr) ++ map (fun t => if t.1 =? lc then (0, t.2) else t) (drop k (zap done tr)) = zap (lc :: done) tr.
Proof.
  intros H0 Hk. unfold zap. rewrite firstn_map, skipn_map, map_map. rewrite <- (take_drop k tr) at 3. rewrite map_app. f_equal.
  - apply map_ext_in. intros t Ht. specialize (Hk t (proj2 (list_elem_of_In _ _) Ht)).
    erewrite bool_decide_ext; [done|]. rewrite elem_of_cons. naive_solver.
  - apply map_ext. intros t. destruct (bool_decide (t.1 ∈ done)) eqn:E.
    + apply bool_decide_eq_true in E. cbn [fst snd]. destruct (Z.eqb_spec 0 lc); [congruence|].
      rewrite bool_decide_eq_true_2; [done|]. apply elem_of_cons. by right.
    + apply bool_decide_eq_false in E. destruct (Z.eqb_spec t.1 lc) as [Et|Et].
      * rewrite bool_decide_eq_true_2; [done|]. apply elem_of_cons. by left.
      * rewrite bool_decide_eq_false_2; [done|]. rewrite elem_of_cons. naive_solver.
Qed.


Section Disk.
Context {D A : Type} `{BD : BlockDev D} `{KH : KernelHeap A}.
Context (g : geom) (Hg : geom_ok g).

#[local] Abbreviation fs := (@Fat32.fs D A).
#[local] Abbreviation cb := (cluster_bytes g).

(** The marks of [tr], in the clusters that satisfy [P]. *)
Record marks (P : Z -> Prop) (tr : list (Z * Z)) (B B' : Z -> Z -> Z) : Prop := {
  mk_here : forall c x, P c -> valid g c -> 0 <= x < cb -> x mod 32 = 0 -> (c, x / 32) ∈ tr -> B' c x = 0xE5;
  mk_same : forall c x, valid g c -> 0 <= x < cb -> ~ (P c /\ x mod 32 = 0 /\ (c, x / 32) ∈ tr) -> B' c x = B c x;
  mk_away : forall c, (~ P c \/ forall i, (c, i) ∉ tr) -> B' c = B c }.

Lemma marks_none P tr B : (forall c i, P c -> (c, i) ∉ tr) -> marks P tr B B.
Proof. intros H. split; try done. intros c x HP _ _ _ Hin. by apply H in Hin. Qed.

(** One cluster more. *)
Lemma marks_step (P : Z -> Prop) tr B B' lc buf w : (forall x, 0 <= x < cb -> is_byte (B lc x)) ->
  (forall x, 0 <= x < cb -> buf x = B lc x) ->
  (forall x, w x = if bool_decide (x mod 32 = 0 /\ (lc, x / 32) ∈ tr) then 0xE5 else buf x) -> (exists i, (lc, i) ∈ tr) -> P lc ->
  marks (fun c => P c /\ c <> lc) tr (B.[lc <- fun x => u8 (w x)]) B' ->
  marks P tr B B'.
Proof.
  intros Hbyte Hbuf Hw Hex HP [H1 H2 H3]. assert (B' lc = fun x => u8 (w x)) as Hlc
    by (rewrite H3 by (left; intros [_ ?]; done); apply upd_same). split.
  - intros c x Hc Hv Hx Hm Hin. destruct (decide (c = lc)) as [->|]; [|by apply H1]. rewrite Hlc, Hw. by rewrite bool_decide_eq_true_2.
  - intros c x Hv Hx Hn. destruct (decide (c = lc)) as [->|].
    + rewrite Hlc, Hw, bool_decide_eq_false_2, Hbuf by (done || tauto). apply u8_small. auto.
    + rewrite H2, upd_other by (done || tauto). done.
  - intros c [Hc|Hc].
    + rewrite H3, upd_other by (tauto || congruence). done.
    + destruct Hex as [i Hi]. rewrite H3, upd_other; [done| |by right]. intros ->. by apply Hc in Hi.
Qed.

(** A buffer given back. *)
Lemma free_one F B L p (s s1 s2 : fs) :
  place_eq s s1 -> (kh_rich (mem s) -> kh_rich (mem s1)) -> rest_eq s1 s2 -> kh_ok (mem s1) (p :: L) -> repr g s2 F B ->
  exists s', kfree p s2 = Some (tt, s') /\ place_eq s s' /\ heap_step L L s s' /\ repr g s' F B.
Proof.
  intros Hpl1 Hrich Hrest Hk1 Hr2. apply rest_place in Hrest as [Hpl2 Hm].
  destruct (kfree_ok g s2 F B L p) as (s4 & E4 & Hpl4 & Hr4 & [Hk4 Hrich4]); [by rewrite Hm|done|].
  exists s4. split; [done|]. split; [by eapply place_trans; [|eapply place_trans]|].
  rewrite Hm in Hrich4. split; [split; [done|auto]|]. done.
Qed.

Lemma clear_others_ok F L cur tr : Forall (fun t => valid g t.1) tr -> forall (n k : nat) don B (s : fs),
  length tr = (k + n)%nat -> repr g s F B -> kh_ok (mem s) L -> (kh_rich (mem s) \/ Forall (fun t => t.1 = cur) tr) ->
  (forall t, t ∈ take k tr -> t.1 = cur \/ t.1 ∈ don) ->
  exists s' B', clear_others g n k cur (zap don tr) s = Some (tt, s') /\ place_eq s s' /\ heap_step L L s s' /\ repr g s' F B'
  /\ marks (fun c => c <> cur /\ c ∉ don) tr B B'.
Proof.
  intros Hv. pose proof (cb_range g Hg) as Hcb. induction n as [|n IH]; intros k don B s Hlen Hr Hk Hrich Hpre; cbn [clear_others].
  { exists s, B. do 4 (split; [done|]). apply marks_none. intros c i [Hc Hd] Hin.
    rewrite take_ge in Hpre by lia. destruct (Hpre _ Hin); cbn [fst] in *; tauto. }
  destruct (lookup_lt_is_Some_2 tr k) as [[lc i] Ht]; [lia|].
  assert (forall don : list Z, (lc = cur \/ lc ∈ don) -> (forall t, t ∈ take k tr -> t.1 = cur \/ t.1 ∈ don) ->
    forall t, t ∈ take (S k) tr -> t.1 = cur \/ t.1 ∈ don) as Hnext.
  { intros don' Hlc Hp t. rewrite (take_S_r _ _ _ Ht), elem_of_app, list_elem_of_singleton. intros [?| ->]; auto. }
  assert (valid g lc) as Hvlc by (rewrite Forall_forall in Hv; exact (Hv _ (list_elem_of_lookup_2 _ _ _ Ht))).
  assert (nth k (zap don tr) (0, 0) = if bool_decide (lc ∈ don) then (0, i) else (lc, i)) as ->.
  { apply nth_lookup_Some. unfold zap. rewrite list_lookup_fmap, Ht. done. }
  case_bool_decide as Hd; cbn [fst].
  { rewrite orb_true_r. apply IH; auto; lia. }
  destruct (Z.eqb_spec lc cur) as [->|Hcur]; [apply IH; auto; lia|]. destruct (Z.eqb_spec lc 0) as [->|H0]; [unfold valid in Hvlc; lia|]. cbn [orb].
  destruct Hrich as [Hrich|Hall]; [|rewrite Forall_forall in Hall; by apply list_elem_of_lookup_2, Hall in Ht].
  destruct (kmalloc_ok g s F B L cb Hk Hr) as (p & s1 & E1 & Hpl1 & Hr1 & Hc1); [lia|]. rewrite (bind_ok _ _ _ _ _ E1).
  destruct Hc1 as [(-> & _ & ?)|[Hp [Hk1 Hrich1]]]; [done|]. apply Z.eqb_neq in Hp. rewrite Hp.
  destruct (read_cluster_ok g Hg s1 F B lc Hr1 Hvlc) as (buf & s2 & E2 & Hb & Hr2 & Hrest2). rewrite (bind_ok _ _ _ _ _ E2).
  destruct (write_cluster_ok g Hg s2 F B lc (mark_deleted lc (zap don tr) buf) Hr2 Hvlc) as (s3 & E3 & Hr3 & Hrest3).
  rewrite (bind_ok (let* _ := _ in ret tt) _ _ tt s3) by (by rewrite (bind_ok _ _ _ _ _ E3)).
  destruct (free_one _ _ _ _ _ _ _ Hpl1 Hrich1 ltac:(by eapply rest_eq_trans) Hk1 Hr3) as (s4 & E4 & Hpl4 & [Hk4 Hrich4] & Hr4).
  rewrite (bind_ok _ _ _ _ _ E4), zap_step; [|done|intros t Htk E; destruct (Hpre t Htk); congruence].
  destruct (IH (S k) (lc :: don) _ s4 ltac:(lia) Hr4 Hk4 (or_introl (Hrich4 Hrich))) as (s' & B' & E' & Hpl' & [Hk' Hrich'] & Hr' & Hm').
  { apply Hnext; [right; apply elem_of_cons; by left|]. intros t Htk. destruct (Hpre t Htk); [by left|right; apply elem_of_cons; by right]. }
  exists s', B'. split; [done|]. split; [by eapply place_trans|]. split; [split; [done|auto]|]. split; [done|].
  eapply (marks_step _ tr B B' lc buf (mark_deleted lc (zap don tr) buf)); [intros; by eapply repr_byte|done| |exists i; by eapply list_elem_of_lookup_2|done|].
  { intros x. rewrite mark_deleted_at. erewrite bool_decide_ext; [done|]. by rewrite zap_elem. }
  destruct Hm' as [M1 M2 M3]. assert (forall c, (c <> cur /\ c ∉ lc :: don) <-> ((c <> cur /\ c ∉ don) /\ c <> lc)) as HP
    by (intros c; rewrite not_elem_of_cons; tauto).
  split; intros; [apply M1|apply M2|apply M3]; rewrite ?HP; done.
Qed.

Lemma slot_pos_inj dir j j' : NoDup dir -> 0 <= j < slots g dir -> 0 <= j' < slots g dir -> slot_pos g dir j = slot_pos g dir j' -> j = j'.
Proof.
  intros Hnd Hj Hj' [= E1 E2]. destruct (epc_facts g Hg) as (He & _). unfold slots in *.
  assert (forall j, 0 <= j < Z.of_nat (length dir) * epc g -> 0 <= j / epc g < Z.of_nat (length dir)) as Hq
    by (intros x Hx; split; [apply Z.div_pos; lia|apply Z.div_lt_upper_bound; lia]).
  pose proof (ch_elem dir _ (Hq j Hj)) as L1. pose proof (ch_elem dir _ (Hq j' Hj')) as L2. rewrite E1 in L1.
  pose proof (NoDup_lookup _ _ _ _ Hnd L1 L2). pose proof (Hq j Hj). pose proof (Hq j' Hj').
  rewrite (Z.div_mod j (epc g)), (Z.div_mod j' (epc g)) by lia. f_equal; [f_equal; lia|done].
Qed.

(** The marks of a run of slots, seen in the array of the directory. *)
Lemma marks_erased B B' dir i k x : NoDup dir -> Forall (valid g) dir -> 0 <= k <= i -> i < slots g dir ->
  marks (fun _ => True) (map (slot_pos g dir) (seqZ (i - k) (k + 1))) B B' -> 0 <= x < Z.of_nat (length dir) * cb ->
  contents g B' dir x = erased (contents g B dir) i k x.
Proof.
  intros Hnd Hval Hk Hi [M1 M2 _] Hx. destruct (epc_facts g Hg) as (He & Hcb & _). pose proof (cb_range g Hg).
  assert (valid g (ch dir (x / cb))) as Hv.
  { rewrite Forall_forall in Hval. eapply Hval, list_elem_of_lookup_2, ch_elem. split; [apply Z.div_pos; lia|apply Z.div_lt_upper_bound; lia]. }
  pose proof (Z.mod_pos_bound x cb ltac:(lia)) as Hy.
  assert (x / cb = x / 32 / epc g /\ (x mod cb) / 32 = (x / 32) mod epc g /\ (x mod cb) mod 32 = x mod 32) as (Q1 & Q2 & Q3).
  { assert (cb = 32 * epc g) as -> by lia. rewrite Z.div_div, (Z.rem_mul_r x 32 (epc g)) by lia. split; [done|].
    rewrite (Z.mul_comm 32), Z.div_add, (Z.div_small (x mod 32)) by zmod. split; [lia|]. by rewrite Z.mod_add, Z.mod_mod by lia. }
  assert ((ch dir (x / cb), x mod cb / 32) ∈ map (slot_pos g dir) (seqZ (i - k) (k + 1)) <-> i - k <= x / 32 <= i) as Hmem.
  { rewrite Q1, Q2. change (ch dir (x / 32 / epc g), (x / 32) mod epc g) with (slot_pos g dir (x / 32)).
    assert (0 <= x / 32 < slots g dir) as Hs by (pose proof (slots_bytes g Hg dir); zmod).
    rewrite list_elem_of_In, in_map_iff. setoid_rewrite <- list_elem_of_In. setoid_rewrite elem_of_seqZ. split.
    - intros (j & E & Hj). apply slot_pos_inj in E; [lia|done|lia|done].
    - intros Hj. exists (x / 32). split; [done|lia]. }
  unfold contents at 1. unfold erased. destruct (Z.eqb_spec (x mod 32) 0), (Z.leb_spec (i - k) (x / 32)), (Z.leb_spec (x / 32) i); cbn [andb];
    [apply M1; [done|done|done|lia|apply Hmem; lia]|apply M2; [done|done|rewrite Hmem; lia]..].
Qed.

(** The run and the slot of a hit, erased. *)
Lemma remove_entry_ok F B c dir i k buf l L (s : fs) : chain g F c dir -> repr g s F B -> kh_ok (mem s) L ->
  (kh_rich (mem s) \/ Forall (fun t => t.1 = ch dir (i / epc g)) (lfn_track l)) ->
  0 <= k <= i -> i < slots g dir -> lfn_track l = map (slot_pos g dir) (seqZ (i - k) k) ->
  (forall x, 0 <= x < cb -> buf x = B (ch dir (i / epc g)) x) ->
  exists s' B', remove_entry g (mk_hit (ch dir (i / epc g)) (i mod epc g) buf l) s = Some (tt, s')
  /\ place_eq s s' /\ heap_step L L s s' /\ repr g s' F B'
  /\ (forall x, 0 <= x < Z.of_nat (length dir) * cb -> contents g B' dir x = erased (contents g B dir) i k x)
  /\ forall y, y ∉ dir -> B' y = B y.
Proof.
  intros Hch Hr Hk Hrich Hki Hi Htr Hb. destruct (epc_facts g Hg) as (He & Hcb & _). pose proof (chain_valid _ _ _ _ Hch) as Hval.
  assert (forall j, 0 <= j < slots g dir -> ch dir (j / epc g) ∈ dir) as Hin.
  { intros j Hj. eapply list_elem_of_lookup_2, ch_elem. split; [apply Z.div_pos; lia|apply Z.div_lt_upper_bound; unfold slots in *; lia]. }
  assert (forall y, y ∈ dir -> valid g y) as Hvd by (rewrite Forall_forall in Hval; done).
  set (tr := map (slot_pos g dir) (seqZ (i - k) k)) in *. set (trr := map (slot_pos g dir) (seqZ (i - k) (k + 1))).
  assert (trr = tr ++ [slot_pos g dir i]) as Htrr.
  { unfold trr, tr. rewrite seqZ_app, map_app by lia. by replace (i - k + k) with i by lia. }
  assert (forall t, t ∈ trr -> t.1 ∈ dir) as Htd.
  { intros t. unfold trr. rewrite list_elem_of_In, in_map_iff. intros (j & <- & Hj). apply Hin. apply list_elem_of_In, elem_of_seqZ in Hj. lia. }
  set (cur := ch dir (i / epc g)) in *. assert (cur ∈ dir) as Hcur by (apply Hin; lia). unfold remove_entry. cbn [h_lfn h_buf h_idx h_cluster]. rewrite Htr.
  set (w := mark_deleted cur tr _).
  destruct (write_cluster_ok g Hg s F B cur w Hr (Hvd _ Hcur)) as (s1 & E1 & Hr1 & Hrest1). rewrite (bind_ok _ _ _ _ _ E1).
  apply rest_place in Hrest1 as [Hpl1 Hm1].
  destruct (clear_others_ok F L cur tr) with (n := length tr) (k := 0%nat) (don := @nil Z) (B := B.[cur <- fun x => u8 (w x)]) (s := s1)
    as (s' & B' & E' & Hpl' & [Hk' Hrich'] & Hr' & Hm'); [|done|done|by rewrite Hm1|by rewrite Hm1, <- Htr|by intros t ?%not_elem_of_nil|].
  { apply Forall_forall. intros t Ht. apply Hvd, Htd. rewrite Htrr. apply elem_of_app. by left. }
  rewrite zap_nil in E'. exists s', B'. rewrite Hm1 in Hrich'. split; [done|]. split; [by eapply place_trans|]. split; [by split|]. split; [done|].
  assert (marks (fun _ => True) trr B B') as HM.
  { eapply (marks_step _ trr B B' cur buf w); [intros; eapply repr_byte; eauto|done| |eexists; rewrite Htrr; apply elem_of_app; right; by apply list_elem_of_singleton|done|].
    - intros x. unfold w. rewrite mark_deleted_at, Htrr. unfold upd. case_bool_decide as H1.
      + rewrite bool_decide_eq_true_2; [done|]. split; [apply H1|]. apply elem_of_app. left. apply H1.
      + destruct (Z.eqb_spec x (i mod epc g * 32)) as [->|Hx].
        * rewrite bool_decide_eq_true_2; [done|]. split; [zmod|]. apply elem_of_app. right. apply list_elem_of_singleton. unfold slot_pos. f_equal. by rewrite Z.div_mul.
        * rewrite bool_decide_eq_false_2; [done|]. intros [Hm [?|[= Hj]%list_elem_of_singleton]%elem_of_app]; [tauto|]. apply Hx. zmod.
    - destruct Hm' as [M1 M2 M3]. assert (forall c0 j, c0 <> cur -> (c0, j) ∈ trr <-> (c0, j) ∈ tr) as Hsame.
      { intros c0 j Hc. rewrite Htrr, elem_of_app, list_elem_of_singleton. unfold slot_pos. fold cur. split; [intros [?|[= ? ?]]; done|by left]. }
      split.
      + intros c0 x [_ Hc] Hv Hx Hm Ht. apply M1; [split; [done|apply not_elem_of_nil]|done|done|done|by apply Hsame].
      + intros c0 x Hv Hx Hn. apply M2; [done|done|]. intros ([Hc _] & Hm & Ht). apply Hn. split; [done|]. split; [done|by apply Hsame].
      + intros c0 Hc. apply M3. destruct (decide (c0 = cur)) as [->|Hne]; [left; by intros []|]. right. intros j Hj%Hsame; [|done].
        destruct Hc as [Hc|Hc]; [tauto|by apply Hc in Hj]. }
  split; [intros x Hx; apply marks_erased; [by eapply chain_NoDup|done|done|done|done|done]|].
  intros y Hy. apply (mk_away _ _ _ _ HM). right. intros j Hj. by apply Htd in Hj.
Qed.


End Disk.


End Remove.
