(* ===== verification/Fat32Spec.v ===== *)
(** * Files by name on a FAT32 volume

    What [fat32_read_file] and [fat32_write_file] (fs/fat32.c) do in terms of names and
    contents: [file_in] says that a name denotes a file with given bytes in a directory.
    Reading returns those bytes; writing a new name makes it denote the data and leaves
    what every other name denotes alone. *)

From S2P Require Import Prelude Heap Disk Fat32Names Fat32 Fat32Table Fat32Files Fat32Dirs Fat32Lookup Fat32Remove.

Module Spec.

Import Names Fat32 Table Files Dirs Lookup Remove.

Section Spec.
Context {D A : Type} `{BD : BlockDev D} `{KH : KernelHeap A}.
Context (g : geom) (Hg : geom_ok g).

#[local] Abbreviation fs := (@Fat32.fs D A).
#[local] Abbreviation cb := (cluster_bytes g).

(** A path with one component: in the current directory, or in the root directory. *)
Definition direct (s : fs) (path : list Z) (c : Z) (name : list Z) : Prop :=
  (47 ∉ name) /\ Forall (fun x => x <> 0) name /\ (path = name /\ c = cwd_cluster s \/ path = 47 :: name /\ c = root_cluster g).

Lemma upto_no_slash name : 47 ∉ name -> upto_slash name = length name.
Proof.
  induction name as [|x name IH]; intros H; [done|]. apply not_elem_of_cons in H as [Hx H]. simpl.
  destruct (Z.eqb_spec x 47); [done|]. by rewrite IH.
Qed.

Lemma resolve_direct (s : fs) path c name : direct s path c name -> fat32_resolve_path g path s = Some (Some (c, name), s).
Proof.
  intros (Hs & Hz & Hp). assert (forall k c, resolve_loop g (S k) c name s = Some (Some (c, name), s)) as Hloop.
  { intros k c'. cbn [resolve_loop]. rewrite upto_no_slash, ch_beyond by (done || lia). done. }
  unfold fat32_resolve_path. erewrite bind_ok by reflexivity. destruct Hp as [[-> ->]|[-> ->]].
  - assert ((ch name 0 =? 47) = false) as ->; [|apply Hloop]. apply Z.eqb_neq. destruct name as [|x name]; [done|].
    apply not_elem_of_cons in Hs as [Hx _]. unfold ch. simpl. congruence.
  - change (ch (47 :: name) 0 =? 47) with true. apply Hloop.
Qed.

Lemma direct_place (s s' : fs) path c name : place_eq s s' -> direct s path c name -> direct s' path c name.
Proof. unfold direct. intros (-> & _). done. Qed.

(** The clusters [l] behind an entry. *)
Definition owned (F : Z -> Z) (e : Z -> Z) (l : list Z) : Prop :=
  entry_cluster e < 2 /\ l = [] \/ chain g F (entry_cluster e) l.

(** The name leads to a file entry of size [n], whose clusters [l] hold the bytes [f]. *)
Definition file_on (F : Z -> Z) (B : Z -> Z -> Z) (dir : list Z) (name : list Z) (l : list Z) (n : Z) (f : Z -> Z) : Prop :=
  exists i lf, dir_scan g B dir want_file name = Some (SHit i lf)
  /\ (let e := entry (contents g B dir) i in read32 e 28 = n /\ owned F e l)
  /\ n <= Z.of_nat (length l) * cb /\ (forall y, y ∈ l -> y ∉ dir) /\ forall x, 0 <= x < n -> contents g B l x = f x.

(** The entry of a hit is the slot of the directory's array. *)
Lemma hit_entry B dir i buf l : 0 <= i < slots g dir ->
  (forall x, 0 <= x < cb -> buf x = B (ch dir (i / epc g)) x) ->
  entry_eq (h_entry (mk_hit (ch dir (i / epc g)) (i mod epc g) buf l)) (entry (contents g B dir) i).
Proof.
  intros Hi Hb j Hj. destruct (epc_facts g Hg) as (He & Hcb & _). unfold h_entry, entry. cbn [h_buf h_idx].
  pose proof (Z.div_mod i (epc g) ltac:(lia)). pose proof (Z.mod_pos_bound i (epc g) ltac:(lia)).
  assert (0 <= i / epc g) by (apply Z.div_pos; lia). rewrite Hb by lia.
  rewrite <- (contents_part g) by lia. f_equal. nia.
Qed.

Lemma entry_fields_eq e e' : entry_eq e e' -> entry_cluster e = entry_cluster e' /\ read32 e 28 = read32 e' 28.
Proof.
  intros H. unfold entry_cluster, read16. rewrite !(H _) by lia. split; [done|]. apply read32_ext. intros. apply H. lia.
Qed.

(** After a scan without a hit the cluster buffer is returned. *)
Lemma free_step {R} F B L p (s s1 s2 : fs) (r : R) :
  place_eq s s1 -> (kh_rich (mem s) -> kh_rich (mem s1)) -> rest_eq s1 s2 -> kh_ok (mem s1) (p :: L) -> repr g s2 F B ->
  exists s', (kfree p ;; ret r) s2 = Some (r, s') /\ place_eq s s' /\ heap_step L L s s' /\ repr g s' F B.
Proof.
  intros Hpl1 Hrich Hrest Hk1 Hr2. destruct (free_one g F B L p s s1 s2 Hpl1 Hrich Hrest Hk1 Hr2) as (s' & E & Hs').
  exists s'. by rewrite (bind_ok _ _ _ _ _ E).
Qed.

(** [fat32_lookup_file] answers with the fields of that entry. *)
Lemma lookup_file_ok F B c dir m L path name (s : fs) :
  direct s path c name -> repr g s F B -> dir_at g F B c dir m -> kh_ok (mem s) L ->
  exists r s', fat32_lookup_file g (Some path) s = Some (r, s') /\ place_eq s s' /\ heap_step L L s s' /\ repr g s' F B
  /\ match r with
     | Some (cl, n) => exists i l, dir_scan g B dir want_file name = Some (SHit i l)
         /\ (let e := entry (contents g B dir) i in cl = entry_cluster e /\ n = read32 e 28)
     | None => kh_rich (mem s) -> no_hit (dir_scan g B dir want_file name)
     end.
Proof.
  intros Hdir Hr Hd Hk. pose proof (cb_range g Hg). unfold fat32_lookup_file. rewrite (bind_ok _ _ _ _ _ (resolve_direct s path c name Hdir)).
  destruct (kmalloc_ok g s F B L cb Hk Hr) as (p & s1 & E1 & Hpl1 & Hr1 & Hc1); [lia|]. rewrite (bind_ok _ _ _ _ _ E1).
  destruct (Z.eqb_spec p 0) as [->|Hp].
  { exists None, s1. split; [done|]. split; [done|]. destruct Hc1 as [(_ & Hs & Hpoor)|[? _]]; [|done]. split; [done|]. split; [done|]. tauto. }
  destruct Hc1 as [[? _]|[_ [Hk1 Hrich1]]]; [done|].
  destruct (scan_dir_ok g Hg F B c dir want_file name s1 (da_chain _ _ _ _ _ _ Hd) Hr1) as (s2 & Hr2 & Hrest2 & Ha).
  pose proof (dir_scan_some g F B c dir m want_file name Hd) as Hne.
  destruct (dir_scan g B dir want_file name) as [[i l| |l]|] eqn:Es; [| | |done]; cbn [scan_answer] in Ha.
  - destruct Ha as (buf & E2 & Hb). rewrite (bind_ok _ _ _ _ _ E2). cbn [h_cluster].
    pose proof (scan_range g _ _ _ _ _ _ _ _ _ Es) as Hi. assert (0 <= i < slots g dir) as Hi2 by (unfold slots in *; lia).
    assert (valid g (ch dir (i / epc g))) as Hv.
    { destruct (epc_facts g Hg) as (He & _). pose proof (chain_valid _ _ _ _ (da_chain _ _ _ _ _ _ Hd)) as Hval. rewrite Forall_forall in Hval.
      eapply Hval, list_elem_of_lookup_2, ch_elem. split; [apply Z.div_pos; lia|]. apply Z.div_lt_upper_bound; unfold slots in *; lia. }
    destruct (fat_next_ok g Hg s2 F B _ Hr2 (valid_table g _ Hv)) as (s3 & E3 & Hr3 & Hrest3). rewrite (bind_ok _ _ _ _ _ E3).
    destruct (free_step F B L p s s1 s3 (Some (entry_cluster (h_entry (mk_hit (ch dir (i / epc g)) (i mod epc g) buf l)),
      read32 (h_entry (mk_hit (ch dir (i / epc g)) (i mod epc g) buf l)) 28))) as (s4 & E4 & H4); [done|done|by eapply rest_eq_trans|done|done|].
    eexists _, s4. split; [exact E4|]. split; [apply H4|]. split; [apply H4|]. split; [apply H4|].
    exists i, l. by destruct (entry_fields_eq _ _ (hit_entry B dir i buf l Hi2 Hb)) as [-> ->].
  - rewrite (bind_ok _ _ _ _ _ Ha). destruct (free_step F B L p s s1 s2 (@None (Z * Z))) as (s4 & E4 & H4 & H5 & H6); [done..|].
    by exists None, s4.
  - rewrite (bind_ok _ _ _ _ _ Ha). destruct (free_step F B L p s s1 s2 (@None (Z * Z))) as (s4 & E4 & H4 & H5 & H6); [done..|].
    by exists None, s4.
Qed.

(** [fat32_read_file] returns the first [bufsize] bytes of the file. *)
Lemma read_file_ok F B c dir m L path name lf n f buffer bufsize (s : fs) :
  direct s path c name -> repr g s F B -> dir_at g F B c dir m -> kh_ok (mem s) L -> is_u32 bufsize -> file_on F B dir name lf n f ->
  exists r s', fat32_read_file g (Some path) (Some buffer) bufsize s = Some (r, s')
  /\ place_eq s s' /\ heap_step L L s s' /\ repr g s' F B
  /\ match r with
     | Some (k, out) => k = Z.min n bufsize /\ forall x, out x = if (0 <=? x) && (x <? k) then f x else buffer x
     | None => ~ kh_rich (mem s)
     end.
Proof.
  intros Hdir Hr Hd Hk Hbs (i & l & Es & [Hn Hown] & Hle & _ & Hf). pose proof (cb_range g Hg). unfold fat32_read_file.
  destruct (lookup_file_ok F B c dir m L path name s Hdir Hr Hd Hk) as (r & s1 & E1 & Hpl1 & [Hk1 Hrich1] & Hr1 & Hl).
  rewrite (bind_ok _ _ _ _ _ E1). destruct r as [[cl n']|].
  2:{ exists None, s1. do 3 (split; [done|]). split; [done|]. intros Hx%Hl. by rewrite Es in Hx. }
  destruct Hl as (i' & l' & Es' & -> & ->). rewrite Es in Es'. injection Es' as <- <-. rewrite Hn.
  destruct (kmalloc_ok g s1 F B L cb Hk1 Hr1) as (p & s2 & E2 & Hpl2 & Hr2 & Hc2); [lia|]. rewrite (bind_ok _ _ _ _ _ E2).
  destruct (Z.eqb_spec p 0) as [->|Hp].
  { exists None, s2. split; [done|]. destruct Hc2 as [(_ & [Hs Hs2] & Hpoor)|[? _]]; [|done].
    split; [by eapply place_trans|]. split; [split; [done|auto]|]. split; [done|]. auto. }
  destruct Hc2 as [[? _]|[_ [Hk2 Hrich2]]]; [done|].
  assert (is_u32 n) as Hnu by (rewrite <- Hn; apply read32_u32).
  assert ((if bufsize <? n then bufsize else n) = Z.min n bufsize) as -> by (zcase; lia). set (k := Z.min n bufsize).
  assert (exists s3 out, read_loop g (Z.to_nat (max_chain_length g)) (entry_cluster (entry (contents g B dir) i)) k 0 buffer s2 = Some ((k, out), s3)
    /\ repr g s3 F B /\ rest_eq s2 s3 /\ forall x, out x = if (0 <=? x) && (x <? k) then f x else buffer x) as (s3 & out & E3 & Hr3 & Hrest3 & Hout).
  { unfold is_u32 in *. destruct Hown as [[_ ->]|Hch].
    { exists s2, buffer. simpl in Hle. replace k with 0 by lia. rewrite read_loop_done. do 3 (split; [done|]). intros x. zspec; done || lia. }
    rewrite (max_chain_eq g Hg). destruct (read_loop_ok g Hg F B _ lf Hch s2 (Z.to_nat (clusters g)) k 0 buffer Hr2) as (s3 & out & E3 & Hr3 & Hrest3 & Hout);
      [by eapply chain_length|lia..|]. exists s3, out. do 3 (split; [done|]). intros x. rewrite Hout, Z.sub_0_r.
    destruct (Z.leb_spec 0 x), (Z.ltb_spec x k); simpl; try done. apply Hf. lia. }
  rewrite (bind_ok _ _ _ _ _ E3). destruct (free_step F B L p s s2 s3 (Some (k, out))) as (s4 & E4 & H4 & H5 & H6); [by eapply place_trans|auto|done|done|done|].
  exists (Some (k, out)), s4. by do 4 (split; [done|]).
Qed.


(** ** What a change leaves alone *)

Lemma contents_frame B B1 dir x : (forall y, y ∈ 0 :: dir -> B1 y = B y) -> contents g B1 dir x = contents g B dir x.
Proof.
  intros H. unfold contents. rewrite H; [done|]. unfold ch. destruct (decide (Z.to_nat (x / cb) < length dir)%nat).
  - apply elem_of_cons. right. by apply list_elem_of_In, nth_In.
  - rewrite nth_overflow by lia. apply elem_of_cons. by left.
Qed.

Lemma dir_frame F F1 B B1 c dir m : (forall y, y ∈ dir -> F1 y = F y) -> (forall y, y ∈ 0 :: dir -> B1 y = B y) -> dir_at g F B c dir m -> dir_at g F1 B1 c dir m.
Proof.
  intros HF HB [Hch (Hm & Hu & Hz) Hcl Hs].
  assert (forall x, contents g B1 dir x = contents g B dir x) as Hx by (intros; by apply contents_frame). split.
  - eapply chain_ext; [|done]. intros y Hy. unfold next_of. by rewrite HF.
  - split; [done|]. split; intros; rewrite Hx; auto.
  - unfold closed, entry in *. by rewrite !Hx.
  - intros i Hi. unfold entry. rewrite !Hx. by apply Hs.
Qed.

Lemma scan_frame B B1 dir want x : (forall y, y ∈ 0 :: dir -> B1 y = B y) -> dir_scan g B1 dir want x = dir_scan g B dir want x.
Proof. intros H. apply scan_slots_ext; [intros; by apply contents_frame|done]. Qed.

Lemma owned_valid F e l y : owned F e l -> y ∈ l -> valid g y /\ is_free F y = false.
Proof.
  intros [[_ ->]|Hch] Hy; [by apply not_elem_of_nil in Hy|]. split; [|by eapply chain_not_free].
  pose proof (chain_valid _ _ _ _ Hch) as Hv. rewrite Forall_forall in Hv. auto.
Qed.

(** A file stays when its entry and its clusters do. *)
Lemma file_frame F F' B B' dir dir' x l n f :
  (forall i lf, dir_scan g B dir want_file x = Some (SHit i lf) -> exists lf', dir_scan g B' dir' want_file x = Some (SHit i lf')
     /\ entry_eq (entry (contents g B' dir') i) (entry (contents g B dir) i)) ->
  (forall y, y ∈ l -> y ∉ dir -> valid g y -> is_free F y = false -> F' y = F y /\ B' y = B y /\ y ∉ dir') ->
  file_on F B dir x l n f -> file_on F' B' dir' x l n f.
Proof.
  intros Hs Hy (i & lf & Es & [Hn Hown] & Hle & Hout & Hf). destruct (Hs i lf Es) as (lf' & Es' & He). exists i, lf'.
  destruct (entry_fields_eq _ _ He) as [Ec E28]. split; [done|]. cbv zeta. unfold owned. rewrite Ec, E28.
  assert (forall y, y ∈ l -> F' y = F y /\ B' y = B y /\ y ∉ dir') as Hk.
  { intros y Hin. destruct (owned_valid _ _ _ _ Hown Hin). apply Hy; auto. }
  split; [split; [done|]; destruct Hown as [?|Hch]; [by left|right]|].
  - eapply chain_ext; [|done]. intros y Hin. unfold next_of. by destruct (Hk y Hin) as (-> & _).
  - split; [done|]. split; [intros; by apply Hk|]. intros y Hyn. rewrite <- Hf by done.
    symmetry. apply contents_ext; [done|lia|]. intros z Hz j _. by destruct (Hk z Hz) as (_ & -> & _).
Qed.

(** ** Removing a file *)

Definition dir_ok (F : Z -> Z) (B : Z -> Z -> Z) (c : Z) (dir : list Z) (m : Z) : Prop :=
  chain g F c dir /\ shape (contents g B dir) (slots g dir) m.

Lemma dir_ok_at F B c dir m : dir_ok F B c dir m -> dir_at g F B c dir m.
Proof. by intros [? []]. Qed.

(** What a scan for the name still meets behind the slot [i]. *)
Definition scan_rest (B : Z -> Z -> Z) (dir : list Z) (name : list Z) (i : Z) : option scan_result :=
  scan_slots g want_file name dir (contents g B dir) (Z.to_nat (slots g dir - (i + 1))) (i + 1) lfn_init.

(** The name leads to one entry only. *)
Definition sole (B : Z -> Z -> Z) (dir : list Z) (name : list Z) : Prop :=
  forall i l, dir_scan g B dir want_file name = Some (SHit i l) -> no_hit (scan_rest B dir name i).

(** Two names lead to different entries. *)
Definition apart (B : Z -> Z -> Z) (dir : list Z) (name x : list Z) : Prop :=
  forall i l l', dir_scan g B dir want_file name = Some (SHit i l) -> dir_scan g B dir want_file x <> Some (SHit i l').

(** Erasing the entry needs no memory beyond one buffer, or there is enough: the entry
    and its long-name slots lie in one cluster. *)
Definition erasable (a : A) (B : Z -> Z -> Z) (dir : list Z) (name : list Z) : Prop :=
  kh_rich a \/ forall i lf, dir_scan g B dir want_file name = Some (SHit i lf) ->
    Forall (fun t => t.1 = ch dir (i / epc g)) (lfn_track lf).

Section Removed.
Context (F F1 : Z -> Z) (B B1 : Z -> Z -> Z) (c : Z) (dir l : list Z) (m i k : Z).
Context (Hd : dir_ok F B c dir m) (Hi : i < m) (Hrun : run (contents g B dir) i k) (Hslot : file_slot want_file (contents g B dir) i).
Context (Hl : forall y, y ∈ l -> y ∉ dir) (HF : forall y, y ∉ l -> F1 y = F y) (HB : forall y, y ∉ dir -> B1 y = B y).
Context (HC : forall x, 0 <= x < Z.of_nat (length dir) * cb -> contents g B1 dir x = erased (contents g B dir) i k x).

Lemma removed_dir : dir_ok F1 B1 c dir m.
Proof.
  destruct Hd as [Hch Hsh]. split.
  - eapply chain_ext; [|done]. intros y Hy. unfold next_of. rewrite HF; [done|]. intros Hyl. by apply Hl in Hyl.
  - eapply shape_ext; [|by eapply erased_shape]. intros x Hx. apply HC. by rewrite <- (slots_bytes g Hg).
Qed.

Lemma removed_scan x :
  (exists lx, dir_scan g B dir want_file x = Some (SHit i lx) /\ same_scan (scan_rest B dir x i) (dir_scan g B1 dir want_file x))
  \/ (forall lx, dir_scan g B dir want_file x <> Some (SHit i lx)) /\ same_scan (dir_scan g B dir want_file x) (dir_scan g B1 dir want_file x).
Proof.
  destruct Hd as [_ [Hend _ Hsafe Ht]]. pose proof removed_dir as [_ [Hend1 _ _ _]]. destruct Hrun as [Hk _ _]. pose proof Hend as (Hm & Hu & _).
  unfold dir_scan, scan_rest. set (d := contents g B dir) in *. set (d1 := contents g B1 dir) in *. set (n := slots g dir) in *.
  pose proof (scan_to g want_file x dir d n m 0 lfn_init Hend ltac:(lia)) as S1. pose proof (scan_to g want_file x dir d1 n m 0 lfn_init Hend1 ltac:(lia)) as S2.
  pose proof (scan_to g want_file x dir d n m (i + 1) lfn_init Hend ltac:(lia)) as S3. rewrite !Z.sub_0_r in S1, S2.
  assert (scan_slots g want_file x dir d1 (Z.to_nat m) 0 lfn_init = scan_slots g want_file x dir (erased d i k) (Z.to_nat m) 0 lfn_init) as Eq.
  { apply scan_slots_ext; [|done]. intros y Hy. apply HC. pose proof (slots_bytes g Hg dir) as Hb. fold n in Hb. lia. }
  rewrite Eq in S2. destruct (scan_erased g want_file dir d m i k Hu Hsafe Ht Hi Hrun Hslot x) as [(lx & E & S)|[Hne S]].
  - left. symmetry in S1. destruct (same_hit _ _ _ _ S1 E) as (lx' & E' & _). exists lx'. split; [done|]. by rewrite S3, S2.
  - right. split; [|by rewrite S1, S2]. intros lx E. destruct (same_hit _ _ _ _ S1 E) as (lx' & E' & _). by apply Hne in E'.
Qed.

(** A file with another entry and other clusters stays. *)
Lemma removed_file x lx n f : (forall lf, dir_scan g B dir want_file x <> Some (SHit i lf)) -> (forall y, y ∈ lx -> y ∉ l) ->
  file_on F B dir x lx n f -> file_on F1 B1 dir x lx n f.
Proof.
  intros Hne Hlx. destruct (removed_scan x) as [(l0 & E & _)|[_ Hs]]; [by apply Hne in E|]. apply file_frame.
  - intros j lf E. destruct (same_hit _ _ _ _ Hs E) as (lf' & E' & _). exists lf'. split; [done|]. intros y Hy.
    unfold dir_scan in E. destruct Hd as [_ [Hend _ Hsafe Ht]]. pose proof Hend as (Hm & _).
    pose proof (scan_to g want_file x dir _ _ m 0 lfn_init Hend ltac:(lia)) as S1. rewrite !Z.sub_0_r in S1.
    destruct (same_hit _ _ _ _ S1 E) as (l1 & E1 & _). pose proof (scan_range g _ _ _ _ _ _ _ _ _ E1) as Hj.
    destruct (scan_tracked g want_file x dir _ m (Z.to_nat m) 0 lfn_init j l1 Ht (Z.le_refl 0) ltac:(lia) (tracked_init g dir _) E1) as [_ [F1' F2 F3 F4]].
    transitivity (entry (erased (contents g B dir) i k) j y); [apply HC; pose proof (slots_bytes g Hg dir); lia|].
    destruct (decide (j < i - k \/ i < j)); [by apply erased_other|]. exfalso. destruct (decide (j = i)) as [->|]; [by apply Hne in E|].
    destruct (rn_live _ _ _ Hrun j ltac:(lia)) as [HF' _]. tauto.
  - intros y Hy Hyd _ _. rewrite HF, HB by auto. done.
Qed.

End Removed.


(** What removing the file leaves. *)
Record removed (F F1 : Z -> Z) (B B1 : Z -> Z -> Z) (dir : list Z) (name l : list Z) : Prop := {
  rm_gone : sole B dir name -> no_hit (dir_scan g B1 dir want_file name);
  rm_other : forall x, apart B dir name x ->
    (forall lx n f, (forall y, y ∈ lx -> y ∉ l) -> file_on F B dir x lx n f -> file_on F1 B1 dir x lx n f)
    /\ (no_hit (dir_scan g B dir want_file x) -> no_hit (dir_scan g B1 dir want_file x));
  rm_rest : forall y, y ∉ l -> F1 y = F y /\ (y ∉ dir -> B1 y = B y);
  rm_free : forall y, y ∈ l -> is_free F1 y = true }.

Lemma free_file_ok F B h e l (s : fs) : repr g s F B -> entry_eq (h_entry h) e -> owned F e l ->
  exists s' F1, free_file g h s = Some (tt, s') /\ rest_eq s s' /\ repr g s' F1 B
  /\ (forall y, y ∉ l -> F1 y = F y) /\ forall y, y ∈ l -> is_free F1 y = true.
Proof.
  intros Hr He Hown. unfold free_file. destruct (entry_fields_eq _ _ He) as [-> _]. destruct Hown as [[Hlt ->]|Hch].
  - destruct (Z.leb_spec 2 (entry_cluster e)); [lia|]. exists s, F. do 4 (split; [done|]). by intros y ?%not_elem_of_nil.
  - pose proof (chain_head_valid _ _ _ _ Hch) as Hv. destruct (Z.leb_spec 2 (entry_cluster e)); [|unfold valid in Hv; lia].
    destruct (fat_free_chain_ok g Hg s F B _ l Hr Hch) as (s' & E & Hrest & Hr'). exists s', (freed_table F l). do 3 (split; [done|]).
    unfold freed_table. split; intros y Hy.
    + by rewrite bool_decide_eq_false_2.
    + unfold is_free, next_of. rewrite bool_decide_eq_true_2 by done. pose proof (chain_valid _ _ _ _ Hch) as Hval. rewrite Forall_forall in Hval.
      rewrite merge28_low by (by eapply repr_u32, valid_table, Hval). done.
Qed.

(** Freeing the clusters of a hit and erasing its entry. *)
Lemma drop_ok F B c dir m name i lf l n f buf L (s : fs) : dir_ok F B c dir m -> repr g s F B -> kh_ok (mem s) L ->
  erasable (mem s) B dir name -> dir_scan g B dir want_file name = Some (SHit i lf) -> file_on F B dir name l n f ->
  (forall x, 0 <= x < cb -> buf x = B (ch dir (i / epc g)) x) ->
  let h := mk_hit (ch dir (i / epc g)) (i mod epc g) buf lf in
  exists s' F1 B1, (free_file g h ;; remove_entry g h) s = Some (tt, s') /\ place_eq s s' /\ heap_step L L s s' /\ repr g s' F1 B1
  /\ dir_ok F1 B1 c dir m /\ removed F F1 B B1 dir name l.
Proof.
  intros Hd Hr Hk Hrich Es (i' & lf' & Es' & [_ Hown] & _ & Hout & _) Hb h. rewrite Es in Es'. injection Es' as <- <-.
  pose proof Hd as [Hch [Hend Hclo Hsafe Ht]]. pose proof Hend as (Hm & _).
  pose proof (scan_to g want_file name dir _ _ m 0 lfn_init Hend ltac:(lia)) as S1. rewrite !Z.sub_0_r in S1.
  destruct (same_hit _ _ _ _ S1 Es) as (l1 & E1 & Etr). pose proof (scan_range g _ _ _ _ _ _ _ _ _ E1) as Hj.
  destruct (scan_tracked g want_file name dir _ m (Z.to_nat m) 0 lfn_init i l1 Ht (Z.le_refl 0) ltac:(lia) (tracked_init g dir _) E1) as [(k & Hrun & H20 & Htr) Hslot].
  assert (i < m) as Him by lia. rewrite Etr in Htr.
  destruct (free_file_ok F B h _ l s Hr (hit_entry B dir i buf lf ltac:(lia) Hb) Hown) as (s1 & F1 & Ef & Hrest & Hr1 & HF & Hfree).
  rewrite (bind_ok _ _ _ _ _ Ef). apply rest_place in Hrest as [Hpl1 Hm1].
  assert (chain g F1 c dir) as Hch1.
  { eapply chain_ext; [|done]. intros y Hy. unfold next_of. rewrite HF; [done|]. intros Hyl. by apply Hout in Hyl. }
  destruct (remove_entry_ok g Hg F1 B c dir i k buf lf L s1 Hch1 Hr1 ltac:(by rewrite Hm1) ltac:(rewrite Hm1; destruct Hrich; eauto) (rn_range _ _ _ Hrun) ltac:(lia) Htr Hb)
    as (s2 & B1 & E2 & Hpl2 & [Hk2 Hrich2] & Hr2 & HC & HB).
  exists s2, F1, B1. rewrite Hm1 in Hrich2. split; [done|]. split; [by eapply place_trans|]. split; [by split|]. split; [done|].
  split; [by eapply removed_dir|]. split; [|intros x Hx; split|by auto|done].
  - intros Hsole. destruct (removed_scan F F1 B B1 c dir l m i k Hd Him Hrun Hslot Hout HF HC name) as [(lx & _ & Hs)|[Hne _]]; [|by apply Hne in Es].
    eapply same_no_hit; [exact Hs|]. by eapply Hsole.
  - intros lx n' f' Hlx. eapply removed_file; [exact Hd|exact Him|exact Hrun|exact Hslot|exact Hout|exact HF|exact HB|exact HC| |exact Hlx]. intros l'. by eapply Hx.
  - intros Hno. destruct (removed_scan F F1 B B1 c dir l m i k Hd Him Hrun Hslot Hout HF HC x) as [(lx & E & _)|[_ Hs]]; [by rewrite E in Hno|].
    by eapply same_no_hit.
Qed.


(** ** Adding a file *)

(** What a successful write of a new name leaves: the file, in clusters that were free;
    every other name as it was; the clusters in use outside the directory untouched. *)
Record added (F F' : Z -> Z) (B B' : Z -> Z -> Z) (dir dir' : list Z) (name : list Z) (n : Z) (f : Z -> Z) : Prop := {
  ad_file : exists l, file_on F' B' dir' name l n f /\ Forall (fun y => valid g y /\ is_free F y = true) l;
  ad_sole : sole B' dir' name;
  ad_other : forall x, name_match name x = false -> name_match (short_name name) x = false ->
    (forall l n f, file_on F B dir x l n f -> file_on F' B' dir' x l n f)
    /\ (no_hit (dir_scan g B dir want_file x) -> no_hit (dir_scan g B' dir' want_file x));
  ad_rest : forall y, valid g y -> is_free F y = false -> y ∉ dir -> F' y = F y /\ B' y = B y }.

Section Added.
Context (F F1 F' : Z -> Z) (B B1 B' : Z -> Z -> Z) (c : Z) (dir ext l : list Z) (m : Z) (name : list Z) (cl size : Z) (f : Z -> Z).
Context (Hdk : dir_ok F B c dir m) (Hn : storable name) (Hno : no_hit (dir_scan g B dir want_file name)).
Context (Hcl : is_u32 cl) (Hsize : is_u32 size).
Context (Hl : Forall (fun x => valid g x /\ is_free F x = true) l).
Context (HF1 : forall x, x ∉ l -> x <> 0 -> F1 x = F x) (HB1 : forall x, x ∉ l -> B1 x = B x).
Context (Hdata : size = 0 /\ cl = 0 /\ l = [] \/ chain g F1 cl l /\ size <= Z.of_nat (length l) * cb /\ forall x, 0 <= x < size -> contents g B1 l x = f x).
Context (Hx : extended g F1 F' B1 B' c dir ext
  (stored (contents g B1 dir) (Z.of_nat (length dir) * cb) (build_entries name cl size FAT_ATTR_ARCHIVE) 0 m (lfn_entries_needed name + 1))).
Context (Hroom : m + (lfn_entries_needed name + 1) <= slots g (dir ++ ext)).

Lemma old_dir : dir_at g F B c dir m.
Proof. by apply dir_ok_at. Qed.

#[local] Abbreviation Hd := old_dir.

Lemma busy_not_new y : is_free F y = false -> y ∉ l.
Proof. intros Hf Hy. rewrite Forall_forall in Hl. destruct (Hl y Hy) as [_ ?]. congruence. Qed.

Lemma dir_not_new y : y ∈ dir -> (y ∉ l) /\ y <> 0.
Proof.
  intros Hy. split; [apply busy_not_new; eapply chain_not_free, Hy; apply Hd|]. pose proof (chain_valid _ _ _ _ (da_chain _ _ _ _ _ _ Hd)) as Hv.
  rewrite Forall_forall in Hv. specialize (Hv y Hy). unfold valid in Hv. lia.
Qed.

Lemma zero_not_new : 0 ∉ l.
Proof. intros Hy. rewrite Forall_forall in Hl. destruct (Hl 0 Hy) as [Hv _]. unfold valid in Hv. lia. Qed.

Lemma dir_data y : y ∈ 0 :: dir -> B1 y = B y.
Proof. intros [->|Hy]%elem_of_cons; apply HB1; [apply zero_not_new|by apply dir_not_new]. Qed.

Lemma mid_dir : dir_at g F1 B1 c dir m.
Proof. eapply dir_frame; [| |exact Hd]; [|apply dir_data]. intros y Hy. by apply HF1; apply dir_not_new. Qed.

Lemma archive_ok : attr_ok FAT_ATTR_ARCHIVE.
Proof. unfold attr_ok, is_byte, FAT_ATTR_ARCHIVE. lia. Qed.

Lemma mid_grown : grown g (contents g B1 dir) (contents g B' (dir ++ ext)) (slots g (dir ++ ext)) m dir (dir ++ ext) name cl size FAT_ATTR_ARCHIVE.
Proof. eapply extended_grown; [done|apply mid_dir|done|apply archive_ok|done|done]. Qed.

(** Clusters that were in use are not touched, and not given to the directory. *)
Lemma busy_kept y : valid g y -> is_free F y = false -> y ∉ dir -> F' y = F y /\ B' y = B y /\ y ∉ dir ++ ext.
Proof.
  intros Hv Hf Hy. pose proof (busy_not_new y Hf) as Hyl. assert (y <> 0) by (unfold valid in Hv; lia).
  assert (y ∉ dir ++ ext) as Hye.
  { intros [?|He]%elem_of_app; [done|]. pose proof (ex_free _ _ _ _ _ _ _ _ _ Hx) as Hfree. rewrite Forall_forall in Hfree.
    destruct (Hfree y He) as [_ Hf1]. unfold is_free, next_of in *. rewrite HF1 in Hf1 by done. congruence. }
  rewrite (ex_table _ _ _ _ _ _ _ _ _ Hx), (ex_data _ _ _ _ _ _ _ _ _ Hx), HF1, HB1 by done. done.
Qed.

Lemma new_kept y : y ∈ l -> chain g F1 cl l -> F' y = F1 y /\ B' y = B1 y /\ y ∉ dir ++ ext.
Proof.
  intros Hy Hch. assert (y ∉ dir ++ ext) as Hye.
  { intros [?%dir_not_new|He]%elem_of_app; [tauto|]. pose proof (ex_free _ _ _ _ _ _ _ _ _ Hx) as Hfree. rewrite Forall_forall in Hfree.
    destruct (Hfree y He) as [_ Hf1]. by rewrite (chain_not_free g _ _ _ _ Hch Hy) in Hf1. }
  by rewrite (ex_table _ _ _ _ _ _ _ _ _ Hx), (ex_data _ _ _ _ _ _ _ _ _ Hx).
Qed.

Lemma own_scan : exists l', dir_scan g B' (dir ++ ext) want_file name = Some (SHit (m + lfn_entries_needed name) l').
Proof.
  apply (scan_own g _ _ _ _ _ _ _ _ _ _ _ Hn Hcl Hsize archive_ok (da_end _ _ _ _ _ _ mid_dir) mid_grown want_file eq_refl).
  change (no_hit (dir_scan g B1 dir want_file name)). by rewrite (scan_frame B B1 dir) by apply dir_data.
Qed.

Lemma own_sole : sole B' (dir ++ ext) name.
Proof.
  intros i l' E. destruct own_scan as [l2 E2]. rewrite E2 in E. injection E as <- _. destruct (da_end _ _ _ _ _ _ Hd) as (Hm & _).
  apply scan_end. intros Hpos. destruct (lfn_count name Hn) as [Hcnt _]. apply (gr_rest _ _ _ _ _ _ _ _ _ _ _ mid_grown). lia.
Qed.

Lemma own_file : file_on F' B' (dir ++ ext) name l size f.
Proof.
  destruct (lfn_count name Hn) as [Hcnt _].
  destruct own_scan as [l' Es].
  destruct (sfn_slot_eq _ name cl size FAT_ATTR_ARCHIVE m Hcl Hsize (gr_new _ _ _ _ _ _ _ _ _ _ _ mid_grown (lfn_entries_needed name) ltac:(lia)))
    as (_ & _ & Ec & E28).
  eexists _, l'. split; [exact Es|]. cbv zeta. unfold owned. rewrite Ec, E28.
  destruct Hdata as [(-> & -> & ->)|(Hch & Hle & Hf)].
  { split; [split; [done|left; split; [lia|done]]|]. split; [done|]. split; [by intros y ?%not_elem_of_nil|lia]. }
  assert (forall y, y ∈ l -> F' y = F1 y /\ B' y = B1 y /\ y ∉ dir ++ ext) as Hk by (intros; by apply new_kept).
  split; [split; [done|right]; eapply chain_ext; [|done]; intros y Hin; unfold next_of; by destruct (Hk y Hin) as (-> & _)|].
  split; [done|]. split; [intros; by apply Hk|]. intros y Hyn. rewrite <- Hf by done.
  apply contents_ext; [done|lia|]. intros z Hz j _. by destruct (Hk z Hz) as (_ & -> & _).
Qed.

(** The scan for another name: the same answer. *)
Lemma other_scan x : name_match name x = false -> name_match (short_name name) x = false ->
  dir_scan g B' (dir ++ ext) want_file x = dir_scan g B dir want_file x
  \/ no_hit (dir_scan g B dir want_file x) /\ no_hit (dir_scan g B' (dir ++ ext) want_file x).
Proof.
  intros H1 H2. rewrite <- (scan_frame B B1 dir want_file x dir_data).
  exact (scan_other g _ _ _ _ _ _ _ _ _ _ _ Hn Hcl Hsize archive_ok (da_end _ _ _ _ _ _ mid_dir) mid_grown want_file x (da_closed _ _ _ _ _ _ mid_dir) H1 H2).
Qed.

Lemma other_file x : name_match name x = false -> name_match (short_name name) x = false ->
  (forall l n f, file_on F B dir x l n f -> file_on F' B' (dir ++ ext) x l n f)
  /\ (no_hit (dir_scan g B dir want_file x) -> no_hit (dir_scan g B' (dir ++ ext) want_file x)).
Proof.
  intros H1 H2. pose proof (other_scan x H1 H2) as Hs. split; [|destruct Hs as [->|[_ ?]]; done].
  intros lx n h. apply file_frame; [|intros; by apply busy_kept]. intros i l' Es.
  assert (dir_scan g B' (dir ++ ext) want_file x = Some (SHit i l')) as Es' by (destruct Hs as [->|[Hh _]]; [done|by rewrite Es in Hh]).
  exists l'. split; [done|]. pose proof (da_end _ _ _ _ _ _ Hd) as Hend. pose proof (scan_split g want_file x dir _ _ _ Hend) as Hsp. fold (dir_scan g B dir want_file x) in Hsp.
  rewrite Es in Hsp. apply scan_range in Hsp. destruct Hend as (Hm & _). intros j Hj.
  etransitivity; [apply (gr_old _ _ _ _ _ _ _ _ _ _ _ mid_grown); lia|]. apply contents_frame, dir_data.
Qed.

Lemma added_ok : dir_ok F' B' c (dir ++ ext) (m + lfn_entries_needed name + 1) /\ added F F' B B' dir (dir ++ ext) name size f.
Proof.
  split; [|split; [exists l; by split; [apply own_file|]|apply own_sole|apply other_file|]].
  - pose proof mid_dir as Hm. destruct (grown_dir g F1 F' B1 B' c dir ext m name cl size FAT_ATTR_ARCHIVE Hm Hn Hcl Hsize archive_ok ltac:(apply Hx) mid_grown) as [G1 G2 G3 G4].
    split; [done|]. split; [done|done|done|]. eapply (grown_tidy g); [done|exact Hcl|exact Hsize|apply archive_ok|apply Hm|apply Hm|apply mid_grown|].
    eapply (sh_tidy _ (slots g dir)), shape_ext; [|apply Hdk]. intros x _. apply contents_frame, dir_data.
  - intros y Hv Hf Hy. by destruct (busy_kept y Hv Hf Hy) as (-> & -> & _).
Qed.

End Added.


(** ** Writing *)

(** Clusters missing for [size] bytes and the entries of a name in a directory with
    [m] slots in use. *)
Definition shortage (F : Z -> Z) (dir : list Z) (m : Z) (name : list Z) (size : Z) : Prop :=
  Z.of_nat (length (free_clusters g F)) * epc g
  < needed g size * epc g + Z.max 0 (m + (lfn_entries_needed name + 1) - slots g dir).

Lemma written_count F F' B B' data size l : written g F F' B B' data 0 size 0 l -> l <> [] ->
  Z.of_nat (length (free_clusters g F)) = needed g size + Z.of_nat (length (free_clusters g F')).
Proof.
  intros [Wf Wl Wt _ Wc _ _] Hne. specialize (Wc Hne). rewrite Z.sub_0_r in Wl. rewrite <- Wl, <- Nat2Z.inj_add, <- length_app. f_equal.
  assert (forall x, x ∈ l -> is_free F' x = false) as Hl by (intros x Hx; by eapply chain_not_free).
  assert (forall x, valid g x -> x ∉ l -> is_free F' x = is_free F x) as Ho.
  { intros x Hv Hx. unfold is_free, next_of. rewrite Wt by (unfold valid in Hv; auto with lia). done. }
  apply Permutation_length, NoDup_Permutation.
  - apply NoDup_filter, NoDup_seqZ.
  - apply NoDup_app. split; [by eapply chain_NoDup|]. split; [|apply NoDup_filter, NoDup_seqZ].
    intros x Hx [_ Hx2]%(elem_free g Hg). by rewrite Hl in Hx2.
  - intros x. rewrite elem_of_app, !(elem_free g Hg). rewrite Forall_forall in Wf. destruct (decide (x ∈ l)) as [Hx|Hx].
    + split; [by left|]. intros _. by apply Wf.
    + split; [intros [Hv Hf]; right|intros [?|[Hv Hf]]; [done|]]; (split; [done|]); [rewrite Ho by done|rewrite <- Ho by done]; done.
Qed.

(** The outcome of writing the data of a name that is not there. *)
Definition write_outcome (F : Z -> Z) (B : Z -> Z -> Z) (c : Z) (dir : list Z) (m : Z) (name : list Z) (size : Z) (f : Z -> Z)
    (L : list Z) (s : fs) (o : option (Z * fs)) : Prop :=
  exists r s' F' B', o = Some (r, s') /\ place_eq s s' /\ heap_step L L s s' /\ repr g s' F' B'
  /\ (r = 0 /\ (exists dir' m', dir_ok F' B' c dir' m' /\ added F F' B B' dir dir' name size f)
      \/ r = -1 /\ (kh_rich (mem s) -> shortage F dir m name size)
         /\ forall y, valid g y -> is_free F y = false -> y ∉ dir -> F' y = F y /\ B' y = B y).

(** The entry for clusters already filled. *)
Lemma entry_outcome F F1 B B1 c dir l m name cl size f L (s s1 : fs) :
  dir_ok F B c dir m -> storable name -> no_hit (dir_scan g B dir want_file name) -> is_u32 cl -> is_u32 size ->
  Forall (fun x => valid g x /\ is_free F x = true) l ->
  (forall x, x ∉ l -> x <> 0 -> F1 x = F x) -> (forall x, x ∉ l -> B1 x = B x) ->
  (size = 0 /\ cl = 0 /\ l = [] \/ chain g F1 cl l /\ size <= Z.of_nat (length l) * cb /\ forall x, 0 <= x < size -> contents g B1 l x = f x) ->
  Z.of_nat (length (free_clusters g F)) = needed g size + Z.of_nat (length (free_clusters g F1)) ->
  place_eq s s1 -> heap_step L L s s1 -> repr g s1 F1 B1 ->
  write_outcome F B c dir m name size f L s (fat32_create_entry g name c cl size FAT_ATTR_ARCHIVE s1).
Proof.
  intros Hd Hn Hno Hcl Hsize Hl HF1 HB1 Hdata Hcount Hpl [Hk Hrich] Hr. destruct (epc_facts g Hg) as (He & _).
  pose proof (mid_dir F F1 B B1 c dir l m Hd Hl HF1 HB1) as Hd1.
  destruct (create_entry_ok g Hg F1 B1 c dir m L name cl size FAT_ATTR_ARCHIVE s1 Hd1 Hr Hk Hn)
    as (r & s' & F' & B' & E & Hpl' & [Hk' Hrich'] & Hr' & Hcase).
  exists r, s', F', B'. split; [done|]. split; [by eapply place_trans|]. split; [split; [done|auto]|]. split; [done|].
  destruct Hcase as [(-> & ext & Hx & Hroom)|(-> & Hfew & Hfr)].
  - left. split; [done|]. eexists _, _. eapply added_ok; [exact Hd|exact Hn|exact Hno|exact Hcl|exact Hsize|exact Hl|exact HF1|exact HB1|exact Hdata|exact Hx|exact Hroom].
  - right. split; [done|]. split; [intros Hrs%Hrich%Hfew; unfold shortage; nia|]. intros y Hv Hf Hy.
    pose proof (busy_not_new F l Hl y Hf) as Hyl. assert (y <> 0) by (unfold valid in Hv; lia).
    destruct (Hfr y) as [-> ->]; [|done|by rewrite HF1, HB1]. unfold is_free, next_of in *. by rewrite HF1.
Qed.


Lemma needed_cover n : 0 <= n -> n <= needed g n * cb /\ needed g n <= n / cb + 1.
Proof.
  intros Hn. pose proof (cb_range g Hg). unfold needed. pose proof (Z.div_mod (n + cb - 1) cb ltac:(lia)).
  pose proof (Z.mod_pos_bound (n + cb - 1) cb ltac:(lia)). split; [nia|]. transitivity ((n + 1 * cb) / cb).
  - apply Z.div_le_mono; lia.
  - rewrite Z.div_add; lia.
Qed.

Lemma needed_0 : needed g 0 = 0.
Proof. pose proof (cb_range g Hg). unfold needed. apply Z.div_small. lia. Qed.

(** The second half of [fat32_write_file]: the data, then the entry. *)
Lemma write_data_ok F B c dir m name data size L (s s1 : fs) :
  dir_ok F B c dir m -> storable name -> no_hit (dir_scan g B dir want_file name) -> is_u32 size ->
  place_eq s s1 -> heap_step L L s s1 -> repr g s1 F B ->
  write_outcome F B c dir m name size (fun x => u8 (data x)) L s
   ((if size =? 0 then fat32_create_entry g name c 0 0 FAT_ATTR_ARCHIVE
     else
       let* buf := kmalloc cb in
       if buf =? 0 then ret (-1)
       else
         let* first := write_loop g (Z.to_nat (size / cb + 1)) data size 0 0 0 in
         kfree buf ;;
         match first with
         | None => ret (-1)
         | Some first_cluster => fat32_create_entry g name c first_cluster size FAT_ATTR_ARCHIVE
         end) s1).
Proof.
  intros Hd Hn Hno Hsize Hpl [Hk Hrich] Hr. pose proof (cb_range g Hg). destruct (epc_facts g Hg) as (He & _).
  destruct (Z.eqb_spec size 0) as [->|Hs0].
  { eapply (entry_outcome F F B B c dir []); try done; [by left|by rewrite needed_0]. }
  unfold is_u32 in Hsize. destruct (needed_cover size ltac:(lia)) as [Hcov Hfuel]. assert (0 <= size / cb) by (apply Z.div_pos; lia).
  destruct (kmalloc_ok g s1 F B L cb Hk Hr) as (p & s2 & E2 & Hpl2 & Hr2 & Hc2); [lia|]. rewrite (bind_ok _ _ _ _ _ E2).
  destruct (Z.eqb_spec p 0) as [->|Hp].
  { exists (-1), s2, F, B. split; [done|]. split; [by eapply place_trans|]. destruct Hc2 as [(_ & [Hk2 Hrich2] & Hpoor)|[? _]]; [|done].
    split; [split; [done|auto]|]. split; [done|]. right. split; [done|]. split; [intros; tauto|done]. }
  destruct Hc2 as [[? _]|[_ [Hk2 Hrich2]]]; [done|].
  destruct (write_loop_ok g Hg data size ltac:(lia) (Z.to_nat (size / cb + 1)) s2 F B 0 0 0 Hr2 ltac:(lia) ltac:(rewrite Z.sub_0_r; lia) ltac:(by left))
    as (r & s3 & F1 & B1 & E3 & Hrest3 & Hr3 & Hw). rewrite (bind_ok _ _ _ _ _ E3).
  apply rest_place in Hrest3 as [Hpl3 Hm3]. destruct (kfree_ok g s3 F1 B1 L p) as (s4 & E4 & Hpl4 & Hr4 & [Hk4 Hrich4]); [by rewrite Hm3|done|].
  rewrite (bind_ok _ _ _ _ _ E4). rewrite Hm3 in Hrich4.
  assert (place_eq s s4) as Hpl5 by (eapply place_trans; [|eapply place_trans; [|eapply place_trans]]; done).
  assert (heap_step L L s s4) as Hh5 by (split; [done|auto]).
  destruct r as [first|].
  - destruct Hw as (l & Hw & ->). pose proof (needed_pos g Hg size ltac:(lia)). pose proof (wr_len _ _ _ _ _ _ _ _ _ _ Hw) as Hlen.
    rewrite Z.sub_0_r in Hlen. assert (l <> []) as Hne by (intros ->; simpl in Hlen; lia). pose proof (wr_chain _ _ _ _ _ _ _ _ _ _ Hw Hne) as Hch.
    change (0 =? 0) with true. destruct (Z.ltb_spec 0 size); [|lia]. cbn [andb].
    assert (is_u32 (ch l 0)) by (pose proof (valid_28 g Hg _ (chain_head_valid _ _ _ _ Hch)); unfold is_u32; lia).
    eapply (entry_outcome F F1 B B1 c dir l); try done.
    + apply Hw.
    + intros x Hx Hx0. apply (wr_table _ _ _ _ _ _ _ _ _ _ Hw); auto.
    + apply Hw.
    + right. split; [done|]. split; [lia|]. intros x Hx. apply (wr_bytes _ _ _ _ _ _ _ _ _ _ Hw). lia.
    + by eapply written_count.
  - destruct Hw as (Hfew & HF & HB). rewrite Z.sub_0_r in Hfew. exists (-1), s4, F1, B1. do 4 (split; [done|]).
    right. split; [done|]. split; [intros _; unfold shortage; nia|]. intros y Hv Hf _. split; [apply HF; [done|unfold valid in Hv; lia]|by apply HB].
Qed.


(** ** The operations *)

(** The name leads to no file ([l] is empty), or to one file with the clusters [l]. *)
Definition old_file (F : Z -> Z) (B : Z -> Z -> Z) (dir name l : list Z) : Prop :=
  no_hit (dir_scan g B dir want_file name) /\ l = [] \/ (exists n f, file_on F B dir name l n f) /\ sole B dir name.

Lemma removed_nil F B dir name : no_hit (dir_scan g B dir want_file name) -> removed F F B B dir name [].
Proof. intros Hno. split; try done. by intros y ?%not_elem_of_nil. Qed.

(** Looking a name up and dropping what it led to. *)
Lemma scan_drop_ok F B c dir m name l L p (s s1 : fs) : dir_ok F B c dir m -> repr g s1 F B ->
  place_eq s s1 -> heap_step L (p :: L) s s1 -> erasable (mem s) B dir name -> old_file F B dir name l ->
  exists s3 s4 F1 B1 h, scan_dir g want_file name c s1 = Some (h, s3)
  /\ (match h with Some h => free_file g h ;; remove_entry g h | None => ret tt end) s3 = Some (tt, s4)
  /\ (h = None <-> no_hit (dir_scan g B dir want_file name))
  /\ place_eq s s4 /\ heap_step L (p :: L) s s4 /\ repr g s4 F1 B1 /\ dir_ok F1 B1 c dir m /\ removed F F1 B B1 dir name l
  /\ no_hit (dir_scan g B1 dir want_file name).
Proof.
  intros Hd Hr Hpl [Hk Hrich] Hr0 Hold. destruct (scan_dir_ok g Hg F B c dir want_file name s1 (proj1 Hd) Hr) as (s3 & Hr3 & Hrest3 & Ha).
  apply rest_place in Hrest3 as [Hpl3 Hm3]. assert (place_eq s s3) as Hps by (by eapply place_trans).
  assert (heap_step L (p :: L) s s3) as Hh3 by (unfold heap_step; by rewrite Hm3).
  destruct Hold as [[Hno ->]|[(n & f & Hf) Hsole]].
  - exists s3, s3, F, B, None. pose proof (removed_nil F B dir name Hno).
    destruct (dir_scan g B dir want_file name) as [[]|]; try done; cbn [scan_answer] in Ha; by do 4 (split; [done|]).
  - pose proof Hf as (i & lf & Es & _). rewrite Es in Ha. destruct Ha as (buf & E & Hb).
    destruct (drop_ok F B c dir m name i lf l n f buf (p :: L) s3 Hd Hr3 ltac:(apply Hh3) ltac:(destruct Hr0; [left; by apply Hh3|by right]) Es Hf Hb)
      as (s4 & F1 & B1 & E4 & Hpl4 & [Hk4 Hrich4] & Hr4 & Hd4 & Hrm).
    eexists s3, s4, F1, B1, _. split; [exact E|]. split; [exact E4|]. rewrite Es. split; [done|].
    split; [by eapply place_trans|]. split; [split; [done|]; intros; by apply Hrich4, Hh3|]. do 3 (split; [done|]). by apply Hrm.
Qed.

Lemma delete_file_ok F B c dir m L path name l (s : fs) :
  direct s path c name -> repr g s F B -> dir_ok F B c dir m -> kh_ok (mem s) L -> erasable (mem s) B dir name -> old_file F B dir name l ->
  exists r s' F' B', fat32_delete_file g (Some path) s = Some (r, s') /\ place_eq s s' /\ heap_step L L s s' /\ repr g s' F' B'
  /\ dir_ok F' B' c dir m
  /\ (r = -1 /\ F' = F /\ B' = B /\ ~ kh_rich (mem s)
      \/ (r = -1 /\ no_hit (dir_scan g B dir want_file name) \/ r = 0 /\ ~ no_hit (dir_scan g B dir want_file name))
         /\ removed F F' B B' dir name l /\ no_hit (dir_scan g B' dir want_file name)).
Proof.
  intros Hdir Hr Hd Hk Hrich Hold. pose proof (cb_range g Hg). unfold fat32_delete_file. rewrite (bind_ok _ _ _ _ _ (resolve_direct s path c name Hdir)).
  destruct (kmalloc_ok g s F B L cb Hk Hr) as (p & s1 & E1 & Hpl1 & Hr1 & Hc1); [lia|]. rewrite (bind_ok _ _ _ _ _ E1).
  destruct Hc1 as [(-> & Hh & Hpoor)|[Hp Hh1]]; [exists (-1), s1, F, B; do 5 (split; [done|]); left; by do 3 (split; [done|])|].
  apply Z.eqb_neq in Hp. rewrite Hp.
  destruct (scan_drop_ok F B c dir m name l L p s s1 Hd Hr1 Hpl1 Hh1 Hrich Hold) as (s3 & s4 & F1 & B1 & h & E3 & E4 & Hh & Hpl4 & [Hk4 Hrich4] & Hr4 & Hd4 & Hrm & Hno).
  rewrite (bind_ok _ _ _ _ _ E3).
  destruct (free_one g F1 B1 L p s s4 s4 Hpl4 Hrich4 ltac:(done) Hk4 Hr4) as (s5 & E5 & Hpl5 & Hh5 & Hr5).
  destruct h as [h|].
  - exists 0, s5, F1, B1. split; [|do 4 (split; [done|]); right; split; [right; split; [done|]; by intros ?%Hh|done]].
    unfold bind in *. destruct (free_file g h s3) as [[[] s3']|]; [|done]. rewrite E4, E5. done.
  - injection E4 as <-. exists (-1), s5, F1, B1. rewrite (bind_ok _ _ _ _ _ E5). do 5 (split; [done|]). right. split; [left; split; [done|by apply Hh]|done].
Qed.

Lemma write_file_ok F B c dir m L path name l data size (s : fs) :
  direct s path c name -> repr g s F B -> dir_ok F B c dir m -> kh_ok (mem s) L -> erasable (mem s) B dir name ->
  storable name -> is_u32 size -> old_file F B dir name l ->
  exists F1 B1, (removed F F1 B B1 dir name l \/ F1 = F /\ B1 = B /\ ~ kh_rich (mem s) /\ exists s', fat32_write_file g (Some path) (Some data) size s = Some (-1, s'))
  /\ write_outcome F1 B1 c dir m name size (fun x => u8 (data x)) L s (fat32_write_file g (Some path) (Some data) size s).
Proof.
  intros Hdir Hr Hd Hk Hrich Hn Hsize Hold. pose proof (cb_range g Hg). unfold fat32_write_file. rewrite (bind_ok _ _ _ _ _ (resolve_direct s path c name Hdir)).
  destruct (kmalloc_ok g s F B L cb Hk Hr) as (p & s1 & E1 & Hpl1 & Hr1 & Hc1); [lia|]. rewrite (bind_ok _ _ _ _ _ E1).
  destruct Hc1 as [(-> & Hh & Hpoor)|[Hp Hh1]].
  { exists F, B. split; [right; do 3 (split; [done|]); by exists s1|]. exists (-1), s1, F, B. do 4 (split; [done|]). right. split; [done|]. by split. }
  apply Z.eqb_neq in Hp. rewrite Hp.
  destruct (scan_drop_ok F B c dir m name l L p s s1 Hd Hr1 Hpl1 Hh1 Hrich Hold) as (s3 & s4 & F1 & B1 & h & E3 & E4 & _ & Hpl4 & [Hk4 Hrich4] & Hr4 & Hd4 & Hrm & Hno).
  exists F1, B1. split; [by left|]. rewrite (bind_ok _ _ _ _ _ E3), (bind_ok _ _ _ _ _ E4).
  destruct (free_one g F1 B1 L p s s4 s4 Hpl4 Hrich4 ltac:(done) Hk4 Hr4) as (s5 & E5 & Hpl5 & Hh5 & Hr5).
  rewrite (bind_ok _ _ _ _ _ E5). by apply write_data_ok.
Qed.


End Spec.

(** ** Theorems *)

Section Theorems.
Context {D A : Type} `{BD : BlockDev D} `{KH : KernelHeap A}.

(** C2: [fat32_write_file] on a path with one component, whether the name is new or leads
    to a file with the clusters [l], on a volume whose directory is in order; the old
    entry lies in one cluster or memory does not run out.  It returns 0, and then the
    name leads to a file with the bytes written and every file under another name, in
    other clusters, is as it was; or it returns -1, and then, unless memory ran
    out, there were not enough free clusters for the data and the directory entries,
    those of the old file included. *)
Theorem fat32_write_file_correct (g : geom) (s : @fs D A) F B c dir m L path name l data size :
  geom_ok g -> direct g s path c name -> repr g s F B -> dir_ok g F B c dir m -> kh_ok (mem s) L -> erasable g (mem s) B dir name ->
  storable name -> is_u32 size -> old_file g F B dir name l ->
  exists r s' F' B', fat32_write_file g (Some path) (Some data) size s = Some (r, s')
  /\ repr g s' F' B' /\ kh_ok (mem s') L
  /\ (r = 0 /\ (exists dir' m', dir_ok g F' B' c dir' m'
        /\ (exists l', file_on g F' B' dir' name l' size (fun x => u8 (data x)))
        /\ forall x lx n f, name_match name x = false -> name_match (short_name name) x = false -> apart g B dir name x ->
             (forall y, y ∈ lx -> y ∉ l) -> file_on g F B dir x lx n f -> file_on g F' B' dir' x lx n f)
      \/ r = -1 /\ (kh_rich (mem s) -> exists F1, (forall y, y ∉ l -> F1 y = F y) /\ (forall y, y ∈ l -> is_free F1 y = true)
           /\ shortage g F1 dir m name size)).
Proof.
  intros Hg Hdir Hr Hd Hk Hrich Hn Hsize Hold.
  destruct (write_file_ok g Hg F B c dir m L path name l data size s Hdir Hr Hd Hk Hrich Hn Hsize Hold) as (F1 & B1 & Hrm & Ho).
  destruct Ho as (r & s' & F' & B' & E & _ & [Hk' _] & Hr' & Hcase). exists r, s', F', B'. do 3 (split; [done|]).
  destruct Hcase as [(-> & dir' & m' & Hd' & Had)|(-> & Hsh & _)].
  - destruct Hrm as [Hrm|(_ & _ & _ & s0 & E0)]; [left|congruence]. split; [done|]. exists dir', m'. split; [done|]. split; [destruct (ad_file _ _ _ _ _ _ _ _ _ _ Had) as (l' & ? & _); by exists l'|].
    intros x lx n f H1 H2 Hx Hlx Hf. apply (ad_other _ _ _ _ _ _ _ _ _ _ Had x H1 H2). by apply (rm_other _ _ _ _ _ _ _ _ Hrm x Hx).
  - right. split; [done|]. intros Hr0. destruct Hrm as [Hrm|(_ & _ & ? & _)]; [|done]. exists F1. split; [intros y Hy; by apply Hrm|]. split; [apply Hrm|auto].
Qed.

(** C8: What [fat32_write_file] stored under a path [fat32_read_file] returns: its first
    [bufsize] bytes, the rest of the buffer untouched.  A write that does not store the
    data says so by -1, and only lack of memory makes the read fail. *)
Theorem fat32_write_read_roundtrip (g : geom) (s : @fs D A) F B c dir m L path name l data size :
  geom_ok g -> direct g s path c name -> repr g s F B -> dir_ok g F B c dir m -> kh_ok (mem s) L -> erasable g (mem s) B dir name ->
  storable name -> is_u32 size -> old_file g F B dir name l ->
  exists r s', fat32_write_file g (Some path) (Some data) size s = Some (r, s') /\ (r = 0 \/ r = -1)
  /\ (r = 0 -> forall buffer bufsize, is_u32 bufsize ->
      exists res s'', fat32_read_file g (Some path) (Some buffer) bufsize s' = Some (res, s'')
      /\ match res with
         | Some (n, out) => n = Z.min size bufsize /\ forall x, out x = if (0 <=? x) && (x <? n) then u8 (data x) else buffer x
         | None => ~ kh_rich (mem s)
         end).
Proof.
  intros Hg Hdir Hr Hd Hk Hrich Hn Hsize Hold.
  destruct (write_file_ok g Hg F B c dir m L path name l data size s Hdir Hr Hd Hk Hrich Hn Hsize Hold) as (F1 & B1 & Hrm & Ho).
  destruct Ho as (r & s' & F' & B' & E & Hpl & [Hk' Hrich'] & Hr' & Hcase). exists r, s'. split; [done|]. split; [by destruct Hcase as [[-> _]|[-> _]]; auto|].
  intros -> buffer bufsize Hbs. destruct Hcase as [(_ & dir' & m' & Hd' & Had)|[? _]]; [|done]. destruct (ad_file _ _ _ _ _ _ _ _ _ _ Had) as (l' & Hf & _).
  destruct (read_file_ok g Hg F' B' c dir' m' L path name l' size (fun x => u8 (data x)) buffer bufsize s') as (res & s'' & E' & _ & _ & _ & Hres);
    [by eapply direct_place|done|by apply dir_ok_at|done|done|done|]. exists res, s''. split; [done|]. destruct res as [[k out]|]; auto.
Qed.


End Theorems.

(** ** A volume with one file *)

Module Demo.

(** The volume of [Table.Demo] with the entry of [A.TXT], 600 bytes, clusters 3 and 4. *)
Definition demo_name : list Z := [65; 46; 84; 88; 84].
Definition disk_byte (x : Z) : Z :=
  if (1024 <=? x) && (x <? 1056) then sfn_entry (entry_sfn demo_name 0) 3 600 FAT_ATTR_ARCHIVE (x - 1024) else Table.Demo.disk_byte x.

Definition demo_fs : @fs RamDisk.disk BumpHeap.bump := mk_fs 2 [47] (RamDisk.mk_disk disk_byte 34) BumpHeap.bump_init [].
#[local] Abbreviation demo_geom := Table.Demo.demo_geom.

Definition demo_table (c : Z) : Z := read32 (fun i => bd_byte (dev demo_fs) (fat_pos demo_geom c + i)) 0.
Definition demo_clusters (c i : Z) : Z := bd_byte (dev demo_fs) (512 * lba_of demo_geom c + i).

Lemma volume_repr : repr demo_geom demo_fs demo_table demo_clusters.
Proof. apply repr_self; [done|]. vm_compute. congruence. Qed.

Lemma demo_direct : direct demo_geom demo_fs demo_name 2 demo_name.
Proof. split; [|split; [|by left]]; vm_compute; [set_solver|repeat constructor; done]. Qed.

Lemma demo_storable : storable demo_name.
Proof. split; [|split]; [repeat constructor; done|simpl; lia|]. intros _. split; [repeat constructor; done|done]. Qed.

Lemma demo_slots i : 1 <= i < 16 -> contents demo_geom demo_clusters [2] (i * 32) = 0.
Proof.
  intros Hi. assert (forallb (fun i => contents demo_geom demo_clusters [2] (i * 32) =? 0) (seqZ 1 15) = true) as H by (vm_compute; done).
  rewrite forallb_forall in H. apply Z.eqb_eq, H, list_elem_of_In, elem_of_seqZ. lia.
Qed.

Lemma volume_dir : dir_ok demo_geom demo_table demo_clusters 2 [2] 1.
Proof.
  split; [apply chain_last; [by apply Table.Demo.demo_valid|vm_compute; congruence]|]. change (slots demo_geom [2]) with 16. split.
  - split; [lia|]. split; intros i Hi; [by replace i with 0 by lia|by apply demo_slots].
  - right. left. vm_compute. congruence.
  - intros i Hi. by replace i with 0 by lia.
  - split; [|lia]. intros i Hi. replace i with 0 by lia. by intros [? _].
Qed.

Lemma demo_file : old_file demo_geom demo_table demo_clusters [2] demo_name [3; 4].
Proof.
  right. split.
  - exists 600, (contents demo_geom demo_clusters [3; 4]), 0, lfn_init. split; [vm_compute; reflexivity|]. split; [|split; [by vm_compute|split; [set_solver|done]]].
    split; [vm_compute; reflexivity|right]. change (entry_cluster (entry (contents demo_geom demo_clusters [2]) 0)) with 3.
    apply chain_next; [by apply Table.Demo.demo_valid|]. change (next_of demo_table 3) with 4.
    apply chain_last; [by apply Table.Demo.demo_valid|]. vm_compute. congruence.
  - intros i l E. assert (dir_scan demo_geom demo_clusters [2] want_file demo_name = Some (SHit 0 lfn_init)) as E0 by (vm_compute; reflexivity).
    rewrite E0 in E. injection E as <- <-. vm_compute. done.
Qed.

End Demo.

Lemma fat32_write_file_correct_witness :
  exists s', fat32_write_file Table.Demo.demo_geom (Some Demo.demo_name) (Some (fun _ => 66)) 700 Demo.demo_fs = Some (0, s')
  /\ exists F' B' dir' l', repr Table.Demo.demo_geom s' F' B' /\ file_on Table.Demo.demo_geom F' B' dir' Demo.demo_name l' 700 (fun _ => 66).
Proof.
  destruct (fat32_write_file_correct Table.Demo.demo_geom Demo.demo_fs Demo.demo_table Demo.demo_clusters 2 [2] 1 [] Demo.demo_name Demo.demo_name [3; 4]
    (fun _ => 66) 700) as (r & s' & F' & B' & E & Hr & _ & Hcase);
    [apply Table.Demo.demo_geom_ok|apply Demo.demo_direct|apply Demo.volume_repr|apply Demo.volume_dir|exact BumpHeap.bump_init_ok|left; exact I|apply Demo.demo_storable|vm_compute; split; congruence|apply Demo.demo_file|].
  assert (option_map fst (fat32_write_file Table.Demo.demo_geom (Some Demo.demo_name) (Some (fun _ => 66)) 700 Demo.demo_fs) = Some 0) as E0 by (vm_compute; reflexivity).
  rewrite E in E0. injection E0 as ->. exists s'. split; [exact E|].
  destruct Hcase as [(_ & dir' & m' & _ & [l' Hf] & _)|[? _]]; [|discriminate]. exists F', B', dir', l'. split; [exact Hr|exact Hf].
Defined.

Lemma fat32_write_read_roundtrip_witness :
  exists s' out s'', fat32_write_file Table.Demo.demo_geom (Some Demo.demo_name) (Some (fun _ => 66)) 700 Demo.demo_fs = Some (0, s')
  /\ fat32_read_file Table.Demo.demo_geom (Some Demo.demo_name) (Some (fun _ => 0)) 1000 s' = Some (Some (700, out), s'') /\ out 699 = 66.
Proof.
  destruct (fat32_write_read_roundtrip Table.Demo.demo_geom Demo.demo_fs Demo.demo_table Demo.demo_clusters 2 [2] 1 [] Demo.demo_name Demo.demo_name [3; 4]
    (fun _ => 66) 700) as (r & s' & E & _ & Hread);
    [apply Table.Demo.demo_geom_ok|apply Demo.demo_direct|apply Demo.volume_repr|apply Demo.volume_dir|exact BumpHeap.bump_init_ok|left; exact I|apply Demo.demo_storable|vm_compute; split; congruence|apply Demo.demo_file|].
  assert (option_map fst (fat32_write_file Table.Demo.demo_geom (Some Demo.demo_name) (Some (fun _ => 66)) 700 Demo.demo_fs) = Some 0) as E0 by (vm_compute; reflexivity).
  rewrite E in E0. injection E0 as ->. destruct (Hread eq_refl (fun _ => 0) 1000) as (res & s'' & E' & Ho); [vm_compute; split; congruence|].
  destruct res as [[n out]|]; [|destruct (Ho I)]. destruct Ho as [-> Ho]. exists s', out, s''. split; [exact E|]. split; [exact E'|]. rewrite Ho. reflexivity.
Defined.


(** [is_valid_83] accepts names with blanks, which the short entry cannot hold apart from
    its padding: a file written as [A B] is not found again under that name. *)
Example blank_name_lost :
  match fat32_write_file Table.Demo.demo_geom (Some [65; 32; 66]) (Some (fun _ => 66)) 5 Demo.demo_fs with
  | Some (0, s') => option_map fst (fat32_lookup_file Table.Demo.demo_geom (Some [65; 32; 66]) s') = Some None
                    /\ option_map fst (fat32_lookup_file Table.Demo.demo_geom (Some [65]) s') = Some (Some (5, 5))
  | _ => False
  end.
Proof. vm_compute. done. Qed.


End Spec.
