(* ===== verification/Sched.v ===== *)
(** * Processes and the scheduler (kernel/process.h, kernel/scheduler.c)

    [process_t] structures live in a store indexed by their addresses and are linked
    through [p_next] into the circular ready queue, the blocked list and the zombie
    list, as in the source.  Reading through a pointer that is no process is
    undefined behaviour ([undef]); the theorems show that it does not happen. *)

From S2P Require Import Prelude.

Module Proc.

Definition PROCESS_READY : Z := 0.
Definition PROCESS_RUNNING : Z := 1.
Definition PROCESS_BLOCKED : Z := 2.
Definition PROCESS_DEAD : Z := 3.

Definition BLOCK_NONE : Z := 0.
Definition BLOCK_WAIT : Z := 1.
Definition BLOCK_READ : Z := 2.
Definition BLOCK_PIPE_READ : Z := 3.
Definition BLOCK_PIPE_WRITE : Z := 4.

Definition KERNEL_STACK_SIZE : Z := 16384.
Definition USER_STACK_PAGE : Z := 0xBFFFF000.
Definition MAX_FDS : nat := 8.

Definition FD_NONE : Z := 0.
Definition FD_FILE : Z := 1.
Definition FD_TTY_IN : Z := 2.
Definition FD_TTY_OUT : Z := 3.
Definition FD_PIPE_READ : Z := 4.
Definition FD_PIPE_WRITE : Z := 5.

Record file_desc := mk_fd {
  fd_kind : Z; fd_writable : Z; fd_wbuf : Z; fd_pipe : Z;
  fd_first_cluster : Z; fd_cur_cluster : Z; fd_cluster_offset : Z; fd_pos : Z; fd_size : Z }.

(** [fpu_state] is the 108-byte save area, kept as one value. *)
Record process := mk_process {
  p_pid : Z; p_state : Z; p_esp : Z; p_page_directory : Z;
  p_kernel_stack : Z; p_kernel_stack_top : Z; p_foreground : Z;
  p_parent_pid : Z; p_exit_code : Z; p_block_reason : Z; p_wait_target : Z;
  p_heap_start : Z; p_heap_end : Z; p_fpu_state : list Z;
  p_fds : list file_desc; p_next : Z }.

Definition set_state (v : Z) (p : process) : process :=
  mk_process (p_pid p) v (p_esp p) (p_page_directory p) (p_kernel_stack p) (p_kernel_stack_top p)
    (p_foreground p) (p_parent_pid p) (p_exit_code p) (p_block_reason p) (p_wait_target p)
    (p_heap_start p) (p_heap_end p) (p_fpu_state p) (p_fds p) (p_next p).
Definition set_next (v : Z) (p : process) : process :=
  mk_process (p_pid p) (p_state p) (p_esp p) (p_page_directory p) (p_kernel_stack p) (p_kernel_stack_top p)
    (p_foreground p) (p_parent_pid p) (p_exit_code p) (p_block_reason p) (p_wait_target p)
    (p_heap_start p) (p_heap_end p) (p_fpu_state p) (p_fds p) v.
Definition set_block (reason target : Z) (p : process) : process :=
  mk_process (p_pid p) (p_state p) (p_esp p) (p_page_directory p) (p_kernel_stack p) (p_kernel_stack_top p)
    (p_foreground p) (p_parent_pid p) (p_exit_code p) reason target
    (p_heap_start p) (p_heap_end p) (p_fpu_state p) (p_fds p) (p_next p).
Definition set_esp (v : Z) (p : process) : process :=
  mk_process (p_pid p) (p_state p) v (p_page_directory p) (p_kernel_stack p) (p_kernel_stack_top p)
    (p_foreground p) (p_parent_pid p) (p_exit_code p) (p_block_reason p) (p_wait_target p)
    (p_heap_start p) (p_heap_end p) (p_fpu_state p) (p_fds p) (p_next p).
Definition set_fpu (v : list Z) (p : process) : process :=
  mk_process (p_pid p) (p_state p) (p_esp p) (p_page_directory p) (p_kernel_stack p) (p_kernel_stack_top p)
    (p_foreground p) (p_parent_pid p) (p_exit_code p) (p_block_reason p) (p_wait_target p)
    (p_heap_start p) (p_heap_end p) v (p_fds p) (p_next p).
Definition set_fds (v : list file_desc) (p : process) : process :=
  mk_process (p_pid p) (p_state p) (p_esp p) (p_page_directory p) (p_kernel_stack p) (p_kernel_stack_top p)
    (p_foreground p) (p_parent_pid p) (p_exit_code p) (p_block_reason p) (p_wait_target p)
    (p_heap_start p) (p_heap_end p) (p_fpu_state p) v (p_next p).
Definition set_foreground (v : Z) (p : process) : process :=
  mk_process (p_pid p) (p_state p) (p_esp p) (p_page_directory p) (p_kernel_stack p) (p_kernel_stack_top p)
    v (p_parent_pid p) (p_exit_code p) (p_block_reason p) (p_wait_target p)
    (p_heap_start p) (p_heap_end p) (p_fpu_state p) (p_fds p) (p_next p).
Definition set_exit_code (v : Z) (p : process) : process :=
  mk_process (p_pid p) (p_state p) (p_esp p) (p_page_directory p) (p_kernel_stack p) (p_kernel_stack_top p)
    (p_foreground p) (p_parent_pid p) v (p_block_reason p) (p_wait_target p)
    (p_heap_start p) (p_heap_end p) (p_fpu_state p) (p_fds p) (p_next p).
Definition set_heap (lo hi : Z) (p : process) : process :=
  mk_process (p_pid p) (p_state p) (p_esp p) (p_page_directory p) (p_kernel_stack p) (p_kernel_stack_top p)
    (p_foreground p) (p_parent_pid p) (p_exit_code p) (p_block_reason p) (p_wait_target p)
    lo hi (p_fpu_state p) (p_fds p) (p_next p).

Definition set_parent_pid (v : Z) (p : process) : process :=
  mk_process (p_pid p) (p_state p) (p_esp p) (p_page_directory p) (p_kernel_stack p) (p_kernel_stack_top p)
    (p_foreground p) v (p_exit_code p) (p_block_reason p) (p_wait_target p)
    (p_heap_start p) (p_heap_end p) (p_fpu_state p) (p_fds p) (p_next p).

End Proc.

Module Sched.

Import Proc.

Definition TIMESLICE : Z := 10.

(** The scheduler's variables, the process store, and the parts of the machine that
    a switch changes: TSS esp0, CR3, the FPU registers and the stack pointer. *)
Record sched := mk_sched {
  procs : gmap Z process;
  ready_queue : Z; blocked_list : Z; zombie_list : Z;
  current_process : Z; foreground_process : Z; tick_count : Z;
  tss_esp0 : Z; cr3 : Z; fpu : list Z; esp : Z }.

Definition set_procs (m : gmap Z process) (s : sched) : sched :=
  mk_sched m (ready_queue s) (blocked_list s) (zombie_list s) (current_process s)
    (foreground_process s) (tick_count s) (tss_esp0 s) (cr3 s) (fpu s) (esp s).
Definition set_ready (v : Z) (s : sched) : sched :=
  mk_sched (procs s) v (blocked_list s) (zombie_list s) (current_process s)
    (foreground_process s) (tick_count s) (tss_esp0 s) (cr3 s) (fpu s) (esp s).
Definition set_blocked (v : Z) (s : sched) : sched :=
  mk_sched (procs s) (ready_queue s) v (zombie_list s) (current_process s)
    (foreground_process s) (tick_count s) (tss_esp0 s) (cr3 s) (fpu s) (esp s).
Definition set_zombie (v : Z) (s : sched) : sched :=
  mk_sched (procs s) (ready_queue s) (blocked_list s) v (current_process s)
    (foreground_process s) (tick_count s) (tss_esp0 s) (cr3 s) (fpu s) (esp s).
Definition set_current (v : Z) (s : sched) : sched :=
  mk_sched (procs s) (ready_queue s) (blocked_list s) (zombie_list s) v
    (foreground_process s) (tick_count s) (tss_esp0 s) (cr3 s) (fpu s) (esp s).
Definition set_fg (v : Z) (s : sched) : sched :=
  mk_sched (procs s) (ready_queue s) (blocked_list s) (zombie_list s) (current_process s)
    v (tick_count s) (tss_esp0 s) (cr3 s) (fpu s) (esp s).
Definition set_ticks (v : Z) (s : sched) : sched :=
  mk_sched (procs s) (ready_queue s) (blocked_list s) (zombie_list s) (current_process s)
    (foreground_process s) v (tss_esp0 s) (cr3 s) (fpu s) (esp s).
Definition set_hw (esp0 c3 : Z) (f : list Z) (sp : Z) (s : sched) : sched :=
  mk_sched (procs s) (ready_queue s) (blocked_list s) (zombie_list s) (current_process s)
    (foreground_process s) (tick_count s) esp0 c3 f sp.

Definition load (p : Z) : st sched process := fun s =>
  match procs s !! p with Some r => Some (r, s) | None => None end.
Definition store (p : Z) (f : process -> process) : st sched unit := fun s =>
  match procs s !! p with
  | Some r => Some (tt, set_procs (<[p := f r]> (procs s)) s)
  | None => None
  end.

Definition scheduler_init : st sched unit := modify (fun s => set_ticks 0 (set_ready 0 s)).

Definition scheduler_add (proc : Z) : st sched unit :=
  if proc =? 0 then ret tt
  else
    store proc (set_state PROCESS_READY) ;;
    let* rq := gets ready_queue in
    if rq =? 0 then
      store proc (set_next proc) ;;
      modify (set_ready proc)
    else
      let* head := load rq in
      store proc (set_next (p_next head)) ;;
      store rq (set_next proc).

(** A bound on the length of a list of processes. *)
Definition list_fuel (s : sched) : nat := S (size (procs s)).

(** [while (prev->next != proc && prev->next != ready_queue) prev = prev->next]. *)
Fixpoint find_prev (fuel : nat) (proc rq prev : Z) : st sched Z :=
  match fuel with
  | O => undef
  | S k =>
    let* r := load prev in
    if negb (p_next r =? proc) && negb (p_next r =? rq) then find_prev k proc rq (p_next r)
    else ret prev
  end.

Definition scheduler_remove (proc : Z) : st sched unit :=
  let* rq := gets ready_queue in
  if (proc =? 0) || (rq =? 0) then ret tt
  else
    let* fuel := gets list_fuel in
    let* prev := find_prev fuel proc rq rq in
    let* pr := load prev in
    if negb (p_next pr =? proc) then ret tt
    else
      let* r := load proc in
      store prev (set_next (p_next r)) ;;
      let* r := load proc in
      (if rq =? proc then modify (set_ready (if p_next r =? proc then 0 else p_next r)) else ret tt) ;;
      store proc (set_next 0).

(** [do ... while (p != ready_queue)]: the first process of the ring that satisfies
    a test, 0 if there is none. *)
Fixpoint find_ring (fuel : nat) (test : process -> bool) (rq p : Z) : st sched Z :=
  match fuel with
  | O => undef
  | S k =>
    let* r := load p in
    if test r then ret p
    else if p_next r =? rq then ret 0
    else find_ring k test rq (p_next r)
  end.

(** [for (p = head; p; p = p->next)]. *)
Fixpoint find_list (fuel : nat) (test : process -> bool) (p : Z) : st sched Z :=
  match fuel with
  | O => undef
  | S k =>
    if p =? 0 then ret 0
    else
      let* r := load p in
      if test r then ret p else find_list k test (p_next r)
  end.

Definition ring_search (test : process -> bool) : st sched Z :=
  let* rq := gets ready_queue in
  if rq =? 0 then ret 0
  else let* fuel := gets list_fuel in find_ring fuel test rq rq.

Definition blocked_search (test : process -> bool) : st sched Z :=
  let* b := gets blocked_list in
  let* fuel := gets list_fuel in
  find_list fuel test b.

Definition scheduler_find (pid : Z) : st sched Z := ring_search (fun r => p_pid r =? pid).

(** [scheduler_for_each] with a callback that folds over the processes. *)
Fixpoint for_each_ring {X} (fuel : nat) (fn : process -> X -> X) (rq p : Z) (x : X) : st sched X :=
  match fuel with
  | O => undef
  | S k =>
    let* r := load p in
    let x := fn r x in
    if p_next r =? rq then ret x else for_each_ring k fn rq (p_next r) x
  end.

Definition scheduler_for_each {X} (fn : process -> X -> X) (x : X) : st sched X :=
  let* rq := gets ready_queue in
  if rq =? 0 then ret x
  else let* fuel := gets list_fuel in for_each_ring fuel fn rq rq x.

Definition scheduler_block (reason target : Z) : st sched unit :=
  let* cur := gets current_process in
  if cur =? 0 then ret tt
  else store cur (fun r => set_block reason target (set_state PROCESS_BLOCKED r)).

(** [while (p && p->next != proc) p = p->next]. *)
Fixpoint find_before (fuel : nat) (proc p : Z) : st sched Z :=
  match fuel with
  | O => undef
  | S k =>
    if p =? 0 then ret 0
    else
      let* r := load p in
      if p_next r =? proc then ret p else find_before k proc (p_next r)
  end.

Definition scheduler_wake (proc : Z) : st sched unit :=
  if proc =? 0 then ret tt
  else
    let* r := load proc in
    if negb (p_state r =? PROCESS_BLOCKED) then ret tt
    else
      let* b := gets blocked_list in
      (if b =? proc then modify (set_blocked (p_next r))
       else
         let* fuel := gets list_fuel in
         let* p := find_before fuel proc b in
         if p =? 0 then ret tt else store p (set_next (p_next r))) ;;
      store proc (fun r => set_block BLOCK_NONE (p_wait_target r) (set_next 0 r)) ;;
      scheduler_add proc.

Definition scheduler_wake_waiter (parent_pid child_pid : Z) : st sched Z :=
  let* p := blocked_search (fun r =>
    (p_block_reason r =? BLOCK_WAIT) && (p_pid r =? parent_pid)
    && ((p_wait_target r =? 0) || (p_wait_target r =? child_pid))) in
  if p =? 0 then ret 0 else scheduler_wake p ;; ret p.

Definition scheduler_find_any (pid : Z) : st sched Z :=
  let* p := scheduler_find pid in
  if negb (p =? 0) then ret p else blocked_search (fun r => p_pid r =? pid).

Definition scheduler_has_child (parent_pid : Z) : st sched Z :=
  let* p := ring_search (fun r => p_parent_pid r =? parent_pid) in
  if negb (p =? 0) then ret 1
  else
    let* p := blocked_search (fun r => p_parent_pid r =? parent_pid) in
    if negb (p =? 0) then ret 1 else ret 0.

Definition process_zombie_add (proc : Z) : st sched unit :=
  let* z := gets zombie_list in
  store proc (set_next z) ;;
  modify (set_zombie proc).

(** The machine part of a switch: TSS, address space, FPU registers and stacks. *)
Definition switch_context (prev next : Z) : st sched unit :=
  let* n := load next in
  let* f := gets fpu in
  let* sp := gets esp in
  store prev (set_fpu f) ;;
  let* n := load next in
  store prev (set_esp sp) ;;
  modify (set_hw (p_kernel_stack_top n) (p_page_directory n) (p_fpu_state n) (p_esp n)).

Definition scheduler_switch : st sched unit :=
  let* rq := gets ready_queue in
  let* prev := gets current_process in
  if (rq =? 0) || (prev =? 0) then ret tt
  else
    let* head := load rq in
    let next := p_next head in
    if next =? prev then ret tt
    else
      modify (fun s => set_ready next (set_current next s)) ;;
      store next (set_state PROCESS_RUNNING) ;;
      let* r := load prev in
      (if p_state r =? PROCESS_DEAD then
         scheduler_remove prev ;;
         process_zombie_add prev
       else if p_state r =? PROCESS_BLOCKED then
         scheduler_remove prev ;;
         let* b := gets blocked_list in
         store prev (set_next b) ;;
         modify (set_blocked prev)
       else store prev (set_state PROCESS_READY)) ;;
      switch_context prev next.

Definition scheduler_tick : st sched unit :=
  let* rq := gets ready_queue in
  let* cur := gets current_process in
  if (rq =? 0) || (cur =? 0) then ret tt
  else
    modify (fun s => set_ticks (u32 (tick_count s + 1)) s) ;;
    let* t := gets tick_count in
    let* r := load cur in
    if (TIMESLICE <=? t) || (p_state r =? PROCESS_DEAD) then
      modify (set_ticks 0) ;;
      scheduler_switch
    else ret tt.

(** ** Sequences of scheduler calls made by the rest of the kernel *)

(** [scheduler_block(reason, target); scheduler_switch();] in the blocking calls. *)
Definition block_and_switch (reason target : Z) : st sched unit :=
  scheduler_block reason target ;;
  scheduler_switch.

(** The end of [process_exit]: [proc->state = PROCESS_DEAD; scheduler_switch();]. *)
Definition die_and_switch : st sched unit :=
  let* cur := gets current_process in
  store cur (set_state PROCESS_DEAD) ;;
  scheduler_switch.

(** [sys_kill_pid] once the process was found; the current process only gets the
    mark and leaves at the next tick. *)
Definition kill_proc (proc : Z) : st sched unit :=
  let* cur := gets current_process in
  if proc =? cur then store proc (set_state PROCESS_DEAD)
  else
    store proc (set_state PROCESS_DEAD) ;;
    scheduler_remove proc ;;
    process_zombie_add proc.

(** A new [process_t] at a fresh address, as [process_create] leaves it. *)
Definition new_process (p : Z) (r : process) (s : sched) : sched :=
  set_procs (<[p := set_state PROCESS_READY r]> (procs s)) s.

(** The list walk of [process_reap]: every zombie is freed. *)
Fixpoint reap_loop (fuel : nat) (l : Z) : st sched unit :=
  match fuel with
  | O => undef
  | S k =>
    if l =? 0 then ret tt
    else
      let* r := load l in
      modify (fun s => set_procs (delete l (procs s)) s) ;;
      reap_loop k (p_next r)
  end.

Definition reap_zombies : st sched unit :=
  let* l := gets zombie_list in
  let* fuel := gets list_fuel in
  modify (set_zombie 0) ;;
  reap_loop fuel l.

(** ** Linked lists of processes *)

(** [seg m p l q]: following [next] from [p] visits exactly [l] and arrives at [q]. *)
Fixpoint seg (m : gmap Z process) (p : Z) (l : list Z) (q : Z) : Prop :=
  match l with
  | [] => p = q
  | x :: l => p = x /\ x <> 0 /\ exists r, m !! x = Some r /\ seg m (p_next r) l q
  end.

Lemma seg_app m p l k q : seg m p (l ++ k) q <-> exists r, seg m p l r /\ seg m r k q.
Proof.
  revert p. induction l as [|x l IH]; intros p; simpl.
  - split; [eauto|]. by intros (r & <- & ?).
  - split.
    + intros (-> & H0 & r & Hr & H). apply IH in H as (a & H1 & H2). eauto 10.
    + intros (a & (-> & H0 & r & Hr & H1) & H2). repeat split; [done|]. exists r.
      split; [done|]. apply IH. eauto.
Qed.

Lemma seg_lookup m p l q x : seg m p l q -> x ∈ l -> exists r, m !! x = Some r /\ x <> 0.
Proof.
  revert p. induction l as [|y l IH]; intros p Hs Hx; [by apply not_elem_of_nil in Hx|].
  destruct Hs as (-> & H0 & r & Hr & Hs). apply elem_of_cons in Hx as [->|Hx]; eauto.
Qed.

Lemma seg_insert_ne m a v p l q : (a ∉ l) -> seg m p l q -> seg (<[a := v]> m) p l q.
Proof.
  revert p. induction l as [|x l IH]; intros p Ha Hs; [done|].
  apply not_elem_of_cons in Ha as [Hx Ha]. destruct Hs as (-> & H0 & r & Hr & Hs).
  repeat split; [done|]. exists r. rewrite lookup_insert_ne by done. auto.
Qed.

(** An update that keeps the link. *)
Lemma seg_keep m a r r' p l q :
  m !! a = Some r -> p_next r' = p_next r -> seg m p l q -> seg (<[a := r']> m) p l q.
Proof.
  intros Ha Hn. revert p. induction l as [|x l IH]; intros p Hs; [done|].
  destruct Hs as (-> & H0 & y & Hy & Hs). repeat split; [done|].
  destruct (decide (a = x)) as [->|Hne].
  - exists r'. rewrite lookup_insert_eq. split; [done|]. rewrite Hn.
    assert (y = r) as -> by congruence. auto.
  - exists y. rewrite lookup_insert_ne by done. auto.
Qed.

(** Redirecting the last link. *)
Lemma seg_relink m a r r' p l q q' :
  m !! a = Some r -> (a ∉ l) -> p_next r' = q' -> seg m p (l ++ [a]) q ->
  seg (<[a := r']> m) p (l ++ [a]) q'.
Proof.
  intros Ha Hl Hn Hs. apply seg_app in Hs as (b & H1 & -> & H0 & _).
  apply seg_app. exists a. split; [by apply seg_insert_ne|]. simpl. repeat split; [done|].
  exists r'. by rewrite lookup_insert_eq.
Qed.

Lemma seg_fuel m p l q : seg m p l q -> NoDup l -> (length l <= size m)%nat.
Proof.
  intros Hs Hnd. assert (list_to_set l ⊆ dom m) as Hsub.
  { intros x Hx. apply elem_of_list_to_set in Hx. apply (seg_lookup _ _ _ _ _ Hs) in Hx as (r & Hr & _).
    by apply elem_of_dom_2 in Hr. }
  apply subseteq_size in Hsub. rewrite size_list_to_set in Hsub by done. by rewrite size_dom in Hsub.
Qed.

(** ** The three queues *)

(** State [s] holds the ready ring [ring] (from its head on), the blocked list [blk]
    and the zombie list [zom]; no process is in two of them. *)
Record queues (s : sched) (ring blk zom : list Z) : Prop := {
  q_ring : if decide (ring = []) then ready_queue s = 0
           else seg (procs s) (ready_queue s) ring (ready_queue s);
  q_blk : seg (procs s) (blocked_list s) blk 0;
  q_zom : seg (procs s) (zombie_list s) zom 0;
  q_nodup : NoDup (ring ++ blk ++ zom)
}.

Lemma queues_ring s h t blk zom : queues s (h :: t) blk zom ->
  ready_queue s = h /\ h <> 0 /\ seg (procs s) h (h :: t) h.
Proof.
  intros [H _ _ _]. destruct (decide (h :: t = [])); [done|].
  pose proof H as (Hh & H0 & _). rewrite Hh in H. done.
Qed.

(** Stores that differ in links only. *)
Definition links_eq (m m' : gmap Z process) : Prop := set_next 0 <$> m = set_next 0 <$> m'.

#[global] Instance links_eq_equiv : Equivalence links_eq.
Proof. split; unfold links_eq; [done | by intros ? ? -> | by intros ? ? ? -> ->]. Qed.

Lemma links_eq_insert m m' p r r' :
  links_eq m m' -> set_next 0 r = set_next 0 r' -> links_eq (<[p := r]> m) (<[p := r']> m').
Proof. unfold links_eq. intros Hm Hr. by rewrite !fmap_insert, Hm, Hr. Qed.

Lemma links_eq_store m p r v : m !! p = Some r -> links_eq (<[p := set_next v r]> m) m.
Proof.
  unfold links_eq. intros Hp. rewrite fmap_insert. apply insert_id. by rewrite lookup_fmap, Hp.
Qed.

Lemma links_eq_lookup m m' p r : links_eq m m' -> m !! p = Some r ->
  exists r', m' !! p = Some r' /\ set_next 0 r' = set_next 0 r.
Proof.
  unfold links_eq. intros Hm Hp. assert ((set_next 0 <$> m) !! p = Some (set_next 0 r)) as H
    by (by rewrite lookup_fmap, Hp).
  rewrite Hm, lookup_fmap in H. destruct (m' !! p) as [r'|]; [|done]. simpl in H.
  exists r'. split; [done|]. congruence.
Qed.

Lemma load_ok s p r : procs s !! p = Some r -> load p s = Some (r, s).
Proof. unfold load. by intros ->. Qed.

Lemma store_ok s p f r : procs s !! p = Some r ->
  store p f s = Some (tt, set_procs (<[p := f r]> (procs s)) s).
Proof. unfold store. by intros ->. Qed.

(** A [store] that keeps every link keeps the queues. *)
Lemma queues_keep s p r r' ring blk zom :
  procs s !! p = Some r -> p_next r' = p_next r -> queues s ring blk zom ->
  queues (set_procs (<[p := r']> (procs s)) s) ring blk zom.
Proof.
  intros Hp Hn [H1 H2 H3 H4]. split; simpl; [| by eapply seg_keep | by eapply seg_keep | done].
  destruct (decide (ring = [])); [done|]. by eapply seg_keep.
Qed.

(** Run the next primitive of a goal whose lookups are known. *)
Ltac sstep :=
  match goal with
  | |- context [bind (gets _) _ _] => rewrite (bind_ok (gets _) _ _ _ _ eq_refl)
  | |- context [bind (modify _) _ _] => rewrite (bind_ok (modify _) _ _ _ _ eq_refl)
  | |- context [bind (ret _) _ _] => rewrite (bind_ok (ret _) _ _ _ _ eq_refl)
  | H : procs ?s !! ?p = Some ?r |- context [bind (load ?p) _ ?s] =>
      rewrite (bind_ok (load p) _ _ _ _ (load_ok s p r H))
  | H : procs ?s !! ?p = Some ?r |- context [bind (store ?p ?f) _ ?s] =>
      rewrite (bind_ok (store p f) _ _ _ _ (store_ok s p f r H))
  end.

(** [scheduler_add] of a process that is in no queue links it in behind the head. *)
Lemma scheduler_add_ok s p r ring blk zom :
  queues s ring blk zom -> procs s !! p = Some r -> p <> 0 -> (p ∉ ring ++ blk ++ zom) ->
  exists m q, scheduler_add p s = Some (tt, set_ready q (set_procs m s))
  /\ q = (match ring with [] => p | h :: _ => h end)
  /\ links_eq m (<[p := set_state PROCESS_READY r]> (procs s))
  /\ queues (set_ready q (set_procs m s))
       (match ring with [] => [p] | h :: t => h :: p :: t end) blk zom.
Proof.
  intros Hq Hp H0 Hnin. unfold scheduler_add. destruct (Z.eqb_spec p 0); [done|].
  repeat sstep. set (s1 := set_procs (<[p := set_state PROCESS_READY r]> (procs s)) s).
  assert (queues s1 ring blk zom) as Hq1 by (by eapply queues_keep).
  assert (procs s1 !! p = Some (set_state PROCESS_READY r)) as Hp1 by (simpl; apply lookup_insert_eq).
  clear Hq.
  rewrite !not_elem_of_app in Hnin. destruct Hnin as (N1 & N2 & N3).
  destruct ring as [|h t].
  - destruct Hq1 as [HR HB HZ HN]. rewrite decide_True in HR by done. rewrite HR, Z.eqb_refl. sstep.
    eexists _, p. split; [reflexivity|]. split; [done|]. split; [by apply links_eq_store|].
    split; simpl.
    + split; [done|]. split; [done|]. eexists. rewrite lookup_insert_eq. by split.
    + by apply seg_insert_ne.
    + by apply seg_insert_ne.
    + constructor; [|done]. by rewrite not_elem_of_app.
  - destruct (queues_ring _ _ _ _ _ Hq1) as (Hrq & Hh0 & Hseg). rewrite Hrq.
    destruct (Z.eqb_spec h 0); [done|]. destruct Hseg as (_ & _ & hr & Hhr & Hseg).
    do 2 sstep. apply not_elem_of_cons in N1 as [Hph N1].
    set (m2 := <[p := set_next (p_next hr) (set_state PROCESS_READY r)]> (procs s1)).
    assert (m2 !! h = Some hr) as Hh2 by (unfold m2; by rewrite lookup_insert_ne).
    rewrite (store_ok (set_procs m2 s1) h _ hr Hh2).
    destruct Hq1 as [HR HB HZ HN]. pose proof HN as HN'. simpl in HN'.
    apply NoDup_cons in HN' as [Hh HN']. rewrite !not_elem_of_app in Hh. destruct Hh as (Ht & Hb & Hz).
    exists (<[h := set_next p hr]> m2), h. split.
    { f_equal. f_equal. unfold set_ready, set_procs, s1. simpl. f_equal. simpl in Hrq. done. }
    split; [done|]. split.
    { transitivity m2; [by apply links_eq_store|]. by apply links_eq_store. }
    split; simpl.
    + split; [done|]. split; [done|]. exists (set_next p hr). rewrite lookup_insert_eq.
      split; [done|]. simpl. split; [done|]. split; [done|]. eexists.
      rewrite lookup_insert_ne by done. unfold m2 at 1. rewrite lookup_insert_eq.
      split; [done|]. simpl. apply seg_insert_ne; [done|]. by apply seg_insert_ne.
    + apply seg_insert_ne; [done|]. by apply seg_insert_ne.
    + apply seg_insert_ne; [done|]. by apply seg_insert_ne.
    + simpl in HN. apply NoDup_cons in HN as [Hh HN]. constructor.
      * rewrite elem_of_cons. naive_solver.
      * constructor; [by rewrite !not_elem_of_app|done].
Qed.

Lemma find_prev_ok s proc rq prev l y (fuel : nat) :
  seg (procs s) prev (l ++ [y]) proc ->
  (forall z, z ∈ tail (l ++ [y]) -> z <> proc /\ z <> rq) -> (length l < fuel)%nat ->
  find_prev fuel proc rq prev s = Some (y, s).
Proof.
  revert prev fuel. induction l as [|x l IH]; intros prev fuel Hs Hz Hf;
    (destruct fuel as [|fuel]; [simpl in Hf; lia|]); simpl in Hs;
    destruct Hs as (-> & H0 & r & Hr & Hs); cbn [find_prev]; sstep.
  - rewrite Hs, Z.eqb_refl. done.
  - simpl in Hz. destruct l as [|x' l].
    + destruct (Hz y) as [Hy1 Hy2]; [by apply list_elem_of_singleton|].
      simpl in Hs. destruct Hs as (Hn & Hs). rewrite Hn.
      destruct (Z.eqb_spec y proc); [done|]. destruct (Z.eqb_spec y rq); [done|]. simpl.
      apply (IH y fuel); [simpl; by split | simpl; intros z Hzz; by apply not_elem_of_nil in Hzz | simpl in *; lia].
    + destruct (Hz x') as [Hy1 Hy2]; [apply elem_of_cons; by left|].
      simpl in Hs. destruct Hs as (Hn & Hs). rewrite Hn.
      destruct (Z.eqb_spec x' proc); [done|]. destruct (Z.eqb_spec x' rq); [done|]. simpl.
      apply (IH x' fuel); [simpl; by split | simpl; intros z Hzz; apply Hz, elem_of_cons; by right | simpl in *; lia].
Qed.

(** Following a ring from one element round to the next. *)
Lemma seg_cut m p l1 y x l2 q : seg m p (l1 ++ y :: x :: l2) q ->
  seg m p (l1 ++ [y]) x /\ exists r, m !! x = Some r /\ x <> 0 /\ seg m (p_next r) l2 q.
Proof.
  rewrite seg_app. intros (a & H1 & -> & Hy0 & ry & Hy & Hn & Hx0 & rx & Hx & H2).
  split; [|eauto]. apply seg_app. exists y. split; [done|]. simpl. eauto 10.
Qed.

(** In a ring [l0 ++ y :: x :: l2] without duplicates that starts at [h], the entry [x]
    and its predecessor [y] occur nowhere else. *)
Lemma ring_apart h l1 x l2 l0 y (blk zom : list Z) : h :: l1 = l0 ++ [y] -> NoDup (l0 ++ y :: x :: l2 ++ blk ++ zom) ->
  x <> y /\ (x ∉ l0) /\ (x ∉ l2) /\ (y ∉ l0) /\ (y ∉ l2) /\ (h <> x)
  /\ (forall z, z ∈ tail (l0 ++ [y]) -> z <> x /\ z <> h)
  /\ (x ∉ blk) /\ (x ∉ zom) /\ (y ∉ blk) /\ (y ∉ zom).
Proof.
  intros Hl0 Hnd.
  replace (l0 ++ y :: x :: l2 ++ blk ++ zom) with ((l0 ++ [y]) ++ x :: (l2 ++ blk ++ zom)) in Hnd
    by (by rewrite <- app_assoc).
  apply NoDup_mid in Hnd as (X1 & X2 & Hnd). rewrite <- app_assoc in Hnd. simpl in Hnd.
  apply NoDup_mid in Hnd as (Y1 & Y2 & Hnd0). pose proof Hl0 as Hl0'.
  rewrite <- Hl0 in X1 |- *. simpl tail. apply not_elem_of_cons in X1 as [X0 X1].
  assert (x ∉ l0 ++ [y]) as X3 by (rewrite <- Hl0'; by rewrite not_elem_of_cons).
  rewrite not_elem_of_app, list_elem_of_singleton in X3. rewrite !not_elem_of_app in X2, Y2.
  assert (NoDup (h :: l1)) as Hndh.
  { rewrite Hl0'. apply NoDup_app in Hnd0 as (? & _). apply NoDup_app.
    split; [done|]. split; [|apply NoDup_singleton]. intros z Hz Hzy%list_elem_of_singleton. by subst z. }
  apply NoDup_cons in Hndh as [Hh _]. destruct X2 as (? & ? & ?), Y2 as (? & ? & ?), X3 as [? ?].
  do 5 (split; [done|]). split; [by intros ->|]. split; [|done].
  intros z Hz. split; intros ->; done.
Qed.

(** [scheduler_remove] of a process behind the head of the ring. *)
Lemma scheduler_remove_ok s h l1 x l2 blk zom :
  queues s (h :: l1 ++ x :: l2) blk zom ->
  exists m r, procs s !! x = Some r
  /\ scheduler_remove x s = Some (tt, set_procs m s)
  /\ links_eq m (procs s) /\ m !! x = Some (set_next 0 r)
  /\ queues (set_procs m s) (h :: l1 ++ l2) blk zom.
Proof.
  intros Hq. pose proof (queues_ring _ _ _ _ _ Hq) as (Hrq & Hh0 & Hseg).
  pose proof (q_nodup _ _ _ _ Hq) as Hnd.
  assert (exists l0 y, h :: l1 = l0 ++ [y]) as (l0 & y & Hl0).
  { destruct (exists_last (l := h :: l1)) as (l0 & y & E); [done|]. eauto. }
  assert (h :: l1 ++ x :: l2 = l0 ++ y :: x :: l2) as Hring.
  { change (h :: l1 ++ x :: l2) with ((h :: l1) ++ x :: l2). rewrite Hl0. by rewrite <- app_assoc. }
  assert (h :: l1 ++ l2 = l0 ++ y :: l2) as Hring'.
  { change (h :: l1 ++ l2) with ((h :: l1) ++ l2). rewrite Hl0. by rewrite <- app_assoc. }
  rewrite Hring in Hseg, Hnd. pose proof (seg_cut _ _ _ _ _ _ _ Hseg) as (Hpre & rx & Hx & Hx0 & Hpost).
  pose proof Hpre as Hy. apply seg_app in Hy as (y' & _ & -> & Hy0 & ry & Hy & Hny).
  rewrite <- !app_assoc in Hnd. simpl in Hnd.
  assert (x <> y /\ (x ∉ l0) /\ (x ∉ l2) /\ (y ∉ l0) /\ (y ∉ l2) /\ (h <> x)
    /\ (forall z, z ∈ tail (l0 ++ [y]) -> z <> x /\ z <> h)
    /\ (x ∉ blk) /\ (x ∉ zom) /\ (y ∉ blk) /\ (y ∉ zom)) as (N1 & N2 & N3 & N4 & N5 & N6 & N7 & N8 & N9 & N10 & N11)
    by (by eapply ring_apart).
  unfold scheduler_remove. do 1 sstep. rewrite Hrq.
  destruct (Z.eqb_spec x 0); [done|]. destruct (Z.eqb_spec h 0); [done|]. cbn [orb]. sstep.
  assert (length (h :: l1 ++ x :: l2) <= size (procs s))%nat as Hfuel.
  { eapply seg_fuel; [by rewrite Hring|]. apply (q_nodup) in Hq. by apply NoDup_app in Hq as (? & _). }
  rewrite (bind_ok _ _ _ _ _ (find_prev_ok s x h h l0 y (list_fuel s) Hpre N7
    ltac:(unfold list_fuel; rewrite Hring in Hfuel; rewrite length_app in Hfuel; simpl in Hfuel; lia))).
  sstep. rewrite Hny, Z.eqb_refl. cbn [negb]. do 2 sstep.
  set (m1 := <[y := set_next (p_next rx) ry]> (procs s)).
  assert (procs (set_procs m1 s) !! x = Some rx) as Hx1 by (simpl; unfold m1; by rewrite lookup_insert_ne).
  sstep. destruct (Z.eqb_spec h x); [done|]. sstep.
  rewrite (store_ok _ _ _ _ Hx1). simpl.
  exists (<[x := set_next 0 rx]> m1), rx. split; [done|]. split; [done|]. split.
  { transitivity m1; [by apply links_eq_store|]. by apply links_eq_store. }
  split; [apply lookup_insert_eq|].
  destruct Hq as [HR HB HZ HN]. split; cbn [procs ready_queue blocked_list zombie_list set_procs].
  - rewrite decide_False by done. rewrite Hrq, Hring'. apply seg_insert_ne.
    { rewrite elem_of_app, elem_of_cons. naive_solver. }
    apply seg_app. apply seg_app in Hpre as (y' & H1 & -> & _). exists y.
    split; [by apply seg_insert_ne|]. split; [done|]. split; [done|]. exists (set_next (p_next rx) ry).
    unfold m1. rewrite lookup_insert_eq. split; [done|]. by apply seg_insert_ne.
  - apply seg_insert_ne; [done|]. by apply seg_insert_ne.
  - apply seg_insert_ne; [done|]. by apply seg_insert_ne.
  - change (h :: (l1 ++ x :: l2) ++ blk ++ zom) with ((h :: l1 ++ x :: l2) ++ blk ++ zom) in HN.
    change (h :: (l1 ++ l2) ++ blk ++ zom) with ((h :: l1 ++ l2) ++ blk ++ zom).
    change (h :: l1 ++ x :: l2) with ((h :: l1) ++ x :: l2) in HN.
    change (h :: l1 ++ l2) with ((h :: l1) ++ l2).
    rewrite <- app_assoc in HN |- *. by apply NoDup_mid in HN as (_ & _ & ?).
Qed.

(** ** Moving a process between queues *)

Lemma queues_rotate s h n t blk zom : queues s (h :: n :: t) blk zom ->
  queues (set_ready n (set_current n s)) (n :: t ++ [h]) blk zom.
Proof.
  intros Hq. destruct (queues_ring _ _ _ _ _ Hq) as (Hrq & Hh0 & Hseg). destruct Hq as [HR HB HZ HN].
  split; [|done|done|].
  - rewrite decide_False by done. cbn [procs ready_queue set_ready set_current].
    change (n :: t ++ [h]) with ((n :: t) ++ [h]). apply seg_app. exists h.
    destruct Hseg as (_ & _ & r & Hr & Hs). simpl in Hs. destruct Hs as (Hn & Hs).
    split; [by split|]. simpl. split; [done|]. split; [done|]. exists r. by rewrite Hr.
  - simpl. rewrite (Permutation_app_comm t [h]). simpl. by rewrite Permutation_swap.
Qed.

Lemma queues_add_blocked s x r ring blk zom :
  queues s ring blk zom -> procs s !! x = Some r -> x <> 0 -> (x ∉ ring ++ blk ++ zom) ->
  queues (set_blocked x (set_procs (<[x := set_next (blocked_list s) r]> (procs s)) s)) ring (x :: blk) zom.
Proof.
  intros [HR HB HZ HN] Hx H0 Hn. pose proof Hn as Hn'. rewrite !not_elem_of_app in Hn.
  destruct Hn as (N1 & N2 & N3). split; cbn [procs ready_queue blocked_list zombie_list set_procs set_blocked].
  - destruct (decide (ring = [])); [done|]. by apply seg_insert_ne.
  - split; [done|]. split; [done|]. eexists. rewrite lookup_insert_eq. split; [done|]. by apply seg_insert_ne.
  - by apply seg_insert_ne.
  - simpl. rewrite <- Permutation_middle. by constructor.
Qed.

Lemma queues_add_zombie s x r ring blk zom :
  queues s ring blk zom -> procs s !! x = Some r -> x <> 0 -> (x ∉ ring ++ blk ++ zom) ->
  queues (set_zombie x (set_procs (<[x := set_next (zombie_list s) r]> (procs s)) s)) ring blk (x :: zom).
Proof.
  intros [HR HB HZ HN] Hx H0 Hn. pose proof Hn as Hn'. rewrite !not_elem_of_app in Hn.
  destruct Hn as (N1 & N2 & N3). split; cbn [procs ready_queue blocked_list zombie_list set_procs set_zombie].
  - destruct (decide (ring = [])); [done|]. by apply seg_insert_ne.
  - by apply seg_insert_ne.
  - split; [done|]. split; [done|]. eexists. rewrite lookup_insert_eq. split; [done|]. by apply seg_insert_ne.
  - simpl. rewrite app_assoc, <- Permutation_middle. constructor; [by rewrite <- app_assoc|].
    by rewrite <- app_assoc.
Qed.

(** ** The abstract scheduler *)

(** What a switch does to the queues when the running process is in state [st]. *)
Definition aswitch (st : Z) (q : list Z * list Z * list Z) : list Z * list Z * list Z :=
  match q with
  | (h :: n :: t, blk, zom) =>
    if st =? PROCESS_DEAD then (n :: t, blk, h :: zom)
    else if st =? PROCESS_BLOCKED then (n :: t, h :: blk, zom)
    else (n :: t ++ [h], blk, zom)
  | _ => q
  end.

Definition queues3 (s : sched) (q : list Z * list Z * list Z) : Prop := queues s q.1.1 q.1.2 q.2.

Definition stat (m : gmap Z process) (p : Z) : option Z := p_state <$> m !! p.

Lemma links_eq_proj {X} (f : process -> X) m m' p :
  (forall r, f (set_next 0 r) = f r) -> links_eq m m' -> f <$> m !! p = f <$> m' !! p.
Proof.
  intros Hf Hm. assert (forall k : gmap Z process, f <$> k !! p = f <$> (set_next 0 <$> k) !! p) as H.
  { intros k. rewrite lookup_fmap. destruct (k !! p); simpl; [by rewrite Hf|done]. }
  by rewrite H, Hm, <- H.
Qed.

Lemma links_eq_stat m m' p : links_eq m m' -> stat m p = stat m' p.
Proof. by apply links_eq_proj. Qed.

(** The record left behind for the process that is switched away from. *)
Definition parked (s : sched) (r : process) : process :=
  let st := p_state r in
  let r := if (st =? PROCESS_DEAD) || (st =? PROCESS_BLOCKED) then r else set_state PROCESS_READY r in
  set_esp (esp s) (set_fpu (fpu s) r).

(** The tail of [scheduler_switch], once [prev] has been put where it belongs: the
    machine context of [prev] is saved and that of [next] loaded. *)
Lemma switch_context_ok s m h n rn : n <> h -> m !! n = Some (set_state PROCESS_RUNNING rn) ->
  forall s3 r3 r4 q, queues3 s3 q -> procs s3 !! h = Some r3 ->
  set_next 0 r3 = set_next 0 r4 -> links_eq (procs s3) (<[h := r3]> m) ->
  current_process s3 = n -> foreground_process s3 = foreground_process s ->
  tick_count s3 = tick_count s -> fpu s3 = fpu s -> esp s3 = esp s ->
  exists s', switch_context h n s3 = Some (tt, s')
  /\ queues3 s' q /\ current_process s' = n
  /\ links_eq (procs s') (<[h := set_esp (esp s) (set_fpu (fpu s) r4)]> m)
  /\ foreground_process s' = foreground_process s /\ tick_count s' = tick_count s
  /\ tss_esp0 s' = p_kernel_stack_top rn /\ cr3 s' = p_page_directory rn
  /\ fpu s' = p_fpu_state rn /\ esp s' = p_esp rn.
Proof.
  intros Hne Hmn s3 r3 r4 q Hq3 Hh3 Hr34 Hl3 Hc3 Hf3 Ht3 Hfpu3 Hesp3.
  destruct (links_eq_lookup (<[h := r3]> m) (procs s3) n (set_state PROCESS_RUNNING rn)) as (n3 & Hn3 & En3).
  { by symmetry. }
  { by rewrite lookup_insert_ne. }
  unfold switch_context. do 4 sstep. set (s4 := set_procs (<[h:=set_fpu (fpu s3) r3]> (procs s3)) s3).
  assert (procs s4 !! n = Some n3) as Hn4 by (simpl; by rewrite lookup_insert_ne). sstep.
  assert (procs s4 !! h = Some (set_fpu (fpu s3) r3)) as Hh4 by (simpl; apply lookup_insert_eq). sstep.
  eexists. split; [reflexivity|].
  apply (queues_keep _ _ _ (set_fpu (fpu s3) r3)) with (1 := Hh3) in Hq3; [|done]. fold s4 in Hq3.
  apply (queues_keep _ _ _ (set_esp (esp s3) (set_fpu (fpu s3) r3))) with (1 := Hh4) in Hq3; [|done].
  split; [by destruct Hq3; split|]. split; [done|]. split.
  { simpl. rewrite insert_insert_eq, Hfpu3, Hesp3.
    assert (set_next 0 (set_esp (esp s) (set_fpu (fpu s) r3)) = set_next 0 (set_esp (esp s) (set_fpu (fpu s) r4))) as E34.
    { change (set_esp (esp s) (set_fpu (fpu s) (set_next 0 r3)) = set_esp (esp s) (set_fpu (fpu s) (set_next 0 r4))).
      by rewrite Hr34. }
    apply (links_eq_insert _ _ h _ _ Hl3) in E34. by rewrite insert_insert_eq in E34. }
  simpl. assert (forall X (f : process -> X), (forall r, f (set_next 0 r) = f r) -> f n3 = f (set_state PROCESS_RUNNING rn)) as Hf.
  { intros X f Hf. rewrite <- (Hf n3), En3. apply Hf. }
  rewrite (Hf _ p_kernel_stack_top), (Hf _ p_page_directory), (Hf _ p_fpu_state), (Hf _ p_esp) by done. done.
Qed.

Lemma scheduler_switch_ok s h n t blk zom rh rn :
  queues s (h :: n :: t) blk zom -> current_process s = h ->
  procs s !! h = Some rh -> procs s !! n = Some rn ->
  exists s', scheduler_switch s = Some (tt, s')
  /\ queues3 s' (aswitch (p_state rh) (h :: n :: t, blk, zom))
  /\ current_process s' = n
  /\ links_eq (procs s') (<[h := parked s rh]> (<[n := set_state PROCESS_RUNNING rn]> (procs s)))
  /\ foreground_process s' = foreground_process s /\ tick_count s' = tick_count s
  /\ tss_esp0 s' = p_kernel_stack_top rn /\ cr3 s' = p_page_directory rn
  /\ fpu s' = p_fpu_state rn /\ esp s' = p_esp rn.
Proof.
  intros Hq Hcur Hh Hn. pose proof (queues_ring _ _ _ _ _ Hq) as (Hrq & Hh0 & _).
  pose proof (q_nodup _ _ _ _ Hq) as Hnd. simpl in Hnd.
  apply NoDup_cons in Hnd as [Hhn Hnd]. pose proof Hhn as Hne.
  apply not_elem_of_cons in Hne as [Hne _].
  assert (n <> 0) as Hn0.
  { pose proof (q_ring _ _ _ _ Hq) as HR. rewrite decide_False in HR by done.
    eapply seg_lookup in HR as (? & _ & ?); [done|]. rewrite !elem_of_cons. auto. }
  unfold scheduler_switch. do 2 sstep. rewrite Hrq, Hcur.
  destruct (Z.eqb_spec h 0); [done|]. cbn [orb]. sstep.
  assert (p_next rh = n) as Hnext.
  { pose proof (q_ring _ _ _ _ Hq) as HR. rewrite decide_False in HR by done.
    destruct HR as (_ & _ & r & Hr & Hs). assert (r = rh) as -> by congruence. by destruct Hs as [<- _]. }
  rewrite Hnext. destruct (Z.eqb_spec n h); [done|]. sstep.
  apply queues_rotate in Hq. set (s1 := set_ready n (set_current n s)) in *.
  assert (procs s1 !! n = Some rn) as Hn1 by done. sstep.
  eapply (queues_keep _ _ _ (set_state PROCESS_RUNNING rn)) in Hq; [|exact Hn1|done].
  set (s2 := set_procs (<[n:=set_state PROCESS_RUNNING rn]> (procs s1)) s1) in *.
  assert (procs s2 !! h = Some rh) as Hh2 by (simpl; by rewrite lookup_insert_ne). sstep.
  assert (procs s2 !! n = Some (set_state PROCESS_RUNNING rn)) as Hn2 by apply lookup_insert_eq.
  assert (n <> h) as Hnh by done.
  pose proof (switch_context_ok s (procs s2) h n rn Hnh Hn2) as Htail.
  unfold parked, aswitch. destruct (Z.eqb_spec (p_state rh) PROCESS_DEAD) as [Hst|Hst].
  - destruct (scheduler_remove_ok s2 n t h [] blk zom Hq) as (m & r & Hr & E & Hlm & Hm & Hq3).
    assert (r = rh) as -> by congruence. rewrite app_nil_r in Hq3.
    rewrite (bind_ok _ _ s2 tt (set_zombie h (set_procs (<[h := set_next (zombie_list s2) (set_next 0 rh)]> m) s2))).
    2:{ rewrite (bind_ok _ _ _ _ _ E). unfold process_zombie_add. sstep.
        assert (procs (set_procs m s2) !! h = Some (set_next 0 rh)) as Hm' by done. by sstep. }
    eapply (Htail _ (set_next (zombie_list s2) (set_next 0 rh)) rh (n :: t, blk, h :: zom)); try done.
    + apply (queues_add_zombie (set_procs m s2) h (set_next 0 rh)); done.
    + simpl. apply lookup_insert_eq.
    + simpl. apply links_eq_insert; [|done]. by transitivity (procs s2).
  - destruct (Z.eqb_spec (p_state rh) PROCESS_BLOCKED) as [Hst2|Hst2].
    + destruct (scheduler_remove_ok s2 n t h [] blk zom Hq) as (m & r & Hr & E & Hlm & Hm & Hq3).
      assert (r = rh) as -> by congruence. rewrite app_nil_r in Hq3.
      rewrite (bind_ok _ _ s2 tt (set_blocked h (set_procs (<[h := set_next (blocked_list s2) (set_next 0 rh)]> m) s2))).
      2:{ rewrite (bind_ok _ _ _ _ _ E). sstep.
          assert (procs (set_procs m s2) !! h = Some (set_next 0 rh)) as Hm' by done. by sstep. }
      eapply (Htail _ (set_next (blocked_list s2) (set_next 0 rh)) rh (n :: t, h :: blk, zom)); try done.
      * apply (queues_add_blocked (set_procs m s2) h (set_next 0 rh)); done.
      * simpl. apply lookup_insert_eq.
      * simpl. apply links_eq_insert; [|done]. by transitivity (procs s2).
    + cbn [orb]. sstep. eapply (Htail _ (set_state PROCESS_READY rh) (set_state PROCESS_READY rh) (n :: t ++ [h], blk, zom)); try done.
      * by apply (queues_keep s2 h rh).
      * simpl. apply lookup_insert_eq.
Qed.

(** ** Waking *)

Lemma queues_insert_out s p r ring blk zom :
  (p ∉ ring ++ blk ++ zom) -> queues s ring blk zom ->
  queues (set_procs (<[p := r]> (procs s)) s) ring blk zom.
Proof.
  rewrite !not_elem_of_app. intros (N1 & N2 & N3) [HR HB HZ HN].
  split; cbn [procs ready_queue blocked_list zombie_list set_procs]; try done; try by apply seg_insert_ne.
  destruct (decide (ring = [])); [done|]. by apply seg_insert_ne.
Qed.

Lemma find_before_ok s proc p l y (fuel : nat) :
  seg (procs s) p (l ++ [y]) proc -> (forall z, z ∈ tail (l ++ [y]) -> z <> proc) ->
  (length l < fuel)%nat -> find_before fuel proc p s = Some (y, s).
Proof.
  revert p fuel. induction l as [|x l IH]; intros p fuel Hs Hz Hf;
    (destruct fuel as [|fuel]; [simpl in Hf; lia|]); simpl in Hs;
    destruct Hs as (-> & H0 & r & Hr & Hs); cbn [find_before].
  - destruct (Z.eqb_spec y 0); [done|]. sstep. by rewrite Hs, Z.eqb_refl.
  - destruct (Z.eqb_spec x 0); [done|]. sstep. simpl in Hz.
    assert (p_next r <> proc) as Hne.
    { destruct l as [|x' l]; simpl in Hs, Hz; destruct Hs as (-> & _); apply Hz, elem_of_cons; by left. }
    destruct (Z.eqb_spec (p_next r) proc); [done|]. apply IH; [done| |simpl in Hf; lia].
    intros z Hzz. apply Hz. destruct l; simpl in *; [by apply not_elem_of_nil in Hzz|].
    apply elem_of_cons. by right.
Qed.

(** Unlinking [p] from the blocked list. *)
Lemma unlink_blocked_ok s ring b1 p b2 zom r (k : unit -> st sched unit) :
  queues s ring (b1 ++ p :: b2) zom -> procs s !! p = Some r ->
  exists s', (let* b := gets blocked_list in
   (if b =? p then modify (set_blocked (p_next r))
    else
      let* fuel := gets list_fuel in
      let* q := find_before fuel p b in
      if q =? 0 then ret tt else store q (set_next (p_next r))) ;; k tt) s = k tt s'
  /\ queues s' ring (b1 ++ b2) zom /\ procs s' !! p = Some r /\ links_eq (procs s') (procs s)
  /\ exists b, s' = set_blocked b (set_procs (procs s') s).
Proof.
  intros Hq Hp. pose proof Hq as [HR HB HZ HN].
  pose proof (NoDup_mid (ring ++ b1) (b2 ++ zom) p) as Hmid. rewrite <- !app_assoc in Hmid.
  rewrite <- app_assoc in HN. simpl in HN. destruct (Hmid HN) as (N1 & N2 & HN').
  rewrite not_elem_of_app in N1, N2. destruct N1 as [N1 N3], N2 as [N2 N4]. clear Hmid.
  sstep. destruct b1 as [|x b1 _] using rev_ind.
  - simpl in HB. destruct HB as (Hb & H0 & r' & Hr' & HB). assert (r' = r) as -> by congruence.
    rewrite Hb, Z.eqb_refl. sstep. eexists. split; [reflexivity|]. split; [|done || eauto].
    { split; [done|done|done|]. done. }
    split; [done|]. split; [done|]. by eexists.
  - rewrite <- app_assoc in HB. simpl in HB. apply seg_cut in HB as (Hpre & r' & Hr' & H0 & Hpost).
    assert (r' = r) as -> by congruence.
    pose proof Hpre as Hx. apply seg_app in Hx as (x' & Hb1 & -> & Hx0 & rx & Hx & Hnx).
    rewrite not_elem_of_app, list_elem_of_singleton in N3. destruct N3 as [N3 Npx].
    assert (blocked_list s <> p) as Hbp.
    { destruct b1; simpl in Hpre; destruct Hpre as [-> _]; [congruence|].
      apply not_elem_of_cons in N3 as [? _]. congruence. }
    destruct (Z.eqb_spec (blocked_list s) p); [done|]. rewrite (bind_ok _ _ s tt
      (set_procs (<[x := set_next (p_next r) rx]> (procs s)) s)).
    2:{ sstep. erewrite bind_ok; [|apply (find_before_ok s p (blocked_list s) b1 x (list_fuel s) Hpre)].
        - destruct (Z.eqb_spec x 0); [done|]. by apply store_ok.
        - intros z Hz ->. assert (p ∈ b1 ++ [x]) as Hin.
          { destruct (b1 ++ [x]); [done|]. simpl in Hz. apply elem_of_cons. by right. }
          apply elem_of_app in Hin as [?|?%list_elem_of_singleton]; done.
        - unfold list_fuel. apply seg_fuel in Hpre; [rewrite length_app in Hpre; simpl in Hpre; lia|].
          apply NoDup_app in HN as (_ & _ & HN). by apply NoDup_app in HN as (? & _). }
    assert ((x ∉ ring) /\ (x ∉ b1) /\ (x ∉ b2) /\ (x ∉ zom)) as (X1 & X2 & X3 & X4).
    { rewrite <- app_assoc in HN'. simpl in HN'. rewrite app_assoc in HN'.
      apply NoDup_mid in HN' as (Y1 & Y2 & _). rewrite not_elem_of_app in Y1, Y2. naive_solver. }
    eexists. split; [reflexivity|]. split.
    { split; cbn [procs ready_queue blocked_list zombie_list set_procs].
      - destruct (decide (ring = [])); [done|]. by apply seg_insert_ne.
      - rewrite <- app_assoc. simpl. apply seg_app. exists x. split; [by apply seg_insert_ne|].
        split; [done|]. split; [done|]. eexists. rewrite lookup_insert_eq. split; [done|].
        by apply seg_insert_ne.
      - by apply seg_insert_ne.
      - revert HN'. rewrite <- !app_assoc. done. }
    split; [simpl; by rewrite lookup_insert_ne by congruence|]. split; [by apply links_eq_store|].
    by exists (blocked_list s).
Qed.

(** [scheduler_wake] moves a blocked process behind the head of the ring. *)
Lemma scheduler_wake_ok s h t b1 p b2 zom r :
  queues s (h :: t) (b1 ++ p :: b2) zom -> procs s !! p = Some r -> p_state r = PROCESS_BLOCKED ->
  exists s', scheduler_wake p s = Some (tt, s')
  /\ queues s' (h :: p :: t) (b1 ++ b2) zom
  /\ links_eq (procs s')
       (<[p := set_state PROCESS_READY (set_block BLOCK_NONE (p_wait_target r) r)]> (procs s))
  /\ exists b, s' = set_ready h (set_blocked b (set_procs (procs s') s)).
Proof.
  intros Hq Hp Hst. assert (p <> 0) as Hp0.
  { destruct Hq as [_ HB _ _]. by eapply seg_lookup in HB as (? & _ & ?); [|apply elem_of_mid]. }
  unfold scheduler_wake. destruct (Z.eqb_spec p 0); [done|]. sstep.
  rewrite Hst. change (PROCESS_BLOCKED =? PROCESS_BLOCKED) with true. cbn [negb].
  assert (p ∉ (h :: t) ++ (b1 ++ b2) ++ zom) as Hout.
  { pose proof (q_nodup _ _ _ _ Hq) as HN. rewrite <- app_assoc, app_assoc in HN. simpl in HN.
    change (h :: (t ++ b1) ++ p :: b2 ++ zom) with ((h :: t ++ b1) ++ p :: b2 ++ zom) in HN.
    apply NoDup_mid in HN as (N1 & N2 & _).
    rewrite <- (app_assoc b1 b2), app_assoc, not_elem_of_app. by split. }
  destruct (unlink_blocked_ok s (h :: t) b1 p b2 zom r (fun _ =>
    store p (fun r0 => set_block BLOCK_NONE (p_wait_target r0) (set_next 0 r0)) ;; scheduler_add p) Hq Hp)
    as (s1 & E & Hq1 & Hp1 & Hl1 & b & Hs1). rewrite E. clear E. sstep.
  set (r2 := set_block BLOCK_NONE (p_wait_target r) (set_next 0 r)) in *.
  assert (queues (set_procs (<[p:=r2]> (procs s1)) s1) (h :: t) (b1 ++ b2) zom) as Hq2
    by (by apply queues_insert_out).
  set (s2 := set_procs (<[p:=r2]> (procs s1)) s1) in *.
  destruct (scheduler_add_ok s2 p r2 (h :: t) (b1 ++ b2) zom Hq2) as (m & q & E & -> & Hl & Hq3);
    [apply lookup_insert_eq|done|done|].
  eexists. split; [exact E|]. split; [exact Hq3|]. split.
  - simpl. rewrite Hl. simpl. rewrite insert_insert_eq. apply links_eq_insert; [done|]. done.
  - exists b. subst s2. rewrite Hs1. done.
Qed.

(** ** The scheduling invariant *)

(** With kernel task [k]: the running process heads the ring, everyone behind it is
    READY, the blocked and zombie lists hold what their names say, every blocked
    process can be found there, and the kernel task stays runnable in the ring. *)
Record sched_inv (k : Z) (s : sched) (ring blk zom : list Z) : Prop := {
  si_q : queues s ring blk zom;
  si_cur : exists t, ring = current_process s :: t;
  si_head : exists v, stat (procs s) (current_process s) = Some v /\ v <> PROCESS_READY;
  si_tail : forall p, p ∈ tail ring -> stat (procs s) p = Some PROCESS_READY;
  si_blk : forall p, p ∈ blk -> stat (procs s) p = Some PROCESS_BLOCKED;
  si_zom : forall p, p ∈ zom -> stat (procs s) p = Some PROCESS_DEAD;
  si_all : forall p, stat (procs s) p = Some PROCESS_BLOCKED -> p ∈ blk \/ p = current_process s;
  si_kin : k ∈ ring;
  si_kst : stat (procs s) k <> Some PROCESS_BLOCKED /\ stat (procs s) k <> Some PROCESS_DEAD;
  si_tick : 0 <= tick_count s < TIMESLICE
}.

(** Between system calls the running process is not in the middle of blocking. *)
Definition sched_ok (k : Z) (s : sched) (ring blk zom : list Z) : Prop :=
  sched_inv k s ring blk zom /\ stat (procs s) (current_process s) <> Some PROCESS_BLOCKED.

Definition sched_ok3 (k : Z) (s : sched) (q : list Z * list Z * list Z) : Prop :=
  sched_ok k s q.1.1 q.1.2 q.2.

Lemma stat_lookup m p v : stat m p = Some v -> exists r, m !! p = Some r /\ p_state r = v.
Proof. unfold stat. destruct (m !! p) as [r|]; [|done]. simpl. intros [= <-]. eauto. Qed.

Lemma stat_insert m p r x : stat (<[p := r]> m) x = if decide (p = x) then Some (p_state r) else stat m x.
Proof. unfold stat. rewrite lookup_insert. by destruct (decide (p = x)). Qed.

(** The states of the processes after [scheduler_switch] from [h] to [n]. *)
Lemma switched_stat s s' h n rh rn : procs s !! h = Some rh ->
  links_eq (procs s') (<[h := parked s rh]> (<[n := set_state PROCESS_RUNNING rn]> (procs s))) -> forall x,
  stat (procs s') x =
    if decide (h = x) then Some (if (p_state rh =? PROCESS_DEAD) || (p_state rh =? PROCESS_BLOCKED) then p_state rh else PROCESS_READY)
    else if decide (n = x) then Some PROCESS_RUNNING else stat (procs s) x.
Proof.
  intros Hh Hl x. rewrite (links_eq_stat _ _ _ Hl), !stat_insert. destruct (decide (h = x)); [|done].
  unfold parked. destruct ((p_state rh =? PROCESS_DEAD) || (p_state rh =? PROCESS_BLOCKED)); done.
Qed.

(** Where a process of state [v] that leaves the processor is found afterwards. *)
Lemma aswitch_members v h n t blk zom :
  exists t' blk' zom', aswitch v (h :: n :: t, blk, zom) = (n :: t', blk', zom')
  /\ (forall x, x ∈ t' -> x ∈ t \/ x = h /\ v <> PROCESS_DEAD /\ v <> PROCESS_BLOCKED)
  /\ (forall x, x ∈ blk' -> x ∈ blk \/ x = h /\ v = PROCESS_BLOCKED)
  /\ (forall x, x ∈ zom' -> x ∈ zom \/ x = h /\ v = PROCESS_DEAD)
  /\ (forall x, x ∈ blk \/ x = h /\ v = PROCESS_BLOCKED -> x ∈ blk')
  /\ (forall x, x ∈ h :: n :: t -> v <> PROCESS_DEAD /\ v <> PROCESS_BLOCKED \/ x <> h -> x ∈ n :: t').
Proof.
  unfold aswitch. destruct (Z.eqb_spec v PROCESS_DEAD) as [->|Hd]; [|destruct (Z.eqb_spec v PROCESS_BLOCKED) as [->|Hb]];
    do 3 eexists; (split; [reflexivity|]); repeat setoid_rewrite elem_of_cons; repeat setoid_rewrite elem_of_app;
    repeat setoid_rewrite list_elem_of_singleton; naive_solver.
Qed.

Lemma sched_inv_switch k s h t blk zom rh :
  sched_inv k s (h :: t) blk zom -> procs s !! h = Some rh ->
  exists s', scheduler_switch s = Some (tt, s')
  /\ sched_ok3 k s' (aswitch (p_state rh) (h :: t, blk, zom)) /\ tick_count s' = tick_count s
  /\ current_process s' = default h (head t).
Proof.
  intros Hinv Hh. pose proof Hinv as [Hq (t' & Hring) (v & Hv & Hv0) Htail Hblk Hzom Hall Hkin Hk Htick].
  injection Hring as Hcur <-. rewrite <- Hcur in *.
  assert (p_state rh = v) as Hpv by (unfold stat in Hv; rewrite Hh in Hv; simpl in Hv; congruence).
  destruct t as [|n t].
  - (* the kernel task alone *)
    apply list_elem_of_singleton in Hkin as ->.
    destruct (queues_ring _ _ _ _ _ Hq) as (Hrq & Hh0 & _ & _ & r & Hr & Hn). simpl in Hn.
    assert (r = rh) as -> by congruence.
    exists s. split.
    { unfold scheduler_switch. do 2 sstep. rewrite Hrq, <- Hcur.
      destruct (Z.eqb_spec h 0); [done|]. cbn [orb]. sstep. by rewrite Hn, Z.eqb_refl. }
    split; [|done]. split; [exact Hinv|]. rewrite <- Hcur. apply Hk.
  - assert (exists rn, procs s !! n = Some rn) as (rn & Hn).
    { destruct (stat_lookup (procs s) n PROCESS_READY) as (rn & ? & _); [apply Htail, elem_of_cons; by left|]. eauto. }
    destruct (scheduler_switch_ok s h n t blk zom rh rn Hq) as (s' & E & Hq' & Hc' & Hl & _ & Ht' & _); [done..|].
    exists s'. split; [done|]. split; [|done].
    pose proof (q_nodup _ _ _ _ Hq) as Hnd. simpl in Hnd. apply NoDup_cons in Hnd as [Hh_out Hnd].
    apply not_elem_of_cons in Hh_out as [Hhn Hh_out]. rewrite !not_elem_of_app in Hh_out.
    apply NoDup_cons in Hnd as [Hn_out _]. rewrite !not_elem_of_app in Hn_out.
    destruct Hh_out as (H1 & H2 & H3), Hn_out as (H4 & H5 & H6).
    pose proof (switched_stat s s' h n rh rn Hh Hl) as Hst. rewrite Hpv in Hst, Hq' |- *.
    assert (forall x, x ∈ t \/ x ∈ blk \/ x ∈ zom -> stat (procs s') x = stat (procs s) x) as Hsame.
    { intros x Hx. rewrite Hst, decide_False, decide_False; [done|..]; naive_solver. }
    assert (stat (procs s') n = Some PROCESS_RUNNING) as Hsn by (by rewrite Hst, decide_False, decide_True).
    assert (stat (procs s') h = Some (if (v =? PROCESS_DEAD) || (v =? PROCESS_BLOCKED) then v else PROCESS_READY)) as Hsh
      by (by rewrite Hst, decide_True).
    destruct (aswitch_members v h n t blk zom) as (t' & blk' & zom' & Ea & Mt & Mb & Mz & Mb' & Mr).
    rewrite Ea in *. unfold queues3 in Hq'. unfold sched_ok3, sched_ok. rewrite Hc', Hsn. cbn [fst snd] in *. split; [|done].
    assert (v = PROCESS_DEAD \/ v = PROCESS_BLOCKED -> k <> h) as Hkh by (destruct Hk; intros [->| ->] ->; congruence).
    split; rewrite ?Hc', ?Ht'; try done; try by eauto.
    + intros x [Hx|(-> & Hd & Hb)]%Mt; [rewrite Hsame by auto; apply Htail, elem_of_cons; by right|].
      rewrite Hsh. by rewrite (proj2 (Z.eqb_neq _ _) Hd), (proj2 (Z.eqb_neq _ _) Hb).
    + intros x [Hx|(-> & Hb)]%Mb; [rewrite Hsame by auto; by apply Hblk|]. by rewrite Hsh, Hb.
    + intros x [Hx|(-> & Hd)]%Mz; [rewrite Hsame by auto; by apply Hzom|]. by rewrite Hsh, Hd.
    + intros x Hx. left. apply Mb'. revert Hx. rewrite Hst. destruct (decide (h = x)) as [->|].
      * destruct (Z.eqb_spec v PROCESS_DEAD) as [->|]; [done|]. destruct (Z.eqb_spec v PROCESS_BLOCKED); [by right|done].
      * destruct (decide (n = x)); [done|]. intros [?| ->]%Hall; [by left|done].
    + apply Mr; [done|]. destruct (decide (v = PROCESS_DEAD)), (decide (v = PROCESS_BLOCKED)); auto.
    + rewrite Hst. destruct (decide (h = k)) as [->|]; [|by destruct (decide (n = k))].
      destruct (Z.eqb_spec v PROCESS_DEAD); [naive_solver|]. destruct (Z.eqb_spec v PROCESS_BLOCKED); [naive_solver|done].
Qed.

(** ** Every kernel activity keeps the invariant *)

(** The running process marks itself BLOCKED or DEAD. *)
Lemma sched_inv_mark k s h t blk zom r r' :
  sched_ok k s (h :: t) blk zom -> procs s !! h = Some r -> h <> k ->
  p_next r' = p_next r -> p_state r' = PROCESS_BLOCKED \/ p_state r' = PROCESS_DEAD ->
  sched_inv k (set_procs (<[h := r']> (procs s)) s) (h :: t) blk zom.
Proof.
  intros [[Hq (t' & Hring) (v & Hv & Hv0) Htail Hblk Hzom Hall Hkin Hk Htick] _] Hh Hne Hn Hst.
  injection Hring as Hcur <-. pose proof (q_nodup _ _ _ _ Hq) as Hnd. simpl in Hnd.
  apply NoDup_cons in Hnd as [Hout _]. rewrite !not_elem_of_app in Hout. destruct Hout as (N1 & N2 & N3).
  assert (forall x, x <> h -> stat (<[h := r']> (procs s)) x = stat (procs s) x) as Hx.
  { intros x Hx. rewrite stat_insert. by rewrite decide_False by congruence. }
  split; cbn [procs current_process tick_count set_procs]; rewrite <- ?Hcur; try done.
  - by eapply queues_keep.
  - by exists t.
  - exists (p_state r'). rewrite stat_insert, decide_True by done. split; [done|].
    destruct Hst as [-> | ->]; done.
  - intros x Hxt. simpl in Hxt. rewrite Hx by congruence. by apply Htail.
  - intros x Hxt. rewrite Hx by congruence. by apply Hblk.
  - intros x Hxt. rewrite Hx by congruence. by apply Hzom.
  - intros x. rewrite stat_insert. destruct (decide (h = x)) as [->|]; [by right|].
    intros Hb. rewrite Hcur. by apply Hall.
  - by rewrite Hx by congruence.
Qed.

Lemma sched_ok_lookup k s ring blk zom p :
  sched_ok k s ring blk zom -> p ∈ ring ++ blk ++ zom -> exists r, procs s !! p = Some r /\ p <> 0.
Proof.
  intros [Hi _] Hp. pose proof (si_q _ _ _ _ _ Hi) as [HR HB HZ _]. destruct (si_cur _ _ _ _ _ Hi) as (t & ->).
  rewrite decide_False in HR by done. rewrite !elem_of_app in Hp. destruct Hp as [Hp|[Hp|Hp]].
  - eapply seg_lookup in HR; done.
  - eapply seg_lookup in HB; done.
  - eapply seg_lookup in HZ; done.
Qed.

Lemma sched_ok_head k s ring blk zom : sched_ok k s ring blk zom ->
  exists t r, ring = current_process s :: t /\ procs s !! current_process s = Some r
  /\ current_process s <> 0 /\ ready_queue s = current_process s
  /\ (p_state r = PROCESS_DEAD -> current_process s <> k).
Proof.
  intros Hok. pose proof Hok as [Hi _]. destruct (si_cur _ _ _ _ _ Hi) as (t & ->).
  destruct (sched_ok_lookup _ _ _ _ _ (current_process s) Hok) as (r & Hr & H0);
    [simpl; apply elem_of_cons; by left|].
  exists t, r. do 3 (split; [done|]). split; [by destruct (queues_ring _ _ _ _ _ (si_q _ _ _ _ _ Hi))|].
  intros Hd Hc. destruct (si_kst _ _ _ _ _ Hi) as [_ K]. apply K. unfold stat. rewrite <- Hc, Hr. simpl. by rewrite Hd.
Qed.

Lemma block_and_switch_ok k s h t blk zom reason target :
  sched_ok k s (h :: t) blk zom -> current_process s <> k ->
  exists s' n t', t = n :: t' /\ block_and_switch reason target s = Some (tt, s')
  /\ sched_ok k s' t (h :: blk) zom.
Proof.
  intros Hok Hk. destruct (sched_ok_head _ _ _ _ _ Hok) as (t0 & r & Hring & Hr & H0 & _).
  injection Hring as -> <-. set (h := current_process s) in *.
  unfold block_and_switch, scheduler_block. rewrite (bind_ok _ _ s tt
    (set_procs (<[h := set_block reason target (set_state PROCESS_BLOCKED r)]> (procs s)) s)).
  2:{ sstep. fold h. destruct (Z.eqb_spec h 0); [done|]. exact (store_ok s h _ r Hr). }
  assert (sched_inv k (set_procs (<[h := set_block reason target (set_state PROCESS_BLOCKED r)]> (procs s)) s)
    (h :: t) blk zom) as Hi by (eapply sched_inv_mark; try done; by left).
  destruct (sched_inv_switch _ _ _ _ _ _ _ Hi (lookup_insert_eq _ _ _)) as (s' & E & Hok' & _).
  destruct t as [|n t].
  { pose proof (si_kin _ _ _ _ _ Hi) as Hin. apply list_elem_of_singleton in Hin. by destruct Hk. }
  exists s', n, t. split; [done|]. split; [done|]. exact Hok'.
Qed.

Lemma die_and_switch_ok k s h t blk zom :
  sched_ok k s (h :: t) blk zom -> current_process s <> k ->
  exists s' n t', t = n :: t' /\ die_and_switch s = Some (tt, s') /\ sched_ok k s' t blk (h :: zom).
Proof.
  intros Hok Hk. destruct (sched_ok_head _ _ _ _ _ Hok) as (t0 & r & Hring & Hr & H0 & _).
  injection Hring as -> <-. set (h := current_process s) in *.
  unfold die_and_switch. do 2 sstep.
  assert (sched_inv k (set_procs (<[h := set_state PROCESS_DEAD r]> (procs s)) s)
    (h :: t) blk zom) as Hi by (eapply sched_inv_mark; try done; by right).
  destruct (sched_inv_switch _ _ _ _ _ _ _ Hi (lookup_insert_eq _ _ _)) as (s' & E & Hok' & _).
  destruct t as [|n t].
  { pose proof (si_kin _ _ _ _ _ Hi) as Hin. apply list_elem_of_singleton in Hin. by destruct Hk. }
  exists s', n, t. split; [done|]. split; [done|]. exact Hok'.
Qed.

Lemma scheduler_tick_ok k s ring blk zom : sched_ok k s ring blk zom ->
  exists s', scheduler_tick s = Some (tt, s') /\
  ((tick_count s + 1 < TIMESLICE /\ stat (procs s) (current_process s) <> Some PROCESS_DEAD
    /\ s' = set_ticks (tick_count s + 1) s /\ sched_ok k s' ring blk zom)
   \/ exists v, stat (procs s) (current_process s) = Some v /\ tick_count s' = 0
      /\ sched_ok3 k s' (aswitch v (ring, blk, zom))
      /\ current_process s' = default (current_process s) (head (tail ring))).
Proof.
  intros Hok. destruct (sched_ok_head _ _ _ _ _ Hok) as (t & r & -> & Hr & H0 & Hrq & _).
  pose proof Hok as [Hi Hnb]. pose proof (si_tick _ _ _ _ _ Hi) as Ht. unfold TIMESLICE in *.
  unfold scheduler_tick. do 2 sstep. rewrite Hrq. destruct (Z.eqb_spec (current_process s) 0); [done|].
  cbn [orb]. do 2 sstep. rewrite (u32_small (tick_count s + 1)) by (unfold is_u32; lia).
  set (s1 := set_ticks (tick_count s + 1) s).
  assert (procs s1 !! current_process s = Some r) as Hr1 by done. sstep.
  change (tick_count s1) with (tick_count s + 1).
  assert (stat (procs s) (current_process s) = Some (p_state r)) as Hst by (unfold stat; by rewrite Hr).
  destruct ((TIMESLICE <=? tick_count s + 1) || (p_state r =? PROCESS_DEAD)) eqn:Ec.
  - sstep. assert (sched_inv k (set_ticks 0 s1) (current_process s :: t) blk zom) as Hi1.
    { destruct Hi as [[? ? ? ?] ? ? ? ? ? ? ? ? ?]. split; try done. }
    destruct (sched_inv_switch _ _ _ _ _ _ r Hi1 Hr) as (s' & E & Hok' & Htc & Hcur). exists s'. split; [done|].
    right. exists (p_state r). done.
  - apply orb_false_iff in Ec as [Ec1 Ec2]. zbool. exists s1. split; [done|]. left. unfold TIMESLICE in *.
    split; [lia|]. split; [rewrite Hst; congruence|]. split; [done|]. split; [|done].
    destruct Hi as [[? ? ? ?] ? ? ? ? ? ? ? ? ?]. split; try done. simpl. unfold TIMESLICE. lia.
Qed.

(** The invariant survives a change of the store that keeps all states of queued
    processes and blocks nobody. *)
Lemma sched_ok_intro k s s' h t t' blk blk' zom zom' :
  sched_ok k s (h :: t) blk zom -> queues s' (h :: t') blk' zom' ->
  current_process s' = h -> tick_count s' = tick_count s ->
  stat (procs s') h = stat (procs s) h ->
  (forall p, p ∈ t' -> stat (procs s') p = Some PROCESS_READY) ->
  (forall p, p ∈ blk' -> stat (procs s') p = Some PROCESS_BLOCKED) ->
  (forall p, p ∈ zom' -> stat (procs s') p = Some PROCESS_DEAD) ->
  (forall p, stat (procs s') p = Some PROCESS_BLOCKED -> p ∈ blk') ->
  k ∈ h :: t' -> sched_ok k s' (h :: t') blk' zom'.
Proof.
  intros [Hi Hnb] Hq Hc Htc Hsh Ht Hb Hz Hall Hk. destruct (si_cur _ _ _ _ _ Hi) as (t0 & [= Hh <-]).
  rewrite <- Hh in *. split; [|by rewrite Hc, Hsh]. split; try done.
  - rewrite Hc. by exists t'.
  - rewrite Hc, Hsh. pose proof (si_head _ _ _ _ _ Hi) as H. by rewrite <- Hh in H.
  - intros p Hp. left. by apply Hall.
  - apply elem_of_cons in Hk as [->|Hk].
    + rewrite Hsh. apply (si_kst _ _ _ _ _ Hi).
    + by rewrite (Ht _ Hk).
  - rewrite Htc. apply (si_tick _ _ _ _ _ Hi).
Qed.

Lemma sched_ok_all k s h t blk zom p : sched_ok k s (h :: t) blk zom ->
  stat (procs s) p = Some PROCESS_BLOCKED -> p ∈ blk.
Proof. intros [Hi Hnb] Hp. destruct (si_all _ _ _ _ _ Hi p Hp) as [?| ->]; done. Qed.

Lemma scheduler_wake_keeps k s h t blk zom p r :
  sched_ok k s (h :: t) blk zom -> procs s !! p = Some r -> p <> 0 ->
  exists s', scheduler_wake p s = Some (tt, s') /\
  (p_state r <> PROCESS_BLOCKED /\ s' = s
   \/ exists b1 b2, blk = b1 ++ p :: b2 /\ sched_ok k s' (h :: p :: t) (b1 ++ b2) zom).
Proof.
  intros Hok Hr H0. pose proof Hok as [Hi Hnb].
  destruct (decide (p_state r = PROCESS_BLOCKED)) as [Hst|Hst].
  - assert (p ∈ blk) as Hin.
    { eapply sched_ok_all; [done|]. unfold stat. by rewrite Hr; simpl; rewrite Hst. }
    apply list_elem_of_split in Hin as (b1 & b2 & ->).
    destruct (scheduler_wake_ok s h t b1 p b2 zom r (si_q _ _ _ _ _ Hi) Hr Hst) as (s' & E & Hq & Hl & b & Hs').
    exists s'. split; [done|]. right. exists b1, b2. split; [done|].
    assert (forall x, stat (procs s') x = if decide (p = x) then Some PROCESS_READY else stat (procs s) x) as Hx.
    { intros x. by rewrite (links_eq_stat _ _ _ Hl), stat_insert. }
    pose proof (q_nodup _ _ _ _ Hq) as Hnd. simpl in Hnd. apply NoDup_cons in Hnd as [Hh Hnd].
    apply not_elem_of_cons in Hh as [Hhp _]. apply NoDup_cons in Hnd as [Hp _].
    rewrite !not_elem_of_app in Hp. destruct Hp as (P1 & (P2 & P3) & P4).
    eapply sched_ok_intro; try done.
    + rewrite Hs'. simpl. by destruct (si_cur _ _ _ _ _ Hi) as (? & [= ->]).
    + rewrite Hs'. done.
    + rewrite Hx. by rewrite decide_False by congruence.
    + intros x [->|Hxt]%elem_of_cons; rewrite Hx; [by rewrite decide_True|].
      rewrite decide_False by congruence. by apply (si_tail _ _ _ _ _ Hi).
    + intros x Hxb. rewrite Hx, decide_False.
      * by apply (si_blk _ _ _ _ _ Hi), elem_of_mid_l.
      * intros ->. apply elem_of_app in Hxb as [?|?]; done.
    + intros x Hxz. rewrite Hx, decide_False by congruence. by apply (si_zom _ _ _ _ _ Hi).
    + intros x. rewrite Hx. destruct (decide (p = x)); [done|]. intros Hb.
      pose proof (sched_ok_all _ _ _ _ _ _ _ Hok Hb) as Hin. apply (elem_of_mid_inv _ _ _ _ Hin). congruence.
    + apply elem_of_second, (si_kin _ _ _ _ _ Hi).
  - exists s. split; [|by left]. unfold scheduler_wake. destruct (Z.eqb_spec p 0); [done|]. sstep.
    by destruct (Z.eqb_spec (p_state r) PROCESS_BLOCKED).
Qed.

Lemma start_keeps k s h t blk zom p r :
  sched_ok k s (h :: t) blk zom -> procs s !! p = None -> p <> 0 ->
  exists s', scheduler_add p (new_process p r s) = Some (tt, s') /\ sched_ok k s' (h :: p :: t) blk zom.
Proof.
  intros Hok Hp H0. pose proof Hok as [Hi Hnb].
  assert (p ∉ (h :: t) ++ blk ++ zom) as Hout.
  { intros Hin. destruct (sched_ok_lookup _ _ _ _ _ _ Hok Hin) as (? & ? & _). congruence. }
  assert (queues (new_process p r s) (h :: t) blk zom) as Hq by (apply queues_insert_out; [done|apply Hi]).
  destruct (scheduler_add_ok (new_process p r s) p (set_state PROCESS_READY r) (h :: t) blk zom Hq)
    as (m & q & E & -> & Hl & Hq'); [apply lookup_insert_eq|done|done|].
  eexists. split; [exact E|].
  assert (forall x, stat m x = if decide (p = x) then Some PROCESS_READY else stat (procs s) x) as Hx.
  { intros x. rewrite (links_eq_stat _ _ _ Hl), stat_insert. simpl. rewrite stat_insert. by destruct (decide (p = x)). }
  simpl in Hout. apply not_elem_of_cons in Hout as [Hph Hout]. rewrite !not_elem_of_app in Hout.
  destruct Hout as (P1 & P2 & P3).
  eapply sched_ok_intro; try done; simpl.
  - by destruct (si_cur _ _ _ _ _ Hi) as (? & [= ->]).
  - rewrite Hx. by rewrite decide_False by congruence.
  - intros x [->|Hxt]%elem_of_cons; rewrite Hx; [by rewrite decide_True|].
    rewrite decide_False by congruence. by apply (si_tail _ _ _ _ _ Hi).
  - intros x Hxb. rewrite Hx, decide_False by congruence. by apply (si_blk _ _ _ _ _ Hi).
  - intros x Hxb. rewrite Hx, decide_False by congruence. by apply (si_zom _ _ _ _ _ Hi).
  - intros x. rewrite Hx. destruct (decide (p = x)); [done|]. by apply sched_ok_all with (1 := Hok).
  - apply elem_of_second, (si_kin _ _ _ _ _ Hi).
Qed.

(** Killing a process of the ring: the current one is only marked. *)
Lemma kill_proc_keeps k s ring blk zom p :
  sched_ok k s ring blk zom -> p ∈ ring -> p <> k ->
  exists s' ring' zom', kill_proc p s = Some (tt, s') /\ sched_ok k s' ring' blk zom'
  /\ (p = current_process s /\ ring' = ring /\ zom' = zom
      \/ exists l1 l2, ring = l1 ++ p :: l2 /\ ring' = l1 ++ l2 /\ zom' = p :: zom)
  /\ stat (procs s') p = Some PROCESS_DEAD.
Proof.
  intros Hok Hp Hk. destruct (sched_ok_head _ _ _ _ _ Hok) as (t & rc & -> & Hrc & Hc0 & Hrq & _).
  pose proof Hok as [Hi Hnb]. set (h := current_process s) in *.
  unfold kill_proc. sstep. fold h. destruct (Z.eqb_spec p h) as [->|Hph].
  - exists (set_procs (<[h := set_state PROCESS_DEAD rc]> (procs s)) s), (h :: t), zom.
    split; [by apply store_ok|]. split; [|split; [by left|simpl; by rewrite stat_insert, decide_True]]. split.
    + eapply sched_inv_mark; try done. by right.
    + simpl. fold h. rewrite stat_insert, decide_True by done. done.
  - apply elem_of_cons in Hp as [|Hp]; [done|]. apply list_elem_of_split in Hp as (l1 & l2 & ->).
    destruct (sched_ok_lookup _ _ _ _ _ p Hok) as (r & Hr & Hp0); [simpl; rewrite <- app_assoc; apply elem_of_cons; right; apply elem_of_mid|].
    sstep. set (s1 := set_procs (<[p := set_state PROCESS_DEAD r]> (procs s)) s).
    assert (queues s1 (h :: l1 ++ p :: l2) blk zom) as Hq1 by (eapply queues_keep; [done|done|apply Hi]).
    destruct (scheduler_remove_ok s1 h l1 p l2 blk zom Hq1) as (m & r1 & Hr1 & E & Hl & Hm & Hq2).
    rewrite (bind_ok _ _ _ _ _ E). unfold process_zombie_add. sstep.
    assert (procs (set_procs m s1) !! p = Some (set_next 0 r1)) as Hm' by done. sstep.
    assert (p ∉ (h :: l1 ++ l2) ++ blk ++ zom) as Hout.
    { pose proof (q_nodup _ _ _ _ Hq1) as Hnd.
      change ((h :: l1 ++ p :: l2) ++ blk ++ zom) with (h :: (l1 ++ p :: l2) ++ blk ++ zom) in Hnd.
      rewrite <- app_assoc in Hnd. simpl in Hnd.
      change (h :: l1 ++ p :: l2 ++ blk ++ zom) with ((h :: l1) ++ p :: l2 ++ blk ++ zom) in Hnd.
      apply NoDup_mid in Hnd as (N1 & N2 & _).
      change (h :: l1 ++ l2) with ((h :: l1) ++ l2). rewrite <- app_assoc, not_elem_of_app. by split. }
    eexists _, (h :: l1 ++ l2), (p :: zom). split; [reflexivity|].
    assert (r1 = set_state PROCESS_DEAD r) as -> by (simpl in Hr1; rewrite lookup_insert_eq in Hr1; congruence).
    assert (forall x, stat (<[p := set_next (zombie_list (set_procs m s1)) (set_next 0 (set_state PROCESS_DEAD r))]> m) x
      = if decide (p = x) then Some PROCESS_DEAD else stat (procs s) x) as Hx.
    { intros x. rewrite stat_insert, (links_eq_stat _ _ _ Hl). simpl. rewrite stat_insert. by destruct (decide (p = x)). }
    split; [|split; [right; by exists (h :: l1), l2|simpl; rewrite Hx; by rewrite decide_True]].
    pose proof Hout as Hout'. rewrite not_elem_of_app, not_elem_of_cons, !not_elem_of_app in Hout'.
    destruct Hout' as ((_ & N1 & N2) & N3 & N4).
    eapply sched_ok_intro; try done.
    + apply (queues_add_zombie (set_procs m s1) p (set_next 0 (set_state PROCESS_DEAD r))); done.
    + cbn [procs set_zombie set_procs]. rewrite Hx. by rewrite decide_False by congruence.
    + cbn [procs set_zombie set_procs]. intros x Hxt. rewrite Hx, decide_False.
      * by apply (si_tail _ _ _ _ _ Hi), elem_of_mid_l.
      * intros ->. apply elem_of_app in Hxt as [?|?]; done.
    + cbn [procs set_zombie set_procs]. intros x Hxb. rewrite Hx, decide_False by congruence. by apply (si_blk _ _ _ _ _ Hi).
    + cbn [procs set_zombie set_procs]. intros x [->|Hxz]%elem_of_cons; rewrite Hx; [by rewrite decide_True|].
      rewrite decide_False by congruence. by apply (si_zom _ _ _ _ _ Hi).
    + cbn [procs set_zombie set_procs]. intros x. rewrite Hx. destruct (decide (p = x)); [done|].
      by apply sched_ok_all with (1 := Hok).
    + pose proof (si_kin _ _ _ _ _ Hi) as Hkin. apply (elem_of_mid_inv (h :: l1) l2 k p Hkin). congruence.
Qed.

Lemma seg_delete_ne m x p l q : (x ∉ l) -> seg m p l q -> seg (delete x m) p l q.
Proof.
  revert p. induction l as [|y l IH]; intros p Hx Hs; [done|].
  apply not_elem_of_cons in Hx as [Hxy Hx]. destruct Hs as (-> & H0 & r & Hr & Hs).
  split; [done|]. split; [done|]. exists r. rewrite lookup_delete_ne by done. auto.
Qed.

Lemma reap_loop_ok k s h t blk zom (fuel : nat) l :
  sched_ok k s (h :: t) blk [] -> seg (procs s) l zom 0 -> NoDup ((h :: t) ++ blk ++ zom) ->
  (length zom < fuel)%nat -> (forall p, p ∈ zom -> stat (procs s) p <> Some PROCESS_BLOCKED) ->
  exists s', reap_loop fuel l s = Some (tt, s') /\ sched_ok k s' (h :: t) blk []
  /\ forall p, procs s' !! p = if decide (p ∈ zom) then None else procs s !! p.
Proof.
  revert s l fuel. induction zom as [|z zom IH]; intros s l fuel Hok Hs Hnd Hf Hz;
    (destruct fuel as [|fuel]; [simpl in Hf; lia|]); cbn [reap_loop].
  - simpl in Hs. subst l. rewrite Z.eqb_refl. exists s. split; [done|]. split; [done|]. intros p.
    rewrite decide_False; [done|]. apply not_elem_of_nil.
  - destruct Hs as (-> & H0 & r & Hr & Hs). destruct (Z.eqb_spec z 0); [done|]. do 2 sstep.
    assert ((z ∉ (h :: t) ++ blk) /\ (z ∉ zom) /\ NoDup ((h :: t) ++ blk ++ zom)) as (N1 & N2 & Hnd').
    { rewrite app_assoc in Hnd. apply NoDup_mid in Hnd. by rewrite <- app_assoc in Hnd. }
    rewrite not_elem_of_app in N1. destruct N1 as [N1 N3].
    set (s1 := set_procs (delete z (procs s)) s).
    assert (forall x, x <> z -> stat (procs s1) x = stat (procs s) x) as Hx.
    { intros x Hx. unfold stat. simpl. by rewrite lookup_delete_ne by congruence. }
    pose proof Hok as [Hi _]. destruct (IH s1 (p_next r) fuel) as (s' & E & Hok' & Hlk).
    + eapply sched_ok_intro; try done.
      * destruct (si_q _ _ _ _ _ Hi) as [HR HB HZ HN]. split; [|by apply seg_delete_ne|done|done].
        rewrite decide_False in HR |- * by done. by apply seg_delete_ne.
      * by destruct (si_cur _ _ _ _ _ Hi) as (? & [= ->]).
      * apply Hx. intros ->. apply N1, elem_of_cons. by left.
      * intros x Hxt. rewrite Hx; [by apply (si_tail _ _ _ _ _ Hi)|]. intros ->. apply N1, elem_of_cons. by right.
      * intros x Hxt. rewrite Hx; [by apply (si_blk _ _ _ _ _ Hi)|]. by intros ->.
      * intros x Hxt. by apply not_elem_of_nil in Hxt.
      * intros x Hb. eapply sched_ok_all; [exact Hok|]. unfold stat in *. simpl in Hb.
        rewrite lookup_delete in Hb. by destruct (decide (z = x)).
      * apply (si_kin _ _ _ _ _ Hi).
    + simpl. by apply seg_delete_ne.
    + done.
    + simpl in Hf. lia.
    + intros p Hp. rewrite Hx by congruence. apply Hz, elem_of_cons. by right.
    + exists s'. split; [done|]. split; [done|]. intros p. rewrite Hlk. simpl. rewrite lookup_delete.
      destruct (decide (p ∈ zom)) as [Hin|Hin].
      * by rewrite decide_True by (apply elem_of_cons; by right).
      * destruct (decide (z = p)) as [->|]; [by rewrite decide_True by (apply elem_of_cons; by left)|].
        rewrite decide_False; [done|]. apply not_elem_of_cons. split; [congruence|done].
Qed.

Lemma reap_zombies_ok k s h t blk zom : sched_ok k s (h :: t) blk zom ->
  exists s', reap_zombies s = Some (tt, s') /\ sched_ok k s' (h :: t) blk []
  /\ forall p, procs s' !! p = if decide (p ∈ zom) then None else procs s !! p.
Proof.
  intros Hok. pose proof Hok as [Hi _]. unfold reap_zombies. do 3 sstep.
  destruct (si_q _ _ _ _ _ Hi) as [HR HB HZ HN].
  apply (reap_loop_ok k (set_zombie 0 s) h t blk zom (list_fuel s) (zombie_list s)); try done.
  - eapply sched_ok_intro; try done.
    + split; try done. rewrite app_nil_r. rewrite app_assoc in HN. by apply NoDup_app in HN as (? & _).
    + by destruct (si_cur _ _ _ _ _ Hi) as (? & [= ->]).
    + apply (si_tail _ _ _ _ _ Hi).
    + apply (si_blk _ _ _ _ _ Hi).
    + intros p Hp. by apply not_elem_of_nil in Hp.
    + intros p Hp. by eapply sched_ok_all.
    + apply (si_kin _ _ _ _ _ Hi).
  - unfold list_fuel. apply seg_fuel in HZ; [lia|]. rewrite app_assoc in HN. by apply NoDup_app in HN as (_ & _ & ?).
  - intros p Hp. simpl. by rewrite (si_zom _ _ _ _ _ Hi p Hp).
Qed.

End Sched.
