(* ===== verification/SchedProps.v ===== *)
(** * What the scheduler guarantees

    The searches over the queues, boot, the step relation of everything the kernel
    does to the queues, and the properties of its runs: safety of every reachable
    state, round-robin progress and preservation of each process's context. *)

From S2P Require Import Prelude Sched.

Module SchedProps.

Import Proc Sched.

(** ** Boot *)

Definition closed_fd : file_desc := mk_fd FD_NONE 0 0 0 0 0 0 0 0.
Definition set_kind (v : Z) (f : file_desc) : file_desc :=
  mk_fd v (fd_writable f) (fd_wbuf f) (fd_pipe f) (fd_first_cluster f) (fd_cur_cluster f)
    (fd_cluster_offset f) (fd_pos f) (fd_size f).

(** [fd_init_std]: every slot is cleared, then the standard streams are opened; the
    read-position fields keep what was there. *)
Definition fd_init_std (fds : list file_desc) : list file_desc :=
  imap (fun i f =>
    set_kind (if (i =? 0)%nat then FD_TTY_IN else if (i <=? 2)%nat then FD_TTY_OUT else FD_NONE)
      (mk_fd FD_NONE 0 0 0 (fd_first_cluster f) (fd_cur_cluster f) (fd_cluster_offset f)
         (fd_pos f) (fd_size f))) fds.

(** The statically allocated [kernel_task] at address [k], as [process_init] fills it;
    what it does not set is zero from .bss. *)
Definition kernel_task (boot_page_directory stack_top : Z) : process :=
  mk_process 0 PROCESS_RUNNING 0 boot_page_directory 0 stack_top 0 0 0 BLOCK_NONE 0 0 0
    (replicate 108 0) (fd_init_std (replicate MAX_FDS closed_fd)) 0.

Definition process_init (k boot_page_directory stack_top : Z) : st sched unit :=
  modify (fun s => set_procs (<[k := kernel_task boot_page_directory stack_top]> (procs s))
                     (set_zombie 0 (set_fg 0 (set_current k s)))) ;;
  scheduler_add k ;;
  store k (set_state PROCESS_RUNNING).

(** Memory at power-on: all of .bss is zero. *)
Definition bss : sched := mk_sched ∅ 0 0 0 0 0 0 0 0 [] 0.

Lemma process_init_ok k dir top : k <> 0 ->
  exists s, process_init k dir top bss = Some (tt, s) /\ sched_ok k s [k] [] [].
Proof.
  intros Hk. unfold process_init. sstep.
  set (s0 := set_procs _ _).
  assert (queues s0 [] [] []) as Hq by (split; simpl; [done..|constructor]).
  destruct (scheduler_add_ok s0 k (kernel_task dir top) [] [] [] Hq) as (m & q & E & -> & Hl & Hq');
    [simpl; apply lookup_insert_eq|done|by apply not_elem_of_nil|].
  rewrite (bind_ok _ _ _ _ _ E).
  destruct (links_eq_lookup (<[k := set_state PROCESS_READY (kernel_task dir top)]> (procs s0)) m k
    (set_state PROCESS_READY (kernel_task dir top))) as (r & Hr & Er); [by symmetry|apply lookup_insert_eq|].
  exists (set_procs (<[k := set_state PROCESS_RUNNING r]> m) (set_ready k (set_procs m s0))).
  split; [by apply store_ok|].
  assert (forall x, stat (<[k := set_state PROCESS_RUNNING r]> m) x
    = if decide (k = x) then Some PROCESS_RUNNING else None) as Hx.
  { intros x. rewrite stat_insert. destruct (decide (k = x)); [done|].
    rewrite (links_eq_stat _ _ _ Hl), stat_insert. simpl. rewrite decide_False by done.
    unfold stat. by rewrite insert_empty, lookup_singleton_ne. }
  apply (queues_keep _ k r (set_state PROCESS_RUNNING r)) in Hq'; [|done|done].
  split; [split|]; cbn [procs current_process tick_count set_procs set_ready]; try done.
  - by exists [].
  - exists PROCESS_RUNNING. by rewrite Hx, decide_True.
  - intros p Hp. by apply not_elem_of_nil in Hp.
  - intros p Hp. by apply not_elem_of_nil in Hp.
  - intros p Hp. by apply not_elem_of_nil in Hp.
  - intros p. rewrite Hx. by destruct (decide (k = p)).
  - by apply list_elem_of_singleton.
  - by rewrite Hx, decide_True.
  - simpl. by rewrite Hx, decide_True.
Qed.

(** ** Searches *)

Lemma find_ring_ok s test rq l p (fuel : nat) :
  seg (procs s) p l rq -> l <> [] -> (rq ∉ tail l) -> (length l <= fuel)%nat ->
  exists q, find_ring fuel test rq p s = Some (q, s)
  /\ (q = 0 /\ (forall x r, x ∈ l -> procs s !! x = Some r -> test r = false)
      \/ q ∈ l /\ exists r, procs s !! q = Some r /\ test r = true).
Proof.
  revert p fuel. induction l as [|x l IH]; intros p fuel Hs Hne Hrq Hf; [done|].
  destruct fuel as [|fuel]; [simpl in Hf; lia|].
  destruct Hs as (-> & H0 & r & Hr & Hs). cbn [find_ring]. sstep.
  destruct (test r) eqn:Et.
  - exists x. split; [done|]. right. split; [apply elem_of_cons; by left|]. eauto.
  - simpl in Hrq. destruct (Z.eqb_spec (p_next r) rq) as [Hn|Hn].
    + exists 0. split; [done|]. left. split; [done|]. intros y ry Hy Hry.
      assert (l = []) as ->.
      { destruct l as [|y' l]; [done|]. destruct Hs as [Hy' _]. rewrite Hn in Hy'. subst y'.
        exfalso. apply Hrq, elem_of_cons. by left. }
      apply list_elem_of_singleton in Hy as ->. congruence.
    + destruct l as [|y' l]; [simpl in Hs; congruence|].
      destruct (IH (p_next r) fuel Hs) as (q & E & Hq); [done| |simpl in *; lia|].
      { intros Hin. apply Hrq. simpl in Hin. apply elem_of_cons. by right. }
      exists q. split; [done|]. destruct Hq as [[-> Hall]|[Hq Hr']].
      * left. split; [done|]. intros z rz [->|Hz]%elem_of_cons Hrz; [congruence|by eapply Hall].
      * right. split; [apply elem_of_cons; by right|done].
Qed.

Lemma find_list_ok s test l p (fuel : nat) :
  seg (procs s) p l 0 -> (length l < fuel)%nat ->
  exists q, find_list fuel test p s = Some (q, s)
  /\ (q = 0 /\ (forall x r, x ∈ l -> procs s !! x = Some r -> test r = false)
      \/ q ∈ l /\ exists r, procs s !! q = Some r /\ test r = true).
Proof.
  revert p fuel. induction l as [|x l IH]; intros p fuel Hs Hf;
    (destruct fuel as [|fuel]; [simpl in Hf; lia|]); cbn [find_list].
  - simpl in Hs. subst p. rewrite Z.eqb_refl. exists 0. split; [done|]. left. split; [done|].
    intros x r Hx. by apply not_elem_of_nil in Hx.
  - destruct Hs as (-> & H0 & r & Hr & Hs). destruct (Z.eqb_spec x 0); [done|]. sstep.
    destruct (test r) eqn:Et.
    + exists x. split; [done|]. right. split; [apply elem_of_cons; by left|]. eauto.
    + destruct (IH (p_next r) fuel Hs) as (q & E & Hq); [simpl in Hf; lia|].
      exists q. split; [done|]. destruct Hq as [[-> Hall]|[Hq Hr']].
      * left. split; [done|]. intros z rz [->|Hz]%elem_of_cons Hrz; [congruence|by eapply Hall].
      * right. split; [apply elem_of_cons; by right|done].
Qed.

(** Result of a search of [l] for [test]: 0 exactly when nothing there passes. *)
Definition found (s : sched) (test : process -> bool) (l : list Z) (q : Z) : Prop :=
  q = 0 /\ (forall x r, x ∈ l -> procs s !! x = Some r -> test r = false)
  \/ q <> 0 /\ q ∈ l /\ exists r, procs s !! q = Some r /\ test r = true.

Lemma ring_search_ok k s ring blk zom test : sched_ok k s ring blk zom ->
  exists q, ring_search test s = Some (q, s) /\ found s test ring q.
Proof.
  intros Hok. destruct (sched_ok_head _ _ _ _ _ Hok) as (t & r & -> & Hr & H0 & Hrq & _).
  pose proof Hok as [Hi _]. pose proof (si_q _ _ _ _ _ Hi) as Hq.
  destruct (queues_ring _ _ _ _ _ Hq) as (_ & _ & Hseg). pose proof (q_nodup _ _ _ _ Hq) as Hnd.
  apply NoDup_app in Hnd as (Hnd & _).
  unfold ring_search. sstep. rewrite Hrq. destruct (Z.eqb_spec (current_process s) 0); [done|]. sstep.
  destruct (find_ring_ok s test _ _ _ (list_fuel s) Hseg) as (q & E & Hq'); [done| | |].
  { simpl. by apply NoDup_cons in Hnd as [? _]. }
  { unfold list_fuel. apply seg_fuel in Hseg; [simpl in *; lia|done]. }
  exists q. split; [done|]. destruct Hq' as [?|[Hq' ?]]; [by left|]. right.
  split; [|done]. destruct (sched_ok_lookup _ _ _ _ _ q Hok) as (? & _ & ?); [apply elem_of_app; by left|done].
Qed.

Lemma blocked_search_ok k s ring blk zom test : sched_ok k s ring blk zom ->
  exists q, blocked_search test s = Some (q, s) /\ found s test blk q.
Proof.
  intros Hok. pose proof Hok as [Hi _]. destruct (si_q _ _ _ _ _ Hi) as [_ HB _ Hnd].
  unfold blocked_search. do 2 sstep.
  destruct (find_list_ok s test blk (blocked_list s) (list_fuel s) HB) as (q & E & Hq).
  { unfold list_fuel. apply seg_fuel in HB; [lia|]. apply NoDup_app in Hnd as (_ & _ & Hnd).
    by apply NoDup_app in Hnd as (? & _). }
  exists q. split; [done|]. destruct Hq as [?|[Hq ?]]; [by left|]. right. split; [|done].
  destruct (sched_ok_lookup _ _ _ _ _ q Hok) as (? & _ & ?); [rewrite !elem_of_app; auto|done].
Qed.

(** ** Runs *)

(** Everything the kernel does to the queues between two points where interrupts may
    arrive: timer ticks, blocking calls, wake-ups, new processes, exits, kills and
    reaping. *)
Inductive step (k : Z) : sched -> sched -> Prop :=
| step_tick s s' : scheduler_tick s = Some (tt, s') -> step k s s'
| step_block s s' reason target :
    current_process s <> k -> block_and_switch reason target s = Some (tt, s') -> step k s s'
| step_wake s s' p r :
    procs s !! p = Some r -> p <> 0 -> scheduler_wake p s = Some (tt, s') -> step k s s'
| step_start s s' p r :
    procs s !! p = None -> p <> 0 -> scheduler_add p (new_process p r s) = Some (tt, s') -> step k s s'
| step_exit s s' :
    current_process s <> k -> die_and_switch s = Some (tt, s') -> step k s s'
| step_kill s s1 s' pid p :
    scheduler_find pid s = Some (p, s1) -> p <> 0 -> p <> k ->
    kill_proc p s1 = Some (tt, s') -> step k s s'
| step_reap s s' : reap_zombies s = Some (tt, s') -> step k s s'.

(** States reachable from boot with the kernel task at [k]. *)
Inductive reachable (k : Z) : sched -> Prop :=
| reach_boot dir top s : process_init k dir top bss = Some (tt, s) -> reachable k s
| reach_step s s' : reachable k s -> step k s s' -> reachable k s'.

Lemma reachable_ok k s : k <> 0 -> reachable k s -> exists ring blk zom, sched_ok k s ring blk zom.
Proof.
  intros Hk. induction 1 as [dir top s E|s s' _ (ring & blk & zom & Hok) Hstep].
  - destruct (process_init_ok k dir top Hk) as (s' & E' & Hok). rewrite E in E'. injection E' as <-. eauto.
  - destruct (sched_ok_head _ _ _ _ _ Hok) as (t & rc & -> & _).
    destruct Hstep as [s s' E|s s' reason target Hc E|s s' p r Hp H0 E|s s' p r Hp H0 E|s s' Hc E
                      |s s1 s' pid p Hf H0 Hpk E|s s' E].
    + destruct (scheduler_tick_ok _ _ _ _ _ Hok) as (s1 & E1 & Hcase). rewrite E in E1. injection E1 as <-.
      destruct Hcase as [(_ & _ & _ & ?)|(v & _ & _ & ? & _)]; [eauto|]. unfold sched_ok3 in *. eauto.
    + destruct (block_and_switch_ok _ _ _ _ _ _ reason target Hok Hc) as (s1 & n & t' & -> & E1 & ?).
      rewrite E in E1. injection E1 as <-. eauto.
    + destruct (scheduler_wake_keeps _ _ _ _ _ _ p r Hok Hp H0) as (s1 & E1 & Hcase).
      rewrite E in E1. injection E1 as <-. destruct Hcase as [[_ ->]|(b1 & b2 & _ & ?)]; eauto.
    + destruct (start_keeps _ _ _ _ _ _ p r Hok Hp H0) as (s1 & E1 & ?). rewrite E in E1. injection E1 as <-. eauto.
    + destruct (die_and_switch_ok _ _ _ _ _ _ Hok Hc) as (s1 & n & t' & -> & E1 & ?).
      rewrite E in E1. injection E1 as <-. eauto.
    + destruct (ring_search_ok _ _ _ _ _ (fun r => p_pid r =? pid) Hok) as (q & E1 & Hq).
      unfold scheduler_find in Hf. rewrite E1 in Hf. injection Hf as <- <-.
      destruct Hq as [[? _]|(_ & Hin & _)]; [done|].
      destruct (kill_proc_keeps _ _ _ _ _ q Hok Hin Hpk) as (s2 & ring' & zom' & E2 & ? & _).
      rewrite E in E2. injection E2 as <-. eauto.
    + destruct (reap_zombies_ok _ _ _ _ _ _ Hok) as (s1 & E1 & ? & _). rewrite E in E1. injection E1 as <-. eauto.
Qed.

(** ** Progress *)

Fixpoint ticks (n : nat) : st sched unit :=
  match n with
  | O => ret tt
  | S n => scheduler_tick ;; ticks n
  end.

Lemma ticks_add n m s s' : ticks n s = Some (tt, s') -> ticks (n + m) s = ticks m s'.
Proof.
  revert s. induction n as [|n IH]; intros s; simpl.
  - unfold ret. by intros [= ->].
  - unfold bind. destruct (scheduler_tick s) as [[[] s1]|]; [|done]. apply IH.
Qed.

(** At most a timeslice of ticks brings the second process of the ring to run. *)
Lemma next_slice k s h n t blk zom :
  sched_ok k s (h :: n :: t) blk zom ->
  exists j s' ring' blk' zom', (0 < j <= 10)%nat /\ ticks j s = Some (tt, s')
  /\ sched_ok k s' ring' blk' zom' /\ exists l, ring' = n :: t ++ l.
Proof.
  intros Hok. remember (Z.to_nat (TIMESLICE - tick_count s)) as d eqn:Hd.
  assert (d <= 10)%nat as Hd10.
  { destruct Hok as [Hi _]. destruct (si_tick _ _ _ _ _ Hi). unfold TIMESLICE in *. lia. }
  assert (exists j s' ring' blk' zom', (0 < j <= d)%nat /\ ticks j s = Some (tt, s')
    /\ sched_ok k s' ring' blk' zom' /\ exists l, ring' = n :: t ++ l) as (j & H).
  2:{ exists j. destruct H as (s' & r' & b' & z' & ? & ?). exists s', r', b', z'. split; [lia|done]. }
  clear Hd10. revert s Hok Hd. induction d as [|d IH]; intros s Hok Hd.
  { destruct Hok as [Hi _]. destruct (si_tick _ _ _ _ _ Hi). unfold TIMESLICE in *. lia. }
  destruct (scheduler_tick_ok _ _ _ _ _ Hok) as (s1 & E & [(Hlt & _ & -> & Hok1)|(v & _ & _ & Hok1 & _)]).
  - destruct (IH _ Hok1) as (j & s' & r' & b' & z' & Hj & E' & ?).
    { simpl. unfold TIMESLICE in *. lia. }
    exists (S j), s', r', b', z'. split; [lia|]. split; [|done]. simpl. by rewrite (bind_ok _ _ _ _ _ E).
  - unfold sched_ok3, aswitch in Hok1. exists 1%nat, s1.
    destruct (v =? PROCESS_DEAD); [|destruct (v =? PROCESS_BLOCKED)]; simpl in Hok1;
      eexists _, _, _; (split; [lia|]); (split; [simpl; by rewrite (bind_ok _ _ _ _ _ E)|]);
      (split; [exact Hok1|]); [exists []|exists []|exists [h]]; by rewrite ?app_nil_r.
Qed.

Lemma ring_progress k s ring blk zom (i : nat) p :
  sched_ok k s ring blk zom -> ring !! i = Some p ->
  exists j s', (j <= 10 * i)%nat /\ ticks j s = Some (tt, s') /\ current_process s' = p
  /\ exists ring' blk' zom', sched_ok k s' ring' blk' zom'.
Proof.
  revert s ring blk zom. induction i as [|i IH]; intros s ring blk zom Hok Hp.
  - exists 0%nat, s. split; [lia|]. split; [done|]. split; [|eauto].
    destruct (sched_ok_head _ _ _ _ _ Hok) as (t & r & -> & _). simpl in Hp. congruence.
  - destruct ring as [|h [|n t]]; try done.
    destruct (next_slice _ _ _ _ _ _ _ Hok) as (j & s1 & r' & b' & z' & Hj & E & Hok1 & l & ->).
    destruct (IH s1 _ _ _ Hok1) as (j2 & s2 & Hj2 & E2 & Hc & Hok2).
    { simpl in Hp. change (n :: t ++ l) with ((n :: t) ++ l). by apply lookup_app_l_Some. }
    exists (j + j2)%nat, s2. split; [lia|]. split; [|done]. by rewrite (ticks_add _ _ _ _ E).
Qed.

(** ** Claims *)

(** C10: In every state reachable from boot by timer ticks, blocking calls, wake-ups,
    process creation, exits, kills and reaping, the ready ring, the blocked list and
    the zombie list are well formed and disjoint, the running process heads the ring
    and the kernel task is in it, and none of the scheduler's operations can follow a
    dangling pointer or loop forever. *)
Theorem sched_reachable_safe (k : Z) (s : sched) :
  k <> 0 -> reachable k s ->
  exists ring blk zom, sched_ok k s ring blk zom
  /\ (exists s', scheduler_tick s = Some (tt, s'))
  /\ (exists s', reap_zombies s = Some (tt, s'))
  /\ (forall pid, exists p, scheduler_find_any pid s = Some (p, s))
  /\ (forall p r, procs s !! p = Some r -> p <> 0 -> exists s', scheduler_wake p s = Some (tt, s'))
  /\ (forall p, p ∈ ring -> p <> k -> exists s', kill_proc p s = Some (tt, s'))
  /\ (current_process s <> k ->
      (exists s', die_and_switch s = Some (tt, s'))
      /\ forall reason target, exists s', block_and_switch reason target s = Some (tt, s')).
Proof.
  intros Hk Hr. destruct (reachable_ok k s Hk Hr) as (ring & blk & zom & Hok).
  exists ring, blk, zom. destruct (sched_ok_head _ _ _ _ _ Hok) as (t & rc & -> & _). split; [done|].
  split; [destruct (scheduler_tick_ok _ _ _ _ _ Hok) as (s' & ? & _); eauto|].
  split; [destruct (reap_zombies_ok _ _ _ _ _ _ Hok) as (s' & ? & _); eauto|].
  split.
  { intros pid. unfold scheduler_find_any, scheduler_find.
    destruct (ring_search_ok _ _ _ _ _ (fun r => p_pid r =? pid) Hok) as (q & E & _).
    rewrite (bind_ok _ _ _ _ _ E). destruct (negb (q =? 0)); [by exists q|].
    destruct (blocked_search_ok _ _ _ _ _ (fun r => p_pid r =? pid) Hok) as (q' & E' & _). eauto. }
  split; [intros p r Hp H0; destruct (scheduler_wake_keeps _ _ _ _ _ _ p r Hok Hp H0) as (s' & ? & _); eauto|].
  split; [intros p Hp Hpk; destruct (kill_proc_keeps _ _ _ _ _ p Hok Hp Hpk) as (s' & ? & ? & ? & _); eauto|].
  intros Hc. split; [destruct (die_and_switch_ok _ _ _ _ _ _ Hok Hc) as (s' & ? & ? & _ & ? & _); eauto|].
  intros reason target. destruct (block_and_switch_ok _ _ _ _ _ _ reason target Hok Hc) as (s' & ? & ? & _ & ? & _). eauto.
Qed.


(** A context switch stores the FPU registers and the stack pointer of the
    outgoing process in its own record, loads those of the incoming process together
    with its kernel stack and page directory, and touches no other process's saved
    context. *)
Theorem switch_context_correct (k : Z) (s : sched) h n t blk zom rn :
  sched_ok k s (h :: n :: t) blk zom -> procs s !! n = Some rn ->
  exists s', scheduler_switch s = Some (tt, s') /\ current_process s' = n
  /\ fpu s' = p_fpu_state rn /\ esp s' = p_esp rn
  /\ cr3 s' = p_page_directory rn /\ tss_esp0 s' = p_kernel_stack_top rn
  /\ (exists r, procs s' !! h = Some r /\ p_fpu_state r = fpu s /\ p_esp r = esp s)
  /\ (forall x, x <> h -> p_fpu_state <$> procs s' !! x = p_fpu_state <$> procs s !! x
                        /\ p_esp <$> procs s' !! x = p_esp <$> procs s !! x).
Proof.
  intros Hok Hn. destruct (sched_ok_head _ _ _ _ _ Hok) as (t0 & rh & Hring & Hh & _).
  injection Hring as -> <-. pose proof Hok as [Hi _].
  destruct (scheduler_switch_ok s _ _ _ _ _ _ _ (si_q _ _ _ _ _ Hi) eq_refl Hh Hn)
    as (s' & E & _ & Hc & Hl & _ & _ & H1 & H2 & H3 & H4).
  exists s'. do 6 (split; [done|]). split.
  - destruct (links_eq_lookup (<[current_process s := parked s rh]> (<[n := set_state PROCESS_RUNNING rn]> (procs s)))
      (procs s') (current_process s) (parked s rh)) as (r & Hr & Er); [by symmetry|apply lookup_insert_eq|].
    exists r. split; [done|].
    change (p_fpu_state (set_next 0 r) = fpu s /\ p_esp (set_next 0 r) = esp s). by rewrite Er.
  - intros x Hx.
    rewrite (links_eq_proj p_fpu_state _ _ x ltac:(done) Hl), (links_eq_proj p_esp _ _ x ltac:(done) Hl).
    rewrite !(lookup_insert_ne _ _ x) by congruence.
    destruct (decide (n = x)) as [<-|Hnx]; [by rewrite lookup_insert_eq, Hn|by rewrite lookup_insert_ne].
Qed.

(** [scheduler_wake_waiter] puts a parent that sleeps in wait() for this child (or
    for any) back behind the head of the ready ring; it returns 0, changing nothing,
    exactly when no such parent sleeps. *)
Theorem wake_waiter_correct (k : Z) (s : sched) ring blk zom parent child :
  sched_ok k s ring blk zom ->
  let waits r := (p_block_reason r =? BLOCK_WAIT) && (p_pid r =? parent)
                 && ((p_wait_target r =? 0) || (p_wait_target r =? child)) in
  exists p s', scheduler_wake_waiter parent child s = Some (p, s')
  /\ (p = 0 /\ s' = s /\ (forall x r, x ∈ blk -> procs s !! x = Some r -> waits r = false)
      \/ exists r b1 b2 h t, procs s !! p = Some r /\ waits r = true /\ blk = b1 ++ p :: b2
         /\ ring = h :: t /\ sched_ok k s' (h :: p :: t) (b1 ++ b2) zom).
Proof.
  intros Hok waits. destruct (sched_ok_head _ _ _ _ _ Hok) as (t & rc & -> & _).
  destruct (blocked_search_ok _ _ _ _ _ waits Hok) as (q & E & Hq).
  unfold scheduler_wake_waiter. fold waits. rewrite (bind_ok _ _ _ _ _ E).
  destruct Hq as [[-> Hall]|(Hq0 & Hin & r & Hr & Ht)].
  - exists 0, s. split; [done|]. by left.
  - destruct (Z.eqb_spec q 0); [done|].
    destruct (scheduler_wake_keeps _ _ _ _ _ _ q r Hok Hr Hq0) as (s' & E' & Hcase).
    rewrite (bind_ok _ _ _ _ _ E'). exists q, s'. split; [done|]. right.
    destruct Hcase as [[Hst _]|(b1 & b2 & -> & Hok')].
    + pose proof Hok as [Hi _]. apply (si_blk _ _ _ _ _ Hi) in Hin. unfold stat in Hin. rewrite Hr in Hin.
      simpl in Hin. congruence.
    + exists r, b1, b2, (current_process s), t. done.
Qed.

(** [scheduler_find_any] finds a process by pid exactly when one is ready or
    blocked, and [scheduler_has_child] answers 1 exactly when some ready or blocked
    process has that parent. *)
Theorem scheduler_lookup_correct (k : Z) (s : sched) ring blk zom pid :
  sched_ok k s ring blk zom ->
  (exists p, scheduler_find_any pid s = Some (p, s)
   /\ found s (fun r => p_pid r =? pid) (ring ++ blk) p)
  /\ exists b, scheduler_has_child pid s = Some (b, s)
     /\ (b = 1 /\ (exists x r, x ∈ ring ++ blk /\ procs s !! x = Some r /\ p_parent_pid r = pid)
         \/ b = 0 /\ forall x r, x ∈ ring ++ blk -> procs s !! x = Some r -> p_parent_pid r <> pid).
Proof.
  intros Hok. split.
  - unfold scheduler_find_any, scheduler_find.
    destruct (ring_search_ok _ _ _ _ _ (fun r => p_pid r =? pid) Hok) as (q & E & Hq).
    rewrite (bind_ok _ _ _ _ _ E). destruct Hq as [[-> Hall]|(Hq0 & Hin & Hr)].
    + destruct (blocked_search_ok _ _ _ _ _ (fun r => p_pid r =? pid) Hok) as (q & E' & Hq).
      exists q. split; [done|]. destruct Hq as [[-> Hall']|(Hq0 & Hin & Hr)].
      * left. split; [done|]. intros x r [Hx|Hx]%elem_of_app; eauto.
      * right. split; [done|]. split; [apply elem_of_app; by right|done].
    + destruct (Z.eqb_spec q 0); [done|]. exists q. split; [done|]. right.
      split; [done|]. split; [apply elem_of_app; by left|done].
  - unfold scheduler_has_child.
    destruct (ring_search_ok _ _ _ _ _ (fun r => p_parent_pid r =? pid) Hok) as (q & E & Hq).
    rewrite (bind_ok _ _ _ _ _ E). destruct Hq as [[-> Hall]|(Hq0 & Hin & r & Hr & Ht)].
    + cbn [negb Z.eqb]. destruct (blocked_search_ok _ _ _ _ _ (fun r => p_parent_pid r =? pid) Hok) as (q & E' & Hq).
      rewrite (bind_ok _ _ _ _ _ E'). destruct Hq as [[-> Hall']|(Hq0 & Hin & r & Hr & Ht)].
      * exists 0. split; [done|]. right. split; [done|].
        intros x r [Hx|Hx]%elem_of_app Hr; [specialize (Hall x r Hx Hr)|specialize (Hall' x r Hx Hr)]; by zbool.
      * destruct (Z.eqb_spec q 0); [done|]. exists 1. split; [done|]. left. split; [done|].
        exists q, r. rewrite elem_of_app. zbool. auto.
    + destruct (Z.eqb_spec q 0); [done|]. exists 1. split; [done|]. left. split; [done|].
      exists q, r. rewrite elem_of_app. zbool. auto.
Qed.

(** ** A run with two processes and the kernel task *)

Module Demo.

(** A user process as [process_create] leaves it. *)
Definition proc (pid parent fpu_val : Z) : process :=
  mk_process pid PROCESS_READY (0xD0000000 + pid) (0xE0000000 + pid) 1 (0xD0004000 + pid) 0 parent 0
    BLOCK_NONE 0 0 0 [fpu_val] (fd_init_std (replicate MAX_FDS closed_fd)) 0.

Lemma two_procs : exists s, reachable 100 s /\ sched_ok 100 s [100; 300; 200] [] []
  /\ procs s !! 300 <> None.
Proof.
  destruct (process_init_ok 100 0xC0101000 0xC0108000) as (s0 & E0 & H0); [done|].
  assert (procs s0 !! 200 = None) as N0 by (by vm_compute in E0; injection E0 as <-).
  destruct (start_keeps _ _ _ _ _ _ 200 (proc 1 0 7) H0 N0) as (s1 & E1 & H1); [done|].
  assert (procs s1 !! 300 = None) as N1.
  { vm_compute in E0. injection E0 as <-. vm_compute in E1. by injection E1 as <-. }
  destruct (start_keeps _ _ _ _ _ _ 300 (proc 2 1 9) H1 N1) as (s2 & E2 & H2); [done|].
  exists s2. split; [|split; [exact H2|]].
  - eapply reach_step; [eapply reach_step; [by eapply reach_boot|]|];
      [by eapply (step_start _ _ _ 200)|by eapply (step_start _ _ _ 300)].
  - destruct (sched_ok_lookup _ _ _ _ _ 300 H2) as (r & -> & _); [|done]. simpl. set_solver.
Qed.

(** Process 300 sleeps in wait() for any child. *)
Lemma one_waiting : exists s, sched_ok 100 s [200; 100] [300] [].
Proof.
  destruct two_procs as (s & _ & Hok & _). pose proof Hok as [Hi _].
  destruct (sched_ok_head _ _ _ _ _ Hok) as (t & r & [= Hc <-] & Hr & _). rewrite <- Hc in Hr.
  destruct (sched_inv_switch _ _ _ _ _ _ _ Hi Hr) as (s1 & _ & Hok1 & _ & Hc1).
  pose proof (si_kst _ _ _ _ _ Hi) as [K1 K2]. unfold stat in K1, K2. rewrite Hr in K1, K2. simpl in K1, K2.
  unfold sched_ok3, aswitch in Hok1. destruct (Z.eqb_spec (p_state r) PROCESS_DEAD); [congruence|].
  destruct (Z.eqb_spec (p_state r) PROCESS_BLOCKED); [congruence|]. simpl in Hok1, Hc1.
  destruct (block_and_switch_ok _ _ _ _ _ _ BLOCK_WAIT 0 Hok1) as (s2 & n' & t' & _ & _ & Hok2); [by rewrite Hc1|].
  eauto.
Qed.

End Demo.

Lemma sched_reachable_safe_witness :
  exists s, reachable 100 s /\ exists s', scheduler_tick s = Some (tt, s').
Proof.
  destruct Demo.two_procs as (s & Hr & _). exists s. split; [exact Hr|].
  destruct (sched_reachable_safe 100 s) as (ring & blk & zom & _ & H & _); [discriminate|exact Hr|]. exact H.
Defined.


Lemma switch_context_correct_witness :
  exists s s', scheduler_switch s = Some (tt, s') /\ current_process s' = 300.
Proof.
  destruct Demo.two_procs as (s & _ & Hok & Hn). destruct (procs s !! 300) as [rn|] eqn:E; [|done].
  exists s. destruct (switch_context_correct 100 s 100 300 [200] [] [] rn Hok E) as (s' & E' & Hc & _).
  exists s'. split; [exact E'|exact Hc].
Defined.

Lemma wake_waiter_correct_witness :
  exists s p s', scheduler_wake_waiter 2 9 s = Some (p, s').
Proof.
  destruct Demo.one_waiting as (s & Hok). exists s.
  destruct (wake_waiter_correct 100 s [200; 100] [300] [] 2 9 Hok) as (p & s' & E & _).
  exists p, s'. exact E.
Defined.

Lemma scheduler_lookup_correct_witness :
  exists s p, scheduler_find_any 2 s = Some (p, s).
Proof.
  destruct Demo.one_waiting as (s & Hok). exists s.
  destruct (scheduler_lookup_correct 100 s [200; 100] [300] [] 2 Hok) as [(p & E & _) _].
  exists p. exact E.
Defined.

End SchedProps.
