(* ===== verification/SchedFrame.v ===== *)
(** * What scheduler operations leave alone

    Two frame properties that the rest of the kernel needs: the operations touch no
    process outside the queues they walk, and apart from links and machine context
    they change exactly the states and block reasons one expects. *)

From S2P Require Import Prelude Sched SchedProps.

Module Frame.

Import Proc Sched SchedProps.

(** ** Footprints *)

(** [Q] contains everything reachable from the scheduler's pointers. *)
Record closed (Q : Z -> Prop) (s : sched) : Prop := {
  cl_zero : Q 0;
  cl_ready : Q (ready_queue s);
  cl_blocked : Q (blocked_list s);
  cl_zombie : Q (zombie_list s);
  cl_current : Q (current_process s);
  cl_null : procs s !! 0 = None;
  cl_next : forall y r, Q y -> procs s !! y = Some r -> Q (p_next r)
}.

(** [m] stays inside [Q] and returns a value in [R]. *)
Definition only {X} (Q : Z -> Prop) (R : X -> Prop) (m : st sched X) : Prop :=
  forall s x s', closed Q s -> m s = Some (x, s') ->
  closed Q s' /\ R x /\ forall y, ~ Q y -> procs s' !! y = procs s !! y.

Section Rules.
Context (Q : Z -> Prop).

Lemma only_ret {X} (R : X -> Prop) x : R x -> only Q R (ret x).
Proof. intros Hx s y s' Hs [= <- <-]. done. Qed.

Lemma only_undef {X} (R : X -> Prop) : only Q R undef.
Proof. intros s y s' Hs H. done. Qed.

Lemma only_bind {X Y} (R : X -> Prop) (R' : Y -> Prop) (m : st sched X) k :
  only Q R m -> (forall x, R x -> only Q R' (k x)) -> only Q R' (bind m k).
Proof.
  intros Hm Hk s y s' Hs H. apply bind_inv in H as (x & s1 & E & H).
  destruct (Hm _ _ _ Hs E) as (Hs1 & Hx & H1). destruct (Hk _ Hx _ _ _ Hs1 H) as (Hs2 & Hy & H2).
  split; [done|]. split; [done|]. intros z Hz. by rewrite H2, H1.
Qed.

Lemma only_if {X} (R : X -> Prop) (b : bool) m1 m2 : only Q R m1 -> only Q R m2 -> only Q R (if b then m1 else m2).
Proof. by destruct b. Qed.

Lemma only_weaken {X} (R R' : X -> Prop) m : (forall x, R x -> R' x) -> only Q R m -> only Q R' m.
Proof. intros HR Hm s x s' Hs E. destruct (Hm _ _ _ Hs E) as (? & ? & ?). auto. Qed.

Lemma only_load p : Q p -> only Q (fun r => Q (p_next r)) (load p).
Proof.
  intros Hp s r s' Hs. unfold load. destruct (procs s !! p) as [r'|] eqn:E; [|done]. intros [= <- <-].
  split; [done|]. split; [|done]. by apply (cl_next _ _ Hs p).
Qed.

Lemma only_store p f : Q p -> (forall r, Q (p_next r) -> Q (p_next (f r))) -> only Q (fun _ => True) (store p f).
Proof.
  intros Hp Hf s x s' Hs. unfold store. destruct (procs s !! p) as [r|] eqn:E; [|done]. intros [= <- <-].
  destruct Hs as [? ? ? ? ? H0 Hn]. split; [split|split]; simpl; try done.
  - rewrite lookup_insert_ne; [done|]. congruence.
  - intros y r' Hy. rewrite lookup_insert. destruct (decide (p = y)) as [->|]; [|by apply Hn].
    intros [= <-]. apply Hf. by apply (Hn y).
  - intros y Hy. by rewrite lookup_insert_ne by congruence.
Qed.

Lemma only_gets {X} (f : sched -> X) (R : X -> Prop) :
  (forall s, closed Q s -> R (f s)) -> only Q R (gets f).
Proof. intros Hf s x s' Hs [= <- <-]. auto. Qed.

Lemma only_modify f :
  (forall s, closed Q s -> closed Q (f s) /\ procs (f s) = procs s) -> only Q (fun _ => True) (modify f).
Proof. intros Hf s x s' Hs [= <- <-]. destruct (Hf s Hs) as [? ->]. done. Qed.

End Rules.

(** Apply the rule for the head of the program. *)
Ltac only_step :=
  match goal with
  | |- only _ _ (if _ then _ else _) => apply only_if
  | |- only _ _ (ret _) => apply only_ret; try done
  | |- only _ _ undef => apply only_undef
  | |- only _ _ (store _ _) => apply only_store; [try done|try done]
  | |- only _ _ (load _) => apply only_load; try done
  | |- only _ (fun _ => True) (gets _) => by apply only_gets
  | |- only _ _ (gets _) => apply only_gets; by intros ? []
  | |- only _ _ (modify _) => apply only_modify; intros ? []; by split; [split|]
  | |- only _ _ (bind (gets list_fuel) _) => apply (only_bind _ (fun _ => True)); [by apply only_gets|intros ? _]
  | |- only _ _ (bind (gets tick_count) _) => apply (only_bind _ (fun _ => True)); [by apply only_gets|intros ? _]
  | |- only _ _ (bind (gets fpu) _) => apply (only_bind _ (fun _ => True)); [by apply only_gets|intros ? _]
  | |- only _ _ (bind (gets esp) _) => apply (only_bind _ (fun _ => True)); [by apply only_gets|intros ? _]
  | |- only ?Q _ (bind (gets _) _) => apply (only_bind _ Q); [apply only_gets; by intros ? []|intros ? ?]
  | |- only ?Q _ (bind (load _) _) => eapply only_bind; [by apply only_load|intros ? ?; cbv beta in *]
  | |- only _ _ (bind (store _ _) _) => apply (only_bind _ (fun _ => True)); [apply only_store; try done|intros ? _]
  | |- only _ _ (bind (modify _) _) =>
      apply (only_bind _ (fun _ => True)); [apply only_modify; intros ? []; by split; [split|]|intros ? _]
  end.

Lemma only_add Q p : Q p -> only Q (fun _ => True) (scheduler_add p).
Proof. intros Hp. unfold scheduler_add. repeat only_step. Qed.

Lemma only_find_prev Q (fuel : nat) proc rq prev : Q prev -> only Q Q (find_prev fuel proc rq prev).
Proof.
  revert prev. induction fuel as [|fuel IH]; intros prev Hp; simpl; repeat only_step. by apply IH.
Qed.

Lemma only_find_before Q (fuel : nat) proc p : Q 0 -> Q p -> only Q Q (find_before fuel proc p).
Proof.
  intros H0. revert p. induction fuel as [|fuel IH]; intros p Hp; simpl; repeat only_step. by apply IH.
Qed.

Lemma only_find_ring Q (fuel : nat) test rq p : Q 0 -> Q p -> only Q Q (find_ring fuel test rq p).
Proof.
  intros H0. revert p. induction fuel as [|fuel IH]; intros p Hp; simpl; repeat only_step. by apply IH.
Qed.

Lemma only_find_list Q (fuel : nat) test p : Q 0 -> Q p -> only Q Q (find_list fuel test p).
Proof.
  intros H0. revert p. induction fuel as [|fuel IH]; intros p Hp; simpl; repeat only_step. by apply IH.
Qed.

Lemma only_remove Q p : Q 0 -> Q p -> only Q (fun _ => True) (scheduler_remove p).
Proof.
  intros H0 Hp. unfold scheduler_remove. only_step. only_step; [by only_step|]. only_step.
  eapply only_bind; [by apply only_find_prev|]. intros prev Hprev. only_step. only_step; [by only_step|].
  do 3 only_step. apply (only_bind _ (fun _ => True)); [|intros ? _; by only_step].
  only_step; [|by only_step]. apply only_modify. intros s Hs. split; [|done].
  destruct Hs as [Z1 Z2 Z3 Z4 Z5 Z6 Z7]. split; try done. simpl. by zcase.
Qed.

Lemma only_zombie_add Q p : Q p -> only Q (fun _ => True) (process_zombie_add p).
Proof. intros Hp. unfold process_zombie_add. repeat only_step. Qed.

Lemma only_wake Q p : Q 0 -> Q p -> only Q (fun _ => True) (scheduler_wake p).
Proof.
  intros H0 Hp. unfold scheduler_wake. only_step; [by only_step|]. only_step. only_step; [by only_step|].
  only_step. apply (only_bind _ (fun _ => True)).
  - only_step; [by only_step|]. only_step. eapply only_bind; [by apply only_find_before|].
    intros q Hq. by repeat only_step.
  - intros ? _. only_step. by apply only_add.
Qed.

Lemma only_switch Q : Q 0 -> only Q (fun _ => True) scheduler_switch.
Proof.
  intros H0. unfold scheduler_switch. do 2 only_step. only_step; [by only_step|]. only_step.
  only_step; [by only_step|]. do 3 only_step. apply (only_bind _ (fun _ => True)).
  - only_step.
    + eapply only_bind; [by apply only_remove|]. intros ? _. by apply only_zombie_add.
    + only_step; [|by only_step]. eapply only_bind; [by apply only_remove|]. intros ? _. by repeat only_step.
  - intros ? _. unfold switch_context. by repeat only_step.
Qed.

Lemma only_tick Q : Q 0 -> only Q (fun _ => True) scheduler_tick.
Proof.
  intros H0. unfold scheduler_tick. do 2 only_step. only_step; [by only_step|]. do 3 only_step.
  only_step; [|by only_step]. only_step. by apply only_switch.
Qed.

Lemma only_block Q reason target : Q 0 -> only Q (fun _ => True) (block_and_switch reason target).
Proof.
  intros H0. unfold block_and_switch, scheduler_block. apply (only_bind _ (fun _ => True)).
  - by repeat only_step.
  - intros ? _. by apply only_switch.
Qed.

Lemma only_die Q : Q 0 -> only Q (fun _ => True) die_and_switch.
Proof. intros H0. unfold die_and_switch. do 2 only_step. by apply only_switch. Qed.

Lemma only_kill Q p : Q 0 -> Q p -> only Q (fun _ => True) (kill_proc p).
Proof.
  intros H0 Hp. unfold kill_proc. only_step. only_step; [by only_step|]. only_step.
  eapply only_bind; [by apply only_remove|]. intros ? _. by apply only_zombie_add.
Qed.

(** The members of the queues are such a set. *)
Lemma queues_closed k s ring blk zom : sched_ok k s ring blk zom -> procs s !! 0 = None ->
  closed (fun x => x = 0 \/ x ∈ ring ++ blk ++ zom) s.
Proof.
  intros Hok Hnull. destruct (sched_ok_head _ _ _ _ _ Hok) as (t & r & -> & Hr & H0 & Hrq & _).
  pose proof Hok as [Hi _]. destruct (queues_ring _ _ _ _ _ (si_q _ _ _ _ _ Hi)) as (_ & _ & HR).
  destruct (si_q _ _ _ _ _ Hi) as [_ HB HZ _].
  assert (forall l p q, seg (procs s) p l q -> forall y r, y ∈ l -> procs s !! y = Some r ->
    p_next r = q \/ p_next r ∈ l) as Hnext.
  { clear. induction l as [|x l IH]; intros p q Hs y r Hy Hr; [by apply not_elem_of_nil in Hy|].
    destruct Hs as (-> & _ & r' & Hr' & Hs). apply elem_of_cons in Hy as [->|Hy].
    - assert (r' = r) as -> by congruence. destruct l as [|z l]; [by left|]. right.
      destruct Hs as [-> _]. rewrite !elem_of_cons. auto.
    - destruct (IH _ _ Hs _ _ Hy Hr); [by left|]. right. rewrite elem_of_cons. auto. }
  assert (forall l p, seg (procs s) p l 0 -> p = 0 \/ p ∈ l) as Hhead.
  { intros [|x l] p Hs; [by left|]. destruct Hs as [-> _]. right. apply elem_of_cons. by left. }
  split.
  - by left.
  - right. rewrite Hrq. apply elem_of_app. left. apply elem_of_cons. by left.
  - destruct (Hhead _ _ HB) as [?|?]; [by left|right]. rewrite !elem_of_app. auto.
  - destruct (Hhead _ _ HZ) as [?|?]; [by left|right]. rewrite !elem_of_app. auto.
  - right. apply elem_of_app. left. apply elem_of_cons. by left.
  - done.
  - intros y ry [->|Hy] Hry; [congruence|].
    rewrite !elem_of_app in Hy |- *. destruct Hy as [Hy|[Hy|Hy]].
    + destruct (Hnext _ _ _ HR y ry Hy Hry) as [->|?]; [right; left; apply elem_of_cons; by left|auto].
    + destruct (Hnext _ _ _ HB y ry Hy Hry); auto.
    + destruct (Hnext _ _ _ HZ y ry Hy Hry); auto.
Qed.

(** ** Effects *)

(** The part of a process that the rest of the kernel's invariant speaks of. *)
Definition vw (r : process) : list file_desc * (Z * Z) := (p_fds r, (p_state r, p_block_reason r)).
Definition views (s : sched) : gmap Z (list file_desc * (Z * Z)) := vw <$> procs s.

(** The queues are well formed and hold exactly the processes [Q]. *)
Definition members (k : Z) (s : sched) (Q : list Z) : Prop :=
  exists ring blk zom, sched_ok k s ring blk zom /\ Q ≡ₚ ring ++ blk ++ zom.

Lemma links_views m m' : links_eq m m' -> vw <$> m = vw <$> m'.
Proof.
  intros Hl. apply map_eq. intros p. rewrite !lookup_fmap. by apply (links_eq_proj vw).
Qed.

Lemma views_insert s p r : views (set_procs (<[p := r]> (procs s)) s) = <[p := vw r]> (views s).
Proof. unfold views. simpl. by rewrite fmap_insert. Qed.

Lemma views_lookup s p r : procs s !! p = Some r -> views s !! p = Some (vw r).
Proof. intros H. unfold views. by rewrite lookup_fmap, H. Qed.

Lemma members_current k s Q : members k s Q -> exists r, procs s !! current_process s = Some r
  /\ current_process s <> 0 /\ current_process s ∈ Q /\ p_state r <> PROCESS_BLOCKED.
Proof.
  intros (ring & blk & zom & Hok & HQ). destruct (sched_ok_head _ _ _ _ _ Hok) as (t & r & -> & Hr & H0 & _).
  exists r. split; [done|]. split; [done|]. split; [rewrite HQ; apply elem_of_cons; by left|].
  destruct Hok as [_ Hnb]. intros Hb. apply Hnb. unfold stat. rewrite Hr. simpl. by rewrite Hb.
Qed.

Lemma members_lookup k s Q p : members k s Q -> p ∈ Q -> exists r, procs s !! p = Some r /\ p <> 0.
Proof. intros (ring & blk & zom & Hok & HQ) Hp. rewrite HQ in Hp. by eapply sched_ok_lookup. Qed.

Lemma members_blocked k s Q p r : members k s Q -> procs s !! p = Some r -> p_state r = PROCESS_BLOCKED -> p ∈ Q.
Proof.
  intros (ring & blk & zom & Hok & HQ) Hp Hst. destruct (sched_ok_head _ _ _ _ _ Hok) as (t & rc & -> & _).
  rewrite HQ, !elem_of_app. right. left. eapply sched_ok_all; [exact Hok|]. unfold stat. rewrite Hp. simpl. by rewrite Hst.
Qed.

Lemma members_closed k s Q : members k s Q -> procs s !! 0 = None -> closed (fun x => x = 0 \/ x ∈ Q) s.
Proof.
  intros (ring & blk & zom & Hok & HQ) H0. pose proof (queues_closed _ _ _ _ _ Hok H0) as Hc.
  destruct Hc; split; rewrite ?HQ; try done. intros y r. rewrite !HQ. apply cl_next0.
Qed.

(** Changing a process without touching its state or links. *)
Lemma store_effect k s Q p r r' : members k s Q -> procs s !! p = Some r ->
  p_state r' = p_state r -> p_next r' = p_next r ->
  members k (set_procs (<[p := r']> (procs s)) s) Q.
Proof.
  intros (ring & blk & zom & Hok & HQ) Hp Hst Hn. exists ring, blk, zom. split; [|done].
  assert (forall x, stat (<[p := r']> (procs s)) x = stat (procs s) x) as Hx.
  { intros x. rewrite stat_insert. destruct (decide (p = x)) as [->|]; [|done].
    unfold stat. rewrite Hp. simpl. by rewrite Hst. }
  destruct Hok as [[Hq (t & ->) Hh Ht Hb Hz Ha Hk Hks Htk] Hnb].
  split; [split|]; cbn [procs current_process tick_count set_procs]; try (by setoid_rewrite Hx); try done.
  - by eapply queues_keep.
  - by exists t.
Qed.

Lemma wake_effect k s Q p r : members k s Q -> procs s !! p = Some r -> p <> 0 ->
  exists s', scheduler_wake p s = Some (tt, s') /\ members k s' Q
  /\ current_process s' = current_process s /\ foreground_process s' = foreground_process s
  /\ zombie_list s' = zombie_list s
  /\ views s' = (if p_state r =? PROCESS_BLOCKED
                 then <[p := (p_fds r, (PROCESS_READY, BLOCK_NONE))]> (views s) else views s).
Proof.
  intros (ring & blk & zom & Hok & HQ) Hp H0. destruct (sched_ok_head _ _ _ _ _ Hok) as (t & rc & -> & _).
  destruct (scheduler_wake_keeps _ _ _ _ _ _ p r Hok Hp H0) as (s' & E & Hcase). exists s'. split; [done|].
  destruct (Z.eqb_spec (p_state r) PROCESS_BLOCKED) as [Hst|Hst].
  - destruct Hcase as [[? _]|(b1 & b2 & -> & Hok')]; [done|]. pose proof Hok as [Hi _].
    destruct (scheduler_wake_ok s _ t b1 p b2 zom r (si_q _ _ _ _ _ Hi) Hp Hst) as (s1 & E1 & _ & Hl & b & Hs').
    rewrite E in E1. injection E1 as <-. split.
    { eexists _, _, _. split; [exact Hok'|]. rewrite HQ. simpl. rewrite <- !app_assoc. simpl.
      rewrite (app_assoc t), <- Permutation_middle. by rewrite <- app_assoc. }
    rewrite Hs'. do 3 (split; [done|]). unfold views. simpl. rewrite (links_views _ _ Hl), fmap_insert. done.
  - destruct Hcase as [[_ ->]|(b1 & b2 & -> & _)].
    + split; [by exists (current_process s :: t), blk, zom|]. done.
    + exfalso. pose proof Hok as [Hi _]. pose proof (si_blk _ _ _ _ _ Hi p ltac:(auto)) as Hb.
      unfold stat in Hb. rewrite Hp in Hb. simpl in Hb. congruence.
Qed.

(** What a switch away from [h], whose record is [rh], to [n] leaves behind. *)
Definition switched (s : sched) (h : Z) (rh : process) (s' : sched) : Prop :=
  exists n rn, procs s !! n = Some rn /\ n <> h /\ p_state rn = PROCESS_READY
  /\ current_process s' = n /\ foreground_process s' = foreground_process s
  /\ views s' = <[h := vw (parked s rh)]> (<[n := (p_fds rn, (PROCESS_RUNNING, p_block_reason rn))]> (views s)).

Lemma switch_effect k s h t blk zom rh :
  sched_inv k s (h :: t) blk zom -> procs s !! h = Some rh ->
  exists s', scheduler_switch s = Some (tt, s') /\ members k s' ((h :: t) ++ blk ++ zom)
  /\ (t = [] /\ s' = s \/ switched s h rh s').
Proof.
  intros Hi Hh. destruct (sched_inv_switch _ _ _ _ _ _ _ Hi Hh) as (s' & E & Hok & _ & Hc).
  exists s'. split; [done|]. pose proof (si_cur _ _ _ _ _ Hi) as (t0 & [= Hcur <-]).
  pose proof (si_q _ _ _ _ _ Hi) as Hq. destruct t as [|n t].
  - split; [by eexists _, _, _|]. left. split; [done|]. revert E. unfold scheduler_switch.
    destruct (queues_ring _ _ _ _ _ Hq) as (Hrq & H0 & _ & _ & r & Hr & Hn). simpl in Hn.
    assert (r = rh) as -> by congruence. do 2 sstep. rewrite Hrq, <- Hcur.
    destruct (Z.eqb_spec h 0); [done|]. cbn [orb]. sstep. rewrite Hn, Z.eqb_refl. by intros [= <-].
  - split.
    { unfold sched_ok3, aswitch in Hok. destruct (p_state rh =? PROCESS_DEAD); [|destruct (p_state rh =? PROCESS_BLOCKED)];
        (eexists _, _, _; split; [exact Hok|]); simpl.
      - rewrite (app_assoc t), (app_assoc t). rewrite <- Permutation_middle. by rewrite Permutation_swap.
      - rewrite <- Permutation_middle. by rewrite Permutation_swap.
      - rewrite <- app_assoc. simpl. rewrite <- Permutation_middle. by rewrite Permutation_swap. }
    right. assert (stat (procs s) n = Some PROCESS_READY) as Hn
      by (apply (si_tail _ _ _ _ _ Hi), elem_of_cons; by left).
    apply stat_lookup in Hn as (rn & Hn & Hst).
    destruct (scheduler_switch_ok s h n t blk zom rh rn Hq) as (s1 & E1 & _ & Hc1 & Hl & Hfg & _); [done..|].
    rewrite E in E1. injection E1 as <-. exists n, rn. split; [done|]. split.
    { intros ->. pose proof (q_nodup _ _ _ _ Hq) as Hnd. simpl in Hnd. apply NoDup_cons in Hnd as [Hx _].
      apply Hx, elem_of_cons. by left. }
    split; [done|]. split; [done|]. split; [done|].
    unfold views. rewrite (links_views _ _ Hl), !fmap_insert. done.
Qed.

(** The running process marks itself and switches away. *)
Lemma mark_switch_effect k s Q r r' :
  members k s Q -> current_process s <> k -> procs s !! current_process s = Some r ->
  p_next r' = p_next r -> p_state r' = PROCESS_BLOCKED \/ p_state r' = PROCESS_DEAD ->
  exists s', scheduler_switch (set_procs (<[current_process s := r']> (procs s)) s) = Some (tt, s')
  /\ members k s' Q
  /\ switched (set_procs (<[current_process s := r']> (procs s)) s) (current_process s) r' s'.
Proof.
  intros (ring & blk & zom & Hok & HQ) Hk Hr Hn Hst.
  destruct (sched_ok_head _ _ _ _ _ Hok) as (t & rc & -> & _).
  pose proof (sched_inv_mark _ _ _ _ _ _ r r' Hok Hr Hk Hn Hst) as Hi.
  destruct (switch_effect _ _ _ _ _ _ r' Hi) as (s' & E & Hm & Hcase); [apply lookup_insert_eq|].
  exists s'. split; [done|]. split.
  - destruct Hm as (r1 & b1 & z1 & ? & HP). exists r1, b1, z1. split; [done|]. by rewrite HQ, HP.
  - destruct Hcase as [[-> _]|?]; [|done]. pose proof (si_kin _ _ _ _ _ Hi) as Hin.
    apply list_elem_of_singleton in Hin. by destruct Hk.
Qed.

(** The switch seen from the state before the mark. *)
Lemma switched_views s r' s' : switched (set_procs (<[current_process s := r']> (procs s)) s) (current_process s) r' s' ->
  p_state r' = PROCESS_BLOCKED \/ p_state r' = PROCESS_DEAD ->
  exists n rn, procs s !! n = Some rn /\ n <> current_process s /\ p_state rn = PROCESS_READY
  /\ current_process s' = n /\ foreground_process s' = foreground_process s
  /\ views s' = <[current_process s := vw r']> (<[n := (p_fds rn, (PROCESS_RUNNING, p_block_reason rn))]> (views s)).
Proof.
  intros (n & rn & Hn & Hne & Hst & Hc & Hf & Hv) Hr. simpl in Hn. rewrite lookup_insert_ne in Hn by congruence.
  exists n, rn. do 5 (split; [done|]). rewrite Hv, views_insert.
  rewrite (insert_insert_ne (views s)) by congruence. rewrite insert_insert_eq. f_equal.
  unfold parked. by destruct Hr as [-> | ->].
Qed.

Lemma block_effect k s Q reason target :
  members k s Q -> current_process s <> k ->
  exists r s' n rn, procs s !! current_process s = Some r
  /\ block_and_switch reason target s = Some (tt, s') /\ members k s' Q
  /\ procs s !! n = Some rn /\ n <> current_process s /\ p_state rn = PROCESS_READY
  /\ current_process s' = n /\ foreground_process s' = foreground_process s
  /\ views s' = <[current_process s := (p_fds r, (PROCESS_BLOCKED, reason))]>
                  (<[n := (p_fds rn, (PROCESS_RUNNING, p_block_reason rn))]> (views s)).
Proof.
  intros Hm Hk. destruct (members_current _ _ _ Hm) as (r & Hr & H0 & _).
  set (r' := set_block reason target (set_state PROCESS_BLOCKED r)).
  destruct (mark_switch_effect _ _ _ r r' Hm Hk Hr) as (s' & E & Hm' & Hsw); [done|by left|].
  apply switched_views in Hsw as (n & rn & Hn & Hne & Hst & Hc & Hf & Hv); [|by left].
  exists r, s', n, rn. split; [done|]. split; [|done].
  unfold block_and_switch, scheduler_block. rewrite (bind_ok _ _ s tt (set_procs (<[current_process s := r']> (procs s)) s)); [exact E|].
  sstep. destruct (Z.eqb_spec (current_process s) 0); [done|]. exact (store_ok s _ _ r Hr).
Qed.

Lemma die_effect k s Q :
  members k s Q -> current_process s <> k ->
  exists r s' n rn, procs s !! current_process s = Some r
  /\ die_and_switch s = Some (tt, s') /\ members k s' Q
  /\ procs s !! n = Some rn /\ n <> current_process s /\ p_state rn = PROCESS_READY
  /\ current_process s' = n /\ foreground_process s' = foreground_process s
  /\ views s' = <[current_process s := (p_fds r, (PROCESS_DEAD, p_block_reason r))]>
                  (<[n := (p_fds rn, (PROCESS_RUNNING, p_block_reason rn))]> (views s)).
Proof.
  intros Hm Hk. destruct (members_current _ _ _ Hm) as (r & Hr & H0 & _).
  destruct (mark_switch_effect _ _ _ r (set_state PROCESS_DEAD r) Hm Hk Hr) as (s' & E & Hm' & Hsw); [done|by right|].
  apply switched_views in Hsw as (n & rn & Hn & Hne & Hst & Hc & Hf & Hv); [|by right].
  exists r, s', n, rn. split; [done|]. split; [|done].
  unfold die_and_switch. do 2 sstep. exact E.
Qed.

Lemma tick_effect k s Q : members k s Q ->
  exists s', scheduler_tick s = Some (tt, s') /\ members k s' Q
  /\ (views s' = views s /\ current_process s' = current_process s
      /\ foreground_process s' = foreground_process s
     \/ exists r n rn st, procs s !! current_process s = Some r /\ st <> PROCESS_BLOCKED
        /\ procs s !! n = Some rn /\ n <> current_process s /\ p_state rn = PROCESS_READY
        /\ current_process s' = n /\ foreground_process s' = foreground_process s
        /\ views s' = <[current_process s := (p_fds r, (st, p_block_reason r))]>
                        (<[n := (p_fds rn, (PROCESS_RUNNING, p_block_reason rn))]> (views s))).
Proof.
  intros (ring & blk & zom & Hok & HQ). destruct (sched_ok_head _ _ _ _ _ Hok) as (t & r & -> & Hr & H0 & Hrq & _).
  pose proof Hok as [Hi Hnb]. unfold scheduler_tick. do 2 sstep. rewrite Hrq.
  destruct (Z.eqb_spec (current_process s) 0); [done|]. cbn [orb]. do 2 sstep.
  set (t1 := u32 (tick_count s + 1)). set (s1 := set_ticks t1 s).
  assert (procs s1 !! current_process s = Some r) as Hr1 by done. sstep.
  change (tick_count s1) with t1.
  assert (forall tk, 0 <= tk < TIMESLICE -> sched_inv k (set_ticks tk s) (current_process s :: t) blk zom) as Hset.
  { intros tk Htk. destruct Hi as [[? ? ? ?] ? ? ? ? ? ? ? ? ?]. by split. }
  destruct ((TIMESLICE <=? t1) || (p_state r =? PROCESS_DEAD)) eqn:Ec.
  - sstep. destruct (switch_effect _ _ _ _ _ _ r (Hset 0 ltac:(done))) as (s' & E & Hm & Hcase); [done|].
    exists s'. split; [exact E|]. split.
    { destruct Hm as (r1 & b1 & z1 & ? & HP). exists r1, b1, z1. split; [done|]. by rewrite HQ, HP. }
    destruct Hcase as [[_ ->]|(n' & rn & Hn & Hne & Hst & Hc & Hf & Hv)]; [by left|]. right.
    exists r, n', rn, (p_state (parked (set_ticks 0 s) r)). split; [done|]. split.
    { unfold parked. destruct (Z.eqb_spec (p_state r) PROCESS_DEAD) as [Hd|]; [simpl; by rewrite Hd|].
      destruct (Z.eqb_spec (p_state r) PROCESS_BLOCKED) as [Hb|]; [|done].
      exfalso. apply Hnb. unfold stat. rewrite Hr. simpl. by rewrite Hb. }
    do 5 (split; [done|]). rewrite Hv. do 2 f_equal.
    unfold vw, parked. by destruct ((p_state r =? PROCESS_DEAD) || (p_state r =? PROCESS_BLOCKED)).
  - apply orb_false_iff in Ec as [Ec _]. zbool. exists s1. split; [done|]. split; [|by left].
    exists (current_process s :: t), blk, zom. split; [|done]. split; [|done]. apply Hset.
    split; [apply u32_bound|done].
Qed.

Lemma perm_to_last {X} (l1 l2 b z : list X) p : (l1 ++ p :: l2) ++ b ++ z ≡ₚ (l1 ++ l2) ++ b ++ p :: z.
Proof.
  rewrite <- !app_assoc. simpl. rewrite <- Permutation_middle. symmetry.
  rewrite (app_assoc l2), (app_assoc l1), <- Permutation_middle. by rewrite <- !app_assoc.
Qed.

Lemma kill_effect k s Q p r ring blk zom :
  sched_ok k s ring blk zom -> Q ≡ₚ ring ++ blk ++ zom -> p ∈ ring -> p <> k -> procs s !! p = Some r ->
  exists s', kill_proc p s = Some (tt, s') /\ members k s' Q
  /\ current_process s' = current_process s /\ foreground_process s' = foreground_process s
  /\ views s' = <[p := (p_fds r, (PROCESS_DEAD, p_block_reason r))]> (views s).
Proof.
  intros Hok HQ Hp Hk Hr. destruct (kill_proc_keeps _ _ _ _ _ p Hok Hp Hk) as (s' & ring' & zom' & E & Hok' & Hcase & _).
  exists s'. split; [done|]. split.
  { exists ring', blk, zom'. split; [done|]. rewrite HQ. destruct Hcase as [(_ & -> & ->)|(l1 & l2 & -> & -> & ->)]; [done|].
    apply perm_to_last. }
  revert E. unfold kill_proc. sstep. destruct (Z.eqb_spec p (current_process s)) as [->|Hpc].
  - rewrite (store_ok _ _ _ _ Hr). intros [= <-]. do 2 (split; [done|]). by rewrite views_insert.
  - sstep. set (s1 := set_procs (<[p := set_state PROCESS_DEAD r]> (procs s)) s).
    destruct (sched_ok_head _ _ _ _ _ Hok) as (t & rc & -> & _).
    apply elem_of_cons in Hp as [?|Hp]; [done|]. apply list_elem_of_split in Hp as (l1 & l2 & ->).
    assert (queues s1 (current_process s :: l1 ++ p :: l2) blk zom) as Hq1
      by (eapply queues_keep; [done|done|apply Hok]).
    destruct (scheduler_remove_ok s1 _ l1 p l2 blk zom Hq1) as (m & r1 & Hr1 & E & Hl & Hm & _).
    rewrite (bind_ok _ _ _ _ _ E). unfold process_zombie_add. sstep.
    assert (procs (set_procs m s1) !! p = Some (set_next 0 r1)) as Hm' by done. sstep.
    intros [= <-]. do 2 (split; [done|]). unfold views. simpl. rewrite fmap_insert, (links_views _ _ Hl).
    simpl. rewrite fmap_insert, insert_insert_eq. f_equal.
    assert (r1 = set_state PROCESS_DEAD r) as -> by (simpl in Hr1; rewrite lookup_insert_eq in Hr1; congruence). done.
Qed.

(** A process that is in no queue yet becomes ready. *)
Lemma add_effect k s Q p r : members k s Q -> procs s !! p = Some r -> p <> 0 -> (p ∉ Q) ->
  exists s', scheduler_add p s = Some (tt, s') /\ members k s' (p :: Q)
  /\ current_process s' = current_process s /\ foreground_process s' = foreground_process s
  /\ views s' = <[p := (p_fds r, (PROCESS_READY, p_block_reason r))]> (views s).
Proof.
  intros (ring & blk & zom & Hok & HQ) Hp H0 Hout. rewrite HQ in Hout. pose proof Hok as [Hi Hnb].
  destruct (sched_ok_head _ _ _ _ _ Hok) as (t & rc & -> & _).
  destruct (scheduler_add_ok s p r _ blk zom (si_q _ _ _ _ _ Hi) Hp H0 Hout) as (m & q & E & -> & Hl & Hq').
  eexists. split; [exact E|].
  assert (forall x, stat m x = if decide (p = x) then Some PROCESS_READY else stat (procs s) x) as Hx.
  { intros x. by rewrite (links_eq_stat _ _ _ Hl), stat_insert. }
  simpl in Hout. apply not_elem_of_cons in Hout as [Hph Hout]. rewrite !not_elem_of_app in Hout.
  destruct Hout as (P1 & P2 & P3). split.
  - exists (current_process s :: p :: t), blk, zom. split; [|rewrite HQ; simpl; apply Permutation_swap].
    eapply sched_ok_intro; try done; simpl.
    + rewrite Hx. by rewrite decide_False by congruence.
    + intros x [->|Hxt]%elem_of_cons; rewrite Hx; [by rewrite decide_True|].
      rewrite decide_False by congruence. by apply (si_tail _ _ _ _ _ Hi).
    + intros x Hxb. rewrite Hx, decide_False by congruence. by apply (si_blk _ _ _ _ _ Hi).
    + intros x Hxb. rewrite Hx, decide_False by congruence. by apply (si_zom _ _ _ _ _ Hi).
    + intros x. rewrite Hx. destruct (decide (p = x)); [done|]. by apply sched_ok_all with (1 := Hok).
    + apply elem_of_second, (si_kin _ _ _ _ _ Hi).
  - do 2 (split; [done|]). unfold views. simpl. by rewrite (links_views _ _ Hl), fmap_insert.
Qed.

(** The reaper takes the zombie list over. *)
Lemma take_zombies_effect k s Q : members k s Q ->
  exists Q' zom, Q ≡ₚ Q' ++ zom /\ members k (set_zombie 0 s) Q' /\ seg (procs s) (zombie_list s) zom 0
  /\ NoDup Q /\ (forall p, p ∈ zom -> stat (procs s) p = Some PROCESS_DEAD).
Proof.
  intros (ring & blk & zom & Hok & HQ). pose proof Hok as [Hi Hnb].
  destruct (sched_ok_head _ _ _ _ _ Hok) as (t & rc & -> & _).
  destruct (si_q _ _ _ _ _ Hi) as [HR HB HZ HN]. exists ((current_process s :: t) ++ blk), zom.
  split; [by rewrite HQ, app_assoc|]. split; [|split; [done|split; [by rewrite HQ|apply (si_zom _ _ _ _ _ Hi)]]].
  exists (current_process s :: t), blk, []. split; [|by rewrite app_nil_r].
  eapply sched_ok_intro; try done.
  - split; try done. rewrite app_nil_r. rewrite app_assoc in HN. by apply NoDup_app in HN as (? & _).
  - apply (si_tail _ _ _ _ _ Hi).
  - apply (si_blk _ _ _ _ _ Hi).
  - intros p Hp. by apply not_elem_of_nil in Hp.
  - intros p Hp. by eapply sched_ok_all.
  - apply (si_kin _ _ _ _ _ Hi).
Qed.

(** A process outside the queues is freed. *)
Lemma delete_effect k s Q p : members k s Q -> (p ∉ Q) ->
  members k (set_procs (delete p (procs s)) s) Q.
Proof.
  intros (ring & blk & zom & Hok & HQ) Hout. rewrite HQ in Hout. pose proof Hok as [Hi Hnb].
  destruct (sched_ok_head _ _ _ _ _ Hok) as (t & rc & -> & _). exists (current_process s :: t), blk, zom.
  split; [|done]. rewrite !not_elem_of_app in Hout. destruct Hout as (P1 & P2 & P3).
  assert (forall x, x <> p -> stat (delete p (procs s)) x = stat (procs s) x) as Hx.
  { intros x Hx. unfold stat. by rewrite lookup_delete_ne by congruence. }
  eapply sched_ok_intro; try done; simpl.
  - destruct (si_q _ _ _ _ _ Hi) as [HR HB HZ HN]. split; [|by apply seg_delete_ne|by apply seg_delete_ne|done].
    rewrite decide_False in HR |- * by done. by apply seg_delete_ne.
  - apply Hx. destruct (si_cur _ _ _ _ _ Hi) as (? & _). intros E. apply P1. rewrite <- E. apply elem_of_cons. by left.
  - intros x Hxt. rewrite Hx; [by apply (si_tail _ _ _ _ _ Hi)|]. intros ->. apply P1, elem_of_cons. by right.
  - intros x Hxt. rewrite Hx; [by apply (si_blk _ _ _ _ _ Hi)|]. by intros ->.
  - intros x Hxt. rewrite Hx; [by apply (si_zom _ _ _ _ _ Hi)|]. by intros ->.
  - intros x Hb. eapply sched_ok_all; [exact Hok|]. unfold stat in *. rewrite lookup_delete in Hb.
    by destruct (decide (p = x)).
  - apply (si_kin _ _ _ _ _ Hi).
Qed.

End Frame.
