(* ===== verification/Pipe.v ===== *)
(** * Pipes and write buffers (kernel/pipe.c, kernel/wbuf.c, kernel/syscall.c)

    The data of a [pipe_t] and of a [wbuf_t] and the passes that [pipe_write_fd],
    [pipe_read_fd] and [wbuf_write] make over them.  Blocking and waking are
    requests in the result; the system-call layer carries them out. *)

From S2P Require Import Prelude.

Module Pipe.

Definition PIPE_BUF_SIZE : Z := 4096.

Record pipe := mk_pipe {
  buf : Z -> Z; head : Z; tail : Z; read_open : Z; write_open : Z;
  blocked_reader : Z; blocked_writer : Z }.

(** The structure [pipe_create] returns. *)
Definition pipe_init : pipe := mk_pipe (fun _ => 0) 0 0 1 1 0 0.

Definition pipe_close_read (p : pipe) : pipe :=
  mk_pipe (buf p) (head p) (tail p) (s32 (read_open p - 1)) (write_open p) (blocked_reader p) (blocked_writer p).
Definition pipe_close_write (p : pipe) : pipe :=
  mk_pipe (buf p) (head p) (tail p) (read_open p) (s32 (write_open p - 1)) (blocked_reader p) (blocked_writer p).

(** [(p->head - p->tail + PIPE_BUF_SIZE) % PIPE_BUF_SIZE]. *)
Definition used (p : pipe) : Z := Z.rem (head p - tail p + PIPE_BUF_SIZE) PIPE_BUF_SIZE.

Definition set_reader (v : Z) (p : pipe) : pipe :=
  mk_pipe (buf p) (head p) (tail p) (read_open p) (write_open p) v (blocked_writer p).
Definition set_writer (v : Z) (p : pipe) : pipe :=
  mk_pipe (buf p) (head p) (tail p) (read_open p) (write_open p) (blocked_reader p) v.

(** [p->buf[p->head] = c; p->head = (p->head + 1) % PIPE_BUF_SIZE]. *)
Definition put_byte (c : Z) (p : pipe) : pipe :=
  mk_pipe ((buf p).[head p <- c]) (Z.rem (head p + 1) PIPE_BUF_SIZE) (tail p)
    (read_open p) (write_open p) (blocked_reader p) (blocked_writer p).

(** [buf[i] = p->buf[p->tail]; p->tail = (p->tail + 1) % PIPE_BUF_SIZE]. *)
Definition get_byte (p : pipe) : Z * pipe :=
  (buf p (tail p),
   mk_pipe (buf p) (head p) (Z.rem (tail p + 1) PIPE_BUF_SIZE)
     (read_open p) (write_open p) (blocked_reader p) (blocked_writer p)).

Fixpoint put_bytes (l : list Z) (p : pipe) : pipe :=
  match l with
  | [] => p
  | c :: l => put_bytes l (put_byte c p)
  end.

Fixpoint get_bytes (n : nat) (p : pipe) : list Z * pipe :=
  match n with
  | O => ([], p)
  | S n => let '(c, p) := get_byte p in
           let '(l, p) := get_bytes n p in (c :: l, p)
  end.

(** What a call that may sleep ends with: the return value, or the state of its
    local variables when it blocks. *)
Inductive outcome :=
| Ret (v : Z)
| Block (written : Z)
| Stuck.

(** The loop of [pipe_write_fd] on the bytes [data], from [written] on, until it
    returns or blocks.  [me] is [current_process]; the processes to wake are listed
    in order.  A pass that finds room either finishes or fills the buffer, so two
    passes and the final test are enough. *)
Fixpoint write_passes (fuel : nat) (me : Z) (data : list Z) (written : Z) (p : pipe)
    (wakes : list Z) : outcome * pipe * list Z :=
  let len := Z.of_nat (length data) in
  match fuel with
  | O => (Stuck, p, wakes)
  | S k =>
    if written <? len then
      let space := PIPE_BUF_SIZE - 1 - used p in
      if 0 <? space then
        let n := if space <? len - written then space else len - written in
        let p := put_bytes (take (Z.to_nat n) (drop (Z.to_nat written) data)) p in
        if negb (blocked_reader p =? 0)
        then write_passes k me data (written + n) (set_reader 0 p) (wakes ++ [blocked_reader p])
        else write_passes k me data (written + n) p wakes
      else if read_open p =? 0 then (Ret written, p, wakes)
      else (Block written, set_writer me p, wakes)
    else (Ret written, p, wakes)
  end.

Definition pipe_write_fd (me : Z) (data : list Z) (p : pipe) : outcome * pipe * list Z :=
  if read_open p =? 0 then (Ret (-1), p, [])
  else write_passes 3 me data 0 p [].

(** The loop goes on here when the writer is woken. *)
Definition pipe_write_resume (me : Z) (data : list Z) (written : Z) (p : pipe)
  : outcome * pipe * list Z := write_passes 3 me data written p [].

(** [pipe_read_fd] until it returns or blocks: the bytes read, the pipe, the
    process to wake. *)
Definition pipe_read_fd (me len : Z) (p : pipe) : outcome * list Z * pipe * list Z :=
  let avail := used p in
  if 0 <? avail then
    let n := if avail <? len then avail else len in
    let '(l, p) := get_bytes (Z.to_nat n) p in
    if negb (blocked_writer p =? 0)
    then (Ret n, l, set_writer 0 p, [blocked_writer p])
    else (Ret n, l, p, [])
  else if write_open p =? 0 then (Ret 0, [], p, [])
  else (Block 0, [], set_reader me p, []).

(** ** The contents of a pipe *)

Definition pipe_ok (p : pipe) : Prop := 0 <= head p < 4096 /\ 0 <= tail p < 4096.

Definition contents (p : pipe) : list Z :=
  map (fun i => buf p ((tail p + Z.of_nat i) mod 4096)) (seq 0 (Z.to_nat (used p))).

Lemma used_eq p : pipe_ok p -> used p = (head p - tail p) mod 4096.
Proof.
  unfold pipe_ok, used, PIPE_BUF_SIZE. intros. rewrite Z.rem_mod_nonneg by lia. zmod.
Qed.

Lemma used_range p : pipe_ok p -> 0 <= used p <= 4095.
Proof. intros. rewrite used_eq by done. zmod. Qed.

Lemma contents_length p : pipe_ok p -> Z.of_nat (length (contents p)) = used p.
Proof. intros H. pose proof (used_range p H). unfold contents. rewrite length_map, length_seq. lia. Qed.

Lemma put_byte_ok c p : pipe_ok p -> used p < 4095 ->
  pipe_ok (put_byte c p) /\ contents (put_byte c p) = contents p ++ [c]
  /\ used (put_byte c p) = used p + 1.
Proof.
  intros Hp Hu. assert (pipe_ok (put_byte c p)) as Hp'.
  { unfold pipe_ok, put_byte, PIPE_BUF_SIZE in *. simpl. rewrite Z.rem_mod_nonneg by lia. zmod. }
  assert (used (put_byte c p) = used p + 1) as Hu'.
  { rewrite (used_eq p) in * by done. rewrite used_eq by done.
    unfold pipe_ok, put_byte, PIPE_BUF_SIZE in *. simpl in *. rewrite Z.rem_mod_nonneg by lia. zmod. }
  split; [done|]. split; [|done]. unfold contents. rewrite Hu'.
  pose proof (used_range p Hp). replace (Z.to_nat (used p + 1)) with (Z.to_nat (used p) + 1)%nat by lia.
  rewrite seq_app, map_app. simpl. f_equal.
  - apply map_ext_in. intros i Hi. apply in_seq in Hi. apply upd_other.
    rewrite used_eq in * by done. unfold pipe_ok in Hp. zmod.
  - f_equal. rewrite Z2Nat.id by lia. unfold upd.
    destruct (Z.eqb_spec ((tail p + used p) mod 4096) (head p)) as [_|Hne]; [done|].
    exfalso. apply Hne. rewrite used_eq by done. unfold pipe_ok in Hp. zmod.
Qed.

Lemma put_bytes_ok l p : pipe_ok p -> used p + Z.of_nat (length l) <= 4095 ->
  pipe_ok (put_bytes l p) /\ contents (put_bytes l p) = contents p ++ l
  /\ used (put_bytes l p) = used p + Z.of_nat (length l).
Proof.
  revert p. induction l as [|c l IH]; intros p Hp Hu; simpl in *.
  - rewrite app_nil_r. split; [done|]. split; [done|]. lia.
  - destruct (put_byte_ok c p Hp ltac:(lia)) as (Hp1 & Hc1 & Hu1).
    destruct (IH (put_byte c p) Hp1) as (Hp2 & Hc2 & Hu2); [lia|]. split; [done|]. split; [|lia].
    rewrite Hc2, Hc1, <- app_assoc. done.
Qed.

Lemma put_bytes_frame l p :
  read_open (put_bytes l p) = read_open p /\ write_open (put_bytes l p) = write_open p
  /\ blocked_reader (put_bytes l p) = blocked_reader p /\ blocked_writer (put_bytes l p) = blocked_writer p.
Proof. revert p. induction l as [|c l IH]; intros p; [done|]. exact (IH (put_byte c p)). Qed.

Lemma get_byte_ok p : pipe_ok p -> 0 < used p ->
  pipe_ok (get_byte p).2 /\ contents p = (get_byte p).1 :: contents (get_byte p).2
  /\ used (get_byte p).2 = used p - 1.
Proof.
  intros Hp Hu. assert (pipe_ok (get_byte p).2) as Hp'.
  { unfold pipe_ok, get_byte, PIPE_BUF_SIZE in *. simpl. rewrite Z.rem_mod_nonneg by lia. zmod. }
  assert (used (get_byte p).2 = used p - 1) as Hu'.
  { rewrite (used_eq p) in * by done. rewrite used_eq by done.
    unfold pipe_ok, get_byte, PIPE_BUF_SIZE in *. simpl in *. rewrite Z.rem_mod_nonneg by lia. zmod. }
  split; [done|]. split; [|done]. unfold contents. rewrite Hu'.
  replace (Z.to_nat (used p)) with (S (Z.to_nat (used p - 1))) by lia. simpl. f_equal.
  - f_equal. unfold pipe_ok in Hp. zmod.
  - rewrite <- seq_shift, map_map. apply map_ext. intros i. f_equal.
    unfold get_byte, pipe_ok, PIPE_BUF_SIZE in *. simpl. rewrite Z.rem_mod_nonneg by lia. zmod.
Qed.

Lemma get_bytes_ok n p : pipe_ok p -> Z.of_nat n <= used p ->
  pipe_ok (get_bytes n p).2 /\ contents p = (get_bytes n p).1 ++ contents (get_bytes n p).2
  /\ length (get_bytes n p).1 = n /\ used (get_bytes n p).2 = used p - Z.of_nat n.
Proof.
  revert p. induction n as [|n IH]; intros p Hp Hu.
  - simpl. split; [done|]. split; [done|]. split; [done|lia].
  - cbn [get_bytes]. destruct (get_byte_ok p Hp ltac:(lia)) as (Hp1 & Hc1 & Hu1).
    destruct (get_byte p) as [c p1]. simpl in *.
    destruct (IH p1 Hp1 ltac:(lia)) as (Hp2 & Hc2 & Hl2 & Hu2).
    destruct (get_bytes n p1) as [l p2]. simpl in *.
    split; [done|]. split; [by rewrite Hc1, Hc2|]. split; [by rewrite Hl2|lia].
Qed.

Lemma get_bytes_frame n p :
  let q := (get_bytes n p).2 in
  read_open q = read_open p /\ write_open q = write_open p
  /\ blocked_reader q = blocked_reader p /\ blocked_writer q = blocked_writer p.
Proof.
  revert p. induction n as [|n IH]; intros p; [done|]. cbn [get_bytes get_byte].
  specialize (IH (get_byte p).2). unfold get_byte in IH. simpl in IH.
  by destruct (get_bytes n _) as [l q].
Qed.

(** With nothing left to write, or no room left, a pass stores nothing and wakes nobody. *)
Lemma write_passes_full k me data written p wakes :
  written = Z.of_nat (length data) \/ used p = 4095 -> written <= Z.of_nat (length data) ->
  exists out p', write_passes k me data written p wakes = (out, p', wakes)
  /\ blocked_reader p' = blocked_reader p.
Proof.
  intros Hf Hw. destruct k as [|k]; [simpl; eauto|]. cbn [write_passes]. unfold PIPE_BUF_SIZE.
  destruct (Z.ltb_spec written (Z.of_nat (length data))); [|eauto].
  destruct (Z.ltb_spec 0 (4096 - 1 - used p)); [lia|]. destruct (read_open p =? 0); eauto.
Qed.

(** The test for a blocked reader before the next pass amounts to clearing the slot. *)
Lemma write_passes_wake k me data written p wakes :
  (if negb (blocked_reader p =? 0)
   then write_passes k me data written (set_reader 0 p) (wakes ++ [blocked_reader p])
   else write_passes k me data written p wakes)
  = write_passes k me data written (set_reader 0 p) (wakes ++ (if blocked_reader p =? 0 then [] else [blocked_reader p])).
Proof.
  destruct (Z.eqb_spec (blocked_reader p) 0) as [E|E]; simpl; [|done]. rewrite app_nil_r. f_equal.
  destruct p; simpl in *; by subst.
Qed.

(** What the loop of [pipe_write_fd] does from [written] on. *)
Lemma write_passes_ok k me data written p wakes :
  pipe_ok p -> 0 <= written <= Z.of_nat (length data) ->
  (2 <= k)%nat \/ (1 <= k)%nat /\ (written = Z.of_nat (length data) \/ used p = 4095) ->
  exists n out p' wk, write_passes k me data written p wakes = (out, p', wk)
  /\ written <= n <= Z.of_nat (length data)
  /\ pipe_ok p' /\ contents p' = contents p ++ take (Z.to_nat (n - written)) (drop (Z.to_nat written) data)
  /\ read_open p' = read_open p /\ write_open p' = write_open p
  /\ (out = Ret n /\ (n = Z.of_nat (length data) \/ read_open p = 0 /\ used p' = 4095)
      \/ out = Block n /\ n < Z.of_nat (length data) /\ used p' = 4095
         /\ read_open p <> 0 /\ blocked_writer p' = me)
  /\ (written < n -> blocked_reader p' = 0
      /\ wk = wakes ++ (if blocked_reader p =? 0 then [] else [blocked_reader p])).
Proof.
  revert written p wakes. induction k as [|k IH]; intros written p wakes Hp Hw Hk; [lia|].
  cbn [write_passes]. destruct (Z.ltb_spec written (Z.of_nat (length data))) as [Hlt|Hge].
  2:{ exists written, (Ret written), p, wakes. split; [done|]. split; [lia|]. split; [done|].
      rewrite Z.sub_diag. simpl. rewrite app_nil_r. do 3 (split; [done|]). split; [left; split; [done|lia]|lia]. }
  pose proof (used_range p Hp) as Hur. unfold PIPE_BUF_SIZE.
  destruct (Z.ltb_spec 0 (4096 - 1 - used p)) as [Hsp|Hsp].
  2:{ destruct (Z.eqb_spec (read_open p) 0) as [Hro|Hro].
      - exists written, (Ret written), p, wakes. split; [done|]. split; [lia|]. split; [done|].
        rewrite Z.sub_diag. simpl. rewrite app_nil_r. do 3 (split; [done|]). split; [left; split; [done|lia]|lia].
      - exists written, (Block written), (set_writer me p), wakes. split; [done|]. split; [lia|]. split; [done|].
        rewrite Z.sub_diag. simpl. rewrite app_nil_r. do 3 (split; [done|]).
        split; [right; repeat split; try done; change (used (set_writer me p)) with (used p); lia|lia]. }
  set (n := if 4096 - 1 - used p <? Z.of_nat (length data) - written
            then 4096 - 1 - used p else Z.of_nat (length data) - written).
  assert (0 < n /\ n <= 4095 - used p /\ written + n <= Z.of_nat (length data)
    /\ (n = 4095 - used p \/ written + n = Z.of_nat (length data))) as (Hn0 & Hn1 & Hn2 & Hn3)
    by (unfold n; zcase; lia).
  set (chunk := take (Z.to_nat n) (drop (Z.to_nat written) data)).
  assert (Z.of_nat (length chunk) = n) as Hcl.
  { unfold chunk. rewrite length_take, length_drop. lia. }
  destruct (put_bytes_ok chunk p Hp ltac:(lia)) as (Hp1 & Hc1 & Hu1).
  destruct (put_bytes_frame chunk p) as (F1 & F2 & F3 & F4).
  rewrite write_passes_wake, F3.
  set (wk' := wakes ++ (if blocked_reader p =? 0 then [] else [blocked_reader p])).
  destruct (IH (written + n) (set_reader 0 (put_bytes chunk p)) wk') as (m & out & p' & wk & E & Hm & Hp' & Hc' & R1 & R2 & Hout & Hrd).
  { done. }
  { lia. }
  { right. split; [lia|]. change (used (set_reader 0 (put_bytes chunk p))) with (used (put_bytes chunk p)). lia. }
  exists m, out, p', wk. split; [done|]. split; [lia|]. split; [done|]. split.
  { rewrite Hc'. change (contents (set_reader 0 (put_bytes chunk p))) with (contents (put_bytes chunk p)).
    rewrite Hc1, <- app_assoc. f_equal. unfold chunk.
    replace (Z.to_nat (written + n)) with (Z.to_nat written + Z.to_nat n)%nat by lia.
    rewrite <- drop_drop. replace (Z.to_nat (m - written)) with (Z.to_nat n + Z.to_nat (m - (written + n)))%nat by lia.
    by rewrite take_take_drop. }
  split; [by rewrite R1|]. split; [by rewrite R2|]. simpl in Hout. rewrite F1 in Hout. split; [done|].
  intros _. destruct (decide (written + n < m)) as [Hlt'|Hge'].
  - destruct (Hrd Hlt') as [-> ->]. split; [done|]. simpl. by rewrite app_nil_r.
  - assert (m = written + n) as -> by lia.
    destruct (write_passes_full k me data (written + n) (set_reader 0 (put_bytes chunk p)) wk') as (o' & p1 & E' & Hr').
    { change (used (set_reader 0 (put_bytes chunk p))) with (used (put_bytes chunk p)). lia. }
    { lia. }
    rewrite E' in E. injection E as _ <- <-. done.
Qed.

Lemma pipe_read_fd_ok me len p : pipe_ok p -> 0 < len ->
  exists out l p' wk, pipe_read_fd me len p = (out, l, p', wk)
  /\ pipe_ok p' /\ contents p = l ++ contents p'
  /\ read_open p' = read_open p /\ write_open p' = write_open p
  /\ (contents p <> [] /\ out = Ret (Z.min len (used p)) /\ Z.of_nat (length l) = Z.min len (used p)
        /\ blocked_writer p' = 0 /\ wk = (if blocked_writer p =? 0 then [] else [blocked_writer p])
      \/ contents p = [] /\ write_open p = 0 /\ out = Ret 0 /\ l = [] /\ p' = p
      \/ contents p = [] /\ write_open p <> 0 /\ out = Block 0 /\ l = [] /\ blocked_reader p' = me).
Proof.
  intros Hp Hlen. pose proof (used_range p Hp) as Hu. pose proof (contents_length p Hp) as Hcl.
  unfold pipe_read_fd. destruct (Z.ltb_spec 0 (used p)) as [Hav|Hav].
  - set (n := if used p <? len then used p else len).
    assert (n = Z.min len (used p)) as Hn by (unfold n; zcase; lia).
    destruct (get_bytes_ok (Z.to_nat n) p Hp ltac:(lia)) as (Hp' & Hc & Hl & _).
    destruct (get_bytes_frame (Z.to_nat n) p) as (F1 & F2 & F3 & F4).
    destruct (get_bytes (Z.to_nat n) p) as [l q]. simpl in *.
    assert (contents p <> []) as Hne by (intros E; rewrite E in Hcl; simpl in Hcl; lia).
    rewrite F4. destruct (Z.eqb_spec (blocked_writer p) 0) as [E|E]; cbn [negb].
    + exists (Ret n), l, q, []. do 5 (split; [done|]). left. rewrite <- Hn, F4. split; [done|].
      split; [done|]. split; [lia|]. done.
    + exists (Ret n), l, (set_writer 0 q), [blocked_writer p]. do 5 (split; [done|]). left. rewrite <- Hn.
      split; [done|]. split; [done|]. split; [lia|]. done.
  - assert (contents p = []) as Hc by (apply nil_length_inv; lia).
    destruct (Z.eqb_spec (write_open p) 0) as [E|E].
    + exists (Ret 0), [], p, []. do 5 (split; [done|]). right. left. done.
    + exists (Block 0), [], (set_reader me p), []. do 5 (split; [done|]). right. right. done.
Qed.

(** ** Histories *)

(** [history p sent recv]: some interleaving of calls on a new pipe accepted the
    bytes [sent] and delivered the bytes [recv]. A blocked writer goes on from the
    byte it reached; ends may be duplicated and closed in between. *)
Inductive history : pipe -> list Z -> list Z -> Prop :=
| hist_create : history pipe_init [] []
| hist_write p sent recv me data written out n p' wk :
    history p sent recv -> 0 <= written <= Z.of_nat (length data) ->
    pipe_write_resume me data written p = (out, p', wk) -> out = Ret n \/ out = Block n ->
    history p' (sent ++ take (Z.to_nat (n - written)) (drop (Z.to_nat written) data)) recv
| hist_read p sent recv me len out l p' wk :
    history p sent recv -> 0 < len -> pipe_read_fd me len p = (out, l, p', wk) ->
    history p' sent (recv ++ l)
| hist_ends p sent recv r w br bw :
    history p sent recv -> history (mk_pipe (buf p) (head p) (tail p) r w br bw) sent recv.

Lemma history_ok p sent recv : history p sent recv -> pipe_ok p /\ sent = recv ++ contents p.
Proof.
  induction 1 as [|p sent recv me data written out n p' wk _ [Hp ->] Hw E Hout
                 |p sent recv me len out l p' wk _ [Hp ->] Hlen E|p sent recv r w br bw _ [Hp ->]].
  - split; [by unfold pipe_ok; simpl|done].
  - destruct (write_passes_ok 3 me data written p [] Hp Hw ltac:(lia))
      as (m & out' & q & wk' & E' & Hm & Hq & Hc & _ & _ & Ho & _).
    unfold pipe_write_resume in E. rewrite E' in E. injection E as <- <- <-.
    split; [done|]. rewrite Hc, app_assoc. do 3 f_equal. destruct Ho as [[-> _]|[-> _]], Hout as [[= ->]|[= ->]]; done.
  - destruct (pipe_read_fd_ok me len p Hp Hlen) as (out' & l' & q & wk' & E' & Hq & Hc & _).
    rewrite E' in E. injection E as <- <- <- <-. split; [done|]. by rewrite Hc, app_assoc.
  - done.
Qed.

(** C15: A pipe is a FIFO: over any interleaving of writers and readers, including
    writers that block and continue, the bytes delivered are a prefix of the bytes
    accepted, in order, without loss or duplication; what is outstanding is exactly
    the buffer's contents, at most 4095 bytes. *)
Theorem pipe_fifo p sent recv : history p sent recv ->
  sent = recv ++ contents p /\ Z.of_nat (length (contents p)) <= 4095.
Proof.
  intros H. destruct (history_ok p sent recv H) as [Hp ->]. split; [done|].
  rewrite contents_length by done. apply used_range. done.
Qed.

(** [pipe_write_fd] fails with -1 on a pipe without readers; otherwise it appends
    a prefix of the data, returns only when all of it is in (or the readers are gone)
    and goes to sleep only on a full pipe with readers, registered as the blocked
    writer; once it has written anything the sleeping reader is woken and forgotten. *)
Theorem pipe_write_correct me data p : pipe_ok p ->
  exists out p' wk, pipe_write_fd me data p = (out, p', wk)
  /\ (read_open p = 0 /\ out = Ret (-1) /\ p' = p
      \/ read_open p <> 0 /\ exists n, 0 <= n <= Z.of_nat (length data)
         /\ contents p' = contents p ++ take (Z.to_nat n) data
         /\ (out = Ret n /\ n = Z.of_nat (length data)
             \/ out = Block n /\ n < Z.of_nat (length data) /\ length (contents p') = 4095%nat
                /\ blocked_writer p' = me)
         /\ (0 < n -> blocked_reader p' = 0
             /\ wk = if blocked_reader p =? 0 then [] else [blocked_reader p])).
Proof.
  intros Hp. unfold pipe_write_fd. destruct (Z.eqb_spec (read_open p) 0) as [E|E].
  { exists (Ret (-1)), p, []. split; [done|]. by left. }
  destruct (write_passes_ok 3 me data 0 p [] Hp ltac:(lia) ltac:(lia))
    as (n & out & p' & wk & E' & Hn & Hp' & Hc & _ & _ & Hout & Hwk).
  exists out, p', wk. split; [done|]. right. split; [done|]. exists n. split; [done|].
  rewrite Z.sub_0_r in Hc. split; [done|]. split; [|done].
  destruct Hout as [[-> [?|[? _]]]|(-> & ? & Hu & _ & ?)]; [by left|done|right].
  split; [done|]. split; [done|]. split; [|done]. pose proof (contents_length p' Hp'). lia.
Qed.

(** [pipe_read_fd] returns the oldest bytes, as many as asked for and available,
    and wakes a sleeping writer; on an empty pipe it returns 0 exactly when no writer
    is left and otherwise sleeps, registered as the blocked reader. *)
Theorem pipe_read_correct me len p : pipe_ok p -> 0 < len ->
  exists out l p' wk, pipe_read_fd me len p = (out, l, p', wk) /\ contents p = l ++ contents p'
  /\ (contents p <> [] /\ out = Ret (Z.of_nat (length l))
        /\ Z.of_nat (length l) = Z.min len (Z.of_nat (length (contents p)))
        /\ blocked_writer p' = 0 /\ wk = (if blocked_writer p =? 0 then [] else [blocked_writer p])
      \/ contents p = [] /\ write_open p = 0 /\ out = Ret 0
      \/ contents p = [] /\ write_open p <> 0 /\ out = Block 0 /\ blocked_reader p' = me).
Proof.
  intros Hp Hlen. destruct (pipe_read_fd_ok me len p Hp Hlen) as (out & l & p' & wk & E & _ & Hc & _ & _ & H).
  rewrite contents_length by done. exists out, l, p', wk. split; [done|]. split; [done|].
  destruct H as [(? & -> & Hl & ? & ?)|[(? & ? & -> & _)|(? & ? & -> & _ & ?)]]; [left|right; left|right; right]; try done.
  split; [done|]. by rewrite <- Hl.
Qed.

Definition demo_pipe : pipe := (pipe_write_fd 7 (chars "hello") pipe_init).1.2.

Lemma demo_history : history demo_pipe (chars "hello") [].
Proof.
  change (chars "hello") with ([] ++ take (Z.to_nat (5 - 0)) (drop (Z.to_nat 0) (chars "hello"))).
  eapply (hist_write pipe_init [] [] 7 (chars "hello") 0 (Ret 5) 5 demo_pipe []); [constructor|done|done|by left].
Qed.

Lemma pipe_fifo_witness : chars "hello" = [] ++ contents demo_pipe.
Proof. apply (pipe_fifo demo_pipe (chars "hello") [] demo_history). Defined.

Lemma pipe_write_correct_witness : exists out p' wk, pipe_write_fd 9 (chars "!") demo_pipe = (out, p', wk).
Proof.
  destruct (pipe_write_correct 9 (chars "!") demo_pipe) as (out & p' & wk & E & _); [vm_compute; intuition congruence|].
  exists out, p', wk. exact E.
Defined.

Lemma pipe_read_correct_witness :
  exists out l p' wk, pipe_read_fd 9 3 demo_pipe = (out, l, p', wk) /\ contents demo_pipe = l ++ contents p'.
Proof.
  destruct (pipe_read_correct 9 3 demo_pipe) as (out & l & p' & wk & E & H & _);
    [vm_compute; intuition congruence|reflexivity|].
  exists out, l, p', wk. split; [exact E|exact H].
Defined.

End Pipe.

(** ** Write buffers *)

Module Wbuf.

Definition WBUF_CAP : Z := 65536.

Record wbuf := mk_wbuf { w_ptr : Z; w_buf : Z -> Z; w_len : Z; w_refcount : Z; w_path : list Z }.

(** The structure [wbuf_open] fills: the path is cut to 63 characters. *)
Definition wbuf_new (ptr : Z) (path : list Z) : wbuf := mk_wbuf ptr (fun _ => 0) 0 1 (take 63 path).

Definition wbuf_ref (w : wbuf) : wbuf :=
  mk_wbuf (w_ptr w) (w_buf w) (w_len w) (s32 (w_refcount w + 1)) (w_path w).

(** [--w->refcount > 0]: the buffer stays; otherwise the caller flushes and frees it. *)
Definition wbuf_drop (w : wbuf) : wbuf * bool :=
  let w := mk_wbuf (w_ptr w) (w_buf w) (w_len w) (s32 (w_refcount w - 1)) (w_path w) in
  (w, 0 <? w_refcount w).

(** [wbuf_write]: the count accepted and the buffer. *)
Definition wbuf_write (data : Z -> Z) (len : Z) (w : wbuf) : Z * wbuf :=
  let space := u32 (WBUF_CAP - w_len w) in
  let len := if space <? len then space else len in
  (s32 len, mk_wbuf (w_ptr w) (blit (w_buf w) (w_len w) data 0 len) (u32 (w_len w + len))
              (w_refcount w) (w_path w)).

Definition wbuf_ok (w : wbuf) : Prop := 0 <= w_len w <= WBUF_CAP.

(** The accumulated bytes. *)
Definition wbytes (w : wbuf) : list Z := map (fun i => w_buf w (Z.of_nat i)) (seq 0 (Z.to_nat (w_len w))).

Definition bytes_of (data : Z -> Z) (n : Z) : list Z := map (fun i => data (Z.of_nat i)) (seq 0 (Z.to_nat n)).

(** [wbuf_write] appends exactly the bytes it accepts, accepts all of them while
    there is room and never runs past the 64 KB buffer. *)
Theorem wbuf_write_correct data len w : wbuf_ok w -> is_u32 len ->
  let n := Z.min len (WBUF_CAP - w_len w) in
  exists w', wbuf_write data len w = (n, w') /\ wbuf_ok w'
  /\ wbytes w' = wbytes w ++ bytes_of data n
  /\ w_refcount w' = w_refcount w /\ w_path w' = w_path w
  /\ (forall i, ~ w_len w <= i < WBUF_CAP -> w_buf w' i = w_buf w i).
Proof.
  intros Hw Hlen n. unfold wbuf_ok, wbuf_write, WBUF_CAP, is_u32 in *.
  rewrite (u32_small (65536 - w_len w)) by (unfold is_u32; lia).
  assert ((if 65536 - w_len w <? len then 65536 - w_len w else len) = n) as -> by (unfold n; zcase; lia).
  rewrite s32_small, (u32_small (w_len w + n)) by (unfold is_u32; lia).
  eexists. split; [done|]. simpl. split; [lia|]. split; [|split; [done|split; [done|]]].
  - unfold wbytes, bytes_of. simpl.
    replace (Z.to_nat (w_len w + n)) with (Z.to_nat (w_len w) + Z.to_nat n)%nat by lia.
    rewrite seq_app, map_app. apply (f_equal2 app).
    + apply map_ext_in. intros i Hi. apply in_seq in Hi. apply blit_out. lia.
    + replace (0 + Z.to_nat (w_len w))%nat with (Z.to_nat (w_len w) + 0)%nat by lia.
      change (map ?f ?l) with (f <$> l). rewrite <- fmap_add_seq, <- list_fmap_compose.
      apply map_ext_in. intros i Hi. apply in_seq in Hi. simpl. rewrite blit_in by lia. f_equal. lia.
  - intros i Hi. apply blit_out. lia.
Qed.

Lemma wbuf_write_correct_witness :
  exists w', wbuf_write (fun i => 65 + i) 3 (wbuf_new 1 (chars "OUT.TXT")) = (3, w') /\ wbytes w' = [65; 66; 67].
Proof.
  destruct (wbuf_write_correct (fun i => 65 + i) 3 (wbuf_new 1 (chars "OUT.TXT"))) as (w' & E & _ & Hb & _);
    [vm_compute; intuition congruence|vm_compute; intuition congruence|].
  exists w'. split; [exact E|exact Hb].
Defined.

End Wbuf.
