(* ===== verification/Paging.v ===== *)
(** * Page tables and address spaces (memory/paging.c)

    Page directories and tables are words of kernel memory, at the addresses the
    code uses; user pages are bytes of physical memory, which the kernel reaches
    through its scratch windows by translating with the active directory, as the
    MMU does.  An access that does not translate is a page fault ([undef]).  The
    TLB is not modelled: the code invalidates each address it remaps. *)

From S2P Require Import Prelude Pmm.

Module Paging.

Import Pmm.

Definition PAGE_PRESENT : Z := 1.
Definition PAGE_WRITEABLE : Z := 2.
Definition PAGE_USER : Z := 4.
Definition KERNEL_VIRTUAL_BASE : Z := 0xC0000000.
Definition ELF_SCRATCH_VIRT : Z := 0xC0400000.
Definition FORK_SCRATCH_VIRT : Z := 0xC0401000.
Definition STACK_SCRATCH_VIRT : Z := 0xC0402000.
Definition USER_TABLE_POOL : Z := 32.

(** Where the linker put [boot_page_directory] and [user_page_tables]. *)
Class Layout := { boot_page_directory : Z; user_page_tables : Z }.

(** [words]: table memory by address; [free_tables]: [table_free_list], its top
    first; [phys]: the bytes of physical pages; [cr3]: the active directory, by its
    virtual address. *)
Record vm := mk_vm {
  words : Z -> Z; free_tables : list Z; pmm : pmm_state; phys : Z -> Z; active : Z }.

Definition set_words (w : Z -> Z) (s : vm) : vm := mk_vm w (free_tables s) (pmm s) (phys s) (active s).
Definition set_free (l : list Z) (s : vm) : vm := mk_vm (words s) l (pmm s) (phys s) (active s).
Definition set_pmm (p : pmm_state) (s : vm) : vm := mk_vm (words s) (free_tables s) p (phys s) (active s).
Definition set_phys (m : Z -> Z) (s : vm) : vm := mk_vm (words s) (free_tables s) (pmm s) m (active s).
Definition set_active (a : Z) (s : vm) : vm := mk_vm (words s) (free_tables s) (pmm s) (phys s) a.

Definition rd (table i : Z) : st vm Z := gets (fun s => words s (table + 4 * i)).
Definition wr (table i v : Z) : st vm unit :=
  modify (fun s => set_words ((words s).[table + 4 * i <- v]) s).

Definition dir_index (virt : Z) : Z := Z.shiftr virt 22.
Definition table_index (virt : Z) : Z := Z.land (Z.shiftr virt 12) 0x3FF.
Definition present (e : Z) : bool := negb (Z.land e PAGE_PRESENT =? 0).
(** [e & ~0xFFF], and the kernel address of a table from its directory entry. *)
Definition frame_of (e : Z) : Z := Z.land e 0xFFFFF000.
Definition table_addr (e : Z) : Z := u32 (frame_of e + KERNEL_VIRTUAL_BASE).

(** [for (i = 0; i < 1024; i++) table[i] = 0]. *)
Definition zero_table (table : Z) (w : Z -> Z) : Z -> Z :=
  for_loop 1024 0 (fun i w => w.[table + 4 * i <- 0]) w.

Definition alloc_page_table : st vm Z := fun s =>
  match free_tables s with
  | [] => Some (0, s)
  | table :: rest => Some (table, set_words (zero_table table (words s)) (set_free rest s))
  end.

Section Code.
Context {L : Layout}.

Definition free_page_table (table : Z) : st vm unit := fun s =>
  let start := user_page_tables in
  let fin := u32 (start + USER_TABLE_POOL * 4096) in
  if (table <? start) || (fin <=? table) then Some (tt, s)
  else if Z.of_nat (length (free_tables s)) <? USER_TABLE_POOL
  then Some (tt, set_free (table :: free_tables s) s)
  else Some (tt, s).

Definition ensure_kernel_table (virt : Z) : st vm unit :=
  let* e := rd boot_page_directory (dir_index virt) in
  if present e then ret tt
  else
    let* table := alloc_page_table in
    if table =? 0 then ret tt
    else
      let table_phys := u32 (table - KERNEL_VIRTUAL_BASE) in
      wr boot_page_directory (dir_index virt)
        (Z.lor (Z.lor table_phys PAGE_PRESENT) PAGE_WRITEABLE).

Definition paging_init : st vm unit :=
  modify (set_free (map (fun i => user_page_tables + 4096 * Z.of_nat i)
                        (rev (seq 0 (Z.to_nat USER_TABLE_POOL))))) ;;
  ensure_kernel_table ELF_SCRATCH_VIRT.

(** Mark the directory entry for user access if asked to and install the mapping. *)
Definition install_entry (page_directory virt ph flags : Z) : st vm Z :=
  let* e := rd page_directory (dir_index virt) in
  (if negb (Z.land flags PAGE_USER =? 0)
   then wr page_directory (dir_index virt) (Z.lor e PAGE_USER) else ret tt) ;;
  let* e := rd page_directory (dir_index virt) in
  wr (table_addr e) (table_index virt) (Z.lor (Z.lor (frame_of ph) flags) PAGE_PRESENT) ;;
  ret 0.

Definition paging_map_page_in (page_directory virt ph flags : Z) : st vm Z :=
  let* e := rd page_directory (dir_index virt) in
  if present e then install_entry page_directory virt ph flags
  else
    let* new_table := alloc_page_table in
    if new_table =? 0 then ret (-1)
    else
      let new_table_phys := u32 (new_table - KERNEL_VIRTUAL_BASE) in
      wr page_directory (dir_index virt)
        (Z.lor (Z.lor (Z.lor new_table_phys PAGE_PRESENT) PAGE_WRITEABLE) PAGE_USER) ;;
      install_entry page_directory virt ph flags.

(** [paging_map_page] is the same on the boot directory, without a result. *)
Definition paging_map_page (virt ph flags : Z) : st vm unit :=
  let* _ := paging_map_page_in boot_page_directory virt ph flags in ret tt.

Definition paging_unmap_page (virt : Z) : st vm unit :=
  let* e := rd boot_page_directory (dir_index virt) in
  if present e then wr (table_addr e) (table_index virt) 0 else ret tt.

Definition paging_create_address_space : st vm Z :=
  let* new_dir := alloc_page_table in
  if new_dir =? 0 then ret 0
  else
    modify (fun s => set_words (zero_table new_dir (words s)) s) ;;
    modify (fun s => set_words
      (for_loop 256 768 (fun i w => w.[new_dir + 4 * i <- w (boot_page_directory + 4 * i)]) (words s)) s) ;;
    ret new_dir.

(** [pmm_alloc_page] and [pmm_free_page] on this state. *)
Definition vm_alloc_page : st vm Z := fun s =>
  let '(p, m) := pmm_alloc_page (pmm s) in Some (p, set_pmm m s).
Definition vm_free_page (p : Z) : st vm unit := modify (fun s => set_pmm (pmm_free_page p (pmm s)) s).

(** [for (j = 0; j < 1024; j++) if (table[j] & PAGE_PRESENT) pmm_free_page(...)]. *)
Fixpoint free_pages_of (n : nat) (table j : Z) : st vm unit :=
  match n with
  | O => ret tt
  | S n =>
    let* e := rd table j in
    (if present e then vm_free_page (frame_of e) else ret tt) ;;
    free_pages_of n table (j + 1)
  end.

Fixpoint clear_dirs (n : nat) (page_directory i : Z) : st vm unit :=
  match n with
  | O => ret tt
  | S n =>
    let* e := rd page_directory i in
    (if present e then
       let table := table_addr e in
       free_pages_of 1024 table 0 ;;
       free_page_table table ;;
       wr page_directory i 0
     else ret tt) ;;
    clear_dirs n page_directory (i + 1)
  end.

Definition paging_clear_user_space (page_directory : Z) : st vm unit :=
  if page_directory =? 0 then ret tt else clear_dirs 768 page_directory 0.

Definition paging_destroy_address_space (page_directory : Z) : st vm unit :=
  if page_directory =? 0 then ret tt
  else
    paging_clear_user_space page_directory ;;
    free_page_table page_directory.

Definition paging_switch_address_space (page_directory : Z) : st vm unit :=
  modify (set_active page_directory).
Definition paging_switch_to_kernel : st vm unit := paging_switch_address_space boot_page_directory.

(** ** Address translation *)

(** The physical address of [virt] under directory [dir], as the MMU walks it. *)
Definition translate (w : Z -> Z) (dir virt : Z) : option Z :=
  let e := w (dir + 4 * dir_index virt) in
  if present e then
    let p := w (table_addr e + 4 * table_index virt) in
    if present p then Some (frame_of p + virt mod 4096) else None
  else None.

(** [memset(virt, 0, 4096)] and [memcpy(dst, src, 4096)] on page-aligned addresses. *)
Definition zero_page (virt : Z) : st vm unit := fun s =>
  match translate (words s) (active s) virt with
  | Some p => Some (tt, set_phys (blit (phys s) p (fun _ => 0) 0 4096) s)
  | None => None
  end.
Definition copy_page (dst src : Z) : st vm unit := fun s =>
  match translate (words s) (active s) dst, translate (words s) (active s) src with
  | Some d, Some p => Some (tt, set_phys (blit (phys s) d (phys s) p 4096) s)
  | _, _ => None
  end.
(** [n] bytes of kernel memory copied to [virt], inside one page. *)
Definition copy_in (virt : Z) (src : Z -> Z) (n : Z) : st vm unit := fun s =>
  match translate (words s) (active s) virt with
  | Some p => Some (tt, set_phys (blit (phys s) p src 0 n) s)
  | None => None
  end.

(** ** Fork *)

Fixpoint copy_table (n : nat) (src_table dst_dir d t : Z) : st vm Z :=
  match n with
  | O => ret 0
  | S n =>
    let* e := rd src_table t in
    if present e then
      let flags := Z.land e 0xFFF in
      let vaddr := Z.lor (Z.shiftl d 22) (Z.shiftl t 12) in
      let* dst_phys := vm_alloc_page in
      if dst_phys =? 0 then ret (-1)
      else
        paging_map_page FORK_SCRATCH_VIRT dst_phys (Z.lor PAGE_PRESENT PAGE_WRITEABLE) ;;
        copy_page FORK_SCRATCH_VIRT vaddr ;;
        paging_unmap_page FORK_SCRATCH_VIRT ;;
        let* r := paging_map_page_in dst_dir vaddr dst_phys flags in
        if negb (r =? 0) then
          vm_free_page dst_phys ;;
          ret (-1)
        else copy_table n src_table dst_dir d (t + 1)
    else copy_table n src_table dst_dir d (t + 1)
  end.

Fixpoint copy_dirs (n : nat) (src_dir dst_dir d : Z) : st vm Z :=
  match n with
  | O => ret 0
  | S n =>
    let* e := rd src_dir d in
    if present e then
      let* r := copy_table 1024 (table_addr e) dst_dir d 0 in
      if negb (r =? 0) then ret (-1) else copy_dirs n src_dir dst_dir (d + 1)
    else copy_dirs n src_dir dst_dir (d + 1)
  end.

Definition paging_copy_address_space (src_dir dst_dir : Z) : st vm Z :=
  if (src_dir =? 0) || (dst_dir =? 0) then ret (-1)
  else copy_dirs 768 src_dir dst_dir 0.

(** ** The initial user stack *)

Definition STACK_MAX_ARGS : nat := 16.
Definition STACK_MAX_ARG_LEN : nat := 256.

(** The characters of one token: up to a blank, at most 255. *)
Fixpoint token (n : nat) (p : list Z) : list Z * list Z :=
  match n, p with
  | S n, c :: q => if c =? 32 then ([], p) else let '(t, r) := token n q in (c :: t, r)
  | _, _ => ([], p)
  end.

Fixpoint skip_blanks (p : list Z) : list Z :=
  match p with
  | c :: q => if c =? 32 then skip_blanks q else p
  | [] => []
  end.

(** The tokeniser: at most [n] more arguments. *)
Fixpoint tokens (n : nat) (p : list Z) : list (list Z) :=
  match n with
  | O => []
  | S n =>
    match skip_blanks p with
    | [] => []
    | p => let '(t, r) := token (STACK_MAX_ARG_LEN - 1) p in t :: tokens n r
    end
  end.

(** The arguments that fit: the loop that accumulates [total_len]. *)
Fixpoint fit_args (args : list (list Z)) (total_len string_budget : Z) : list (list Z) :=
  match args with
  | [] => []
  | a :: args =>
    let slen := Z.of_nat (length a) + 1 in
    if string_budget <? total_len + slen then []
    else a :: fit_args args (total_len + slen) string_budget
  end.

(** Packing the strings from the top of the page downward, last argument first:
    the page, [top] and the user addresses of the strings. *)
Fixpoint pack_strings (base : Z) (args : list (list Z)) (page : Z -> Z) : (Z -> Z) * Z * list Z :=
  match args with
  | [] => (page, 0x1000, [])
  | a :: args =>
    let '(page, top, ptrs) := pack_strings base args page in
    let top := top - (Z.of_nat (length a) + 1) in
    let page := blit page top (fun k => ch a k) 0 (Z.of_nat (length a) + 1) in
    (page, top, u32 (base + top) :: ptrs)
  end.

(** Storing a 32-bit word at [page + top], little endian. *)
Definition put32 (page : Z -> Z) (top v : Z) : Z -> Z :=
  let page := (page.[top <- v mod 256]).[top + 1 <- v / 256 mod 256] in
  (page.[top + 2 <- v / 65536 mod 256]).[top + 3 <- v / 16777216 mod 256].

Definition get32 (page : Z -> Z) (top : Z) : Z :=
  page top + 256 * page (top + 1) + 65536 * page (top + 2) + 16777216 * page (top + 3).

(** [for (i = argc - 1; i >= 0; i--) { top -= 4; ... = str_user_ptrs[i]; }]. *)
Fixpoint pack_ptrs (ptrs : list Z) (page : Z -> Z) (top : Z) : (Z -> Z) * Z :=
  match ptrs with
  | [] => (page, top)
  | p :: ptrs =>
    let '(page, top) := pack_ptrs ptrs page top in (put32 page (top - 4) p, top - 4)
  end.

(** The arguments that are passed: tokens, less those that do not fit in the page
    beside the pointer array and the entry frame. *)
Definition stack_args (cmdline : list Z) : list (list Z) :=
  let args := tokens STACK_MAX_ARGS cmdline in
  let reserved := 4 * (Z.of_nat (length args) + 1) + 16 in
  let string_budget := if reserved <? 0x1000 then 0x1000 - reserved else 0 in
  fit_args args 0 string_budget.

(** The contents of the stack page and the offset of the initial stack pointer. *)
Definition user_stack (base : Z) (cmdline : list Z) : (Z -> Z) * Z :=
  let args := stack_args cmdline in
  let argc := Z.of_nat (length args) in
  let '(page, top, ptrs) := pack_strings base args (fun _ => 0) in
  let top := top / 4 * 4 in
  let top := top - 4 in
  let page := put32 page top 0 in
  let '(page, top) := pack_ptrs ptrs page top in
  let argv := u32 (base + top) in
  let page := put32 page (top - 4) 0 in
  let page := put32 page (top - 8) argv in
  let page := put32 page (top - 12) argc in
  let page := put32 page (top - 16) 0 in
  (page, top - 16).

Definition paging_build_user_stack (stack_phys user_page_base : Z) (cmdline : option (list Z)) : st vm Z :=
  paging_map_page STACK_SCRATCH_VIRT stack_phys (Z.lor PAGE_PRESENT PAGE_WRITEABLE) ;;
  zero_page STACK_SCRATCH_VIRT ;;
  let '(page, top) := user_stack user_page_base (default [] cmdline) in
  copy_in STACK_SCRATCH_VIRT page 0x1000 ;;
  paging_unmap_page STACK_SCRATCH_VIRT ;;
  ret (u32 (user_page_base + top)).

End Code.
End Paging.
