(* ===== verification/PagingProps.v ===== *)
(** * Properties of the page tables and of the initial user stack

    Mapping a page changes the translation of exactly that page and of no other
    address space; a new address space shares the kernel half and has an empty user
    half; the stack page built for a program has the layout its startup code reads. *)

From S2P Require Import Prelude Pmm Paging.

Module PagingProps.

Import Paging.

(** ** Entries *)

Lemma land_user_keeps e m : Z.land 4 m = 0 -> Z.land (Z.lor e PAGE_USER) m = Z.land e m.
Proof. intros H. rewrite Z.land_lor_distr_l. unfold PAGE_USER. by rewrite H, Z.lor_0_r. Qed.

Lemma frame_user e : frame_of (Z.lor e PAGE_USER) = frame_of e.
Proof. by apply land_user_keeps. Qed.

Lemma present_user e : present (Z.lor e PAGE_USER) = present e.
Proof. unfold present. by rewrite land_user_keeps. Qed.

Lemma present_set x : present (Z.lor x PAGE_PRESENT) = true.
Proof.
  unfold present, PAGE_PRESENT. rewrite Z.land_lor_distr_l. change (Z.land 1 1) with 1.
  destruct (Z.eqb_spec (Z.lor (Z.land x 1) 1) 0) as [E|]; [|done].
  apply Z.lor_eq_0_iff in E as [_ ?]. done.
Qed.

Lemma frame_flags a f : 0 <= f < 4096 -> frame_of (Z.lor a f) = frame_of a.
Proof.
  intros Hf. unfold frame_of. rewrite Z.land_lor_distr_l.
  rewrite (land_align_page f) by lia. rewrite Z.div_small by lia. apply Z.lor_0_r.
Qed.

Lemma frame_aligned a : 0 <= a < 4294967296 -> a mod 4096 = 0 -> frame_of a = a.
Proof. intros Ha Hm. unfold frame_of. rewrite land_align_page by done. zmod. Qed.

Lemma frame_pte ph flags : 0 <= ph < 4294967296 -> ph mod 4096 = 0 -> 0 <= flags < 4096 ->
  frame_of (Z.lor (Z.lor (frame_of ph) flags) PAGE_PRESENT) = ph.
Proof.
  intros Hp Hm Hf. rewrite frame_flags by (unfold PAGE_PRESENT; lia). rewrite frame_flags by done.
  by rewrite !frame_aligned by (rewrite ?frame_aligned; done).
Qed.

Lemma dir_index_eq v : dir_index v = v / 4194304.
Proof. unfold dir_index. by rewrite Z.shiftr_div_pow2. Qed.

Lemma table_index_eq v : table_index v = v / 4096 mod 1024.
Proof.
  unfold table_index. change 0x3FF with (2 ^ 10 - 1). by rewrite land_mask_lo, Z.shiftr_div_pow2 by lia.
Qed.

Lemma index_page v v' : 0 <= v -> 0 <= v' -> dir_index v = dir_index v' -> table_index v = table_index v' ->
  v / 4096 = v' / 4096.
Proof. rewrite !dir_index_eq, !table_index_eq. intros. zmod. Qed.

Lemma dir_index_range v : is_u32 v -> 0 <= dir_index v < 1024.
Proof. unfold is_u32. rewrite dir_index_eq. intros. zmod. Qed.

Lemma table_index_range v : 0 <= table_index v < 1024.
Proof. rewrite table_index_eq. zmod. Qed.

(** ** Tables *)

(** A page of table memory: page-aligned in the identity-mapped kernel half. *)
Definition table_page (t : Z) : Prop := KERNEL_VIRTUAL_BASE <= t < 0xFFFFF000 /\ t mod 4096 = 0.

(** The table a fresh directory entry points to. *)
Definition entry_for (t flags : Z) : Z := Z.lor (u32 (t - KERNEL_VIRTUAL_BASE)) flags.

Lemma entry_for_addr t flags : table_page t -> 0 <= flags < 4096 -> table_addr (entry_for t flags) = t.
Proof.
  unfold table_page, KERNEL_VIRTUAL_BASE. intros [Ht Hm] Hf. unfold table_addr, entry_for.
  rewrite frame_flags by done. unfold KERNEL_VIRTUAL_BASE.
  rewrite (u32_small (t - _)) by (unfold is_u32; lia).
  rewrite frame_aligned by (lia || zmod). rewrite u32_small; [lia|]. unfold is_u32. lia.
Qed.

Lemma entry_for_present t flags : Z.land flags 1 = 1 -> present (entry_for t flags) = true.
Proof.
  intros Hf. unfold present, entry_for, PAGE_PRESENT. rewrite Z.land_lor_distr_l, Hf.
  destruct (Z.eqb_spec (Z.lor (Z.land (u32 (t - KERNEL_VIRTUAL_BASE)) 1) 1) 0) as [E|]; [|done].
  apply Z.lor_eq_0_iff in E as [_ ?]. done.
Qed.

Lemma zero_table_at t w x :
  zero_table t w x = if (t <=? x) && (x <? t + 4096) && ((x - t) mod 4 =? 0) then 0 else w x.
Proof.
  unfold zero_table. change (t + 4096) with (t + 4 * (0 + Z.of_nat 1024)).
  apply (for_loop_ind (fun i w' => forall x, w' x =
    if (t <=? x) && (x <? t + 4 * i) && ((x - t) mod 4 =? 0) then 0 else w x)); clear x.
  - intros x. zspec; simpl; done || lia.
  - intros i w' Hi IH x. unfold upd. rewrite IH. zspec; simpl; try done; try lia; exfalso; zmod.
Qed.

Lemma zero_table_other t w x : ~ t <= x < t + 4096 -> zero_table t w x = w x.
Proof. intros. rewrite zero_table_at. zspec; simpl; done || lia. Qed.

Lemma zero_table_entry t w i : 0 <= i < 1024 -> zero_table t w (t + 4 * i) = 0.
Proof.
  intros. rewrite zero_table_at. destruct (Z.eqb_spec ((t + 4 * i - t) mod 4) 0) as [|Hne].
  - zspec; simpl; done || lia.
  - exfalso. apply Hne. zmod.
Qed.

(** Two different table pages do not share an entry. *)
Lemma entries_apart t t' i j : table_page t -> table_page t' -> t <> t' ->
  0 <= i < 1024 -> 0 <= j < 1024 -> t + 4 * i <> t' + 4 * j.
Proof. unfold table_page. intros [? ?] [? ?] ? ? ?. zmod. Qed.

(** The table of entry [i] of directory [dir], if it is present. *)
Definition sub_table (w : Z -> Z) (dir i : Z) : option Z :=
  let e := w (dir + 4 * i) in if present e then Some (table_addr e) else None.

(** Directory [dir] is well formed: its tables are different pages of table memory,
    none of them the directory or free, and neither is the directory. *)
Record dir_ok (s : vm) (dir : Z) : Prop := {
  do_page : table_page dir;
  do_tables : forall i t, 0 <= i < 1024 -> sub_table (words s) dir i = Some t -> table_page t /\ t <> dir;
  do_inj : forall i j t, 0 <= i < 1024 -> 0 <= j < 1024 ->
    sub_table (words s) dir i = Some t -> sub_table (words s) dir j = Some t -> i = j;
  do_free : forall t, t ∈ free_tables s -> table_page t /\ t <> dir
    /\ forall i, 0 <= i < 1024 -> sub_table (words s) dir i <> Some t;
  do_nodup : NoDup (free_tables s)
}.

Lemma translate_eq w dir v :
  translate w dir v = match sub_table w dir (dir_index v) with
    | Some t => let p := w (t + 4 * table_index v) in
                if present p then Some (frame_of p + v mod 4096) else None
    | None => None
    end.
Proof. unfold translate, sub_table. by destruct (present _). Qed.

(** The entry for [virt] is in table [t], which directory entry [di] points to:
    installing a mapping there. *)
Lemma install_ok w dir t virt ph flags :
  table_page dir -> table_page t -> t <> dir -> is_u32 virt ->
  0 <= ph < 4294967296 -> ph mod 4096 = 0 -> 0 <= flags < 4096 ->
  sub_table w dir (dir_index virt) = Some t ->
  (forall i, 0 <= i < 1024 -> i <> dir_index virt -> sub_table w dir i <> Some t) ->
  (forall i k, 0 <= i < 1024 -> sub_table w dir i = Some k -> table_page k /\ k <> dir) ->
  let w1 := if negb (Z.land flags PAGE_USER =? 0)
            then w.[dir + 4 * dir_index virt <- Z.lor (w (dir + 4 * dir_index virt)) PAGE_USER] else w in
  let w2 := w1.[t + 4 * table_index virt <- Z.lor (Z.lor (frame_of ph) flags) PAGE_PRESENT] in
  table_addr (w1 (dir + 4 * dir_index virt)) = t
  /\ (forall i, 0 <= i < 1024 -> sub_table w2 dir i = sub_table w dir i)
  /\ translate w2 dir virt = Some (ph + virt mod 4096)
  /\ forall v, is_u32 v -> v / 4096 <> virt / 4096 -> translate w2 dir v = translate w dir v.
Proof.
  intros Hd Ht Htd Hv Hp0 Hp Hf Hsub Hother Htabs w1 w2.
  pose proof (dir_index_range virt Hv) as Hdi. pose proof (table_index_range virt) as Hti.
  assert (forall i, 0 <= i < 1024 -> present (w1 (dir + 4 * i)) = present (w (dir + 4 * i))
    /\ table_addr (w1 (dir + 4 * i)) = table_addr (w (dir + 4 * i))) as H1.
  { intros i Hi. unfold w1. destruct (negb (Z.land flags PAGE_USER =? 0)); [|done]. unfold upd.
    destruct (Z.eqb_spec (dir + 4 * i) (dir + 4 * dir_index virt)) as [E|]; [|done].
    assert (i = dir_index virt) as -> by lia. unfold table_addr. by rewrite present_user, frame_user. }
  assert (forall i, 0 <= i < 1024 -> sub_table w2 dir i = sub_table w dir i) as Hsubs.
  { intros i Hi. unfold sub_table, w2. rewrite upd_other.
    - by destruct (H1 i Hi) as [-> ->].
    - apply (entries_apart dir t); done || congruence. }
  split.
  { destruct (H1 _ Hdi) as [_ ->]. unfold sub_table in Hsub. destruct (present _); [|done]. by injection Hsub. }
  split; [done|]. split.
  - rewrite translate_eq, Hsubs, Hsub by done. cbv zeta. unfold w2. rewrite upd_same, present_set, frame_pte; done.
  - intros v Hvv Hne. rewrite !translate_eq, Hsubs by (by apply dir_index_range).
    destruct (sub_table w dir (dir_index v)) as [k|] eqn:Ek; [|done].
    destruct (Htabs (dir_index v) k (dir_index_range v Hvv) Ek) as [Hk Hkd].
    pose proof (table_index_range v) as Htv.
    assert (w2 (k + 4 * table_index v) = w (k + 4 * table_index v)) as ->; [|done].
    unfold w2. rewrite upd_other.
    + unfold w1. destruct (negb _); [|done]. apply upd_other. by apply entries_apart.
    + destruct (decide (k = t)) as [->|Hkt]; [|by apply entries_apart].
      intros E. apply Hne.
      destruct (decide (dir_index v = dir_index virt)) as [Hdv|Hdv].
      * apply index_page; [unfold is_u32 in *; lia|unfold is_u32 in *; lia|done|lia].
      * exfalso. by apply (Hother (dir_index v) (dir_index_range v Hvv) Hdv).
Qed.

Section Map.
Context {L : Layout}.

(** Writing the entry of a page into a table that the directory points to. *)
Lemma install_entry_ok s1 dir virt ph flags t :
  table_page dir -> is_u32 virt -> 0 <= ph < 4294967296 -> ph mod 4096 = 0 -> 0 <= flags < 4096 ->
  table_page t -> t <> dir -> sub_table (words s1) dir (dir_index virt) = Some t ->
  (forall i, 0 <= i < 1024 -> i <> dir_index virt -> sub_table (words s1) dir i <> Some t) ->
  (forall i k, 0 <= i < 1024 -> sub_table (words s1) dir i = Some k -> table_page k /\ k <> dir) ->
  exists s', install_entry dir virt ph flags s1 = Some (0, s')
  /\ free_tables s' = free_tables s1
  /\ (forall i, 0 <= i < 1024 -> sub_table (words s') dir i = sub_table (words s1) dir i)
  /\ translate (words s') dir virt = Some (ph + virt mod 4096)
  /\ (forall v, is_u32 v -> v / 4096 <> virt / 4096 -> translate (words s') dir v = translate (words s1) dir v)
  /\ (forall x, ~ dir <= x < dir + 4096 -> ~ t <= x < t + 4096 -> words s' x = words s1 x)
  /\ pmm s' = pmm s1 /\ phys s' = phys s1 /\ active s' = active s1.
Proof.
  intros Hd Hv Hp0 Hp Hf Ht Htd Hsub Hoth Htab1.
  pose proof (dir_index_range virt Hv) as Hdi. pose proof (table_index_range virt) as Hti.
  pose proof (install_ok (words s1) dir t virt ph flags Hd Ht Htd Hv Hp0 Hp Hf Hsub Hoth Htab1) as Hio. cbv zeta in Hio.
  destruct (negb (Z.land flags PAGE_USER =? 0)) eqn:Ec; destruct Hio as (Ha & Hs & Htr & Hother);
    (eexists; split; [unfold install_entry; rewrite ?Ec; unfold rd, wr, gets, modify, ret, bind; simpl; unfold set_words; simpl; rewrite Ha; reflexivity|]);
    simpl; (split; [done|]); (split; [done|]); (split; [done|]); (split; [done|]); (split; [|done]);
    intros x Hx1 Hx2; rewrite upd_other by lia; try done; by rewrite upd_other by lia.
Qed.

(** A table fresh from the pool, entered in the directory: it maps nothing yet, so every
    translation is as before. *)
Lemma fresh_table_ok s dir di t rest :
  dir_ok s dir -> 0 <= di < 1024 -> sub_table (words s) dir di = None -> free_tables s = t :: rest ->
  let w := (zero_table t (words s)).[dir + 4 * di <- entry_for t 7] in
  (forall i, 0 <= i < 1024 -> sub_table w dir i = if i =? di then Some t else sub_table (words s) dir i)
  /\ (forall v, is_u32 v -> translate w dir v = translate (words s) dir v)
  /\ (forall x, ~ dir <= x < dir + 4096 -> ~ t <= x < t + 4096 -> w x = words s x).
Proof.
  intros [Hd Htabs Hinj Hfree _] Hdi Hsub Efree w.
  destruct (Hfree t) as (Ht & Htd & Htn); [rewrite Efree; apply elem_of_cons; by left|].
  assert (Hsub2 : forall i, 0 <= i < 1024 -> sub_table w dir i = if i =? di then Some t else sub_table (words s) dir i).
  { intros i Hi. unfold sub_table, w. destruct (Z.eqb_spec i di) as [->|].
    - by rewrite upd_same, entry_for_present, entry_for_addr.
    - rewrite upd_other by lia. rewrite zero_table_other; [done|]. intros Hin. destruct Hd as [? ?], Ht as [? ?]. zmod. }
  split; [done|]. split.
  - intros v Hv. rewrite !translate_eq. rewrite Hsub2 by (by apply dir_index_range).
    pose proof (dir_index_range v Hv) as Hdv. pose proof (table_index_range v) as Htv.
    destruct (Z.eqb_spec (dir_index v) di) as [Hdi'|Hdi'].
    + rewrite Hdi', Hsub. unfold w. rewrite upd_other by (apply entries_apart; done). by rewrite zero_table_entry.
    + destruct (sub_table (words s) dir (dir_index v)) as [k|] eqn:Ek; [|done].
      destruct (Htabs _ k Hdv Ek) as [Hk Hkd]. assert (k <> t) as Hkt by (intros ->; by apply (Htn _ Hdv)).
      unfold w. rewrite upd_other by (apply entries_apart; done). rewrite zero_table_other; [done|]. destruct Hk as [? ?], Ht as [? ?]. zmod.
  - intros x Hx1 Hx2. unfold w. rewrite upd_other by lia. by apply zero_table_other.
Qed.

(** What [paging_map_page_in] does to the words of table memory. *)
Lemma map_page_in_ok s dir virt ph flags :
  dir_ok s dir -> is_u32 virt -> 0 <= ph < 4294967296 -> ph mod 4096 = 0 -> 0 <= flags < 4096 ->
  (sub_table (words s) dir (dir_index virt) = None /\ free_tables s = []
   /\ paging_map_page_in dir virt ph flags s = Some (-1, s))
  \/ exists s' t, paging_map_page_in dir virt ph flags s = Some (0, s')
     /\ sub_table (words s') dir (dir_index virt) = Some t
     /\ (sub_table (words s) dir (dir_index virt) = Some t /\ free_tables s' = free_tables s
         \/ sub_table (words s) dir (dir_index virt) = None /\ free_tables s = t :: free_tables s')
     /\ (forall i, 0 <= i < 1024 -> i <> dir_index virt -> sub_table (words s') dir i = sub_table (words s) dir i)
     /\ translate (words s') dir virt = Some (ph + virt mod 4096)
     /\ (forall v, is_u32 v -> v / 4096 <> virt / 4096 -> translate (words s') dir v = translate (words s) dir v)
     /\ (forall x, ~ dir <= x < dir + 4096 -> ~ t <= x < t + 4096 -> words s' x = words s x)
     /\ pmm s' = pmm s /\ phys s' = phys s /\ active s' = active s.
Proof.
  intros Hok Hv Hp0 Hp Hf. pose proof Hok as [Hd Htabs Hinj Hfree _].
  pose proof (dir_index_range virt Hv) as Hdi. unfold paging_map_page_in.
  set (di := dir_index virt) in *. rewrite (bind_ok (rd dir di) _ s (words s (dir + 4 * di)) s eq_refl).
  destruct (present (words s (dir + 4 * di))) eqn:Epr.
  - set (t := table_addr (words s (dir + 4 * di))).
    assert (sub_table (words s) dir di = Some t) as Hsub by (unfold sub_table; by rewrite Epr).
    destruct (Htabs di t Hdi Hsub) as [Ht Htd].
    destruct (install_entry_ok s dir virt ph flags t) as (s' & E & F1 & F2 & F3 & F4 & F5 & F6); try done.
    { intros i Hi Hne Hi'. by specialize (Hinj i di t Hi Hdi Hi' Hsub). }
    right. exists s', t. split; [exact E|]. split; [by rewrite F2|]. split; [by left|].
    split; [intros; by apply F2|]. done.
  - assert (sub_table (words s) dir di = None) as Hsub by (unfold sub_table; by rewrite Epr).
    destruct (free_tables s) as [|t rest] eqn:Efree.
    + left. split; [done|]. split; [done|]. by rewrite (bind_ok _ _ s 0 s) by (unfold alloc_page_table; by rewrite Efree).
    + destruct (Hfree t) as (Ht & Htd & Htn); [apply elem_of_cons; by left|].
      destruct (fresh_table_ok s dir di t rest Hok Hdi Hsub Efree) as (Hsub2 & Htr2 & Hw2).
      rewrite (bind_ok _ _ s t (set_words (zero_table t (words s)) (set_free rest s)))
        by (unfold alloc_page_table; by rewrite Efree).
      destruct (Z.eqb_spec t 0) as [->|_]; [by destruct Ht as [[? _] _]; unfold KERNEL_VIRTUAL_BASE in *|].
      set (s1 := set_words (zero_table t (words s)) (set_free rest s)).
      set (s2 := set_words ((words s1).[dir + 4 * di <- entry_for t 7]) s1).
      rewrite (bind_ok _ _ s1 tt s2) by (unfold wr, modify, entry_for; by rewrite <- !Z.lor_assoc).
      destruct (install_entry_ok s2 dir virt ph flags t) as (s' & E' & F1 & F2 & F3 & F4 & F5 & F6); try done.
      { simpl. rewrite Hsub2 by done. by rewrite Z.eqb_refl. }
      { intros i Hi Hne. simpl. rewrite Hsub2 by done. destruct (Z.eqb_spec i di); [done|]. by apply Htn. }
      { intros i k Hi. simpl. rewrite Hsub2 by done. destruct (Z.eqb_spec i di) as [->|].
        - intros [= <-]. done.
        - intros Hk. by eapply Htabs. }
      simpl in F2, F4, F5. right. exists s', t. split; [exact E'|]. split; [rewrite F2, Hsub2 by done; by rewrite Z.eqb_refl|].
      split; [right; split; [done|by rewrite F1]|].
      split; [intros i Hi Hne; rewrite F2, Hsub2 by done; by destruct (Z.eqb_spec i di)|].
      split; [done|]. split; [intros v Hvv Hne; by rewrite F4, Htr2|].
      split; [intros x Hx1 Hx2; by rewrite F5, Hw2|done].
Qed.

(** The directory stays well formed. *)
Lemma map_page_in_dir_ok s s' dir virt t :
  dir_ok s dir -> is_u32 virt ->
  sub_table (words s') dir (dir_index virt) = Some t ->
  (sub_table (words s) dir (dir_index virt) = Some t /\ free_tables s' = free_tables s
   \/ sub_table (words s) dir (dir_index virt) = None /\ free_tables s = t :: free_tables s') ->
  (forall i, 0 <= i < 1024 -> i <> dir_index virt -> sub_table (words s') dir i = sub_table (words s) dir i) ->
  dir_ok s' dir.
Proof.
  intros [Hd Htabs Hinj Hfree Hnd] Hv Hsub Hcase Hoth. pose proof (dir_index_range virt Hv) as Hdi.
  assert (forall i k, 0 <= i < 1024 -> sub_table (words s') dir i = Some k ->
    i = dir_index virt /\ k = t \/ i <> dir_index virt /\ sub_table (words s) dir i = Some k) as Hs.
  { intros i k Hi Hk. destruct (decide (i = dir_index virt)) as [->|]; [left; split; congruence|].
    right. split; [done|]. by rewrite <- Hoth. }
  assert (table_page t /\ t <> dir /\ (forall i, 0 <= i < 1024 -> i <> dir_index virt -> sub_table (words s) dir i <> Some t))
    as (Ht & Htd & Htn).
  { destruct Hcase as [[Hold _]|[Hnone Hfr]].
    - destruct (Htabs _ t Hdi Hold). split; [done|]. split; [done|]. intros i Hi Hne Hi'. by apply Hne, (Hinj i _ t).
    - destruct (Hfree t) as (? & ? & ?); [rewrite Hfr; apply elem_of_cons; by left|]. split; [done|]. split; [done|]. auto. }
  split; [done| | | |].
  - intros i k Hi Hk. destruct (Hs i k Hi Hk) as [[-> ->]|[_ ?]]; [done|]. by apply (Htabs i).
  - intros i j k Hi Hj Hik Hjk. destruct (Hs i k Hi Hik) as [[Ei Ek]|[Ei Ek]], (Hs j _ Hj Hjk) as [[Ej Ek']|[Ej Ek']].
    + congruence.
    + exfalso. apply (Htn j); congruence.
    + exfalso. apply (Htn i); congruence.
    + by apply (Hinj i j k).
  - intros k Hk. assert (k ∈ free_tables s /\ k <> t) as [Hkf Hkt].
    { destruct Hcase as [[Hold Hfr]|[_ Hfr]].
      - rewrite Hfr in Hk. split; [done|]. intros ->. by apply (Hfree t Hk) in Hold.
      - rewrite Hfr in Hnd |- *. apply NoDup_cons in Hnd as [Hnin _]. split; [apply elem_of_cons; by right|].
        intros ->. done. }
    destruct (Hfree k Hkf) as (? & ? & Hn). split; [done|]. split; [done|]. intros i Hi Hik.
    destruct (Hs i k Hi Hik) as [[_ ->]|[_ Hk']]; [done|]. by apply (Hn i).
  - destruct Hcase as [[_ ->]|[_ Hfr]]; [done|]. rewrite Hfr in Hnd. by apply NoDup_cons in Hnd as [_ ?].
Qed.

(** Two directories with no user table in common. *)
Definition spaces_apart (s : vm) (d1 d2 : Z) : Prop :=
  d1 <> d2 /\ forall i, 0 <= i < 768 ->
    sub_table (words s) d1 i <> Some d2 /\ sub_table (words s) d2 i <> Some d1
    /\ forall j t, 0 <= j < 768 -> sub_table (words s) d1 i = Some t -> sub_table (words s) d2 j <> Some t.

Lemma user_index v : 0 <= v < KERNEL_VIRTUAL_BASE -> 0 <= dir_index v < 768.
Proof. unfold KERNEL_VIRTUAL_BASE. rewrite dir_index_eq. intros. zmod. Qed.

Lemma page_apart x t t' i : table_page t -> table_page t' -> t <> t' -> 0 <= i < 1024 ->
  x = t + 4 * i -> ~ t' <= x < t' + 4096.
Proof. unfold table_page. intros [? ?] [? ?] ? ? ->. zmod. Qed.

(** Translation in a directory none of whose user-half words changed. *)
Lemma translate_frame w w' dir v :
  0 <= v < KERNEL_VIRTUAL_BASE ->
  w' (dir + 4 * dir_index v) = w (dir + 4 * dir_index v) ->
  (forall t, sub_table w dir (dir_index v) = Some t -> w' (t + 4 * table_index v) = w (t + 4 * table_index v)) ->
  translate w' dir v = translate w dir v.
Proof.
  intros Hv H1 H2. rewrite !translate_eq. unfold sub_table in *. rewrite H1.
  destruct (present (w (dir + 4 * dir_index v))); [|done]. by rewrite H2.
Qed.

(** ** Claims *)

(** C34: [paging_map_page_in] makes [virt] translate to the physical page it is given,
    leaves the translation of every other page of that address space as it was and
    keeps the directory well formed; it fails, changing nothing, exactly when a new
    page table is needed and the pool is empty. *)
Theorem map_page_in_correct (s : vm) dir virt ph flags :
  dir_ok s dir -> is_u32 virt -> is_u32 ph -> ph mod 4096 = 0 -> 0 <= flags < 4096 ->
  exists r s', paging_map_page_in dir virt ph flags s = Some (r, s')
  /\ (r = -1 /\ s' = s /\ sub_table (words s) dir (dir_index virt) = None /\ free_tables s = []
      \/ r = 0 /\ dir_ok s' dir /\ translate (words s') dir virt = Some (ph + virt mod 4096)
         /\ (forall v, is_u32 v -> v / 4096 <> virt / 4096 ->
              translate (words s') dir v = translate (words s) dir v)
         /\ pmm s' = pmm s /\ phys s' = phys s /\ active s' = active s).
Proof.
  intros Hok Hv Hp Hpm Hf.
  destruct (map_page_in_ok s dir virt ph flags Hok Hv Hp Hpm Hf)
    as [(Hsub & Hfr & E)|(s' & t & E & Hsub & Hcase & Hoth & Htr & Htro & _ & H1 & H2 & H3)].
  - exists (-1), s. split; [done|]. by left.
  - exists 0, s'. split; [done|]. right. split; [done|].
    split; [exact (map_page_in_dir_ok s s' dir virt t Hok Hv Hsub Hcase Hoth)|]. done.
Qed.

(** C35: Isolation: mapping a user page in one address space never changes what a user
    address of another address space translates to. *)
Theorem map_page_in_isolated (s : vm) d1 d2 virt ph flags v :
  dir_ok s d1 -> dir_ok s d2 -> spaces_apart s d1 d2 ->
  0 <= virt < KERNEL_VIRTUAL_BASE -> is_u32 ph -> ph mod 4096 = 0 -> 0 <= flags < 4096 ->
  0 <= v < KERNEL_VIRTUAL_BASE ->
  exists r s', paging_map_page_in d1 virt ph flags s = Some (r, s')
  /\ translate (words s') d2 v = translate (words s) d2 v.
Proof.
  intros Hok1 Hok2 [Hne Hap] Hv Hp Hpm Hf Hvv.
  assert (is_u32 virt) as Hvu by (unfold is_u32, KERNEL_VIRTUAL_BASE in *; lia).
  pose proof (user_index virt Hv) as Hdi. pose proof (user_index v Hvv) as Hdv.
  pose proof (table_index_range v) as Htv.
  destruct (map_page_in_ok s d1 virt ph flags Hok1 Hvu Hp Hpm Hf)
    as [(_ & _ & E)|(s' & t & E & Hsub & Hcase & _ & _ & _ & Hfr & _)]; [by eexists _, s|].
  exists 0, s'. split; [done|].
  assert (table_page t /\ t <> d2 /\ sub_table (words s) d2 (dir_index v) <> Some t) as (Ht & Htd & Htn).
  { destruct Hcase as [[Hold _]|[_ Hfree]].
    - destruct (do_tables _ _ Hok1 (dir_index virt) t ltac:(lia) Hold). split; [done|].
      destruct (Hap _ Hdi) as (H1 & _ & H3). split; [congruence|]. by eapply H3.
    - destruct (do_free _ _ Hok2 t) as (? & ? & Hn); [rewrite Hfree; apply elem_of_cons; by left|].
      split; [done|]. split; [done|]. apply Hn. lia. }
  apply translate_frame; [done| |].
  - apply Hfr.
    + apply (page_apart _ d2 d1 (dir_index v)); [apply Hok2|apply Hok1|congruence|lia|done].
    + apply (page_apart _ d2 t (dir_index v)); [apply Hok2|done|congruence|lia|done].
  - intros k Hk. destruct (do_tables _ _ Hok2 (dir_index v) k ltac:(lia) Hk) as [Hkp Hkd].
    destruct (Hap _ Hdv) as (_ & H2 & _).
    apply Hfr.
    + apply (page_apart _ k d1 (table_index v)); [done|apply Hok1|congruence|done|done].
    + apply (page_apart _ k t (table_index v)); [done|done|congruence|done|done].
Qed.

(** The words of a new directory: an empty user half, and the kernel half of the boot
    directory. *)
Lemma kernel_half_copied s d w0 :
  table_page d -> table_page boot_page_directory -> d <> boot_page_directory ->
  (forall x, ~ d <= x < d + 4096 -> w0 x = words s x) -> (forall i, 0 <= i < 1024 -> w0 (d + 4 * i) = 0) ->
  let w1 := for_loop 256 768 (fun i w => w.[d + 4 * i <- w (boot_page_directory + 4 * i)]) w0 in
  (forall x, ~ d <= x < d + 4096 -> w1 x = words s x)
  /\ forall i, 0 <= i < 1024 -> w1 (d + 4 * i) = if i <? 768 then 0 else words s (boot_page_directory + 4 * i).
Proof.
  intros Hd Hb Hdb Hw0 Hz w1.
  assert (forall i, 0 <= i < 1024 -> ~ d <= boot_page_directory + 4 * i < d + 4096) as Hbd.
  { intros i Hi. apply (page_apart _ boot_page_directory d i); done || congruence. }
  destruct (for_loop_ind (fun k w => (forall x, ~ d <= x < d + 4096 -> w x = words s x)
    /\ forall i, 0 <= i < 1024 -> w (d + 4 * i) = if (768 <=? i) && (i <? k) then words s (boot_page_directory + 4 * i) else 0)
    256 768 (fun i w => w.[d + 4 * i <- w (boot_page_directory + 4 * i)]) w0) as [H1 H2].
  - split; [done|]. intros i Hi. rewrite Hz by done. zspec; simpl; done || lia.
  - intros k w Hk [IH1 IH2]. split.
    + intros x Hx. rewrite upd_other by lia. by apply IH1.
    + intros i Hi. unfold upd. destruct (Z.eqb_spec (d + 4 * i) (d + 4 * k)) as [E|E].
      * assert (i = k) as -> by lia. rewrite IH1 by (apply Hbd; lia). zspec; simpl; done || lia.
      * rewrite IH2 by done. zspec; simpl; done || lia.
  - split; [done|]. intros i Hi. unfold w1. rewrite H2 by done. zspec; simpl; done || lia.
Qed.

(** [paging_create_address_space] returns a directory whose user half maps nothing
    and whose kernel half translates every address as the boot directory does; it
    returns 0 exactly when the table pool is empty. *)
Theorem create_address_space_correct (s : vm) :
  dir_ok s boot_page_directory ->
  exists d s', paging_create_address_space s = Some (d, s')
  /\ (d = 0 /\ free_tables s = [] /\ s' = s
      \/ d <> 0 /\ free_tables s = d :: free_tables s'
         /\ (forall v, 0 <= v < KERNEL_VIRTUAL_BASE -> translate (words s') d v = None)
         /\ (forall v, KERNEL_VIRTUAL_BASE <= v < 4294967296 ->
              translate (words s') d v = translate (words s) boot_page_directory v)
         /\ (forall v, is_u32 v ->
              translate (words s') boot_page_directory v = translate (words s) boot_page_directory v)).
Proof.
  intros Hok. pose proof Hok as [Hb Htabs Hinj Hfree Hnd].
  unfold paging_create_address_space. destruct (free_tables s) as [|d rest] eqn:Efree.
  { exists 0, s. split; [|by left]. by rewrite (bind_ok _ _ s 0 s) by (unfold alloc_page_table; by rewrite Efree). }
  destruct (Hfree d) as (Hd & Hdb & Hdn); [apply elem_of_cons; by left|].
  rewrite (bind_ok _ _ s d (set_words (zero_table d (words s)) (set_free rest s)))
    by (unfold alloc_page_table; by rewrite Efree).
  assert (d <> 0) as Hd0 by (intros ->; by destruct Hd as [[? _] _]; unfold KERNEL_VIRTUAL_BASE in *).
  destruct (Z.eqb_spec d 0); [done|]. do 2 (erewrite bind_ok by reflexivity). cbn [set_words words set_free].
  set (w0 := zero_table d (zero_table d (words s))).
  destruct (kernel_half_copied s d w0 Hd Hb Hdb) as [Hw1 Hd1].
  { intros x Hx. unfold w0. by rewrite !zero_table_other. }
  { intros i Hi. unfold w0. by rewrite zero_table_entry. }
  set (w1 := for_loop 256 768 _ w0) in *.
  assert (forall i, 0 <= i < 1024 -> ~ d <= boot_page_directory + 4 * i < d + 4096) as Hbd.
  { intros i Hi. apply (page_apart _ boot_page_directory d i); done || congruence. }
  exists d. eexists. split; [reflexivity|]. right. split; [done|]. split; [done|].
  cbn [words set_words set_free].
  assert (forall v, is_u32 v -> forall t, sub_table (words s) boot_page_directory (dir_index v) = Some t ->
    w1 (t + 4 * table_index v) = words s (t + 4 * table_index v)) as Hkt.
  { intros v Hv t Ht. pose proof (dir_index_range v Hv) as Hi. destruct (Htabs _ t Hi Ht) as [Htp _].
    apply Hw1, (page_apart _ t d (table_index v)); [done|done| |apply table_index_range|done].
    intros ->. by apply (Hdn _ Hi). }
  split; [|split].
  - intros v Hv. rewrite translate_eq. unfold sub_table. pose proof (user_index v Hv).
    rewrite Hd1 by lia. destruct (Z.ltb_spec (dir_index v) 768); [done|lia].
  - intros v Hv. assert (is_u32 v) as Hvu by (unfold is_u32, KERNEL_VIRTUAL_BASE in *; lia).
    pose proof (dir_index_range v Hvu) as Hi. rewrite !translate_eq.
    assert (sub_table w1 d (dir_index v) = sub_table (words s) boot_page_directory (dir_index v)) as ->.
    { unfold sub_table. rewrite Hd1 by done. destruct (Z.ltb_spec (dir_index v) 768); [|done].
      rewrite dir_index_eq in *. unfold KERNEL_VIRTUAL_BASE in *. exfalso. zmod. }
    destruct (sub_table (words s) boot_page_directory (dir_index v)) as [t|] eqn:Et; [|done].
    by rewrite (Hkt v Hvu t Et).
  - intros v Hv. pose proof (dir_index_range v Hv) as Hi. rewrite !translate_eq.
    assert (sub_table w1 boot_page_directory (dir_index v) = sub_table (words s) boot_page_directory (dir_index v)) as ->.
    { unfold sub_table. by rewrite Hw1 by (by apply Hbd). }
    destruct (sub_table (words s) boot_page_directory (dir_index v)) as [t|] eqn:Et; [|done].
    by rewrite (Hkt v Hv t Et).
Qed.

End Map.

(** ** The initial user stack *)

Lemma put32_out page t v x : ~ t <= x < t + 4 -> put32 page t v x = page x.
Proof. intros. unfold put32. by rewrite !upd_other by lia. Qed.

Lemma get32_put32 page t v : is_u32 v -> get32 (put32 page t v) t = v.
Proof.
  unfold is_u32. intros Hv. unfold get32, put32.
  rewrite (upd_other _ (t + 3)), (upd_other _ (t + 2)), (upd_other _ (t + 1)), upd_same by lia.
  rewrite (upd_other _ (t + 3)), (upd_other _ (t + 2)), upd_same by lia.
  rewrite (upd_other _ (t + 3)), upd_same, upd_same by lia. zmod.
Qed.

Lemma get32_other page t v t' : t' + 4 <= t \/ t + 4 <= t' -> get32 (put32 page t v) t' = get32 page t'.
Proof. intros. unfold get32. by rewrite !put32_out by lia. Qed.

Lemma get32_ext page page' t : (forall x, t <= x < t + 4 -> page x = page' x) -> get32 page t = get32 page' t.
Proof. intros H. unfold get32. by rewrite !H by lia. Qed.

(** Space the strings take. *)
Fixpoint args_size (args : list (list Z)) : Z :=
  match args with
  | [] => 0
  | a :: args => Z.of_nat (length a) + 1 + args_size args
  end.

Lemma args_size_nonneg args : 0 <= args_size args.
Proof. induction args as [|a args IH]; simpl; lia. Qed.

Lemma pack_strings_ok base args :
  let '(page, top, ptrs) := pack_strings base args (fun _ => 0) in
  top = 4096 - args_size args /\ length ptrs = length args
  /\ (forall x, ~ top <= x < 4096 -> page x = 0)
  /\ forall (i : nat) a, args !! i = Some a -> exists off, ptrs !! i = Some (u32 (base + off))
     /\ top <= off /\ off + Z.of_nat (length a) < 4096
     /\ forall k, 0 <= k <= Z.of_nat (length a) -> page (off + k) = ch a k.
Proof.
  induction args as [|a args IH]; simpl; [done|].
  pose proof (args_size_nonneg args) as Hpos.
  destruct (pack_strings base args (fun _ => 0)) as [[page top] ptrs]. destruct IH as (Ht & Hl & Hout & Hin).
  split; [lia|]. split; [simpl; by rewrite Hl|]. split.
  - intros x Hx. rewrite blit_out by lia. apply Hout. lia.
  - intros [|i] b Hb.
    + injection Hb as <-. eexists. split; [done|]. split; [lia|]. split; [lia|].
      intros k Hk. rewrite blit_in by lia. f_equal. lia.
    + destruct (Hin i b Hb) as (off & Hp & H1 & H2 & H3). exists off. split; [done|]. split; [lia|]. split; [lia|].
      intros k Hk. rewrite blit_out by lia. by apply H3.
Qed.

Lemma pack_ptrs_ok ptrs page top : Forall is_u32 ptrs ->
  let '(page', top') := pack_ptrs ptrs page top in
  top' = top - 4 * Z.of_nat (length ptrs)
  /\ (forall x, ~ top' <= x < top -> page' x = page x)
  /\ forall (i : nat) p, ptrs !! i = Some p -> get32 page' (top' + 4 * Z.of_nat i) = p.
Proof.
  induction ptrs as [|p ptrs IH]; intros Hu; simpl.
  { split; [lia|]. done. }
  apply Forall_cons in Hu as [Hp Hu]. destruct (pack_ptrs ptrs page top) as [page' top'].
  destruct (IH Hu) as (Ht & Hout & Hin). split; [lia|]. split.
  - intros x Hx. rewrite put32_out by lia. apply Hout. lia.
  - intros [|i] q Hq.
    + injection Hq as <-. rewrite Z.mul_0_r, Z.add_0_r. by apply get32_put32.
    + rewrite get32_other by lia. rewrite <- (Hin i q Hq). f_equal. lia.
Qed.

Lemma fit_args_size args total budget :
  total <= budget -> total + args_size (fit_args args total budget) <= budget.
Proof.
  revert total. induction args as [|a args IH]; intros total Ht; simpl; [lia|].
  destruct (Z.ltb_spec budget (total + (Z.of_nat (length a) + 1))); simpl; [lia|].
  specialize (IH (total + (Z.of_nat (length a) + 1)) ltac:(lia)). lia.
Qed.

Lemma fit_args_length args total budget : (length (fit_args args total budget) <= length args)%nat.
Proof.
  revert total. induction args as [|a args IH]; intros total; simpl; [lia|].
  zcase; simpl; [lia|]. specialize (IH (total + (Z.of_nat (length a) + 1))). lia.
Qed.

Lemma tokens_length n p : (length (tokens n p) <= n)%nat.
Proof.
  revert p. induction n as [|n IH]; intros p; cbn [tokens]; [simpl; lia|].
  destruct (skip_blanks p) as [|c q]; [simpl; lia|].
  destruct (token (STACK_MAX_ARG_LEN - 1) (c :: q)) as [t r]. cbn [length]. specialize (IH r). lia.
Qed.

(** Room for the pointer array and the frame below the strings. *)
Lemma stack_args_fit cmdline :
  4 * (Z.of_nat (length (stack_args cmdline)) + 1) + 16 + args_size (stack_args cmdline) <= 4096
  /\ (length (stack_args cmdline) <= 16)%nat.
Proof.
  unfold stack_args. set (args := tokens STACK_MAX_ARGS cmdline).
  assert (length args <= 16)%nat as Hl by apply tokens_length.
  destruct (Z.ltb_spec (4 * (Z.of_nat (length args) + 1) + 16) 4096); [|lia].
  set (budget := 4096 - (4 * (Z.of_nat (length args) + 1) + 16)).
  pose proof (fit_args_size args 0 budget ltac:(lia)). pose proof (fit_args_length args 0 budget). lia.
Qed.

(** C38: The stack page built for a new program holds the frame its startup code
    expects: a null return address, argc, argv and a null envp at the initial stack
    pointer, then the argv pointers and their null terminator; each argv[i] points
    into the page at a copy of the i-th argument with its NUL.  Nothing outside the
    page is written, whatever the command line. *)
Theorem user_stack_layout base cmdline page sp :
  0 <= base -> base + 4096 <= 4294967296 -> user_stack base cmdline = (page, sp) ->
  let args := stack_args cmdline in
  let argc := Z.of_nat (length args) in
  0 <= sp /\ sp mod 4 = 0 /\ sp + 20 + 4 * argc <= 4096
  /\ get32 page sp = 0 /\ get32 page (sp + 4) = argc
  /\ get32 page (sp + 8) = base + (sp + 16) /\ get32 page (sp + 12) = 0
  /\ (forall (i : nat) a, args !! i = Some a ->
       exists off, get32 page (sp + 16 + 4 * Z.of_nat i) = base + off
       /\ sp + 20 + 4 * argc <= off /\ off + Z.of_nat (length a) < 4096
       /\ forall k, 0 <= k <= Z.of_nat (length a) -> page (off + k) = ch a k)
  /\ get32 page (sp + 16 + 4 * argc) = 0
  /\ (forall x, ~ 0 <= x < 4096 -> page x = 0).
Proof.
  intros Hb0 Hb1 E args argc. unfold user_stack in E. fold args argc in E.
  destruct (stack_args_fit cmdline) as [Hfit H16]. fold args argc in Hfit, H16.
  pose proof (args_size_nonneg args) as Hpos. pose proof (pack_strings_ok base args) as Hps.
  destruct (pack_strings base args (fun _ => 0)) as [[page0 top0] ptrs]. destruct Hps as (Ht0 & Hlp & Hout0 & Hin0).
  assert (Forall is_u32 ptrs) as Hpu.
  { apply Forall_lookup. intros i p Hp. destruct (lookup_lt_is_Some_2 args i) as [a Ha].
    { rewrite <- Hlp. by eapply lookup_lt_Some. }
    destruct (Hin0 i a Ha) as (off & Hp' & _). rewrite Hp in Hp'. injection Hp' as ->. apply u32_bound. }
  set (top1 := top0 / 4 * 4 - 4) in *.
  pose proof (pack_ptrs_ok ptrs (put32 page0 top1 0) top1 Hpu) as Hpp.
  destruct (pack_ptrs ptrs (put32 page0 top1 0) top1) as [page2 top2]. destruct Hpp as (Ht2 & Hout2 & Hin2).
  injection E as <- <-. rewrite Hlp in Ht2. fold argc in Ht2. fold argc in Hfit.
  assert (0 <= top2 - 16 /\ top0 / 4 * 4 <= top0 /\ top2 mod 4 = 0) as (Hsp & Hal & Hmod)
    by (unfold top1 in *; zmod).
  assert (0 <= argc <= 16) as Hac by (unfold argc; lia).
  assert (forall x, ~ top2 - 16 <= x < top2 ->
    put32 (put32 (put32 (put32 page2 (top2 - 4) 0) (top2 - 8) (u32 (base + top2))) (top2 - 12) argc) (top2 - 16) 0 x = page2 x)
    as Hframe by (intros x Hx; rewrite !put32_out by lia; done).
  set (pg := put32 (put32 (put32 (put32 page2 (top2 - 4) 0) (top2 - 8) (u32 (base + top2))) (top2 - 12) argc) (top2 - 16) 0) in *.
  assert (forall x, ~ top2 - 16 <= x < top2 + 4 * argc + 4 -> pg x = page0 x) as Hstr.
  { intros x Hx. rewrite Hframe by lia. rewrite Hout2 by lia. apply put32_out. lia. }
  split; [done|]. split; [zmod|]. split; [unfold top1 in *; lia|].
  split; [unfold pg; apply get32_put32; unfold is_u32; lia|].
  split; [unfold pg; rewrite get32_other by lia; replace (top2 - 16 + 4) with (top2 - 12) by lia;
          apply get32_put32; unfold is_u32; lia|].
  split; [unfold pg; rewrite !get32_other by lia; replace (top2 - 16 + 8) with (top2 - 8) by lia;
          rewrite get32_put32 by apply u32_bound; rewrite u32_small; [lia|unfold is_u32, top1 in *; lia]|].
  split; [unfold pg; rewrite !get32_other by lia; replace (top2 - 16 + 12) with (top2 - 4) by lia;
          apply get32_put32; unfold is_u32; lia|].
  split; [|split].
  - intros i a Ha. destruct (Hin0 i a Ha) as (off & Hp & Ho1 & Ho2 & Ho3). exists off.
    assert (Z.of_nat i < argc) as Hi by (unfold argc; apply lookup_lt_Some in Ha; lia).
    split; [|split; [unfold top1 in *; lia|split; [done|]]].
    + rewrite (get32_ext pg page2) by (intros; apply Hframe; lia).
      replace (top2 - 16 + 16 + 4 * Z.of_nat i) with (top2 + 4 * Z.of_nat i) by lia.
      rewrite (Hin2 i _ Hp). rewrite u32_small; [done|]. unfold is_u32. lia.
    + intros k Hk. rewrite Hstr by (unfold top1 in *; lia). by apply Ho3.
  - rewrite (get32_ext pg (put32 page0 top1 0)).
    + replace (top2 - 16 + 16 + 4 * argc) with top1 by lia. apply get32_put32. unfold is_u32. lia.
    + intros x Hx. rewrite Hframe by lia. apply Hout2. lia.
  - intros x Hx. rewrite Hstr by (unfold top1 in *; lia). apply Hout0. lia.
Qed.

(** ** A small machine *)

Module Demo.

#[local] Instance demo_layout : Layout := { boot_page_directory := 0xC0101000; user_page_tables := 0xC0110000 }.

(** Entry 768 of the boot directory maps the first 4 MB, as boot.s leaves it; four
    tables of the pool are free. *)
Definition demo_words (x : Z) : Z := if x =? 0xC0101000 + 4 * 768 then 0x00102003 else 0.
Definition demo_vm : vm :=
  mk_vm demo_words [0xC0113000; 0xC0112000; 0xC0111000; 0xC0110000] Pmm.demo_state (fun _ => 0) 0xC0101000.

Lemma demo_sub dir i t : 0 <= i < 1024 -> table_page dir ->
  sub_table demo_words dir i = Some t -> dir = 0xC0101000 /\ i = 768 /\ t = 0xC0102000.
Proof.
  intros Hi Hd. unfold sub_table, demo_words.
  destruct (Z.eqb_spec (dir + 4 * i) (0xC0101000 + 4 * 768)) as [E|E]; [|done].
  change (present 0x00102003) with true. change (table_addr 0x00102003) with 0xC0102000. intros [= <-].
  destruct Hd as [_ Hm]. assert (dir = 0xC0101000) by zmod. split; [done|]. split; [lia|done].
Qed.

Lemma demo_dir dir : table_page dir -> (dir ∉ free_tables demo_vm) -> dir <> 0xC0102000 -> dir_ok demo_vm dir.
Proof.
  intros Hd Hf Hne. split; [done| | | |]; cbn [words demo_vm free_tables].
  - intros i t Hi H. apply (demo_sub dir i t Hi Hd) in H as (-> & _ & ->). split; [vm_compute; intuition congruence|done].
  - intros i j t Hi Hj H1 H2. apply (demo_sub dir i t Hi Hd) in H1 as (_ & -> & _).
    by apply (demo_sub dir j t Hj Hd) in H2 as (_ & -> & _).
  - intros t Ht. assert (table_page t /\ t <> 0xC0102000) as [Htp Ht2].
    { repeat (apply elem_of_cons in Ht as [->|Ht]; [vm_compute; intuition congruence|]). by apply not_elem_of_nil in Ht. }
    split; [done|]. split; [by intros ->|]. intros i Hi H. by apply (demo_sub dir i t Hi Hd) in H as (_ & _ & ->).
  - vm_compute. repeat constructor; set_solver.
Qed.

Lemma demo_boot : dir_ok demo_vm boot_page_directory.
Proof. apply demo_dir; [vm_compute; intuition congruence| |done]. vm_compute. set_solver. Qed.

Lemma demo_dir2 : dir_ok demo_vm 0xC0120000.
Proof. apply demo_dir; [vm_compute; intuition congruence| |done]. vm_compute. set_solver. Qed.

Lemma demo_apart : spaces_apart demo_vm boot_page_directory 0xC0120000.
Proof.
  split; [done|]. intros i Hi.
  assert (forall d t, table_page d -> sub_table demo_words d i <> Some t) as H.
  { intros d t Hd H. apply (demo_sub d i t) in H as (_ & -> & _); [lia|lia|done]. }
  split; [apply H; vm_compute; intuition congruence|]. split; [apply H; vm_compute; intuition congruence|].
  intros j t Hj Hs. exfalso. revert Hs. apply H. vm_compute. intuition congruence.
Qed.

End Demo.

#[local] Existing Instance Demo.demo_layout.

Lemma map_page_in_correct_witness :
  exists r s', paging_map_page_in boot_page_directory 0x08048000 0x500000 7 Demo.demo_vm = Some (r, s').
Proof.
  destruct (map_page_in_correct Demo.demo_vm boot_page_directory 0x08048000 0x500000 7) as (r & s' & E & _);
    [apply Demo.demo_boot|vm_compute; intuition congruence|vm_compute; intuition congruence|reflexivity|lia|].
  exists r, s'. exact E.
Defined.

Lemma map_page_in_isolated_witness :
  exists r s', paging_map_page_in boot_page_directory 0x08048000 0x500000 7 Demo.demo_vm = Some (r, s')
  /\ translate (words s') 0xC0120000 0x08048000 = translate (words Demo.demo_vm) 0xC0120000 0x08048000.
Proof.
  apply (map_page_in_isolated Demo.demo_vm boot_page_directory 0xC0120000 0x08048000 0x500000 7 0x08048000);
    [apply Demo.demo_boot|apply Demo.demo_dir2|apply Demo.demo_apart|vm_compute; intuition congruence
    |vm_compute; intuition congruence|reflexivity|lia|vm_compute; intuition congruence].
Defined.

Lemma create_address_space_correct_witness :
  exists d s', paging_create_address_space Demo.demo_vm = Some (d, s').
Proof.
  destruct (create_address_space_correct Demo.demo_vm Demo.demo_boot) as (d & s' & E & _). exists d, s'. exact E.
Defined.

Lemma user_stack_layout_witness :
  let '(page, sp) := user_stack 0xBFFFF000 (chars "echo  hi there") in
  get32 page (sp + 4) = 3.
Proof.
  destruct (user_stack 0xBFFFF000 (chars "echo  hi there")) as [page sp] eqn:E.
  destruct (user_stack_layout 0xBFFFF000 (chars "echo  hi there") page sp) as (_ & _ & _ & _ & H & _);
    [lia|lia|exact E|exact H].
Defined.

End PagingProps.
