(* ===== verification/Elf.v ===== *)
(** * The ELF loader (kernel/elf.c)

    [elf_load] over the paging state.  The file image is a byte array of [elf_size]
    bytes; reading outside it, which the code does not rule out, is undefined
    behaviour.  Segment pages are filled through the kernel's scratch window. *)

From S2P Require Import Prelude Pmm Paging PagingProps.

Module Elf.

Import Paging PagingProps.

Definition ELF_MAGIC : Z := 0x464C457F.
Definition ET_EXEC : Z := 2.
Definition PT_LOAD : Z := 1.
Definition EHDR_SIZE : Z := 52.
Definition USER_PAGE : Z := Z.lor (Z.lor PAGE_PRESENT PAGE_WRITEABLE) PAGE_USER.

Record image := mk_image { elf_data : Z -> Z; elf_size : Z }.

(** Little-endian loads inside the image. *)
Definition ld16 (im : image) (off : Z) : option Z :=
  if (0 <=? off) && (off + 2 <=? elf_size im)
  then Some (elf_data im off + 256 * elf_data im (off + 1)) else None.
Definition ld32 (im : image) (off : Z) : option Z :=
  if (0 <=? off) && (off + 4 <=? elf_size im) then Some (get32 (elf_data im) off) else None.

Record elf_header := mk_eh {
  e_magic : Z; e_type : Z; e_entry : Z; e_phoff : Z; e_phentsize : Z; e_phnum : Z }.
Record elf_phdr := mk_ph { ph_type : Z; ph_offset : Z; ph_vaddr : Z; ph_filesz : Z; ph_memsz : Z }.

Definition read_header (im : image) : option elf_header :=
  match ld32 im 0, ld16 im 16, ld32 im 24, ld32 im 28, ld16 im 42, ld16 im 44 with
  | Some m, Some t, Some e, Some po, Some pe, Some pn => Some (mk_eh m t e po pe pn)
  | _, _, _, _, _, _ => None
  end.

(** The header at [elf_data + off]; pointer arithmetic is modulo 2^32. *)
Definition read_phdr (im : image) (off : Z) : option elf_phdr :=
  match ld32 im off, ld32 im (off + 4), ld32 im (off + 8), ld32 im (off + 16), ld32 im (off + 20) with
  | Some t, Some o, Some v, Some f, Some m => Some (mk_ph t o v f m)
  | _, _, _, _, _ => None
  end.

(** [memcpy] out of the image: [None] when it leaves it. *)
Definition slice (im : image) (off n : Z) : option (Z -> Z) :=
  if (0 <=? off) && (off + n <=? elf_size im) then Some (fun i => elf_data im (off + i)) else None.

Section Loader.
Context {L : Layout}.

(** Fill the page mapped at the scratch window with page [page] of the segment. *)
Definition fill_page (im : image) (ph : elf_phdr) (page : Z) : st vm unit :=
  let vaddr := Z.land (ph_vaddr ph) 0xFFFFF000 in
  zero_page ELF_SCRATCH_VIRT ;;
  let page_start := u32 (page * 0x1000) in
  let page_end := u32 (page_start + 0x1000) in
  let file_start := u32 (ph_vaddr ph - vaddr) in
  let file_end := u32 (file_start + ph_filesz ph) in
  if (page_start <? file_end) && (file_start <? page_end) then
    let copy_start := if file_start <? page_start then page_start else file_start in
    let copy_end := if page_end <? file_end then page_end else file_end in
    let copy_len := u32 (copy_end - copy_start) in
    let* src := lift_opt (slice im (u32 (ph_offset ph + (copy_start - file_start))) copy_len) in
    copy_in (ELF_SCRATCH_VIRT + (copy_start - page_start)) src copy_len
  else ret tt.

(** One page of a segment: 0 when memory runs out. *)
Definition load_page (dir : Z) (im : image) (ph : elf_phdr) (page : Z) : st vm Z :=
  let vaddr := Z.land (ph_vaddr ph) 0xFFFFF000 in
  let* phys := vm_alloc_page in
  if phys =? 0 then ret 0
  else
    let virt := u32 (vaddr + page * 0x1000) in
    let* r := paging_map_page_in dir virt phys USER_PAGE in
    if negb (r =? 0) then
      vm_free_page phys ;;
      ret 0
    else
      paging_map_page ELF_SCRATCH_VIRT phys (Z.lor PAGE_PRESENT PAGE_WRITEABLE) ;;
      fill_page im ph page ;;
      paging_unmap_page ELF_SCRATCH_VIRT ;;
      ret 1.

Fixpoint load_pages (n : nat) (dir : Z) (im : image) (ph : elf_phdr) (page : Z) : st vm Z :=
  match n with
  | O => ret 1
  | S n =>
    let* r := load_page dir im ph page in
    if r =? 0 then ret 0 else load_pages n dir im ph (page + 1)
  end.

Definition pages_needed (memsz : Z) : Z := u32 (memsz + 0xFFF) / 0x1000.

(** The program-header loop: [None] for failure, else [highest_end]. *)
Fixpoint load_segments (n : nat) (dir : Z) (im : image) (h : elf_header) (i highest_end : Z)
  : st vm (option Z) :=
  match n with
  | O => ret (Some highest_end)
  | S n =>
    let* ph := lift_opt (read_phdr im (u32 (e_phoff h + i * e_phentsize h))) in
    if negb (ph_type ph =? PT_LOAD) then load_segments n dir im h (i + 1) highest_end
    else if ph_memsz ph =? 0 then load_segments n dir im h (i + 1) highest_end
    else
      let segment_end := u32 (ph_vaddr ph + ph_memsz ph) in
      let highest_end := if highest_end <? segment_end then segment_end else highest_end in
      let* r := load_pages (Z.to_nat (pages_needed (ph_memsz ph))) dir im ph 0 in
      if r =? 0 then ret None else load_segments n dir im h (i + 1) highest_end
  end.

(** [elf_load] for the process with directory [dir]: the entry point and
    [heap_start], or [None] for 0. *)
Definition elf_load (dir : Z) (im : image) : st vm (option (Z * Z)) :=
  if elf_size im <? EHDR_SIZE then ret None
  else
    let* h := lift_opt (read_header im) in
    if negb (e_magic h =? ELF_MAGIC) then ret None
    else if negb (e_type h =? ET_EXEC) then ret None
    else
      let* r := load_segments (Z.to_nat (e_phnum h)) dir im h 0 0 in
      match r with
      | None => ret None
      | Some highest_end =>
        let heap_start := Z.land (u32 (highest_end + 0xFFF)) 0xFFFFF000 in
        ret (Some (e_entry h, heap_start))
      end.

End Loader.

(** ** What a page of a segment holds *)

(** Byte [x] of page [page]: file data where the segment has it, zero elsewhere. *)
Definition segment_byte (im : image) (ph : elf_phdr) (page x : Z) : Z :=
  let pos := page * 4096 + x - ph_vaddr ph mod 4096 in
  if (0 <=? pos) && (pos <? ph_filesz ph) then elf_data im (ph_offset ph + pos) else 0.

(** A program header that stays inside its file and inside 32-bit arithmetic. *)
Definition phdr_ok (im : image) (ph : elf_phdr) : Prop :=
  is_u32 (ph_vaddr ph) /\ 0 <= ph_filesz ph /\ 0 <= ph_offset ph
  /\ ph_offset ph + ph_filesz ph <= elf_size im /\ elf_size im < 2147483648.

Section Proofs.
Context {L : Layout}.

(** The scratch window of the active address space is backed by page [p]. *)
Definition scratch_at (s : vm) (p : Z) : Prop :=
  translate (words s) (active s) ELF_SCRATCH_VIRT = Some p.

Lemma scratch_offset s p o : scratch_at s p -> p mod 4096 = 0 -> 0 <= o < 4096 ->
  translate (words s) (active s) (ELF_SCRATCH_VIRT + o) = Some (p + o).
Proof.
  unfold scratch_at. rewrite !translate_eq. intros H Hp Ho.
  assert (dir_index (ELF_SCRATCH_VIRT + o) = dir_index ELF_SCRATCH_VIRT
    /\ table_index (ELF_SCRATCH_VIRT + o) = table_index ELF_SCRATCH_VIRT
    /\ (ELF_SCRATCH_VIRT + o) mod 4096 = o /\ ELF_SCRATCH_VIRT mod 4096 = 0) as (-> & -> & -> & Hz).
  { rewrite !dir_index_eq, !table_index_eq. unfold ELF_SCRATCH_VIRT. repeat split; zmod. }
  rewrite Hz in H. destruct (sub_table _ _ _) as [t|]; [|done]. cbv zeta in *.
  destruct (present _); [|done]. injection H as H. f_equal. lia.
Qed.

(** Filling a page of a segment through the scratch window writes exactly that
    physical page: the bytes of the file that belong there, and zeros before the
    start of the segment and after the end of its file data. *)
Theorem fill_page_correct (s : vm) im ph page p :
  phdr_ok im ph -> 0 <= page < 262144 -> scratch_at s p -> p mod 4096 = 0 -> 0 <= p ->
  exists s', fill_page im ph page s = Some (tt, s')
  /\ (forall x, 0 <= x < 4096 -> phys s' (p + x) = segment_byte im ph page x)
  /\ (forall y, ~ p <= y < p + 4096 -> phys s' y = phys s y)
  /\ words s' = words s /\ active s' = active s /\ pmm s' = pmm s /\ free_tables s' = free_tables s.
Proof.
  intros (Hv & Hfs & Hof & Hin & Hsz) Hpg Hsc Hp Hp0. unfold fill_page.
  rewrite (land_align_page (ph_vaddr ph)) by done.
  rewrite (bind_ok (zero_page _) _ s tt (set_phys (blit (phys s) p (fun _ => 0) 0 4096) s))
    by (unfold zero_page; unfold scratch_at in Hsc; by rewrite Hsc).
  set (s1 := set_phys (blit (phys s) p (fun _ => 0) 0 4096) s).
  set (fst := ph_vaddr ph mod 4096). unfold is_u32 in Hv.
  assert (0 <= fst < 4096) as Hfst by (unfold fst; zmod).
  assert (u32 (ph_vaddr ph - ph_vaddr ph / 4096 * 4096) = fst) as ->
    by (rewrite u32_small by (unfold is_u32; zmod); unfold fst; zmod).
  rewrite (u32_small (page * 0x1000)) by (unfold is_u32; lia).
  rewrite (u32_small (page * 0x1000 + 0x1000)) by (unfold is_u32; lia).
  rewrite (u32_small (fst + ph_filesz ph)) by (unfold is_u32; lia).
  set (ps := page * 0x1000). set (fe := fst + ph_filesz ph).
  destruct (Z.ltb_spec ps fe) as [H1|H1]; [destruct (Z.ltb_spec fst (ps + 0x1000)) as [H2|H2]|]; cbn [andb].
  2,3: exists s1; (split; [done|]); (split; [|split; [|done]]);
    [ intros x Hx; simpl; rewrite blit_in by lia; unfold segment_byte; fold fst;
      destruct (Z.leb_spec 0 (page * 4096 + x - fst)), (Z.ltb_spec (page * 4096 + x - fst) (ph_filesz ph)); simpl; done || lia
    | intros y Hy; simpl; by rewrite blit_out ].
  set (cs := if fst <? ps then ps else fst). set (ce := if ps + 0x1000 <? fe then ps + 0x1000 else fe).
  assert (cs = Z.max ps fst /\ ce = Z.min (ps + 0x1000) fe) as [Hcs Hce] by (unfold cs, ce; do 2 zcase; lia).
  rewrite (u32_small (ce - cs)) by (unfold is_u32, fe in *; lia).
  rewrite u32_small by (unfold is_u32, fe in *; lia).
  assert (slice im (ph_offset ph + (cs - fst)) (ce - cs)
    = Some (fun i => elf_data im (ph_offset ph + (cs - fst) + i))) as Hsl.
  { unfold slice. unfold fe in *. destruct (Z.leb_spec 0 (ph_offset ph + (cs - fst))); [|lia].
    destruct (Z.leb_spec (ph_offset ph + (cs - fst) + (ce - cs)) (elf_size im)); [done|lia]. }
  rewrite Hsl. unfold lift_opt. erewrite bind_ok by reflexivity. unfold copy_in.
  change (words s1) with (words s). change (active s1) with (active s).
  rewrite (scratch_offset s p) by (done || lia). eexists. split; [reflexivity|].
  split; [|split; [|done]]; simpl.
  - intros x Hx. unfold segment_byte. fold fst. unfold fe in *.
    destruct (decide (p + (cs - ps) <= p + x < p + (cs - ps) + (ce - cs))) as [Hc|Hc].
    + rewrite blit_in by lia. destruct (Z.leb_spec 0 (page * 4096 + x - fst)); [|lia].
      destruct (Z.ltb_spec (page * 4096 + x - fst) (ph_filesz ph)); [|lia]. cbn [andb]. f_equal. lia.
    + rewrite blit_out, blit_in by lia.
      destruct (Z.leb_spec 0 (page * 4096 + x - fst)), (Z.ltb_spec (page * 4096 + x - fst) (ph_filesz ph));
        simpl; done || lia.
  - intros y Hy. rewrite blit_out by lia. by rewrite blit_out.
Qed.

(** The pages [elf_load] maps for a segment cover it exactly when it does not run
    over the last page boundary: the page count is computed from the size alone, so a
    segment that starts inside a page and crosses one boundary more than its size
    suggests loses its tail. *)
Theorem segment_pages_cover vaddr memsz :
  is_u32 vaddr -> 0 < memsz -> vaddr + memsz <= 4294963200 ->
  let base := Z.land vaddr 0xFFFFF000 in
  (forall a, vaddr <= a < vaddr + memsz ->
     exists page, 0 <= page < pages_needed memsz /\ base + page * 4096 <= a < base + (page + 1) * 4096)
  <-> vaddr mod 4096 + memsz <= pages_needed memsz * 4096.
Proof.
  intros Hv Hm Hend base. unfold is_u32 in Hv.
  assert (base = vaddr / 4096 * 4096) as Hb by (apply land_align_page; done).
  assert (pages_needed memsz = (memsz + 4095) / 4096) as Hp.
  { unfold pages_needed. rewrite u32_small; [done|]. unfold is_u32. lia. }
  split.
  - intros H. destruct (H (vaddr + memsz - 1)) as (page & Hpg & Ha); [lia|]. rewrite Hb in Ha.
    assert ((page + 1) * 4096 <= pages_needed memsz * 4096) by nia. zmod.
  - intros H a Ha. exists ((a - base) / 4096). rewrite Hb in *. rewrite Hp in *. zmod.
Qed.

End Proofs.

Definition demo_image : image := mk_image (fun i => i mod 256) 8192.
Definition demo_phdr : elf_phdr := mk_ph PT_LOAD 100 0x08048010 200 5000.

Lemma fill_page_correct_witness :
  exists s s', fill_page demo_image demo_phdr 0 s = Some (tt, s') /\ phys s' (0x500000 + 0x12) = 102.
Proof.
  pose (s0 := mk_vm (fun x => if x =? 0xC0101000 + 4 * 769 then 0x00103003
                              else if x =? 0xC0103000 then 0x00500003 else 0)
                [] Pmm.demo_state (fun _ => 7) 0xC0101000).
  exists s0. destruct (fill_page_correct s0 demo_image demo_phdr 0 0x500000) as (s' & E & H & _);
    [repeat split; vm_compute; congruence|lia|reflexivity|reflexivity|lia|].
  exists s'. split; [exact E|]. rewrite H by lia. reflexivity.
Defined.

(** A segment of 32 bytes at 0x08048FF0 needs two pages and gets one. *)
Lemma segment_pages_cover_witness :
  ~ (forall a, 0x08048FF0 <= a < 0x08048FF0 + 32 ->
     exists page, 0 <= page < pages_needed 32
     /\ Z.land 0x08048FF0 0xFFFFF000 + page * 4096 <= a < Z.land 0x08048FF0 0xFFFFF000 + (page + 1) * 4096).
Proof.
  intros H. apply (segment_pages_cover 0x08048FF0 32) in H; [|vm_compute; intuition congruence|lia|lia].
  vm_compute in H. congruence.
Defined.

End Elf.
