(* ===== verification/Vfs.v ===== *)
(** * The filesystem switch (fs/vfs.c, fs/vfs.h)

    A driver is a record of operations over its state; the calls forward to the
    registered driver or fail.  [fat32_vfs_ops] is the table at the end of
    fs/fat32.c. *)

From S2P Require Import Prelude Heap Disk Fat32Names Fat32.

Module Vfs.

Definition VFS_CLUSTER_EOC : Z := 0x0FFFFFF8.

(** Results: [None] is -1; otherwise the values the call stores through its pointer
    arguments. *)
Record vfs_ops (S : Type) := mk_vfs_ops {
  op_read_file : list Z -> (Z -> Z) -> Z -> st S (option (Z * (Z -> Z)));
  op_write_file : list Z -> (Z -> Z) -> Z -> st S Z;
  op_delete_file : list Z -> st S Z;
  op_rename : list Z -> list Z -> st S Z;
  op_mkdir : list Z -> st S Z;
  op_list_dir : list Z -> st S Z;
  op_chdir : list Z -> st S Z;
  op_get_cwd : st S (list Z);
  op_lookup : list Z -> st S (option (Z * Z));
  op_find_prefix : list Z -> Z -> st S (list (list Z));
  op_cluster_size : st S Z;
  op_next_cluster : Z -> st S Z;
  op_read_cluster : Z -> st S (option (Z -> Z)) }.

Arguments mk_vfs_ops {S}.
Arguments op_read_file {S}. Arguments op_write_file {S}. Arguments op_delete_file {S}.
Arguments op_rename {S}. Arguments op_mkdir {S}. Arguments op_list_dir {S}. Arguments op_chdir {S}.
Arguments op_get_cwd {S}. Arguments op_lookup {S}. Arguments op_find_prefix {S}.
Arguments op_cluster_size {S}. Arguments op_next_cluster {S}. Arguments op_read_cluster {S}.

(** ** Forwarding calls

    [g_fs] is the registered driver, NULL before [vfs_register]. *)

Section Forward.
Context {S : Type} (g_fs : option (vfs_ops S)).

Definition vfs_mounted : Z := match g_fs with Some _ => 1 | None => 0 end.

Definition vfs_read_file (path : list Z) (buf : Z -> Z) (bufsize : Z) : st S (option (Z * (Z -> Z))) :=
  match g_fs with Some fs => op_read_file fs path buf bufsize | None => ret None end.
Definition vfs_write_file (path : list Z) (buf : Z -> Z) (size : Z) : st S Z :=
  match g_fs with Some fs => op_write_file fs path buf size | None => ret (-1) end.
Definition vfs_delete_file (path : list Z) : st S Z :=
  match g_fs with Some fs => op_delete_file fs path | None => ret (-1) end.
Definition vfs_rename (oldpath newpath : list Z) : st S Z :=
  match g_fs with Some fs => op_rename fs oldpath newpath | None => ret (-1) end.
Definition vfs_mkdir (path : list Z) : st S Z :=
  match g_fs with Some fs => op_mkdir fs path | None => ret (-1) end.
Definition vfs_list_dir (path : list Z) : st S Z :=
  match g_fs with Some fs => op_list_dir fs path | None => ret (-1) end.
Definition vfs_chdir (path : list Z) : st S Z :=
  match g_fs with Some fs => op_chdir fs path | None => ret (-1) end.
Definition vfs_get_cwd : st S (list Z) :=
  match g_fs with Some fs => op_get_cwd fs | None => ret [47] end.
Definition vfs_lookup (path : list Z) : st S (option (Z * Z)) :=
  match g_fs with Some fs => op_lookup fs path | None => ret None end.
Definition vfs_find_prefix (prefix : list Z) (max_matches : Z) : st S (list (list Z)) :=
  match g_fs with Some fs => op_find_prefix fs prefix max_matches | None => ret [] end.
Definition vfs_cluster_size : st S Z :=
  match g_fs with Some fs => op_cluster_size fs | None => ret 0 end.
Definition vfs_next_cluster (cluster : Z) : st S Z :=
  match g_fs with Some fs => op_next_cluster fs cluster | None => ret 0 end.
Definition vfs_read_cluster (cluster : Z) : st S (option (Z -> Z)) :=
  match g_fs with Some fs => op_read_cluster fs cluster | None => ret None end.

End Forward.

(** ** The FAT32 driver's table *)

Section Fat32Ops.
Context {D A : Type} `{BD : BlockDev D} `{KH : KernelHeap A}.
Import Fat32.

Definition fat32_vfs_ops (g : geom) : vfs_ops (fs (D := D) (A := A)) :=
  mk_vfs_ops
    (fun path buf n => fat32_read_file g (Some path) (Some buf) n)
    (fun path buf n => fat32_write_file g (Some path) (Some buf) n)
    (fun path => fat32_delete_file g (Some path))
    (fun oldpath newpath => fat32_rename_file g (Some oldpath) (Some newpath))
    (fun path => fat32_mkdir g (Some path))
    (fun path => fat32_list_dir g (Some path))
    (fun path => fat32_cd g (Some path))
    fat32_get_cwd_path
    (fun path => fat32_lookup_file g (Some path))
    (fun prefix n => fat32_find_prefix g (Some prefix) n)
    (ret (fat32_cluster_size g))
    (fat32_next_cluster g)
    (fat32_read_cluster g).

End Fat32Ops.
End Vfs.
