(* ===== verification/CString.v ===== *)
(** * String and memory functions (user/string.c, user/ctype.c, lib/string.c)

    The C library's functions on a byte memory; [lib/string.c] is the kernel's copy of
    five of them.  Loops that run to a terminator take a bound on their iterations and
    give [None] when it is not enough, which the theorems exclude.  A pointer result
    of 0 is the null pointer. *)

From S2P Require Import Prelude.

Module CString.

Abbreviation mem := (Z -> Z).

(** ** Lengths, comparison and search *)

Fixpoint strlen_from (fuel : nat) (m : mem) (str len : Z) : option Z :=
  match fuel with
  | O => None
  | S n => if m (str + len) =? 0 then Some len else strlen_from n m str (len + 1)
  end.
Definition strlen (fuel : nat) (m : mem) (str : Z) : option Z := strlen_from fuel m str 0.

Fixpoint strcmp (fuel : nat) (m : mem) (a b : Z) : option Z :=
  match fuel with
  | O => None
  | S n => if negb (m a =? 0) && (m a =? m b) then strcmp n m (a + 1) (b + 1)
           else Some (u8 (m a) - u8 (m b))
  end.

Fixpoint strncmp (n : nat) (m : mem) (a b : Z) : Z :=
  match n with
  | O => 0
  | S n => if negb (m a =? m b) then u8 (m a) - u8 (m b)
           else if m a =? 0 then 0 else strncmp n m (a + 1) (b + 1)
  end.

Fixpoint strchr (fuel : nat) (m : mem) (s c : Z) : option Z :=
  match fuel with
  | O => None
  | S n => if m s =? 0 then Some (if c =? 0 then s else 0)
           else if m s =? u8 c then Some s else strchr n m (s + 1) c
  end.

Fixpoint strrchr_from (fuel : nat) (m : mem) (s c last : Z) : option Z :=
  match fuel with
  | O => None
  | S n => if m s =? 0 then Some (if c =? 0 then s else last)
           else strrchr_from n m (s + 1) c (if m s =? u8 c then s else last)
  end.
Definition strrchr (fuel : nat) (m : mem) (s c : Z) : option Z := strrchr_from fuel m s c 0.

Fixpoint memcmp (n : nat) (m : mem) (a b : Z) : Z :=
  match n with
  | O => 0
  | S n => if negb (m a =? m b) then m a - m b else memcmp n m (a + 1) (b + 1)
  end.

Fixpoint memchr (n : nat) (m : mem) (s c : Z) : Z :=
  match n with
  | O => 0
  | S n => if m s =? u8 c then s else memchr n m (s + 1) c
  end.

(** The inner loop of [strstr]: whether the needle ran out first. *)
Fixpoint prefix_at (fuel : nat) (m : mem) (h n : Z) : option bool :=
  match fuel with
  | O => None
  | S k => if negb (m h =? 0) && negb (m n =? 0) && (m h =? m n) then prefix_at k m (h + 1) (n + 1)
           else Some (m n =? 0)
  end.

Fixpoint strstr_from (fuel : nat) (m : mem) (haystack needle : Z) : option Z :=
  match fuel with
  | O => None
  | S k => if m haystack =? 0 then Some 0
           else match prefix_at (S k) m haystack needle with
                | None => None
                | Some true => Some haystack
                | Some false => strstr_from k m (haystack + 1) needle
                end
  end.
Definition strstr (fuel : nat) (m : mem) (haystack needle : Z) : option Z :=
  if m needle =? 0 then Some haystack else strstr_from fuel m haystack needle.

(** ** Copying *)

Definition memcpy (m : mem) (dst src n : Z) : mem :=
  for_loop (Z.to_nat n) 0 (fun i m => m.[dst + i <- m (src + i)]) m.

Definition memset (m : mem) (dst value n : Z) : mem :=
  for_loop (Z.to_nat n) 0 (fun i m => m.[dst + i <- u8 value]) m.

(** Backwards when the destination lies behind the source. *)
Definition memmove (m : mem) (dst src n : Z) : mem :=
  if (dst =? src) || (n =? 0) then m
  else if dst <? src then for_loop (Z.to_nat n) 0 (fun i m => m.[dst + i <- m (src + i)]) m
  else for_loop (Z.to_nat n) 0 (fun j m => let i := n - j in m.[dst + i - 1 <- m (src + i - 1)]) m.

Fixpoint strcpy (fuel : nat) (m : mem) (dst src : Z) : option mem :=
  match fuel with
  | O => None
  | S n => let c := m src in
           let m := m.[dst <- c] in
           if c =? 0 then Some m else strcpy n m (dst + 1) (src + 1)
  end.

(** [for (i = 0; i < n && src[i]; i++) dst[i] = src[i];] and where it stops. *)
Fixpoint copy_upto (n : nat) (m : mem) (dst src i : Z) : mem * Z :=
  match n with
  | O => (m, i)
  | S k => if m (src + i) =? 0 then (m, i) else copy_upto k (m.[dst + i <- m (src + i)]) dst src (i + 1)
  end.

Definition strncpy (m : mem) (dst src n : Z) : mem :=
  let '(m, i) := copy_upto (Z.to_nat n) m dst src 0 in
  for_loop (Z.to_nat (n - i)) i (fun i m => m.[dst + i <- 0]) m.

Definition strcat (fuel : nat) (m : mem) (dst src : Z) : option mem :=
  match strlen fuel m dst with
  | None => None
  | Some len => strcpy fuel m (dst + len) src
  end.

Definition strncat (fuel : nat) (m : mem) (dst src n : Z) : option mem :=
  match strlen fuel m dst with
  | None => None
  | Some len => let '(m, i) := copy_upto (Z.to_nat n) m (dst + len) src 0 in Some (m.[dst + len + i <- 0])
  end.

(** ** Character classes *)

Definition isalpha (c : Z) : bool := (65 <=? c) && (c <=? 90) || (97 <=? c) && (c <=? 122).
Definition isdigit (c : Z) : bool := (48 <=? c) && (c <=? 57).
Definition isspace (c : Z) : bool :=
  (c =? 32) || (c =? 9) || (c =? 10) || (c =? 11) || (c =? 12) || (c =? 13).
Definition isxdigit (c : Z) : bool :=
  (48 <=? c) && (c <=? 57) || (65 <=? c) && (c <=? 70) || (97 <=? c) && (c <=? 102).
Definition isalnum (c : Z) : bool := isalpha c || isdigit c.
Definition toupper (c : Z) : Z := if (97 <=? c) && (c <=? 122) then c - 97 + 65 else c.
Definition tolower (c : Z) : Z := if (65 <=? c) && (c <=? 90) then c - 65 + 97 else c.

(** ** Strings in memory *)

Record str_at (m : mem) (p : Z) (s : list Z) : Prop := {
  sa_nul : Forall (fun c => 0 < c < 256) s;
  sa_cells : forall i, 0 <= i <= Z.of_nat (length s) -> m (p + i) = ch s i }.

Lemma str_at_nil m p s : str_at m p s -> m p = ch s 0.
Proof. intros [_ H]. rewrite <- (H 0) by lia. by rewrite Z.add_0_r. Qed.

Lemma str_at_tail m p c s : str_at m p (c :: s) -> str_at m (p + 1) s.
Proof.
  intros [H1 H2]. split; [by apply Forall_cons in H1 as [_ H1]|]. intros i Hi.
  replace (p + 1 + i) with (p + (i + 1)) by lia. rewrite H2 by (cbn [length]; lia).
  unfold ch. by replace (Z.to_nat (i + 1)) with (S (Z.to_nat i)) by lia.
Qed.

Lemma str_at_head m p c s : str_at m p (c :: s) -> m p = c /\ 0 < c < 256.
Proof. intros H. split; [exact (str_at_nil _ _ _ H)|]. destruct H as [H _]. by apply Forall_cons in H as [H _]. Qed.

Lemma strlen_at fuel m p s len : str_at m (p + len) s -> (length s < fuel)%nat ->
  strlen_from fuel m p len = Some (len + Z.of_nat (length s)).
Proof.
  revert fuel len. induction s as [|c s IH]; intros [|fuel] len Hs Hf; simpl in *; try lia.
  - rewrite (str_at_nil _ _ _ Hs). simpl. f_equal. lia.
  - destruct (str_at_head _ _ _ _ Hs) as [-> Hc]. destruct (Z.eqb_spec c 0); [lia|].
    rewrite (IH fuel (len + 1)) by (try lia; rewrite Z.add_assoc; by eapply str_at_tail). f_equal. lia.
Qed.

(** ** Reference functions on lists *)

(** The first difference, a shorter string ending in its terminator. *)
Fixpoint first_diff (s t : list Z) : Z :=
  match s, t with
  | [], [] => 0
  | c :: _, [] => c
  | [], d :: _ => - d
  | c :: s, d :: t => if c =? d then first_diff s t else c - d
  end.

Fixpoint is_prefix (t s : list Z) : bool :=
  match t, s with
  | [], _ => true
  | d :: t, c :: s => (c =? d) && is_prefix t s
  | _ :: _, [] => false
  end.

(** The first place at which [t] occurs in [s]. *)
Fixpoint occurs (s t : list Z) : option nat :=
  if is_prefix t s then Some 0%nat else match s with [] => None | _ :: s => S <$> occurs s t end.

Fixpoint index_of (c : Z) (s : list Z) : option nat :=
  match s with [] => None | d :: s => if d =? c then Some 0%nat else S <$> index_of c s end.

Definition pointer (p : Z) (i : option nat) : Z := match i with Some i => p + Z.of_nat i | None => 0 end.

Lemma pointer_next p i : pointer p (S <$> i) = pointer (p + 1) i.
Proof. destruct i; simpl; lia. Qed.

Lemma strcmp_at fuel m a b s t : str_at m a s -> str_at m b t -> (length s < fuel)%nat ->
  strcmp fuel m a b = Some (first_diff s t).
Proof.
  revert fuel a b t. induction s as [|c s IH]; intros [|fuel] a b t Hs Ht Hf; simpl in *; try lia.
  - rewrite (str_at_nil _ _ _ Hs). simpl. destruct t as [|d t].
    + by rewrite (str_at_nil _ _ _ Ht).
    + destruct (str_at_head _ _ _ _ Ht) as [-> Hd]. rewrite (u8_small d) by (unfold is_byte; lia). by f_equal.
  - destruct (str_at_head _ _ _ _ Hs) as [-> Hc]. rewrite (u8_small c) by (unfold is_byte; lia).
    destruct (Z.eqb_spec c 0); [lia|]. simpl. destruct t as [|d t].
    + rewrite (str_at_nil _ _ _ Ht). change (ch [] 0) with 0. destruct (Z.eqb_spec c 0); [lia|]. f_equal. apply Z.sub_0_r.
    + destruct (str_at_head _ _ _ _ Ht) as [-> Hd]. rewrite (u8_small d) by (unfold is_byte; lia).
      destruct (Z.eqb_spec c d); [|done]. apply IH; [by eapply str_at_tail..|lia].
Qed.

Lemma strchr_at fuel m p s c : str_at m p s -> (length s < fuel)%nat -> 0 < c < 256 ->
  strchr fuel m p c = Some (pointer p (index_of c s)).
Proof.
  revert fuel p. induction s as [|d s IH]; intros [|fuel] p Hs Hf Hc; simpl in *; try lia.
  - rewrite (str_at_nil _ _ _ Hs). simpl. by destruct (Z.eqb_spec c 0); [lia|].
  - destruct (str_at_head _ _ _ _ Hs) as [-> Hd]. rewrite u8_small by (unfold is_byte; lia).
    destruct (Z.eqb_spec d 0); [lia|]. destruct (Z.eqb_spec d c); simpl; [f_equal; lia|].
    rewrite pointer_next. apply IH; [by eapply str_at_tail|lia|done].
Qed.

Lemma prefix_at_ok fuel m h n s t : str_at m h s -> str_at m n t -> (length t < fuel)%nat ->
  prefix_at fuel m h n = Some (is_prefix t s).
Proof.
  revert fuel h n s. induction t as [|d t IH]; intros [|fuel] h n s Hs Ht Hf; simpl in *; try lia.
  - rewrite (str_at_nil _ _ _ Ht). simpl. by rewrite andb_false_r.
  - destruct (str_at_head _ _ _ _ Ht) as [-> Hd]. destruct (Z.eqb_spec d 0); [lia|]. simpl. destruct s as [|c s].
    + by rewrite (str_at_nil _ _ _ Hs).
    + destruct (str_at_head _ _ _ _ Hs) as [-> Hc]. destruct (Z.eqb_spec c 0); [lia|]. simpl.
      destruct (Z.eqb_spec c d); [|done]. simpl. apply IH; [by eapply str_at_tail..|lia].
Qed.

Lemma strstr_at fuel m h n s t : str_at m h s -> str_at m n t -> t <> [] -> (length s + length t < fuel)%nat ->
  strstr_from fuel m h n = Some (pointer h (occurs s t)).
Proof.
  revert fuel h. induction s as [|c s IH]; intros [|fuel] h Hs Ht Hne Hf; cbn [strstr_from length] in *; try lia.
  - rewrite (str_at_nil _ _ _ Hs). by destruct t.
  - rewrite (prefix_at_ok (S fuel) m h n (c :: s) t) by (done || lia).
    destruct (str_at_head _ _ _ _ Hs) as [-> Hc]. destruct (Z.eqb_spec c 0); [lia|]. cbn [occurs].
    destruct (is_prefix t (c :: s)); simpl; [f_equal; lia|]. rewrite pointer_next. apply IH; [by eapply str_at_tail|done|done|lia].
Qed.

(** ** Copies as block moves *)

Lemma copy_forward n (m0 : mem) dst src : dst <= src ->
  forall x, for_loop n 0 (fun i m => m.[dst + i <- m (src + i)]) m0 x = blit m0 dst m0 src (Z.of_nat n) x.
Proof.
  intros Hd. induction n as [|n IH]; intros x; [by rewrite blit_out by lia|].
  rewrite for_loop_last, Z.add_0_l. unfold upd. destruct (Z.eqb_spec x (dst + Z.of_nat n)) as [->|].
  - rewrite IH, blit_out by lia. rewrite blit_in by lia. f_equal. lia.
  - rewrite IH. unfold blit. by zspec; simpl; try lia.
Qed.

Lemma copy_apart n (m0 : mem) dst src : src + Z.of_nat n <= dst ->
  forall x, for_loop n 0 (fun i m => m.[dst + i <- m (src + i)]) m0 x = blit m0 dst m0 src (Z.of_nat n) x.
Proof.
  intros Hd. induction n as [|n IH]; intros x; [by rewrite blit_out by lia|].
  rewrite for_loop_last, Z.add_0_l. unfold upd. destruct (Z.eqb_spec x (dst + Z.of_nat n)) as [->|].
  - rewrite IH, blit_out by lia. rewrite blit_in by lia. f_equal. lia.
  - rewrite IH by lia. unfold blit. by zspec; simpl; try lia.
Qed.

Lemma copy_backward n (m0 : mem) dst src : src <= dst ->
  forall k x, (k <= n)%nat -> for_loop k 0 (fun j m => let i := Z.of_nat n - j in m.[dst + i - 1 <- m (src + i - 1)]) m0 x
    = blit m0 (dst + Z.of_nat (n - k)) m0 (src + Z.of_nat (n - k)) (Z.of_nat k) x.
Proof.
  intros Hd. induction k as [|k IH]; intros x Hk; [by rewrite blit_out by lia|].
  rewrite for_loop_last, Z.add_0_l. cbn zeta. unfold upd.
  destruct (Z.eqb_spec x (dst + (Z.of_nat n - Z.of_nat k) - 1)) as [->|].
  - rewrite IH, blit_out by lia. rewrite blit_in by lia. f_equal. lia.
  - rewrite IH by lia. unfold blit. zspec; simpl; try lia; f_equal; lia.
Qed.

Lemma memset_eq n (m0 : mem) dst value : 0 <= n ->
  forall x, memset m0 dst value n x = blit m0 dst (fun _ => u8 value) 0 n x.
Proof.
  intros Hn x. unfold memset. rewrite <- (Z2Nat.id n) at 2 by done.
  induction (Z.to_nat n) as [|k IH]; [by rewrite blit_out by lia|].
  rewrite for_loop_last, Z.add_0_l. unfold upd at 1. destruct (Z.eqb_spec x (dst + Z.of_nat k)) as [->|].
  - by rewrite blit_in by lia.
  - rewrite IH. unfold blit. by zspec; simpl; try lia.
Qed.

Lemma memmove_eq (m : mem) dst src n x : 0 <= n -> memmove m dst src n x = blit m dst m src n x.
Proof.
  intros Hn. unfold memmove. destruct (Z.eqb_spec dst src) as [->|].
  { simpl. unfold blit. zspec; simpl; try done. f_equal. lia. }
  destruct (Z.eqb_spec n 0) as [->|]; cbn [orb]; [by rewrite blit_out by lia|].
  destruct (Z.ltb_spec dst src).
  - rewrite copy_forward by lia. by rewrite Z2Nat.id.
  - pose proof (copy_backward (Z.to_nat n) m dst src ltac:(lia) (Z.to_nat n) x ltac:(lia)) as E.
    rewrite Z2Nat.id in E by done. etransitivity; [exact E|]. rewrite Nat.sub_diag. simpl. by rewrite !Z.add_0_r.
Qed.

(** [memmove] copies exactly [n] bytes from where they were before the call,
    whatever the overlap of the two regions, and changes no other byte; when the regions are disjoint
    (or the destination lies below the source) [memcpy] does the same. *)
Theorem memmove_is_block_move (m : mem) dst src n : 0 <= n ->
  (forall x, memmove m dst src n x = if (dst <=? x) && (x <? dst + n) then m (x - dst + src) else m x)
  /\ ((dst <= src \/ src + n <= dst) -> forall x, memcpy m dst src n x = memmove m dst src n x).
Proof.
  intros Hn. split.
  - intros x. rewrite memmove_eq by done. unfold blit. by rewrite (Z.add_comm src).
  - intros Hd x. rewrite memmove_eq by done. unfold memcpy. rewrite <- (Z2Nat.id n) at 2 by done.
    destruct Hd as [Hd|Hd]; [by apply copy_forward|]. apply copy_apart. lia.
Qed.

Lemma memmove_is_block_move_witness :
  memmove (fun i => i) 12 10 5 14 = 12 /\ memmove (fun i => i) 12 10 5 17 = 17.
Proof. split; apply (proj1 (memmove_is_block_move (fun i => i) 12 10 5 ltac:(lia))). Defined.

(** On strings [s] and [t] in memory, [strlen], [strcmp], [strchr] and [strstr]
    terminate and compute the length, the first difference, the first occurrence of a
    character and the first occurrence of a string of the list functions above, the null
    pointer when there is none. *)
Theorem string_functions_agree fuel (m : mem) p q s t c :
  str_at m p s -> str_at m q t -> (length s + length t < fuel)%nat -> 0 < c < 256 ->
  strlen fuel m p = Some (Z.of_nat (length s))
  /\ strcmp fuel m p q = Some (first_diff s t)
  /\ strchr fuel m p c = Some (pointer p (index_of c s))
  /\ strstr fuel m p q = Some (pointer p (occurs s t)).
Proof.
  intros Hs Ht Hf Hc. split_and!.
  - unfold strlen. rewrite (strlen_at fuel m p s 0) by (try lia; by rewrite Z.add_0_r). done.
  - apply strcmp_at; [done|done|lia].
  - apply strchr_at; [done|lia|done].
  - unfold strstr. rewrite (str_at_nil _ _ _ Ht). destruct t as [|d t].
    + simpl. destruct s; simpl; f_equal; lia.
    + destruct (str_at_head _ _ _ _ Ht) as [_ Hd]. unfold ch; simpl. destruct (Z.eqb_spec d 0); [lia|].
      by apply strstr_at.
Qed.

(** The strings "gordos" at 100 and "do" at 200. *)
Definition two_strings : mem := fun x =>
  if x <? 200 then ch (chars "gordos") (x - 100) else ch (chars "do") (x - 200).

Lemma string_functions_agree_witness :
  strlen 20 two_strings 100 = Some 6 /\ strstr 20 two_strings 100 200 = Some 103.
Proof.
  destruct (string_functions_agree 20 two_strings 100 200 (chars "gordos") (chars "do") 111) as (H1 & _ & _ & H4).
  - split; [repeat constructor; lia|]. intros i Hi. unfold two_strings. simpl in Hi.
    destruct (Z.ltb_spec (100 + i) 200); [|lia]. f_equal. lia.
  - split; [repeat constructor; lia|]. intros i Hi. unfold two_strings. simpl in Hi.
    destruct (Z.ltb_spec (200 + i) 200); [lia|]. f_equal. lia.
  - simpl. lia.
  - lia.
  - split; [exact H1|exact H4].
Defined.

End CString.
