(* ===== verification/KString.v ===== *)
(** * The kernel's string functions (lib/string.c)

    The five functions the kernel's files call, and what the models of those files use in
    their place: the length of a list, equality of lists and of prefixes, and block moves. *)

From S2P Require Import Prelude CString.

Module KString.

Import CString.

Fixpoint kernel_strlen_from (fuel : nat) (m : mem) (str len : Z) : option Z :=
  match fuel with
  | O => None
  | S n => if negb (m (str + len) =? 0) then kernel_strlen_from n m str (len + 1) else Some len
  end.
Definition kernel_strlen (fuel : nat) (m : mem) (str : Z) : option Z := kernel_strlen_from fuel m str 0.

Fixpoint kernel_strcmp (fuel : nat) (m : mem) (a b : Z) : option Z :=
  match fuel with
  | O => None
  | S n => if negb (m a =? 0) && (m a =? m b) then kernel_strcmp n m (a + 1) (b + 1) else Some (u8 (m a) - u8 (m b))
  end.

(** The loop from [i] on, with [n] rounds left. *)
Fixpoint kernel_strncmp_from (n : nat) (m : mem) (a b i : Z) : Z :=
  match n with
  | O => 0
  | S n => if negb (m (a + i) =? m (b + i)) then u8 (m (a + i)) - u8 (m (b + i))
           else if m (a + i) =? 0 then 0 else kernel_strncmp_from n m a b (i + 1)
  end.
Definition kernel_strncmp (m : mem) (a b n : Z) : Z := kernel_strncmp_from (Z.to_nat n) m a b 0.

Definition kernel_memcpy (m : mem) (dst src n : Z) : mem :=
  for_loop (Z.to_nat n) 0 (fun i m => m.[dst + i <- m (src + i)]) m.

Definition kernel_memset (m : mem) (dst value n : Z) : mem :=
  for_loop (Z.to_nat n) 0 (fun i m => m.[dst + i <- u8 value]) m.

(** ** The C library's copies *)

Lemma kernel_strlen_copy fuel m str len : kernel_strlen_from fuel m str len = strlen_from fuel m str len.
Proof. revert len. induction fuel as [|n IH]; intros len; [done|]. cbn. rewrite IH. by destruct (m (str + len) =? 0). Qed.

Lemma kernel_strcmp_copy fuel m a b : kernel_strcmp fuel m a b = strcmp fuel m a b.
Proof. revert a b. induction fuel as [|n IH]; intros a b; [done|]. cbn. by rewrite IH. Qed.

Lemma kernel_strncmp_copy n m a b i : kernel_strncmp_from n m a b i = strncmp n m (a + i) (b + i).
Proof. revert i. induction n as [|n IH]; intros i; [done|]. cbn. by rewrite IH, !Z.add_assoc. Qed.

(** ** What the models use instead *)

Lemma first_diff_zero s t : Forall (fun c => 0 < c < 256) s -> Forall (fun c => 0 < c < 256) t -> first_diff s t = 0 <-> s = t.
Proof.
  intros Hs. revert t. induction Hs as [|c s Hc Hs IH]; intros t Ht; destruct Ht as [|d t Hd Ht]; cbn [first_diff]; [done|split; [lia|done]|split; [lia|done]|].
  destruct (Z.eqb_spec c d) as [->|Hne]; [rewrite IH by done; split; [by intros ->|by intros [= ->]]|split; [lia|by intros [= -> _]]].
Qed.

Lemma strncmp_zero n : forall m p q s t, str_at m p s -> str_at m q t -> strncmp n m p q = 0 <-> take n s = take n t.
Proof.
  induction n as [|n IH]; intros m p q s t Hs Ht; [done|]. cbn [strncmp]. rewrite (str_at_nil _ _ _ Hs), (str_at_nil _ _ _ Ht).
  assert (forall c l, ch (c :: l) 0 = c) as Hch by done. assert (ch [] 0 = 0) as Hnil by done.
  destruct s as [|c s], t as [|d t]; rewrite ?Hch, ?Hnil; cbn [take]; [done| | |].
  - destruct (str_at_head _ _ _ _ Ht) as [_ Hd]. rewrite (u8_small d) by (unfold is_byte; lia). destruct (Z.eqb_spec 0 d); [lia|]. cbn [negb]. split; [change (u8 0) with 0; lia|done].
  - destruct (str_at_head _ _ _ _ Hs) as [_ Hc]. rewrite (u8_small c) by (unfold is_byte; lia). destruct (Z.eqb_spec c 0); [lia|]. cbn [negb]. split; [change (u8 0) with 0; lia|done].
  - destruct (str_at_head _ _ _ _ Hs) as [_ Hc]. destruct (str_at_head _ _ _ _ Ht) as [_ Hd]. rewrite !u8_small by (unfold is_byte; lia).
    destruct (Z.eqb_spec c d) as [->|Hne]; cbn [negb]; [|split; [lia|by intros [= -> _]]]. destruct (Z.eqb_spec d 0); [lia|].
    rewrite (IH m (p + 1) (q + 1) s t) by (by eapply str_at_tail). split; [by intros ->|by intros [= ->]].
Qed.

(** On strings in memory, [strlen] is the length of the list, [strcmp] and [strncmp] give 0
    exactly for equal lists and equal prefixes; blocks that do not overlap are moved by
    [memcpy], and [memset] fills. *)
Lemma kernel_strings_are_lists fuel (m : mem) p q s t n dst src len v : str_at m p s -> str_at m q t -> (length s < fuel)%nat -> 0 <= len ->
  kernel_strlen fuel m p = Some (Z.of_nat (length s))
  /\ (exists d, kernel_strcmp fuel m p q = Some d /\ (d = 0 <-> s = t))
  /\ (kernel_strncmp m p q n = 0 <-> take (Z.to_nat n) s = take (Z.to_nat n) t)
  /\ ((dst <= src \/ src + len <= dst) -> forall x, kernel_memcpy m dst src len x = blit m dst m src len x)
  /\ forall x, kernel_memset m dst v len x = blit m dst (fun _ => u8 v) 0 len x.
Proof.
  intros Hs Ht Hf Hl. split; [|split; [|split; [|split]]].
  - unfold kernel_strlen. rewrite kernel_strlen_copy, (strlen_at fuel m p s 0) by (done || by rewrite Z.add_0_r). done.
  - exists (first_diff s t). rewrite kernel_strcmp_copy, (strcmp_at fuel m p q s t) by done. split; [done|]. apply first_diff_zero; [by apply Hs|by apply Ht].
  - unfold kernel_strncmp. rewrite kernel_strncmp_copy, !Z.add_0_r. by apply strncmp_zero.
  - intros Hd x. unfold kernel_memcpy. rewrite <- (Z2Nat.id len) at 2 by done. destruct Hd as [Hd|Hd]; [by apply copy_forward|]. apply copy_apart. lia.
  - intros x. by apply memset_eq.
Qed.

End KString.
