(* ===== verification/CNumbers.v ===== *)
(** * Numbers and text (user/stdlib.c, user/stdio.c)

    [atoi], [strtol], [strtoul], the number formatting of [printf] and [printf] itself
    on NUL-terminated strings given by their characters.  [int] and [long] are 32 bits
    wide; signed overflow wraps, as the compiler's code does on the target. *)

From S2P Require Import Prelude CString.

Module CNumbers.

Import CString.

(** ** Parsing *)

(** [while (isspace((unsigned char)*s)) s++;]. *)
Fixpoint skip_spaces (s : list Z) : list Z :=
  match s with
  | c :: s' => if isspace (u8 c) then skip_spaces s' else s
  | [] => []
  end.

(** The sign, and what follows it. *)
Definition take_sign (s : list Z) : Z * list Z :=
  match s with
  | c :: s' => if c =? 43 then (1, s') else if c =? 45 then (-1, s') else (1, s)
  | [] => (1, [])
  end.

(** [while ( *s >= '0' && *s <= '9')]. *)
Fixpoint atoi_digits (s : list Z) (result : Z) : Z :=
  match s with
  | c :: s' => if (48 <=? c) && (c <=? 57) then atoi_digits s' (s32 (result * 10 + (c - 48))) else result
  | [] => result
  end.

Definition atoi (s : list Z) : Z :=
  let '(sign, s) := take_sign (skip_spaces s) in s32 (sign * atoi_digits s 0).

(** The base that is in force, and the text behind its prefix. *)
Definition take_base (s : list Z) (base : Z) : Z * list Z :=
  if ((base =? 0) || (base =? 16)) && (ch s 0 =? 48) && ((ch s 1 =? 120) || (ch s 1 =? 88))
  then (16, drop 2 s)
  else if (base =? 0) && (ch s 0 =? 48) then (8, s)
  else if base =? 0 then (10, s)
  else (base, s).

Definition digit_of (c : Z) : option Z :=
  if (48 <=? c) && (c <=? 57) then Some (c - 48)
  else if (97 <=? c) && (c <=? 122) then Some (c - 97 + 10)
  else if (65 <=? c) && (c <=? 90) then Some (c - 65 + 10)
  else None.

(** The loop over the digits: the value modulo 2^32, and where it stops. *)
Fixpoint digits (s : list Z) (base result : Z) : Z * list Z :=
  match s with
  | c :: s' =>
    match digit_of c with
    | Some d => if base <=? d then (result, s) else digits s' base (u32 (result * base + d))
    | None => (result, s)
    end
  | [] => (result, [])
  end.

(** The value, and the text [*endptr] points to. *)
Definition strtol (nptr : list Z) (base : Z) : Z * list Z :=
  let '(sign, s) := take_sign (skip_spaces nptr) in
  let '(base, start) := take_base s base in
  let '(result, s) := digits start base 0 in
  (s32 (sign * s32 result), if (length s =? length start)%nat then nptr else s).

Definition strtoul (nptr : list Z) (base : Z) : Z * list Z :=
  let '(sign, s) := take_sign (skip_spaces nptr) in
  let '(base, start) := take_base s base in
  let '(result, s) := digits start base 0 in
  (if sign =? -1 then u32 (- s32 result) else result, if (length s =? length start)%nat then nptr else s).

(** ** Formatting *)

Definition digit_char (uppercase : bool) (d : Z) : Z :=
  ch (if uppercase then chars "0123456789ABCDEF" else chars "0123456789abcdef") d.

(** [while (val > 0)]: the digits, last one first; [None] if they overrun [room]
    characters. *)
Fixpoint low_digits (room : nat) (val base : Z) (uppercase : bool) : option (list Z) :=
  if val <=? 0 then Some []
  else match room with
       | O => None
       | S n => (cons (digit_char uppercase (val mod base))) <$> low_digits n (val / base) base uppercase
       end.

(** [format_uint]: through [tmp[16]], then reversed. *)
Definition format_uint (val base : Z) (uppercase : bool) : option (list Z) :=
  if val =? 0 then Some [48] else @rev Z <$> low_digits 16 val base uppercase.

Definition format_int (val : Z) : option (list Z) :=
  if val <? 0 then cons 45 <$> format_uint (u32 (u32 (- (val + 1)) + 1)) 10 false
  else format_uint (u32 val) 10 false.

(** ** printf *)

Inductive arg := AInt (n : Z) | AStr (s : list Z).

(** What a conversion writes, and the arguments left; [None] when the format and the
    arguments do not match. *)
Definition convert_arg (spec : Z) (args : list arg) : option (list Z * list arg) :=
  if spec =? 100 then
    match args with AInt n :: args => (fun t => (t, args)) <$> format_int (s32 n) | _ => None end
  else if spec =? 117 then
    match args with AInt n :: args => (fun t => (t, args)) <$> format_uint (u32 n) 10 false | _ => None end
  else if spec =? 120 then
    match args with AInt n :: args => (fun t => (t, args)) <$> format_uint (u32 n) 16 false | _ => None end
  else if spec =? 88 then
    match args with AInt n :: args => (fun t => (t, args)) <$> format_uint (u32 n) 16 true | _ => None end
  else if spec =? 99 then
    match args with AInt n :: args => Some ([u8 n], args) | _ => None end
  else if spec =? 115 then
    match args with AStr s :: args => Some (s, args) | _ => None end
  else if spec =? 37 then Some ([37], args)
  else Some ([37; spec], args).

(** The calls of [write_out] and the running total; [run] is the text since
    [run_start]. *)
Definition flush_run (run : list Z) (out : list (list Z)) (total : Z) : list (list Z) * Z :=
  if (0 <? length run)%nat then (out ++ [run], total + Z.of_nat (length run)) else (out, total).

Fixpoint printf_loop (p run : list Z) (args : list arg) (out : list (list Z)) (total : Z)
  : option (list (list Z) * Z) :=
  match p with
  | [] => Some (flush_run run out total)
  | c :: p =>
    if negb (c =? 37) then printf_loop p (run ++ [c]) args out total
    else
      let '(out, total) := flush_run run out total in
      match p with
      | [] => Some (out ++ [[37]], total + 1)
      | spec :: p =>
        match convert_arg spec args with
        | None => None
        | Some (t, args) => printf_loop p [] args (out ++ [t]) (total + Z.of_nat (length t))
        end
      end
  end.

Definition printf (fmt : list Z) (args : list arg) : option (list (list Z) * Z) := printf_loop fmt [] args [] 0.

(** What a format means, one character or conversion at a time. *)
Fixpoint render (fmt : list Z) (args : list arg) : option (list Z) :=
  match fmt with
  | [] => Some []
  | c :: p =>
    if negb (c =? 37) then cons c <$> render p args
    else match p with
         | [] => Some [37]
         | spec :: p => match convert_arg spec args with
                        | None => None
                        | Some (t, args) => app t <$> render p args
                        end
         end
  end.

(** ** Formatting and parsing are inverse *)

Lemma digit_roundtrip uppercase d : 0 <= d < 16 -> digit_of (digit_char uppercase d) = Some d.
Proof.
  intros Hd. enough (bool_decide (digit_of (digit_char uppercase d) = Some d) = true) by (by eapply bool_decide_eq_true_1).
  revert d Hd. apply (all_below 16). by destruct uppercase.
Qed.

(** [s32] only looks at the low 32 bits. *)
Lemma s32_cong a b : a mod 4294967296 = b mod 4294967296 -> s32 a = s32 b.
Proof. unfold s32, u32. by intros ->. Qed.

Lemma s32_mod a : s32 a mod 4294967296 = a mod 4294967296.
Proof. unfold s32, u32. zcase; zmod. Qed.

Lemma s32_mul k a : s32 (k * s32 a) = s32 (k * a).
Proof. apply s32_cong. by rewrite <- Zmult_mod_idemp_r, s32_mod, Zmult_mod_idemp_r. Qed.

Lemma s32_shift a k d : s32 (s32 a * k + d) = s32 (a * k + d).
Proof. apply s32_cong. by rewrite <- Zplus_mod_idemp_l, <- Zmult_mod_idemp_l, s32_mod, Zmult_mod_idemp_l, Zplus_mod_idemp_l. Qed.

Section Base.
Context (base : Z) (uppercase : bool).
Hypothesis Hbase : base = 10 \/ base = 16.

Definition numeral (c : Z) : Prop := exists d, 0 <= d < base /\ c = digit_char uppercase d.

(** The digits of a number below [base ^ k]: at most [k] of them, and reading them
    back gives the number, for a reader that works modulo 2^32 and for [atoi]'s. *)
Lemma low_digits_ok k room val : 0 <= val < base ^ Z.of_nat k -> (k <= room)%nat ->
  exists l, low_digits room val base uppercase = Some l /\ (length l <= k)%nat /\ (0 < val -> (0 < length l)%nat)
  /\ Forall numeral l
  /\ (forall rest, digits (rev l ++ rest) base 0 = digits rest base (u32 val))
  /\ (base = 10 -> forall rest, atoi_digits (rev l ++ rest) 0 = atoi_digits rest (s32 val)).
Proof.
  revert room val. induction k as [|k IH]; intros room val Hv Hr.
  { replace (base ^ Z.of_nat 0) with 1 in Hv by done. assert (val = 0) as -> by lia.
    exists []. split_and!; try done; by destruct room. }
  destruct room as [|room]; [lia|]. cbn [low_digits].
  destruct (Z.leb_spec val 0). { assert (val = 0) as -> by lia. exists []. split_and!; try done; simpl; lia. }
  destruct (IH room (val / base)) as (l & E & Hl & _ & Hn & Hd & Ha); [|lia|].
  { rewrite Nat2Z.inj_succ, Z.pow_succ_r in Hv by lia. split; [apply Z.div_pos; lia|].
    apply Z.div_lt_upper_bound; lia. }
  pose proof (Z.mod_pos_bound val base ltac:(lia)) as Hm. pose proof (Z.div_mod val base ltac:(lia)) as Hdm.
  exists (digit_char uppercase (val mod base) :: l). rewrite E. split_and!; [done|simpl; lia|simpl; lia| | |].
  - constructor; [by exists (val mod base)|done].
  - intros rest. cbn [rev]. rewrite <- app_assoc, Hd. cbn [app digits]. rewrite digit_roundtrip by lia.
    destruct (Z.leb_spec base (val mod base)); [lia|]. f_equal.
    unfold u32. rewrite <- Zplus_mod_idemp_l, Zmult_mod_idemp_l, Zplus_mod_idemp_l. f_equal. lia.
  - intros Hb rest. cbn [rev]. rewrite <- app_assoc, (Ha Hb). cbn [app atoi_digits].
    pose proof (digit_roundtrip uppercase (val mod base) ltac:(lia)) as Hdig. unfold digit_of in Hdig.
    destruct ((48 <=? _) && (_ <=? 57)); [|repeat case_match; try done; injection Hdig as Hdig; zbool; lia].
    injection Hdig as ->. f_equal. rewrite s32_shift. f_equal. lia.
Qed.

Lemma format_uint_ok k val : (k <= 16)%nat -> 0 <= val < 4294967296 -> val < base ^ Z.of_nat k -> (0 < k)%nat ->
  exists t, format_uint val base uppercase = Some t /\ (0 < length t <= k)%nat /\ Forall numeral t
  /\ (forall rest, digits (t ++ rest) base 0 = digits rest base val)
  /\ (base = 10 -> forall rest, atoi_digits (t ++ rest) 0 = atoi_digits rest (s32 val)).
Proof.
  unfold format_uint. intros Hk Hv Hb Hk0. destruct (Z.eqb_spec val 0) as [->|].
  { exists [48]. split_and!; [done|simpl; lia|simpl; lia| | |done].
    - constructor; [|constructor]. exists 0. split; [lia|by destruct uppercase].
    - intros rest. cbn [app digits]. change (digit_of 48) with (Some 0). cbv iota beta.
      destruct (Z.leb_spec base 0); [lia|done]. }
  destruct (low_digits_ok k 16 val) as (l & E & Hl & H0 & Hn & Hd & Ha); [lia|done|].
  exists (rev l). rewrite E. split_and!; [done|rewrite length_rev; lia..|by apply Forall_rev| |done].
  intros rest. rewrite Hd. by rewrite u32_small by (unfold is_u32; lia).
Qed.

(** A numeral is no space, no sign and no base prefix. *)
Lemma numeral_plain c : numeral c ->
  isspace (u8 c) = false /\ c <> 43 /\ c <> 45 /\ c <> 120 /\ c <> 88 /\ c <> 0.
Proof.
  intros (d & Hd & ->). assert (0 <= d < 16) as Hd' by lia. clear Hd. remember (digit_char uppercase d) as c eqn:Hc.
  enough (negb (isspace (u8 c)) && negb (c =? 43) && negb (c =? 45) && negb (c =? 120) && negb (c =? 88) && negb (c =? 0) = true)
    by (zbool; done).
  subst c. revert d Hd'. apply (all_below 16). by destruct uppercase.
Qed.

Lemma numeral_front t : Forall numeral t -> t <> [] -> skip_spaces t = t /\ take_sign t = (1, t).
Proof.
  intros Ht Hne. destruct t as [|c t]; [done|]. apply Forall_cons in Ht as [Hc _]. simpl.
  destruct (numeral_plain c Hc) as (-> & H1 & H2 & _). by destruct (Z.eqb_spec c 43), (Z.eqb_spec c 45).
Qed.

Lemma numeral_base t : Forall numeral t -> take_base t base = (base, t).
Proof.
  intros Ht. unfold take_base. assert (ch t 1 <> 120 /\ ch t 1 <> 88) as [H1 H2].
  { unfold ch. change (Z.to_nat 1) with 1%nat. destruct t as [|c [|d t]]; [simpl; lia..|]. apply Forall_cons in Ht as [_ Ht].
    apply Forall_cons in Ht as [Hd _]. simpl. destruct (numeral_plain d Hd) as (_ & _ & _ & ? & ? & _). done. }
  destruct (Z.eqb_spec base 0); [lia|]. destruct (Z.eqb_spec (ch t 1) 120), (Z.eqb_spec (ch t 1) 88); try done.
  by rewrite andb_false_r.
Qed.

End Base.



(** ** printf *)

Lemma flush_run_ok run out total : concat (flush_run run out total).1 = concat out ++ run
  /\ (total = Z.of_nat (length (concat out)) -> (flush_run run out total).2 = Z.of_nat (length (concat out ++ run))).
Proof.
  unfold flush_run. destruct (Nat.ltb_spec 0 (length run)); simpl.
  - rewrite concat_app. simpl. rewrite app_nil_r. split; [done|]. rewrite length_app. lia.
  - destruct run; simpl in *; [|lia]. by rewrite app_nil_r.
Qed.

Lemma printf_loop_ok fmt : forall run args out total, total = Z.of_nat (length (concat out)) ->
  match printf_loop fmt run args out total with
  | Some (out', n) => n = Z.of_nat (length (concat out')) /\ exists t, render fmt args = Some t /\ concat out' = concat out ++ run ++ t
  | None => render fmt args = None
  end.
Proof.
  induction fmt as [fmt IH] using (induction_ltof1 _ (@length Z)). unfold ltof in IH.
  intros run args out total Ht. destruct fmt as [|c p]; cbn [printf_loop render].
  { destruct (flush_run_ok run out total) as [H1 H2]. destruct (flush_run run out total) as [out' n]. simpl in *.
    rewrite (H2 Ht), H1. split; [done|]. exists []. by rewrite !app_nil_r. }
  destruct (Z.eqb_spec c 37) as [->|]; cbn [negb].
  2: { specialize (IH p ltac:(simpl; lia) (run ++ [c]) args out total Ht). destruct (printf_loop _ _ _ _ _) as [[out' n']|].
       - destruct IH as (H1 & t & -> & H2). split; [done|]. exists (c :: t). split; [done|]. by rewrite H2, <- app_assoc.
       - by rewrite IH. }
  destruct (flush_run_ok run out total) as [H1 H2]. destruct (flush_run run out total) as [out' n]. simpl in H1, H2.
  specialize (H2 Ht). destruct p as [|spec p].
  { rewrite concat_app. simpl. rewrite length_app. simpl. rewrite H1. split; [lia|]. exists [37]. by rewrite <- app_assoc. }
  destruct (convert_arg spec args) as [[t args']|]; [|done].
  specialize (IH p ltac:(simpl; lia) [] args' (out' ++ [t]) (n + Z.of_nat (length t))). rewrite concat_app in IH. simpl in IH.
  rewrite app_nil_r, H1 in IH. specialize (IH ltac:(rewrite H2, !length_app; lia)).
  destruct (printf_loop _ _ _ _ _) as [[out'' n'']|]; [|by rewrite IH].
  destruct IH as (H3 & t' & -> & H4). split; [done|]. exists (t ++ t'). split; [done|]. rewrite H4. by rewrite <- !app_assoc.
Qed.

(** The text [printf] writes, over all its calls of [write], is the format rendered
    character by character, and its result is the number of characters written. *)
Lemma printf_correct fmt args :
  match printf fmt args with
  | Some (out, n) => render fmt args = Some (concat out) /\ n = Z.of_nat (length (concat out))
  | None => render fmt args = None
  end.
Proof.
  pose proof (printf_loop_ok fmt [] args [] 0 eq_refl) as H. unfold printf. destruct (printf_loop _ _ _ _ _) as [[out n]|]; [|done].
  destruct H as (H1 & t & H2 & H3). split; [by rewrite H2, H3|done].
Qed.

End CNumbers.
