(* ===== verification/Qsort.v ===== *)
(** * Sorting (user/stdlib.c)

    [qsort] on an array of [nmemb] elements of [size] bytes in memory, with the in-place
    partition, the byte-wise swap and the recursion into the smaller part.  The
    comparison function is a parameter that looks at the bytes of two elements. *)

From S2P Require Import Prelude CString.

Module Qsort.

Import CString.

(** The [size] bytes at [p]. *)
Definition bytes_at (m : mem) (p size : Z) : list Z := map (fun i => m (p + i)) (seqZ 0 size).

Definition qsort_swap (m : mem) (a b size : Z) : mem :=
  for_loop (Z.to_nat size) 0 (fun i m =>
    let tmp := m (a + i) in
    let m := m.[a + i <- m (b + i)] in
    m.[b + i <- tmp]) m.

Section Sort.
Context (compar : list Z -> list Z -> Z) (base size : Z).

(** The loop of one partition: the place of the next small element, and memory. *)
Definition partition (m : mem) (lo hi : Z) : Z * mem :=
  let pivot := base + hi * size in
  for_loop (Z.to_nat (hi - lo)) lo (fun i '(store, m) =>
    if compar (bytes_at m (base + i * size) size) (bytes_at m pivot size) <? 0
    then (store + 1, qsort_swap m (base + i * size) (base + store * size) size)
    else (store, m)) (lo, m).

(** [while (lo < hi)]: the smaller part by recursion, the larger by going round. *)
Fixpoint qsort_recurse (fuel : nat) (m : mem) (lo hi : Z) : option mem :=
  match fuel with
  | O => None
  | S n =>
    if lo <? hi then
      let pivot := base + hi * size in
      let '(store, m) := partition m lo hi in
      let m := qsort_swap m (base + store * size) pivot size in
      if store - lo <? hi - store then
        match qsort_recurse n m lo (store - 1) with
        | None => None
        | Some m => qsort_recurse n m (store + 1) hi
        end
      else
        match qsort_recurse n m (store + 1) hi with
        | None => None
        | Some m => qsort_recurse n m lo (store - 1)
        end
    else Some m
  end.

End Sort.

Definition qsort (fuel : nat) (compar : list Z -> list Z -> Z) (m : mem) (base nmemb size : Z) : option mem :=
  if (nmemb <? 2) || (size =? 0) then Some m
  else qsort_recurse compar base size fuel m 0 (nmemb - 1).

(** ** Swapping *)

Definition swapped (m : mem) (a b n : Z) : mem := fun y =>
  if (a <=? y) && (y <? a + n) then m (b + (y - a))
  else if (b <=? y) && (y <? b + n) then m (a + (y - b))
  else m y.

Lemma qsort_swap_eq m a b size : 0 <= size -> a = b \/ a + size <= b \/ b + size <= a ->
  forall y, qsort_swap m a b size y = swapped m a b size y.
Proof.
  intros Hs Hab. unfold qsort_swap. set (f := fun i (m : mem) => _).
  enough (forall n : nat, Z.of_nat n <= size -> forall y, for_loop n 0 f m y = swapped m a b (Z.of_nat n) y) as H.
  { intros y. rewrite H by lia. by rewrite Z2Nat.id. }
  intros n. induction n as [|n IH]; intros Hn y.
  { unfold swapped. simpl. by zspec; simpl; try lia. }
  rewrite for_loop_last, Z.add_0_l. unfold f at 1. cbv zeta. unfold upd. rewrite !IH by lia. clear IH. subst f. unfold swapped.
  destruct Hab as [->|Hab]; zspec; simpl; try lia; f_equal; lia.
Qed.

(** ** Arrays *)

Section Array.
Context (base size : Z).
Hypothesis Hsize : 0 < size.

Definition arr (m : mem) (i : Z) : list Z := bytes_at m (base + i * size) size.

Lemma cells_apart i j : i = j \/ base + i * size + size <= base + j * size \/ base + j * size + size <= base + i * size.
Proof. destruct (Z.lt_trichotomy i j) as [|[|]]; [right; left; nia|by left|right; right; nia]. Qed.

Lemma arr_ext m m' i : (forall y, base + i * size <= y < base + (i + 1) * size -> m' y = m y) -> arr m' i = arr m i.
Proof.
  intros H. unfold arr, bytes_at. apply map_ext_in. intros j Hj%list_elem_of_In%elem_of_seqZ. apply H. nia.
Qed.

Lemma arr_swap m i j x : arr (qsort_swap m (base + i * size) (base + j * size) size) x
  = if x =? i then arr m j else if x =? j then arr m i else arr m x.
Proof.
  assert (Hij : base + i * size = base + j * size \/ base + i * size + size <= base + j * size
    \/ base + j * size + size <= base + i * size) by (destruct (cells_apart i j) as [->|]; auto).
  unfold arr, bytes_at. pose proof (cells_apart x i) as Hxi. pose proof (cells_apart x j) as Hxj.
  destruct (Z.eqb_spec x i) as [->|]; [|destruct (Z.eqb_spec x j) as [->|]]; apply map_ext_in;
    intros k Hk%list_elem_of_In%elem_of_seqZ; rewrite qsort_swap_eq by (done || lia); unfold swapped;
    zspec; simpl; try lia; f_equal; lia.
Qed.

Lemma swap_outside m i j y lo hi : lo <= i <= hi -> lo <= j <= hi ->
  ~ base + lo * size <= y < base + (hi + 1) * size ->
  qsort_swap m (base + i * size) (base + j * size) size y = m y.
Proof.
  intros Hi Hj Hy. rewrite qsort_swap_eq; [|lia|destruct (cells_apart i j) as [->|]; auto]. unfold swapped.
  assert (base + lo * size <= base + i * size /\ base + i * size + size <= base + (hi + 1) * size) by nia.
  assert (base + lo * size <= base + j * size /\ base + j * size + size <= base + (hi + 1) * size) by nia.
  by zspec; simpl; try lia.
Qed.

End Array.

(** ** Rearrangements of a range *)

Section Ranges.
Context {E : Type}.
Implicit Types f g h : Z -> E.

Definition rearranged (lo hi : Z) f g : Prop :=
  (forall x, ~ lo <= x <= hi -> g x = f x) /\ map g (seqZ lo (hi + 1 - lo)) ≡ₚ map f (seqZ lo (hi + 1 - lo)).

Lemma rearranged_refl lo hi f : rearranged lo hi f f.
Proof. by split. Qed.

Lemma rearranged_trans lo hi f g h : rearranged lo hi f g -> rearranged lo hi g h -> rearranged lo hi f h.
Proof. intros [H1 H2] [H3 H4]. split; [intros x Hx; by rewrite H3, H1|by rewrite H4]. Qed.

Lemma rearranged_ext lo hi f g g' : (forall x, g' x = g x) -> rearranged lo hi f g -> rearranged lo hi f g'.
Proof. intros He [H1 H2]. split; [intros x Hx; by rewrite He, H1|]. by rewrite (map_ext g' g). Qed.

Lemma rearranged_wider lo hi lo' hi' f g : lo' <= lo -> hi <= hi' -> lo <= hi + 1 ->
  rearranged lo hi f g -> rearranged lo' hi' f g.
Proof.
  intros Hl Hh Hlh [H1 H2]. split; [intros x Hx; apply H1; lia|].
  replace (hi' + 1 - lo') with ((lo - lo') + ((hi + 1 - lo) + (hi' - hi))) by lia.
  rewrite !seqZ_app, !map_app by lia. replace (lo' + (lo - lo')) with lo by lia.
  rewrite H2. apply Permutation_app; [|apply Permutation_app; [done|]].
  - rewrite (map_ext_in g f); [done|]. intros x Hx%list_elem_of_In%elem_of_seqZ. apply H1. lia.
  - rewrite (map_ext_in g f); [done|]. intros x Hx%list_elem_of_In%elem_of_seqZ. apply H1. lia.
Qed.

Lemma rearranged_all lo hi f g (P : E -> Prop) : rearranged lo hi f g ->
  (forall x, lo <= x <= hi -> P (f x)) -> forall x, lo <= x <= hi -> P (g x).
Proof.
  intros [_ H] Hf x Hx. assert (Forall P (map f (seqZ lo (hi + 1 - lo)))) as HF.
  { apply Forall_forall. intros y Hy%list_elem_of_In%in_map_iff. destruct Hy as (z & <- & Hz%list_elem_of_In%elem_of_seqZ). apply Hf. lia. }
  rewrite <- H in HF. rewrite Forall_forall in HF. apply HF. apply list_elem_of_In, in_map, list_elem_of_In, elem_of_seqZ. lia.
Qed.

Lemma rearranged_swap lo hi f i j : lo <= i <= hi -> lo <= j <= hi ->
  rearranged lo hi f (fun x => if x =? i then f j else if x =? j then f i else f x).
Proof.
  intros Hi Hj. split; [intros x Hx; by zspec; try lia|].
  set (s := fun x => if x =? i then j else if x =? j then i else x).
  rewrite (map_ext _ (fun x => f (s x))) by (intros x; unfold s; by zspec). rewrite <- map_map. apply Permutation_map.
  assert (Hinv : forall x, s (s x) = x) by 
    (intros x; unfold s; destruct (Z.eqb_spec x i); [zspec; lia|]; destruct (Z.eqb_spec x j); zspec; lia).
  apply NoDup_Permutation; [|apply NoDup_seqZ|].
  - apply NoDup_fmap_2; [|apply NoDup_seqZ]. intros x y Hxy. by rewrite <- (Hinv x), Hxy, Hinv.
  - intros x. assert (Hr : forall y, y ∈ seqZ lo (hi + 1 - lo) -> s y ∈ seqZ lo (hi + 1 - lo)).
    { intros y Hy%elem_of_seqZ. apply elem_of_seqZ. unfold s. zspec; lia. }
    split.
    + intros Hx%list_elem_of_fmap. destruct Hx as (y & -> & Hy). by apply Hr.
    + intros Hx. apply list_elem_of_fmap. exists (s x). split; [by rewrite Hinv|by apply Hr].
Qed.

End Ranges.

(** ** Sorting *)

(** What C asks of a comparison function: the sign of [compar y x] is opposite to that
    of [compar x y], and "not after" is transitive. *)
Class Comparator (compar : list Z -> list Z -> Z) : Prop := {
  cmp_flip : forall x y, compar x y < 0 <-> 0 < compar y x;
  cmp_trans : forall x y z, compar x y <= 0 -> compar y z <= 0 -> compar x z <= 0 }.

Section Correct.
Context (compar : list Z -> list Z -> Z) `{C : Comparator compar} (base size : Z).
Hypothesis Hsize : 0 < size.

Abbreviation arr := (arr base size).

Lemma cmp_refl x : compar x x <= 0.
Proof. pose proof (cmp_flip x x). lia. Qed.

Lemma cmp_ge x y : 0 <= compar x y -> compar y x <= 0.
Proof. pose proof (cmp_flip x y). pose proof (cmp_flip y x). lia. Qed.

Definition sorted (f : Z -> list Z) (lo hi : Z) : Prop := forall i j, lo <= i <= j -> j <= hi -> compar (f i) (f j) <= 0.

(** Memory outside the elements [lo .. hi] is as it was. *)
Definition outside_same (lo hi : Z) (m m' : mem) : Prop :=
  forall y, ~ base + lo * size <= y < base + (hi + 1) * size -> m' y = m y.

Lemma outside_wider lo hi lo' hi' m m' : lo' <= lo -> hi <= hi' -> lo <= hi + 1 ->
  outside_same lo hi m m' -> outside_same lo' hi' m m'.
Proof. intros Hl Hh Hlh H y Hy. apply H. nia. Qed.

Lemma outside_trans lo hi m1 m2 m3 : outside_same lo hi m1 m2 -> outside_same lo hi m2 m3 -> outside_same lo hi m1 m3.
Proof. intros H1 H2 y Hy. by rewrite H2, H1. Qed.

(** Invariant of the partition loop before element [i]. *)
Definition split_upto (m : mem) (lo hi i : Z) (s : Z * mem) : Prop :=
  let '(store, m') := s in
  lo <= store <= i /\ rearranged lo (hi - 1) (arr m) (arr m') /\ outside_same lo hi m m'
  /\ (forall j, lo <= j < store -> compar (arr m' j) (arr m hi) < 0)
  /\ (forall j, store <= j < i -> 0 <= compar (arr m' j) (arr m hi)).

Lemma partition_step m lo hi i s : lo <= i < hi -> split_upto m lo hi i s ->
  split_upto m lo hi (i + 1)
    (let '(store, m) := s in
     if compar (bytes_at m (base + i * size) size) (bytes_at m (base + hi * size) size) <? 0
     then (store + 1, qsort_swap m (base + i * size) (base + store * size) size) else (store, m)).
Proof.
  intros Hi. destruct s as [store m']. intros (Hst & Hre & Hout & Hlt & Hge).
  change (bytes_at m' (base + i * size) size) with (arr m' i). change (bytes_at m' (base + hi * size) size) with (arr m' hi).
  rewrite (proj1 Hre hi) by lia. destruct (Z.ltb_spec (compar (arr m' i) (arr m hi)) 0).
  - split_and!; [lia|lia| | | |].
    + eapply rearranged_trans; [exact Hre|]. eapply rearranged_ext; [|apply (rearranged_swap lo (hi - 1) (arr m') i store); lia].
      intros x. by apply arr_swap.
    + eapply outside_trans; [exact Hout|]. intros y Hy. apply (swap_outside base size Hsize m' i store y lo hi); [lia..|done].
    + intros j Hj. rewrite arr_swap by done. destruct (Z.eqb_spec j i) as [->|]; [|destruct (Z.eqb_spec j store) as [->|]; [done|apply Hlt; lia]].
      assert (store = i) as -> by lia. done.
    + intros j Hj. rewrite arr_swap by done. destruct (Z.eqb_spec j i) as [->|]; [apply Hge; lia|].
      destruct (Z.eqb_spec j store); [lia|apply Hge; lia].
  - split_and!; [lia|lia|done|done|done|]. intros j Hj. destruct (decide (j = i)) as [->|]; [done|apply Hge; lia].
Qed.

(** After the partition and the swap of the pivot, everything before [store] is smaller
    than the element at [store], and nothing behind it is. *)
Lemma partition_ok m lo hi : lo < hi -> exists store m1,
  partition compar base size m lo hi = (store, m1) /\ lo <= store <= hi
  /\ let m2 := qsort_swap m1 (base + store * size) (base + hi * size) size in
     rearranged lo hi (arr m) (arr m2) /\ outside_same lo hi m m2
     /\ (forall j, lo <= j <= store - 1 -> compar (arr m2 j) (arr m2 store) <= 0)
     /\ (forall j, store + 1 <= j <= hi -> compar (arr m2 store) (arr m2 j) <= 0).
Proof.
  intros Hlh. unfold partition. cbv zeta.
  pose proof (for_loop_ind (split_upto m lo hi) (Z.to_nat (hi - lo)) lo (fun i '(store, m) =>
    if compar (bytes_at m (base + i * size) size) (bytes_at m (base + hi * size) size) <? 0
    then (store + 1, qsort_swap m (base + i * size) (base + store * size) size) else (store, m)) (lo, m)) as H.
  destruct (for_loop _ _ _ _) as [store m1]. rewrite Z2Nat.id in H by lia. replace (lo + (hi - lo)) with hi in H by lia.
  destruct H as (Hst & Hre & Hout & Hlt & Hge).
  { split_and!; [lia|lia|apply rearranged_refl|done|lia|lia]. }
  { intros i s Hi Hs. apply partition_step; [lia|done]. }
  exists store, m1. split; [done|]. split; [lia|]. cbv zeta. set (m2 := qsort_swap m1 _ _ size).
  assert (Hm2 : forall x, arr m2 x = if x =? store then arr m1 hi else if x =? hi then arr m1 store else arr m1 x)
    by (intros x; by apply arr_swap).
  assert (Hpiv : arr m1 hi = arr m hi) by (apply Hre; lia). split_and!.
  - eapply rearranged_trans; [eapply rearranged_wider; [..|exact Hre]; lia|].
    eapply rearranged_ext; [exact Hm2|]. apply rearranged_swap; lia.
  - eapply outside_trans; [exact Hout|]. intros y Hy. apply (swap_outside base size Hsize m1 store hi y lo hi); [lia..|done].
  - intros j Hj. rewrite !Hm2, Z.eqb_refl, Hpiv. destruct (Z.eqb_spec j store); [lia|]. destruct (Z.eqb_spec j hi); [lia|].
    apply Z.lt_le_incl, Hlt. lia.
  - intros j Hj. rewrite !Hm2, Z.eqb_refl, Hpiv. destruct (Z.eqb_spec j store); [lia|]. apply cmp_ge.
    destruct (Z.eqb_spec j hi) as [->|]; apply Hge; lia.
Qed.

Lemma sorted_ext f g lo hi : (forall x, lo <= x <= hi -> g x = f x) -> sorted f lo hi -> sorted g lo hi.
Proof. intros He H i j Hi Hj. rewrite !He by lia. by apply H. Qed.

(** Two sorted parts around an element that separates them. *)
Lemma sorted_join f lo s hi : lo <= s <= hi -> sorted f lo (s - 1) -> sorted f (s + 1) hi ->
  (forall x, lo <= x <= s - 1 -> compar (f x) (f s) <= 0) -> (forall x, s + 1 <= x <= hi -> compar (f s) (f x) <= 0) ->
  sorted f lo hi.
Proof.
  intros Hs Hl Hr Hlt Hge i j Hi Hj. destruct (Z.lt_trichotomy i s) as [|[->|]], (Z.lt_trichotomy j s) as [|[->|]]; try lia.
  - apply Hl; lia.
  - apply Hlt; lia.
  - apply (cmp_trans _ (f s)); [apply Hlt; lia|apply Hge; lia].
  - apply cmp_refl.
  - apply Hge; lia.
  - apply Hr; lia.
Qed.

Definition sorts (m m' : mem) (lo hi : Z) : Prop :=
  rearranged lo hi (arr m) (arr m') /\ outside_same lo hi m m' /\ sorted (arr m') lo hi.

(** Sorting one part leaves the other part and the separating element alone. *)
Lemma sorts_parts m2 m3 m4 lo hi a b c d s : sorts m2 m3 a b -> sorts m3 m4 c d -> lo <= s <= hi ->
  (a = lo /\ b = s - 1 /\ c = s + 1 /\ d = hi \/ a = s + 1 /\ b = hi /\ c = lo /\ d = s - 1) ->
  (forall x, lo <= x <= s - 1 -> compar (arr m2 x) (arr m2 s) <= 0) ->
  (forall x, s + 1 <= x <= hi -> compar (arr m2 s) (arr m2 x) <= 0) ->
  rearranged lo hi (arr m2) (arr m4) /\ outside_same lo hi m2 m4 /\ sorted (arr m4) lo hi.
Proof.
  intros (R1 & O1 & S1) (R2 & O2 & S2) Hs Hp Hlt Hge.
  assert (Hpiv : arr m4 s = arr m2 s) by (rewrite (proj1 R2), (proj1 R1) by lia; done).
  assert (Hfar : sorted (arr m4) a b) by (apply (sorted_ext (arr m3)); [intros x Hx; apply (proj1 R2); lia|done]).
  assert (Hall : forall P : list Z -> Prop, (forall x, a <= x <= b -> P (arr m2 x)) -> forall x, a <= x <= b -> P (arr m4 x)).
  { intros P H x Hx. rewrite (proj1 R2) by lia. by apply (rearranged_all a b (arr m2) (arr m3) P). }
  assert (Hall' : forall P : list Z -> Prop, (forall x, c <= x <= d -> P (arr m2 x)) -> forall x, c <= x <= d -> P (arr m4 x)).
  { intros P H. apply (rearranged_all c d (arr m3) (arr m4) P R2). intros x Hx. rewrite (proj1 R1) by lia. by apply H. }
  split_and!.
  - eapply rearranged_trans; [apply (rearranged_wider a b); [..|exact R1]; lia|apply (rearranged_wider c d); [..|exact R2]; lia].
  - eapply outside_trans; [apply (outside_wider a b); [..|exact O1]; lia|apply (outside_wider c d); [..|exact O2]; lia].
  - apply (sorted_join _ lo s hi Hs); rewrite ?Hpiv; destruct Hp as [(-> & -> & -> & ->)|(-> & -> & -> & ->)]; try done.
    + by apply (Hall (fun e => compar e (arr m2 s) <= 0)).
    + by apply (Hall' (fun e => compar e (arr m2 s) <= 0)).
    + by apply (Hall' (fun e => compar (arr m2 s) e <= 0)).
    + by apply (Hall (fun e => compar (arr m2 s) e <= 0)).
Qed.

Lemma qsort_recurse_ok fuel m lo hi : Z.max 0 (hi - lo + 1) < Z.of_nat fuel ->
  exists m', qsort_recurse compar base size fuel m lo hi = Some m' /\ sorts m m' lo hi.
Proof.
  revert m lo hi. induction fuel as [|n IH]; intros m lo hi Hf; [lia|]. cbn [qsort_recurse].
  destruct (Z.ltb_spec lo hi) as [Hlh|].
  2: { exists m. split; [done|]. split; [apply rearranged_refl|]. split; [done|].
       intros i j Hi Hj. replace j with i by lia. apply cmp_refl. }
  cbv zeta. destruct (partition_ok m lo hi Hlh) as (store & m1 & -> & Hst & HR & HO & Hlt & Hge).
  set (m2 := qsort_swap m1 _ _ size) in *.
  destruct (Z.ltb_spec (store - lo) (hi - store)).
  - destruct (IH m2 lo (store - 1)) as (m3 & -> & H3); [lia|].
    destruct (IH m3 (store + 1) hi) as (m4 & -> & H4); [lia|]. exists m4. split; [done|].
    destruct (sorts_parts m2 m3 m4 lo hi _ _ _ _ store H3 H4 Hst) as (R & O & So); [by left|done|done|].
    split; [by eapply rearranged_trans|]. split; [by eapply outside_trans|done].
  - destruct (IH m2 (store + 1) hi) as (m3 & -> & H3); [lia|].
    destruct (IH m3 lo (store - 1)) as (m4 & -> & H4); [lia|]. exists m4. split; [done|].
    destruct (sorts_parts m2 m3 m4 lo hi _ _ _ _ store H3 H4 Hst) as (R & O & So); [by right|done|done|].
    split; [by eapply rearranged_trans|]. split; [by eapply outside_trans|done].
Qed.

(** C23: [qsort] terminates and sorts: with recursion at most [nmemb] deep, it returns with the elements of the
    array in an order the comparison accepts, the elements are a permutation of those
    before, and no byte outside the array is changed, for every comparison function that
    orders the elements. *)
Theorem qsort_sorts fuel (m : mem) nmemb : 0 <= nmemb < Z.of_nat fuel ->
  exists m', qsort fuel compar m base nmemb size = Some m'
  /\ map (arr m') (seqZ 0 nmemb) ≡ₚ map (arr m) (seqZ 0 nmemb)
  /\ (forall i j, 0 <= i <= j -> j < nmemb -> compar (arr m' i) (arr m' j) <= 0)
  /\ forall y, ~ base <= y < base + nmemb * size -> m' y = m y.
Proof.
  intros Hn. unfold qsort. destruct (Z.eqb_spec size 0); [lia|]. rewrite orb_false_r. destruct (Z.ltb_spec nmemb 2).
  { exists m. split; [done|]. split; [done|]. split; [|done]. intros i j Hi Hj. replace j with i by lia. apply cmp_refl. }
  destruct (qsort_recurse_ok fuel m 0 (nmemb - 1)) as (m' & E & [_ R] & O & So); [lia|]. exists m'. split; [done|].
  replace (nmemb - 1 + 1 - 0) with nmemb in R by lia. split; [done|]. split.
  - intros i j Hi Hj. apply So; lia.
  - intros y Hy. apply O. intros Hy'. apply Hy. replace (nmemb - 1 + 1) with nmemb in Hy' by lia. lia.
Qed.

End Correct.

(** Single bytes in ascending order. *)
Definition by_first (x y : list Z) : Z := ch x 0 - ch y 0.

#[global] Instance by_first_ok : Comparator by_first.
Proof. split; unfold by_first; intros; lia. Qed.

Definition letters : mem := fun x => ch (chars "gordos") (x - 100).

Lemma qsort_sorts_witness : exists m', qsort 10 by_first letters 100 6 1 = Some m'
  /\ map (arr 100 1 m') (seqZ 0 6) ≡ₚ map (arr 100 1 letters) (seqZ 0 6).
Proof.
  destruct (qsort_sorts by_first 100 1 ltac:(lia) 10 letters 6) as (m' & E & H & _); [lia|]. exists m'. split; [exact E|exact H].
Defined.

Example qsort_letters : option_map (fun m => map m (seqZ 100 6)) (qsort 10 by_first letters 100 6 1) = Some (chars "dgoors").
Proof. vm_compute. reflexivity. Qed.

End Qsort.
