(* ===== verification/CStdio.v ===== *)
(** * Streams (user/stdio.c)

    The fixed table of streams, [fopen], [fclose], [fread] and [fwrite] over the
    descriptor system calls.  What the library relies on of these calls is the
    interface [FdCalls]: a read stores at most as many bytes as asked for and says how
    many, a write accepts at most what it is given. *)

From S2P Require Import Prelude.

Class FdCalls (K : Type) := {
  sc_open : list Z -> Z -> K -> Z * K;
  sc_close : Z -> K -> Z * K;
  (** result and the bytes stored at the buffer *)
  sc_read : Z -> Z -> K -> Z * list Z * K;
  sc_write : Z -> list Z -> K -> Z * K;
  sc_read_spec : forall fd n k, 0 < n -> let '(v, data, _) := sc_read fd n k in
    v <= n /\ (0 <= v -> Z.of_nat (length data) = v);
  sc_write_spec : forall fd data k, let '(v, _) := sc_write fd data k in v <= Z.of_nat (length data)
}.

Module CStdio.

Definition MAX_STREAMS : nat := 8.
Definition O_WRITE : Z := 1.

Record FILE := mk_file { f_fd : Z; in_use : Z; eof : Z; error : Z }.

Definition no_file : FILE := mk_file 0 0 0 0.
Definition stream_table_init : list FILE := replicate MAX_STREAMS no_file.

Section Streams.
Context {K : Type} `{FC : FdCalls K}.

(** A stream is its place in the table. *)
Definition alloc_stream (t : list FILE) : option nat := fst <$> list_find (fun f => in_use f = 0) t.

Definition fopen (path mode : list Z) (t : list FILE) (k : K) : option nat * list FILE * K :=
  let flags := if ch mode 0 =? 119 then O_WRITE else 0 in
  let '(fd, k) := sc_open path flags k in
  if fd <? 0 then (None, t, k)
  else match alloc_stream t with
       | None => let '(_, k) := sc_close fd k in (None, t, k)
       | Some i => (Some i, <[i := mk_file fd 1 0 0]> t, k)
       end.

Definition fclose (i : nat) (t : list FILE) (k : K) : Z * list FILE * K :=
  match t !! i with
  | Some f =>
    if in_use f =? 0 then (-1, t, k)
    else let '(ret, k) := sc_close (f_fd f) k in
         (ret, <[i := mk_file (f_fd f) 0 (eof f) (error f)]> t, k)
  | None => (-1, t, k)
  end.

(** [while (got < total)]: the bytes read, and the stream's flags. *)
Fixpoint read_all (fuel : nat) (fd total : Z) (data : list Z) (f : FILE) (k : K) : option (list Z * FILE * K) :=
  if Z.of_nat (length data) <? total then
    match fuel with
    | O => None
    | S n =>
      let '(ret, more, k) := sc_read fd (total - Z.of_nat (length data)) k in
      if ret =? 0 then Some (data, mk_file (f_fd f) (in_use f) 1 (error f), k)
      else if ret <? 0 then Some (data, mk_file (f_fd f) (in_use f) (eof f) 1, k)
      else read_all n fd total (data ++ more) f k
    end
  else Some (data, f, k).

(** [fread]: the number of whole elements, and the bytes stored at [ptr]. *)
Definition fread (fuel : nat) (size nmemb : Z) (i : nat) (t : list FILE) (k : K)
  : option (Z * list Z * list FILE * K) :=
  match t !! i with
  | Some f =>
    if (in_use f =? 0) || (size =? 0) || (nmemb =? 0) then Some (0, [], t, k)
    else match read_all fuel (f_fd f) (u32 (size * nmemb)) [] f k with
         | Some (data, f, k) => Some (Z.of_nat (length data) / size, data, <[i := f]> t, k)
         | None => None
         end
  | None => Some (0, [], t, k)
  end.

Fixpoint write_all (fuel : nat) (fd : Z) (data : list Z) (got : Z) (f : FILE) (k : K) : option (Z * FILE * K) :=
  if got <? Z.of_nat (length data) then
    match fuel with
    | O => None
    | S n =>
      let '(ret, k) := sc_write fd (drop (Z.to_nat got) data) k in
      if ret <? 0 then Some (got, mk_file (f_fd f) (in_use f) (eof f) 1, k)
      else if ret =? 0 then Some (got, f, k)
      else write_all n fd data (got + ret) f k
    end
  else Some (got, f, k).

(** [fwrite] of the [size * nmemb] bytes [data] at [ptr]. *)
Definition fwrite (fuel : nat) (data : list Z) (size nmemb : Z) (i : nat) (t : list FILE) (k : K)
  : option (Z * list FILE * K) :=
  match t !! i with
  | Some f =>
    if (in_use f =? 0) || (size =? 0) || (nmemb =? 0) then Some (0, t, k)
    else match write_all fuel (f_fd f) (take (Z.to_nat (u32 (size * nmemb))) data) 0 f k with
         | Some (got, f, k) => Some (got / size, <[i := f]> t, k)
         | None => None
         end
  | None => Some (0, t, k)
  end.

(** ** The loops end *)

Lemma read_all_ok fuel fd total data f k : total - Z.of_nat (length data) <= Z.of_nat fuel -> Z.of_nat (length data) <= total ->
  exists out f' k', read_all fuel fd total data f k = Some (out, f', k')
  /\ data `prefix_of` out /\ Z.of_nat (length out) <= total /\ f_fd f' = f_fd f /\ in_use f' = in_use f
  /\ (Z.of_nat (length out) = total /\ f' = f \/ eof f' = 1 \/ error f' = 1).
Proof.
  revert data k. induction fuel as [|n IH]; intros data k Hf Hd; cbn [read_all]; destruct (Z.ltb_spec (Z.of_nat (length data)) total); try lia.
  - exists data, f, k. split_and!; try done. left. split; [lia|done].
  - pose proof (sc_read_spec fd (total - Z.of_nat (length data)) k ltac:(lia)) as Hr.
    destruct (sc_read fd (total - Z.of_nat (length data)) k) as [[v more] k1]. destruct Hr as [Hv Hm].
    destruct (Z.eqb_spec v 0); [eexists _, _, _; split; [done|]; split_and!; try done; simpl; auto|].
    destruct (Z.ltb_spec v 0); [eexists _, _, _; split; [done|]; split_and!; try done; simpl; auto|].
    specialize (Hm ltac:(lia)). destruct (IH (data ++ more) k1) as (out & f' & k' & E & Hp & H'); [rewrite length_app; lia..|].
    exists out, f', k'. split; [done|]. split; [|done]. etransitivity; [|exact Hp]. by apply prefix_app_r.
  - exists data, f, k. split_and!; try done. left. split; [lia|done].
Qed.

(** [fread] always returns, never stores more than was asked for, and when it stores
    less it has set the stream's end-of-file or error flag. *)
Lemma fread_ok size nmemb i t f k : t !! i = Some f -> in_use f <> 0 -> 0 < size -> 0 < nmemb -> size * nmemb < 4294967296 ->
  exists n data t' k', fread (Z.to_nat (size * nmemb)) size nmemb i t k = Some (n, data, t', k')
  /\ n = Z.of_nat (length data) / size /\ 0 <= n <= nmemb
  /\ (n = nmemb /\ t' = t \/ exists f', t' = <[i := f']> t /\ (eof f' = 1 \/ error f' = 1)).
Proof.
  intros Hi Hu Hs Hn Hb. unfold fread. rewrite Hi. destruct (Z.eqb_spec (in_use f) 0); [done|].
  destruct (Z.eqb_spec size 0); [lia|]. destruct (Z.eqb_spec nmemb 0); [lia|]. cbn [orb].
  rewrite u32_small by (unfold is_u32; nia).
  destruct (read_all_ok (Z.to_nat (size * nmemb)) (f_fd f) (size * nmemb) [] f k) as (out & f' & k' & -> & _ & Hl & _ & _ & Hc); [simpl; nia..|].
  eexists _, out, _, k'. split; [done|]. split; [done|]. split.
  { split; [apply Z.div_pos; lia|]. apply Z.div_le_upper_bound; lia. }
  destruct Hc as [[Ho ->]|Hc]; [left|right; by exists f'].
  split; [rewrite Ho, Z.mul_comm; by apply Z.div_mul; lia|by apply list_insert_id].
Qed.

End Streams.
End CStdio.
