(* ===== verification/Vga.v ===== *)
(** * The text terminal (display/vga.c, display/vga.h, drivers/serial.c)

    The 80 by 25 text screen with its cursor, its scrolling and the mirror of every
    character on the serial console.  A store outside the 2000 cells of the screen is
    undefined.  The terminal is shown to refine a window on an unbounded tape of
    lines: it shows the last 25 of them. *)

From S2P Require Import Prelude.

Module Serial.

(** What has been sent to COM1; waiting for the transmitter changes nothing else. *)
Record serial := mk_serial { serial_ready : Z; sent : list Z }.

(** [serial_init]: [loopback] is the byte the self-test reads back. *)
Definition serial_init (loopback : Z) (s : serial) : Z * serial :=
  if negb (loopback =? 0xAE) then (-1, s) else (0, mk_serial 1 (sent s)).

Definition serial_putchar (c : Z) (s : serial) : serial :=
  if serial_ready s =? 0 then s
  else mk_serial (serial_ready s) (sent s ++ (if c =? 10 then [13] else []) ++ [u8 c]).

Definition serial_writestring (l : list Z) (s : serial) : serial :=
  fold_left (fun s c => serial_putchar c s) l s.

End Serial.

Module Vga.

Import Serial.

Definition VGA_WIDTH : Z := 80.
Definition VGA_HEIGHT : Z := 25.
Definition VGA_COLOR_BLACK : Z := 0.
Definition VGA_COLOR_LIGHT_GREY : Z := 7.

Definition vga_entry_color (fg bg : Z) : Z := u8 (Z.lor fg (Z.shiftl bg 4)).
Definition vga_entry (uc color : Z) : Z := u16 (Z.lor (u8 uc) (Z.shiftl color 8)).

(** [cursor_lo] and [cursor_hi] are the CRTC registers 0x0F and 0x0E. *)
Record terminal := mk_terminal {
  terminal_row : Z; terminal_column : Z; terminal_color : Z; terminal_buffer : Z -> Z;
  cursor_lo : Z; cursor_hi : Z; com1 : serial }.

Definition set_row (r : Z) (t : terminal) : terminal :=
  mk_terminal r (terminal_column t) (terminal_color t) (terminal_buffer t) (cursor_lo t) (cursor_hi t) (com1 t).
Definition set_column (c : Z) (t : terminal) : terminal :=
  mk_terminal (terminal_row t) c (terminal_color t) (terminal_buffer t) (cursor_lo t) (cursor_hi t) (com1 t).
Definition set_color (c : Z) (t : terminal) : terminal :=
  mk_terminal (terminal_row t) (terminal_column t) c (terminal_buffer t) (cursor_lo t) (cursor_hi t) (com1 t).
Definition set_buffer (b : Z -> Z) (t : terminal) : terminal :=
  mk_terminal (terminal_row t) (terminal_column t) (terminal_color t) b (cursor_lo t) (cursor_hi t) (com1 t).
Definition set_cursor (lo hi : Z) (t : terminal) : terminal :=
  mk_terminal (terminal_row t) (terminal_column t) (terminal_color t) (terminal_buffer t) lo hi (com1 t).
Definition set_com1 (s : serial) (t : terminal) : terminal :=
  mk_terminal (terminal_row t) (terminal_column t) (terminal_color t) (terminal_buffer t) (cursor_lo t) (cursor_hi t) s.

(** [terminal_buffer[i] = v]: inside the screen, or undefined. *)
Definition put_cell (i v : Z) : st terminal unit := fun t =>
  if (0 <=? i) && (i <? VGA_WIDTH * VGA_HEIGHT)
  then Some (tt, set_buffer ((terminal_buffer t).[i <- v]) t) else None.
Definition get_cell (i : Z) : st terminal Z := fun t =>
  if (0 <=? i) && (i <? VGA_WIDTH * VGA_HEIGHT) then Some (terminal_buffer t i, t) else None.

Definition update_cursor : st terminal unit :=
  modify (fun t =>
    let pos := u16 (terminal_row t * VGA_WIDTH + terminal_column t) in
    set_cursor (u8 (Z.land pos 0xFF)) (u8 (Z.land (Z.shiftr pos 8) 0xFF)) t).

Definition terminal_initialize : st terminal unit :=
  modify (set_row 0) ;;
  modify (set_column 0) ;;
  modify (set_color (vga_entry_color VGA_COLOR_LIGHT_GREY VGA_COLOR_BLACK)) ;;
  for_st 25 0 (fun y => for_st 80 0 (fun x =>
    let* color := gets terminal_color in
    put_cell (y * VGA_WIDTH + x) (vga_entry 32 color))) ;;
  update_cursor.

Definition terminal_setcolor (color : Z) : st terminal unit := modify (set_color (u8 color)).

Definition terminal_putentryat (c color x y : Z) : st terminal unit :=
  put_cell (u32 (y * VGA_WIDTH + x)) (vga_entry c color).

Definition serial_put (c : Z) : st terminal unit := modify (fun t => set_com1 (serial_putchar c (com1 t)) t).

Definition terminal_backspace : st terminal unit :=
  let* col := gets terminal_column in
  if col =? 0 then ret tt
  else
    modify (set_column (u32 (col - 1))) ;;
    let* t := gets id in
    terminal_putentryat 32 (terminal_color t) (terminal_column t) (terminal_row t) ;;
    update_cursor ;;
    serial_put 8 ;; serial_put 32 ;; serial_put 8.

Definition terminal_scroll : st terminal unit :=
  for_st 24 0 (fun y => for_st 80 0 (fun x =>
    let* v := get_cell ((y + 1) * VGA_WIDTH + x) in
    put_cell (y * VGA_WIDTH + x) v)) ;;
  for_st 80 0 (fun x =>
    let* color := gets terminal_color in
    put_cell ((VGA_HEIGHT - 1) * VGA_WIDTH + x) (vga_entry 32 color)) ;;
  modify (set_row (VGA_HEIGHT - 1)).

Definition terminal_cursor_left : st terminal unit :=
  let* col := gets terminal_column in
  if col =? 0 then ret tt
  else modify (set_column (u32 (col - 1))) ;; update_cursor.

(** [terminal_column = 0; if (++terminal_row == VGA_HEIGHT) terminal_scroll();]. *)
Definition next_row : st terminal unit :=
  modify (set_column 0) ;;
  modify (fun t => set_row (u32 (terminal_row t + 1)) t) ;;
  let* row := gets terminal_row in
  if row =? VGA_HEIGHT then terminal_scroll else ret tt.

(** The loop of a tab: [n] bounds its iterations, the width of the screen is enough. *)
Fixpoint tab_loop (n : nat) (next_tab : Z) : st terminal unit :=
  let* t := gets id in
  if (terminal_column t <? next_tab) && (terminal_column t <? VGA_WIDTH) then
    match n with
    | O => undef
    | S n =>
      terminal_putentryat 32 (terminal_color t) (terminal_column t) (terminal_row t) ;;
      modify (set_column (u32 (terminal_column t + 1))) ;;
      tab_loop n next_tab
    end
  else ret tt.

Definition terminal_putchar (c : Z) : st terminal unit :=
  serial_put c ;;
  if c =? 8 then terminal_cursor_left
  else
    (if c =? 10 then next_row
     else if c =? 9 then
       let* col := gets terminal_column in
       tab_loop 80 (Z.land (u32 (col + 4)) 0xFFFFFFFC) ;;
       let* col := gets terminal_column in
       if col =? VGA_WIDTH then next_row else ret tt
     else
       let* t := gets id in
       terminal_putentryat c (terminal_color t) (terminal_column t) (terminal_row t) ;;
       modify (set_column (u32 (terminal_column t + 1))) ;;
       let* col := gets terminal_column in
       if col =? VGA_WIDTH then next_row else ret tt) ;;
    update_cursor.

(** [terminal_write] of the bytes [data], and of a C string. *)
Fixpoint terminal_write (data : list Z) : st terminal unit :=
  match data with
  | [] => ret tt
  | c :: data => terminal_putchar c ;; terminal_write data
  end.

Definition terminal_writestring (data : list Z) : st terminal unit := terminal_write data.

(** ** The specification: a tape of lines *)

Record tape := mk_tape { cell : Z -> Z -> Z; line : Z; column : Z; color : Z; port : serial }.

Definition default_color : Z := 7.
Definition blank (color : Z) : Z := 32 + 256 * color.

Definition tape_start (s : serial) : tape := mk_tape (fun _ _ => blank default_color) 0 0 default_color s.

Definition write_at (y x v : Z) (a : tape) : tape :=
  mk_tape (fun l c => if (l =? y) && (c =? x) then v else cell a l c) (line a) (column a) (color a) (port a).
Definition move_to (x : Z) (a : tape) : tape := mk_tape (cell a) (line a) x (color a) (port a).
Definition send (c : Z) (a : tape) : tape := mk_tape (cell a) (line a) (column a) (color a) (serial_putchar c (port a)).

(** A line that comes into view at the bottom is cleared in the current colour. *)
Definition new_line (a : tape) : tape :=
  mk_tape (fun l c => if (l =? line a + 1) && (VGA_HEIGHT <=? l) then blank (color a) else cell a l c)
    (line a + 1) 0 (color a) (port a).

Definition wrap (a : tape) : tape := if column a =? VGA_WIDTH then new_line a else a.

Fixpoint spaces (n : nat) (a : tape) : tape :=
  match n with
  | O => a
  | S n => spaces n (move_to (column a + 1) (write_at (line a) (column a) (blank (color a)) a))
  end.

Definition put (c : Z) (a : tape) : tape :=
  let a := send c a in
  if c =? 8 then move_to (Z.max 0 (column a - 1)) a
  else if c =? 10 then new_line a
  else if c =? 9 then wrap (spaces (Z.to_nat (4 - column a mod 4)) a)
  else wrap (move_to (column a + 1) (write_at (line a) (column a) (u8 c + 256 * color a) a)).

Definition rub_out (a : tape) : tape :=
  if column a =? 0 then a
  else send 8 (send 32 (send 8 (write_at (line a) (column a - 1) (blank (color a)) (move_to (column a - 1) a)))).

(** The calls the kernel makes. *)
Inductive call :=
| PutChar (c : Z) | Backspace | CursorLeft | SetColor (c : Z) | Clear | WriteString (s : list Z).

Definition run (c : call) : st terminal unit :=
  match c with
  | PutChar c => terminal_putchar c
  | Backspace => terminal_backspace
  | CursorLeft => terminal_cursor_left
  | SetColor c => terminal_setcolor c
  | Clear => terminal_initialize
  | WriteString s => terminal_writestring s
  end.

Definition spec (c : call) (a : tape) : tape :=
  match c with
  | PutChar c => put c a
  | Backspace => rub_out a
  | CursorLeft => move_to (Z.max 0 (column a - 1)) a
  | SetColor c => mk_tape (cell a) (line a) (column a) (u8 c) (port a)
  | Clear => tape_start (port a)
  | WriteString s => fold_left (fun a c => put c a) s a
  end.

Fixpoint run_all (l : list call) : st terminal unit :=
  match l with [] => ret tt | c :: l => run c ;; run_all l end.

(** The line at the top of the screen. *)
Definition top (a : tape) : Z := Z.max 0 (line a - (VGA_HEIGHT - 1)).

(** The screen shows the tape from its top line on; the column may be one past the end
    while a line is being wrapped, and the cursor registers are up to date outside. *)
Record shows (t : terminal) (a : tape) : Prop := {
  sh_row : terminal_row t = line a - top a;
  sh_line : 0 <= line a;
  sh_col : terminal_column t = column a;
  sh_color : terminal_color t = color a;
  sh_byte : 0 <= color a < 256;
  sh_cells : forall y x, 0 <= y < VGA_HEIGHT -> 0 <= x < VGA_WIDTH ->
    terminal_buffer t (y * VGA_WIDTH + x) = cell a (top a + y) x;
  sh_port : com1 t = port a }.

Definition cursor_at (t : terminal) : Prop :=
  cursor_lo t + 256 * cursor_hi t = terminal_row t * VGA_WIDTH + terminal_column t.

Definition refines (t : terminal) (a : tape) : Prop :=
  shows t a /\ 0 <= column a < VGA_WIDTH /\ cursor_at t.

(** ** Cells and rows *)

Lemma vga_entry_value c color : 0 <= color < 256 -> vga_entry c color = u8 c + 256 * color.
Proof.
  intros. pose proof (u8_bound c). unfold vga_entry, u16.
  rewrite lor_shiftl_add by (rewrite ?Z.pow_pos_fold; simpl; lia). change (2 ^ 8) with 256. zmod.
Qed.

Lemma put_cell_ok i v t : 0 <= i < 2000 -> put_cell i v t = Some (tt, set_buffer ((terminal_buffer t).[i <- v]) t).
Proof. intros. unfold put_cell, VGA_WIDTH, VGA_HEIGHT. by zspec; try lia. Qed.

Lemma get_cell_ok i t : 0 <= i < 2000 -> get_cell i t = Some (terminal_buffer t i, t).
Proof. intros. unfold get_cell, VGA_WIDTH, VGA_HEIGHT. by zspec; try lia. Qed.

Lemma set_buffer_twice b b' t : set_buffer b (set_buffer b' t) = set_buffer b t.
Proof. done. Qed.

(** A loop that sets the cells from [lo] on, each to a value that depends on the cells
    behind it. *)
Definition filled (t0 : terminal) (f : Z -> Z) (lo k : Z) (t : terminal) : Prop :=
  exists b, t = set_buffer b t0 /\ forall i, 0 <= i < 2000 ->
    b i = if (lo <=? i) && (i <? k) then f i else terminal_buffer t0 i.

Lemma filled_nil t0 f lo : filled t0 f lo lo t0.
Proof. exists (terminal_buffer t0). split; [by destruct t0|]. intros i _. by zspec; simpl; try lia. Qed.

Lemma filled_put t0 f lo k t v : filled t0 f lo k t -> 0 <= lo <= k -> k < 2000 -> v = f k ->
  exists t', put_cell k v t = Some (tt, t') /\ filled t0 f lo (k + 1) t'.
Proof.
  intros (b & -> & Hb) Hk Hk' ->. eexists. split; [apply put_cell_ok; lia|].
  exists (b.[k <- f k]). split; [done|]. intros i Hi. unfold upd. destruct (Z.eqb_spec i k) as [->|].
  - by zspec; simpl; try lia.
  - rewrite Hb by done. by zspec; simpl; try lia.
Qed.

Lemma terminal_scroll_ok t : exists b, terminal_scroll t = Some (tt, set_row 24 (set_buffer b t))
  /\ forall i, 0 <= i < 2000 ->
     b i = if i <? 1920 then terminal_buffer t (i + 80) else vga_entry 32 (terminal_color t).
Proof.
  destruct (for_st_ind (fun y => filled t (fun i => terminal_buffer t (i + 80)) 0 (y * 80)) 24 0
    (fun y => for_st 80 0 (fun x =>
      let* v := get_cell ((y + 1) * VGA_WIDTH + x) in put_cell (y * VGA_WIDTH + x) v)) t) as (t1 & E1 & b1 & -> & H1).
  { apply filled_nil. }
  { intros y t1 Hy H1. destruct (for_st_ind (fun x => filled t (fun i => terminal_buffer t (i + 80)) 0 (y * 80 + x)) 80 0
      (fun x => let* v := get_cell ((y + 1) * VGA_WIDTH + x) in put_cell (y * VGA_WIDTH + x) v) t1) as (t2 & E2 & H2).
    - by rewrite Z.add_0_r.
    - unfold VGA_WIDTH. intros x t2 Hx H2. rewrite (bind_ok _ _ _ _ _ (get_cell_ok ((y + 1) * 80 + x) t2 ltac:(lia))).
      destruct (filled_put _ _ _ _ _ (terminal_buffer t2 ((y + 1) * 80 + x)) H2) as (t3 & E3 & H3); [lia..| |].
      + destruct H2 as (b & -> & Hb). simpl. rewrite Hb by lia.
        replace (y * 80 + x + 80) with ((y + 1) * 80 + x) by lia. by zspec; simpl; try lia.
      + exists t3. split; [done|]. by rewrite Z.add_assoc.
    - exists t2. split; [done|]. by replace ((y + 1) * 80) with (y * 80 + (0 + Z.of_nat 80)) by lia. }
  destruct (for_st_ind (fun x => filled (set_buffer b1 t) (fun _ => vga_entry 32 (terminal_color t)) 1920 (1920 + x)) 80 0
    (fun x => let* color := gets terminal_color in
       put_cell ((VGA_HEIGHT - 1) * VGA_WIDTH + x) (vga_entry 32 color)) (set_buffer b1 t)) as (t2 & E2 & b2 & -> & H2).
  { apply filled_nil. }
  { intros x t2 Hx H2. change ((VGA_HEIGHT - 1) * VGA_WIDTH + x) with (1920 + x). rewrite Z.add_assoc.
    apply (filled_put _ _ _ _ _ _ H2); [lia..|]. by destruct H2 as (b & -> & _). }
  exists b2. split.
  - unfold terminal_scroll. rewrite (bind_ok _ _ _ _ _ E1). by rewrite (bind_ok _ _ _ _ _ E2).
  - intros i Hi. rewrite H2 by done. simpl. rewrite H1 by done. by zspec; simpl; try lia.
Qed.

Lemma terminal_clear_ok t : exists b, terminal_initialize t
    = update_cursor (set_buffer b (set_color default_color (set_column 0 (set_row 0 t))))
  /\ forall i, 0 <= i < 2000 -> b i = blank default_color.
Proof.
  set (t0 := set_color default_color (set_column 0 (set_row 0 t))).
  destruct (for_st_ind (fun y => filled t0 (fun _ => blank default_color) 0 (y * 80)) 25 0
    (fun y => for_st 80 0 (fun x => let* color := gets terminal_color in
       put_cell (y * VGA_WIDTH + x) (vga_entry 32 color))) t0) as (t1 & E1 & b & -> & Hb).
  { apply filled_nil. }
  { intros y t1 Hy H1. destruct (for_st_ind (fun x => filled t0 (fun _ => blank default_color) 0 (y * 80 + x)) 80 0
      (fun x => let* color := gets terminal_color in put_cell (y * VGA_WIDTH + x) (vga_entry 32 color)) t1) as (t2 & E2 & H2).
    - by rewrite Z.add_0_r.
    - unfold VGA_WIDTH. intros x t2 Hx H2. rewrite Z.add_assoc. apply (filled_put _ _ _ _ _ _ H2); [lia..|].
      by destruct H2 as (b & -> & _).
    - exists t2. split; [done|]. by replace ((y + 1) * 80) with (y * 80 + (0 + Z.of_nat 80)) by lia. }
  exists b. split.
  - transitivity ((for_st 25 0 (fun y => for_st 80 0 (fun x => let* color := gets terminal_color in
       put_cell (y * VGA_WIDTH + x) (vga_entry 32 color))) ;; update_cursor) t0); [done|].
    by rewrite (bind_ok _ _ _ _ _ E1).
  - intros i Hi. rewrite Hb by done. by zspec; simpl; try lia.
Qed.

(** ** The steps of the simulation *)

Ltac vga := unfold VGA_WIDTH, VGA_HEIGHT in *.

Lemma row_range t a : shows t a -> 0 <= terminal_row t < 25.
Proof. intros [H1 H2 _ _ _ _ _]. rewrite H1. unfold top; vga. lia. Qed.

Lemma shows_write t a c : shows t a -> 0 <= column a < 80 -> exists t',
  terminal_putentryat c (terminal_color t) (terminal_column t) (terminal_row t) t = Some (tt, t')
  /\ shows t' (write_at (line a) (column a) (u8 c + 256 * color a) a).
Proof.
  intros Hs Hc. pose proof (row_range _ _ Hs) as Hr. destruct Hs as [H1 H2 H3 H4 H5 H6 H7].
  unfold terminal_putentryat. vga. rewrite u32_small by (unfold is_u32; lia).
  rewrite put_cell_ok by lia. eexists. split; [done|]. rewrite H4, vga_entry_value by done.
  split; simpl; try done. unfold top in *. simpl. vga. intros y x Hy Hx. unfold upd.
  destruct (Z.eqb_spec (y * 80 + x) (terminal_row t * 80 + terminal_column t)).
  - by zspec; simpl; try lia.
  - rewrite H6 by done. by zspec; simpl; try lia.
Qed.

Lemma shows_column t a x : shows t a -> 0 <= x <= 80 -> shows (set_column (u32 x) t) (move_to x a).
Proof. intros [] Hx. rewrite u32_small by (unfold is_u32; lia). by split. Qed.

Lemma shows_send t a c : shows t a -> shows (set_com1 (serial_putchar c (com1 t)) t) (send c a).
Proof. intros []. split; simpl; try done. by f_equal. Qed.

Lemma shows_next_row t a : shows t a -> exists t', next_row t = Some (tt, t') /\ shows t' (new_line a).
Proof.
  intros Hs. pose proof (row_range _ _ Hs) as Hr. destruct Hs as [H1 H2 H3 H4 H5 H6 H7].
  unfold next_row. cbn [bind modify gets]. unfold bind, modify, gets. simpl. vga.
  rewrite u32_small by (unfold is_u32; lia). destruct (Z.eqb_spec (terminal_row t + 1) 25).
  - destruct (terminal_scroll_ok (set_row (terminal_row t + 1) (set_column 0 t))) as (b & -> & Hb).
    eexists. split; [done|]. unfold top in *; vga. split; simpl; unfold top; simpl; vga; try done; try lia.
    intros y x Hy Hx. rewrite Hb by lia. simpl. destruct (Z.ltb_spec (y * 80 + x) 1920).
    + replace (y * 80 + x + 80) with ((y + 1) * 80 + x) by lia. rewrite H6 by lia.
      replace (Z.max 0 (line a + 1 - (25 - 1)) + y) with (Z.max 0 (line a - (25 - 1)) + (y + 1)) by lia.
      by zspec; simpl; try lia.
    + rewrite H4, vga_entry_value by done. by zspec; simpl; try lia.
  - eexists. split; [done|]. unfold top in *; vga. split; simpl; unfold top; simpl; vga; try done; try lia.
    intros y x Hy Hx. rewrite H6 by lia.
    replace (Z.max 0 (line a + 1 - (25 - 1))) with (Z.max 0 (line a - (25 - 1))) by lia.
    by zspec; simpl; try lia.
Qed.

(** The wrapping at the end of a line, and the column after it. *)
Lemma shows_wrap t a : shows t a -> 0 <= column a <= 80 -> exists t',
  (let* col := gets terminal_column in if col =? VGA_WIDTH then next_row else ret tt) t = Some (tt, t')
  /\ shows t' (wrap a) /\ 0 <= column (wrap a) < 80.
Proof.
  intros Hs Hc. unfold bind, gets, wrap. rewrite (sh_col _ _ Hs). vga. destruct (Z.eqb_spec (column a) 80).
  - destruct (shows_next_row t a Hs) as (t' & E & H'). exists t'. split; [done|]. split; [done|]. simpl. lia.
  - exists t. split; [done|]. split; [done|]. lia.
Qed.

Lemma tab_loop_ok n t a next : shows t a -> 0 <= column a <= next -> next <= 80 -> next - column a <= Z.of_nat n ->
  exists t', tab_loop n next t = Some (tt, t') /\ shows t' (spaces (Z.to_nat (next - column a)) a)
  /\ column (spaces (Z.to_nat (next - column a)) a) = next.
Proof.
  revert t a. induction n as [|n IH]; intros t a Hs Hc Hn Hf; simpl; unfold bind at 1, gets; simpl;
    rewrite (sh_col _ _ Hs); vga.
  - replace (next - column a) with 0 by lia. simpl. zspec; simpl; try lia; exists t; by split_and!; try lia.
  - destruct (Z.eqb_spec (column a) next).
    + replace (next - column a) with 0 by lia. simpl. zspec; simpl; try lia; exists t; by split_and!; try lia.
    + destruct (Z.ltb_spec (column a) next); [|lia]. destruct (Z.ltb_spec (column a) 80); [|lia]. simpl.
      destruct (shows_write t a 32 Hs) as (t1 & E1 & H1); [lia|]. rewrite (sh_col _ _ Hs) in E1.
      rewrite (bind_ok _ _ _ _ _ E1). unfold bind at 1, modify.
      pose proof (shows_column _ _ (column a + 1) H1 ltac:(lia)) as H2.
      destruct (IH _ _ H2) as (t' & E' & H'); simpl; [lia..|]. exists t'. split; [done|].
      replace (Z.to_nat (next - column a)) with (S (Z.to_nat (next - (column a + 1)))) by lia. done.
Qed.

Lemma next_tab_value col : 0 <= col < 80 -> Z.land (u32 (col + 4)) 0xFFFFFFFC = col + (4 - col mod 4).
Proof. intros. rewrite u32_small by (unfold is_u32; lia). rewrite land_align4 by lia. zmod. Qed.

Lemma shows_cursor t a : shows t a -> 0 <= column a < 80 ->
  exists t', update_cursor t = Some (tt, t') /\ refines t' a.
Proof.
  intros Hs Hc. pose proof (row_range _ _ Hs) as Hr. eexists. split; [done|]. destruct Hs as [H1 H2 H3 H4 H5 H6 H7].
  split; [by split|]. split; [done|]. unfold cursor_at. simpl. vga.
  rewrite Z.shiftr_div_pow2 by lia. change 255 with (2 ^ 8 - 1). rewrite !land_mask_lo by lia. change (2 ^ 8) with 256.
  unfold u8, u16. zmod.
Qed.

Lemma putchar_ok c t a : refines t a -> exists t', terminal_putchar c t = Some (tt, t') /\ refines t' (put c a).
Proof.
  intros (Hs & Hc & Hcur). pose proof (shows_send _ _ c Hs) as Hs1. unfold terminal_putchar, put. vga.
  unfold bind at 1, serial_put, modify. set (t1 := set_com1 _ t) in *. destruct (Z.eqb_spec c 8).
  { unfold terminal_cursor_left, bind, gets, modify. rewrite (sh_col _ _ Hs1). simpl. destruct (Z.eqb_spec (column a) 0) as [E|].
    - exists t1. split; [done|]. rewrite E in *. change (Z.max 0 (0 - 1)) with 0. split; [|split; [simpl; vga; lia|done]].
      destruct Hs1. split; simpl in *; try done. by rewrite sh_col0.
    - rewrite Z.max_r by lia. apply shows_cursor; [|simpl; lia]. apply shows_column; [done|simpl; lia]. }
  destruct (Z.eqb_spec c 10).
  { destruct (shows_next_row _ _ Hs1) as (t2 & E2 & H2). rewrite (bind_ok _ _ _ _ _ E2). apply shows_cursor; [done|simpl; lia]. }
  assert (exists t2, (if c =? 9 then let* col := gets terminal_column in
       tab_loop 80 (Z.land (u32 (col + 4)) 0xFFFFFFFC) ;;
       let* col := gets terminal_column in if col =? 80 then next_row else ret tt
     else let* t := gets id in
       terminal_putentryat c (terminal_color t) (terminal_column t) (terminal_row t) ;;
       modify (set_column (u32 (terminal_column t + 1))) ;;
       let* col := gets terminal_column in if col =? 80 then next_row else ret tt) t1 = Some (tt, t2)
     /\ let a := send c a in let b := if c =? 9 then wrap (spaces (Z.to_nat (4 - column a mod 4)) a)
       else wrap (move_to (column a + 1) (write_at (line a) (column a) (u8 c + 256 * color a) a)) in
       shows t2 b /\ 0 <= column b < 80) as (t2 & E2 & H2 & H3).
  { destruct (Z.eqb_spec c 9).
    - unfold bind at 1, gets at 1. rewrite (sh_col _ _ Hs1). simpl. rewrite next_tab_value by lia.
      destruct (tab_loop_ok 80 t1 (send c a) (column a + (4 - column a mod 4))) as (t2 & E2 & H2 & H3);
        [done|simpl; zmod..|]. simpl in H2, H3. replace (column a + (4 - column a mod 4) - column a) with (4 - column a mod 4) in * by lia.
      rewrite (bind_ok _ _ _ _ _ E2). apply shows_wrap; [done|]. rewrite H3. zmod.
    - unfold bind at 1, gets at 1, id. destruct (shows_write _ _ c Hs1) as (t2 & E2 & H2); [done|].
      rewrite (bind_ok _ _ _ _ _ E2). unfold bind at 1, modify. rewrite (sh_col _ _ Hs1). simpl.
      apply shows_wrap; [|simpl; lia]. apply shows_column; [done|simpl; lia]. }
  rewrite (bind_ok _ _ _ _ _ E2). destruct (c =? 9); by apply shows_cursor.
Qed.

Lemma write_ok s t a : refines t a ->
  exists t', terminal_write s t = Some (tt, t') /\ refines t' (fold_left (fun a c => put c a) s a).
Proof.
  revert t a. induction s as [|c s IH]; intros t a H; simpl; [by exists t|].
  destruct (putchar_ok c t a H) as (t1 & E1 & H1). rewrite (bind_ok _ _ _ _ _ E1). by apply IH.
Qed.

Lemma backspace_ok t a : refines t a -> exists t', terminal_backspace t = Some (tt, t') /\ refines t' (rub_out a).
Proof.
  intros (Hs & Hc & Hcur). unfold terminal_backspace, rub_out, bind at 1, gets. rewrite (sh_col _ _ Hs).
  destruct (Z.eqb_spec (column a) 0); [exists t; by split; [|split]|]. vga.
  unfold bind at 1, modify. pose proof (shows_column _ _ (column a - 1) Hs ltac:(lia)) as H1.
  unfold bind at 1, id. destruct (shows_write _ _ 32 H1) as (t2 & E2 & H2); [simpl; lia|].
  rewrite (bind_ok _ _ _ _ _ E2). destruct (shows_cursor _ _ H2) as (t3 & E3 & (H3 & Hc3 & Hcur3)); [simpl; lia|].
  rewrite (bind_ok _ _ _ _ _ E3). eexists. split; [done|].
  split; [|split; [simpl in *; vga; lia|exact Hcur3]]. by do 3 apply shows_send.
Qed.

Lemma clear_ok t a : com1 t = port a -> exists t', terminal_initialize t = Some (tt, t') /\ refines t' (tape_start (port a)).
Proof.
  intros Hp. destruct (terminal_clear_ok t) as (b & -> & Hb). apply shows_cursor; [|simpl; lia].
  split; simpl; vga; try done; try lia. intros y x Hy Hx. apply Hb. lia.
Qed.

Lemma run_ok c t a : refines t a -> exists t', run c t = Some (tt, t') /\ refines t' (spec c a).
Proof.
  intros H. destruct c as [c| | |c| |s]; simpl; [by apply putchar_ok|by apply backspace_ok| | |apply clear_ok, H|by apply write_ok].
  - destruct H as (Hs & Hc & Hcur). unfold terminal_cursor_left, bind, gets, modify. rewrite (sh_col _ _ Hs). vga.
    destruct (Z.eqb_spec (column a) 0) as [E|].
    + exists t. split; [done|]. rewrite E. change (Z.max 0 (0 - 1)) with 0. split; [|split; [simpl; vga; lia|done]].
      destruct Hs. split; simpl in *; try done. congruence.
    + rewrite Z.max_r by lia. apply shows_cursor; [|simpl; lia]. apply shows_column; [done|simpl; lia].
  - destruct H as ([] & Hc & Hcur). eexists. split; [done|]. split; [|by split]. split; simpl; try done. apply u8_bound.
Qed.

Lemma run_all_ok l t a : refines t a ->
  exists t', run_all l t = Some (tt, t') /\ refines t' (fold_left (fun a c => spec c a) l a).
Proof.
  revert t a. induction l as [|c l IH]; intros t a H; simpl; [by exists t|].
  destruct (run_ok c t a H) as (t1 & E1 & H1). rewrite (bind_ok _ _ _ _ _ E1). by apply IH.
Qed.

(** C18: Whatever the screen held before [terminal_initialize], no sequence of calls to
    the terminal stores outside its 2000 cells, and afterwards the screen shows
    exactly the last 25 lines of the tape the calls specify (line wrapping, tabs,
    cursor movement, rubbing out, colours, clearing and scrolling included), the
    hardware cursor stands at the writing position, and the serial console has
    received every character once, with CR before LF. *)
Theorem terminal_shows_tape t0 calls : exists t1 t,
  terminal_initialize t0 = Some (tt, t1) /\ run_all calls t1 = Some (tt, t)
  /\ refines t (fold_left (fun a c => spec c a) calls (tape_start (com1 t0))).
Proof.
  destruct (clear_ok t0 (tape_start (com1 t0)) eq_refl) as (t1 & E1 & H1).
  destruct (run_all_ok calls t1 _ H1) as (t & E & H). exists t1, t. by split_and!.
Qed.

End Vga.
