(* ===== verification/LineEdit.v ===== *)
(** * Line editing (the buffers of kernel/shell.c and user/ush.c)

    Both shells keep the line being typed in an array of 256 characters with a length
    and a cursor, and the last ten lines in a second array.  Here are that state, the
    loops both shells run on it, and what they do on lists: the line is its text before
    and after the cursor, the history a list of lines.  Refinement between programs on
    the two states is stated once, with its rules. *)

From S2P Require Import Prelude Vga.

(** What a shell needs of the system: the terminal, the working directory, completion
    of file names, the execution of a line, and whether a program owns the keyboard. *)
Class ShellHost (W : Type) := {
  sh_call : Vga.call -> W -> W;
  sh_cwd : W -> list Z;
  sh_find : list Z -> st W (list (list Z));
  sh_execute : list Z -> st W unit;
  sh_foreground : W -> Z;
  sh_call_cwd : forall c w, sh_cwd (sh_call c w) = sh_cwd w }.

Module LineEdit.

Import Vga.

Definition INPUT_BUFFER_SIZE : Z := 256.
Definition HISTORY_SIZE : Z := 10.

(** Characters are bytes; [history_index] is -1 while no old line is shown. *)
Record edit := mk_edit {
  input_buffer : Z -> Z; input_index : Z; cursor_pos : Z;
  history : Z -> Z -> Z; history_count : Z; history_index : Z }.

Definition set_input (b : Z -> Z) (e : edit) : edit :=
  mk_edit b (input_index e) (cursor_pos e) (history e) (history_count e) (history_index e).
Definition set_len (n : Z) (e : edit) : edit :=
  mk_edit (input_buffer e) n (cursor_pos e) (history e) (history_count e) (history_index e).
Definition set_pos (n : Z) (e : edit) : edit :=
  mk_edit (input_buffer e) (input_index e) n (history e) (history_count e) (history_index e).
Definition set_history (h : Z -> Z -> Z) (e : edit) : edit :=
  mk_edit (input_buffer e) (input_index e) (cursor_pos e) h (history_count e) (history_index e).
Definition set_hcount (n : Z) (e : edit) : edit :=
  mk_edit (input_buffer e) (input_index e) (cursor_pos e) (history e) n (history_index e).
Definition set_hindex (n : Z) (e : edit) : edit :=
  mk_edit (input_buffer e) (input_index e) (cursor_pos e) (history e) (history_count e) n.

(** Array accesses: outside the array they are undefined. *)
Definition in_line (i : Z) : bool := (0 <=? i) && (i <? INPUT_BUFFER_SIZE).
Definition buf_get (i : Z) : st edit Z := fun e => if in_line i then Some (input_buffer e i, e) else None.
Definition buf_set (i v : Z) : st edit unit := fun e =>
  if in_line i then Some (tt, set_input ((input_buffer e).[i <- v]) e) else None.
Definition in_history (n i : Z) : bool := (0 <=? n) && (n <? HISTORY_SIZE) && in_line i.
Definition hist_get (n i : Z) : st edit Z := fun e => if in_history n i then Some (history e n i, e) else None.
Definition hist_set (n i v : Z) : st edit unit := fun e =>
  if in_history n i then Some (tt, set_history ((history e).[n <- (history e n).[i <- v]]) e) else None.

(** [input_buffer[i] = input_buffer[j]]. *)
Definition buf_move (i j : Z) : st edit unit := let* v := buf_get j in buf_set i v.

(** ** The loops both shells contain *)

(** Make room for one character at the cursor. *)
Definition open_gap : st edit unit :=
  let* e := gets id in
  for_st (Z.to_nat (input_index e - cursor_pos e)) 0 (fun j => let i := input_index e - j in buf_move i (i - 1)).

(** Close the gap left by the character at [from]. *)
Definition close_gap (from : Z) : st edit unit :=
  let* e := gets id in
  for_st (Z.to_nat (input_index e - 1 - from)) from (fun i => buf_move i (i + 1)).

(** The start of the word that ends at [ws]. *)
Fixpoint word_start_loop (n : nat) (ws : Z) : st edit Z :=
  match n with
  | O => ret ws
  | S n => let* c := buf_get (ws - 1) in if c =? 32 then ret ws else word_start_loop n (ws - 1)
  end.
Definition word_start : st edit Z := let* c := gets cursor_pos in word_start_loop (Z.to_nat c) c.

(** The end of the word that goes on at [we], [n] characters before the end of the line. *)
Fixpoint word_end_loop (n : nat) (we : Z) : st edit Z :=
  match n with
  | O => ret we
  | S n => let* c := buf_get we in if c =? 32 then ret we else word_end_loop n (we + 1)
  end.
Definition word_end : st edit Z :=
  let* e := gets id in word_end_loop (Z.to_nat (input_index e - cursor_pos e)) (cursor_pos e).

(** [n] characters from [lo] on. *)
Fixpoint buf_slice (n : nat) (lo : Z) : st edit (list Z) :=
  match n with
  | O => ret []
  | S n => let* c := buf_get lo in let* l := buf_slice n (lo + 1) in ret (c :: l)
  end.

(** Is there a space among the [n] characters from [lo] on? *)
Fixpoint has_space (n : nat) (lo : Z) : st edit bool :=
  match n with
  | O => ret false
  | S n => let* c := buf_get lo in if c =? 32 then ret true else has_space n (lo + 1)
  end.

(** The part of the line behind [we] moves by [diff]. *)
Definition shift_tail (we diff : Z) : st edit unit :=
  let* len := gets input_index in
  if 0 <? diff then for_st (Z.to_nat (len - we + 1)) 0 (fun j => let i := len - j in buf_move (i + diff) i)
  else if diff <? 0 then for_st (Z.to_nat (len - (we + diff) + 1)) (we + diff) (fun i => buf_move i (i - diff))
  else ret tt.

(** Write a name at [at_]. *)
Definition put_name (name : list Z) (at_ : Z) : st edit unit :=
  for_st (length name) 0 (fun i => buf_set (at_ + i) (ch name i)).

(** The word between [ws] and [we] is replaced with [name], the cursor behind it. *)
Definition replace_word (ws we : Z) (name : list Z) : st edit unit :=
  let* len := gets input_index in
  let new_len := Z.of_nat (length name) in
  let diff := new_len - (we - ws) in
  shift_tail we diff ;;
  put_name name ws ;;
  modify (fun e => set_pos (ws + new_len) (set_len (len + diff) e)).

(** Remember a non-empty line, forgetting the oldest of ten. *)
Definition push_history : st edit unit :=
  let* e := gets id in
  if 0 <? input_index e then
    (if history_count e =? HISTORY_SIZE then
       for_st 9 0 (fun i => for_st 256 0 (fun j => let* v := hist_get (i + 1) j in hist_set i j v)) ;;
       modify (fun e => set_hcount (history_count e - 1) e)
     else ret tt) ;;
    let* n := gets history_count in
    for_st (Z.to_nat (input_index e + 1)) 0 (fun i => let* v := buf_get i in hist_set n i v) ;;
    modify (fun e => set_hcount (history_count e + 1) e)
  else ret tt.

(** ** Programs on an editor and the system *)

Section Programs.
Context {W : Type} {H : ShellHost W}.

(** Programs on an editor state [E] and the system. *)
Definition on_edit {E X} (m : st E X) : st (E * W) X := fun s =>
  match m s.1 with Some (x, e) => Some (x, (e, s.2)) | None => None end.
Definition on_host {E X} (m : st W X) : st (E * W) X := fun s =>
  match m s.2 with Some (x, w) => Some (x, (s.1, w)) | None => None end.
Definition send_calls (l : list call) (w : W) : W := fold_left (fun w c => sh_call c w) l w.
Definition says {E} (l : list call) : st (E * W) unit := on_host (modify (send_calls l)).

(** [for (i = lo; i < hi; i++) terminal_putchar(input_buffer[i])]. *)
Definition echo (lo hi : Z) : st (edit * W) unit :=
  for_st (Z.to_nat (hi - lo)) lo (fun i => let* c := on_edit (buf_get i) in says [PutChar c]).
(** [for (i = lo; i < hi; i++)] one and the same call. *)
Definition times {E} (lo hi : Z) (c : call) : st (E * W) unit :=
  for_st (Z.to_nat (hi - lo)) lo (fun _ => says [c]).

End Programs.

(** Names that begin with [prefix]. *)
Fixpoint starts_with (prefix cmd : list Z) : bool :=
  match prefix, cmd with
  | [], _ => true
  | p :: prefix, c :: cmd => (c =? p) && starts_with prefix cmd
  | _ :: _, [] => false
  end.

(** ** The same state on lists *)

Record typed := mk_line {
  before : list Z; after : list Z; past : list (list Z); browsing : Z }.

Definition text (l : typed) : list Z := before l ++ after l.
Definition set_text (b a : list Z) (l : typed) : typed := mk_line b a (past l) (browsing l).
Definition set_past (h : list (list Z)) (l : typed) : typed := mk_line (before l) (after l) h (browsing l).
Definition set_browsing (n : Z) (l : typed) : typed := mk_line (before l) (after l) (past l) n.

(** Non-empty lines are remembered, ten of them. *)
Definition remember (s : list Z) (h : list (list Z)) : list (list Z) :=
  match s with [] => h | _ => (if (length h =? 10)%nat then tail h else h) ++ [s] end.

(** The old line shown at position [n], counted from the latest. *)
Definition recall (n : Z) (h : list (list Z)) : list Z := nth (length h - 1 - Z.to_nat n)%nat h [].

(** The word before a position: the characters behind the last space. *)
Fixpoint word_from (s : list Z) : list Z :=
  match s with [] => [] | c :: s => if c =? 32 then [] else c :: word_from s end.
Definition last_word (s : list Z) : list Z := rev (word_from (rev s)).
Definition but_word (s : list Z) : list Z := take (length s - length (last_word s)) s.

(** ** Representation *)

Definition text_at (b : Z -> Z) (s : list Z) : Prop := forall i, 0 <= i < Z.of_nat (length s) -> b i = ch s i.
(** NUL ends a string. *)
Definition char_ok (c : Z) : Prop := c <> 0.

(** Row [n] of the history holds the string [s]. *)
Definition row_holds (h : Z -> Z -> Z) (n : Z) (s : list Z) : Prop :=
  text_at (h n) s /\ h n (Z.of_nat (length s)) = 0 /\ Forall char_ok s /\ (length s <= 255)%nat.

Record repr (e : edit) (l : typed) : Prop := {
  rp_len : input_index e = Z.of_nat (length (text l));
  rp_pos : cursor_pos e = Z.of_nat (length (before l));
  rp_max : (length (text l) <= 255)%nat;
  rp_text : text_at (input_buffer e) (text l);
  rp_chars : Forall char_ok (text l);
  rp_hcount : history_count e = Z.of_nat (length (past l));
  rp_hmax : (length (past l) <= 10)%nat;
  rp_rows : forall (n : nat) s, past l !! n = Some s -> row_holds (history e) (Z.of_nat n) s;
  rp_hindex : history_index e = browsing l;
  rp_browsing : -1 <= browsing l < Z.of_nat (length (past l)) }.

(** ** Lemmas on the loops *)

Lemma in_line_true i : 0 <= i < 256 -> in_line i = true.
Proof. intros. unfold in_line, INPUT_BUFFER_SIZE. by zspec; try lia. Qed.

Lemma in_line_false i : ~ 0 <= i < 256 -> in_line i = false.
Proof. intros. unfold in_line, INPUT_BUFFER_SIZE. by zspec; simpl; try lia. Qed.

Lemma buf_get_ok i e : 0 <= i < 256 -> buf_get i e = Some (input_buffer e i, e).
Proof. intros. unfold buf_get. by rewrite in_line_true. Qed.

Lemma buf_set_ok i v e : 0 <= i < 256 -> buf_set i v e = Some (tt, set_input ((input_buffer e).[i <- v]) e).
Proof. intros. unfold buf_set. by rewrite in_line_true. Qed.

Lemma buf_move_ok i j e : 0 <= i < 256 -> 0 <= j < 256 ->
  buf_move i j e = Some (tt, set_input ((input_buffer e).[i <- input_buffer e j]) e).
Proof. intros. unfold buf_move. rewrite (bind_ok _ _ _ _ _ (buf_get_ok j e ltac:(lia))). by apply buf_set_ok. Qed.

(** A loop that only writes the line: which cells it has changed so far. *)
Definition moved (e0 : edit) (P : Z -> bool) (f : Z -> Z) (e : edit) : Prop :=
  exists b, e = set_input b e0 /\ forall x, b x = if P x then f x else input_buffer e0 x.

(** A block moves up by [d], its last character first. *)
Lemma move_up_ok e n hi d (body : Z -> st edit unit) : 0 <= d -> 0 <= hi - Z.of_nat n + 1 -> hi + d < 256 ->
  (forall j e, 0 <= j < Z.of_nat n -> body j e = buf_move (hi - j + d) (hi - j) e) ->
  exists e', for_st n 0 body e = Some (tt, e')
  /\ moved e (fun x => (hi - Z.of_nat n + 1 + d <=? x) && (x <=? hi + d)) (fun x => input_buffer e (x - d)) e'.
Proof.
  intros Hd Hlo Hhi Hb.
  destruct (for_st_ind (fun j => moved e (fun x => (hi - j + 1 + d <=? x) && (x <=? hi + d)) (fun x => input_buffer e (x - d)))
    n 0 body e) as (e' & E & H).
  - exists (input_buffer e). split; [by destruct e|]. intros x. by zspec; simpl; try lia.
  - intros j e1 Hj (b & -> & H). rewrite Hb, buf_move_ok by lia. eexists. split; [done|].
    exists (b.[hi - j + d <- b (hi - j)]). split; [done|]. intros x. unfold upd.
    destruct (Z.eqb_spec x (hi - j + d)) as [->|].
    + rewrite H. zspec; simpl; try lia; f_equal; lia.
    + rewrite H. by zspec; simpl; try lia.
  - exists e'. split; [done|]. by rewrite Z.add_0_l in H.
Qed.

(** A block moves down by [d], its first character first. *)
Lemma move_down_ok e n lo d (body : Z -> st edit unit) : 0 <= d -> 0 <= lo -> lo + Z.of_nat n - 1 + d < 256 ->
  (forall i e, lo <= i < lo + Z.of_nat n -> body i e = buf_move i (i + d) e) ->
  exists e', for_st n lo body e = Some (tt, e')
  /\ moved e (fun x => (lo <=? x) && (x <? lo + Z.of_nat n)) (fun x => input_buffer e (x + d)) e'.
Proof.
  intros Hd Hlo Hhi Hb.
  destruct (for_st_ind (fun i => moved e (fun x => (lo <=? x) && (x <? i)) (fun x => input_buffer e (x + d)))
    n lo body e) as (e' & E & H).
  - exists (input_buffer e). split; [by destruct e|]. intros x. by zspec; simpl; try lia.
  - intros i e1 Hi (b & -> & H). rewrite Hb, buf_move_ok by lia. eexists. split; [done|].
    exists (b.[i <- b (i + d)]). split; [done|]. intros x. unfold upd.
    destruct (Z.eqb_spec x i) as [->|].
    + rewrite H. zspec; simpl; try lia; done.
    + rewrite H. by zspec; simpl; try lia.
  - exists e'. by split.
Qed.

(** An iteration that is undefined in every state makes the loop undefined. *)
Lemma for_st_undef n lo (body : Z -> st edit unit) i : lo <= i < lo + Z.of_nat n ->
  (forall e, body i e = None) -> forall e, for_st n lo body e = None.
Proof.
  revert lo. induction n as [|n IH]; intros lo Hi Hb e; [lia|]. simpl. unfold bind.
  destruct (decide (i = lo)) as [->|]; [by rewrite Hb|]. destruct (body lo e) as [[[] e']|]; [|done].
  apply IH; [lia|done].
Qed.

Lemma ch_app a b i : 0 <= i -> ch (a ++ b) i = if i <? Z.of_nat (length a) then ch a i else ch b (i - Z.of_nat (length a)).
Proof.
  intros Hi. unfold ch. destruct (Z.ltb_spec i (Z.of_nat (length a))).
  - apply app_nth1. lia.
  - rewrite app_nth2 by lia. f_equal. lia.
Qed.

Lemma ch_lookup s (i : nat) c : s !! i = Some c -> ch s (Z.of_nat i) = c.
Proof. intros H. unfold ch. rewrite Nat2Z.id. by apply nth_lookup_Some. Qed.

Lemma ch_drop s (n : nat) i : 0 <= i -> ch (drop n s) i = ch s (Z.of_nat n + i).
Proof.
  intros Hi. unfold ch. rewrite !nth_lookup, lookup_drop. do 2 f_equal. lia.
Qed.

Lemma text_at_ext b s : text_at b s <-> forall (i : nat) c, s !! i = Some c -> b (Z.of_nat i) = c.
Proof.
  split.
  - intros Hs i c Hi. pose proof (lookup_lt_Some _ _ _ Hi). rewrite Hs by lia. by apply ch_lookup.
  - intros Hs i Hi. destruct (lookup_lt_is_Some_2 s (Z.to_nat i)) as [c Hc]; [lia|].
    pose proof (Hs _ _ Hc) as E. pose proof (ch_lookup _ _ _ Hc) as E'. rewrite Z2Nat.id in E, E' by lia. congruence.
Qed.

Lemma drop_at (s : list Z) lo : 0 <= lo < Z.of_nat (length s) ->
  drop (Z.to_nat lo) s = ch s lo :: drop (Z.to_nat (lo + 1)) s.
Proof.
  intros Hlo. destruct (lookup_lt_is_Some_2 s (Z.to_nat lo)) as [c Hc]; [lia|].
  rewrite (drop_S s c _ Hc). replace (Z.to_nat (lo + 1)) with (S (Z.to_nat lo)) by lia. f_equal.
  symmetry. pose proof (ch_lookup _ _ _ Hc) as E. by rewrite Z2Nat.id in E by lia.
Qed.

Section Reading.
Context (e : edit) (s : list Z) (Hs : text_at (input_buffer e) s) (Hl : (length s <= 256)%nat).

Lemma line_get i : 0 <= i < Z.of_nat (length s) -> buf_get i e = Some (ch s i, e).
Proof. intros. rewrite buf_get_ok by lia. by rewrite Hs. Qed.

Lemma buf_slice_ok (n : nat) lo : 0 <= lo -> lo + Z.of_nat n <= Z.of_nat (length s) ->
  buf_slice n lo e = Some (take n (drop (Z.to_nat lo) s), e).
Proof.
  revert lo. induction n as [|n IH]; intros lo Hlo Hn; simpl; [done|].
  rewrite (bind_ok _ _ _ _ _ (line_get lo ltac:(lia))), (bind_ok _ _ _ _ _ (IH (lo + 1) ltac:(lia) ltac:(lia))).
  by rewrite (drop_at s lo) by lia.
Qed.

Lemma has_space_ok (n : nat) lo : 0 <= lo -> lo + Z.of_nat n <= Z.of_nat (length s) ->
  has_space n lo e = Some (existsb (fun c => c =? 32) (take n (drop (Z.to_nat lo) s)), e).
Proof.
  revert lo. induction n as [|n IH]; intros lo Hlo Hn; simpl; [done|].
  rewrite (bind_ok _ _ _ _ _ (line_get lo ltac:(lia))), (drop_at s lo) by lia. simpl.
  destruct (ch s lo =? 32); [done|]. apply IH; lia.
Qed.

Lemma word_end_ok (n : nat) lo : 0 <= lo -> lo + Z.of_nat n <= Z.of_nat (length s) ->
  word_end_loop n lo e = Some (lo + Z.of_nat (length (word_from (take n (drop (Z.to_nat lo) s)))), e).
Proof.
  revert lo. induction n as [|n IH]; intros lo Hlo Hn; simpl; [by rewrite Z.add_0_r|].
  rewrite (bind_ok _ _ _ _ _ (line_get lo ltac:(lia))), (drop_at s lo) by lia. simpl.
  destruct (ch s lo =? 32); simpl; [by rewrite Z.add_0_r|]. rewrite IH by lia. do 2 f_equal. lia.
Qed.

Lemma word_start_ok (n : nat) : (n <= length s)%nat ->
  word_start_loop n (Z.of_nat n) e = Some (Z.of_nat n - Z.of_nat (length (last_word (take n s))), e).
Proof.
  induction n as [|n IH]; intros Hn; cbn [word_start_loop]; [done|].
  rewrite (bind_ok _ _ _ _ _ (line_get (Z.of_nat (S n) - 1) ltac:(lia))).
  destruct (lookup_lt_is_Some_2 s n) as [c Hc]; [lia|].
  rewrite (take_S_r s n c Hc). unfold last_word. rewrite rev_app_distr. simpl.
  replace (Z.of_nat (S n) - 1) with (Z.of_nat n) by lia. rewrite (ch_lookup _ _ _ Hc).
  destruct (c =? 32); simpl; [unfold ret; do 2 f_equal; lia|]. rewrite IH by lia. unfold last_word.
  rewrite length_app. simpl. do 2 f_equal. lia.
Qed.

End Reading.

Lemma rev_cases (s : list Z) : match rev s with [] => s = [] | c :: r => s = rev r ++ [c] end.
Proof. destruct (rev s) eqn:E; rewrite <- (rev_involutive s), E; done. Qed.

(** ** Changing the line *)

Lemma ch_cons c s i : ch (c :: s) i = if i <=? 0 then c else ch s (i - 1).
Proof.
  unfold ch. destruct (Z.leb_spec i 0).
  - by replace (Z.to_nat i) with 0%nat by lia.
  - by replace (Z.to_nat i) with (S (Z.to_nat (i - 1))) by lia.
Qed.

Lemma repr_text e l b bf af : repr e l -> text_at b (bf ++ af) -> Forall char_ok (bf ++ af) -> (length (bf ++ af) <= 255)%nat ->
  repr (set_pos (Z.of_nat (length bf)) (set_len (Z.of_nat (length (bf ++ af))) (set_input b e))) (set_text bf af l).
Proof. intros [] ? ? ?. by split. Qed.

(** Decide the comparisons of positions, look the old line up, and compare by position. *)
Ltac place Ht :=
  zspec; simpl; try lia; try done; rewrite Ht by (rewrite ?length_app; simpl; lia);
  rewrite ?ch_app, ?ch_cons by lia; zspec; simpl; try lia; try done; f_equal; lia.

Lemma insert_ok e l c : repr e l -> char_ok c -> (length (text l) < 255)%nat -> exists e',
  (open_gap ;; buf_set (cursor_pos e) c ;; modify (set_len (input_index e + 1))) e = Some (tt, e')
  /\ repr e' (set_text (before l) (c :: after l) l).
Proof.
  intros Hr Hc Hl. pose proof Hr as [Hi Hp _ Ht Hch _ _ _ _ _]. unfold text in *. rewrite length_app in *.
  destruct (move_up_ok e (Z.to_nat (input_index e - cursor_pos e)) (input_index e - 1) 1
    (fun j => let i := input_index e - j in buf_move i (i - 1))) as (e1 & E1 & b & -> & Hb); [lia..| |].
  { intros j e1 Hj. cbv zeta. f_equal; lia. }
  change (open_gap e = Some (tt, set_input b e)) in E1.
  rewrite (bind_ok _ _ _ _ _ E1), (bind_ok _ _ _ _ _ (buf_set_ok (cursor_pos e) c (set_input b e) ltac:(lia))). clear E1.
  eexists. split; [reflexivity|].
  assert (Forall char_ok (before l ++ c :: after l)) as Hch'.
  { apply Forall_app in Hch as [? ?]. by apply Forall_app; split; [|apply Forall_cons]. }
  eassert (repr _ _) as Hrep; [|refine (eq_ind _ (fun e => repr e _) Hrep _ _)].
  { apply (repr_text e l (b.[cursor_pos e <- c]) (before l) (c :: after l) Hr); [|done|rewrite length_app; simpl; lia].
    intros i Hi'. rewrite length_app in Hi'. simpl in Hi'. unfold upd. rewrite Hb, ch_app, ch_cons by lia. place Ht. }
  unfold set_pos, set_len, set_input. simpl. rewrite length_app. simpl. f_equal; lia.
Qed.

Lemma close_gap_ok e from : 0 <= from < input_index e -> input_index e <= 255 -> exists b,
  close_gap from e = Some (tt, set_input b e)
  /\ forall x, b x = if (from <=? x) && (x <? input_index e - 1) then input_buffer e (x + 1) else input_buffer e x.
Proof.
  intros Hf Hi. destruct (move_down_ok e (Z.to_nat (input_index e - 1 - from)) from 1 (fun i => buf_move i (i + 1)))
    as (e1 & E1 & b & -> & Hb); [lia..|done|]. exists b. split; [exact E1|]. intros x. rewrite Hb. by zspec; simpl; try lia.
Qed.

Lemma delete_text e l p x b : repr e l -> before l = p ++ [x] ->
  (forall y, b y = if (cursor_pos e - 1 <=? y) && (y <? input_index e - 1) then input_buffer e (y + 1) else input_buffer e y) ->
  repr (set_pos (cursor_pos e - 1) (set_len (input_index e - 1) (set_input b e))) (set_text p (after l) l).
Proof.
  intros Hr Hbf Hb. pose proof Hr as [Hi Hp Hm Ht Hch _ _ _ _ _]. unfold text in *. rewrite Hbf in *.
  rewrite <- app_assoc in *. simpl in *. rewrite !length_app in *. simpl in *.
  assert (Forall char_ok (p ++ after l)) as Hch'.
  { apply Forall_app in Hch as [? [_ ?]%Forall_cons]. by apply Forall_app. }
  eassert (repr _ _) as Hrep; [|refine (eq_ind _ (fun e => repr e _) Hrep _ _)].
  { apply (repr_text e l b p (after l) Hr); [|done|rewrite length_app; lia].
    intros i Hi'. rewrite length_app in Hi'. rewrite Hb, ch_app by lia. place Ht. }
  unfold set_pos, set_len, set_input. simpl. rewrite length_app. simpl. f_equal; lia.
Qed.

Lemma delete_ok e l p x : repr e l -> before l = p ++ [x] -> exists e1 e',
  close_gap (cursor_pos e - 1) e = Some (tt, e1)
  /\ e' = set_pos (cursor_pos e1 - 1) (set_len (input_index e1 - 1) e1) /\ repr e' (set_text p (after l) l).
Proof.
  intros Hr Hbf. pose proof Hr as [Hi Hp Hm _ _ _ _ _ _ _]. unfold text in Hi, Hm. rewrite Hbf, !length_app in *. simpl in *.
  destruct (close_gap_ok e (cursor_pos e - 1)) as (b & E & Hb); [lia..|]. eexists _, _. split; [exact E|]. split; [reflexivity|].
  exact (delete_text e l p x b Hr Hbf Hb).
Qed.

Lemma put_name_ok e name ws : 0 <= ws -> ws + Z.of_nat (length name) <= 256 -> exists e',
  put_name name ws e = Some (tt, e')
  /\ moved e (fun x => (ws <=? x) && (x <? ws + Z.of_nat (length name))) (fun x => ch name (x - ws)) e'.
Proof.
  intros Hws Hn. destruct (for_st_ind (fun i => moved e (fun x => (ws <=? x) && (x <? ws + i)) (fun x => ch name (x - ws)))
    (length name) 0 (fun i => buf_set (ws + i) (ch name i)) e) as (e' & E & H).
  - exists (input_buffer e). split; [by destruct e|]. intros x. by zspec; simpl; try lia.
  - intros i e1 Hi (b & -> & H). rewrite buf_set_ok by lia. eexists. split; [done|].
    exists (b.[ws + i <- ch name i]). split; [done|]. intros x. unfold upd. rewrite H. zspec; simpl; try lia; done || (f_equal; lia).
  - exists e'. split; [exact E|]. by rewrite Z.add_0_l in H.
Qed.

Lemma shift_tail_ok e we diff : 0 <= we <= input_index e -> 0 <= we + diff -> input_index e + diff <= 255 ->
  input_index e <= 255 -> 0 <= diff \/ input_index e - diff <= 255 -> exists b,
  shift_tail we diff e = Some (tt, set_input b e)
  /\ (forall x, we + diff <= x < input_index e + diff -> b x = input_buffer e (x - diff))
  /\ (forall x, x < we -> x < we + diff -> b x = input_buffer e x).
Proof.
  intros Hwe Hlo Hhi Hlen Hroom. unfold shift_tail, bind, gets.
  destruct (Z.ltb_spec 0 diff); [|destruct (Z.ltb_spec diff 0)].
  - destruct (move_up_ok e (Z.to_nat (input_index e - we + 1)) (input_index e) diff
      (fun j => let i := input_index e - j in buf_move (i + diff) i)) as (e1 & E1 & b & -> & Hb); [lia..|done|].
    exists b. split; [exact E1|]. split; intros x Hx; [|intros Hx']; rewrite Hb; by zspec; simpl; try lia.
  - destruct (move_down_ok e (Z.to_nat (input_index e - (we + diff) + 1)) (we + diff) (- diff)
      (fun i => buf_move i (i - diff))) as (e1 & E1 & b & -> & Hb); [lia..| |].
    { intros i e1 Hi. f_equal; lia. }
    exists b. split; [exact E1|]. split; intros x Hx; [|intros Hx']; rewrite Hb; zspec; simpl; try lia; f_equal; lia.
  - exists (input_buffer e). split; [by destruct e|]. replace diff with 0 by lia. split; intros x Hx; [|done]. f_equal. lia.
Qed.

Section Replacing.
Context (e : edit) (l : typed) (hd w tw rest name : list Z).
Context (Hr : repr e l) (Hbf : before l = hd ++ w) (Haf : after l = tw ++ rest).
Let ws := Z.of_nat (length hd).
Let we := Z.of_nat (length (hd ++ w ++ tw)).

Lemma replace_word_ok : Forall char_ok name -> (length (hd ++ name ++ rest) <= 255)%nat ->
  (length (w ++ tw) <= length name)%nat \/ (length (text l) + length (w ++ tw) <= 255 + length name)%nat -> exists e',
  replace_word ws we name e = Some (tt, e') /\ repr e' (set_text (hd ++ name) rest l).
Proof.
  intros Hn Hfit Hroom. pose proof Hr as [Hi Hp Hm Ht Hch _ _ _ _ _]. unfold text in *. rewrite Hbf, Haf in *.
  unfold ws, we. rewrite <- !app_assoc in *. rewrite ?length_app in *.
  unfold replace_word. unfold bind at 1, gets. cbv zeta.
  destruct (shift_tail_ok e we (Z.of_nat (length name) - (we - ws))) as (b1 & E1 & Hb1 & Hb1'); unfold we, ws in *; rewrite ?length_app in *; [lia..|].
  rewrite (bind_ok _ _ _ _ _ E1). clear E1.
  destruct (put_name_ok (set_input b1 e) name (Z.of_nat (length hd))) as (e2 & E2 & b2 & -> & Hb2); [lia..|].
  rewrite (bind_ok _ _ _ _ _ E2). eexists. split; [reflexivity|].
  assert (Forall char_ok ((hd ++ name) ++ rest)) as Hch'.
  { rewrite !Forall_app in Hch. rewrite !Forall_app. destruct Hch as (? & _ & _ & ?). done. }
  eassert (repr _ _) as Hrep; [|refine (eq_ind _ (fun e => repr e _) Hrep _ _)].
  { apply (repr_text e l b2 (hd ++ name) rest Hr); [|done|rewrite !length_app; lia].
    intros i Hi'. rewrite !length_app in Hi'. rewrite Hb2, !ch_app by (rewrite ?length_app; lia). simpl. rewrite !length_app.
    destruct (Z.ltb_spec i (Z.of_nat (length hd))).
    - rewrite Hb1' by lia. place Ht.
    - destruct (Z.ltb_spec i (Z.of_nat (length hd + length name))).
      + by zspec; simpl; try lia.
      + rewrite Hb1 by lia. place Ht. }
  unfold set_pos, set_len, set_input. simpl. rewrite !length_app. f_equal; lia.
Qed.

(** Shrinking a long line reads behind the end of the array. *)
Lemma replace_word_undef : (length name < length (w ++ tw))%nat -> (255 + length name < length (text l) + length (w ++ tw))%nat ->
  replace_word ws we name e = None.
Proof.
  intros Hn Hroom. pose proof Hr as [Hi Hp Hm Ht Hch _ _ _ _ _]. unfold text in *. rewrite Hbf, Haf in *.
  rewrite <- !app_assoc in *. rewrite ?length_app in *.
  unfold replace_word, shift_tail, bind, gets, we, ws. rewrite !length_app. set (diff := _ - _).
  assert (diff < 0) as Hd by (unfold diff; lia). destruct (Z.ltb_spec 0 diff); [lia|]. destruct (Z.ltb_spec diff 0); [|lia].
  rewrite (for_st_undef _ _ _ (input_index e)); [done|unfold diff in *; lia|].
  intros e'. unfold buf_move, bind, buf_get. rewrite in_line_false; [done|unfold diff in *; lia].
Qed.

(** Growing a line beyond the array writes behind its end. *)
Lemma replace_word_full : (256 <= length (hd ++ name ++ rest))%nat -> replace_word ws we name e = None.
Proof.
  intros Hfull. pose proof Hr as [Hi Hp Hm Ht Hch _ _ _ _ _]. unfold text in *. rewrite Hbf, Haf in *.
  rewrite <- !app_assoc in *. rewrite ?length_app in *.
  unfold replace_word, shift_tail, bind, gets, we, ws. rewrite !length_app. set (diff := _ - _).
  assert (0 < diff) as Hd by (unfold diff; lia). destruct (Z.ltb_spec 0 diff); [|lia].
  rewrite (for_st_undef _ _ _ 0); [done|unfold diff in *; lia|].
  intros e'. cbv zeta. unfold buf_move, bind. destruct (buf_get _ e') as [[v e1]|]; [|done]. unfold buf_set.
  rewrite in_line_false; [done|unfold diff in *; lia].
Qed.

End Replacing.

(** ** The history *)

Lemma in_history_true n i : 0 <= n < 10 -> 0 <= i < 256 -> in_history n i = true.
Proof. intros. unfold in_history, HISTORY_SIZE. rewrite in_line_true by done. by zspec; try lia. Qed.

Lemma hist_set_ok n i v e : 0 <= n < 10 -> 0 <= i < 256 ->
  hist_set n i v e = Some (tt, set_history ((history e).[n <- (history e n).[i <- v]]) e).
Proof. intros. unfold hist_set. by rewrite in_history_true. Qed.

Lemma hist_get_ok n i e : 0 <= n < 10 -> 0 <= i < 256 -> hist_get n i e = Some (history e n i, e).
Proof. intros. unfold hist_get. by rewrite in_history_true. Qed.

(** A loop that only writes the history: what the rows hold so far. *)
Definition rewritten (e0 : edit) (f : Z -> Z -> Z) (e : edit) : Prop :=
  exists h, e = set_history h e0 /\ forall n i, 0 <= i < 256 -> h n i = f n i.

Lemma roll_ok e : exists e',
  for_st 9 0 (fun i => for_st 256 0 (fun j => let* v := hist_get (i + 1) j in hist_set i j v)) e = Some (tt, e')
  /\ rewritten e (fun n i => if (0 <=? n) && (n <? 9) then history e (n + 1) i else history e n i) e'.
Proof.
  apply (for_st_ind (fun k => rewritten e (fun n i => if (0 <=? n) && (n <? k) then history e (n + 1) i else history e n i))).
  - exists (history e). split; [by destruct e|]. intros n i _. by zspec; simpl; try lia.
  - intros k e1 Hk (h1 & -> & H1).
    destruct (for_st_ind (fun j => rewritten e (fun n i => if (0 <=? n) && (n <? k) || (n =? k) && (i <? j) then history e (n + 1) i
      else history e n i)) 256 0 (fun j => let* v := hist_get (k + 1) j in hist_set k j v) (set_history h1 e)) as (e2 & E2 & h2 & -> & H2).
    + exists h1. split; [done|]. intros n i Hi. rewrite H1 by done. by zspec; simpl; try lia.
    + intros j e2 Hj (h2 & -> & H2). rewrite (bind_ok _ _ _ _ _ (hist_get_ok (k + 1) j (set_history h2 e) ltac:(lia) ltac:(lia))).
      rewrite hist_set_ok by lia. eexists. split; [done|]. eexists. split; [reflexivity|]. intros n i Hi. simpl. unfold upd.
      destruct (Z.eqb_spec n k) as [->|].
      * destruct (Z.eqb_spec i j) as [->|]; rewrite H2 by lia; zspec; simpl; try lia; done.
      * rewrite H2 by lia. by zspec; simpl; try lia.
    + eexists. split; [exact E2|]. exists h2. split; [done|]. intros n i Hi. rewrite H2 by done. zspec; simpl; try lia; done.
Qed.

(** Copying the line with its terminator into row [n]. *)
Lemma save_ok e s n : 0 <= n < 10 -> (length s <= 255)%nat -> text_at (input_buffer e) s ->
  input_buffer e (Z.of_nat (length s)) = 0 -> exists h,
  for_st (S (length s)) 0 (fun i => let* v := buf_get i in hist_set n i v) e = Some (tt, set_history h e)
  /\ text_at (h n) s /\ h n (Z.of_nat (length s)) = 0 /\ (forall m, m <> n -> h m = history e m).
Proof.
  intros Hn Hl Ht H0. destruct (for_st_ind (fun k e' => exists h, e' = set_history h e /\ (forall m, m <> n -> h m = history e m)
    /\ forall i, 0 <= i < k -> h n i = input_buffer e i) (S (length s)) 0 (fun i => let* v := buf_get i in hist_set n i v) e)
    as (e' & E & h & -> & Ho & Hh).
  - exists (history e). split; [by destruct e|]. split; [done|lia].
  - intros i e1 Hi (h & -> & Ho & Hh). rewrite (bind_ok _ _ _ _ _ (buf_get_ok i (set_history h e) ltac:(lia))).
    rewrite hist_set_ok by lia. eexists. split; [done|]. eexists. split; [reflexivity|]. simpl. unfold upd at 1. split.
    + intros m Hm. rewrite (proj2 (Z.eqb_neq m n) Hm). by apply Ho.
    + intros j Hj. rewrite upd_same. unfold upd. destruct (Z.eqb_spec j i) as [->|]; [done|]. apply Hh. lia.
  - exists h. split; [exact E|]. split; [|split; [|done]].
    + intros i Hi. rewrite Hh by lia. by apply Ht.
    + rewrite Hh by lia. done.
Qed.

Lemma length_tl {A} (h : list A) : length (tail h) = pred (length h).
Proof. by destruct h. Qed.

Lemma remember_length s h : (length h <= 10)%nat ->
  (length h <= length (remember s h) <= 10)%nat.
Proof.
  intros. unfold remember. destruct s; [lia|]. rewrite length_app. simpl.
  destruct (Nat.eqb_spec (length h) 10); [rewrite length_tl|]; lia.
Qed.

(** The rows after rolling hold the lines less the oldest. *)
Lemma roll_rows e e' h : (forall (n : nat) s, h !! n = Some s -> row_holds (history e) (Z.of_nat n) s) -> length h = 10%nat ->
  rewritten e (fun n i => if (0 <=? n) && (n <? 9) then history e (n + 1) i else history e n i) e' ->
  forall (n : nat) s, tail h !! n = Some s -> row_holds (history e') (Z.of_nat n) s.
Proof.
  intros Hrows Hl (h' & -> & Hh) n s Hs. pose proof (lookup_lt_Some _ _ _ Hs) as Hn. rewrite length_tl in Hn.
  rewrite lookup_tail in Hs. destruct (Hrows _ _ Hs) as (Ht & H0 & Hc & Hm).
  replace (Z.of_nat (S n)) with (Z.of_nat n + 1) in * by lia.
  split; [|split; [|done]]; simpl.
  - intros i Hi. rewrite Hh by lia. zspec; simpl; try lia. by apply Ht.
  - rewrite Hh by lia. by zspec; simpl; try lia.
Qed.

(** A row added behind the others. *)
Lemma add_row h n (H H' : Z -> Z -> Z) s : Z.of_nat (length h) = n ->
  (forall (k : nat) r, h !! k = Some r -> row_holds H (Z.of_nat k) r) -> (forall m, m <> n -> H' m = H m) -> row_holds H' n s ->
  forall (k : nat) r, (h ++ [s]) !! k = Some r -> row_holds H' (Z.of_nat k) r.
Proof.
  intros <- Hrows Ho Hs k r Hk. apply lookup_app_Some in Hk as [Hk|[Hk Hr]].
  - pose proof (lookup_lt_Some _ _ _ Hk). unfold row_holds. rewrite Ho by lia. by apply Hrows.
  - apply list_lookup_singleton_Some in Hr as [Hr <-]. by replace (Z.of_nat k) with (Z.of_nat (length h)) by lia.
Qed.

(** The lines kept when one more is to be added. *)
Definition kept (h : list (list Z)) : list (list Z) := if (length h =? 10)%nat then tail h else h.

(** [e'] is [e] up to its history, which holds the lines [h]. *)
Definition holds_lines (e e' : edit) (h : list (list Z)) : Prop :=
  (exists H, e' = set_hcount (Z.of_nat (length h)) (set_history H e))
  /\ forall (n : nat) s, h !! n = Some s -> row_holds (history e') (Z.of_nat n) s.

Lemma make_room_ok e h : holds_lines e e h -> (length h <= 10)%nat -> exists e',
  (if history_count e =? HISTORY_SIZE then
     for_st 9 0 (fun i => for_st 256 0 (fun j => let* v := hist_get (i + 1) j in hist_set i j v)) ;;
     modify (fun e => set_hcount (history_count e - 1) e) else ret tt) e = Some (tt, e')
  /\ holds_lines e e' (kept h) /\ (length (kept h) < 10)%nat.
Proof.
  intros [[H He] Hrows] Hl. assert (history_count e = Z.of_nat (length h)) as Hc by (by rewrite He).
  unfold HISTORY_SIZE, kept. rewrite Hc. destruct (Nat.eqb_spec (length h) 10) as [H10|H10].
  - rewrite H10. destruct (roll_ok e) as (e1 & E1 & Hrw). change (Z.of_nat 10 =? 10) with true. cbv iota.
    rewrite (bind_ok _ _ _ _ _ E1). eexists. split; [reflexivity|]. pose proof (roll_rows e e1 h Hrows H10 Hrw) as Hrows'.
    destruct Hrw as (h1 & -> & _). rewrite length_tl, H10. split; [|simpl; lia]. split; [|exact Hrows'].
    exists h1. simpl. rewrite Hc, H10, length_tl, H10. done.
  - destruct (Z.eqb_spec (Z.of_nat (length h)) 10); [lia|]. exists e. split; [done|]. split; [by split; [exists H|]|lia].
Qed.

Lemma push_ok e l : repr e l -> exists e1 e',
  buf_set (input_index e) 0 e = Some (tt, e1) /\ push_history e1 = Some (tt, e')
  /\ cstr 256 (input_buffer e') 0 = text l /\ repr e' (set_past (remember (text l) (past l)) l).
Proof.
  intros Hr. pose proof Hr as [Hi Hp Hm Ht Hch Hc Hhm Hrows Hx Hbr]. rewrite buf_set_ok by lia.
  set (b := (input_buffer e).[input_index e <- 0]). set (e1 := set_input b e). exists e1.
  assert (text_at b (text l)) as Hb by (intros i Hi'; unfold b, upd; destruct (Z.eqb_spec i (input_index e)); [lia|by apply Ht]).
  assert (b (Z.of_nat (length (text l))) = 0) as Hb0 by (unfold b; rewrite Hi; apply upd_same).
  assert (cstr 256 b 0 = text l) as Hcs.
  { apply cstr_name; [|lia|].
    - eapply Forall_impl; [exact Hch|]. unfold char_ok. lia.
    - intros i Hi'. rewrite Z.add_0_l. destruct (Z.eqb_spec i (Z.of_nat (length (text l)))) as [->|].
      + rewrite Hb0. symmetry. apply ch_beyond. lia.
      + apply Hb. lia. }
  unfold push_history. unfold bind at 1, gets, id. change (input_index e1) with (input_index e). rewrite Hi.
  destruct (Z.ltb_spec 0 (Z.of_nat (length (text l)))) as [Hpos|Hz].
  2:{ exists e1. split; [done|]. split; [done|]. split; [done|].
      assert (text l = []) as -> by (destruct (text l); [done|simpl in Hz; lia]). by split. }
  destruct (make_room_ok e1 (past l)) as (e2 & E2 & ((h2 & ->) & Hrows2) & Hk); [|done|].
  { split; [|exact Hrows]. exists (history e). rewrite <- Hc. by destruct e. }
  rewrite (bind_ok _ _ _ _ _ E2). unfold bind at 1. cbn [history_count set_hcount].
  replace (Z.to_nat (Z.of_nat (length (text l)) + 1)) with (S (length (text l))) by lia.
  destruct (save_ok (set_hcount (Z.of_nat (length (kept (past l)))) (set_history h2 e1)) (text l) (Z.of_nat (length (kept (past l)))))
    as (h' & E3 & S1 & S2 & S3); [lia..|done|done|].
  rewrite (bind_ok _ _ _ _ _ E3). eexists. split; [done|]. split; [reflexivity|]. split; [exact Hcs|].
  pose proof (remember_length (text l) (past l) Hhm) as Hrl.
  assert (remember (text l) (past l) = kept (past l) ++ [text l]) as Hrem
    by (unfold remember, kept; destruct (text l); [simpl in Hpos; lia|done]).
  rewrite Hrem in Hrl |- *. rewrite length_app in Hrl. simpl in Hrl.
  split; simpl; try done; rewrite ?length_app; simpl; try lia.
  intros n s. eapply add_row; [reflexivity|exact Hrows2|exact S3|]. by split_and!.
Qed.

(** ** Refinement *)

Section Refinement.
Context {W : Type} {H : ShellHost W}.

(** [m] does on the arrays what [m'] does on the lists, with the same effect on the
    system; it is undefined exactly when [m'] is. *)
Definition sim {X} (m : st (edit * W) X) (m' : st (typed * W) X) : Prop := forall e l w, repr e l ->
  match m' (l, w) with
  | Some (x, (l', w')) => exists e', m (e, w) = Some (x, (e', w')) /\ repr e' l'
  | None => m (e, w) = None
  end.

Lemma sim_bind {X Y} m m' (k : X -> st (edit * W) Y) k' : sim m m' -> (forall x, sim (k x) (k' x)) -> sim (bind m k) (bind m' k').
Proof.
  intros Hm Hk e l w Hr. specialize (Hm e l w Hr). unfold bind. destruct (m' (l, w)) as [[x [l1 w1]]|].
  - destruct Hm as (e1 & -> & Hr1). by apply Hk.
  - by rewrite Hm.
Qed.

Lemma sim_ret {X} (x : X) : sim (ret x) (ret x).
Proof. intros e l w Hr. by exists e. Qed.

Lemma sim_host {X} (m : st W X) : sim (on_host m) (on_host m).
Proof. intros e l w Hr. unfold on_host. simpl. destruct (m w) as [[x w']|]; [by exists e|done]. Qed.

Lemma sim_says (c : list call) : sim (says c) (says c).
Proof. apply sim_host. Qed.

(** A program on the editor alone that is defined in every state. *)
Lemma sim_edit {X} (m : st edit X) (f : typed -> X * typed) :
  (forall e l, repr e l -> exists e', m e = Some ((f l).1, e') /\ repr e' (f l).2) ->
  sim (on_edit m) (on_edit (fun l => Some (f l))).
Proof.
  intros Hm e l w Hr. destruct (Hm e l Hr) as (e' & E & Hr'). unfold on_edit. simpl. rewrite E.
  destruct (f l) as [x l']. by exists e'.
Qed.

(** A step that depends on the line and the working directory only: the new line, and
    what it does to the terminal. *)
Definition plain (f : list Z -> typed -> typed * list call) : st (typed * W) unit := fun s =>
  let '(l, calls) := f (sh_cwd s.2) s.1 in says calls (l, s.2).

Lemma sim_plain (m : st (edit * W) unit) f :
  (forall e l w, repr e l -> exists e', m (e, w) = says (f (sh_cwd w) l).2 (e', w) /\ repr e' (f (sh_cwd w) l).1) ->
  sim m (plain f).
Proof.
  intros Hm e l w Hr. destruct (Hm e l w Hr) as (e' & -> & Hr'). unfold plain. simpl.
  destruct (f (sh_cwd w) l) as [l' calls]. simpl. by exists e'.
Qed.

Lemma calls_cwd l w : sh_cwd (send_calls l w) = sh_cwd w.
Proof. revert w. induction l as [|c l IH]; intros w; simpl; [done|]. by rewrite IH, sh_call_cwd. Qed.

Lemma says_app {E} (a b : list call) (s : E * W) : says (a ++ b) s = (says a ;; says b) s.
Proof. unfold says, on_host, bind, modify, send_calls. simpl. by rewrite fold_left_app. Qed.

Lemma says_value {E} (a : list call) (e : E) w : says a (e, w) = Some (tt, (e, send_calls a w)).
Proof. done. Qed.

Lemma says_more {E} (a b : list call) (e : E) w : says b (e, send_calls a w) = says (a ++ b) (e, w).
Proof. by rewrite says_app. Qed.

Lemma on_edit_ok {E X} (m : st E X) e (w : W) x e' : m e = Some (x, e') -> on_edit m (e, w) = Some (x, (e', w)).
Proof. unfold on_edit. simpl. by intros ->. Qed.

Lemma times_ok {E} (n : nat) lo hi c (s : E * W) : hi - lo = Z.of_nat n -> times lo hi c s = says (repeat c n) s.
Proof.
  intros Hn. unfold times. replace (Z.to_nat (hi - lo)) with n by lia. clear hi Hn. revert lo s.
  induction n as [|n IH]; intros lo s; simpl; [by destruct s|]. change (c :: repeat c n) with ([c] ++ repeat c n).
  rewrite says_app. unfold bind. destruct (says [c] s) as [[[] s']|]; [|done]. apply IH.
Qed.

Lemma echo_ok e l w lo hi : repr e l -> 0 <= lo <= hi -> hi <= Z.of_nat (length (text l)) ->
  echo lo hi (e, w) = says (map PutChar (take (Z.to_nat (hi - lo)) (drop (Z.to_nat lo) (text l)))) (e, w).
Proof.
  intros Hr Hlo Hhi. pose proof (rp_text _ _ Hr) as Ht. pose proof (rp_max _ _ Hr) as Hm.
  unfold echo. remember (Z.to_nat (hi - lo)) as n eqn:Hn. assert (lo + Z.of_nat n <= Z.of_nat (length (text l))) as Hle by lia.
  destruct Hlo as [Hlo _]. clear Hn Hhi. revert lo w Hlo Hle. induction n as [|n IH]; intros lo w Hlo Hle; [done|].
  rewrite (drop_at _ lo) by lia. cbn [take map]. change (PutChar (ch (text l) lo) :: ?r) with ([PutChar (ch (text l) lo)] ++ r).
  rewrite says_app. cbn [for_st]. rewrite (bind_ok (says _) _ _ _ _ (says_value [PutChar (ch (text l) lo)] e w)).
  erewrite bind_ok; [apply IH; lia|]. unfold bind, on_edit. cbn [fst snd].
  by rewrite (line_get e (text l) Ht ltac:(lia) lo) by lia.
Qed.

(** From the cursor to the end of the line. *)
Lemma echo_after e l w : repr e l -> echo (cursor_pos e) (input_index e) (e, w) = says (map PutChar (after l)) (e, w).
Proof.
  intros Hr. pose proof (rp_len _ _ Hr) as Hi. pose proof (rp_pos _ _ Hr) as Hp. unfold text in Hi. rewrite length_app in Hi.
  rewrite (echo_ok e l) by (done || lia || (unfold text; rewrite length_app; lia)). rewrite Hp, Nat2Z.id. unfold text.
  rewrite drop_app_length, take_ge; [done|lia].
Qed.

(** The whole line. *)
Lemma echo_all e l w : repr e l -> echo 0 (input_index e) (e, w) = says (map PutChar (text l)) (e, w).
Proof.
  intros Hr. pose proof (rp_len _ _ Hr) as Hi. rewrite (echo_ok e l) by (done || lia). rewrite drop_0, take_ge; [done|lia].
Qed.

End Refinement.

End LineEdit.
