(* ===== verification/UshRun.v ===== *)
(** * Command execution in the user shell (user/ush.c)

    [tokenise], the built-in commands, [run_simple], [run_pipe] and [dispatch] as
    programs that make system calls: a tree whose branches are the answers of the
    kernel, so that both sides of a fork are part of it.  A small interpreter of
    descriptor tables says which programs a command starts and on which descriptors. *)

From S2P Require Import Prelude LineEdit.

Module UshRun.

Import LineEdit.

Definition MAX_TOKS : nat := 16.
Definition O_WRITE : Z := 1.

(** ** System calls, with the type of their answers *)

Inductive sys : Type -> Type :=
| Write (s : list Z) : sys unit
| Exit (code : Z) : sys unit
| ReadFile (path : list Z) (max : Z) : sys (Z * list Z)
| WriteFile (path data : list Z) : sys Z
| Fork : sys Z
| Exec (path : list Z) (argv : list (list Z)) : sys Z
| Wait : sys Z
| Waitpid (pid : Z) : sys Z
| Open (path : list Z) (flags : Z) : sys Z
| Close (fd : Z) : sys Z
| Dup2 (fd newfd : Z) : sys Z
| GiveForeground (pid : Z) : sys Z
| Pipe : sys (Z * Z * Z)
| Chdir (path : list Z) : sys Z
| Getcwd : sys (list Z)
| Mkdir (path : list Z) : sys Z
| Rmfile (path : list Z) : sys Z
| Rename (old new : list Z) : sys Z
| Listdir (path : list Z) : sys Z
| Uptime : sys Z
| Meminfo : sys (Z * Z)
| KillPid (pid : Z) : sys Z
| Ps : sys Z
| Setcolor (c : Z) : sys Z
| Fasterfetch : sys Z
| Peter : sys Z
| Gettime : sys (Z * Z)
| ClearScreen : sys Z.

Inductive prog : Type :=
| Stop
| Sys {R : Type} (c : sys R) (k : R -> prog).

(** One program after another. *)
Fixpoint andthen (p q : prog) : prog :=
  match p with Stop => q | Sys c k => Sys c (fun r => andthen (k r) q) end.

Declare Scope prog_scope.
Notation "x <- c ;; k" := (Sys c (fun x => k)) (at level 100, c at level 99, right associativity) : prog_scope.
Notation "'do' c ;; k" := (Sys c (fun _ => k)) (at level 100, c at level 99, right associativity) : prog_scope.
Notation "p '>>' q" := (andthen p q) (at level 99, q at level 100) : prog_scope.
Local Open Scope prog_scope.

Definition call {R} (c : sys R) : prog := do c ;; Stop.
Definition swrite (s : list Z) : prog := call (Write s).
Definition setcolor (c : Z) : prog := call (Setcolor c).
Definition resetcolor : prog := setcolor 7.

(** ** Text *)

(** [while (n) { buf[--i] = '0' + n % 10; n /= 10; }]: ten digits are enough for 32 bits. *)
Fixpoint digits (fuel : nat) (n : Z) (acc : list Z) : list Z :=
  match fuel with
  | O => acc
  | S fuel => if n =? 0 then acc else digits fuel (n / 10) ((48 + n mod 10) :: acc)
  end.
Definition print_uint (n : Z) : list Z := if n =? 0 then [48] else digits 10 n [].
Definition print_2dig (n : Z) : list Z := [48 + n / 10 mod 10; 48 + n mod 10].
Definition print_4dig (n : Z) : list Z := [48 + n / 1000 mod 10; 48 + n / 100 mod 10; 48 + n / 10 mod 10; 48 + n mod 10].

(** [sstreq]. *)
Fixpoint sstreq (a b : list Z) : bool :=
  match a, b with
  | [], [] => true
  | x :: a, y :: b => (x =? y) && sstreq a b
  | _, _ => false
  end.

(** ** Tokenizer *)

Fixpoint skip_spaces (s : list Z) : list Z :=
  match s with c :: r => if c =? 32 then skip_spaces r else s | [] => [] end.

(** [while (i < len && line[i] != ' ' && line[i] != '>' && j < 127)]. *)
Fixpoint take_token (j : nat) (s : list Z) : list Z * list Z :=
  match j, s with
  | S j, c :: r => if (c =? 32) || (c =? 62) then ([], s) else let '(tok, rest) := take_token j r in (c :: tok, rest)
  | _, _ => ([], s)
  end.

(** Tokens and the name behind '>'; a name of more than 127 characters runs over the
    array [outfile]. *)
Fixpoint tokenise (max : nat) (s : list Z) : option (list (list Z) * list Z) :=
  match max with
  | O => Some ([], [])
  | S max =>
    match skip_spaces s with
    | [] => Some ([], [])
    | c :: r =>
      if c =? 62 then
        let name := word_from (skip_spaces r) in
        if (length name <=? 127)%nat then Some ([], name) else None
      else
        let '(tok, rest) := take_token 127 (c :: r) in
        '(toks, name) ← tokenise max rest; Some (tok :: toks, name)
    end
  end.

(** ** Running programs *)

(** Both children end with the message and status 127 when the program is not found. *)
Definition exec_or_die (toks : list (list Z)) : prog :=
  do Exec (hd [] toks) toks ;;
  do Write (chars "ush: not found: ") ;;
  do Write (hd [] toks) ;;
  do Write [10] ;;
  do Exit 127 ;;
  Stop.

Definition run_simple (toks : list (list Z)) (outfile : list Z) (fg : bool) : prog :=
  match toks with
  | [] => Stop
  | _ =>
    pid <- Fork ;;
    if pid =? 0 then
      match outfile with
      | [] => exec_or_die toks
      | _ =>
        fd <- Open outfile O_WRITE ;;
        (if fd <? 0 then do Write (chars "ush: cannot open output file" ++ [10]) ;; do Exit 1 ;; Stop else Stop) >>
        do Dup2 fd 1 ;;
        do Close fd ;;
        exec_or_die toks
      end
    else if 0 <? pid then
      if fg then do GiveForeground pid ;; do Waitpid pid ;; Stop
      else do Write [91] ;; do Write (print_uint pid) ;; do Write (chars "] running in background" ++ [10]) ;; Stop
    else swrite (chars "ush: fork failed" ++ [10])
  end.

Definition run_pipe (ltoks rtoks : list (list Z)) (outfile : list Z) : prog :=
  match ltoks, rtoks with
  | [], _ | _, [] => Stop
  | _, _ =>
    r <- Pipe ;;
    let '(status, fd0, fd1) := r in
    if negb (status =? 0) then swrite (chars "ush: pipe failed" ++ [10])
    else
      lpid <- Fork ;;
      (if lpid =? 0 then
         do Dup2 fd1 1 ;;
         do Close fd0 ;; do Close fd1 ;;
         exec_or_die ltoks
       else Stop) >>
      rpid <- Fork ;;
      (if rpid =? 0 then
         do Dup2 fd0 0 ;;
         do Close fd0 ;; do Close fd1 ;;
         match outfile with
         | [] => exec_or_die rtoks
         | _ =>
           fd <- Open outfile O_WRITE ;;
           (if 0 <=? fd then do Dup2 fd 1 ;; do Close fd ;; Stop else Stop) >>
           exec_or_die rtoks
         end
       else Stop) >>
      do Close fd0 ;; do Close fd1 ;;
      if (0 <? lpid) && (0 <? rpid) then
        do GiveForeground rpid ;;
        do Waitpid rpid ;;
        do Wait ;;
        Stop
      else
        do Write (chars "ush: fork failed" ++ [10]) ;;
        (if 0 <? lpid then call Wait else Stop) >>
        (if 0 <? rpid then call Wait else Stop)
  end.

(** ** Built-in commands *)

Definition help_lines : list (list Z) :=
  [chars "Available commands:" ++ [10];
   chars "  help       - show this message" ++ [10];
   chars "  clear      - clear the screen" ++ [10];
   chars "  echo       - print arguments" ++ [10];
   chars "  ls [path]  - list directory" ++ [10];
   chars "  pwd        - print working directory" ++ [10];
   chars "  cat FILE   - print file contents" ++ [10];
   chars "  touch FILE - create empty file" ++ [10];
   chars "  mkdir DIR  - create directory" ++ [10];
   chars "  cd DIR     - change directory" ++ [10];
   chars "  rm FILE    - delete file" ++ [10];
   chars "  write FILE TEXT - write text to file" ++ [10];
   chars "  rename OLD NEW  - rename file or directory" ++ [10];
   chars "  exec PROG [args] - run program (foreground)" ++ [10];
   chars "  bg PROG [args]   - run program (background)" ++ [10];
   chars "  ps         - list processes" ++ [10];
   chars "  kill PID   - terminate a process" ++ [10];
   chars "  time       - show date and time" ++ [10];
   chars "  uptime     - show system uptime" ++ [10];
   chars "  free       - show memory usage" ++ [10];
   chars "  fasterfetch - show system info graphic" ++ [10];
   chars "  peter      - show the mascot" ++ [10];
   chars "  reboot     - restart the system" ++ [10];
   chars "  about      - about GordOS" ++ [10];
   chars "  exit       - exit the shell" ++ [10];
   [10] ++ chars "  Ctrl+C cancels input. Ctrl+L clears the screen." ++ [10];
   chars "  Pipes: CMD1 | CMD2    Redirect: CMD > FILE" ++ [10]].

Definition cmd_help : prog := foldr (fun s p => swrite s >> p) Stop help_lines.
Definition cmd_clear : prog := call ClearScreen.

(** [if (!args || !*args)] the usage, and the command otherwise. *)
Definition with_args (args : option (list Z)) (usage : list Z) (cmd : list Z -> prog) : prog :=
  match args with Some (c :: args) => cmd (c :: args) | _ => swrite (usage ++ [10]) end.

(** A call that succeeds with 0, and the messages. *)
Definition report (c : sys Z) (ok : list (list Z)) (failed : list Z) : prog :=
  r <- c ;;
  if r =? 0 then foldr (fun s p => swrite s >> p) (swrite [10]) ok else swrite (failed ++ [10]).

Definition cmd_echo (args : option (list Z)) : prog :=
  match args with Some (c :: args) => swrite (c :: args) | _ => Stop end >> swrite [10].

Definition cmd_about : prog :=
  setcolor 13 >> swrite (chars "  GordOS" ++ [10]) >> resetcolor >>
  swrite (chars "  A hobby OS by Hamish Gordon" ++ [10]) >>
  swrite (chars "  Built from scratch in C and x86 Assembly" ++ [10]) >>
  swrite (chars "  https://github.com/Millenium2133/GordOS" ++ [10]).

Definition cmd_ls (args : option (list Z)) : prog :=
  r <- Listdir (default [] args) ;;
  if negb (r =? 0) then swrite (chars "ls: cannot list directory" ++ [10]) else Stop.

Definition cmd_cat (args : option (list Z)) : prog :=
  with_args args (chars "Usage: cat FILE") (fun args =>
    r <- ReadFile args 16384 ;;
    let '(n, data) := r in
    if n <? 0 then swrite (chars "cat: file not found" ++ [10])
    else do Write (take (Z.to_nat n) data) ;; swrite [10]).

Definition cmd_touch (args : option (list Z)) : prog :=
  with_args args (chars "Usage: touch FILE") (fun args =>
    fd <- Open args 0 ;;
    if 0 <=? fd then do Close fd ;; swrite (chars "touch: file already exists" ++ [10])
    else report (WriteFile args []) [chars "Created: "; args] (chars "touch: failed")).

(** A name up to the first space or its 255th character, and what follows; one space in
    between is skipped. *)
Fixpoint name_of (n : nat) (s : list Z) : list Z :=
  match n, s with S n, c :: s => if c =? 32 then [] else c :: name_of n s | _, _ => [] end.
Definition split_name (args : list Z) : list Z * list Z :=
  let name := name_of 255 args in
  let rest := drop (length name) args in
  (name, if ch rest 0 =? 32 then drop 1 rest else rest).

Definition cmd_write (args : option (list Z)) : prog :=
  with_args args (chars "Usage: write FILE TEXT") (fun args =>
    let '(filename, content) := split_name args in
    report (WriteFile filename content) [chars "Written to: "; filename] (chars "write: failed")).

Definition cmd_rm (args : option (list Z)) : prog :=
  with_args args (chars "Usage: rm FILE") (fun args => report (Rmfile args) [chars "Deleted: "; args] (chars "rm: not found")).

Definition cmd_rename (args : option (list Z)) : prog :=
  with_args args (chars "Usage: rename OLD NEW") (fun args =>
    let '(old, rest) := split_name args in
    if (length args =? length old)%nat then swrite (chars "rename: missing new name" ++ [10])
    else report (Rename old rest) [chars "Renamed to: "; rest] (chars "rename: failed")).

Definition cmd_pwd : prog := cwd <- Getcwd ;; do Write cwd ;; swrite [10].

Definition cmd_mkdir (args : option (list Z)) : prog :=
  with_args args (chars "Usage: mkdir DIR") (fun args => report (Mkdir args) [chars "Created directory: "; args] (chars "mkdir: failed")).

Definition cmd_cd (args : option (list Z)) : prog :=
  with_args args (chars "Usage: cd DIR") (fun args =>
    r <- Chdir args ;;
    if negb (r =? 0) then swrite (chars "cd: not found" ++ [10]) else Stop).

Definition cmd_time : prog :=
  r <- Gettime ;;
  let '(b0, b1) := r in
  let h := Z.land (Z.shiftr b0 16) 0xFF in
  let m := Z.land (Z.shiftr b0 8) 0xFF in
  let s := Z.land b0 0xFF in
  let y := Z.land (Z.shiftr b1 16) 0xFFFF in
  let mo := Z.land (Z.shiftr b1 8) 0xFF in
  let d := Z.land b1 0xFF in
  swrite (print_2dig h) >> swrite [58] >> swrite (print_2dig m) >> swrite [58] >> swrite (print_2dig s) >> swrite [32; 32] >>
  swrite (print_4dig y) >> swrite [45] >> swrite (print_2dig mo) >> swrite [45] >> swrite (print_2dig d) >> swrite [10].

Definition cmd_uptime : prog :=
  r <- Uptime ;;
  let sec := u32 r in
  swrite (chars "Up ") >> swrite (print_uint (sec / 60)) >> swrite (chars " min ") >> swrite (print_uint (sec mod 60)) >>
  swrite (chars " sec" ++ [10]).

Definition cmd_free : prog :=
  r <- Meminfo ;;
  let '(used, total) := r in
  swrite (print_uint (u32 (total - used))) >> swrite (chars " MB free / ") >> swrite (print_uint total) >> swrite (chars " MB total" ++ [10]).

Definition cmd_ps : prog := call Ps.

Fixpoint parse_pid (s : list Z) (pid : Z) : Z :=
  match s with
  | c :: s => if (48 <=? c) && (c <=? 57) then parse_pid s (u32 (pid * 10 + (c - 48))) else pid
  | [] => pid
  end.

Definition cmd_kill (args : option (list Z)) : prog :=
  with_args args (chars "Usage: kill PID") (fun args =>
    let pid := parse_pid args 0 in
    if pid =? 0 then swrite (chars "kill: cannot kill the kernel" ++ [10])
    else
      r <- KillPid pid ;;
      if r =? 0 then swrite (chars "killed [") >> swrite (print_uint pid) >> swrite [93; 10]
      else swrite (chars "kill: no such process" ++ [10])).

Definition cmd_fasterfetch : prog := call Fasterfetch.
Definition cmd_peter : prog := call Peter.
Definition cmd_reboot : prog := do Write (chars "Rebooting..." ++ [10]) ;; call (Exit 0).

(** ** Dispatch *)

Definition is_cmd (s cmd : list Z) : bool :=
  starts_with cmd s && let c := ch s (Z.of_nat (length cmd)) in (c =? 0) || (c =? 32).

Definition get_args (s : list Z) (cmdlen : nat) : option (list Z) :=
  if (ch s (Z.of_nat cmdlen) =? 32) && negb (ch s (Z.of_nat cmdlen + 1) =? 0) then Some (drop (cmdlen + 1) s) else None.

(** [cmd_exec] and [cmd_bg]; [None] when [tokenise] runs over its array. *)
Definition cmd_run (args : option (list Z)) (usage : list Z) (fg : bool) : option prog :=
  match args with
  | Some (c :: args) => '(toks, outfile) ← tokenise MAX_TOKS (c :: args); Some (run_simple toks outfile fg)
  | _ => Some (swrite (usage ++ [10]))
  end.

(** The position of the first '|'. *)
Fixpoint pipe_pos (s : list Z) : option nat :=
  match s with [] => None | c :: s => if c =? 124 then Some O else S <$> pipe_pos s end.

Definition run_external (s : list Z) : option prog :=
  match pipe_pos s with
  | Some n =>
    '(ltoks, _) ← tokenise MAX_TOKS (take n s);
    '(rtoks, outfile) ← tokenise MAX_TOKS (drop (n + 1) s);
    Some (run_pipe ltoks rtoks outfile)
  | None => '(toks, outfile) ← tokenise MAX_TOKS s; Some (run_simple toks outfile true)
  end.

Definition dispatch (s : list Z) : option prog :=
  if forallb (fun c => c =? 32) s then Some Stop
  else if sstreq s (chars "exit") then Some (call (Exit 0))
  else if is_cmd s (chars "help") then Some cmd_help
  else if is_cmd s (chars "clear") then Some cmd_clear
  else if is_cmd s (chars "echo") then Some (cmd_echo (get_args s 4))
  else if is_cmd s (chars "about") then Some cmd_about
  else if is_cmd s (chars "ls") then Some (cmd_ls (get_args s 2))
  else if is_cmd s (chars "pwd") then Some cmd_pwd
  else if is_cmd s (chars "cat") then Some (cmd_cat (get_args s 3))
  else if is_cmd s (chars "touch") then Some (cmd_touch (get_args s 5))
  else if is_cmd s (chars "mkdir") then Some (cmd_mkdir (get_args s 5))
  else if is_cmd s (chars "cd") then Some (cmd_cd (get_args s 2))
  else if is_cmd s (chars "rm") then Some (cmd_rm (get_args s 2))
  else if is_cmd s (chars "write") then Some (cmd_write (get_args s 5))
  else if is_cmd s (chars "rename") then Some (cmd_rename (get_args s 6))
  else if is_cmd s (chars "time") then Some cmd_time
  else if is_cmd s (chars "uptime") then Some cmd_uptime
  else if is_cmd s (chars "free") then Some cmd_free
  else if is_cmd s (chars "ps") then Some cmd_ps
  else if is_cmd s (chars "kill") then Some (cmd_kill (get_args s 4))
  else if is_cmd s (chars "fasterfetch") then Some cmd_fasterfetch
  else if is_cmd s (chars "peter") then Some cmd_peter
  else if is_cmd s (chars "reboot") then Some cmd_reboot
  else if is_cmd s (chars "exec") then cmd_run (get_args s 4) (chars "Usage: exec PROG [args]") true
  else if is_cmd s (chars "bg") then cmd_run (get_args s 2) (chars "Usage: bg PROG [args]") false
  else run_external s.

(** ** Descriptor tables

    What a program of system calls does to the descriptors of the process that runs it,
    and which images it starts on which tables.  A fork runs the child on a copy of the
    table with the answer 0; descriptors are allocated at the lowest free slot, as
    sys_open and sys_pipe of the kernel do. *)

Inductive obj := Other (n : nat) | PipeEnd (write : bool) | OutFile (name : list Z).
Abbreviation table := (list (option obj)).

Inductive event :=
| Started (path : list Z) (argv : list (list Z)) (t : table)
| Child (pid : Z) (l : list event)
| Ended (code : Z)
| Said (s : list Z)
| Foreground (pid : Z)
| WaitedFor (pid : Z)
| WaitedAny.

Definition free_slot (t : table) : option nat := fst <$> list_find (fun o : option obj => o = None) t.
Definition slot (t : table) (fd : Z) : option obj := if fd <? 0 then None else mjoin (t !! Z.to_nat fd).

(** Two free slots, the lowest ones. *)
Definition two_slots (t : table) : option (nat * nat) :=
  i ← free_slot t; d ← free_slot (drop (S i) t); Some (i, (S i + d)%nat).

(** The answer of a call, the child's answer for a fork, and the effects; a call without
    an answer does not return. *)
Record reply (R : Type) := mk_reply { r_table : table; r_events : list event; r_child : option R; r_value : option R }.
Arguments mk_reply {R}. Arguments r_table {R}. Arguments r_events {R}. Arguments r_child {R}. Arguments r_value {R}.

Section Tables.

(** Which programs and output files there are, and the answers of the other calls. *)
Variable found : list Z -> bool.
Variable opens : list Z -> bool.
Variable piped : bool.
Variable others : forall R, sys R -> R.

Definition handle {R} (c : sys R) (fork : Z) (t : table) : reply R :=
  match c with
  | Write s => mk_reply t [Said s] None (Some tt)
  | Exit n => mk_reply t [Ended n] None None
  | Fork => mk_reply t [] (if 0 <? fork then Some 0 else None) (Some fork)
  | Exec path argv =>
    if found path then mk_reply t [Started path argv t] None None else mk_reply t [] None (Some (-1))
  | Wait => mk_reply t [WaitedAny] None (Some 0)
  | Waitpid pid => mk_reply t [WaitedFor pid] None (Some pid)
  | GiveForeground pid => mk_reply t [Foreground pid] None (Some 0)
  | Open path flags =>
    match free_slot t with
    | Some i => if opens path then mk_reply (<[i := Some (OutFile path)]> t) [] None (Some (Z.of_nat i))
                else mk_reply t [] None (Some (-1))
    | None => mk_reply t [] None (Some (-1))
    end
  | Close fd =>
    match slot t fd with
    | Some _ => mk_reply (<[Z.to_nat fd := None]> t) [] None (Some 0)
    | None => mk_reply t [] None (Some (-1))
    end
  | Dup2 fd newfd =>
    match slot t fd with
    | Some o =>
      if (newfd <? 0) || (Z.of_nat (length t) <=? newfd) then mk_reply t [] None (Some (-1))
      else mk_reply (<[Z.to_nat newfd := Some o]> t) [] None (Some newfd)
    | None => mk_reply t [] None (Some (-1))
    end
  | Pipe =>
    match two_slots t with
    | Some (i, j) =>
      if piped then mk_reply (<[j := Some (PipeEnd true)]> (<[i := Some (PipeEnd false)]> t)) [] None
                      (Some (0, Z.of_nat i, Z.of_nat j))
      else mk_reply t [] None (Some (-1, 0, 0))
    | None => mk_reply t [] None (Some (-1, 0, 0))
    end
  | c => mk_reply t [] None (Some (others _ c))
  end.

Definition is_fork {R} (c : sys R) : bool := match c with Fork => true | _ => false end.

(** [forks] are the answers to the forks of this process; its children do not fork. *)
Fixpoint run (p : prog) (forks : list Z) (t : table) : list event * table :=
  match p with
  | Stop => ([], t)
  | Sys c k =>
    let pid := hd (-1) forks in
    let h := handle c pid t in
    let kids := match r_child h with Some r => [Child pid (fst (run (k r) [] t))] | None => [] end in
    let forks := if is_fork c then tl forks else forks in
    let rest := match r_value h with Some r => run (k r) forks (r_table h) | None => ([], r_table h) end in
    (r_events h ++ kids ++ fst rest, snd rest)
  end.

(** An image started on a table, or the message of a child whose program is missing. *)
Definition launch (toks : list (list Z)) (t : table) : list event :=
  if found (hd [] toks) then [Started (hd [] toks) toks t]
  else [Said (chars "ush: not found: "); Said (hd [] toks); Said [10]; Ended 127].

(** The standard output redirected, when the file opens. *)
Definition redirected (outfile : list Z) (t : table) : table :=
  match outfile with [] => t | _ => if opens outfile then <[1%nat := Some (OutFile outfile)]> t else t end.

Definition when_forked (pid : Z) (l : list event) : list event := if 0 <? pid then [Child pid l] else [].

(** What a pipeline does: two images joined by the pipe, and the shell waits for both. *)
Definition pipe_events (ltoks rtoks : list (list Z)) (outfile : list Z) (lpid rpid : Z) (t : table) : list event :=
  when_forked lpid (launch ltoks (<[1%nat := Some (PipeEnd true)]> t)) ++
  when_forked rpid (launch rtoks (redirected outfile (<[0%nat := Some (PipeEnd false)]> t))) ++
  if (0 <? lpid) && (0 <? rpid) then [Foreground rpid; WaitedFor rpid; WaitedAny]
  else Said (chars "ush: fork failed" ++ [10]) :: (if 0 <? lpid then [WaitedAny] else []) ++ (if 0 <? rpid then [WaitedAny] else []).

(** What a single command does: one image, waited for in the foreground. *)
Definition simple_events (toks : list (list Z)) (outfile : list Z) (fg : bool) (pid : Z) (t : table) : list event :=
  when_forked pid
    (if negb (opens outfile) && negb (length outfile =? 0)%nat then [Said (chars "ush: cannot open output file" ++ [10]); Ended 1]
     else launch toks (redirected outfile t)) ++
  if 0 <? pid then
    if fg then [Foreground pid; WaitedFor pid] else [Said [91]; Said (print_uint pid); Said (chars "] running in background" ++ [10])]
  else [Said (chars "ush: fork failed" ++ [10])].

End Tables.

(** *** Slots *)

Lemma slot_at (t : table) i : slot t (Z.of_nat i) = mjoin (t !! i).
Proof. unfold slot. destruct (Z.ltb_spec (Z.of_nat i) 0); [lia|]. by rewrite Nat2Z.id. Qed.

Lemma free_slot_Some (t : table) i : free_slot t = Some i <-> t !! i = Some None /\ forall j, (j < i)%nat -> t !! j <> Some None.
Proof.
  unfold free_slot. split.
  - intros ([i' o] & (Hi & -> & Hlt)%list_find_Some & ->)%fmap_Some. split; [done|]. intros j Hj Hn. by eapply Hlt.
  - intros [Hi Hlt]. apply fmap_Some. exists (i, None). split; [|done]. apply list_find_Some.
    split_and!; [done|done|]. intros j y Hy Hj ->. by eapply Hlt.
Qed.

(** [two_slots] answers with the two lowest free slots. *)
Lemma two_slots_Some (t : table) i j : two_slots t = Some (i, j) ->
  (i < j)%nat /\ free_slot t = Some i /\ t !! j = Some None.
Proof.
  unfold two_slots. intros (i' & Hi & (d & Hd & [= -> <-])%bind_Some)%bind_Some.
  apply free_slot_Some in Hd as [Hd _]. rewrite lookup_drop in Hd. split_and!; [lia|done|done].
Qed.

Lemma free_above (t : table) i a b : free_slot t = Some i -> t !! 0%nat = Some (Some a) -> t !! 1%nat = Some (Some b) -> (1 < i)%nat.
Proof.
  intros [Hi _]%free_slot_Some H0 H1. destruct i as [|[|i]]; [congruence..|lia].
Qed.

(** Filling a free slot and emptying it again. *)
Lemma fill_empty (t : table) i o : t !! i = Some None -> <[i := None]> (<[i := o]> t) = t.
Proof. intros H. rewrite list_insert_insert_eq. by apply list_insert_id. Qed.

Lemma fill_empty2 (t : table) i j (o o' : option obj) : i <> j -> t !! i = Some None -> t !! j = Some None ->
  <[j := None]> (<[i := None]> (<[j := o']> (<[i := o]> t))) = t.
Proof.
  intros Hij Hi Hj. rewrite (list_insert_insert_ne _ i j) by done.
  rewrite !list_insert_insert_eq.
  by rewrite (list_insert_id t i), list_insert_id.
Qed.

Lemma exec_or_die_run found opens piped others toks q forks t :
  run found opens piped others (exec_or_die toks >> q) forks t = (launch found toks t, t).
Proof. unfold exec_or_die, launch. simpl. by destruct (found _). Qed.

Lemma exec_run found opens piped others toks forks t :
  run found opens piped others (exec_or_die toks) forks t = (launch found toks t, t).
Proof. unfold exec_or_die, launch. simpl. by destruct (found _). Qed.

(** *** Programs a command starts *)

Section Wiring.

Context (found opens : list Z -> bool) (piped : bool) (others : forall R, sys R -> R).
Local Abbreviation run := (run found opens piped others).

(** One call at a time. *)
Lemma run_close k forks (t : table) i o : t !! i = Some (Some o) ->
  run (Sys (Close (Z.of_nat i)) k) forks t = run (k 0) forks (<[i := None]> t).
Proof.
  intros H. cbn. rewrite slot_at, H. cbn. rewrite Nat2Z.id. by destruct (UshRun.run _ _ _ _ _ _ _).
Qed.

Lemma run_dup2 k forks (t : table) i j o : t !! i = Some (Some o) -> (j < length t)%nat ->
  run (Sys (Dup2 (Z.of_nat i) (Z.of_nat j)) k) forks t = run (k (Z.of_nat j)) forks (<[j := Some o]> t).
Proof.
  intros H Hj. cbn. rewrite slot_at, H. cbn. destruct (Z.ltb_spec (Z.of_nat j) 0); [lia|].
  destruct (Z.leb_spec (Z.of_nat (length t)) (Z.of_nat j)); [lia|]. cbn. rewrite Nat2Z.id.
  by destruct (UshRun.run _ _ _ _ _ _ _).
Qed.

Lemma run_open k forks (t : table) i name flags : free_slot t = Some i ->
  run (Sys (Open name flags) k) forks t =
  if opens name then run (k (Z.of_nat i)) forks (<[i := Some (OutFile name)]> t) else run (k (-1)) forks t.
Proof. intros H. cbn. rewrite H. destruct (opens name); cbn; by destruct (UshRun.run _ _ _ _ _ _ _). Qed.

Lemma run_fork k pid forks t :
  run (Sys Fork k) (pid :: forks) t =
  let rest := run (k pid) forks t in (when_forked pid (fst (run (k 0) [] t)) ++ fst rest, snd rest).
Proof. cbn. unfold when_forked. by destruct (0 <? pid). Qed.

Lemma run_pipe_call k forks (t : table) i j : two_slots t = Some (i, j) -> piped = true ->
  run (Sys Pipe k) forks t =
  run (k (0, Z.of_nat i, Z.of_nat j)) forks (<[j := Some (PipeEnd true)]> (<[i := Some (PipeEnd false)]> t)).
Proof. intros H Hp. cbn. rewrite H, Hp. cbn. by destruct (UshRun.run _ _ _ _ _ _ _). Qed.

(** The output file of a child is opened, copied to descriptor 1 and closed. *)
Lemma redirect_step k forks (t : table) i name :
  free_slot t = Some i -> (1 < i)%nat -> opens name = true ->
  run (fd <- Open name O_WRITE ;; do Dup2 fd 1 ;; do Close fd ;; k) forks t
  = run k forks (<[1%nat := Some (OutFile name)]> t).
Proof.
  intros Hi H1 Hn. rewrite (run_open _ _ _ _ _ _ Hi), Hn.
  apply free_slot_Some in Hi as [Hs _]. pose proof (lookup_lt_Some _ _ _ Hs).
  rewrite (run_dup2 _ _ _ i 1%nat (OutFile name)); [|by rewrite list_lookup_insert_eq|rewrite length_insert; lia].
  rewrite (run_close _ _ _ i (OutFile name)).
  2:{ rewrite list_lookup_insert_ne by lia. by rewrite list_lookup_insert_eq. }
  rewrite (list_insert_insert_ne _ i 1%nat), fill_empty; [done|done|lia].
Qed.

Lemma redirect_run outfile toks q forks (t : table) i :
  free_slot t = Some i -> (1 < i)%nat ->
  fst (run ((match outfile with
        | [] => exec_or_die toks
        | _ => fd <- Open outfile O_WRITE ;;
               (if 0 <=? fd then do Dup2 fd 1 ;; do Close fd ;; Stop else Stop) >> exec_or_die toks
        end) >> q) forks t)
  = launch found toks (redirected opens outfile t).
Proof.
  intros Hi H1. destruct outfile as [|c out]; [by rewrite exec_or_die_run|].
  unfold redirected. destruct (opens (c :: out)) eqn:Ho.
  - pose proof (redirect_step (exec_or_die toks >> q) forks t i (c :: out) Hi H1 Ho) as H.
    rewrite (run_open _ _ _ _ _ _ Hi), Ho in H. cbn [andthen]. rewrite (run_open _ _ _ _ _ _ Hi), Ho.
    destruct (Z.leb_spec 0 (Z.of_nat i)); [|lia]. cbn [andthen] in *. by rewrite H, exec_or_die_run.
  - cbn [andthen]. rewrite (run_open _ _ _ _ _ _ Hi), Ho. cbn [Z.leb Z.compare andthen]. by rewrite exec_or_die_run.
Qed.

Lemma free_slot_insert (t : table) i s o : free_slot t = Some i -> (s < i)%nat -> free_slot (<[s := Some o]> t) = Some i.
Proof.
  intros [Hi Hlt]%free_slot_Some Hs. apply free_slot_Some. rewrite list_lookup_insert_ne by lia. split; [done|].
  intros j Hj. destruct (decide (s = j)) as [->|Hne]; [|rewrite list_lookup_insert_ne by done; auto].
  rewrite list_lookup_insert_eq; [done|]. apply lookup_lt_Some in Hi. lia.
Qed.

(** The table with both ends of a pipe, and the calls that close them. *)
Definition with_pipe (i j : nat) (t : table) : table := <[j := Some (PipeEnd true)]> (<[i := Some (PipeEnd false)]> t).

Lemma close_ends k forks (t : table) i j : i <> j -> t !! i = Some None -> t !! j = Some None ->
  run (do Close (Z.of_nat i) ;; do Close (Z.of_nat j) ;; k) forks (with_pipe i j t) = run k forks t.
Proof.
  intros Hij Hi Hj. pose proof (lookup_lt_Some _ _ _ Hi). pose proof (lookup_lt_Some _ _ _ Hj). unfold with_pipe.
  rewrite (run_close _ _ _ i (PipeEnd false)) by (rewrite list_lookup_insert_ne, list_lookup_insert_eq; done).
  rewrite (run_close _ _ _ j (PipeEnd true)), fill_empty2; [done..|].
  rewrite list_lookup_insert_ne, list_lookup_insert_eq; rewrite ?length_insert; done.
Qed.

(** A child attaches one end to a standard descriptor and closes both. *)
Lemma attach_end k forks (t : table) i j (w : bool) s fd newfd :
  fd = Z.of_nat (if w then j else i) -> newfd = Z.of_nat s -> (i < j)%nat -> t !! i = Some None -> t !! j = Some None -> (s < i)%nat ->
  run (do Dup2 fd newfd ;; do Close (Z.of_nat i) ;; do Close (Z.of_nat j) ;; k)
    forks (with_pipe i j t)
  = run k forks (<[s := Some (PipeEnd w)]> t).
Proof.
  intros -> -> Hij Hi Hj Hs. pose proof (lookup_lt_Some _ _ _ Hi). pose proof (lookup_lt_Some _ _ _ Hj).
  rewrite (run_dup2 _ _ _ _ _ (PipeEnd w)).
  - replace (<[s := Some (PipeEnd w)]> (with_pipe i j t)) with (with_pipe i j (<[s := Some (PipeEnd w)]> t)).
    + apply close_ends; [lia|rewrite list_lookup_insert_ne by lia; done..].
    + unfold with_pipe. by rewrite (list_insert_insert_ne _ i s), (list_insert_insert_ne _ j s) by lia.
  - unfold with_pipe. destruct w; [by rewrite list_lookup_insert_eq by (by rewrite length_insert)|].
    rewrite list_lookup_insert_ne, list_lookup_insert_eq; [done|done|lia].
  - unfold with_pipe. rewrite !length_insert. lia.
Qed.

(** The child of a single command. *)
Lemma simple_child outfile toks (t : table) i : free_slot t = Some i -> (1 < i)%nat ->
  fst (run (match outfile with
       | [] => exec_or_die toks
       | _ =>
         fd <- Open outfile O_WRITE ;;
         (if fd <? 0 then do Write (chars "ush: cannot open output file" ++ [10]) ;; do Exit 1 ;; Stop else Stop) >>
         do Dup2 fd 1 ;; do Close fd ;; exec_or_die toks
       end) [] t)
  = if negb (opens outfile) && negb (length outfile =? 0)%nat then [Said (chars "ush: cannot open output file" ++ [10]); Ended 1]
    else launch found toks (redirected opens outfile t).
Proof.
  intros Hi H1. destruct outfile as [|c out]; [by rewrite exec_run, andb_false_r|].
  unfold redirected. rewrite (run_open _ _ _ _ _ _ Hi).
  destruct (opens (c :: out)) eqn:Ho; cbn [negb andb length Nat.eqb]; [|done].
  destruct (Z.ltb_spec (Z.of_nat i) 0); [lia|]. cbn [andthen].
  pose proof (redirect_step (exec_or_die toks) [] t i (c :: out) Hi H1 Ho) as H2.
  rewrite (run_open _ _ _ _ _ _ Hi), Ho in H2. by rewrite H2, exec_run.
Qed.

(** A single command, on any table with descriptors 0 and 1 open and a free slot:
    the program starts with its output in the output file and every other descriptor as
    the shell has it, a file that does not open ends the child with status 1, the shell's
    own table is what it was, and the shell waits exactly for a foreground child. *)
Theorem run_simple_wiring (toks : list (list Z)) (outfile : list Z) (fg : bool) (pid : Z) (t : table) a b i :
  toks <> [] -> pid <> 0 ->
  t !! 0%nat = Some (Some a) -> t !! 1%nat = Some (Some b) -> free_slot t = Some i ->
  run (run_simple toks outfile fg) [pid] t = (simple_events found opens toks outfile fg pid t, t).
Proof.
  intros Ht Hp Ha Hb Hi. pose proof (free_above _ _ _ _ Hi Ha Hb). destruct toks as [|c0 toks]; [done|].
  unfold run_simple, simple_events. rewrite run_fork. destruct (Z.eqb_spec pid 0); [done|]. cbn [Z.eqb].
  rewrite (simple_child _ _ _ i) by done. destruct (0 <? pid), fg; done.
Qed.

End Wiring.

(** *** The tokenizer against a reference *)

(** The fields between spaces, the words among them; a command line up to its first '>'
    and what follows it. *)
Fixpoint split_spaces (s : list Z) : list (list Z) :=
  match s with
  | [] => [[]]
  | c :: s =>
    if c =? 32 then [] :: split_spaces s
    else match split_spaces s with w :: ws => (c :: w) :: ws | [] => [[c]] end
  end.
Definition words (s : list Z) : list (list Z) := filter (fun w => w <> []) (split_spaces s).
Fixpoint upto_gt (s : list Z) : list Z :=
  match s with [] => [] | c :: s => if c =? 62 then [] else c :: upto_gt s end.
Fixpoint after_gt (s : list Z) : list Z :=
  match s with [] => [] | c :: s => if c =? 62 then s else after_gt s end.
Definition target (s : list Z) : list Z := word_from (skip_spaces (after_gt s)).

Lemma words_skip s : words (upto_gt (skip_spaces s)) = words (upto_gt s) /\ target (skip_spaces s) = target s.
Proof.
  induction s as [|c s IH]; [done|]. simpl. destruct (Z.eqb_spec c 32) as [->|]; [|done]. done.
Qed.

Lemma skip_spaces_head s c r : skip_spaces s = c :: r -> c <> 32.
Proof. induction s as [|d s IH]; [done|]. simpl. destruct (Z.eqb_spec d 32); [done|]. intros [= -> ->]. done. Qed.

Lemma split_spaces_some s : exists w ws, split_spaces s = w :: ws.
Proof. induction s as [|c s (w & ws & IH)]; simpl; [eauto|]. destruct (c =? 32); [eauto|]. rewrite IH. eauto. Qed.

Lemma words_cons c s : c <> 32 -> words (c :: s) = (c :: word_from s) :: words (drop (length (word_from s)) s).
Proof.
  intros Hc. unfold words. simpl. destruct (Z.eqb_spec c 32); [done|]. clear n.
  revert c Hc. induction s as [|d s IH]; intros c Hc; [done|]. simpl. destruct (Z.eqb_spec d 32) as [->|Hd]; [done|].
  specialize (IH d Hd). destruct (split_spaces_some s) as (w & ws & E). rewrite E in *.
  rewrite filter_cons_True in * by done. injection IH as -> IH. by rewrite IH.
Qed.

(** The first word of the text up to '>' is what the tokenizer takes when it is short enough. *)
Lemma take_token_word n s : (length (word_from (upto_gt s)) <= n)%nat ->
  take_token n s = (word_from (upto_gt s), drop (length (word_from (upto_gt s))) s).
Proof.
  revert s. induction n as [|n IH]; intros s; destruct s as [|c s]; simpl; try done.
  - destruct (Z.eqb_spec c 62); [done|]. simpl. destruct (Z.eqb_spec c 32); [done|]. simpl. lia.
  - destruct (Z.eqb_spec c 62) as [->|]; [done|]. simpl.
    destruct (Z.eqb_spec c 32) as [->|]; [done|]. simpl. intros H. by rewrite IH by lia.
Qed.

Lemma rest_upto s n : (n <= length (upto_gt s))%nat -> upto_gt (drop n s) = drop n (upto_gt s) /\ target (drop n s) = target s.
Proof.
  revert s. induction n as [|n IH]; intros s H; [by rewrite !drop_0|]. destruct s as [|c s]; [done|].
  simpl in *. destruct (Z.eqb_spec c 62); simpl in *; [lia|]. destruct (IH s) as [-> ->]; [lia|].
  split; [done|]. unfold target. simpl. by destruct (Z.eqb_spec c 62).
Qed.

Lemma word_from_le s : (length (word_from s) <= length s)%nat.
Proof. induction s as [|c s IH]; simpl; [done|]. destruct (c =? 32); simpl; lia. Qed.

(** On every line whose words have at most 127 characters and are fewer than the
    limit, the tokenizer answers with the space-separated words in front of the first
    '>' and with the first word behind it. *)
Theorem tokenise_correct (max : nat) (s : list Z) :
  Forall (fun w => length w <= 127)%nat (words (upto_gt s)) -> (length (words (upto_gt s)) < max)%nat ->
  (length (target s) <= 127)%nat ->
  tokenise max s = Some (words (upto_gt s), target s).
Proof.
  revert s. induction max as [|max IH]; intros s Hw Hm Ht; [lia|]. cbn [tokenise].
  destruct (words_skip s) as [H1 H2]. rewrite <- H1, <- H2 in *. clear H1 H2.
  destruct (skip_spaces s) as [|c r] eqn:Es; [done|]. pose proof (skip_spaces_head _ _ _ Es) as Hc. clear s Es.
  destruct (Z.eqb_spec c 62) as [->|Hg].
  - unfold target in *. simpl in *. by destruct (Nat.leb_spec (length (word_from (skip_spaces r))) 127); [|lia].
  - assert (upto_gt (c :: r) = c :: upto_gt r) as Hu by (simpl; by destruct (Z.eqb_spec c 62)).
    assert (word_from (c :: upto_gt r) = c :: word_from (upto_gt r)) as Hf by (simpl; by destruct (Z.eqb_spec c 32)).
    pose proof (word_from_le (upto_gt (c :: r))) as Hle. rewrite Hu in Hw, Hm, Hle |- *. rewrite Hf in Hle.
    rewrite words_cons in Hw, Hm |- * by done. apply Forall_cons in Hw as [Hc1 Hw]. simpl in Hm.
    rewrite take_token_word by (by rewrite Hu, Hf). rewrite Hu, Hf.
    destruct (rest_upto (c :: r) (S (length (word_from (upto_gt r))))) as [H1 H2]; [by rewrite Hu|].
    rewrite Hu in H1. rewrite <- H2 in Ht |- *. cbn [drop skipn length] in *. rewrite <- H1 in Hw, Hm |- *.
    by rewrite IH by (done || lia).
Qed.

(** ** A pipeline, from its text to its processes *)

Module Demo.

Definition none (R : Type) (c : sys R) : R :=
  match c with
  | Write _ | Exit _ => tt
  | ReadFile _ _ => (-1, [])
  | Pipe => (-1, 0, 0)
  | Getcwd => []
  | Meminfo | Gettime => (0, 0)
  | _ => -1
  end.

Definition fds : table := [Some (Other 0); Some (Other 1); None; Some (Other 2); None; None].
Definition line : list Z := chars "wc A.TXT|sort  -r >OUT.TXT".
Definition left_toks : list (list Z) := [chars "wc"; chars "A.TXT"].
Definition right_toks : list (list Z) := [chars "sort"; chars "-r"].

(** The typed line is executed as the two programs joined by the pipe. *)
Example line_runs : dispatch line = Some (run_pipe left_toks right_toks (chars "OUT.TXT")).
Proof. vm_compute. reflexivity. Qed.

End Demo.


Lemma run_simple_wiring_witness :
  run (fun _ => false) (fun _ => true) true Demo.none (run_simple Demo.right_toks (chars "OUT.TXT") true) [7] Demo.fds =
  ([Child 7 [Said (chars "ush: not found: "); Said (chars "sort"); Said [10]; Ended 127]; Foreground 7; WaitedFor 7], Demo.fds).
Proof.
  rewrite (run_simple_wiring (fun _ => false) (fun _ => true) true Demo.none _ _ _ 7 Demo.fds (Other 0) (Other 1) 2);
    first [reflexivity | discriminate].
Defined.

Lemma tokenise_correct_witness :
  tokenise MAX_TOKS (chars "  sort  -r>OUT.TXT x") = Some (Demo.right_toks, chars "OUT.TXT").
Proof.
  apply (tokenise_correct MAX_TOKS (chars "  sort  -r>OUT.TXT x"));
    apply (bool_decide_eq_true _); vm_compute; reflexivity.
Defined.

End UshRun.
