(* ===== verification/Drivers.v ===== *)
(** * Keyboard, clock and timer (drivers/keyboard.c, drivers/rtc.c, drivers/pit.c)

    The scancode decoder with its modifier state, the keyboard's ring buffer, and
    the reading of the CMOS clock.  Port input is a parameter: scancodes arrive one
    per interrupt, and the CMOS registers are a function of time that the driver
    samples, one read per unit of time. *)

From S2P Require Import Prelude.

Module Kbd.

Definition KBD_BUFFER_SIZE : Z := 256.
Definition KEY_UP : Z := 0x80.
Definition KEY_DOWN : Z := 0x81.
Definition KEY_LEFT : Z := 0x82.
Definition KEY_RIGHT : Z := 0x83.
Definition KEY_TAB : Z := 0x09.

Record kbd := mk_kbd {
  kbd_buffer : Z -> Z; kbd_head : Z; kbd_tail : Z;
  shift_pressed : Z; ctrl_pressed : Z; extended : Z }.

Definition kbd_init : kbd := mk_kbd (fun _ => 0) 0 0 0 0 0.

Definition set_mods (shift ctrl ext : Z) (k : kbd) : kbd :=
  mk_kbd (kbd_buffer k) (kbd_head k) (kbd_tail k) shift ctrl ext.

(** ** The ring buffer *)

Definition keyboard_read_char (k : kbd) : Z * kbd :=
  if kbd_tail k =? kbd_head k then (-1, k)
  else (u8 (kbd_buffer k (kbd_tail k)),
        mk_kbd (kbd_buffer k) (kbd_head k) (Z.rem (kbd_tail k + 1) KBD_BUFFER_SIZE)
          (shift_pressed k) (ctrl_pressed k) (extended k)).

Definition keyboard_flush (k : kbd) : kbd :=
  mk_kbd (kbd_buffer k) (kbd_head k) (kbd_head k) (shift_pressed k) (ctrl_pressed k) (extended k).

(** The store of [deliver_char] for a foreground process; a full ring drops [c]. *)
Definition kbd_put (c : Z) (k : kbd) : kbd :=
  let next := Z.rem (kbd_head k + 1) KBD_BUFFER_SIZE in
  if negb (next =? kbd_tail k)
  then mk_kbd ((kbd_buffer k).[kbd_head k <- c]) next (kbd_tail k)
         (shift_pressed k) (ctrl_pressed k) (extended k)
  else k.

(** ** Scancodes *)

(** Both tables are 128 entries long; the initialiser leaves the rest zero. *)
Definition scancode_table : list Z :=
  [0; 0] ++ chars "1234567890-=" ++ [0; 0] ++ chars "qwertyuiop[]" ++ [0; 0]
  ++ chars "asdfghjkl;'`" ++ [0; 92] ++ chars "zxcvbnm,./" ++ [0; 42; 0; 32].
Definition scancode_table_shift : list Z :=
  [0; 0] ++ chars "!@#$%^&*()_+" ++ [0; 0] ++ chars "QWERTYUIOP{}" ++ [0; 0]
  ++ chars "ASDFGHJKL:" ++ [34; 126] ++ [0; 124] ++ chars "ZXCVBNM<>?" ++ [0; 42; 0; 32]
  ++ replicate 12 0 ++ chars "789-456+1230.".

(** [keyboard_handler]: the character passed to [deliver_char], if any. *)
Definition keyboard_handler (scancode : Z) (k : kbd) : option Z * kbd :=
  let shift := shift_pressed k in
  let ctrl := ctrl_pressed k in
  let ext := extended k in
  if scancode =? 0xE0 then (None, set_mods shift ctrl 1 k)
  else if negb (Z.land scancode 0x80 =? 0) then
    let released := Z.land scancode 0x7F in
    let shift := if (ext =? 0) && ((released =? 0x2A) || (released =? 0x36)) then 0 else shift in
    let ctrl := if released =? 0x1D then 0 else ctrl in
    (None, set_mods shift ctrl 0 k)
  else if negb (ext =? 0) then
    let k := set_mods shift ctrl 0 k in
    if scancode =? 0x1D then (None, set_mods shift 1 0 k)
    else if scancode =? 0x48 then (Some KEY_UP, k)
    else if scancode =? 0x50 then (Some KEY_DOWN, k)
    else if scancode =? 0x4B then (Some KEY_LEFT, k)
    else if scancode =? 0x4D then (Some KEY_RIGHT, k)
    else (None, k)
  else if scancode =? 0x1D then (None, set_mods shift 1 ext k)
  else if (scancode =? 0x2A) || (scancode =? 0x36) then (None, set_mods 1 ctrl ext k)
  else if scancode =? 0x0F then (Some KEY_TAB, k)
  else if scancode =? 0x1C then (Some 10, k)
  else if scancode =? 0x0E then (Some 8, k)
  else if negb (ctrl =? 0) then
    let base := ch scancode_table scancode in
    if (97 <=? base) && (base <=? 122) then (Some (Z.land base 0x1F), k) else (None, k)
  else
    let c := if negb (shift =? 0) then ch scancode_table_shift scancode
             else ch scancode_table scancode in
    if negb (c =? 0) then (Some c, k) else (None, k).

(** ** The ring as a bounded queue *)

Inductive event := Press (c : Z) | Read | Flush.

(** What a sequence of events makes the readers see. *)
Definition kbd_event (e : event) (k : kbd) : list Z * kbd :=
  match e with
  | Press c => ([], kbd_put c k)
  | Read => let '(c, k) := keyboard_read_char k in ([c], k)
  | Flush => ([], keyboard_flush k)
  end.

(** A queue of at most 255 characters that drops what does not fit. *)
Definition queue_event (e : event) (q : list Z) : list Z * list Z :=
  match e with
  | Press c => ([], if (length q <? 255)%nat then q ++ [u8 c] else q)
  | Read => match q with [] => ([-1], []) | c :: q => ([c], q) end
  | Flush => ([], [])
  end.

Fixpoint trace {S} (step : event -> S -> list Z * S) (l : list event) (s : S) : list Z :=
  match l with
  | [] => []
  | e :: l => let '(out, s) := step e s in out ++ trace step l s
  end.

Definition kbd_ok (k : kbd) : Prop := 0 <= kbd_head k < 256 /\ 0 <= kbd_tail k < 256.
Definition used (k : kbd) : nat := Z.to_nat ((kbd_head k - kbd_tail k) mod 256).
Definition queued (k : kbd) (n : nat) : list Z :=
  map (fun i => u8 (kbd_buffer k ((kbd_tail k + Z.of_nat i) mod 256))) (seq 0 n).

Lemma queued_length k n : length (queued k n) = n.
Proof. unfold queued. by rewrite length_map, length_seq. Qed.

Lemma used_full k : kbd_ok k -> (Z.rem (kbd_head k + 1) 256 =? kbd_tail k) = negb (used k <? 255)%nat.
Proof.
  intros [Hh Ht]. rewrite Z.rem_mod_nonneg by lia. unfold used. apply eq_true_iff_eq.
  rewrite Z.eqb_eq, negb_true_iff, Nat.ltb_ge. zmod.
Qed.

Lemma put_queued k c : kbd_ok k -> kbd_ok (kbd_put c k)
  /\ queued (kbd_put c k) (used (kbd_put c k)) = snd (queue_event (Press c) (queued k (used k))).
Proof.
  intros Hk. simpl. rewrite queued_length. unfold kbd_put, KBD_BUFFER_SIZE. rewrite used_full by done. rewrite negb_involutive.
  destruct (Nat.ltb_spec (used k) 255) as [Hu|]; [|done]. destruct Hk as [Hh Ht].
  rewrite Z.rem_mod_nonneg by lia. split; [split; simpl; [zmod|done]|].
  unfold used in *. cbn [kbd_head kbd_tail].
  replace (Z.to_nat (((kbd_head k + 1) mod 256 - kbd_tail k) mod 256)) with (S (Z.to_nat ((kbd_head k - kbd_tail k) mod 256))) by zmod.
  unfold queued. rewrite seq_S, map_app. simpl. f_equal; [|f_equal].
  - apply map_ext_in. intros i Hi%in_seq. rewrite upd_other; [done|]. zmod.
  - replace ((kbd_tail k + Z.of_nat (Z.to_nat ((kbd_head k - kbd_tail k) mod 256))) mod 256) with (kbd_head k) by zmod.
    by rewrite upd_same.
Qed.

Lemma read_queued k : kbd_ok k -> kbd_ok (snd (kbd_event Read k))
  /\ fst (kbd_event Read k) = fst (queue_event Read (queued k (used k)))
  /\ queued (snd (kbd_event Read k)) (used (snd (kbd_event Read k))) = snd (queue_event Read (queued k (used k))).
Proof.
  intros [Hh Ht]. simpl. unfold keyboard_read_char, KBD_BUFFER_SIZE. destruct (Z.eqb_spec (kbd_tail k) (kbd_head k)) as [E|].
  - simpl. split; [done|]. assert (used k = 0%nat) as -> by (unfold used; rewrite E; zmod). done.
  - simpl. rewrite Z.rem_mod_nonneg by lia. unfold used, kbd_ok. cbn [kbd_head kbd_tail]. split; [split; [done|zmod]|].
    replace (Z.to_nat ((kbd_head k - kbd_tail k) mod 256))
      with (S (Z.to_nat ((kbd_head k - (kbd_tail k + 1) mod 256) mod 256))) by zmod.
    unfold queued. cbn [seq map]. rewrite <- seq_shift, map_map. cbn [fst snd kbd_buffer kbd_tail]. split.
    + do 3 f_equal. zmod.
    + apply map_ext. intros i. do 2 f_equal. zmod.
Qed.

Lemma event_queued e k : kbd_ok k -> kbd_ok (snd (kbd_event e k))
  /\ fst (kbd_event e k) = fst (queue_event e (queued k (used k)))
  /\ queued (snd (kbd_event e k)) (used (snd (kbd_event e k))) = snd (queue_event e (queued k (used k))).
Proof.
  intros Hk. destruct e as [c| |]; [|by apply read_queued|].
  - destruct (put_queued k c Hk). done.
  - destruct Hk. simpl. split; [done|]. split; [done|]. unfold used. simpl. by rewrite Z.sub_diag.
Qed.

Lemma trace_queued l k : kbd_ok k -> trace kbd_event l k = trace queue_event l (queued k (used k)).
Proof.
  revert k. induction l as [|e l IH]; intros k Hk; simpl; [done|].
  destruct (event_queued e k Hk) as (H1 & H2 & H3). destruct (kbd_event e k) as [o k'], (queue_event e (queued k (used k))) as [o' q'].
  simpl in *. subst. by rewrite <- IH.
Qed.

(** C39: The keyboard's ring buffer is a queue: over any sequence of delivered
    characters, reads and flushes, the readers see exactly what a first-in first-out
    queue of capacity 255 gives them, -1 when it is empty; characters beyond the
    capacity are dropped, and none is lost, repeated or reordered otherwise. *)
Theorem keyboard_ring_is_queue events : trace kbd_event events kbd_init = trace queue_event events [].
Proof. by rewrite trace_queued. Qed.

End Kbd.

Module Rtc.

Record rtc_time := mk_time {
  seconds : Z; minutes : Z; hours : Z; day : Z; month : Z; year : Z }.

Definition RTC_SECONDS : Z := 0x00.
Definition RTC_MINUTES : Z := 0x02.
Definition RTC_HOURS : Z := 0x04.
Definition RTC_DAY : Z := 0x07.
Definition RTC_MONTH : Z := 0x08.
Definition RTC_YEAR : Z := 0x09.
Definition RTC_STATUS_A : Z := 0x0A.
Definition RTC_STATUS_B : Z := 0x0B.

Definition bcd_to_bin (val : Z) : Z := u8 (Z.land val 0x0F + Z.shiftr val 4 * 10).

Section Clock.
(** The register contents at each read. *)
Context (cmos : Z -> Z -> Z).

(** The state is the number of reads made so far. *)
Definition cmos_read (reg : Z) : st Z Z := fun t => Some (cmos t reg, t + 1).

(** [while (cmos_read(RTC_STATUS_A) & 0x80);]. *)
Fixpoint wait_update (fuel : nat) : st Z unit :=
  match fuel with
  | O => undef
  | S n =>
    let* a := cmos_read RTC_STATUS_A in
    if negb (Z.land a 0x80 =? 0) then wait_update n else ret tt
  end.

Definition snapshot (fuel : nat) : st Z rtc_time :=
  wait_update fuel ;;
  let* s := cmos_read RTC_SECONDS in
  let* m := cmos_read RTC_MINUTES in
  let* h := cmos_read RTC_HOURS in
  let* d := cmos_read RTC_DAY in
  let* mo := cmos_read RTC_MONTH in
  let* y := cmos_read RTC_YEAR in
  ret (mk_time s m h d mo y).

Definition same_time (a b : rtc_time) : bool :=
  (seconds a =? seconds b) && (minutes a =? minutes b) && (hours a =? hours b)
  && (day a =? day b) && (month a =? month b) && (year a =? year b).

(** [do ... while (prev != t)]: two snapshots in a row that agree. *)
Fixpoint stable (fuel : nat) : st Z rtc_time :=
  match fuel with
  | O => undef
  | S n =>
    let* prev := snapshot (S n) in
    let* t := snapshot (S n) in
    if same_time prev t then ret t else stable n
  end.

(** The conversions after the loop, for status register B [sb]. *)
Definition convert (sb : Z) (t : rtc_time) : rtc_time :=
  let t :=
    if Z.land sb 0x04 =? 0 then
      let pm := Z.land (hours t) 0x80 in
      mk_time (bcd_to_bin (seconds t)) (bcd_to_bin (minutes t))
        (Z.lor (bcd_to_bin (Z.land (hours t) 0x7F)) pm)
        (bcd_to_bin (day t)) (bcd_to_bin (month t)) (bcd_to_bin (year t))
    else t in
  let h :=
    if Z.land sb 0x02 =? 0 then
      let pm := Z.land (hours t) 0x80 in
      let h := Z.land (hours t) 0x7F in
      if negb (pm =? 0) && (h <? 12) then u8 (h + 12)
      else if (pm =? 0) && (h =? 12) then 0
      else h
    else hours t in
  mk_time (seconds t) (minutes t) h (day t) (month t) (u16 (year t + 2000)).

Definition rtc_read_time (fuel : nat) : st Z rtc_time :=
  let* t := stable fuel in
  let* sb := cmos_read RTC_STATUS_B in
  ret (convert sb t).

(** ** What is read *)

(** How a clock in the format that status register [sb] announces shows a time. *)
Definition to_bcd (x : Z) : Z := 16 * (x / 10) + x mod 10.
Definition shown (sb x : Z) : Z := if Z.land sb 0x04 =? 0 then to_bcd x else x.
Definition shown_hour (sb h : Z) : Z :=
  if Z.land sb 0x02 =? 0
  then shown sb (if h mod 12 =? 0 then 12 else h mod 12) + (if h <? 12 then 0 else 0x80)
  else shown sb h.
Definition shown_time (sb : Z) (t : rtc_time) : rtc_time :=
  mk_time (shown sb (seconds t)) (shown sb (minutes t)) (shown_hour sb (hours t))
    (shown sb (day t)) (shown sb (month t)) (shown sb (year t - 2000)).

Definition valid_time (t : rtc_time) : Prop :=
  0 <= seconds t < 60 /\ 0 <= minutes t < 60 /\ 0 <= hours t < 24 /\ 1 <= day t <= 31
  /\ 1 <= month t <= 12 /\ 2000 <= year t < 2100.

(** The register file of a clock that shows [t]. *)
Definition register (t : rtc_time) (sb reg : Z) : Z :=
  if reg =? RTC_SECONDS then seconds t else if reg =? RTC_MINUTES then minutes t
  else if reg =? RTC_HOURS then hours t else if reg =? RTC_DAY then day t
  else if reg =? RTC_MONTH then month t else if reg =? RTC_YEAR then year t
  else if reg =? RTC_STATUS_B then sb else 0.

Lemma bcd_shown x : 0 <= x < 100 -> bcd_to_bin (to_bcd x) = x.
Proof.
  intros Hx. apply Z.eqb_eq. by apply (all_below 100 (fun x => bcd_to_bin (to_bcd x) =? x)).
Qed.

Lemma hours_shown sb h : 0 <= h < 24 -> forall s m d mo y,
  hours (convert sb (mk_time s m (shown_hour sb h) d mo y)) = h.
Proof.
  intros Hh s m d mo y. unfold convert, shown_hour, shown. apply Z.eqb_eq.
  destruct (Z.land sb 4 =? 0), (Z.land sb 2 =? 0); cbn [hours];
    revert h Hh; apply (all_below 24); vm_compute; reflexivity.
Qed.

(** The conversion undoes the format, whichever of the four it is. *)
Lemma convert_shown sb t : valid_time t -> convert sb (shown_time sb t) = t.
Proof.
  intros (Hs & Hm & Hh & Hd & Hmo & Hy). pose proof (hours_shown sb (hours t) Hh) as H. destruct t as [s m h d mo y].
  unfold convert, shown_time in *. cbn [seconds minutes hours day month year] in *.
  specialize (H (shown sb s) (shown sb m) (shown sb d) (shown sb mo) (shown sb (y - 2000))).
  f_equal; [..|exact H| | |]; unfold shown; destruct (Z.land sb 4 =? 0); cbn [seconds minutes hours day month year];
    rewrite ?bcd_shown by lia; try done; unfold u16; zmod.
Qed.

Section Steady.
(** A clock whose update flag clears after [busy] reads and which then shows the same
    time for a while (it changes once a second). *)
Context (t : rtc_time) (sb start : Z) (busy : nat).
Hypothesis Hbusy : forall i, (i < busy)%nat -> Z.land (cmos (start + Z.of_nat i) RTC_STATUS_A) 0x80 <> 0.
Hypothesis Hsteady : forall i reg, start + Z.of_nat busy <= i < start + Z.of_nat busy + 15 ->
  cmos i reg = register (shown_time sb t) sb reg.

Lemma wait_busy n fuel : (n <= busy)%nat -> (n < fuel)%nat ->
  wait_update fuel (start + Z.of_nat (busy - n)) = Some (tt, start + Z.of_nat busy + 1).
Proof.
  revert fuel. induction n as [|n IH]; intros [|fuel] Hn Hf; try lia; simpl; unfold bind, cmos_read.
  - rewrite Nat.sub_0_r, Hsteady by lia. done.
  - destruct (Z.eqb_spec (Z.land (cmos (start + Z.of_nat (busy - S n)) RTC_STATUS_A) 0x80) 0) as [E|].
    + by apply Hbusy in E; [|lia].
    + simpl. rewrite <- (IH fuel) by lia. f_equal. lia.
Qed.

Lemma snapshot_at fuel u : wait_update fuel u = Some (tt, start + Z.of_nat busy + 1)
    \/ wait_update fuel u = Some (tt, start + Z.of_nat busy + 8) ->
  exists v, wait_update fuel u = Some (tt, v) /\ snapshot fuel u = Some (shown_time sb t, v + 6).
Proof.
  intros H. assert (exists v, wait_update fuel u = Some (tt, v)
    /\ start + Z.of_nat busy <= v <= start + Z.of_nat busy + 8) as (v & E & Hv) by (destruct H as [->| ->]; eexists; (split; [done|lia])).
  exists v. split; [done|]. unfold snapshot. rewrite (bind_ok _ _ _ _ _ E). unfold bind, cmos_read, ret.
  rewrite !Hsteady by lia. apply f_equal, f_equal2; [by destruct (shown_time sb t)|lia].
Qed.

Lemma stable_at fuel : (busy < fuel)%nat -> stable fuel start = Some (shown_time sb t, start + Z.of_nat busy + 14).
Proof.
  intros Hf. destruct fuel as [|fuel]; [lia|]. cbn [stable].
  pose proof (wait_busy busy (S fuel) ltac:(lia) Hf) as E0. rewrite Nat.sub_diag, Z.add_0_r in E0.
  destruct (snapshot_at (S fuel) start (or_introl E0)) as (v & Ev & E1). rewrite E0 in Ev. injection Ev as <-.
  rewrite (bind_ok _ _ _ _ _ E1). replace (start + Z.of_nat busy + 1 + 6) with (start + Z.of_nat busy + 7) by lia.
  assert (wait_update (S fuel) (start + Z.of_nat busy + 7) = Some (tt, start + Z.of_nat busy + 8)) as E2.
  { simpl. unfold bind, cmos_read. rewrite Hsteady by lia. simpl. unfold ret. do 2 f_equal. lia. }
  destruct (snapshot_at (S fuel) _ (or_intror E2)) as (v & Ev & E3). rewrite E2 in Ev. injection Ev as <-.
  rewrite (bind_ok _ _ _ _ _ E3). unfold same_time. rewrite !Z.eqb_refl. simpl. unfold ret. do 2 f_equal. lia.
Qed.

(** C40: Reading the clock terminates and gives the time: when the update in progress
    ends and the registers then hold still for the fifteen reads that are needed,
    [rtc_read_time] returns exactly the time the clock shows, in each of the four
    formats a clock can have (BCD or binary, 12 or 24 hours). *)
Theorem rtc_read_time_correct fuel : valid_time t -> (busy < fuel)%nat ->
  rtc_read_time fuel start = Some (t, start + Z.of_nat busy + 15).
Proof.
  intros Hv Hf. unfold rtc_read_time. rewrite (bind_ok _ _ _ _ _ (stable_at fuel Hf)).
  unfold bind, cmos_read. rewrite Hsteady by lia. unfold ret.
  change (register (shown_time sb t) sb RTC_STATUS_B) with sb. rewrite convert_shown by done. do 2 f_equal. lia.
Qed.

End Steady.
End Clock.

(** A clock in 12-hour BCD format that is busy for three reads and shows 23:59:58. *)
Definition new_year : rtc_time := mk_time 58 59 23 31 12 2026.
Definition slow_clock (i reg : Z) : Z :=
  if (i <? 3) && (reg =? RTC_STATUS_A) then 0x80 else register (shown_time 0 new_year) 0 reg.

Lemma rtc_read_time_correct_witness : rtc_read_time slow_clock 10 0 = Some (new_year, 18).
Proof.
  apply (rtc_read_time_correct slow_clock new_year 0 0 3).
  - intros [|[|[|i]]] Hi; [vm_compute; discriminate..|lia].
  - intros i reg Hi. unfold slow_clock. destruct (Z.ltb_spec i 3); [lia|done].
  - unfold valid_time, new_year. simpl. lia.
  - lia.
Defined.

End Rtc.

Module Pit.

Definition PIT_BASE_HZ : Z := 1193182.

(** [pit_init]: the divisor programmed into channel 0, low byte first. *)
Definition pit_divisor (frequency : Z) : Z := PIT_BASE_HZ / frequency.
Definition pit_init_bytes (frequency : Z) : list Z :=
  let divisor := pit_divisor frequency in
  [0x36; u8 (Z.land divisor 0xFF); u8 (Z.land (Z.shiftr divisor 8) 0xFF)].

(** [timer_sleep]: the number of ticks to wait, and the test of its loop. *)
Definition ticks_needed (tick_rate ms : Z) : Z := u32 (ms * tick_rate) / 1000.
Definition sleeping (ticks start needed : Z) : bool := u32 (ticks - start) <? needed.

End Pit.
