(* ===== verification/ShellEdit.v ===== *)
(** * The line editor of the kernel shell (kernel/shell.c)

    [shell_handle_char] with its completion and history on the arrays of the shell, and
    the same editor on lists, which it refines: for every key the two have the same
    effect on the system, and the arrays hold the line and the history of the list
    version. *)

From S2P Require Import Prelude Vga Drivers LineEdit.

Module ShellEdit.

Import Vga Kbd LineEdit.

Definition KEY_CANCEL : Z := 0x03.
Definition KEY_CLEAR : Z := 0x0C.
Definition VGA_COLOR_LIGHT_GREEN : Z := 10.
Definition VGA_COLOR_WHITE : Z := 15.

(** What Tab completes in the first word of a line. *)
Definition commands : list (list Z) :=
  [chars "help"; chars "clear"; chars "echo"; chars "about"; chars "ls"; chars "pwd"; chars "cat"; chars "touch";
   chars "mkdir"; chars "cd"; chars "rm"; chars "write"; chars "rename"; chars "time"; chars "uptime"; chars "free";
   chars "exec"; chars "bg"; chars "ps"; chars "kill"; chars "fasterfetch"; chars "reboot"].

Definition command_matches (prefix : list Z) : list (list Z) :=
  take 16 (map (take 12) (List.filter (starts_with prefix) commands)).

Section Editor.
Context {W : Type} {H : ShellHost W}.

Definition shell_prompt {E} : st (E * W) unit :=
  says [SetColor (vga_entry_color VGA_COLOR_LIGHT_GREEN VGA_COLOR_BLACK); WriteString (chars "GordOS");
        SetColor (vga_entry_color VGA_COLOR_LIGHT_GREY VGA_COLOR_BLACK)] ;;
  let* cwd := on_host (gets sh_cwd) in
  says [WriteString cwd; SetColor (vga_entry_color VGA_COLOR_WHITE VGA_COLOR_BLACK); WriteString (chars "> ");
        SetColor (vga_entry_color VGA_COLOR_LIGHT_GREY VGA_COLOR_BLACK)].

Definition clear_input_line : st (edit * W) unit :=
  let* pos := on_edit (gets cursor_pos) in
  let* len := on_edit (gets input_index) in
  echo pos len ;;
  times 0 len Backspace.

(** The loop that types an old line in; a row has 256 characters. *)
Fixpoint load_entry (n : nat) (entry i : Z) : st (edit * W) unit :=
  match n with
  | O => undef
  | S n =>
    let* c := on_edit (hist_get entry i) in
    if c =? 0 then ret tt
    else
      let* len := on_edit (gets input_index) in
      on_edit (buf_set len c ;; modify (set_len (len + 1))) ;;
      says [PutChar c] ;;
      on_edit (modify (fun e => set_pos (cursor_pos e + 1) e)) ;;
      load_entry n entry (i + 1)
  end.

Definition show_entry : st (edit * W) unit :=
  clear_input_line ;;
  let* e := on_edit (gets id) in
  on_edit (modify (set_len 0)) ;;
  on_edit (modify (set_pos 0)) ;;
  load_entry 257 (history_count e - 1 - history_index e) 0.

Definition key_enter : st (edit * W) unit :=
  says [PutChar 10] ;;
  let* len := on_edit (gets input_index) in
  on_edit (buf_set len 0) ;;
  on_edit push_history ;;
  let* b := on_edit (gets input_buffer) in
  on_host (sh_execute (cstr 256 b 0)) ;;
  on_edit (modify (fun e => set_hindex (-1) (set_pos 0 (set_len 0 e)))) ;;
  let* fg := on_host (gets sh_foreground) in
  if fg =? 0 then shell_prompt else ret tt.

Definition key_clear : st (edit * W) unit :=
  says [Clear] ;;
  shell_prompt ;;
  let* len := on_edit (gets input_index) in
  let* pos := on_edit (gets cursor_pos) in
  echo 0 len ;;
  times pos len CursorLeft.

Definition key_cancel : st (edit * W) unit :=
  says [WriteString (chars "^C" ++ [10])] ;;
  on_edit (modify (fun e => set_hindex (-1) (set_pos 0 (set_len 0 e)))) ;;
  shell_prompt.

Definition key_backspace : st (edit * W) unit :=
  let* pos := on_edit (gets cursor_pos) in
  if 0 <? pos then
    on_edit (close_gap (pos - 1)) ;;
    on_edit (modify (fun e => set_pos (cursor_pos e - 1) (set_len (input_index e - 1) e))) ;;
    says [CursorLeft] ;;
    let* pos := on_edit (gets cursor_pos) in
    let* len := on_edit (gets input_index) in
    echo pos len ;;
    says [PutChar 32] ;;
    times pos (len + 1) CursorLeft
  else ret tt.

Definition key_left : st (edit * W) unit :=
  let* pos := on_edit (gets cursor_pos) in
  if 0 <? pos then on_edit (modify (set_pos (pos - 1))) ;; says [CursorLeft] else ret tt.

Definition key_right : st (edit * W) unit :=
  let* pos := on_edit (gets cursor_pos) in
  let* len := on_edit (gets input_index) in
  if pos <? len then
    let* c := on_edit (buf_get pos) in
    says [PutChar c] ;;
    on_edit (modify (set_pos (pos + 1)))
  else ret tt.

(** A single match replaces the word around the cursor, if the line keeps fitting. *)
Definition complete_word (ws : Z) (name : list Z) : st (edit * W) unit :=
  let* we := on_edit word_end in
  let* len := on_edit (gets input_index) in
  let new_len := Z.of_nat (length name) in
  let diff := new_len - (we - ws) in
  if len + diff <? INPUT_BUFFER_SIZE then
    on_edit (replace_word ws we name) ;;
    times ws we CursorLeft ;;
    let* len := on_edit (gets input_index) in
    let* pos := on_edit (gets cursor_pos) in
    echo ws len ;;
    says [PutChar 32] ;;
    times pos (len + 1) CursorLeft
  else ret tt.

(** Several matches are listed, and the line shown again below them. *)
Definition list_matches (names : list (list Z)) : st (edit * W) unit :=
  says (PutChar 10 :: concat (map (fun name => [WriteString name; PutChar 32]) names) ++ [PutChar 10]) ;;
  shell_prompt ;;
  let* len := on_edit (gets input_index) in
  let* pos := on_edit (gets cursor_pos) in
  echo 0 len ;;
  times pos len CursorLeft.

(** [matches] as strings: a row ends at its first NUL. *)
Definition key_tab : st (edit * W) unit :=
  let* pos := on_edit (gets cursor_pos) in
  let* ws := on_edit word_start in
  let* prefix := on_edit (buf_slice (Z.to_nat (pos - ws)) ws) in
  let* sp := on_edit (has_space (Z.to_nat pos) 0) in
  let* names := if sp then on_host (sh_find (cut_nul prefix)) else ret (command_matches prefix) in
  match map cut_nul names with
  | [] => ret tt
  | [name] => complete_word ws name
  | names => list_matches names
  end.

Definition key_up : st (edit * W) unit :=
  let* e := on_edit (gets id) in
  if history_index e + 1 <? history_count e then
    on_edit (modify (set_hindex (history_index e + 1))) ;;
    show_entry
  else ret tt.

Definition key_down : st (edit * W) unit :=
  let* n := on_edit (gets history_index) in
  if n <? 0 then ret tt
  else
    on_edit (modify (set_hindex (n - 1))) ;;
    if n - 1 <? 0 then
      on_edit (modify (set_hindex (-1))) ;;
      clear_input_line ;;
      on_edit (modify (fun e => set_pos 0 (set_len 0 e)))
    else show_entry.

Definition key_insert (c : Z) : st (edit * W) unit :=
  let* len := on_edit (gets input_index) in
  if len <? INPUT_BUFFER_SIZE - 1 then
    let* pos := on_edit (gets cursor_pos) in
    on_edit (open_gap ;; buf_set pos c ;; modify (set_len (len + 1))) ;;
    let* len := on_edit (gets input_index) in
    echo pos len ;;
    on_edit (modify (set_pos (pos + 1))) ;;
    times (pos + 1) len CursorLeft
  else ret tt.

Definition shell_handle_char (c : Z) : st (edit * W) unit :=
  let* fg := on_host (gets sh_foreground) in
  if negb (fg =? 0) then ret tt
  else if c =? 10 then key_enter
  else if c =? KEY_CLEAR then key_clear
  else if c =? KEY_CANCEL then key_cancel
  else if c =? 8 then key_backspace
  else if c =? KEY_LEFT then key_left
  else if c =? KEY_RIGHT then key_right
  else if c =? KEY_TAB then key_tab
  else if c =? KEY_UP then key_up
  else if c =? KEY_DOWN then key_down
  else key_insert c.

Definition shell_init : st (edit * W) unit :=
  on_edit (modify (fun e => set_hindex (-1) (set_pos 0 (set_len 0 e)))) ;;
  shell_prompt.

(** ** The editor on lists *)

Definition prompt_calls (cwd : list Z) : list call :=
  [SetColor 10; WriteString (chars "GordOS"); SetColor 7; WriteString cwd; SetColor 15; WriteString (chars "> "); SetColor 7].

(** The calls that show the line, the cursor in its place. *)
Definition show (l : typed) : list call := map PutChar (text l) ++ repeat CursorLeft (length (after l)).

Definition empty (l : typed) : typed := set_browsing (-1) (set_text [] [] l).

Definition l_clear (cwd : list Z) (l : typed) : typed * list call := (l, Clear :: prompt_calls cwd ++ show l).

Definition l_cancel (cwd : list Z) (l : typed) : typed * list call :=
  (empty l, WriteString (chars "^C" ++ [10]) :: prompt_calls cwd).

Definition l_backspace (l : typed) : typed * list call :=
  match rev (before l) with
  | [] => (l, [])
  | _ :: r => (set_text (rev r) (after l) l,
               CursorLeft :: map PutChar (after l) ++ PutChar 32 :: repeat CursorLeft (length (after l) + 1))
  end.

Definition l_left (l : typed) : typed * list call :=
  match rev (before l) with
  | [] => (l, [])
  | c :: r => (set_text (rev r) (c :: after l) l, [CursorLeft])
  end.

Definition l_right (l : typed) : typed * list call :=
  match after l with
  | [] => (l, [])
  | c :: r => (set_text (before l ++ [c]) r l, [PutChar c])
  end.

(** Show an old line instead of the present one. *)
Definition l_replace (s : list Z) (l : typed) : typed * list call :=
  (set_text s [] l, map PutChar (after l) ++ repeat Backspace (length (text l)) ++ map PutChar s).

Definition l_up (l : typed) : typed * list call :=
  let n := browsing l + 1 in
  if n <? Z.of_nat (length (past l)) then l_replace (recall n (past l)) (set_browsing n l) else (l, []).

Definition l_down (l : typed) : typed * list call :=
  let n := browsing l - 1 in
  if browsing l <? 0 then (l, [])
  else l_replace (if n <? 0 then [] else recall n (past l)) (set_browsing n l).

Definition l_insert (c : Z) (l : typed) : typed * list call :=
  if (length (text l) <? 255)%nat
  then (set_text (before l ++ [c]) (after l) l, PutChar c :: map PutChar (after l) ++ repeat CursorLeft (length (after l)))
  else (l, []).

(** The rest of the word behind the cursor, and the length of the whole word. *)
Definition word_rest (l : typed) : list Z := word_from (after l).
Definition old_len (l : typed) : nat := (length (last_word (before l)) + length (word_rest l))%nat.

(** The line when [name] replaces the word. *)
Definition completed (name : list Z) (l : typed) : typed :=
  set_text (but_word (before l) ++ name) (drop (length (word_rest l)) (after l)) l.

Definition fits (name : list Z) (l : typed) : bool := (length (text (completed name l)) <? 256)%nat.

(** Where the code reads behind the end of its array: it moves the end of the line
    down, with as many characters behind it. *)
Definition overrun (name : list Z) (l : typed) : bool :=
  (length name <? old_len l)%nat && (255 <? length (text l) + (old_len l - length name))%nat.

Definition l_complete (name : list Z) (l : typed) : typed * list call :=
  if fits name l then
    let l' := completed name l in
    (l', repeat CursorLeft (old_len l) ++ map PutChar (name ++ after l') ++ PutChar 32 :: repeat CursorLeft (length (after l') + 1))
  else (l, []).

Definition l_list (names : list (list Z)) (cwd : list Z) (l : typed) : typed * list call :=
  (l, PutChar 10 :: concat (map (fun name => [WriteString name; PutChar 32]) names) ++ PutChar 10 :: prompt_calls cwd ++ show l).

Definition l_tab : st (typed * W) unit :=
  let* l := on_edit (gets id) in
  let word := last_word (before l) in
  let* names := if existsb (fun c => c =? 32) (before l) then on_host (sh_find word) else ret (command_matches word) in
  match map cut_nul names with
  | [] => ret tt
  | [name] => if fits name l && overrun name l then undef else plain (fun _ => l_complete name)
  | names => plain (l_list names)
  end.

Definition l_enter : st (typed * W) unit :=
  says [PutChar 10] ;;
  let* s := on_edit (fun l => Some (text l, set_past (remember (text l) (past l)) l)) in
  on_host (sh_execute s) ;;
  on_edit (fun l => Some (tt, empty l)) ;;
  let* fg := on_host (gets sh_foreground) in
  if fg =? 0 then plain (fun cwd l => (l, prompt_calls cwd)) else ret tt.

Definition line_key (c : Z) : st (typed * W) unit :=
  let* fg := on_host (gets sh_foreground) in
  if negb (fg =? 0) then ret tt
  else if c =? 10 then l_enter
  else if c =? KEY_CLEAR then plain l_clear
  else if c =? KEY_CANCEL then plain l_cancel
  else if c =? 8 then plain (fun _ => l_backspace)
  else if c =? KEY_LEFT then plain (fun _ => l_left)
  else if c =? KEY_RIGHT then plain (fun _ => l_right)
  else if c =? KEY_TAB then l_tab
  else if c =? KEY_UP then plain (fun _ => l_up)
  else if c =? KEY_DOWN then plain (fun _ => l_down)
  else plain (fun _ => l_insert c).

(** ** Refinement, key by key *)

(** Run a read or a write of a field, or a call of the terminal. *)
Ltac run1 := erewrite bind_ok; [|reflexivity]; cbn [fst snd id cursor_pos input_index history_index history_count set_pos set_len set_hindex].

Lemma prompt_ok {E} (e : E) w : shell_prompt (e, w) = says (prompt_calls (sh_cwd w)) (e, w).
Proof. unfold shell_prompt. do 2 run1. rewrite calls_cwd, says_more. done. Qed.

Lemma show_ok e l w : repr e l ->
  (echo 0 (input_index e) ;; times (cursor_pos e) (input_index e) CursorLeft) (e, w) = says (show l) (e, w).
Proof.
  intros Hr. pose proof (rp_len _ _ Hr) as Hi. pose proof (rp_pos _ _ Hr) as Hp. unfold text in Hi. rewrite length_app in Hi.
  rewrite (bind_ok _ _ _ _ _ (echo_all e l w Hr)). rewrite (times_ok (length (after l))) by lia. by rewrite says_more.
Qed.

Lemma repr_empty e l : repr e l -> repr (set_hindex (-1) (set_pos 0 (set_len 0 e))) (empty l).
Proof.
  intros []. split; simpl; try done; try lia. intros i Hi. simpl in Hi. lia.
Qed.

Lemma sim_clear : sim key_clear (plain l_clear).
Proof.
  apply sim_plain. intros e l w Hr. exists e. split; [|done]. unfold key_clear, l_clear. cbn [fst snd].
  run1. rewrite (bind_ok _ _ _ _ _ (prompt_ok e _)). do 2 run1. rewrite (show_ok e l) by done.
  by rewrite !says_more, calls_cwd.
Qed.

Lemma sim_cancel : sim key_cancel (plain l_cancel).
Proof.
  apply sim_plain. intros e l w Hr. unfold key_cancel, l_cancel. cbn [fst snd]. eexists. split.
  - do 2 run1. rewrite prompt_ok, says_more, calls_cwd. reflexivity.
  - by apply repr_empty.
Qed.

Lemma sim_backspace : sim key_backspace (plain (fun _ => l_backspace)).
Proof.
  apply sim_plain. intros e l w Hr. unfold key_backspace, l_backspace. run1. pose proof (rp_pos _ _ Hr) as Hp.
  pose proof (rev_cases (before l)) as Hb. destruct (rev (before l)) as [|x r].
  { rewrite Hb in Hp. rewrite Hp. by exists e. }
  destruct (delete_ok e l _ _ Hr Hb) as (e1 & e' & E1 & He' & Hr').
  rewrite Hb, length_app in Hp. simpl in Hp. destruct (Z.ltb_spec 0 (cursor_pos e)); [|lia].
  rewrite (bind_ok _ _ _ _ _ (on_edit_ok _ _ w _ _ E1)). erewrite bind_ok; [|reflexivity]. cbn [fst snd].
  rewrite <- He'. do 3 run1. exists e'. split; [|done]. cbn [fst snd].
  rewrite (bind_ok _ _ _ _ _ (echo_after e' _ _ Hr')). run1. rewrite (times_ok (length (after l) + 1)).
  - by rewrite !says_more.
  - pose proof (rp_len _ _ Hr') as Hi'. pose proof (rp_pos _ _ Hr') as Hp'. unfold text in Hi'. rewrite length_app in Hi'. simpl in *. lia.
Qed.

Lemma left_ok e l : repr e l -> before l <> [] -> repr (set_pos (cursor_pos e - 1) e) (l_left l).1.
Proof.
  intros Hr Hn. unfold l_left. pose proof Hr as [Hi Hp Hm Ht Hch _ _ _ _ _].
  pose proof (rev_cases (before l)) as Hb. destruct (rev (before l)) as [|x r]; [done|].
  rewrite Hb, length_app in Hp. simpl in Hp.
  unfold text in *. rewrite Hb, <- app_assoc in *. destruct Hr. split; simpl; try done; try lia; unfold text; simpl; done.
Qed.

Lemma sim_left : sim key_left (plain (fun _ => l_left)).
Proof.
  apply sim_plain. intros e l w Hr. unfold key_left. run1. pose proof (rp_pos _ _ Hr) as Hp. pose proof (left_ok e l Hr) as Hl.
  unfold l_left in *. pose proof (rev_cases (before l)) as Hb. destruct (rev (before l)) as [|x r].
  { rewrite Hb in Hp. rewrite Hp. by exists e. }
  rewrite Hb, length_app in Hp. simpl in Hp. destruct (Z.ltb_spec 0 (cursor_pos e)); [|lia]. run1. eexists. split; [reflexivity|].
  apply Hl. rewrite Hb. by destruct (rev r).
Qed.

Lemma sim_right : sim key_right (plain (fun _ => l_right)).
Proof.
  apply sim_plain. intros e l w Hr. unfold key_right, l_right. do 2 run1. pose proof Hr as [Hi Hp Hm Ht Hch _ _ _ _ _].
  unfold text in *. rewrite length_app in *. destruct (after l) as [|c r] eqn:Ha.
  { simpl in *. destruct (Z.ltb_spec (cursor_pos e) (input_index e)); [lia|]. by exists e. }
  simpl in *. destruct (Z.ltb_spec (cursor_pos e) (input_index e)); [|lia].
  assert (buf_get (cursor_pos e) e = Some (c, e)) as Eg.
  { rewrite (line_get e _ Ht) by (rewrite length_app; simpl; lia). rewrite ch_app, ch_cons by lia. zspec; simpl; done || lia. }
  rewrite (bind_ok _ _ _ _ _ (on_edit_ok _ _ w _ _ Eg)). run1. eexists. split; [reflexivity|].
  destruct Hr. unfold text in *. rewrite Ha in *. split; simpl; try done; unfold text; simpl; rewrite <- ?app_assoc; try done.
  rewrite length_app. simpl. lia.
Qed.

(** The cursor steps over the character behind it. *)
Lemma step_right e l bf c r : repr e (set_text bf (c :: r) l) -> repr (set_pos (cursor_pos e + 1) e) (set_text (bf ++ [c]) r l).
Proof.
  intros Hr. destruct Hr. unfold text in *. simpl in *. split; simpl; try done; unfold text; simpl; rewrite <- ?app_assoc; try done.
  rewrite length_app. simpl. lia.
Qed.

Lemma sim_insert c : char_ok c -> sim (key_insert c) (plain (fun _ => l_insert c)).
Proof.
  intros Hc. apply sim_plain. intros e l w Hr. unfold key_insert, l_insert, INPUT_BUFFER_SIZE. run1.
  pose proof (rp_len _ _ Hr) as Hi. destruct (Nat.ltb_spec (length (text l)) 255) as [Hl|Hl].
  2:{ destruct (Z.ltb_spec (input_index e) (256 - 1)); [lia|]. by exists e. }
  destruct (Z.ltb_spec (input_index e) (256 - 1)); [|lia]. run1.
  destruct (insert_ok e l c Hr Hc Hl) as (e1 & E1 & Hr1). rewrite (bind_ok _ _ _ _ _ (on_edit_ok _ _ w _ _ E1)). run1.
  assert (cursor_pos e = cursor_pos e1) as Hpp by (by rewrite (rp_pos _ _ Hr), (rp_pos _ _ Hr1)).
  rewrite Hpp, (bind_ok _ _ _ _ _ (echo_after e1 _ w Hr1)). run1.
  pose proof (rp_len _ _ Hr1) as Hi1. pose proof (rp_pos _ _ Hr1) as Hp1. unfold text in Hi1. rewrite length_app in Hi1. simpl in Hi1, Hp1.
  rewrite (times_ok (length (after l))) by lia. rewrite says_more. eexists. split; [reflexivity|]. by apply step_right.
Qed.

Lemma clear_line_ok e l w : repr e l ->
  clear_input_line (e, w) = says (map PutChar (after l) ++ repeat Backspace (length (text l))) (e, w).
Proof.
  intros Hr. unfold clear_input_line. do 2 run1. rewrite (bind_ok _ _ _ _ _ (echo_after e l w Hr)).
  rewrite (times_ok (length (text l))) by (rewrite (rp_len _ _ Hr); lia). by rewrite says_more.
Qed.

(** A character typed at the end of the line. *)
Lemma append_ok e l p c : repr e (set_text p [] l) -> char_ok c -> (length p < 255)%nat ->
  repr (set_pos (cursor_pos e + 1) (set_len (input_index e + 1) (set_input ((input_buffer e).[input_index e <- c]) e)))
    (set_text (p ++ [c]) [] l).
Proof.
  intros Hr Hc Hp. pose proof Hr as [Hi Hpos Hm Ht Hch _ _ _ _ _]. unfold text in *. simpl in *. rewrite app_nil_r in *.
  pose proof (repr_text e _ ((input_buffer e).[input_index e <- c]) (p ++ [c]) [] Hr) as Hrep.
  rewrite app_nil_r, length_app in Hrep. simpl in Hrep. rewrite Hi, Hpos.
  replace (Z.of_nat (length p) + 1) with (Z.of_nat (length p + 1)) by lia. rewrite <- Hi. apply Hrep.
  - intros i Hi'. rewrite length_app in Hi'. simpl in Hi'. unfold upd. rewrite ch_app, ch_cons by lia.
    destruct (Z.eqb_spec i (input_index e)); [by zspec; simpl; try lia|]. rewrite Ht by lia. by zspec; simpl; try lia.
  - by apply Forall_app_2; [|apply Forall_singleton].
  - lia.
Qed.

Lemma load_entry_ok (n : nat) entry l r : 0 <= entry < 10 -> forall p e w, repr e (set_text p [] l) ->
  row_holds (history e) entry (p ++ r) -> (length r < n)%nat ->
  exists e', load_entry n entry (Z.of_nat (length p)) (e, w) = says (map PutChar r) (e', w) /\ repr e' (set_text (p ++ r) [] l).
Proof.
  intros Hen. revert r. induction n as [|n IH]; intros r p e w Hr (Ht & H0 & Hc & Hl) Hn; [lia|]. cbn [load_entry].
  rewrite length_app in Hl, H0. rewrite (bind_ok _ _ _ _ _ (on_edit_ok _ _ w _ _ (hist_get_ok entry (Z.of_nat (length p)) e Hen ltac:(lia)))).
  destruct r as [|c r].
  { simpl in H0. rewrite Nat.add_0_r in H0. rewrite H0. exists e. split; [done|]. by rewrite app_nil_r. }
  assert (history e entry (Z.of_nat (length p)) = c) as ->.
  { rewrite Ht by (rewrite length_app; simpl; lia). rewrite ch_app, ch_cons by lia. zspec; simpl; done || lia. }
  simpl in Hl, Hn. assert (char_ok c) as Hcc by (apply Forall_app in Hc as [_ [? _]%Forall_cons]; done).
  destruct (Z.eqb_spec c 0); [unfold char_ok in Hcc; lia|]. run1.
  pose proof (append_ok e l p c Hr Hcc ltac:(lia)) as Hr'. pose proof (rp_len _ _ Hr) as Hi. unfold text in Hi. simpl in Hi.
  rewrite app_nil_r in Hi.
  erewrite bind_ok; [|apply on_edit_ok; rewrite (bind_ok _ _ _ _ _ (buf_set_ok (input_index e) c e ltac:(lia))); reflexivity].
  cbn [fst snd]. do 2 run1. replace (Z.of_nat (length p) + 1) with (Z.of_nat (length (p ++ [c]))) by (rewrite length_app; simpl; lia).
  destruct (IH r (p ++ [c]) _ (send_calls [PutChar c] w) Hr') as (e' & E' & Hrep).
  - rewrite <- app_assoc. split; [exact Ht|]. rewrite length_app. done.
  - lia.
  - exists e'. rewrite <- app_assoc in Hrep. split; [|done]. rewrite says_more in E'. exact E'.
Qed.

Lemma show_entry_ok e l w : repr e l -> 0 <= browsing l < Z.of_nat (length (past l)) -> exists e',
  show_entry (e, w) = says (l_replace (recall (browsing l) (past l)) l).2 (e', w)
  /\ repr e' (l_replace (recall (browsing l) (past l)) l).1.
Proof.
  intros Hr Hb. unfold show_entry. rewrite (bind_ok _ _ _ _ _ (clear_line_ok e l w Hr)). do 3 run1.
  pose proof Hr as [_ _ _ _ _ Hc Hm Hrows Hx _]. rewrite Hc, Hx. unfold recall.
  set (k := (length (past l) - 1 - Z.to_nat (browsing l))%nat).
  assert (past l !! k = Some (nth k (past l) [])) as Hk.
  { destruct (lookup_lt_is_Some_2 (past l) k) as [s Hs]; [unfold k; lia|]. rewrite Hs. f_equal. symmetry. by apply nth_lookup_Some. }
  replace (Z.of_nat (length (past l)) - 1 - browsing l) with (Z.of_nat k) by (unfold k; lia).
  assert (repr (set_pos 0 (set_len 0 e)) (set_text [] [] l)) as Hr0.
  { destruct Hr. split; simpl; try done; try lia. intros i Hi. simpl in Hi. lia. }
  destruct (load_entry_ok 257 (Z.of_nat k) l (nth k (past l) []) ltac:(unfold k; lia) [] _
    (send_calls (map PutChar (after l) ++ repeat Backspace (length (text l))) w) Hr0) as (e' & E' & Hr').
  - exact (Hrows _ _ Hk).
  - destruct (Hrows _ _ Hk) as (_ & _ & _ & ?). lia.
  - exists e'. split; [|done]. cbn [snd l_replace]. rewrite app_assoc, <- says_more. exact E'.
Qed.

Lemma sim_up : sim key_up (plain (fun _ => l_up)).
Proof.
  apply sim_plain. intros e l w Hr. unfold key_up, l_up. run1. pose proof Hr as [_ _ _ _ _ Hc _ _ Hx Hb]. rewrite Hx, Hc.
  destruct (Z.ltb_spec (browsing l + 1) (Z.of_nat (length (past l)))); [|by exists e]. run1.
  apply (show_entry_ok _ (set_browsing (browsing l + 1) l)); [|simpl; lia].
  destruct Hr. split; simpl; try done; lia.
Qed.

Lemma sim_down : sim key_down (plain (fun _ => l_down)).
Proof.
  apply sim_plain. intros e l w Hr. unfold key_down, l_down. run1. pose proof Hr as [_ _ _ _ _ Hc _ _ Hx Hb]. rewrite Hx.
  destruct (Z.ltb_spec (browsing l) 0); [by exists e|]. run1.
  assert (repr (set_hindex (browsing l - 1) e) (set_browsing (browsing l - 1) l)) as Hr1
    by (destruct Hr; split; simpl; try done; lia).
  destruct (Z.ltb_spec (browsing l - 1) 0).
  2:{ apply (show_entry_ok _ (set_browsing (browsing l - 1) l)); [done|simpl; lia]. }
  run1. change (set_hindex (-1) (set_hindex (browsing l - 1) e)) with (set_hindex (-1) e).
  replace (browsing l - 1) with (-1) in * by lia.
  rewrite (bind_ok _ _ _ _ _ (clear_line_ok _ _ w Hr1)). eexists. split.
  - cbn [snd l_replace map after text set_browsing]. rewrite app_nil_r. reflexivity.
  - apply (repr_empty _ _ Hr1).
Qed.

Lemma sim_prompt : sim shell_prompt (plain (fun cwd l => (l, prompt_calls cwd))).
Proof. apply sim_plain. intros e l w Hr. exists e. split; [apply prompt_ok|done]. Qed.

Lemma sim_enter : sim key_enter l_enter.
Proof.
  intros e l w Hr. destruct (push_ok e l Hr) as (e1 & e' & E1 & E2 & Hcs & Hr').
  set (w1 := send_calls [PutChar 10] w).
  assert (key_enter (e, w) = (on_host (sh_execute (text l)) ;;
    on_edit (modify (fun e => set_hindex (-1) (set_pos 0 (set_len 0 e)))) ;;
    let* fg := on_host (gets sh_foreground) in if fg =? 0 then shell_prompt else ret tt) (e', w1)) as ->.
  { unfold key_enter. do 2 run1. rewrite (bind_ok _ _ _ _ _ (on_edit_ok _ _ _ _ _ E1)), (bind_ok _ _ _ _ _ (on_edit_ok _ _ _ _ _ E2)).
    erewrite bind_ok; [|reflexivity]. cbn [fst snd]. by rewrite Hcs. }
  refine (sim_bind _ _ _ _ (sim_host _) _ e' (set_past (remember (text l) (past l)) l) w1 Hr'). intros _.
  apply sim_bind; [apply (sim_edit _ (fun l => (tt, empty l))); intros; eexists; split; [reflexivity|by apply repr_empty]|].
  intros _. apply sim_bind; [apply sim_host|]. intros fg. destruct (fg =? 0); [apply sim_prompt|apply sim_ret].
Qed.

(** The word before the cursor, as the code finds it. *)
Lemma but_word_app s : s = but_word s ++ last_word s.
Proof.
  unfold but_word, last_word. rewrite length_rev.
  assert (exists p, s = p ++ rev (word_from (rev s))) as (p & Hp).
  { induction s as [|c s IH] using rev_ind; simpl; [by exists []|]. rewrite rev_app_distr. simpl.
    destruct (c =? 32); simpl; [exists (s ++ [c]); by rewrite app_nil_r|]. destruct IH as (p & Hp). exists p. by rewrite app_assoc, <- Hp. }
  assert (length s = length p + length (word_from (rev s)))%nat as Hl by (rewrite Hp at 1; by rewrite length_app, length_rev).
  assert (take (length p) s = p) as Ht by (rewrite Hp at 1; apply take_app_length).
  rewrite Hl, Nat.add_sub, Ht. exact Hp.
Qed.

Lemma word_from_app s : s = word_from s ++ drop (length (word_from s)) s.
Proof. induction s as [|c s IH]; simpl; [done|]. destruct (c =? 32); simpl; [done|]. by f_equal. Qed.

Lemma cut_nul_id s : Forall char_ok s -> cut_nul s = s.
Proof.
  induction 1 as [|c s Hc Hs IH]; simpl; [done|]. unfold char_ok in Hc. destruct (Z.eqb_spec c 0); [lia|]. by rewrite IH.
Qed.

(** What the code reads of the line before it looks names up. *)
Lemma tab_reads e l : repr e l ->
  word_start e = Some (Z.of_nat (length (but_word (before l))), e)
  /\ buf_slice (Z.to_nat (cursor_pos e - Z.of_nat (length (but_word (before l))))) (Z.of_nat (length (but_word (before l)))) e
     = Some (last_word (before l), e)
  /\ has_space (Z.to_nat (cursor_pos e)) 0 e = Some (existsb (fun c => c =? 32) (before l), e)
  /\ cut_nul (last_word (before l)) = last_word (before l)
  /\ cursor_pos e - Z.of_nat (length (but_word (before l))) = Z.of_nat (length (last_word (before l))).
Proof.
  intros Hr. pose proof Hr as [Hi Hp Hm Ht Hch _ _ _ _ _]. pose proof (but_word_app (before l)) as Hbw.
  assert (length (before l) = length (but_word (before l)) + length (last_word (before l)))%nat as Hlw
    by (rewrite Hbw at 1; apply length_app).
  assert (length (before l) <= length (text l))%nat as Hle by (unfold text; rewrite length_app; lia).
  assert (take (length (before l)) (text l) = before l) as Htk by (unfold text; apply take_app_length).
  split; [|split; [|split; [|split]]].
  - unfold word_start, bind, gets. rewrite Hp, Nat2Z.id. rewrite (word_start_ok e (text l) Ht) by lia. rewrite Htk. do 2 f_equal. lia.
  - rewrite (buf_slice_ok e (text l) Ht) by lia. do 2 f_equal. rewrite Nat2Z.id.
    replace (Z.to_nat (cursor_pos e - Z.of_nat (length (but_word (before l))))) with (length (last_word (before l))) by lia.
    unfold text. rewrite Hbw at 3. rewrite <- app_assoc, drop_app_length. apply take_app_length.
  - rewrite Hp, Nat2Z.id. rewrite (has_space_ok e (text l) Ht) by lia. change (drop (Z.to_nat 0) (text l)) with (text l). by rewrite Htk.
  - apply cut_nul_id. unfold text in Hch. rewrite Hbw in Hch. rewrite !Forall_app in Hch. apply Hch.
  - lia.
Qed.

Lemma key_tab_ok e l w : repr e l ->
  key_tab (e, w) =
  (let* names := if existsb (fun c => c =? 32) (before l) then on_host (sh_find (last_word (before l)))
                 else ret (command_matches (last_word (before l))) in
   match map cut_nul names with
   | [] => ret tt
   | [name] => complete_word (Z.of_nat (length (but_word (before l)))) name
   | names => list_matches names
   end) (e, w).
Proof.
  intros Hr. destruct (tab_reads e l Hr) as (E1 & E2 & E3 & Hcut & _). unfold key_tab. run1.
  rewrite (bind_ok _ _ _ _ _ (on_edit_ok _ _ _ _ _ E1)), (bind_ok _ _ _ _ _ (on_edit_ok _ _ _ _ _ E2)),
    (bind_ok _ _ _ _ _ (on_edit_ok _ _ _ _ _ E3)). by rewrite Hcut.
Qed.

Lemma completed_length name l :
  (length (text (completed name l)) + old_len l = length (text l) + length name)%nat.
Proof.
  unfold completed, old_len, word_rest, text. simpl. rewrite !length_app.
  pose proof (f_equal length (but_word_app (before l))) as H1. pose proof (f_equal length (word_from_app (after l))) as H2.
  rewrite length_app in H1, H2. lia.
Qed.

Lemma word_end_at e l : repr e l -> word_end e = Some (Z.of_nat (length (but_word (before l) ++ last_word (before l) ++ word_rest l)), e).
Proof.
  intros Hr. pose proof Hr as [Hi Hp Hm Ht _ _ _ _ _ _]. unfold word_end, bind, gets, id. unfold text in *. rewrite Hi, Hp, length_app.
  rewrite length_app in Hm. rewrite (word_end_ok e (before l ++ after l) Ht) by (rewrite ?length_app; lia).
  rewrite Nat2Z.id, drop_app_length, take_ge by lia. fold (word_rest l). rewrite app_assoc, <- but_word_app, length_app.
  do 2 f_equal. lia.
Qed.

(** Drawing the completed line from the start of the word on. *)
Lemma redraw_ok e l w hd name rest : repr e (set_text (hd ++ name) rest l) ->
  (let* len := on_edit (gets input_index) in
   let* pos := on_edit (gets cursor_pos) in
   echo (Z.of_nat (length hd)) len ;;
   says [PutChar 32] ;;
   times pos (len + 1) CursorLeft) (e, w)
  = says (map PutChar (name ++ rest) ++ PutChar 32 :: repeat CursorLeft (length rest + 1)) (e, w).
Proof.
  intros Hr. pose proof Hr as [Hi Hp _ _ _ _ _ _ _ _]. do 2 run1. unfold text in Hi. cbn [before after set_text] in Hi, Hp.
  rewrite !length_app in Hi. rewrite length_app in Hp.
  rewrite (bind_ok _ _ _ _ _ (echo_ok e _ w (Z.of_nat (length hd)) (input_index e) Hr ltac:(lia)
    ltac:(unfold text; cbn [before after set_text]; rewrite !length_app; lia))).
  rewrite Nat2Z.id. unfold text. cbn [before after set_text]. rewrite <- app_assoc, drop_app_length.
  rewrite take_ge by (rewrite length_app; lia). run1. rewrite (times_ok (length rest + 1)) by lia. by rewrite !says_more.
Qed.

Lemma replace_ok e l name : repr e l -> Forall char_ok name ->
  let ws := Z.of_nat (length (but_word (before l))) in
  let we := Z.of_nat (length (but_word (before l) ++ last_word (before l) ++ word_rest l)) in
  if fits name l && negb (overrun name l) then exists e', replace_word ws we name e = Some (tt, e') /\ repr e' (completed name l)
  else replace_word ws we name e = None.
Proof.
  intros Hr Hn. pose proof (but_word_app (before l)) as Hbw. pose proof (word_from_app (after l)) as Hwa. fold (word_rest l) in Hwa.
  pose proof (replace_word_ok e l _ _ _ _ name Hr Hbw Hwa Hn) as Hok. pose proof (replace_word_undef e l _ _ _ _ name Hr Hbw Hwa) as Hbad.
  pose proof (replace_word_full e l _ _ _ _ name Hr Hbw Hwa) as Hfull. cbv zeta. unfold fits, overrun, old_len.
  unfold completed at 1, text at 1. cbn [before after set_text]. rewrite <- app_assoc.
  destruct (Nat.ltb_spec (length (but_word (before l) ++ name ++ drop (length (word_rest l)) (after l))) 256); cbn [andb]; [|by apply Hfull].
  destruct (Nat.ltb_spec (length name) (length (last_word (before l)) + length (word_rest l))),
    (Nat.ltb_spec 255 (length (text l) + (length (last_word (before l)) + length (word_rest l) - length name)));
    cbn [andb negb]; rewrite ?length_app in *; [apply Hbad; lia|apply Hok; lia..].
Qed.

Lemma complete_word_ok e l w name : repr e l -> Forall char_ok name ->
  if fits name l && overrun name l then complete_word (Z.of_nat (length (but_word (before l)))) name (e, w) = None
  else exists e', complete_word (Z.of_nat (length (but_word (before l)))) name (e, w) = says (l_complete name l).2 (e', w)
       /\ repr e' (l_complete name l).1.
Proof.
  intros Hr Hn. pose proof (completed_length name l) as Hlen. pose proof (rp_len _ _ Hr) as Hi. pose proof (replace_ok e l name Hr Hn) as Hrep.
  unfold complete_word, l_complete. rewrite (bind_ok _ _ _ _ _ (on_edit_ok _ _ _ _ _ (word_end_at e l Hr))). run1. cbv zeta in Hrep |- *.
  set (hd := but_word (before l)) in *. set (we := Z.of_nat (length (hd ++ _))) in *.
  assert (we - Z.of_nat (length hd) = Z.of_nat (old_len l)) as Hwe by (unfold we, old_len; rewrite !length_app; lia).
  rewrite Hwe. unfold INPUT_BUFFER_SIZE. unfold fits in *. destruct (Nat.ltb_spec (length (text (completed name l))) 256);
    destruct (Z.ltb_spec (input_index e + (Z.of_nat (length name) - Z.of_nat (old_len l))) 256); try lia; cbn [andb] in *.
  2:{ by exists e. }
  destruct (overrun name l); cbn [negb] in Hrep.
  - unfold bind, on_edit. cbn [fst snd]. by rewrite Hrep.
  - destruct Hrep as (e' & E' & Hr'). exists e'. split; [|done]. rewrite (bind_ok _ _ _ _ _ (on_edit_ok _ _ _ _ _ E')).
    erewrite bind_ok; [|apply (times_ok (old_len l)); lia]. cbn [fst snd]. erewrite redraw_ok by exact Hr'. apply says_more.
Qed.

Lemma cut_nul_ok s : Forall char_ok (cut_nul s).
Proof. induction s as [|c s IH]; simpl; [constructor|]. by destruct (Z.eqb_spec c 0); constructor. Qed.

Lemma sim_list names : sim (list_matches names) (plain (l_list names)).
Proof.
  apply sim_plain. intros e l w Hr. exists e. split; [|done]. unfold list_matches, l_list. cbn [fst snd]. run1.
  rewrite (bind_ok _ _ _ _ _ (prompt_ok e _)). do 2 run1. rewrite (show_ok e l) by done. rewrite !says_more, calls_cwd.
  f_equal. simpl. f_equal. by rewrite <- app_assoc.
Qed.

(** What both editors do with the names found. *)
Lemma use_names e l w names : repr e l ->
  match (match map cut_nul names with
         | [] => ret tt
         | [name] => if fits name l && overrun name l then undef else plain (fun _ => l_complete name)
         | names => plain (l_list names)
         end) (l, w) with
  | Some (x, (l', w')) => exists e',
      (match map cut_nul names with
       | [] => ret tt
       | [name] => complete_word (Z.of_nat (length (but_word (before l)))) name
       | names => list_matches names
       end) (e, w) = Some (x, (e', w')) /\ repr e' l'
  | None =>
      (match map cut_nul names with
       | [] => ret tt
       | [name] => complete_word (Z.of_nat (length (but_word (before l)))) name
       | names => list_matches names
       end) (e, w) = None
  end.
Proof.
  intros Hr. destruct names as [|n0 [|n1 names]]; cbn [map]; [by exists e| |by apply sim_list].
  pose proof (complete_word_ok e l w (cut_nul n0) Hr (cut_nul_ok n0)) as Hc.
  destruct (fits (cut_nul n0) l && overrun (cut_nul n0) l); [exact Hc|]. destruct Hc as (e' & -> & Hr'). unfold plain. cbn [fst snd].
  destruct (l_complete (cut_nul n0) l) as [l' calls]. cbn [fst snd] in *. by exists e'.
Qed.

Lemma sim_tab : sim key_tab l_tab.
Proof.
  intros e l w Hr. rewrite (key_tab_ok e l w Hr). unfold l_tab. erewrite bind_ok by reflexivity. cbn [fst snd id]. cbv zeta.
  destruct (existsb (fun c => c =? 32) (before l)).
  - unfold bind, on_host. cbn [fst snd]. destruct (sh_find (last_word (before l)) w) as [[names w1]|]; [|done]. by apply use_names.
  - by apply (use_names e l w (command_matches (last_word (before l)))).
Qed.

Lemma sim_key c : char_ok c -> sim (shell_handle_char c) (line_key c).
Proof.
  intros Hc. apply sim_bind; [apply sim_host|]. intros fg. destruct (negb (fg =? 0)); [apply sim_ret|].
  destruct (c =? 10); [apply sim_enter|]. destruct (c =? KEY_CLEAR); [apply sim_clear|]. destruct (c =? KEY_CANCEL); [apply sim_cancel|].
  destruct (c =? 8); [apply sim_backspace|]. destruct (c =? KEY_LEFT); [apply sim_left|]. destruct (c =? KEY_RIGHT); [apply sim_right|].
  destruct (c =? KEY_TAB); [apply sim_tab|]. destruct (c =? KEY_UP); [apply sim_up|]. destruct (c =? KEY_DOWN); [apply sim_down|].
  by apply sim_insert.
Qed.

(** A sequence of keys. *)
Fixpoint type_keys (keys : list Z) : st (edit * W) unit :=
  match keys with [] => ret tt | c :: keys => shell_handle_char c ;; type_keys keys end.
Fixpoint line_keys (keys : list Z) : st (typed * W) unit :=
  match keys with [] => ret tt | c :: keys => line_key c ;; line_keys keys end.

Lemma sim_keys keys : Forall char_ok keys -> sim (type_keys keys) (line_keys keys).
Proof.
  induction 1 as [|c keys Hc _ IH]; [apply sim_ret|]. apply sim_bind; [by apply sim_key|]. by intros _.
Qed.

Lemma repr_start e : history_count e = 0 -> repr (set_hindex (-1) (set_pos 0 (set_len 0 e))) (mk_line [] [] [] (-1)).
Proof. intros Hc. split; simpl; try done; try lia. intros i Hi. simpl in Hi. lia. Qed.

End Editor.

(** ** The editor as a whole *)

(** C19: Whatever keys are typed after [shell_init] (characters, editing keys, history,
    completion, Enter), the editor on its fixed arrays does to the system exactly what
    the editor on lists does - same terminal output, same file name look-ups, same
    lines executed - and the arrays hold its line, cursor and last ten lines; no array
    is ever accessed out of bounds, except in the one case where the editor on lists
    is undefined too, a completion that shrinks a line by so much that
    as many characters behind its end are outside the array. *)
Theorem shell_editor_refines {W} `{ShellHost W} (e0 : edit) (w : W) keys :
  history_count e0 = 0 -> Forall char_ok keys ->
  match (plain (fun cwd l => (l, prompt_calls cwd)) ;; line_keys keys) (mk_line [] [] [] (-1), w) with
  | Some (x, (l, w')) => exists e, (shell_init ;; type_keys keys) (e0, w) = Some (x, (e, w')) /\ repr e l
  | None => (shell_init ;; type_keys keys) (e0, w) = None
  end.
Proof.
  intros Hc Hk. unfold shell_init.
  assert (((on_edit (modify (fun e => set_hindex (-1) (set_pos 0 (set_len 0 e)))) ;; shell_prompt) ;; type_keys keys) (e0, w)
    = (shell_prompt ;; type_keys keys) (set_hindex (-1) (set_pos 0 (set_len 0 e0)), w)) as -> by done.
  apply sim_bind; [apply sim_prompt|intros _; by apply sim_keys|by apply repr_start].
Qed.

(** A system that records what the shell asks of it. *)
Module Recorder.

Record system := mk_system { printed : list call; executed : list (list Z) }.

#[global] Instance recorder : ShellHost system := {
  sh_call c w := mk_system (printed w ++ [c]) (executed w);
  sh_cwd _ := chars "/";
  sh_find _ := ret [chars "NOTES.TXT"];
  sh_execute s := modify (fun w => mk_system (printed w) (executed w ++ [s]));
  sh_foreground _ := 0;
  sh_call_cwd _ _ := eq_refl }.

Definition blank_edit : edit := mk_edit (fun _ => 0) 0 0 (fun _ _ => 0) 0 0.
Definition keys : list Z := chars "ca" ++ [9] ++ chars " xN" ++ [KEY_LEFT; 8; KEY_RIGHT; 9; 10; KEY_UP; 3].

End Recorder.

Lemma shell_editor_refines_witness : exists e w,
  (shell_init ;; type_keys Recorder.keys) (Recorder.blank_edit, Recorder.mk_system [] []) = Some (tt, (e, w))
  /\ Recorder.executed w = [chars "cat NOTES.TXT"].
Proof.
  pose proof (shell_editor_refines Recorder.blank_edit (Recorder.mk_system [] []) Recorder.keys eq_refl
    ltac:(repeat (apply Forall_cons; split; [done|]); apply Forall_nil_2)) as Hs.
  destruct ((plain (fun cwd l => (l, prompt_calls cwd)) ;; line_keys Recorder.keys) (mk_line [] [] [] (-1), Recorder.mk_system [] []))
    as [[[] [l w]]|] eqn:E; [|vm_compute in E; congruence].
  destruct Hs as (e & He & _). exists e, w. split; [exact He|]. vm_compute in E. by injection E as _ <-.
Defined.

End ShellEdit.
