(* ===== verification/ShellScreen.v ===== *)
(** * What the kernel shell shows (kernel/shell.c on display/vga.c)

    The editor redraws the part of the line that changes and moves the cursor back.
    On the tape of the terminal this keeps the row of the prompt equal to the prompt
    and the line, blank behind it, with the cursor where the next character goes,
    as long as the line fits into the row. *)

From S2P Require Import Prelude Vga Drivers LineEdit ShellEdit.

(** A system whose terminal is the tape of [Vga]; looking file names up prints nothing. *)
Class ScreenHost (W : Type) {H : ShellHost W} := {
  tape_of : W -> Vga.tape;
  tape_call : forall c w, tape_of (sh_call c w) = Vga.spec c (tape_of w);
  tape_find : forall p w names w', sh_find p w = Some (names, w') -> tape_of w' = tape_of w /\ sh_cwd w' = sh_cwd w }.

Module ShellScreen.

Import Vga Kbd LineEdit ShellEdit.

(** Characters that take one cell each. *)
Definition printable (c : Z) : Prop := c <> 8 /\ c <> 9 /\ c <> 10.

(** The characters of a row, blank behind the end of [s]. *)
Definition row_of (s : list Z) (i : Z) : Z := if i <? Z.of_nat (length s) then u8 (ch s i) else 32.

Definition below_blank (a : tape) : Prop := forall y x, line a < y -> 0 <= x < 80 -> cell a y x mod 256 = 32.

(** The current row shows [f], the cursor stands at [x], and nothing is below. *)
Definition row_shows (f : Z -> Z) (x : Z) (a : tape) : Prop :=
  column a = x /\ (forall i, 0 <= i < 80 -> cell a (line a) i mod 256 = f i) /\ below_blank a.

Definition prompt_text (cwd : list Z) : list Z := chars "GordOS" ++ cwd ++ chars "> ".

(** The line is on the screen behind its prompt. *)
Definition on_screen (cwd : list Z) (l : typed) (a : tape) : Prop :=
  row_shows (row_of (prompt_text cwd ++ text l)) (Z.of_nat (length (prompt_text cwd ++ before l))) a.

(** It fits into the row, with room for the space that erases a character. *)
Definition fits_row (cwd : list Z) (l : typed) : Prop := Z.of_nat (length (prompt_text cwd ++ text l)) < 79.

Definition tidy (l : typed) : Prop := Forall printable (text l) /\ Forall (Forall printable) (past l).

Definition specs (l : list call) (a : tape) : tape := fold_left (fun a c => spec c a) l a.

(** ** Typing into a row *)

Lemma row_shows_ext f g x a : (forall i, 0 <= i < 80 -> f i = g i) -> row_shows f x a -> row_shows g x a.
Proof. intros Hfg (H1 & H2 & H3). split; [done|]. split; [|done]. intros i Hi. by rewrite H2, Hfg. Qed.

Lemma row_put f x a c : row_shows f x a -> printable c -> 0 <= x < 79 ->
  row_shows (f.[x <- u8 c]) (x + 1) (put c a).
Proof.
  intros (Hc & Hf & Hb) (H8 & H9 & H10) Hx. unfold put. destruct (Z.eqb_spec c 8); [done|]. destruct (Z.eqb_spec c 10); [done|].
  destruct (Z.eqb_spec c 9); [done|]. unfold wrap, VGA_WIDTH. simpl. rewrite Hc. destruct (Z.eqb_spec (x + 1) 80); [lia|].
  split; [done|]. split; simpl.
  - intros i Hi. rewrite Z.eqb_refl. unfold upd. simpl. destruct (Z.eqb_spec i x); [|by apply Hf].
    pose proof (u8_bound c). zmod.
  - intros y z Hy Hz. simpl in *. destruct (Z.eqb_spec y (line a)); [lia|]. simpl. by apply Hb.
Qed.

(** [s] written over the row from [x] on. *)
Definition over (f : Z -> Z) (x : Z) (s : list Z) (i : Z) : Z :=
  if (x <=? i) && (i <? x + Z.of_nat (length s)) then u8 (ch s (i - x)) else f i.

Lemma row_type f x a s : row_shows f x a -> Forall printable s -> 0 <= x -> x + Z.of_nat (length s) < 80 ->
  row_shows (over f x s) (x + Z.of_nat (length s)) (specs (map PutChar s) a).
Proof.
  intros Hr Hs. revert f x a Hr. induction Hs as [|c s Hc Hs IH]; intros f x a Hr Hx Hl; simpl in *.
  - replace (x + Z.of_nat 0) with x by lia. eapply row_shows_ext; [|exact Hr]. intros i Hi. unfold over. simpl. by zspec; simpl; try lia.
  - eapply row_shows_ext; [|replace (x + Z.of_nat (S (length s))) with (x + 1 + Z.of_nat (length s)) by lia;
      apply IH; [apply row_put; [exact Hr|done|lia]|lia|lia]].
    intros i Hi. unfold over, upd. simpl length. rewrite ch_cons. zspec; simpl; try lia; try done; do 2 f_equal; lia.
Qed.

Lemma row_left f x a (n : nat) : row_shows f x a -> Z.of_nat n <= x ->
  row_shows f (x - Z.of_nat n) (specs (repeat CursorLeft n) a).
Proof.
  revert x a. induction n as [|n IH]; intros x a Hr Hn; simpl; [by rewrite Z.sub_0_r|].
  replace (x - Z.of_nat (S n)) with (x - 1 - Z.of_nat n) by lia. apply IH; [|lia].
  destruct Hr as (Hc & Hf & Hb). split; [simpl; lia|]. by split.
Qed.

(** Rubbing out [n] characters. *)
Lemma row_rub f x a (n : nat) : row_shows f x a -> Z.of_nat n <= x -> x < 80 ->
  row_shows (fun i => if (x - Z.of_nat n <=? i) && (i <? x) then 32 else f i) (x - Z.of_nat n) (specs (repeat Backspace n) a).
Proof.
  revert f x a. induction n as [|n IH]; intros f x a Hr Hn Hx; simpl.
  - rewrite Z.sub_0_r. eapply row_shows_ext; [|exact Hr]. intros i Hi. by zspec; simpl; try lia.
  - eapply row_shows_ext; [|replace (x - Z.of_nat (S n)) with (x - 1 - Z.of_nat n) by lia; apply (IH (f.[x - 1 <- 32])); [|lia|lia]].
    + intros i Hi. unfold upd. zspec; simpl; try lia; done.
    + destruct Hr as (Hc & Hf & Hb). unfold rub_out. rewrite Hc. destruct (Z.eqb_spec x 0); [lia|]. split; [done|]. split; simpl.
      * intros i Hi. rewrite Z.eqb_refl. unfold upd. destruct (Z.eqb_spec i (x - 1)); simpl; [unfold blank; zmod|by apply Hf].
      * intros y z Hy Hz. simpl in *. destruct (Z.eqb_spec y (line a)); [lia|]. simpl. by apply Hb.
Qed.

Lemma row_color f x a c : row_shows f x a -> row_shows f x (spec (SetColor c) a).
Proof. by intros (H1 & H2 & H3). Qed.

(** ** New rows *)

Lemma below_new_line a : below_blank a -> row_shows (fun _ => 32) 0 (new_line a) /\ below_blank (new_line a).
Proof.
  intros Hb. assert (forall y x, line a < y -> 0 <= x < 80 -> cell (new_line a) y x mod 256 = 32) as Hc.
  { intros y x Hy Hx. simpl. destruct ((y =? line a + 1) && _); [unfold blank; zmod|by apply Hb]. }
  assert (below_blank (new_line a)) as Hb' by (intros y x Hy Hx; simpl in Hy; apply Hc; lia).
  split; [|done]. split; [done|]. split; [|done]. intros i Hi. simpl line. apply Hc; lia.
Qed.

Lemma below_spaces n a : below_blank a -> below_blank (spaces n a) /\ line (spaces n a) = line a.
Proof.
  revert a. induction n as [|n IH]; intros a Hb; simpl; [done|].
  edestruct IH as [H1 H2]; [|split; [exact H1|exact H2]].
  intros y x Hy Hx. simpl in *. destruct (Z.eqb_spec y (line a)); [lia|]. by apply Hb.
Qed.

Lemma below_wrap a : below_blank a -> below_blank (wrap a).
Proof. intros Hb. unfold wrap. destruct (column a =? VGA_WIDTH); [by apply below_new_line|done]. Qed.

Lemma below_put c a : below_blank a -> below_blank (put c a).
Proof.
  intros Hb. assert (below_blank (send c a)) as Hs by done. unfold put.
  destruct (c =? 8); [done|]. destruct (c =? 10); [by apply below_new_line|]. destruct (c =? 9).
  - apply below_wrap, below_spaces, Hs.
  - apply below_wrap. intros y x Hy Hx. simpl in *. destruct (Z.eqb_spec y (line a)); [lia|]. by apply Hb.
Qed.

Lemma below_write s a : below_blank a -> below_blank (fold_left (fun a c => put c a) s a).
Proof. revert a. induction s as [|c s IH]; intros a Hb; simpl; [done|]. by apply IH, below_put. Qed.

Lemma write_specs s a : fold_left (fun a c => put c a) s a = specs (map PutChar s) a.
Proof. revert a. induction s as [|c s IH]; intros a; simpl; [done|]. apply IH. Qed.

(** ** Rows as strings *)

Lemma specs_app a b t : specs (a ++ b) t = specs b (specs a t).
Proof. apply fold_left_app. Qed.

(** Writing [s] over the end [r] of a row. *)
Lemma over_tail p r s i : (length r <= length s)%nat -> 0 <= i ->
  over (row_of (p ++ r)) (Z.of_nat (length p)) s i = row_of (p ++ s) i.
Proof.
  intros Hl Hi. unfold over, row_of. rewrite !length_app, !ch_app by lia. zspec; simpl; try lia; done.
Qed.

Lemma row_of_blank s i : 0 <= i -> row_of (s ++ [32]) i = row_of s i.
Proof.
  intros Hi. unfold row_of. rewrite length_app. simpl. destruct (Z.ltb_spec i (Z.of_nat (length s))).
  - destruct (Z.ltb_spec i (Z.of_nat (length s + 1))); [|lia]. unfold ch. rewrite app_nth1; [done|]. lia.
  - destruct (Z.ltb_spec i (Z.of_nat (length s + 1))); [|done]. rewrite ch_app by lia. zspec; [lia|].
    replace (i - Z.of_nat (length s)) with 0 by lia. done.
Qed.

(** The row shows the string [s], the cursor behind its first [n] characters. *)
Definition shows_string (s : list Z) (n : nat) (a : tape) : Prop := row_shows (row_of s) (Z.of_nat n) a.

Lemma string_type p r s a : shows_string (p ++ r) (length p) a -> Forall printable s -> (length r <= length s)%nat ->
  Z.of_nat (length (p ++ s)) < 80 -> shows_string (p ++ s) (length (p ++ s)) (specs (map PutChar s) a).
Proof.
  intros Hr Hs Hl Hf. rewrite length_app in Hf. unfold shows_string. rewrite length_app, Nat2Z.inj_add.
  eapply row_shows_ext; [|apply row_type; [exact Hr|done|lia|lia]]. intros i Hi. apply over_tail; [done|lia].
Qed.

Lemma string_left s n k a : shows_string s n a -> (k <= n)%nat -> shows_string s (n - k) (specs (repeat CursorLeft k) a).
Proof. intros Hr Hk. unfold shows_string. rewrite Nat2Z.inj_sub by done. apply row_left; [exact Hr|lia]. Qed.

Lemma string_blank s n a : shows_string (s ++ [32]) n a -> shows_string s n a.
Proof. intros Hr. eapply row_shows_ext; [|exact Hr]. intros i Hi. apply row_of_blank. lia. Qed.

Lemma string_rub p r a : shows_string (p ++ r) (length (p ++ r)) a -> Z.of_nat (length (p ++ r)) < 80 ->
  shows_string p (length p) (specs (repeat Backspace (length r)) a).
Proof.
  intros Hr Hf. pose proof (row_rub _ _ _ (length r) Hr) as Hb. rewrite length_app in *.
  unfold shows_string. replace (Z.of_nat (length p + length r) - Z.of_nat (length r)) with (Z.of_nat (length p)) in Hb by lia.
  eapply row_shows_ext; [|apply Hb; lia]. intros i Hi. unfold row_of. rewrite length_app, ch_app by lia. zspec; simpl; try lia; done.
Qed.

Lemma string_append p s a : shows_string p (length p) a -> Forall printable s -> Z.of_nat (length (p ++ s)) < 80 ->
  shows_string (p ++ s) (length (p ++ s)) (specs (map PutChar s) a).
Proof. intros Hr Hs Hf. apply (string_type p []); [by rewrite app_nil_r|done|simpl; lia|done]. Qed.

Lemma string_write p s a : shows_string p (length p) a -> Forall printable s -> Z.of_nat (length (p ++ s)) < 80 ->
  shows_string (p ++ s) (length (p ++ s)) (spec (WriteString s) a).
Proof. intros Hr Hs Hf. cbn [spec]. rewrite write_specs. by apply string_append. Qed.

Lemma string_prompt cwd a : row_shows (fun _ => 32) 0 a -> Forall printable cwd -> Z.of_nat (length (prompt_text cwd)) < 80 ->
  shows_string (prompt_text cwd) (length (prompt_text cwd)) (specs (prompt_calls cwd) a).
Proof.
  intros Hr Hp Hf.
  assert (shows_string [] (length (@nil Z)) a) as H0.
  { eapply row_shows_ext; [|exact Hr]. intros i Hi. unfold row_of. destruct (Z.ltb_spec i (Z.of_nat (length (@nil Z)))); [simpl in *; lia|done]. }
  assert (Forall printable (chars "GordOS")) as P1 by (repeat (apply Forall_cons; split; [by split_and!|]); apply Forall_nil_2).
  assert (Forall printable (chars "> ")) as P2 by (repeat (apply Forall_cons; split; [by split_and!|]); apply Forall_nil_2).
  unfold prompt_text in *. rewrite !length_app in Hf. unfold prompt_calls, specs.
  cbn [fold_left]. apply row_color. rewrite app_assoc.
  apply string_write; [|done|rewrite !length_app; lia]. apply row_color. apply string_write; [|done|rewrite !length_app; lia].
  apply row_color. apply (string_write []); [|done|simpl; lia]. apply row_color, H0.
Qed.

Lemma string_show cwd l a : shows_string (prompt_text cwd) (length (prompt_text cwd)) a -> Forall printable (text l) -> fits_row cwd l ->
  on_screen cwd l (specs (show l) a).
Proof.
  intros Hr Ht Hf. unfold fits_row in Hf. unfold show. rewrite specs_app.
  pose proof (string_append _ _ _ Hr Ht ltac:(lia)) as H1. apply (string_left _ _ (length (after l))) in H1.
  - unfold text in H1 |- *. rewrite !length_app in H1. unfold on_screen. rewrite length_app.
    replace (length (prompt_text cwd) + (length (before l) + length (after l)) - length (after l))%nat
      with (length (prompt_text cwd) + length (before l))%nat in H1 by lia. exact H1.
  - unfold text. rewrite !length_app. lia.
Qed.

(** ** The keys *)

#[local] Opaque prompt_text.

Section Keys.
Context (cwd : list Z) (l : typed) (a : tape).
Context (Hcwd : Forall printable cwd) (Htidy : tidy l) (Hon : on_screen cwd l a) (Hfit : fits_row cwd l).

(** The step [r] leaves the screen in step with the line. *)
Definition in_step (r : typed * list call) : Prop :=
  fits_row cwd r.1 -> on_screen cwd r.1 (specs r.2 a) /\ tidy r.1.

Lemma on_screen_string : shows_string ((prompt_text cwd ++ before l) ++ after l) (length (prompt_text cwd ++ before l)) a.
Proof. rewrite <- app_assoc. exact Hon. Qed.

Lemma keep_still : in_step (l, []).
Proof. by intros _. Qed.

Lemma blank_row b : below_blank b -> row_shows (fun _ => 32) 0 (new_line b).
Proof. intros Hb. by apply below_new_line. Qed.

Lemma redraw_in_step b : row_shows (fun _ => 32) 0 b -> on_screen cwd l (specs (prompt_calls cwd ++ show l) b).
Proof.
  intros Hb. rewrite specs_app. apply string_show; [|apply Htidy|exact Hfit]. apply string_prompt; [done..|].
  unfold fits_row in Hfit. rewrite length_app in Hfit. lia.
Qed.

Lemma clear_in_step : in_step (l_clear cwd l).
Proof.
  intros _. split; [|exact Htidy]. cbn [fst snd l_clear]. apply (redraw_in_step (tape_start (port a))).
  split; [done|]. split; intros; vm_compute; done.
Qed.

Lemma list_in_step names : in_step (l_list names cwd l).
Proof.
  intros _. split; [|exact Htidy]. cbn [fst snd l_list].
  set (names_shown := concat (map (fun n => [WriteString n; PutChar 32]) names)).
  replace (PutChar 10 :: names_shown ++ PutChar 10 :: prompt_calls cwd ++ show l)
    with (((PutChar 10 :: names_shown) ++ [PutChar 10]) ++ (prompt_calls cwd ++ show l)) by (simpl; by rewrite <- app_assoc).
  rewrite specs_app. apply redraw_in_step. rewrite specs_app. apply blank_row. unfold names_shown. clear names_shown.
  cbn [specs fold_left spec]. assert (below_blank (put 10 a)) as Hb by apply below_put, Hon. revert Hb. generalize (put 10 a).
  induction names as [|n names IH]; intros b Hb; simpl; [done|]. apply IH, below_put, below_write, Hb.
Qed.

Lemma cancel_in_step : in_step (l_cancel cwd l).
Proof.
  intros Hf. cbn [fst snd l_cancel] in *. split.
  - change (WriteString ?s :: ?x) with ([WriteString s] ++ x). rewrite specs_app.
    unfold on_screen. unfold text. cbn [before after empty set_browsing set_text]. rewrite !app_nil_r.
    apply string_prompt; [|done|unfold fits_row, text in Hf; cbn [before after empty set_browsing set_text] in Hf; rewrite !app_nil_r in Hf; lia].
    cbn [specs fold_left spec]. rewrite fold_left_app. cbn [fold_left]. apply blank_row, below_write, Hon.
  - split; [constructor|apply Htidy].
Qed.

Lemma left_in_step : in_step (l_left l).
Proof.
  unfold l_left. pose proof (rev_cases (before l)) as Hb. destruct (rev (before l)) as [|c r]; [apply keep_still|].
  intros _. cbn [fst snd]. assert (text (set_text (rev r) (c :: after l) l) = text l) as Ht by (unfold text; simpl; by rewrite Hb, <- app_assoc).
  split; [|split; [by rewrite Ht; apply Htidy|apply Htidy]].
  unfold on_screen. rewrite Ht. cbn [before set_text].
  pose proof (string_left _ _ 1 _ Hon) as H1. rewrite Hb, !length_app in H1. simpl length in H1. rewrite length_app.
  replace (length (prompt_text cwd) + (length (rev r) + 1) - 1)%nat with (length (prompt_text cwd) + length (rev r))%nat in H1 by lia.
  apply H1. lia.
Qed.

Lemma right_in_step : in_step (l_right l).
Proof.
  unfold l_right. pose proof on_screen_string as Hs. destruct (after l) as [|c r] eqn:Ha; [apply keep_still|].
  intros Hf. cbn [fst snd]. destruct Htidy as [Ht Hp]. unfold text in Ht. rewrite Ha in Ht.
  assert (text (set_text (before l ++ [c]) r l) = text l) as Htx by (unfold text; simpl; by rewrite Ha, <- app_assoc).
  split; [|split; [by rewrite Htx; unfold text; rewrite Ha|done]].
  apply Forall_app in Ht as [_ [Hc _]%Forall_cons]. unfold on_screen. rewrite Htx. unfold text. rewrite Ha. cbn [before set_text].
  pose proof (row_type _ _ _ [c] Hs (Forall_cons_2 _ _ _ Hc (Forall_nil_2 _))) as H1.
  unfold fits_row in Hfit. unfold text in Hfit. rewrite Ha in Hfit. rewrite !length_app in *. simpl length in *.
  eapply row_shows_ext; [|replace (Z.of_nat (length (prompt_text cwd) + (length (before l) + 1)))
    with (Z.of_nat (length (prompt_text cwd) + length (before l)) + Z.of_nat 1) by lia; apply H1; lia].
  intros i Hi. unfold over, row_of. rewrite !app_assoc, !length_app, !ch_app, !ch_cons by lia. simpl length.
  rewrite !length_app. zspec; simpl; try lia; try done.
Qed.

(** Writing [s] and then a blank over the end of the row, and going back behind [s0]. *)
Lemma overwrite p r s0 s b : shows_string (p ++ r) (length p) b -> Forall printable (s0 ++ s) -> (length r <= length (s0 ++ s) + 1)%nat ->
  Z.of_nat (length (p ++ s0 ++ s)) < 79 ->
  shows_string (p ++ s0 ++ s) (length (p ++ s0)) (specs (map PutChar (s0 ++ s) ++ PutChar 32 :: repeat CursorLeft (length s + 1)) b).
Proof.
  intros Hr Hs Hl Hf. replace (map PutChar (s0 ++ s) ++ PutChar 32 :: repeat CursorLeft (length s + 1))
    with (map PutChar ((s0 ++ s) ++ [32]) ++ repeat CursorLeft (length s + 1)) by (by rewrite (map_app _ (s0 ++ s)), <- app_assoc).
  rewrite specs_app. apply string_blank. pose proof (string_type p r ((s0 ++ s) ++ [32]) b Hr) as H1. rewrite !length_app in *. simpl length in *.
  assert (Forall printable ((s0 ++ s) ++ [32])) as Hs' by (apply Forall_app_2; [done|by apply Forall_singleton]).
  specialize (H1 Hs' ltac:(lia) ltac:(lia)). apply (string_left _ _ (length s + 1)) in H1; [|lia].
  replace (length p + (length s0 + length s + 1) - (length s + 1))%nat with (length p + length s0)%nat in H1 by lia.
  rewrite <- !app_assoc in *. exact H1.
Qed.

Lemma insert_in_step c : printable c -> in_step (l_insert c l).
Proof.
  intros Hc. unfold l_insert. destruct (length (text l) <? 255)%nat; [|apply keep_still]. intros Hf. cbn [fst snd] in *.
  pose proof on_screen_string as Hs. destruct Htidy as [Ht Hp]. unfold text in Ht. apply Forall_app in Ht as [Hbf Haf].
  unfold fits_row, text in Hf. cbn [before after set_text] in Hf. rewrite !length_app in Hf. simpl length in Hf.
  pose proof (string_type (prompt_text cwd ++ before l) (after l) (c :: after l) a Hs (Forall_cons_2 _ _ _ Hc Haf)) as H1.
  rewrite !length_app in H1. simpl length in H1. apply (string_left _ _ (length (after l))) in H1; [|lia..].
  split; [|split; [unfold text; cbn [before after set_text]; repeat apply Forall_app_2; try done; by apply Forall_singleton|done]].
  unfold on_screen, text. cbn [before after set_text]. rewrite !length_app. simpl length. rewrite <- !app_assoc in *.
  rewrite <- specs_app in H1. simpl app in H1 |- *.
  replace (length (prompt_text cwd) + length (before l) + S (length (after l)) - length (after l))%nat
    with (length (prompt_text cwd) + (length (before l) + 1))%nat in H1 by lia. exact H1.
Qed.

Lemma backspace_in_step : in_step (l_backspace l).
Proof.
  unfold l_backspace. pose proof (rev_cases (before l)) as Hb. destruct (rev (before l)) as [|c r]; [apply keep_still|].
  intros Hf. cbn [fst snd] in *. destruct Htidy as [Ht Hp]. unfold text in Ht. rewrite Hb, !Forall_app in Ht. destruct Ht as [[Hr _] Haf].
  unfold fits_row, text in Hf. cbn [before after set_text] in Hf.
  split; [|split; [unfold text; cbn [before after set_text]; by apply Forall_app_2|done]].
  pose proof (string_left _ _ 1 _ Hon) as H1. unfold text in H1. rewrite Hb, !length_app in H1. simpl length in H1.
  replace (length (prompt_text cwd) + (length (rev r) + 1) - 1)%nat with (length (prompt_text cwd ++ rev r)) in H1 by (rewrite length_app; lia).
  rewrite <- !app_assoc in H1. rewrite app_assoc in H1.
  pose proof (overwrite _ _ [] (after l) _ (H1 ltac:(lia)) Haf) as H2. simpl app in H2. simpl length in H2.
  rewrite app_nil_r, <- app_assoc in H2. unfold on_screen, text. cbn [before after set_text]. apply H2; [lia|exact Hf].
Qed.

Lemma replace_in_step n s : Forall printable s -> in_step (l_replace s (set_browsing n l)).
Proof.
  intros Hs Hf. destruct Htidy as [Ht Hp]. cbn [fst snd l_replace] in *. change (after (set_browsing n l)) with (after l).
  change (text (set_browsing n l)) with (text l). unfold fits_row, text in Hf. cbn [before after set_text] in Hf. rewrite app_nil_r in Hf.
  assert (Forall printable (after l)) as Haf by (unfold text in Ht; by apply Forall_app in Ht as [_ ?]).
  unfold fits_row in Hfit. pose proof (string_type _ _ (after l) _ on_screen_string Haf) as H1. rewrite <- app_assoc in H1.
  specialize (H1 ltac:(lia)). fold (text l) in H1. specialize (H1 ltac:(lia)).
  apply string_rub in H1; [|lia]. pose proof (string_append _ s _ H1 Hs ltac:(lia)) as H2. rewrite <- !specs_app in H2.
  unfold on_screen, text. cbn [before after set_text]. rewrite app_nil_r. split; [|split; [unfold text; simpl; by rewrite app_nil_r|done]].
  exact H2.
Qed.

Lemma complete_in_step name : Forall printable name -> word_rest l = [] -> (old_len l <= length name)%nat -> in_step (l_complete name l).
Proof.
  intros Hn Hw Ho. unfold l_complete. destruct (fits name l); [|apply keep_still]. intros Hf. cbv zeta. cbn [fst snd] in *.
  unfold completed, old_len in *. rewrite Hw in *. cbn [length] in *. rewrite Nat.add_0_r, drop_0 in *.
  cbn [after set_text]. pose proof on_screen_string as Hs. destruct Htidy as [Ht Hp]. unfold text in Ht. apply Forall_app in Ht as [Hbf Haf].
  pose proof (but_word_app (before l)) as Hbw. set (hd := but_word (before l)) in *. set (wd := last_word (before l)) in *.
  rewrite Hbw in Hbf. apply Forall_app in Hbf as [Hhd _].
  split; [|split; [unfold text; cbn [before after set_text]; by repeat apply Forall_app_2|done]].
  apply (string_left _ _ (length wd)) in Hs; [|rewrite Hbw, !length_app; lia]. rewrite Hbw in Hs.
  replace (length (prompt_text cwd ++ hd ++ wd) - length wd)%nat with (length (prompt_text cwd ++ hd)) in Hs by (rewrite !length_app; lia).
  rewrite <- !app_assoc in Hs. rewrite app_assoc in Hs.
  unfold fits_row, text in Hf. cbn [before after set_text] in Hf. rewrite !length_app in Hf.
  pose proof (overwrite _ _ name (after l) _ Hs (Forall_app_2 _ _ _ Hn Haf)) as H2. rewrite !length_app in H2.
  specialize (H2 ltac:(lia) ltac:(lia)). unfold on_screen, text. cbn [before after set_text]. rewrite !length_app.
  rewrite <- !app_assoc in *. rewrite specs_app, Nat.add_assoc. exact H2.
Qed.

End Keys.

(** ** The shell on a system with a screen *)

(** A name that can complete [word]: made of printable characters and not shorter. *)
Definition completes (word name : list Z) : Prop := Forall printable (cut_nul name) /\ (length word <= length (cut_nul name))%nat.

(** Completion behind a word, with names that complete it. *)
Definition tab_ok {W} `{ShellHost W} (l : typed) (w : W) : Prop :=
  word_rest l = []
  /\ (existsb (fun c => c =? 32) (before l) = true -> exists names w1, sh_find (last_word (before l)) w = Some (names, w1)
      /\ Forall (completes (last_word (before l))) names).

Lemma starts_with_length p s : starts_with p s = true -> (length p <= length s)%nat.
Proof.
  revert s. induction p as [|c p IH]; intros [|d s]; simpl; try done; [lia..|]. intros [_ ?%IH]%andb_true_iff. lia.
Qed.

Definition printableb (c : Z) : bool := negb ((c =? 0) || (c =? 8) || (c =? 9) || (c =? 10)).

Lemma commands_printable : forallb (fun s => (length s <=? 12)%nat && forallb printableb s) commands = true.
Proof. vm_compute. done. Qed.

Lemma command_completes word : Forall (completes word) (command_matches word).
Proof.
  apply Forall_take, Forall_map, List.Forall_forall. intros s [Hin Hsw]%List.filter_In.
  pose proof commands_printable as Hc. rewrite forallb_forall in Hc. specialize (Hc _ Hin). apply andb_true_iff in Hc as [Hl Hp].
  apply Nat.leb_le in Hl. simpl. unfold completes. rewrite take_ge by lia. rewrite forallb_forall in Hp.
  assert (Forall char_ok s /\ Forall printable s) as [H0 H1].
  { rewrite !List.Forall_forall. split; intros c Hi; specialize (Hp c Hi); unfold printableb in Hp; zbool; unfold char_ok, printable;
      repeat match goal with H : orb _ _ = false |- _ => apply orb_false_iff in H as [? ?] end; zbool; lia. }
  rewrite cut_nul_id by done. split; [done|]. by apply starts_with_length.
Qed.

Section Host.
Context {W : Type} {H : ShellHost W} {S : ScreenHost W}.

Lemma tape_calls calls w : tape_of (send_calls calls w) = specs calls (tape_of w).
Proof. revert w. induction calls as [|c calls IH]; intros w; simpl; [done|]. by rewrite IH, tape_call. Qed.

(** After the step the shell shows its line, if it still fits. *)
Definition shown (l : typed) (w : W) : Prop := fits_row (sh_cwd w) l -> on_screen (sh_cwd w) l (tape_of w) /\ tidy l.

Lemma plain_shown f l w : in_step (sh_cwd w) (tape_of w) (f (sh_cwd w) l) ->
  exists l' w', plain f (l, w) = Some (tt, (l', w')) /\ sh_cwd w' = sh_cwd w /\ shown l' w'.
Proof.
  intros Hf. unfold plain. cbn [fst snd]. destruct (f (sh_cwd w) l) as [l' calls]. rewrite says_value. eexists l', _. split; [done|].
  unfold shown. rewrite calls_cwd, tape_calls. split; [done|exact Hf].
Qed.

Lemma recall_printable n h : Forall (Forall printable) h -> Forall printable (recall n h).
Proof.
  intros Hh. unfold recall. destruct (nth_in_or_default (length h - 1 - Z.to_nat n) h []) as [Hin| ->]; [|constructor].
  rewrite List.Forall_forall in Hh. by apply Hh.
Qed.

Section Step.
Context (l : typed) (w : W) (Hcwd : Forall printable (sh_cwd w)) (Htidy : tidy l).
Context (Hon : on_screen (sh_cwd w) l (tape_of w)) (Hfit : fits_row (sh_cwd w) l).

Lemma names_shown names w1 : tape_of w1 = tape_of w -> sh_cwd w1 = sh_cwd w -> word_rest l = [] ->
  Forall (completes (last_word (before l))) names -> exists l' w',
  (match map cut_nul names with
   | [] => ret tt
   | [name] => if fits name l && overrun name l then undef else plain (fun _ => l_complete name)
   | names => plain (l_list names)
   end) (l, w1) = Some (tt, (l', w')) /\ sh_cwd w' = sh_cwd w /\ shown l' w'.
Proof.
  intros Ht Hc Hw Hn. rewrite <- Hc. destruct names as [|n0 [|n1 names]]; cbn [map].
  - exists l, w1. split; [done|]. split; [done|]. unfold shown. by rewrite Hc, Ht.
  - apply Forall_cons in Hn as [[Hp Hl] _]. assert (overrun (cut_nul n0) l = false) as ->.
    { unfold overrun, old_len. rewrite Hw. simpl. destruct (Nat.ltb_spec (length (cut_nul n0)) (length (last_word (before l)) + 0)); [lia|done]. }
    rewrite andb_false_r. apply plain_shown. rewrite Hc, Ht. apply complete_in_step; try done.
    unfold old_len. rewrite Hw. simpl. lia.
  - apply plain_shown. rewrite Hc, Ht. by apply list_in_step.
Qed.

Lemma tab_shown : tab_ok l w -> exists l' w', l_tab (l, w) = Some (tt, (l', w')) /\ sh_cwd w' = sh_cwd w /\ shown l' w'.
Proof.
  intros [Hw Hf]. unfold l_tab. erewrite bind_ok by reflexivity. cbn [fst snd id]. cbv zeta.
  destruct (existsb (fun c => c =? 32) (before l)).
  - destruct (Hf eq_refl) as (names & w1 & Ef & Hn). destruct (tape_find _ _ _ _ Ef) as [Ht Hc].
    unfold bind, on_host. cbn [fst snd]. rewrite Ef. by apply names_shown.
  - by apply (names_shown (command_matches (last_word (before l))) w eq_refl eq_refl Hw), command_completes.
Qed.

Lemma down_in_step : in_step (sh_cwd w) (tape_of w) (l_down l).
Proof.
  unfold l_down. destruct (browsing l <? 0); [by apply keep_still|]. apply replace_in_step; try done.
  destruct (browsing l - 1 <? 0); [constructor|apply recall_printable, Htidy].
Qed.

Lemma up_in_step : in_step (sh_cwd w) (tape_of w) (l_up l).
Proof.
  unfold l_up. destruct (browsing l + 1 <? _); [|by apply keep_still]. apply replace_in_step; try done. apply recall_printable, Htidy.
Qed.

Lemma key_shown c : c <> 10 -> sh_foreground w = 0 -> (c = KEY_TAB -> tab_ok l w) ->
  exists l' w', line_key c (l, w) = Some (tt, (l', w')) /\ sh_cwd w' = sh_cwd w /\ shown l' w'.
Proof.
  intros H10 Hfg Htab. unfold line_key. erewrite bind_ok by reflexivity. cbn [fst snd]. rewrite Hfg. cbn [negb Z.eqb].
  destruct (Z.eqb_spec c 10); [done|].
  destruct (c =? KEY_CLEAR); [by apply plain_shown, clear_in_step|]. destruct (c =? KEY_CANCEL); [by apply plain_shown, cancel_in_step|].
  destruct (Z.eqb_spec c 8); [by apply plain_shown, backspace_in_step|]. destruct (c =? KEY_LEFT); [by apply plain_shown, left_in_step|].
  destruct (c =? KEY_RIGHT); [by apply plain_shown, right_in_step|]. destruct (Z.eqb_spec c KEY_TAB) as [Ht|Ht]; [by apply tab_shown, Htab|].
  destruct (c =? KEY_UP); [by apply plain_shown, up_in_step|]. destruct (c =? KEY_DOWN); [by apply plain_shown, down_in_step|].
  by apply plain_shown, insert_in_step.
Qed.

End Step.

End Host.


(** The recording system of [ShellEdit] with the screen its calls produce. *)
Definition recorded_tape (w : Recorder.system) : tape := specs (Recorder.printed w) (tape_start (Serial.mk_serial 0 [])).

#[global] Instance recorder_screen : ScreenHost Recorder.system.
Proof.
  refine {| tape_of := recorded_tape |}.
  - intros c w. unfold recorded_tape. simpl. by rewrite specs_app.
  - intros p w names w' E. by injection E as <- <-.
Defined.

(** The recorder behind the first prompt. *)
Definition prompted : Recorder.system := Recorder.mk_system (prompt_calls (chars "/")) [].

Lemma prompted_screen : on_screen (chars "/") (mk_line [] [] [] (-1)) (tape_of prompted).
Proof.
  unfold on_screen, text. cbn [before after]. rewrite !app_nil_r. apply string_prompt.
  - split; [done|]. split; intros; vm_compute; done.
  - apply Forall_singleton. by split_and!.
  - vm_compute. done.
Qed.


(** Tab in the middle of a word moves the cursor back by the whole word instead of the
    part before it: the name is drawn over the end of the prompt. *)
Lemma midword_completion_misdrawn : exists e w,
  (shell_init ;; type_keys (chars "helq" ++ [KEY_LEFT; KEY_LEFT; KEY_TAB])) (Recorder.blank_edit, Recorder.mk_system [] []) = Some (tt, (e, w))
  /\ cstr 256 (input_buffer e) 0 = chars "help"
  /\ map (fun i => cell (tape_of w) 0 (Z.of_nat i) mod 256) (seq 0 16) = chars "GordOS/help q   ".
Proof. eexists _, _. split; [vm_compute; reflexivity|]. split; vm_compute; reflexivity. Qed.

(** Completing a long word into a short one reads behind the end of the line's array. *)
Lemma completion_overrun :
  (shell_init ;; type_keys (chars "he" ++ repeat 113 140 ++ repeat KEY_LEFT 140 ++ [KEY_TAB])) (Recorder.blank_edit, Recorder.mk_system [] []) = None.
Proof. vm_compute. reflexivity. Qed.

End ShellScreen.
