(* ===== verification/Kern.v ===== *)
(** * The kernel's state and processes (kernel/process.c, kernel/pipe.c, kernel/wbuf.c)

    The state of the whole kernel and the operations that create, start, fork,
    replace, end and free processes, with the structures their file descriptors
    share.  Heap objects live in maps from their addresses: following a pointer to no
    object is undefined behaviour, and so is a block that the heap hands out while an
    object lives at its address. *)

From S2P Require Import Prelude Pmm Heap Disk Fat32Names Fat32 Sched SchedProps Pipe Paging Elf Vfs Drivers.

(** Physical pages are shared by the heap, which grows from them, and the address
    spaces: how the heap's state contains the page allocator. *)
Class PageShare (A : Type) := { ps_pmm : A -> Pmm.pmm_state; ps_set : Pmm.pmm_state -> A -> A }.

#[export] Instance heap_pages : PageShare (Heap.heap * Pmm.pmm_state) :=
  { ps_pmm := snd; ps_set m a := (a.1, m) }.

(** What the linker and the boot code fix: the address of the static [kernel_task],
    the addresses of two assembly routines, the FPU image saved by [fpu_init], and what
    fresh memory holds where [process_create] leaves it alone. *)
Class Machine := {
  kernel_task_addr : Z;
  process_bootstrap : Z;
  fork_child_return : Z;
  default_state : list Z;
  junk_fds : list Proc.file_desc }.

Module Kern.

Import Pmm Fat32 Proc Sched SchedProps Pipe Wbuf Paging Elf Vfs Kbd.

Definition SIZEOF_PROCESS : Z := 452.
Definition SIZEOF_PIPE : Z := 4120.
Definition SIZEOF_WBUF : Z := 76.
Definition MAX_EXIT_RECORDS : nat := 16.
Definition FRAME_DWORDS : Z := 16.

Record exit_record := mk_exit { e_pid : Z; e_parent_pid : Z; e_code : Z; e_valid : Z }.

(** Where a process that does not run in user mode goes on: what the local variables
    of its sleeping system call (or of the reaper) hold. *)
Inductive resume :=
| RWait (target status : Z)
| RPipeRead (p buf len : Z)
| RPipeWrite (p buf len written : Z)
| RTtyRead (buf len : Z)
| RReadRaw (buf len : Z)
| RSleep (start needed : Z)
| RReap (list : Z).

(** Calls into the kernel shell. *)
Inductive shell_call :=
| ShellExit (pid foreground : Z)
| ShellChar (c : Z).

(** What the terminal is asked to do besides printing a character. *)
Definition TERM_BACKSPACE : Z := 256.
Definition TERM_CLEAR : Z := 257.
Definition TERM_SPLASH : Z := 258.
Definition TERM_FETCH : Z := 259.
Definition TERM_LEFT : Z := 260.
Definition TERM_COLOR (c : Z) : Z := 512 + c.

Section Kernel.
Context {D A : Type} `{BD : BlockDev D} `{KH : KernelHeap A} `{PS : PageShare A}.
Context `{L : Layout} `{M : Machine}.

Record kern := mk_kern {
  k_sched : sched; k_fs : fs (D := D) (A := A); k_vfs : option (vfs_ops (fs (D := D) (A := A)));
  k_vm : vm; k_pipes : gmap Z pipe; k_wbufs : gmap Z wbuf;
  k_exits : list exit_record; k_next_pid : Z;
  k_kbd : kbd; k_ticks : Z; k_stack : Z -> Z;
  k_pending : gmap Z resume; k_shell : list shell_call }.

Definition set_sched (s : sched) (k : kern) : kern :=
  mk_kern s (k_fs k) (k_vfs k) (k_vm k) (k_pipes k) (k_wbufs k) (k_exits k) (k_next_pid k)
    (k_kbd k) (k_ticks k) (k_stack k) (k_pending k) (k_shell k).
Definition set_fs (f : fs) (k : kern) : kern :=
  mk_kern (k_sched k) f (k_vfs k) (k_vm k) (k_pipes k) (k_wbufs k) (k_exits k) (k_next_pid k)
    (k_kbd k) (k_ticks k) (k_stack k) (k_pending k) (k_shell k).
Definition set_vm (v : vm) (k : kern) : kern :=
  mk_kern (k_sched k) (k_fs k) (k_vfs k) v (k_pipes k) (k_wbufs k) (k_exits k) (k_next_pid k)
    (k_kbd k) (k_ticks k) (k_stack k) (k_pending k) (k_shell k).
Definition set_pipes (m : gmap Z pipe) (k : kern) : kern :=
  mk_kern (k_sched k) (k_fs k) (k_vfs k) (k_vm k) m (k_wbufs k) (k_exits k) (k_next_pid k)
    (k_kbd k) (k_ticks k) (k_stack k) (k_pending k) (k_shell k).
Definition set_wbufs (m : gmap Z wbuf) (k : kern) : kern :=
  mk_kern (k_sched k) (k_fs k) (k_vfs k) (k_vm k) (k_pipes k) m (k_exits k) (k_next_pid k)
    (k_kbd k) (k_ticks k) (k_stack k) (k_pending k) (k_shell k).
Definition set_exits (l : list exit_record) (k : kern) : kern :=
  mk_kern (k_sched k) (k_fs k) (k_vfs k) (k_vm k) (k_pipes k) (k_wbufs k) l (k_next_pid k)
    (k_kbd k) (k_ticks k) (k_stack k) (k_pending k) (k_shell k).
Definition set_next_pid (p : Z) (k : kern) : kern :=
  mk_kern (k_sched k) (k_fs k) (k_vfs k) (k_vm k) (k_pipes k) (k_wbufs k) (k_exits k) p
    (k_kbd k) (k_ticks k) (k_stack k) (k_pending k) (k_shell k).
Definition set_kbd (b : kbd) (k : kern) : kern :=
  mk_kern (k_sched k) (k_fs k) (k_vfs k) (k_vm k) (k_pipes k) (k_wbufs k) (k_exits k) (k_next_pid k)
    b (k_ticks k) (k_stack k) (k_pending k) (k_shell k).
Definition set_ktick (t : Z) (k : kern) : kern :=
  mk_kern (k_sched k) (k_fs k) (k_vfs k) (k_vm k) (k_pipes k) (k_wbufs k) (k_exits k) (k_next_pid k)
    (k_kbd k) t (k_stack k) (k_pending k) (k_shell k).
Definition set_stack (m : Z -> Z) (k : kern) : kern :=
  mk_kern (k_sched k) (k_fs k) (k_vfs k) (k_vm k) (k_pipes k) (k_wbufs k) (k_exits k) (k_next_pid k)
    (k_kbd k) (k_ticks k) m (k_pending k) (k_shell k).
Definition set_pending (m : gmap Z resume) (k : kern) : kern :=
  mk_kern (k_sched k) (k_fs k) (k_vfs k) (k_vm k) (k_pipes k) (k_wbufs k) (k_exits k) (k_next_pid k)
    (k_kbd k) (k_ticks k) (k_stack k) m (k_shell k).
Definition set_shell (l : list shell_call) (k : kern) : kern :=
  mk_kern (k_sched k) (k_fs k) (k_vfs k) (k_vm k) (k_pipes k) (k_wbufs k) (k_exits k) (k_next_pid k)
    (k_kbd k) (k_ticks k) (k_stack k) (k_pending k) l.

(** ** Calls into the components *)

Definition on_sched {X} (m : st sched X) : st kern X := fun k =>
  match m (k_sched k) with Some (x, s) => Some (x, set_sched s k) | None => None end.
Definition on_fs {X} (m : st fs X) : st kern X := fun k =>
  match m (k_fs k) with Some (x, f) => Some (x, set_fs f k) | None => None end.
Definition on_vfs {X} (m : option (vfs_ops fs) -> st fs X) : st kern X := fun k => on_fs (m (k_vfs k)) k.
(** The page allocator is the one inside the heap's state. *)
Definition on_vm {X} (m : st vm X) : st kern X := fun k =>
  match m (set_pmm (ps_pmm (mem (k_fs k))) (k_vm k)) with
  | Some (x, v) => Some (x, set_fs (set_mem (ps_set (pmm v) (mem (k_fs k))) (k_fs k)) (set_vm v k))
  | None => None
  end.

Definition kmalloc (n : Z) : st kern Z := on_fs (Fat32.kmalloc n).
Definition kfree (p : Z) : st kern unit := on_fs (Fat32.kfree p).
Definition terminal (l : list Z) : st kern unit := on_fs (modify (put_term l)).

Definition current : st kern Z := on_sched (gets current_process).
Definition proc_load (p : Z) : st kern process := on_sched (load p).
Definition proc_store (p : Z) (f : process -> process) : st kern unit := on_sched (store p f).
(** The file descriptor in slot [i] of a process; [MAX_FDS] bounds the array. *)
Definition fd_load (p : Z) (i : nat) : st kern file_desc :=
  let* r := proc_load p in lift_opt (p_fds r !! i).
Definition fd_store (p : Z) (i : nat) (f : file_desc) : st kern unit :=
  proc_store p (fun r => set_fds (<[i := f]> (p_fds r)) r).

(** [scheduler_switch] loads the next process's page directory into CR3. *)
Definition load_cr3 : st kern unit := fun k =>
  Some (tt, set_vm (set_active (cr3 (k_sched k)) (k_vm k)) k).

(** [scheduler_block(reason, target); scheduler_switch();] by the current process,
    which goes on at [r] when it is woken. *)
Definition sleep_at (r : resume) (reason target : Z) : st kern unit :=
  let* me := current in
  modify (fun k => set_pending (<[me := r]> (k_pending k)) k) ;;
  on_sched (block_and_switch reason target) ;;
  load_cr3.

Definition wake_all : list Z -> st kern unit :=
  fix go l := match l with [] => ret tt | p :: l => on_sched (scheduler_wake p) ;; go l end.

(** ** Pipes *)

Definition pipe_load (p : Z) : st kern pipe := fun k =>
  match k_pipes k !! p with Some r => Some (r, k) | None => None end.
Definition pipe_store (p : Z) (r : pipe) : st kern unit :=
  modify (fun k => set_pipes (<[p := r]> (k_pipes k)) k).
Definition pipe_update (p : Z) (f : pipe -> pipe) : st kern unit :=
  let* r := pipe_load p in pipe_store p (f r).

Definition pipe_create : st kern Z :=
  let* p := kmalloc SIZEOF_PIPE in
  if p =? 0 then ret 0
  else
    let* old := gets (fun k => k_pipes k !! p) in
    match old with
    | Some _ => undef
    | None => pipe_store p pipe_init ;; ret p
    end.

Definition pipe_destroy (p : Z) : st kern unit :=
  if p =? 0 then ret tt
  else
    modify (fun k => set_pipes (delete p (k_pipes k)) k) ;;
    kfree p.

(** [if (p->blocked_writer) { scheduler_wake(p->blocked_writer); p->blocked_writer = 0; }]. *)
Definition wake_writer (p : Z) : st kern unit :=
  let* r := pipe_load p in
  if negb (blocked_writer r =? 0) then
    on_sched (scheduler_wake (blocked_writer r)) ;;
    pipe_update p (set_writer 0)
  else ret tt.
Definition wake_reader (p : Z) : st kern unit :=
  let* r := pipe_load p in
  if negb (blocked_reader r =? 0) then
    on_sched (scheduler_wake (blocked_reader r)) ;;
    pipe_update p (set_reader 0)
  else ret tt.
Definition destroy_if_unused (p : Z) : st kern unit :=
  let* r := pipe_load p in
  if (read_open r <=? 0) && (write_open r <=? 0) then pipe_destroy p else ret tt.

(** Closing one end of a pipe, as [fd_close_pipes] and [sys_close] do it. *)
Definition close_read_end (p : Z) : st kern unit :=
  pipe_update p pipe_close_read ;;
  wake_writer p ;;
  destroy_if_unused p.
Definition close_write_end (p : Z) : st kern unit :=
  pipe_update p pipe_close_write ;;
  wake_reader p ;;
  destroy_if_unused p.

(** ** Write buffers *)

Definition wbuf_load (w : Z) : st kern wbuf := fun k =>
  match k_wbufs k !! w with Some r => Some (r, k) | None => None end.
Definition wbuf_store (w : Z) (r : wbuf) : st kern unit :=
  modify (fun k => set_wbufs (<[w := r]> (k_wbufs k)) k).

Definition wbuf_open (path : list Z) : st kern Z :=
  let* w := kmalloc SIZEOF_WBUF in
  if w =? 0 then ret 0
  else
    let* buf := kmalloc WBUF_CAP in
    if buf =? 0 then kfree w ;; ret 0
    else
      let* old := gets (fun k => k_wbufs k !! w) in
      match old with
      | Some _ => undef
      | None => wbuf_store w (wbuf_new buf path) ;; ret w
      end.

Definition wbuf_ref (w : Z) : st kern unit :=
  if w =? 0 then ret tt
  else let* r := wbuf_load w in wbuf_store w (Wbuf.wbuf_ref r).

Definition wbuf_unref (w : Z) : st kern unit :=
  if w =? 0 then ret tt
  else
    let* r := wbuf_load w in
    let '(r, more) := wbuf_drop r in
    wbuf_store w r ;;
    if more then ret tt
    else
      on_vfs (fun g => vfs_write_file g (w_path r) (w_buf r) (w_len r)) ;;
      kfree (w_ptr r) ;;
      modify (fun k => set_wbufs (delete w (k_wbufs k)) k) ;;
      kfree w.

(** ** Exit records *)

Definition bump_record (i : nat) (e : exit_record) : st kern unit :=
  modify (fun k => set_exits (<[i := e]> (k_exits k)) k).

(** First slot with a free record, or slot 0 when the table is full. *)
Definition record_exit (pid parent_pid code : Z) : st kern unit :=
  let* l := gets k_exits in
  match list_find (fun e => e_valid e = 0) l with
  | Some (i, _) => bump_record i (mk_exit pid parent_pid code 1)
  | None => bump_record 0 (mk_exit pid parent_pid code 1)
  end.

Definition exit_match (parent_pid target_pid : Z) (e : exit_record) : bool :=
  negb (e_valid e =? 0) && (e_parent_pid e =? parent_pid)
  && ((target_pid =? 0) || (e_pid e =? target_pid)).

(** [process_reap_child]: the pid and the code, or [None] for -1. *)
Definition process_reap_child (parent_pid target_pid : Z) : st kern (option (Z * Z)) :=
  let* l := gets k_exits in
  match list_find (fun e => exit_match parent_pid target_pid e = true) l with
  | Some (i, e) =>
    bump_record i (mk_exit (e_pid e) (e_parent_pid e) (e_code e) 0) ;;
    ret (Some (e_pid e, e_code e))
  | None => ret None
  end.

(** ** File descriptors of a process *)

(** One round of [fd_close_writable]; the kind is cleared, [writable] is not. *)
Definition close_writable_fd (proc : Z) (i : nat) : st kern unit :=
  let* f := fd_load proc i in
  if (fd_kind f =? FD_FILE) && negb (fd_writable f =? 0) && negb (fd_wbuf f =? 0) then
    wbuf_unref (fd_wbuf f) ;;
    fd_store proc i (mk_fd FD_NONE (fd_writable f) 0 (fd_pipe f) (fd_first_cluster f)
      (fd_cur_cluster f) (fd_cluster_offset f) (fd_pos f) (fd_size f))
  else ret tt.

Definition no_pipe (f : file_desc) : file_desc :=
  mk_fd FD_NONE (fd_writable f) (fd_wbuf f) 0 (fd_first_cluster f)
    (fd_cur_cluster f) (fd_cluster_offset f) (fd_pos f) (fd_size f).

(** One round of [fd_close_pipes]. *)
Definition close_pipe_fd (proc : Z) (i : nat) : st kern unit :=
  let* f := fd_load proc i in
  let p := fd_pipe f in
  if p =? 0 then ret tt
  else if fd_kind f =? FD_PIPE_READ then
    close_read_end p ;;
    fd_store proc i (no_pipe f)
  else if fd_kind f =? FD_PIPE_WRITE then
    close_write_end p ;;
    fd_store proc i (no_pipe f)
  else ret tt.

(** [for (i = 0; i < MAX_FDS; i++)]. *)
Definition each_fd (body : nat -> st kern unit) : st kern unit :=
  (fix go l := match l with [] => ret tt | i :: l => body i ;; go l end) (seq 0 MAX_FDS).

Definition fd_close_writable (proc : Z) : st kern unit := each_fd (close_writable_fd proc).
Definition fd_close_pipes (proc : Z) : st kern unit := each_fd (close_pipe_fd proc).

(** ** Processes *)

Definition process_create : st kern Z :=
  let* proc := kmalloc SIZEOF_PROCESS in
  if proc =? 0 then ret 0
  else
    let* stack := kmalloc KERNEL_STACK_SIZE in
    if stack =? 0 then kfree proc ;; ret 0
    else
      let* dir := on_vm paging_create_address_space in
      if dir =? 0 then
        kfree stack ;;
        kfree proc ;;
        ret 0
      else
        let* pid := gets k_next_pid in
        modify (set_next_pid (u32 (pid + 1))) ;;
        let* cur := current in
        let* parent := (if cur =? 0 then ret 0 else let* r := proc_load cur in ret (p_pid r)) in
        let* old := on_sched (gets (fun s => procs s !! proc)) in
        match old with
        | Some _ => undef
        | None =>
          on_sched (modify (fun s => set_procs (<[proc :=
            mk_process pid PROCESS_READY 0 dir stack (u32 (stack + KERNEL_STACK_SIZE)) 0 parent 0
              BLOCK_NONE 0 0 0 default_state (fd_init_std junk_fds) 0]> (procs s)) s)) ;;
          ret proc
        end.

(** [*--sp = v] for each [v], on a kernel stack. *)
Fixpoint push_all (sp : Z) (l : list Z) (m : Z -> Z) : Z * (Z -> Z) :=
  match l with
  | [] => (sp, m)
  | v :: l => push_all (u32 (sp - 4)) l (m.[u32 (sp - 4) <- v])
  end.

Definition push_stack (sp : Z) (l : list Z) : st kern Z := fun k =>
  let '(sp, m) := push_all sp l (k_stack k) in Some (sp, set_stack m k).

Definition process_start (proc entry user_esp foreground : Z) : st kern unit :=
  if proc =? 0 then ret tt
  else
    let* r := proc_load proc in
    let* sp := push_stack (p_kernel_stack_top r)
      [0x23; user_esp; 0x202; 0x1B; entry; process_bootstrap; 0; 0; 0; 0] in
    proc_store proc (fun r => set_foreground foreground (set_esp sp r)) ;;
    (if negb (foreground =? 0) then on_sched (modify (set_fg proc)) else ret tt) ;;
    on_sched (scheduler_add proc).

(** With its kernel stack a process loses the place where it would go on. *)
Definition process_destroy (proc : Z) : st kern unit :=
  if (proc =? 0) || (proc =? kernel_task_addr) then ret tt
  else
    fd_close_writable proc ;;
    fd_close_pipes proc ;;
    let* r := proc_load proc in
    (if negb (p_page_directory r =? 0)
     then on_vm (paging_destroy_address_space (p_page_directory r)) else ret tt) ;;
    (if negb (p_kernel_stack r =? 0) then kfree (p_kernel_stack r) else ret tt) ;;
    modify (fun k => set_pending (delete proc (k_pending k)) k) ;;
    on_sched (modify (fun s => set_procs (delete proc (procs s)) s)) ;;
    kfree proc.

(** Reference counts of an inherited (or duplicated) descriptor. *)
Definition ref_fd (f : file_desc) : st kern unit :=
  (if (fd_kind f =? FD_FILE) && negb (fd_writable f =? 0) then wbuf_ref (fd_wbuf f) else ret tt) ;;
  (if (fd_kind f =? FD_PIPE_READ) && negb (fd_pipe f =? 0)
   then pipe_update (fd_pipe f) (fun p => mk_pipe (Pipe.buf p) (head p) (tail p) (s32 (read_open p + 1))
                                   (write_open p) (blocked_reader p) (blocked_writer p))
   else ret tt) ;;
  (if (fd_kind f =? FD_PIPE_WRITE) && negb (fd_pipe f =? 0)
   then pipe_update (fd_pipe f) (fun p => mk_pipe (Pipe.buf p) (head p) (tail p) (read_open p)
                                   (s32 (write_open p + 1)) (blocked_reader p) (blocked_writer p))
   else ret tt).

Definition inherit_fd (parent child : Z) (i : nat) : st kern unit :=
  let* f := fd_load parent i in
  fd_store child i f ;;
  ref_fd f.

(** The caller's register frame is the 16 words of [struct registers]; [eax] is the
    ninth. *)
Definition process_fork (regs : list Z) : st kern Z :=
  let* parent := current in
  if parent =? 0 then ret 0
  else
    let* child := process_create in
    if child =? 0 then ret 0
    else
      let* pr := proc_load parent in
      proc_store child (set_parent_pid (p_pid pr)) ;;
      each_fd (inherit_fd parent child) ;;
      let* pr := proc_load parent in
      let* cr := proc_load child in
      let* r := on_vm (paging_copy_address_space (p_page_directory pr) (p_page_directory cr)) in
      if negb (r =? 0) then process_destroy child ;; ret 0
      else
        let* sp := push_stack (p_kernel_stack_top cr)
          (rev (<[8%nat := 0]> regs) ++ [fork_child_return; 0; 0; 0; 0]) in
        proc_store child (fun r => set_foreground 0 (set_esp sp r)) ;;
        on_sched (scheduler_add child) ;;
        ret child.

(** [process_exit] by the current process. *)
Definition process_exit : st kern unit :=
  let* proc := current in
  if (proc =? 0) || (proc =? kernel_task_addr) then ret tt
  else
    let* r := proc_load proc in
    let* fg := on_sched (gets foreground_process) in
    (if fg =? proc then
       on_sched (modify (set_fg 0)) ;;
       if negb (p_parent_pid r =? 0) then
         let* parent := on_sched (scheduler_find_any (p_parent_pid r)) in
         if negb (parent =? 0) then
           proc_store parent (set_foreground 1) ;;
           on_sched (modify (set_fg parent))
         else ret tt
       else ret tt
     else ret tt) ;;
    fd_close_writable proc ;;
    fd_close_pipes proc ;;
    let* r := proc_load proc in
    (if negb (p_parent_pid r =? 0) then
       record_exit (p_pid r) (p_parent_pid r) (p_exit_code r) ;;
       on_sched (scheduler_wake_waiter (p_parent_pid r) (p_pid r)) ;;
       ret tt
     else ret tt) ;;
    on_sched die_and_switch ;;
    load_cr3.

(** What [process_exec] ends with: a return value, user mode in the new program, or
    the death of the process. *)
Inductive exec_result :=
| ExecRet (v : Z)
| ExecUser (entry user_esp : Z)
| ExecDead.

(** [elf_ptr] is the heap address of the image, which is freed on every path. *)
Definition process_exec (proc elf_ptr : Z) (im : image) (cmdline : list Z) : st kern exec_result :=
  if (proc =? 0) || (elf_ptr =? 0) then
    kfree elf_ptr ;;
    ret (ExecRet (-1))
  else if elf_size im <? EHDR_SIZE then
    kfree elf_ptr ;;
    ret (ExecRet (-1))
  else
    let* h := lift_opt (read_header im) in
    if negb (e_magic h =? ELF_MAGIC) || negb (e_type h =? ET_EXEC) then
      kfree elf_ptr ;;
      ret (ExecRet (-1))
    else
      let* r := proc_load proc in
      let dir := p_page_directory r in
      on_vm (paging_clear_user_space dir) ;;
      on_vm (paging_switch_address_space dir) ;;
      let* loaded := on_vm (elf_load dir im) in
      let* entry :=
        match loaded with
        | Some (entry, heap_start) => proc_store proc (set_heap heap_start heap_start) ;; ret entry
        | None => ret 0
        end in
      let* stack_phys := (if negb (entry =? 0) then on_vm vm_alloc_page else ret 0) in
      let* mapped :=
        (if negb (entry =? 0) && negb (stack_phys =? 0)
         then on_vm (paging_map_page_in dir USER_STACK_PAGE stack_phys USER_PAGE) else ret (-1)) in
      if mapped =? 0 then
        let* user_esp := on_vm (paging_build_user_stack stack_phys USER_STACK_PAGE (Some cmdline)) in
        kfree elf_ptr ;;
        ret (ExecUser entry user_esp)
      else
        (if negb (stack_phys =? 0) then on_vm (vm_free_page stack_phys) else ret tt) ;;
        kfree elf_ptr ;;
        process_exit ;;
        ret ExecDead.

(** ** Starting programs (kernel/shell.c) *)

(** [elf_load(proc, ...)]: the entry point, 0 for an image that is not loadable; the
    heap of the process begins behind its last segment. *)
Definition load_image (proc : Z) (im : image) : st kern Z :=
  let* r := proc_load proc in
  let* loaded := on_vm (elf_load (p_page_directory r) im) in
  match loaded with
  | Some (entry, heap_start) => proc_store proc (set_heap heap_start heap_start) ;; ret entry
  | None => ret 0
  end.

(** The common part of [start_program] and [shell_launch_ush], which differ in what
    they print on failure. *)
Definition start_image (fail : list Z -> st kern unit) (filename args : list Z) (foreground : Z) : st kern Z :=
  let* r := on_vfs (fun g => vfs_lookup g filename) in
  match r with
  | None => fail (chars ": file not found" ++ [10]) ;; ret 0
  | Some (_, file_size) =>
    let* buf := kmalloc (if 0 <? file_size then file_size else 1) in
    if buf =? 0 then fail (chars ": out of memory" ++ [10]) ;; ret 0
    else
      let* r := on_vfs (fun g => vfs_read_file g filename (fun _ => 0) file_size) in
      match r with
      | None =>
        fail (chars ": file not found" ++ [10]) ;;
        kfree buf ;;
        ret 0
      | Some (size, data) =>
        let* proc := process_create in
        if proc =? 0 then
          fail (chars ": cannot create process" ++ [10]) ;;
          kfree buf ;;
          ret 0
        else
          let* entry := load_image proc (mk_image data size) in
          kfree buf ;;
          if entry =? 0 then
            fail (chars ": not a valid ELF executable" ++ [10]) ;;
            process_destroy proc ;;
            ret 0
          else
            let* stack_phys := on_vm vm_alloc_page in
            if stack_phys =? 0 then
              fail (chars ": out of memory" ++ [10]) ;;
              process_destroy proc ;;
              ret 0
            else
              let* r := proc_load proc in
              let* mapped := on_vm (paging_map_page_in (p_page_directory r) USER_STACK_PAGE stack_phys USER_PAGE) in
              if negb (mapped =? 0) then
                fail (chars ": out of page tables" ++ [10]) ;;
                on_vm (vm_free_page stack_phys) ;;
                process_destroy proc ;;
                ret 0
              else
                let* user_esp := on_vm (paging_build_user_stack stack_phys USER_STACK_PAGE (Some args)) in
                (if negb (foreground =? 0) then modify (fun k => set_kbd (keyboard_flush (k_kbd k)) k) else ret tt) ;;
                process_start proc entry user_esp foreground ;;
                ret proc
      end
  end.

(** Up to the first space, at most 255 characters. *)
Fixpoint first_word (n : nat) (args : list Z) : list Z :=
  match n, args with
  | S n, c :: args => if c =? 32 then [] else c :: first_word n args
  | _, _ => []
  end.

Definition start_program (args : list Z) (foreground : Z) (who : list Z) : st kern Z :=
  if (length args =? 0)%nat then
    terminal (who ++ chars ": usage: " ++ who ++ chars " FILENAME [args...]" ++ [10]) ;;
    ret 0
  else start_image (fun msg => terminal (who ++ msg)) (first_word 255 args) args foreground.

Definition shell_launch_ush : st kern Z :=
  let* proc := start_image (fun _ => ret tt) (chars "USH.ELF") (chars "USH.ELF") 1 in
  ret (if proc =? 0 then -1 else 0).

(** [process_reap] by the kernel task: the zombie list is taken over with interrupts
    off, and each process in it is destroyed with interrupts off. *)
Definition process_reap : st kern unit :=
  let* l := on_sched (gets zombie_list) in
  on_sched (modify (set_zombie 0)) ;;
  modify (fun k => set_pending (<[kernel_task_addr := RReap l]> (k_pending k)) k).

Definition reap_next (l : Z) : st kern unit :=
  if l =? 0 then modify (fun k => set_pending (delete kernel_task_addr (k_pending k)) k)
  else
    let* r := proc_load l in
    process_destroy l ;;
    (if p_parent_pid r =? 0
     then modify (fun k => set_shell (k_shell k ++ [ShellExit (p_pid r) (p_foreground r)]) k)
     else ret tt) ;;
    modify (fun k => set_pending (<[kernel_task_addr := RReap (p_next r)]> (k_pending k)) k).

End Kernel.
End Kern.
