(* ===== verification/Syscall.v ===== *)
(** * System calls (kernel/syscall.c)

    Every handler of the int 0x80 interface and the dispatcher, over the kernel's
    state.  A handler that sleeps ends with [Asleep]: its process is blocked, another
    one runs, and [resume_call] goes on where it stopped once it is scheduled again.
    User memory is reached through the active page directory; touching an address
    that it does not map is a page fault in ring 0, which halts the machine
    ([undef]). *)

From S2P Require Import Prelude Pmm Heap Disk Fat32Names Fat32 Sched SchedProps Pipe Paging Elf Vfs Drivers Kern.

Module Syscall.

Import Pmm Fat32 Proc Sched SchedProps Pipe Wbuf Paging Elf Vfs Kbd Kern.

(** How a system call ends: back to user mode with a value, asleep, never (the
    process is gone), or in user mode at a new program. *)
Inductive sysret :=
| Done (v : Z)
| Asleep
| Gone
| NewImage (entry user_esp : Z).

Definition O_WRITE : Z := 1.
Definition USER_LIMIT : Z := 0xC0000000.

Definition user_range_ok (buf len : Z) : bool :=
  negb (buf =? 0) && (buf <? USER_LIMIT) && (len <=? USER_LIMIT - buf).

Section Calls.
Context {D A : Type} `{BD : BlockDev D} `{KH : KernelHeap A} `{PS : PageShare A}.
Context `{L : Layout} `{M : Machine}.

Abbreviation kern := (kern (D := D) (A := A)).

(** ** User memory *)

Definition user_addr (k : kern) (a : Z) : option Z := translate (words (k_vm k)) (active (k_vm k)) (u32 a).

(** The bytes at [buf], 0 where nothing is mapped. *)
Definition user_view (k : kern) (buf : Z) : Z -> Z := fun i =>
  match user_addr k (buf + i) with Some p => phys (k_vm k) p | None => 0 end.

(** [n] bytes from [buf] on are touched. *)
Definition touch (buf n : Z) : st kern unit := fun k =>
  if forallb (fun i => match user_addr k (buf + Z.of_nat i) with Some _ => true | None => false end)
       (seq 0 (Z.to_nat n))
  then Some (tt, k) else None.

Definition get_user (a : Z) : st kern Z := fun k =>
  match user_addr k a with Some p => Some (phys (k_vm k) p, k) | None => None end.
Definition put_user (a v : Z) : st kern unit := fun k =>
  match user_addr k a with
  | Some p => Some (tt, set_vm (set_phys ((phys (k_vm k)).[p <- u8 v]) (k_vm k)) k)
  | None => None
  end.

(** Consecutive bytes written at [a]. *)
Fixpoint put_bytes_at (a : Z) (l : list Z) : st kern unit :=
  match l with
  | [] => ret tt
  | c :: l => put_user a c ;; put_bytes_at (a + 1) l
  end.

(** Little-endian words of an [int] or [uint32_t] array. *)
Definition put_user32 (a v : Z) : st kern unit :=
  put_bytes_at a [v; Z.shiftr v 8; Z.shiftr v 16; Z.shiftr v 24].
Definition get_user32 (a : Z) : st kern Z :=
  let* b0 := get_user a in
  let* b1 := get_user (a + 1) in
  let* b2 := get_user (a + 2) in
  let* b3 := get_user (a + 3) in
  ret (b0 + 256 * b1 + 65536 * b2 + 16777216 * b3).

(** The list of [n] bytes of a buffer. *)
Definition take_bytes (f : Z -> Z) (n : Z) : list Z := map (fun i => f (Z.of_nat i)) (seq 0 (Z.to_nat n)).

(** [copy_user_path]: the path, or [None] for -1. *)
Fixpoint copy_user_path_loop (n : nat) (upath : Z) : st kern (option (list Z)) :=
  match n with
  | O => ret None
  | S n =>
    if negb (user_range_ok (u32 upath) 1) then ret None
    else
      let* c := get_user upath in
      if c =? 0 then ret (Some [])
      else
        let* rest := copy_user_path_loop n (upath + 1) in
        ret (option_map (cons c) rest)
  end.
Definition copy_user_path (upath outsize : Z) : st kern (option (list Z)) :=
  copy_user_path_loop (Z.to_nat (outsize - 1)) upath.

(** [if (copy_user_path(...) != 0) return -1;]. *)
Definition with_path (upath : Z) (body : list Z -> st kern Z) : st kern Z :=
  let* p := copy_user_path upath 256 in
  match p with None => ret (-1) | Some path => body path end.

(** ** Writing to a descriptor *)

Definition tty_write (buf len : Z) : st kern Z :=
  touch buf len ;;
  let* k := gets (fun k => k) in
  terminal (take_bytes (user_view k buf) len) ;;
  ret (s32 len).

Definition file_write (f : file_desc) (buf len : Z) : st kern Z :=
  if (fd_writable f =? 0) || (fd_wbuf f =? 0) then ret (-1)
  else
    let* w := wbuf_load (fd_wbuf f) in
    let* k := gets (fun k => k) in
    let '(n, w) := wbuf_write (user_view k buf) len w in
    touch buf n ;;
    wbuf_store (fd_wbuf f) w ;;
    ret n.

(** The end of a pass over the pipe: wake-ups, then the value or the sleep. *)
Definition finish_write (p buf len : Z) (r : outcome * pipe * list Z) : st kern sysret :=
  let '(out, pi, wakes) := r in
  let n := match out with Ret v => v | Block w => w | Stuck => 0 end in
  touch buf n ;;
  pipe_store p pi ;;
  wake_all wakes ;;
  match out with
  | Ret v => ret (Done (s32 v))
  | Block w => sleep_at (RPipeWrite p buf len w) BLOCK_PIPE_WRITE 0 ;; ret Asleep
  | Stuck => undef
  end.

Definition pipe_write_fd (p buf len : Z) : st kern sysret :=
  let* pi := pipe_load p in
  let* me := current in
  let* k := gets (fun k => k) in
  finish_write p buf len (Pipe.pipe_write_fd me (take_bytes (user_view k buf) len) pi).

(** [me->fds[fd]] when the descriptor is in range and open. *)
Definition lookup_fd (fd : Z) : st kern (option (Z * file_desc)) :=
  let* me := current in
  if (me =? 0) || (fd <? 0) || (Z.of_nat MAX_FDS <=? fd) then ret None
  else
    let* f := fd_load me (Z.to_nat fd) in
    if fd_kind f =? FD_NONE then ret None else ret (Some (me, f)).

Definition do_fd_write (fd buf len : Z) : st kern sysret :=
  let* r := lookup_fd fd in
  match r with
  | None => ret (Done (-1))
  | Some (_, f) =>
    if negb (user_range_ok buf len) then ret (Done (-1))
    else if fd_kind f =? FD_TTY_OUT then let* n := tty_write buf len in ret (Done n)
    else if fd_kind f =? FD_FILE then let* n := file_write f buf len in ret (Done n)
    else if fd_kind f =? FD_PIPE_WRITE then pipe_write_fd (fd_pipe f) buf len
    else ret (Done (-1))
  end.

Definition sys_write (buf len : Z) : st kern sysret := do_fd_write 1 buf len.

(** ** Reading from a descriptor *)

(** [while (got < len && (c = keyboard_read_char()) >= 0)]: the characters taken; at
    most as many as the ring holds. *)
Fixpoint take_keys (n : nat) (b : kbd) : list Z * kbd :=
  match n with
  | O => ([], b)
  | S n =>
    let '(c, b1) := keyboard_read_char b in
    if 0 <=? c then let '(l, b2) := take_keys n b1 in (c :: l, b2) else ([], b)
  end.

Definition drain_keys (len : Z) : st kern (list Z) := fun k =>
  let '(l, b) := take_keys (Z.to_nat (Z.min len KBD_BUFFER_SIZE)) (k_kbd k) in Some (l, set_kbd b k).

(** The keys come from the ring into the buffer; [tty_read] echoes them. *)
Definition tty_read (buf len : Z) : st kern sysret :=
  let* l := drain_keys len in
  put_bytes_at buf l ;;
  terminal (map (fun c => if c =? 8 then TERM_BACKSPACE else c) l) ;;
  if (0 <? length l)%nat then ret (Done (Z.of_nat (length l)))
  else sleep_at (RTtyRead buf len) BLOCK_READ 0 ;; ret Asleep.

Definition set_position (f : file_desc) (cur off pos : Z) : file_desc :=
  mk_fd (fd_kind f) (fd_writable f) (fd_wbuf f) (fd_pipe f) (fd_first_cluster f) cur off pos (fd_size f).

(** The loop of [file_read]: every round but the last finishes a cluster, so the
    number of clusters in the request bounds them.  The result is the descriptor and
    the bytes copied. *)
Fixpoint file_read_loop (fuel : nat) (cbytes len got : Z) (f : file_desc) (out : list Z)
  : st kern (file_desc * list Z) :=
  if (got <? len) && (fd_pos f <? fd_size f) && (2 <=? fd_cur_cluster f)
     && (fd_cur_cluster f <? VFS_CLUSTER_EOC)
  then
    match fuel with
    | O => undef
    | S fuel =>
      let* r := on_vfs (fun g => vfs_read_cluster g (fd_cur_cluster f)) in
      match r with
      | None => ret (f, out)
      | Some cluster_buf =>
        let avail := u32 (cbytes - fd_cluster_offset f) in
        let left := u32 (fd_size f - fd_pos f) in
        let want := u32 (len - got) in
        let n := if avail <? want then avail else want in
        let n := if left <? n then left else n in
        let out := out ++ take_bytes (fun i => cluster_buf (fd_cluster_offset f + i)) n in
        let pos := u32 (fd_pos f + n) in
        let off := u32 (fd_cluster_offset f + n) in
        let* next := (if cbytes <=? off
                      then let* c := on_vfs (fun g => vfs_next_cluster g (fd_cur_cluster f)) in ret (c, 0)
                      else ret (fd_cur_cluster f, off)) in
        file_read_loop fuel cbytes len (u32 (got + n)) (set_position f next.1 next.2 pos) out
      end
    end
  else ret (f, out).

Definition file_read (me : Z) (fd : nat) (buf len : Z) : st kern Z :=
  let* f := fd_load me fd in
  if negb (fd_writable f =? 0) then ret (-1)
  else
    let* cbytes := on_vfs vfs_cluster_size in
    let* cluster_buf := kmalloc cbytes in
    if cluster_buf =? 0 then ret (-1)
    else
      let* r := file_read_loop (Z.to_nat (len / Z.max 1 cbytes + 2)) cbytes len 0 f [] in
      put_bytes_at buf r.2 ;;
      fd_store me fd r.1 ;;
      kfree cluster_buf ;;
      ret (Z.of_nat (length r.2)).

Definition pipe_read_fd (p buf len : Z) : st kern sysret :=
  let* pi := pipe_load p in
  let* me := current in
  let '(out, l, pi, wakes) := Pipe.pipe_read_fd me len pi in
  put_bytes_at buf l ;;
  pipe_store p pi ;;
  wake_all wakes ;;
  match out with
  | Ret v => ret (Done (s32 v))
  | Block _ => sleep_at (RPipeRead p buf len) BLOCK_PIPE_READ 0 ;; ret Asleep
  | Stuck => undef
  end.

Definition do_fd_read (fd buf len : Z) : st kern sysret :=
  let* r := lookup_fd fd in
  match r with
  | None => ret (Done (-1))
  | Some (me, f) =>
    if negb (user_range_ok buf len) then ret (Done (-1))
    else if len =? 0 then ret (Done 0)
    else if fd_kind f =? FD_TTY_IN then tty_read buf len
    else if fd_kind f =? FD_FILE then let* n := file_read me (Z.to_nat fd) buf len in ret (Done n)
    else if fd_kind f =? FD_PIPE_READ then pipe_read_fd (fd_pipe f) buf len
    else ret (Done (-1))
  end.

Definition sys_read (buf len : Z) : st kern sysret := do_fd_read 0 buf len.

Definition sys_readraw (buf len : Z) : st kern sysret :=
  if negb (user_range_ok buf len) then ret (Done (-1))
  else if len =? 0 then ret (Done 0)
  else
    let* l := drain_keys len in
    put_bytes_at buf l ;;
    if (0 <? length l)%nat then ret (Done (Z.of_nat (length l)))
    else sleep_at (RReadRaw buf len) BLOCK_READ 0 ;; ret Asleep.

(** [sys_lseek]'s walk: [for (i = 0; i < target_cluster_index; i++)]. *)
Fixpoint seek_walk (n : nat) (cluster : Z) : st kern Z :=
  match n with
  | O => ret cluster
  | S n =>
    let* c := on_vfs (fun g => vfs_next_cluster g cluster) in
    if VFS_CLUSTER_EOC <=? c then ret c else seek_walk n c
  end.

Definition sys_lseek (fd offset whence : Z) : st kern Z :=
  let* r := lookup_fd fd in
  match r with
  | None => ret (-1)
  | Some (me, f) =>
    if negb (fd_kind f =? FD_FILE) || negb (fd_writable f =? 0) then ret (-1)
    else
      let new_pos :=
        if whence =? 0 then Some offset
        else if whence =? 1 then Some (s32 (s32 (fd_pos f) + offset))
        else if whence =? 2 then Some (s32 (s32 (fd_size f) + offset))
        else None in
      match new_pos with
      | None => ret (-1)
      | Some new_pos =>
        if new_pos <? 0 then ret (-1)
        else
          let* cbytes := on_vfs vfs_cluster_size in
          if cbytes =? 0 then undef
          else
            let* cluster := seek_walk (Z.to_nat (new_pos / cbytes)) (fd_first_cluster f) in
            fd_store me (Z.to_nat fd) (set_position f cluster (new_pos mod cbytes) new_pos) ;;
            ret new_pos
      end
  end.

(** ** Files *)

Definition sys_readfile (upath buf max : Z) : st kern Z :=
  with_path upath (fun path =>
    if negb (user_range_ok buf max) then ret (-1)
    else
      let* k := gets (fun k => k) in
      let* r := on_vfs (fun g => vfs_read_file g path (user_view k buf) max) in
      match r with
      | None => ret (-1)
      | Some (size, out) => put_bytes_at buf (take_bytes out size) ;; ret (s32 size)
      end).

(** The driver reads the whole buffer; the bytes it needs must be mapped. *)
Definition sys_writefile (upath buf len : Z) : st kern Z :=
  with_path upath (fun path =>
    if negb (user_range_ok buf len) then ret (-1)
    else
      touch buf len ;;
      let* k := gets (fun k => k) in
      on_vfs (fun g => vfs_write_file g path (user_view k buf) len)).

Definition free_fd (l : list file_desc) : option nat := fst <$> list_find (fun f => fd_kind f = FD_NONE) l.

Definition sys_open (upath flags : Z) : st kern Z :=
  with_path upath (fun path =>
    let* me := current in
    if me =? 0 then ret (-1)
    else
      let* r := proc_load me in
      match free_fd (p_fds r) with
      | None => ret (-1)
      | Some fd =>
        if negb (Z.land flags O_WRITE =? 0) then
          let* w := wbuf_open path in
          if w =? 0 then ret (-1)
          else
            let* f := fd_load me fd in
            fd_store me fd (mk_fd FD_FILE 1 w (fd_pipe f) (fd_first_cluster f) (fd_cur_cluster f)
              (fd_cluster_offset f) (fd_pos f) (fd_size f)) ;;
            ret (Z.of_nat fd)
        else
          let* r := on_vfs (fun g => vfs_lookup g path) in
          match r with
          | None => ret (-1)
          | Some (first_cluster, size) =>
            let* f := fd_load me fd in
            fd_store me fd (mk_fd FD_FILE 0 0 (fd_pipe f) first_cluster first_cluster 0 0 size) ;;
            ret (Z.of_nat fd)
          end
      end).

Definition sys_read_fd (fd buf len : Z) : st kern sysret := do_fd_read fd buf len.
Definition sys_write_fd (fd buf len : Z) : st kern sysret := do_fd_write fd buf len.

(** What a descriptor refers to is released: a write buffer or a pipe end. *)
Definition release_fd (f : file_desc) : st kern unit :=
  (if (fd_kind f =? FD_FILE) && negb (fd_writable f =? 0) then wbuf_unref (fd_wbuf f) else ret tt) ;;
  if (fd_kind f =? FD_PIPE_READ) && negb (fd_pipe f =? 0) then close_read_end (fd_pipe f)
  else if (fd_kind f =? FD_PIPE_WRITE) && negb (fd_pipe f =? 0) then close_write_end (fd_pipe f)
  else ret tt.

Definition cleared (f : file_desc) : file_desc :=
  mk_fd FD_NONE 0 0 0 (fd_first_cluster f) (fd_cur_cluster f) (fd_cluster_offset f) (fd_pos f) (fd_size f).

Definition sys_close (fd : Z) : st kern Z :=
  let* r := lookup_fd fd in
  match r with
  | None => ret (-1)
  | Some (me, f) =>
    release_fd f ;;
    fd_store me (Z.to_nat fd) (cleared f) ;;
    ret 0
  end.

Definition sys_dup2 (oldfd newfd : Z) : st kern Z :=
  let* me := current in
  if (me =? 0) || (oldfd <? 0) || (Z.of_nat MAX_FDS <=? oldfd) || (newfd <? 0) || (Z.of_nat MAX_FDS <=? newfd)
  then ret (-1)
  else
    let* f := fd_load me (Z.to_nat oldfd) in
    if fd_kind f =? FD_NONE then ret (-1)
    else if oldfd =? newfd then ret newfd
    else
      sys_close newfd ;;
      let* f := fd_load me (Z.to_nat oldfd) in
      fd_store me (Z.to_nat newfd) f ;;
      ref_fd f ;;
      ret newfd.

Definition sys_pipe (user_fds : Z) : st kern Z :=
  if negb (user_range_ok user_fds 8) then ret (-1)
  else
    let* me := current in
    if me =? 0 then ret (-1)
    else
      let* r := proc_load me in
      match free_fd (p_fds r) with
      | None => ret (-1)
      | Some rfd =>
        match free_fd (drop (S rfd) (p_fds r)) with
        | None => ret (-1)
        | Some d =>
          let wfd := (S rfd + d)%nat in
          let* p := pipe_create in
          if p =? 0 then ret (-1)
          else
            let set_end kind f :=
              mk_fd kind (fd_writable f) (fd_wbuf f) p (fd_first_cluster f) (fd_cur_cluster f)
                (fd_cluster_offset f) (fd_pos f) (fd_size f) in
            let* f := fd_load me rfd in
            fd_store me rfd (set_end FD_PIPE_READ f) ;;
            let* f := fd_load me wfd in
            fd_store me wfd (set_end FD_PIPE_WRITE f) ;;
            put_user32 user_fds (Z.of_nat rfd) ;;
            put_user32 (user_fds + 4) (Z.of_nat wfd) ;;
            ret 0
        end
      end.

(** ** Directories *)

Definition sys_chdir (upath : Z) : st kern Z :=
  with_path upath (fun path => on_vfs (fun g => vfs_chdir g path)).
Definition sys_mkdir_sc (upath : Z) : st kern Z :=
  with_path upath (fun path => on_vfs (fun g => vfs_mkdir g path)).
Definition sys_rmfile (upath : Z) : st kern Z :=
  with_path upath (fun path => on_vfs (fun g => vfs_delete_file g path)).
Definition sys_listdir (upath : Z) : st kern Z :=
  with_path upath (fun path => on_vfs (fun g => vfs_list_dir g path)).
Definition sys_rename_sc (uold unew : Z) : st kern Z :=
  with_path uold (fun oldp => with_path unew (fun newp => on_vfs (fun g => vfs_rename g oldp newp))).

(** [for (i = 0; cwd[i] && i < size - 1; i++)]: [size - 1] wraps for size 0. *)
Definition sys_getcwd (ubuf size : Z) : st kern Z :=
  if negb (user_range_ok ubuf size) then ret (-1)
  else
    let* cwd := on_vfs vfs_get_cwd in
    put_bytes_at ubuf (take (Z.to_nat (u32 (size - 1))) cwd ++ [0]) ;;
    ret 0.

(** The matches, NUL-separated, cut to the buffer, and a final NUL if there is room. *)
Fixpoint pack_matches (matches : list (list Z)) (pos bufsz : Z) : list Z :=
  match matches with
  | [] => []
  | m :: ms =>
    if pos + 2 <? bufsz then
      let piece := take (Z.to_nat (bufsz - 1 - pos)) m ++ [0] in
      piece ++ pack_matches ms (pos + Z.of_nat (length piece)) bufsz
    else []
  end.

Definition sys_findprefix (uprefix ubuf bufsz : Z) : st kern Z :=
  with_path uprefix (fun prefix =>
    if negb (user_range_ok ubuf bufsz) then ret (-1)
    else
      let* matches := on_vfs (fun g => vfs_find_prefix g prefix 16) in
      let out := pack_matches matches 0 bufsz in
      put_bytes_at ubuf (if Z.of_nat (length out) <? bufsz then out ++ [0] else out) ;;
      ret (Z.of_nat (length matches))).

(** ** Processes *)

(** The argument loop of [sys_exec]: at most 16 strings, 510 characters in all. *)
Fixpoint exec_args (n : nat) (uargv : Z) (cmdline : list Z) : st kern (list Z) :=
  match n with
  | O => ret cmdline
  | S n =>
    if negb (user_range_ok uargv 4) then ret cmdline
    else
      let* uarg := get_user32 uargv in
      if uarg =? 0 then ret cmdline
      else
        let* arg := copy_user_path uarg 256 in
        match arg with
        | None => ret cmdline
        | Some arg =>
          let cmdline := if (0 <? length cmdline)%nat && (length cmdline <? 510)%nat
                         then cmdline ++ [32] else cmdline in
          exec_args n (u32 (uargv + 4)) (cmdline ++ take (510 - length cmdline) arg)
        end
  end.

Definition sys_exec (upath uargv : Z) : st kern sysret :=
  let* p := copy_user_path upath 256 in
  match p with
  | None => ret (Done (-1))
  | Some path =>
    let* cmdline := (if negb (uargv =? 0) && user_range_ok uargv 4 then exec_args 16 uargv [] else ret []) in
    let cmdline := if (length cmdline =? 0)%nat then take 510 path else cmdline in
    let* r := on_vfs (fun g => vfs_lookup g path) in
    match r with
    | None => ret (Done (-1))
    | Some (_, file_size) =>
      let* buf := kmalloc (if 0 <? file_size then file_size else 1) in
      if buf =? 0 then ret (Done (-1))
      else
        let* r := on_vfs (fun g => vfs_read_file g path (fun _ => 0) file_size) in
        match r with
        | None => kfree buf ;; ret (Done (-1))
        | Some (size, data) =>
          let* me := current in
          let* e := process_exec me buf (mk_image data size) cmdline in
          match e with
          | ExecRet v => ret (Done v)
          | ExecUser entry user_esp => ret (NewImage entry user_esp)
          | ExecDead => ret Gone
          end
        end
    end
  end.

Definition sys_fork (regs : list Z) : st kern Z :=
  let* child := process_fork regs in
  if child =? 0 then ret (-1)
  else let* r := proc_load child in ret (s32 (p_pid r)).

Definition sys_give_foreground (pid : Z) : st kern Z :=
  let* target := on_sched (scheduler_find_any pid) in
  if target =? 0 then ret (-1)
  else
    proc_store target (set_foreground 1) ;;
    on_sched (modify (set_fg target)) ;;
    ret 0.

Definition sys_exit (code : Z) : st kern sysret :=
  let* me := current in
  (if negb (me =? 0) then proc_store me (set_exit_code code) else ret tt) ;;
  process_exit ;;
  ret Gone.

(** The loop of [sys_wait] up to its return or its sleep. *)
Definition wait_loop (target status : Z) : st kern sysret :=
  let* me := current in
  let* r := proc_load me in
  let* child := process_reap_child (p_pid r) target in
  match child with
  | Some (cpid, code) =>
    (if negb (status =? 0) then put_user32 status (u32 code) else ret tt) ;;
    ret (Done (s32 cpid))
  | None =>
    let* ok :=
      (if target =? 0 then let* b := on_sched (scheduler_has_child (p_pid r)) in ret (negb (b =? 0))
       else
         let* c := on_sched (scheduler_find_any target) in
         if c =? 0 then ret false
         else let* cr := proc_load c in ret (p_parent_pid cr =? p_pid r)) in
    if negb ok then ret (Done (-1))
    else sleep_at (RWait target status) BLOCK_WAIT target ;; ret Asleep
  end.

Definition sys_wait (target status : Z) : st kern sysret :=
  if negb (status =? 0) && negb (user_range_ok status 4) then ret (Done (-1))
  else
    let* me := current in
    if me =? 0 then ret (Done (-1)) else wait_loop target status.

Definition sys_getpid : st kern Z :=
  let* me := current in
  if me =? 0 then ret 0 else let* r := proc_load me in ret (s32 (p_pid r)).

Definition sys_kill_pid (pid : Z) : st kern Z :=
  if pid =? 0 then ret (-1)
  else
    let* proc := on_sched (scheduler_find pid) in
    if proc =? 0 then ret (-1)
    else
      let* fg := on_sched (gets foreground_process) in
      (if fg =? proc then on_sched (modify (set_fg 0)) else ret tt) ;;
      on_sched (kill_proc proc) ;;
      ret 0.

(** ** Information *)

(** [do { buf[--i] = '0' + n % 10; n /= 10; } while (n);]: ten digits are enough for
    32 bits. *)
Fixpoint uint_digits (fuel : nat) (n : Z) (acc : list Z) : list Z :=
  match fuel with
  | O => acc
  | S fuel =>
    let acc := (48 + n mod 10) :: acc in
    if n / 10 =? 0 then acc else uint_digits fuel (n / 10) acc
  end.
Definition sc_print_uint (n : Z) : list Z := uint_digits 10 n [].

Definition state_name (s : Z) : list Z :=
  if s =? PROCESS_READY then chars "ready"
  else if s =? PROCESS_RUNNING then chars "running"
  else if s =? PROCESS_BLOCKED then chars "blocked"
  else if s =? PROCESS_DEAD then chars "dead"
  else chars "?".

Definition sys_ps_print_one (p : process) (out : list Z) : list Z :=
  out ++ sc_print_uint (p_pid p) ++
  (if p_pid p =? 0 then [9; 45; 9] ++ chars "kernel" ++ [10]
   else [9] ++ (if negb (p_foreground p =? 0) then chars "fg" else chars "bg") ++ [9]
        ++ state_name (p_state p) ++ [10]).

Definition sys_ps : st kern Z :=
  let* out := on_sched (scheduler_for_each sys_ps_print_one
                (chars "PID" ++ [9] ++ chars "TYPE" ++ [9] ++ chars "STATE" ++ [10])) in
  terminal out ;;
  ret 0.

Definition page_counts : st kern (Z * Z) :=
  gets (fun k => let m := ps_pmm (mem (k_fs k)) in (pmm_free_pages m, pmm_total_pages m)).

Definition sys_meminfo (ubuf : Z) : st kern Z :=
  if negb (user_range_ok ubuf 8) then ret (-1)
  else
    let* pg := page_counts in
    let '(free_pg, total_pg) := pg in
    put_user32 ubuf (u32 (u32 (total_pg - free_pg) * 4) / 1024) ;;
    put_user32 (ubuf + 4) (u32 (total_pg * 4) / 1024) ;;
    ret 0.

Definition sys_uptime : st kern Z := let* t := gets k_ticks in ret (s32 (t / 1000)).

Definition sys_setcolor (color : Z) : st kern Z := terminal [TERM_COLOR color] ;; ret 0.
Definition sys_clear : st kern Z := terminal [TERM_CLEAR] ;; ret 0.
Definition sys_fasterfetch : st kern Z := terminal [TERM_FETCH] ;; ret 0.
Definition sys_peter : st kern Z := terminal [TERM_SPLASH] ;; ret 0.

Section Clock.
(** The CMOS registers over time, and a bound on the driver's waiting loops. *)
Context (cmos : Z -> Z -> Z) (rtc_fuel : nat).

Definition sys_gettime (ubuf : Z) : st kern Z :=
  if negb (user_range_ok ubuf 8) then ret (-1)
  else
    let* t := lift_opt (fst <$> Rtc.rtc_read_time cmos rtc_fuel 0) in
    put_user32 ubuf (Z.lor (Z.lor (Z.shiftl (Rtc.hours t) 16) (Z.shiftl (Rtc.minutes t) 8)) (Rtc.seconds t)) ;;
    put_user32 (ubuf + 4) (Z.lor (Z.lor (u32 (Z.shiftl (Rtc.year t) 16)) (Z.shiftl (Rtc.month t) 8)) (Rtc.day t)) ;;
    ret 0.

(** ** Memory *)

(** The loop of [sys_sbrk]: 0, or -1 when pages or tables run out. *)
Fixpoint sbrk_pages (n : nat) (dir virt : Z) : st vm Z :=
  match n with
  | O => ret 0
  | S n =>
    let* phys := vm_alloc_page in
    if phys =? 0 then ret (-1)
    else
      let* r := paging_map_page_in dir virt phys USER_PAGE in
      if negb (r =? 0) then vm_free_page phys ;; ret (-1)
      else sbrk_pages n dir (u32 (virt + 0x1000))
  end.

Definition sys_sbrk (increment : Z) : st kern Z :=
  let* proc := current in
  if proc =? 0 then ret (-1)
  else
    let* r := proc_load proc in
    if p_heap_end r =? 0 then ret (-1)
    else
      let old_break := p_heap_end r in
      if increment =? 0 then ret (s32 old_break)
      else if increment <? 0 then
        let shrink := u32 (- increment) in
        if u32 (old_break - p_heap_start r) <? shrink then ret (-1)
        else
          proc_store proc (set_heap (p_heap_start r) (u32 (old_break - shrink))) ;;
          ret (s32 old_break)
      else
        let pages_needed := u32 (increment + 0xFFF) / 0x1000 in
        let new_break := u32 (old_break + pages_needed * 0x1000) in
        if (new_break <? old_break) || (USER_STACK_PAGE - 0x1000 <=? new_break) then ret (-1)
        else
          let* ok := on_vm (sbrk_pages (Z.to_nat pages_needed) (p_page_directory r) old_break) in
          if negb (ok =? 0) then ret (-1)
          else
            proc_store proc (set_heap (p_heap_start r) new_break) ;;
            ret (s32 old_break).

(** ** Sleeping *)

Definition TICK_RATE : Z := 1000.

(** [timer_sleep]'s loop: the process stays runnable and looks again each time it
    runs. *)
Definition sleep_loop (start needed : Z) : st kern sysret :=
  let* t := gets k_ticks in
  if Pit.sleeping t start needed then
    let* me := current in
    modify (fun k => set_pending (<[me := RSleep start needed]> (k_pending k)) k) ;;
    ret Asleep
  else ret (Done 0).

Definition sys_sleep (ms : Z) : st kern sysret :=
  let* t := gets k_ticks in sleep_loop t (Pit.ticks_needed TICK_RATE ms).

(** ** The dispatcher *)

Definition reg (regs : list Z) (i : nat) : Z := nth i regs 0.
Definition r_ebx (regs : list Z) : Z := reg regs 5.
Definition r_edx (regs : list Z) : Z := reg regs 6.
Definition r_ecx (regs : list Z) : Z := reg regs 7.
Definition r_eax (regs : list Z) : Z := reg regs 8.

Definition done (m : st kern Z) : st kern sysret := let* v := m in ret (Done v).

Definition syscall_handler (regs : list Z) : st kern sysret :=
  let ebx := r_ebx regs in
  let ecx := r_ecx regs in
  let edx := r_edx regs in
  match r_eax regs with
  | 0 => sys_write ebx ecx
  | 1 => sys_exit (s32 ebx)
  | 2 => done sys_getpid
  | 3 => sys_read ebx ecx
  | 4 => sys_sleep ebx
  | 5 => done (sys_readfile ebx ecx edx)
  | 6 => done (sys_writefile ebx ecx edx)
  | 7 => done (sys_fork regs)
  | 8 => sys_exec ebx ecx
  | 9 => sys_wait 0 ebx
  | 10 => sys_wait ebx ecx
  | 11 => done (sys_open ebx ecx)
  | 12 => done (sys_close (s32 ebx))
  | 13 => sys_read_fd (s32 ebx) ecx edx
  | 14 => sys_write_fd (s32 ebx) ecx edx
  | 15 => done (sys_dup2 (s32 ebx) (s32 ecx))
  | 16 => done (sys_give_foreground ebx)
  | 17 => done (sys_pipe ebx)
  | 18 => done (sys_chdir ebx)
  | 19 => done (sys_getcwd ebx ecx)
  | 20 => done (sys_mkdir_sc ebx)
  | 21 => done (sys_rmfile ebx)
  | 22 => done (sys_rename_sc ebx ecx)
  | 23 => done (sys_listdir ebx)
  | 24 => done sys_uptime
  | 25 => done (sys_meminfo ebx)
  | 26 => done (sys_kill_pid ebx)
  | 27 => done sys_ps
  | 28 => done (sys_setcolor (u8 ebx))
  | 29 => done sys_fasterfetch
  | 30 => done sys_peter
  | 31 => done (sys_findprefix ebx ecx edx)
  | 32 => sys_readraw ebx ecx
  | 33 => done (sys_gettime ebx)
  | 34 => done sys_clear
  | 35 => done (sys_sbrk (s32 ebx))
  | 36 => done (sys_lseek (s32 ebx) (s32 ecx) (s32 edx))
  | _ => ret (Done (-1))
  end.

(** The current process goes on inside the kernel at [r]. *)
Definition resume_call (r : resume) : st kern sysret :=
  let* me := current in
  modify (fun k => set_pending (delete me (k_pending k)) k) ;;
  match r with
  | RWait target status => wait_loop target status
  | RPipeRead p buf len => pipe_read_fd p buf len
  | RPipeWrite p buf len written =>
    let* pi := pipe_load p in
    let* k := gets (fun k => k) in
    finish_write p buf len (pipe_write_resume me (take_bytes (user_view k buf) len) written pi)
  | RTtyRead buf len => tty_read buf len
  | RReadRaw buf len => sys_readraw buf len
  | RSleep start needed => sleep_loop start needed
  | RReap l => reap_next l ;; ret Asleep
  end.

(** ** Interrupts *)

(** [pit_handler]. *)
Definition timer_irq : st kern unit :=
  modify (fun k => set_ktick (u32 (k_ticks k + 1)) k) ;;
  on_sched scheduler_tick ;;
  load_cr3.

(** [deliver_char]: to the ring of a foreground process, or to the kernel shell. *)
Definition deliver_char (c : Z) : st kern unit :=
  let* fg := on_sched (gets foreground_process) in
  if negb (fg =? 0) then
    modify (fun k => set_kbd (kbd_put c (k_kbd k)) k) ;;
    let* r := proc_load fg in
    if (p_state r =? PROCESS_BLOCKED) && (p_block_reason r =? BLOCK_READ)
    then on_sched (scheduler_wake fg) else ret tt
  else modify (fun k => set_shell (k_shell k ++ [ShellChar c]) k).

Definition keyboard_irq (scancode : Z) : st kern unit :=
  let* b := gets k_kbd in
  let '(c, b) := keyboard_handler scancode b in
  modify (set_kbd b) ;;
  match c with Some c => deliver_char c | None => ret tt end.

Definition exception_names : list (list Z) :=
  [chars "Divide by Zero"; chars "Debug"; chars "Non-Maskable Interrupt"; chars "Breakpoint";
   chars "Overflow"; chars "Bound Range Exceeded"; chars "Invalid Opcode"; chars "Device Not Available";
   chars "Double Fault"; chars "Coprocessor Segment Overrun"; chars "Invalid TSS";
   chars "Segment Not Present"; chars "Stack Segment Fault"; chars "General Protection Fault";
   chars "Page Fault"; chars "Reserved"; chars "x87 Floating Point"; chars "Alignment Check";
   chars "Machine Check"; chars "SIMD Floating Point"; chars "Virtualization"]
  ++ replicate 9 (chars "Reserved") ++ [chars "Security Exception"; chars "Reserved"].

(** [for (i = 28; i >= 0; i -= 4)]: eight hexadecimal digits. *)
Definition hex_digits (a : Z) : list Z :=
  map (fun i => let nibble := Z.land (Z.shiftr a (Z.of_nat (28 - 4 * i))) 0xF in
                if nibble <? 10 then 48 + nibble else 65 + nibble - 10) (seq 0 8).

(** [isr_handler] with the fields of the frame it reads and CR2: a fault in ring 3
    kills the process, a fault in the kernel halts the machine. *)
Definition isr_handler (int_no err_code cs cr2 : Z) : st kern unit :=
  let* name := lift_opt (exception_names !! Z.to_nat int_no) in
  terminal (chars "EXCEPTION: " ++ name) ;;
  (if int_no =? 14 then
     terminal (chars " at 0x" ++ hex_digits cr2
       ++ (if negb (Z.land err_code 1 =? 0) then chars " (protection)" else chars " (not present)")
       ++ (if negb (Z.land err_code 2 =? 0) then chars " write" else chars " read"))
   else ret tt) ;;
  terminal [10] ;;
  let* me := current in
  if (Z.land cs 3 =? 3) && negb (me =? 0) then
    terminal (chars "User process killed" ++ [10]) ;;
    proc_store me (set_exit_code (-1)) ;;
    process_exit
  else undef.

End Clock.
End Calls.
End Syscall.
