(* ===== verification/UserMem.v ===== *)
(** * User memory

    What the accessors of [Syscall] do to the memory of the current process: buffers
    as lists of bytes, the effect of storing into one, and what a store leaves alone. *)

From S2P Require Import Prelude Pmm Heap Disk Fat32Names Fat32 Sched SchedProps Pipe Paging PagingProps Elf Vfs Drivers Kern Syscall.

Module UserMem.

Import Fat32 Paging Kern Syscall.

Section UserMem.
Context {D A : Type} `{BD : BlockDev D} `{KH : KernelHeap A} `{PS : PageShare A}.
Context `{L : Layout} `{M : Machine}.

Abbreviation kern := (kern (D := D) (A := A)).

(** The frames behind [n] bytes at [a]. *)
Definition frames (k : kern) (a : Z) (n : nat) : list (option Z) := map (fun i => user_addr k (a + Z.of_nat i)) (seq 0 n).

(** [n] bytes at [a] are mapped, to different places. *)
Definition buffer (k : kern) (a : Z) (n : nat) : Prop := Forall is_Some (frames k a n) /\ NoDup (frames k a n).

(** The bytes [l] are at [a]. *)
Definition holds (k : kern) (a : Z) (l : list Z) : Prop :=
  forall i c, l !! i = Some c -> exists p, user_addr k (a + Z.of_nat i) = Some p /\ phys (k_vm k) p = c.

(** Two ranges share no byte. *)
Definition separate (k : kern) (a : Z) (n : nat) (b : Z) (m : nat) : Prop :=
  forall i j p, (i < n)%nat -> (j < m)%nat -> user_addr k (a + Z.of_nat i) = Some p -> user_addr k (b + Z.of_nat j) <> Some p.

(** The same page tables are active: addresses lead to the same frames. *)
Definition same_space (k k' : kern) : Prop := words (k_vm k') = words (k_vm k) /\ active (k_vm k') = active (k_vm k).

#[export] Instance same_space_refl : Reflexive same_space.
Proof. done. Qed.
#[export] Instance same_space_trans : Transitive same_space.
Proof. intros k1 k2 k3 [] []. split; congruence. Qed.

Lemma same_space_addr k k' a : same_space k k' -> user_addr k' a = user_addr k a.
Proof. intros [E1 E2]. unfold user_addr. by rewrite E1, E2. Qed.

Lemma same_space_frames k k' a n : same_space k k' -> frames k' a n = frames k a n.
Proof. intros E. unfold frames. apply map_ext. intros. by apply same_space_addr. Qed.

Lemma same_space_buffer k k' a n : same_space k k' -> buffer k a n -> buffer k' a n.
Proof. intros E. unfold buffer. by rewrite (same_space_frames k k'). Qed.

Lemma same_space_separate k k' a n b m : same_space k k' -> separate k a n b m -> separate k' a n b m.
Proof. intros E H i j p. rewrite !(same_space_addr k k') by done. by apply H. Qed.

Lemma frames_lookup k a n i o : frames k a n !! i = Some o <-> (i < n)%nat /\ user_addr k (a + Z.of_nat i) = o.
Proof.
  unfold frames. change (map ?f ?l) with (f <$> l). rewrite list_lookup_fmap_Some. split.
  - intros (j & -> & [-> ?]%lookup_seq). done.
  - intros [? <-]. exists i. split; [done|]. by apply lookup_seq.
Qed.

Lemma buffer_addr k a n i : buffer k a n -> (i < n)%nat -> is_Some (user_addr k (a + Z.of_nat i)).
Proof. intros [H _] Hi. rewrite Forall_lookup in H. eapply H, frames_lookup. eauto. Qed.

Lemma buffer_inj k a n i j p : buffer k a n -> (i < n)%nat -> (j < n)%nat ->
  user_addr k (a + Z.of_nat i) = Some p -> user_addr k (a + Z.of_nat j) = Some p -> i = j.
Proof. intros [_ H] Hi Hj Ei Ej. eapply (NoDup_lookup _ i j (Some p) H); apply frames_lookup; eauto. Qed.

Lemma frames_app k a n m : frames k a (n + m) = frames k a n ++ frames k (a + Z.of_nat n) m.
Proof.
  apply list_eq. intros i. apply option_eq. intros o. rewrite frames_lookup, lookup_app_Some, !frames_lookup.
  assert (length (frames k a n) = n) as -> by (unfold frames; by rewrite length_map, length_seq). split.
  - intros [Hi E]. destruct (decide (i < n)%nat); [by left|right]. split; [lia|]. split; [lia|]. rewrite <- E. f_equal. lia.
  - intros [[Hi E]|(Hi & Hi2 & E)]; (split; [lia|]); [done|]. rewrite <- E. f_equal. lia.
Qed.

Lemma buffer_take k a n m : buffer k a (n + m) -> buffer k a n.
Proof. unfold buffer. rewrite frames_app, Forall_app, NoDup_app. tauto. Qed.

Lemma buffer_le k a n m : (n <= m)%nat -> buffer k a m -> buffer k a n.
Proof. intros H. replace m with (n + (m - n))%nat by lia. apply buffer_take. Qed.

(** ** Storing *)

(** What a store of [l] at [a] leaves: the bytes there, and everything else as it was. *)
Record stored (k : kern) (a : Z) (l : list Z) (m : Z -> Z) : Prop := {
  sd_in : forall i c p, l !! i = Some c -> user_addr k (a + Z.of_nat i) = Some p -> m p = u8 c;
  sd_out : forall p, (forall i, (i < length l)%nat -> user_addr k (a + Z.of_nat i) <> Some p) -> m p = phys (k_vm k) p }.

Definition with_phys (m : Z -> Z) (k : kern) : kern := set_vm (set_phys m (k_vm k)) k.

Lemma with_phys_space k m : same_space k (with_phys m k).
Proof. done. Qed.

Lemma with_phys_fs k m : k_fs (with_phys m k) = k_fs k.
Proof. done. Qed.
Lemma with_phys_vfs k m : k_vfs (with_phys m k) = k_vfs k.
Proof. done. Qed.
Lemma with_phys_sched k m : k_sched (with_phys m k) = k_sched k.
Proof. done. Qed.

Lemma put_user_bytes_ok l : forall k a, buffer k a (length l) ->
  exists m, put_bytes_at a l k = Some (tt, with_phys m k) /\ stored k a l m.
Proof.
  induction l as [|c l IH]; intros k a Hb.
  { exists (phys (k_vm k)). split; [|by split]. unfold with_phys, set_phys. cbn [put_bytes_at ret]. unfold ret. do 2 f_equal. destruct k as [? ? ? [] ? ? ? ? ? ? ? ? ?]. done. }
  cbn [length put_bytes_at] in *. destruct (buffer_addr k a (S (length l)) 0 Hb ltac:(lia)) as (p & Ep). rewrite Z.add_0_r in Ep.
  unfold put_user at 1, bind at 1. rewrite Ep. set (k1 := set_vm _ k).
  assert (same_space k k1) as Hs by done.
  assert (forall i, user_addr k (a + 1 + Z.of_nat i) = user_addr k (a + Z.of_nat (S i))) as Hnext by (intros i; f_equal; lia).
  destruct (IH k1 (a + 1)) as (m & E & [Hin Hout]).
  { apply (same_space_buffer k k1); [done|]. change (S (length l)) with (1 + length l)%nat in Hb. unfold buffer in *.
    rewrite frames_app, Forall_app, NoDup_app in Hb. tauto. }
  exists m. split; [exact E|]. split.
  - intros [|i] c' q Hi Hq; cbn [lookup list_lookup] in Hi.
    + injection Hi as <-. rewrite Z.add_0_r, Ep in Hq. injection Hq as <-. rewrite Hout; [by apply upd_same|].
      intros i Hi. rewrite (same_space_addr k k1), Hnext by done. intros Hx.
      by pose proof (buffer_inj k a _ 0 (S i) p Hb ltac:(lia) ltac:(lia) ltac:(by rewrite Z.add_0_r) Hx).
    + eapply Hin; [exact Hi|]. by rewrite (same_space_addr k k1), Hnext.
  - intros q Hq. rewrite Hout.
    + apply upd_other. intros ->. apply (Hq 0%nat); [cbn; lia|by rewrite Z.add_0_r].
    + intros i Hi. rewrite (same_space_addr k k1), Hnext by done. apply Hq. cbn. lia.
Qed.

Lemma stored_holds k a l m : Forall is_byte l -> buffer k a (length l) -> stored k a l m -> holds (with_phys m k) a l.
Proof.
  intros Hl Hb [Hin _] i c Hi. destruct (buffer_addr k a _ i Hb) as (p & Ep); [by eapply lookup_lt_Some|].
  exists p. split; [done|]. cbn. rewrite (Hin i c p Hi Ep). apply u8_small. rewrite Forall_lookup in Hl. eauto.
Qed.

Lemma stored_other k a l m b l' : separate k a (length l) b (length l') -> stored k a l m -> holds k b l' -> holds (with_phys m k) b l'.
Proof.
  intros Hs [_ Hout] H i c Hi. destruct (H i c Hi) as (p & Ep & Hp). exists p. split; [done|]. cbn. rewrite Hout; [done|].
  intros j Hj Ej. by eapply Hs; [exact Hj|by eapply lookup_lt_Some|exact Ej|].
Qed.

(** ** Reading *)

Lemma holds_view k a l i : holds k a l -> (i < length l)%nat -> user_view k a (Z.of_nat i) = ch l (Z.of_nat i).
Proof.
  intros H Hi. destruct (lookup_lt_is_Some_2 l i Hi) as (c & Hc). destruct (H i c Hc) as (p & Ep & Hp).
  unfold user_view. rewrite Ep, Hp. unfold ch. rewrite Nat2Z.id. by rewrite (nth_lookup_Some _ _ _ _ Hc).
Qed.

Lemma holds_take_bytes k a l n : holds k a l -> (n <= length l)%nat -> take_bytes (user_view k a) (Z.of_nat n) = take n l.
Proof.
  intros H Hn. apply list_eq. intros i. apply option_eq. intros c. unfold take_bytes. rewrite Nat2Z.id.
  change (map ?f ?l) with (f <$> l). rewrite list_lookup_fmap_Some, lookup_take_Some. split.
  - intros (j & -> & [-> Hj]%lookup_seq). split; [|lia]. simpl. rewrite (holds_view k a l) by (done || lia).
    unfold ch. rewrite Nat2Z.id. destruct (lookup_lt_is_Some_2 l i ltac:(lia)) as (c & Hc). by rewrite Hc, (nth_lookup_Some _ _ _ _ Hc).
  - intros [Hc Hi]. exists i. split; [|by apply lookup_seq]. rewrite (holds_view k a l) by (done || lia).
    unfold ch. by rewrite Nat2Z.id, (nth_lookup_Some _ _ _ _ Hc).
Qed.

Lemma touch_ok k a n : (forall i, (i < n)%nat -> is_Some (user_addr k (a + Z.of_nat i))) -> touch (D := D) (A := A) a (Z.of_nat n) k = Some (tt, k).
Proof.
  intros H. unfold touch. rewrite Nat2Z.id. assert (forallb (fun i => match user_addr k (a + Z.of_nat i) with Some _ => true | None => false end) (seq 0 n) = true) as ->; [|done].
  apply forallb_forall. intros i [_ Hi]%in_seq. destruct (H i Hi) as (p & ->). done.
Qed.

Lemma holds_mapped k a l i : holds k a l -> (i < length l)%nat -> is_Some (user_addr k (a + Z.of_nat i)).
Proof. intros H Hi. destruct (lookup_lt_is_Some_2 l i Hi) as (c & Hc). destruct (H i c Hc) as (p & -> & _). eauto. Qed.

Lemma holds_app k a l1 l2 : holds k a (l1 ++ l2) <-> holds k a l1 /\ holds k (a + Z.of_nat (length l1)) l2.
Proof.
  split.
  - intros H. split; intros i c Hi.
    + apply H. by apply lookup_app_l_Some.
    + destruct (H (length l1 + i)%nat c) as (p & Ep & Hp); [rewrite lookup_app_r by lia; rewrite <- Hi; f_equal; lia|].
      exists p. split; [|done]. rewrite <- Ep. f_equal. lia.
  - intros [H1 H2] i c [Hi|[Hl Hi]]%lookup_app_Some; [by apply H1|]. destruct (H2 _ _ Hi) as (p & Ep & Hp).
    exists p. split; [|done]. rewrite <- Ep. f_equal. lia.
Qed.

(** A string argument is copied whole, its terminator included in what is there. *)
Lemma copy_path_holds k a s n : is_u32 a -> a <> 0 -> a + Z.of_nat (length s) < USER_LIMIT -> Forall (fun c => c <> 0) s ->
  holds k a (s ++ [0]) -> (length s < n)%nat -> copy_user_path_loop n a k = Some (Some s, k).
Proof.
  revert a n. induction s as [|c s IH]; intros a n Ha H0 Hlim Hs H Hn; (destruct n as [|n]; [simpl in Hn; lia|]); cbn [copy_user_path_loop length] in *;
    change USER_LIMIT with 0xC0000000 in *; rewrite u32_small by done; unfold user_range_ok; change USER_LIMIT with 0xC0000000;
    (assert (negb (a =? 0) && (a <? 0xC0000000) && (1 <=? 0xC0000000 - a) = true) as -> by (zspec; simpl; done || lia)); cbn [negb];
    (destruct (H 0%nat _ eq_refl) as (p & Ep & Hp); rewrite Z.add_0_r in Ep; unfold get_user at 1, bind at 1; rewrite Ep, Hp).
  - reflexivity.
  - apply Forall_cons in Hs as [Hc Hs]. apply Z.eqb_neq in Hc. rewrite Hc.
    change ((c :: s) ++ [0]) with ([c] ++ s ++ [0]) in H. apply holds_app in H as [_ H].
    unfold bind. rewrite (IH (a + 1)) by (unfold is_u32 in *; done || lia). done.
Qed.

End UserMem.
End UserMem.
