(* ===== verification/ShellCmd.v ===== *)
(** * The commands of the kernel shell, and the machine's steps (kernel/shell.c)

    [shell_execute] with every built-in command on the kernel's state, the editor of
    [ShellEdit] on that state, and the message about a process that has ended.  Then
    the step relation of the whole machine, in which the shell runs from the keyboard's
    interrupt. *)

From S2P Require Import Prelude Pmm Heap Disk Fat32Names Fat32 Sched SchedProps Pipe Paging Elf Vfs Vga LineEdit Drivers ShellEdit Kern Syscall.

Module ShellCmd.

Import Pmm Fat32 Proc Sched SchedProps Pipe Wbuf Paging Elf Vfs Kbd Kern Syscall LineEdit.

(** ** Text *)

Definition print_uint (n : Z) : list Z := uint_digits 10 n [].
Definition print_two_digits (n : Z) : list Z := [u8 (48 + n / 10); 48 + n mod 10].
Definition print_year (y : Z) : list Z :=
  [48 + y / 1000 mod 10; 48 + y / 100 mod 10; 48 + y / 10 mod 10; 48 + y mod 10].

(** Lines of the help text: a tabulator, the name, [n] tabulators, what the command does. *)
Definition help_line (name : list Z) (n : nat) (what : list Z) : list Z := [9] ++ name ++ replicate n 9 ++ what ++ [10].

Definition help_text : list Z :=
  chars "Available Commands" ++ [10]
  ++ help_line (chars "help") 1 (chars "- Shows this message")
  ++ help_line (chars "clear") 1 (chars "- Clears screen")
  ++ help_line (chars "echo") 1 (chars "- Print text to screen")
  ++ help_line (chars "ls") 2 (chars "- List files in directory")
  ++ help_line (chars "pwd") 2 (chars "- Print working directory")
  ++ help_line (chars "cat") 2 (chars "- Print file contents")
  ++ help_line (chars "touch") 1 (chars "- Create empty file")
  ++ help_line (chars "mkdir") 1 (chars "- Create directory")
  ++ help_line (chars "cd") 2 (chars "- Change directory")
  ++ help_line (chars "rm") 2 (chars "- Delete a file")
  ++ help_line (chars "write") 1 (chars "- Write text to file")
  ++ help_line (chars "rename") 1 (chars "- Rename a file")
  ++ help_line (chars "exec") 1 (chars "- Run an ELF program (foreground)")
  ++ help_line (chars "bg") 2 (chars "- Run an ELF program in the background")
  ++ help_line (chars "ps") 2 (chars "- List running processes")
  ++ help_line (chars "kill") 1 (chars "- Terminate a process by PID")
  ++ help_line (chars "time") 1 (chars "- Show current date and time")
  ++ help_line (chars "uptime") 1 (chars "- Show time since boot")
  ++ help_line (chars "free") 1 (chars "- Show free memory")
  ++ help_line (chars "fasterfetch - Show system info") 0 []
  ++ help_line (chars "peter") 1 (chars "- Show the mascot (press any key to exit)")
  ++ help_line (chars "reboot") 1 (chars "- Restart the machine")
  ++ help_line (chars "about") 1 (chars "- About GordOS")
  ++ [10]
  ++ help_line (chars "Ctrl+L clears the screen, Ctrl+C cancels a line") 0 [].

(** ** Taking a command line apart *)

Definition is_command (input cmd : list Z) : bool :=
  starts_with cmd input && let c := ch input (Z.of_nat (length cmd)) in (c =? 0) || (c =? 32).

Definition get_args (input : list Z) (cmd_len : nat) : option (list Z) :=
  if (ch input (Z.of_nat cmd_len) =? 32) && negb (ch input (Z.of_nat cmd_len + 1) =? 0)
  then Some (drop (cmd_len + 1) input) else None.

(** A name up to the first space or its 255th character, and what follows; one space in
    between is skipped. *)
Definition split_args (args : list Z) : list Z * list Z :=
  let name := first_word 255 args in
  let rest := drop (length name) args in
  (name, if ch rest 0 =? 32 then drop 1 rest else rest).

(** The digits at the start of an argument. *)
Fixpoint parse_pid (s : list Z) (pid : Z) : Z :=
  match s with
  | c :: s => if (48 <=? c) && (c <=? 57) then parse_pid s (u32 (pid * 10 + (c - 48))) else pid
  | [] => pid
  end.

Section Commands.
Context {D A : Type} `{BD : BlockDev D} `{KH : KernelHeap A} `{PS : PageShare A}.
Context `{L : Layout} `{M : Machine}.
Context (cmos : Z -> Z -> Z) (rtc_fuel : nat).

Abbreviation kern := (kern (D := D) (A := A)).

(** [if (!args || *args == '\0')] the usage, and the command otherwise. *)
Definition with_args (args : option (list Z)) (usage : list Z) (cmd : list Z -> st kern unit) : st kern unit :=
  match args with
  | Some (c :: args) => cmd (c :: args)
  | _ => terminal (usage ++ [10])
  end.

Definition cmd_help : st kern unit := terminal help_text.
Definition cmd_clear : st kern unit := terminal [TERM_CLEAR].
Definition cmd_echo (args : option (list Z)) : st kern unit := terminal (default [] args ++ [10]).
Definition cmd_about : st kern unit :=
  terminal ([TERM_COLOR 13; 9] ++ chars "GordOS" ++ [10; TERM_COLOR 7; 9] ++ chars "A hobby OS by Hamish Gordon" ++ [10; 9]
    ++ chars "Built from scratch in C and x86 Assembly" ++ [10; 9] ++ chars "https://github.com/Millenium2133/GordOS" ++ [10]).

Definition cmd_ls (args : option (list Z)) : st kern unit :=
  let* r := on_vfs (fun g => vfs_list_dir g (default [] args)) in
  if negb (r =? 0) then terminal (chars "ls: cannot list directory" ++ [10]) else ret tt.

Definition cmd_cat (args : option (list Z)) : st kern unit :=
  with_args args (chars "Usage: cat FILENAME") (fun args =>
    let* r := on_vfs (fun g => vfs_lookup g args) in
    match r with
    | None => terminal (chars "cat: file not found" ++ [10])
    | Some (_, file_size) =>
      let* buf := kmalloc (if 0 <? file_size then file_size else 1) in
      if buf =? 0 then terminal (chars "cat: out of memory" ++ [10])
      else
        let* r := on_vfs (fun g => vfs_read_file g args (fun _ => 0) file_size) in
        match r with
        | None =>
          terminal (chars "cat: file not found" ++ [10]) ;;
          kfree buf
        | Some (size, data) =>
          terminal (map (fun i => data (Z.of_nat i)) (seq 0 (Z.to_nat size)) ++ [10]) ;;
          kfree buf
        end
    end).

Definition cmd_touch (args : option (list Z)) : st kern unit :=
  with_args args (chars "Usage: touch FILENAME") (fun args =>
    let* r := on_vfs (fun g => vfs_read_file g args (fun _ => 0) 0) in
    match r with
    | Some _ => terminal (chars "touch: file already exists" ++ [10])
    | None =>
      let* r := on_vfs (fun g => vfs_write_file g args (fun _ => 0) 0) in
      if r =? 0 then terminal (chars "Created: " ++ args ++ [10]) else ret tt
    end).

Definition cmd_write (args : option (list Z)) : st kern unit :=
  with_args args (chars "usage: write FILENAME TEXT") (fun args =>
    let '(filename, content) := split_args args in
    let* r := on_vfs (fun g => vfs_write_file g filename (ch content) (Z.of_nat (length content))) in
    if r =? 0 then terminal (chars "Written to: " ++ filename ++ [10])
    else terminal (chars "write: failed" ++ [10])).

Definition cmd_rm (args : option (list Z)) : st kern unit :=
  with_args args (chars "Usage: rm FILENAME") (fun args =>
    let* r := on_vfs (fun g => vfs_delete_file g args) in
    if r =? 0 then terminal (chars "Deleted: " ++ args ++ [10])
    else terminal (chars "rm: file not found" ++ [10])).

Definition cmd_rename (args : option (list Z)) : st kern unit :=
  with_args args (chars "Usage: rename OLDNAME NEWNAME") (fun args =>
    let '(oldname, second) := split_args args in
    if (length args =? length oldname)%nat then terminal (chars "rename: missing new filename" ++ [10])
    else
      let* r := on_vfs (fun g => vfs_rename g oldname second) in
      if r =? 0 then terminal (chars "Renamed to: " ++ second ++ [10])
      else terminal (chars "rename: file not found" ++ [10])).

Definition cmd_pwd : st kern unit :=
  let* cwd := on_vfs vfs_get_cwd in
  terminal (cwd ++ [10]).

Definition cmd_mkdir (args : option (list Z)) : st kern unit :=
  with_args args (chars "Usage: mkdir DIRNAME") (fun args =>
    let* r := on_vfs (fun g => vfs_mkdir g args) in
    if r =? 0 then terminal (chars "Created directory: " ++ args ++ [10])
    else terminal (chars "mkdir: Failed")).

Definition cmd_cd (args : option (list Z)) : st kern unit :=
  with_args args (chars "Usage: cd DIRNAME") (fun args =>
    let* r := on_vfs (fun g => vfs_chdir g args) in
    if negb (r =? 0) then terminal (chars "cd: Directory not found" ++ [10]) else ret tt).

Definition cmd_time : st kern unit :=
  let* t := lift_opt (fst <$> Rtc.rtc_read_time cmos rtc_fuel 0) in
  terminal (print_two_digits (Rtc.hours t) ++ [58] ++ print_two_digits (Rtc.minutes t) ++ [58] ++ print_two_digits (Rtc.seconds t)
    ++ [32; 32] ++ print_year (Rtc.year t) ++ [45] ++ print_two_digits (Rtc.month t) ++ [45] ++ print_two_digits (Rtc.day t) ++ [10]).

Definition cmd_exec (args : option (list Z)) : st kern unit :=
  start_program (default [] args) 1 (chars "exec") ;; ret tt.

Definition cmd_bg (args : option (list Z)) : st kern unit :=
  let* proc := start_program (default [] args) 0 (chars "bg") in
  if negb (proc =? 0) then
    let* r := proc_load proc in
    terminal ([91] ++ print_uint (p_pid r) ++ chars "] running in background" ++ [10])
  else ret tt.

(** [ps_print_one] is the function of the system call. *)
Definition cmd_ps : st kern unit := sys_ps ;; ret tt.

(** The steps between the parsing and the message are those of [sys_kill_pid]. *)
Definition cmd_kill (args : option (list Z)) : st kern unit :=
  with_args args (chars "Usage: kill PID") (fun args =>
    let pid := parse_pid args 0 in
    if pid =? 0 then terminal (chars "kill: cannot kill the kernel" ++ [10])
    else
      let* r := sys_kill_pid pid in
      if negb (r =? 0) then terminal (chars "kill: no such process" ++ [10])
      else terminal (chars "killed [" ++ print_uint pid ++ [93; 10])).

Definition cmd_uptime : st kern unit :=
  let* t := gets k_ticks in
  let seconds := t / 1000 in
  terminal (chars "Up " ++ print_uint (seconds / 60) ++ chars " min " ++ print_uint (seconds mod 60) ++ chars " sec" ++ [10]).

Definition cmd_free : st kern unit :=
  let* pg := page_counts in
  terminal (print_uint pg.1 ++ chars " pages free (" ++ print_uint (u32 (pg.1 * 4)) ++ chars " KB)" ++ [10]).

Definition cmd_fasterfetch : st kern unit := terminal [TERM_FETCH].
Definition cmd_gordon : st kern unit := terminal [TERM_SPLASH].
(** The machine is reset or halts: the command does not return. *)
Definition cmd_reboot : st kern unit := terminal (chars "Rebooting..." ++ [10]) ;; undef.

Definition shell_execute (input : list Z) : st kern unit :=
  if ch input 0 =? 0 then ret tt
  else if is_command input (chars "help") then cmd_help
  else if is_command input (chars "clear") then cmd_clear
  else if is_command input (chars "echo") then cmd_echo (get_args input 4)
  else if is_command input (chars "about") then cmd_about
  else if is_command input (chars "ls") then cmd_ls (get_args input 2)
  else if is_command input (chars "cat") then cmd_cat (get_args input 3)
  else if is_command input (chars "touch") then cmd_touch (get_args input 5)
  else if is_command input (chars "write") then cmd_write (get_args input 5)
  else if is_command input (chars "rm") then cmd_rm (get_args input 2)
  else if is_command input (chars "rename") then cmd_rename (get_args input 6)
  else if is_command input (chars "pwd") then cmd_pwd
  else if is_command input (chars "mkdir") then cmd_mkdir (get_args input 5)
  else if is_command input (chars "cd") then cmd_cd (get_args input 2)
  else if is_command input (chars "time") then cmd_time
  else if is_command input (chars "exec") then cmd_exec (get_args input 4)
  else if is_command input (chars "bg") then cmd_bg (get_args input 2)
  else if is_command input (chars "ps") then cmd_ps
  else if is_command input (chars "kill") then cmd_kill (get_args input 4)
  else if is_command input (chars "uptime") then cmd_uptime
  else if is_command input (chars "free") then cmd_free
  else if is_command input (chars "fasterfetch") then cmd_fasterfetch
  else if is_command input (chars "peter") then cmd_gordon
  else if is_command input (chars "reboot") then cmd_reboot
  else terminal (chars "Unknown Command: " ++ input ++ [10]).

(** ** The editor on the kernel *)

(** How the calls of the editor are written in the terminal's log. *)
Definition call_codes (c : Vga.call) : list Z :=
  match c with
  | Vga.PutChar c => [c]
  | Vga.Backspace => [TERM_BACKSPACE]
  | Vga.CursorLeft => [TERM_LEFT]
  | Vga.SetColor c => [TERM_COLOR c]
  | Vga.Clear => [TERM_CLEAR]
  | Vga.WriteString s => s
  end.

(** The working directory is that of the FAT32 driver, "/" before one is registered. *)
#[export] Instance kern_host : ShellHost kern := {
  sh_call c k := set_fs (put_term (call_codes c) (k_fs k)) k;
  sh_cwd k := match k_vfs k with Some _ => cwd_path (k_fs k) | None => [47] end;
  sh_find prefix := on_vfs (fun g => vfs_find_prefix g prefix 16);
  sh_execute := shell_execute;
  sh_foreground k := foreground_process (k_sched k);
  sh_call_cwd c k := eq_refl }.

(** [shell_on_process_exit]: the prompt comes back, after a message and with the line
    being typed for a program in the background. *)
Definition shell_on_process_exit (pid foreground : Z) : st (edit * kern) unit :=
  if negb (foreground =? 0) then ShellEdit.shell_prompt
  else
    says [Vga.WriteString ([10; 91] ++ print_uint pid ++ chars "] done" ++ [10])] ;;
    ShellEdit.shell_prompt ;;
    let* len := on_edit (gets input_index) in
    let* pos := on_edit (gets cursor_pos) in
    echo 0 len ;;
    times pos len Vga.CursorLeft.

(** ** Runs of the machine *)

(** What happens between two points at which the kernel is consistent.  A process
    without a pending continuation is in user mode: it computes on memory it can
    reach, makes a system call or faults.  Interrupts come in user mode, while a
    process sleeps in [timer_sleep], and in the kernel task.  The kernel shell handles a
    character in the keyboard's interrupt and the end of a process in the reaper, here
    as steps of their own, for any state of its editor; the boot code starts the user shell. *)
Definition interruptible (k : kern) : Prop :=
  match k_pending k !! current_process (k_sched k) with
  | None | Some (RSleep _ _) | Some (RReap _) => True
  | _ => False
  end.

Inductive kstep : kern -> kern -> Prop :=
| ks_call k regs r k' :
    current_process (k_sched k) <> kernel_task_addr ->
    k_pending k !! current_process (k_sched k) = None ->
    syscall_handler cmos rtc_fuel regs k = Some (r, k') -> kstep k k'
| ks_resume k c r k' :
    k_pending k !! current_process (k_sched k) = Some c ->
    resume_call c k = Some (r, k') -> kstep k k'
| ks_user k m :
    k_pending k !! current_process (k_sched k) = None ->
    (forall p, m p <> phys (k_vm k) p -> exists va, 0 <= va < USER_LIMIT /\ user_addr k va = Some p) ->
    kstep k (set_vm (set_phys m (k_vm k)) k)
| ks_fault k int_no err_code cs cr2 k' :
    current_process (k_sched k) <> kernel_task_addr ->
    k_pending k !! current_process (k_sched k) = None ->
    isr_handler int_no err_code cs cr2 k = Some (tt, k') -> kstep k k'
| ks_reap k k' :
    current_process (k_sched k) = kernel_task_addr ->
    k_pending k !! kernel_task_addr = None ->
    process_reap k = Some (tt, k') -> kstep k k'
| ks_timer k k' : interruptible k -> timer_irq k = Some (tt, k') -> kstep k k'
| ks_key k scancode k' : interruptible k -> keyboard_irq scancode k = Some (tt, k') -> kstep k k'
| ks_shell k e c e' k' :
    interruptible k -> ShellEdit.shell_handle_char c (e, k) = Some (tt, (e', k')) -> kstep k k'
| ks_exit k e pid foreground e' k' :
    interruptible k -> shell_on_process_exit pid foreground (e, k) = Some (tt, (e', k')) -> kstep k k'
| ks_ush k r k' : interruptible k -> shell_launch_ush k = Some (r, k') -> kstep k k'.

End Commands.
End ShellCmd.
