(* ===== verification/UshEdit.v ===== *)
(** * The line editor of the user shell (user/ush.c)

    [readline] and [do_tab] on the arrays of the shell ([g_input], [g_ilen], [g_cur],
    [g_hist], [g_hcount], [g_hidx] are the fields of [edit]), which edit lines the way the
    kernel shell does: the list versions of [ShellEdit] give the new line of every key.
    Output goes through [SYS_WRITE], one character at a time; the cursor moves back with
    '\b'. *)

From S2P Require Import Prelude Vga LineEdit Drivers ShellEdit Kern Syscall UshRun.

Module UshEdit.

Import Vga Kbd LineEdit ShellEdit.

Definition MAX_LINE : Z := 256.
Definition MAX_HIST : Z := 10.

Definition g_cmds : list (list Z) :=
  [chars "help"; chars "clear"; chars "echo"; chars "about"; chars "ls"; chars "pwd"; chars "cat"; chars "touch";
   chars "mkdir"; chars "cd"; chars "rm"; chars "write"; chars "rename"; chars "time"; chars "uptime"; chars "free";
   chars "exec"; chars "bg"; chars "ps"; chars "kill"; chars "fasterfetch"; chars "peter"; chars "reboot"].

Definition cmd_matches (prefix : list Z) : list (list Z) := take 16 (List.filter (starts_with prefix) g_cmds).

(** ** Names found by the kernel

    [SYS_FINDPREFIX] stores the names one after the other, each with its NUL. *)

(** [while ( *p && k < 255) g_matches[i][k++] = *p++; ... if ( *p) p++;]: the name at the
    start of [raw], and what is left of [raw]. *)
Fixpoint take_name (k : nat) (raw : list Z) : list Z * list Z :=
  match k, raw with
  | S k, c :: raw' => if c =? 0 then ([], raw) else let '(name, rest) := take_name k raw' in (c :: name, rest)
  | _, _ => ([], raw)
  end.

Fixpoint parse_matches (count : nat) (raw : list Z) : list (list Z) :=
  match count with
  | O => []
  | S n =>
    let '(name, rest) := take_name 255 raw in
    name :: parse_matches n (match rest with c :: rest' => if c =? 0 then rest else rest' | [] => [] end)
  end.

Section Editor.
Context {W : Type} {H : ShellHost W}.

Definition sputc {E} (c : Z) : st (E * W) unit := says [PutChar c].
Definition swrite {E} (s : list Z) : st (E * W) unit := says [WriteString s].
Definition cur_left_n {E} (n : Z) : st (E * W) unit := times 0 n (PutChar 8).

Definition redraw_from (from cur_after : Z) : st (edit * W) unit :=
  let* len := on_edit (gets input_index) in
  echo from len ;;
  sputc 32 ;;
  cur_left_n (len - cur_after + 1).

(** [while (g_hist[entry][n]) n++]. *)
Fixpoint row_length (fuel : nat) (entry n : Z) : st edit Z :=
  match fuel with
  | O => undef
  | S fuel => let* c := hist_get entry n in if c =? 0 then ret n else row_length fuel entry (n + 1)
  end.

Definition load_history (idx : Z) : st edit unit :=
  let* count := gets history_count in
  if (idx <? 0) || (count <=? idx) then ret tt
  else
    let entry := count - 1 - idx in
    let* n := row_length 257 entry 0 in
    for_st (Z.to_nat (n + 1)) 0 (fun i => let* c := hist_get entry i in buf_set i c) ;;
    modify (fun e => set_pos n (set_len n e)).

Definition clear_display_line : st (edit * W) unit :=
  let* cur := on_edit (gets cursor_pos) in
  let* len := on_edit (gets input_index) in
  echo cur len ;;
  times 0 len (PutChar 8) ;;
  times 0 len (PutChar 32) ;;
  times 0 len (PutChar 8).

(** The prompt, which [do_tab], [readline] and the main loop print alike. *)
Definition prompt {E} : st (E * W) unit :=
  says [SetColor 10; WriteString (chars "GordOS")] ;;
  let* cwd := on_host (gets sh_cwd) in
  says [SetColor 7; WriteString (take 255 cwd); SetColor 15; WriteString (chars "> "); SetColor 7].

(** The raw answer of [SYS_FINDPREFIX] and the names read from it, at most 16. *)
Definition find_names (prefix : list Z) : st W (list (list Z)) :=
  let* names := sh_find prefix in
  let count := Nat.min (length names) 16 in
  ret (parse_matches count (Syscall.pack_matches names 0 4100 ++ [0])).

(** The second half of [do_tab], with the matches in [names]. *)
Definition use_found (names : list (list Z)) (cur ws : Z) : st (edit * W) unit :=
  match names with
  | [] => ret tt
  | [name] =>
    let* we := on_edit word_end in
    on_edit (replace_word ws we name) ;;
    let* len := on_edit (gets input_index) in
    let* cur' := on_edit (gets cursor_pos) in
    cur_left_n (cur - ws) ;;
    echo ws len ;;
    sputc 32 ;;
    cur_left_n (len - cur' + 1)
  | names =>
    says (PutChar 10 :: concat (map (fun name => [WriteString name; PutChar 32]) names) ++ [PutChar 10]) ;;
    prompt ;;
    let* len := on_edit (gets input_index) in
    let* cur := on_edit (gets cursor_pos) in
    echo 0 len ;;
    cur_left_n (len - cur)
  end.

Definition do_tab : st (edit * W) unit :=
  let* cur := on_edit (gets cursor_pos) in
  let* ws := on_edit word_start in
  let* prefix := on_edit (buf_slice (Z.to_nat (cur - ws)) ws) in
  let* sp := on_edit (has_space (Z.to_nat cur) 0) in
  let* names := if sp then on_host (find_names (cut_nul prefix)) else ret (cmd_matches prefix) in
  use_found names cur ws.

(** ** Keys other than Enter and Ctrl+C *)

Definition u_clear : st (edit * W) unit :=
  says [Clear] ;;
  prompt ;;
  let* len := on_edit (gets input_index) in
  let* cur := on_edit (gets cursor_pos) in
  echo 0 len ;;
  cur_left_n (len - cur).

Definition u_backspace : st (edit * W) unit :=
  let* cur := on_edit (gets cursor_pos) in
  if 0 <? cur then
    on_edit (modify (set_pos (cur - 1)) ;; close_gap (cur - 1) ;; modify (fun e => set_len (input_index e - 1) e)) ;;
    sputc 8 ;;
    let* cur := on_edit (gets cursor_pos) in
    redraw_from cur cur
  else ret tt.

Definition u_left : st (edit * W) unit :=
  let* cur := on_edit (gets cursor_pos) in
  if 0 <? cur then on_edit (modify (set_pos (cur - 1))) ;; sputc 8 else ret tt.

Definition u_right : st (edit * W) unit :=
  let* cur := on_edit (gets cursor_pos) in
  let* len := on_edit (gets input_index) in
  if cur <? len then let* c := on_edit (buf_get cur) in sputc c ;; on_edit (modify (set_pos (cur + 1))) else ret tt.

Definition show_loaded : st (edit * W) unit :=
  let* n := on_edit (gets history_index) in
  on_edit (load_history n) ;;
  let* len := on_edit (gets input_index) in
  echo 0 len.

Definition u_up : st (edit * W) unit :=
  let* e := on_edit (gets id) in
  if history_index e + 1 <? history_count e then
    clear_display_line ;;
    on_edit (modify (set_hindex (history_index e + 1))) ;;
    show_loaded
  else ret tt.

Definition u_down : st (edit * W) unit :=
  let* n := on_edit (gets history_index) in
  if n <? 0 then ret tt
  else
    clear_display_line ;;
    on_edit (modify (set_hindex (n - 1))) ;;
    if n - 1 <? 0 then on_edit (modify (fun e => set_pos 0 (set_len 0 e)) ;; buf_set 0 0)
    else show_loaded.

Definition u_insert (c : Z) : st (edit * W) unit :=
  let* len := on_edit (gets input_index) in
  if (0x20 <=? c) && (c <? 0x80) && (len <? MAX_LINE - 1) then
    let* cur := on_edit (gets cursor_pos) in
    on_edit (open_gap ;; buf_set cur c ;; modify (set_len (len + 1))) ;;
    let* len := on_edit (gets input_index) in
    echo cur len ;;
    on_edit (modify (set_pos (cur + 1))) ;;
    cur_left_n (len - (cur + 1))
  else ret tt.

Definition edit_key (c : Z) : st (edit * W) unit :=
  if c =? KEY_CLEAR then u_clear
  else if c =? 8 then u_backspace
  else if c =? KEY_LEFT then u_left
  else if c =? KEY_RIGHT then u_right
  else if c =? KEY_UP then u_up
  else if c =? KEY_DOWN then u_down
  else if c =? KEY_TAB then do_tab
  else u_insert c.

(** The loop of [readline] on the characters [SYS_READRAW] will deliver: what is left of
    them when a line has been read, [None] while it still waits. *)
Fixpoint read_keys (keys : list Z) : st (edit * W) (option (list Z)) :=
  match keys with
  | [] => ret None
  | c :: keys =>
    if c =? 10 then
      sputc 10 ;;
      let* len := on_edit (gets input_index) in
      on_edit (buf_set len 0 ;; push_history) ;;
      ret (Some keys)
    else if c =? KEY_CANCEL then
      swrite (chars "^C" ++ [10]) ;;
      on_edit (modify (fun e => set_pos 0 (set_len 0 e)) ;; buf_set 0 0) ;;
      ret (Some keys)
    else edit_key c ;; read_keys keys
  end.

Definition readline (keys : list Z) : st (edit * W) (option (list Z)) :=
  on_edit (modify (fun e => set_hindex (-1) (set_pos 0 (set_len 0 e))) ;; buf_set 0 0) ;;
  read_keys keys.

(** ** The loop of [_start] *)

Definition greeting {E} : st (E * W) unit :=
  says [SetColor VGA_COLOR_LIGHT_GREEN; WriteString (chars "GordOS"); SetColor 7;
        WriteString (chars " shell - type 'help' for commands" ++ [10])].

(** One round: what is left of the keys and the program to run; [None] while the line is
    not finished, and [Some None] inside when [tokenise] would run over its array. *)
Definition shell_round (keys : list Z) : st (edit * W) (option (list Z * option UshRun.prog)) :=
  prompt ;;
  let* r := readline keys in
  match r with
  | None => ret None
  | Some rest =>
    let* e := on_edit (gets id) in
    ret (Some (rest, if (0 <? input_index e) || (input_buffer e 0 =? 0) then UshRun.dispatch (cstr 256 (input_buffer e) 0)
                     else Some UshRun.Stop))
  end.

(** ** The editor on lists *)

Definition ush_prompt (cwd : list Z) : list call :=
  [SetColor 10; WriteString (chars "GordOS"); SetColor 7; WriteString (take 255 cwd); SetColor 15; WriteString (chars "> "); SetColor 7].

Definition u_show (l : typed) : list call := map PutChar (text l) ++ repeat (PutChar 8) (length (after l)).

(** Each key gives the line that the kernel shell's editor gives. *)
Definition us_clear (cwd : list Z) (l : typed) : typed * list call := (l, Clear :: ush_prompt cwd ++ u_show l).
Definition us_backspace (l : typed) : typed * list call :=
  ((l_backspace l).1, match before l with
    | [] => []
    | _ => PutChar 8 :: map PutChar (after l) ++ PutChar 32 :: repeat (PutChar 8) (length (after l) + 1)
    end).
Definition us_left (l : typed) : typed * list call :=
  ((l_left l).1, match before l with [] => [] | _ => [PutChar 8] end).
Definition erase (l : typed) : list call :=
  let n := length (text l) in map PutChar (after l) ++ repeat (PutChar 8) n ++ repeat (PutChar 32) n ++ repeat (PutChar 8) n.
Definition us_up (l : typed) : typed * list call :=
  ((l_up l).1, if browsing l + 1 <? Z.of_nat (length (past l)) then erase l ++ map PutChar (text (l_up l).1) else []).
Definition us_down (l : typed) : typed * list call :=
  ((l_down l).1, if browsing l <? 0 then [] else erase l ++ map PutChar (text (l_down l).1)).
Definition us_insert (c : Z) (l : typed) : typed * list call :=
  if (0x20 <=? c) && (c <? 0x80) && (length (text l) <? 255)%nat
  then ((l_insert c l).1, PutChar c :: map PutChar (after l) ++ repeat (PutChar 8) (length (after l)))
  else (l, []).
Definition us_complete (name : list Z) (l : typed) : typed * list call :=
  let l' := completed name l in
  (l', repeat (PutChar 8) (length (last_word (before l))) ++ map PutChar (name ++ after l')
       ++ PutChar 32 :: repeat (PutChar 8) (length (after l') + 1)).
Definition us_list (names : list (list Z)) (cwd : list Z) (l : typed) : typed * list call :=
  (l, PutChar 10 :: concat (map (fun name => [WriteString name; PutChar 32]) names) ++ PutChar 10 :: ush_prompt cwd ++ u_show l).

(** A completion that does not fit writes behind the end of the array. *)
Definition us_tab : st (typed * W) unit :=
  let* l := on_edit (gets id) in
  let word := last_word (before l) in
  let* names := if existsb (fun c => c =? 32) (before l) then on_host (find_names word) else ret (cmd_matches word) in
  match names with
  | [] => ret tt
  | [name] => if fits name l && negb (overrun name l) then plain (fun _ => us_complete name) else undef
  | names => plain (us_list names)
  end.

Definition us_key (c : Z) : st (typed * W) unit :=
  if c =? KEY_CLEAR then plain us_clear
  else if c =? 8 then plain (fun _ => us_backspace)
  else if c =? KEY_LEFT then plain (fun _ => us_left)
  else if c =? KEY_RIGHT then plain (fun _ => l_right)
  else if c =? KEY_UP then plain (fun _ => us_up)
  else if c =? KEY_DOWN then plain (fun _ => us_down)
  else if c =? KEY_TAB then us_tab
  else plain (fun _ => us_insert c).

Fixpoint us_read (keys : list Z) : st (typed * W) (option (list Z)) :=
  match keys with
  | [] => ret None
  | c :: keys =>
    if c =? 10 then
      says [PutChar 10] ;;
      on_edit (fun l => Some (tt, set_past (remember (text l) (past l)) l)) ;;
      ret (Some keys)
    else if c =? KEY_CANCEL then
      says [WriteString (chars "^C" ++ [10])] ;;
      on_edit (fun l => Some (tt, set_text [] [] l)) ;;
      ret (Some keys)
    else us_key c ;; us_read keys
  end.

Definition us_readline (keys : list Z) : st (typed * W) (option (list Z)) :=
  on_edit (fun l => Some (tt, empty l)) ;; us_read keys.

(** ** Refinement, key by key *)

Ltac run1 := erewrite bind_ok; [|reflexivity]; cbn [fst snd id cursor_pos input_index history_index history_count set_pos set_len set_hindex].

Lemma uprompt_ok {E} (e : E) w : prompt (e, w) = says (ush_prompt (sh_cwd w)) (e, w).
Proof. unfold prompt. do 2 run1. rewrite calls_cwd, says_more. done. Qed.

Lemma left_n_ok {E} (n : nat) k (s : E * W) : k = Z.of_nat n -> cur_left_n k s = says (repeat (PutChar 8) n) s.
Proof. intros ->. apply times_ok. lia. Qed.

Lemma u_show_ok e l w : repr e l ->
  (echo 0 (input_index e) ;; cur_left_n (input_index e - cursor_pos e)) (e, w) = says (u_show l) (e, w).
Proof.
  intros Hr. pose proof (rp_len _ _ Hr) as Hi. pose proof (rp_pos _ _ Hr) as Hp. unfold text in Hi. rewrite length_app in Hi.
  rewrite (bind_ok _ _ _ _ _ (echo_all e l w Hr)). rewrite (left_n_ok (length (after l))) by lia. by rewrite says_more.
Qed.

Lemma sim_u_clear : sim u_clear (plain us_clear).
Proof.
  apply sim_plain. intros e l w Hr. exists e. split; [|done]. unfold u_clear, us_clear. cbn [fst snd].
  run1. rewrite (bind_ok _ _ _ _ _ (uprompt_ok e _)). do 2 run1. rewrite (u_show_ok e l) by done. by rewrite !says_more, calls_cwd.
Qed.

Lemma sim_u_left : sim u_left (plain (fun _ => us_left)).
Proof.
  apply sim_plain. intros e l w Hr. unfold u_left, us_left. run1. pose proof (left_ok e l Hr) as Hl.
  pose proof (rp_pos _ _ Hr) as Hp. destruct (before l) as [|c r] eqn:Hb; rewrite Hp; cbn [fst snd].
  - destruct (Z.ltb_spec 0 (Z.of_nat (length (@nil Z)))); [simpl in *; lia|]. exists e. split; [done|]. unfold l_left. by rewrite Hb.
  - destruct (Z.ltb_spec 0 (Z.of_nat (length (c :: r)))); [|simpl in *; lia]. run1. eexists. split; [reflexivity|].
    rewrite <- Hp. by apply Hl.
Qed.

Lemma sim_u_right : sim u_right (plain (fun _ => l_right)).
Proof. exact sim_right. Qed.

Lemma redraw_from_ok e l w : repr e l -> redraw_from (cursor_pos e) (cursor_pos e) (e, w)
  = says (map PutChar (after l) ++ PutChar 32 :: repeat (PutChar 8) (length (after l) + 1)) (e, w).
Proof.
  intros Hr. pose proof (rp_len _ _ Hr) as Hi. pose proof (rp_pos _ _ Hr) as Hp. unfold text in Hi. rewrite length_app in Hi.
  unfold redraw_from, sputc. run1. rewrite (bind_ok _ _ _ _ _ (echo_after e l w Hr)). run1.
  rewrite (left_n_ok (length (after l) + 1)) by lia. by rewrite !says_more.
Qed.

Lemma u_delete_ok e l p x : repr e l -> before l = p ++ [x] -> exists e',
  (modify (set_pos (cursor_pos e - 1)) ;; close_gap (cursor_pos e - 1) ;; modify (fun e => set_len (input_index e - 1) e)) e = Some (tt, e')
  /\ repr e' (set_text p (after l) l).
Proof.
  intros Hr Hbf. pose proof Hr as [Hi Hp Hm _ _ _ _ _ _ _]. unfold text in Hi, Hm. rewrite Hbf, !length_app in *. simpl in *.
  erewrite bind_ok by reflexivity.
  destruct (close_gap_ok (set_pos (cursor_pos e - 1) e) (cursor_pos e - 1)) as (b & E & Hb); [simpl; lia..|].
  rewrite (bind_ok _ _ _ _ _ E). eexists. split; [reflexivity|]. exact (delete_text e l p x b Hr Hbf Hb).
Qed.

Lemma sim_u_backspace : sim u_backspace (plain (fun _ => us_backspace)).
Proof.
  apply sim_plain. intros e l w Hr. unfold u_backspace, us_backspace, l_backspace. run1. pose proof (rp_pos _ _ Hr) as Hp.
  pose proof (rev_cases (before l)) as Hb. destruct (rev (before l)) as [|x r].
  { rewrite Hb in *. rewrite Hp. by exists e. }
  destruct (u_delete_ok e l _ _ Hr Hb) as (e' & E' & Hr').
  rewrite Hb, length_app in Hp. simpl in Hp. destruct (Z.ltb_spec 0 (cursor_pos e)); [|lia].
  rewrite (bind_ok _ _ _ _ _ (on_edit_ok _ _ w _ _ E')). do 2 run1. exists e'. split; [|done]. cbn [fst snd].
  rewrite (redraw_from_ok e' _ _ Hr'), says_more. rewrite Hb. by destruct (rev r).
Qed.

Lemma sim_u_insert c : char_ok c -> sim (u_insert c) (plain (fun _ => us_insert c)).
Proof.
  intros Hc. apply sim_plain. intros e l w Hr. unfold u_insert, us_insert, l_insert, MAX_LINE. run1.
  pose proof (rp_len _ _ Hr) as Hi. destruct ((0x20 <=? c) && (c <? 0x80)); cbn [andb]; [|by exists e].
  destruct (Nat.ltb_spec (length (text l)) 255) as [Hl|Hl].
  2:{ destruct (Z.ltb_spec (input_index e) (256 - 1)); [lia|]. by exists e. }
  destruct (Z.ltb_spec (input_index e) (256 - 1)); [|lia]. run1. destruct (insert_ok e l c Hr Hc Hl) as (e1 & E1 & Hr1).
  rewrite (bind_ok _ _ _ _ _ (on_edit_ok _ _ w _ _ E1)). run1.
  assert (cursor_pos e = cursor_pos e1) as Hpp by (by rewrite (rp_pos _ _ Hr), (rp_pos _ _ Hr1)).
  rewrite Hpp, (bind_ok _ _ _ _ _ (echo_after e1 _ w Hr1)). run1.
  pose proof (rp_len _ _ Hr1) as Hi1. pose proof (rp_pos _ _ Hr1) as Hp1. unfold text in Hi1. rewrite length_app in Hi1. simpl in Hi1, Hp1.
  rewrite (left_n_ok (length (after l))) by lia. rewrite says_more. eexists. split; [reflexivity|]. by apply step_right.
Qed.

Lemma erase_ok e l w : repr e l -> clear_display_line (e, w) = says (erase l) (e, w).
Proof.
  intros Hr. pose proof (rp_len _ _ Hr) as Hi. unfold clear_display_line, erase. do 2 run1. rewrite Hi.
  rewrite <- Hi at 1. rewrite (bind_ok _ _ _ _ _ (echo_after e l w Hr)).
  do 2 (erewrite bind_ok; [|apply (times_ok (length (text l))); lia]; cbn [fst snd]). rewrite (times_ok (length (text l))) by lia.
  by rewrite !says_more.
Qed.

Section Load.
Context (e : edit) (entry : Z) (s : list Z) (Hen : 0 <= entry < 10) (Hrow : row_holds (history e) entry s).

Lemma row_length_ok (fuel : nat) p r : s = p ++ r -> (length r < fuel)%nat ->
  row_length fuel entry (Z.of_nat (length p)) e = Some (Z.of_nat (length s), e).
Proof.
  destruct Hrow as (Ht & H0 & Hc & Hl). revert p r. induction fuel as [|fuel IH]; intros p r Hs Hf; [lia|]. cbn [row_length].
  assert (length s = length p + length r)%nat as Hlen by (by rewrite Hs, length_app).
  rewrite (bind_ok _ _ _ _ _ (hist_get_ok entry (Z.of_nat (length p)) e Hen ltac:(lia))). destruct r as [|c r].
  - rewrite app_nil_r in Hs. subst p. rewrite H0. done.
  - simpl in Hlen, Hf. assert (history e entry (Z.of_nat (length p)) = c) as ->.
    { rewrite Ht by lia. rewrite Hs, ch_app, ch_cons by lia. zspec; simpl; done || lia. }
    assert (char_ok c) as Hcc by (rewrite Hs in Hc; apply Forall_app in Hc as [_ [? _]%Forall_cons]; done).
    destruct (Z.eqb_spec c 0); [done|]. replace (Z.of_nat (length p) + 1) with (Z.of_nat (length (p ++ [c]))) by (rewrite length_app; simpl; lia).
    apply (IH _ r); [by rewrite <- app_assoc|lia].
Qed.

Lemma copy_row_ok : exists b, for_st (S (length s)) 0 (fun i => let* c := hist_get entry i in buf_set i c) e = Some (tt, set_input b e)
  /\ text_at b s.
Proof.
  destruct Hrow as (Ht & H0 & Hc & Hl).
  destruct (for_st_ind (fun k e' => exists b, e' = set_input b e /\ forall i, 0 <= i < k -> b i = history e entry i)
    (S (length s)) 0 (fun i => let* c := hist_get entry i in buf_set i c) e) as (e' & E & b & -> & Hb).
  - exists (input_buffer e). split; [by destruct e|lia].
  - intros i e1 Hi (b & -> & Hb). rewrite (bind_ok _ _ _ _ _ (hist_get_ok entry i (set_input b e) Hen ltac:(lia))).
    rewrite buf_set_ok by lia. eexists. split; [done|]. eexists. split; [reflexivity|]. intros j Hj. simpl. unfold upd.
    destruct (Z.eqb_spec j i) as [->|]; [done|]. apply Hb. lia.
  - exists b. split; [exact E|]. intros i Hi. rewrite Hb by lia. by apply Ht.
Qed.

End Load.

Lemma load_history_ok e l n : repr e l -> 0 <= n < Z.of_nat (length (past l)) -> exists e',
  load_history n e = Some (tt, e') /\ repr e' (set_text (recall n (past l)) [] l).
Proof.
  intros Hr Hn. pose proof Hr as [_ _ _ _ _ Hc Hm Hrows _ _]. unfold load_history. erewrite bind_ok by reflexivity. rewrite Hc.
  destruct (Z.ltb_spec n 0); [lia|]. destruct (Z.leb_spec (Z.of_nat (length (past l))) n); [lia|]. cbn [orb]. cbv zeta. unfold recall.
  set (k := (length (past l) - 1 - Z.to_nat n)%nat).
  assert (past l !! k = Some (nth k (past l) [])) as Hk.
  { destruct (lookup_lt_is_Some_2 (past l) k) as [s Hs]; [unfold k; lia|]. rewrite Hs. f_equal. symmetry. by apply nth_lookup_Some. }
  replace (Z.of_nat (length (past l)) - 1 - n) with (Z.of_nat k) by (unfold k; lia). set (s := nth k (past l) []) in *.
  pose proof (Hrows _ _ Hk) as Hrow. pose proof Hrow as (_ & _ & Hch & Hl).
  assert (0 <= Z.of_nat k < 10) as Hen by (unfold k; lia).
  rewrite (bind_ok _ _ _ _ _ (row_length_ok e (Z.of_nat k) s Hen Hrow 257 [] s eq_refl ltac:(lia))).
  replace (Z.to_nat (Z.of_nat (length s) + 1)) with (S (length s)) by lia.
  destruct (copy_row_ok e (Z.of_nat k) s Hen Hrow) as (b & E & Hb). rewrite (bind_ok _ _ _ _ _ E). eexists. split; [reflexivity|].
  pose proof (repr_text e l b s [] Hr) as Hrep. rewrite app_nil_r in Hrep. by apply Hrep.
Qed.

Lemma show_loaded_ok e l w : repr e l -> 0 <= browsing l < Z.of_nat (length (past l)) -> exists e',
  show_loaded (e, w) = says (map PutChar (recall (browsing l) (past l))) (e', w)
  /\ repr e' (set_text (recall (browsing l) (past l)) [] l).
Proof.
  intros Hr Hb. unfold show_loaded. run1. rewrite (rp_hindex _ _ Hr). destruct (load_history_ok e l _ Hr Hb) as (e' & E & Hr').
  rewrite (bind_ok _ _ _ _ _ (on_edit_ok _ _ w _ _ E)). run1. exists e'. split; [|done]. rewrite (echo_all e' _ w Hr').
  unfold text. simpl. by rewrite app_nil_r.
Qed.

Lemma sim_u_up : sim u_up (plain (fun _ => us_up)).
Proof.
  apply sim_plain. intros e l w Hr. unfold u_up, us_up, l_up. run1. pose proof Hr as [_ _ _ _ _ Hc _ _ Hx Hb]. rewrite Hx, Hc.
  destruct (Z.ltb_spec (browsing l + 1) (Z.of_nat (length (past l)))); [|by exists e]. cbv zeta. cbn [fst snd l_replace].
  rewrite (bind_ok _ _ _ _ _ (erase_ok e l w Hr)). run1.
  destruct (show_loaded_ok (set_hindex (browsing l + 1) e) (set_browsing (browsing l + 1) l) (send_calls (erase l) w)) as (e' & E & Hr').
  - destruct Hr. split; simpl; try done; lia.
  - simpl. lia.
  - exists e'. split; [|done]. unfold text. simpl. rewrite app_nil_r, <- says_more. exact E.
Qed.

Lemma repr_nul e l b : repr e l -> input_index e = 0 -> repr (set_input b e) l.
Proof.
  intros [] Hi. split; simpl; try done. intros i Hi'. lia.
Qed.

Lemma sim_u_down : sim u_down (plain (fun _ => us_down)).
Proof.
  apply sim_plain. intros e l w Hr. unfold u_down, us_down, l_down. run1. pose proof Hr as [_ _ _ _ _ Hc _ _ Hx Hb]. rewrite Hx.
  destruct (Z.ltb_spec (browsing l) 0); [by exists e|]. cbv zeta. cbn [fst snd l_replace].
  rewrite (bind_ok _ _ _ _ _ (erase_ok e l w Hr)). run1.
  assert (repr (set_hindex (browsing l - 1) e) (set_browsing (browsing l - 1) l)) as Hr1
    by (destruct Hr; split; simpl; try done; lia).
  destruct (Z.ltb_spec (browsing l - 1) 0).
  - eexists. split.
    + unfold text. cbn [before after set_text app map]. rewrite app_nil_r. reflexivity.
    + apply (repr_nul (set_pos 0 (set_len 0 (set_hindex (browsing l - 1) e)))); [|done].
      replace (browsing l - 1) with (-1) in * by lia. exact (repr_empty _ _ Hr1).
  - destruct (show_loaded_ok _ _ (send_calls (erase l) w) Hr1 ltac:(simpl; lia)) as (e' & E & Hr').
    exists e'. split; [|done]. unfold text. cbn [before after set_text]. rewrite app_nil_r, <- says_more. exact E.
Qed.

(** ** Completion *)

Lemma parse_matches_ok n raw : Forall (Forall char_ok) (parse_matches n raw).
Proof.
  revert raw. induction n as [|n IH]; intros raw; cbn [parse_matches]; [constructor|].
  destruct (take_name 255 raw) as [name rest] eqn:E. constructor; [|apply IH]. clear IH. revert raw name rest E.
  generalize 255%nat as k. induction k as [|k IH]; intros raw name rest E; simpl in E; [by injection E as <- _|].
  destruct raw as [|c raw]; [by injection E as <- _|]. destruct (Z.eqb_spec c 0); [by injection E as <- _|].
  destruct (take_name k raw) as [nm rs] eqn:Ek. injection E as <- <-. constructor; [done|]. by eapply IH.
Qed.

Lemma cmd_matches_ok p : Forall (Forall char_ok) (cmd_matches p).
Proof.
  apply Forall_take, List.Forall_forall. intros s [Hin _]%List.filter_In.
  assert (forallb (forallb (fun c => negb (c =? 0))) g_cmds = true) as Hc by (vm_compute; done).
  rewrite forallb_forall in Hc. specialize (Hc s Hin). rewrite forallb_forall in Hc. apply List.Forall_forall.
  intros c Hi. specialize (Hc c Hi). zbool. done.
Qed.

(** What both editors do with the names. *)
Lemma u_use_names e l w names : repr e l -> Forall (Forall char_ok) names ->
  match (match names with
         | [] => ret tt
         | [name] => if fits name l && negb (overrun name l) then plain (fun _ => us_complete name) else undef
         | names => plain (us_list names)
         end) (l, w) with
  | Some (x, (l', w')) => exists e', use_found names (cursor_pos e) (Z.of_nat (length (but_word (before l)))) (e, w) = Some (x, (e', w')) /\ repr e' l'
  | None => use_found names (cursor_pos e) (Z.of_nat (length (but_word (before l)))) (e, w) = None
  end.
Proof.
  intros Hr Hn. destruct names as [|n0 [|n1 names]]; cbn [use_found]; [by exists e| |].
  - apply Forall_cons in Hn as [Hn _]. pose proof (replace_ok e l n0 Hr Hn) as Hrep. cbv zeta in Hrep.
    rewrite (bind_ok _ _ _ _ _ (on_edit_ok _ _ w _ _ (word_end_at e l Hr))).
    destruct (fits n0 l && negb (overrun n0 l)).
    2:{ unfold undef, bind, on_edit. cbn [fst snd]. by rewrite Hrep. }
    destruct Hrep as (e' & E' & Hr'). rewrite (bind_ok _ _ _ _ _ (on_edit_ok _ _ w _ _ E')). do 2 run1.
    destruct (tab_reads e l Hr) as (_ & _ & _ & _ & Hlw). erewrite bind_ok; [|apply left_n_ok; exact Hlw]. cbn [fst snd].
    pose proof Hr' as [Hi Hp _ _ _ _ _ _ _ _]. unfold completed, text in Hi, Hp. cbn [before after set_text] in Hi, Hp. rewrite !length_app in Hi. rewrite length_app in Hp.
    rewrite (bind_ok _ _ _ _ _ (echo_ok e' _ _ (Z.of_nat (length (but_word (before l)))) (input_index e') Hr' ltac:(lia)
      ltac:(unfold completed, text; cbn [before after set_text]; rewrite !length_app; lia))).
    rewrite Nat2Z.id. unfold completed at 1 2, text. cbn [before after set_text]. rewrite <- app_assoc, drop_app_length.
    rewrite take_ge by (rewrite length_app; lia). unfold sputc. run1.
    rewrite (left_n_ok (length (after (completed n0 l)) + 1)) by (unfold completed; cbn [after set_text]; lia).
    rewrite !says_more. exists e'. split; [|done]. unfold plain, us_complete. cbn [fst snd]. reflexivity.
  - pose proof (sim_plain (W := W)) as Hsim. apply (sim_plain _ (us_list (n0 :: n1 :: names))); [|done].
    clear e l w Hr Hn Hsim. intros e l w Hr. exists e. split; [|done]. unfold us_list. cbn [fst snd]. run1.
    rewrite (bind_ok _ _ _ _ _ (uprompt_ok e _)). do 2 run1. rewrite (u_show_ok e l) by done. rewrite !says_more, calls_cwd.
    f_equal. simpl. f_equal. by rewrite <- app_assoc.
Qed.

Lemma do_tab_ok e l w : repr e l -> do_tab (e, w) =
  (let* names := if existsb (fun c => c =? 32) (before l) then on_host (find_names (last_word (before l)))
                 else ret (cmd_matches (last_word (before l))) in
   use_found names (cursor_pos e) (Z.of_nat (length (but_word (before l))))) (e, w).
Proof.
  intros Hr. destruct (tab_reads e l Hr) as (E1 & E2 & E3 & Hcut & _). unfold do_tab. run1.
  rewrite (bind_ok _ _ _ _ _ (on_edit_ok _ _ _ _ _ E1)), (bind_ok _ _ _ _ _ (on_edit_ok _ _ _ _ _ E2)),
    (bind_ok _ _ _ _ _ (on_edit_ok _ _ _ _ _ E3)). by rewrite Hcut.
Qed.

Lemma sim_u_tab : sim do_tab us_tab.
Proof.
  intros e l w Hr. rewrite (do_tab_ok e l w Hr). unfold us_tab. erewrite bind_ok by reflexivity. cbn [fst snd id]. cbv zeta.
  destruct (existsb (fun c => c =? 32) (before l)).
  - unfold bind, on_host. cbn [fst snd]. destruct (find_names (last_word (before l)) w) as [[names w1]|] eqn:E; [|done].
    apply u_use_names; [done|]. unfold find_names in E. apply bind_inv in E as (raw & w2 & _ & E). injection E as <- _. apply parse_matches_ok.
  - by apply (u_use_names e l w (cmd_matches (last_word (before l))) Hr), cmd_matches_ok.
Qed.

Lemma sim_u_key c : char_ok c -> sim (edit_key c) (us_key c).
Proof.
  intros Hc. unfold edit_key, us_key. destruct (c =? KEY_CLEAR); [apply sim_u_clear|]. destruct (c =? 8); [apply sim_u_backspace|].
  destruct (c =? KEY_LEFT); [apply sim_u_left|]. destruct (c =? KEY_RIGHT); [apply sim_u_right|].
  destruct (c =? KEY_UP); [apply sim_u_up|]. destruct (c =? KEY_DOWN); [apply sim_u_down|]. destruct (c =? KEY_TAB); [apply sim_u_tab|].
  by apply sim_u_insert.
Qed.

(** ** Reading a line *)

(** When a line has been read, [g_input] is its text as a string. *)
Definition read_ok (r : option (list Z)) (e : edit) (l : typed) : Prop :=
  repr e l /\ (is_Some r -> cstr 256 (input_buffer e) 0 = text l).

Lemma enter_read e l w keys : repr e l -> exists e',
  (sputc 10 ;; let* len := on_edit (gets input_index) in on_edit (buf_set len 0 ;; push_history) ;; ret (Some keys)) (e, w)
  = Some (Some keys, (e', send_calls [PutChar 10] w)) /\ read_ok (Some keys) e' (set_past (remember (text l) (past l)) l).
Proof.
  intros Hr. destruct (push_ok e l Hr) as (e1 & e' & E1 & E2 & Hcs & Hr'). unfold sputc. do 2 run1.
  erewrite bind_ok; [|apply on_edit_ok; rewrite (bind_ok _ _ _ _ _ E1); exact E2]. exists e'. split; [done|]. by split.
Qed.

Lemma repr_cancelled e l : repr e l -> repr (set_input ((input_buffer e).[0 <- 0]) (set_pos 0 (set_len 0 e))) (set_text [] [] l).
Proof. intros []. split; simpl; try done; try lia. intros i Hi. simpl in Hi. lia. Qed.

Lemma cancel_read e l w keys : repr e l -> exists e',
  (swrite (chars "^C" ++ [10]) ;; on_edit (modify (fun e => set_pos 0 (set_len 0 e)) ;; buf_set 0 0) ;; ret (Some keys)) (e, w)
  = Some (Some keys, (e', send_calls [WriteString (chars "^C" ++ [10])] w)) /\ read_ok (Some keys) e' (set_text [] [] l).
Proof. intros Hr. eexists. split; [reflexivity|]. split; [exact (repr_cancelled e l Hr)|]. by intros _. Qed.

Lemma read_keys_ok keys : Forall char_ok keys -> forall e l w, repr e l ->
  match us_read keys (l, w) with
  | Some (r, (l', w')) => exists e', read_keys keys (e, w) = Some (r, (e', w')) /\ read_ok r e' l'
  | None => read_keys keys (e, w) = None
  end.
Proof.
  induction 1 as [|c keys Hc Hk IH]; intros e l w Hr; cbn [us_read read_keys].
  { exists e. split; [done|]. split; [done|]. by intros [? ?]. }
  destruct (c =? 10); [by apply enter_read|]. destruct (c =? KEY_CANCEL); [by apply cancel_read|].
  pose proof (sim_u_key c Hc e l w Hr) as Hs. unfold bind. destruct (us_key c (l, w)) as [[[] [l1 w1]]|].
  - destruct Hs as (e1 & -> & Hr1). by apply IH.
  - by rewrite Hs.
Qed.

Lemma readline_ok keys (e : edit) l (w : W) : Forall char_ok keys -> repr e l ->
  match us_readline keys (l, w) with
  | Some (r, (l', w')) => exists e', readline keys (e, w) = Some (r, (e', w')) /\ read_ok r e' l'
  | None => readline keys (e, w) = None
  end.
Proof.
  intros Hk Hr. unfold readline, us_readline. erewrite !bind_ok by reflexivity. cbn [fst snd].
  apply (read_keys_ok keys Hk). apply repr_nul; [|done]. exact (repr_empty e l Hr).
Qed.

(** A round dispatches the line the editor on lists has read. *)
Lemma round_ok keys (e : edit) l (w : W) rest l' w' : Forall char_ok keys -> repr e l ->
  us_readline keys (l, send_calls (ush_prompt (sh_cwd w)) w) = Some (Some rest, (l', w')) ->
  exists e', shell_round keys (e, w) = Some (Some (rest, UshRun.dispatch (text l')), (e', w')) /\ repr e' l'.
Proof.
  intros Hk Hr E. pose proof (readline_ok keys e l (send_calls (ush_prompt (sh_cwd w)) w) Hk Hr) as H1. rewrite E in H1. destruct H1 as (e' & E1 & Hr' & Hc).
  specialize (Hc ltac:(eauto)). exists e'. split; [|done]. unfold shell_round.
  erewrite bind_ok; [|rewrite uprompt_ok; reflexivity]. rewrite (bind_ok _ _ _ _ _ E1).
  erewrite bind_ok by reflexivity. unfold ret. cbn [fst snd id]. rewrite Hc. do 4 f_equal.
  destruct (input_buffer e' 0 =? 0) eqn:E0; [by rewrite orb_true_r|]. rewrite orb_false_r, (rp_len _ _ Hr'), <- Hc.
  cbn [cstr]. by rewrite E0.
Qed.

End Editor.

(** C22: [readline] of the user shell reads a line exactly as the editor on lists does,
    which on every editing key (insertion, deletion, cursor, history, completion)
    changes the line as the kernel shell's editor: same output, same look-ups, same
    number of keys consumed; when it returns, [g_input] is the line as a string and the
    history holds the last ten lines.  It accesses its arrays out of bounds exactly when a
    completion does not fit into the line or shrinks it too much. *)
Theorem ush_editor_refines {W} `{ShellHost W} keys (e : edit) l (w : W) : Forall char_ok keys -> repr e l ->
  match us_readline keys (l, w) with
  | Some (r, (l', w')) => exists e', readline keys (e, w) = Some (r, (e', w')) /\ repr e' l'
      /\ (is_Some r -> cstr 256 (input_buffer e') 0 = text l')
  | None => readline keys (e, w) = None
  end.
Proof.
  apply readline_ok.
Qed.

Lemma ush_editor_refines_witness : exists e w, readline (chars "cxat " ++ [KEY_LEFT; KEY_LEFT; KEY_LEFT; 8; KEY_RIGHT; KEY_RIGHT; KEY_RIGHT; 9; 10; 97])
    (set_hindex (-1) Recorder.blank_edit, Recorder.mk_system [] []) = Some (Some [97], (e, w))
  /\ cstr 256 (input_buffer e) 0 = chars "cat NOTES.TXT".
Proof.
  pose proof (ush_editor_refines (chars "cxat " ++ [KEY_LEFT; KEY_LEFT; KEY_LEFT; 8; KEY_RIGHT; KEY_RIGHT; KEY_RIGHT; 9; 10; 97]) (set_hindex (-1) Recorder.blank_edit)
    (mk_line [] [] [] (-1)) (Recorder.mk_system [] [])
    ltac:(repeat (apply Forall_cons; split; [done|]); apply Forall_nil_2) (repr_start Recorder.blank_edit eq_refl)) as Hs.
  revert Hs. match goal with |- context [match ?x with _ => _ end] => destruct x as [[r [l w]]|] eqn:E; [|vm_compute in E; congruence] end.
  assert (r = Some [97] /\ text l = chars "cat NOTES.TXT") as [-> Ht] by (vm_compute in E; injection E as <- <- _; done).
  intros (e & He & _ & Hc). exists e, w. split; [exact He|]. rewrite Hc, Ht by eauto. done.
Defined.

(** The names behind the first are lost: [do_tab] does not step over the NUL that ends a
    name, so the rest of the kernel's answer is read as empty strings. *)
Lemma parse_matches_stuck name names : Forall char_ok name -> (length name < 255)%nat ->
  parse_matches (S (length names)) (name ++ 0 :: concat (map (fun n => n ++ [0]) names)) = name :: replicate (length names) [].
Proof.
  intros Hn Hl. assert (forall k rest, (length name <= k)%nat -> take_name (S k) (name ++ 0 :: rest) = (name, 0 :: rest)) as Ht.
  { clear Hl. induction Hn as [|c s Hc Hs IH]; intros k rest Hk; [done|]. simpl in Hk. cbn [take_name app].
    destruct (Z.eqb_spec c 0); [done|]. destruct k as [|k]; [lia|]. by rewrite IH by lia. }
  cbn [parse_matches]. rewrite (Ht 254%nat) by lia. f_equal. clear Ht Hn Hl.
  assert (forall n rest, parse_matches n (0 :: rest) = replicate n []) as Hz by (intros n rest; induction n as [|n IH]; simpl; [done|by rewrite IH]).
  change (0 =? 0) with true. cbv iota. by rewrite Hz.
Qed.

End UshEdit.
