(* ===== verification/KernInv.v ===== *)
(** * The kernel's resource invariant

    Pipes and write buffers are shared by descriptors of several processes and freed
    when the last one goes away.  The invariant: every count is exactly the number of
    descriptors that refer to the object, no descriptor dangles, a process recorded as
    blocked on a pipe really sleeps there, and the queues are well formed.  Here are
    the counting lemmas and what the shared helpers do to the invariant; the file
    KernProps closes it under every step of the kernel. *)

From S2P Require Import Prelude Pmm Heap Disk Fat32Names Fat32 Sched SchedProps SchedFrame Pipe Paging Elf Vfs Drivers Kern.

Module KernInv.

Import Fat32 Proc Sched SchedProps Frame Pipe Wbuf Vfs Kern.

(** ** Counting references *)

Definition reads (p : Z) (f : file_desc) : bool := (fd_kind f =? FD_PIPE_READ) && (fd_pipe f =? p).
Definition writes (p : Z) (f : file_desc) : bool := (fd_kind f =? FD_PIPE_WRITE) && (fd_pipe f =? p).
Definition buffers (w : Z) (f : file_desc) : bool :=
  (fd_kind f =? FD_FILE) && negb (fd_writable f =? 0) && (fd_wbuf f =? w).

Definition b2z (b : bool) : Z := if b then 1 else 0.

Fixpoint count (t : file_desc -> bool) (l : list file_desc) : Z :=
  match l with [] => 0 | f :: l => b2z (t f) + count t l end.

Definition fdm (s : sched) : gmap Z (list file_desc) := p_fds <$> procs s.

Definition refs (t : file_desc -> bool) (F : gmap Z (list file_desc)) : Z :=
  map_fold (fun _ l n => count t l + n) 0 F.

(** References from the tables [F] and from descriptors [E] that are in none. *)
Definition total (t : file_desc -> bool) (F : gmap Z (list file_desc)) (E : list file_desc) : Z :=
  refs t F + count t E.

Lemma count_nonneg t l : 0 <= count t l.
Proof. induction l as [|f l IH]; simpl; [lia|]. unfold b2z. destruct (t f); lia. Qed.

Lemma count_insert t l i f g : l !! i = Some f -> count t (<[i := g]> l) = count t l - b2z (t f) + b2z (t g).
Proof.
  revert i. induction l as [|h l IH]; intros [|i] H; simpl in *; try done.
  - injection H as ->. lia.
  - rewrite (IH i H). lia.
Qed.

Lemma count_pos t l i f : l !! i = Some f -> t f = true -> 0 < count t l.
Proof.
  revert i. induction l as [|h l IH]; intros [|i] H Ht; simpl in *; try done.
  - injection H as ->. rewrite Ht. pose proof (count_nonneg t l). simpl. lia.
  - pose proof (IH i H Ht). unfold b2z. destruct (t h); lia.
Qed.

Lemma count_zero t l : (forall i f, l !! i = Some f -> t f = false) -> count t l = 0.
Proof.
  induction l as [|h l IH]; intros H; simpl; [done|].
  rewrite (H 0%nat h eq_refl), IH; [done|]. intros i f Hi. by apply (H (S i)).
Qed.

Lemma count_le_length t l : count t l <= Z.of_nat (length l).
Proof. induction l as [|f l IH]; simpl; [lia|]. unfold b2z. destruct (t f); lia. Qed.

Lemma refs_insert t F q l : F !! q = None -> refs t (<[q := l]> F) = count t l + refs t F.
Proof. intros H. unfold refs. rewrite map_fold_insert_L; [done| |done]. intros. lia. Qed.

Lemma refs_delete t F q l : F !! q = Some l -> refs t (delete q F) = refs t F - count t l.
Proof.
  intros H. rewrite <- (insert_delete_id F q l H) at 2. rewrite refs_insert; [lia|apply lookup_delete_eq].
Qed.

Lemma refs_update t F q l l' : F !! q = Some l -> refs t (<[q := l']> F) = refs t F - count t l + count t l'.
Proof.
  intros H. rewrite <- (insert_delete_eq F q l'), refs_insert by apply lookup_delete_eq.
  rewrite (refs_delete t F q l H). lia.
Qed.

Lemma refs_nonneg t F : 0 <= refs t F.
Proof.
  induction F as [|q l F Hq IH] using map_ind; [done|]. rewrite refs_insert by done.
  pose proof (count_nonneg t l). lia.
Qed.

Lemma refs_ge t F q l : F !! q = Some l -> count t l <= refs t F.
Proof. intros H. pose proof (refs_delete t F q l H). pose proof (refs_nonneg t (delete q F)). lia. Qed.

Lemma refs_bound t F : map_Forall (fun _ l => length l = MAX_FDS) F -> refs t F <= 8 * Z.of_nat (size F).
Proof.
  induction F as [|q l F Hq IH] using map_ind; intros HF; [done|].
  apply map_Forall_insert in HF as [Hl HF]; [|done]. rewrite refs_insert, map_size_insert_None by done.
  pose proof (count_le_length t l). pose proof (IH HF). unfold MAX_FDS in Hl. lia.
Qed.

(** ** The invariant on shared objects *)

(** Every count is exact, objects without references are gone, and the machine's
    counters are far from overflowing. *)
Record res_ok (F : gmap Z (list file_desc)) (E : list file_desc) (P : gmap Z pipe) (W : gmap Z wbuf) : Prop := {
  ro_len : map_Forall (fun _ l => length l = MAX_FDS) F;
  ro_small : Z.of_nat (size F) < 134217728;
  ro_pipe : forall p, match P !! p with
    | Some pi => p <> 0 /\ pipe_ok pi /\ read_open pi = total (reads p) F E
                 /\ write_open pi = total (writes p) F E
                 /\ 0 < total (reads p) F E + total (writes p) F E
    | None => total (reads p) F E = 0 /\ total (writes p) F E = 0
    end;
  ro_wbuf : forall w, match W !! w with
    | Some b => w <> 0 /\ w_refcount b = total (buffers w) F E /\ 0 < total (buffers w) F E
    | None => total (buffers w) F E = 0
    end
}.

(** A descriptor that refers to no shared object. *)
Definition no_wbuf (f : file_desc) : Prop := fd_kind f = FD_FILE -> fd_writable f = 0.
Definition no_end (f : file_desc) : Prop := fd_kind f <> FD_PIPE_READ /\ fd_kind f <> FD_PIPE_WRITE.

Lemma no_end_reads p f : no_end f -> reads p f = false.
Proof. intros [H _]. unfold reads. by destruct (Z.eqb_spec (fd_kind f) FD_PIPE_READ). Qed.
Lemma no_end_writes p f : no_end f -> writes p f = false.
Proof. intros [_ H]. unfold writes. by destruct (Z.eqb_spec (fd_kind f) FD_PIPE_WRITE). Qed.
Lemma no_wbuf_buffers w f : no_wbuf f -> buffers w f = false.
Proof.
  intros H. unfold buffers. destruct (Z.eqb_spec (fd_kind f) FD_FILE) as [E|]; [|done].
  by rewrite (H E).
Qed.

(** The invariant only depends on the totals. *)
Lemma res_ok_totals F E F' E' P W :
  res_ok F E P W -> map_Forall (fun _ l => length l = MAX_FDS) F' -> Z.of_nat (size F') < 134217728 ->
  (forall p, total (reads p) F' E' = total (reads p) F E) ->
  (forall p, total (writes p) F' E' = total (writes p) F E) ->
  (forall w, total (buffers w) F' E' = total (buffers w) F E) -> res_ok F' E' P W.
Proof.
  intros [HL HS HP HW] HL' HS' Hr Hw Hb. split; [done|done| |].
  - intros p. rewrite Hr, Hw. apply HP.
  - intros w. rewrite Hb. apply HW.
Qed.

Lemma total_swap t F E q l i f g : F !! q = Some l -> l !! i = Some f -> t g = false ->
  total t (<[q := <[i := g]> l]> F) (f :: E) = total t F E.
Proof.
  intros Hq Hi Hg. unfold total. rewrite (refs_update t F q l) by done. simpl.
  rewrite (count_insert t l i f g Hi), Hg. simpl. lia.
Qed.

Lemma len_update (F : gmap Z (list file_desc)) (q : Z) l (i : nat) g : map_Forall (fun _ l => length l = MAX_FDS) F -> F !! q = Some l ->
  map_Forall (fun _ l => length l = MAX_FDS) (<[q := <[i := g]> l]> F).
Proof.
  intros HF Hq. apply map_Forall_insert_2; [|done]. rewrite length_insert. by apply (HF q).
Qed.

(** A descriptor leaves its table, ... *)
Lemma res_move_out F E P W q l i f g : res_ok F E P W -> F !! q = Some l -> l !! i = Some f ->
  no_wbuf g -> no_end g -> res_ok (<[q := <[i := g]> l]> F) (f :: E) P W.
Proof.
  intros H Hq Hi Hg1 Hg2.
  eapply res_ok_totals; [done|eapply len_update; [apply H|done]|rewrite map_size_insert_Some by done; apply H|..]; intros x;
    apply total_swap; auto using no_end_reads, no_end_writes, no_wbuf_buffers.
Qed.

(** ... or enters one. *)
Lemma res_move_in F E P W q l i f g : res_ok F (f :: E) P W -> F !! q = Some l -> l !! i = Some g ->
  no_wbuf g -> no_end g -> res_ok (<[q := <[i := f]> l]> F) E P W.
Proof.
  intros H Hq Hi Hg1 Hg2.
  eapply res_ok_totals; [done|eapply len_update; [apply H|done]|rewrite map_size_insert_Some by done; apply H|..]; intros x;
    unfold total; rewrite (refs_update _ F q l) by done; simpl; rewrite (count_insert _ l i g f Hi);
    rewrite ?no_end_reads, ?no_end_writes, ?no_wbuf_buffers by done; simpl; lia.
Qed.

(** What a descriptor in the invariant's care refers to exists. *)
Lemma total_pos_table t F E q l i f : F !! q = Some l -> l !! i = Some f -> t f = true -> 0 < total t F E.
Proof.
  intros Hq Hi Ht. unfold total. pose proof (count_pos t l i f Hi Ht). pose proof (refs_ge t F q l Hq).
  pose proof (count_nonneg t E). lia.
Qed.

Lemma total_pos_loose t F E f : t f = true -> 0 < total t F (f :: E).
Proof. intros Ht. unfold total. simpl. rewrite Ht. pose proof (refs_nonneg t F). pose proof (count_nonneg t E). simpl. lia. Qed.

Lemma live_reads F E P W p : res_ok F E P W -> 0 < total (reads p) F E -> exists pi, P !! p = Some pi /\ p <> 0.
Proof. intros [_ _ HP _] H. specialize (HP p). destruct (P !! p) as [pi|]; [|lia]. exists pi. naive_solver. Qed.
Lemma live_writes F E P W p : res_ok F E P W -> 0 < total (writes p) F E -> exists pi, P !! p = Some pi /\ p <> 0.
Proof. intros [_ _ HP _] H. specialize (HP p). destruct (P !! p) as [pi|]; [|lia]. exists pi. naive_solver. Qed.
Lemma live_buffers F E P W w : res_ok F E P W -> 0 < total (buffers w) F E -> exists b, W !! w = Some b /\ w <> 0.
Proof. intros [_ _ _ HW] H. specialize (HW w). destruct (W !! w) as [b|]; [|lia]. exists b. naive_solver. Qed.


Lemma total_bound t F E P W : res_ok F E P W -> (length E <= 8)%nat -> 0 <= total t F E < 2147483640.
Proof.
  intros [HL HS _ _] HE. unfold total. pose proof (refs_bound t F HL). pose proof (refs_nonneg t F).
  pose proof (count_nonneg t E). pose proof (count_le_length t E). lia.
Qed.

Lemma total_cons t F f E : total t F (f :: E) = b2z (t f) + total t F E.
Proof. unfold total. simpl. lia. Qed.

Lemma reads_self f : fd_kind f = FD_PIPE_READ -> reads (fd_pipe f) f = true.
Proof. intros H. unfold reads. by rewrite H, !Z.eqb_refl. Qed.
Lemma writes_self f : fd_kind f = FD_PIPE_WRITE -> writes (fd_pipe f) f = true.
Proof. intros H. unfold writes. by rewrite H, !Z.eqb_refl. Qed.
Lemma buffers_self f : fd_kind f = FD_FILE -> fd_writable f <> 0 -> buffers (fd_wbuf f) f = true.
Proof.
  intros H H'. unfold buffers. rewrite H, !Z.eqb_refl. by destruct (Z.eqb_spec (fd_writable f) 0).
Qed.

Lemma reads_at p f : fd_kind f = FD_PIPE_READ -> reads p f = (fd_pipe f =? p).
Proof. intros H. unfold reads. by rewrite H. Qed.
Lemma writes_at p f : fd_kind f = FD_PIPE_WRITE -> writes p f = (fd_pipe f =? p).
Proof. intros H. unfold writes. by rewrite H. Qed.
Lemma kind_reads p f : fd_kind f <> FD_PIPE_READ -> reads p f = false.
Proof. intros H. unfold reads. by destruct (Z.eqb_spec (fd_kind f) FD_PIPE_READ). Qed.
Lemma kind_writes p f : fd_kind f <> FD_PIPE_WRITE -> writes p f = false.
Proof. intros H. unfold writes. by destruct (Z.eqb_spec (fd_kind f) FD_PIPE_WRITE). Qed.
Lemma kind_buffers w f : fd_kind f <> FD_FILE -> buffers w f = false.
Proof. intros H. apply no_wbuf_buffers. intros E. by destruct H. Qed.

(** One end of pipe [p] is given up: [n] reading and [m] writing ends. *)
Definition ends_dropped (p : Z) (pi : pipe) (P : gmap Z pipe) : gmap Z pipe :=
  if (read_open pi <=? 0) && (write_open pi <=? 0) then delete p P else <[p := pi]> P.

Lemma res_drop_end F E P W f pi pi' :
  res_ok F (f :: E) P W -> (fd_kind f = FD_PIPE_READ \/ fd_kind f = FD_PIPE_WRITE) ->
  P !! fd_pipe f = Some pi -> pipe_ok pi' ->
  read_open pi' = read_open pi - b2z (reads (fd_pipe f) f) ->
  write_open pi' = write_open pi - b2z (writes (fd_pipe f) f) ->
  res_ok F E (ends_dropped (fd_pipe f) pi' P) W.
Proof.
  intros [HL HS HP HW] Hk Hpi Hok Hr Hw. set (p := fd_pipe f) in *.
  assert (forall q, q <> p -> total (reads q) F (f :: E) = total (reads q) F E
                     /\ total (writes q) F (f :: E) = total (writes q) F E) as Hne.
  { intros q Hq. rewrite !total_cons. destruct Hk as [Hk|Hk].
    - rewrite reads_at, kind_writes by (rewrite ?Hk; done). fold p. destruct (Z.eqb_spec p q); [congruence|done].
    - rewrite writes_at, kind_reads by (rewrite ?Hk; done). fold p. destruct (Z.eqb_spec p q); [congruence|done]. }
  pose proof (HP p) as Hp. rewrite Hpi in Hp. destruct Hp as (Hp0 & _ & Hrp & Hwp & Hpos).
  rewrite !total_cons in Hrp, Hwp, Hpos.
  assert (0 <= total (reads p) F E /\ 0 <= total (writes p) F E) as [Hr0 Hw0].
  { unfold total. pose proof (refs_nonneg (reads p) F). pose proof (refs_nonneg (writes p) F).
    pose proof (count_nonneg (reads p) E). pose proof (count_nonneg (writes p) E). lia. }
  split; [done|done| |].
  - intros q. unfold ends_dropped. destruct (decide (q = p)) as [->|Hq].
    + destruct ((read_open pi' <=? 0) && (write_open pi' <=? 0)) eqn:Ed.
      * zbool. rewrite lookup_delete_eq. lia.
      * rewrite lookup_insert_eq. apply andb_false_iff in Ed. split; [done|]. split; [done|].
        split; [lia|]. split; [lia|]. destruct Ed; zbool; lia.
    + destruct (Hne q Hq) as [E1 E2]. specialize (HP q). rewrite E1, E2 in HP.
      by destruct (_ && _); rewrite ?lookup_delete_ne, ?lookup_insert_ne by congruence.
  - intros w. specialize (HW w). rewrite total_cons, kind_buffers in HW; [done|]. by destruct Hk as [-> | ->].
Qed.

(** A reference to an end of a pipe is added. *)
Lemma res_add_end F E P W f pi pi' :
  res_ok F E P W -> (fd_kind f = FD_PIPE_READ \/ fd_kind f = FD_PIPE_WRITE) ->
  P !! fd_pipe f = Some pi -> pipe_ok pi' ->
  read_open pi' = read_open pi + b2z (reads (fd_pipe f) f) ->
  write_open pi' = write_open pi + b2z (writes (fd_pipe f) f) ->
  res_ok F (f :: E) (<[fd_pipe f := pi']> P) W.
Proof.
  intros [HL HS HP HW] Hk Hpi Hok Hr Hw. set (p := fd_pipe f) in *.
  pose proof (HP p) as Hp. rewrite Hpi in Hp. destruct Hp as (Hp0 & _ & Hrp & Hwp & Hpos).
  split; [done|done| |].
  - intros q. rewrite !total_cons. destruct (decide (q = p)) as [->|Hq].
    + rewrite lookup_insert_eq. split; [done|]. split; [done|]. split; [lia|]. split; [lia|].
      unfold b2z. destruct (reads p f), (writes p f); lia.
    + rewrite lookup_insert_ne by congruence. specialize (HP q). destruct Hk as [Hk|Hk].
      * rewrite reads_at, kind_writes by (rewrite ?Hk; done). fold p. destruct (Z.eqb_spec p q); [congruence|done].
      * rewrite writes_at, kind_reads by (rewrite ?Hk; done). fold p. destruct (Z.eqb_spec p q); [congruence|done].
  - intros w. specialize (HW w). rewrite total_cons, kind_buffers; [done|]. by destruct Hk as [-> | ->].
Qed.

(** Changes of a pipe that keep its counts. *)
Lemma res_same_pipe F E P W p pi pi' : res_ok F E P W -> P !! p = Some pi -> pipe_ok pi' ->
  read_open pi' = read_open pi -> write_open pi' = write_open pi -> res_ok F E (<[p := pi']> P) W.
Proof.
  intros [HL HS HP HW] Hpi Hok Hr Hw. split; [done|done| |done]. intros q. specialize (HP q).
  destruct (decide (q = p)) as [->|]; [|by rewrite lookup_insert_ne].
  rewrite lookup_insert_eq. rewrite Hpi in HP. destruct HP as (? & _ & ? & ? & ?). split_and!; try done; lia.
Qed.

(** A reference to a write buffer is given up or added. *)
Definition wbuf_dropped (w : Z) (b : wbuf) (W : gmap Z wbuf) : gmap Z wbuf :=
  if 0 <? w_refcount b then <[w := b]> W else delete w W.

Lemma res_drop_wbuf F E P W f b b' :
  res_ok F (f :: E) P W -> fd_kind f = FD_FILE -> fd_writable f <> 0 -> W !! fd_wbuf f = Some b ->
  w_refcount b' = w_refcount b - 1 -> res_ok F E P (wbuf_dropped (fd_wbuf f) b' W).
Proof.
  intros [HL HS HP HW] Hk Hwr Hb Hc. pose proof (buffers_self f Hk Hwr) as Hself.
  split; [done|done| |].
  - intros p. specialize (HP p). by rewrite !total_cons, kind_reads, kind_writes in HP by (by rewrite Hk).
  - intros w. pose proof (HW w) as Hw. rewrite total_cons in Hw. unfold wbuf_dropped. destruct (decide (w = fd_wbuf f)) as [->|Hne].
    + rewrite Hb, Hself in Hw. destruct Hw as (? & Hw & _). simpl in Hw. destruct (Z.ltb_spec 0 (w_refcount b')).
      * rewrite lookup_insert_eq. split; [done|]. lia.
      * rewrite lookup_delete_eq. assert (0 <= total (buffers (fd_wbuf f)) F E); [|lia].
        unfold total. pose proof (refs_nonneg (buffers (fd_wbuf f)) F). pose proof (count_nonneg (buffers (fd_wbuf f)) E). lia.
    + assert (buffers w f = false) as Hf.
      { unfold buffers. destruct (Z.eqb_spec (fd_wbuf f) w); [congruence|]. by rewrite andb_false_r. }
      rewrite Hf in Hw. by destruct (0 <? w_refcount b'); rewrite ?lookup_insert_ne, ?lookup_delete_ne by congruence.
Qed.

Lemma res_add_wbuf F E P W f b b' :
  res_ok F E P W -> fd_kind f = FD_FILE -> fd_writable f <> 0 -> W !! fd_wbuf f = Some b ->
  w_refcount b' = w_refcount b + 1 -> res_ok F (f :: E) P (<[fd_wbuf f := b']> W).
Proof.
  intros [HL HS HP HW] Hk Hwr Hb Hc. pose proof (buffers_self f Hk Hwr) as Hself.
  split; [done|done| |].
  - intros p. specialize (HP p). by rewrite !total_cons, kind_reads, kind_writes by (by rewrite Hk).
  - intros w. pose proof (HW w) as Hw. rewrite total_cons. destruct (decide (w = fd_wbuf f)) as [->|Hne].
    + rewrite Hb in Hw. destruct Hw as (? & Hw & ?). rewrite lookup_insert_eq, Hself. simpl. split; [done|]. lia.
    + assert (buffers w f = false) as ->.
      { unfold buffers. destruct (Z.eqb_spec (fd_wbuf f) w); [congruence|]. by rewrite andb_false_r. }
      by rewrite lookup_insert_ne by congruence.
Qed.

Lemma res_inert F E P W f : no_wbuf f -> no_end f -> res_ok F (f :: E) P W <-> res_ok F E P W.
Proof.
  intros H1 H2. split; intros H; (eapply res_ok_totals; [exact H|apply H|apply H|..]); intros x; rewrite total_cons;
    rewrite ?no_end_reads, ?no_end_writes, ?no_wbuf_buffers by done; simpl; lia.
Qed.

(** New objects, and a process that joins or leaves. *)
Lemma res_new_pipe F P W p : res_ok F [] P W -> P !! p = None -> p <> 0 ->
  forall f g, fd_kind f = FD_PIPE_READ -> fd_kind g = FD_PIPE_WRITE -> fd_pipe f = p -> fd_pipe g = p ->
  res_ok F [f; g] (<[p := pipe_init]> P) W.
Proof.
  intros [HL HS HP HW] Hp H0 f g Hf Hg Hfp Hgp. split; [done|done| |].
  - intros q. rewrite !total_cons, (reads_at q f), (writes_at q g), (kind_reads q g), (kind_writes q f)
      by (rewrite ?Hf, ?Hg; done). rewrite Hfp, Hgp. specialize (HP q). destruct (decide (q = p)) as [->|Hq].
    + rewrite Hp in HP. rewrite lookup_insert_eq, Z.eqb_refl. destruct HP as [-> ->]. simpl. split; [done|].
      split; [done|]. lia.
    + rewrite lookup_insert_ne by done. destruct (Z.eqb_spec p q); [congruence|]. by simpl.
  - intros w. rewrite !total_cons, !kind_buffers by (rewrite ?Hf, ?Hg; done). apply HW.
Qed.

Lemma res_new_wbuf F P W w b f : res_ok F [] P W -> W !! w = None -> w <> 0 -> w_refcount b = 1 ->
  fd_kind f = FD_FILE -> fd_writable f <> 0 -> fd_wbuf f = w -> res_ok F [f] P (<[w := b]> W).
Proof.
  intros [HL HS HP HW] Hw H0 Hc Hk Hwr Hfw. split; [done|done| |].
  - intros p. specialize (HP p). by rewrite !total_cons, kind_reads, kind_writes by (by rewrite Hk).
  - intros x. rewrite total_cons. specialize (HW x). destruct (decide (x = w)) as [->|Hx].
    + rewrite Hw in HW. rewrite lookup_insert_eq, HW. rewrite <- Hfw, buffers_self by done. simpl. rewrite Hfw. lia.
    + rewrite lookup_insert_ne by done. assert (buffers x f = false) as ->; [|done].
      unfold buffers. rewrite Hfw. destruct (Z.eqb_spec w x); [congruence|]. by rewrite andb_false_r.
Qed.

Lemma res_join F P W q l : res_ok F [] P W -> F !! q = None -> length l = MAX_FDS ->
  Z.of_nat (size F) + 1 < 134217728 -> (forall i f, l !! i = Some f -> no_wbuf f /\ no_end f) ->
  res_ok (<[q := l]> F) [] P W.
Proof.
  intros H Hq Hl Hs Hf. eapply res_ok_totals; [exact H|apply map_Forall_insert_2; [done|apply H]| |..].
  { rewrite map_size_insert_None by done. lia. }
  all: intros x; unfold total; rewrite refs_insert by done; rewrite (count_zero _ l); [lia|].
  all: intros i f Hi; destruct (Hf i f Hi); auto using no_end_reads, no_end_writes, no_wbuf_buffers.
Qed.

Lemma res_leave F P W q l : res_ok F [] P W -> F !! q = Some l ->
  (forall i f, l !! i = Some f -> no_wbuf f /\ no_end f) -> res_ok (delete q F) [] P W.
Proof.
  intros H Hq Hf. eapply res_ok_totals; [exact H|apply map_Forall_delete, H| |..].
  { rewrite map_size_delete, Hq. pose proof (ro_small _ _ _ _ H). simpl. lia. }
  all: intros x; unfold total; rewrite (refs_delete _ F q l) by done; rewrite (count_zero _ l); [lia|].
  all: intros i f Hi; destruct (Hf i f Hi); auto using no_end_reads, no_end_writes, no_wbuf_buffers.
Qed.

End KernInv.
