(* ===== verification/KernOps.v ===== *)
(** * What the kernel's helpers do to the invariant

    The scheduling part of the kernel's invariant, and one lemma per helper of Kern
    on the whole of it: waking, sleeping, closing and duplicating descriptors. *)

From S2P Require Import Prelude Pmm Heap Disk Fat32Names Fat32 Sched SchedProps SchedFrame Pipe Paging Elf Vfs Drivers Kern KernInv.

Module KernOps.

Import Fat32 Proc Sched SchedProps Frame Pipe Wbuf Paging Vfs Kern KernInv.

Abbreviation view := (list file_desc * (Z * Z))%type.

(** A process recorded in a pipe sleeps on that end of that pipe. *)
Definition slots_ok (V : gmap Z view) (N : gmap Z resume) (P : gmap Z pipe) : Prop :=
  forall p pi, P !! p = Some pi ->
  (blocked_reader pi <> 0 -> exists l b n,
     V !! blocked_reader pi = Some (l, (PROCESS_BLOCKED, BLOCK_PIPE_READ))
     /\ N !! blocked_reader pi = Some (RPipeRead p b n))
  /\ (blocked_writer pi <> 0 -> exists l b n w,
     V !! blocked_writer pi = Some (l, (PROCESS_BLOCKED, BLOCK_PIPE_WRITE))
     /\ N !! blocked_writer pi = Some (RPipeWrite p b n w)).

(** A process in the middle of a pipe operation still holds that end. *)
Definition holds_end (l : list file_desc) (r : option resume) : Prop :=
  match r with
  | Some (RPipeRead p _ _) => 0 < count (reads p) l
  | Some (RPipeWrite p _ _ _) => 0 < count (writes p) l
  | _ => True
  end.
Definition pend_ok (V : gmap Z view) (N : gmap Z resume) : Prop :=
  forall q l st rs, V !! q = Some (l, (st, rs)) -> st <> PROCESS_DEAD -> holds_end l (N !! q).

Lemma fdm_views s : fdm s = fst <$> views s.
Proof. unfold fdm, views. rewrite <- map_fmap_compose. done. Qed.

Lemma views_dom s s' : views s' = views s -> fdm s' = fdm s.
Proof. intros H. by rewrite !fdm_views, H. Qed.

(** Blocked processes stay as they are. *)
Lemma slots_change V V' N P : slots_ok V N P ->
  (forall q l rs, V !! q = Some (l, (PROCESS_BLOCKED, rs)) -> rs = BLOCK_PIPE_READ \/ rs = BLOCK_PIPE_WRITE ->
     (exists p pi, P !! p = Some pi /\ (blocked_reader pi = q \/ blocked_writer pi = q)) ->
     exists l', V' !! q = Some (l', (PROCESS_BLOCKED, rs))) ->
  slots_ok V' N P.
Proof.
  intros H Hk p pi Hp. destruct (H p pi Hp) as [Hr Hw]. split; intros H0.
  - destruct (Hr H0) as (l & b & n & HV & HN). destruct (Hk _ _ _ HV) as (l' & HV'); [by left|eauto|eauto 10].
  - destruct (Hw H0) as (l & b & n & w & HV & HN). destruct (Hk _ _ _ HV) as (l' & HV'); [by right|eauto|eauto 10].
Qed.

(** Clearing a slot, or dropping a pipe. *)
Lemma slots_pipe V N P p pi : slots_ok V N P ->
  (forall pi0, P !! p = Some pi0 -> (blocked_reader pi = 0 \/ blocked_reader pi = blocked_reader pi0)
     /\ (blocked_writer pi = 0 \/ blocked_writer pi = blocked_writer pi0)) ->
  (P !! p = None -> blocked_reader pi = 0 /\ blocked_writer pi = 0) ->
  slots_ok V N (<[p := pi]> P).
Proof.
  intros H Hs Hn q qi Hq. destruct (decide (p = q)) as [->|Hne].
  - rewrite lookup_insert_eq in Hq. injection Hq as <-. destruct (P !! q) as [pi0|] eqn:E.
    + destruct (Hs pi0 eq_refl) as [[H1|H1] [H2|H2]]; destruct (H q pi0 E) as [Hr Hw]; rewrite ?H1, ?H2; done || auto.
    + by destruct (Hn eq_refl) as [-> ->].
  - rewrite lookup_insert_ne in Hq by done. by apply H.
Qed.

Lemma slots_delete V N P p : slots_ok V N P -> slots_ok V N (delete p P).
Proof. intros H q qi Hq. apply lookup_delete_Some in Hq as [_ Hq]. by apply H. Qed.

Definition no_slot (P : gmap Z pipe) (q : Z) : Prop :=
  forall p pi, P !! p = Some pi -> blocked_reader pi <> q /\ blocked_writer pi <> q.

(** A process that is not asleep on a pipe is in no slot. *)
Lemma awake_no_slot V N P q l st rs : slots_ok V N P -> V !! q = Some (l, (st, rs)) -> q <> 0 ->
  st <> PROCESS_BLOCKED \/ (rs <> BLOCK_PIPE_READ /\ rs <> BLOCK_PIPE_WRITE) -> no_slot P q.
Proof.
  intros H HV H0 Hst p pi Hp. destruct (H p pi Hp) as [Hr Hw]. split; intros Hq.
  - destruct Hr as (l' & b & n & HV' & _); [congruence|]. rewrite Hq, HV in HV'. injection HV' as -> -> ->.
    destruct Hst as [?|[? _]]; done.
  - destruct Hw as (l' & b & n & w & HV' & _); [congruence|]. rewrite Hq, HV in HV'. injection HV' as -> -> ->.
    destruct Hst as [?|[_ ?]]; done.
Qed.

(** Whoever sleeps in one slot is in no other. *)
Lemma reader_unique V N P p pi : slots_ok V N P -> P !! p = Some pi -> blocked_reader pi <> 0 ->
  no_slot (<[p := set_reader 0 pi]> P) (blocked_reader pi).
Proof.
  intros H Hp H0 q qi Hq. destruct (H p pi Hp) as [Hr _]. destruct (Hr H0) as (l & b & n & _ & HN).
  destruct (decide (p = q)) as [->|Hne].
  - rewrite lookup_insert_eq in Hq. injection Hq as <-. simpl. split; [congruence|]. intros Hw.
    destruct (H q pi Hp) as [_ Hw']. destruct Hw' as (? & ? & ? & ? & _ & HN'); [congruence|].
    rewrite Hw in HN'. congruence.
  - rewrite lookup_insert_ne in Hq by done. destruct (H q qi Hq) as [Hr' Hw']. split; intros E.
    + destruct Hr' as (? & ? & ? & _ & HN'); [congruence|]. rewrite E in HN'. congruence.
    + destruct Hw' as (? & ? & ? & ? & _ & HN'); [congruence|]. rewrite E in HN'. congruence.
Qed.

Lemma writer_unique V N P p pi : slots_ok V N P -> P !! p = Some pi -> blocked_writer pi <> 0 ->
  no_slot (<[p := set_writer 0 pi]> P) (blocked_writer pi).
Proof.
  intros H Hp H0 q qi Hq. destruct (H p pi Hp) as [_ Hw]. destruct (Hw H0) as (l & b & n & w & _ & HN).
  destruct (decide (p = q)) as [->|Hne].
  - rewrite lookup_insert_eq in Hq. injection Hq as <-. simpl. split; [|congruence]. intros Hr.
    destruct (H q pi Hp) as [Hr' _]. destruct Hr' as (? & ? & ? & _ & HN'); [congruence|].
    rewrite Hr in HN'. congruence.
  - rewrite lookup_insert_ne in Hq by done. destruct (H q qi Hq) as [Hr' Hw']. split; intros E.
    + destruct Hr' as (? & ? & ? & _ & HN'); [congruence|]. rewrite E in HN'. congruence.
    + destruct Hw' as (? & ? & ? & ? & _ & HN'); [congruence|]. rewrite E in HN'. congruence.
Qed.

Lemma seg_ext m m' p l q : (forall x, x ∈ l -> m' !! x = m !! x) -> seg m p l q -> seg m' p l q.
Proof.
  revert p. induction l as [|x l IH]; intros p Hd Hl; [done|]. destruct Hl as (-> & H0 & r & Hr & Hl).
  split; [done|]. split; [done|]. exists r. rewrite Hd by (apply elem_of_cons; by left). split; [done|].
  apply IH; [|done]. intros y Hy. apply Hd, elem_of_cons. by right.
Qed.

Section Ops.
Context {D A : Type} `{BD : BlockDev D} `{KH : KernelHeap A} `{PS : PageShare A}.
Context `{L : Layout} `{M : Machine}.

Abbreviation kern := (kern (D := D) (A := A)).

(** Scheduling part of the invariant: queues with members [Q], the list [dead] at [d]
    that the reaper took over, and the processes asleep on the pipes [P]. *)
Record sk_ok (k : kern) (Q : list Z) (d : Z) (dead : list Z) (P : gmap Z pipe) : Prop := {
  sk_mem : members kernel_task_addr (k_sched k) Q;
  sk_null : procs (k_sched k) !! 0 = None;
  sk_nodup : NoDup (Q ++ dead);
  sk_dead : seg (procs (k_sched k)) d dead 0;
  sk_dstat : forall p, p ∈ dead -> stat (procs (k_sched k)) p = Some PROCESS_DEAD;
  sk_slots : slots_ok (views (k_sched k)) (k_pending k) P;
  sk_pend : pend_ok (views (k_sched k)) (k_pending k);
  sk_dom : forall q, is_Some (k_pending k !! q) -> is_Some (procs (k_sched k) !! q)
}.

(** Nothing happened but wake-ups: who runs, who has which descriptors, who sleeps
    where, and everything about processes outside the queues. *)
Record quiet (Q : list Z) (k k' : kern) : Prop := {
  qt_pend : k_pending k' = k_pending k;
  qt_fdm : fdm (k_sched k') = fdm (k_sched k);
  qt_cur : current_process (k_sched k') = current_process (k_sched k);
  qt_fg : foreground_process (k_sched k') = foreground_process (k_sched k);
  qt_out : forall y, y <> 0 -> (y ∉ Q) -> procs (k_sched k') !! y = procs (k_sched k) !! y
}.

Lemma quiet_refl Q k : quiet Q k k.
Proof. done. Qed.
Lemma quiet_trans Q k1 k2 k3 : quiet Q k1 k2 -> quiet Q k2 k3 -> quiet Q k1 k3.
Proof.
  intros [H1 H2 H3 H4 H5] [J1 J2 J3 J4 J5]. split; try congruence.
  intros y Hy Hq. by rewrite J5, H5.
Qed.

Lemma on_sched_inv {X} (m : st sched X) (k : kern) x k' : on_sched m k = Some (x, k') ->
  exists s', m (k_sched k) = Some (x, s') /\ k' = set_sched s' k.
Proof. unfold on_sched. destruct (m (k_sched k)) as [[y s']|]; [|done]. intros [= <- <-]. eauto. Qed.

Lemma on_fs_inv {X} (m : st fs X) (k : kern) x k' : on_fs m k = Some (x, k') -> exists f, k' = set_fs f k.
Proof. unfold on_fs. destruct (m (k_fs k)) as [[y f]|]; [|done]. intros [= <- <-]. eauto. Qed.

Lemma on_vm_inv {X} (m : st Paging.vm X) (k : kern) x k' : on_vm m k = Some (x, k') ->
  exists f v, k' = set_fs f (set_vm v k).
Proof. unfold on_vm. destruct (m _) as [[y v]|]; [|done]. intros [= <- <-]. eauto. Qed.

(** States that agree on what the invariant speaks of. *)
Definition same_core (k k' : kern) : Prop :=
  k_sched k' = k_sched k /\ k_pending k' = k_pending k.

Lemma sk_same k k' Q d dead P : same_core k k' -> sk_ok k Q d dead P -> sk_ok k' Q d dead P.
Proof. intros [H1 H2] [? ? ? ? ? ? ? ?]. split; rewrite ?H1, ?H2; done. Qed.

Lemma quiet_same Q k k' : same_core k k' -> quiet Q k k'.
Proof. intros [H1 H2]. split; by rewrite ?H1. Qed.

(** The common part of every scheduler operation that keeps the members. *)
Lemma sk_sched_step k Q d dead P (m : st sched unit) s' :
  sk_ok k Q d dead P -> only (fun x => x = 0 \/ x ∈ Q) (fun _ => True) m -> m (k_sched k) = Some (tt, s') ->
  members kernel_task_addr s' Q -> slots_ok (views s') (k_pending k) P -> pend_ok (views s') (k_pending k) ->
  (forall q, is_Some (views (k_sched k) !! q) -> is_Some (views s' !! q)) ->
  sk_ok (set_sched s' k) Q d dead P
  /\ forall y, y <> 0 -> (y ∉ Q) -> procs s' !! y = procs (k_sched k) !! y.
Proof.
  intros Hk Ho E Hm Hs Hp Hd. destruct Hk as [K1 K2 K3 K4 K5 K6 K7 K8].
  destruct (Ho _ _ _ (members_closed _ _ _ K1 K2) E) as (Hc & _ & Hout).
  assert (forall y, y <> 0 -> (y ∉ Q) -> procs s' !! y = procs (k_sched k) !! y) as Hout'.
  { intros y Hy Hq. apply Hout. by intros [?|?]. }
  assert (forall p, p ∈ dead -> procs s' !! p = procs (k_sched k) !! p) as Hdead.
  { intros p Hp'. apply Hout'.
    - intros ->. apply K5 in Hp'. unfold stat in Hp'. by rewrite K2 in Hp'.
    - intros Hq. apply NoDup_app in K3 as (_ & Hd' & _). by apply (Hd' p). }
  split; [|done]. split; simpl; try done.
  - apply Hc.
  - by eapply seg_ext.
  - intros p Hp'. unfold stat. rewrite Hdead by done. by apply K5.
  - intros q Hq. apply K8 in Hq. assert (is_Some (views (k_sched k) !! q)) as Hv.
    { unfold views. rewrite lookup_fmap. destruct Hq as [r ->]. by eexists. }
    apply Hd in Hv. unfold views in Hv. rewrite lookup_fmap in Hv. destruct (procs s' !! q); [done|].
    by destruct Hv.
Qed.

(** Waking a process that no pipe has recorded. *)
Lemma wake_sk k Q d dead P q r :
  sk_ok k Q d dead P -> procs (k_sched k) !! q = Some r -> q <> 0 -> no_slot P q ->
  exists k', on_sched (scheduler_wake q) k = Some (tt, k') /\ sk_ok k' Q d dead P /\ quiet Q k k'
  /\ exists s', k' = set_sched s' k.
Proof.
  intros Hk Hq H0 Hns. pose proof Hk as [K1 K2 K3 K4 K5 K6 K7 K8].
  destruct (wake_effect _ _ _ q r K1 Hq H0) as (s' & E & Hm & Hc & Hf & Hz & Hv).
  exists (set_sched s' k). unfold on_sched. rewrite E. split; [done|].
  destruct (Z.eqb_spec (p_state r) PROCESS_BLOCKED) as [Hst|Hst].
  2:{ assert (s' = k_sched k) as ->.
      { revert E. unfold scheduler_wake. destruct (Z.eqb_spec q 0); [done|]. sstep.
        destruct (Z.eqb_spec (p_state r) PROCESS_BLOCKED); [done|]. by intros [= <-]. }
      split; [by apply (sk_same k)|]. split; [by apply quiet_same|eauto]. }
  pose proof (views_lookup _ _ _ Hq) as Hvq.
  assert (q ∈ Q) as HqQ by (exact (members_blocked _ _ _ _ _ K1 Hq Hst)).
  destruct (sk_sched_step k Q d dead P _ s' Hk (only_wake (fun x => x = 0 \/ x ∈ Q) q (or_introl eq_refl) (or_intror HqQ)) E Hm) as [Hsk Hout].
  - rewrite Hv. eapply slots_change; [done|].
    intros x l rs Hx _ (p & pi & Hp & Hslot). rewrite lookup_insert_ne; [eauto|]. intros <-.
    destruct (Hns p pi Hp). naive_solver.
  - rewrite Hv. intros x l st rs. rewrite lookup_insert. destruct (decide (q = x)) as [<-|]; [|apply K7].
    intros [= <- <- <-] _. eapply K7; [exact Hvq|]. by rewrite Hst.
  - rewrite Hv. intros x Hx. rewrite lookup_insert. by destruct (decide (q = x)); [eexists|].
  - split; [done|]. split; [|eauto]. split; simpl; try done.
    rewrite !fdm_views, Hv, fmap_insert. apply insert_id. by rewrite lookup_fmap, Hvq.
Qed.


Lemma pipe_load_ok (k : kern) p pi : k_pipes k !! p = Some pi -> pipe_load p k = Some (pi, k).
Proof. unfold pipe_load. by intros ->. Qed.

Lemma pipe_load_inv (k : kern) p pi k' : pipe_load p k = Some (pi, k') -> k_pipes k !! p = Some pi /\ k' = k.
Proof. unfold pipe_load. destruct (k_pipes k !! p); [|done]. by intros [= <- <-]. Qed.

Lemma pipe_update_inv (k : kern) p f x k' : pipe_update p f k = Some (x, k') ->
  exists pi, k_pipes k !! p = Some pi /\ k' = set_pipes (<[p := f pi]> (k_pipes k)) k.
Proof.
  unfold pipe_update. intros H. apply bind_inv in H as (pi & k1 & H1 & H). apply pipe_load_inv in H1 as [Hp ->].
  injection H as _ <-. eauto.
Qed.

Lemma wake_writer_sk k Q d dead p pi k' :
  sk_ok k Q d dead (k_pipes k) -> k_pipes k !! p = Some pi -> wake_writer p k = Some (tt, k') ->
  sk_ok k' Q d dead (k_pipes k') /\ quiet Q k k' /\ k_wbufs k' = k_wbufs k
  /\ k_pipes k' = <[p := set_writer 0 pi]> (k_pipes k).
Proof.
  intros Hk Hp. unfold wake_writer. rewrite (bind_ok _ _ _ _ _ (pipe_load_ok _ _ _ Hp)).
  destruct (Z.eqb_spec (blocked_writer pi) 0) as [H0|H0].
  - intros [= <-]. split; [done|]. split; [done|]. split; [done|].
    rewrite insert_id; [done|]. rewrite Hp. f_equal. destruct pi. simpl in *. by subst.
  - cbn [negb]. pose proof Hk as [K1 K2 K3 K4 K5 K6 K7 K8].
    set (P' := <[p := set_writer 0 pi]> (k_pipes k)).
    assert (sk_ok k Q d dead P') as Hk'.
    { split; try done. apply slots_pipe; [done|..]; rewrite Hp; [|done]. intros pi0 [= <-]. simpl. auto. }
    destruct (sk_slots _ _ _ _ _ Hk p pi Hp) as [Hr Hw].
    assert (exists r, procs (k_sched k) !! blocked_writer pi = Some r) as [r Hq].
    { first [destruct (Hw H0) as (? & ? & ? & ? & HV & _) | destruct (Hr H0) as (? & ? & ? & HV & _)].
      unfold views in HV. rewrite lookup_fmap in HV. destruct (procs (k_sched k) !! blocked_writer pi) as [r|]; [by exists r|done]. }
    destruct (wake_sk k Q d dead P' _ r Hk' Hq H0) as (k1 & E1 & Hk1 & Hqt & s' & ->).
    { by eapply writer_unique. }
    rewrite (bind_ok _ _ _ _ _ E1). intros H. apply pipe_update_inv in H as (pi1 & Hpi1 & ->).
    simpl in Hpi1. rewrite Hp in Hpi1. injection Hpi1 as <-. fold P'.
    split; [by apply (sk_same (set_sched s' k))|]. split; [|done].
    eapply quiet_trans; [exact Hqt|]. by apply quiet_same.
Qed.

Lemma wake_reader_sk k Q d dead p pi k' :
  sk_ok k Q d dead (k_pipes k) -> k_pipes k !! p = Some pi -> wake_reader p k = Some (tt, k') ->
  sk_ok k' Q d dead (k_pipes k') /\ quiet Q k k' /\ k_wbufs k' = k_wbufs k
  /\ k_pipes k' = <[p := set_reader 0 pi]> (k_pipes k).
Proof.
  intros Hk Hp. unfold wake_reader. rewrite (bind_ok _ _ _ _ _ (pipe_load_ok _ _ _ Hp)).
  destruct (Z.eqb_spec (blocked_reader pi) 0) as [H0|H0].
  - intros [= <-]. split; [done|]. split; [done|]. split; [done|].
    rewrite insert_id; [done|]. rewrite Hp. f_equal. destruct pi. simpl in *. by subst.
  - cbn [negb]. pose proof Hk as [K1 K2 K3 K4 K5 K6 K7 K8].
    set (P' := <[p := set_reader 0 pi]> (k_pipes k)).
    assert (sk_ok k Q d dead P') as Hk'.
    { split; try done. apply slots_pipe; [done|..]; rewrite Hp; [|done]. intros pi0 [= <-]. simpl. auto. }
    destruct (sk_slots _ _ _ _ _ Hk p pi Hp) as [Hr Hw].
    assert (exists r, procs (k_sched k) !! blocked_reader pi = Some r) as [r Hq].
    { first [destruct (Hw H0) as (? & ? & ? & ? & HV & _) | destruct (Hr H0) as (? & ? & ? & HV & _)].
      unfold views in HV. rewrite lookup_fmap in HV. destruct (procs (k_sched k) !! blocked_reader pi) as [r|]; [by exists r|done]. }
    destruct (wake_sk k Q d dead P' _ r Hk' Hq H0) as (k1 & E1 & Hk1 & Hqt & s' & ->).
    { by eapply reader_unique. }
    rewrite (bind_ok _ _ _ _ _ E1). intros H. apply pipe_update_inv in H as (pi1 & Hpi1 & ->).
    simpl in Hpi1. rewrite Hp in Hpi1. injection Hpi1 as <-. fold P'.
    split; [by apply (sk_same (set_sched s' k))|]. split; [|done].
    eapply quiet_trans; [exact Hqt|]. by apply quiet_same.
Qed.

Lemma close_read_end_sk k Q d dead F E f k' :
  sk_ok k Q d dead (k_pipes k) -> res_ok F (f :: E) (k_pipes k) (k_wbufs k) -> (length E <= 7)%nat ->
  fd_kind f = FD_PIPE_READ -> close_read_end (fd_pipe f) k = Some (tt, k') ->
  sk_ok k' Q d dead (k_pipes k') /\ quiet Q k k' /\ res_ok F E (k_pipes k') (k_wbufs k')
  /\ k_wbufs k' = k_wbufs k.
Proof.
  intros Hk Hres HE Hkind. unfold close_read_end. set (p := fd_pipe f).
  intros H. apply bind_inv in H as (? & k1 & E1 & H). apply pipe_update_inv in E1 as (pi & Hpi & ->).
  pose proof (ro_pipe _ _ _ _ Hres p) as Hp. rewrite Hpi in Hp. destruct Hp as (Hp0 & Hpok & Hro & Hwo & _).
  pose proof (total_bound (reads p) _ _ _ _ Hres ltac:(simpl; lia)) as Hb1.
  pose proof (total_bound (writes p) _ _ _ _ Hres ltac:(simpl; lia)) as Hb2.
  assert (sk_ok (set_pipes (<[p := pipe_close_read pi]> (k_pipes k)) k) Q d dead (<[p := pipe_close_read pi]> (k_pipes k))) as Hk1.
  { apply (sk_same k); [done|]. destruct Hk. split; try done. apply slots_pipe; [done|..]; rewrite Hpi; [|done].
    intros pi0 [= <-]. simpl. auto. }
  apply bind_inv in H as ([] & k2 & E2 & H).
  destruct (wake_writer_sk _ Q d dead p (pipe_close_read pi) _ Hk1 ltac:(simpl; apply lookup_insert_eq) E2) as (Hk2 & Hqt & HW & HP).
  simpl in HP, HW. rewrite insert_insert_eq in HP. set (pi2 := set_writer 0 (pipe_close_read pi)) in *.
  assert (res_ok F E (ends_dropped p pi2 (k_pipes k)) (k_wbufs k)) as Hres2.
  { eapply res_drop_end; [exact Hres|by left|exact Hpi|done|..]; simpl; rewrite s32_small || idtac; fold p;
      rewrite ?reads_self, ?kind_writes by (rewrite ?Hkind; done); unfold p; rewrite ?reads_self, ?kind_writes by (rewrite ?Hkind; done);
      simpl; lia. }
  unfold destroy_if_unused in H. rewrite (bind_ok _ _ _ _ _ (pipe_load_ok _ p pi2 ltac:(rewrite HP; apply lookup_insert_eq))) in H.
  unfold ends_dropped in Hres2. destruct ((read_open pi2 <=? 0) && (write_open pi2 <=? 0)).
  - unfold pipe_destroy in H. destruct (Z.eqb_spec p 0); [done|]. apply bind_inv in H as (? & k3 & [= _ <-] & H).
    apply on_fs_inv in H as (g & ->). simpl. rewrite HP, delete_insert_eq, HW.
    split; [|split; [|split; [done|done]]].
    + apply (sk_same k2); [done|]. destruct Hk2 as [? ? ? ? ? S ? ?]. split; try done. rewrite HP in S.
      apply (slots_delete _ _ _ p) in S. by rewrite delete_insert_eq in S.
    + eapply quiet_trans; [|by apply (quiet_same _ k2)]. eapply quiet_trans; [|exact Hqt]. by apply quiet_same.
  - injection H as <-. rewrite HP, HW. split; [by rewrite <- HP|]. split; [|split; done].
    eapply quiet_trans; [|exact Hqt]. by apply quiet_same.
Qed.

Lemma close_write_end_sk k Q d dead F E f k' :
  sk_ok k Q d dead (k_pipes k) -> res_ok F (f :: E) (k_pipes k) (k_wbufs k) -> (length E <= 7)%nat ->
  fd_kind f = FD_PIPE_WRITE -> close_write_end (fd_pipe f) k = Some (tt, k') ->
  sk_ok k' Q d dead (k_pipes k') /\ quiet Q k k' /\ res_ok F E (k_pipes k') (k_wbufs k')
  /\ k_wbufs k' = k_wbufs k.
Proof.
  intros Hk Hres HE Hkind. unfold close_write_end. set (p := fd_pipe f).
  intros H. apply bind_inv in H as (? & k1 & E1 & H). apply pipe_update_inv in E1 as (pi & Hpi & ->).
  pose proof (ro_pipe _ _ _ _ Hres p) as Hp. rewrite Hpi in Hp. destruct Hp as (Hp0 & Hpok & Hro & Hwo & _).
  pose proof (total_bound (reads p) _ _ _ _ Hres ltac:(simpl; lia)) as Hb1.
  pose proof (total_bound (writes p) _ _ _ _ Hres ltac:(simpl; lia)) as Hb2.
  assert (sk_ok (set_pipes (<[p := pipe_close_write pi]> (k_pipes k)) k) Q d dead (<[p := pipe_close_write pi]> (k_pipes k))) as Hk1.
  { apply (sk_same k); [done|]. destruct Hk. split; try done. apply slots_pipe; [done|..]; rewrite Hpi; [|done].
    intros pi0 [= <-]. simpl. auto. }
  apply bind_inv in H as ([] & k2 & E2 & H).
  destruct (wake_reader_sk _ Q d dead p (pipe_close_write pi) _ Hk1 ltac:(simpl; apply lookup_insert_eq) E2) as (Hk2 & Hqt & HW & HP).
  simpl in HP, HW. rewrite insert_insert_eq in HP. set (pi2 := set_reader 0 (pipe_close_write pi)) in *.
  assert (res_ok F E (ends_dropped p pi2 (k_pipes k)) (k_wbufs k)) as Hres2.
  { eapply res_drop_end; [exact Hres|by right|exact Hpi|done|..]; simpl; rewrite s32_small || idtac; fold p;
      rewrite ?writes_self, ?kind_reads by (rewrite ?Hkind; done); unfold p; rewrite ?writes_self, ?kind_reads by (rewrite ?Hkind; done);
      simpl; lia. }
  unfold destroy_if_unused in H. rewrite (bind_ok _ _ _ _ _ (pipe_load_ok _ p pi2 ltac:(rewrite HP; apply lookup_insert_eq))) in H.
  unfold ends_dropped in Hres2. destruct ((read_open pi2 <=? 0) && (write_open pi2 <=? 0)).
  - unfold pipe_destroy in H. destruct (Z.eqb_spec p 0); [done|]. apply bind_inv in H as (? & k3 & [= _ <-] & H).
    apply on_fs_inv in H as (g & ->). simpl. rewrite HP, delete_insert_eq, HW.
    split; [|split; [|split; [done|done]]].
    + apply (sk_same k2); [done|]. destruct Hk2 as [? ? ? ? ? S ? ?]. split; try done. rewrite HP in S.
      apply (slots_delete _ _ _ p) in S. by rewrite delete_insert_eq in S.
    + eapply quiet_trans; [|by apply (quiet_same _ k2)]. eapply quiet_trans; [|exact Hqt]. by apply quiet_same.
  - injection H as <-. rewrite HP, HW. split; [by rewrite <- HP|]. split; [|split; done].
    eapply quiet_trans; [|exact Hqt]. by apply quiet_same.
Qed.

(** ** Descriptors *)

(** Changing a process's record without its state, links or block reason. *)
Lemma store_sk k Q d dead P q r r' :
  sk_ok k Q d dead P -> procs (k_sched k) !! q = Some r ->
  p_state r' = p_state r -> p_next r' = p_next r -> p_block_reason r' = p_block_reason r ->
  (p_state r <> PROCESS_DEAD -> holds_end (p_fds r') (k_pending k !! q)) ->
  sk_ok (set_sched (set_procs (<[q := r']> (procs (k_sched k))) (k_sched k)) k) Q d dead P.
Proof.
  intros [K1 K2 K3 K4 K5 K6 K7 K8] Hq Hst Hn Hb Hh. pose proof (views_lookup _ _ _ Hq) as Hv.
  assert (q <> 0) as Hq0 by congruence. split; cbn [k_sched k_pending set_sched]; try done.
  - by eapply store_effect.
  - simpl. by rewrite lookup_insert_ne.
  - simpl. by eapply seg_keep.
  - intros p Hp. simpl. rewrite stat_insert. destruct (decide (q = p)) as [->|]; [|by apply K5].
    pose proof (K5 p Hp) as H. unfold stat in H. rewrite Hq in H. simpl in H. congruence.
  - rewrite views_insert. eapply slots_change; [done|]. intros x l rs Hx _ _. rewrite lookup_insert.
    destruct (decide (q = x)) as [<-|]; [|eauto]. rewrite Hv in Hx. injection Hx as <- E1 E2.
    eexists. unfold vw. by rewrite Hst, Hb, E1, E2.
  - rewrite views_insert. intros x l st rs. rewrite lookup_insert. destruct (decide (q = x)) as [<-|]; [|apply K7].
    intros [= <- <- <-]. rewrite Hst. apply Hh.
  - intros x Hx. simpl. rewrite lookup_insert. destruct (decide (q = x)); [by eexists|]. by apply K8.
Qed.

Lemma proc_store_inv (k : kern) q f x k' : proc_store q f k = Some (x, k') ->
  exists r, procs (k_sched k) !! q = Some r
  /\ k' = set_sched (set_procs (<[q := f r]> (procs (k_sched k))) (k_sched k)) k.
Proof.
  unfold proc_store. intros H. apply on_sched_inv in H as (s' & H & ->). revert H. unfold store.
  destruct (procs (k_sched k) !! q) as [r|]; [|done]. intros [= _ <-]. eauto.
Qed.

Lemma proc_load_inv (k : kern) q r k' : proc_load q k = Some (r, k') -> procs (k_sched k) !! q = Some r /\ k' = k.
Proof.
  unfold proc_load. intros H. apply on_sched_inv in H as (s' & H & ->). revert H. unfold load.
  destruct (procs (k_sched k) !! q) as [r'|]; [|done]. intros [= <- <-]. split; [done|]. by destruct k.
Qed.

Lemma fd_load_inv (k : kern) q i f k' : fd_load q i k = Some (f, k') ->
  k' = k /\ exists r, procs (k_sched k) !! q = Some r /\ p_fds r !! i = Some f.
Proof.
  unfold fd_load. intros H. apply bind_inv in H as (r & k1 & H1 & H). apply proc_load_inv in H1 as [Hr ->].
  unfold lift_opt in H. destruct (p_fds r !! i) eqn:E; [|done]. injection H as -> <-. eauto.
Qed.

Lemma fdm_lookup s q r : procs s !! q = Some r -> fdm s !! q = Some (p_fds r).
Proof. intros H. unfold fdm. by rewrite lookup_fmap, H. Qed.

Lemma fdm_lookup_inv s q l : fdm s !! q = Some l -> exists r, procs s !! q = Some r /\ l = p_fds r.
Proof. unfold fdm. rewrite lookup_fmap. destruct (procs s !! q); [|done]. intros [= <-]. eauto. Qed.

Lemma fd_store_sk k Q d dead P q i f l k' :
  sk_ok k Q d dead P -> fdm (k_sched k) !! q = Some l -> fd_store q i f k = Some (tt, k') ->
  (stat (procs (k_sched k)) q <> Some PROCESS_DEAD -> holds_end (<[i := f]> l) (k_pending k !! q)) ->
  sk_ok k' Q d dead P /\ fdm (k_sched k') = <[q := <[i := f]> l]> (fdm (k_sched k))
  /\ k_pending k' = k_pending k /\ k_pipes k' = k_pipes k /\ k_wbufs k' = k_wbufs k
  /\ current_process (k_sched k') = current_process (k_sched k)
  /\ foreground_process (k_sched k') = foreground_process (k_sched k)
  /\ (forall x, stat (procs (k_sched k')) x = stat (procs (k_sched k)) x).
Proof.
  intros Hk Hl H Hh. apply proc_store_inv in H as (r & Hr & ->). rewrite (fdm_lookup _ _ _ Hr) in Hl. injection Hl as <-.
  split; [eapply store_sk; try done|].
  { intros Hd. simpl. apply Hh. unfold stat. rewrite Hr. simpl. congruence. }
  split; [unfold fdm; simpl; by rewrite fmap_insert|]. do 5 (split; [done|]).
  intros x. simpl. rewrite stat_insert. destruct (decide (q = x)) as [<-|]; [|done]. unfold stat. by rewrite Hr.
Qed.

Lemma wbuf_load_inv (k : kern) w b k' : wbuf_load w k = Some (b, k') -> k_wbufs k !! w = Some b /\ k' = k.
Proof. unfold wbuf_load. destruct (k_wbufs k !! w); [|done]. by intros [= <- <-]. Qed.

(** Dropping a reference to a write buffer; the flush only concerns the filesystem. *)
Lemma wbuf_unref_sk k F E f k' :
  res_ok F (f :: E) (k_pipes k) (k_wbufs k) -> (length E <= 7)%nat ->
  fd_kind f = FD_FILE -> fd_writable f <> 0 -> wbuf_unref (fd_wbuf f) k = Some (tt, k') ->
  same_core k k' /\ k_pipes k' = k_pipes k /\ res_ok F E (k_pipes k') (k_wbufs k').
Proof.
  intros Hres HE Hkind Hwr. pose proof (buffers_self f Hkind Hwr) as Hself.
  destruct (live_buffers _ _ _ _ (fd_wbuf f) Hres (total_pos_loose _ _ _ _ Hself)) as (b & Hb & H0).
  unfold wbuf_unref. destruct (Z.eqb_spec (fd_wbuf f) 0); [done|]. intros H.
  apply bind_inv in H as (b' & k1 & H1 & H). apply wbuf_load_inv in H1 as [Hb' ->].
  assert (b' = b) as -> by congruence.
  pose proof (ro_wbuf _ _ _ _ Hres (fd_wbuf f)) as Hw. rewrite Hb in Hw. destruct Hw as (_ & Hc & Hpos).
  pose proof (total_bound (buffers (fd_wbuf f)) _ _ _ _ Hres ltac:(simpl; lia)) as Hbd.
  unfold wbuf_drop in H. set (b1 := mk_wbuf _ _ _ _ _) in H.
  assert (w_refcount b1 = w_refcount b - 1) as Hc1 by (simpl; rewrite s32_small; lia).
  pose proof (res_drop_wbuf _ _ _ _ _ _ _ Hres Hkind Hwr Hb Hc1) as Hres'. unfold wbuf_dropped in Hres'.
  apply bind_inv in H as (? & k1 & [= _ <-] & H). destruct (0 <? w_refcount b1).
  - injection H as <-. done.
  - apply bind_inv in H as (? & k2 & H2 & H). unfold on_vfs in H2. apply on_fs_inv in H2 as (g & ->).
    apply bind_inv in H as (? & k3 & H3 & H). apply on_fs_inv in H3 as (g3 & ->).
    apply bind_inv in H as (? & k4 & [= _ <-] & H). apply on_fs_inv in H as (g4 & ->). simpl.
    split; [done|]. split; [done|]. by rewrite delete_insert_eq.
Qed.

(** What [f] refers to exists. *)
Definition live_fd (P : gmap Z pipe) (W : gmap Z wbuf) (f : file_desc) : Prop :=
  (fd_kind f = FD_PIPE_READ \/ fd_kind f = FD_PIPE_WRITE -> is_Some (P !! fd_pipe f))
  /\ (fd_kind f = FD_FILE -> fd_writable f <> 0 -> is_Some (W !! fd_wbuf f)).

Lemma table_live F E P W q l i f : res_ok F E P W -> F !! q = Some l -> l !! i = Some f -> live_fd P W f.
Proof.
  intros Hres Hq Hi. split.
  - intros [Hk|Hk].
    + destruct (live_reads _ _ _ _ (fd_pipe f) Hres) as (pi & ? & _); [|by eexists].
      eapply total_pos_table; [done..|by apply reads_self].
    + destruct (live_writes _ _ _ _ (fd_pipe f) Hres) as (pi & ? & _); [|by eexists].
      eapply total_pos_table; [done..|by apply writes_self].
  - intros Hk Hw. destruct (live_buffers _ _ _ _ (fd_wbuf f) Hres) as (b & ? & _); [|by eexists].
    eapply total_pos_table; [done..|by apply buffers_self].
Qed.

Lemma if_inv {X} (b : bool) (m : st kern X) x k r : (if b then m else ret x) k = Some r ->
  b = true /\ m k = Some r \/ b = false /\ r = (x, k).
Proof. destruct b; [by left|]. intros [= <-]. by right. Qed.

Lemma ref_fd_sk k Q d dead F E f k' :
  sk_ok k Q d dead (k_pipes k) -> res_ok F E (k_pipes k) (k_wbufs k) -> (length E <= 7)%nat ->
  live_fd (k_pipes k) (k_wbufs k) f -> ref_fd f k = Some (tt, k') ->
  same_core k k' /\ sk_ok k' Q d dead (k_pipes k') /\ res_ok F (f :: E) (k_pipes k') (k_wbufs k').
Proof.
  intros Hk Hres HE [HlP HlW]. unfold ref_fd. intros H.
  apply bind_inv in H as ([] & k1 & H1 & H). apply bind_inv in H as ([] & k2 & H2 & H3).
  assert (forall pi pi', k_pipes k !! fd_pipe f = Some pi ->
    blocked_reader pi' = blocked_reader pi -> blocked_writer pi' = blocked_writer pi ->
    sk_ok k Q d dead (<[fd_pipe f := pi']> (k_pipes k))) as Hsk.
  { intros pi pi' Hp E1 E2. destruct Hk. split; try done. apply slots_pipe; [done|..]; rewrite Hp; [|done].
    intros pi0 [= <-]. auto. }
  destruct (decide (fd_kind f = FD_FILE)) as [Hkd|Hkd1].
  { rewrite Hkd in H1, H2, H3. injection H2 as <-. injection H3 as <-. cbn [andb Z.eqb FD_FILE] in H1.
    change (1 =? 1) with true in H1. cbn [andb] in H1.
    destruct (Z.eqb_spec (fd_writable f) 0) as [Hw|Hw]; cbn [negb] in H1.
    - injection H1 as <-. split; [done|]. split; [done|]. apply res_inert; [by intros _| |done].
      split; by rewrite Hkd.
    - destruct (HlW Hkd Hw) as [b Hb].
      pose proof (ro_wbuf _ _ _ _ Hres (fd_wbuf f)) as Hwb. rewrite Hb in Hwb. destruct Hwb as (H0 & Hc & _).
      pose proof (total_bound (buffers (fd_wbuf f)) _ _ _ _ Hres ltac:(lia)) as Hbd.
      unfold wbuf_ref in H1. destruct (Z.eqb_spec (fd_wbuf f) 0); [done|].
      apply bind_inv in H1 as (b' & k1' & H1' & H1). apply wbuf_load_inv in H1' as [Hb' ->].
      assert (b' = b) as -> by congruence. injection H1 as <-. split; [done|].
      split; [by apply (sk_same k)|]. simpl. eapply res_add_wbuf; try done. simpl. rewrite s32_small; lia. }
  assert (k1 = k) as ->.
  { destruct (Z.eqb_spec (fd_kind f) FD_FILE); [done|]. by injection H1 as <-. }
  destruct (decide (fd_kind f = FD_PIPE_READ)) as [Hkd|Hkd2].
  { rewrite Hkd in H2, H3. injection H3 as <-. destruct (HlP (or_introl Hkd)) as [pi Hpi].
    pose proof (ro_pipe _ _ _ _ Hres (fd_pipe f)) as Hp. rewrite Hpi in Hp. destruct Hp as (H0 & Hok & Hr & Hw & _).
    pose proof (total_bound (reads (fd_pipe f)) _ _ _ _ Hres ltac:(lia)) as Hbd.
    change (FD_PIPE_READ =? FD_PIPE_READ) with true in H2. destruct (Z.eqb_spec (fd_pipe f) 0); [done|].
    cbn [andb negb] in H2. apply pipe_update_inv in H2 as (pi' & Hpi' & ->). assert (pi' = pi) as -> by congruence.
    split; [done|]. split; [apply (sk_same k); [done|]; by eapply Hsk|]. simpl.
    eapply res_add_end; [done|by left|done|done|..]; simpl; rewrite ?reads_self, ?kind_writes by (rewrite ?Hkd; done);
      simpl; rewrite ?s32_small; lia. }
  assert (k2 = k) as ->.
  { destruct (Z.eqb_spec (fd_kind f) FD_PIPE_READ); [done|]. by injection H2 as <-. }
  destruct (decide (fd_kind f = FD_PIPE_WRITE)) as [Hkd|Hkd3].
  { rewrite Hkd in H3. destruct (HlP (or_intror Hkd)) as [pi Hpi].
    pose proof (ro_pipe _ _ _ _ Hres (fd_pipe f)) as Hp. rewrite Hpi in Hp. destruct Hp as (H0 & Hok & Hr & Hw & _).
    pose proof (total_bound (writes (fd_pipe f)) _ _ _ _ Hres ltac:(lia)) as Hbd.
    change (FD_PIPE_WRITE =? FD_PIPE_WRITE) with true in H3. destruct (Z.eqb_spec (fd_pipe f) 0); [done|].
    cbn [andb negb] in H3. apply pipe_update_inv in H3 as (pi' & Hpi' & ->). assert (pi' = pi) as -> by congruence.
    split; [done|]. split; [apply (sk_same k); [done|]; by eapply Hsk|]. simpl.
    eapply res_add_end; [done|by right|done|done|..]; simpl; rewrite ?writes_self, ?kind_reads by (rewrite ?Hkd; done);
      simpl; rewrite ?s32_small; lia. }
  destruct (Z.eqb_spec (fd_kind f) FD_PIPE_WRITE); [done|]. injection H3 as <-.
  split; [done|]. split; [done|]. apply res_inert; [by intros ?|by split|done].
Qed.

(** ** Closing all descriptors of a process *)

(** The whole invariant. *)
Definition inv (k : kern) (Q : list Z) (d : Z) (dead : list Z) : Prop :=
  sk_ok k Q d dead (k_pipes k) /\ res_ok (fdm (k_sched k)) [] (k_pipes k) (k_wbufs k).

(** What closing the descriptors of [q] keeps. *)
Record closing (Q : list Z) (q : Z) (k k' : kern) : Prop := {
  cg_pend : k_pending k' = k_pending k;
  cg_cur : current_process (k_sched k') = current_process (k_sched k);
  cg_fg : foreground_process (k_sched k') = foreground_process (k_sched k);
  cg_fds : forall x, x <> q -> fdm (k_sched k') !! x = fdm (k_sched k) !! x;
  cg_out : forall y, y <> 0 -> y <> q -> (y ∉ Q) -> procs (k_sched k') !! y = procs (k_sched k) !! y;
  cg_stat : (q ∉ Q) -> stat (procs (k_sched k')) q = stat (procs (k_sched k)) q
}.

Lemma closing_refl Q q k : closing Q q k k.
Proof. done. Qed.
Lemma closing_trans Q q k1 k2 k3 : closing Q q k1 k2 -> closing Q q k2 k3 -> closing Q q k1 k3.
Proof.
  intros [H1 H2 H3 H4 H5 H6] [J1 J2 J3 J4 J5 J6]. split; try congruence.
  - intros x Hx. by rewrite J4, H4.
  - intros y Hy Hq Hn. by rewrite J5, H5.
  - intros Hq. by rewrite J6, H6.
Qed.

(** [q] will not go on inside a pipe operation. *)
Definition quits (k : kern) (Q : list Z) (q : Z) : Prop :=
  k_pending k !! q = None \/ (q ∉ Q) /\ stat (procs (k_sched k)) q = Some PROCESS_DEAD.

Lemma quits_closing k k' Q q : quits k Q q -> closing Q q k k' -> quits k' Q q.
Proof. intros [H|[H1 H2]] [C1 _ _ _ _ C6]; [left; congruence|right]. split; [done|]. by rewrite C6. Qed.

Lemma quiet_closing k k' Q q : quiet Q k k' -> q <> 0 -> closing Q q k k'.
Proof.
  intros [H1 H2 H3 H4 H5] H0. split; try done.
  - intros x _. by rewrite H2.
  - intros y Hy _ Hn. by apply H5.
  - intros Hq. unfold stat. by rewrite H5.
Qed.

(** Clearing slot [i] of [q] after its object was released. *)
Lemma clear_slot k k1 k' Q d dead q i l f g :
  sk_ok k1 Q d dead (k_pipes k1) -> quiet Q k k1 -> q <> 0 -> quits k Q q ->
  fdm (k_sched k) !! q = Some l -> l !! i = Some f ->
  res_ok (<[q := <[i := g]> l]> (fdm (k_sched k))) [] (k_pipes k1) (k_wbufs k1) ->
  fd_store q i g k1 = Some (tt, k') ->
  inv k' Q d dead /\ closing Q q k k' /\ fdm (k_sched k') !! q = Some (<[i := g]> l).
Proof.
  intros Hk1 Hqt H0 Hquit Hl Hi Hres H.
  assert (quits k1 Q q) as Hq1 by (eapply quits_closing; [done|by apply quiet_closing]).
  assert (fdm (k_sched k1) !! q = Some l) as Hl1 by (by rewrite (qt_fdm _ _ _ Hqt)).
  destruct (fd_store_sk k1 Q d dead _ q i g l k' Hk1 Hl1 H) as (Hk' & Hf & Hp & HP & HW & Hc & Hfg & Hst).
  { intros Hd. destruct Hq1 as [-> |[_ ?]]; done. }
  rewrite (qt_fdm _ _ _ Hqt) in Hf. split; [split|split].
  - by rewrite HP.
  - by rewrite Hf, HP, HW.
  - eapply closing_trans; [by apply quiet_closing|]. split; try done.
    + intros x Hx. rewrite Hf, (qt_fdm _ _ _ Hqt). by rewrite lookup_insert_ne by congruence.
    + intros y Hy Hyq _. apply proc_store_inv in H as (r & Hr & ->). simpl. by rewrite lookup_insert_ne by congruence.
  - rewrite Hf. apply lookup_insert_eq.
Qed.

(** Result of a round of a closing loop at slot [i]. *)
Definition slot_closed (q : Z) (i : nat) (good : file_desc -> Prop) (k k' : kern) : Prop :=
  exists l l', fdm (k_sched k) !! q = Some l /\ fdm (k_sched k') !! q = Some l'
  /\ (forall j, j <> i -> l' !! j = l !! j)
  /\ (forall f, l' !! i = Some f -> good f)
  /\ (forall f, l' !! i = Some f -> l !! i = Some f \/ no_wbuf f /\ no_end f).

Lemma slot_same q i good (k : kern) l f : fdm (k_sched k) !! q = Some l -> l !! i = Some f -> good f ->
  slot_closed q i good k k.
Proof.
  intros Hl Hi Hg. exists l, l. do 3 (split; [done|]). split; [|by left]. intros f' Hf'. congruence.
Qed.

Lemma slot_update q i (good : file_desc -> Prop) (k k' : kern) l g : fdm (k_sched k) !! q = Some l ->
  fdm (k_sched k') !! q = Some (<[i := g]> l) -> good g -> no_wbuf g -> no_end g -> slot_closed q i good k k'.
Proof.
  intros Hl Hl' Hg H1 H2. eexists l, _. split; [done|]. split; [done|].
  assert (forall f, <[i := g]> l !! i = Some f -> f = g) as Hfg.
  { intros f. destruct (decide (i < length l)%nat); [rewrite list_lookup_insert_eq by done; congruence|].
    rewrite lookup_ge_None_2 by (rewrite length_insert; lia). done. }
  split; [intros j Hj; by rewrite list_lookup_insert_ne|]. split; intros f Hf; apply Hfg in Hf as ->; [done|by right].
Qed.

Lemma close_writable_fd_inv k Q d dead q i k' :
  inv k Q d dead -> q <> 0 -> quits k Q q -> close_writable_fd q i k = Some (tt, k') ->
  inv k' Q d dead /\ closing Q q k k' /\ slot_closed q i no_wbuf k k'.
Proof.
  intros [Hk Hres] H0 Hquit. unfold close_writable_fd. intros H.
  apply bind_inv in H as (f & k1 & H1 & H). apply fd_load_inv in H1 as (-> & r & Hr & Hi).
  pose proof (fdm_lookup _ _ _ Hr) as Hl. destruct (decide (no_wbuf f)) as [Hn|Hn].
  - assert (k' = k) as ->.
    { destruct (Z.eqb_spec (fd_kind f) FD_FILE) as [Hkd|]; [|by injection H as <-].
      rewrite (Hn Hkd) in H. by injection H as <-. }
    split; [by split|]. split; [done|]. by eapply slot_same.
  - assert (fd_kind f = FD_FILE /\ fd_writable f <> 0) as [Hkd Hw].
    { destruct (decide (fd_kind f = FD_FILE)) as [Hkd|]; [|by destruct Hn; intros ?].
      split; [done|]. intros Hw. apply Hn. by intros _. }
    set (g := mk_fd FD_NONE _ _ _ _ _ _ _ _) in H.
    assert (no_wbuf g /\ no_end g) as [Hg1 Hg2] by done.
    destruct (table_live _ _ _ _ _ _ _ _ Hres Hl Hi) as [_ [b Hb]]; [done|done|].
    pose proof (ro_wbuf _ _ _ _ Hres (fd_wbuf f)) as Hwb. rewrite Hb in Hwb. destruct Hwb as (Hw0 & _).
    rewrite Hkd in H. change (FD_FILE =? FD_FILE) with true in H.
    destruct (Z.eqb_spec (fd_writable f) 0); [done|]. destruct (Z.eqb_spec (fd_wbuf f) 0); [done|].
    cbn [andb negb] in H. apply bind_inv in H as ([] & k1 & H1 & H).
    pose proof (res_move_out _ _ _ _ _ _ _ _ g Hres Hl Hi Hg1 Hg2) as Hout.
    destruct (wbuf_unref_sk _ _ _ _ _ Hout ltac:(simpl; lia) Hkd Hw H1) as (Hsame & HP & Hres1).
    destruct (clear_slot k k1 k' Q d dead q i (p_fds r) f g) as (Hinv & Hcl & Hl'); try done.
    + rewrite HP. by apply (sk_same k).
    + by apply quiet_same.
    + split; [done|]. split; [done|]. by eapply slot_update.
Qed.

Lemma close_pipe_fd_inv k Q d dead q i k' :
  inv k Q d dead -> q <> 0 -> quits k Q q -> close_pipe_fd q i k = Some (tt, k') ->
  inv k' Q d dead /\ closing Q q k k' /\ slot_closed q i no_end k k'.
Proof.
  intros [Hk Hres] H0 Hquit. unfold close_pipe_fd. intros H.
  apply bind_inv in H as (f & k1 & H1 & H). apply fd_load_inv in H1 as (-> & r & Hr & Hi).
  pose proof (fdm_lookup _ _ _ Hr) as Hl. destruct (decide (no_end f)) as [Hn|Hn].
  - assert (k' = k) as ->.
    { destruct (fd_pipe f =? 0); [by injection H as <-|]. destruct Hn as [N1 N2].
      destruct (Z.eqb_spec (fd_kind f) FD_PIPE_READ); [done|].
      destruct (Z.eqb_spec (fd_kind f) FD_PIPE_WRITE); [done|]. by injection H as <-. }
    split; [by split|]. split; [done|]. by eapply slot_same.
  - assert (fd_kind f = FD_PIPE_READ \/ fd_kind f = FD_PIPE_WRITE) as Hkd.
    { destruct (decide (fd_kind f = FD_PIPE_READ)); [by left|]. destruct (decide (fd_kind f = FD_PIPE_WRITE)); [by right|].
      by destruct Hn. }
    assert (no_wbuf (no_pipe f) /\ no_end (no_pipe f)) as [Hg1 Hg2] by done.
    destruct (table_live _ _ _ _ _ _ _ _ Hres Hl Hi) as [Hpl _]. destruct (Hpl Hkd) as [pi Hpi].
    pose proof (ro_pipe _ _ _ _ Hres (fd_pipe f)) as Hp. rewrite Hpi in Hp. destruct Hp as (Hp0 & _).
    destruct (Z.eqb_spec (fd_pipe f) 0); [done|].
    pose proof (res_move_out _ _ _ _ _ _ _ _ (no_pipe f) Hres Hl Hi Hg1 Hg2) as Hout.
    assert (exists k1, sk_ok k1 Q d dead (k_pipes k1) /\ quiet Q k k1
      /\ res_ok (<[q := <[i := no_pipe f]> (p_fds r)]> (fdm (k_sched k))) [] (k_pipes k1) (k_wbufs k1)
      /\ fd_store q i (no_pipe f) k1 = Some (tt, k')) as (k1 & Hk1 & Hqt & Hres1 & Hst).
    { destruct Hkd as [Hkd|Hkd]; rewrite Hkd in H; cbn in H; apply bind_inv in H as ([] & k1 & H1 & H); exists k1.
      - destruct (close_read_end_sk _ _ _ _ _ _ _ _ Hk Hout ltac:(simpl; lia) Hkd H1) as (? & ? & ? & _). done.
      - destruct (close_write_end_sk _ _ _ _ _ _ _ _ Hk Hout ltac:(simpl; lia) Hkd H1) as (? & ? & ? & _). done. }
    destruct (clear_slot k k1 k' Q d dead q i (p_fds r) f (no_pipe f)) as (Hinv & Hcl & Hl'); try done.
    split; [done|]. split; [done|]. by eapply slot_update.
Qed.

End Ops.
End KernOps.
