(* ===== verification/KernFrame.v ===== *)
(** * What parts of the kernel leave alone

    A small logic of frames: [resp R m] says that [m] relates its states by the
    preorder [R].  With it: which operations do not touch the scheduler, the pipes and
    the write buffers at all, and that no operation changes a process's pid. *)

From S2P Require Import Prelude Pmm Heap Disk Fat32Names Fat32 Sched SchedProps SchedFrame Pipe Paging Elf Vfs Drivers Kern Syscall KernInv KernOps.

Module KernFrame.

Import Fat32 Proc Sched SchedProps Frame Pipe Wbuf Paging Elf Vfs Kbd Kern Syscall KernInv KernOps.

(** ** The logic *)

Definition resp {S X} (R : S -> S -> Prop) (m : st S X) : Prop :=
  forall s x s', m s = Some (x, s') -> R s s'.

Section Rules.
Context {S : Type} (R : S -> S -> Prop) `{HR : !PreOrder R}.

Lemma resp_ret {X} (x : X) : resp R (ret x).
Proof. intros s y s' [= _ <-]. done. Qed.
Lemma resp_undef {X} : resp R (undef (A := X)).
Proof. intros s y s' H. done. Qed.
Lemma resp_bind {X Y} (m : st S X) (k : X -> st S Y) : resp R m -> (forall x, resp R (k x)) -> resp R (bind m k).
Proof. intros Hm Hk s y s' (x & s1 & H1 & H2)%bind_inv. etrans; [by eapply Hm|by eapply Hk]. Qed.
Lemma resp_gets {X} (f : S -> X) : resp R (gets f).
Proof. intros s y s' [= _ <-]. done. Qed.
Lemma resp_lift {X} (o : option X) : resp R (lift_opt o).
Proof. intros s y s'. unfold lift_opt. destruct o; [|done]. intros [= _ <-]. done. Qed.
Lemma resp_modify f : (forall s, R s (f s)) -> resp R (modify f).
Proof. intros Hf s y s' [= _ <-]. done. Qed.
End Rules.

Create HintDb frame.

(** Decompose the program; [frame] knows the operations. *)
Ltac resp_step :=
  match goal with
  | |- resp _ (ret _) => apply resp_ret; apply _
  | |- resp _ undef => apply resp_undef
  | |- resp _ (bind _ _) => apply resp_bind; [apply _| |intros]
  | |- resp _ (gets _) => apply resp_gets; apply _
  | |- resp _ (lift_opt _) => apply resp_lift; apply _
  | |- resp _ (let _ := _ in _) => cbv zeta
  | |- resp _ (if ?b then _ else _) => destruct b
  | |- resp _ (match ?x with _ => _ end) => destruct x
  | |- resp _ _ => solve [eauto with frame]
  end.
Ltac resp_auto := repeat resp_step.

(** ** Scheduler operations *)

(** Searches only read. *)
Abbreviation reads_only := (resp (S := sched) eq).

Lemma load_reads p : reads_only (load p).
Proof. intros s r s'. unfold load. destruct (procs s !! p); [|done]. by intros [= _ <-]. Qed.
#[local] Hint Resolve load_reads : frame.

Lemma find_ring_reads fuel test rq p : reads_only (find_ring fuel test rq p).
Proof. revert p. induction fuel as [|n IH]; intros p; simpl; resp_auto. Qed.
Lemma find_list_reads fuel test p : reads_only (find_list fuel test p).
Proof. revert p. induction fuel as [|n IH]; intros p; simpl; resp_auto. Qed.
Lemma ring_search_reads test : reads_only (ring_search test).
Proof. unfold ring_search. resp_auto. apply find_ring_reads. Qed.
Lemma blocked_search_reads test : reads_only (blocked_search test).
Proof. unfold blocked_search. resp_auto. apply find_list_reads. Qed.
Lemma find_any_reads pid : reads_only (scheduler_find_any pid).
Proof. unfold scheduler_find_any. resp_auto; [apply ring_search_reads|apply blocked_search_reads]. Qed.
Lemma find_reads pid : reads_only (scheduler_find pid).
Proof. apply ring_search_reads. Qed.
Lemma has_child_reads pid : reads_only (scheduler_has_child pid).
Proof. unfold scheduler_has_child. resp_auto; [apply ring_search_reads|apply blocked_search_reads]. Qed.
Lemma for_each_ring_reads {X} (fuel : nat) (fn : process -> X -> X) rq p x : reads_only (for_each_ring fuel fn rq p x).
Proof. revert p x. induction fuel as [|n IH]; intros p x; simpl; resp_auto. Qed.
Lemma for_each_reads {X} (fn : process -> X -> X) x : reads_only (scheduler_for_each fn x).
Proof. unfold scheduler_for_each. resp_auto. apply for_each_ring_reads. Qed.
Lemma gets_reads {X} (f : sched -> X) : reads_only (gets f).
Proof. apply resp_gets. apply _. Qed.

(** Pids never change. *)
Definition pids (s s' : sched) : Prop := forall q, p_pid <$> procs s' !! q = p_pid <$> procs s !! q.
#[export] Instance pids_pre : PreOrder pids.
Proof. split; [done|]. intros s1 s2 s3 H1 H2 q. by rewrite H2. Qed.

Lemma reads_pids {X} (m : st sched X) : reads_only m -> resp pids m.
Proof. intros H s x s' E. by rewrite (H _ _ _ E). Qed.
Lemma store_pids p f : (forall r, p_pid (f r) = p_pid r) -> resp pids (store p f).
Proof.
  intros Hf s x s'. unfold store. destruct (procs s !! p) as [r|] eqn:E; [|done]. intros [= _ <-] q. simpl.
  rewrite lookup_insert. destruct (decide (p = q)) as [<-|]; [|done]. rewrite E. simpl. by rewrite Hf.
Qed.
Lemma modify_pids f : (forall s, procs (f s) = procs s) -> resp pids (modify f).
Proof. intros Hf. apply resp_modify. intros s q. by rewrite Hf. Qed.

Ltac pids_step :=
  first [ apply store_pids; done | apply modify_pids; done | apply reads_pids, load_reads | resp_step ].
Ltac pids_auto := repeat pids_step.

Lemma find_prev_pids fuel proc rq p : resp pids (find_prev fuel proc rq p).
Proof. revert p. induction fuel as [|n IH]; intros p; simpl; pids_auto. Qed.
Lemma find_before_pids fuel proc p : resp pids (find_before fuel proc p).
Proof. revert p. induction fuel as [|n IH]; intros p; simpl; pids_auto. Qed.
#[local] Hint Resolve find_prev_pids find_before_pids : frame.
Lemma add_pids p : resp pids (scheduler_add p).
Proof. unfold scheduler_add. pids_auto. Qed.
Lemma remove_pids p : resp pids (scheduler_remove p).
Proof. unfold scheduler_remove. pids_auto. Qed.
#[local] Hint Resolve add_pids remove_pids : frame.
Lemma wake_pids p : resp pids (scheduler_wake p).
Proof. unfold scheduler_wake. pids_auto. Qed.
Lemma switch_pids : resp pids scheduler_switch.
Proof. unfold scheduler_switch, process_zombie_add, switch_context. pids_auto. Qed.
#[local] Hint Resolve wake_pids switch_pids : frame.
Lemma tick_pids : resp pids scheduler_tick.
Proof. unfold scheduler_tick. pids_auto. Qed.
Lemma block_pids reason target : resp pids (block_and_switch reason target).
Proof. unfold block_and_switch, scheduler_block. pids_auto. Qed.
Lemma die_pids : resp pids die_and_switch.
Proof. unfold die_and_switch. pids_auto. Qed.
Lemma kill_pids p : resp pids (kill_proc p).
Proof. unfold kill_proc, process_zombie_add. pids_auto. Qed.
Lemma wake_waiter_pids a b : resp pids (scheduler_wake_waiter a b).
Proof. unfold scheduler_wake_waiter. pids_auto. apply reads_pids, blocked_search_reads. Qed.

(** ** Kernel operations *)

Section Kernel.
Context {D A : Type} `{BD : BlockDev D} `{KH : KernelHeap A} `{PS : PageShare A}.
Context `{L : Layout} `{M : Machine}.

Abbreviation kern := (kern (D := D) (A := A)).

(** Nothing that the invariant speaks of changes. *)
Definition calmly (k k' : kern) : Prop :=
  same_core k k' /\ k_pipes k' = k_pipes k /\ k_wbufs k' = k_wbufs k.

#[export] Instance calmly_pre : PreOrder calmly.
Proof.
  split; [done|]. intros k1 k2 k3 ((H1 & H2) & H3 & H4) ((J1 & J2) & J3 & J4).
  split; [split|split]; congruence.
Qed.

Abbreviation calm := (resp calmly).

Lemma calm_fs {X} (m : st fs X) : calm (on_fs m).
Proof. intros k x k' (f & ->)%on_fs_inv. done. Qed.
Lemma calm_vfs {X} (m : option (vfs_ops fs) -> st fs X) : calm (on_vfs m).
Proof. intros k x k' H. by eapply calm_fs. Qed.
Lemma calm_vm {X} (m : st vm X) : calm (on_vm m).
Proof. intros k x k' (f & v & ->)%on_vm_inv. done. Qed.
Lemma calm_read {X} (m : st sched X) : reads_only m -> calm (on_sched m).
Proof. intros Hm k x k' (s & E & ->)%on_sched_inv. rewrite <- (Hm _ _ _ E). done. Qed.
Lemma calm_modify f : (forall k, calmly k (f k)) -> calm (modify f).
Proof. apply resp_modify. Qed.
Lemma calm_drain len : calm (drain_keys len).
Proof. intros k x k'. unfold drain_keys. destruct (take_keys _ _). by intros [= _ <-]. Qed.
Lemma calm_touch buf n : calm (touch buf n).
Proof. intros k x k'. unfold touch. destruct (forallb _ _); [|done]. by intros [= _ <-]. Qed.
Lemma calm_get a : calm (get_user a).
Proof. intros k x k'. unfold get_user. destruct (user_addr k a); [|done]. by intros [= _ <-]. Qed.
Lemma calm_put a v : calm (put_user a v).
Proof. intros k x k'. unfold put_user. destruct (user_addr k a); [|done]. by intros [= _ <-]. Qed.
Lemma calm_pipe_load p : calm (pipe_load p).
Proof. intros k x k' [_ ->]%pipe_load_inv. done. Qed.
Lemma calm_wbuf_load p : calm (wbuf_load p).
Proof. intros k x k' [_ ->]%wbuf_load_inv. done. Qed.
Lemma calm_cr3 : calm load_cr3.
Proof. intros k x k' [= _ <-]. done. Qed.
Lemma calm_push sp l : calm (push_stack sp l).
Proof. intros k x k'. unfold push_stack. destruct (push_all _ _ _). by intros [= _ <-]. Qed.

#[local] Hint Resolve calm_fs calm_vfs calm_vm calm_drain calm_touch calm_get calm_put
  calm_pipe_load calm_wbuf_load calm_cr3 calm_push : frame.
#[local] Hint Resolve load_reads find_any_reads find_reads has_child_reads for_each_reads gets_reads : frame.
#[local] Hint Extern 2 (calm (on_sched _)) => apply calm_read : frame.
#[local] Hint Extern 2 (calm (modify _)) => apply calm_modify; done : frame.

Lemma calm_current : calm current.
Proof. apply calm_read, gets_reads. Qed.
Lemma calm_proc_load p : calm (proc_load p).
Proof. apply calm_read, load_reads. Qed.
Lemma calm_kmalloc n : calm (kmalloc n).
Proof. apply calm_fs. Qed.
Lemma calm_kfree n : calm (kfree n).
Proof. apply calm_fs. Qed.
Lemma calm_terminal n : calm (terminal n).
Proof. apply calm_fs. Qed.
#[local] Hint Resolve calm_current calm_proc_load calm_kmalloc calm_kfree calm_terminal : frame.

Lemma calm_fd_load p i : calm (fd_load p i).
Proof. unfold fd_load. resp_auto. Qed.
Lemma calm_lookup fd : calm (lookup_fd fd).
Proof. unfold lookup_fd. resp_auto. apply calm_fd_load. Qed.
Lemma calm_put_bytes a l : calm (put_bytes_at a l).
Proof. revert a. induction l as [|c l IH]; intros a; simpl; resp_auto. Qed.
#[local] Hint Resolve calm_fd_load calm_lookup calm_put_bytes : frame.
Lemma calm_put32 a v : calm (put_user32 a v).
Proof. apply calm_put_bytes. Qed.
Lemma calm_get32 a : calm (get_user32 a).
Proof. unfold get_user32. resp_auto. Qed.
Lemma calm_path_loop n a : calm (copy_user_path_loop n a).
Proof. revert a. induction n as [|n IH]; intros a; simpl; resp_auto. Qed.
Lemma calm_path a n : calm (copy_user_path a n).
Proof. apply calm_path_loop. Qed.
#[local] Hint Resolve calm_put32 calm_get32 calm_path : frame.
Lemma calm_with_path a body : (forall p, calm (body p)) -> calm (with_path a body).
Proof. intros H. unfold with_path. resp_auto. Qed.
Lemma calm_tty_write buf len : calm (tty_write buf len).
Proof. unfold tty_write. resp_auto. Qed.
Lemma calm_read_loop fuel cbytes len got f out : calm (file_read_loop fuel cbytes len got f out).
Proof. revert got f out. induction fuel as [|n IH]; intros got f out; simpl; resp_auto. Qed.
Lemma calm_seek n c : calm (seek_walk n c).
Proof. revert c. induction n as [|n IH]; intros c; simpl; resp_auto. Qed.
Lemma calm_exec_args n a l : calm (exec_args n a l).
Proof. revert a l. induction n as [|n IH]; intros a l; simpl; resp_auto. Qed.
Lemma calm_record pid ppid code : calm (record_exit pid ppid code).
Proof. unfold record_exit, bump_record. resp_auto. Qed.
Lemma calm_reap_child a b : calm (process_reap_child a b).
Proof. unfold process_reap_child, bump_record. resp_auto. Qed.
#[local] Hint Resolve calm_with_path calm_tty_write calm_read_loop calm_seek calm_exec_args calm_record calm_reap_child : frame.

(** The handlers that touch neither processes nor what descriptors share. *)
Lemma calm_readfile a b c : calm (sys_readfile a b c).
Proof. unfold sys_readfile. apply calm_with_path. intros p. resp_auto. Qed.
Lemma calm_writefile a b c : calm (sys_writefile a b c).
Proof. unfold sys_writefile. apply calm_with_path. intros p. resp_auto. Qed.
Lemma calm_rename a b : calm (sys_rename_sc a b).
Proof. apply calm_with_path. intros p. apply calm_with_path. auto with frame. Qed.
Lemma calm_getcwd a b : calm (sys_getcwd a b).
Proof. unfold sys_getcwd. resp_auto. Qed.
Lemma calm_findprefix a b c : calm (sys_findprefix a b c).
Proof. apply calm_with_path. intros p. resp_auto. Qed.
Lemma calm_getpid : calm sys_getpid.
Proof. unfold sys_getpid. resp_auto. Qed.
Lemma calm_ps : calm sys_ps.
Proof. unfold sys_ps. resp_auto. Qed.
Lemma calm_meminfo a : calm (sys_meminfo a).
Proof. unfold sys_meminfo, page_counts. resp_auto. Qed.
Lemma calm_gettime cmos fuel a : calm (sys_gettime cmos fuel a).
Proof. unfold sys_gettime. resp_auto. Qed.

(** ** The kernel task keeps pid 0 *)

Definition pid0 (k : kern) : Prop := p_pid <$> procs (k_sched k) !! kernel_task_addr = Some 0.
Definition steadily (k k' : kern) : Prop := pid0 k -> pid0 k'.

#[export] Instance steadily_pre : PreOrder steadily.
Proof. split; [intros k; exact (fun H => H)|]. intros k1 k2 k3 H1 H2 H. exact (H2 (H1 H)). Qed.

Abbreviation steady := (resp steadily).

Lemma steady_calm {X} (m : st kern X) : calm m -> steady m.
Proof. intros Hm k x k' E. destruct (Hm _ _ _ E) as ((H1 & _) & _). unfold steadily, pid0. by rewrite H1. Qed.
Lemma steady_sched {X} (m : st sched X) : resp pids m -> steady (on_sched m).
Proof. intros Hm k x k' (s & E & ->)%on_sched_inv. intros Hp. unfold pid0 in *. cbn [k_sched set_sched]. by rewrite (Hm _ _ _ E). Qed.
Lemma steady_modify f : (forall k, k_sched (f k) = k_sched k) -> steady (modify f).
Proof. intros Hf k x k' [= _ <-]. unfold steadily, pid0. by rewrite Hf. Qed.

#[local] Hint Resolve wake_pids tick_pids block_pids die_pids kill_pids wake_waiter_pids add_pids : frame.
#[local] Hint Extern 3 (steady (on_sched (modify _))) => apply steady_sched, modify_pids; done : frame.
#[local] Hint Extern 4 (steady (on_sched _)) => apply steady_sched : frame.
#[local] Hint Extern 3 (steady (modify _)) => apply steady_modify; done : frame.
#[local] Hint Extern 9 (steady _) => apply steady_calm : frame.

Lemma steady_proc_store p f : (forall r, p_pid (f r) = p_pid r) -> steady (proc_store p f).
Proof. intros Hf. by apply steady_sched, store_pids. Qed.
#[local] Hint Extern 3 (steady (proc_store _ _)) => apply steady_proc_store; done : frame.
Lemma steady_fd_store p i f : steady (fd_store p i f).
Proof. by apply steady_proc_store. Qed.
Lemma steady_pipe_store p r : steady (pipe_store p r).
Proof. by apply steady_modify. Qed.
Lemma steady_wbuf_store p r : steady (wbuf_store p r).
Proof. by apply steady_modify. Qed.
#[local] Hint Resolve steady_fd_store steady_pipe_store steady_wbuf_store : frame.
Lemma steady_pipe_update p f : steady (pipe_update p f).
Proof. unfold pipe_update. resp_auto. Qed.
#[local] Hint Resolve steady_pipe_update : frame.
Lemma steady_wbuf_unref w : steady (wbuf_unref w).
Proof. unfold wbuf_unref, wbuf_drop. resp_auto. Qed.
Lemma steady_close_read p : steady (close_read_end p).
Proof. unfold close_read_end, wake_writer, destroy_if_unused, pipe_destroy. resp_auto. Qed.
Lemma steady_close_write p : steady (close_write_end p).
Proof. unfold close_write_end, wake_reader, destroy_if_unused, pipe_destroy. resp_auto. Qed.
#[local] Hint Resolve steady_wbuf_unref steady_close_read steady_close_write : frame.
Lemma steady_each body : (forall i, steady (body i)) -> steady (each_fd body).
Proof. intros Hb. unfold each_fd. induction (seq 0 MAX_FDS) as [|i l IH]; resp_auto. Qed.
Lemma steady_close_all p : steady (fd_close_writable p) /\ steady (fd_close_pipes p).
Proof. split; apply steady_each; intros i; unfold close_writable_fd, close_pipe_fd; resp_auto. Qed.
Lemma steady_close_writable p : steady (fd_close_writable p).
Proof. apply steady_close_all. Qed.
Lemma steady_close_pipes p : steady (fd_close_pipes p).
Proof. apply steady_close_all. Qed.
Lemma steady_ref_fd f : steady (ref_fd f).
Proof. unfold ref_fd, Kern.wbuf_ref. resp_auto. Qed.
#[local] Hint Resolve steady_close_writable steady_close_pipes steady_ref_fd : frame.

Lemma steady_insert p r : steady (let* old := on_sched (gets (fun s => procs s !! p)) in
  match old with Some _ => undef | None =>
    on_sched (modify (fun s => set_procs (<[p := r]> (procs s)) s)) ;; ret p end).
Proof.
  intros k x k' H Hp. apply bind_inv in H as (o & k1 & [= <- <-] & H). simpl in H.
  destruct (procs (k_sched k) !! p) eqn:E; [done|]. injection H as _ <-. unfold pid0. simpl.
  rewrite lookup_insert_ne; [done|]. intros ->. unfold pid0 in Hp. by rewrite E in Hp.
Qed.
Lemma steady_create : steady process_create.
Proof. unfold process_create. do 20 (try resp_step; try apply steady_insert). Qed.
Lemma steady_destroy p : steady (process_destroy p).
Proof.
  unfold process_destroy. destruct (Z.eqb_spec p 0); [by apply resp_ret, _|].
  destruct (Z.eqb_spec p kernel_task_addr); [by apply resp_ret, _|]. cbn [orb].
  assert (steady (on_sched (modify (fun s => set_procs (delete p (procs s)) s)))) as Hd.
  { intros k x k' [= _ <-]. unfold steadily, pid0. simpl. by rewrite lookup_delete_ne by congruence. }
  resp_auto.
Qed.
#[local] Hint Resolve steady_create steady_destroy : frame.
Lemma steady_fork regs : steady (process_fork regs).
Proof. unfold process_fork. resp_auto; apply steady_each; intros i; unfold inherit_fd; resp_auto. Qed.
Lemma steady_exit : steady process_exit.
Proof. unfold process_exit. resp_auto. Qed.
#[local] Hint Resolve steady_fork steady_exit : frame.
Lemma steady_exec p e im l : steady (process_exec p e im l).
Proof. unfold process_exec. resp_auto. Qed.
Lemma steady_sleep r a b : steady (sleep_at r a b).
Proof. unfold sleep_at. resp_auto. Qed.
Lemma steady_wake_all l : steady (wake_all l).
Proof. induction l as [|p l IH]; simpl; resp_auto. Qed.
#[local] Hint Resolve steady_exec steady_sleep steady_wake_all : frame.

Lemma steady_file_write f buf len : steady (file_write f buf len).
Proof. unfold file_write. resp_auto. Qed.
Lemma steady_finish_write p buf len r : steady (finish_write p buf len r).
Proof. unfold finish_write. resp_auto. Qed.
Lemma steady_pipe_read p buf len : steady (Syscall.pipe_read_fd p buf len).
Proof. unfold Syscall.pipe_read_fd. resp_auto. Qed.
Lemma steady_file_read me fd buf len : steady (file_read me fd buf len).
Proof. unfold file_read. resp_auto. Qed.
Lemma steady_tty_read buf len : steady (tty_read buf len).
Proof. unfold tty_read. resp_auto. Qed.
#[local] Hint Resolve steady_file_write steady_finish_write steady_pipe_read steady_file_read steady_tty_read : frame.
Lemma steady_fd_write fd buf len : steady (do_fd_write fd buf len).
Proof. unfold do_fd_write, Syscall.pipe_write_fd. resp_auto. Qed.
Lemma steady_fd_read fd buf len : steady (do_fd_read fd buf len).
Proof. unfold do_fd_read. resp_auto. Qed.
Lemma steady_readraw buf len : steady (sys_readraw buf len).
Proof. unfold sys_readraw. resp_auto. Qed.
Lemma steady_wbuf_open path : steady (wbuf_open path).
Proof. unfold wbuf_open. resp_auto. Qed.
#[local] Hint Resolve steady_fd_write steady_fd_read steady_readraw steady_wbuf_open : frame.
Lemma steady_with_path a body : (forall p, steady (body p)) -> steady (with_path a body).
Proof. intros H. unfold with_path. resp_auto. Qed.
Lemma steady_open a b : steady (sys_open a b).
Proof. apply steady_with_path. intros p. resp_auto. Qed.
Lemma steady_close fd : steady (sys_close fd).
Proof. unfold sys_close, release_fd. resp_auto. Qed.
#[local] Hint Resolve steady_close : frame.
Lemma steady_dup2 a b : steady (sys_dup2 a b).
Proof. unfold sys_dup2. resp_auto. Qed.
Lemma steady_pipe a : steady (sys_pipe a).
Proof. unfold sys_pipe, pipe_create. resp_auto. Qed.
Lemma steady_lseek a b c : steady (sys_lseek a b c).
Proof. unfold sys_lseek. resp_auto. Qed.
Lemma steady_wait_loop a b : steady (wait_loop a b).
Proof. unfold wait_loop. resp_auto. Qed.
Lemma steady_sleep_loop a b : steady (sleep_loop a b).
Proof. unfold sleep_loop. resp_auto. Qed.
#[local] Hint Resolve steady_wait_loop steady_sleep_loop : frame.

Lemma steady_done (m : st kern Z) : steady m -> steady (done m).
Proof. intros H. unfold done. resp_auto. Qed.

#[local] Hint Resolve calm_readfile calm_writefile calm_rename calm_getcwd calm_findprefix calm_getpid calm_ps
  calm_meminfo calm_gettime steady_open steady_dup2 steady_pipe steady_lseek : frame.

Lemma steady_handler cmos fuel regs : steady (syscall_handler cmos fuel regs).
Proof.
  unfold syscall_handler. cbv zeta.
  repeat match goal with |- resp _ (match ?x with _ => _ end) => destruct x end;
    first [apply resp_ret, _ | apply steady_done | idtac];
    unfold sys_write, sys_read, sys_read_fd, sys_write_fd, sys_exit, sys_sleep, sys_fork, sys_exec, sys_wait,
      sys_give_foreground, sys_chdir, sys_mkdir_sc, sys_rmfile, sys_listdir, sys_uptime, sys_kill_pid,
      sys_setcolor, sys_fasterfetch, sys_peter, sys_clear, sys_sbrk;
    first [by eauto with frame | apply steady_with_path; intros ?; resp_auto | resp_auto].
Qed.

Lemma steady_resume c : steady (resume_call c).
Proof. unfold resume_call, reap_next. resp_auto. Qed.

Lemma steady_isr a b c d : steady (isr_handler a b c d).
Proof. unfold isr_handler. resp_auto. Qed.
Lemma steady_timer : steady timer_irq.
Proof. unfold timer_irq. resp_auto. Qed.
Lemma steady_keyboard c : steady (keyboard_irq c).
Proof. unfold keyboard_irq, deliver_char. resp_auto. Qed.
Lemma steady_reap : steady process_reap.
Proof. unfold process_reap. resp_auto. Qed.

Lemma steady_launch args fg who : steady (start_program args fg who).
Proof. unfold start_program, start_image, load_image, process_start. resp_auto. Qed.
Lemma steady_kill pid : steady (sys_kill_pid pid).
Proof. unfold sys_kill_pid. resp_auto. Qed.
Lemma steady_ush : steady shell_launch_ush.
Proof. unfold shell_launch_ush, start_image, load_image, process_start. resp_auto. Qed.

End Kernel.

#[export] Hint Resolve calm_fs calm_vfs calm_vm calm_drain calm_touch calm_get calm_put calm_pipe_load calm_wbuf_load
  calm_cr3 calm_push calm_current calm_proc_load calm_kmalloc calm_kfree calm_terminal calm_fd_load calm_lookup
  calm_put_bytes calm_put32 calm_get32 calm_path calm_tty_write calm_read_loop calm_seek calm_exec_args calm_record
  calm_reap_child calm_readfile calm_writefile calm_rename calm_getcwd calm_findprefix calm_getpid calm_ps calm_meminfo
  calm_gettime : frame.
#[export] Hint Resolve load_reads find_any_reads find_reads has_child_reads for_each_reads gets_reads : frame.
#[export] Hint Extern 2 (resp calmly (on_sched _)) => apply calm_read : frame.
#[export] Hint Extern 2 (resp calmly (modify _)) => apply calm_modify; done : frame.
#[export] Hint Extern 2 (resp _ (lift_opt _)) => apply resp_lift; apply _ : frame.
#[export] Hint Extern 2 (resp _ (gets _)) => apply resp_gets; apply _ : frame.

End KernFrame.
