(* ===== verification/KernProcs.v ===== *)
(** * Process operations keep the invariant

    Closing all descriptors of a process, destroying one, creating, forking, exiting
    and the reaper, each on the invariant of KernOps. *)

From S2P Require Import Prelude Pmm Heap Disk Fat32Names Fat32 Sched SchedProps SchedFrame Pipe Paging Elf Vfs Vga LineEdit Drivers ShellEdit Kern Syscall ShellCmd KernInv KernOps KernFrame.

Module KernProcs.

Import Fat32 Proc Sched SchedProps Frame Pipe Wbuf Paging Vfs Kern Syscall ShellCmd KernInv KernOps KernFrame.

Section Procs.
Context {D A : Type} `{BD : BlockDev D} `{KH : KernelHeap A} `{PS : PageShare A}.
Context `{L : Layout} `{M : Machine}.

Abbreviation kern := (kern (D := D) (A := A)).

(** ** The closing loops *)

Lemma loop_inv (body : nat -> st kern unit) (good : file_desc -> Prop) Q d dead q :
  (forall f, no_wbuf f -> no_end f -> good f) ->
  (forall k k' i, inv k Q d dead -> quits k Q q -> body i k = Some (tt, k') ->
     inv k' Q d dead /\ closing Q q k k' /\ slot_closed q i good k k') ->
  forall js k k' l, inv k Q d dead -> quits k Q q -> fdm (k_sched k) !! q = Some l ->
  (fix go l := match l with [] => ret tt | i :: l => body i ;; go l end) js k = Some (tt, k') ->
  inv k' Q d dead /\ closing Q q k k' /\ exists l', fdm (k_sched k') !! q = Some l'
  /\ (forall i f, i ∈ js -> l' !! i = Some f -> good f)
  /\ (forall i f, l' !! i = Some f -> l !! i = Some f \/ no_wbuf f /\ no_end f).
Proof.
  intros Hgood Hbody js. induction js as [|i js IH]; intros k k' l Hinv Hq Hl H.
  - injection H as <-. split; [done|]. split; [done|]. exists l. split; [done|]. split; [|by left].
    intros j f Hj. by apply not_elem_of_nil in Hj.
  - apply bind_inv in H as ([] & k1 & H1 & H).
    destruct (Hbody k k1 i Hinv Hq H1) as (Hinv1 & Hc1 & l0 & l1 & Hl0 & Hl1 & Hne & Hg & Hch).
    assert (l0 = l) as -> by congruence.
    destruct (IH k1 k' l1 Hinv1 (quits_closing _ _ _ _ Hq Hc1) Hl1 H) as (Hinv' & Hc2 & l2 & Hl2 & Hg2 & Hch2).
    split; [done|]. split; [by eapply closing_trans|]. exists l2. split; [done|].
    assert (forall j f, l1 !! j = Some f -> l !! j = Some f \/ no_wbuf f /\ no_end f) as Hstep.
    { intros j f Hj. destruct (decide (j = i)) as [->|Hj']; [by apply Hch|]. left. by rewrite <- Hne. }
    split.
    + intros j f [->|Hj]%elem_of_cons Hf; [|by eapply Hg2].
      destruct (Hch2 _ _ Hf) as [Hf1|[? ?]]; [by apply Hg|by apply Hgood].
    + intros j f Hf. destruct (Hch2 _ _ Hf) as [Hf1|?]; [by apply Hstep|by right].
Qed.

Lemma inv_len (k : kern) Q d dead q l : inv k Q d dead -> fdm (k_sched k) !! q = Some l -> length l = MAX_FDS.
Proof. intros [_ Hres] Hl. by apply (ro_len _ _ _ _ Hres q). Qed.

(** After both loops a process refers to nothing shared. *)
Lemma close_all_inv (k k1 k2 : kern) Q d dead q l :
  inv k Q d dead -> q <> 0 -> quits k Q q -> fdm (k_sched k) !! q = Some l ->
  fd_close_writable q k = Some (tt, k1) -> fd_close_pipes q k1 = Some (tt, k2) ->
  inv k2 Q d dead /\ closing Q q k k2 /\ exists l', fdm (k_sched k2) !! q = Some l'
  /\ forall i f, l' !! i = Some f -> no_wbuf f /\ no_end f.
Proof.
  intros Hinv H0 Hq Hl H1 H2.
  destruct (loop_inv (close_writable_fd q) no_wbuf Q d dead q ltac:(done)
    (fun k k' i Hi Hqt => close_writable_fd_inv k Q d dead q i k' Hi H0 Hqt) (seq 0 MAX_FDS) _ _ _ Hinv Hq Hl H1)
    as (Hinv1 & Hc1 & l1 & Hl1 & Hg1 & _).
  destruct (loop_inv (close_pipe_fd q) no_end Q d dead q ltac:(done)
    (fun k k' i Hi Hqt => close_pipe_fd_inv k Q d dead q i k' Hi H0 Hqt) (seq 0 MAX_FDS) _ _ _ Hinv1 (quits_closing _ _ _ _ Hq Hc1) Hl1 H2)
    as (Hinv2 & Hc2 & l2 & Hl2 & Hg2 & Hch2).
  split; [done|]. split; [by eapply closing_trans|]. exists l2. split; [done|]. intros i f Hf.
  assert (i ∈ seq 0 MAX_FDS) as Hi.
  { apply elem_of_seq. pose proof (inv_len _ _ _ _ _ _ Hinv2 Hl2) as Hlen. apply lookup_lt_Some in Hf. lia. }
  split; [|by eapply Hg2]. destruct (Hch2 i f Hf) as [Hf1|[? _]]; [by eapply Hg1|done].
Qed.

(** ** Destroying a process *)

(** [q] is in no queue and sleeps nowhere. *)
Lemma process_destroy_inv (k k' : kern) Q d dead q r :
  inv k Q d dead -> procs (k_sched k) !! q = Some r -> q <> kernel_task_addr ->
  (q ∉ Q) -> (q ∉ dead) -> quits k Q q -> process_destroy q k = Some (tt, k') ->
  inv k' Q d dead /\ k_pending k' = delete q (k_pending k)
  /\ current_process (k_sched k') = current_process (k_sched k)
  /\ procs (k_sched k') !! q = None
  /\ (forall y, y <> 0 -> y <> q -> (y ∉ Q) -> procs (k_sched k') !! y = procs (k_sched k) !! y).
Proof.
  intros Hinv Hr Hkt HQ Hd Hquit. pose proof Hinv as [Hk _].
  assert (q <> 0) as H0 by (intros ->; by rewrite (sk_null _ _ _ _ _ Hk) in Hr).
  unfold process_destroy. destruct (Z.eqb_spec q 0); [done|]. destruct (Z.eqb_spec q kernel_task_addr); [done|].
  cbn [orb]. intros H. apply bind_inv in H as ([] & k1 & H1 & H). apply bind_inv in H as ([] & k2 & H2 & H).
  destruct (close_all_inv _ _ _ _ _ _ _ _ Hinv H0 Hquit (fdm_lookup _ _ _ Hr) H1 H2) as ([Hk2 Hres2] & Hc & l' & Hl' & Hinert).
  apply bind_inv in H as (r2 & k3 & H3 & H). apply proc_load_inv in H3 as [Hr2 ->].
  apply bind_inv in H as ([] & k3 & H3 & H).
  assert (same_core k2 k3 /\ k_pipes k3 = k_pipes k2 /\ k_wbufs k3 = k_wbufs k2) as (S3 & P3 & W3).
  { apply if_inv in H3 as [[_ H3]|[_ [= ->]]]; [|done]. apply on_vm_inv in H3 as (f & v & ->). done. }
  apply bind_inv in H as ([] & k4 & H4 & H).
  assert (same_core k2 k4 /\ k_pipes k4 = k_pipes k2 /\ k_wbufs k4 = k_wbufs k2) as ((S4 & N4) & P4 & W4).
  { destruct S3 as [S3 N3]. apply if_inv in H4 as [[_ H4]|[_ [= ->]]]; [|done]. apply on_fs_inv in H4 as (f & ->). done. }
  clear H3 H4. apply bind_inv in H as ([] & k5 & [= <-] & H). apply bind_inv in H as ([] & k6 & H6 & H).
  apply on_sched_inv in H6 as (s6 & [= <-] & ->). apply on_fs_inv in H as (f & ->).
  unfold inv. cbn [k_sched k_pending k_pipes k_wbufs set_sched set_fs set_pending]. rewrite S4, N4, P4, W4.
  destruct Hc as [C1 C2 C3 C4 C5 C6]. destruct Hk2 as [K1 K2 K3 K4 K5 K6 K7 K8].
  assert (forall x v, views (set_procs (delete q (procs (k_sched k2))) (k_sched k2)) !! x = Some v ->
    x <> q /\ views (k_sched k2) !! x = Some v) as Hv.
  { intros x v. unfold views. simpl. rewrite fmap_delete. intros Hx%lookup_delete_Some. naive_solver. }
  split; [split|].
  - split; cbn [k_sched k_pending set_sched set_fs set_pending]; rewrite ?S4, ?N4.
    + by apply delete_effect.
    + simpl. rewrite lookup_delete_ne by congruence. done.
    + done.
    + simpl. by apply seg_delete_ne.
    + intros p Hp. simpl. unfold stat. rewrite lookup_delete_ne by (intros ->; done). by apply K5.
    + intros p pi Hp. destruct (K6 p pi Hp) as [Hrd Hwr].
      assert (stat (procs (k_sched k2)) q <> Some PROCESS_BLOCKED) as Hnb.
      { intros Hb. apply HQ. unfold stat in Hb. rewrite Hr2 in Hb. simpl in Hb.
        eapply members_blocked; [exact K1|exact Hr2|congruence]. }
      assert (forall x l rs, views (k_sched k2) !! x = Some (l, (PROCESS_BLOCKED, rs)) -> x <> q) as Hxq.
      { intros x l rs Hx ->. unfold views in Hx. rewrite lookup_fmap, Hr2 in Hx. injection Hx as _ E _.
        apply Hnb. unfold stat. rewrite Hr2. simpl. by rewrite E. }
      split; intros Hs0; [destruct (Hrd Hs0) as (l & b & n' & HV & HN)|destruct (Hwr Hs0) as (l & b & n' & w & HV & HN)];
        pose proof (Hxq _ _ _ HV) as Hx; unfold views; simpl; rewrite fmap_delete;
        rewrite !lookup_delete_ne by congruence; eauto 10.
    + intros x l st rs Hx Hst. apply Hv in Hx as [Hxq Hx]. rewrite lookup_delete_ne by congruence. by eapply K7.
    + intros x Hx. destruct (decide (x = q)) as [->|Hxq]; [rewrite lookup_delete_eq in Hx; by destruct Hx|].
      rewrite lookup_delete_ne in Hx by congruence. simpl. rewrite lookup_delete_ne by congruence. by apply K8.
  - unfold fdm. simpl. rewrite fmap_delete. by eapply res_leave.
  - split; [congruence|]. split; [done|]. split; [simpl; apply lookup_delete_eq|].
    intros y Hy Hyq HyQ. simpl. rewrite lookup_delete_ne by congruence. by apply C5.
Qed.

(** ** Switching away *)

(** [h] is parked with state [st] and the ready process [n] runs. *)
Lemma switch_views V N P h lh sh n ln bn st rs V' :
  slots_ok V N P -> pend_ok V N -> V !! h = Some (lh, sh) -> V !! n = Some (ln, (PROCESS_READY, bn)) ->
  n <> h -> n <> 0 -> no_slot P h ->
  V' = <[h := (lh, (st, rs))]> (<[n := (ln, (PROCESS_RUNNING, bn))]> V) ->
  (st <> PROCESS_DEAD -> holds_end lh (N !! h)) ->
  slots_ok V' N P /\ pend_ok V' N /\ (forall q, is_Some (V !! q) -> is_Some (V' !! q)) /\ fst <$> V' = fst <$> V.
Proof.
  intros Hs Hp Hh Hn Hne Hn0 Hns -> Hst.
  assert (no_slot P n) as Hnn by (eapply awake_no_slot; [done|done|done|by left]). split_and!.
  - eapply slots_change; [exact Hs|]. intros q l r Hq _ (p & pi & Hpi & Hsl).
    destruct (Hns p pi Hpi), (Hnn p pi Hpi). exists l. rewrite !lookup_insert_ne by (intros <-; naive_solver). done.
  - intros q l st' rs' Hq Hd. destruct (decide (h = q)) as [<-|Hhq].
    + rewrite lookup_insert_eq in Hq. injection Hq as <- <- <-. by apply Hst.
    + rewrite lookup_insert_ne in Hq by done. destruct (decide (n = q)) as [<-|Hnq].
      * rewrite lookup_insert_eq in Hq. injection Hq as <- <- <-. by eapply Hp.
      * rewrite lookup_insert_ne in Hq by done. by eapply Hp.
  - intros q Hq. rewrite lookup_insert. destruct (decide (h = q)); [by eexists|].
    rewrite lookup_insert. destruct (decide (n = q)); [by eexists|done].
  - rewrite !fmap_insert. rewrite insert_id; [rewrite insert_id; [done|]|].
    + by rewrite lookup_fmap, Hn.
    + rewrite lookup_insert_ne by done. by rewrite lookup_fmap, Hh.
Qed.

(** A process that no pipe has recorded goes on elsewhere. *)
Lemma sk_pending (k : kern) Q d dead P q r :
  sk_ok k Q d dead P -> procs (k_sched k) !! q = Some r -> q <> 0 -> no_slot P q ->
  forall c, (p_state r <> PROCESS_DEAD -> holds_end (p_fds r) c) ->
  sk_ok (set_pending (partial_alter (fun _ => c) q (k_pending k)) k) Q d dead P.
Proof.
  intros [K1 K2 K3 K4 K5 K6 K7 K8] Hq H0 Hns c Hc. split; cbn [k_sched k_pending set_pending]; try done.
  - intros p pi Hp. destruct (K6 p pi Hp) as [Hr Hw], (Hns p pi Hp) as [N1 N2].
    split; intros Hb; rewrite lookup_partial_alter_ne by congruence; auto.
  - intros x l st rs Hx Hd. destruct (decide (q = x)) as [<-|Hne].
    + rewrite lookup_partial_alter_eq. rewrite (views_lookup _ _ _ Hq) in Hx. injection Hx as <- <- <-. auto.
    + rewrite lookup_partial_alter_ne by done. by eapply K7.
  - intros x. destruct (decide (q = x)) as [<-|Hne]; [by rewrite Hq|]. rewrite lookup_partial_alter_ne by done. apply K8.
Qed.

(** The running process is in no slot. *)
Lemma current_no_slot (k : kern) Q d dead P : sk_ok k Q d dead P -> no_slot P (current_process (k_sched k)).
Proof.
  intros Hk. destruct (members_current _ _ _ (sk_mem _ _ _ _ _ Hk)) as (r & Hr & H0 & _ & Hst).
  eapply awake_no_slot; [apply Hk|by apply views_lookup|done|by left].
Qed.

(** Slots of [P'] are those of [P], or [me] in the slot of the pipe it goes to sleep on. *)
Definition slot_added (me reason : Z) (r : resume) (P P' : gmap Z pipe) : Prop :=
  forall p pi', P' !! p = Some pi' -> exists pi, P !! p = Some pi
  /\ (blocked_reader pi' = blocked_reader pi
      \/ blocked_reader pi' = me /\ reason = BLOCK_PIPE_READ /\ exists b n, r = RPipeRead p b n)
  /\ (blocked_writer pi' = blocked_writer pi
      \/ blocked_writer pi' = me /\ reason = BLOCK_PIPE_WRITE /\ exists b n w, r = RPipeWrite p b n w).

Lemma slot_added_refl me reason r P : slot_added me reason r P P.
Proof. intros p pi Hp. exists pi. auto. Qed.

Lemma sleep_sk (k k' : kern) Q d dead P P' c reason target r :
  sk_ok k Q d dead P -> current_process (k_sched k) <> kernel_task_addr ->
  procs (k_sched k) !! current_process (k_sched k) = Some r -> holds_end (p_fds r) (Some c) ->
  slot_added (current_process (k_sched k)) reason c P P' -> sleep_at c reason target k = Some (tt, k') ->
  sk_ok k' Q d dead P' /\ fdm (k_sched k') = fdm (k_sched k) /\ k_pipes k' = k_pipes k /\ k_wbufs k' = k_wbufs k
  /\ k_pending k' = <[current_process (k_sched k) := c]> (k_pending k)
  /\ stat (procs (k_sched k)) (current_process (k_sched k')) = Some PROCESS_READY
  /\ current_process (k_sched k') <> current_process (k_sched k).
Proof.
  intros Hk Hkt Hr Hh Hadd. unfold sleep_at. set (me := current_process (k_sched k)) in *. intros H.
  apply bind_inv in H as (? & k1 & [= <- <-] & H). apply bind_inv in H as ([] & k1 & [= <-] & H).
  destruct (members_current _ _ _ (sk_mem _ _ _ _ _ Hk)) as (r' & Hr' & H0 & HQ & Hst). fold me in Hr', H0, HQ.
  assert (r' = r) as -> by congruence. clear Hr'.
  pose proof (current_no_slot _ _ _ _ _ Hk) as Hns. fold me in Hns.
  change (current_process (k_sched (set_sched (k_sched k) k))) with me in H.
  set (k1 := set_pending (<[me := c]> (k_pending k)) k) in *. change (set_pending _ _) with k1 in H.
  assert (sk_ok k1 Q d dead P) as Hk1 by exact (sk_pending k Q d dead P me r Hk Hr H0 Hns (Some c) (fun _ => Hh)).
  apply bind_inv in H as ([] & k2 & (s' & E & ->)%on_sched_inv & H). injection H as <-.
  destruct (block_effect kernel_task_addr (k_sched k1) Q reason target (sk_mem _ _ _ _ _ Hk1) Hkt)
    as (r0 & s0 & n & rn & Hr0 & E0 & Hm & Hn & Hne & Hnst & Hc & Hf & Hv).
  rewrite E in E0. injection E0 as <-. change (current_process (k_sched k1)) with me in *.
  assert (r0 = r) as -> by (simpl in Hr0; congruence).
  assert (n <> 0) as Hn0 by (intros ->; by rewrite (sk_null _ _ _ _ _ Hk1) in Hn).
  destruct (switch_views _ _ P me (p_fds r) _ n (p_fds rn) (p_block_reason rn) _ _ _
    (sk_slots _ _ _ _ _ Hk1) (sk_pend _ _ _ _ _ Hk1) (views_lookup _ _ _ Hr0)
    ltac:(rewrite <- Hnst; by apply views_lookup) Hne Hn0 Hns Hv) as (S1 & S2 & S3 & S4).
  { intros _. simpl. by rewrite lookup_insert_eq. }
  destruct (sk_sched_step k1 Q d dead P _ s' Hk1 (only_block (fun x => x = 0 \/ x ∈ Q) reason target (or_introl eq_refl)) E Hm S1 S2 S3)
    as [Hsk _].
  split; [|cbn; rewrite !fdm_views, S4; split_and!; try done].
  - apply (sk_same (set_sched s' k1)); [done|]. destruct Hsk as [J1 J2 J3 J4 J5 J6 J7 J8]. split; try done.
    intros p pi' Hp'. destruct (Hadd p pi' Hp') as (pi & Hp & Ar & Aw). destruct (J6 p pi Hp) as [Br Bw].
    split; intros Hb.
    + destruct Ar as [Ar|(Ar & -> & b & m & ->)]; [rewrite Ar in *; auto|]. rewrite Ar. simpl.
      rewrite Hv, !lookup_insert_eq. eauto 10.
    + destruct Aw as [Aw|(Aw & -> & b & m & w & ->)]; [rewrite Aw in *; auto|]. rewrite Aw. simpl.
      rewrite Hv, !lookup_insert_eq. eauto 10.
  - unfold stat. rewrite Hc. simpl in Hn. rewrite Hn. simpl. by rewrite Hnst.
  - by rewrite Hc.
Qed.

(** The timer interrupt: either nobody is switched, or a ready process runs now. *)
Lemma tick_sk (k k' : kern) Q d dead P :
  sk_ok k Q d dead P -> interruptible k -> timer_irq k = Some (tt, k') ->
  sk_ok k' Q d dead P /\ fdm (k_sched k') = fdm (k_sched k) /\ k_pipes k' = k_pipes k /\ k_wbufs k' = k_wbufs k
  /\ k_pending k' = k_pending k
  /\ (current_process (k_sched k') = current_process (k_sched k)
      \/ stat (procs (k_sched k)) (current_process (k_sched k')) = Some PROCESS_READY).
Proof.
  intros Hk Hint. unfold timer_irq. intros H. apply bind_inv in H as ([] & k1 & [= <-] & H).
  set (k1 := set_ktick _ k) in *. assert (sk_ok k1 Q d dead P) as Hk1 by (by apply (sk_same k)).
  apply bind_inv in H as ([] & k2 & (s' & E & ->)%on_sched_inv & H). injection H as <-.
  destruct (tick_effect kernel_task_addr (k_sched k1) Q (sk_mem _ _ _ _ _ Hk1)) as (s0 & E0 & Hm & Hcase).
  rewrite E in E0. injection E0 as <-.
  assert (slots_ok (views s') (k_pending k1) P /\ pend_ok (views s') (k_pending k1)
    /\ (forall q, is_Some (views (k_sched k1) !! q) -> is_Some (views s' !! q)) /\ fst <$> views s' = fst <$> views (k_sched k1)
    /\ (current_process s' = current_process (k_sched k)
        \/ stat (procs (k_sched k)) (current_process s') = Some PROCESS_READY)) as (S1 & S2 & S3 & S4 & S5).
  { destruct Hcase as [(-> & Hc & _)|(r & n & rn & st & Hr & Hst & Hn & Hne & Hnst & Hc & _ & Hv)].
    { pose proof Hk1 as [_ _ _ _ _ ? ? _]. auto 10. }
    assert (n <> 0) as Hn0 by (intros ->; by rewrite (sk_null _ _ _ _ _ Hk1) in Hn).
    destruct (switch_views _ _ P (current_process (k_sched k1)) (p_fds r) _ n (p_fds rn) (p_block_reason rn) _ _ _
      (sk_slots _ _ _ _ _ Hk1) (sk_pend _ _ _ _ _ Hk1) (views_lookup _ _ _ Hr)
      ltac:(rewrite <- Hnst; by apply views_lookup) Hne Hn0 (current_no_slot _ _ _ _ _ Hk1) Hv) as (S1 & S2 & S3 & S4).
    { intros _. unfold interruptible in Hint. change (holds_end (p_fds r) (k_pending k !! current_process (k_sched k))).
      by destruct (k_pending k !! current_process (k_sched k)) as [[]|]. }
    split_and!; try done. right. rewrite Hc. unfold stat. simpl in Hn. rewrite Hn. simpl. by rewrite Hnst. }
  destruct (sk_sched_step k1 Q d dead P _ s' Hk1 (only_tick (fun x => x = 0 \/ x ∈ Q) (or_introl eq_refl)) E Hm S1 S2 S3)
    as [Hsk _].
  split; [by apply (sk_same (set_sched s' k1))|]. cbn. rewrite !fdm_views, S4. done.
Qed.

(** The running process dies. *)
Lemma die_sk (k k' : kern) Q d dead P :
  sk_ok k Q d dead P -> current_process (k_sched k) <> kernel_task_addr ->
  (on_sched die_and_switch ;; load_cr3) k = Some (tt, k') ->
  sk_ok k' Q d dead P /\ fdm (k_sched k') = fdm (k_sched k) /\ k_pipes k' = k_pipes k /\ k_wbufs k' = k_wbufs k
  /\ k_pending k' = k_pending k
  /\ stat (procs (k_sched k)) (current_process (k_sched k')) = Some PROCESS_READY
  /\ stat (procs (k_sched k')) (current_process (k_sched k)) = Some PROCESS_DEAD.
Proof.
  intros Hk Hkt H. apply bind_inv in H as ([] & k2 & (s' & E & ->)%on_sched_inv & H). injection H as <-.
  destruct (die_effect kernel_task_addr (k_sched k) Q (sk_mem _ _ _ _ _ Hk) Hkt)
    as (r & s0 & n & rn & Hr & E0 & Hm & Hn & Hne & Hnst & Hc & Hf & Hv).
  rewrite E in E0. injection E0 as <-.
  assert (n <> 0) as Hn0 by (intros ->; by rewrite (sk_null _ _ _ _ _ Hk) in Hn).
  destruct (switch_views _ _ P (current_process (k_sched k)) (p_fds r) _ n (p_fds rn) (p_block_reason rn) _ _ _
    (sk_slots _ _ _ _ _ Hk) (sk_pend _ _ _ _ _ Hk) (views_lookup _ _ _ Hr)
    ltac:(rewrite <- Hnst; by apply views_lookup) Hne Hn0 (current_no_slot _ _ _ _ _ Hk) Hv) as (S1 & S2 & S3 & S4).
  { done. }
  destruct (sk_sched_step k Q d dead P _ s' Hk (only_die (fun x => x = 0 \/ x ∈ Q) (or_introl eq_refl)) E Hm S1 S2 S3)
    as [Hsk _].
  split; [by apply (sk_same (set_sched s' k))|]. cbn. rewrite !fdm_views, S4. do 4 (split; [done|]). split.
  - rewrite Hc. unfold stat. rewrite Hn. simpl. by rewrite Hnst.
  - assert (views s' !! current_process (k_sched k) = Some (p_fds r, (PROCESS_DEAD, p_block_reason r))) as Hd
      by (rewrite Hv; apply lookup_insert_eq).
    unfold views in Hd. rewrite lookup_fmap in Hd. unfold stat.
    destruct (procs s' !! current_process (k_sched k)); [|done]. injection Hd as _ Hd _. simpl. by rewrite Hd.
Qed.

(** A runnable process other than the kernel task is killed. *)
Lemma kill_sk (k k' : kern) Q d dead P p r ring blk zom :
  sk_ok k Q d dead P -> sched_ok kernel_task_addr (k_sched k) ring blk zom -> Q ≡ₚ ring ++ blk ++ zom ->
  p ∈ ring -> p <> kernel_task_addr -> procs (k_sched k) !! p = Some r -> on_sched (kill_proc p) k = Some (tt, k') ->
  sk_ok k' Q d dead P /\ fdm (k_sched k') = fdm (k_sched k) /\ k_pipes k' = k_pipes k /\ k_wbufs k' = k_wbufs k
  /\ k_pending k' = k_pending k /\ current_process (k_sched k') = current_process (k_sched k).
Proof.
  intros Hk Hok HQ Hp Hkt Hr (s' & E & ->)%on_sched_inv.
  destruct (kill_effect _ _ Q p r ring blk zom Hok HQ Hp Hkt Hr) as (s0 & E0 & Hm & Hc & Hf & Hv).
  rewrite E in E0. injection E0 as <-.
  assert (p ∈ Q) as HpQ by (rewrite HQ; apply elem_of_app; by left).
  assert (p <> 0) as H0 by (intros ->; by rewrite (sk_null _ _ _ _ _ Hk) in Hr).
  assert (p_state r <> PROCESS_BLOCKED) as Hnb.
  { intros Hb. pose proof Hok as [Hi Hcb]. destruct (sched_ok_head _ _ _ _ _ Hok) as (t & rc & -> & _).
    assert (stat (procs (k_sched k)) p = Some PROCESS_BLOCKED) as Hst by (unfold stat; rewrite Hr; simpl; congruence).
    apply elem_of_cons in Hp as [->|Hp]; [done|]. rewrite (si_tail _ _ _ _ _ Hi p Hp) in Hst. done. }
  assert (no_slot P p) as Hns by (eapply awake_no_slot; [apply Hk|by apply views_lookup|done|by left]).
  destruct (sk_sched_step k Q d dead P _ s' Hk (only_kill (fun x => x = 0 \/ x ∈ Q) p (or_introl eq_refl) (or_intror HpQ)) E Hm)
    as [Hsk _].
  - rewrite Hv. eapply slots_change; [apply Hk|]. intros q l rs Hq _ (x & pi & Hx & Hs). destruct (Hns x pi Hx).
    exists l. rewrite lookup_insert_ne by (intros <-; naive_solver). done.
  - rewrite Hv. intros q l st rs. rewrite lookup_insert. destruct (decide (p = q)); [by intros [= <- <- <-]|apply Hk].
  - rewrite Hv. intros q Hq. rewrite lookup_insert. by destruct (decide (p = q)); [eexists|].
  - split; [done|]. cbn. rewrite !fdm_views, Hv, fmap_insert, insert_id; [done|].
    by rewrite lookup_fmap, (views_lookup _ _ _ Hr).
Qed.

(** ** The reaper *)

Lemma members_kernel s Q k : members k s Q -> k ∈ Q.
Proof.
  intros (ring & blk & zom & Hok & HQ). rewrite HQ. apply elem_of_app. left. apply (si_kin _ _ _ _ _ (proj1 Hok)).
Qed.

Lemma seg_zero m l : seg m 0 l 0 -> l = [].
Proof. destruct l as [|x l]; [done|]. intros (<- & ? & _). done. Qed.

(** The reaper goes on to the second process of its list. *)
Lemma drop_dead (k : kern) Q d dead : inv k Q d dead -> d <> 0 ->
  exists r dead', dead = d :: dead' /\ procs (k_sched k) !! d = Some r /\ (d ∉ Q) /\ (d ∉ dead')
  /\ stat (procs (k_sched k)) d = Some PROCESS_DEAD /\ inv k Q (p_next r) dead'.
Proof.
  intros [[K1 K2 K3 K4 K5 K6 K7 K8] Hres] H0. destruct dead as [|x dead]; [by simpl in K4|].
  destruct K4 as (-> & _ & r & Hr & K4). exists r, dead. split; [done|]. split; [done|].
  apply NoDup_mid in K3 as (N1 & N2 & N3). split; [done|]. split; [done|].
  split; [apply K5, elem_of_cons; by left|]. split; [|done]. split; try done.
  intros p Hp. apply K5, elem_of_cons. by right.
Qed.

(** [process_reap] takes the zombie list over. *)
Lemma take_zombies_inv (k : kern) Q : inv k Q 0 [] ->
  exists Q' zom, inv (set_sched (set_zombie 0 (k_sched k)) k) Q' (zombie_list (k_sched k)) zom.
Proof.
  intros [[K1 K2 K3 K4 K5 K6 K7 K8] Hres].
  destruct (take_zombies_effect _ _ _ K1) as (Q' & zom & HQ & Hm & Hs & Hnd & Hst).
  exists Q', zom. split; [|done]. split; try done. by rewrite <- HQ.
Qed.

(** ** New processes *)

Lemma join_sk (k : kern) Q d dead P p r :
  sk_ok k Q d dead P -> procs (k_sched k) !! p = None -> p <> 0 -> p_state r = PROCESS_READY ->
  sk_ok (set_sched (set_procs (<[p := r]> (procs (k_sched k))) (k_sched k)) k) Q d dead P.
Proof.
  intros [K1 K2 K3 K4 K5 K6 K7 K8] Hp H0 Hst.
  assert (p ∉ Q) as HQ by (intros Hq; destruct (members_lookup _ _ _ _ K1 Hq) as (? & ? & _); congruence).
  assert (p ∉ dead) as Hd by (intros Hq; destruct (seg_lookup _ _ _ _ _ K4 Hq) as (? & ? & _); congruence).
  assert (views (k_sched k) !! p = None) as Hv by (unfold views; by rewrite lookup_fmap, Hp).
  assert (k_pending k !! p = None) as Hn.
  { destruct (k_pending k !! p) eqn:E; [|done]. destruct (K8 p ltac:(by rewrite E)). congruence. }
  assert (forall x, x <> p -> stat (<[p := r]> (procs (k_sched k))) x = stat (procs (k_sched k)) x) as Hx.
  { intros x Hx. rewrite stat_insert. by rewrite decide_False by congruence. }
  split; cbn [k_sched k_pending set_sched]; try done.
  - destruct K1 as (ring & blk & zom & Hok & HP). exists ring, blk, zom. split; [|done]. rewrite HP in HQ.
    destruct (sched_ok_head _ _ _ _ _ Hok) as (t & rc & -> & _). pose proof Hok as [Hi _].
    eapply sched_ok_intro; try done; simpl.
    + apply queues_insert_out; [done|apply Hi].
    + apply Hx. intros E. apply HQ. rewrite <- E. apply elem_of_app. left. apply elem_of_cons. by left.
    + intros x Hxt. rewrite Hx; [by apply (si_tail _ _ _ _ _ Hi)|]. intros ->. apply HQ.
      apply elem_of_app. left. apply elem_of_cons. by right.
    + intros x Hxt. rewrite Hx; [by apply (si_blk _ _ _ _ _ Hi)|]. intros ->. apply HQ. rewrite !elem_of_app. auto.
    + intros x Hxt. rewrite Hx; [by apply (si_zom _ _ _ _ _ Hi)|]. intros ->. apply HQ. rewrite !elem_of_app. auto.
    + intros x. rewrite stat_insert. destruct (decide (p = x)); [rewrite Hst; done|]. by eapply sched_ok_all.
    + apply (si_kin _ _ _ _ _ Hi).
  - simpl. by rewrite lookup_insert_ne.
  - simpl. by apply seg_insert_ne.
  - intros x Hxd. simpl. rewrite Hx; [by apply K5|]. by intros ->.
  - rewrite views_insert. eapply slots_change; [done|]. intros x l rs Hxv _ _. exists l.
    rewrite lookup_insert_ne by congruence. done.
  - rewrite views_insert. intros x l st rs. rewrite lookup_insert. destruct (decide (p = x)) as [<-|]; [|apply K7].
    by rewrite Hn.
  - intros x Hxn. simpl. rewrite lookup_insert. destruct (decide (p = x)); [by eexists|]. by apply K8.
Qed.

Lemma std_inert fds i f : fd_init_std fds !! i = Some f -> no_wbuf f /\ no_end f.
Proof.
  unfold fd_init_std. rewrite list_lookup_imap. destruct (fds !! i); [|done]. intros [= <-].
  unfold no_wbuf, no_end. simpl. destruct (i =? 0)%nat, (i <=? 2)%nat; done.
Qed.

Lemma inv_calm (k k' : kern) Q d dead : calmly k k' -> inv k Q d dead -> inv k' Q d dead.
Proof.
  intros ((H1 & H2) & H3 & H4) [Hk Hres]. split; [|by rewrite H1, H3, H4]. rewrite H3. by apply (sk_same k).
Qed.

Lemma size_fdm s : size (fdm s) = size (procs s).
Proof. unfold fdm. apply map_size_fmap. Qed.

(** What [process_create] may do: nothing but allocate and free, or a new process. *)
Definition created (k k' : kern) (p : Z) : Prop :=
  p = 0 /\ calmly k k'
  \/ p <> 0 /\ procs (k_sched k) !! p = None /\ exists k1 r, calmly k k1
     /\ k' = set_sched (set_procs (<[p := r]> (procs (k_sched k))) (k_sched k)) k1
     /\ p_state r = PROCESS_READY /\ p_fds r = fd_init_std junk_fds /\ p_next r = 0.

Lemma process_create_spec (k k' : kern) p : process_create k = Some (p, k') -> created k k' p.
Proof.
  unfold process_create. intros H.
  apply bind_inv in H as (p1 & k1 & H1%calm_kmalloc & H). destruct (Z.eqb_spec p1 0) as [->|Hp1].
  { injection H as <- <-. by left. }
  apply bind_inv in H as (st & k2 & H2%calm_kmalloc & H). destruct (Z.eqb_spec st 0).
  { apply bind_inv in H as ([] & k3 & H3%calm_kfree & H). injection H as <- <-. left. split; [done|].
    etrans; [|done]. by etrans. }
  apply bind_inv in H as (dir & k3 & H3%calm_vm & H). destruct (Z.eqb_spec dir 0).
  { apply bind_inv in H as ([] & k4 & H4%calm_kfree & H). apply bind_inv in H as ([] & k5 & H5%calm_kfree & H).
    injection H as <- <-. left. split; [done|]. do 4 (etrans; [eassumption|]). done. }
  apply bind_inv in H as (pid & k4 & [= <- <-] & H). apply bind_inv in H as ([] & k4 & [= <-] & H).
  apply bind_inv in H as (cur & k5 & H5%calm_current & H).
  apply bind_inv in H as (par & k6 & H6 & H).
  assert (calmly k5 k6) as H6c.
  { destruct (cur =? 0); [by injection H6 as _ <-|]. apply bind_inv in H6 as (r & k7 & H7%calm_proc_load & H6).
    by injection H6 as _ <-. }
  clear H6. apply bind_inv in H as (old & k7 & (s7 & [= <- <-] & ->)%on_sched_inv & H).
  assert (calmly k k6) as Hc.
  { etrans; [exact H1|]. etrans; [exact H2|]. etrans; [exact H3|]. etrans; [|exact H6c]. etrans; [|exact H5]. done. }
  pose proof Hc as ((Hs & _) & _). rewrite Hs in H. destruct (procs (k_sched k) !! p1) eqn:E; [done|].
  apply bind_inv in H as ([] & k8 & (s8 & [= <-] & ->)%on_sched_inv & H). injection H as <- <-.
  right. split; [done|]. split; [done|]. eexists k6, _. split; [done|]. split; [reflexivity|done].
Qed.

Lemma created_inv (k k' : kern) Q d dead p :
  length junk_fds = MAX_FDS -> inv k Q d dead -> Z.of_nat (size (procs (k_sched k))) + 1 < 134217728 ->
  created k k' p -> p <> 0 -> inv k' Q d dead /\ k_pending k' = k_pending k
  /\ current_process (k_sched k') = current_process (k_sched k).
Proof.
  intros Hj Hinv Hsz [[? _]|(H0 & Hp & k1 & r & Hc & -> & Hst & Hf & _)] H0'; [done|].
  pose proof (inv_calm _ _ _ _ _ Hc Hinv) as [Hk1 Hres1]. destruct Hc as ((Hs & Hn) & HP & HW).
  rewrite <- Hs in *. split; [|done]. split; [by apply join_sk|]. cbn [k_sched k_pipes k_wbufs set_sched].
  unfold fdm. cbn [procs set_procs]. rewrite fmap_insert. apply res_join; [done|..].
  - by rewrite lookup_fmap, Hp.
  - rewrite Hf. unfold fd_init_std. by rewrite length_imap.
  - change (p_fds <$> procs (k_sched k1)) with (fdm (k_sched k1)). by rewrite size_fdm.
  - rewrite Hf. intros i f. apply std_inert.
Qed.

(** A copy of a live descriptor goes into a slot that refers to nothing. *)
Lemma store_ref_inv (k k1 k' : kern) Q d dead q i f r :
  inv k Q d dead -> k_pending k !! q = None -> procs (k_sched k) !! q = Some r ->
  (exists g, p_fds r !! i = Some g /\ no_wbuf g /\ no_end g) -> live_fd (k_pipes k) (k_wbufs k) f ->
  fd_store q i f k = Some (tt, k1) -> ref_fd f k1 = Some (tt, k') ->
  inv k' Q d dead /\ k_pending k' = k_pending k /\ current_process (k_sched k') = current_process (k_sched k)
  /\ procs (k_sched k') !! q = Some (set_fds (<[i := f]> (p_fds r)) r).
Proof.
  intros [Hk Hres] Hn Hr (g & Hg & G1 & G2) Hlive H1 H. pose proof (fdm_lookup _ _ _ Hr) as Hl.
  destruct (fd_store_sk k Q d dead _ q i f (p_fds r) k1 Hk Hl H1) as (Hk1 & Hf1 & Hp1 & HP1 & HW1 & Hc1 & _ & _).
  { intros _. by rewrite Hn. }
  apply proc_store_inv in H1 as (r' & Hr' & ->). assert (r' = r) as -> by congruence.
  set (k1 := set_sched _ k) in *. assert (sk_ok k1 Q d dead (k_pipes k1)) as Hk1' by done.
  destruct (ref_fd_sk k1 Q d dead (fdm (k_sched k)) [] f k' Hk1' Hres ltac:(simpl; lia) Hlive H) as ([Hs Hn'] & Hk' & Hres').
  split; [split; [done|]|].
  - rewrite Hs, Hf1. by eapply res_move_in.
  - rewrite Hn', Hs. split; [done|]. split; [done|]. apply lookup_insert_eq.
Qed.

(** One descriptor is inherited. *)
Lemma inherit_inv (k k' : kern) Q d dead parent child i l rc :
  inv k Q d dead -> k_pending k !! child = None -> procs (k_sched k) !! child = Some rc -> p_fds rc = l ->
  (forall f, l !! i = Some f -> no_wbuf f /\ no_end f) -> inherit_fd parent child i k = Some (tt, k') ->
  inv k' Q d dead /\ k_pending k' = k_pending k /\ current_process (k_sched k') = current_process (k_sched k)
  /\ exists f, procs (k_sched k') !! child = Some (set_fds (<[i := f]> l) rc).
Proof.
  intros Hinv Hn Hrc <- Hin. unfold inherit_fd. intros H. pose proof Hinv as [_ Hres].
  apply bind_inv in H as (f & k1 & H1 & H). apply fd_load_inv in H1 as (-> & rp & Hrp & Hf).
  pose proof (fdm_lookup _ _ _ Hrc) as Hl. pose proof (fdm_lookup _ _ _ Hrp) as Hlp.
  apply bind_inv in H as ([] & k1 & H1 & H).
  destruct (store_ref_inv k k1 k' Q d dead child i f rc Hinv Hn Hrc) as (? & ? & ? & ?); try done; [|by eapply table_live|eauto].
  assert (exists g, p_fds rc !! i = Some g) as [g Hg]; [|exists g; split; [done|]; by apply Hin].
  apply lookup_lt_is_Some. pose proof (ro_len _ _ _ _ Hres _ _ Hl) as Hl1. pose proof (ro_len _ _ _ _ Hres _ _ Hlp) as Hl2.
  simpl in Hl1, Hl2. rewrite Hl1, <- Hl2. by eapply lookup_lt_Some.
Qed.

Lemma inherit_loop_inv (child parent : Z) Q d dead js : NoDup js ->
  forall (k k' : kern) l rc, inv k Q d dead -> k_pending k !! child = None ->
  procs (k_sched k) !! child = Some rc -> p_fds rc = l ->
  (forall i f, i ∈ js -> l !! i = Some f -> no_wbuf f /\ no_end f) ->
  (fix go l := match l with [] => ret tt | i :: l => inherit_fd parent child i ;; go l end) js k = Some (tt, k') ->
  inv k' Q d dead /\ k_pending k' = k_pending k /\ current_process (k_sched k') = current_process (k_sched k)
  /\ exists l', procs (k_sched k') !! child = Some (set_fds l' rc).
Proof.
  induction js as [|i js IH]; intros Hnd k k' l rc Hinv Hn Hrc Hl Hin H.
  - injection H as <-. do 3 (split; [done|]). exists l. rewrite Hrc, <- Hl. by destruct rc.
  - apply NoDup_cons in Hnd as [Hi Hnd]. apply bind_inv in H as ([] & k1 & H1 & H).
    destruct (inherit_inv k k1 Q d dead parent child i l rc Hinv Hn Hrc Hl) as (Hinv1 & Hn1 & Hc1 & f & Hr1); [|done|].
    { intros f. apply Hin, elem_of_cons. by left. }
    destruct (IH Hnd k1 k' (<[i := f]> l) (set_fds (<[i := f]> l) rc) Hinv1) as (Hinv' & Hn' & Hc' & l' & Hr'); try done.
    { by rewrite Hn1. }
    { intros j g Hj. rewrite list_lookup_insert_ne by congruence. apply Hin, elem_of_cons. by right. }
    split; [done|]. split; [congruence|]. split; [congruence|]. exists l'. done.
Qed.

End Procs.
End KernProcs.
