(* ===== verification/KernRun.v ===== *)
(** * The running process and the invariant

    The kernel's invariant between two steps, and that every service the running
    process asks for keeps it. *)

From S2P Require Import Prelude Pmm Heap Disk Fat32Names Fat32 Sched SchedProps SchedFrame Pipe Paging Elf Vfs Vga LineEdit Drivers ShellEdit Kern Syscall ShellCmd KernInv KernOps KernFrame KernProcs.

Module KernRun.

Import Fat32 Proc Sched SchedProps Frame Pipe Wbuf Paging Elf Vfs Kbd Kern Syscall ShellCmd KernInv KernOps KernFrame KernProcs.

Section Run.
Context {D A : Type} `{BD : BlockDev D} `{KH : KernelHeap A} `{PS : PageShare A}.
Context `{L : Layout} `{M : Machine}.

Abbreviation kern := (kern (D := D) (A := A)).

(** The list the reaper works on. *)
Definition reap_ptr (k : kern) : Z :=
  match k_pending k !! kernel_task_addr with Some (RReap l) => l | _ => 0 end.

(** Only the kernel task reaps, and it does nothing else. *)
Definition tasks_ok (k : kern) : Prop :=
  (k_pending k !! kernel_task_addr = None \/ exists l, k_pending k !! kernel_task_addr = Some (RReap l))
  /\ forall q l, k_pending k !! q = Some (RReap l) -> q = kernel_task_addr.

(** The process that runs holds the pipe end it is working on. *)
Definition cur_ok (k : kern) : Prop :=
  forall l, fdm (k_sched k) !! current_process (k_sched k) = Some l ->
  holds_end l (k_pending k !! current_process (k_sched k)).

(** The invariant of the kernel between two steps. *)
Definition kinv (k : kern) : Prop :=
  (exists Q dead, inv k Q (reap_ptr k) dead) /\ tasks_ok k /\ cur_ok k.

(** [me] runs in the kernel and has not gone to sleep. *)
Definition running (me : Z) (k : kern) : Prop :=
  (exists Q dead, inv k Q (reap_ptr k) dead) /\ tasks_ok k
  /\ current_process (k_sched k) = me /\ me <> kernel_task_addr /\ k_pending k !! me = None.

Lemma running_kinv me k : running me k -> kinv k.
Proof. intros (H1 & H2 & H3 & _ & H4). split; [done|]. split; [done|]. intros l Hl. by rewrite H3, H4. Qed.

(** Same continuations. *)
Lemma same_tasks k k' : k_pending k' = k_pending k -> tasks_ok k -> tasks_ok k' /\ reap_ptr k' = reap_ptr k.
Proof. intros H Ht. unfold tasks_ok, reap_ptr in *. by rewrite H. Qed.

Lemma running_intro me k k' Q dead :
  running me k -> inv k' Q (reap_ptr k) dead -> k_pending k' = k_pending k ->
  current_process (k_sched k') = current_process (k_sched k) -> running me k'.
Proof.
  intros (_ & Ht & Hme & Hkt & Hp) Hinv Hn Hc. destruct (same_tasks _ _ Hn Ht) as [Ht' Hr]. split.
  - exists Q, dead. by rewrite Hr.
  - split; [done|]. by rewrite Hc, Hn.
Qed.

Lemma running_calm me k k' : running me k -> calmly k k' -> running me k'.
Proof.
  intros Hr Hc. pose proof Hr as ((Q & dead & Hinv) & _). pose proof Hc as ((Hs & Hn) & _).
  eapply running_intro; [exact Hr|by eapply inv_calm|done|by rewrite Hs].
Qed.

(** What the running process looks like. *)
Lemma running_record me k : running me k -> exists r, procs (k_sched k) !! me = Some r
  /\ me <> 0 /\ length (p_fds r) = MAX_FDS.
Proof.
  intros ((Q & dead & [Hk Hres]) & _ & <- & _). destruct (members_current _ _ _ (sk_mem _ _ _ _ _ Hk)) as (r & Hr & H0 & _).
  exists r. split; [done|]. split; [done|]. exact (ro_len _ _ _ _ Hres _ _ (fdm_lookup _ _ _ Hr)).
Qed.

Lemma running_current me k : running me k -> current k = Some (me, k).
Proof. intros (_ & _ & <- & _). unfold current, on_sched. simpl. by destruct k. Qed.

(** ** A small logic *)

(** [m] leaves a running process running, ... *)
Definition keeps {X} (me : Z) (m : st kern X) : Prop :=
  forall k x k', running me k -> m k = Some (x, k') -> running me k'.
(** ... or at least the invariant. *)
Definition leaves {X} (me : Z) (m : st kern X) : Prop :=
  forall k x k', running me k -> m k = Some (x, k') -> kinv k'.

Section Rules.
Context (me : Z).

Lemma keeps_calm {X} (m : st kern X) : resp calmly m -> keeps me m.
Proof. intros Hm k x k' Hr E. eapply running_calm; [done|]. by eapply Hm. Qed.
Lemma keeps_ret {X} (x : X) : keeps me (ret x).
Proof. intros k y k' Hr [= _ <-]. done. Qed.
Lemma keeps_bind {X Y} (m : st kern X) (f : X -> st kern Y) :
  keeps me m -> (forall x, keeps me (f x)) -> keeps me (bind m f).
Proof. intros Hm Hf k y k' Hr (x & k1 & H1 & H)%bind_inv. eapply Hf; [|done]. by eapply Hm. Qed.
Lemma leaves_bind {X Y} (m : st kern X) (f : X -> st kern Y) :
  keeps me m -> (forall x, leaves me (f x)) -> leaves me (bind m f).
Proof. intros Hm Hf k y k' Hr (x & k1 & H1 & H)%bind_inv. eapply Hf; [|done]. by eapply Hm. Qed.
Lemma keeps_current {Y} (f : Z -> st kern Y) : keeps me (f me) -> keeps me (bind current f).
Proof. intros Hf k y k' Hr. unfold bind. rewrite (running_current _ _ Hr). by apply Hf. Qed.
Lemma leaves_current {Y} (f : Z -> st kern Y) : leaves me (f me) -> leaves me (bind current f).
Proof. intros Hf k y k' Hr. unfold bind. rewrite (running_current _ _ Hr). by apply Hf. Qed.
Lemma leaves_keeps {X} (m : st kern X) : keeps me m -> leaves me m.
Proof. intros Hm k y k' Hr E. eapply running_kinv. by eapply Hm. Qed.
Lemma leaves_then {X Y} (m : st kern X) (x : X -> Y) : leaves me m -> leaves me (let* a := m in ret (x a)).
Proof. intros Hm k y k' Hr (a & k1 & H1 & H)%bind_inv. injection H as _ <-. by eapply Hm. Qed.
Lemma leaves_tail {X Y} (m : st kern X) (f : X -> st kern Y) :
  leaves me m -> (forall x, exists y, f x = ret y) -> leaves me (bind m f).
Proof. intros Hm Hf k y k' Hr (a & k1 & H1 & H)%bind_inv. destruct (Hf a) as [b E]. rewrite E in H. injection H as _ <-. by eapply Hm. Qed.
Lemma leaves_undef {X} : leaves me (undef (A := X)).
Proof. intros k y k' Hr E. done. Qed.

(** Changing a process without its state, links, descriptors or block reason. *)
Definition mild (f : process -> process) : Prop := forall r,
  p_state (f r) = p_state r /\ p_next (f r) = p_next r /\ p_block_reason (f r) = p_block_reason r
  /\ p_fds (f r) = p_fds r.

Lemma store_inv (k k' : kern) Q d dead p f : mild f -> inv k Q d dead -> proc_store p f k = Some (tt, k') ->
  inv k' Q d dead /\ k_pending k' = k_pending k /\ current_process (k_sched k') = current_process (k_sched k)
  /\ exists r, procs (k_sched k) !! p = Some r /\ procs (k_sched k') !! p = Some (f r).
Proof.
  intros Hf [Hk Hres] (r & Hp & ->)%proc_store_inv. destruct (Hf r) as (F1 & F2 & F3 & F4).
  split; [|split; [done|split; [done|]]].
  - split.
    + eapply store_sk; try done. intros Hd. rewrite F4. eapply Hk; [by apply views_lookup|done].
    + unfold fdm. cbn [k_sched set_sched procs set_procs k_pipes k_wbufs]. rewrite fmap_insert, F4.
      rewrite insert_id; [done|]. by apply (fdm_lookup (k_sched k)).
  - exists r. split; [done|]. apply lookup_insert_eq.
Qed.

Lemma keeps_store p f : mild f -> keeps me (proc_store p f).
Proof.
  intros Hf k [] k' Hr H. pose proof Hr as ((Q & dead & Hinv) & _).
  destruct (store_inv _ _ _ _ _ _ _ Hf Hinv H) as (Hinv' & HN & Hc & _). by eapply running_intro.
Qed.

(** Pointers of the scheduler that no queue runs through. *)
Lemma sched_ok_fg t s ring blk zom v : sched_ok t s ring blk zom -> sched_ok t (set_fg v s) ring blk zom.
Proof. intros [[[? ? ? ?] ? ? ? ? ? ? ? ? ?] ?]. done. Qed.

Lemma fg_inv (k : kern) Q d dead v : inv k Q d dead -> inv (set_sched (set_fg v (k_sched k)) k) Q d dead.
Proof.
  intros [[K1 K2 K3 K4 K5 K6 K7 K8] Hres]. split; [|done]. split; try done.
  destruct K1 as (ring & blk & zom & Hok & HQ). exists ring, blk, zom. split; [|done]. by apply sched_ok_fg.
Qed.

Lemma keeps_fg v : keeps me (on_sched (modify (set_fg v))).
Proof.
  intros k x k' Hr [= _ <-]. pose proof Hr as ((Q & dead & Hinv) & _).
  apply (running_intro me k _ Q dead Hr); [|done|done]. by apply fg_inv.
Qed.

(** ** Ending *)

Lemma keeps_close_all : keeps me (fd_close_writable me ;; fd_close_pipes me).
Proof.
  intros k [] k' Hr ([] & k1 & H1 & H)%bind_inv. destruct (running_record _ _ Hr) as (r & Hme & H0 & _).
  pose proof Hr as ((Q & dead & Hinv) & _ & _ & _ & Hp).
  destruct (close_all_inv _ _ _ _ _ _ _ _ Hinv H0 (or_introl Hp) (fdm_lookup _ _ _ Hme) H1 H) as (Hinv' & [C1 C2 _ _ _ _] & _).
  by eapply running_intro.
Qed.

(** Waking a process that is not asleep on a pipe. *)
Lemma wake_inv (k k' : kern) Q d dead q r :
  inv k Q d dead -> procs (k_sched k) !! q = Some r -> q <> 0 -> no_slot (k_pipes k) q ->
  on_sched (scheduler_wake q) k = Some (tt, k') -> inv k' Q d dead /\ quiet Q k k'
  /\ k_pipes k' = k_pipes k /\ k_wbufs k' = k_wbufs k.
Proof.
  intros [Hk Hres] Hq H0 Hns E. destruct (wake_sk k Q d dead _ q r Hk Hq H0 Hns) as (k1 & E1 & Hk1 & Hqt & s' & ->).
  rewrite E in E1. injection E1 as ->. split; [|done]. split; [done|]. by rewrite (qt_fdm _ _ _ Hqt).
Qed.

Lemma slot_free (k : kern) Q d dead q r : inv k Q d dead -> procs (k_sched k) !! q = Some r ->
  p_state r <> PROCESS_BLOCKED \/ (p_block_reason r <> BLOCK_PIPE_READ /\ p_block_reason r <> BLOCK_PIPE_WRITE) ->
  no_slot (k_pipes k) q.
Proof.
  intros [Hk _] Hq Hc. eapply awake_no_slot; [apply Hk|by apply views_lookup| |done].
  intros ->. by rewrite (sk_null _ _ _ _ _ Hk) in Hq.
Qed.

(** A parent that waits is woken. *)
Lemma keeps_wake_waiter a b : keeps me (on_sched (scheduler_wake_waiter a b)).
Proof.
  intros k x k' Hr (s' & E & ->)%on_sched_inv. pose proof Hr as ((Q & dead & Hinv) & _).
  pose proof (sk_mem _ _ _ _ _ (proj1 Hinv)) as (ring & blk & zom & Hok & HQ).
  revert E. unfold scheduler_wake_waiter. set (test := fun r : process => _).
  destruct (blocked_search_ok _ _ _ _ _ test Hok) as (q & Eq & Hfound).
  rewrite (bind_ok _ _ _ _ _ Eq). destruct (Z.eqb_spec q 0) as [_|H0].
  { intros [= _ <-]. by destruct k. }
  destruct Hfound as [[? _]|(_ & _ & r & Hq & Ht)]; [done|]. intros ([] & s1 & E & [= _ <-])%bind_inv.
  assert (p_block_reason r = BLOCK_WAIT) as Hb by (unfold test in Ht; zbool; tauto).
  assert (no_slot (k_pipes k) q) as Hns by (eapply slot_free; [done..|]; right; by rewrite Hb).
  destruct (wake_inv k (set_sched s1 k) Q _ dead q r Hinv Hq H0 Hns) as (Hinv' & [Q1 _ Q3 _ _] & _).
  { unfold on_sched. by rewrite E. }
  by eapply running_intro.
Qed.

(** A process that dies leaves the machine to another one. *)
Lemma kinv_switched (k k' : kern) Q dead N P0 :
  sk_ok k Q (reap_ptr k) dead P0 -> tasks_ok k -> me <> kernel_task_addr -> sk_ok k' Q (reap_ptr k) dead (k_pipes k') -> res_ok (fdm (k_sched k')) [] (k_pipes k') (k_wbufs k') ->
  fdm (k_sched k') = fdm (k_sched k) -> k_pending k' = N -> (forall q, q <> me -> N !! q = k_pending k !! q) ->
  (forall l, N !! me <> Some (RReap l)) ->
  stat (procs (k_sched k)) (current_process (k_sched k')) = Some PROCESS_READY ->
  current_process (k_sched k') <> me -> kinv k'.
Proof.
  intros Hk0 [T1 T2] Hkt Hk Hres Hf HN Hout Hme Hst Hne.
  assert (k_pending k' !! kernel_task_addr = k_pending k !! kernel_task_addr) as Hkn by (rewrite HN; by apply Hout).
  split; [|split].
  - exists Q, dead. unfold reap_ptr in *. rewrite Hkn. by split.
  - split; [by rewrite Hkn|]. intros q l. rewrite HN. destruct (decide (q = me)) as [->|Hq]; [by intros ?%Hme|].
    rewrite Hout by done. apply T2.
  - intros l. rewrite HN, Hf, Hout by done. intros Hl. apply fdm_lookup_inv in Hl as (r & Hr & ->).
    unfold stat in Hst. rewrite Hr in Hst. injection Hst as Hst.
    eapply (sk_pend _ _ _ _ _ Hk0); [by apply views_lookup|]. by rewrite Hst.
Qed.

Lemma leaves_die : leaves me (on_sched die_and_switch ;; load_cr3).
Proof.
  intros k [] k' Hr E. pose proof Hr as ((Q & dead & [Hk Hres]) & Ht & Hc & Hkt & Hp).
  destruct (die_sk _ _ _ _ _ _ Hk ltac:(congruence) E) as (Hk' & Hf & HP & HW & HN & Hst & Hd).
  eapply (kinv_switched k k' Q dead (k_pending k) (k_pipes k)); try done; try congruence.
  - intros Hx. rewrite Hx in Hst. rewrite Hc in Hd. destruct (running_record _ _ Hr) as (r & Hme & _).
    destruct (members_current _ _ _ (sk_mem _ _ _ _ _ Hk)) as (r0 & Hr0 & _ & _ & _).
    pose proof (sk_mem _ _ _ _ _ Hk) as (ring & blk & zom & [Hi _] & _).
    destruct (si_head _ _ _ _ _ Hi) as (v & Hv & Hnr). rewrite Hc in Hv. congruence.
Qed.

Lemma leaves_exit : leaves me process_exit.
Proof.
  unfold process_exit. apply leaves_current. destruct ((me =? 0) || (me =? kernel_task_addr)).
  { apply leaves_keeps, keeps_ret. }
  apply leaves_bind; [apply keeps_calm, calm_proc_load|]. intros r.
  apply leaves_bind; [apply keeps_calm, calm_read, gets_reads|]. intros fg.
  apply leaves_bind.
  { destruct (fg =? me); [|apply keeps_ret]. apply keeps_bind; [apply keeps_fg|intros _].
    destruct (negb _); [|apply keeps_ret]. apply keeps_bind; [apply keeps_calm, calm_read, find_any_reads|intros q].
    destruct (negb _); [|apply keeps_ret]. apply keeps_bind; [by apply keeps_store|intros _]. apply keeps_fg. }
  intros _. intros k x k' Hr H. apply bind_inv in H as ([] & k1 & H1 & H). apply bind_inv in H as ([] & k2 & H2 & H).
  assert (running me k2) as Hr2.
  { eapply keeps_close_all; [exact Hr|]. unfold bind. rewrite H1. exact H2. }
  revert H. cut (leaves me (let* r := proc_load me in
    (if negb (p_parent_pid r =? 0) then
       record_exit (p_pid r) (p_parent_pid r) (p_exit_code r) ;;
       on_sched (scheduler_wake_waiter (p_parent_pid r) (p_pid r)) ;;
       ret tt
     else ret tt) ;; on_sched die_and_switch ;; load_cr3)); [intros Hl H; by eapply Hl|].
  apply leaves_bind; [apply keeps_calm, calm_proc_load|]. intros r2. apply leaves_bind; [|intros _; apply leaves_die].
  destruct (negb _); [|apply keeps_ret]. apply keeps_bind; [apply keeps_calm, calm_record|intros _].
  apply keeps_bind; [apply keeps_wake_waiter|intros _; apply keeps_ret].
Qed.

(** ** Sleeping *)

(** The running process goes to sleep; [P] are the pipes without the slot it may have
    recorded itself in. *)
Lemma sleep_kinv (k k' : kern) Q dead P c reason target r :
  sk_ok k Q (reap_ptr k) dead P -> res_ok (fdm (k_sched k)) [] (k_pipes k) (k_wbufs k) -> tasks_ok k ->
  current_process (k_sched k) = me -> me <> kernel_task_addr -> procs (k_sched k) !! me = Some r ->
  slot_added me reason c P (k_pipes k) -> holds_end (p_fds r) (Some c) -> (forall l, c <> RReap l) ->
  sleep_at c reason target k = Some (tt, k') -> kinv k'.
Proof.
  intros Hk Hres Ht Hme Hkt Hr Hadd Hh Hc E. rewrite <- Hme in Hr, Hadd.
  destruct (sleep_sk _ _ _ _ _ _ _ _ _ _ _ Hk ltac:(congruence) Hr Hh Hadd E) as (Hk' & Hf & HP & HW & HN & Hst & Hne).
  rewrite Hme in *. eapply (kinv_switched k k' Q dead _ P Hk Ht Hkt); try done.
  - by rewrite HP.
  - by rewrite Hf, HP, HW.
  - intros q Hq. rewrite ?HN. by rewrite lookup_insert_ne by congruence.
  - intros l. rewrite ?HN, lookup_insert_eq. intros [= E']. by eapply Hc.
Qed.

(** Sleeping for anything but a pipe. *)
Lemma leaves_sleep c reason target :
  (forall l, holds_end l (Some c)) -> (forall l, c <> RReap l) -> leaves me (sleep_at c reason target).
Proof.
  intros Hh Hc k [] k' Hr E. destruct (running_record _ _ Hr) as (r & Hme & _).
  destruct Hr as ((Q & dead & [Hk Hres]) & Ht & Hcur & Hkt & Hp).
  eapply sleep_kinv; try done. apply slot_added_refl.
Qed.

(** ** Descriptors *)

(** A descriptor of the running process is replaced by one that refers to the same. *)
Lemma keeps_fd_same i f g : (forall p, reads p g = reads p f) -> (forall p, writes p g = writes p f) ->
  (forall w, buffers w g = buffers w f) ->
  forall k x k' r, running me k -> procs (k_sched k) !! me = Some r -> p_fds r !! i = Some f ->
  fd_store me i g k = Some (x, k') -> running me k'.
Proof.
  intros G1 G2 G3 k [] k' r Hr Hme Hi E. pose proof Hr as ((Q & dead & [Hk Hres]) & _ & _ & _ & Hp).
  pose proof (fdm_lookup _ _ _ Hme) as Hl.
  destruct (fd_store_sk k Q _ dead _ me i g _ k' Hk Hl E) as (Hk' & Hf & HN & HP & HW & Hc & _ & _).
  { intros _. by rewrite Hp. }
  eapply running_intro; [exact Hr| |done|done]. split; [by rewrite HP|]. rewrite Hf, HP, HW.
  eapply res_ok_totals; [done|eapply len_update; [apply Hres|done]|rewrite map_size_insert_Some by done; apply Hres|..]; intros x;
    unfold total; rewrite (refs_update _ _ me _ _ Hl); rewrite (count_insert _ _ _ _ _ Hi), ?G1, ?G2, ?G3; lia.
Qed.

(** A descriptor that refers to nothing takes the place of another such one. *)
Lemma res_swap F P W l i f g : res_ok F [] P W -> F !! me = Some l -> l !! i = Some f ->
  no_wbuf f -> no_end f -> no_wbuf g -> no_end g -> res_ok (<[me := <[i := g]> l]> F) [] P W.
Proof.
  intros Hres Hl Hi F1 F2 G1 G2. apply (res_move_in F [] P W me l i g f); try done. by apply res_inert.
Qed.

(** What [lookup_fd] finds. *)
Lemma lookup_fd_spec k fd o k1 : running me k -> lookup_fd fd k = Some (o, k1) ->
  k1 = k /\ match o with
            | None => 0 <= fd < Z.of_nat MAX_FDS -> exists r g, procs (k_sched k) !! me = Some r
                /\ p_fds r !! Z.to_nat fd = Some g /\ fd_kind g = FD_NONE
            | Some (q, f) => q = me /\ 0 <= fd < Z.of_nat MAX_FDS /\ fd_kind f <> FD_NONE
                /\ exists r, procs (k_sched k) !! me = Some r /\ p_fds r !! Z.to_nat fd = Some f
            end.
Proof.
  intros Hr. destruct (running_record _ _ Hr) as (r & Hme & H0 & _). unfold lookup_fd.
  rewrite (bind_ok _ _ _ _ _ (running_current _ _ Hr)).
  destruct ((me =? 0) || (fd <? 0) || (Z.of_nat MAX_FDS <=? fd)) eqn:Eg.
  - intros [= <- <-]. split; [done|]. intros Hfd. zbool. lia.
  - intros H. apply bind_inv in H as (f & k2 & H1 & H). apply fd_load_inv in H1 as (-> & r' & Hr' & Hf).
    assert (r' = r) as -> by congruence. apply orb_false_iff in Eg as [Eg E3]. apply orb_false_iff in Eg as [_ E2]. zbool.
    destruct (Z.eqb_spec (fd_kind f) FD_NONE) as [Hkd|Hkd]; injection H as <- <-; (split; [done|]).
    + intros _. eauto.
    + split; [done|]. split; [lia|]. eauto.
Qed.

(** What a loose descriptor refers to is released. *)
Lemma release_fd_sk (k k' : kern) Q d dead F f :
  sk_ok k Q d dead (k_pipes k) -> res_ok F [f] (k_pipes k) (k_wbufs k) -> release_fd f k = Some (tt, k') ->
  sk_ok k' Q d dead (k_pipes k') /\ quiet Q k k' /\ res_ok F [] (k_pipes k') (k_wbufs k').
Proof.
  intros Hk Hres. unfold release_fd. intros H. apply bind_inv in H as ([] & k1 & H1 & H).
  destruct (decide (fd_kind f = FD_FILE)) as [Hkd|Hkd].
  { rewrite Hkd in H1, H. cbn in H. injection H as <-. destruct (Z.eqb_spec (fd_writable f) 0) as [Hw|Hw]; cbn in H1.
    - injection H1 as <-. split; [done|]. split; [done|]. apply (res_inert _ _ _ _ f); [by intros _|by split; rewrite Hkd|done].
    - destruct (wbuf_unref_sk _ _ _ _ _ Hres ltac:(simpl; lia) Hkd Hw H1) as (Hs & HP & Hres'). rewrite HP in *.
      split; [by apply (sk_same k)|]. split; [by apply quiet_same|done]. }
  assert (k1 = k) as ->.
  { destruct (Z.eqb_spec (fd_kind f) FD_FILE); [done|]. by injection H1 as <-. }
  destruct (decide (no_end f)) as [Hne|Hne].
  { assert (k' = k) as ->.
    { destruct Hne. destruct (Z.eqb_spec (fd_kind f) FD_PIPE_READ), (Z.eqb_spec (fd_kind f) FD_PIPE_WRITE); try done.
      by injection H as <-. }
    split; [done|]. split; [done|]. apply (res_inert _ _ _ _ f); [by intros ?|done|done]. }
  assert (fd_kind f = FD_PIPE_READ \/ fd_kind f = FD_PIPE_WRITE) as Hk2.
  { destruct (decide (fd_kind f = FD_PIPE_READ)); [by left|]. destruct (decide (fd_kind f = FD_PIPE_WRITE)); [by right|].
    by destruct Hne. }
  assert (fd_pipe f <> 0) as Hp0.
  { destruct Hk2 as [Hk2|Hk2].
    - destruct (live_reads _ _ _ _ (fd_pipe f) Hres) as (? & _ & ?); [by apply total_pos_loose, reads_self|done].
    - destruct (live_writes _ _ _ _ (fd_pipe f) Hres) as (? & _ & ?); [by apply total_pos_loose, writes_self|done]. }
  destruct (Z.eqb_spec (fd_pipe f) 0); [done|]. destruct Hk2 as [Hk2|Hk2]; rewrite Hk2 in H; cbn in H.
  - destruct (close_read_end_sk _ _ _ _ _ _ _ _ Hk Hres ltac:(simpl; lia) Hk2 H) as (? & ? & ? & _). done.
  - destruct (close_write_end_sk _ _ _ _ _ _ _ _ Hk Hres ltac:(simpl; lia) Hk2 H) as (? & ? & ? & _). done.
Qed.

(** [sys_close] frees the slot. *)
Lemma close_spec k fd v k' : running me k -> sys_close fd k = Some (v, k') ->
  running me k' /\ (0 <= fd < Z.of_nat MAX_FDS -> exists r g, procs (k_sched k') !! me = Some r
    /\ p_fds r !! Z.to_nat fd = Some g /\ fd_kind g = FD_NONE
    /\ forall r0 j, procs (k_sched k) !! me = Some r0 -> j <> Z.to_nat fd -> p_fds r !! j = p_fds r0 !! j).
Proof.
  intros Hr. unfold sys_close. intros H. apply bind_inv in H as (o & k1 & H1 & H).
  destruct (lookup_fd_spec _ _ _ _ Hr H1) as [-> Ho]. destruct o as [[q f]|].
  2:{ injection H as _ <-. split; [done|]. intros Hfd. destruct (Ho Hfd) as (r & g & Hme & Hg & Hkd).
      exists r, g. do 3 (split; [done|]). intros r0 j Hr0. congruence. }
  destruct Ho as (-> & Hfd & Hkd & r & Hme & Hi). apply bind_inv in H as ([] & k1 & H2 & H).
  apply bind_inv in H as ([] & k2 & H3 & H). injection H as _ <-.
  pose proof Hr as ((Q & dead & [Hk Hres]) & _ & _ & _ & Hp). pose proof (fdm_lookup _ _ _ Hme) as Hl.
  pose proof (res_move_out _ _ _ _ _ _ _ _ (cleared f) Hres Hl Hi ltac:(done) ltac:(done)) as Hout.
  destruct (release_fd_sk _ _ _ _ _ _ _ Hk Hout H2) as (Hk1 & Hqt & Hres1).
  destruct (running_record _ _ Hr) as (_ & _ & H0 & _).
  destruct (clear_slot k k1 k2 Q (reap_ptr k) dead me (Z.to_nat fd) (p_fds r) f (cleared f)) as (Hinv & [C1 C2 _ _ _ _] & Hl');
    try done; [by left|].
  split; [by eapply running_intro|]. intros _. apply fdm_lookup_inv in Hl' as (r' & Hr' & Hf'). exists r', (cleared f).
  split; [done|]. rewrite <- Hf'. split; [apply list_lookup_insert_eq; by eapply lookup_lt_Some|]. split; [done|].
  intros r0 j Hr0 Hj. assert (r0 = r) as -> by congruence. by rewrite list_lookup_insert_ne by done.
Qed.

Lemma none_inert g : fd_kind g = FD_NONE -> no_wbuf g /\ no_end g.
Proof. intros H. unfold no_wbuf, no_end. by rewrite H. Qed.

Lemma keeps_dup2 a b : keeps me (sys_dup2 a b).
Proof.
  intros k v k' Hr. unfold sys_dup2. rewrite (bind_ok _ _ _ _ _ (running_current _ _ Hr)).
  destruct (_ || _) eqn:Eg; [by intros [= _ <-]|]. intros H.
  assert (0 <= a < 8 /\ 0 <= b < 8) as [Ha Hb].
  { change (Z.of_nat MAX_FDS) with 8 in Eg. repeat (apply orb_false_iff in Eg as [Eg ?]). zbool. lia. }
  apply bind_inv in H as (f & k1 & H1 & H). apply fd_load_inv in H1 as (-> & r & Hme & Hf).
  destruct (fd_kind f =? FD_NONE); [by injection H as _ <-|].
  destruct (Z.eqb_spec a b) as [->|Hab]; [by injection H as _ <-|].
  apply bind_inv in H as (v2 & k1 & H1 & H).
  destruct (close_spec _ _ _ _ Hr H1) as [Hr1 Hslot]. destruct Hslot as (r1 & g & Hme1 & Hg & Hkd & Hsame); [done|].
  apply bind_inv in H as (f' & k2 & H2 & H). apply fd_load_inv in H2 as (-> & r2 & Hr2 & Hf2).
  assert (r2 = r1) as -> by congruence. apply bind_inv in H as ([] & k2 & H2 & H).
  apply bind_inv in H as ([] & k3 & H3 & H). injection H as _ <-.
  pose proof Hr1 as ((Q & dead & Hinv) & _ & _ & _ & Hp). destruct (none_inert g Hkd) as [G1 G2].
  destruct (store_ref_inv k1 k2 k3 Q _ dead me (Z.to_nat b) f' r1 Hinv Hp Hme1) as (Hinv' & HN & Hc & _); try done.
  - by exists g.
  - eapply table_live; [apply Hinv|by apply fdm_lookup|done].
  - by eapply running_intro.
Qed.

(** ** New descriptors *)

Lemma free_fd_spec l i : free_fd l = Some i -> exists f, l !! i = Some f /\ fd_kind f = FD_NONE.
Proof.
  unfold free_fd. destruct (list_find _ l) as [[j f]|] eqn:E; [|done]. intros [= <-].
  apply list_find_Some in E as (? & ? & _). eauto.
Qed.

(** A loose descriptor goes into a free slot of the running process. *)
Lemma put_loose (k k' : kern) Q d dead E i f g r :
  sk_ok k Q d dead (k_pipes k) -> res_ok (fdm (k_sched k)) (f :: E) (k_pipes k) (k_wbufs k) ->
  k_pending k !! me = None -> procs (k_sched k) !! me = Some r -> p_fds r !! i = Some g -> fd_kind g = FD_NONE ->
  fd_store me i f k = Some (tt, k') ->
  sk_ok k' Q d dead (k_pipes k') /\ res_ok (fdm (k_sched k')) E (k_pipes k') (k_wbufs k')
  /\ k_pending k' = k_pending k /\ current_process (k_sched k') = current_process (k_sched k)
  /\ procs (k_sched k') !! me = Some (set_fds (<[i := f]> (p_fds r)) r).
Proof.
  intros Hk Hres Hp Hme Hi Hkd H. pose proof (fdm_lookup _ _ _ Hme) as Hl. destruct (none_inert g Hkd) as [G1 G2].
  destruct (fd_store_sk k Q _ dead _ me i f _ k' Hk Hl H) as (Hk' & Hf & HN & HP & HW & Hc & _ & _).
  { intros _. by rewrite Hp. }
  split; [by rewrite HP|]. split; [rewrite Hf, HP, HW; by eapply res_move_in|]. split; [done|]. split; [done|].
  apply proc_store_inv in H as (r' & Hr' & ->). assert (r' = r) as -> by congruence. apply lookup_insert_eq.
Qed.

Lemma keeps_pipe a : keeps me (sys_pipe a).
Proof.
  intros k v k' Hr. unfold sys_pipe. destruct (negb _); [by intros [= _ <-]|].
  rewrite (bind_ok _ _ _ _ _ (running_current _ _ Hr)). destruct (me =? 0); [by intros [= _ <-]|]. intros H.
  apply bind_inv in H as (r & k1 & H1 & H). apply proc_load_inv in H1 as [Hme ->].
  destruct (free_fd (p_fds r)) as [rfd|] eqn:E1; [|by injection H as _ <-].
  destruct (free_fd (drop (S rfd) (p_fds r))) as [d|] eqn:E2; [|by injection H as _ <-].
  apply free_fd_spec in E1 as (f0 & Hf0 & Hk0). apply free_fd_spec in E2 as (f1 & Hf1 & Hk1).
  rewrite lookup_drop in Hf1. set (wfd := (S rfd + d)%nat) in *.
  apply bind_inv in H as (p & k2 & Hpc & H). unfold pipe_create in Hpc.
  apply bind_inv in Hpc as (p' & k1 & H1%calm_kmalloc & Hpc). pose proof (running_calm _ _ _ Hr H1) as Hr1.
  destruct (Z.eqb_spec p' 0) as [->|Hp0]; [injection Hpc as <- <-; by injection H as _ <-|].
  apply bind_inv in Hpc as (old & k1' & [= <- <-] & Hpc). destruct (k_pipes k1 !! p') as [|] eqn:Ep; [done|].
  apply bind_inv in Hpc as ([] & k2' & [= <-] & Hpc). injection Hpc as <- <-.
  destruct (Z.eqb_spec p' 0); [done|]. set (k2 := set_pipes _ k1) in *.
  assert (procs (k_sched k2) !! me = Some r) as Hme2 by (destruct H1 as ((Hs & _) & _); simpl; by rewrite Hs).
  apply bind_inv in H as (g0 & k3 & H3 & H). apply fd_load_inv in H3 as (-> & r3 & Hr3 & Hg0).
  assert (r3 = r) as -> by congruence. assert (g0 = f0) as -> by congruence. clear Hr3 Hg0.
  apply bind_inv in H as ([] & k3 & H3 & H). apply bind_inv in H as (g1 & k4 & H4 & H).
  apply fd_load_inv in H4 as (-> & r4 & Hr4 & Hg1). apply bind_inv in H as ([] & k4 & H4 & H).
  set (a0 := mk_fd FD_PIPE_READ _ _ _ _ _ _ _ _) in H3. set (a1 := mk_fd FD_PIPE_WRITE _ _ _ _ _ _ _ _) in H4.
  pose proof Hr1 as ((Q & dead & [Hs1 Hres1]) & _ & _ & _ & Hp1).
  assert (sk_ok k2 Q (reap_ptr k1) dead (k_pipes k2)) as Hs2.
  { apply (sk_same k1); [done|]. destruct Hs1. split; try done. apply slots_pipe; [done|..]; by rewrite Ep. }
  pose proof (res_new_pipe _ _ _ p' Hres1 Ep Hp0 a0 a1 eq_refl eq_refl eq_refl eq_refl) as Hres2.
  destruct (put_loose k2 k3 Q _ dead [a1] rfd a0 f0 r Hs2 Hres2 Hp1 Hme2 Hf0 Hk0 H3) as (Hs3 & Hres3 & HN3 & Hc3 & Hme3).
  rewrite Hme3 in Hr4. injection Hr4 as <-. simpl in Hg1. rewrite list_lookup_insert_ne in Hg1 by (unfold wfd; lia).
  assert (g1 = f1) as -> by congruence.
  destruct (put_loose k3 k4 Q _ dead [] wfd a1 f1 (set_fds (<[rfd := a0]> (p_fds r)) r) Hs3 Hres3) as (Hs4 & Hres4 & HN4 & Hc4 & _); try done.
  { by rewrite HN3. }
  { simpl. by rewrite list_lookup_insert_ne by (unfold wfd; lia). }
  assert (running me k4) as Hr4.
  { eapply running_intro; [exact Hr1|by split|by rewrite HN4, HN3|by rewrite Hc4, Hc3]. }
  apply bind_inv in H as ([] & k5 & H5%calm_put32 & H). apply bind_inv in H as ([] & k6 & H6%calm_put32 & H).
  injection H as _ <-. eapply running_calm; [|exact H6]. by eapply running_calm.
Qed.

Lemma keeps_open_slot (k k' : kern) r i f g : running me k -> procs (k_sched k) !! me = Some r ->
  p_fds r !! i = Some g -> fd_kind g = FD_NONE -> no_wbuf f -> no_end f ->
  fd_store me i f k = Some (tt, k') -> running me k'.
Proof.
  intros Hr Hme Hi Hkd F1 F2 H. pose proof Hr as ((Q & dead & [Hk Hres]) & _ & _ & _ & Hp).
  destruct (put_loose k k' Q _ dead [] i f g r Hk) as (Hk' & Hres' & HN & Hc & _); try done.
  - by apply res_inert.
  - eapply running_intro; [exact Hr|by split|done|done].
Qed.

Lemma keeps_open a b : keeps me (sys_open a b).
Proof.
  intros k v k' Hr. unfold sys_open, with_path. intros H. apply bind_inv in H as (o & k1 & H1%calm_path & H).
  pose proof (running_calm _ _ _ Hr H1) as Hr1. clear Hr H1. destruct o as [path|]; [|by injection H as _ <-].
  revert H. rewrite (bind_ok _ _ _ _ _ (running_current _ _ Hr1)). destruct (me =? 0); [by intros [= _ <-]|]. intros H.
  apply bind_inv in H as (r & k2 & H2 & H). apply proc_load_inv in H2 as [Hme ->].
  destruct (free_fd (p_fds r)) as [fd|] eqn:E1; [|by injection H as _ <-]. apply free_fd_spec in E1 as (f0 & Hf0 & Hk0).
  destruct (negb _).
  - apply bind_inv in H as (w & k2 & Hw & H). unfold wbuf_open in Hw.
    apply bind_inv in Hw as (w' & k3 & H3%calm_kmalloc & Hw). pose proof (running_calm _ _ _ Hr1 H3) as Hr3.
    destruct (Z.eqb_spec w' 0) as [->|Hw0]; [injection Hw as <- <-; by injection H as _ <-|].
    apply bind_inv in Hw as (bf & k4 & H4%calm_kmalloc & Hw). pose proof (running_calm _ _ _ Hr3 H4) as Hr4.
    destruct (bf =? 0).
    { apply bind_inv in Hw as ([] & k5 & H5%calm_kfree & Hw). injection Hw as <- <-. injection H as _ <-. by eapply running_calm. }
    apply bind_inv in Hw as (old & k4' & [= <- <-] & Hw). destruct (k_wbufs k4 !! w') as [|] eqn:Ew; [done|].
    apply bind_inv in Hw as ([] & k2' & [= <-] & Hw). injection Hw as <- <-. destruct (Z.eqb_spec w' 0); [done|].
    set (k5 := set_wbufs _ k4) in *.
    assert (procs (k_sched k5) !! me = Some r) as Hme5.
    { destruct H3 as ((Hs3 & _) & _), H4 as ((Hs4 & _) & _). simpl. by rewrite Hs4, Hs3. }
    apply bind_inv in H as (g0 & k6 & H6 & H). apply fd_load_inv in H6 as (-> & r3 & Hr3' & Hg0).
    assert (r3 = r) as -> by congruence. assert (g0 = f0) as -> by congruence.
    apply bind_inv in H as ([] & k6 & H6 & H). injection H as _ <-. set (f := mk_fd FD_FILE 1 w' _ _ _ _ _ _) in H6.
    pose proof Hr4 as ((Q & dead & [Hs4 Hres4]) & _ & _ & _ & Hp4).
    pose proof (res_new_wbuf _ _ _ w' (wbuf_new bf path) f Hres4 Ew Hw0 eq_refl eq_refl ltac:(done) eq_refl) as Hres5.
    destruct (put_loose k5 k6 Q (reap_ptr k4) dead [] fd f f0 r) as (Hs6 & Hres6 & HN6 & Hc6 & _); try done.
    { by apply (sk_same k4). }
    eapply running_intro; [exact Hr4|by split|done|done].
  - apply bind_inv in H as (o & k2 & H2%calm_vfs & H). destruct o as [[fc sz]|]; [|injection H as _ <-; by eapply running_calm].
    pose proof (running_calm _ _ _ Hr1 H2) as Hr2.
    apply bind_inv in H as (g0 & k3 & H3 & H). apply fd_load_inv in H3 as (-> & r3 & Hr3 & Hg0).
    assert (procs (k_sched k2) !! me = Some r) as Hme2 by (destruct H2 as ((Hs & _) & _); by rewrite Hs).
    apply bind_inv in H as ([] & k3 & H3 & H). injection H as _ <-.
    assert (r3 = r) as -> by congruence. eapply (keeps_open_slot k2 k3 r fd _ f0); [..|exact H3]; done.
Qed.

(** ** Reading and writing pipes *)

(** What a pass over a pipe does besides moving bytes: [pi0] is the result without
    the slot a blocking caller recorded itself in. *)
Definition passed (pi pi0 pi' : pipe) (wakes : list Z) : Prop :=
  (pipe_ok pi -> pipe_ok pi') /\ read_open pi' = read_open pi /\ write_open pi' = write_open pi
  /\ (wakes = [] /\ blocked_reader pi0 = blocked_reader pi /\ blocked_writer pi0 = blocked_writer pi
      \/ exists q, q <> 0 /\ wakes = [q]
         /\ (q = blocked_reader pi /\ blocked_reader pi0 = 0 /\ blocked_writer pi0 = blocked_writer pi
             \/ q = blocked_writer pi /\ blocked_writer pi0 = 0 /\ blocked_reader pi0 = blocked_reader pi)).

Lemma put_bytes_range l p : pipe_ok p -> pipe_ok (put_bytes l p).
Proof.
  revert p. induction l as [|c l IH]; intros p Hp; [done|]. simpl. apply IH. unfold pipe_ok, put_byte, PIPE_BUF_SIZE in *. simpl.
  rewrite Z.rem_mod_nonneg by lia. zmod.
Qed.

Lemma write_passes_frame fuel w0 data written p wakes out p' wk :
  write_passes fuel w0 data written p wakes = (out, p', wk) ->
  (pipe_ok p -> pipe_ok p') /\ read_open p' = read_open p /\ write_open p' = write_open p
  /\ (wk = wakes /\ blocked_reader p' = blocked_reader p
      \/ blocked_reader p <> 0 /\ wk = wakes ++ [blocked_reader p] /\ blocked_reader p' = 0)
  /\ blocked_writer p' = (match out with Block _ => w0 | _ => blocked_writer p end).
Proof.
  revert written p wakes. induction fuel as [|n IH]; intros written p wakes; cbn [write_passes].
  { intros [= <- <- <-]. auto 10. }
  destruct (written <? _); [|intros [= <- <- <-]; auto 10].
  destruct (0 <? _).
  - set (m := if _ <? _ then _ else _). set (l := take _ _). pose proof (put_bytes_range l p) as Hrange.
    destruct (put_bytes_frame l p) as (F1 & F2 & F3 & F4). rewrite F3.
    destruct (Z.eqb_spec (blocked_reader p) 0) as [E|E]; cbn [negb]; intros (H1 & H2 & H3 & H4 & H5)%IH;
      simpl in *; rewrite ?F1, ?F2, ?F3, ?F4 in *; (split; [auto|]); (split; [done|]); (split; [done|]); (split; [|done]).
    + destruct H4 as [H4|H4]; [by left|]. by right.
    + right. split; [done|]. by destruct H4 as [[-> ->]|[? _]].
  - destruct (read_open p =? 0); intros [= <- <- <-]; auto 10.
Qed.

Lemma finish_slots (V : gmap Z view) N P p pi pi0 : slots_ok V N P -> P !! p = Some pi ->
  (blocked_reader pi0 = 0 \/ blocked_reader pi0 = blocked_reader pi) ->
  (blocked_writer pi0 = 0 \/ blocked_writer pi0 = blocked_writer pi) -> slots_ok V N (<[p := pi0]> P).
Proof. intros Hs Hp H1 H2. apply slots_pipe; [done|..]; rewrite Hp; [|done]. by intros ? [= <-]. Qed.

(** Storing the pipe and the wake-ups; [P0] holds [pi0]. *)
Lemma finish_sk (k k1 k' : kern) Q d dead p pi pi0 pi' wakes :
  sk_ok k Q d dead (k_pipes k) -> res_ok (fdm (k_sched k)) [] (k_pipes k) (k_wbufs k) ->
  k_pipes k !! p = Some pi -> passed pi pi0 pi' wakes ->
  pipe_store p pi' k = Some (tt, k1) -> wake_all wakes k1 = Some (tt, k') ->
  sk_ok k' Q d dead (<[p := pi0]> (k_pipes k)) /\ quiet Q k k' /\ k_pipes k' = <[p := pi']> (k_pipes k)
  /\ k_wbufs k' = k_wbufs k /\ res_ok (fdm (k_sched k')) [] (k_pipes k') (k_wbufs k').
Proof.
  intros Hk Hres Hp (Pok & Pr & Pw & Hw) [= <-] H. set (k1 := set_pipes _ k) in *.
  pose proof (ro_pipe _ _ _ _ Hres p) as Hpp. rewrite Hp in Hpp. destruct Hpp as (_ & Hpok & _).
  assert (res_ok (fdm (k_sched k)) [] (<[p := pi']> (k_pipes k)) (k_wbufs k)) as Hres1
    by (eapply res_same_pipe; eauto).
  assert (sk_ok k1 Q d dead (<[p := pi0]> (k_pipes k))) as Hk1.
  { apply (sk_same k); [done|]. destruct Hk. split; try done. eapply finish_slots; [done..| |]; naive_solver. }
  destruct Hw as [(-> & _ & _)|(q & Hq0 & -> & Hcase)].
  - injection H as <-. split; [done|]. split; [by apply quiet_same|]. done.
  - apply bind_inv in H as ([] & k2 & H2 & H). injection H as <-.
    assert (exists r, procs (k_sched k1) !! q = Some r) as [r Hr].
    { destruct (sk_slots _ _ _ _ _ Hk p pi Hp) as [Sr Sw].
      assert (exists v, views (k_sched k) !! q = Some v) as [v Hv].
      { destruct Hcase as [(-> & _)|(-> & _)]; [destruct (Sr Hq0) as (? & ? & ? & ? & _)|destruct (Sw Hq0) as (? & ? & ? & ? & ? & _)]; eauto. }
      unfold views in Hv. rewrite lookup_fmap in Hv. simpl. destruct (procs (k_sched k) !! q); [eauto|done]. }
    assert (no_slot (<[p := pi0]> (k_pipes k)) q) as Hns.
    { destruct Hcase as [(-> & E1 & E2)|(-> & E1 & E2)].
      - pose proof (reader_unique _ _ _ _ _ (sk_slots _ _ _ _ _ Hk) Hp Hq0) as Hn. intros x xi Hx.
        destruct (decide (p = x)) as [<-|Hpx].
        + rewrite lookup_insert_eq in Hx. injection Hx as <-. destruct (Hn p (set_reader 0 pi)) as [N1 N2]; [apply lookup_insert_eq|].
          simpl in *. by rewrite E1, E2.
        + rewrite lookup_insert_ne in Hx by done. apply (Hn x xi). by rewrite lookup_insert_ne by done.
      - pose proof (writer_unique _ _ _ _ _ (sk_slots _ _ _ _ _ Hk) Hp Hq0) as Hn. intros x xi Hx.
        destruct (decide (p = x)) as [<-|Hpx].
        + rewrite lookup_insert_eq in Hx. injection Hx as <-. destruct (Hn p (set_writer 0 pi)) as [N1 N2]; [apply lookup_insert_eq|].
          simpl in *. by rewrite E1, E2.
        + rewrite lookup_insert_ne in Hx by done. apply (Hn x xi). by rewrite lookup_insert_ne by done. }
    destruct (wake_sk k1 Q d dead _ q r Hk1 Hr Hq0 Hns) as (k2' & E2 & Hk2 & Hqt & s' & ->).
    rewrite H2 in E2. injection E2 as ->. split; [done|].
    split; [eapply quiet_trans; [|exact Hqt]; by apply quiet_same|]. split; [done|]. split; [done|].
    cbn [k_pipes k_wbufs set_sched]. rewrite (qt_fdm _ _ _ Hqt). done.
Qed.

(** The call returns ... *)
Lemma finish_ret (k k1 k' : kern) p pi pi' wakes :
  running me k -> k_pipes k !! p = Some pi -> passed pi pi' pi' wakes ->
  pipe_store p pi' k = Some (tt, k1) -> wake_all wakes k1 = Some (tt, k') -> running me k'.
Proof.
  intros Hr Hp Hpass H1 H. pose proof Hr as ((Q & dead & [Hk Hres]) & _).
  destruct (finish_sk _ _ _ _ _ _ _ _ _ _ _ Hk Hres Hp Hpass H1 H) as (Hk' & [Q1 _ Q3 _ _] & HP & HW & Hres').
  eapply running_intro; [exact Hr| |done|done]. split; [by rewrite HP|done].
Qed.

(** ... or sleeps in a slot of the pipe. *)
Lemma finish_block (k k1 k2 k' : kern) p pi pi0 pi' wakes c reason r :
  running me k -> k_pipes k !! p = Some pi -> passed pi pi0 pi' wakes ->
  slot_added me reason c {[p := pi0]} {[p := pi']} ->
  procs (k_sched k) !! me = Some r -> holds_end (p_fds r) (Some c) -> (forall l, c <> RReap l) ->
  pipe_store p pi' k = Some (tt, k1) -> wake_all wakes k1 = Some (tt, k2) ->
  sleep_at c reason 0 k2 = Some (tt, k') -> kinv k'.
Proof.
  intros Hr Hp Hpass Hadd Hme Hh Hc H1 H2 H. pose proof Hr as ((Q & dead & [Hk Hres]) & Ht & Hcur & Hkt & _).
  destruct (finish_sk _ _ _ _ _ _ _ _ _ _ _ Hk Hres Hp Hpass H1 H2) as (Hk2 & [Q1 Q2 Q3 _ _] & HP & HW & Hres2).
  destruct (same_tasks _ _ Q1 Ht) as [Ht2 Hrp].
  assert (fdm (k_sched k2) !! me = Some (p_fds r)) as Hl by (rewrite Q2; by apply fdm_lookup).
  apply fdm_lookup_inv in Hl as (r2 & Hr2 & Hf2).
  eapply (sleep_kinv k2 k' Q dead (<[p := pi0]> (k_pipes k))); try done.
  - by rewrite Hrp.
  - by rewrite Q3.
  - rewrite HP. intros x xi Hx. destruct (decide (p = x)) as [<-|Hne].
    + rewrite lookup_insert_eq in Hx |- *. injection Hx as <-.
      destruct (Hadd p pi') as (pi1 & Hpi1 & ?); [apply lookup_singleton_eq|]. rewrite lookup_singleton_eq in Hpi1. injection Hpi1 as <-. eauto.
    + rewrite lookup_insert_ne in Hx |- * by done. exists xi. auto.
  - by rewrite <- Hf2.
Qed.

(** [me] has an end of pipe [p] open. *)
Definition holding (t : Z -> file_desc -> bool) (p : Z) (k : kern) : Prop :=
  exists r, procs (k_sched k) !! me = Some r /\ 0 < count (t p) (p_fds r).

Lemma fd_holding k r i f t p : procs (k_sched k) !! me = Some r -> p_fds r !! i = Some f -> t p f = true ->
  holding t p k.
Proof. intros Hme Hi Ht. exists r. split; [done|]. by eapply count_pos. Qed.

Lemma finish_write_kinv k p pi buf len data written w k' :
  running me k -> holding writes p k -> k_pipes k !! p = Some pi ->
  finish_write p buf len (write_passes 3 me data written pi []) k = Some (w, k') -> kinv k'.
Proof.
  intros Hr (r & Hme & Hh) Hp. unfold finish_write.
  destruct (write_passes 3 me data written pi []) as [[out pi'] wk] eqn:E.
  apply write_passes_frame in E as (Pok & Pr & Pw & Hwk & Hbw). simpl in Hwk. intros H.
  apply bind_inv in H as ([] & k0 & H0 & H). assert (k0 = k) as ->.
  { revert H0. unfold touch. destruct (forallb _ _); [by intros [= <-]|done]. }
  apply bind_inv in H as ([] & k1 & H1 & H). apply bind_inv in H as ([] & k2 & H2 & H).
  destruct out as [v|v|]; [| |done].
  - injection H as _ <-. eapply running_kinv, finish_ret; [exact Hr|exact Hp| |done|done].
    do 3 (split; [done|]). destruct Hwk as [[-> ?]|(? & -> & ?)]; [by left|right; eauto 10].
  - apply bind_inv in H as ([] & k3 & H3 & H). injection H as _ <-.
    eapply (finish_block k k1 k2 k3 p pi (set_writer (blocked_writer pi) pi') pi' wk (RPipeWrite p buf len v) BLOCK_PIPE_WRITE r); [exact Hr|exact Hp| |
      |exact Hme|exact Hh|done|exact H1|exact H2|exact H3].
    + do 3 (split; [done|]). simpl. destruct Hwk as [[-> ?]|(? & -> & ?)]; [by left|right; eauto 10].
    + intros x xi [<- <-]%lookup_singleton_Some. exists (set_writer (blocked_writer pi) pi').
      split; [apply lookup_singleton_eq|]. split; [by left|]. right. eauto 10.
Qed.

Lemma pipe_write_kinv k p buf len w k' :
  running me k -> holding writes p k -> Syscall.pipe_write_fd p buf len k = Some (w, k') -> kinv k'.
Proof.
  intros Hr Hh. unfold Syscall.pipe_write_fd. intros H. apply bind_inv in H as (pi & k1 & H1 & H).
  apply pipe_load_inv in H1 as [Hp ->]. revert H. rewrite (bind_ok _ _ _ _ _ (running_current _ _ Hr)).
  intros H. apply bind_inv in H as (k1 & k2 & [= <- <-] & H). revert H. unfold Pipe.pipe_write_fd.
  destruct (read_open pi =? 0); [|by apply finish_write_kinv]. intros H. unfold finish_write in H.
  apply bind_inv in H as ([] & k0 & H0 & H). apply bind_inv in H as ([] & k1 & H1 & H).
  apply bind_inv in H as ([] & k2 & [= <-] & H). injection H as _ <-.
  eapply running_kinv, (finish_ret k0 k1 k1 p pi pi []); [by eapply running_calm; [|eapply calm_touch]| |
    |exact H1|reflexivity].
  - apply calm_touch in H0 as (_ & -> & _). exact Hp.
  - do 3 (split; [done|]). by left.
Qed.

Lemma get_bytes_range n p : pipe_ok p -> pipe_ok (get_bytes n p).2.
Proof.
  revert p. induction n as [|n IH]; intros p Hp; [done|]. cbn [get_bytes get_byte].
  assert (pipe_ok (get_byte p).2) as Hp1.
  { unfold pipe_ok, get_byte, PIPE_BUF_SIZE in *. simpl. rewrite Z.rem_mod_nonneg by lia. zmod. }
  specialize (IH (get_byte p).2 Hp1). unfold get_byte in IH. simpl in IH. by destruct (get_bytes n _).
Qed.

Lemma pipe_read_kinv k p buf len w k' :
  running me k -> holding reads p k -> Syscall.pipe_read_fd p buf len k = Some (w, k') -> kinv k'.
Proof.
  intros Hr (r & Hme & Hh). unfold Syscall.pipe_read_fd. intros H. apply bind_inv in H as (pi & k1 & H1 & H).
  apply pipe_load_inv in H1 as [Hp ->]. revert H. rewrite (bind_ok _ _ _ _ _ (running_current _ _ Hr)).
  destruct (Pipe.pipe_read_fd me len pi) as [[[out l] pi'] wk] eqn:E. intros H.
  apply bind_inv in H as ([] & k0 & H0%calm_put_bytes & H). pose proof (running_calm _ _ _ Hr H0) as Hr0.
  destruct H0 as ((Hs & _) & HP & _). rewrite <- Hs in Hme. rewrite <- HP in Hp.
  apply bind_inv in H as ([] & k1 & H1 & H). apply bind_inv in H as ([] & k2 & H2 & H).
  revert E. unfold Pipe.pipe_read_fd. destruct (0 <? _).
  - set (n := if _ <? _ then _ else _). destruct (get_bytes_frame (Z.to_nat n) pi) as (F1 & F2 & F3 & F4).
    pose proof (get_bytes_range (Z.to_nat n) pi) as Hrg. destruct (get_bytes (Z.to_nat n) pi) as [l' q]. simpl in *.
    destruct (Z.eqb_spec (blocked_writer q) 0) as [Eb|Eb]; cbn [negb]; intros [= <- <- <- <-]; injection H as _ <-;
      (eapply running_kinv, (finish_ret k0 k1); [exact Hr0|exact Hp| |exact H1|exact H2]).
    + do 3 (split; [done|]). by left.
    + do 3 (split; [done|]). right. exists (blocked_writer q). split; [done|]. split; [done|]. right. by rewrite <- F4.
  - destruct (write_open pi =? 0); intros [= <- <- <- <-].
    + injection H as _ <-. eapply running_kinv, (finish_ret k0 k1); [exact Hr0|exact Hp| |exact H1|exact H2].
      do 3 (split; [done|]). by left.
    + apply bind_inv in H as ([] & k3 & H3 & H). injection H as _ <-.
      eapply (finish_block k0 k1 k2 k3 p pi pi (set_reader me pi) [] (RPipeRead p buf len) BLOCK_PIPE_READ r); [exact Hr0|exact Hp| |
        |exact Hme|exact Hh|done|exact H1|exact H2|exact H3].
      * do 3 (split; [done|]). by left.
      * intros x xi [<- <-]%lookup_singleton_Some. exists pi.
        split; [apply lookup_singleton_eq|]. split; [right; eauto 10|]. by left.
Qed.

End Rules.

End Run.

(** Decompose a handler into calm parts and parts with a lemma of their own. *)
Ltac run_step :=
  match goal with
  | |- leaves _ (bind current _) => apply leaves_current
  | |- keeps _ (bind current _) => apply keeps_current
  | |- leaves _ (ret _) => apply leaves_keeps, keeps_ret
  | |- keeps _ (ret _) => apply keeps_ret
  | |- leaves _ undef => apply leaves_undef
  | |- leaves _ (let _ := _ in _) => cbv zeta
  | |- keeps _ (let _ := _ in _) => cbv zeta
  | |- leaves _ (if ?b then _ else _) => destruct b
  | |- keeps _ (if ?b then _ else _) => destruct b
  | |- leaves _ (match ?x with _ => _ end) => destruct x
  | |- keeps _ (match ?x with _ => _ end) => destruct x
  | |- leaves _ (bind (sleep_at _ _ _) _) => apply leaves_then, leaves_sleep; done
  | |- leaves _ (bind process_exit _) => apply leaves_then, leaves_exit
  | |- keeps _ (proc_store _ _) => apply keeps_store; by intros ?
  | |- keeps _ (on_sched (modify (set_fg _))) => apply keeps_fg
  | |- keeps _ _ => solve [apply keeps_calm; eauto with frame]
  | |- leaves _ _ => solve [apply leaves_keeps, keeps_calm; eauto with frame]
  | |- leaves _ (bind _ _) => apply leaves_bind; [|intros]
  | |- keeps _ (bind _ _) => apply keeps_bind; [|intros]
  end.
Ltac run_auto := repeat run_step.
End KernRun.
