(* ===== verification/KernCalls.v ===== *)
(** * System calls and the invariant

    Fork, kill and every handler of Syscall on the invariant of KernRun. *)

From S2P Require Import Prelude Pmm Heap Disk Fat32Names Fat32 Sched SchedProps SchedFrame Pipe Paging Elf Vfs Vga LineEdit Drivers ShellEdit Kern Syscall ShellCmd KernInv KernOps KernFrame KernProcs KernRun.

Module KernCalls.

Import Fat32 Proc Sched SchedProps Frame Pipe Wbuf Paging Elf Vfs Kbd Kern Syscall ShellCmd KernInv KernOps KernFrame KernProcs KernRun.

Section Calls.
Context {D A : Type} `{BD : BlockDev D} `{KH : KernelHeap A} `{PS : PageShare A}.
Context `{L : Layout} `{M : Machine}.
Context (me : Z).

Abbreviation kern := (kern (D := D) (A := A)).

Abbreviation keeps := (KernRun.keeps (D := D) (A := A)).
Abbreviation leaves := (KernRun.leaves (D := D) (A := A)).

(** ** Fork *)

(** A ready process outside the queues joins the ring. *)
Lemma add_inv (k k' : kern) Q d dead p r :
  inv k Q d dead -> procs (k_sched k) !! p = Some r -> p_next r = 0 -> p_state r = PROCESS_READY ->
  (p ∉ Q) -> (p ∉ dead) -> k_pending k !! p = None -> on_sched (scheduler_add p) k = Some (tt, k') ->
  inv k' (p :: Q) d dead /\ k_pending k' = k_pending k
  /\ current_process (k_sched k') = current_process (k_sched k).
Proof.
  intros Hinv Hp Hnx Hst HQ Hd Hn (s' & E & ->)%on_sched_inv. pose proof Hinv as [[K1 K2 K3 K4 K5 K6 K7 K8] Hres].
  assert (p <> 0) as H0 by (intros ->; congruence).
  destruct (add_effect kernel_task_addr (k_sched k) Q p r K1 Hp H0 HQ) as (s0 & E0 & Hm & Hc & Hf & Hv).
  rewrite E in E0. injection E0 as <-.
  assert (closed (fun x => x = 0 \/ x ∈ p :: Q) (k_sched k)) as Hcl.
  { destruct (members_closed _ _ _ K1 K2) as [c1 c2 c3 c4 c5 c6 c7].
    split; rewrite ?elem_of_cons; try tauto. intros y ry. rewrite !elem_of_cons. intros [Hy|[->|Hy]] Hry.
    - destruct (c7 y ry (or_introl Hy) Hry); tauto.
    - assert (ry = r) as -> by congruence. by left.
    - destruct (c7 y ry (or_intror Hy) Hry); tauto. }
  assert (p ∈ p :: Q) as HpQ by (apply elem_of_cons; by left).
  destruct (only_add (fun x => x = 0 \/ x ∈ p :: Q) p (or_intror HpQ) _ _ _ Hcl E) as (Hcl' & _ & Hout).
  assert (forall x, x ∈ dead -> procs s' !! x = procs (k_sched k) !! x) as Hdead.
  { intros x Hx. apply Hout. rewrite elem_of_cons. intros [->|[->|Hq]]; [|done|].
    - apply K5 in Hx. unfold stat in Hx. by rewrite K2 in Hx.
    - apply NoDup_app in K3 as (_ & Hdj & _). by apply (Hdj x). }
  assert (fst <$> views s' = fst <$> views (k_sched k)) as Hfv.
  { rewrite Hv, fmap_insert, insert_id; [done|]. by rewrite lookup_fmap, (views_lookup _ _ _ Hp). }
  split; [|done]. split; [split; cbn [k_sched k_pending set_sched]|].
  - done.
  - apply Hcl'.
  - simpl. apply NoDup_cons. split; [|done]. by rewrite not_elem_of_app.
  - eapply seg_ext; [|exact K4]. intros x Hx. by apply Hdead.
  - intros x Hx. unfold stat. rewrite Hdead by done. by apply K5.
  - rewrite Hv. eapply slots_change; [done|]. intros q l rs Hq _ _. exists l. rewrite lookup_insert_ne; [done|].
    intros <-. rewrite (views_lookup _ _ _ Hp) in Hq. unfold vw in Hq. rewrite Hst in Hq. done.
  - rewrite Hv. intros q l st rs. rewrite lookup_insert. destruct (decide (p = q)) as [<-|]; [by rewrite Hn|apply K7].
  - intros q Hq. destruct (K8 q Hq) as [rq Hrq].
    assert (is_Some (views s' !! q)) as Hvq.
    { rewrite Hv, lookup_insert. destruct (decide (p = q)); [by eexists|]. by rewrite (views_lookup _ _ _ Hrq). }
    unfold views in Hvq. rewrite lookup_fmap in Hvq. destruct (procs s' !! q); [done|]. by destruct Hvq.
  - cbn [k_sched k_pipes k_wbufs set_sched]. by rewrite fdm_views, Hfv, <- fdm_views.
Qed.

(** Room for one more process: reference counts cannot wrap. *)
Definition small (k : kern) : Prop := Z.of_nat (size (procs (k_sched k))) + 1 < 134217728.

Lemma fork_running (k k' : kern) regs c : length junk_fds = MAX_FDS -> small k -> running me k ->
  process_fork regs k = Some (c, k') -> running me k'.
Proof.
  intros Hj Hsz Hr. unfold process_fork. rewrite (bind_ok _ _ _ _ _ (running_current _ _ Hr)).
  destruct (me =? 0); [by intros [= _ <-]|]. intros H. apply bind_inv in H as (child & k1 & H1 & H).
  apply process_create_spec in H1 as Hcr. pose proof Hr as ((Q & dead & Hinv) & _ & _ & _ & Hpm).
  destruct (Z.eqb_spec child 0) as [->|Hc0].
  { destruct Hcr as [[_ Hc]|[? _]]; [|done]. injection H as _ <-. by eapply running_calm. }
  destruct (created_inv k k1 Q _ dead child Hj Hinv Hsz Hcr Hc0) as (Hinv1 & HN1 & Hcur1).
  destruct Hcr as [[? _]|(_ & Hnone & kc & rc & Hcalm & Hk1 & Hst & Hfd & Hnx)]; [done|].
  assert (procs (k_sched k1) !! child = Some rc) as Hrc1 by (rewrite Hk1; apply lookup_insert_eq).
  assert (child ∉ Q) as HQ.
  { intros Hq. destruct (members_lookup _ _ _ _ (sk_mem _ _ _ _ _ (proj1 Hinv)) Hq) as (? & ? & _). congruence. }
  assert (child ∉ dead) as Hdd.
  { intros Hq. destruct (seg_lookup _ _ _ _ _ (sk_dead _ _ _ _ _ (proj1 Hinv)) Hq) as (? & ? & _). congruence. }
  assert (k_pending k1 !! child = None) as Hpc.
  { rewrite HN1. destruct (k_pending k !! child) eqn:E; [|done].
    destruct (sk_dom _ _ _ _ _ (proj1 Hinv) child ltac:(by rewrite E)). congruence. }
  clear Hk1 Hcalm. apply bind_inv in H as (pr & k2 & H2 & H). apply proc_load_inv in H2 as [_ ->].
  apply bind_inv in H as ([] & k2 & H2 & H).
  assert (mild (set_parent_pid (p_pid pr))) as Hm by (by intros ?).
  destruct (store_inv _ k2 _ _ _ _ _ Hm Hinv1 H2) as (Hinv2 & HN2 & Hcur2 & r2 & Hr2 & Hrc2).
  assert (r2 = rc) as -> by congruence. clear Hr2.
  apply bind_inv in H as ([] & k3 & H3 & H).
  destruct (inherit_loop_inv child me Q _ dead (seq 0 MAX_FDS) (NoDup_seq _ _) k2 k3 (p_fds rc) _ Hinv2
    ltac:(by rewrite HN2) Hrc2 eq_refl ltac:(intros i f _; rewrite Hfd; apply std_inert) H3) as (Hinv3 & HN3 & Hcur3 & l' & Hrc3).
  apply bind_inv in H as (pr' & k4 & H4 & H). apply proc_load_inv in H4 as [_ ->].
  apply bind_inv in H as (cr & k4 & H4 & H). apply proc_load_inv in H4 as [Hcr ->].
  apply bind_inv in H as (res & k4 & H4%calm_vm & H). pose proof (inv_calm _ _ _ _ _ H4 Hinv3) as Hinv4.
  destruct H4 as ((Hs4 & HN4) & _).
  assert (k_pending k4 = k_pending k) as HN by congruence.
  assert (current_process (k_sched k4) = current_process (k_sched k)) as Hcur by (rewrite Hs4; congruence).
  rewrite <- Hs4 in Hrc3. destruct (negb _).
  - apply bind_inv in H as ([] & k5 & H5 & H). injection H as _ <-.
    destruct (process_destroy_inv k4 k5 Q _ dead child _ Hinv4 Hrc3) as (Hinv5 & HN5 & Hcur5 & _); try done.
    + intros Hkt. apply HQ. rewrite Hkt. eapply members_kernel. apply (sk_mem _ _ _ _ _ (proj1 Hinv)).
    + left. by rewrite HN, <- HN1.
    + eapply running_intro; [exact Hr|done| |congruence]. rewrite HN5, HN. apply delete_id. by rewrite <- HN1.
  - apply bind_inv in H as (sp & k5 & H5%calm_push & H). pose proof (inv_calm _ _ _ _ _ H5 Hinv4) as Hinv5.
    destruct H5 as ((Hs5 & HN5) & _). apply bind_inv in H as ([] & k6 & H6 & H).
    assert (mild (fun r0 => set_foreground 0 (set_esp sp r0))) as Hm6 by (by intros ?).
    destruct (store_inv k5 k6 Q _ dead _ _ Hm6 Hinv5 H6) as (Hinv6 & HN6 & Hcur6 & r6 & Hr6 & Hrc6).
    rewrite Hs5, Hrc3 in Hr6. injection Hr6 as <-.
    apply bind_inv in H as ([] & k7 & H7 & H). injection H as _ <-.
    destruct (add_inv k6 k7 Q _ dead child _ Hinv6 Hrc6) as (Hinv7 & HN7 & Hcur7); try done.
    { rewrite HN6, HN5, HN. by rewrite <- HN1. }
    eapply running_intro; [exact Hr|exact Hinv7|congruence|]. rewrite Hcur7, Hcur6, Hs5. done.
Qed.

(** ** Kill *)

Lemma kill_inv (k k' : kern) Q d dead pid v : pid0 k -> inv k Q d dead -> sys_kill_pid pid k = Some (v, k') ->
  inv k' Q d dead /\ k_pending k' = k_pending k /\ current_process (k_sched k') = current_process (k_sched k).
Proof.
  intros Hp0 Hinv. unfold sys_kill_pid. destruct (Z.eqb_spec pid 0) as [|Hpid]; [by intros [= _ <-]|]. intros H.
  apply bind_inv in H as (p & k1 & H1 & H). apply on_sched_inv in H1 as (s1 & E1 & ->).
  pose proof (sk_mem _ _ _ _ _ (proj1 Hinv)) as (ring & blk & zom & Hok & HQ).
  destruct (ring_search_ok _ _ _ _ _ (fun r => p_pid r =? pid) Hok) as (q & Eq & Hfound).
  unfold scheduler_find in E1. rewrite E1 in Eq. injection Eq as -> ->.
  replace (set_sched (k_sched k) k) with k in H by (by destruct k).
  destruct (Z.eqb_spec q 0) as [|Hq0]; [by injection H as _ <-|].
  destruct Hfound as [[? _]|(_ & Hq & r & Hr1 & Ht)]; [done|]. zbool.
  assert (q <> kernel_task_addr) as Hqk.
  { intros ->. unfold pid0 in Hp0. rewrite Hr1 in Hp0. simpl in Hp0. congruence. }
  apply bind_inv in H as (fg & k1 & [= <- <-] & H). replace (set_sched (k_sched k) k) with k in H by (by destruct k).
  apply bind_inv in H as ([] & k1 & H1 & H).
  assert (exists fg', k1 = set_sched (set_fg fg' (k_sched k)) k) as [fg' ->].
  { destruct (_ =? _); [injection H1 as <-; by eexists|]. injection H1 as <-. exists (foreground_process (k_sched k)).
    destruct k as [[] ? ? ? ? ? ? ? ? ? ? ? ?]. done. }
  clear H1. pose proof (fg_inv k Q _ dead fg' Hinv) as [Hk1 Hres1]. set (k1 := set_sched _ k) in *.
  apply bind_inv in H as ([] & k2 & H2 & H). injection H as _ <-.
  destruct (kill_sk k1 k2 Q _ dead _ q r ring blk zom Hk1 (sched_ok_fg _ _ _ _ _ fg' Hok) HQ Hq Hqk Hr1 H2)
    as (Hk2 & Hf & HP & HW & HN & Hc).
  split; [|done]. split; [by rewrite HP|]. by rewrite Hf, HP, HW.
Qed.

Lemma kill_running (k k' : kern) pid v : pid0 k -> running me k -> sys_kill_pid pid k = Some (v, k') -> running me k'.
Proof.
  intros Hp0 Hr H. pose proof Hr as ((Q & dead & Hinv) & _). destruct (kill_inv k k' Q _ dead pid v Hp0 Hinv H) as (Hinv' & HN & Hc).
  by eapply running_intro.
Qed.

(** ** Handlers *)

Lemma leaves_tty_read buf len : leaves me (tty_read buf len).
Proof. unfold tty_read. run_auto. Qed.
Lemma leaves_readraw buf len : leaves me (sys_readraw buf len).
Proof. unfold sys_readraw. run_auto. Qed.
Lemma leaves_wait_loop a b : leaves me (wait_loop a b).
Proof. unfold wait_loop. run_auto. Qed.
Lemma keeps_sbrk n : keeps me (sys_sbrk n).
Proof. unfold sys_sbrk. run_auto. Qed.
Lemma keeps_foreground pid : keeps me (sys_give_foreground pid).
Proof. unfold sys_give_foreground. run_auto. Qed.
Lemma leaves_sys_exit code : leaves me (sys_exit code).
Proof. unfold sys_exit. run_auto. Qed.
Lemma leaves_process_exec e im l : leaves me (process_exec me e im l).
Proof. unfold process_exec. run_auto. Qed.
Lemma leaves_sys_exec a b : leaves me (sys_exec a b).
Proof.
  unfold sys_exec. repeat first
    [ match goal with |- leaves _ (bind (process_exec _ _ _ _) _) =>
        apply leaves_tail; [apply leaves_process_exec|intros []; by eexists] end
    | run_step ].
Qed.

Lemma leaves_sleep_loop a b : leaves me (sleep_loop a b).
Proof.
  unfold sleep_loop. apply leaves_bind; [run_auto|]. intros t. destruct (Pit.sleeping t a b); [|run_auto].
  apply leaves_current. intros k x k' Hr H. apply bind_inv in H as ([] & k1 & [= <-] & H). injection H as _ <-.
  destruct (running_record _ _ Hr) as (r & Hme & H0 & _).
  pose proof Hr as ((Q & dead & [Hk Hres]) & [T1 T2] & Hc & Hkt & Hp).
  pose proof (sk_pending k Q _ dead _ me r Hk Hme H0 ltac:(rewrite <- Hc; by eapply current_no_slot) (Some (RSleep a b)) ltac:(done)) as Hk'.
  assert (<[me := RSleep a b]> (k_pending k) !! kernel_task_addr = k_pending k !! kernel_task_addr) as Hn
    by (by apply lookup_insert_ne).
  split; [|split].
  - exists Q, dead. unfold reap_ptr. simpl. rewrite Hn. split; [exact Hk'|done].
  - split; cbn [k_pending set_pending]; [by rewrite Hn|]. intros q l. rewrite lookup_insert.
    destruct (decide (me = q)); [done|]. apply T2.
  - intros l _. cbn [k_pending set_pending k_sched]. rewrite Hc. by rewrite lookup_insert_eq.
Qed.

(** Writing into a write buffer keeps its count. *)
Lemma keeps_wbuf_store w b b' (k k' : kern) : running me k -> k_wbufs k !! w = Some b -> w_refcount b' = w_refcount b ->
  wbuf_store w b' k = Some (tt, k') -> running me k'.
Proof.
  intros Hr Hw Hc [= <-]. pose proof Hr as ((Q & dead & [Hk Hres]) & _).
  eapply running_intro; [exact Hr| |done|done]. split; [by apply (sk_same k)|]. simpl.
  destruct Hres as [HL HS HP HW]. split; try done. intros x. specialize (HW x).
  destruct (decide (w = x)) as [<-|]; [|by rewrite lookup_insert_ne]. rewrite Hw in HW. by rewrite lookup_insert_eq, Hc.
Qed.

Lemma keeps_file_write f buf len : keeps me (file_write f buf len).
Proof.
  unfold file_write. destruct (_ || _); [run_auto|]. intros k v k' Hr H.
  apply bind_inv in H as (w & k1 & H1 & H). apply wbuf_load_inv in H1 as [Hw ->].
  apply bind_inv in H as (k0 & k1 & [= <- <-] & H). destruct (wbuf_write _ len w) as [n w'] eqn:E.
  apply bind_inv in H as ([] & k1 & H1%calm_touch & H). pose proof (running_calm _ _ _ Hr H1) as Hr1.
  apply bind_inv in H as ([] & k2 & H2 & H). injection H as _ <-.
  destruct H1 as (_ & _ & HW). rewrite <- HW in Hw. eapply keeps_wbuf_store; [exact Hr1|exact Hw| |exact H2].
  unfold wbuf_write in E. injection E as _ <-. done.
Qed.

(** Moving the read position does not change what a descriptor refers to. *)
Definition same_refs (f g : file_desc) : Prop :=
  fd_kind g = fd_kind f /\ fd_writable g = fd_writable f /\ fd_wbuf g = fd_wbuf f /\ fd_pipe g = fd_pipe f.

Lemma read_loop_refs fuel cbytes len got f out (k k' : kern) r :
  file_read_loop fuel cbytes len got f out k = Some (r, k') -> same_refs f r.1.
Proof.
  revert got f out k. induction fuel as [|n IH]; intros got f out k; simpl; destruct (_ && _); try done;
    try (by intros [= <- _]). intros H. apply bind_inv in H as (o & k1 & _ & H). destruct o as [cb|]; [|by injection H as <- _].
  apply bind_inv in H as (nx & k2 & _ & H). apply IH in H as (H1 & H2 & H3 & H4). done.
Qed.

Lemma keeps_position fd f g (k k' : kern) r : same_refs f g -> running me k -> procs (k_sched k) !! me = Some r ->
  p_fds r !! fd = Some f -> fd_store me fd g k = Some (tt, k') -> running me k'.
Proof.
  intros (E1 & E2 & E3 & E4) Hr Hme Hi H. eapply (keeps_fd_same me fd f g); try done; intros x;
    unfold reads, writes, buffers; by rewrite E1, ?E2, ?E3, ?E4.
Qed.

Lemma keeps_file_read fd buf len : keeps me (file_read me fd buf len).
Proof.
  intros k v k' Hr. unfold file_read. intros H. apply bind_inv in H as (f & k1 & H1 & H).
  apply fd_load_inv in H1 as (-> & r & Hme & Hi). destruct (negb _); [by injection H as _ <-|].
  apply bind_inv in H as (cb & k1 & H1%calm_vfs & H). apply bind_inv in H as (cp & k2 & H2%calm_kmalloc & H).
  assert (calmly k k2) as Hc by (by etrans). destruct (cp =? 0); [injection H as _ <-; by eapply running_calm|].
  apply bind_inv in H as (res & k3 & H3 & H). apply read_loop_refs in H3 as Hsame. apply calm_read_loop in H3.
  apply bind_inv in H as ([] & k4 & H4%calm_put_bytes & H). assert (calmly k k4) as Hc4 by (by do 2 (etrans; [|done])).
  apply bind_inv in H as ([] & k5 & H5 & H). apply bind_inv in H as ([] & k6 & H6%calm_kfree & H). injection H as _ <-.
  eapply running_calm; [|exact H6]. eapply keeps_position; [exact Hsame|by eapply running_calm| |exact Hi|exact H5].
  destruct Hc4 as ((Hs & _) & _). by rewrite Hs.
Qed.

Lemma keeps_lseek a b c : keeps me (sys_lseek a b c).
Proof.
  intros k v k' Hr. unfold sys_lseek. intros H. apply bind_inv in H as (o & k1 & H1 & H).
  destruct (lookup_fd_spec _ _ _ _ _ Hr H1) as [-> Ho]. destruct o as [[q f]|]; [|by injection H as _ <-].
  destruct Ho as (-> & _ & _ & r & Hme & Hi). destruct (_ || _); [by injection H as _ <-|].
  cbv zeta in H. destruct (if c =? 0 then Some b else _) as [np|]; [|by injection H as _ <-].
  destruct (np <? 0); [by injection H as _ <-|]. apply bind_inv in H as (cb & k1 & H2%calm_vfs & H).
  destruct (cb =? 0); [done|]. apply bind_inv in H as (cl & k2 & H3%calm_seek & H).
  assert (calmly k k2) as Hc by (by etrans). apply bind_inv in H as ([] & k3 & H4 & H). injection H as _ <-.
  eapply keeps_position; [|by eapply running_calm| |exact Hi|exact H4]; [done|].
  destruct Hc as ((Hs & _) & _). by rewrite Hs.
Qed.

Lemma leaves_fd_write fd buf len : leaves me (do_fd_write fd buf len).
Proof.
  intros k v k' Hr. unfold do_fd_write. intros H. apply bind_inv in H as (o & k1 & H1 & H).
  destruct (lookup_fd_spec _ _ _ _ _ Hr H1) as [-> Ho]. destruct o as [[q f]|]; [|injection H as _ <-; by eapply running_kinv].
  destruct Ho as (-> & _ & _ & r & Hme & Hi).
  destruct (negb _); [injection H as _ <-; by eapply running_kinv|].
  destruct (fd_kind f =? FD_TTY_OUT).
  { apply bind_inv in H as (n & k1 & H2%calm_tty_write & H). injection H as _ <-.
    eapply running_kinv. by eapply running_calm. }
  destruct (fd_kind f =? FD_FILE).
  { apply bind_inv in H as (n & k1 & H2 & H). injection H as _ <-. eapply running_kinv. by eapply keeps_file_write. }
  destruct (Z.eqb_spec (fd_kind f) FD_PIPE_WRITE) as [Hkd|]; [|injection H as _ <-; by eapply running_kinv].
  eapply pipe_write_kinv; [exact Hr| |exact H]. eapply fd_holding; [exact Hme|exact Hi|]. by apply writes_self.
Qed.

Lemma leaves_fd_read fd buf len : leaves me (do_fd_read fd buf len).
Proof.
  intros k v k' Hr. unfold do_fd_read. intros H. apply bind_inv in H as (o & k1 & H1 & H).
  destruct (lookup_fd_spec _ _ _ _ _ Hr H1) as [-> Ho]. destruct o as [[q f]|]; [|injection H as _ <-; by eapply running_kinv].
  destruct Ho as (-> & _ & _ & r & Hme & Hi).
  destruct (negb _); [injection H as _ <-; by eapply running_kinv|].
  destruct (len =? 0); [injection H as _ <-; by eapply running_kinv|].
  destruct (fd_kind f =? FD_TTY_IN); [by eapply leaves_tty_read|].
  destruct (fd_kind f =? FD_FILE).
  { apply bind_inv in H as (n & k1 & H2 & H). injection H as _ <-. eapply running_kinv. by eapply keeps_file_read. }
  destruct (Z.eqb_spec (fd_kind f) FD_PIPE_READ) as [Hkd|]; [|injection H as _ <-; by eapply running_kinv].
  eapply pipe_read_kinv; [exact Hr| |exact H]. eapply fd_holding; [exact Hme|exact Hi|]. by apply reads_self.
Qed.

End Calls.
End KernCalls.
