(* ===== verification/KernSteps.v ===== *)
(** * Every step keeps the kernel's invariant

    System calls, resumed calls, faults, the reaper, the interrupts and the kernel
    shell's launches, each on the invariant of KernRun. *)

From S2P Require Import Prelude Pmm Heap Disk Fat32Names Fat32 Sched SchedProps SchedFrame Pipe Paging Elf Vfs Vga LineEdit Drivers ShellEdit Kern Syscall ShellCmd KernInv KernOps KernFrame KernProcs KernRun KernCalls.

Module KernSteps.

Import Fat32 Proc Sched SchedProps Frame Pipe Wbuf Paging Elf Vfs Kbd Kern Syscall ShellCmd KernInv KernOps KernFrame KernProcs KernRun KernCalls.

Section Steps.
Context {D A : Type} `{BD : BlockDev D} `{KH : KernelHeap A} `{PS : PageShare A}.
Context `{L : Layout} `{M : Machine}.
Context (cmos : Z -> Z -> Z) (rtc_fuel : nat) (Hjunk : length junk_fds = MAX_FDS).

Abbreviation kern := (kern (D := D) (A := A)).

Lemma leaves_done me (m : st kern Z) : keeps me m -> leaves me (done m).
Proof. intros Hm. unfold done. apply leaves_bind; [done|]. intros v. apply leaves_keeps, keeps_ret. Qed.

Lemma leaves_wait me a b : leaves me (sys_wait (D := D) (A := A) a b).
Proof.
  unfold sys_wait. destruct (_ && _); [apply leaves_keeps, keeps_ret|]. apply leaves_current.
  destruct (me =? 0); [apply leaves_keeps, keeps_ret|]. apply leaves_wait_loop.
Qed.

Lemma keeps_calm_done me (m : st kern Z) : resp calmly m -> leaves me (done m).
Proof. intros Hm. by apply leaves_done, keeps_calm. Qed.

(** A system call. *)
Lemma handler_kinv me regs (k k' : kern) r : small k -> pid0 k -> running me k ->
  syscall_handler cmos rtc_fuel regs k = Some (r, k') -> kinv k'.
Proof.
  intros Hsz Hp0 Hr.
  assert (forall m : st kern sysret, leaves me m -> m k = Some (r, k') -> kinv k') as Hl by (intros m Hm E; by eapply Hm).
  assert (forall m : st kern Z, (forall v k1, m k = Some (v, k1) -> running me k1) -> done m k = Some (r, k') -> kinv k') as Hd.
  { intros m Hm E. apply bind_inv in E as (v & k1 & E & H). injection H as _ <-. eapply running_kinv. by eapply Hm. }
  unfold syscall_handler. cbv zeta.
  repeat match goal with |- (match ?x with _ => _ end) k = _ -> _ => destruct x end;
    first [ apply Hl; by apply leaves_keeps, keeps_ret
          | apply Hl; first [apply leaves_fd_write | apply leaves_fd_read | apply leaves_sys_exit | apply leaves_wait
              | apply leaves_sys_exec | apply leaves_readraw | apply leaves_bind; [apply keeps_calm; eauto with frame|intros ?; apply leaves_sleep_loop] ]
          | apply Hl, leaves_done; first [apply keeps_open | apply keeps_dup2 | apply keeps_pipe | apply keeps_lseek
              | apply keeps_sbrk | apply keeps_foreground ]
          | apply Hl, leaves_done; unfold sys_chdir, sys_mkdir_sc, sys_rmfile, sys_listdir, sys_uptime, sys_setcolor, sys_fasterfetch, sys_peter, sys_clear;
              solve [run_auto | apply keeps_calm, calm_with_path; intros ?; eauto with frame]
          | idtac ].
  all: apply Hd; intros v k1 E.
  all: try (by eapply kill_running). all: try (by eapply close_spec).
  revert E. unfold sys_fork. intros E. apply bind_inv in E as (c & k2 & E2 & E).
  eapply running_calm; [by eapply fork_running|].
  destruct (c =? 0); [by injection E as _ <-|]. apply bind_inv in E as (rc & k3 & E3%calm_proc_load & E). by injection E as _ <-.
Qed.

(** ** Resumed calls *)

(** A process that goes on inside the kernel, with the end it was working on. *)
Lemma resume_running (k : kern) c :
  kinv k -> k_pending k !! current_process (k_sched k) = Some c -> (forall l, c <> RReap l) ->
  let me := current_process (k_sched k) in
  let k1 := set_pending (delete me (k_pending k)) k in
  running me k1 /\ exists r, procs (k_sched k1) !! me = Some r /\ holds_end (p_fds r) (Some c).
Proof.
  intros ((Q & dead & [Hk Hres]) & [T1 T2] & Hcur) Hc Hnr me k1. fold me in Hc.
  destruct (members_current _ _ _ (sk_mem _ _ _ _ _ Hk)) as (r & Hme & H0 & _). fold me in Hme, H0.
  assert (me <> kernel_task_addr) as Hkt.
  { intros E. rewrite <- E, Hc in T1. destruct T1 as [?|(l & [= ->])]; [done|]. by eapply Hnr. }
  pose proof (sk_pending k Q _ dead _ me r Hk Hme H0 (current_no_slot _ _ _ _ _ Hk) None ltac:(done)) as Hk1.
  assert (delete me (k_pending k) !! kernel_task_addr = k_pending k !! kernel_task_addr) as Hn by (by apply lookup_delete_ne).
  split.
  - split; [|split; [|split; [done|split; [done|apply lookup_delete_eq]]]].
    + exists Q, dead. unfold reap_ptr. simpl. rewrite Hn. split; [exact Hk1|done].
    + split; cbn [k1 k_pending set_pending]; [by rewrite Hn|]. intros q l Hq. apply lookup_delete_Some in Hq as [_ Hq]. by eapply T2.
  - exists r. split; [done|]. specialize (Hcur (p_fds r) (fdm_lookup _ _ _ Hme)). fold me in Hcur. by rewrite Hc in Hcur.
Qed.

Lemma resume_kinv (k k' : kern) c r :
  kinv k -> k_pending k !! current_process (k_sched k) = Some c -> (forall l, c <> RReap l) ->
  resume_call c k = Some (r, k') -> kinv k'.
Proof.
  intros Hi Hc Hnr. destruct (resume_running k c Hi Hc Hnr) as (Hr & rp & Hme & Hh).
  set (me := current_process (k_sched k)) in *. unfold resume_call. intros H.
  apply bind_inv in H as (m & k0 & [= <- <-] & H). replace (set_sched (k_sched k) k) with k in H by (by destruct k).
  apply bind_inv in H as ([] & k1 & [= <-] & H). fold me in H, Hr. set (k1 := set_pending _ k) in *.
  destruct c as [t s|p b n|p b n w|b n|b n|st nd|l].
  - by eapply leaves_wait_loop.
  - eapply pipe_read_kinv; [exact Hr| |exact H]. by exists rp.
  - apply bind_inv in H as (pi & k2 & H2 & H). apply pipe_load_inv in H2 as [Hp ->].
    apply bind_inv in H as (k3 & k4 & [= <- <-] & H). eapply finish_write_kinv; [exact Hr| |exact Hp|exact H]. by exists rp.
  - by eapply leaves_tty_read.
  - by eapply leaves_readraw.
  - by eapply leaves_sleep_loop.
  - by destruct (Hnr l).
Qed.

(** ** The reaper *)

(** The kernel task notes where it goes on. *)
Lemma kernel_pending (k : kern) Q dead c : inv k Q (match c with Some l => l | None => 0 end) dead ->
  current_process (k_sched k) = kernel_task_addr -> (forall q l, k_pending k !! q = Some (RReap l) -> q = kernel_task_addr) ->
  kinv (set_pending (partial_alter (fun _ => RReap <$> c) kernel_task_addr (k_pending k)) k).
Proof.
  intros [Hk Hres] Hc T2. destruct (members_current _ _ _ (sk_mem _ _ _ _ _ Hk)) as (r & Hme & H0 & _). rewrite Hc in Hme, H0.
  pose proof (current_no_slot _ _ _ _ _ Hk) as Hns. rewrite Hc in Hns.
  pose proof (sk_pending k Q _ dead _ _ r Hk Hme H0 Hns (RReap <$> c) ltac:(by destruct c)) as Hk1.
  split; [|split].
  - exists Q, dead. unfold reap_ptr. cbn [k_pending set_pending]. rewrite lookup_partial_alter_eq. split; [|done].
    by destruct c.
  - split; cbn [k_pending set_pending].
    + rewrite lookup_partial_alter_eq. destruct c; simpl; eauto.
    + intros q l. destruct (decide (kernel_task_addr = q)) as [<-|Hq]; [done|]. rewrite lookup_partial_alter_ne by done. apply T2.
  - intros l _. cbn [k_pending set_pending k_sched]. rewrite Hc, lookup_partial_alter_eq. by destruct c.
Qed.

Lemma reap_kinv (k k' : kern) : kinv k -> current_process (k_sched k) = kernel_task_addr ->
  k_pending k !! kernel_task_addr = None -> process_reap k = Some (tt, k') -> kinv k'.
Proof.
  intros ((Q & dead & Hinv) & [_ T2] & _) Hc Hn H. unfold process_reap in H.
  unfold reap_ptr in Hinv. rewrite Hn in Hinv. pose proof Hinv as [[_ _ _ K4 _ _ _ _] _]. apply seg_zero in K4 as ->.
  destruct (take_zombies_inv k Q Hinv) as (Q' & zom & Hinv').
  apply bind_inv in H as (l & k1 & [= <- <-] & H). apply bind_inv in H as ([] & k2 & [= <-] & H).
  injection H as <-. exact (kernel_pending _ Q' zom (Some (zombie_list (k_sched k))) Hinv' Hc T2).
Qed.

Lemma reap_next_kinv (k k' : kern) l r : kinv k -> k_pending k !! current_process (k_sched k) = Some (RReap l) ->
  resume_call (RReap l) k = Some (r, k') -> kinv k'.
Proof.
  intros ((Q & dead & Hinv) & [T1 T2] & _) Hc. assert (current_process (k_sched k) = kernel_task_addr) as Hkt by (by eapply T2).
  rewrite Hkt in Hc. unfold reap_ptr in Hinv. rewrite Hc in Hinv. unfold resume_call. intros H.
  apply bind_inv in H as (m & k0 & [= <- <-] & H). replace (set_sched (k_sched k) k) with k in H by (by destruct k).
  apply bind_inv in H as ([] & k1 & [= <-] & H). rewrite Hkt in H. apply bind_inv in H as ([] & k2 & H & [= _ <-]).
  assert (forall q j, delete kernel_task_addr (k_pending k) !! q = Some (RReap j) -> q = kernel_task_addr) as T2'.
  { intros q j [_ Hq]%lookup_delete_Some. by eapply T2. }
  assert (inv (set_pending (delete kernel_task_addr (k_pending k)) k) Q l dead) as Hinv1.
  { destruct Hinv as [Hk Hres]. destruct (members_current _ _ _ (sk_mem _ _ _ _ _ Hk)) as (rk & Hme & H0 & _). rewrite Hkt in Hme, H0.
    pose proof (current_no_slot _ _ _ _ _ Hk) as Hns. rewrite Hkt in Hns.
    split; [|done]. exact (sk_pending k Q _ dead _ _ rk Hk Hme H0 Hns None ltac:(done)). }
  set (k1 := set_pending _ k) in *. unfold reap_next in H. destruct (Z.eqb_spec l 0) as [->|Hl0].
  - injection H as <-. exact (kernel_pending k1 Q dead None Hinv1 Hkt T2').
  - apply bind_inv in H as (rl & k3 & H3 & H). apply proc_load_inv in H3 as [Hrl ->].
    destruct (drop_dead _ _ _ _ Hinv1 Hl0) as (rl' & dead' & -> & Hrl' & HQ & Hd' & Hst & Hinv2).
    assert (rl' = rl) as -> by congruence. apply bind_inv in H as ([] & k3 & H3 & H).
    destruct (process_destroy_inv k1 k3 Q _ dead' l rl Hinv2 Hrl) as (Hinv3 & HN3 & Hc3 & _); try done.
    { intros ->. apply HQ. eapply members_kernel, (sk_mem _ _ _ _ _ (proj1 Hinv1)). }
    { by right. }
    apply bind_inv in H as ([] & k4 & H4 & H).
    assert (calmly k3 k4) as Hc4 by (destruct (_ =? 0); by injection H4 as <-).
    injection H as <-. pose proof (inv_calm _ _ _ _ _ Hc4 Hinv3) as Hinv4. destruct Hc4 as ((Hs4 & HN4) & _).
    apply (kernel_pending k4 Q dead' (Some (p_next rl)) Hinv4).
    + rewrite Hs4, Hc3. exact Hkt.
    + intros q j. rewrite HN4, HN3. intros [_ Hq]%lookup_delete_Some. by eapply T2'.
Qed.

(** ** Interrupts *)

Lemma interruptible_holds (k : kern) l : interruptible k -> holds_end l (k_pending k !! current_process (k_sched k)).
Proof. unfold interruptible. by destruct (k_pending k !! current_process (k_sched k)) as [[]|]. Qed.

(** An interrupt that neither switches nor changes where processes go on. *)
Lemma kinv_same (k k' : kern) Q dead : kinv k -> interruptible k -> inv k' Q (reap_ptr k) dead ->
  k_pending k' = k_pending k -> current_process (k_sched k') = current_process (k_sched k) -> kinv k'.
Proof.
  intros (_ & Ht & _) Hint Hinv HN Hc. destruct (same_tasks _ _ HN Ht) as [Ht' Hr]. split; [|split; [done|]].
  - exists Q, dead. by rewrite Hr.
  - intros l _. rewrite HN, Hc. by apply interruptible_holds.
Qed.

Lemma timer_kinv (k k' : kern) : kinv k -> interruptible k -> timer_irq k = Some (tt, k') -> kinv k'.
Proof.
  intros Hi Hint H. pose proof Hi as ((Q & dead & [Hk Hres]) & Ht & Hcur).
  destruct (tick_sk _ _ _ _ _ _ Hk Hint H) as (Hk' & Hf & HP & HW & HN & Hcase).
  destruct (same_tasks _ _ HN Ht) as [Ht' Hr]. split; [|split; [done|]].
  - exists Q, dead. rewrite Hr. split; [by rewrite HP|]. by rewrite Hf, HP, HW.
  - intros l. rewrite HN, Hf. destruct Hcase as [->|Hst]; [apply Hcur|]. intros Hl. apply fdm_lookup_inv in Hl as (r & Hr' & ->).
    unfold stat in Hst. rewrite Hr' in Hst. injection Hst as Hst.
    eapply (sk_pend _ _ _ _ _ Hk); [by apply views_lookup|]. by rewrite Hst.
Qed.

Lemma key_kinv scancode (k k' : kern) : kinv k -> interruptible k -> keyboard_irq scancode k = Some (tt, k') -> kinv k'.
Proof.
  intros Hi Hint H. pose proof Hi as ((Q & dead & Hinv) & _). unfold keyboard_irq in H.
  apply bind_inv in H as (b & k1 & [= <- <-] & H). destruct (keyboard_handler scancode (k_kbd k)) as [c b'].
  apply bind_inv in H as ([] & k1 & [= <-] & H). set (k1 := set_kbd b' k) in *.
  assert (inv k1 Q (reap_ptr k) dead) as Hinv1 by (by apply (inv_calm k)).
  destruct c as [c|]; [|injection H as <-; by eapply kinv_same]. unfold deliver_char in H.
  apply bind_inv in H as (fg & k2 & [= <- <-] & H). change (set_sched (k_sched k) k1) with k1 in H.
  destruct (Z.eqb_spec (foreground_process (k_sched k)) 0) as [E|Hfg]; cbn [negb] in H.
  - injection H as <-. eapply kinv_same; [exact Hi|done|by apply (inv_calm k1)|done|done].
  - apply bind_inv in H as ([] & k2 & [= <-] & H). set (k2 := set_kbd _ k1) in *.
    assert (inv k2 Q (reap_ptr k) dead) as Hinv2 by (by apply (inv_calm k1)).
    apply bind_inv in H as (r & k3 & H3 & H). apply proc_load_inv in H3 as [Hr ->].
    destruct (_ && _) eqn:Eb; [|injection H as <-; by eapply kinv_same]. apply andb_true_iff in Eb as [_ Eb2]. apply Z.eqb_eq in Eb2.
    assert (no_slot (k_pipes k2) (foreground_process (k_sched k))) as Hns.
    { eapply slot_free; [done|exact Hr|]. right. by rewrite Eb2. }
    destruct (wake_inv k2 k' Q _ dead _ r Hinv2 Hr Hfg Hns H) as (Hinv' & [Q1 _ Q3 _ _] & _).
    by eapply kinv_same.
Qed.

(** ** Programs started by the kernel shell *)

(** A process outside the queues is thrown away again. *)
Lemma discard_inv (k k' : kern) Q d dead p r : inv k Q d dead -> procs (k_sched k) !! p = Some r ->
  (p ∉ Q) -> (p ∉ dead) -> k_pending k !! p = None -> process_destroy p k = Some (tt, k') ->
  inv k' Q d dead /\ k_pending k' = k_pending k /\ current_process (k_sched k') = current_process (k_sched k).
Proof.
  intros Hinv Hp HQ Hd Hn H. destruct (process_destroy_inv k k' Q d dead p r Hinv Hp) as (Hinv' & HN & Hc & _); try done.
  - intros ->. apply HQ. eapply members_kernel, (sk_mem _ _ _ _ _ (proj1 Hinv)).
  - by left.
  - split; [done|]. split; [|done]. rewrite HN. by apply delete_id.
Qed.

Lemma load_image_inv (k k' : kern) Q d dead p im e r : inv k Q d dead -> procs (k_sched k) !! p = Some r ->
  load_image p im k = Some (e, k') -> inv k' Q d dead /\ k_pending k' = k_pending k
  /\ current_process (k_sched k') = current_process (k_sched k)
  /\ exists r', procs (k_sched k') !! p = Some r' /\ p_next r' = p_next r /\ p_state r' = p_state r.
Proof.
  intros Hinv Hp. unfold load_image. intros H. apply bind_inv in H as (r0 & k1 & H1 & H). apply proc_load_inv in H1 as [Hr0 ->].
  apply bind_inv in H as (o & k1 & H1%calm_vm & H). pose proof (inv_calm _ _ _ _ _ H1 Hinv) as Hinv1.
  destruct H1 as ((Hs & HN) & _). destruct o as [[en hs]|].
  - apply bind_inv in H as ([] & k2 & H2 & H). injection H as _ <-. assert (mild (set_heap hs hs)) as Hm by (by intros ?).
    destruct (store_inv k1 k2 Q d dead p _ Hm Hinv1 H2) as (Hinv2 & HN2 & Hc2 & r2 & Hr2 & Hr2').
    split; [done|]. split; [congruence|]. split; [by rewrite Hc2, Hs|]. rewrite Hs, Hp in Hr2. injection Hr2 as <-. eauto.
  - injection H as _ <-. rewrite Hs. eauto 10.
Qed.

(** A process that has been created and is in no queue yet. *)
Definition unqueued (k : kern) (Q dead : list Z) (p : Z) : Prop :=
  exists r, procs (k_sched k) !! p = Some r /\ p_next r = 0 /\ p_state r = PROCESS_READY
  /\ (p ∉ Q) /\ (p ∉ dead) /\ k_pending k !! p = None.

(** [k'] keeps the invariant with the queue members [Q'], and the processor is where it was. *)
Definition follows (k k' : kern) Q' d dead : Prop :=
  inv k' Q' d dead /\ k_pending k' = k_pending k /\ current_process (k_sched k') = current_process (k_sched k).

Lemma unqueued_calm (k k' : kern) Q dead p : calmly k k' -> unqueued k Q dead p -> unqueued k' Q dead p.
Proof. intros ((Hs & HN) & _) (r & H). exists r. by rewrite Hs, HN. Qed.

Lemma follows_calm (k k' : kern) Q d dead : calmly k k' -> inv k Q d dead -> follows k k' Q d dead.
Proof. intros Hc Hinv. split; [by eapply inv_calm|]. destruct Hc as ((-> & ->) & _). done. Qed.

Lemma follows_trans (k k1 k' : kern) Q Q' d dead : follows k k1 Q d dead -> follows k1 k' Q' d dead -> follows k k' Q' d dead.
Proof. intros (_ & HN1 & Hc1) (Hinv & HN & Hc). split; [done|]. split; congruence. Qed.

Lemma created_unqueued (k k' : kern) Q d dead p : small k -> inv k Q d dead -> created k k' p -> p <> 0 ->
  follows k k' Q d dead /\ unqueued k' Q dead p.
Proof.
  intros Hsz Hinv Hcr Hp. pose proof (created_inv k k' Q d dead p Hjunk Hinv Hsz Hcr Hp) as Hf. split; [exact Hf|].
  destruct Hcr as [[? _]|(_ & Hnone & kc & rc & _ & Hk & Hst & _ & Hnx)]; [done|].
  exists rc. split; [rewrite Hk; apply lookup_insert_eq|]. split; [done|]. split; [done|]. split; [|split].
  - intros Hq. destruct (members_lookup _ _ _ _ (sk_mem _ _ _ _ _ (proj1 Hinv)) Hq) as (? & ? & _). congruence.
  - intros Hq. destruct (seg_lookup _ _ _ _ _ (sk_dead _ _ _ _ _ (proj1 Hinv)) Hq) as (? & ? & _). congruence.
  - rewrite (proj1 (proj2 Hf)). destruct (k_pending k !! p) eqn:E; [|done].
    destruct (sk_dom _ _ _ _ _ (proj1 Hinv) p ltac:(by rewrite E)). congruence.
Qed.

Lemma load_image_follows (k k' : kern) Q d dead p im e : inv k Q d dead -> unqueued k Q dead p ->
  load_image p im k = Some (e, k') -> follows k k' Q d dead /\ unqueued k' Q dead p.
Proof.
  intros Hinv (r & Hr & Hnx & Hst & HQ & Hd & HN) H.
  destruct (load_image_inv k k' Q d dead p im e r Hinv Hr H) as (Hinv' & HN' & Hc' & r' & Hr' & Hnx' & Hst').
  split; [done|]. exists r'. rewrite Hnx', Hst', HN'. done.
Qed.

(** [process_start] puts the process on the ring. *)
Lemma process_start_inv (k k' : kern) Q d dead p entry usp fg : p <> 0 -> inv k Q d dead -> unqueued k Q dead p ->
  process_start p entry usp fg k = Some (tt, k') -> follows k k' (p :: Q) d dead.
Proof.
  intros Hp Hinv (r & Hr & Hnx & Hst & HQ & Hd & HN) H. unfold process_start in H. destruct (Z.eqb_spec p 0); [done|].
  apply bind_inv in H as (r1 & k1 & H1 & H). apply proc_load_inv in H1 as [_ ->].
  apply bind_inv in H as (sp' & k1 & H1%calm_push & H). pose proof (inv_calm _ _ _ _ _ H1 Hinv) as Hinv1.
  destruct H1 as ((Hs1 & HN1) & _). apply bind_inv in H as ([] & k2 & H2 & H).
  assert (mild (fun r => set_foreground fg (set_esp sp' r))) as Hm by (by intros ?).
  destruct (store_inv k1 k2 Q d dead p _ Hm Hinv1 H2) as (Hinv2 & HN2 & Hc2 & r2 & Hr2 & Hr2').
  rewrite Hs1, Hr in Hr2. injection Hr2 as <-. apply bind_inv in H as ([] & k3 & H3 & H).
  assert (inv k3 Q d dead /\ k_pending k3 = k_pending k2 /\ current_process (k_sched k3) = current_process (k_sched k2)
    /\ procs (k_sched k3) = procs (k_sched k2)) as (Hinv3 & HN3 & Hc3 & Hp3).
  { destruct (negb _); [injection H3 as <-; by split; [apply fg_inv|]|by injection H3 as <-]. }
  destruct (add_inv k3 k' Q d dead p (set_foreground fg (set_esp sp' r)) Hinv3) as (Hinv' & HN' & Hc'); try done.
  - by rewrite Hp3.
  - by rewrite HN3, HN2, HN1.
  - split; [done|]. split; [congruence|]. rewrite Hc', Hc3, Hc2, Hs1. done.
Qed.

(** The heart of [start_image]: from the new process on. *)
Lemma launch_inv fail filename args fg (k k' : kern) Q d dead p : (forall msg, resp calmly (fail msg)) -> small k ->
  inv k Q d dead -> start_image fail filename args fg k = Some (p, k') ->
  exists Q', inv k' Q' d dead /\ k_pending k' = k_pending k /\ current_process (k_sched k') = current_process (k_sched k).
Proof.
  intros Hfail Hsz Hinv H. unfold start_image in H. change (exists Q', follows k k' Q' d dead).
  apply bind_inv in H as (o & k1 & H1%calm_vfs & H). destruct o as [[fc fsz]|].
  2:{ apply bind_inv in H as ([] & k2 & H2%Hfail & H). injection H as _ <-. exists Q. apply follows_calm; [by etrans|done]. }
  apply bind_inv in H as (bf & k2 & H2%calm_kmalloc & H). destruct (bf =? 0).
  { apply bind_inv in H as ([] & k3 & H3%Hfail & H). injection H as _ <-. exists Q. apply follows_calm; [by do 2 (etrans; [|done])|done]. }
  apply bind_inv in H as (o & k3 & H3%calm_vfs & H). assert (calmly k k3) as Hc3 by (by do 2 (etrans; [|done])).
  destruct o as [[sz data]|].
  2:{ apply bind_inv in H as ([] & k4 & H4%Hfail & H). apply bind_inv in H as ([] & k5 & H5%calm_kfree & H). injection H as _ <-.
      exists Q. apply follows_calm; [by do 2 (etrans; [|done])|done]. }
  pose proof (follows_calm _ _ _ _ _ Hc3 Hinv) as F3.
  apply bind_inv in H as (pr & k4 & H4%process_create_spec & H). destruct (Z.eqb_spec pr 0) as [->|Hpr].
  { destruct H4 as [[_ H4]|[? _]]; [|done]. apply bind_inv in H as ([] & k5 & H5%Hfail & H).
    apply bind_inv in H as ([] & k6 & H6%calm_kfree & H). injection H as _ <-.
    exists Q. apply follows_calm; [by do 3 (etrans; [|done])|done]. }
  assert (small k3) as Hsz3 by (unfold small; destruct Hc3 as ((-> & _) & _); done).
  destruct (created_unqueued k3 k4 Q d dead pr Hsz3 (proj1 F3) H4 Hpr) as [F4 U4].
  pose proof (follows_trans _ _ _ _ _ _ _ F3 F4) as F. apply bind_inv in H as (en & k5 & H5 & H).
  destruct (load_image_follows k4 k5 Q d dead pr _ en (proj1 F4) U4 H5) as [F5 U5].
  apply (follows_trans _ _ _ _ _ _ _ F) in F5. apply bind_inv in H as ([] & k6 & H6%calm_kfree & H).
  (* every later failure discards the process *)
  assert (forall kx, calmly k6 kx -> follows k kx Q d dead /\ unqueued kx Q dead pr) as Hlater.
  { intros kx Hx. assert (calmly k5 kx) as Hx5 by (by etrans). split; [|by eapply unqueued_calm].
    eapply follows_trans; [exact F5|]. apply follows_calm; [done|apply F5]. }
  assert (forall kx ky, calmly k6 kx -> process_destroy pr kx = Some (tt, ky) -> exists Q', follows k ky Q' d dead) as Hdisc.
  { intros kx ky [Fx (r & Hr & _ & _ & HQ & Hd & HN)]%Hlater Hd'. exists Q. eapply follows_trans; [exact Fx|].
    by eapply discard_inv; first apply Fx. }
  destruct (en =? 0).
  { apply bind_inv in H as ([] & k7 & H7%Hfail & H). apply bind_inv in H as ([] & k8 & H8 & H). injection H as _ <-. by eapply Hdisc. }
  apply bind_inv in H as (sp & k7 & H7%calm_vm & H). destruct (sp =? 0).
  { apply bind_inv in H as ([] & k8 & H8%Hfail & H). apply bind_inv in H as ([] & k9 & H9 & H). injection H as _ <-.
    eapply Hdisc; [|exact H9]. by etrans. }
  apply bind_inv in H as (r6 & k8 & H8%calm_proc_load & H). apply bind_inv in H as (mp & k9 & H9%calm_vm & H).
  assert (calmly k6 k9) as Hc9 by (by do 2 (etrans; [|done])). destruct (negb _).
  { apply bind_inv in H as ([] & k10 & H10%Hfail & H). apply bind_inv in H as ([] & k11 & H11%calm_vm & H).
    apply bind_inv in H as ([] & k12 & H12 & H). injection H as _ <-. eapply Hdisc; [|exact H12]. by do 2 (etrans; [|done]). }
  apply bind_inv in H as (ue & k10 & H10%calm_vm & H). apply bind_inv in H as ([] & k11 & H11 & H).
  assert (calmly k10 k11) as Hc11 by (destruct (negb _); by injection H11 as <-).
  apply bind_inv in H as ([] & k12 & H12 & H). injection H as _ <-.
  destruct (Hlater k11) as [Fx Ux]; [by do 2 (etrans; [|done])|]. exists (pr :: Q).
  eapply follows_trans; [exact Fx|]. eapply process_start_inv; [done|apply Fx|exact Ux|exact H12].
Qed.

End Steps.
End KernSteps.
