(* ===== verification/ShellFrame.v ===== *)
(** * The kernel shell keeps the kernel's invariant

    The editor and the commands of the kernel shell in the logic of frames of
    KernFrame: what they leave alone, and that a key handled by the shell, the message
    about an ended process and the start of the user shell keep the invariant. *)

From S2P Require Import Prelude Pmm Heap Disk Fat32Names Fat32 Sched SchedProps SchedFrame Pipe Paging Elf Vfs Vga LineEdit Drivers ShellEdit Kern Syscall ShellCmd KernInv KernOps KernFrame KernProcs KernRun KernCalls KernSteps.

Module ShellFrame.

Import Fat32 Proc Sched SchedProps Frame Pipe Wbuf Paging Elf Vfs Kbd Kern Syscall LineEdit ShellEdit ShellCmd KernInv KernOps KernFrame KernProcs KernRun KernCalls KernSteps.

(** ** The editor on any system *)

Section Editor.
Context {W : Type} {H : ShellHost W} (C : W -> W -> Prop) `{HC : !PreOrder C}.
Context (Hcall : forall c w, C w (sh_call c w)) (Hfind : forall p, resp C (sh_find p)).

Definition on_system (s s' : edit * W) : Prop := C s.2 s'.2.

#[local] Instance on_system_pre : PreOrder on_system.
Proof. split; [intros s; apply HC|]. intros s1 s2 s3 H1 H2. unfold on_system in *. by etrans. Qed.

Lemma edit_frame {X} (m : st edit X) : resp on_system (on_edit m).
Proof. intros [e w] x [e' w'] E. unfold on_edit in E. simpl in E. destruct (m e) as [[y e1]|]; [|done]. injection E as _ <- <-. unfold on_system. simpl. reflexivity. Qed.
Lemma host_frame {X} (m : st W X) : resp C m -> resp on_system (on_host m).
Proof. intros Hm [e w] x [e' w'] E. unfold on_host in E. simpl in E. destruct (m w) as [[y w1]|] eqn:Em; [|done].
  injection E as -> <- <-. by apply (Hm _ _ _ Em). Qed.
Lemma says_frame l : resp on_system (says l).
Proof.
  apply host_frame. intros w x w' [= _ <-]. revert w. induction l as [|c l IH]; intros w; [unfold on_system; simpl; reflexivity|].
  unfold send_calls in *. simpl. etrans; [apply Hcall|apply IH].
Qed.
Lemma for_frame n lo (body : Z -> st (edit * W) unit) : (forall i, resp on_system (body i)) -> resp on_system (for_st n lo body).
Proof. intros Hb. revert lo. induction n as [|n IH]; intros lo; simpl; [apply resp_ret; apply _|]. apply resp_bind; [apply _|done|by intros _]. Qed.

#[local] Hint Resolve edit_frame host_frame says_frame Hfind : frame.
#[local] Hint Extern 2 (resp on_system (on_host (gets _))) => apply host_frame, resp_gets; apply _ : frame.

Lemma echo_frame lo hi : resp on_system (echo lo hi).
Proof. apply for_frame. intros i. resp_auto. Qed.
Lemma times_frame lo hi c : resp on_system (times lo hi c).
Proof. apply for_frame. intros i. resp_auto. Qed.
Lemma prompt_frame : resp on_system shell_prompt.
Proof. unfold shell_prompt. resp_auto. Qed.
#[local] Hint Resolve echo_frame times_frame prompt_frame : frame.

Lemma load_frame n entry i : resp on_system (load_entry n entry i).
Proof. revert i. induction n as [|n IH]; intros i; simpl; resp_auto. Qed.
#[local] Hint Resolve load_frame : frame.

Lemma show_frame : resp on_system show_entry.
Proof. unfold show_entry, clear_input_line. resp_auto. Qed.
#[local] Hint Resolve show_frame : frame.

Lemma tab_frame : resp on_system key_tab.
Proof. unfold key_tab, complete_word, list_matches. resp_auto. Qed.

(** Every key but Enter. *)
Lemma key_frame c : c <> 10 -> resp on_system (shell_handle_char c).
Proof.
  intros Hc. unfold shell_handle_char. destruct (Z.eqb_spec c 10); [done|].
  unfold key_clear, key_cancel, key_backspace, key_left, key_right, key_up, key_down, clear_input_line, key_insert.
  pose proof tab_frame. resp_auto.
Qed.

(** Enter, around the execution of the line. *)
Lemma enter_frame e w e' w' : key_enter (e, w) = Some (tt, (e', w')) ->
  exists s w1 w2, C w w1 /\ sh_execute s w1 = Some (tt, w2) /\ C w2 w'.
Proof.
  intros E. unfold key_enter in E.
  apply bind_inv in E as ([] & s1 & E1%says_frame & E). apply bind_inv in E as (len & s2 & E2%edit_frame & E).
  apply bind_inv in E as ([] & s3 & E3%edit_frame & E). apply bind_inv in E as ([] & s4 & E4%edit_frame & E).
  apply bind_inv in E as (b & s5 & E5%edit_frame & E). apply bind_inv in E as ([] & s6 & E6 & E).
  destruct s5 as [e5 w5], s6 as [e6 w6]. unfold on_host in E6. cbn [fst snd] in E6.
  destruct (sh_execute (cstr 256 b 0) w5) as [[[] w6']|] eqn:Ex; [|done]. injection E6 as <- <-.
  exists (cstr 256 b 0), w5, w6'. split; [|split; [done|]].
  - unfold on_system in *. simpl in *. etrans; [exact E1|]. etrans; [exact E2|]. etrans; [exact E3|]. etrans; [exact E4|]. exact E5.
  - change (on_system (e5, w6') (e', w')). revert E. generalize (e5, w6') as s. intros s E.
    match type of E with ?m s = _ => assert (resp on_system m) as Hm by resp_auto end. exact (Hm _ _ _ E).
Qed.

End Editor.

(** ** The commands *)

Section Commands.
Context {D A : Type} `{BD : BlockDev D} `{KH : KernelHeap A} `{PS : PageShare A}.
Context `{L : Layout} `{M : Machine}.
Context (cmos : Z -> Z -> Z) (rtc_fuel : nat).

Abbreviation kern := (kern (D := D) (A := A)).
#[local] Existing Instance kern_host.

Abbreviation calm := (resp (calmly (D := D) (A := A))).

Lemma calm_args args usage (cmd : list Z -> st kern unit) : (forall a, calm (cmd a)) -> calm (with_args args usage cmd).
Proof. intros Hc. unfold with_args. resp_auto. Qed.

(** A command leaves processes and descriptors alone, or does so but for starting one
    program or killing one process. *)
Lemma execute_rel (R : kern -> kern -> Prop) input :
  (forall k k', calmly k k' -> R k k') ->
  (forall args fg who k p k1 k', start_program args fg who k = Some (p, k1) -> calmly k1 k' -> R k k') ->
  (forall pid k r k1 k', sys_kill_pid pid k = Some (r, k1) -> calmly k1 k' -> R k k') ->
  resp R (shell_execute cmos rtc_fuel input).
Proof.
  intros H1 H2 H3. assert (forall m : st kern unit, calm m -> resp R m) as Hc by (intros m Hm k x k' E; apply H1; by eapply Hm).
  unfold shell_execute. repeat match goal with |- resp _ (if ?b then _ else _) => destruct b end.
  all: try (apply Hc; unfold cmd_help, cmd_clear, cmd_echo, cmd_about, cmd_ls, cmd_cat, cmd_touch, cmd_write, cmd_rm, cmd_rename, cmd_pwd,
      cmd_mkdir, cmd_cd, cmd_time, cmd_ps, cmd_uptime, cmd_free, cmd_fasterfetch, cmd_gordon, cmd_reboot, page_counts;
    solve [repeat first [apply calm_args; intros ? | resp_step]]).
  - intros k x k' E. apply bind_inv in E as (p & k1 & E1 & E). injection E as _ <-. by eapply H2.
  - intros k x k' E. apply bind_inv in E as (p & k1 & E1 & E). eapply H2; [exact E1|]. revert E.
    match goal with |- ?m k1 = _ -> _ => assert (calm m) as Hm by resp_auto end. apply Hm.
  - unfold cmd_kill, with_args. destruct (get_args input 4) as [[|c args]|]; [apply Hc, calm_terminal| |apply Hc, calm_terminal].
    destruct (_ =? 0); [apply Hc, calm_terminal|]. intros k x k' E. apply bind_inv in E as (r & k1 & E1 & E). eapply H3; [exact E1|].
    revert E. match goal with |- ?m k1 = _ -> _ => assert (calm m) as Hm by resp_auto end. apply Hm.
Qed.

Lemma steady_execute input : resp (steadily (D := D) (A := A)) (shell_execute cmos rtc_fuel input).
Proof.
  assert (forall k k' : kern, calmly k k' -> steadily k k') as Hc by (intros k k' ((Hs & _) & _) Hp; unfold pid0 in *; by rewrite Hs).
  apply execute_rel; [exact Hc| |]; intros.
  - etrans; [by eapply steady_launch|by apply Hc].
  - etrans; [by eapply steady_kill|by apply Hc].
Qed.

(** ** The shell's steps *)

#[local] Instance host : ShellHost kern := kern_host cmos rtc_fuel.

Lemma calm_call c (k : kern) : calmly k (sh_call c k).
Proof. by repeat split. Qed.
Lemma calm_find p : calm (sh_find p).
Proof. apply calm_vfs. Qed.

(** A key changes the processes as the command it executes does, if any. *)
Lemma key_effect c e e' (k k' : kern) : shell_handle_char c (e, k) = Some (tt, (e', k')) ->
  calmly k k' \/ exists input k1 k2, calmly k k1 /\ shell_execute cmos rtc_fuel input k1 = Some (tt, k2) /\ calmly k2 k'.
Proof.
  intros E. destruct (decide (c = 10)) as [->|Hc].
  - unfold shell_handle_char in E. apply bind_inv in E as (fg & s & [= <- <-] & E). cbn [fst snd] in E.
    destruct (negb _); [left; by injection E as _ <-|]. right. exact (enter_frame calmly calm_call _ _ _ _ E).
  - left. exact (key_frame calmly calm_call calm_find c Hc _ _ _ E).
Qed.

Lemma calm_exit pid fg e e' (k k' : kern) : shell_on_process_exit cmos rtc_fuel pid fg (e, k) = Some (tt, (e', k')) -> calmly k k'.
Proof.
  intros E. assert (resp (on_system (calmly (D := D) (A := A))) (shell_on_process_exit cmos rtc_fuel pid fg)) as Hm; [|exact (Hm _ _ _ E)].
  pose proof (says_frame (H := host) calmly calm_call) as H1. pose proof (prompt_frame (H := host) calmly calm_call) as H2.
  pose proof (echo_frame (H := host) calmly calm_call) as H3. pose proof (times_frame (H := host) calmly calm_call) as H4.
  pose proof (fun X => edit_frame (W := kern) calmly (X := X)) as H5. pose proof (on_system_pre (W := kern) calmly) as H6.
  unfold shell_on_process_exit. resp_auto.
Qed.

Lemma steady_key c e e' (k k' : kern) : shell_handle_char c (e, k) = Some (tt, (e', k')) -> steadily k k'.
Proof.
  assert (forall k k' : kern, calmly k k' -> steadily k k') as Hc by (intros k0 k0' ((Hs & _) & _) Hp; unfold pid0 in *; by rewrite Hs).
  intros [E|(input & k1 & k2 & H1 & H2 & H3)]%key_effect; [by apply Hc|].
  etrans; [by apply Hc|]. etrans; [by eapply steady_execute|by apply Hc].
Qed.

Lemma steady_step k k' : kstep cmos rtc_fuel k k' -> steadily (D := D) (A := A) k k'.
Proof.
  intros [].
  - by eapply steady_handler.
  - by eapply steady_resume.
  - exact (fun H => H).
  - by eapply steady_isr.
  - by eapply steady_reap.
  - by eapply steady_timer.
  - by eapply steady_keyboard.
  - by eapply steady_key.
  - match goal with H : shell_on_process_exit _ _ _ _ _ = _ |- _ => apply calm_exit in H as ((Hs & _) & _) end.
    intros Hp. unfold pid0 in *. by rewrite Hs.
  - by eapply steady_ush.
Qed.

Context (Hjunk : length junk_fds = MAX_FDS).

(** Starting a program, whether or not it succeeds. *)
Lemma start_inv (k k' : kern) Q d dead args fg who p : small k -> inv k Q d dead ->
  start_program args fg who k = Some (p, k') -> exists Q', follows k k' Q' d dead.
Proof.
  intros Hs Hinv E. unfold start_program in E. destruct (_ =? 0)%nat.
  - apply bind_inv in E as ([] & k1 & E1%calm_terminal & E). injection E as _ <-. exists Q. by apply follows_calm.
  - by eapply (launch_inv Hjunk); first (intros ?; apply calm_terminal).
Qed.

Lemma execute_inv input (k k' : kern) Q d dead : small k -> pid0 k -> inv k Q d dead ->
  shell_execute cmos rtc_fuel input k = Some (tt, k') -> exists Q', follows k k' Q' d dead.
Proof.
  intros Hs Hp Hinv E. revert Hs Hp Hinv.
  apply (execute_rel (fun k k' => small k -> pid0 k -> inv k Q d dead -> exists Q', follows k k' Q' d dead) input) in E; [exact E|..].
  - intros k0 k1 Hc _ _ Hinv. exists Q. by apply follows_calm.
  - intros args fg who k0 p k1 k2 E1 Hc Hs Hp Hinv. destruct (start_inv _ _ _ _ _ _ _ _ _ Hs Hinv E1) as (Q' & F).
    exists Q'. eapply follows_trans; [exact F|]. apply follows_calm; [done|apply F].
  - intros pid k0 r k1 k2 E1 Hc Hs Hp Hinv. destruct (kill_inv _ _ _ _ _ _ _ Hp Hinv E1) as (Hinv1 & HN & Hcur).
    exists Q. eapply follows_trans; [by split|]. by apply follows_calm.
Qed.

(** The shell in an interrupt. *)
Lemma shell_kinv c e e' (k k' : kern) : kinv k -> pid0 k -> small k -> interruptible k ->
  shell_handle_char c (e, k) = Some (tt, (e', k')) -> kinv k'.
Proof.
  intros Hi Hp Hs Hint E. pose proof Hi as ((Q & dead & Hinv) & _).
  cut (exists Q', follows k k' Q' (reap_ptr k) dead); [intros (Q' & Hinv' & HN & Hc); by eapply kinv_same|].
  destruct (key_effect _ _ _ _ _ E) as [Hc|(input & k1 & k2 & H1 & H2 & H3)]; [exists Q; by apply follows_calm|].
  pose proof (follows_calm _ _ _ _ _ H1 Hinv) as F1. destruct H1 as ((Hs1 & _) & _).
  destruct (execute_inv input k1 k2 Q (reap_ptr k) dead) as (Q' & F2); [unfold small; by rewrite Hs1|unfold pid0; by rewrite Hs1|apply F1|done|].
  exists Q'. eapply follows_trans; [exact F1|]. eapply follows_trans; [exact F2|]. apply follows_calm; [done|apply F2].
Qed.

Lemma ush_kinv (k k' : kern) r : kinv k -> small k -> interruptible k -> shell_launch_ush k = Some (r, k') -> kinv k'.
Proof.
  intros Hi Hs Hint E. pose proof Hi as ((Q & dead & Hinv) & _). unfold shell_launch_ush in E.
  apply bind_inv in E as (p & k1 & E & [= _ <-]).
  destruct (launch_inv Hjunk (fun _ => ret tt) _ _ _ k k1 Q _ dead p ltac:(intros ?; apply resp_ret; apply _) Hs Hinv E) as (Q' & Hinv' & HN & Hc).
  by eapply kinv_same.
Qed.

End Commands.

End ShellFrame.
