(* ===== verification/KernDemo.v ===== *)
(** * A small machine on which the kernel's model runs

    Concrete instances of everything the model leaves open: a heap, the page
    allocator, a layout, a disk, and a filesystem with one tiny executable.  Used to
    show that the hypotheses of the kernel's theorems can hold. *)

From S2P Require Import Prelude Pmm Heap Disk Fat32Names Fat32 Sched SchedProps Pipe Paging PagingProps Elf Vfs Vga LineEdit Drivers ShellEdit Kern Syscall ShellCmd.

Module KernDemo.

Import Pmm Fat32 Proc Sched SchedProps Pipe Paging Elf Vfs Kbd Kern Syscall ShellCmd.

(** A heap next to the page allocator. *)
#[global] Program Instance demo_heap : KernelHeap (BumpHeap.bump * pmm_state) := {
  kh_malloc n a := match BumpHeap.malloc n a.1 with Some (p, b) => Some (p, (b, a.2)) | None => None end;
  kh_free p a := match BumpHeap.free p a.1 with Some b => Some (b, a.2) | None => None end;
  kh_ok a L := kh_ok a.1 L;
  kh_rich _ := True
}.
Next Obligation.
  intros n [b m] L Hn HL. destruct (kh_malloc_spec n b L Hn HL) as (p & b' & E & H1 & H2). simpl in *. rewrite E.
  exists p, (b', m). split; [done|]. split; [done|]. intros _ H0. split; [|done]. by apply H2.
Qed.
Next Obligation.
  intros p [b m] L HL. destruct (kh_free_spec p b L HL) as (b' & E & H1 & H2). simpl in *. rewrite E. by exists (b', m).
Qed.
Next Obligation. intros [b m] L HL. exact (kh_ok_nodup b L HL). Qed.

#[global] Instance demo_share : PageShare (BumpHeap.bump * pmm_state) := { ps_pmm := snd; ps_set m a := (a.1, m) }.
#[global] Instance demo_machine : Machine := {
  kernel_task_addr := 0xC0200000; process_bootstrap := 0xC0100400; fork_child_return := 0xC0100500;
  default_state := []; junk_fds := replicate MAX_FDS closed_fd }.
#[global] Existing Instance PagingProps.Demo.demo_layout.

Abbreviation dfs := (fs (D := RamDisk.disk) (A := BumpHeap.bump * pmm_state)).
Abbreviation dkern := (Kern.kern (D := RamDisk.disk) (A := BumpHeap.bump * pmm_state)).

(** An executable without segments: magic, type, entry point. *)
Definition demo_elf : Z -> Z := fun i => nth (Z.to_nat i)
  ([0x7F; 0x45; 0x4C; 0x46] ++ replicate 12 0 ++ [2; 0] ++ replicate 6 0 ++ [0; 0x80; 4; 8]) 0.
Definition demo_ops : vfs_ops dfs := mk_vfs_ops
  (fun _ _ _ => ret (Some (52, demo_elf))) (fun _ _ _ => ret 0) (fun _ => ret (-1)) (fun _ _ => ret (-1)) (fun _ => ret (-1))
  (fun _ => ret 0) (fun _ => ret (-1)) (ret [47]) (fun _ => ret (Some (2, 52))) (fun _ _ => ret [])
  (ret 512) (fun _ => ret VFS_CLUSTER_EOC) (fun _ => ret None).

Definition demo_pmm : pmm_state := mk_pmm (fun i => if i =? 128 then 0 else 255) 8 8.
Definition demo_sched : sched := match process_init 0xC0200000 0xC0101000 0xC0300000 bss with Some (_, s) => s | None => bss end.
(** The boot page directory after [paging_init]. *)
Definition demo_vm : vm := match paging_init PagingProps.Demo.demo_vm with Some (_, v) => v | None => PagingProps.Demo.demo_vm end.
Definition demo_boot : dkern := mk_kern demo_sched
  (mk_fs 2 [47] (RamDisk.mk_disk (fun _ => 0) 0) (BumpHeap.bump_init, demo_pmm) []) (Some demo_ops)
  demo_vm ∅ ∅ (replicate MAX_EXIT_RECORDS (mk_exit 0 0 0 0)) 1 kbd_init 0 (fun _ => 0) ∅ [].

(** The state a step leaves. *)
Definition after {X} (m : st dkern X) (k : dkern) : dkern := match m k with Some (_, k') => k' | None => k end.
Definition goes {X} (m : st dkern X) (k : dkern) : bool := match m k with Some _ => true | None => false end.

(** The line "exec INIT.ELF" has been typed into the kernel shell, and Enter is pressed. *)
Definition command_line : LineEdit.edit :=
  let s := chars "exec INIT.ELF" in
  LineEdit.mk_edit (ch s) (Z.of_nat (length s)) (Z.of_nat (length s)) (fun _ _ => 0) 0 (-1).
#[export] Instance demo_host : ShellHost dkern := kern_host (fun _ _ => 0) 0.
Definition press_enter : st dkern unit := fun k =>
  match ShellEdit.shell_handle_char 10 (command_line, k) with Some (_, (_, k')) => Some (tt, k') | None => None end.
Definition launched : dkern := after press_enter demo_boot.
Fixpoint ticked (n : nat) (k : dkern) : dkern := match n with O => k | S n => ticked n (after timer_irq k) end.
Definition in_user : dkern := ticked 10 launched.

(** The program calls [pipe], [fork] and [read]: the registers of each call. *)
Definition call_regs (eax ebx ecx edx : Z) : list Z := [0; 0; 0; 0; 0; ebx; edx; ecx; eax; 0; 0; 0x1B; 0; 0; 0; 0].
Definition call (regs : list Z) : st dkern sysret := syscall_handler (fun _ _ => 0) 0 regs.
Definition piped : dkern := after (call (call_regs 17 0xBFFFF100 0 0)) in_user.
Definition forked : dkern := after (call (call_regs 7 0 0 0)) piped.
(** The parent reads from the empty pipe and sleeps; the reader and the writer of the
    pipe are open in both processes. *)
Definition asleep : dkern := after (call (call_regs 13 3 0xBFFFF200 4)) forked.

Lemma demo_goes :
  goes press_enter demo_boot
  && goes (call (call_regs 17 0xBFFFF100 0 0)) in_user && goes (call (call_regs 7 0 0 0)) piped
  && goes (call (call_regs 13 3 0xBFFFF200 4)) forked = true.
Proof. vm_compute. reflexivity. Qed.

Lemma demo_pipe :
  (fun pi => (read_open pi, write_open pi, blocked_reader pi)) <$> k_pipes asleep !! 4 = Some (2, 2, 2).
Proof. vm_compute. reflexivity. Qed.

Lemma demo_fd :
  procs (k_sched asleep) !! 2 ≫= (fun r => (fun f => (fd_kind f, fd_pipe f)) <$> p_fds r !! 3%nat) = Some (FD_PIPE_READ, 4).
Proof. vm_compute. reflexivity. Qed.

End KernDemo.
