(* ===== verification/CallSpecs.v ===== *)
(** * What single system calls promise (kernel/syscall.c, kernel/process.c)

    Functional specifications of the exit records behind [wait], of the copying of
    path names out of user memory, and of [sbrk]. *)

From S2P Require Import Prelude Pmm Heap Disk Fat32Names Fat32 Sched SchedProps Pipe Paging PagingProps Elf Vfs Vga LineEdit Drivers ShellEdit Kern Syscall ShellCmd KernDemo.

Module CallSpecs.

Import Pmm Fat32 Proc Sched SchedProps Pipe Paging PagingProps Elf Vfs Kbd Kern Syscall ShellCmd.

Section Specs.
Context {D A : Type} `{BD : BlockDev D} `{KH : KernelHeap A} `{PS : PageShare A}.
Context `{L : Layout} `{M : Machine}.

Abbreviation kern := (kern (D := D) (A := A)).

(** ** Exit records *)

(** The exits nobody has waited for yet, in the order of the table. *)
Definition unclaimed (l : list exit_record) : list exit_record := filter (fun e => e_valid e <> 0) l.

Lemma unclaimed_put l i e0 e : l !! i = Some e0 -> e_valid e0 = 0 ->
  unclaimed (<[i := e]> l) = unclaimed (take i l) ++ unclaimed [e] ++ unclaimed (drop (S i) l)
  /\ unclaimed l = unclaimed (take i l) ++ unclaimed (drop (S i) l).
Proof.
  intros Hi Hv. unfold unclaimed. rewrite <- !filter_app. split.
  - by rewrite insert_take_drop by (by eapply lookup_lt_Some).
  - rewrite <- (take_drop_middle l i e0 Hi) at 1. rewrite !filter_app, filter_cons_False; [done|]. intros Hn. by apply Hn.
Qed.

Lemma reap_miss l parent target : (forall e, e ∈ unclaimed l -> exit_match parent target e = false) ->
  list_find (fun e => exit_match parent target e = true) l = None.
Proof.
  intros H. apply list_find_None, Forall_forall. intros e He Hm. rewrite H in Hm; [done|].
  apply list_elem_of_filter. split; [|done]. unfold exit_match in Hm. intros E. by rewrite E in Hm.
Qed.

(** An exit is delivered exactly once: with a free record in the table and no older
    unclaimed exit of the same child, [wait] for that child by its parent finds the
    pid and the code that were recorded, leaves every other unclaimed exit in place,
    and a second [wait] for it finds nothing. *)
Theorem exit_record_roundtrip (k : kern) i e0 pid parent code :
  k_exits k !! i = Some e0 -> e_valid e0 = 0 -> pid <> 0 ->
  (forall e, e ∈ unclaimed (k_exits k) -> e_parent_pid e = parent -> e_pid e <> pid) ->
  exists k1 k2, record_exit pid parent code k = Some (tt, k1)
  /\ process_reap_child parent pid k1 = Some (Some (pid, code), k2)
  /\ unclaimed (k_exits k2) = unclaimed (k_exits k)
  /\ process_reap_child parent pid k2 = Some (None, k2).
Proof.
  intros Hi Hv Hpid Hold. set (l := k_exits k) in *.
  destruct (list_find_elem_of (fun e => e_valid e = 0) l e0) as [[j e] Hj]; [by eapply list_elem_of_lookup_2|done|].
  pose proof Hj as Hf. apply list_find_Some in Hf as (Hlj & He & _).
  set (e1 := mk_exit pid parent code 1). set (e2 := mk_exit pid parent code 0).
  destruct (unclaimed_put l j e e1 Hlj He) as [_ Hl].
  assert (Hno : forall e, e ∈ unclaimed l -> exit_match parent pid e = false).
  { intros e' He'. unfold exit_match. destruct (Z.eqb_spec pid 0); [done|].
    destruct (Z.eqb_spec (e_parent_pid e') parent); [|by rewrite andb_false_r].
    destruct (Z.eqb_spec (e_pid e') pid) as [E|]; [|by rewrite andb_false_r]. exfalso. by eapply Hold. }
  assert (Hfind : list_find (fun e => exit_match parent pid e = true) (<[j := e1]> l) = Some (j, e1)).
  { apply list_find_Some. split; [apply list_lookup_insert_eq; by eapply lookup_lt_Some|].
    split; [unfold exit_match; simpl; by rewrite !Z.eqb_refl, orb_true_r|]. intros j' e' Hj' Hlt Hm.
    rewrite list_lookup_insert_ne in Hj' by lia. rewrite Hno in Hm; [done|]. apply list_elem_of_filter.
    split; [|by eapply list_elem_of_lookup_2]. intros E. unfold exit_match in Hm. by rewrite E in Hm. }
  assert (Hback : unclaimed (<[j := e2]> l) = unclaimed l).
  { destruct (unclaimed_put l j e e2 Hlj He) as [-> _]. by rewrite Hl. }
  exists (set_exits (<[j := e1]> l) k), (set_exits (<[j := e2]> l) k). split_and!.
  - unfold record_exit, bind, gets. fold l. rewrite Hj. done.
  - unfold process_reap_child, bind, gets. cbn [set_exits k_exits]. rewrite Hfind.
    unfold bump_record, modify, ret. cbn [set_exits k_exits]. by rewrite list_insert_insert_eq.
  - cbn [set_exits k_exits]. exact Hback.
  - unfold process_reap_child, bind, gets. cbn [set_exits k_exits]. rewrite reap_miss; [done|]. by rewrite Hback.
Qed.

(** ** Path names *)

Lemma range_one a : is_u32 a -> user_range_ok (u32 a) 1 = negb (a =? 0) && (a <? USER_LIMIT).
Proof.
  intros Ha. rewrite u32_small by done. unfold user_range_ok, USER_LIMIT.
  apply eq_true_iff_eq. rewrite !andb_true_iff, negb_true_iff, Z.eqb_neq, Z.leb_le, Z.ltb_lt. lia.
Qed.

Lemma copy_loop (k : kern) n s a :
  Forall (fun c => c <> 0) s -> is_u32 a ->
  (forall i, 0 <= i <= Z.of_nat (length s) -> i < Z.of_nat n -> 0 < a -> a + i < USER_LIMIT ->
     get_user (a + i) k = Some (ch s i, k)) ->
  copy_user_path_loop n a k
  = Some (if negb (a =? 0) && (a + Z.of_nat (length s) <? USER_LIMIT) && (length s <? n)%nat then Some s else None, k).
Proof.
  revert s a. induction n as [|n IH]; intros s a Hs Ha Hm; cbn [copy_user_path_loop].
  { by rewrite andb_false_r. }
  rewrite range_one by done. destruct (Z.eqb_spec a 0) as [->|Ha0]; [done|]. change (negb false) with true.
  destruct (Z.ltb_spec a USER_LIMIT) as [Hlt|]; cbn [negb andb].
  2: { destruct (Z.ltb_spec (a + Z.of_nat (length s)) USER_LIMIT); [lia|done]. }
  pose proof (Hm 0 ltac:(lia) ltac:(lia) ltac:(unfold is_u32 in *; lia) ltac:(lia)) as H0. rewrite Z.add_0_r in H0.
  rewrite (bind_ok _ _ _ _ _ H0). destruct s as [|c s].
  - cbn [length]. destruct (Z.ltb_spec (a + Z.of_nat 0) USER_LIMIT); [done|lia].
  - apply Forall_cons in Hs as [Hc Hs]. change (ch (c :: s) 0) with c. destruct (Z.eqb_spec c 0); [done|].
    unfold bind. rewrite (IH s (a + 1)); [|done|unfold is_u32, USER_LIMIT in *; lia|].
    + destruct (Z.eqb_spec (a + 1) 0); [unfold is_u32 in *; lia|]. cbn [negb andb length].
      replace (a + 1 + Z.of_nat (length s)) with (a + Z.of_nat (S (length s))) by lia.
      change (S (length s) <? S n)%nat with (length s <? n)%nat. by destruct (_ && _).
    + intros i Hi Hn _ Hu. unfold is_u32 in Ha. cbn [length] in Hm. replace (a + 1 + i) with (a + (i + 1)) by lia. rewrite Hm by lia.
      unfold ch. by replace (Z.to_nat (i + 1)) with (S (Z.to_nat i)) by lia.
Qed.

(** [copy_user_path] copies a path name exactly: with the string [s] in user
    memory at [upath], it returns [s] when [s] with its terminator fits the kernel's
    buffer less one byte and ends below the kernel half, and fails otherwise: a null pointer, a string
    that runs into the kernel half (not one byte of which is read) and an overlong
    string are all rejected. *)
Theorem copy_user_path_correct (k : kern) upath outsize s :
  Forall (fun c => c <> 0) s -> is_u32 upath ->
  (forall i, 0 <= i <= Z.of_nat (length s) -> i < outsize - 1 -> 0 < upath -> upath + i < USER_LIMIT ->
     get_user (upath + i) k = Some (ch s i, k)) ->
  copy_user_path upath outsize k
  = Some (if negb (upath =? 0) && (upath + Z.of_nat (length s) <? USER_LIMIT) && (Z.of_nat (length s) <? outsize - 1)
          then Some s else None, k).
Proof.
  intros Hs Ha Hm. unfold copy_user_path. rewrite (copy_loop k _ s) by (try done; intros; apply Hm; lia).
  assert ((length s <? Z.to_nat (outsize - 1))%nat = (Z.of_nat (length s) <? outsize - 1)) as ->; [|done].
  apply eq_true_iff_eq. rewrite Nat.ltb_lt, Z.ltb_lt. lia.
Qed.

(** ** The heap of a process *)

Lemma alloc_page_addr m p m' : pmm_alloc_page m = (p, m') -> 0 <= p < 4294967296 /\ p mod 4096 = 0.
Proof.
  destruct (pmm_alloc_page_cases m) as [(q & -> & Hq & _)|[-> _]]; intros [= <- _]; [|done].
  unfold PAGE_SIZE, MAX_PAGES in *. zmod.
Qed.

Lemma dir_ok_pmm (s : vm) m dir : dir_ok s dir -> dir_ok (set_pmm m s) dir.
Proof. by intros []. Qed.

(** The pages from [virt] on, up to where memory runs out. *)
Lemma sbrk_pages_ok n dir virt (s : vm) :
  dir_ok s dir -> virt mod 4096 = 0 -> 0 <= virt -> virt + Z.of_nat n * 4096 < 4294967296 ->
  exists v s', sbrk_pages n dir virt s = Some (v, s') /\ dir_ok s' dir
  /\ (v = -1 \/ v = 0 /\ forall a, virt <= a < virt + Z.of_nat n * 4096 -> is_Some (translate (words s') dir a))
  /\ (forall a, is_u32 a -> ~ virt <= a < virt + Z.of_nat n * 4096 -> translate (words s') dir a = translate (words s) dir a).
Proof.
  revert virt s. induction n as [|n IH]; intros virt s Hd Hal H0 Hb; cbn [sbrk_pages].
  { exists 0, s. split; [done|]. split; [done|]. split; [right; split; [done|lia]|done]. }
  unfold vm_alloc_page, bind at 1. destruct (pmm_alloc_page (pmm s)) as [p m] eqn:Ep.
  destruct (alloc_page_addr _ _ _ Ep) as [Hp Hpm]. pose proof (dir_ok_pmm s m dir Hd) as Hd1.
  destruct (Z.eqb_spec p 0).
  { exists (-1), (set_pmm m s). split; [done|]. split; [done|]. by split; [left|]. }
  destruct (map_page_in_ok (set_pmm m s) dir virt p USER_PAGE Hd1) as
    [(_ & _ & E)|(s1 & t & E & Hsub & Hcase & Hoth & Htr & Htro & _)];
    [unfold is_u32; lia|done|done|vm_compute; intuition congruence| |]; rewrite (bind_ok _ _ _ _ _ E).
  { simpl. eexists _, _. split; [done|]. split; [by apply dir_ok_pmm|]. by split; [left|]. }
  simpl negb. cbn match. rewrite u32_small by (unfold is_u32; lia).
  pose proof (map_page_in_dir_ok (set_pmm m s) s1 dir virt t Hd1 ltac:(unfold is_u32; lia) Hsub Hcase Hoth) as Hd2.
  destruct (IH (virt + 4096) s1 Hd2) as (v & s' & E' & Hd' & Hv & Ho); [zmod|lia|lia|].
  exists v, s'. split; [done|]. split; [done|]. split.
  - destruct Hv as [Hv|[Hv Hin]]; [by left|]. right. split; [done|]. intros a Ha.
    destruct (decide (virt + 4096 <= a)); [apply Hin; lia|].
    rewrite Ho by (unfold is_u32; lia). assert (is_Some (translate (words s1) dir virt)) as Hs by (by rewrite Htr).
    revert Hs. rewrite !translate_eq. assert (a / 4096 = virt / 4096) as Hpg by zmod.
    assert (dir_index a = dir_index virt /\ table_index a = table_index virt) as [-> ->].
    { assert (Z.shiftr a 12 = Z.shiftr virt 12) as E12 by (by rewrite !Z.shiftr_div_pow2).
      assert (forall x, dir_index x = Z.shiftr (Z.shiftr x 12) 10) as Hx by (intros x; by rewrite Z.shiftr_shiftr).
      split; [by rewrite !Hx, E12|]. unfold table_index. by rewrite E12. }
    destruct (sub_table _ _ _) as [t'|]; [|done]. cbn zeta. destruct (present _); [eauto|done].
  - intros a Ha Hn. rewrite Ho by (try done; lia). apply Htro; [done|]. intros Hpg. apply Hn. zmod.
Qed.

Lemma proc_load_at (k : kern) p r : procs (k_sched k) !! p = Some r -> proc_load p k = Some (r, k).
Proof. intros Hr. unfold proc_load, on_sched, load. rewrite Hr. by destruct k. Qed.

Lemma proc_store_at (k : kern) p r f : procs (k_sched k) !! p = Some r ->
  proc_store p f k = Some (tt, set_sched (set_procs (<[p := f r]> (procs (k_sched k))) (k_sched k)) k).
Proof. intros Hr. unfold proc_store, on_sched, store. by rewrite Hr. Qed.

(** The process [me] has a heap and may grow it. *)
Definition heap_ready (k : kern) (me : Z) (r : process) : Prop :=
  current_process (k_sched k) = me /\ me <> 0 /\ procs (k_sched k) !! me = Some r
  /\ dir_ok (k_vm k) (p_page_directory r)
  /\ 0 < p_heap_start r <= p_heap_end r /\ p_heap_end r < USER_STACK_PAGE - 4096 /\ p_heap_end r mod 4096 = 0.

Lemma sbrk_run (k : kern) me r increment :
  heap_ready k me r -> -2147483648 < increment < 2147483648 ->
  exists v k', sys_sbrk increment k = Some (v, k') /\ dir_ok (k_vm k') (p_page_directory r)
  /\ (v = -1 /\ k_sched k' = k_sched k
      \/ exists new, v = s32 (p_heap_end r)
         /\ k_sched k' = set_procs (<[me := set_heap (p_heap_start r) new r]> (procs (k_sched k))) (k_sched k)
         /\ p_heap_start r <= new < USER_STACK_PAGE - 4096
         /\ (increment <= 0 -> new = p_heap_end r + increment)
         /\ (0 < increment -> p_heap_end r + increment <= new < p_heap_end r + increment + 4096 /\ new mod 4096 = 0)
         /\ (forall a, p_heap_end r <= a < new -> is_Some (translate (words (k_vm k')) (p_page_directory r) a))
         /\ forall a, is_u32 a -> ~ p_heap_end r <= a < new ->
              translate (words (k_vm k')) (p_page_directory r) a = translate (words (k_vm k)) (p_page_directory r) a).
Proof.
  intros (Hme & H0 & Hr & Hd & Hs & He & Hal) Hi. change USER_STACK_PAGE with 0xBFFFF000 in *.
  assert (Hself : set_heap (p_heap_start r) (p_heap_end r) r = r) by (by destruct r).
  unfold sys_sbrk. assert (current k = Some (me, k)) as Ec by (unfold current, on_sched, gets; rewrite Hme; by destruct k).
  rewrite (bind_ok _ _ _ _ _ Ec). destruct (Z.eqb_spec me 0); [done|].
  rewrite (bind_ok _ _ _ _ _ (proc_load_at k me r Hr)).
  destruct (Z.eqb_spec (p_heap_end r) 0); [lia|]. destruct (Z.eqb_spec increment 0).
  { exists (s32 (p_heap_end r)), k. split; [done|]. split; [done|]. right. exists (p_heap_end r). rewrite Hself, insert_id by done.
    split_and!; try done; [by destruct (k_sched k)|lia..]. }
  destruct (Z.ltb_spec increment 0).
  { rewrite (u32_small (- increment)), (u32_small (p_heap_end r - p_heap_start r)) by (unfold is_u32; lia).
    destruct (Z.ltb_spec (p_heap_end r - p_heap_start r) (- increment)).
    { exists (-1), k. split; [done|]. split; [done|]. by left. }
    rewrite (bind_ok _ _ _ _ _ (proc_store_at k me r _ Hr)). eexists _, _. split; [done|]. split; [done|]. right. eexists.
    split; [done|]. rewrite u32_small by (unfold is_u32; lia). split; [done|].
    split_and!; try done; lia. }
  rewrite (u32_small (increment + 4095)) by (unfold is_u32; lia). set (pg := (increment + 4095) / 4096).
  assert (Hn : increment <= pg * 4096 < increment + 4096) by (unfold pg; zmod).
  destruct (u32 (p_heap_end r + pg * 4096) <? p_heap_end r) eqn:Ew; [exists (-1), k; split; [done|]; split; [done|by left]|].
  change USER_STACK_PAGE with 0xBFFFF000. destruct (0xBFFFF000 - 4096 <=? u32 (p_heap_end r + pg * 4096)) eqn:Eb; [exists (-1), k; split; [done|]; split; [done|by left]|].
  cbn [orb]. zbool. assert (Hu : u32 (p_heap_end r + pg * 4096) = p_heap_end r + pg * 4096).
  { unfold u32 in *. zmod. }
  destruct (sbrk_pages_ok (Z.to_nat pg) (p_page_directory r) (p_heap_end r) (set_pmm (ps_pmm (mem (k_fs k))) (k_vm k)))
    as (v & s' & E & Hd' & Hv & Ho); [by apply dir_ok_pmm|done|lia|lia|].
  assert (exists k1, on_vm (sbrk_pages (Z.to_nat pg) (p_page_directory r) (p_heap_end r)) k = Some (v, k1)
    /\ k_sched k1 = k_sched k /\ k_vm k1 = s') as (k1 & E1 & Hk1 & Hvm1) by (eexists; split; [unfold on_vm; by rewrite E|done]).
  rewrite (bind_ok _ _ _ _ _ E1). destruct Hv as [-> | [-> Hin]]; [exists (-1), k1; split; [done|]; rewrite Hvm1; split; [done|by left]|].
  change (negb (0 =? 0)) with false. cbv iota. rewrite (bind_ok _ _ _ _ _ (proc_store_at k1 me r _ ltac:(by rewrite Hk1))).
  eexists _, _. split; [done|]. cbn [k_vm set_sched k_sched]. rewrite Hvm1, Hk1. split; [done|]. right.
  exists (p_heap_end r + pg * 4096). split; [done|]. rewrite Hu. split; [done|]. rewrite Z2Nat.id in * by lia.
  split_and!; try done; [lia..|]. zmod.
Qed.


End Specs.

(** ** The specifications on a running machine *)

Import KernDemo.

(** A child 7 of process 3 exits with code 42 when the table is empty. *)
Lemma exit_record_roundtrip_witness : exists k1 k2 : dkern,
  record_exit 7 3 42 demo_boot = Some (tt, k1) /\ process_reap_child 3 7 k1 = Some (Some (7, 42), k2).
Proof.
  destruct (exit_record_roundtrip demo_boot 0 (mk_exit 0 0 0 0) 7 3 42) as (k1 & k2 & H1 & H2 & _);
    [reflexivity|reflexivity|lia| |by exists k1, k2].
  intros e He. exfalso. vm_compute in He. inversion He.
Defined.

(** The program's own name in its argument strings on the user stack. *)
Definition arg0 : Z := 0xBFFFFFF7.

Definition arg0_there (k : dkern) : bool :=
  forallb (fun i => match get_user (arg0 + Z.of_nat i) k with
    | Some (c, _) => c =? ch (chars "INIT.ELF") (Z.of_nat i) | None => false end) (seq 0 9).

Lemma get_user_frame (k : dkern) a c k' : get_user a k = Some (c, k') -> k' = k.
Proof. unfold get_user. destruct (user_addr k a); [congruence|done]. Qed.

Lemma arg0_bytes (k : dkern) i : arg0_there k = true -> 0 <= i <= 8 ->
  get_user (arg0 + i) k = Some (ch (chars "INIT.ELF") i, k).
Proof.
  intros H Hi. unfold arg0_there in H. rewrite forallb_forall in H.
  specialize (H (Z.to_nat i)). rewrite Z2Nat.id in H by lia. specialize (H ltac:(apply in_seq; lia)).
  destruct (get_user (arg0 + i) k) as [[c k']|] eqn:E; [|done].
  apply Z.eqb_eq in H as <-. f_equal. f_equal. exact (get_user_frame _ _ _ _ E).
Qed.

Lemma arg0_state : exists k : dkern, arg0_there k = true.
Proof. exists in_user. vm_compute. reflexivity. Qed.

Lemma copy_user_path_correct_witness :
  exists k : dkern, copy_user_path arg0 256 k = Some (Some (chars "INIT.ELF"), k).
Proof.
  destruct arg0_state as (k & Hk). exists k. apply (copy_user_path_correct k arg0 256 (chars "INIT.ELF")).
  - repeat constructor; discriminate.
  - unfold is_u32, arg0. lia.
  - intros i Hi _ _ _. exact (arg0_bytes k i Hk Hi).
Defined.

(** A process with an empty heap at 0x08050000 asks for 5000 bytes. *)
Definition heap_task : process := set_heap 0x08050000 0x08050000 (kernel_task 0xC0101000 0xC0300000).
Definition heap_state : dkern :=
  set_vm PagingProps.Demo.demo_vm (set_sched (set_procs {[0xC0200000 := heap_task]} demo_sched) demo_boot).


End CallSpecs.
