(* ===== verification/UserHeap.v ===== *)
(** * The C library's allocator (user/stdlib.c)

    [malloc] and [free] are the code of the kernel's allocator over another source of
    pages, the [sbrk] system call; [realloc] and [calloc] build on them and on the
    memory functions.  The library relies on the system call through the interface
    [SbrkCall], which the kernel's [sys_sbrk] implements. *)

From S2P Require Import Prelude Pmm Heap Disk Fat32Names Fat32 Sched SchedProps Pipe Paging PagingProps Elf Vfs Drivers Kern Syscall KernDemo CallSpecs CString.

(** What a program relies on: growing by whole pages either fails and leaves the break,
    or returns the old break and moves it by exactly the request. *)
Class SbrkCall (K : Type) := {
  sbrk : Z -> K -> Z * K;
  sb_ok : K -> Prop;
  sb_start : K -> Z;
  sb_end : K -> Z;
  sb_range : forall k, sb_ok k -> 4096 <= sb_start k <= sb_end k /\ sb_end k < 0xBFFFE000 /\ sb_end k mod 4096 = 0;
  sbrk_spec : forall n k, 0 < n -> n * 4096 < 2147483648 -> sb_ok k ->
    let '(v, k') := sbrk (n * 4096) k in
    sb_ok k' /\ sb_start k' = sb_start k
    /\ (v = -1 /\ sb_end k' = sb_end k \/ v = s32 (sb_end k) /\ sb_end k' = sb_end k + n * 4096)
}.

Module UserHeap.

Import Heap CString.

Section Library.
Context {K : Type} `{SB : SbrkCall K}.

(** [do_sbrk]: 0 on failure. *)
Definition do_sbrk (increment : Z) (k : K) : Z * K :=
  let '(ret, k) := sbrk increment k in
  if ret =? -1 then (0, k) else (u32 ret, k).

(** The page source of [new_block]: [do_sbrk((int)bytes)]. *)
Definition sbrk_grow (pages_needed : Z) (k : K) : Z * K :=
  let bytes := u32 (pages_needed * 4096) in do_sbrk (s32 bytes) k.

#[export] Program Instance sbrk_source : BlockSource K := {
  bs_grow := sbrk_grow;
  bs_max := 524287;
  bs_ok := sb_ok;
  bs_owned k x := sb_start k <= x < sb_end k
}.
Next Obligation. lia. Qed.
Next Obligation.
  intros n k Hn Hmax Hok. unfold sbrk_grow, do_sbrk. rewrite u32_small by (unfold is_u32; lia).
  rewrite s32_small by lia. pose proof (sbrk_spec n k Hn ltac:(lia) Hok) as H.
  destruct (sb_range k Hok) as (Hr1 & Hr2 & Hr3). destruct (sbrk (n * 4096) k) as [v k'].
  destruct H as (Hok' & Hs & [[-> He]|[-> He]]).
  - simpl. split; [done|]. rewrite Hs, He. split; [done|]. by left.
  - destruct (sb_range k' Hok') as (_ & Hr2' & _). rewrite He in Hr2'.
    assert (s32 (sb_end k) <> -1) as Hne by (unfold s32, u32; zcase; zmod).
    destruct (Z.eqb_spec (s32 (sb_end k)) (-1)); [done|]. rewrite s32_u32 by (unfold is_u32; lia).
    split; [done|]. rewrite Hs, He. split; [intros x Hx; lia|]. right. split; [lia|]. split; [zmod|]. split; [lia|].
    intros x Hx. lia.
Qed.

Definition malloc (size : Z) (h : heap) (k : K) : option (Z * heap * K) := kmalloc size h k.
Definition free (ptr : Z) (h : heap) : option heap := kfree ptr h.

(** [realloc] on the heap and the contents [m] of memory. *)
Definition realloc (ptr new_size : Z) (h : heap) (k : K) (m : mem) : option (Z * heap * K * mem) :=
  if ptr =? 0 then
    match malloc new_size h k with Some (p, h, k) => Some (p, h, k, m) | None => None end
  else if new_size =? 0 then
    match free ptr h with Some h => Some (0, h, k, m) | None => None end
  else
    let new_size := Z.land (u32 (new_size + 3)) 0xFFFFFFFC in
    let block := u32 (ptr - HEADER_SIZE) in
    match hdrs h !! block with
    | None => None
    | Some b =>
      if new_size <=? bsize b then Some (ptr, h, k, m)
      else match malloc new_size h k with
           | None => None
           | Some (new_ptr, h, k) =>
             if new_ptr =? 0 then Some (0, h, k, m)
             else match hdrs h !! block with
                  | None => None
                  | Some b =>
                    let copy_size := if bsize b <? new_size then bsize b else new_size in
                    let m := memcpy m new_ptr ptr copy_size in
                    match free ptr h with Some h => Some (new_ptr, h, k, m) | None => None end
                  end
           end
    end.

Definition calloc (nmemb size : Z) (h : heap) (k : K) (m : mem) : option (Z * heap * K * mem) :=
  if (nmemb =? 0) || (size =? 0) then Some (0, h, k, m)
  else
    let total := u32 (nmemb * size) in
    if negb (total / nmemb =? size) then Some (0, h, k, m)
    else match malloc total h k with
         | None => None
         | Some (ptr, h, k) => if ptr =? 0 then Some (0, h, k, m) else Some (ptr, h, k, memset m ptr 0 total)
         end.

(** ** Correctness *)

(** The program holds the allocations [ps], given by pointer and size. *)
Definition owns (h : heap) (k : K) (ps : list (Z * Z)) : Prop := exists l, heap_inv h k l /\ holds ps l.

(** The bytes of the allocations [ps] are the same in both memories. *)
Definition untouched (ps : list (Z * Z)) (m m' : mem) : Prop :=
  forall q n, (q, n) ∈ ps -> forall i, 0 <= i < n -> m' (q + i) = m (q + i).

Lemma owns_apart h k ps : owns h k ps -> ForallOrdPairs apart ps.
Proof. intros (l & Hinv & Hh). destruct (holds_apart ps l) as [H _]; [apply Hinv|done|done]. Qed.

Lemma apart_head p n ps q j : ForallOrdPairs apart ((p, n) :: ps) -> (q, j) ∈ ps -> p + n <= q \/ q + j <= p.
Proof.
  intros H Hq. inversion_clear H as [|? ? Ha _]. rewrite Forall_forall in Ha. apply (Ha (q, j) Hq).
Qed.

Lemma holds_cons_le ps (l : list blk) p n n' : n' <= n -> holds ((p, n) :: ps) l -> holds ((p, n') :: ps) l.
Proof.
  intros Hn (bs & Hp & Hf). exists bs. split; [done|].
  apply Forall2_cons_inv_l in Hf as (b & bs' & [H1 H2] & Hf & ->). constructor; [simpl in *; lia|done].
Qed.

Lemma holds_middle ps qs (l : list blk) a : holds (ps ++ a :: qs) l -> holds (a :: ps ++ qs) l.
Proof.
  intros (bs & Hp & Hf). apply Forall2_app_inv_l in Hf as (bs1 & bs2 & Hf1 & Hf2 & ->).
  apply Forall2_cons_inv_l in Hf2 as (b & bs3 & Hb & Hf2 & ->). exists (b :: bs1 ++ bs3).
  split; [by rewrite Permutation_middle|]. constructor; [done|]. by apply Forall2_app.
Qed.

(** C24: [realloc] of an allocation the program holds always returns.  It fails with
    the null pointer, leaving the allocation and all of memory alone, or returns a
    pointer to at least the requested size that carries the old contents up to the
    smaller of the two sizes, takes the place of the old allocation, overlaps no other
    allocation the program holds and leaves their contents as they were. *)
Theorem realloc_correct h k m ps p n qs new_size :
  owns h k (ps ++ (p, n) :: qs) -> 0 < p -> 0 < n -> 0 < new_size <= max_request K ->
  exists r h' k' m', realloc p new_size h k m = Some (r, h', k', m')
  /\ (r = 0 /\ owns h' k' (ps ++ (p, n) :: qs) /\ m' = m
      \/ r <> 0 /\ owns h' k' ((r, new_size) :: ps ++ qs) /\ ForallOrdPairs apart ((r, new_size) :: ps ++ qs)
         /\ (forall i, 0 <= i < Z.min n new_size -> m' (r + i) = m (p + i)) /\ untouched (ps ++ qs) m m').
Proof.
  intros (l & Hinv & Hh) Hp Hn Hnew. destruct (align_request new_size Hnew) as [Ha1 Ha2].
  unfold realloc. destruct (Z.eqb_spec p 0); [lia|]. destruct (Z.eqb_spec new_size 0); [lia|]. cbv zeta.
  set (asz := Z.land _ _) in *.
  destruct (holds_header h k l ps qs p n Hinv Hh) as (b & Hb & Hnb & Hh1). rewrite Hb.
  destruct (Z.leb_spec asz (bsize b)) as [Hfit|Hfit].
  { exists p, h, k, m. split; [done|]. right. split; [lia|].
    assert (holds ((p, new_size) :: ps ++ qs) l) as Hh2 by (eapply (holds_cons_le _ l p (bsize b)); [lia|by apply holds_middle]).
    split; [by exists l|]. split; [apply (owns_apart h k); by exists l|]. done. }
  assert (0 < asz <= max_request K) as Hasz.
  { pose proof bs_max_range. unfold max_request in *. zmod. }
  unfold malloc. destruct (kmalloc_step h k l asz Hinv Hasz) as (r & h1 & k1 & l1 & Hk & _).
  destruct (alloc_holds h k l _ asz r h1 k1 Hinv Hh Hasz Hk) as (l1' & Hinv1 & Hh2). rewrite Hk.
  destruct (Z.eqb_spec r 0) as [->|Hr]. { exists 0, h1, k1, m. split; [done|]. left. split; [done|]. split; [by exists l1'|done]. }
  destruct (holds_header h1 k1 l1' ((r, asz) :: ps) qs p n Hinv1 Hh2) as (b' & Hb' & Hnb' & Hh3). rewrite Hb'.
  destruct (free_holds h1 k1 l1' ((r, asz) :: ps) qs p n Hinv1 Hh2) as (h2 & l2 & Hf & Hinv2 & Hh4). unfold free. rewrite Hf.
  eexists r, h2, k1, _. split; [done|]. right. split; [done|].
  assert (Hown : holds ((r, new_size) :: ps ++ qs) l2) by (eapply (holds_cons_le _ l2 r asz); [lia|done]).
  split; [by exists l2|]. split; [apply (owns_apart h2 k1); by exists l2|].
  set (copy := if bsize b' <? asz then bsize b' else asz).
  assert (Hcopy : Z.min n new_size <= copy /\ copy <= bsize b' /\ copy <= asz /\ 0 <= copy).
  { unfold copy. destruct (Z.ltb_spec (bsize b') asz); lia. }
  assert (Hsep : r + asz <= p \/ p + bsize b' <= r).
  { apply (apart_head r asz (ps ++ (p, bsize b') :: qs)); [apply (owns_apart h1 k1); by exists l1'|auto]. }
  assert (Hm : forall x, memcpy m r p copy x = blit m r m p copy x).
  { intros x. unfold memcpy. rewrite <- (Z2Nat.id copy) at 2 by lia. destruct (decide (r <= p)); [by apply copy_forward|apply copy_apart; lia]. }
  split.
  - intros i Hi. rewrite Hm, blit_in by lia. f_equal. lia.
  - intros q j Hq i Hi. rewrite Hm, blit_out; [done|].
    pose proof (apart_head r asz (ps ++ qs) q j) as Hap. specialize (Hap ltac:(apply (owns_apart h2 k1); by exists l2) Hq). lia.
Qed.

(** [calloc] rejects a product that does not fit 32 bits (before the heap is touched),
    and otherwise gives zeroed memory that overlaps nothing the program holds. *)
Lemma calloc_correct h k m ps nmemb size :
  owns h k ps -> 0 < nmemb < 4294967296 -> 0 < size < 4294967296 ->
  (4294967296 <= nmemb * size -> calloc nmemb size h k m = Some (0, h, k, m))
  /\ (nmemb * size <= max_request K -> exists p h' k' m', calloc nmemb size h k m = Some (p, h', k', m')
      /\ (p = 0 /\ owns h' k' ps /\ m' = m
          \/ p <> 0 /\ owns h' k' ((p, nmemb * size) :: ps)
             /\ (forall i, 0 <= i < nmemb * size -> m' (p + i) = 0) /\ untouched ps m m')).
Proof.
  intros (l & Hinv & Hh) Hn Hs. pose proof (Z.mul_pos_pos nmemb size ltac:(lia) ltac:(lia)) as Hpos.
  unfold calloc. destruct (Z.eqb_spec nmemb 0); [lia|]. destruct (Z.eqb_spec size 0); [lia|]. cbn [orb]. cbv zeta. split.
  - intros Hbig. destruct (Z.eqb_spec (u32 (nmemb * size) / nmemb) size) as [E|]; [|done]. exfalso.
    pose proof (u32_bound (nmemb * size)). pose proof (Z.mul_div_le (u32 (nmemb * size)) nmemb ltac:(lia)) as Hle.
    rewrite E in Hle. lia.
  - intros Hreq. assert (nmemb * size <= 4294963184) by (pose proof bs_max_range; unfold max_request in Hreq; lia).
    rewrite u32_small by (unfold is_u32; lia). rewrite Z.mul_comm, Z.div_mul, Z.eqb_refl, Z.mul_comm by lia. cbn [negb].
    unfold malloc. destruct (kmalloc_step h k l (nmemb * size) Hinv ltac:(lia)) as (p & h1 & k1 & l1 & Hk & _).
    destruct (alloc_holds h k l ps (nmemb * size) p h1 k1 Hinv Hh ltac:(lia) Hk) as (l1' & Hinv1 & Hh1). rewrite Hk.
    destruct (Z.eqb_spec p 0) as [->|Hp]; [exists 0, h1, k1, m|exists p, h1, k1, (memset m p 0 (nmemb * size))]; (split; [done|]).
    + left. split; [done|]. split; [by exists l1'|done].
    + right. split; [done|]. split; [by exists l1'|]. split.
      * intros i Hi. rewrite memset_eq, blit_in by lia. done.
      * intros q j Hq i Hi. rewrite memset_eq, blit_out; [done| |lia].
        pose proof (apart_head p (nmemb * size) ps q j ltac:(apply (owns_apart h1 k1); by exists l1') Hq). lia.
Qed.

End Library.

(** ** The kernel keeps the promise *)

Section KernelCall.
Import Proc Sched Kern Syscall CallSpecs.
Context {D A : Type} `{BD : BlockDev D} `{KH : KernelHeap A} `{PS : PageShare A}.
Context `{L : Layout} `{M : Machine}.

Abbreviation kern := (kern (D := D) (A := A)).

Definition kernel_sbrk (increment : Z) (k : kern) : Z * kern :=
  match sys_sbrk increment k with Some r => r | None => (-1, k) end.
Definition my_heap (f : process -> Z) (k : kern) : Z := from_option f 0 (procs (k_sched k) !! current_process (k_sched k)).
Definition can_grow (k : kern) : Prop := exists me r, heap_ready k me r /\ 4096 <= p_heap_start r.

#[export] Program Instance kernel_sbrk_call : SbrkCall kern := {
  sbrk := kernel_sbrk;
  sb_ok := can_grow;
  sb_start := my_heap p_heap_start;
  sb_end := my_heap p_heap_end
}.
Next Obligation.
  intros k (me & r & (<- & _ & Hr & _ & H1 & H2 & H3) & H4). unfold my_heap. rewrite Hr. simpl.
  split; [lia|]. split; [exact H2|exact H3].
Qed.
Next Obligation.
  intros n k Hn Hmax (me & r & Hk & H4). unfold kernel_sbrk.
  destruct (sbrk_run k me r (n * 4096) Hk ltac:(lia)) as (v & k' & -> & Hd & Hcase).
  destruct Hk as (<- & H0 & Hr & _ & H1 & H2 & H3). unfold my_heap. rewrite Hr. simpl.
  destruct Hcase as [[-> Hs]|(new & -> & Hs & Hb & _ & Hg & _)].
  - rewrite Hs, Hr. simpl. split; [|split; [done|by left]]. exists (current_process (k_sched k)), r. split; [|done].
    unfold heap_ready. rewrite Hs. split_and!; try done; lia.
  - destruct (Hg ltac:(lia)) as [Hg1 Hg2]. assert (new = p_heap_end r + n * 4096) as Hnew by zmod.
    rewrite Hs. simpl. rewrite lookup_insert_eq. simpl. split; [|split; [done|right; split; [done|exact Hnew]]].
    exists (current_process (k_sched k)), (set_heap (p_heap_start r) new r). split; [|done].
    unfold heap_ready. rewrite Hs. simpl. rewrite lookup_insert_eq. split_and!; try done; lia.
Qed.

End KernelCall.

(** ** A program with a 64 KB heap *)

Module Demo.

#[local] Program Instance small_brk : SbrkCall Z := {
  sbrk increment brk := if brk + increment <=? 0x08060000 then (brk, brk + increment) else (-1, brk);
  sb_ok brk := 0x08050000 <= brk <= 0x08060000 /\ brk mod 4096 = 0;
  sb_start _ := 0x08050000;
  sb_end brk := brk
}.
Next Obligation. simpl. lia. Qed.
Next Obligation.
  simpl. intros n k Hn Hmax [Hk Hm]. destruct (Z.leb_spec (k + n * 4096) 0x08060000).
  - split; [split; [lia|zmod]|]. split; [done|]. right. by rewrite s32_small by lia.
  - split; [done|]. split; [done|]. by left.
Qed.

(** One allocation of 100 bytes, grown to 5000. *)
Definition one_block : heap := mk_heap 0x08050000 {[ 0x08050000 := mk_hdr 4084 0 0 ]}.

Lemma one_block_owned : owns (K := Z) one_block 0x08051000 ([] ++ (0x0805000C, 100) :: []).
Proof.
  assert (client (S := Z) one_block 0x08051000 [(0x0805000C, 100)]) as Hc.
  { apply (client_alloc kmalloc_init (0x08050000 : Z) [] 100 0x0805000C); [|vm_compute; intuition congruence|reflexivity].
    constructor. vm_compute. intuition congruence. }
  destruct (client_inv _ _ _ Hc) as (l & H1 & H2). by exists l.
Qed.

End Demo.

(** A request of nearly 4 GB is not refused: [(int)bytes] is negative, so the break is
    moved back by a page and the program gets a pointer to memory it just gave up. *)
Lemma malloc_huge_request :
  exists h, malloc (SB := Demo.small_brk) 0xFFFFE000 Demo.one_block 0x08051000 = Some (0x0805100C, h, 0x08050000).
Proof. eexists. reflexivity. Qed.

Lemma realloc_correct_witness : exists r h' k' m',
  realloc (SB := Demo.small_brk) 0x0805000C 5000 Demo.one_block 0x08051000 (fun x => x) = Some (r, h', k', m')
  /\ (r = 0 \/ forall i, 0 <= i < 100 -> m' (r + i) = 0x0805000C + i).
Proof.
  destruct (realloc_correct (SB := Demo.small_brk) Demo.one_block 0x08051000 (fun x => x) [] 0x0805000C 100 [] 5000)
    as (r & h' & k' & m' & E & H); [exact Demo.one_block_owned|lia|lia|vm_compute; intuition congruence|].
  exists r, h', k', m'. split; [exact E|].
  destruct H as [(H & _)|(_ & _ & _ & H & _)]; [left; exact H|right; exact H].
Defined.

End UserHeap.
