(* ===== verification/KernProps.v ===== *)
(** * What the kernel guarantees in every run

    Runs from boot, and what the invariant says about each state they reach: exact
    reference counts, no dangling descriptors, sleepers that can be woken, queues that are
    disjoint well-formed lists. *)

From S2P Require Import Prelude Pmm Heap Disk Fat32Names Fat32 Sched SchedProps SchedFrame Pipe Paging PagingProps Elf Vfs Vga LineEdit Drivers ShellEdit Kern Syscall ShellCmd KernInv KernOps KernFrame KernProcs KernRun KernCalls KernSteps ShellFrame KernDemo.

Module KernProps.

Import Fat32 Proc Sched SchedProps Frame Pipe Wbuf Paging Elf Vfs Kbd Kern Syscall ShellCmd KernInv KernOps KernFrame KernProcs KernRun KernCalls KernSteps ShellFrame.

Section Runs.
Context {D A : Type} `{BD : BlockDev D} `{KH : KernelHeap A} `{PS : PageShare A}.
Context `{L : Layout} `{M : Machine}.
Context (cmos : Z -> Z -> Z) (rtc_fuel : nat).

Abbreviation kern := (kern (D := D) (A := A)).

(** What [kernel_main] has set up when interrupts are enabled: the kernel task alone,
    no pipes, no write buffers, nobody in the middle of a call. *)
Definition booted (k : kern) : Prop :=
  (exists dir top, process_init kernel_task_addr dir top bss = Some (tt, k_sched k))
  /\ k_pipes k = ∅ /\ k_wbufs k = ∅ /\ k_pending k = ∅.

(** A run in which there is always room for one more process in the 32-bit address
    space (a process takes more than 32 bytes). *)
Inductive runs : kern -> kern -> Prop :=
| runs_refl k : runs k k
| runs_step k0 k k' : runs k0 k -> small k -> kstep cmos rtc_fuel k k' -> runs k0 k'.

Lemma kstep_kinv (k k' : kern) : length junk_fds = MAX_FDS -> kinv k -> pid0 k -> small k -> kstep cmos rtc_fuel k k' -> kinv k'.
Proof.
  intros Hj Hi Hp Hs Hst.
  assert (forall k : kern, kinv k -> current_process (k_sched k) <> kernel_task_addr ->
    k_pending k !! current_process (k_sched k) = None -> running (current_process (k_sched k)) k) as Hrun
    by (intros k0 (H1 & H2 & _) H3 H4; done).
  destruct Hst as [k regs r k' Hc Hn E|k c r k' Hc E|k m Hn Hm|k a b c d k' Hc Hn E|k k' Hc Hn E|k k' Hint E|k sc k' Hint E
    |k e c e' k' Hint E|k e pid fg e' k' Hint E|k r k' Hint E].
  - eapply handler_kinv; [exact Hj|exact Hs|exact Hp|by apply Hrun|exact E].
  - destruct c; try (by eapply resume_kinv). by eapply reap_next_kinv.
  - destruct Hi as ((Q & dead & Hinv) & Ht & Hcur). split; [|split; done]. exists Q, dead. by apply (inv_calm k).
  - pose proof (Hrun k Hi Hc Hn) as Hr. revert E. cut (leaves (current_process (k_sched k)) (isr_handler (D := D) (A := A) a b c d));
      [intros Hl E; by eapply Hl|]. unfold isr_handler. run_auto. apply leaves_exit.
  - by eapply reap_kinv.
  - by eapply timer_kinv.
  - by eapply key_kinv.
  - by eapply shell_kinv.
  - apply calm_exit in E as Hc. pose proof Hi as ((Q & dead & Hinv) & _). pose proof Hc as ((Hs1 & HN1) & _).
    eapply kinv_same; [exact Hi|done|by eapply inv_calm|done|by rewrite Hs1].
  - by eapply ush_kinv.
Qed.

Lemma process_init_procs k dir top s : k <> 0 -> process_init k dir top bss = Some (tt, s) ->
  procs s = {[k := set_state PROCESS_RUNNING (set_next k (set_state PROCESS_READY (kernel_task dir top)))]}.
Proof.
  intros Hk H. apply bind_inv in H as ([] & s1 & [= <-] & H). apply bind_inv in H as ([] & s2 & H2 & H).
  unfold scheduler_add in H2. destruct (Z.eqb_spec k 0); [done|].
  erewrite bind_ok in H2; [|apply store_ok; apply lookup_insert_eq].
  apply bind_inv in H2 as (rq & s3 & [= <- <-] & H2). change (ready_queue _ =? 0) with true in H2.
  apply bind_inv in H2 as ([] & s4 & H4 & H2). erewrite store_ok in H4; [|apply lookup_insert_eq]. injection H4 as <-. injection H2 as <-.
  erewrite store_ok in H; [|apply lookup_insert_eq]. injection H as <-. cbn [procs set_procs set_ready].
  rewrite !insert_insert_eq. done.
Qed.

Lemma booted_kinv (k : kern) : kernel_task_addr <> 0 -> booted k -> kinv k /\ pid0 k.
Proof.
  intros Hk0 ((dir & top & E) & HP & HW & HN). pose proof (process_init_procs _ _ _ _ Hk0 E) as Hprocs.
  destruct (process_init_ok kernel_task_addr dir top Hk0) as (s & E' & Hok). rewrite E in E'. injection E' as <-.
  set (r := set_state PROCESS_RUNNING _) in Hprocs.
  assert (forall q, procs (k_sched k) !! q = if decide (kernel_task_addr = q) then Some r else None) as Hq.
  { intros q. rewrite Hprocs. destruct (decide _) as [->|]; [apply lookup_singleton_eq|by apply lookup_singleton_ne]. }
  split; [split; [|split]|].
  - exists [kernel_task_addr], []. unfold reap_ptr. rewrite HN, lookup_empty. split; [split|].
    + exists [kernel_task_addr], [], []. done.
    + rewrite Hq. by rewrite decide_False.
    + apply NoDup_singleton.
    + done.
    + intros p Hp. by apply not_elem_of_nil in Hp.
    + rewrite HP. intros p pi Hp. by rewrite lookup_empty in Hp.
    + rewrite HN. intros q l st rs _ _. by rewrite lookup_empty.
    + rewrite HN. intros q Hx. rewrite lookup_empty in Hx. by destruct Hx.
    + assert (forall t, (forall i f, p_fds r !! i = Some f -> t f = false) -> total t (fdm (k_sched k)) [] = 0) as Htot.
      { intros t Ht. unfold total, fdm, refs. rewrite Hprocs, map_fmap_singleton, map_fold_singleton.
        rewrite (count_zero t (p_fds r) Ht). done. }
      assert (forall i f, p_fds r !! i = Some f -> no_wbuf f /\ no_end f) as Hin by (intros i f; apply std_inert).
      split.
      * unfold fdm. rewrite Hprocs, map_fmap_singleton. by apply map_Forall_singleton.
      * unfold fdm. rewrite Hprocs, map_fmap_singleton. by rewrite map_size_singleton.
      * intros p. rewrite HP, lookup_empty. split; apply Htot; intros i f Hi; destruct (Hin i f Hi);
          auto using no_end_reads, no_end_writes.
      * intros w. rewrite HW, lookup_empty. apply Htot; intros i f Hi; destruct (Hin i f Hi); auto using no_wbuf_buffers.
  - unfold tasks_ok. rewrite HN. split; [left; apply lookup_empty|]. intros q l. by rewrite lookup_empty.
  - intros l _. by rewrite HN, lookup_empty.
  - unfold pid0. rewrite Hq. by rewrite decide_True.
Qed.

Context (Hjunk : length junk_fds = MAX_FDS) (Hkt : kernel_task_addr <> 0).

Lemma runs_kinv k0 k : booted k0 -> runs k0 k -> kinv k /\ pid0 k.
Proof.
  intros Hb. induction 1 as [k|k0 k k' _ IH Hs Hst]; [by apply booted_kinv|]. destruct (IH Hb) as [Hi Hp].
  split; [by eapply kstep_kinv|]. by eapply steady_step.
Qed.

(** ** Guarantees in every reachable state *)

Context (k0 k : kern) (Hboot : booted k0) (Hruns : runs k0 k).

(** C1: In every state a run from boot reaches, the two counters of a pipe are exactly
    the numbers of descriptors, over all processes, that are open on its reading and
    on its writing end, at least one is, and the count of a write buffer is the number
    of descriptors that write to it. *)
Theorem kernel_reference_counts :
  (forall p pi, k_pipes k !! p = Some pi ->
     read_open pi = refs (reads p) (fdm (k_sched k)) /\ write_open pi = refs (writes p) (fdm (k_sched k))
     /\ 0 < read_open pi + write_open pi)
  /\ (forall w b, k_wbufs k !! w = Some b ->
     w_refcount b = refs (buffers w) (fdm (k_sched k)) /\ 0 < w_refcount b).
Proof.
  destruct (runs_kinv k0 k Hboot Hruns) as [((Q & dead & [_ Hres]) & _) _]. split.
  - intros p pi Hp. pose proof (ro_pipe _ _ _ _ Hres p) as H. rewrite Hp in H. unfold total in H. simpl in H.
    destruct H as (_ & _ & H1 & H2 & H3). lia.
  - intros w b Hw. pose proof (ro_wbuf _ _ _ _ Hres w) as H. rewrite Hw in H. unfold total in H. simpl in H. lia.
Qed.

(** C9: No descriptor of any process dangles: a pipe end that is open in some table
    refers to a pipe that exists and counts it, a file open for writing to a write
    buffer that exists. *)
Theorem kernel_no_dangling q r i f :
  procs (k_sched k) !! q = Some r -> p_fds r !! i = Some f ->
  (fd_kind f = FD_PIPE_READ -> exists pi, k_pipes k !! fd_pipe f = Some pi /\ 0 < read_open pi)
  /\ (fd_kind f = FD_PIPE_WRITE -> exists pi, k_pipes k !! fd_pipe f = Some pi /\ 0 < write_open pi)
  /\ (fd_kind f = FD_FILE -> fd_writable f <> 0 -> exists b, k_wbufs k !! fd_wbuf f = Some b /\ 0 < w_refcount b).
Proof.
  intros Hq Hi. destruct (runs_kinv k0 k Hboot Hruns) as [((Q & dead & [_ Hres]) & _) _].
  pose proof (fdm_lookup _ _ _ Hq) as Hl. destruct (table_live _ _ _ _ _ _ _ _ Hres Hl Hi) as [HP HW].
  split_and!.
  - intros Hk. destruct (HP (or_introl Hk)) as [pi Hpi]. exists pi. split; [done|].
    pose proof (ro_pipe _ _ _ _ Hres (fd_pipe f)) as H. rewrite Hpi in H. destruct H as (_ & _ & -> & _).
    eapply total_pos_table; [done..|by apply reads_self].
  - intros Hk. destruct (HP (or_intror Hk)) as [pi Hpi]. exists pi. split; [done|].
    pose proof (ro_pipe _ _ _ _ Hres (fd_pipe f)) as H. rewrite Hpi in H. destruct H as (_ & _ & _ & -> & _).
    eapply total_pos_table; [done..|by apply writes_self].
  - intros Hk Hw. destruct (HW Hk Hw) as [b Hb]. exists b. split; [done|].
    pose proof (ro_wbuf _ _ _ _ Hres (fd_wbuf f)) as H. rewrite Hb in H. lia.
Qed.


(** C12: The scheduler's queues are well formed in every reachable state: the running
    process heads the ring, the kernel task (pid 0) is in it and can always run,
    everybody behind it is ready, every blocked process is in the blocked list; and
    none of them is in the list of dead processes that the reaper is freeing. *)
Theorem kernel_queues : exists ring blk zom dead,
  sched_ok kernel_task_addr (k_sched k) ring blk zom /\ kernel_task_addr ∈ ring
  /\ p_pid <$> procs (k_sched k) !! kernel_task_addr = Some 0
  /\ seg (procs (k_sched k)) (reap_ptr k) dead 0 /\ NoDup ((ring ++ blk ++ zom) ++ dead)
  /\ forall q, q ∈ dead -> stat (procs (k_sched k)) q = Some PROCESS_DEAD.
Proof.
  destruct (runs_kinv k0 k Hboot Hruns) as [((Q & dead & [Hk _]) & _) Hp0]. destruct Hk as [(ring & blk & zom & Hok & HQ) K2 K3 K4 K5 _ _ _].
  exists ring, blk, zom, dead. split; [done|]. split; [apply (si_kin _ _ _ _ _ (proj1 Hok))|]. split; [done|]. split; [done|].
  split; [by rewrite <- HQ|done].
Qed.

End Runs.
(** ** A concrete run *)

Module Run.

Import KernDemo.

Abbreviation druns := (runs (D := RamDisk.disk) (fun _ _ => 0) 0%nat).

Lemma goes_after {X} (m : st dkern X) k : goes m k = true -> exists x, m k = Some (x, after m k).
Proof. unfold goes, after. destruct (m k) as [[x k']|]; [eauto|done]. Qed.

Definition small_b (k : dkern) : bool := Z.of_nat (size (procs (k_sched k))) + 1 <? 134217728.
Definition interruptible_b (k : dkern) : bool :=
  match k_pending k !! current_process (k_sched k) with None | Some (RSleep _ _) | Some (RReap _) => true | _ => false end.
Definition user_b (k : dkern) : bool :=
  negb (current_process (k_sched k) =? kernel_task_addr)
  && match k_pending k !! current_process (k_sched k) with None => true | _ => false end.

Lemma small_true k : small_b k = true -> small k.
Proof. intros H. by apply Z.ltb_lt in H. Qed.
Lemma interruptible_true k : interruptible_b k = true -> interruptible k.
Proof. unfold interruptible_b, interruptible. by destruct (k_pending k !! current_process (k_sched k)) as [[]|]. Qed.

Lemma call_run k0 k regs : druns k0 k -> small_b k && user_b k && goes (call regs) k = true -> druns k0 (after (call regs) k).
Proof.
  intros Hr H. apply andb_true_iff in H as [H H3]. apply andb_true_iff in H as [H1 H2]. unfold user_b in H2.
  apply andb_true_iff in H2 as [H2 H4]. destruct (goes_after _ _ H3) as (x & E).
  eapply runs_step; [exact Hr|by apply small_true|]. eapply ks_call; [| |exact E].
  - intros Hc. by rewrite Hc, Z.eqb_refl in H2.
  - by destruct (k_pending k !! current_process (k_sched k)).
Qed.

Fixpoint ticks_b (n : nat) (k : dkern) : bool :=
  match n with O => true | S n => small_b k && interruptible_b k && goes timer_irq k && ticks_b n (after timer_irq k) end.
Lemma ticks_run n k0 k : druns k0 k -> ticks_b n k = true -> druns k0 (ticked n k).
Proof.
  revert k. induction n as [|n IH]; intros k Hr H; [done|]. cbn [ticks_b] in H.
  apply andb_true_iff in H as [H H4]. apply andb_true_iff in H as [H H3]. apply andb_true_iff in H as [H1 H2].
  destruct (goes_after _ _ H3) as ([] & E). simpl. apply IH; [|done].
  eapply runs_step; [exact Hr|by apply small_true|]. apply ks_timer; [by apply interruptible_true|exact E].
Qed.

Lemma enter_run k0 k : druns k0 k -> small_b k && interruptible_b k && goes press_enter k = true -> druns k0 (after press_enter k).
Proof.
  intros Hr H. apply andb_true_iff in H as [H H3]. apply andb_true_iff in H as [H1 H2]. destruct (goes_after _ _ H3) as (x & E).
  eapply runs_step; [exact Hr|by apply small_true|]. unfold press_enter in E.
  destruct (ShellEdit.shell_handle_char 10 (command_line, k)) as [[[] [e' k']]|] eqn:Es; [|done].
  injection E as _ Ek. rewrite Ek in Es. eapply ks_shell; [by apply interruptible_true|exact Es].
Qed.

Lemma demo_booted : booted demo_boot.
Proof. split; [|done]. exists 0xC0101000, 0xC0300000. vm_compute. reflexivity. Qed.

Lemma demo_run : druns demo_boot asleep.
Proof.
  apply call_run; [|vm_compute; reflexivity]. apply call_run; [|vm_compute; reflexivity].
  apply call_run; [|vm_compute; reflexivity]. apply ticks_run; [|vm_compute; reflexivity].
  apply enter_run; [apply runs_refl|vm_compute; reflexivity].
Qed.

(** The state of [KernDemo.asleep], as far as the theorems need it. *)
Lemma demo_state : exists k0 k, booted k0 /\ druns k0 k
  /\ (exists pi, k_pipes k !! 4 = Some pi /\ (read_open pi, write_open pi, blocked_reader pi) = (2, 2, 2))
  /\ (exists r f, procs (k_sched k) !! 2 = Some r /\ p_fds r !! 3%nat = Some f /\ (fd_kind f, fd_pipe f) = (FD_PIPE_READ, 4)).
Proof.
  exists demo_boot, asleep. split; [exact demo_booted|]. split; [exact demo_run|]. split.
  - destruct (fmap_Some_1 _ _ _ demo_pipe) as (pi & H1 & H2). exists pi. split; [exact H1|]. symmetry. exact H2.
  - destruct (bind_Some (fun r => (fun f => (fd_kind f, fd_pipe f)) <$> p_fds r !! 3%nat) (procs (k_sched asleep) !! 2) (FD_PIPE_READ, 4))
      as [H _]. destruct (H demo_fd) as (r & H1 & H2). destruct (fmap_Some_1 _ _ _ H2) as (f & H3 & H4).
    exists r, f. split; [exact H1|]. split; [exact H3|]. symmetry. exact H4.
Qed.

End Run.

Lemma kernel_reference_counts_witness : exists k0 k, booted k0 /\ Run.druns k0 k
  /\ refs (reads 4) (fdm (k_sched k)) = 2.
Proof.
  destruct Run.demo_state as (k0 & k & Hb & Hr & (pi & Hpi & E) & _). exists k0, k. split; [exact Hb|]. split; [exact Hr|].
  destruct (kernel_reference_counts (M := KernDemo.demo_machine) _ _ eq_refl ltac:(done) k0 k Hb Hr) as [H _].
  destruct (H 4 pi Hpi) as (H1 & _). rewrite <- H1. by injection E.
Defined.

Lemma kernel_no_dangling_witness : exists k r f pi, procs (k_sched (D := RamDisk.disk) (A := BumpHeap.bump * Pmm.pmm_state) k) !! 2 = Some r
  /\ p_fds r !! 3%nat = Some f /\ fd_kind f = FD_PIPE_READ /\ k_pipes k !! fd_pipe f = Some pi.
Proof.
  destruct Run.demo_state as (k0 & k & Hb & Hr & _ & (r & f & H1 & H2 & E)). assert (fd_kind f = FD_PIPE_READ) as Hk by congruence.
  destruct (kernel_no_dangling (M := KernDemo.demo_machine) _ _ eq_refl ltac:(done) k0 k Hb Hr 2 r 3 f H1 H2) as [H _].
  destruct (H Hk) as (pi & Hpi & _). exists k, r, f, pi. done.
Defined.


Lemma kernel_queues_witness : exists k ring blk zom,
  sched_ok kernel_task_addr (k_sched (D := RamDisk.disk) (A := BumpHeap.bump * Pmm.pmm_state) k) ring blk zom.
Proof.
  destruct Run.demo_state as (k0 & k & Hb & Hr & _).
  destruct (kernel_queues (M := KernDemo.demo_machine) _ _ eq_refl ltac:(done) k0 k Hb Hr) as (ring & blk & zom & dead & H & _).
  exists k, ring, blk, zom. exact H.
Defined.

End KernProps.
