(* ===== verification/FileCalls.v ===== *)
(** * Reading files through descriptors

    [file_read] and [sys_lseek] of kernel/syscall.c on a mounted FAT32 volume: an open
    descriptor is a position in an array of bytes, whatever the cached cluster and
    offset in it are. *)

From S2P Require Import Prelude Pmm Heap Disk Fat32Names Fat32 Fat32Table Fat32Files Fat32Dirs Fat32Lookup Fat32Remove Fat32Spec Sched SchedProps Pipe Paging PagingProps Elf Vfs Drivers Kern Syscall UserMem CallSpecs KernDemo.

Module FileCalls.

Import Proc Sched SchedProps Pipe Paging Names Fat32 Table Files Dirs Lookup Remove Spec Vfs Kern Syscall UserMem CallSpecs KernDemo.

Section FileCalls.
Context {D A : Type} `{BD : BlockDev D} `{KH : KernelHeap A} `{PS : PageShare A}.
Context `{L : Layout} `{M : Machine}.
Context (g : geom) (Hg : geom_ok g).

Abbreviation kern := (kern (D := D) (A := A)).
#[local] Abbreviation fs := (@Fat32.fs D A).
#[local] Abbreviation cb := (cluster_bytes g).

(** ** Calls that reach the volume only *)

Lemma on_fs_ok {X} (m : st fs X) (k : kern) x s : m (k_fs k) = Some (x, s) -> on_fs m k = Some (x, set_fs s k).
Proof. intros E. unfold on_fs. by rewrite E. Qed.

Lemma on_vfs_ok {X} (m : option (vfs_ops fs) -> st fs X) (k : kern) o x s : k_vfs k = o -> m o (k_fs k) = Some (x, s) ->
  on_vfs m k = Some (x, set_fs s k).
Proof. intros <- E. unfold on_vfs. by apply on_fs_ok. Qed.

Lemma set_fs_twice s s' (k : kern) : set_fs s' (set_fs s k) = set_fs s' k.
Proof. done. Qed.

Lemma set_fs_same (k : kern) : set_fs (k_fs k) k = k.
Proof. by destruct k. Qed.

(** The volume is mounted and holds the tables [F] and clusters [B]; the heap's
    allocations are [H]. *)
Record volume (k : kern) (F : Z -> Z) (B : Z -> Z -> Z) (H : list Z) : Prop := {
  vl_mounted : k_vfs k = Some (fat32_vfs_ops g);
  vl_repr : repr g (k_fs k) F B;
  vl_heap : kh_ok (mem (k_fs k)) H }.

(** ** Files as arrays *)

(** The clusters [l] from [cl] on hold the [n] bytes [f]. *)
Record stream (F : Z -> Z) (B : Z -> Z -> Z) (cl : Z) (l : list Z) (n : Z) (f : Z -> Z) : Prop := {
  sm_chain : cl < 2 /\ l = [] \/ chain g F cl l;
  sm_size : 0 <= n < 4294967296;
  sm_fits : n <= Z.of_nat (length l) * cb;
  sm_bytes : forall x, 0 <= x < n -> contents g B l x = f x }.

(** A name leads to a stream. *)
Lemma file_on_stream F B dir name l n f : file_on g F B dir name l n f ->
  exists i lf, dir_scan g B dir want_file name = Some (SHit i lf)
  /\ (let e := entry (contents g B dir) i in read32 e 28 = n /\ stream F B (entry_cluster e) l n f).
Proof.
  intros (i & lf & E & [Hn Ho] & Hle & _ & Hf). exists i, lf. split; [done|]. split; [done|]. split; try done.
  rewrite <- Hn. apply read32_u32.
Qed.

(** The descriptor stands at [pos]: while there are bytes left, the cached cluster and
    offset are those of the position. *)
Record fd_at (F : Z -> Z) (B : Z -> Z -> Z) (d : file_desc) (l : list Z) (n : Z) (f : Z -> Z) (pos : Z) : Prop := {
  fa_kind : fd_kind d = FD_FILE;
  fa_read : fd_writable d = 0;
  fa_size : fd_size d = n;
  fa_pos : fd_pos d = pos;
  fa_nonneg : 0 <= pos < 4294967296;
  fa_stream : stream F B (fd_first_cluster d) l n f;
  fa_cur : pos < n -> fd_cur_cluster d = ch l (pos / cb) /\ fd_cluster_offset d = pos mod cb }.

(** [n] bytes of the array from [pos] on. *)
Definition slice (f : Z -> Z) (pos n : Z) : list Z := take_bytes (fun i => f (pos + i)) n.

Lemma take_bytes_app h a b : 0 <= a -> 0 <= b -> take_bytes h (a + b) = take_bytes h a ++ take_bytes (fun i => h (a + i)) b.
Proof.
  intros Ha Hb. unfold take_bytes. rewrite Z2Nat.inj_add, seq_app, map_app by done. f_equal.
  change (map ?f ?l) with (f <$> l). rewrite Nat.add_0_l. replace (seq (Z.to_nat a) (Z.to_nat b)) with (Nat.add (Z.to_nat a) <$> seq 0 (Z.to_nat b)) by (rewrite fmap_add_seq; f_equal; lia).
  rewrite <- list_fmap_compose.
  apply list_fmap_ext. intros i j _. simpl. f_equal. lia.
Qed.

Lemma take_bytes_ext h h' n : (forall i, 0 <= i < n -> h i = h' i) -> take_bytes h n = take_bytes h' n.
Proof. intros H. unfold take_bytes. apply map_ext_in. intros i [_ Hi]%in_seq. apply H. lia. Qed.

Lemma take_bytes_length h n : length (take_bytes h n) = Z.to_nat n.
Proof. unfold take_bytes. by rewrite length_map, length_seq. Qed.

Lemma slice_app f pos a b : 0 <= a -> 0 <= b -> slice f pos (a + b) = slice f pos a ++ slice f (pos + a) b.
Proof.
  intros Ha Hb. unfold slice. rewrite take_bytes_app by done. f_equal. apply take_bytes_ext. intros. f_equal. lia.
Qed.

(** The clusters of a stream. *)
Lemma stream_cluster F B cl l n f pos : stream F B cl l n f -> 0 <= pos < n ->
  l !! Z.to_nat (pos / cb) = Some (ch l (pos / cb)) /\ valid g (ch l (pos / cb)).
Proof.
  intros [Hc Hn Hfit _] Hp. pose proof (cb_range g Hg). assert (0 <= pos / cb) by (apply Z.div_pos; lia).
  assert (pos / cb < Z.of_nat (length l)) by (apply Z.div_lt_upper_bound; lia).
  pose proof (ch_elem l (pos / cb) ltac:(lia)) as E. split; [exact E|].
  destruct Hc as [[_ ->]|Hc]; [done|]. pose proof (chain_valid g F cl l Hc) as Hv. rewrite Forall_lookup in Hv. eauto.
Qed.

Lemma set_position_at F B d l n f pos cur off pos' : fd_at F B d l n f pos -> 0 <= pos' < 4294967296 ->
  (pos' < n -> cur = ch l (pos' / cb) /\ off = pos' mod cb) -> fd_at F B (set_position d cur off pos') l n f pos'.
Proof. intros [] Hp Hc. by split. Qed.

(** How far a read of [len] bytes at [pos] gets in a file of [n] bytes. *)
Definition readable (n pos len : Z) : Z := Z.min len (Z.max 0 (n - pos)).

(** The end of a round: the cached cluster moves on when the current one is used up. *)
Lemma next_position_ok F B cl l n f pos j (k : kern) :
  k_vfs k = Some (fat32_vfs_ops g) -> repr g (k_fs k) F B -> stream F B cl l n f -> 0 <= pos < n -> 0 <= j <= cb - pos mod cb ->
  let c := ch l (pos / cb) in let off := pos mod cb in
  exists cur' off' s', (if cb <=? off + j then let* c := on_vfs (fun g => vfs_next_cluster g c) in ret (c, 0) else ret (c, off + j)) k
    = Some ((cur', off'), set_fs s' k) /\ repr g s' F B /\ rest_eq (k_fs k) s'
  /\ (pos + j < n -> cur' = ch l ((pos + j) / cb) /\ off' = (pos + j) mod cb).
Proof.
  intros Hm Hr Hst Hp Hj c off. pose proof (cb_range g Hg) as Hcb. destruct (stream_cluster F B _ l n f pos Hst Hp) as [Hlk Hv]. fold c in Hlk, Hv.
  assert (pos = pos / cb * cb + off) as Hpd by (subst off; pose proof (Z.div_mod pos cb ltac:(lia)); lia).
  pose proof (Z.mod_pos_bound pos cb ltac:(lia)) as Hoff. fold off in Hoff, Hj. assert (0 <= pos / cb) by (apply Z.div_pos; lia).
  destruct (Z.leb_spec cb (off + j)) as [Hge|Hlt].
  - destruct (fat_next_ok g Hg (k_fs k) F B c Hr (valid_table g c Hv)) as (s2 & E2 & Hr2 & Hrest2).
    exists (next_of F c), 0, s2. rewrite (bind_ok _ _ _ _ _ (on_vfs_ok (fun o => vfs_next_cluster o c) k _ _ _ Hm E2)).
    split; [done|]. split; [done|]. split; [done|]. intros Hlt. assert (pos + j = (pos / cb + 1) * cb) as Hpj by lia.
    destruct (stream_cluster F B _ l n f (pos + j) Hst ltac:(lia)) as [Hlk2 _].
    rewrite Hpj, Z.div_mul, Z.mod_mul in * by lia. split; [|done].
    destruct (sm_chain _ _ _ _ _ _ Hst) as [[_ ->]|Hch]; [done|]. pose proof (chain_step g F _ l _ c Hch Hlk) as Hstep.
    replace (Z.to_nat (pos / cb + 1)) with (S (Z.to_nat (pos / cb))) in Hlk2 by lia. by rewrite Hlk2 in Hstep.
  - exists c, (off + j), (k_fs k). rewrite set_fs_same. split; [done|]. split; [done|]. split; [done|]. intros _.
    rewrite <- (Z.div_unique (pos + j) cb (pos / cb) (off + j)), <- (Z.mod_unique (pos + j) cb (pos / cb) (off + j)) by lia. done.
Qed.

(** ** The copy loop of [file_read] *)

Lemma file_read_loop_ok F B l n f len : is_u32 len -> forall (fuel : nat) got d pos out (k : kern),
  k_vfs k = Some (fat32_vfs_ops g) -> repr g (k_fs k) F B -> fd_at F B d l n f pos -> 0 <= got <= len ->
  let w := readable n pos (len - got) in
  (0 < w -> pos mod cb + w <= Z.of_nat fuel * cb) ->
  exists d' s', file_read_loop fuel cb len got d out k = Some ((d', out ++ slice f pos w), set_fs s' k)
  /\ repr g s' F B /\ rest_eq (k_fs k) s' /\ fd_at F B d' l n f (pos + w).
Proof.
  intros Hlen. pose proof (cb_range g Hg) as Hcb. induction fuel as [|fuel IH]; intros got d pos out k Hm Hr Hd Hgot w Hfuel;
    pose proof Hd as [Hk Hw Hs Hp Hp0 Hst Hcur]; pose proof (sm_size _ _ _ _ _ _ Hst) as Hn; cbn [file_read_loop]; rewrite Hp, Hs;
    (destruct (decide (0 < w)) as [Hw0|Hw0];
     [|assert (w = 0) as Hwz by (unfold w, readable in *; lia);
       (assert ((got <? len) && (pos <? n) = false) as -> by (unfold w, readable in *; zspec; simpl; done || lia));
       exists d, (k_fs k); rewrite Hwz, app_nil_r, set_fs_same, Z.add_0_r; by split_and!]).
  { pose proof (Z.mod_pos_bound pos cb ltac:(lia)). specialize (Hfuel Hw0). lia. }
  assert (got < len /\ pos < n /\ w <= len - got /\ w <= n - pos /\ (w = len - got \/ w = n - pos)) as (Hgl & Hpn & Hw1 & Hw2 & Hw3)
    by (unfold w, readable in *; lia).
  destruct (Hcur Hpn) as [Ec Eo]. destruct (stream_cluster F B _ l n f pos Hst ltac:(lia)) as [Hlk Hv].
  set (c := ch l (pos / cb)) in *. rewrite Ec, Eo. pose proof (valid_in_chain g Hg c Hv) as Hin. unfold in_chain in Hin.
  change FAT32_EOC with VFS_CLUSTER_EOC in Hin. destruct (Z.ltb_spec got len); [|lia]. destruct (Z.ltb_spec pos n); [|lia]. cbn [andb].
  rewrite Hin. cbv iota.
  destruct (read_cluster_ok g Hg (k_fs k) F B c Hr Hv) as (b & s1 & E1 & Hb & Hr1 & Hrest1).
  rewrite (bind_ok _ _ _ _ _ (on_vfs_ok (fun o => vfs_read_cluster o c) k _ _ _ Hm E1)).
  pose proof (Z.mod_pos_bound pos cb ltac:(lia)) as Hoff. set (off := pos mod cb) in *. specialize (Hfuel Hw0).
  rewrite (u32_small (cb - off)), (u32_small (n - pos)), (u32_small (len - got)) by (unfold is_u32 in *; lia). cbv zeta.
  set (m := if cb - off <? len - got then cb - off else len - got).
  set (j := if n - pos <? m then n - pos else m).
  assert (j = Z.min w (cb - off)) as Hj by (clear - Hw1 Hw2 Hw3 Hoff; clearbody w off; subst j m; destruct (Z.ltb_spec (cb - off) (len - got)); zcase; lia). clearbody j. subst m.
  rewrite (u32_small (pos + j)), (u32_small (off + j)), (u32_small (got + j)) by (unfold is_u32 in *; lia).
  destruct (next_position_ok F B _ l n f pos j (set_fs s1 k) Hm Hr1 Hst ltac:(lia) ltac:(fold off; lia)) as (cur' & off' & s2 & E2 & Hr2 & Hrest2 & Hcur'). fold off c in E2. rewrite (bind_ok _ _ _ _ _ E2).
  rewrite set_fs_twice. set (k2 := set_fs s2 k). cbn [fst snd].
  assert (fd_at F B (set_position d cur' off' (pos + j)) l n f (pos + j)) as Hd2 by (eapply set_position_at; [exact Hd|lia|exact Hcur']).
  assert (readable n (pos + j) (len - (got + j)) = w - j) as Hw' by (unfold readable; lia).
  destruct (IH (got + j) _ (pos + j) (out ++ take_bytes (fun i => b (off + i)) j) k2 Hm Hr2 Hd2) as (d' & s' & E' & Hr' & Hrest' & Hd'); [lia| |].
  { rewrite Hw'. intros Hlt. assert (j = cb - off) by lia. pose proof (Z.div_mod pos cb ltac:(lia)). replace (pos + j) with ((pos / cb + 1) * cb) by lia. rewrite Z.mod_mul by lia. lia. }
  rewrite Hw' in E', Hd'. exists d', s'. split; [|split; [done|split; [by do 2 (eapply rest_eq_trans; [eassumption|])|by replace (pos + w) with (pos + j + (w - j)) by lia]]].
  rewrite E'. unfold k2. rewrite set_fs_twice. do 3 f_equal. rewrite <- app_assoc. f_equal.
  replace (slice f pos w) with (slice f pos (j + (w - j))) by (f_equal; lia). rewrite slice_app by lia. f_equal.
  assert (pos = pos / cb * cb + off) as Hpd by (subst off; pose proof (Z.div_mod pos cb ltac:(lia)); lia).
  apply take_bytes_ext. intros i Hi. rewrite Hb by lia. rewrite <- (sm_bytes _ _ _ _ _ _ Hst) by lia. unfold contents.
  assert ((pos + i) / cb = pos / cb) as -> by (symmetry; apply (Z.div_unique _ _ _ (off + i)); lia).
  assert ((pos + i) mod cb = off + i) as -> by (symmetry; apply (Z.mod_unique _ _ (pos / cb)); lia). done.
Qed.

(** ** [file_read] and [do_fd_read] *)

(** The running process. *)
Record task (k : kern) (me : Z) (r : process) : Prop := {
  tk_me : current_process (k_sched k) = me;
  tk_nonzero : me <> 0;
  tk_proc : procs (k_sched k) !! me = Some r;
  tk_fds : length (p_fds r) = MAX_FDS }.

(** Descriptor [i] of the process replaced. *)
Definition put_fd (me : Z) (r : process) (i : nat) (d : file_desc) (k : kern) : kern :=
  set_sched (set_procs (<[me := set_fds (<[i := d]> (p_fds r)) r]> (procs (k_sched k))) (k_sched k)) k.

Lemma put_fd_same (k : kern) me r i d : procs (k_sched k) !! me = Some r -> p_fds r !! i = Some d -> put_fd me r i d k = k.
Proof.
  intros Hr Hi. unfold put_fd. rewrite (list_insert_id _ _ _ Hi). assert (set_fds (p_fds r) r = r) as -> by (by destruct r).
  rewrite insert_id by done. destruct k as [[] ? ? ? ? ? ? ? ? ? ? ? ?]. done.
Qed.

Lemma task_sched (k k' : kern) me r : k_sched k' = k_sched k -> task k me r -> task k' me r.
Proof. intros E []. by split; rewrite ?E. Qed.

Lemma task_put_fd (k : kern) me r i d : task k me r -> task (put_fd me r i d k) me (set_fds (<[i := d]> (p_fds r)) r).
Proof.
  intros [H1 H2 H3 H4]. split; [done|done|apply lookup_insert_eq|]. simpl. by rewrite length_insert.
Qed.

Lemma current_ok (k : kern) me r : task k me r -> current k = Some (me, k).
Proof. intros Ht. unfold current, on_sched, gets. rewrite (tk_me _ _ _ Ht). by destruct k. Qed.

Lemma fd_load_ok (k : kern) me r i d : procs (k_sched k) !! me = Some r -> p_fds r !! i = Some d -> fd_load me i k = Some (d, k).
Proof. intros Hr Hi. unfold fd_load. rewrite (bind_ok _ _ _ _ _ (proc_load_at k me r Hr)). unfold lift_opt. by rewrite Hi. Qed.

Lemma fd_store_ok (k : kern) me r i d : procs (k_sched k) !! me = Some r -> fd_store me i d k = Some (tt, put_fd me r i d k).
Proof. intros Hr. exact (proc_store_at k me r _ Hr). Qed.

Lemma lookup_fd_ok (k : kern) me r i d : task k me r -> p_fds r !! i = Some d -> fd_kind d <> FD_NONE ->
  lookup_fd (Z.of_nat i) k = Some (Some (me, d), k).
Proof.
  intros Ht Hi Hd. unfold lookup_fd. rewrite (bind_ok _ _ _ _ _ (current_ok _ _ _ Ht)).
  pose proof (tk_nonzero _ _ _ Ht) as H0. pose proof (lookup_lt_Some _ _ _ Hi) as Hlt. rewrite (tk_fds _ _ _ Ht) in Hlt.
  assert ((me =? 0) || (Z.of_nat i <? 0) || (Z.of_nat MAX_FDS <=? Z.of_nat i) = false) as -> by (zspec; simpl; done || lia).
  rewrite Nat2Z.id. rewrite (bind_ok _ _ _ _ _ (fd_load_ok k me r i d (tk_proc _ _ _ Ht) Hi)).
  apply Z.eqb_neq in Hd. by rewrite Hd.
Qed.

Lemma slice_length f pos n : length (slice f pos n) = Z.to_nat n.
Proof. apply take_bytes_length. Qed.

(** One read at kernel level: the bytes at the position are stored in the buffer and the
    position moves behind them; only lack of memory makes it fail. *)
Lemma file_read_ok F B H (k : kern) me r i d l n f pos buf len :
  volume k F B H -> task k me r -> p_fds r !! i = Some d -> fd_at F B d l n f pos -> is_u32 len ->
  let w := readable n pos len in buffer k buf (Z.to_nat w) ->
  exists v m s d', file_read me i buf len k = Some (v, put_fd me r i d' (with_phys m (set_fs s k)))
  /\ repr g s F B /\ place_eq (k_fs k) s /\ heap_step H H (k_fs k) s
  /\ (v = w /\ stored k buf (slice f pos w) m /\ fd_at F B d' l n f (pos + w)
      \/ v = -1 /\ ~ kh_rich (mem (k_fs k)) /\ m = phys (k_vm k) /\ d' = d).
Proof.
  intros [Hm Hr Hh] Ht Hi Hd Hlen w Hb. pose proof (cb_range g Hg) as Hcb. unfold file_read.
  rewrite (bind_ok _ _ _ _ _ (fd_load_ok k me r i d (tk_proc _ _ _ Ht) Hi)), (fa_read _ _ _ _ _ _ _ Hd). cbn [negb Z.eqb].
  assert (on_vfs vfs_cluster_size k = Some (cb, k)) as E0 by (rewrite (on_vfs_ok _ k _ cb (k_fs k) Hm); [by rewrite set_fs_same|done]).
  rewrite (bind_ok _ _ _ _ _ E0).
  destruct (kmalloc_ok g (k_fs k) F B H cb Hh Hr) as (p & s1 & E1 & Hpl1 & Hr1 & Hc1); [lia|].
  rewrite (bind_ok _ _ _ _ _ (on_fs_ok _ k _ _ E1)). destruct (Z.eqb_spec p 0) as [->|Hp].
  { destruct Hc1 as [(_ & Hs & Hpoor)|[? _]]; [|done]. exists (-1), (phys (k_vm k)), s1, d. split; [|split_and!; [done..|right; done]].
    unfold ret. rewrite put_fd_same by (apply Ht || done). destruct k as [? ? ? [] ? ? ? ? ? ? ? ? ?]. done. }
  destruct Hc1 as [[? _]|[_ [Hk1 Hrich1]]]; [done|].
  destruct (file_read_loop_ok F B l n f len Hlen (Z.to_nat (len / Z.max 1 cb + 2)) 0 d pos [] (set_fs s1 k) Hm Hr1 Hd)
    as (d' & s2 & E2 & Hr2 & Hrest2 & Hd'); [unfold is_u32 in Hlen; lia| |].
  { rewrite Z.sub_0_r. fold w. intros Hw0. pose proof (Z.mod_pos_bound pos cb ltac:(lia)). rewrite Z.max_r by lia.
    assert (w <= len) by (unfold w, readable; lia). pose proof (Z.div_mod len cb ltac:(lia)). pose proof (Z.mod_pos_bound len cb ltac:(lia)).
    assert (0 <= len / cb) by (apply Z.div_pos; lia). lia. }
  rewrite Z.sub_0_r in E2, Hd'. fold w in E2, Hd'. rewrite (bind_ok _ _ _ _ _ E2). cbn [fst snd app].
  set (k2 := set_fs s2 (set_fs s1 k)).
  destruct (put_user_bytes_ok (slice f pos w) k2 buf) as (m & E3 & Hst); [rewrite slice_length; by apply (same_space_buffer k)|].
  rewrite (bind_ok _ _ _ _ _ E3), (bind_ok _ _ _ _ _ (fd_store_ok (with_phys m k2) me r i d' (tk_proc _ _ _ Ht))).
  apply rest_place in Hrest2 as [Hpl2 Hm2].
  destruct (free_one g F B H p (k_fs k) s2 s2) as (s3 & E4 & Hpl3 & Hh3 & Hr3);
    [by eapply place_trans|by rewrite Hm2|done|by rewrite Hm2|done|].
  rewrite (bind_ok _ _ _ _ _ (on_fs_ok (Fat32.kfree p) (put_fd me r i d' (with_phys m k2)) _ _ E4)).
  exists w, m, s3, d'. assert (0 <= w) by (unfold w, readable, is_u32 in *; lia).
  split; [unfold ret; do 2 f_equal; rewrite slice_length; lia|]. do 3 (split; [done|]). left. split; [done|]. split; [|exact Hd']. destruct Hst as [S1 S2]. split; [exact S1|exact S2].
Qed.

(** [sys_read_fd] (and [sys_read] on descriptor 0) on an open file. *)
Lemma fd_read_ok F B H (k : kern) me r i d l n f pos buf len :
  volume k F B H -> task k me r -> p_fds r !! i = Some d -> fd_at F B d l n f pos -> is_u32 len -> user_range_ok buf len = true ->
  let w := readable n pos len in buffer k buf (Z.to_nat w) ->
  exists v m s d', do_fd_read (Z.of_nat i) buf len k = Some (Done v, put_fd me r i d' (with_phys m (set_fs s k)))
  /\ repr g s F B /\ place_eq (k_fs k) s /\ heap_step H H (k_fs k) s
  /\ (v = w /\ stored k buf (slice f pos w) m /\ fd_at F B d' l n f (pos + w)
      \/ v = -1 /\ ~ kh_rich (mem (k_fs k)) /\ m = phys (k_vm k) /\ d' = d).
Proof.
  intros Hv Ht Hi Hd Hlen Hrange w Hb. pose proof (fa_kind _ _ _ _ _ _ _ Hd) as Hk. unfold do_fd_read.
  rewrite (bind_ok _ _ _ _ _ (lookup_fd_ok k me r i d Ht Hi ltac:(by rewrite Hk))), Hrange. cbn [negb].
  destruct (Z.eqb_spec len 0) as [->|Hl0].
  { exists 0, (phys (k_vm k)), (k_fs k), d. assert (w = 0) as -> by (unfold w, readable; lia). split; [|split; [apply Hv|split; [done|split; [by split; [apply Hv|]|]]]].
    - unfold ret. rewrite put_fd_same by (apply Ht || done). destruct k as [? ? ? [] ? ? ? ? ? ? ? ? ?]. done.
    - left. split; [done|]. rewrite Z.add_0_r. split; [|done]. by split. }
  rewrite Hk, Nat2Z.id.
  destruct (file_read_ok F B H k me r i d l n f pos buf len Hv Ht Hi Hd Hlen Hb) as (v & m & s & d' & E & Hrest).
  change (FD_FILE =? FD_TTY_IN) with false. change (FD_FILE =? FD_FILE) with true. cbv iota. rewrite (bind_ok _ _ _ _ _ E).
  by exists v, m, s, d'.
Qed.

(** ** [sys_lseek] *)

(** The walk ends at the cluster of the position, or behind the chain. *)
Lemma seek_walk_ok F B l : forall n c (k : kern), k_vfs k = Some (fat32_vfs_ops g) -> repr g (k_fs k) F B -> chain g F c l ->
  exists r s, seek_walk n c k = Some (r, set_fs s k) /\ repr g s F B /\ rest_eq (k_fs k) s
  /\ ((n < length l)%nat -> l !! n = Some r).
Proof.
  intros n. revert l. induction n as [|n IH]; intros l c k Hm Hr Hc; cbn [seek_walk].
  { exists c, (k_fs k). rewrite set_fs_same. do 3 (split; [done|]). intros _. by destruct Hc. }
  destruct (fat_next_ok g Hg (k_fs k) F B c Hr (valid_table g c (chain_head_valid _ _ _ _ Hc))) as (s1 & E1 & Hr1 & Hrest1).
  rewrite (bind_ok _ _ _ _ _ (on_vfs_ok (fun o => vfs_next_cluster o c) k _ _ _ Hm E1)).
  destruct (Z.leb_spec VFS_CLUSTER_EOC (next_of F c)) as [He|He]; unfold next_of in He.
  - destruct (Z.leb_spec VFS_CLUSTER_EOC (Z.land (F c) 0x0FFFFFFF)); [|lia]. exists (next_of F c), s1. do 3 (split; [done|]).
    inversion Hc as [|? l' Hv Hc']; subst; simpl; [lia|]. by apply chain_head_valid, (valid_not_eoc g Hg) in Hc'.
  - destruct (Z.leb_spec VFS_CLUSTER_EOC (Z.land (F c) 0x0FFFFFFF)); [lia|].
    inversion Hc as [? ? He'|? l' Hv Hc']; subst; [by unfold next_of, FAT32_EOC, VFS_CLUSTER_EOC in *; lia|].
    destruct (IH l' _ (set_fs s1 k) Hm Hr1 Hc') as (r & s & E & Hr2 & Hrest2 & Hl). exists r, s. unfold next_of in E. rewrite E.
    split; [done|]. split; [done|]. split; [by eapply rest_eq_trans|]. simpl. intros Hn. apply Hl. lia.
Qed.

(** The position a request asks for; [None] for an unknown [whence]. *)
Definition seek_target (n pos offset whence : Z) : option Z :=
  if whence =? 0 then Some offset else if whence =? 1 then Some (pos + offset) else if whence =? 2 then Some (n + offset) else None.

(** An [int] that does not overflow. *)
Definition is_s32 (x : Z) : Prop := -2147483648 <= x < 2147483648.

(** [lseek] on an open file: the new position is that of the request. *)
Lemma lseek_ok F B H (k : kern) me r i d l n f pos offset whence :
  volume k F B H -> task k me r -> p_fds r !! i = Some d -> fd_at F B d l n f pos ->
  is_s32 pos -> is_s32 n -> is_s32 offset ->
  (forall q, seek_target n pos offset whence = Some q -> is_s32 q /\ (l = [] -> q < cb)) ->
  exists v s d', sys_lseek (Z.of_nat i) offset whence k = Some (v, put_fd me r i d' (set_fs s k))
  /\ repr g s F B /\ rest_eq (k_fs k) s
  /\ match seek_target n pos offset whence with
     | Some q => if q <? 0 then v = -1 /\ d' = d else v = q /\ fd_at F B d' l n f q
     | None => v = -1 /\ d' = d
     end.
Proof.
  intros [Hm Hr Hh] Ht Hi Hd Hpos Hn Hoff Hq. pose proof (cb_range g Hg) as Hcb. pose proof Hd as [Hk Hw Hs Hp Hp0 Hst Hcur].
  assert (forall v : Z, Some (v, k) = Some (v, put_fd me r i d (set_fs (k_fs k) k))) as Hsame.
  { intros v. rewrite set_fs_same, put_fd_same by (apply Ht || done). done. }
  unfold sys_lseek. rewrite (bind_ok _ _ _ _ _ (lookup_fd_ok k me r i d Ht Hi ltac:(by rewrite Hk))), Hk, Hw, Hp, Hs.
  change (FD_FILE =? FD_FILE) with true. cbn [negb orb Z.eqb]. cbv zeta. unfold is_s32 in *. rewrite (s32_small pos), (s32_small n) by lia.
  assert ((if whence =? 0 then Some offset else if whence =? 1 then Some (s32 (pos + offset)) else if whence =? 2 then Some (s32 (n + offset)) else None)
    = seek_target n pos offset whence) as ->.
  { revert Hq. unfold seek_target. destruct (whence =? 0); [done|]. destruct (whence =? 1); [|destruct (whence =? 2); [|done]];
      intros Hq; destruct (Hq _ eq_refl) as [Hb _]; rewrite s32_small; done || lia. }
  destruct (seek_target n pos offset whence) as [q|]; [|exists (-1), (k_fs k), d; split; [apply Hsame|done]].
  destruct (Hq q eq_refl) as [Hqb Hqe]. destruct (Z.ltb_spec q 0) as [Hneg|Hpos'].
  { exists (-1), (k_fs k), d. split; [apply Hsame|done]. }
  assert (on_vfs vfs_cluster_size k = Some (cb, k)) as E0 by (rewrite (on_vfs_ok _ k _ cb (k_fs k) Hm); [by rewrite set_fs_same|done]).
  rewrite (bind_ok _ _ _ _ _ E0). destruct (Z.eqb_spec cb 0); [lia|].
  assert (exists c s, seek_walk (Z.to_nat (q / cb)) (fd_first_cluster d) k = Some (c, set_fs s k) /\ repr g s F B /\ rest_eq (k_fs k) s
    /\ (q < n -> c = ch l (q / cb))) as (c & s & E & Hr' & Hrest & Hc).
  { destruct (sm_chain _ _ _ _ _ _ Hst) as [[_ Hl]|Hch].
    - rewrite Z.div_small by (specialize (Hqe Hl); lia). exists (fd_first_cluster d), (k_fs k). rewrite set_fs_same. do 3 (split; [done|]).
      pose proof (sm_fits _ _ _ _ _ _ Hst). subst l. simpl in *. lia.
    - destruct (seek_walk_ok F B l (Z.to_nat (q / cb)) _ k Hm Hr Hch) as (c & s & E & Hr' & Hrest & Hl). exists c, s. do 3 (split; [done|]).
      intros Hlt. destruct (stream_cluster F B _ l n f q Hst ltac:(lia)) as [Hlk _].
      apply lookup_lt_Some in Hlk as Hlen. specialize (Hl Hlen). congruence. }
  rewrite (bind_ok _ _ _ _ _ E), Nat2Z.id.
  rewrite (bind_ok _ _ _ _ _ (fd_store_ok (set_fs s k) me r i _ (tk_proc _ _ _ Ht))).
  eexists q, s, _. split; [done|]. split; [done|]. split; [done|]. split; [done|].
  eapply set_position_at; [exact Hd|lia|]. intros Hlt. by rewrite (Hc Hlt).
Qed.

(** ** Any sequence of reads and seeks *)

Inductive file_op :=
| ReadOp (buf len : Z)
| SeekOp (offset whence : Z).

(** A call and what it delivers: its value and, for a read, the bytes now in the buffer. *)
Definition file_op_run (i : nat) (o : file_op) : st kern (Z * list Z) :=
  match o with
  | ReadOp buf len =>
    let* r := sys_read_fd (Z.of_nat i) buf len in
    match r with
    | Done v => let* k := gets (fun k => k) in ret (v, take_bytes (user_view k buf) v)
    | _ => undef
    end
  | SeekOp offset whence => let* v := sys_lseek (Z.of_nat i) offset whence in ret (v, [])
  end.

Fixpoint file_ops_run (i : nat) (l : list file_op) : st kern (list (Z * list Z)) :=
  match l with
  | [] => ret []
  | o :: l => let* x := file_op_run i o in let* xs := file_ops_run i l in ret (x :: xs)
  end.

(** The same on an array of [n] bytes with a position; a read without memory answers -1. *)
Definition file_op_spec (n : Z) (f : Z -> Z) (failed : bool) (o : file_op) (pos : Z) : (Z * list Z) * Z :=
  match o with
  | ReadOp _ len => if failed then ((-1, []), pos) else let w := readable n pos len in ((w, slice f pos w), pos + w)
  | SeekOp offset whence =>
    match seek_target n pos offset whence with
    | Some q => if q <? 0 then ((-1, []), pos) else ((q, []), q)
    | None => ((-1, []), pos)
    end
  end.

Fixpoint file_ops_spec (n : Z) (f : Z -> Z) (fails : list bool) (l : list file_op) (pos : Z) : list (Z * list Z) :=
  match l, fails with
  | o :: l, b :: fails => let '(x, pos) := file_op_spec n f b o pos in x :: file_ops_spec n f fails l pos
  | _, _ => []
  end.

(** Buffers in user memory; no [int] overflows, and a file without clusters is not
    entered behind its first one. *)
Definition op_ok (k : kern) (l : list Z) (n pos : Z) (o : file_op) : Prop :=
  match o with
  | ReadOp buf len => is_u32 len /\ user_range_ok buf len = true /\ buffer k buf (Z.to_nat (readable n pos len))
  | SeekOp offset whence => is_s32 offset /\ forall q, seek_target n pos offset whence = Some q -> is_s32 q /\ (l = [] -> q < cb)
  end.

Fixpoint ops_ok (k : kern) (l : list Z) (n pos : Z) (f : Z -> Z) (ops : list file_op) : Prop :=
  match ops with
  | [] => True
  | o :: ops => op_ok k l n pos o /\ forall b, ops_ok k l n (file_op_spec n f b o pos).2 f ops
  end.

(** The state of a process that reads a file: what an operation keeps. *)
Record reading (k : kern) F B H me r i l n f pos : Prop := {
  rd_volume : volume k F B H;
  rd_task : task k me r;
  rd_fd : exists d, p_fds r !! i = Some d /\ fd_at F B d l n f pos;
  rd_pos : is_s32 pos;
  rd_size : is_s32 n }.

Lemma volume_step (k k' : kern) F B H : k_vfs k' = k_vfs k -> repr g (k_fs k') F B -> kh_ok (mem (k_fs k')) H -> volume k F B H -> volume k' F B H.
Proof. intros Hm Hr Hh [Hm0 _ _]. split; [by rewrite Hm|done|done]. Qed.

Lemma stream_bytes F B cl l n f (s : fs) x : repr g s F B -> stream F B cl l n f -> 0 <= x < n -> is_byte (f x).
Proof.
  intros Hr Hst Hx. pose proof (cb_range g Hg). rewrite <- (sm_bytes _ _ _ _ _ _ Hst) by done. destruct (stream_cluster F B cl l n f x Hst Hx) as [_ Hv].
  unfold contents. rewrite <- (rp_data _ _ _ _ Hr) by (done || (apply Z.mod_pos_bound; lia)). apply bd_byte_range.
Qed.

Lemma slice_bytes F B cl l n f (s : fs) pos w : repr g s F B -> stream F B cl l n f -> 0 <= pos -> pos + w <= n -> Forall is_byte (slice f pos w).
Proof.
  intros Hr Hst Hp Hw. apply Forall_forall. intros c Hc. unfold slice, take_bytes in Hc. change (map ?f ?l) with (f <$> l) in Hc.
  apply list_elem_of_fmap in Hc as (j & -> & Hj). apply elem_of_seq in Hj. eapply stream_bytes; [done|done|]. lia.
Qed.

Lemma stored_slice F B cl l n f (s : fs) (k : kern) a pos w m : repr g s F B -> stream F B cl l n f -> 0 <= pos -> 0 <= w -> (0 < w -> pos + w <= n) ->
  buffer k a (Z.to_nat w) -> stored k a (slice f pos w) m -> holds (with_phys m k) a (slice f pos w).
Proof.
  intros Hr Hst Hp Hw Hle Hb Hs. apply stored_holds; [|by rewrite slice_length|done].
  destruct (decide (0 < w)); [eapply slice_bytes; eauto|]. replace w with 0 by lia. constructor.
Qed.

Lemma reading_put (k : kern) F B H me r i l n f pos pos' d m s : reading k F B H me r i l n f pos ->
  repr g s F B -> kh_ok (mem s) H -> fd_at F B d l n f pos' -> is_s32 pos' ->
  reading (put_fd me r i d (with_phys m (set_fs s k))) F B H me (set_fds (<[i := d]> (p_fds r)) r) i l n f pos'.
Proof.
  intros [Hv Ht (d0 & Hi & _) Hpos Hn] Hr Hh Hd Hp. split; [|by apply task_put_fd, (task_sched k)| |done|done].
  - by apply (volume_step k).
  - exists d. split; [|done]. simpl. apply list_lookup_insert_eq. by eapply lookup_lt_Some.
Qed.

(** A read may fail only when memory is short, now and before: memory that suffices
    keeps to suffice. *)
Definition rich_step (k k' : kern) : Prop := kh_rich (mem (k_fs k)) -> kh_rich (mem (k_fs k')).

Lemma file_op_ok (k : kern) F B H me r i l n f pos o : reading k F B H me r i l n f pos -> op_ok k l n pos o ->
  exists b k' r', file_op_run i o k = Some ((file_op_spec n f b o pos).1, k') /\ (kh_rich (mem (k_fs k)) -> b = false)
  /\ reading k' F B H me r' i l n f (file_op_spec n f b o pos).2 /\ same_space k k' /\ rich_step k k'.
Proof.
  intros Hrd Ho. pose proof Hrd as [Hv Ht (d & Hi & Hd) Hpos Hn]. pose proof (fa_nonneg _ _ _ _ _ _ _ Hd) as Hp0. destruct o as [buf len|offset whence].
  - destruct Ho as (Hlen & Hrange & Hb). unfold file_op_run, sys_read_fd.
    destruct (fd_read_ok F B H k me r i d l n f pos buf len Hv Ht Hi Hd Hlen Hrange Hb) as (v & m & s & d' & E & Hr & Hpl & [Hh Hrich'] & Hcase).
    rewrite (bind_ok _ _ _ _ _ E). set (w := readable n pos len) in *. set (k' := put_fd me r i d' (with_phys m (set_fs s k))) in *.
    unfold bind, gets, ret. destruct Hcase as [(-> & Hst & Hd')|(-> & Hno & -> & ->)].
    2:{ exists true, k', (set_fds (<[i := d]> (p_fds r)) r). split; [done|]. split; [by intros ?%Hno|]. split; [|done]. by apply (reading_put k F B H me r i l n f pos). }
    assert (0 <= w /\ (0 < w -> pos + w <= n)) as [Hw0 Hw] by (unfold w, readable, is_u32 in *; lia).
    assert (holds k' buf (slice f pos w)) as Hhold.
    { pose proof (stored_slice F B _ l n f s k buf pos w m Hr (fa_stream _ _ _ _ _ _ _ Hd) ltac:(lia) Hw0 Hw Hb Hst) as Hx. exact Hx. }
    exists false, k', (set_fds (<[i := d']> (p_fds r)) r). cbn [file_op_spec fst snd]. fold w. split; [|split; [done|split; [|done]]].
    + do 3 f_equal. replace w with (Z.of_nat (Z.to_nat w)) at 1 by lia.
      rewrite (holds_take_bytes k' buf (slice f pos w)) by (done || (rewrite slice_length; lia)). rewrite take_ge; [done|]. rewrite slice_length. lia.
    + apply (reading_put k F B H me r i l n f pos); [done..|]. unfold is_s32 in *. destruct (decide (0 < w)); lia.
  - destruct Ho as (Hoff & Hq). unfold file_op_run.
    destruct (lseek_ok F B H k me r i d l n f pos offset whence Hv Ht Hi Hd Hpos Hn Hoff Hq) as (v & s & d' & E & Hr & Hrest & Hcase).
    apply rest_place in Hrest as [_ Hmem]. rewrite (bind_ok _ _ _ _ _ E). unfold ret.
    assert (forall p, is_s32 p -> fd_at F B d' l n f p -> reading (put_fd me r i d' (set_fs s k)) F B H me (set_fds (<[i := d']> (p_fds r)) r) i l n f p) as Hgo.
    { intros p Hp Hd'. pose proof (reading_put k F B H me r i l n f pos p d' (phys (k_vm k)) s Hrd Hr ltac:(rewrite Hmem; apply Hv) Hd' Hp) as Hx.
      destruct k as [? ? ? [] ? ? ? ? ? ? ? ? ?]. exact Hx. }
    exists false, (put_fd me r i d' (set_fs s k)), (set_fds (<[i := d']> (p_fds r)) r). unfold file_op_spec, rich_step. cbn [put_fd set_sched k_fs set_fs]. rewrite Hmem.
    destruct (seek_target n pos offset whence) as [q|] eqn:Eq.
    + destruct (Hq q eq_refl) as [Hqb _]. destruct (q <? 0); destruct Hcase as [-> Hcase]; cbn [fst snd]; (split; [done|split; [done|split; [|done]]]).
      * apply Hgo; [done|by subst d'].
      * by apply Hgo.
    + destruct Hcase as [-> ->]. cbn [fst snd]. split; [done|]. split; [done|]. split; [by apply Hgo|done].
Qed.

Lemma op_ok_space (k k' : kern) l n pos o : same_space k k' -> op_ok k l n pos o -> op_ok k' l n pos o.
Proof. intros Hs. destruct o; [|done]. intros (? & ? & ?). split; [done|]. split; [done|]. by eapply same_space_buffer. Qed.

Lemma ops_ok_space (k k' : kern) l n f ops : same_space k k' -> forall pos, ops_ok k l n pos f ops -> ops_ok k' l n pos f ops.
Proof. intros Hs. induction ops as [|o ops IH]; intros pos; [done|]. intros [H1 H2]. split; [by eapply op_ok_space|intros b; by apply IH]. Qed.

Lemma file_ops_ok ops : forall (k : kern) F B H me r i l n f pos, reading k F B H me r i l n f pos -> ops_ok k l n pos f ops ->
  exists fails k' r' pos', file_ops_run i ops k = Some (file_ops_spec n f fails ops pos, k')
  /\ length fails = length ops /\ (kh_rich (mem (k_fs k)) -> Forall (fun b => b = false) fails)
  /\ reading k' F B H me r' i l n f pos' /\ same_space k k'.
Proof.
  induction ops as [|o ops IH]; intros k F B H me r i l n f pos Hrd Ho; cbn [file_ops_run].
  { exists [], k, r, pos. by do 3 (split; [done|]). }
  destruct Ho as [Ho Hos]. destruct (file_op_ok k F B H me r i l n f pos o Hrd Ho) as (b & k1 & r1 & E1 & Hb & Hrd1 & Hs1 & Hrich1).
  rewrite (bind_ok _ _ _ _ _ E1).
  destruct (IH k1 F B H me r1 i l n f _ Hrd1 (ops_ok_space k k1 l n f ops Hs1 _ (Hos b))) as (fails & k2 & r2 & pos2 & E2 & Hlen & Hf & Hrd2 & Hs2).
  rewrite (bind_ok _ _ _ _ _ E2). exists (b :: fails), k2, r2, pos2. cbn [file_ops_spec length]. destruct (file_op_spec n f b o pos) as [x pos1].
  split; [done|]. split; [by rewrite Hlen|]. split; [intros Hr; constructor; auto|]. split; [done|by etrans].
Qed.

(** ** [sys_open] for reading *)

(** The NUL-terminated string [s] is in user memory at [a]. *)
Definition user_string (k : kern) (a : Z) (s : list Z) : Prop :=
  is_u32 a /\ a <> 0 /\ a + Z.of_nat (length s) < USER_LIMIT /\ Forall (fun c => c <> 0) s /\ (length s < 255)%nat /\ holds k a (s ++ [0]).

Lemma with_path_ok (k : kern) a s body : user_string k a s -> with_path a body k = body s k.
Proof.
  intros (Ha & H0 & Hlim & Hs & Hn & H). unfold with_path, copy_user_path.
  rewrite (bind_ok _ _ _ _ _ (copy_path_holds k a s (Z.to_nat (256 - 1)) Ha H0 Hlim Hs H ltac:(lia))). done.
Qed.

Lemma free_fd_Some (fds : list file_desc) i : free_fd fds = Some i -> exists d, fds !! i = Some d /\ fd_kind d = FD_NONE.
Proof.
  unfold free_fd. intros H. apply fmap_Some in H as ([j d] & H & ->). apply list_find_Some in H as (H & Hd & _). by exists d.
Qed.

(** A file that a path leads to. *)
Definition file_at (k : kern) (F : Z -> Z) (B : Z -> Z -> Z) (path l : list Z) (n : Z) (f : Z -> Z) : Prop :=
  exists c name dir m, direct g (k_fs k) path c name /\ dir_at g F B c dir m /\ file_on g F B dir name l n f.

(** The first free descriptor is opened at the beginning of the file. *)
Lemma open_ok F B H (k : kern) me r i upath path l n f :
  volume k F B H -> task k me r -> free_fd (p_fds r) = Some i ->
  user_string k upath path -> file_at k F B path l n f ->
  exists s, repr g s F B /\ place_eq (k_fs k) s /\ heap_step H H (k_fs k) s
  /\ (sys_open upath 0 k = Some (-1, set_fs s k) /\ ~ kh_rich (mem (k_fs k))
      \/ exists d, sys_open upath 0 k = Some (Z.of_nat i, put_fd me r i d (set_fs s k)) /\ fd_at F B d l n f 0).
Proof.
  intros [Hm Hr Hh] Ht Hi Hp (c & name & dir & m & Hdir & Hd & Hf). pose proof (cb_range g Hg) as Hcb.
  destruct (free_fd_Some _ _ Hi) as (d0 & Hd0 & _). unfold sys_open. rewrite (with_path_ok k upath path) by done.
  rewrite (bind_ok _ _ _ _ _ (current_ok _ _ _ Ht)). destruct (Z.eqb_spec me 0); [by destruct (tk_nonzero _ _ _ Ht)|].
  rewrite (bind_ok _ _ _ _ _ (proc_load_at k me r (tk_proc _ _ _ Ht))), Hi. change (negb (Z.land 0 O_WRITE =? 0)) with false. cbv iota.
  destruct (lookup_file_ok g Hg F B c dir m H path name (k_fs k) Hdir Hr Hd Hh) as (o & s & E & Hpl & Hhs & Hr1 & Ho).
  rewrite (bind_ok _ _ _ _ _ (on_vfs_ok (fun g => vfs_lookup g path) k _ _ _ Hm E)).
  destruct (file_on_stream F B dir name l n f Hf) as (j & lf & Es & Hn & Hst). exists s. do 3 (split; [done|]).
  destruct o as [[cl n']|]; [|left; split; [done|]; intros Hx%Ho; by rewrite Es in Hx]. right.
  destruct Ho as (j' & lf' & Es' & -> & ->). rewrite Es in Es'. injection Es' as <- <-. rewrite Hn.
  rewrite (bind_ok _ _ _ _ _ (fd_load_ok (set_fs s k) me r i d0 (tk_proc _ _ _ Ht) Hd0)).
  rewrite (bind_ok _ _ _ _ _ (fd_store_ok (set_fs s k) me r i _ (tk_proc _ _ _ Ht))).
  eexists. split; [done|]. split; try done; cbn. intros Hlt. rewrite Z.div_0_l, Z.mod_0_l by lia.
  split; [|done]. destruct (sm_chain _ _ _ _ _ _ Hst) as [[_ ->]|Hch]; [|by destruct (chain_nonempty g F _ _ Hch)].
  pose proof (sm_fits _ _ _ _ _ _ Hst). simpl in *. lia.
Qed.

(** Opening a file and then any calls on the descriptor. *)
Definition open_and_run (upath : Z) (ops : list file_op) : st kern (Z * list (Z * list Z)) :=
  let* fd := sys_open upath 0 in
  if fd <? 0 then ret (fd, [])
  else let* l := file_ops_run (Z.to_nat fd) ops in ret (fd, l).

End FileCalls.

(** ** Theorems *)

Section Theorems.
Context {D A : Type} `{BD : BlockDev D} `{KH : KernelHeap A} `{PS : PageShare A}.
Context `{L : Layout} `{M : Machine}.

(** C4: an open file is an array with a position.  A process that opens a file of [n]
    bytes [f] on the mounted volume gets its first free descriptor, and whatever sequence
    of reads, of any lengths, and of seeks, with any of the three origins, it then makes
    on the descriptor, every call returns what it would on the array: the bytes between
    the position and the end of the file, in the buffer, or the new position, or -1 for a
    position in front of the file or an unknown origin.  Only without memory does the
    opening or a read answer -1, and then the position stays.  The volume holds what it
    held. *)
Theorem fd_refines_array (g : geom) (k : kern (D := D) (A := A)) F B H me r i upath path l n f ops :
  geom_ok g -> volume g k F B H -> task k me r -> free_fd (p_fds r) = Some i ->
  user_string k upath path -> file_at g k F B path l n f -> is_s32 n -> ops_ok g k l n 0 f ops ->
  exists fd res k', open_and_run upath ops k = Some ((fd, res), k') /\ volume g k' F B H
  /\ (fd = -1 /\ res = [] /\ ~ kh_rich (mem (k_fs k))
      \/ fd = Z.of_nat i /\ exists fails, length fails = length ops
         /\ (kh_rich (mem (k_fs k)) -> Forall (fun b => b = false) fails) /\ res = file_ops_spec n f fails ops 0).
Proof.
  intros Hg Hv Ht Hi Hp Hf Hn Hops. destruct (free_fd_Some _ _ Hi) as (d0 & Hd0 & _). unfold open_and_run.
  destruct (open_ok g Hg F B H k me r i upath path l n f Hv Ht Hi Hp Hf) as (s & Hr & _ & [Hh Hrich'] & [[E Hno]|(d & E & Hd)]);
    rewrite (bind_ok _ _ _ _ _ E).
  { exists (-1), [], (set_fs s k). split; [done|]. split; [|by left]. exact (volume_step g k (set_fs s k) F B H eq_refl Hr Hh Hv). }
  destruct (Z.ltb_spec (Z.of_nat i) 0); [lia|]. rewrite Nat2Z.id.
  destruct (file_ops_ok g Hg ops (put_fd me r i d (set_fs s k)) F B H me (set_fds (<[i := d]> (p_fds r)) r) i l n f 0)
    as (fails & k' & r' & pos & E' & Hlen & Hfl & Hrd & Hs).
  - split; [exact (volume_step g k (put_fd me r i d (set_fs s k)) F B H eq_refl Hr Hh Hv)|by apply task_put_fd, (task_sched k)| |unfold is_s32; lia|done].
    exists d. split; [|done]. simpl. apply list_lookup_insert_eq. by eapply lookup_lt_Some.
  - by apply (ops_ok_space g k).
  - rewrite (bind_ok _ _ _ _ _ E'). exists (Z.of_nat i), (file_ops_spec n f fails ops 0), k'. split; [done|]. split; [apply Hrd|].
    right. split; [done|]. exists fails. split; [done|]. split; [|done]. intros Hrk. apply Hfl, Hrich', Hrk.
Qed.

End Theorems.

(** ** A process on the volume of [Fat32Spec] *)

Module Demo.

Import KernDemo.

Definition path_addr : Z := 0xBFFFF100.
Definition buf_addr : Z := 0xBFFFF200.
#[local] Abbreviation demo_geom := Table.Demo.demo_geom.

(** The first program of [KernDemo] in user mode, with the volume mounted and the name of
    its file in the memory of the process. *)
Definition mount_on (k : dkern) : dkern :=
  mk_kern (k_sched k) (mk_fs 2 [47] (RamDisk.mk_disk Spec.Demo.disk_byte 34) (BumpHeap.bump_init, demo_pmm) [])
    (Some (fat32_vfs_ops demo_geom)) (k_vm k) ∅ ∅ (k_exits k) (k_next_pid k) (k_kbd k) 0 (k_stack k) ∅ [].
Definition mounted : dkern := mount_on in_user.
Definition ready : dkern := after (put_bytes_at path_addr (Spec.Demo.demo_name ++ [0])) mounted.
Definition proc_of (k : dkern) : process := default (kernel_task 0 0) (procs (k_sched k) !! current_process (k_sched k)).
Definition me : Z := current_process (k_sched mounted).
Definition proc : process := proc_of mounted.

(** A string in memory, by evaluation. *)
Definition there (k : dkern) (a : Z) (l : list Z) : bool :=
  bool_decide ((fun i => (user_addr k (a + Z.of_nat i)) ≫= fun p => Some (phys (k_vm k) p)) <$> seq 0 (length l) = Some <$> l).

Lemma there_holds k a l : there k a l = true -> holds k a l.
Proof.
  intros H%bool_decide_eq_true i c Hi. assert ((Some <$> l) !! i = Some (Some c)) as Hx by (by rewrite list_lookup_fmap, Hi).
  rewrite <- H, list_lookup_fmap, lookup_seq_lt in Hx by (by eapply lookup_lt_Some). cbn in Hx.
  destruct (user_addr k (a + Z.of_nat i)) as [p|]; [|done]. exists p. split; [done|]. cbn in Hx. congruence.
Qed.

Definition buffer_check (k : dkern) (a : Z) (n : nat) : bool := bool_decide (Forall is_Some (frames k a n)) && bool_decide (NoDup (frames k a n)).

Lemma buffer_checked k a n : buffer_check k a n = true -> buffer k a n.
Proof. intros [H1 H2]%andb_true_iff. apply bool_decide_eq_true in H1, H2. by split. Qed.

Lemma ready_eq : exists m, ready = with_phys m mounted.
Proof.
  destruct (put_user_bytes_ok (Spec.Demo.demo_name ++ [0]) mounted path_addr) as (m & E & _); [apply buffer_checked; vm_compute; reflexivity|].
  exists m. unfold ready, after. by rewrite E.
Qed.

Definition task_check (k : dkern) : bool :=
  negb (current_process (k_sched k) =? 0) && bool_decide (is_Some (procs (k_sched k) !! current_process (k_sched k)))
  && (length (p_fds (proc_of k)) =? MAX_FDS)%nat.

Lemma task_checked k : task_check k = true -> task k (current_process (k_sched k)) (proc_of k).
Proof.
  intros [[H1 H2]%andb_true_iff H3]%andb_true_iff. rewrite negb_true_iff, Z.eqb_neq in H1. apply Nat.eqb_eq in H3.
  apply bool_decide_eq_true in H2 as [r H2]. split; [done|done| |done]. unfold proc_of. by rewrite H2.
Qed.

Lemma mount_volume k m : volume demo_geom (with_phys m (mount_on k)) Spec.Demo.demo_table Spec.Demo.demo_clusters [].
Proof.
  split; [done| |exact BumpHeap.bump_init_ok]. destruct Spec.Demo.volume_repr as [H1 H2 H3 H4]. split; [exact H1|exact H2|exact H3|exact H4].
Qed.

Lemma demo_volume : volume demo_geom ready Spec.Demo.demo_table Spec.Demo.demo_clusters [].
Proof. destruct ready_eq as (m & E). rewrite E. apply mount_volume. Qed.

Lemma demo_task : task ready me proc.
Proof.
  destruct ready_eq as (m & E). rewrite E. apply (task_sched mounted); [apply with_phys_sched|]. apply task_checked. vm_compute. reflexivity.
Qed.

Lemma demo_string : user_string ready path_addr Spec.Demo.demo_name.
Proof.
  split; [vm_compute; intuition congruence|]. split; [done|]. split; [vm_compute; reflexivity|]. split; [repeat constructor; done|].
  split; [simpl; lia|]. apply there_holds. vm_compute. reflexivity.
Qed.

Definition content : Z -> Z := contents demo_geom Spec.Demo.demo_clusters [3; 4].

Lemma mount_at k m : file_at demo_geom (with_phys m (mount_on k)) Spec.Demo.demo_table Spec.Demo.demo_clusters Spec.Demo.demo_name [3; 4] 600 content.
Proof.
  exists 2, Spec.Demo.demo_name, [2], 1. split; [|split].
  - destruct Spec.Demo.demo_direct as (H1 & H2 & _). split; [done|]. split; [done|]. by left.
  - apply dir_ok_at, Spec.Demo.volume_dir.
  - exists 0, lfn_init. split; [vm_compute; reflexivity|]. split; [|split; [by vm_compute|split; [set_solver|done]]].
    split; [vm_compute; reflexivity|right]. change (entry_cluster (entry (contents demo_geom Spec.Demo.demo_clusters [2]) 0)) with 3.
    apply chain_next; [by apply Table.Demo.demo_valid|]. change (next_of Spec.Demo.demo_table 3) with 4.
    apply chain_last; [by apply Table.Demo.demo_valid|]. vm_compute. congruence.
Qed.

Lemma demo_at : file_at demo_geom ready Spec.Demo.demo_table Spec.Demo.demo_clusters Spec.Demo.demo_name [3; 4] 600 content.
Proof. destruct ready_eq as (m & E). rewrite E. apply mount_at. Qed.

(** 16 bytes, then 100 across the border of the two clusters, the last 8, and two
    requests that fail. *)
Definition calls : list file_op :=
  [ReadOp buf_addr 16; SeekOp 450 0; ReadOp buf_addr 100; SeekOp (-8) 2; ReadOp buf_addr 100; SeekOp (-700) 1; SeekOp 0 3].

Lemma read_call_ok pos len : 0 <= len <= 100 -> op_ok demo_geom ready [3; 4] 600 pos (ReadOp buf_addr len).
Proof.
  intros Hl. split; [unfold is_u32; lia|]. split; [unfold user_range_ok, buf_addr, USER_LIMIT; zspec; simpl; done || lia|].
  apply (buffer_le _ _ _ 100); [unfold readable; lia|]. apply buffer_checked. vm_compute. reflexivity.
Qed.

Lemma seek_call_ok pos offset whence : -1000 <= offset <= 1000 -> 0 <= pos <= 600 -> op_ok demo_geom ready [3; 4] 600 pos (SeekOp offset whence).
Proof.
  intros Ho Hp. split; [unfold is_s32; lia|]. intros q. unfold seek_target.
  destruct (whence =? 0); [|destruct (whence =? 1); [|destruct (whence =? 2); [|done]]]; intros [= <-]; (split; [unfold is_s32; lia|done]).
Qed.

Lemma calls_ok : ops_ok demo_geom ready [3; 4] 600 0 content calls.
Proof.
  repeat match goal with
  | |- ops_ok _ _ _ _ _ _ (ReadOp _ _ :: _) => split; [apply read_call_ok; lia|intros []]
  | |- ops_ok _ _ _ _ _ _ (SeekOp _ _ :: _) => split; [apply seek_call_ok; [lia|vm_compute; intuition congruence]|intros []]
  | |- ops_ok _ _ _ _ _ _ _ => unfold calls
  end; exact I.
Qed.

End Demo.

Lemma fd_refines_array_witness :
  exists k' fails, open_and_run Demo.path_addr Demo.calls Demo.ready = Some ((3, file_ops_spec 600 Demo.content fails Demo.calls 0), k')
  /\ map fst (file_ops_spec 600 Demo.content fails Demo.calls 0) = [16; 450; 100; 592; 8; -1; -1].
Proof.
  destruct (fd_refines_array Table.Demo.demo_geom Demo.ready Spec.Demo.demo_table Spec.Demo.demo_clusters [] Demo.me Demo.proc 3
    Demo.path_addr Spec.Demo.demo_name [3; 4] 600 Demo.content Demo.calls) as (fd & res & k' & E & _ & Hcase);
    [exact Table.Demo.demo_geom_ok|exact Demo.demo_volume|exact Demo.demo_task|vm_compute; reflexivity|exact Demo.demo_string|exact Demo.demo_at
    |unfold is_s32; lia|exact Demo.calls_ok|].
  destruct Hcase as [(_ & _ & Hno)|(-> & fails & Hlen & Hf & ->)]; [destruct (Hno I)|]. exists k', fails. split; [exact E|].
  specialize (Hf I). assert (fails = replicate 7 false) as ->; [|vm_compute; reflexivity].
  change (length Demo.calls) with 7%nat in Hlen. rewrite <- Hlen. clear - Hf. induction Hf as [|b l -> _ IH]; [reflexivity|]. cbn. by rewrite <- IH.
Defined.

End FileCalls.
