(* ===== verification/FileWrites.v ===== *)
(** * Writing files through descriptors

    A descriptor opened for writing collects bytes in a write buffer (kernel/wbuf.c);
    the last reference to the buffer stores them as a file.  Opening, any writes and the
    closing, from [sys_open] to the FAT32 volume. *)

From S2P Require Import Prelude Pmm Heap Disk Fat32Names Fat32 Fat32Table Fat32Files Fat32Dirs Fat32Lookup Fat32Remove Fat32Spec Sched SchedProps Pipe Paging PagingProps Elf Vfs Drivers Kern Syscall UserMem CallSpecs KernDemo FileCalls.

Module FileWrites.

Import Proc Sched SchedProps Pipe Wbuf Paging Names Fat32 Table Files Dirs Lookup Remove Spec Vfs Kern Syscall UserMem CallSpecs KernDemo FileCalls.

Section FileWrites.
Context {D A : Type} `{BD : BlockDev D} `{KH : KernelHeap A} `{PS : PageShare A}.
Context `{L : Layout} `{M : Machine}.
Context (g : geom) (Hg : geom_ok g).

Abbreviation kern := (kern (D := D) (A := A)).
#[local] Abbreviation fs := (@Fat32.fs D A).

(** The write buffers of the kernel are allocations. *)
Definition wbufs_in (k : kern) (H : list Z) : Prop := forall w b, k_wbufs k !! w = Some b -> w ∈ H.

(** A new descriptor for writing, over the fields of what was in the slot. *)
Definition writer_fd (w : Z) (f : file_desc) : file_desc :=
  mk_fd FD_FILE 1 w (fd_pipe f) (fd_first_cluster f) (fd_cur_cluster f) (fd_cluster_offset f) (fd_pos f) (fd_size f).

Lemma kern_malloc_ok F B H n (k : kern) : kh_ok (mem (k_fs k)) H -> repr g (k_fs k) F B -> 0 < n < 1048576 ->
  exists p s, kmalloc n k = Some (p, set_fs s k) /\ place_eq (k_fs k) s /\ repr g s F B
  /\ (p = 0 /\ heap_step H H (k_fs k) s /\ ~ kh_rich (mem (k_fs k)) \/ p <> 0 /\ heap_step H (p :: H) (k_fs k) s).
Proof.
  intros Hh Hr Hn. destruct (Dirs.kmalloc_ok g (k_fs k) F B H n Hh Hr Hn) as (p & s & E & Hrest).
  exists p, s. split; [|done]. by apply on_fs_ok.
Qed.

Lemma kern_free_ok F B H p (k : kern) : kh_ok (mem (k_fs k)) (p :: H) -> repr g (k_fs k) F B ->
  exists s, kfree p k = Some (tt, set_fs s k) /\ place_eq (k_fs k) s /\ repr g s F B /\ heap_step (p :: H) H (k_fs k) s.
Proof.
  intros Hh Hr. destruct (Dirs.kfree_ok g (k_fs k) F B H p Hh Hr) as (s & E & Hrest).
  exists s. split; [|done]. by apply on_fs_ok.
Qed.

(** [wbuf_open]: a fresh structure and its buffer. *)
Lemma wbuf_open_ok F B H path (k : kern) : kh_ok (mem (k_fs k)) H -> repr g (k_fs k) F B -> wbufs_in k H ->
  exists s, place_eq (k_fs k) s /\ repr g s F B
  /\ (wbuf_open path k = Some (0, set_fs s k) /\ heap_step H H (k_fs k) s /\ ~ kh_rich (mem (k_fs k))
      \/ exists w p, wbuf_open path k = Some (w, set_wbufs (<[w := wbuf_new p path]> (k_wbufs k)) (set_fs s k))
         /\ w <> 0 /\ k_wbufs k !! w = None /\ heap_step H (p :: w :: H) (k_fs k) s).
Proof.
  intros Hh Hr Hin. unfold wbuf_open. destruct (kern_malloc_ok F B H SIZEOF_WBUF k Hh Hr ltac:(done)) as (w & s1 & E1 & Hpl1 & Hr1 & Hc1).
  rewrite (bind_ok _ _ _ _ _ E1). destruct (Z.eqb_spec w 0) as [->|Hw].
  { exists s1. split; [done|]. split; [done|]. left. destruct Hc1 as [(_ & ? & ?)|[? _]]; done. }
  destruct Hc1 as [[? _]|[_ [Hh1 Hrich1]]]; [done|].
  destruct (kern_malloc_ok F B (w :: H) WBUF_CAP (set_fs s1 k) Hh1 Hr1 ltac:(done)) as (p & s2 & E2 & Hpl2 & Hr2 & Hc2).
  rewrite (bind_ok _ _ _ _ _ E2). destruct (Z.eqb_spec p 0) as [->|Hp].
  { destruct Hc2 as [(_ & [Hh2 Hrich2] & Hno)|[? _]]; [|done].
    destruct (kern_free_ok F B H w (set_fs s2 (set_fs s1 k)) Hh2 Hr2) as (s3 & E3 & Hpl3 & Hr3 & [Hh3 Hrich3]).
    rewrite (bind_ok _ _ _ _ _ E3). exists s3. split; [by do 2 (eapply place_trans; [eassumption|])|]. split; [done|]. left. split; [done|].
    split; [split; [done|]; intros; by apply Hrich3, Hrich2, Hrich1|]. intros Hx. by apply Hno, Hrich1. }
  destruct Hc2 as [[? _]|[_ [Hh2 Hrich2]]]; [done|].
  assert (k_wbufs k !! w = None) as Hnone.
  { apply kh_ok_nodup in Hh1. apply NoDup_cons in Hh1 as [Hx _]. destruct (k_wbufs k !! w) as [b|] eqn:E; [by apply Hin in E|done]. }
  unfold bind, gets. cbn [set_fs k_wbufs]. rewrite Hnone. exists s2. split; [by eapply place_trans|]. split; [done|]. right. exists w, p.
  split; [done|]. split; [done|]. split; [done|]. split; [done|]. intros; by apply Hrich2, Hrich1.
Qed.

(** [sys_open] for writing. *)
Lemma open_write_ok F B H (k : kern) me r i upath path :
  volume g k F B H -> wbufs_in k H -> task k me r -> free_fd (p_fds r) = Some i -> user_string k upath path ->
  exists s, place_eq (k_fs k) s /\ repr g s F B
  /\ (sys_open upath O_WRITE k = Some (-1, set_fs s k) /\ heap_step H H (k_fs k) s /\ ~ kh_rich (mem (k_fs k))
      \/ exists w p d, sys_open upath O_WRITE k
           = Some (Z.of_nat i, put_fd me r i (writer_fd w d) (set_wbufs (<[w := wbuf_new p path]> (k_wbufs k)) (set_fs s k)))
         /\ w <> 0 /\ k_wbufs k !! w = None /\ heap_step H (p :: w :: H) (k_fs k) s).
Proof.
  intros [Hm Hr Hh] Hin Ht Hi Hp. destruct (free_fd_Some _ _ Hi) as (d & Hd & _).
  unfold sys_open. rewrite (with_path_ok k upath path), (bind_ok _ _ _ _ _ (current_ok _ _ _ Ht)) by done.
  destruct (Z.eqb_spec me 0); [by destruct (tk_nonzero _ _ _ Ht)|].
  rewrite (bind_ok _ _ _ _ _ (proc_load_at k me r (tk_proc _ _ _ Ht))), Hi. change (negb (Z.land O_WRITE Syscall.O_WRITE =? 0)) with true. cbv iota.
  destruct (wbuf_open_ok F B H path k Hh Hr Hin) as (s & Hpl & Hr1 & [(E & Hhs & Hno)|(w & p & E & Hw & Hnone & Hhs)]); rewrite (bind_ok _ _ _ _ _ E);
    exists s; (split; [done|split; [done|]]); [by left|right]. apply Z.eqb_neq in Hw as Hw'. rewrite Hw'.
  exists w, p, d. split; [|done]. set (k1 := set_wbufs _ _).
  rewrite (bind_ok _ _ _ _ _ (fd_load_ok k1 me r i d (tk_proc _ _ _ Ht) Hd)), (bind_ok _ _ _ _ _ (fd_store_ok k1 me r i _ (tk_proc _ _ _ Ht))). done.
Qed.

(** ** Writing *)

(** Descriptor [i] of the process writes into the buffer [b] at [w]. *)
Record writing (k : kern) (me : Z) (r : process) (i : nat) (w : Z) (b : wbuf) : Prop := {
  wt_task : task k me r;
  wt_fd : exists d, p_fds r !! i = Some d /\ fd_kind d = FD_FILE /\ fd_writable d = 1 /\ fd_wbuf d = w;
  wt_nonzero : w <> 0;
  wt_buf : k_wbufs k !! w = Some b;
  wt_ok : wbuf_ok b }.

Lemma wbuf_load_ok (k : kern) w b : k_wbufs k !! w = Some b -> wbuf_load w k = Some (b, k).
Proof. intros E. unfold wbuf_load. by rewrite E. Qed.

(** A write appends the bytes there is room for and says how many. *)
Lemma fd_write_ok (k : kern) me r i w b buf l :
  writing k me r i w b -> holds k buf l -> user_range_ok buf (Z.of_nat (length l)) = true -> is_u32 (Z.of_nat (length l)) ->
  let n := Z.min (Z.of_nat (length l)) (WBUF_CAP - w_len b) in
  exists b', sys_write_fd (Z.of_nat i) buf (Z.of_nat (length l)) k = Some (Done n, set_wbufs (<[w := b']> (k_wbufs k)) k)
  /\ wbuf_ok b' /\ wbytes b' = wbytes b ++ take (Z.to_nat n) l /\ w_refcount b' = w_refcount b /\ w_path b' = w_path b /\ w_ptr b' = w_ptr b.
Proof.
  intros [Ht (d & Hi & Hk & Hw & Hwb) H0 Hb Hok] Hl Hrange Hlen n. unfold sys_write_fd, do_fd_write.
  rewrite (bind_ok _ _ _ _ _ (lookup_fd_ok k me r i d Ht Hi ltac:(by rewrite Hk))), Hrange, Hk. cbn [negb].
  change (FD_FILE =? FD_TTY_OUT) with false. change (FD_FILE =? FD_FILE) with true. cbv iota.
  unfold file_write. rewrite Hw, Hwb. apply Z.eqb_neq in H0. rewrite H0. cbn [Z.eqb orb].
  destruct (wbuf_write_correct (user_view k buf) (Z.of_nat (length l)) b Hok Hlen) as (b' & E & Hok' & Hbytes & Href & Hpath & _). fold n in E, Hbytes.
  assert (0 <= n <= Z.of_nat (length l)) as Hn by (unfold n, wbuf_ok in *; lia).
  assert (w_ptr b' = w_ptr b) as Hptr by (unfold wbuf_write in E; by injection E as _ <-).
  assert ((let* n := (let* w0 := wbuf_load w in let* k0 := gets (fun k => k) in
     let '(n, w1) := wbuf_write (user_view k0 buf) (Z.of_nat (length l)) w0 in touch buf n;; (wbuf_store w w1;; ret n)) in ret (Done n)) k
    = Some (Done n, set_wbufs (<[w := b']> (k_wbufs k)) k)) as E'.
  { unfold bind at 1. rewrite (bind_ok _ _ _ _ _ (wbuf_load_ok k w b Hb)). unfold bind at 1, gets. rewrite E.
    replace n with (Z.of_nat (Z.to_nat n)) at 1 by lia.
    rewrite (bind_ok _ _ _ _ _ (touch_ok k buf (Z.to_nat n) ltac:(intros j Hj; eapply holds_mapped; [exact Hl|lia]))). done. }
  exists b'. split; [exact E'|]. split; [done|]. split; [|done]. rewrite Hbytes. f_equal.
  rewrite <- (holds_take_bytes k buf l (Z.to_nat n) Hl) by lia. rewrite Z2Nat.id by lia. done.
Qed.

(** A write buffer with the contents [out]. *)
Definition collects (b : wbuf) (p : Z) (path out : list Z) : Prop :=
  wbuf_ok b /\ wbytes b = out /\ w_refcount b = 1 /\ w_path b = path /\ w_ptr b = p.

(** What is left in memory for a list of writes: addresses and bytes. *)
Definition writes_ok (k : kern) (ws : list (Z * list Z)) : Prop :=
  Forall (fun x => holds k x.1 x.2 /\ Forall is_byte x.2 /\ is_u32 (Z.of_nat (length x.2)) /\ user_range_ok x.1 (Z.of_nat (length x.2)) = true) ws.

Fixpoint writes_run (fd : Z) (ws : list (Z * list Z)) : st kern (list sysret) :=
  match ws with
  | [] => ret []
  | (a, l) :: ws => let* v := sys_write_fd fd a (Z.of_nat (length l)) in let* vs := writes_run fd ws in ret (v :: vs)
  end.

(** The answers when [used] bytes are in the buffer, and the bytes that get into it. *)
Fixpoint write_counts (used : Z) (ws : list (Z * list Z)) : list sysret :=
  match ws with
  | [] => []
  | (_, l) :: ws => let n := Z.min (Z.of_nat (length l)) (WBUF_CAP - used) in Done n :: write_counts (used + n) ws
  end.
Definition collected (out : list Z) (ws : list (Z * list Z)) : list Z := take (Z.to_nat WBUF_CAP) (out ++ concat (snd <$> ws)).

Lemma wbytes_length b : wbuf_ok b -> Z.of_nat (length (wbytes b)) = w_len b.
Proof. intros Hb. unfold wbytes, wbuf_ok in *. rewrite length_map, length_seq. lia. Qed.

Lemma take_room (out l rest : list Z) (c : nat) : (length out <= c)%nat ->
  take c ((out ++ take (Nat.min (length l) (c - length out)) l) ++ rest) = take c (out ++ l ++ rest).
Proof.
  intros Hc. destruct (decide (length l <= c - length out)%nat) as [Hle|Hgt].
  - rewrite Nat.min_l by done. rewrite (take_ge l) by done. by rewrite <- app_assoc.
  - rewrite Nat.min_r by lia. rewrite take_app_le by (rewrite length_app, length_take; lia).
    rewrite !app_assoc, (take_app_le (out ++ l)) by (rewrite length_app; lia). rewrite !(take_app_ge out) by lia.
    by rewrite take_take, Nat.min_id.
Qed.

Lemma writes_run_ok ws : forall (k : kern) me r i w b p path out,
  writing k me r i w b -> collects b p path out -> writes_ok k ws ->
  exists b', writes_run (Z.of_nat i) ws k = Some (write_counts (Z.of_nat (length out)) ws, set_wbufs (<[w := b']> (k_wbufs k)) k)
  /\ collects b' p path (collected out ws).
Proof.
  induction ws as [|[a l] ws IH]; intros k me r i w b p path out Hwt Hc Hws; pose proof Hc as (Hok & Hout & Href & Hpath & Hptr); cbn [writes_run write_counts].
  - exists b. split.
    + rewrite insert_id by apply Hwt. unfold ret. do 2 f_equal. by destruct k.
    + unfold collected. rewrite app_nil_r, take_ge; [done|]. rewrite <- Hout. pose proof (wbytes_length b Hok). unfold wbuf_ok in Hok. lia.
  - apply Forall_cons in Hws as [(Hl & _ & Hlen & Hrange) Hws]. cbn [fst snd] in *.
    pose proof (wbytes_length b Hok) as Hwl. rewrite Hout in Hwl.
    destruct (fd_write_ok k me r i w b a l Hwt Hl Hrange Hlen) as (b1 & E1 & Hok1 & Hb1 & Href1 & Hpath1 & Hptr1).
    rewrite (bind_ok _ _ _ _ _ E1). rewrite Hwl. set (n := Z.min (Z.of_nat (length l)) (WBUF_CAP - w_len b)) in *.
    set (k1 := set_wbufs _ k) in *. assert (0 <= n) by (unfold n, wbuf_ok in *; lia).
    assert (writing k1 me r i w b1) as Hwt1.
    { destruct Hwt as [W1 W2 W3 W4 W5]. split; [by apply (task_sched k)|done|done|apply lookup_insert_eq|done]. }
    destruct (IH k1 me r i w b1 p path (out ++ take (Z.to_nat n) l) Hwt1) as (b2 & E2 & Hc2);
      [split_and!; congruence|exact Hws|].
    rewrite (bind_ok _ _ _ _ _ E2). exists b2. split.
    + unfold ret, k1. cbn [set_wbufs k_wbufs]. rewrite insert_insert_eq. do 2 f_equal. f_equal. f_equal. rewrite length_app, length_take. unfold n, wbuf_ok in *. lia.
    + assert (collected out ((a, l) :: ws) = collected (out ++ take (Z.to_nat n) l) ws) as ->; [|done].
      unfold collected. rewrite fmap_cons. cbn [snd concat].
      replace (Z.to_nat n) with (Nat.min (length l) (Z.to_nat WBUF_CAP - length out)) by (unfold n, wbuf_ok in *; lia).
      symmetry. apply take_room. unfold wbuf_ok in *. lia.
Qed.

(** ** Closing *)

(** What a file written under [name] leaves on a volume with the tables [F] and [B]: the
    name leads to the bytes and files under other names, in other clusters, are as they
    were; or, when memory suffices, there were too few free clusters. *)
Definition file_stored (F : Z -> Z) (B : Z -> Z -> Z) (c : Z) (dir : list Z) (m : Z) (name l : list Z) (size : Z) (f : Z -> Z) (rich : Prop)
    (F' : Z -> Z) (B' : Z -> Z -> Z) : Prop :=
  (exists dir' m' l', dir_ok g F' B' c dir' m' /\ file_on g F' B' dir' name l' size f
     /\ forall x lx n f0, name_match name x = false -> name_match (short_name name) x = false -> apart g B dir name x ->
          (forall y, y ∈ lx -> y ∉ l) -> file_on g F B dir x lx n f0 -> file_on g F' B' dir' x lx n f0)
  \/ (rich -> exists F1, (forall y, y ∉ l -> F1 y = F y) /\ (forall y, y ∈ l -> is_free F1 y = true) /\ shortage g F1 dir m name size).

(** The name is fit for a new file: in a directory in order, with an old file that can be
    removed. *)
Record writable_at (s : fs) (F : Z -> Z) (B : Z -> Z -> Z) (c : Z) (dir : list Z) (m : Z) (path name l : list Z) : Prop := {
  wa_direct : direct g s path c name;
  wa_dir : dir_ok g F B c dir m;
  wa_erasable : erasable g (mem s) B dir name;
  wa_name : storable name;
  wa_old : old_file g F B dir name l }.

Lemma vfs_write_ok F B c dir m path name l H data size (k : kern) :
  volume g k F B H -> writable_at (k_fs k) F B c dir m path name l -> is_u32 size ->
  exists v s F' B', on_vfs (fun o => vfs_write_file o path data size) k = Some (v, set_fs s k)
  /\ place_eq (k_fs k) s /\ heap_step H H (k_fs k) s /\ repr g s F' B'
  /\ (v = 0 \/ v = -1) /\ file_stored F B c dir m name l size (fun x => u8 (data x)) (kh_rich (mem (k_fs k))) F' B'.
Proof.
  intros [Hm Hr Hh] [Hdir Hd Her Hn Hold] Hsize.
  destruct (write_file_ok g Hg F B c dir m H path name l data size (k_fs k) Hdir Hr Hd Hh Her Hn Hsize Hold) as (F1 & B1 & Hrm & Ho).
  destruct Ho as (v & s & F' & B' & E & Hpl & Hh' & Hr' & Hcase). exists v, s, F', B'.
  split; [exact (on_vfs_ok (fun o => vfs_write_file o path data size) k _ _ _ Hm E)|]. do 3 (split; [done|]).
  destruct Hcase as [(-> & dir' & m' & Hd' & Had)|(-> & Hsh & _)]; (split; [auto|]).
  - left. destruct Hrm as [Hrm|(_ & _ & _ & s0 & E0)]; [|congruence].
    destruct (ad_file _ _ _ _ _ _ _ _ _ _ Had) as (l' & Hf & _). exists dir', m', l'. split; [done|]. split; [done|].
    intros x lx n f0 H1 H2 Hx Hlx Hf0. apply (ad_other _ _ _ _ _ _ _ _ _ _ Had x H1 H2). by apply (rm_other _ _ _ _ _ _ _ _ Hrm x Hx).
  - right. intros Hrich. destruct Hrm as [Hrm|(_ & _ & ? & _)]; [|done]. exists F1. split; [intros y Hy; by apply Hrm|]. split; [apply Hrm|auto].
Qed.

Lemma file_on_ext F B dir name l n f f' : (forall x, 0 <= x < n -> f x = f' x) -> file_on g F B dir name l n f -> file_on g F B dir name l n f'.
Proof. intros H (i & lf & E & He & Hn & Hl & Hf). exists i, lf. do 4 (split; [done|]). intros x Hx. by rewrite Hf, H. Qed.

Lemma file_stored_ext F B c dir m name l size f f' rich F' B' : (forall x, 0 <= x < size -> f x = f' x) ->
  file_stored F B c dir m name l size f rich F' B' -> file_stored F B c dir m name l size f' rich F' B'.
Proof.
  intros H [(dir' & m' & l' & Hd & Hf & Ho)|Hs]; [left|by right]. exists dir', m', l'. split; [done|]. split; [by eapply file_on_ext|done].
Qed.

Lemma wbytes_ch b x : wbuf_ok b -> 0 <= x < w_len b -> w_buf b x = ch (wbytes b) x.
Proof.
  intros Hb Hx. unfold wbuf_ok in Hb. unfold ch, wbytes. rewrite (nth_indep _ 0 (w_buf b (Z.of_nat 0))) by (rewrite length_map, length_seq; lia).
  rewrite (map_nth (fun i => w_buf b (Z.of_nat i))), seq_nth by lia. f_equal. lia.
Qed.

(** Dropping the last reference: the bytes are stored under the path and the buffer is gone. *)
Lemma wbuf_unref_ok F B c dir m path name l H out (k : kern) w b p :
  volume g k F B (p :: w :: H) -> writable_at (k_fs k) F B c dir m path name l ->
  k_wbufs k !! w = Some b -> w <> 0 -> collects b p path out -> Forall is_byte out ->
  exists s F' B', wbuf_unref w k = Some (tt, set_wbufs (delete w (k_wbufs k)) (set_fs s k))
  /\ place_eq (k_fs k) s /\ heap_step (p :: w :: H) H (k_fs k) s /\ repr g s F' B'
  /\ file_stored F B c dir m name l (Z.of_nat (length out)) (ch out) (kh_rich (mem (k_fs k))) F' B'.
Proof.
  intros Hv Hwa Hb Hw (Hok & Hout & Href & Hpath & Hptr) Hbytes. unfold wbuf_unref. apply Z.eqb_neq in Hw. rewrite Hw.
  rewrite (bind_ok _ _ _ _ _ (wbuf_load_ok k w b Hb)). unfold wbuf_drop. cbn [w_refcount]. rewrite Href. change (s32 (1 - 1)) with 0. cbn [Z.ltb Z.compare].
  set (b' := mk_wbuf _ _ _ _ _). unfold wbuf_store at 1, modify, bind at 1. cbn [w_path w_buf w_len w_ptr b'].
  set (k1 := set_wbufs (<[w := b']> (k_wbufs k)) k). pose proof (wbytes_length b Hok) as Hlen. rewrite Hout in Hlen. rewrite Hpath, Hptr.
  assert (is_u32 (w_len b)) as Hu by (unfold wbuf_ok, WBUF_CAP, is_u32 in *; lia).
  assert (volume g k1 F B (p :: w :: H)) as Hv1 by (destruct Hv; by split).
  destruct (vfs_write_ok F B c dir m path name l (p :: w :: H) (w_buf b) (w_len b) k1 Hv1 Hwa Hu) as (v & s1 & F' & B' & E1 & Hpl1 & [Hh1 Hrich1] & Hr1 & _ & Hst).
  rewrite (bind_ok _ _ _ _ _ E1).
  destruct (kern_free_ok F' B' (w :: H) p (set_fs s1 k1) Hh1 Hr1) as (s2 & E2 & Hpl2 & Hr2 & [Hh2 Hrich2]). rewrite (bind_ok _ _ _ _ _ E2).
  unfold bind, modify. cbn [set_fs set_wbufs k_wbufs].
  destruct (kern_free_ok F' B' H w (set_wbufs (delete w (k_wbufs k1)) (set_fs s2 (set_fs s1 k1))) Hh2 Hr2) as (s3 & E3 & Hpl3 & Hr3 & [Hh3 Hrich3]).
  exists s3, F', B'. split; [etrans; [exact E3|]|split; [by do 2 (eapply place_trans; [eassumption|])|split; [split; [done|]; intros; by apply Hrich3, Hrich2, Hrich1|split; [done|]]]].
  - unfold k1. cbn [set_wbufs k_wbufs set_fs]. by rewrite delete_insert_eq.
  - rewrite Hlen. refine (file_stored_ext _ _ _ _ _ _ _ _ _ _ _ _ _ _ Hst). intros x Hx. cbv beta. rewrite wbytes_ch, Hout by done. apply u8_small.
    rewrite Forall_lookup in Hbytes. eapply (Hbytes (Z.to_nat x)). apply ch_elem. lia.
Qed.

Lemma close_write_ok F B c dir m path name l H out (k : kern) me r i w b p :
  volume g k F B (p :: w :: H) -> writable_at (k_fs k) F B c dir m path name l ->
  writing k me r i w b -> collects b p path out -> Forall is_byte out ->
  exists s F' B' d, sys_close (Z.of_nat i) k = Some (0, put_fd me r i d (set_wbufs (delete w (k_wbufs k)) (set_fs s k))) /\ fd_kind d = FD_NONE
  /\ place_eq (k_fs k) s /\ heap_step (p :: w :: H) H (k_fs k) s /\ repr g s F' B'
  /\ file_stored F B c dir m name l (Z.of_nat (length out)) (ch out) (kh_rich (mem (k_fs k))) F' B'.
Proof.
  intros Hv Hwa [Ht (d & Hi & Hk & Hw & Hwb) H0 Hb Hok] Hc Hbytes.
  destruct (wbuf_unref_ok F B c dir m path name l H out k w b p Hv Hwa Hb H0 Hc Hbytes) as (s & F' & B' & E & Hrest).
  exists s, F', B', (cleared d). split; [|done]. unfold sys_close.
  rewrite (bind_ok _ _ _ _ _ (lookup_fd_ok k me r i d Ht Hi ltac:(by rewrite Hk))). unfold release_fd. rewrite Hk, Hw, Hwb.
  change (FD_FILE =? FD_FILE) with true. change (FD_FILE =? FD_PIPE_READ) with false. change (FD_FILE =? FD_PIPE_WRITE) with false. cbn [Z.eqb negb andb].
  unfold bind at 1. rewrite (bind_ok _ _ _ _ _ E). unfold ret at 1. rewrite Nat2Z.id.
  rewrite (bind_ok _ _ _ _ _ (fd_store_ok (set_wbufs (delete w (k_wbufs k)) (set_fs s k)) me r i _ (tk_proc _ _ _ Ht))). done.
Qed.

(** ** Opening, writing and closing *)

Definition write_to (upath : Z) (ws : list (Z * list Z)) : st kern (Z * list sysret * Z) :=
  let* fd := sys_open upath O_WRITE in
  if fd <? 0 then ret (fd, [], -1)
  else
    let* vs := writes_run fd ws in
    let* v := sys_close fd in
    ret (fd, vs, v).

Lemma collected_bytes (k : kern) ws : writes_ok k ws -> Forall is_byte (collected [] ws).
Proof.
  intros Hws. unfold collected. apply Forall_take. simpl. apply Forall_concat. unfold writes_ok in Hws. rewrite Forall_forall in Hws.
  apply Forall_forall. intros l (x & -> & Hx)%list_elem_of_fmap. by apply Hws.
Qed.

Lemma wbuf_new_collects p path : (length path <= 63)%nat -> collects (wbuf_new p path) p path [].
Proof. intros H. unfold collects, wbuf_new. simpl. rewrite take_ge by done. split_and!; try done; unfold wbuf_ok, WBUF_CAP; simpl; lia. Qed.

End FileWrites.

(** ** Theorems *)

Section Theorems.
Context {D A : Type} `{BD : BlockDev D} `{KH : KernelHeap A} `{PS : PageShare A}.
Context `{L : Layout} `{M : Machine}.


End Theorems.

(** ** A process that overwrites its file *)

Module Demo.

Import KernDemo.

#[local] Abbreviation demo_geom := Table.Demo.demo_geom.

(** The name itself is written, without and with its terminator. *)
Definition pieces : list (Z * list Z) := [(FileCalls.Demo.path_addr, Spec.Demo.demo_name); (FileCalls.Demo.path_addr, Spec.Demo.demo_name ++ [0])].

Lemma pieces_ok : writes_ok FileCalls.Demo.ready pieces.
Proof.
  constructor; [|constructor; [|constructor]]; (split; [apply FileCalls.Demo.there_holds; vm_compute; reflexivity|]);
    (split; [repeat constructor; unfold is_byte; lia|]); (split; [unfold is_u32; cbn; lia|vm_compute; reflexivity]).
Qed.

Lemma mount_wbufs k m : wbufs_in (with_phys m (FileCalls.Demo.mount_on k)) [].
Proof. intros w b E. unfold with_phys, FileCalls.Demo.mount_on in E. cbn [set_vm k_wbufs] in E. by rewrite lookup_empty in E. Qed.

Lemma mount_writable k m : writable_at demo_geom (k_fs (with_phys m (FileCalls.Demo.mount_on k))) Spec.Demo.demo_table Spec.Demo.demo_clusters 2 [2] 1
  Spec.Demo.demo_name Spec.Demo.demo_name [3; 4].
Proof.
  split; [|exact Spec.Demo.volume_dir|left; exact I|exact Spec.Demo.demo_storable|exact Spec.Demo.demo_file].
  destruct Spec.Demo.demo_direct as (H1 & H2 & _). split; [exact H1|]. split; [exact H2|]. left. split; reflexivity.
Qed.

Lemma demo_wbufs : wbufs_in FileCalls.Demo.ready [].
Proof. destruct FileCalls.Demo.ready_eq as (m & E). rewrite E. apply mount_wbufs. Qed.

Lemma demo_writable : writable_at demo_geom (k_fs FileCalls.Demo.ready) Spec.Demo.demo_table Spec.Demo.demo_clusters 2 [2] 1
  Spec.Demo.demo_name Spec.Demo.demo_name [3; 4].
Proof. destruct FileCalls.Demo.ready_eq as (m & E). rewrite E. apply mount_writable. Qed.

End Demo.


End FileWrites.
