(* ===== verification/UserRun.v ===== *)
(** * Programs in user mode

    A program as a tree of instructions that leave it: system calls and accesses to its
    memory.  [urun] runs it on the kernel of [Kern] and [Syscall] until it sleeps, ends or
    faults.  The lemmas say what the calls do that every sample program makes: writing a
    string to the console and ending. *)

From S2P Require Import Prelude Pmm Heap Disk Fat32Names Fat32 Sched SchedProps SchedFrame Pipe Paging PagingProps Elf Vfs Drivers Kern Syscall UserMem CallSpecs KernDemo KernOps FileCalls.

Module UserRun.

Import Proc Sched SchedProps Frame Pipe Paging Fat32 Vfs Kern Syscall UserMem CallSpecs KernOps FileCalls.

(** ** Programs *)

(** [Int80]: the registers eax, ebx, ecx and edx of the interrupt, and what follows for
    each value of eax. *)
Inductive uprog :=
| Halt
| Int80 (eax ebx ecx edx : Z) (k : Z -> uprog)
| LoadB (a : Z) (k : Z -> uprog)
| StoreB (a v : Z) (p : uprog).

Declare Scope uprog_scope.
Delimit Scope uprog_scope with uprog.
Notation "x <- c ;; k" := (c (fun x => k)) (at level 100, c at level 99, right associativity, only parsing) : uprog_scope.
Notation "'do' c ;; k" := (c (fun _ => k)) (at level 100, c at level 99, right associativity, only parsing) : uprog_scope.

(** How it comes to leave user mode for longer: it ran to its end, it called exit, it
    sleeps in the kernel, it became another program, or a fault killed it. *)
Inductive uend :=
| Halted
| Exited
| Sleeping (k : Z -> uprog)
| Execed (entry user_esp : Z)
| Killed.

(** The frame the interrupt stub builds from the registers of the call. *)
Definition int80_regs (eax ebx ecx edx : Z) : list Z := [0; 0; 0; 0; 0; ebx; edx; ecx; eax; 0; 0; 0x1B; 0; 0; 0; 0].

Section Run.
Context {D A : Type} `{BD : BlockDev D} `{KH : KernelHeap A} `{PS : PageShare A}.
Context `{L : Layout} `{M : Machine}.
Context (cmos : Z -> Z -> Z) (rtc_fuel : nat).

Abbreviation kern := (kern (D := D) (A := A)).

(** Ring 3 reaches the addresses below the kernel's that are mapped. *)
Definition user_access (k : kern) (a : Z) : option Z := if a <? USER_LIMIT then user_addr k a else None.

(** A page fault from ring 3: the error code says whether the page is there (bit 0),
    whether it was a store (bit 1), and that it came from user mode (bit 2). *)
Definition user_fault (store : Z) (a : Z) : st kern uend :=
  let* k := gets (fun k => k) in
  let there := match user_addr k a with Some _ => 1 | None => 0 end in
  isr_handler 14 (there + 2 * store + 4) 0x1B a ;;
  ret Killed.

Fixpoint urun (p : uprog) : st kern uend :=
  match p with
  | Halt => ret Halted
  | Int80 eax ebx ecx edx k =>
    let* r := syscall_handler cmos rtc_fuel (int80_regs eax ebx ecx edx) in
    match r with
    | Done v => urun (k v)
    | Asleep => ret (Sleeping k)
    | Gone => ret Exited
    | NewImage entry user_esp => ret (Execed entry user_esp)
    end
  | LoadB a k =>
    let* kn := gets (fun k => k) in
    match user_access kn a with
    | Some q => urun (k (phys (k_vm kn) q))
    | None => user_fault 0 a
    end
  | StoreB a v p =>
    let* kn := gets (fun k => k) in
    match user_access kn a with
    | Some _ => put_user a v ;; urun p
    | None => user_fault 1 a
    end
  end.

(** ** The calls of the samples (the [SYS_] numbers of their sources) *)

Definition sys_write_ (buf len : Z) (k : Z -> uprog) : uprog := Int80 0 buf len 0 k.
Definition sys_exit_ (code : Z) : uprog := Int80 1 (u32 code) 0 0 (fun _ => Halt).
Definition sys_getpid_ (k : Z -> uprog) : uprog := Int80 2 0 0 0 k.
Definition sys_read_ (buf len : Z) (k : Z -> uprog) : uprog := Int80 3 buf len 0 k.
Definition sys_sleep_ (ms : Z) (k : Z -> uprog) : uprog := Int80 4 ms 0 0 k.
Definition sys_readfile_ (path buf max : Z) (k : Z -> uprog) : uprog := Int80 5 path buf max k.
Definition sys_writefile_ (path buf len : Z) (k : Z -> uprog) : uprog := Int80 6 path buf len k.
Definition sys_fork_ (k : Z -> uprog) : uprog := Int80 7 0 0 0 k.
Definition sys_exec_ (path : Z) (k : Z -> uprog) : uprog := Int80 8 path 0 0 k.
Definition sys_wait_ (status : Z) (k : Z -> uprog) : uprog := Int80 9 status 0 0 k.
Definition sys_open_ (path flags : Z) (k : Z -> uprog) : uprog := Int80 11 path flags 0 k.
Definition sys_close_ (fd : Z) (k : Z -> uprog) : uprog := Int80 12 (u32 fd) 0 0 k.
Definition sys_read_fd_ (fd buf len : Z) (k : Z -> uprog) : uprog := Int80 13 (u32 fd) buf len k.
Definition sys_dup2_ (fd newfd : Z) (k : Z -> uprog) : uprog := Int80 15 (u32 fd) (u32 newfd) 0 k.

(** A load of a little-endian word. *)
Definition Load32 (a : Z) (k : Z -> uprog) : uprog :=
  LoadB a (fun b0 => LoadB (a + 1) (fun b1 => LoadB (a + 2) (fun b2 => LoadB (a + 3) (fun b3 =>
    k (b0 + 256 * b1 + 65536 * b2 + 16777216 * b3))))).

(** [while (s[n]) n++;], for strings of less than [fuel] characters. *)
Fixpoint slen (fuel : nat) (s n : Z) (k : Z -> uprog) : uprog :=
  match fuel with
  | O => Halt
  | S fuel => LoadB (s + n) (fun c => if c =? 0 then k n else slen fuel s (n + 1) k)
  end.
Definition SLEN_FUEL : nat := 256.

(** [sc(SYS_WRITE, (int)s, slen(s), 0)]. *)
Definition write_str (s : Z) (p : uprog) : uprog := slen SLEN_FUEL s 0 (fun n => sys_write_ s n (fun _ => p)).

(** A local array filled with its initial value. *)
Fixpoint init_array (a : Z) (l : list Z) (p : uprog) : uprog :=
  match l with [] => p | c :: l => StoreB a c (init_array (a + 1) l p) end.

(** ** Strings on the console *)

Definition say (s : list Z) (k : kern) : kern := set_fs (put_term s (k_fs k)) k.

Lemma say_app s t (k : kern) : say t (say s k) = say (s ++ t) k.
Proof. unfold say, put_term. cbn [k_fs set_fs cwd_cluster cwd_path dev mem term]. by rewrite app_assoc. Qed.

(** A process whose descriptor [i] is the console. *)
Definition console (r : process) (i : nat) : Prop := exists d, p_fds r !! i = Some d /\ fd_kind d = FD_TTY_OUT.

Lemma handler_write k buf len : is_u32 buf -> is_u32 len -> syscall_handler (D := D) (A := A) cmos rtc_fuel (int80_regs 0 buf len 0) k = sys_write buf len k.
Proof. done. Qed.

Lemma access_ok (k : kern) a p : a < USER_LIMIT -> user_addr k a = Some p -> user_access k a = Some p.
Proof. intros Ha E. unfold user_access. by destruct (Z.ltb_spec a USER_LIMIT); [|lia]. Qed.

(** Bytes written to the console. *)
Lemma write_bytes_run (k : kern) me r a l p : task k me r -> console r 1 -> holds k a l -> a <> 0 -> 0 <= a ->
  a + Z.of_nat (length l) <= USER_LIMIT -> (l <> [] \/ a < USER_LIMIT) ->
  urun (sys_write_ a (Z.of_nat (length l)) p) k = urun (p (s32 (Z.of_nat (length l)))) (say l k).
Proof.
  intros Ht (d & Hd & Hk) Hl H0 Ha Hlim Hne. unfold sys_write_. cbn [urun]. change USER_LIMIT with 0xC0000000 in *.
  assert (a < 0xC0000000) as Hlt by (destruct Hne as [Hne|?]; [destruct l; [done|simpl in Hlim; lia]|done]).
  assert (sys_write a (Z.of_nat (length l)) k = Some (Done (s32 (Z.of_nat (length l))), say l k)) as E.
  { unfold sys_write, do_fd_write. change 1 with (Z.of_nat 1). rewrite (bind_ok _ _ _ _ _ (lookup_fd_ok k me r 1 d Ht Hd ltac:(by rewrite Hk))).
    assert (user_range_ok a (Z.of_nat (length l)) = true) as -> by (unfold user_range_ok; change USER_LIMIT with 0xC0000000; zspec; simpl; done || lia).
    cbn [negb]. rewrite Hk. change (FD_TTY_OUT =? FD_TTY_OUT) with true. cbv iota. unfold tty_write, bind at 1.
    rewrite (bind_ok _ _ _ _ _ (touch_ok k a (length l) ltac:(intros j Hj; by eapply holds_mapped))). unfold bind, gets, terminal, on_fs, modify, ret.
    rewrite (holds_take_bytes k a l) by done. by rewrite take_ge by lia. }
  change (syscall_handler cmos rtc_fuel (int80_regs 0 a (Z.of_nat (length l)) 0)) with (sys_write (D := D) (A := A) a (Z.of_nat (length l))).
  by rewrite (bind_ok _ _ _ _ _ E).
Qed.

Lemma slen_run (k : kern) s : forall (fuel : nat) a n p, holds k (a + n) (s ++ [0]) -> Forall (fun c => c <> 0) s -> (length s < fuel)%nat ->
  a + n + Z.of_nat (length s) < USER_LIMIT -> urun (slen fuel a n p) k = urun (p (n + Z.of_nat (length s))) k.
Proof.
  induction s as [|c s IH]; intros fuel a n p H Hs Hf Hlim; (destruct fuel as [|fuel]; [simpl in Hf; lia|]); cbn [slen urun length] in *;
    destruct (H 0%nat _ eq_refl) as (q & Eq & Hq); rewrite Z.add_0_r in Eq; unfold bind at 1, gets; rewrite (access_ok k (a + n) _ ltac:(lia) Eq), Hq.
  - cbn [Z.eqb]. by rewrite Z.add_0_r.
  - apply Forall_cons in Hs as [Hc Hs]. apply Z.eqb_neq in Hc. rewrite Hc.
    change ((c :: s) ++ [0]) with ([c] ++ s ++ [0]) in H. apply holds_app in H as [_ H]. cbn [length] in H.
    rewrite IH; [do 2 f_equal; lia|by rewrite Z.add_assoc|done|lia|lia].
Qed.

(** A string goes to the console whole, without its terminator. *)
Lemma write_str_run (k : kern) me r a s p : task k me r -> console r 1 -> user_string k a s -> urun (write_str a p) k = urun p (say s k).
Proof.
  intros Ht Hc (Ha & H0 & Hlim & Hs & Hlen & H). unfold write_str. rewrite (slen_run k s) by (rewrite ?Z.add_0_r; done || lia || (unfold SLEN_FUEL; lia)).
  rewrite Z.add_0_l. apply holds_app in H as [H _]. rewrite (write_bytes_run k me r a s) by (done || (unfold is_u32 in Ha; lia) || (right; lia)). done.
Qed.

Lemma say_task (k : kern) s me r : task k me r -> task (say s k) me r.
Proof. by apply task_sched. Qed.

Lemma user_string_vm (k k' : kern) a s : k_vm k' = k_vm k -> user_string k a s -> user_string k' a s.
Proof.
  intros E (H1 & H2 & H3 & H4 & H5 & H). do 5 (split; [done|]). intros i c Hi. unfold user_addr. rewrite E. by apply H.
Qed.

Lemma say_string (k : kern) s a t : user_string k a t -> user_string (say s k) a t.
Proof. by apply user_string_vm. Qed.

(** ** The end of a process *)

(** Nothing behind a descriptor has to be given back. *)
Definition plain_fd (d : file_desc) : Prop := fd_kind d = FD_NONE \/ fd_kind d = FD_TTY_IN \/ fd_kind d = FD_TTY_OUT \/ fd_kind d = FD_FILE /\ fd_writable d = 0.

Lemma each_fd_skip (k : kern) (body : nat -> st kern unit) : (forall i, (i < MAX_FDS)%nat -> body i k = Some (tt, k)) -> each_fd body k = Some (tt, k).
Proof.
  intros H. unfold each_fd. assert (forall l, Forall (fun i => i < MAX_FDS)%nat l ->
    (fix go l := match l with [] => ret tt | i :: l => body i ;; go l end) l k = Some (tt, k)) as Hl.
  { induction 1 as [|i l Hi _ IH]; [done|]. by rewrite (bind_ok _ _ _ _ _ (H i Hi)). }
  apply Hl. apply Forall_forall. intros i [_ Hi]%elem_of_seq. done.
Qed.

Lemma close_plain (k : kern) me r : task k me r -> Forall plain_fd (p_fds r) ->
  fd_close_writable me k = Some (tt, k) /\ fd_close_pipes me k = Some (tt, k).
Proof.
  intros Ht Hp. split; apply each_fd_skip; intros i Hi; destruct (lookup_lt_is_Some_2 (p_fds r) i) as (d & Hd); try (rewrite (tk_fds _ _ _ Ht); done);
    rewrite Forall_lookup in Hp; specialize (Hp i d Hd); [unfold close_writable_fd|unfold close_pipe_fd];
    rewrite (bind_ok _ _ _ _ _ (fd_load_ok k me r i d (tk_proc _ _ _ Ht) Hd)).
  - destruct Hp as [->|[->|[->|[-> ->]]]]; done.
  - destruct (fd_pipe d =? 0); [done|]. destruct Hp as [->|[->|[->|[-> _]]]]; done.
Qed.

(** The running process's record changed where no queue looks. *)
Lemma member_store (k : kern) Q p r f : members kernel_task_addr (k_sched k) Q -> procs (k_sched k) !! p = Some r ->
  p_state (f r) = p_state r -> p_next (f r) = p_next r ->
  exists k', proc_store p f k = Some (tt, k') /\ k' = set_sched (set_procs (<[p := f r]> (procs (k_sched k))) (k_sched k)) k
  /\ members kernel_task_addr (k_sched k') Q.
Proof.
  intros Hm Hr Hs Hn. eexists. split; [by apply proc_store_at|]. split; [done|]. by eapply store_effect.
Qed.

Lemma members_fg (k : kern) Q v : members kernel_task_addr (k_sched k) Q -> members kernel_task_addr (set_fg v (k_sched k)) Q.
Proof. intros (ring & blk & zom & Hok & HQ). exists ring, blk, zom. split; [|done]. by destruct Hok as [[[]] ?]. Qed.

Lemma find_any_member (k : kern) Q pid : members kernel_task_addr (k_sched k) Q ->
  exists p, on_sched (scheduler_find_any pid) k = Some (p, k) /\ (p = 0 \/ exists r, procs (k_sched k) !! p = Some r).
Proof.
  intros (ring & blk & zom & Hok & HQ). destruct (sched_ok_head _ _ _ _ _ Hok) as (t & rc & Er & _).
  assert (forall p, found (k_sched k) (fun r => p_pid r =? pid) ring p \/ found (k_sched k) (fun r => p_pid r =? pid) blk p ->
    p = 0 \/ exists r, procs (k_sched k) !! p = Some r) as Hf.
  { intros p [[[-> _]|(_ & _ & r & Hr & _)]|[[-> _]|(_ & _ & r & Hr & _)]]; eauto. }
  unfold on_sched, scheduler_find_any, scheduler_find.
  destruct (ring_search_ok _ _ _ _ _ (fun r => p_pid r =? pid) Hok) as (q & E & Hq). unfold bind. rewrite E.
  destruct (negb (q =? 0)); [exists q; split; [by destruct k|auto]|].
  destruct (blocked_search_ok _ _ _ _ _ (fun r => p_pid r =? pid) Hok) as (q' & E' & Hq'). rewrite E'. exists q'. split; [by destruct k|auto].
Qed.

Lemma wake_waiter_member (k : kern) Q parent child : members kernel_task_addr (k_sched k) Q ->
  exists p s', on_sched (scheduler_wake_waiter parent child) k = Some (p, set_sched s' k) /\ members kernel_task_addr s' Q
  /\ current_process s' = current_process (k_sched k).
Proof.
  intros Hm. pose proof Hm as (ring & blk & zom & Hok & HQ). unfold on_sched, scheduler_wake_waiter.
  match goal with |- context [blocked_search ?t] => destruct (blocked_search_ok _ _ _ _ _ t Hok) as (q & E & Hq) end. unfold bind. rewrite E.
  destruct (Z.eqb_spec q 0) as [->|H0]; [by exists 0, (k_sched k)|]. destruct Hq as [[? _]|(_ & _ & r & Hr & _)]; [done|].
  destruct (wake_effect _ _ _ q r Hm Hr H0) as (s' & E' & Hm' & Hc & _). rewrite E'. by exists q, s'.
Qed.

(** What a process keeps until it is dead. *)
Definition same_task (r r' : process) : Prop :=
  p_pid r' = p_pid r /\ p_parent_pid r' = p_parent_pid r /\ p_exit_code r' = p_exit_code r /\ p_fds r' = p_fds r.

(** The keyboard goes back to the parent of the foreground process. *)
Lemma hand_over_ok (k : kern) Q me r : members kernel_task_addr (k_sched k) Q -> task k me r ->
  exists s' r', (let* fg := on_sched (gets foreground_process) in
    if fg =? me then
       on_sched (modify (set_fg 0)) ;;
       if negb (p_parent_pid r =? 0) then
         let* parent := on_sched (scheduler_find_any (p_parent_pid r)) in
         if negb (parent =? 0) then
           proc_store parent (set_foreground 1) ;;
           on_sched (modify (set_fg parent))
         else ret tt
       else ret tt
     else ret tt) k = Some (tt, set_sched s' k)
  /\ members kernel_task_addr s' Q /\ task (set_sched s' k) me r' /\ same_task r r'.
Proof.
  intros Hm Ht. unfold bind at 1, on_sched at 1, gets. replace (set_sched (k_sched k) k) with k by (by destruct k).
  destruct (_ =? me); [|exists (k_sched k), r; replace (set_sched (k_sched k) k) with k by (by destruct k); done].
  unfold bind at 1, on_sched at 1, modify. pose proof (members_fg k Q 0 Hm) as Hm1. set (k1 := set_sched (set_fg 0 (k_sched k)) k).
  assert (task k1 me r) as Ht1 by (by destruct Ht). destruct (negb _); [|by exists (set_fg 0 (k_sched k)), r].
  destruct (find_any_member k1 Q (p_parent_pid r) Hm1) as (p & E & Hp). rewrite (bind_ok _ _ _ _ _ E).
  destruct (Z.eqb_spec p 0) as [->|Hp0]; [by exists (set_fg 0 (k_sched k)), r|]. destruct Hp as [?|(rp & Hp)]; [done|]. cbn [negb].
  destruct (member_store k1 Q p rp (set_foreground 1) Hm1 Hp) as (k2 & E2 & -> & Hm2); [done..|]. rewrite (bind_ok _ _ _ _ _ E2).
  pose proof (members_fg _ Q p Hm2) as Hm3. eexists _, (if decide (p = me) then set_foreground 1 rp else r). split; [done|]. split; [exact Hm3|].
  destruct Ht1 as [T1 T2 T3 T4]. destruct (decide (p = me)) as [->|Hne].
  - assert (rp = r) as -> by congruence. split; [split; [done|done|apply lookup_insert_eq|done]|done].
  - split; [split; [done|done| |done]|done]. cbn. by rewrite lookup_insert_ne.
Qed.

(** The process [me] has ended: it is dead, its code is on record for its parent, another
    process runs, and files, volume and screen are as they were. *)
Record ended (k k' : kern) (Q : list Z) (me : Z) (r : process) (code : Z) : Prop := {
  en_fs : k_fs k' = k_fs k;
  en_members : members kernel_task_addr (k_sched k') Q;
  en_other : current_process (k_sched k') <> me;
  en_dead : exists rd, procs (k_sched k') !! me = Some rd /\ p_state rd = PROCESS_DEAD;
  en_record : p_parent_pid r <> 0 -> mk_exit (p_pid r) (p_parent_pid r) code 1 ∈ k_exits k' }.

Lemma process_end_ok (k : kern) Q me r code : members kernel_task_addr (k_sched k) Q -> task k me r -> me <> kernel_task_addr ->
  Forall plain_fd (p_fds r) -> k_exits k <> [] ->
  exists k', (proc_store me (set_exit_code code) ;; process_exit) k = Some (tt, k') /\ ended k k' Q me r code.
Proof.
  intros Hm Ht Hkt Hp He. pose proof (tk_nonzero _ _ _ Ht) as H0. apply Z.eqb_neq in H0 as H0'.
  destruct (member_store k Q me r (set_exit_code code) Hm (tk_proc _ _ _ Ht)) as (k1 & E1 & -> & Hm1); [done..|]. rewrite (bind_ok _ _ _ _ _ E1).
  set (k1 := set_sched _ k) in *. set (r1 := set_exit_code code r).
  assert (task k1 me r1) as Ht1 by (destruct Ht; split; [done|done|apply lookup_insert_eq|done]).
  unfold process_exit. rewrite (bind_ok _ _ _ _ _ (current_ok _ _ _ Ht1)). apply Z.eqb_neq in Hkt as Hkt'. rewrite H0', Hkt'. cbn [orb].
  rewrite (bind_ok _ _ _ _ _ (proc_load_at k1 me r1 (tk_proc _ _ _ Ht1))).
  destruct (hand_over_ok k1 Q me r1 Hm1 Ht1) as (s2 & r2 & E2 & Hm2 & Ht2 & (Hpid & Hpar & Hcode & Hfds)).
  unfold bind at 1 in E2. unfold on_sched at 1, gets in E2. unfold bind at 1. unfold on_sched at 1, gets. rewrite (bind_ok _ _ _ _ _ E2).
  set (k2 := set_sched s2 k1) in *. destruct (close_plain k2 me r2 Ht2) as [Ew Ep]; [by rewrite Hfds|].
  rewrite (bind_ok _ _ _ _ _ Ew), (bind_ok _ _ _ _ _ Ep), (bind_ok _ _ _ _ _ (proc_load_at k2 me r2 (tk_proc _ _ _ Ht2))).
  assert (exists s3 e3, (if negb (p_parent_pid r2 =? 0) then
       record_exit (p_pid r2) (p_parent_pid r2) (p_exit_code r2) ;; on_sched (scheduler_wake_waiter (p_parent_pid r2) (p_pid r2)) ;; ret tt
     else ret tt) k2 = Some (tt, set_sched s3 (set_exits e3 k2)) /\ members kernel_task_addr s3 Q /\ current_process s3 = me
     /\ (p_parent_pid r <> 0 -> mk_exit (p_pid r) (p_parent_pid r) code 1 ∈ e3)) as (s3 & e3 & E3 & Hm3 & Hc3 & He3).
  { rewrite Hpar, Hpid, Hcode. change (p_parent_pid r1) with (p_parent_pid r). change (p_pid r1) with (p_pid r). change (p_exit_code r1) with code.
    destruct (Z.eqb_spec (p_parent_pid r) 0) as [Hz|Hz]; cbn [negb].
    { exists (k_sched k2), (k_exits k2). split; [by destruct k2|]. split; [done|]. split; [apply Ht2|done]. }
    assert (exists e3, record_exit (p_pid r) (p_parent_pid r) code k2 = Some (tt, set_exits e3 k2) /\ mk_exit (p_pid r) (p_parent_pid r) code 1 ∈ e3) as (e3 & E & Hin).
    { unfold record_exit, bind, gets, bump_record, modify. destruct (list_find _ _) as [[j e]|] eqn:Ej; eexists; (split; [done|]).
      - apply list_find_Some in Ej as (Hj & _). eapply list_elem_of_lookup_2, list_lookup_insert_eq. by eapply lookup_lt_Some.
      - eapply list_elem_of_lookup_2, (list_lookup_insert_eq _ 0). change (k_exits k2) with (k_exits k). destruct (k_exits k); [done|simpl; lia]. }
    rewrite (bind_ok _ _ _ _ _ E). destruct (wake_waiter_member (set_exits e3 k2) Q (p_parent_pid r) (p_pid r) Hm2) as (q & s3 & E' & Hm3 & Hc3).
    rewrite (bind_ok _ _ _ _ _ E'). exists s3, e3. split; [done|]. split; [done|]. split; [rewrite Hc3; apply Ht2|done]. }
  rewrite (bind_ok _ _ _ _ _ E3). destruct (die_effect kernel_task_addr s3 Q Hm3 ltac:(congruence)) as (rd & s4 & n & rn & Hrd & E4 & Hm4 & _ & Hne & _ & Hc4 & _ & Hv).
  unfold bind, on_sched. cbn [k_sched set_sched set_exits]. rewrite E4. unfold load_cr3, ret. eexists. split; [done|].
  split; [done|done|cbn; congruence| |done]. cbn [set_vm set_sched k_sched].
  assert (views s4 !! me = Some (p_fds rd, (PROCESS_DEAD, p_block_reason rd))) as Hx by (rewrite Hv, Hc3; apply lookup_insert_eq).
  unfold views in Hx. rewrite lookup_fmap in Hx. destruct (procs s4 !! me) as [rd'|]; [|done]. exists rd'. split; [done|]. by injection Hx.
Qed.

(** [exit] *)
Lemma sys_exit_ok (k : kern) Q me r code : members kernel_task_addr (k_sched k) Q -> task k me r -> me <> kernel_task_addr ->
  Forall plain_fd (p_fds r) -> k_exits k <> [] -> exists k', sys_exit code k = Some (Gone, k') /\ ended k k' Q me r code.
Proof.
  intros Hm Ht Hkt Hp He. destruct (process_end_ok k Q me r code Hm Ht Hkt Hp He) as (k' & E & Hend). exists k'. split; [|done].
  unfold sys_exit. rewrite (bind_ok _ _ _ _ _ (current_ok _ _ _ Ht)). pose proof (tk_nonzero _ _ _ Ht) as H0. apply Z.eqb_neq in H0. rewrite H0. cbn [negb].
  apply bind_inv in E as ([] & k1 & E1 & E). by rewrite (bind_ok _ _ _ _ _ E1), (bind_ok _ _ _ _ _ E).
Qed.

Lemma exit_run (k : kern) Q me r code : members kernel_task_addr (k_sched k) Q -> task k me r -> me <> kernel_task_addr ->
  Forall plain_fd (p_fds r) -> k_exits k <> [] -> -2147483648 <= code < 2147483648 ->
  exists k', urun (sys_exit_ code) k = Some (Exited, k') /\ ended k k' Q me r code.
Proof.
  intros Hm Ht Hkt Hp He Hc. destruct (sys_exit_ok k Q me r code Hm Ht Hkt Hp He) as (k' & E & Hrest). exists k'. split; [|done].
  unfold sys_exit_. cbn [urun]. change (syscall_handler cmos rtc_fuel (int80_regs 1 (u32 code) 0 0)) with (sys_exit (D := D) (A := A) (s32 (u32 code))).
  assert (s32 (u32 code) = code) as -> by (unfold s32, u32; zcase; zmod). by rewrite (bind_ok _ _ _ _ _ E).
Qed.

(** ** Faults *)

(** What the kernel prints about a page fault, and what becomes of the process. *)
Definition fault_report (there store a : Z) : list Z :=
  chars "EXCEPTION: Page Fault" ++ (chars " at 0x" ++ hex_digits a
    ++ (if there =? 1 then chars " (protection)" else chars " (not present)") ++ (if store =? 1 then chars " write" else chars " read"))
  ++ [10] ++ chars "User process killed" ++ [10].

Lemma fault_run (k : kern) Q me r store a : members kernel_task_addr (k_sched k) Q -> task k me r -> me <> kernel_task_addr ->
  Forall plain_fd (p_fds r) -> k_exits k <> [] -> store = 0 \/ store = 1 ->
  exists k', user_fault store a k = Some (Killed, k')
  /\ ended (say (fault_report (match user_addr k a with Some _ => 1 | None => 0 end) store a) k) k' Q me r (-1).
Proof.
  intros Hm Ht Hkt Hp He Hst. set (t := match user_addr k a with Some _ => 1 | None => 0 end).
  assert (t = 0 \/ t = 1) as Htv by (unfold t; destruct (user_addr k a); auto).
  destruct (process_end_ok (say (fault_report t store a) k) Q me r (-1) Hm (say_task k _ me r Ht) Hkt Hp He) as (k' & E & Hend). exists k'. split; [|done].
  pose proof (tk_nonzero _ _ _ Ht) as H0. apply Z.eqb_neq in H0.
  assert (isr_handler 14 (t + 2 * store + 4) 0x1B a k = Some (tt, k')) as Ei.
  { unfold isr_handler. change (exception_names !! Z.to_nat 14) with (Some (chars "Page Fault")). unfold lift_opt. unfold bind at 1.
    change (14 =? 14) with true. cbv iota.
    assert (forall s (k0 : kern), terminal s k0 = Some (tt, say s k0)) as Hterm by done.
    rewrite (bind_ok _ _ _ _ _ (Hterm _ _)), (bind_ok _ _ _ _ _ (Hterm _ _)), (bind_ok _ _ _ _ _ (Hterm _ _)).
    rewrite (bind_ok _ _ _ _ _ (current_ok _ me r ltac:(by do 3 apply say_task))). change (Z.land 0x1B 3 =? 3) with true. rewrite H0. cbn [andb negb].
    rewrite (bind_ok _ _ _ _ _ (Hterm _ _)), !say_app.
    match goal with |- _ (say ?s k) = _ => assert (s = fault_report t store a) as -> end; [|done].
    unfold fault_report. destruct Htv as [->| ->], Hst as [->| ->]; cbn -[hex_digits]; rewrite <- ?app_assoc; reflexivity. }
  unfold user_fault, bind at 1, gets. fold t. by rewrite (bind_ok _ _ _ _ _ Ei).
Qed.

End Run.
End UserRun.
