(* ===== verification/Samples.v ===== *)
(** * The sample programs of user/

    Each program as a [uprog]: the system calls it makes, its reads of literals and
    arguments and its writes into local arrays.  Local arrays are parameters, the
    addresses the compiler gave them; [lit s] is the address of the literal [s].  The
    endless loops after the call of exit are [Halt]. *)

From S2P Require Import Prelude Pmm Heap Disk Fat32 Sched Paging Vfs Kern Syscall UserRun.

Module Samples.

Import UserRun.

Open Scope uprog_scope.

Definition line (s : list Z) : list Z := s ++ [10].

(** ['0' + n] as a [char]. *)
Definition digit (n : Z) : Z := u8 (48 + n).

(** [*p = v] for an [int]: its four bytes, the lowest first. *)
Definition Store32 (a v : Z) (p : uprog) : uprog :=
  StoreB a (u8 v) (StoreB (a + 1) (u8 (Z.shiftr v 8)) (StoreB (a + 2) (u8 (Z.shiftr v 16)) (StoreB (a + 3) (u8 (Z.shiftr v 24)) p))).

Section Programs.
Context (lit : list Z -> Z).

(** ** user/echo.c *)

Fixpoint echo_args (n : nat) (i argv : Z) (p : uprog) : uprog :=
  match n with
  | O => p
  | S n =>
    let arg := Load32 (argv + 4 * i) (fun s => write_str s (echo_args n (i + 1) argv p)) in
    if 1 <? i then write_str (lit (chars " ")) arg else arg
  end.

Definition echo (argc argv : Z) : uprog :=
  echo_args (Z.to_nat (argc - 1)) 1 argv (write_str (lit [10]) (sys_exit_ 0)).

(** ** user/hello.c *)

Definition hello (pidmsg : Z) : uprog :=
  write_str (lit (line (chars "Hello from ring 3!"))) (
  pid <- sys_getpid_ ;;
  init_array pidmsg (line (chars "My PID is 0") ++ [0]) (
  StoreB (pidmsg + 10) (digit (Z.rem pid 10)) (
  do sys_write_ pidmsg 12 ;;
  sys_exit_ 0))).

(** ** user/crash.c *)

Definition crash_msg : list Z := line (chars "About to dereference a null pointer...").
Definition crash_bad : list Z := line (chars "Survived?! That's a bug.").

Definition crash (msg bad : Z) : uprog :=
  init_array msg (crash_msg ++ [0]) (
  do sys_write_ msg (Z.of_nat (length crash_msg)) ;;
  Store32 0 42 (
  init_array bad (crash_bad ++ [0]) (
  do sys_write_ bad (Z.of_nat (length crash_bad)) ;;
  Halt))).

(** ** user/counter.c *)

Fixpoint counter_ticks (n : nat) (i msg : Z) (p : uprog) : uprog :=
  match n with
  | O => p
  | S n =>
    init_array msg (line (chars "[counter] tick 0") ++ [0]) (
    StoreB (msg + 15) (digit i) (
    write_str msg (
    do sys_sleep_ 800 ;;
    counter_ticks n (i + 1) msg p)))
  end.

Definition counter (msg : Z) : uprog :=
  counter_ticks 5 1 msg (write_str (lit (line (chars "[counter] done counting"))) (sys_exit_ 0)).

(** ** user/files.c *)

Definition files_path : list Z := chars "USRTEST.TXT".
Definition files_content : list Z := line (chars "Written from ring 3 via sys_writefile!").

Definition files (buf : Z) : uprog :=
  write_str (lit (line (chars "Writing USRTEST.TXT..."))) (
  slen SLEN_FUEL (lit files_content) 0 (fun len =>
  r <- sys_writefile_ (lit files_path) (lit files_content) len ;;
  if negb (r =? 0) then write_str (lit (line (chars "write failed!"))) (sys_exit_ 1)
  else
    write_str (lit (chars "Reading it back: ")) (
    n <- sys_readfile_ (lit files_path) buf 256 ;;
    if n <? 0 then write_str (lit (line (chars "read failed!"))) (sys_exit_ 1)
    else
      do sys_write_ buf n ;;
      sys_exit_ 0))).

(** ** The loops that copy to standard output *)

(** [while ((n = sc(SYS_READ_FD, fd, buf, len)) > 0) sc(SYS_WRITE, buf, n, 0)], with the
    sum of the counts, for at most [fuel] rounds. *)
Fixpoint copy_fd (fuel : nat) (fd buf len total : Z) (k : Z -> uprog) : uprog :=
  match fuel with
  | O => Halt
  | S fuel =>
    n <- sys_read_fd_ fd buf len ;;
    if n <=? 0 then k total
    else
      do sys_write_ buf n ;;
      copy_fd fuel fd buf len (total + n) k
  end.

(** The same from standard input. *)
Fixpoint copy_stdin (fuel : nat) (buf len : Z) (p : uprog) : uprog :=
  match fuel with
  | O => Halt
  | S fuel =>
    n <- sys_read_ buf len ;;
    if 0 <? n then do sys_write_ buf n ;; copy_stdin fuel buf len p
    else p
  end.

(** ** user/cat2.c *)

Definition cat2 (fuel : nat) (buf : Z) : uprog := copy_stdin fuel buf 256 (sys_exit_ 0).

(** ** user/redir.c *)

Definition redir_path : list Z := chars "ROUT.TXT".
Definition redir_one : list Z := line (chars "captured line one").
Definition redir_two : list Z := line (chars "captured line two").

(** From the restored output on. *)
Definition redir_back (fuel : nat) (buf : Z) : uprog :=
  write_str (lit (line (chars "redir: reading ROUT.TXT back:"))) (
  rf <- sys_open_ (lit redir_path) 0 ;;
  if rf <? 0 then write_str (lit (line (chars "redir: reopen failed"))) (sys_exit_ 1)
  else
    copy_fd fuel rf buf 32 0 (fun _ =>
    do sys_close_ rf ;;
    write_str (lit (line (chars "redir: ok"))) (sys_exit_ 0))).

Definition redir (fuel : nat) (buf : Z) : uprog :=
  write_str (lit (line (chars "redir: redirecting stdout to ROUT.TXT"))) (
  fd <- sys_open_ (lit redir_path) 1 ;;
  if fd <? 0 then write_str (lit (line (chars "redir: open failed"))) (sys_exit_ 1)
  else
    do sys_dup2_ fd 1 ;;
    write_str (lit redir_one) (
    write_str (lit redir_two) (
    do sys_close_ fd ;;
    do sys_dup2_ 2 1 ;;
    redir_back fuel buf))).

(** ** user/fdcat.c *)

(** [for (int i = 0; s[i]; i++) file[len++] = s[i];] *)
Fixpoint append_lit (fuel : nat) (s i file len : Z) (k : Z -> uprog) : uprog :=
  match fuel with
  | O => Halt
  | S fuel => LoadB (s + i) (fun c => if c =? 0 then k len else StoreB (file + len) c (append_lit fuel s (i + 1) file (len + 1) k))
  end.

Fixpoint append_rows (n : nat) (file len : Z) (k : Z -> uprog) : uprog :=
  match n with
  | O => k len
  | S n => append_lit SLEN_FUEL (lit (line (chars "0123456789ABCDEF"))) 0 file len (fun len => append_rows n file len k)
  end.

Definition fdcat_path : list Z := chars "FDTEST.TXT".

Definition fdcat_report (msg total : Z) (p : uprog) : uprog :=
  init_array msg (line (chars "fdcat: read 0000 bytes total") ++ [0]) (
  StoreB (msg + 12) (digit (Z.rem (Z.quot total 1000) 10)) (
  StoreB (msg + 13) (digit (Z.rem (Z.quot total 100) 10)) (
  StoreB (msg + 14) (digit (Z.rem (Z.quot total 10) 10)) (
  StoreB (msg + 15) (digit (Z.rem total 10)) (
  write_str msg p))))).

Definition fdcat (fuel : nat) (file chunk msg : Z) : uprog :=
  append_lit SLEN_FUEL (lit (line (chars "FDSTART"))) 0 file 0 (fun len =>
  append_rows 60 file len (fun len =>
  append_lit SLEN_FUEL (lit (line (chars "FDEND"))) 0 file len (fun len =>
  r <- sys_writefile_ (lit fdcat_path) file len ;;
  if negb (r =? 0) then write_str (lit (line (chars "fdcat: write failed"))) (sys_exit_ 1)
  else
    fd <- sys_open_ (lit fdcat_path) 0 ;;
    if fd <? 0 then write_str (lit (line (chars "fdcat: open failed"))) (sys_exit_ 1)
    else
      write_str (lit (line (chars "fdcat: reading back in 16-byte chunks:"))) (
      copy_fd fuel fd chunk 16 0 (fun total =>
      do sys_close_ fd ;;
      fdcat_report msg total (sys_exit_ 0)))))).

(** ** user/forktest.c *)

(** [while (n > 0 && t < 12) tmp[t++] = '0' + n % 10, n /= 10], read backwards. *)
Fixpoint small_digits (t : nat) (n : Z) (acc : list Z) : list Z :=
  match t with
  | O => acc
  | S t => if 0 <? n then small_digits t (Z.quot n 10) (digit (Z.rem n 10) :: acc) else acc
  end.

Definition fork_num (n : Z) : list Z := line (if n =? 0 then [48] else small_digits 12 n []).

Definition write_num (buf label n : Z) (p : uprog) : uprog :=
  init_array buf (fork_num n) (
  write_str label (
  do sys_write_ buf (Z.of_nat (length (fork_num n))) ;;
  p)).

Definition fork_child : uprog :=
  write_str (lit (line (chars "forktest: child execing HELLO.ELF"))) (
  do sys_exec_ (lit (chars "HELLO.ELF")) ;;
  write_str (lit (line (chars "forktest: exec failed"))) (
  sys_exit_ 1)).

Definition fork_parent (status buf : Z) : uprog :=
  Store32 status (-1) (
  child <- sys_wait_ status ;;
  write_num buf (lit (chars "forktest: reaped child pid ")) child (
  Load32 status (fun v =>
  write_num buf (lit (chars "forktest: child exit code ")) (s32 v) (
  write_str (lit (line (chars "forktest: parent done"))) (
  sys_exit_ 0))))).

Definition forktest (status buf : Z) : uprog :=
  write_str (lit (line (chars "forktest: start"))) (
  pid <- sys_fork_ ;;
  if pid =? 0 then fork_child
  else if 0 <? pid then fork_parent status buf
  else write_str (lit (line (chars "forktest: fork failed"))) (sys_exit_ 1)).

(** ** user/crt0.s and user/tests/crt0test.c *)

(** The result of [main] is the exit code. *)
Definition crt0 (main : Z -> Z -> (Z -> uprog) -> uprog) (argc argv : Z) : uprog := main argc argv sys_exit_.

(** [exit] and [abort] of user/stdlib.c. *)
Definition libc_exit (status : Z) : uprog := sys_exit_ status.
Definition libc_abort : uprog := libc_exit 134.

(** A [char x[2]] with a digit in it, printed. *)
Definition print_digit (a n : Z) (p : uprog) : uprog := init_array a [digit (Z.rem n 10); 0] (write_str a p).

Fixpoint crt0_args (n : nat) (i argv idx : Z) (p : uprog) : uprog :=
  match n with
  | O => p
  | S n =>
    write_str (lit (chars "  argv[")) (
    print_digit idx i (
    write_str (lit (chars "] = ")) (
    Load32 (argv + 4 * i) (fun s =>
    write_str s (
    write_str (lit [10]) (
    crt0_args n (i + 1) argv idx p))))))
  end.

Definition crt0test_main (digit_addr idx argc argv : Z) (k : Z -> uprog) : uprog :=
  write_str (lit (chars "crt0 test: main() reached, argc=")) (
  print_digit digit_addr argc (
  write_str (lit [10]) (
  crt0_args (Z.to_nat argc) 0 argv idx (
  write_str (lit (line (chars "Returning 7 from main() to test crt0's exit path."))) (
  k 7))))).

End Programs.
End Samples.
