(* ===== verification/SampleRuns.v ===== *)
(** * What the sample programs do

    Runs of the programs of [Samples] on the kernel: echo prints its arguments, crash is
    killed, and the kernel goes on, cat2 drains its pipe. *)

From S2P Require Import Prelude Pmm Heap Disk Fat32Names Fat32 Sched SchedProps SchedFrame Pipe Paging PagingProps Elf Vfs Drivers Kern Syscall UserMem CallSpecs KernDemo KernOps FileCalls UserRun Samples.

Module SampleRuns.

Import Proc Sched SchedProps Frame Paging Fat32 Vfs Kern Syscall UserMem CallSpecs KernOps FileCalls UserRun Samples.

Section Runs.
Context {D A : Type} `{BD : BlockDev D} `{KH : KernelHeap A} `{PS : PageShare A}.
Context `{L : Layout} `{M : Machine}.
Context (cmos : Z -> Z -> Z) (rtc_fuel : nat) (lit : list Z -> Z).

Abbreviation kern := (kern (D := D) (A := A)).
Abbreviation urun := (urun cmos rtc_fuel).

(** ** The setting *)

(** A process on its own, its standard output the console and nothing to give back. *)
Record session (k : kern) (Q : list Z) (me : Z) (r : process) : Prop := {
  se_members : members kernel_task_addr (k_sched k) Q;
  se_task : task k me r;
  se_user : me <> kernel_task_addr;
  se_out : console r 1;
  se_plain : Forall plain_fd (p_fds r);
  se_exits : k_exits k <> [] }.

Lemma session_same (k k' : kern) Q me r : k_sched k' = k_sched k -> k_exits k' = k_exits k -> session k Q me r -> session k' Q me r.
Proof. intros E1 E2 []. split; rewrite ?E1, ?E2; try done. by apply (task_sched k). Qed.

Lemma session_say (k : kern) Q me r s : session k Q me r -> session (say s k) Q me r.
Proof. by apply session_same. Qed.

Lemma session_exit (k : kern) Q me r code : session k Q me r -> -2147483648 <= code < 2147483648 ->
  exists k', urun (sys_exit_ code) k = Some (Exited, k') /\ ended k k' Q me r code.
Proof. intros [] Hc. by apply exit_run. Qed.

(** The literals of a program are in its memory. *)
Definition placed (k : kern) (ss : list (list Z)) : Prop := Forall (fun s => user_string k (lit s) s) ss.

Lemma placed_vm (k k' : kern) ss : k_vm k' = k_vm k -> placed k ss -> placed k' ss.
Proof. intros E H. eapply Forall_impl; [exact H|]. intros s. by apply user_string_vm. Qed.

(** A little-endian word in memory. *)
Definition word_at (k : kern) (a v : Z) : Prop :=
  is_u32 v /\ a + 4 <= USER_LIMIT /\ holds k a [u8 v; u8 (Z.shiftr v 8); u8 (Z.shiftr v 16); u8 (Z.shiftr v 24)].

(** The arguments of the program. *)
Definition argv_at (k : kern) (argv : Z) (args : list (list Z)) : Prop :=
  forall (i : nat) s, args !! i = Some s -> exists a, word_at k (argv + 4 * Z.of_nat i) a /\ user_string k a s.

Lemma argv_vm (k k' : kern) argv args : k_vm k' = k_vm k -> argv_at k argv args -> argv_at k' argv args.
Proof.
  intros E H i s Hi. destruct (H i s Hi) as (a & (H1 & H2 & H3) & Hs). exists a. split; [|by eapply user_string_vm].
  split; [done|]. split; [done|]. intros j c Hj. unfold user_addr. rewrite E. by apply H3.
Qed.

Lemma loadb_run (k : kern) a c p : a < USER_LIMIT -> (exists q, user_addr k a = Some q /\ phys (k_vm k) q = c) -> urun (LoadB a p) k = urun (p c) k.
Proof. intros Ha (q & E & <-). cbn [UserRun.urun]. unfold bind, gets. by rewrite (access_ok k a q Ha E). Qed.

Lemma u32_bytes v : is_u32 v -> u8 v + 256 * u8 (Z.shiftr v 8) + 65536 * u8 (Z.shiftr v 16) + 16777216 * u8 (Z.shiftr v 24) = v.
Proof. unfold is_u32, u8. intros. rewrite !Z.shiftr_div_pow2 by lia. cbn [Z.pow Z.pow_pos Pos.iter Z.mul Pos.mul]. zmod. Qed.

Lemma load32_run (k : kern) a v p : word_at k a v -> urun (Load32 a p) k = urun (p v) k.
Proof.
  intros (Hv & Ha & H). unfold Load32. change USER_LIMIT with 0xC0000000 in *.
  pose proof (H 0%nat _ eq_refl) as H0. pose proof (H 1%nat _ eq_refl) as H1. pose proof (H 2%nat _ eq_refl) as H2. pose proof (H 3%nat _ eq_refl) as H3.
  rewrite Z.add_0_r in H0. rewrite (loadb_run k a _ _ ltac:(change USER_LIMIT with 0xC0000000; lia) H0), (loadb_run k (a + 1) _ _ ltac:(change USER_LIMIT with 0xC0000000; lia) H1),
    (loadb_run k (a + 2) _ _ ltac:(change USER_LIMIT with 0xC0000000; lia) H2), (loadb_run k (a + 3) _ _ ltac:(change USER_LIMIT with 0xC0000000; lia) H3).
  by rewrite u32_bytes.
Qed.

Lemma say_run (k : kern) Q me r a s p : session k Q me r -> user_string k a s -> urun (write_str a p) k = urun p (say s k).
Proof. intros Hs. eapply write_str_run; apply Hs. Qed.

(** A local array filled. *)
Lemma init_array_run l : forall (k : kern) a p, buffer k a (length l) -> a + Z.of_nat (length l) <= USER_LIMIT ->
  exists m, urun (init_array a l p) k = urun p (with_phys m k) /\ stored k a l m.
Proof.
  intros k a p Hb Hlim. destruct (put_user_bytes_ok l k a Hb) as (m & E & Hst). exists m. split; [|done]. clear Hst. revert k a E Hb Hlim.
  induction l as [|c l IH]; intros k a E Hb Hlim; cbn [init_array put_bytes_at length] in *; [by injection E as ->|].
  destruct (buffer_addr k a (S (length l)) 0 Hb ltac:(lia)) as (q & Eq). rewrite Z.add_0_r in Eq. cbn [UserRun.urun].
  apply bind_inv in E as ([] & k1 & E1 & E). unfold bind at 1, gets. rewrite (access_ok k a q ltac:(lia) Eq), (bind_ok _ _ _ _ _ E1).
  assert (exists v1, k1 = set_vm (set_phys v1 (k_vm k)) k) as (v1 & ->) by (unfold put_user in E1; rewrite Eq in E1; injection E1 as <-; eauto).
  change (set_vm (set_phys v1 (k_vm k)) k) with (with_phys v1 k) in *. change (with_phys m k) with (with_phys m (with_phys v1 k)). apply IH; [exact E| |lia].
  apply (same_space_buffer k); [done|]. change (S (length l)) with (1 + length l)%nat in Hb. unfold buffer in *. rewrite frames_app, Forall_app, NoDup_app in Hb.
  change (Z.of_nat 1) with 1 in Hb. tauto.
Qed.

(** ** echo *)

(** [" "] between the arguments. *)
Definition spaced (i : Z) (args : list (list Z)) : list Z := concat (imap (fun j s => (if 1 <? i + Z.of_nat j then [32] else []) ++ s) args).

Lemma spaced_cons i s args : spaced i (s :: args) = (if 1 <? i then [32] else []) ++ s ++ spaced (i + 1) args.
Proof.
  unfold spaced. rewrite imap_cons. cbn [concat]. rewrite Z.add_0_r, <- app_assoc. do 3 f_equal. apply imap_ext. intros j x _. cbn. by replace (i + 1 + Z.of_nat j) with (i + Z.of_nat (S j)) by lia.
Qed.

Lemma echo_args_run (args : list (list Z)) Q me r argv p : forall (k : kern) (i : nat) all,
  session k Q me r -> placed k [chars " "] -> argv_at k argv all -> drop i all = args ->
  urun (echo_args lit (length args) (Z.of_nat i) argv p) k = urun p (say (spaced (Z.of_nat i) args) k).
Proof.
  induction args as [|s args IH]; intros k i all Hse Hl Ha Hd; cbn [echo_args length].
  { f_equal. unfold say, put_term, spaced. cbn. rewrite app_nil_r. by destruct k as [? [] ? ? ? ? ? ? ? ? ? ? ?]. }
  assert (all !! i = Some s) as Hi by (rewrite <- (Nat.add_0_r i), <- lookup_drop, Hd; done).
  assert (drop (S i) all = args) as Hd' by (rewrite <- Nat.add_1_r, <- drop_drop, Hd; done).
  assert (forall t, urun (Load32 (argv + 4 * Z.of_nat i) (fun s => write_str s (echo_args lit (length args) (Z.of_nat i + 1) argv p))) (say t k)
    = urun p (say (t ++ s ++ spaced (Z.of_nat i + 1) args) k)) as Harg.
  { intros t. destruct (argv_vm k (say t k) argv all eq_refl Ha i s Hi) as (a & Hw & Hs). rewrite (load32_run _ _ a _ Hw).
    rewrite (say_run _ Q me r _ s _ ltac:(by apply session_say) Hs), say_app.
    replace (Z.of_nat i + 1) with (Z.of_nat (S i)) by lia. rewrite (IH _ (S i) all); [by rewrite say_app, <- app_assoc|by apply session_say|by eapply placed_vm|by eapply argv_vm|done]. }
  rewrite spaced_cons. destruct (1 <? Z.of_nat i).
  - apply Forall_cons in Hl as [Hl _]. rewrite (say_run k Q me r _ (chars " ") _ Hse Hl). apply Harg.
  - specialize (Harg []). assert (say [] k = k) as E by (unfold say, put_term; rewrite app_nil_r; by destruct k as [? [] ? ? ? ? ? ? ? ? ? ? ?]).
    rewrite E in Harg. exact Harg.
Qed.

(** The arguments joined by single spaces. *)
Fixpoint joined (args : list (list Z)) : list Z :=
  match args with [] => [] | [s] => s | s :: args => s ++ [32] ++ joined args end.

Lemma spaced_joined args : spaced 1 args = joined args.
Proof.
  destruct args as [|s args]; [done|]. rewrite spaced_cons. change (1 <? 1) with false. cbv iota. rewrite app_nil_l. change (1 + 1) with 2.
  assert (forall l i, 1 < i -> spaced i l = match l with [] => [] | _ => [32] ++ joined l end) as H.
  { induction l as [|t l IH]; intros i Hi; [done|]. rewrite spaced_cons. destruct (Z.ltb_spec 1 i); [|lia]. rewrite IH by lia. destruct l; [by rewrite app_nil_r|done]. }
  rewrite H by lia. destruct args; [apply app_nil_r|done].
Qed.

Lemma echo_run (k : kern) Q me r argv args : session k Q me r -> placed k [chars " "; [10]] -> argv_at k argv args ->
  urun (echo lit (Z.of_nat (length args)) argv) k = urun (sys_exit_ 0) (say (joined (tail args) ++ [10]) k).
Proof.
  intros Hse [Hsp Hl]%Forall_cons Ha. apply Forall_cons in Hl as [Hnl _]. unfold echo.
  replace (Z.to_nat (Z.of_nat (length args) - 1)) with (length (tail args)) by (destruct args; simpl; lia).
  change 1 with (Z.of_nat 1) at 1. rewrite (echo_args_run (tail args) Q me r argv _ k 1 args); [|done|by constructor|done|by destruct args].
  change (Z.of_nat 1) with 1. rewrite spaced_joined, (say_run _ Q me r _ [10]); [by rewrite say_app|by apply session_say|by eapply user_string_vm].
Qed.

(** ** crash *)

(** An array of a program: in user memory, mapped. *)
Definition local_array (k : kern) (a : Z) (n : nat) : Prop := 0 < a /\ a + Z.of_nat n <= USER_LIMIT /\ buffer k a n.

Lemma bytes_checked l : forallb (fun c => (0 <=? c) && (c <? 256)) l = true -> Forall is_byte l.
Proof. rewrite forallb_forall, Forall_forall. intros H c Hc%list_elem_of_In. specialize (H c Hc). unfold is_byte. revert H. zspec; simpl; done || lia. Qed.

(** A constant array of [l] written to the console without its terminator. *)
Lemma write_array_run (k : kern) Q me r a l p : session k Q me r -> local_array k a (S (length l)) -> Forall is_byte l -> Z.of_nat (length l) < 65536 ->
  exists m, urun (init_array a (l ++ [0]) (sys_write_ a (Z.of_nat (length l)) (fun _ => p))) k = urun p (say l (with_phys m k)).
Proof.
  intros Hse (Ha & Hlim & Hb) Hl Hn. assert (length (l ++ [0]) = S (length l)) as Hlen by (rewrite length_app; simpl; lia).
  destruct (init_array_run (l ++ [0]) k a (sys_write_ a (Z.of_nat (length l)) (fun _ => p))) as (m & E & Hst); [by rewrite Hlen|rewrite Hlen; lia|].
  exists m. rewrite E. assert (holds (with_phys m k) a (l ++ [0])) as Hh.
  { apply stored_holds; [|by rewrite Hlen|done]. apply Forall_app; split; [done|]. by repeat constructor. }
  apply holds_app in Hh as [Hh _]. assert (session (with_phys m k) Q me r) as Hse' by (by apply (session_same k)).
  rewrite (write_bytes_run cmos rtc_fuel _ me r a l); [done|apply Hse'|apply Hse'|done|lia|lia|lia|right; lia].
Qed.

Lemma crash_run (k : kern) Q me r msg bad : session k Q me r -> local_array k msg (S (length crash_msg)) -> user_addr k 0 = None ->
  exists m, urun (crash msg bad) k = user_fault 1 0 (say crash_msg (with_phys m k)).
Proof.
  intros Hse Hb H0. unfold crash. set (rest := Store32 _ _ _).
  destruct (write_array_run k Q me r msg crash_msg rest Hse Hb) as (m & E); [apply bytes_checked; reflexivity|done|].
  exists m. etrans; [exact E|]. unfold rest, Store32. cbn [UserRun.urun]. unfold bind at 1, gets, user_access.
  change (user_addr (say crash_msg (with_phys m k)) 0) with (user_addr k 0). by rewrite H0.
Qed.

(** ** cat2 *)

(** Standard input is the pipe [pi] at [b], which nobody writes into any more. *)
Record stdin_pipe (k : kern) (me : Z) (r : process) (b : Z) (pi : Pipe.pipe) : Prop := {
  pd_task : task k me r;
  pd_fd : exists d, p_fds r !! 0%nat = Some d /\ fd_kind d = FD_PIPE_READ /\ fd_pipe d = b;
  pd_pipe : k_pipes k !! b = Some pi;
  pd_ok : Pipe.pipe_ok pi;
  pd_bytes : Forall is_byte (Pipe.contents pi);
  pd_writers : Pipe.write_open pi = 0 /\ Pipe.blocked_writer pi = 0 }.

Lemma stdin_pipe_same (k k' : kern) me r b pi : k_sched k' = k_sched k -> k_pipes k' = k_pipes k -> stdin_pipe k me r b pi -> stdin_pipe k' me r b pi.
Proof. intros E1 E2 []. split; rewrite ?E1, ?E2; try done. by apply (task_sched k). Qed.

Lemma drained_read me n pi : Pipe.pipe_ok pi -> 0 < n -> Pipe.write_open pi = 0 -> Pipe.blocked_writer pi = 0 ->
  let l := take (Z.to_nat n) (Pipe.contents pi) in
  exists pi', Pipe.pipe_read_fd me n pi = (Pipe.Ret (Z.of_nat (length l)), l, pi', []) /\ Pipe.pipe_ok pi' /\ Pipe.contents pi = l ++ Pipe.contents pi'
  /\ Pipe.write_open pi' = 0 /\ Pipe.blocked_writer pi' = 0.
Proof.
  intros Hok Hn Hw Hb l. destruct (Pipe.pipe_read_fd_ok me n pi Hok Hn) as (out & l' & pi' & wk & E & Hok' & Hc & _ & Hwo & Hcase).
  pose proof (Pipe.contents_length pi Hok) as Hcl. exists pi'. rewrite E.
  destruct Hcase as [(_ & -> & Hl & Hb' & ->)|[(Hnil & _ & -> & -> & ->)|(_ & ? & _)]]; [| |done].
  - rewrite Hb. cbn [Z.eqb]. assert (l = l') as ->; [|by rewrite Hl; split_and!; congruence].
    unfold l. replace (take (Z.to_nat n) (Pipe.contents pi)) with (take (length l') (Pipe.contents pi)); [by rewrite Hc, take_app_length|].
    destruct (decide (Z.of_nat (length l') = n)); [f_equal; lia|]. rewrite !take_ge by lia. done.
  - assert (wk = []) as ->.
    { unfold Pipe.pipe_read_fd in E. rewrite <- Hcl, Hnil, Hw in E. cbn in E. by injection E. }
    unfold l. rewrite Hnil, take_nil. by split_and!.
Qed.

(** Up to [n] bytes of the pipe, in the buffer. *)
Lemma read_pipe_run (k : kern) me r b pi buf n p : stdin_pipe k me r b pi -> 0 < n < 65536 -> local_array k buf (Z.to_nat n) ->
  let l := take (Z.to_nat n) (Pipe.contents pi) in
  exists m pi' k', urun (sys_read_ buf n p) k = urun (p (Z.of_nat (length l))) k' /\ k' = set_pipes (<[b := pi']> (k_pipes k)) (with_phys m k)
  /\ holds k' buf l /\ Pipe.contents pi = l ++ Pipe.contents pi' /\ stdin_pipe k' me r b pi'.
Proof.
  intros [Ht (d & Hd & Hk & Hb) Hp Hok Hby [Hw Hbw]] Hn (Ha & Hlim & Hbuf) l.
  destruct (drained_read me n pi Hok ltac:(lia) Hw Hbw) as (pi' & E & Hok' & Hc & Hw' & Hbw'). fold l in E, Hc.
  assert (length l <= Z.to_nat n)%nat as Hln by (unfold l; rewrite length_take; lia). assert (Forall is_byte l) as Hlb by (by apply Forall_take).
  destruct (put_user_bytes_ok l k buf (buffer_le _ _ _ _ Hln Hbuf)) as (m & Em & Hst). exists m, pi', (set_pipes (<[b := pi']> (k_pipes k)) (with_phys m k)).
  assert (sys_read buf n k = Some (Done (Z.of_nat (length l)), set_pipes (<[b := pi']> (k_pipes k)) (with_phys m k))) as Es.
  { unfold sys_read, do_fd_read. change 0 with (Z.of_nat 0) at 1. rewrite (bind_ok _ _ _ _ _ (lookup_fd_ok k me r 0 d Ht Hd ltac:(by rewrite Hk))).
    assert (user_range_ok buf n = true) as -> by (unfold user_range_ok; zspec; simpl; done || lia). destruct (Z.eqb_spec n 0); [lia|]. cbn [negb].
    rewrite Hk, Hb. change (FD_PIPE_READ =? FD_TTY_IN) with false. change (FD_PIPE_READ =? FD_FILE) with false. change (FD_PIPE_READ =? FD_PIPE_READ) with true. cbv iota.
    unfold pipe_read_fd, pipe_load. unfold bind at 1. rewrite Hp, (bind_ok _ _ _ _ _ (current_ok _ _ _ Ht)), E, (bind_ok _ _ _ _ _ Em).
    unfold bind, pipe_store, modify, wake_all, ret. cbn [with_phys set_vm k_pipes]. rewrite s32_small; [done|unfold is_s32; lia]. }
  split; [|split; [done|]].
  - unfold sys_read_. cbn [UserRun.urun]. change (syscall_handler cmos rtc_fuel (int80_regs 3 buf n 0)) with (sys_read (D := D) (A := A) buf n). by rewrite (bind_ok _ _ _ _ _ Es).
  - split; [exact (stored_holds k buf l m Hlb (buffer_le _ _ _ _ Hln Hbuf) Hst)|]. split; [done|].
    split; [by apply (task_sched k)|by exists d|apply lookup_insert_eq|done| |done]. rewrite Hc in Hby. by apply Forall_app in Hby as [_ ?].
Qed.

(** The loop copies what is in the pipe. *)
Lemma copy_stdin_run fuel : forall (k : kern) me r b pi buf n p, stdin_pipe k me r b pi -> console r 1 -> 0 < n < 65536 -> local_array k buf (Z.to_nat n) ->
  Z.of_nat (length (Pipe.contents pi)) <= n * (Z.of_nat fuel - 1) ->
  exists k' pi', urun (copy_stdin fuel buf n p) k = urun p k' /\ k_fs k' = put_term (Pipe.contents pi) (k_fs k) /\ same_space k k'
  /\ k_sched k' = k_sched k /\ k_exits k' = k_exits k /\ stdin_pipe k' me r b pi' /\ Pipe.contents pi' = [].
Proof.
  induction fuel as [|fuel IH]; intros k me r b pi buf n p Hpd Hcon Hn Harr Hlen; [lia|]. cbn [copy_stdin].
  destruct (read_pipe_run k me r b pi buf n (fun n0 => if 0 <? n0 then sys_write_ buf n0 (fun _ => copy_stdin fuel buf n p) else p) Hpd Hn Harr)
    as (m & pi' & k1 & E & Ek1 & Hh & Hc & Hpd1). rewrite E. set (l := take (Z.to_nat n) (Pipe.contents pi)) in *. cbv beta.
  destruct (Z.ltb_spec 0 (Z.of_nat (length l))) as [Hpos|Hz].
  - destruct Harr as (Ha & Hlim & Hb). assert (length l <= Z.to_nat n)%nat by (unfold l; rewrite length_take; lia).
    rewrite (write_bytes_run cmos rtc_fuel k1 me r buf l (fun _ => copy_stdin fuel buf n p)) by (apply Hpd1 || done || lia || (left; intros ->; simpl in Hpos; lia)).
    destruct (IH (say l k1) me r b pi' buf n p) as (k2 & pi2 & E2 & Hfs & Hsp & Hsc & Hex & Hpd2 & Hc2); [by apply (stdin_pipe_same k1)|done|done| | |].
    + split; [done|]. split; [done|]. apply (same_space_buffer k); [by rewrite Ek1|done].
    + rewrite Hc in Hlen. rewrite length_app in Hlen. assert (l <> [] /\ (Z.of_nat (length l) = n \/ Pipe.contents pi' = [])) as [_ Hor].
      { split; [intros Hx; rewrite Hx in Hpos; simpl in Hpos; lia|]. destruct (decide (length (Pipe.contents pi) <= Z.to_nat n)%nat).
        - right. unfold l in Hc. rewrite take_ge in Hc by done. apply (f_equal (@length Z)) in Hc. rewrite length_app in Hc. apply length_zero_iff_nil. lia.
        - left. unfold l. rewrite length_take. lia. }
      assert (0 < Z.of_nat fuel) by (clear - Hlen Hpos Hn; nia). destruct Hor as [Hfull| ->]; [clear - Hlen Hfull; nia|clear - H0 Hn; simpl; nia].
    + exists k2, pi2. split; [exact E2|]. rewrite Hfs, Ek1. split; [|split; [|by rewrite Hsc, Hex, Ek1]].
      * rewrite Hc. unfold put_term, say. cbn. by rewrite app_assoc.
      * etrans; [|exact Hsp]. by rewrite Ek1.
  - assert (l = []) as El by (apply length_zero_iff_nil; lia). assert (Pipe.contents pi = []) as Hcn.
    { unfold l in El. destruct (Pipe.contents pi); [done|]. destruct (Z.to_nat n) eqn:?; [lia|done]. }
    exists k1, pi'. split; [done|]. rewrite Hcn. rewrite Ek1. cbn [set_pipes with_phys set_vm k_fs k_sched k_exits].
    split; [unfold put_term; rewrite app_nil_r; by destruct (k_fs k)|]. do 3 (split; [done|]). rewrite <- Ek1. split; [done|]. rewrite Hcn, El in Hc. done.
Qed.

End Runs.
(** ** Theorems *)

Section Theorems.
Context {D A : Type} `{BD : BlockDev D} `{KH : KernelHeap A} `{PS : PageShare A}.
Context `{L : Layout} `{M : Machine}.


(** C11: a program that follows a null pointer is contained.  crash prints its message and
    stores to address 0, which is not mapped: the kernel reports the page fault and its
    kind, the process is dead with exit code -1, the message behind the store is never
    printed, another process runs, and volume and files are as they were. *)
Theorem crash_contained cmos rtc_fuel (k : kern (D := D) (A := A)) Q me r msg bad :
  session k Q me r -> local_array k msg (S (length crash_msg)) -> user_addr k 0 = None ->
  exists k', urun cmos rtc_fuel (crash msg bad) k = Some (Killed, k')
  /\ ended (say (crash_msg ++ line (chars "EXCEPTION: Page Fault at 0x00000000 (not present) write") ++ line (chars "User process killed")) k) k' Q me r (-1).
Proof.
  intros Hse Hb H0. destruct (crash_run cmos rtc_fuel (fun _ => 0) k Q me r msg bad Hse Hb H0) as (m & E). rewrite E.
  destruct (fault_run (say crash_msg (with_phys m k)) Q me r 1 0) as (k' & E' & Hend); [apply Hse|apply say_task, (task_sched k); [done|apply Hse]|apply Hse|apply Hse|apply Hse|by right|].
  exists k'. split; [exact E'|]. change (user_addr (say crash_msg (with_phys m k)) 0) with (user_addr k 0) in Hend. rewrite H0, say_app in Hend. destruct Hend. by split.
Qed.

(** C28: cat2 at the end of a pipe.  With the bytes left in a pipe that nobody writes into
    any more, however many, the program prints exactly these bytes, in order, empties the
    pipe and calls exit with code 0; the loop ends after enough rounds for the bytes and
    one more. *)
Theorem cat2_drains cmos rtc_fuel (k : kern (D := D) (A := A)) me r b pi buf fuel :
  stdin_pipe k me r b pi -> console r 1 -> local_array k buf 256 -> Z.of_nat (length (Pipe.contents pi)) <= 256 * (Z.of_nat fuel - 1) ->
  exists k' pi', urun cmos rtc_fuel (cat2 fuel buf) k = urun cmos rtc_fuel (sys_exit_ 0) k'
  /\ k_fs k' = put_term (Pipe.contents pi) (k_fs k) /\ k_sched k' = k_sched k /\ k_pipes k' !! b = Some pi' /\ Pipe.contents pi' = [].
Proof.
  intros Hp Hc Hb Hlen. destruct (copy_stdin_run cmos rtc_fuel fuel k me r b pi buf 256 (sys_exit_ 0) Hp Hc ltac:(lia) Hb Hlen)
    as (k' & pi' & E & Hfs & _ & Hs & _ & Hp' & Hc'). exists k', pi'. by split_and!; [exact E|..|apply Hp'|].
Qed.

End Theorems.

(** ** A program in user mode *)

Module Demo.

Import KernDemo.

(** Two processes, the running one and the kernel task. *)
Lemma two_members s p rp rk : current_process s = p -> ready_queue s = p -> blocked_list s = 0 -> zombie_list s = 0 ->
  0 <= tick_count s < TIMESLICE -> procs s = <[p := rp]> {[kernel_task_addr := rk]} -> p <> 0 -> p <> kernel_task_addr -> kernel_task_addr <> 0 ->
  p_next rp = kernel_task_addr -> p_next rk = p -> p_state rp = PROCESS_RUNNING -> p_state rk = PROCESS_READY ->
  members kernel_task_addr s [p; kernel_task_addr].
Proof.
  intros Hc Hr Hb Hz Ht Hm H0 Hk Hk0 N1 N2 S1 S2.
  assert (procs s !! p = Some rp) as Ep by (by rewrite Hm, lookup_insert_eq).
  assert (procs s !! kernel_task_addr = Some rk) as Ek by (by rewrite Hm, lookup_insert_ne, lookup_singleton_eq).
  exists [p; kernel_task_addr], [], []. split; [|by rewrite app_nil_r]. split.
  - split.
    + split; [|by cbn|by cbn|].
      * rewrite decide_False by done. rewrite Hr. cbn [seg]. split; [done|]. split; [done|]. exists rp. split; [done|]. split; [done|]. split; [done|]. by exists rk.
      * cbn. apply NoDup_cons. split; [by intros ->%list_elem_of_singleton|apply NoDup_singleton].
    + exists [kernel_task_addr]. by rewrite Hc.
    + exists PROCESS_RUNNING. rewrite Hc. split; [unfold stat; rewrite Ep; cbn; by rewrite S1|done].
    + intros q ->%list_elem_of_singleton. unfold stat. rewrite Ek. cbn. by rewrite S2.
    + by intros q ?%not_elem_of_nil.
    + by intros q ?%not_elem_of_nil.
    + intros q Hq. right. unfold stat in Hq. rewrite Hm in Hq. destruct (decide (p = q)) as [->|Hpq]; [done|]. rewrite lookup_insert_ne in Hq by done.
      apply fmap_Some in Hq as (x & Hx & Hq). apply lookup_singleton_Some in Hx as [_ <-]. by rewrite S2 in Hq.
    + by right; left.
    + unfold stat. rewrite Ek. cbn. by rewrite S2.
    + done.
  - unfold stat. rewrite Hc, Ep. cbn. by rewrite S1.
Qed.

(** Strings one behind the other in memory, and where each of them is. *)
Fixpoint address_in (base : Z) (ss : list (list Z)) (s : list Z) : Z :=
  match ss with
  | [] => 0
  | t :: ss => if bool_decide (s = t) then base else address_in (base + Z.of_nat (S (length t))) ss s
  end.
Definition image (ss : list (list Z)) : list Z := concat ((fun s => s ++ [0]) <$> ss).

Definition string_check (k : dkern) (a : Z) (s : list Z) : bool :=
  (0 <? a) && (a <? 4294967296) && (a + Z.of_nat (length s) <? USER_LIMIT) && forallb (fun c => negb (c =? 0)) s && (Z.of_nat (length s) <? 255) && FileCalls.Demo.there k a (s ++ [0]).

Lemma string_checked k a s : string_check k a s = true -> user_string k a s.
Proof.
  unfold string_check. rewrite !andb_true_iff, !Z.ltb_lt, forallb_forall. intros [[[[[H1 H2] H3] H4] H5] H6].
  split; [unfold is_u32; lia|]. split; [lia|]. split; [lia|]. split; [|split; [lia|by apply FileCalls.Demo.there_holds]].
  apply Forall_forall. intros c Hc%list_elem_of_In. specialize (H4 c Hc). by destruct (Z.eqb_spec c 0).
Qed.

Definition separate_check (k : dkern) (a : Z) (n : nat) (b : Z) (m : nat) : bool :=
  forallb (fun x => negb (bool_decide (x ∈ frames k b m))) (frames k a n).

Lemma separate_checked k a n b m : separate_check k a n b m = true -> separate k a n b m.
Proof.
  unfold separate_check. rewrite forallb_forall. intros H i j p Hi Hj Ei Ej.
  assert (Some p ∈ frames k a n) as Ha by (apply list_elem_of_lookup; exists i; by apply frames_lookup).
  assert (Some p ∈ frames k b m) as Hb by (apply list_elem_of_lookup; exists j; by apply frames_lookup).
  apply list_elem_of_In in Ha. specialize (H _ Ha). by rewrite bool_decide_true in H.
Qed.

Definition placed_check (lit : list Z -> Z) (k : dkern) (ss : list (list Z)) : bool := forallb (fun s => string_check k (lit s) s) ss.

Lemma placed_checked lit k ss : placed_check lit k ss = true -> placed lit k ss.
Proof. unfold placed_check, placed. rewrite forallb_forall, Forall_forall. intros H s Hs%list_elem_of_In. by apply string_checked, H. Qed.

(** The first program of [KernDemo], with strings and words put into its stack page. *)
Definition base : Z := 0xBFFFF100.
Definition array : Z := 0xBFFFF300.
Definition loaded (k : dkern) (l : list Z) : dkern := after (put_bytes_at base l) k.

Lemma loaded_eq k l : buffer k base (length l) -> exists m, loaded k l = with_phys m k.
Proof. intros Hb. destruct (put_user_bytes_ok l k base Hb) as (m & E & _). exists m. unfold loaded, after. by rewrite E. Qed.

Lemma user_members : members kernel_task_addr (k_sched in_user) [2; kernel_task_addr].
Proof.
  apply (two_members _ 2 (default (kernel_task 0 0) (procs (k_sched in_user) !! 2)) (default (kernel_task 0 0) (procs (k_sched in_user) !! kernel_task_addr)));
    try (vm_compute; reflexivity); try (vm_compute; congruence). vm_compute. split; congruence.
Qed.

Definition me : Z := 2.
Definition proc : process := default (kernel_task 0 0) (procs (k_sched in_user) !! 2).

Lemma user_task : task in_user me proc.
Proof. split; [vm_compute; reflexivity|done|vm_compute; reflexivity|vm_compute; reflexivity]. Qed.

Lemma plain_checked fds : forallb (fun d => (fd_kind d =? FD_NONE) || (fd_kind d =? FD_TTY_IN) || (fd_kind d =? FD_TTY_OUT)) fds = true -> Forall plain_fd fds.
Proof.
  rewrite forallb_forall, Forall_forall. intros H d Hd%list_elem_of_In. specialize (H d Hd). rewrite !orb_true_iff, !Z.eqb_eq in H. unfold plain_fd. tauto.
Qed.

Lemma user_plain : Forall plain_fd (p_fds proc).
Proof. apply plain_checked. vm_compute. reflexivity. Qed.

Lemma user_console i : (i = 1 \/ i = 2)%nat -> console proc i.
Proof. intros [-> | ->]; (eexists; split; [vm_compute; reflexivity|reflexivity]). Qed.

Lemma user_session0 : session in_user [2; kernel_task_addr] me proc.
Proof. split; [exact user_members|exact user_task|done|by apply user_console; left|exact user_plain|vm_compute; congruence]. Qed.

Lemma user_session (k : dkern) m : k_sched k = k_sched in_user -> k_exits k = k_exits in_user -> session (with_phys m k) [2; kernel_task_addr] me proc.
Proof.
  intros E1 E2. apply (session_same in_user); [by rewrite with_phys_sched|done|]. exact user_session0.
Qed.

(** Three arguments: the name of the program and two words. *)
Definition echo_strings : list (list Z) := [chars " "; [10]; chars "echo"; chars "hello"; chars "world"].
Definition echo_lit : list Z -> Z := address_in base echo_strings.
Definition le32 (v : Z) : list Z := [u8 v; u8 (Z.shiftr v 8); u8 (Z.shiftr v 16); u8 (Z.shiftr v 24)].
Definition echo_args : list (list Z) := [chars "echo"; chars "hello"; chars "world"].
Definition echo_argv : Z := base + Z.of_nat (length (image echo_strings)).
Definition echo_image : list Z := image echo_strings ++ concat ((fun s => le32 (echo_lit s)) <$> echo_args).
Definition echo_ready : dkern := loaded in_user echo_image.

Lemma echo_session : session echo_ready [2; kernel_task_addr] me proc.
Proof.
  destruct (loaded_eq in_user echo_image) as (m & E); [apply FileCalls.Demo.buffer_checked; vm_compute; reflexivity|].
  unfold echo_ready. rewrite E. by apply user_session.
Qed.

Lemma echo_placed : placed echo_lit echo_ready [chars " "; [10]].
Proof. apply placed_checked. vm_compute. reflexivity. Qed.

Lemma echo_vector : argv_at echo_ready echo_argv echo_args.
Proof.
  intros i s Hi. exists (echo_lit s).
  assert (forallb (fun x => string_check echo_ready (echo_lit x.2) x.2 && FileCalls.Demo.there echo_ready (echo_argv + 4 * Z.of_nat x.1) (le32 (echo_lit x.2))
    && (echo_argv + 4 * Z.of_nat x.1 + 4 <=? USER_LIMIT)) (imap pair echo_args) = true) as H by (vm_compute; reflexivity).
  rewrite forallb_forall in H. specialize (H (i, s)). cbn [fst snd] in H. rewrite !andb_true_iff in H. destruct H as [[H1 H2] H3].
  { apply list_elem_of_In, list_elem_of_lookup. exists i. by rewrite list_lookup_imap, Hi. }
  apply string_checked in H1. split; [|done]. split; [apply H1|]. split; [by apply Z.leb_le|by apply FileCalls.Demo.there_holds].
Qed.

(** Bytes in a pipe without writers, and the reader as standard input. *)
Definition drained_pipe : Pipe.pipe := let p := (Pipe.pipe_write_fd 7 (chars "hello from echo") Pipe.pipe_init).1.2 in
  Pipe.mk_pipe (Pipe.buf p) (Pipe.head p) (Pipe.tail p) (Pipe.read_open p) 0 (Pipe.blocked_reader p) 0.
Definition stdin_fd : file_desc := mk_fd FD_PIPE_READ 0 0 4 0 0 0 0 0.
Definition cat_ready : dkern := set_pipes {[ 4 := drained_pipe ]} (put_fd me proc 0 stdin_fd in_user).

Lemma stdin_ready (k : dkern) q r d b p : task k q r -> fd_kind d = FD_PIPE_READ -> fd_pipe d = b -> Pipe.pipe_ok p -> Forall is_byte (Pipe.contents p) ->
  Pipe.write_open p = 0 -> Pipe.blocked_writer p = 0 -> stdin_pipe (set_pipes {[ b := p ]} (put_fd q r 0 d k)) q (set_fds (<[0%nat := d]> (p_fds r)) r) b p.
Proof.
  intros Ht Hk Hb Hp Hl Hw Hbw. split; [by apply (task_sched (put_fd q r 0 d k)), task_put_fd| |apply lookup_singleton_eq|done|done|done].
  exists d. split; [|done]. cbn. apply list_lookup_insert_eq. rewrite (tk_fds _ _ _ Ht). unfold MAX_FDS. lia.
Qed.

Lemma cat_piped : stdin_pipe cat_ready me (set_fds (<[0%nat := stdin_fd]> (p_fds proc)) proc) 4 drained_pipe.
Proof.
  exact (stdin_ready in_user me proc stdin_fd 4 drained_pipe user_task eq_refl eq_refl ltac:(vm_compute; intuition congruence)
    ltac:(apply bytes_checked; vm_compute; reflexivity) eq_refl eq_refl).
Qed.

End Demo.


Lemma crash_contained_witness :
  exists k', urun (fun _ _ => 0) 0 (crash Demo.array 0) KernDemo.in_user = Some (Killed, k').
Proof.
  destruct (crash_contained (fun _ _ => 0) 0 KernDemo.in_user _ _ _ Demo.array 0 Demo.user_session0) as (k' & E & _).
  - split; [done|]. split; [vm_compute; congruence|]. apply FileCalls.Demo.buffer_checked. vm_compute. reflexivity.
  - vm_compute. reflexivity.
  - exists k'. exact E.
Defined.

Lemma cat2_drains_witness :
  exists k', urun (fun _ _ => 0) 0 (cat2 2 Demo.array) Demo.cat_ready = urun (fun _ _ => 0) 0 (sys_exit_ 0) k'
  /\ k_fs k' = put_term (chars "hello from echo") (k_fs Demo.cat_ready).
Proof.
  destruct (cat2_drains (fun _ _ => 0) 0 Demo.cat_ready _ _ _ _ Demo.array 2 Demo.cat_piped) as (k' & pi' & E & Hfs & _).
  - eexists. split; [vm_compute; reflexivity|reflexivity].
  - split; [done|]. split; [vm_compute; congruence|]. apply FileCalls.Demo.buffer_checked. vm_compute. reflexivity.
  - vm_compute. congruence.
  - exists k'. split; [exact E|exact Hfs].
Defined.

End SampleRuns.
