(* ===== verification/Redir.v ===== *)
(** * Redirection, end to end

    user/redir.c on the whole system: standard output becomes a file with [dup2], what is
    printed is collected and stored when standard output is restored, and reading the file
    back prints it.  The steps are lemmas on their own: [dup2] onto an open descriptor,
    closing one of two descriptors of a write buffer, and the loop that copies a file to
    standard output. *)

From S2P Require Import Prelude Pmm Heap Disk Fat32Names Fat32 Fat32Table Fat32Files Fat32Dirs Fat32Lookup Fat32Remove Fat32Spec Sched SchedProps SchedFrame Pipe Paging PagingProps Elf Vfs Drivers Kern Syscall UserMem CallSpecs KernDemo KernOps FileCalls FileWrites UserRun Samples SampleRuns.

Module Redir.

Import Proc Sched SchedProps Frame Pipe Wbuf Paging Names Fat32 Table Files Dirs Lookup Remove Spec Vfs Kern Syscall UserMem CallSpecs KernOps FileCalls FileWrites UserRun Samples SampleRuns.

Section Redir.
Context {D A : Type} `{BD : BlockDev D} `{KH : KernelHeap A} `{PS : PageShare A}.
Context `{L : Layout} `{M : Machine}.
Context (cmos : Z -> Z -> Z) (rtc_fuel : nat) (g : geom) (Hg : geom_ok g).

Abbreviation kern := (kern (D := D) (A := A)).
Abbreviation urun := (urun cmos rtc_fuel).
#[local] Abbreviation fs := (@Fat32.fs D A).

(** ** The world of a running program *)

(** The volume [F], [B] is mounted, the kernel's allocations are [H], among them its write
    buffers; the process [me] with the record [r] runs in queues with the members [Q]. *)
Record world (k : kern) (F : Z -> Z) (B : Z -> Z -> Z) (H Q : list Z) (me : Z) (r : process) : Prop := {
  wd_volume : volume g k F B H;
  wd_wbufs : wbufs_in k H;
  wd_members : members kernel_task_addr (k_sched k) Q;
  wd_task : task k me r;
  wd_user : me <> kernel_task_addr;
  wd_exits : k_exits k <> [] }.

Lemma world_step (k k' : kern) F B H Q me r F' B' H' : world k F B H Q me r ->
  k_vfs k' = k_vfs k -> k_sched k' = k_sched k -> k_exits k' = k_exits k -> repr g (k_fs k') F' B' -> kh_ok (mem (k_fs k')) H' ->
  wbufs_in k' H' -> world k' F' B' H' Q me r.
Proof.
  intros [[Hm _ _] Hw Hmem Ht Hu He] E1 E2 E3 Hr Hh Hw'. split; rewrite ?E2, ?E3; try done; [by split; rewrite ?E1|by apply (task_sched k)].
Qed.

Lemma world_same (k k' : kern) F B H Q me r : world k F B H Q me r ->
  k_vfs k' = k_vfs k -> k_sched k' = k_sched k -> k_exits k' = k_exits k -> dev (k_fs k') = dev (k_fs k) -> mem (k_fs k') = mem (k_fs k) ->
  k_wbufs k' = k_wbufs k -> world k' F B H Q me r.
Proof.
  intros Hw E1 E2 E3 E4 E5 E6. pose proof (wd_volume _ _ _ _ _ _ _ Hw) as [_ Hr Hh]. eapply world_step; try done; [by apply (repr_dev g (k_fs k))|by rewrite E5|].
  unfold wbufs_in. rewrite E6. apply Hw.
Qed.

Lemma world_say (k : kern) F B H Q me r s : world k F B H Q me r -> world (say s k) F B H Q me r.
Proof. intros Hw. by eapply world_same. Qed.

Lemma world_put_fd (k : kern) F B H Q me r i d : world k F B H Q me r ->
  world (put_fd me r i d k) F B H Q me (set_fds (<[i := d]> (p_fds r)) r).
Proof.
  intros [[] Hw Hmem Ht Hu He]. split; [by split|done| |by apply task_put_fd|done|done].
  destruct (member_store k Q me r (set_fds (<[i := d]> (p_fds r))) Hmem (tk_proc _ _ _ Ht)) as (k' & _ & -> & Hm); done.
Qed.

Lemma world_session (k : kern) F B H Q me r : world k F B H Q me r -> console r 1 -> Forall plain_fd (p_fds r) -> session k Q me r.
Proof. intros [] Hc Hp. by split. Qed.

(** One call. *)
Lemma int80_run (k k' : kern) eax ebx ecx edx p v : syscall_handler (D := D) (A := A) cmos rtc_fuel (int80_regs eax ebx ecx edx) k = Some (Done v, k') ->
  urun (Int80 eax ebx ecx edx p) k = urun (p v) k'.
Proof. intros E. cbn [UserRun.urun]. by rewrite (bind_ok _ _ _ _ _ E). Qed.

Lemma done_run (m : st kern Z) (k k' : kern) eax ebx ecx edx p v :
  syscall_handler (D := D) (A := A) cmos rtc_fuel (int80_regs eax ebx ecx edx) = (let* x := m in ret (Done x)) -> m k = Some (v, k') ->
  urun (Int80 eax ebx ecx edx p) k = urun (p v) k'.
Proof. intros E1 E2. apply int80_run. rewrite E1. by rewrite (bind_ok _ _ _ _ _ E2). Qed.

Lemma fd_arg i : (i < MAX_FDS)%nat -> s32 (u32 (Z.of_nat i)) = Z.of_nat i.
Proof. unfold MAX_FDS. intros. rewrite u32_small, s32_small by (unfold is_u32; lia). done. Qed.

Lemma close_call (k k' : kern) i p v : (i < MAX_FDS)%nat -> sys_close (Z.of_nat i) k = Some (v, k') -> urun (sys_close_ (Z.of_nat i) p) k = urun (p v) k'.
Proof. intros Hi E. eapply (done_run (sys_close (s32 (u32 (Z.of_nat i))))); [done|by rewrite fd_arg]. Qed.

Lemma dup2_call (k k' : kern) i j p v : (i < MAX_FDS)%nat -> (j < MAX_FDS)%nat -> sys_dup2 (Z.of_nat i) (Z.of_nat j) k = Some (v, k') ->
  urun (sys_dup2_ (Z.of_nat i) (Z.of_nat j) p) k = urun (p v) k'.
Proof. intros Hi Hj E. eapply (done_run (sys_dup2 (s32 (u32 (Z.of_nat i))) (s32 (u32 (Z.of_nat j))))); [done|by rewrite !fd_arg]. Qed.

Lemma open_call (k k' : kern) upath flags p v : sys_open upath flags k = Some (v, k') -> urun (sys_open_ upath flags p) k = urun (p v) k'.
Proof. intros E. by eapply (done_run (sys_open upath flags)). Qed.

(** ** Writing to a redirected standard output *)

(** Descriptor 1 collects into the buffer at [w], which has [c] references. *)
Record redirected (k : kern) (me : Z) (r : process) (i : nat) (w : Z) (c p : Z) (path out : list Z) : Prop := {
  rx_task : task k me r;
  rx_fd : exists d, p_fds r !! i = Some d /\ fd_kind d = FD_FILE /\ fd_writable d = 1 /\ fd_wbuf d = w;
  rx_nonzero : w <> 0;
  rx_buf : exists b, k_wbufs k !! w = Some b /\ wbuf_ok b /\ wbytes b = out /\ w_refcount b = c /\ w_path b = path /\ w_ptr b = p }.

(** Which buffer is at [w] does not matter for the other parts of the kernel. *)
Definition with_buf (w : Z) (b : wbuf) (k : kern) : kern := set_wbufs (<[w := b]> (k_wbufs k)) k.

Lemma with_buf_twice w b b' (k : kern) : with_buf w b' (with_buf w b k) = with_buf w b' k.
Proof. unfold with_buf. cbn [k_wbufs set_wbufs]. by rewrite insert_insert_eq. Qed.

(** A string printed is appended, while there is room. *)
Lemma collect_str_run (k : kern) me r w c q path out a s p : redirected k me r 1 w c q path out -> user_string k a s ->
  Z.of_nat (length out + length s) <= WBUF_CAP ->
  exists b, urun (write_str a p) k = urun p (with_buf w b k) /\ redirected (with_buf w b k) me r 1 w c q path (out ++ s).
Proof.
  intros [Ht Hd H0 (b & Hb & Hok & Hout & Hc & Hpath & Hq)] (Ha & Ha0 & Hlim & Hs & Hlen & H) Hroom.
  apply holds_app in H as Hh. destruct Hh as [Hl _]. change USER_LIMIT with 0xC0000000 in Hlim.
  pose proof (wbytes_length b Hok) as Hwl. rewrite Hout in Hwl.
  destruct (fd_write_ok k me r 1 w b a s) as (b' & E & Hok' & Hb' & Hrc & Hp & Hptr); [by split|done| |unfold is_u32; lia|].
  { unfold user_range_ok. change USER_LIMIT with 0xC0000000. unfold is_u32 in Ha. zspec; simpl; done || lia. }
  rewrite Z.min_l in E, Hb' by lia. rewrite take_ge in Hb' by lia. exists b'. split.
  - unfold write_str. rewrite (slen_run cmos rtc_fuel k s) by (rewrite ?Z.add_0_r; done || (change USER_LIMIT with 0xC0000000; lia) || (unfold SLEN_FUEL; lia)).
    rewrite Z.add_0_l. unfold sys_write_. by rewrite (int80_run k (with_buf w b' k) 0 a (Z.of_nat (length s)) 0 _ _ E).
  - split; [by apply (task_sched k)|done|done|]. exists b'. split; [apply lookup_insert_eq|]. split; [done|]. split; [by rewrite Hb', Hout|]. split; [congruence|split; congruence].
Qed.

(** ** Duplicating and closing descriptors *)

Lemma put_fd_twice (k : kern) me r i d d' : put_fd me (set_fds (<[i := d]> (p_fds r)) r) i d' (put_fd me r i d k) = put_fd me r i d' k.
Proof.
  unfold put_fd. cbn [k_sched set_sched procs set_procs]. rewrite insert_insert_eq. cbn [set_fds p_fds]. by rewrite list_insert_insert_eq.
Qed.

(** [dup2]: the descriptor [j] is closed, and then it is what [i] is. *)
Lemma dup2_ok (k k1 : kern) me r i j d d0 v : task k me r -> p_fds r !! i = Some d -> fd_kind d <> FD_NONE -> i <> j -> (j < MAX_FDS)%nat ->
  sys_close (Z.of_nat j) k = Some (v, put_fd me r j d0 k1) -> k_sched k1 = k_sched k ->
  sys_dup2 (Z.of_nat i) (Z.of_nat j) k = (ref_fd d ;; ret (Z.of_nat j)) (put_fd me r j d k1).
Proof.
  intros Ht Hi Hk Hij Hj E Es. pose proof (lookup_lt_Some _ _ _ Hi) as Hil. rewrite (tk_fds _ _ _ Ht) in Hil.
  unfold sys_dup2. rewrite (bind_ok _ _ _ _ _ (current_ok _ _ _ Ht)). pose proof (tk_nonzero _ _ _ Ht) as H0.
  assert ((me =? 0) || (Z.of_nat i <? 0) || (Z.of_nat MAX_FDS <=? Z.of_nat i) || (Z.of_nat j <? 0) || (Z.of_nat MAX_FDS <=? Z.of_nat j) = false) as ->
    by (unfold MAX_FDS in *; zspec; simpl; done || lia).
  rewrite !Nat2Z.id, (bind_ok _ _ _ _ _ (fd_load_ok k me r i d (tk_proc _ _ _ Ht) Hi)). apply Z.eqb_neq in Hk. rewrite Hk.
  destruct (Z.eqb_spec (Z.of_nat i) (Z.of_nat j)); [lia|]. rewrite (bind_ok _ _ _ _ _ E).
  set (r1 := set_fds (<[j := d0]> (p_fds r)) r). assert (task k1 me r) as Ht1 by (by apply (task_sched k)).
  assert (procs (k_sched (put_fd me r j d0 k1)) !! me = Some r1) as Hr1 by (apply lookup_insert_eq).
  rewrite (bind_ok _ _ _ _ _ (fd_load_ok _ me r1 i d Hr1 ltac:(cbn; by rewrite list_lookup_insert_ne))), (bind_ok _ _ _ _ _ (fd_store_ok _ me r1 j d Hr1)).
  unfold r1. by rewrite put_fd_twice.
Qed.

Lemma close_console (k : kern) me r j d : task k me r -> p_fds r !! j = Some d -> fd_kind d = FD_TTY_OUT ->
  sys_close (Z.of_nat j) k = Some (0, put_fd me r j (cleared d) k).
Proof.
  intros Ht Hj Hk. unfold sys_close. rewrite (bind_ok _ _ _ _ _ (lookup_fd_ok k me r j d Ht Hj ltac:(by rewrite Hk))).
  unfold release_fd. rewrite Hk. cbn [Z.eqb FD_TTY_OUT FD_FILE FD_PIPE_READ FD_PIPE_WRITE Pos.eqb andb]. unfold bind at 1 2, ret at 1 2.
  by rewrite Nat2Z.id, (bind_ok _ _ _ _ _ (fd_store_ok k me r j _ (tk_proc _ _ _ Ht))).
Qed.

(** A file open for reading. *)
Lemma close_read (k : kern) me r j d : task k me r -> p_fds r !! j = Some d -> fd_kind d = FD_FILE -> fd_writable d = 0 ->
  sys_close (Z.of_nat j) k = Some (0, put_fd me r j (cleared d) k).
Proof.
  intros Ht Hj Hk Hw. unfold sys_close. rewrite (bind_ok _ _ _ _ _ (lookup_fd_ok k me r j d Ht Hj ltac:(by rewrite Hk))).
  unfold release_fd. rewrite Hk, Hw. cbn [Z.eqb FD_FILE FD_PIPE_READ FD_PIPE_WRITE Pos.eqb andb negb]. unfold bind at 1 2, ret at 1 2.
  by rewrite Nat2Z.id, (bind_ok _ _ _ _ _ (fd_store_ok k me r j _ (tk_proc _ _ _ Ht))).
Qed.

(** Standard output becomes a second reference to the buffer of descriptor [i]. *)
Lemma dup2_redirect (k : kern) me r i j w q path out d : redirected k me r i w 1 q path out -> p_fds r !! j = Some d -> fd_kind d = FD_TTY_OUT -> i <> j ->
  exists b d', sys_dup2 (Z.of_nat i) (Z.of_nat j) k = Some (Z.of_nat j, put_fd me r j d' (with_buf w b k))
  /\ fd_kind d' = FD_FILE /\ p_fds r !! i = Some d'
  /\ let k' := put_fd me r j d' (with_buf w b k) in let r' := set_fds (<[j := d']> (p_fds r)) r in
     redirected k' me r' j w 2 q path out /\ redirected k' me r' i w 2 q path out.
Proof.
  intros [Ht (di & Hi & Hk & Hw & Hwb) H0 (b & Hb & Hok & Hout & Hc & Hpath & Hq)] Hj Hkj Hij.
  exists (Wbuf.wbuf_ref b), di. pose proof (lookup_lt_Some _ _ _ Hj) as Hlt. split; [|split; [done|split; [done|]]].
  - rewrite (dup2_ok k k me r i j di (cleared d) 0 Ht Hi) by (done || (by rewrite Hk) || (by rewrite <- (tk_fds _ _ _ Ht)) || by apply close_console).
    unfold ref_fd. rewrite Hk, Hw, Hwb. cbn [Z.eqb FD_FILE FD_PIPE_READ FD_PIPE_WRITE Pos.eqb andb negb]. unfold Kern.wbuf_ref. apply Z.eqb_neq in H0. rewrite H0.
    unfold bind, wbuf_load. cbn [put_fd set_sched k_wbufs]. by rewrite Hb.
  - set (k' := put_fd _ _ _ _ _).
    assert (forall x dx, <[j := di]> (p_fds r) !! x = Some dx -> fd_kind dx = FD_FILE /\ fd_writable dx = 1 /\ fd_wbuf dx = w ->
      redirected k' me (set_fds (<[j := di]> (p_fds r)) r) x w 2 q path out) as Hgo.
    { intros x dx Hx Hdx. split; [by apply task_put_fd, (task_sched k)|by exists dx|done|]. exists (Wbuf.wbuf_ref b). split; [apply lookup_insert_eq|].
      cbn. split; [done|]. split; [done|]. by rewrite Hc. }
    split; [apply (Hgo j di); [by apply list_lookup_insert_eq|done]|apply (Hgo i di); [by rewrite list_lookup_insert_ne|done]].
Qed.

(** Closing one of two references leaves the other. *)
Lemma close_shared (k : kern) me r i j w q path out : redirected k me r i w 2 q path out -> redirected k me r j w 2 q path out -> i <> j ->
  exists b d, sys_close (Z.of_nat i) k = Some (0, put_fd me r i (cleared d) (with_buf w b k)) /\ p_fds r !! i = Some d
  /\ redirected (put_fd me r i (cleared d) (with_buf w b k)) me (set_fds (<[i := cleared d]> (p_fds r)) r) j w 1 q path out.
Proof.
  intros [Ht (d & Hi & Hk & Hw & Hwb) H0 (b & Hb & Hok & Hout & Hc & Hpath & Hq)] [_ (dj & Hj & Hdj) _ _] Hij.
  exists (mk_wbuf (w_ptr b) (w_buf b) (w_len b) 1 (w_path b)), d. split; [|split; [done|]].
  - unfold sys_close. rewrite (bind_ok _ _ _ _ _ (lookup_fd_ok k me r i d Ht Hi ltac:(by rewrite Hk))).
    unfold release_fd. rewrite Hk, Hw, Hwb. cbn [Z.eqb FD_FILE FD_PIPE_READ FD_PIPE_WRITE Pos.eqb andb negb].
    assert (wbuf_unref w k = Some (tt, with_buf w (mk_wbuf (w_ptr b) (w_buf b) (w_len b) 1 (w_path b)) k)) as E.
    { unfold wbuf_unref. apply Z.eqb_neq in H0. rewrite H0, (bind_ok _ _ _ _ _ (wbuf_load_ok k w b Hb)). unfold wbuf_drop. rewrite Hc. done. }
    unfold bind at 1 2. rewrite E. unfold ret at 1. rewrite Nat2Z.id.
    by rewrite (bind_ok _ _ _ _ _ (fd_store_ok (with_buf w _ k) me r i _ (tk_proc _ _ _ Ht))).
  - split; [by apply task_put_fd, (task_sched k)| |done|].
    + exists dj. split; [|done]. cbn. by rewrite list_lookup_insert_ne.
    + eexists. split; [apply lookup_insert_eq|]. done.
Qed.

(** ** The file comes back *)

(** Memory changed in [n] bytes at [a] at most. *)
Definition only (k k' : kern) (a : Z) (n : nat) : Prop :=
  same_space k k' /\ forall p, (forall i, (i < n)%nat -> user_addr k (a + Z.of_nat i) <> Some p) -> phys (k_vm k') p = phys (k_vm k) p.

Lemma only_vm (k k' : kern) a n : k_vm k' = k_vm k -> only k k' a n.
Proof. intros E. unfold only, same_space. by rewrite E. Qed.

Lemma only_trans (k1 k2 k3 : kern) a n : only k1 k2 a n -> only k2 k3 a n -> only k1 k3 a n.
Proof.
  intros [S1 H1] [S2 H2]. split; [by etrans|]. intros p Hp. rewrite H2, H1; [done..|]. intros i Hi. rewrite (same_space_addr k1 k2) by done. auto.
Qed.

Lemma only_stored (k k' : kern) a n l m : k_vm k' = k_vm (with_phys m k) -> (length l <= n)%nat -> stored k a l m -> only k k' a n.
Proof.
  intros E Hl [_ Ho]. split; [unfold same_space; by rewrite E|]. intros p Hp. rewrite E. apply Ho. intros i Hi. apply Hp. lia.
Qed.

Lemma only_string (k k' : kern) a n b s : only k k' a n -> separate k a n b (S (length s)) -> user_string k b s -> user_string k' b s.
Proof.
  intros [S1 H1] Hs (U1 & U2 & U3 & U4 & U5 & U). do 5 (split; [done|]). intros i c Hi. destruct (U i c Hi) as (p & Ep & Hp). exists p.
  split; [by rewrite (same_space_addr k k')|]. rewrite H1; [done|]. intros j Hj Ej. eapply (Hs j i p Hj); [|done|done].
  apply lookup_lt_Some in Hi. rewrite length_app in Hi. simpl in Hi. lia.
Qed.

Lemma set_fds_twice r i d d' : set_fds (<[i := d']> (p_fds (set_fds (<[i := d]> (p_fds r)) r))) (set_fds (<[i := d]> (p_fds r)) r) = set_fds (<[i := d']> (p_fds r)) r.
Proof. cbn [set_fds p_fds]. by rewrite list_insert_insert_eq. Qed.

Lemma console_other r i d j : i <> j -> console r j -> console (set_fds (<[i := d]> (p_fds r)) r) j.
Proof. intros Hij (dj & Hj & Hk). exists dj. split; [|done]. cbn. by rewrite list_lookup_insert_ne. Qed.

(** One round: up to [len] bytes from the position are in the buffer. *)
Lemma read_fd_run (k : kern) F B H Q me r i d l n f pos buf len p : world k F B H Q me r -> (i < MAX_FDS)%nat -> p_fds r !! i = Some d ->
  fd_at g F B d l n f pos -> kh_rich (mem (k_fs k)) -> local_array k buf (Z.to_nat len) -> 0 < len < 65536 -> is_s32 n ->
  let w := readable n pos len in
  exists k' d', urun (sys_read_fd_ (Z.of_nat i) buf len p) k = urun (p w) k' /\ world k' F B H Q me (set_fds (<[i := d']> (p_fds r)) r)
  /\ fd_at g F B d' l n f (pos + w) /\ holds k' buf (slice f pos w) /\ only k k' buf (Z.to_nat len) /\ kh_rich (mem (k_fs k')) /\ place_eq (k_fs k) (k_fs k').
Proof.
  intros Hw Hi Hd Hat Hrich (Ha & Hlim & Hb) Hlen Hn w. pose proof (wd_task _ _ _ _ _ _ _ Hw) as Ht.
  assert (0 <= w <= len /\ (0 < w -> pos + w <= n)) as [Hw0 Hwn] by (unfold w, readable; lia).
  destruct (fd_read_ok g Hg F B H k me r i d l n f pos buf len) as (v & m & s & d' & E & Hr & Hpl & [Hh Hrich'] & Hcase);
    [apply Hw|done|done|done|unfold is_u32; lia|unfold user_range_ok; zspec; simpl; done || lia|apply (buffer_le _ _ _ (Z.to_nat len)); [lia|done]|].
  fold w in Hcase. destruct Hcase as [(-> & Hst & Hat')|(_ & Hno & _)]; [|done]. set (k' := put_fd me r i d' (with_phys m (set_fs s k))) in *.
  exists k', d'. split.
  { unfold sys_read_fd_. apply (int80_run k k' 13 (u32 (Z.of_nat i)) buf len). change (syscall_handler (D := D) (A := A) cmos rtc_fuel (int80_regs 13 (u32 (Z.of_nat i)) buf len))
      with (do_fd_read (D := D) (A := A) (s32 (u32 (Z.of_nat i))) buf len). by rewrite fd_arg. }
  split. { apply world_put_fd. apply (world_step k (with_phys m (set_fs s k)) F B H Q me r F B H Hw); done || apply Hw. }
  split; [done|]. split; [|split; [|split; [by apply Hrich'|done]]].
  - apply (stored_slice g Hg F B _ l n f s k buf pos w m Hr (fa_stream _ _ _ _ _ _ _ _ Hat)); [apply (fa_nonneg _ _ _ _ _ _ _ _ Hat)|lia|done|apply (buffer_le _ _ _ (Z.to_nat len)); [lia|done]|done].
  - apply (only_stored k k' buf _ (slice f pos w) m); [done|rewrite slice_length; lia|done].
Qed.

(** The loop prints the rest of the file. *)
Lemma copy_fd_run fuel : forall (k : kern) F B H Q me r i d l n f pos buf len total p, world k F B H Q me r -> (i < MAX_FDS)%nat -> i <> 1%nat -> console r 1 ->
  p_fds r !! i = Some d -> fd_at g F B d l n f pos -> pos <= n -> kh_rich (mem (k_fs k)) -> local_array k buf (Z.to_nat len) -> 0 < len < 65536 -> is_s32 n ->
  n - pos <= len * (Z.of_nat fuel - 1) ->
  exists k' d', urun (copy_fd fuel (Z.of_nat i) buf len total p) k = urun (p (total + (n - pos))) k' /\ world k' F B H Q me (set_fds (<[i := d']> (p_fds r)) r)
  /\ fd_at g F B d' l n f n /\ only k k' buf (Z.to_nat len) /\ kh_rich (mem (k_fs k')) /\ place_eq (put_term (slice f pos (n - pos)) (k_fs k)) (k_fs k').
Proof.
  induction fuel as [|fuel IH]; intros k F B H Q me r i d l n f pos buf len total p Hw Hi H1 Hcon Hd Hat Hpn Hrich Harr Hlen Hn Hfuel; [nia|].
  cbn [copy_fd]. set (body := fun n0 : Z => _).
  destruct (read_fd_run k F B H Q me r i d l n f pos buf len body Hw Hi Hd Hat Hrich Harr Hlen Hn) as (k1 & d1 & E & Hw1 & Hat1 & Hh & Ho & Hrich1 & Hpl1).
  rewrite E. set (w := readable n pos len) in *. unfold body. clear body E. cbv beta. destruct (Z.leb_spec w 0) as [Hz|Hpos].
  - assert (pos = n /\ w = 0) as [-> Hw0] by (unfold w, readable in *; lia). exists k1, d1. rewrite Hw0, Z.add_0_r in Hat1. rewrite Z.sub_diag, Z.add_0_r.
    split; [done|]. split; [done|]. split; [done|]. split; [done|]. split; [done|]. unfold slice, take_bytes, put_term, place_eq in *. cbn. by rewrite app_nil_r.
  - assert (w <= len /\ w <= n - pos /\ (w = len \/ w = n - pos)) as (Hwl & Hwn & Hor) by (unfold w, readable in *; lia). pose proof Harr as (Ha & Hlim & Hb).
    set (r1 := set_fds (<[i := d1]> (p_fds r)) r) in *. assert (console r1 1) as Hcon1 by (by apply console_other). clearbody w.
    assert (urun (sys_write_ buf w (fun _ => copy_fd fuel (Z.of_nat i) buf len (total + w) p)) k1
      = urun (copy_fd fuel (Z.of_nat i) buf len (total + w) p) (say (slice f pos w) k1)) as Es.
    { pose proof (write_bytes_run cmos rtc_fuel k1 me r1 buf (slice f pos w) (fun _ => copy_fd fuel (Z.of_nat i) buf len (total + w) p)) as Hwr.
      rewrite slice_length, Z2Nat.id in Hwr by lia. apply Hwr; [apply Hw1|done|done|lia|lia|lia|].
      left. intros Hx. apply (f_equal (@length Z)) in Hx. rewrite slice_length in Hx. simpl in Hx. lia. }
    rewrite Es.
    set (k2 := say (slice f pos w) k1).
    assert (p_fds r1 !! i = Some d1) as Hd1 by (apply list_lookup_insert_eq; by eapply lookup_lt_Some).
    destruct (IH k2 F B H Q me r1 i d1 l n f (pos + w) buf len (total + w) p) as (k3 & d3 & E3 & Hw3 & Hat3 & Ho3 & Hrich3 & Hpl3);
      [by apply world_say|done|done|done|done|done|lia|done| |done|done| |].
    + split; [done|]. split; [done|]. apply (same_space_buffer k); [apply Ho|done].
    + destruct Hor as [->|Hx]; [lia|]. rewrite Hx. assert (0 < Z.of_nat fuel) by nia. nia.
    + exists k3, d3. unfold r1 in Hw3. rewrite set_fds_twice in Hw3.
      split; [rewrite E3; do 2 f_equal; lia|]. split; [done|]. split; [done|]. split; [|split; [done|]].
      * eapply only_trans; [exact Ho|]. eapply only_trans; [by apply (only_vm k1 k2)|exact Ho3].
      * destruct Hpl3 as (P1 & P2 & P3). destruct Hpl1 as (Q1 & Q2 & Q3). split; [by rewrite P1|]. split; [by rewrite P2|]. rewrite P3. cbn. rewrite Q3, <- app_assoc.
        do 2 f_equal. replace (n - pos) with (w + (n - (pos + w))) by lia. by rewrite slice_app by lia.
Qed.

(** ** From the opening to the restored output *)

Lemma redirected_fd (k : kern) me r i j w c q path out d : redirected k me r i w c q path out ->
  p_fds r !! j = Some d -> fd_kind d = FD_FILE -> fd_writable d = 1 -> fd_wbuf d = w -> redirected k me r j w c q path out.
Proof. intros [] Hj H1 H2 H3. split; try done. by exists d. Qed.

Lemma world_buf (k : kern) F B H Q me r w b : world k F B H Q me r -> w ∈ H -> world (with_buf w b k) F B H Q me r.
Proof.
  intros Hw Hin. pose proof (wd_volume _ _ _ _ _ _ _ Hw) as [_ Hr Hh]. eapply world_step; try done. intros w' b' E. cbn in E.
  destruct (decide (w = w')) as [->|Hne]; [done|]. rewrite lookup_insert_ne in E by done. by eapply (wd_wbufs _ _ _ _ _ _ _ Hw).
Qed.

(** The buffer at [w] is of no concern to the allocations [H]. *)
Definition wbufs_but (k : kern) (w : Z) (H : list Z) : Prop := forall w' b, w' <> w -> k_wbufs k !! w' = Some b -> w' ∈ H.

Lemma wbufs_but_buf (k : kern) w H b : wbufs_but k w H -> wbufs_but (with_buf w b k) w H.
Proof. intros Hb w' b' Hne E. cbn in E. rewrite lookup_insert_ne in E by done. eauto. Qed.

(** [open(path, O_WRITE)] and [dup2(fd, 1)]. *)
Lemma redirect_start (k : kern) F B H Q me r i upath path d1 e p : world k F B H Q me r -> kh_rich (mem (k_fs k)) ->
  user_string k upath path -> (length path <= 63)%nat -> free_fd (p_fds r) = Some i -> p_fds r !! 1%nat = Some d1 -> fd_kind d1 = FD_TTY_OUT -> i <> 1%nat ->
  exists k' w q dw, let r' := set_fds (<[1%nat := dw]> (<[i := dw]> (p_fds r))) r in
  urun (sys_open_ upath 1 (fun fd => if fd <? 0 then e else sys_dup2_ fd 1 (fun _ => p fd))) k = urun (p (Z.of_nat i)) k'
  /\ world k' F B (q :: w :: H) Q me r' /\ redirected k' me r' 1 w 2 q path [] /\ redirected k' me r' i w 2 q path [] /\ wbufs_but k' w H
  /\ k_vm k' = k_vm k /\ place_eq (k_fs k) (k_fs k') /\ kh_rich (mem (k_fs k')).
Proof.
  intros Hw Hrich Hp Hlen Hi H1 Hk1 Hi1. pose proof (wd_task _ _ _ _ _ _ _ Hw) as Ht. destruct (free_fd_Some _ _ Hi) as (d0 & Hd0 & _).
  pose proof (lookup_lt_Some _ _ _ Hd0) as Hil.
  destruct (open_write_ok g F B H k me r i upath path (wd_volume _ _ _ _ _ _ _ Hw) (wd_wbufs _ _ _ _ _ _ _ Hw) Ht Hi Hp)
    as (s & Hpl & Hr & [(_ & _ & Hno)|(w & q & d & E & Hw0 & Hnone & Hh & Hrich')]); [done|].
  set (dw := writer_fd w d) in *. set (k1 := set_wbufs (<[w := wbuf_new q path]> (k_wbufs k)) (set_fs s k)) in *.
  set (k2 := put_fd me r i dw k1) in *. set (r2 := set_fds (<[i := dw]> (p_fds r)) r).
  assert (world k1 F B (q :: w :: H) Q me r) as Hw1.
  { eapply world_step; try done. intros w' b' E'. cbn in E'. destruct (decide (w = w')) as [->|Hne]; [by right; left|].
    rewrite lookup_insert_ne in E' by done. apply (wd_wbufs _ _ _ _ _ _ _ Hw) in E'. by do 2 right. }
  assert (redirected k2 me r2 i w 1 q path []) as Hx.
  { split; [by apply task_put_fd, (task_sched k)| |done|].
    - exists dw. split; [by apply list_lookup_insert_eq|done].
    - exists (wbuf_new q path). split; [apply lookup_insert_eq|]. destruct (wbuf_new_collects q path Hlen) as (C1 & C2 & C3 & C4 & C5). done. }
  destruct (dup2_redirect k2 me r2 i 1 w q path [] d1 Hx) as (b & d' & E2 & _ & Hd' & Hx1 & Hxi); [cbn; by rewrite list_lookup_insert_ne|done|done|].
  assert (d' = dw) as -> by (cbn in Hd'; rewrite list_lookup_insert_eq in Hd' by done; congruence).
  exists (put_fd me r2 1 dw (with_buf w b k2)), w, q, dw. cbv zeta. split.
  - rewrite (open_call k k2 upath 1 _ (Z.of_nat i) E). destruct (Z.ltb_spec (Z.of_nat i) 0); [lia|].
    rewrite (tk_fds _ _ _ Ht) in Hil. change 1 with (Z.of_nat 1) at 1. by rewrite (dup2_call k2 _ i 1 _ _ Hil ltac:(unfold MAX_FDS; lia) E2).
  - split; [apply (world_put_fd (with_buf w b k2) F B _ Q me r2), world_buf; [by apply (world_put_fd k1)|by right; left]|]. split; [done|]. split; [done|]. split; [|split; [done|split; [done|by apply Hrich']]].
    apply (wbufs_but_buf k2). intros w' b' Hne E'. cbn in E'. rewrite lookup_insert_ne in E' by done. by eapply (wd_wbufs _ _ _ _ _ _ _ Hw).
Qed.

(** A string printed while standard output goes to two descriptors' buffer. *)
Lemma redirect_print (k : kern) F B H Q me r i w q path out a s p : world k F B (q :: w :: H) Q me r ->
  redirected k me r 1 w 2 q path out -> redirected k me r i w 2 q path out -> wbufs_but k w H -> user_string k a s ->
  Z.of_nat (length out + length s) <= WBUF_CAP ->
  exists k', urun (write_str a p) k = urun p k' /\ world k' F B (q :: w :: H) Q me r
  /\ redirected k' me r 1 w 2 q path (out ++ s) /\ redirected k' me r i w 2 q path (out ++ s) /\ wbufs_but k' w H /\ k_vm k' = k_vm k /\ k_fs k' = k_fs k.
Proof.
  intros Hw H1 Hi Hb Hs Hroom. destruct (collect_str_run k me r w 2 q path out a s p H1 Hs Hroom) as (b & E & Hx). exists (with_buf w b k). split; [exact E|].
  split; [apply world_buf; [done|by right; left]|]. split; [done|]. split; [|split; [by apply wbufs_but_buf|done]].
  destruct (rx_fd _ _ _ _ _ _ _ _ _ Hi) as (di & Hdi & D1 & D2 & D3). by eapply redirected_fd.
Qed.

(** No cluster is missing for [size] bytes under the name, once the old file is gone. *)
Definition room (F : Z -> Z) (dir : list Z) (m : Z) (name l : list Z) (size : Z) : Prop :=
  forall F1, (forall y, y ∉ l -> F1 y = F y) -> (forall y, y ∈ l -> is_free F1 y = true) -> ~ shortage g F1 dir m name size.

(** [close(fd)] and [dup2(2, 1)]: the file is there, and standard output is the console. *)
Lemma redirect_end (k : kern) F B H Q me r i w q path out c dir m name l d2 p : world k F B (q :: w :: H) Q me r -> kh_rich (mem (k_fs k)) ->
  redirected k me r 1 w 2 q path out -> redirected k me r i w 2 q path out -> wbufs_but k w H -> i <> 1%nat -> i <> 2%nat ->
  p_fds r !! 2%nat = Some d2 -> fd_kind d2 = FD_TTY_OUT -> writable_at g (k_fs k) F B c dir m path name l -> Forall is_byte out ->
  room F dir m name l (Z.of_nat (length out)) ->
  exists k' d, let r' := set_fds (<[1%nat := d2]> (<[i := cleared d]> (p_fds r))) r in
  urun (sys_close_ (Z.of_nat i) (fun _ => sys_dup2_ 2 1 (fun _ => p))) k = urun p k'
  /\ exists F' B', world k' F' B' H Q me r' /\ k_vm k' = k_vm k /\ place_eq (k_fs k) (k_fs k') /\ kh_rich (mem (k_fs k'))
  /\ exists dir' m' l', dir_ok g F' B' c dir' m' /\ file_on g F' B' dir' name l' (Z.of_nat (length out)) (ch out)
     /\ forall x lx n f0, name_match name x = false -> name_match (short_name name) x = false -> apart g B dir name x ->
          (forall y, y ∈ lx -> y ∉ l) -> file_on g F B dir x lx n f0 -> file_on g F' B' dir' x lx n f0.
Proof.
  intros Hw Hrich H1 Hi Hbut Hi1 Hi2 H2 Hk2 Hwa Hbytes Hroom. pose proof (wd_task _ _ _ _ _ _ _ Hw) as Ht.
  destruct (rx_fd _ _ _ _ _ _ _ _ _ Hi) as (di & Hdi & _). pose proof (lookup_lt_Some _ _ _ Hdi) as Hil. rewrite (tk_fds _ _ _ Ht) in Hil.
  destruct (close_shared k me r i 1 w q path out Hi H1 Hi1) as (b & d & E1 & Hd & Hx). set (k1 := put_fd _ _ _ _ _) in *. set (r1 := set_fds (<[i := cleared d]> (p_fds r)) r) in *.
  assert (world k1 F B (q :: w :: H) Q me r1) as Hw1 by (apply (world_put_fd (with_buf w b k)), world_buf; [done|by right; left]).
  destruct Hx as [Ht1 Hd1 Hw0 (b1 & Hb1 & Hok1 & Hout1 & Hc1 & Hpath1 & Hq1)].
  destruct (close_write_ok g Hg F B c dir m path name l H out k1 me r1 1 w b1 q (wd_volume _ _ _ _ _ _ _ Hw1) Hwa ltac:(by split) ltac:(done) Hbytes)
    as (s & F' & B' & d0 & E2 & _ & Hpl & [Hh Hrich'] & Hr & Hst).
  set (k2 := set_wbufs (delete w (k_wbufs k1)) (set_fs s k1)) in *.
  assert (p_fds r1 !! 2%nat = Some d2) as H2' by (cbn; by rewrite list_lookup_insert_ne).
  assert (sys_dup2 2 1 k1 = Some (1, put_fd me r1 1 d2 k2)) as E3.
  { change 2 with (Z.of_nat 2). change 1 with (Z.of_nat 1). rewrite (dup2_ok k1 k2 me r1 2 1 d2 d0 0 Ht1 H2'); [|by rewrite Hk2|done|unfold MAX_FDS; lia|exact E2|done].
    unfold ref_fd. rewrite Hk2. done. }
  exists (put_fd me r1 1 d2 k2), d. cbv zeta. split.
  { rewrite (close_call k k1 i _ 0 Hil E1). change 2 with (Z.of_nat 2). change 1 with (Z.of_nat 1). by rewrite (dup2_call k1 _ 2 1 _ 1 ltac:(unfold MAX_FDS; lia) ltac:(unfold MAX_FDS; lia) E3). }
  exists F', B'. split.
  { apply (world_put_fd k2 F' B' H Q me r1). eapply (world_step k1); try done. intros w' b' E'. cbn in E'. apply lookup_delete_Some in E' as [Hne E'].
    rewrite lookup_insert_ne in E' by done. by eapply Hbut. }
  split; [done|]. split; [done|]. split; [by apply Hrich'|]. destruct Hst as [Hst|Hst]; [exact Hst|].
  destruct (Hst Hrich) as (F1 & HF1 & HF2 & Hsh). by destruct (Hroom F1 HF1 HF2).
Qed.

(** ** The programs *)

Lemma str_run (k : kern) F B H Q me r a s p : world k F B H Q me r -> console r 1 -> user_string k a s -> urun (write_str a p) k = urun p (say s k).
Proof. intros Hw Hc Hs. eapply write_str_run; [apply Hw|done|done]. Qed.

Lemma world_exit (k : kern) F B H Q me r code : world k F B H Q me r -> console r 1 -> Forall plain_fd (p_fds r) -> -2147483648 <= code < 2147483648 ->
  exists k', urun (sys_exit_ code) k = Some (Exited, k') /\ ended k k' Q me r code.
Proof. intros Hw Hc Hp Hcode. apply session_exit; [by eapply world_session|done]. Qed.

Lemma place_say (s : list Z) (k k' : kern) x : place_eq (put_term x (k_fs k)) (k_fs k') -> place_eq (put_term (x ++ s) (k_fs k)) (k_fs (say s k')).
Proof. intros (P1 & P2 & P3). split; [done|]. split; [done|]. cbn in *. by rewrite P3, app_assoc. Qed.

Lemma put_term_app x y (s : fs) : put_term (x ++ y) s = put_term y (put_term x s).
Proof. unfold put_term. cbn [cwd_cluster cwd_path dev mem term]. by rewrite app_assoc. Qed.

Lemma place_put x (s1 s2 s3 : fs) : place_eq s1 s2 -> place_eq (put_term x s2) s3 -> place_eq (put_term x s1) s3.
Proof. intros (P1 & P2 & P3) (Q1 & Q2 & Q3). cbn [put_term cwd_cluster cwd_path term] in *. split_and!; cbn [put_term cwd_cluster cwd_path term]; congruence. Qed.

Lemma plain_insert fds i d : Forall plain_fd fds -> plain_fd d -> Forall plain_fd (<[i := d]> fds).
Proof. intros Hf Hd. by apply Forall_insert. Qed.

Context (lit : list Z -> Z).

Definition back_head : list Z := line (chars "redir: reading ROUT.TXT back:").
Definition back_ok : list Z := line (chars "redir: ok").

(** The file is read back to the console. *)
Lemma back_run (k : kern) F B H Q me r i l n f fuel buf : world k F B H Q me r -> kh_rich (mem (k_fs k)) -> free_fd (p_fds r) = Some i -> i <> 1%nat ->
  console r 1 -> Forall plain_fd (p_fds r) -> placed lit k [back_head; redir_path; back_ok] -> file_at g k F B redir_path l n f -> is_s32 n ->
  n <= 32 * (Z.of_nat fuel - 1) -> local_array k buf 32 -> separate k buf 32 (lit back_ok) (S (length back_ok)) ->
  exists k1 k' r1, urun (redir_back lit fuel buf) k = Some (Exited, k') /\ ended k1 k' Q me r1 0 /\ p_pid r1 = p_pid r /\ p_parent_pid r1 = p_parent_pid r
  /\ world k1 F B H Q me r1 /\ place_eq (put_term (back_head ++ slice f 0 n ++ back_ok) (k_fs k)) (k_fs k1).
Proof.
  intros Hw Hrich Hi Hi1 Hcon Hplain Hlit Hfile Hn Hfuel Harr Hsep. apply Forall_cons in Hlit as [L1 [L2 [L3 _]%Forall_cons]%Forall_cons].
  destruct (free_fd_Some _ _ Hi) as (d0 & Hd0 & _). pose proof (lookup_lt_Some _ _ _ Hd0) as Hil. pose proof Hil as Hil'. rewrite (tk_fds _ _ _ (wd_task _ _ _ _ _ _ _ Hw)) in Hil'.
  unfold redir_back. fold back_head back_ok. rewrite (str_run k F B H Q me r _ back_head _ Hw Hcon L1). set (k1 := say back_head k).
  assert (world k1 F B H Q me r) as Hw1 by (by apply world_say).
  destruct (open_ok g Hg F B H k1 me r i (lit redir_path) redir_path l n f) as (s & Hr & Hpl & [Hh Hrich'] & [[_ Hno]|(d & E & Hat)]);
    [apply Hw1|apply Hw1|done|by apply say_string|exact Hfile|done|].
  set (k2 := put_fd me r i d (set_fs s k1)) in *. set (r2 := set_fds (<[i := d]> (p_fds r)) r). rewrite (open_call k1 k2 (lit redir_path) 0 _ (Z.of_nat i) E).
  destruct (Z.ltb_spec (Z.of_nat i) 0); [lia|].
  assert (world k2 F B H Q me r2) as Hw2 by (apply (world_put_fd (set_fs s k1)); eapply (world_step k1); try done; apply Hw1).
  assert (0 <= n) as Hn0 by (pose proof (fa_nonneg _ _ _ _ _ _ _ _ Hat); pose proof (sm_size _ _ _ _ _ _ _ (fa_stream _ _ _ _ _ _ _ _ Hat)); lia).
  destruct (copy_fd_run fuel k2 F B H Q me r2 i d l n f 0 buf 32 0 (fun _ => sys_close_ (Z.of_nat i) (fun _ => write_str (lit back_ok) (sys_exit_ 0))) Hw2 Hil' Hi1)
    as (k3 & d3 & E3 & Hw3 & Hat3 & Ho & Hrich3 & Hpl3);
    [by apply console_other|by apply list_lookup_insert_eq|done|done|by apply Hrich'| |done|done|lia|].
  { destruct Harr as (A1 & A2 & A3). done. }
  rewrite E3. clear E3. unfold r2 in Hw3. rewrite set_fds_twice in Hw3. set (r3 := set_fds (<[i := d3]> (p_fds r)) r) in *. set (k4 := put_fd me r3 i (cleared d3) k3).
  assert (sys_close (Z.of_nat i) k3 = Some (0, k4)) as E4.
  { apply close_read; [apply Hw3|by apply list_lookup_insert_eq|apply (fa_kind _ _ _ _ _ _ _ _ Hat3)|apply (fa_read _ _ _ _ _ _ _ _ Hat3)]. }
  rewrite (close_call k3 k4 i _ 0 Hil' E4). set (r4 := set_fds (<[i := cleared d3]> (p_fds r)) r).
  assert (world k4 F B H Q me r4) as Hw4 by (unfold r4; rewrite <- (set_fds_twice r i d3); by apply world_put_fd).
  assert (console r4 1) as Hcon4 by (by apply console_other).
  rewrite (str_run k4 F B H Q me r4 _ back_ok _ Hw4 Hcon4).
  2:{ apply (only_string k2 k4 buf 32); [exact Ho|exact Hsep|]. apply (user_string_vm k k2); done. }
  set (k5 := say back_ok k4). assert (world k5 F B H Q me r4) as Hw5 by (by apply world_say).
  destruct (world_exit k5 F B H Q me r4 0 Hw5 Hcon4) as (k' & E' & Hend); [apply plain_insert; [done|by left]|lia|].
  exists k5, k', r4. split; [exact E'|]. split; [done|]. split; [done|]. split; [done|]. split; [done|].
  rewrite Z.sub_0_r in Hpl3. rewrite app_assoc. apply place_say. rewrite put_term_app. exact (place_put _ _ _ _ Hpl Hpl3).
Qed.

Definition redir_head : list Z := line (chars "redir: redirecting stdout to ROUT.TXT").
Definition captured : list Z := redir_one ++ redir_two.

Lemma writable_cwd (s s' : fs) F B c dir m path name l : cwd_cluster s' = cwd_cluster s -> kh_rich (mem s') ->
  writable_at g s F B c dir m path name l -> writable_at g s' F B c dir m path name l.
Proof.
  intros E Hr [(D1 & D2 & D3) H2 _ H4 H5]. split; [|done|by left|done|done]. split; [done|]. split; [done|]. by rewrite E.
Qed.

Lemma free_fd_intro (fds : list file_desc) i d : fds !! i = Some d -> fd_kind d = FD_NONE ->
  (forall j dj, (j < i)%nat -> fds !! j = Some dj -> fd_kind dj <> FD_NONE) -> free_fd fds = Some i.
Proof. intros Hi Hd Hj. unfold free_fd. assert (list_find (fun f => fd_kind f = FD_NONE) fds = Some (i, d)) as ->; [|done]. apply list_find_Some. split; [done|]. split; [done|]. eauto. Qed.

Lemma free_fd_before (fds : list file_desc) i j d : free_fd fds = Some i -> (j < i)%nat -> fds !! j = Some d -> fd_kind d <> FD_NONE.
Proof. unfold free_fd. intros H Hj Hd. apply fmap_Some in H as ([x y] & H & ->). apply list_find_Some in H as (_ & _ & H). by eapply H. Qed.

(** The descriptors when standard output is restored: the same one is free. *)
Lemma restored_fds (fds : list file_desc) i dw d d2 d1 : free_fd fds = Some i -> i <> 1%nat -> fds !! 1%nat = Some d1 -> fd_kind d2 = FD_TTY_OUT ->
  let fds' := <[1%nat := d2]> (<[i := cleared d]> (<[1%nat := dw]> (<[i := dw]> fds))) in
  free_fd fds' = Some i /\ fds' !! 1%nat = Some d2 /\ (Forall plain_fd fds -> Forall plain_fd fds').
Proof.
  intros Hi Hi1 H1 Hk fds'. destruct (free_fd_Some _ _ Hi) as (d0 & Hd0 & _). pose proof (lookup_lt_Some _ _ _ Hd0). pose proof (lookup_lt_Some _ _ _ H1).
  assert (fds' = <[1%nat := d2]> (<[i := cleared d]> fds)) as ->.
  { unfold fds'. rewrite (list_insert_insert_ne _ i 1 (cleared d) dw) by done. rewrite list_insert_insert_eq. by rewrite list_insert_insert_eq. }
  split; [|split].
  - apply (free_fd_intro _ i (cleared d)); [by rewrite list_lookup_insert_ne, list_lookup_insert_eq|done|]. intros j dj Hj Hdj.
    destruct (decide (j = 1%nat)) as [->|Hj1].
    + rewrite list_lookup_insert_eq in Hdj by (by rewrite length_insert). injection Hdj as <-. by rewrite Hk.
    + rewrite !list_lookup_insert_ne in Hdj by lia. by eapply free_fd_before.
  - apply list_lookup_insert_eq. by rewrite length_insert.
  - intros Hp. apply plain_insert; [apply plain_insert; [done|by left]|right; right; by left].
Qed.

Lemma redir_ok (k : kern) F B H Q me r i c dir m l d2 fuel buf : world k F B H Q me r -> kh_rich (mem (k_fs k)) -> free_fd (p_fds r) = Some i ->
  i <> 1%nat -> i <> 2%nat -> console r 1 -> p_fds r !! 2%nat = Some d2 -> fd_kind d2 = FD_TTY_OUT -> Forall plain_fd (p_fds r) ->
  placed lit k [redir_head; redir_path; redir_one; redir_two; back_head; back_ok] -> local_array k buf 32 ->
  separate k buf 32 (lit back_ok) (S (length back_ok)) -> (3 <= fuel)%nat ->
  writable_at g (k_fs k) F B c dir m redir_path redir_path l -> room F dir m redir_path l (Z.of_nat (length captured)) ->
  exists k1 k' r1 F' B', urun (redir lit fuel buf) k = Some (Exited, k') /\ ended k1 k' Q me r1 0 /\ p_pid r1 = p_pid r /\ p_parent_pid r1 = p_parent_pid r
  /\ world k1 F' B' H Q me r1 /\ place_eq (put_term (redir_head ++ back_head ++ captured ++ back_ok) (k_fs k)) (k_fs k1)
  /\ exists dir' m' l', dir_ok g F' B' c dir' m' /\ file_on g F' B' dir' redir_path l' (Z.of_nat (length captured)) (ch captured)
     /\ forall x lx n f0, name_match redir_path x = false -> name_match (short_name redir_path) x = false -> apart g B dir redir_path x ->
          (forall y, y ∈ lx -> y ∉ l) -> file_on g F B dir x lx n f0 -> file_on g F' B' dir' x lx n f0.
Proof.
  intros Hw Hrich Hi Hi1 Hi2 Hcon H2 Hk2 Hplain Hlit Harr Hsep Hfuel Hwa Hroom. destruct Hcon as (d1 & H1 & Hk1).
  apply Forall_cons in Hlit as [L1 [L2 [L3 [L4 Hlit]%Forall_cons]%Forall_cons]%Forall_cons].
  set (ka := say redir_head k).
  set (fail := write_str (lit (line (chars "redir: open failed"))) (sys_exit_ 1)).
  set (rest := fun fd => write_str (lit redir_one) (write_str (lit redir_two) (sys_close_ fd (fun _ => sys_dup2_ 2 1 (fun _ => redir_back lit fuel buf))))).
  assert (urun (redir lit fuel buf) k = urun (sys_open_ (lit redir_path) 1 (fun fd => if fd <? 0 then fail else sys_dup2_ fd 1 (fun _ => rest fd))) ka) as E0
    by (eapply str_run; [exact Hw|by exists d1|exact L1]).
  destruct (redirect_start ka F B H Q me r i (lit redir_path) redir_path d1 fail rest ltac:(by apply world_say) Hrich ltac:(by apply say_string) ltac:(by apply Nat.leb_le) Hi H1 Hk1 Hi1)
    as (kb & w & q & dw & Eb & Hwb & Hx1 & Hxi & Hbut & Evb & Hplb & Hrichb). cbv zeta in *. rewrite Eb in E0. set (rb := set_fds _ r) in *. unfold rest in E0. cbv beta in E0. clear Eb rest fail.
  destruct (redirect_print kb F B H Q me rb i w q redir_path [] (lit redir_one) redir_one (write_str (lit redir_two) (sys_close_ (Z.of_nat i) (fun _ => sys_dup2_ 2 1 (fun _ => redir_back lit fuel buf)))) Hwb Hx1 Hxi Hbut)
    as (kc & Ec & Hwc & Hx1c & Hxic & Hbutc & Evc & Efc); [by apply (user_string_vm k)|by apply Z.leb_le|]. rewrite Ec in E0. clear Ec. rewrite app_nil_l in *.
  destruct (redirect_print kc F B H Q me rb i w q redir_path redir_one (lit redir_two) redir_two (sys_close_ (Z.of_nat i) (fun _ => sys_dup2_ 2 1 (fun _ => redir_back lit fuel buf))) Hwc Hx1c Hxic Hbutc)
    as (kd & Ed & Hwd & Hx1d & Hxid & Hbutd & Evd & Efd); [apply (user_string_vm k); [by rewrite Evc|done]|by apply Z.leb_le|]. rewrite Ed in E0. clear Ed. fold captured in *.
  assert (k_vm kd = k_vm k) as Evk by (by rewrite Evd, Evc). assert (k_fs kd = k_fs kb) as Efk by congruence.
  destruct (redirect_end kd F B H Q me rb i w q redir_path captured c dir m redir_path l d2 (redir_back lit fuel buf)) as (ke & d & Ee & F' & B' & Hwe & Eve & Hple & Hriche & dir' & m' & l' & Hd' & Hf' & Ho');
    [exact Hwd|by rewrite Efk|done|done|done|done|done|by cbn; rewrite !list_lookup_insert_ne|done| |apply bytes_checked; reflexivity|done|].
  { apply (writable_cwd (k_fs k)); [rewrite Efk; apply Hplb|by rewrite Efk|done]. }
  cbv zeta in *. rewrite Ee in E0. clear Ee. change (set_fds (<[1%nat := d2]> (<[i := cleared d]> (p_fds rb))) rb) with (set_fds (<[1%nat := d2]> (<[i := cleared d]> (<[1%nat := dw]> (<[i := dw]> (p_fds r))))) r) in *.
  destruct (restored_fds (p_fds r) i dw d d2 d1 Hi Hi1 H1 Hk2) as (R1 & R2 & R3). set (re := set_fds (<[1%nat := d2]> (<[i := cleared d]> (<[1%nat := dw]> (<[i := dw]> (p_fds r))))) r) in *. rewrite Efk in Hple.
  assert (k_vm ke = k_vm k) as Ev by (by rewrite Eve).
  destruct (back_run ke F' B' H Q me re i l' (Z.of_nat (length captured)) (ch captured) fuel buf) as (k1 & k' & r1 & E1 & Hend & Hpid & Hpar & Hw1 & Hpl1);
    [exact Hwe|exact Hriche|exact R1|done|by exists d2|by apply R3| | |done|change (Z.of_nat (length captured)) with 36; lia| | |].
  - apply Forall_cons in Hlit as [L5 Hlit]. eapply placed_vm; [exact Ev|]. constructor; [exact L5|]. constructor; [exact L2|exact Hlit].
  - exists c, redir_path, dir', m'. split; [|split; [by apply dir_ok_at|done]]. destruct Hwa as [(D1 & D2 & D3) _ _ _ _]. split; [done|]. split; [done|].
    destruct Hple as (E & _). destruct Hplb as (E' & _). rewrite E, E'. exact D3.
  - destruct Harr as (A1 & A2 & A3). split; [done|]. split; [done|]. apply (same_space_buffer k); [unfold same_space; by rewrite Ev|done].
  - apply (same_space_separate k); [unfold same_space; by rewrite Ev|done].
  - exists k1, k', r1, F', B'. split; [by rewrite E0|]. split; [done|]. split; [done|]. split; [done|]. split; [done|]. split; [|by exists dir', m', l'].
    rewrite put_term_app. refine (place_put _ _ _ _ _ Hpl1). by eapply place_trans.
Qed.

End Redir.
(** ** Theorems *)

Section Theorems.
Context {D A : Type} `{BD : BlockDev D} `{KH : KernelHeap A} `{PS : PageShare A}.
Context `{L : Layout} `{M : Machine}.


End Theorems.

(** ** On the volume of [Fat32Spec] *)

Module Demo.

Import KernDemo SampleRuns.Demo.

#[local] Abbreviation demo_geom := Table.Demo.demo_geom.

Definition redir_strings : list (list Z) := [redir_head; redir_path; redir_one; redir_two; back_head; back_ok].
Definition redir_lit : list Z -> Z := address_in base redir_strings.
Definition redir_ready : dkern := loaded FileCalls.Demo.mounted (image redir_strings).

Lemma redir_ready_eq : exists m, redir_ready = with_phys m FileCalls.Demo.mounted.
Proof. apply loaded_eq, FileCalls.Demo.buffer_checked. vm_compute. reflexivity. Qed.

Lemma mount_world (k : dkern) m Q q r : members kernel_task_addr (k_sched k) Q -> task k q r -> q <> kernel_task_addr -> k_exits k <> [] ->
  world demo_geom (with_phys m (FileCalls.Demo.mount_on k)) Spec.Demo.demo_table Spec.Demo.demo_clusters [] Q q r.
Proof.
  intros Hm Ht Hq He. split; [apply FileCalls.Demo.mount_volume|apply FileWrites.Demo.mount_wbufs|exact Hm|by apply (task_sched k)|done|exact He].
Qed.

Lemma redir_world : world demo_geom redir_ready Spec.Demo.demo_table Spec.Demo.demo_clusters [] [2; kernel_task_addr] me proc.
Proof.
  destruct redir_ready_eq as (m & E). rewrite E. apply mount_world; [exact user_members|exact user_task|vm_compute; congruence|vm_compute; congruence].
Qed.

Lemma mount_new (k : dkern) m : writable_at demo_geom (k_fs (with_phys m (FileCalls.Demo.mount_on k))) Spec.Demo.demo_table Spec.Demo.demo_clusters 2 [2] 1 redir_path redir_path [].
Proof.
  split; [|exact Spec.Demo.volume_dir|left; exact I| |].
  - split; [|split; [|by left]]; vm_compute; [set_solver|repeat constructor; done].
  - split; [|split]; [repeat constructor; done|simpl; lia|]. intros _. split; [repeat constructor; done|done].
  - left. split; [|done]. vm_compute. done.
Qed.

Lemma redir_writable : writable_at demo_geom (k_fs redir_ready) Spec.Demo.demo_table Spec.Demo.demo_clusters 2 [2] 1 redir_path redir_path [].
Proof. destruct redir_ready_eq as (m & E). rewrite E. apply mount_new. Qed.

Lemma redir_room : room demo_geom Spec.Demo.demo_table [2] 1 redir_path [] (Z.of_nat (length captured)).
Proof.
  intros F1 HF _ Hs. assert (5 ∈ free_clusters demo_geom F1) as Hin.
  { apply elem_free; [exact Table.Demo.demo_geom_ok|]. split; [by apply Table.Demo.demo_valid|]. unfold is_free, next_of. rewrite HF by (by intros ?%not_elem_of_nil). vm_compute. reflexivity. }
  unfold shortage in Hs. assert (0 < length (free_clusters demo_geom F1))%nat by (destruct (free_clusters demo_geom F1); [by apply not_elem_of_nil in Hin|simpl; lia]).
  change (needed demo_geom (Z.of_nat (length captured))) with 1 in Hs. change (epc demo_geom) with 16 in Hs.
  change (Z.max 0 _) with 0 in Hs. lia.
Qed.

End Demo.


End Redir.
