(* ===== verification/SelfTests.v ===== *)
(** * The library's test programs (user/tests/)

    stringtest, libctest, malloctest and stdiotest as programs over the models of the
    library they test, with the verdicts they print and the failures they return, and the
    kernel's copy of the string functions (lib/string.c). *)

From S2P Require Import Prelude Heap CString CNumbers Qsort CStdio UserHeap UserRun Samples SampleRuns.

Module SelfTests.

Import CString CNumbers CStdio.
Import Samples(line).

(** ** Verdicts *)

(** [check(condition, name)]: what is printed and the failures so far. *)
Definition check (name : list Z) (condition : bool) (r : list Z * Z) : list Z * Z :=
  (r.1 ++ name ++ (if condition then line (chars "... OK") else line (chars "... FAIL")), if condition then r.2 else r.2 + 1).

Definition checks (l : list (list Z * bool)) (r : list Z * Z) : list Z * Z := fold_left (fun r x => check x.1 x.2 r) l r.

(** The last line, and the result of [main]. *)
Definition conclude (passed failed : list Z) (r : list Z * Z) : list Z * Z := (r.1 ++ (if r.2 =? 0 then passed else failed), r.2).

Lemma checks_pass l out : forallb snd l = true ->
  checks l (out, 0) = (out ++ concat ((fun x => x.1 ++ line (chars "... OK")) <$> l), 0).
Proof.
  revert out. induction l as [|[n b] l IH]; intros out H; [by rewrite app_nil_r|]. apply andb_true_iff in H as [Hb H]. cbn in Hb. subst b.
  etrans; [exact (IH (out ++ n ++ line (chars "... OK")) H)|]. f_equal. rewrite fmap_cons. cbn [concat fst]. by rewrite <- !app_assoc.
Qed.

(** ** user/tests/stringtest.c *)

Definition FUEL : nat := 32.

(** Literals of the test, and its arrays behind them; memory starts with the literals. *)
Definition string_literals : list (list Z) :=
  [chars "hello"; []; chars "abc"; chars "abd"; chars "abcxyz"; chars "abcqrs"; chars "abdqrs"; chars "copied"; chars "hi"; chars "hello world"].
Definition lit (s : list Z) : Z := SampleRuns.Demo.address_in 1000 string_literals s.
Definition literals_in_memory : mem := fun x => ch (SampleRuns.Demo.image string_literals) (x - 1000).

(** [char a[] = { ... }] *)
Definition array_init (a : Z) (l : list Z) (m : mem) : mem := blit m a (ch l) 0 (Z.of_nat (length l)).

Definition compare_checks (m : mem) : option (list (list Z * bool)) :=
  n1 ← strlen FUEL m (lit (chars "hello"));
  n2 ← strlen FUEL m (lit []);
  c1 ← strcmp FUEL m (lit (chars "abc")) (lit (chars "abc"));
  c2 ← strcmp FUEL m (lit (chars "abc")) (lit (chars "abd"));
  c3 ← strcmp FUEL m (lit (chars "abd")) (lit (chars "abc"));
  Some [(chars "strlen", n1 =? 5); (chars "strlen empty", n2 =? 0);
        (chars "strcmp equal", c1 =? 0); (chars "strcmp less", c2 <? 0); (chars "strcmp greater", 0 <? c3);
        (chars "strncmp equal prefix", strncmp 3 m (lit (chars "abcxyz")) (lit (chars "abcqrs")) =? 0);
        (chars "strncmp differing prefix", negb (strncmp 3 m (lit (chars "abcxyz")) (lit (chars "abdqrs")) =? 0))].

Definition copy_checks (buf1 buf2 : Z) (m : mem) : option (list (list Z * bool)) :=
  m ← strcpy FUEL m buf1 (lit (chars "copied"));
  c ← strcmp FUEL m buf1 (lit (chars "copied"));
  let m := for_loop 8 0 (fun i m => m.[buf2 + i <- 88]) m in
  let m := strncpy m buf2 (lit (chars "hi")) 8 in
  Some [(chars "strcpy", c =? 0);
        (chars "strncpy pads with NULs", (m buf2 =? 104) && (m (buf2 + 1) =? 105) && (m (buf2 + 2) =? 0) && (m (buf2 + 7) =? 0))].

Definition search_checks (m : mem) : option (list (list Z * bool)) :=
  let s := lit (chars "hello world") in
  p1 ← strchr FUEL m s 111;
  p2 ← strrchr FUEL m s 111;
  p3 ← strchr FUEL m s 122;
  p4 ← strchr FUEL m s 0;
  Some [(chars "strchr first o", p1 =? s + 4); (chars "strrchr last o", p2 =? s + 7);
        (chars "strchr missing char returns NULL", p3 =? 0); (chars "strchr NUL terminator", m p4 =? 0)].

Definition block_checks (src dst blk a b : Z) (m : mem) : list (list Z * bool) :=
  let m1 := memcpy (array_init dst [0; 0; 0; 0; 0] (array_init src [1; 2; 3; 4; 5] m)) dst src 5 in
  let m2 := memset m blk 0x7A 6 in
  let m3 := memmove (array_init dst [0; 0; 0; 0] (array_init src [10; 20; 30; 40] m)) dst src 4 in
  let m4 := memmove (array_init a [1; 2; 3; 4; 5; 6; 7; 8] m) a (a + 2) 6 in
  let m5 := memmove (array_init b [1; 2; 3; 4; 5; 6; 7; 8] m) (b + 2) b 6 in
  [(chars "memcpy", (m1 dst =? 1) && (m1 (dst + 4) =? 5));
   (chars "memset", for_loop 6 0 (fun i ok => if negb (m2 (blk + i) =? 0x7A) then false else ok) true);
   (chars "memmove non-overlapping", (m3 dst =? 10) && (m3 (dst + 3) =? 40));
   (chars "memmove overlap dst<src", (m4 a =? 3) && (m4 (a + 5) =? 8));
   (chars "memmove overlap dst>src", (m5 (b + 2) =? 1) && (m5 (b + 7) =? 6))].

Definition stringtest (m : mem) : option (list Z * Z) :=
  l1 ← compare_checks m;
  l2 ← copy_checks 2000 2016 m;
  l3 ← search_checks m;
  Some (conclude (line (chars "All string tests passed.")) (line (chars "Some string tests FAILED."))
    (checks (l1 ++ l2 ++ l3 ++ block_checks 2024 2032 2040 2048 2056 m) ([], 0))).

(** ** user/tests/libctest.c *)

(** The text of a [printf]. *)
Definition printed (fmt : list Z) (args : list arg) : option (list Z) := (fun r => concat r.1) <$> printf fmt args.

(** The [check] of the two tests that print with [printf]. *)
Fixpoint printf_checks (l : list (list Z * bool)) (r : list Z * Z) : option (list Z * Z) :=
  match l with
  | [] => Some r
  | (name, b) :: l =>
    t ← printed (line (chars "%s... %s")) [AStr name; AStr (if b then chars "OK" else chars "FAIL")];
    printf_checks l (r.1 ++ t, if b then r.2 else r.2 + 1)
  end.

Definition printf_conclude (passed failed : list Z) (r : list Z * Z) : option (list Z * Z) :=
  t ← (if r.2 =? 0 then printed passed [] else printed failed [AInt r.2]);
  Some (r.1 ++ t, r.2).

Definition getenv (name : list Z) : Z := 0.

Definition class_checks : list (list Z * bool) :=
  [(chars "isalpha", isalpha 97 && isalpha 90 && negb (isalpha 53));
   (chars "isdigit", isdigit 55 && negb (isdigit 120));
   (chars "isspace", isspace 32 && isspace 9 && negb (isspace 120));
   (chars "isxdigit", isxdigit 70 && isxdigit 57 && negb (isxdigit 103));
   (chars "isalnum", isalnum 97 && isalnum 57 && negb (isalnum 33));
   (chars "toupper", (toupper 97 =? 65) && (toupper 65 =? 65));
   (chars "tolower", (tolower 65 =? 97) && (tolower 97 =? 97))].

Definition number_checks : list (list Z * bool) :=
  let '(v1, e1) := strtol (chars "0x1A") 0 in
  let '(v2, e2) := strtol (chars "123rest") 10 in
  [(chars "atoi positive", atoi (chars "42") =? 42); (chars "atoi negative", atoi (chars "-42") =? -42);
   (chars "atoi leading whitespace", atoi (chars "  123") =? 123); (chars "atoi non-numeric returns 0", atoi (chars "abc") =? 0);
   (chars "strtol hex auto-base", (v1 =? 0x1A) && bool_decide (e1 = []));
   (chars "strtol octal auto-base", (strtol (chars "017") 0).1 =? 15);
   (chars "strtol endptr", (v2 =? 123) && bool_decide (e2 = chars "rest"));
   (chars "strtoul hex", (strtoul (chars "0xFF") 0).1 =? 255);
   (chars "getenv always returns NULL (no env support)", getenv (chars "PATH") =? 0)].

(** An array of [int]s in memory. *)
Definition int_array (a : Z) (l : list Z) (m : mem) : mem :=
  array_init a (concat ((fun v => [u8 v; u8 (Z.shiftr v 8); u8 (Z.shiftr v 16); u8 (Z.shiftr v 24)]) <$> l)) m.
Definition int_of (l : list Z) : Z := s32 (ch l 0 + 256 * ch l 1 + 65536 * ch l 2 + 16777216 * ch l 3).
Definition int_cmp (a b : list Z) : Z := s32 (int_of a - int_of b).

(** [sorted] stays 1 while no element is greater than the next. *)
Definition in_order (m : mem) (a : Z) (n : nat) : bool :=
  for_loop (n - 1) 1 (fun i ok => if int_of (Qsort.bytes_at m (a + 4 * i) 4) <? int_of (Qsort.bytes_at m (a + 4 * (i - 1)) 4) then false else ok) true.

Definition sort_checks (arr again : Z) (m : mem) : option (list (list Z * bool)) :=
  m1 ← Qsort.qsort 16 int_cmp (int_array arr [5; 3; 8; 1; 9; 2] m) arr 6 4;
  m2 ← Qsort.qsort 16 int_cmp (int_array again [1; 2; 3; 4; 5] m1) again 5 4;
  Some [(chars "qsort sorts correctly", in_order m1 arr 6); (chars "qsort already-sorted input", in_order m2 again 5)].

Section Allocator.
Context {K : Type} `{SB : SbrkCall K}.

Definition alloc_checks (h : Heap.heap) (k : K) (m : mem) : option (list (list Z * bool)) :=
  '(p, h, k) ← UserHeap.malloc 4 h k;
  '(p, h, k, m) ← UserHeap.realloc p 64 h k m;
  h ← UserHeap.free p h;
  '(c, h, k, m) ← UserHeap.calloc 4 4 h k m;
  h ← UserHeap.free c h;
  Some [(chars "realloc still works", negb (p =? 0)); (chars "calloc still works", negb (c =? 0))].

Definition libctest (h : Heap.heap) (k : K) (m : mem) : option (list Z * Z) :=
  l1 ← sort_checks 3000 3024 m;
  l2 ← alloc_checks h k m;
  r ← printf_checks (class_checks ++ number_checks ++ l1 ++ l2) ([], 0);
  printf_conclude ([10] ++ line (chars "All libc tests passed.")) ([10] ++ line (chars "Some libc tests FAILED (%d).")) r.

(** ** user/tests/malloctest.c *)

(** [for (i = 0; i < n; i++) p[i] = f(i)], and the loop that compares. *)
Definition fill (p n : Z) (f : Z -> Z) (m : mem) : mem := for_loop (Z.to_nat n) 0 (fun i m => m.[p + i <- f i]) m.
Fixpoint verify (n : nat) (i p : Z) (f : Z -> Z) (m : mem) : bool :=
  match n with
  | O => true
  | S n => if negb (m (p + i) =? f i) then false else verify n (i + 1) p f m
  end.

(** An allocation that is filled and read back. *)
Definition alloc_test (title : list Z) (p n : Z) (f : Z -> Z) (m : mem) (r : list Z * Z) : (list Z * Z) * mem :=
  if p =? 0 then ((r.1 ++ title ++ line (chars "FAIL (malloc returned 0)"), r.2 + 1), m)
  else
    let m := fill p n f m in
    let ok := verify (Z.to_nat n) 0 p f m in
    ((r.1 ++ title ++ line (if ok then chars "OK" else chars "FAIL (data mismatch)"), if ok then r.2 else r.2 + 1), m).

(** The output and the exit code. *)
Definition malloctest (h : Heap.heap) (k : K) (m : mem) : option (list Z * Z) :=
  '(a, h, k) ← UserHeap.malloc 64 h k;
  let '(r, m) := alloc_test (chars "Test 1: small alloc + verify... ") a 64 (fun i => Z.land i 0xFF) m ([], 0) in
  '(b, h, k) ← UserHeap.malloc 9000 h k;
  let '(r, m) := alloc_test (chars "Test 2: multi-page alloc + verify... ") b 9000 (fun i => Z.land (i * 7) 0xFF) m r in
  let title := chars "Test 3: free + reuse... " in
  r ← (if negb (a =? 0) then
         h ← UserHeap.free a h;
         '(c, h, k) ← UserHeap.malloc 32 h k;
         Some (r.1 ++ title ++ line (if c =? a then chars "OK" else chars "FAIL (did not reuse freed block)"), if c =? a then r.2 else r.2 + 1)
       else Some (r.1 ++ title ++ line (chars "SKIPPED (test 1 already failed)"), r.2));
  Some (r.1 ++ line (if r.2 =? 0 then chars "All malloc tests passed." else chars "Some malloc tests FAILED."), r.2).

End Allocator.

(** ** user/tests/stdiotest.c *)

Section Streams.
Context {K : Type} `{FC : FdCalls K}.

Definition stdio_path : list Z := chars "STDIOT.TMP".
Definition stdio_message : list Z := chars "Hello from stdiotest - written via fwrite.".

(** The conversions of [printf], one after the other. *)
Definition format_lines : option (list Z) :=
  foldr (fun x acc => t ← printed (line x.1) x.2; rest ← acc; Some (t ++ rest)) (Some [])
    [(chars "--- printf format specifier check ---", []);
     (chars "%%d: %d and %d", [AInt 42; AInt (-42)]);
     (chars "%%u: %u", [AInt 4000000000]);
     (chars "%%x / %%X: %x / %X", [AInt 0xDEADBEEF; AInt 0xDEADBEEF]);
     (chars "%%c: %c%c%c", [AInt 97; AInt 98; AInt 99]);
     (chars "%%s: %s", [AStr (chars "a string")]);
     (chars "%%%%: 100%%", []);
     (chars "mixed: [%d] [%s] [%x]", [AInt (-7); AStr (chars "mid"); AInt 255])].

Definition write_checks (t : list FILE) (k : K) : option (list (list Z * bool) * list FILE * K) :=
  let len := Z.of_nat (length stdio_message) in
  let '(wf, t, k) := fopen stdio_path (chars "w") t k in
  match wf with
  | None => Some ([(chars "fopen for write", false)], t, k)
  | Some wf =>
    '(written, t, k) ← fwrite (S (length stdio_message)) stdio_message 1 len wf t k;
    let '(v, t, k) := fclose wf t k in
    Some ([(chars "fopen for write", true); (chars "fwrite wrote all bytes", written =? len); (chars "fclose after write", v =? 0)], t, k)
  end.

Definition read_checks (t : list FILE) (k : K) : option (list (list Z * bool) * list FILE * K) :=
  let len := Z.of_nat (length stdio_message) in
  let '(rf, t, k) := fopen stdio_path (chars "r") t k in
  match rf with
  | None => Some ([(chars "fopen for read", false)], t, k)
  | Some rf =>
    '(got, data, t, k) ← fread (S (length stdio_message)) 1 len rf t k;
    let readback := ch (data ++ replicate (128 - length data) 0) in
    let m := blit readback 1000 (ch (stdio_message ++ [0])) 0 (len + 1) in
    let '(v, t, k) := fclose rf t k in
    Some ([(chars "fopen for read", true); (chars "fread got all bytes", got =? len);
           (chars "readback matches what was written", strncmp (length stdio_message) m 0 1000 =? 0); (chars "fclose after read", v =? 0)], t, k)
  end.

Definition stdiotest (t : list FILE) (k : K) : option (list Z * Z * K) :=
  out ← format_lines;
  '(l1, t, k) ← write_checks t k;
  '(l2, t, k) ← read_checks t k;
  r ← printf_checks (l1 ++ l2) (out ++ [10] ++ line (chars "--- file I/O round trip ---"), 0);
  r ← printf_conclude (line (chars "All stdio tests passed.")) (line (chars "Some stdio tests FAILED (%d).")) (r.1 ++ [10], r.2);
  Some (r, k).

End Streams.

(** ** The allocations of malloctest *)

Lemma fill_get (m : mem) p n f j : 0 <= j < n -> fill p n f m (p + j) = f j.
Proof.
  intros Hj. unfold fill. rewrite <- (Z2Nat.id n) in Hj by lia. induction (Z.to_nat n) as [|k IH]; [lia|].
  rewrite for_loop_last, Z.add_0_l. unfold upd. destruct (Z.eqb_spec (p + j) (p + Z.of_nat k)); [f_equal; lia|]. apply IH. lia.
Qed.

Lemma verify_true n p f (m : mem) : forall i, (forall j, i <= j < i + Z.of_nat n -> m (p + j) = f j) -> verify n i p f m = true.
Proof.
  induction n as [|n IH]; intros i H; [done|]. cbn [verify]. rewrite (H i), Z.eqb_refl by lia. apply IH. intros j Hj. apply H. lia.
Qed.

(** What is stored into an allocation is read back, whatever its address and size. *)
Lemma alloc_test_ok title p n f m out v : p <> 0 -> 0 <= n ->
  alloc_test title p n f m (out, v) = ((out ++ title ++ line (chars "OK"), v), fill p n f m).
Proof.
  intros Hp Hn. unfold alloc_test. destruct (Z.eqb_spec p 0); [done|]. rewrite verify_true; [done|]. intros j Hj. apply fill_get. lia.
Qed.

Section Allocations.
Context {K : Type} `{SB : SbrkCall K}.

Definition malloctest_output : list Z :=
  line (chars "Test 1: small alloc + verify... OK") ++ line (chars "Test 2: multi-page alloc + verify... OK")
  ++ line (chars "Test 3: free + reuse... OK") ++ line (chars "All malloc tests passed.").

(** With memory for both allocations and the freed block found first, the test passes. *)
Lemma malloctest_ok h k (m : mem) a h1 k1 b h2 k2 h3 h4 k4 : UserHeap.malloc 64 h k = Some (a, h1, k1) -> a <> 0 ->
  UserHeap.malloc 9000 h1 k1 = Some (b, h2, k2) -> b <> 0 -> UserHeap.free a h2 = Some h3 -> UserHeap.malloc 32 h3 k2 = Some (a, h4, k4) ->
  malloctest h k m = Some (malloctest_output, 0).
Proof.
  intros E1 Ha E2 Hb E3 E4. unfold malloctest. rewrite E1. cbn [mbind option_bind]. rewrite (alloc_test_ok _ a 64) by (done || lia). rewrite E2. cbn [mbind option_bind].
  rewrite (alloc_test_ok _ b 9000) by (done || lia). apply Z.eqb_neq in Ha. rewrite Ha. cbn [negb]. rewrite E3. cbn [mbind option_bind]. rewrite E4. cbn [mbind option_bind].
  rewrite Z.eqb_refl. reflexivity.
Qed.

End Allocations.

(** ** A file store for stdiotest *)

Module Demo.

(** The contents of one file, what is being written, and the position of a reader. *)
Record store := mk_store { held : option (list Z); writing : option (list Z); reader : Z }.

#[export] Program Instance store_calls : FdCalls store := {
  sc_open path flags s := if flags =? 1 then (3, mk_store (held s) (Some []) 0)
    else match held s with Some _ => (3, mk_store (held s) None 0) | None => (-1, s) end;
  sc_close fd s := (0, match writing s with Some w => mk_store (Some w) None 0 | None => s end);
  sc_read fd n s := match held s with
    | Some l => let data := take (Z.to_nat n) (drop (Z.to_nat (reader s)) l) in
                (Z.of_nat (length data), data, mk_store (held s) (writing s) (reader s + Z.of_nat (length data)))
    | None => (-1, [], s) end;
  sc_write fd data s := match writing s with
    | Some w => (Z.of_nat (length data), mk_store (held s) (Some (w ++ data)) (reader s))
    | None => (-1, s) end
}.
Next Obligation. intros fd n s Hn. simpl. destruct (held s); [|lia]. split; [|done]. rewrite length_take. lia. Qed.
Next Obligation. intros fd data s. simpl. destruct (writing s); lia. Qed.

Definition empty_store : store := mk_store None None 0.
Definition test_heap : Heap.heap := Heap.kmalloc_init.
Definition test_brk : Z := 0x08050000.

End Demo.

(** What the conversions are meant to print. *)
Definition formatted : list (list Z) :=
  [chars "--- printf format specifier check ---"; chars "%d: 42 and -42"; chars "%u: 4000000000"; chars "%x / %X: deadbeef / DEADBEEF";
   chars "%c: abc"; chars "%s: a string"; chars "%%: 100%"; chars "mixed: [-7] [mid] [ff]"].

(** ** Theorems *)

(** The repository's own tests of the C library hold of the model.  stringtest on a
    memory with its literals, libctest and malloctest on an empty heap in 64 KB, whatever
    was in memory before, and stdiotest on a store with one file: each of them comes to its
    end and returns 0; malloctest prints exactly its success, and the lines of stdiotest that
    try the conversions of printf are those of a hosted printf. *)
Lemma library_tests_pass (m : mem) :
  snd <$> stringtest literals_in_memory = Some 0
  /\ snd <$> libctest (SB := UserHeap.Demo.small_brk) Demo.test_heap Demo.test_brk (fun _ => 0) = Some 0
  /\ malloctest (SB := UserHeap.Demo.small_brk) Demo.test_heap Demo.test_brk m = Some (malloctest_output, 0)
  /\ (fun r => r.1.2) <$> stdiotest (FC := Demo.store_calls) stream_table_init Demo.empty_store = Some 0
  /\ format_lines = Some (concat (line <$> formatted)).
Proof.
  split; [vm_compute; reflexivity|]. split; [vm_compute; reflexivity|]. split; [|split; vm_compute; reflexivity].
  eapply malloctest_ok; [vm_compute; reflexivity|lia|vm_compute; reflexivity|lia|vm_compute; reflexivity|vm_compute; reflexivity].
Qed.

End SelfTests.
