(* ===== verification/FpuTest.v ===== *)
(** * The floating-point test (user/tests/fputest.c)

    The program as a [uprog], its doubles as binary64 numbers of the Standard Library's
    [SpecFloat], and why its loop reports success: doubling and halving are exact. *)

From S2P Require Import Prelude Pmm Heap Disk Fat32 Sched Paging Vfs Kern Syscall UserMem FileCalls UserRun Samples SampleRuns.
From Stdlib Require Import SpecFloat.

Module FpuTest.

Import Sched Kern Syscall UserMem FileCalls UserRun Samples SampleRuns.

Open Scope uprog_scope.

(** [double], rounded to nearest. *)
Definition mul (x y : spec_float) : spec_float := SFmul 53 1024 x y.
Definition div (x y : spec_float) : spec_float := SFdiv 53 1024 x y.
Definition two : spec_float := S754_finite false 4503599627370496 (-51).
Definition thousand : spec_float := S754_finite false 8796093022208000 (-43).

(** The conversion to [int], towards zero. *)
Definition to_int (x : spec_float) : Z :=
  match x with
  | S754_zero _ => 0
  | S754_finite s m e => let v := if 0 <=? e then Z.pos m * 2 ^ e else Z.pos m / 2 ^ (- e) in s32 (if s then - v else v)
  | _ => -2147483648
  end.

(** The literals of the test: 777.777 and 3.14159 as doubles. *)
Definition child_value : spec_float := S754_finite false 6841398842533872 (-43).
Definition parent_value : spec_float := S754_finite false 7074231776675438 (-51).

Definition ITERATIONS : Z := 2000000.

Section Program.
Context (lit : list Z -> Z).

(** The digits that [write_num] puts into [tmp], the highest first. *)
Fixpoint num_digits (t : nat) (n : Z) (acc : list Z) : list Z :=
  match t with
  | O => acc
  | S t => if 0 <? n then num_digits t (Z.quot n 10) (digit (Z.rem n 10) :: acc) else acc
  end.
Definition num (n : Z) : list Z :=
  if n =? 0 then [48] else (if n <? 0 then [45] else []) ++ num_digits 16 (if n <? 0 then - n else n) [].
Definition write_num (buf n : Z) (p : uprog) : uprog := init_array buf (num n ++ [0]) (write_str buf p).

(** The rest of the loop of [run_invariant_check] in round [i]; [k] gets its result. *)
Fixpoint check_loop (fuel : nat) (i : Z) (x start_value : spec_float) (label buf : Z) (k : Z -> uprog) : uprog :=
  match fuel with
  | O =>
    write_str label (
    write_str (lit (chars ": all ")) (
    write_num buf ITERATIONS (
    write_str (lit (line (chars " iterations held. PASS"))) (
    k 1))))
  | S fuel =>
    let x := mul x two in
    let x := div x two in
    if negb (SFeqb x start_value) then
      write_str label (
      write_str (lit (chars ": MISMATCH at iteration ")) (
      write_num buf i (
      write_str (lit (chars " - value*1000 (truncated) = ")) (
      write_num buf (to_int (mul x thousand)) (
      write_str (lit (chars ", expected ")) (
      write_num buf (to_int (mul start_value thousand)) (
      write_str (lit [10]) (
      k 0))))))))
    else check_loop fuel (i + 1) x start_value label buf k
  end.

Definition run_invariant_check (start_value : spec_float) (label buf : Z) (k : Z -> uprog) : uprog :=
  check_loop (Z.to_nat ITERATIONS) 0 start_value start_value label buf k.

Definition fputest (buf status : Z) : uprog :=
  write_str (lit (line (chars "FPU context-switch isolation test"))) (
  write_str (lit (chars "(two processes doing different exact FP invariants concurrently)" ++ [10; 10])) (
  pid <- sys_fork_ ;;
  if pid =? 0 then run_invariant_check child_value (lit (chars "child")) buf (fun ok => sys_exit_ (if negb (ok =? 0) then 0 else 1))
  else
    run_invariant_check parent_value (lit (chars "parent")) buf (fun ok =>
    Store32 status 0 (
    do sys_wait_ status ;;
    write_str (lit [10]) (
    Load32 status (fun v =>
    let pass := negb (ok =? 0) && (v =? 0) in
    write_str (lit (line (if pass then chars "FPU isolation test: PASS (both processes' FP state stayed correct)" else chars "FPU isolation test: FAIL"))) (
    sys_exit_ (if pass then 0 else 1)))))))).

End Program.

(** ** The invariant of the loop *)

Lemma check_loop_passes lit x label buf k : div (mul x two) two = x -> SFeqb x x = true ->
  forall fuel i, check_loop lit fuel i x x label buf k = check_loop lit 0 0 x x label buf k.
Proof. intros E Eq. induction fuel as [|fuel IH]; intros i; [done|]. cbn [check_loop]. rewrite E, Eq. cbn [negb]. apply IH. Qed.

(** Both processes' numbers survive doubling and halving. *)
Lemma exact_values : div (mul child_value two) two = child_value /\ div (mul parent_value two) two = parent_value.
Proof. split; vm_compute; reflexivity. Qed.

Section Runs.
Context {D A : Type} `{BD : BlockDev D} `{KH : KernelHeap A} `{PS : PageShare A}.
Context `{L : Layout} `{M : Machine}.
Context (cmos : Z -> Z -> Z) (rtc_fuel : nat) (lit : list Z -> Z).

(** All 2,000,000 rounds hold, and this is reported. *)
Lemma run_invariant_check_ok (k : kern (D := D) (A := A)) Q me r x label buf p : x = child_value \/ x = parent_value -> session k Q me r ->
  placed lit k [label; chars ": all "; line (chars " iterations held. PASS")] -> local_array k buf 8 -> 0 < buf + 8 < USER_LIMIT ->
  separate k buf 8 (lit (line (chars " iterations held. PASS"))) (S (length (line (chars " iterations held. PASS")))) ->
  exists m, urun cmos rtc_fuel (run_invariant_check lit x (lit label) buf p) k
    = urun cmos rtc_fuel (p 1) (say (label ++ chars ": all 2000000 iterations held. PASS" ++ [10]) (with_phys m k)).
Proof.
  intros Hx Hse Hl (Ha & Hlim & Hb) Hlt Hsep. apply Forall_cons in Hl as [L1 [L2 [L3 _]%Forall_cons]%Forall_cons]. unfold run_invariant_check.
  rewrite check_loop_passes by (destruct Hx as [-> | ->]; first [apply exact_values|vm_compute; reflexivity]). cbn [check_loop].
  rewrite (say_run cmos rtc_fuel k Q me r _ label _ Hse L1), (say_run cmos rtc_fuel _ Q me r _ (chars ": all ") _ ltac:(by apply session_say) ltac:(by apply say_string)), say_app.
  set (k1 := say _ k). assert (session k1 Q me r) as Hse1 by (by apply session_say). unfold write_num. change (num ITERATIONS) with (chars "2000000").
  destruct (init_array_run cmos rtc_fuel lit (chars "2000000" ++ [0]) k1 buf (write_str buf (write_str (lit (line (chars " iterations held. PASS"))) (p 1)))) as (m & E & Hst);
    [done|simpl; lia|]. exists m. rewrite E. set (k2 := with_phys m k1). assert (session k2 Q me r) as Hse2 by (by apply (session_same k1)).
  assert (holds k2 buf (chars "2000000" ++ [0])) as Hh by (apply stored_holds; [by repeat constructor|done|done]).
  rewrite (say_run cmos rtc_fuel k2 Q me r _ (chars "2000000")); [|done|].
  2:{ split; [unfold is_u32; change USER_LIMIT with 0xC0000000 in *; lia|]. split; [lia|]. split; [simpl; lia|]. split; [by repeat constructor|]. split; [simpl; lia|done]. }
  rewrite (say_run cmos rtc_fuel _ Q me r _ (line (chars " iterations held. PASS")) _ ltac:(by apply session_say)).
  - rewrite say_app. unfold k2, k1. change (say ?a (with_phys m (say ?b k))) with (say a (say b (with_phys m k))). rewrite say_app. do 2 f_equal. by rewrite <- !app_assoc.
  - destruct L3 as (U1 & U2 & U3 & U4 & U5 & U). do 5 (split; [done|]). apply (stored_other k1 buf (chars "2000000" ++ [0])); [|done|exact U].
    intros i j q Hi Hj. apply (Hsep i j q Hi). by rewrite length_app, Nat.add_comm in Hj.
Qed.

End Runs.
End FpuTest.
