(* ===== verification/Ports.v ===== *)
(** * Port input and output

    The instructions behind [inb], [outb] (drivers/pic.c), [inw] and [outw]
    (drivers/ata.c): what the drivers need of the hardware they talk to.  The
    machine [P] with its devices is a parameter. *)

From S2P Require Import Prelude.

Class Ports (P : Type) := {
  port_inb : Z -> P -> Z * P;
  port_outb : Z -> Z -> P -> P;
  port_inw : Z -> P -> Z * P;
  port_outw : Z -> Z -> P -> P }.

Section Ports.
Context {P : Type} `{PO : Ports P}.

(** The value arrives in a register of 8 or 16 bits. *)
Definition inb (port : Z) : st P Z := fun p => let '(v, p) := port_inb port p in Some (u8 v, p).
Definition outb (port value : Z) : st P unit := fun p => Some (tt, port_outb port (u8 value) p).
Definition inw (port : Z) : st P Z := fun p => let '(v, p) := port_inw port p in Some (u16 v, p).
Definition outw (port value : Z) : st P unit := fun p => Some (tt, port_outw port (u16 value) p).

End Ports.
