(* ===== verification/Ata.v ===== *)
(** * The disk driver

    [src/drivers/ata.c] over the registers of the primary ATA channel.  The class [AtaDrive]
    states what the driver relies on of the drive behind them; over it the driver is
    shown to transfer the sectors it is asked for, which makes a drive a [BlockDev]. *)

From S2P Require Import Prelude Ports Disk.

Module Ata.

Definition ATA_DATA : Z := 0x1F0.
Definition ATA_SECTOR_COUNT : Z := 0x1F2.
Definition ATA_LBA_LOW : Z := 0x1F3.
Definition ATA_LBA_MID : Z := 0x1F4.
Definition ATA_LBA_HIGH : Z := 0x1F5.
Definition ATA_DRIVE_SELECT : Z := 0x1F6.
Definition ATA_COMMAND : Z := 0x1F7.
Definition ATA_STATUS : Z := 0x1F7.

Definition ATA_STATUS_BSY : Z := 0x80.
Definition ATA_STATUS_DRQ : Z := 0x08.
Definition ATA_STATUS_ERR : Z := 0x01.

Definition ATA_CMD_READ : Z := 0x20.
Definition ATA_CMD_WRITE : Z := 0x30.

(** ** The driver *)

Section Driver.
Context {P : Type} `{PO : Ports P}.

(** The status loops have no bound in the source; [fuel] is the number of reads after
    which the model gives up ([None]). *)
Context (fuel : nat).

Definition ata_400ns_delay : st P unit :=
  inb 0x3F6 ;; inb 0x3F6 ;; inb 0x3F6 ;; inb 0x3F6 ;; ret tt.

Fixpoint ata_wait_loop (n : nat) : st P Z :=
  match n with
  | O => undef
  | S n =>
    let* status := inb ATA_STATUS in
    if negb (Z.land status ATA_STATUS_BSY =? 0) then ata_wait_loop n
    else if negb (Z.land status ATA_STATUS_ERR =? 0) then ret (-1) else ret 0
  end.

Definition ata_wait : st P Z := ata_wait_loop fuel.

Fixpoint ata_wait_drq_loop (n : nat) : st P Z :=
  match n with
  | O => undef
  | S n =>
    let* status := inb ATA_STATUS in
    if negb (Z.land status ATA_STATUS_ERR =? 0) then ret (-1)
    else if negb (Z.land status ATA_STATUS_DRQ =? 0) then ret 0
    else ata_wait_drq_loop n
  end.

Definition ata_wait_drq : st P Z := ata_wait_drq_loop fuel.

Definition ata_setup (lba count : Z) : st P unit :=
  outb ATA_DRIVE_SELECT (Z.lor 0xE0 (Z.land (Z.shiftr lba 24) 0x0F)) ;;
  outb ATA_SECTOR_COUNT count ;;
  outb ATA_LBA_LOW (u8 (Z.land lba 0xFF)) ;;
  outb ATA_LBA_MID (u8 (Z.land (Z.shiftr lba 8) 0xFF)) ;;
  outb ATA_LBA_HIGH (u8 (Z.land (Z.shiftr lba 16) 0xFF)).

Definition ata_init : st P Z :=
  outb ATA_DRIVE_SELECT 0xA0 ;;
  ata_400ns_delay ;;
  let* select_status := inb ATA_STATUS in
  if (select_status =? 0x00) || (select_status =? 0xFF) then ret (-1)
  else
    outb ATA_SECTOR_COUNT 0 ;;
    outb ATA_LBA_LOW 0 ;;
    outb ATA_LBA_MID 0 ;;
    outb ATA_LBA_HIGH 0 ;;
    outb ATA_COMMAND 0xEC ;;
    let* status := inb ATA_STATUS in
    if status =? 0 then ret (-1)
    else
      let* w := ata_wait in
      if negb (w =? 0) then ret (-1)
      else
        let* mid := inb ATA_LBA_MID in
        let* bad := (if negb (mid =? 0) then ret true else let* high := inb ATA_LBA_HIGH in ret (negb (high =? 0))) in
        if bad then ret (-1)
        else
          let* d := ata_wait_drq in
          if negb (d =? 0) then ret (-1)
          else
            for_st 256 0 (fun _ => let* _ := inw ATA_DATA in ret tt) ;;
            ret 0.

(** [buf[i] = inw(ATA_DATA)] for the words [i] from [k] on of a sector that starts at byte
    [off] of the buffer. *)
Fixpoint read_words (n : nat) (k off : Z) (buf : Z -> Z) : st P (Z -> Z) :=
  match n with
  | O => ret buf
  | S n =>
    let* w := inw ATA_DATA in
    read_words n (k + 1) off (buf.[off + 2 * k <- u8 w].[off + 2 * k + 1 <- u8 (Z.shiftr w 8)])
  end.

Fixpoint read_sectors (n : nat) (off : Z) (buf : Z -> Z) : st P (Z * (Z -> Z)) :=
  match n with
  | O => ret (0, buf)
  | S n =>
    let* w := ata_wait_drq in
    if negb (w =? 0) then ret (-1, buf)
    else
      let* buf := read_words 256 0 off buf in
      read_sectors n (off + 512) buf
  end.

(** [ata_read]: the result, and the buffer. *)
Definition ata_read (lba count : Z) (buffer : option (Z -> Z)) : st P (Z * option (Z -> Z)) :=
  match buffer with
  | None => ret (-1, None)
  | Some buf =>
    if count =? 0 then ret (-1, Some buf)
    else
      let* w := ata_wait in
      if negb (w =? 0) then ret (-1, Some buf)
      else
        ata_setup lba count ;;
        outb ATA_COMMAND ATA_CMD_READ ;;
        let* r := read_sectors (Z.to_nat count) 0 buf in
        ret (r.1, Some r.2)
  end.

Fixpoint write_words (n : nat) (k off : Z) (buf : Z -> Z) : st P unit :=
  match n with
  | O => ret tt
  | S n =>
    outw ATA_DATA (u8 (buf (off + 2 * k)) + 256 * u8 (buf (off + 2 * k + 1))) ;;
    write_words n (k + 1) off buf
  end.

Fixpoint write_sectors (n : nat) (off : Z) (buf : Z -> Z) : st P Z :=
  match n with
  | O => ret 0
  | S n =>
    let* w := ata_wait_drq in
    if negb (w =? 0) then ret (-1)
    else write_words 256 0 off buf ;; write_sectors n (off + 512) buf
  end.

Definition ata_write (lba count : Z) (buffer : option (Z -> Z)) : st P Z :=
  match buffer with
  | None => ret (-1)
  | Some buf =>
    if count =? 0 then ret (-1)
    else
      let* w := ata_wait in
      if negb (w =? 0) then ret (-1)
      else
        ata_setup lba count ;;
        outb ATA_COMMAND ATA_CMD_WRITE ;;
        let* r := write_sectors (Z.to_nat count) 0 buf in
        if negb (r =? 0) then ret (-1)
        else
          outb ATA_COMMAND 0xE7 ;;
          ata_wait ;;
          ret 0
  end.

End Driver.

(** ** The drive *)

(** What the drive is doing: nothing, nothing since a command failed, sending the
    identification, sending or taking [left] words from byte [pos] of the disk on. *)
Inductive phase := Idle | Failed | Ident (left : Z) | Sending (pos left : Z) | Taking (pos left : Z).

Record drive := mk_drive { d_reg : Z -> Z; d_phase : phase; d_byte : Z -> Z; d_sectors : Z }.

Definition set_phase (f : phase) (d : drive) : drive := mk_drive (d_reg d) f (d_byte d) (d_sectors d).
Definition set_reg (port v : Z) (d : drive) : drive := mk_drive ((d_reg d).[port <- v]) (d_phase d) (d_byte d) (d_sectors d).

(** The sector and the number of sectors in the registers (28-bit LBA addressing). *)
Definition lba28 (d : drive) : Z :=
  d_reg d ATA_LBA_LOW + 256 * d_reg d ATA_LBA_MID + 65536 * d_reg d ATA_LBA_HIGH + 16777216 * (d_reg d ATA_DRIVE_SELECT mod 16).
Definition nsect (d : drive) : Z := if d_reg d ATA_SECTOR_COUNT =? 0 then 256 else d_reg d ATA_SECTOR_COUNT.
Definition lba_mode (d : drive) : Prop := d_reg d ATA_DRIVE_SELECT / 16 = 0xE.

Definition task_port (port : Z) : Prop := ATA_SECTOR_COUNT <= port <= ATA_DRIVE_SELECT.

(** The phase after one word of [left]. *)
Definition next_in (pos left : Z) : phase := if left =? 1 then Idle else Sending (pos + 2) (left - 1).
Definition next_out (pos left : Z) : phase := if left =? 1 then Idle else Taking (pos + 2) (left - 1).

Definition wants_data (f : phase) : bool := match f with Idle | Failed => false | _ => true end.

(** A drive as the ATA command set describes it: [settle p] status reads from now it is
    no longer busy.  While it is busy it shows neither an error nor data (an assumption
    of [ata_wait_drq], which does not look at the busy bit).  A command may fail; a
    [dr_healthy] drive fails only requests outside the disk. *)
Class AtaDrive (P : Type) `{PO : Ports P} := {
  dr_view : P -> drive;
  dr_settle : P -> nat;
  dr_patience : nat;
  dr_healthy : P -> Prop;
  dr_settles : forall p, (dr_settle p <= dr_patience)%nat;
  dr_disk : forall p x, is_byte (d_byte (dr_view p) x);
  dr_size : forall p, d_sectors (dr_view p) <= 268435456;
  dr_status : forall p, let '(v, p') := port_inb ATA_STATUS p in
    0 < v < 256 /\ dr_view p' = dr_view p /\ dr_settle p' = pred (dr_settle p) /\ (dr_healthy p -> dr_healthy p')
    /\ Z.testbit v 7 = negb (dr_settle p =? 0)%nat
    /\ (Z.testbit v 0 = true <-> dr_settle p = O /\ d_phase (dr_view p) = Failed)
    /\ (Z.testbit v 3 = true <-> dr_settle p = O /\ wants_data (d_phase (dr_view p)) = true);
  dr_task : forall p port v, task_port port -> dr_settle p = O -> is_byte v ->
    let p' := port_outb port v p in
    dr_view p' = set_reg port v (dr_view p) /\ dr_settle p' = O /\ (dr_healthy p -> dr_healthy p');
  dr_regs : forall p port, task_port port -> dr_settle p = O ->
    let '(v, p') := port_inb port p in
    v = d_reg (dr_view p) port /\ dr_view p' = dr_view p /\ dr_settle p' = O /\ (dr_healthy p -> dr_healthy p');
  dr_alternate : forall p, dr_settle p = O ->
    let '(v, p') := port_inb 0x3F6 p in dr_view p' = dr_view p /\ dr_settle p' = O /\ (dr_healthy p -> dr_healthy p');
  dr_identify : forall p, dr_settle p = O ->
    let p' := port_outb ATA_COMMAND 0xEC p in
    (dr_view p' = set_phase Failed (dr_view p) \/ dr_view p' = set_phase (Ident 256) (dr_view p))
    /\ (dr_healthy p -> dr_healthy p' /\ d_phase (dr_view p') <> Failed);
  dr_ident : forall p left, dr_settle p = O -> d_phase (dr_view p) = Ident left -> 0 < left ->
    let '(w, p') := port_inw ATA_DATA p in
    dr_view p' = set_phase (if left =? 1 then Idle else Ident (left - 1)) (dr_view p) /\ (1 < left -> dr_settle p' = O)
    /\ (dr_healthy p -> dr_healthy p');
  dr_read : forall p, dr_settle p = O -> lba_mode (dr_view p) ->
    let d := dr_view p in let p' := port_outb ATA_COMMAND ATA_CMD_READ p in
    (dr_view p' = set_phase Failed d
     \/ lba28 d + nsect d <= d_sectors d /\ dr_view p' = set_phase (Sending (512 * lba28 d) (256 * nsect d)) d)
    /\ (dr_healthy p -> dr_healthy p' /\ (lba28 d + nsect d <= d_sectors d -> d_phase (dr_view p') <> Failed));
  dr_write : forall p, dr_settle p = O -> lba_mode (dr_view p) ->
    let d := dr_view p in let p' := port_outb ATA_COMMAND ATA_CMD_WRITE p in
    (dr_view p' = set_phase Failed d
     \/ lba28 d + nsect d <= d_sectors d /\ dr_view p' = set_phase (Taking (512 * lba28 d) (256 * nsect d)) d)
    /\ (dr_healthy p -> dr_healthy p' /\ (lba28 d + nsect d <= d_sectors d -> d_phase (dr_view p') <> Failed));
  dr_inw : forall p pos left, dr_settle p = O -> d_phase (dr_view p) = Sending pos left -> 0 < left ->
    let '(w, p') := port_inw ATA_DATA p in
    w = d_byte (dr_view p) pos + 256 * d_byte (dr_view p) (pos + 1)
    /\ (dr_view p' = set_phase (next_in pos left) (dr_view p)
        \/ left mod 256 = 1 /\ dr_view p' = set_phase Failed (dr_view p) /\ ~ dr_healthy p)
    /\ (left mod 256 <> 1 -> dr_settle p' = O) /\ (dr_healthy p -> dr_healthy p');
  dr_outw : forall p pos left w, dr_settle p = O -> d_phase (dr_view p) = Taking pos left -> 0 < left -> 0 <= w < 65536 ->
    let p' := port_outw ATA_DATA w p in
    d_sectors (dr_view p') = d_sectors (dr_view p)
    /\ (d_phase (dr_view p') = next_out pos left
        /\ (forall x, d_byte (dr_view p') x = (d_byte (dr_view p)).[pos <- w mod 256].[pos + 1 <- w / 256] x)
        \/ left mod 256 = 1 /\ ~ dr_healthy p /\ d_phase (dr_view p') = Failed)
    /\ (left mod 256 <> 1 -> dr_settle p' = O) /\ (dr_healthy p -> dr_healthy p');
  dr_flush : forall p,
    let p' := port_outb ATA_COMMAND 0xE7 p in
    d_byte (dr_view p') = d_byte (dr_view p) /\ d_sectors (dr_view p') = d_sectors (dr_view p)
    /\ (dr_healthy p -> dr_healthy p' /\ (d_phase (dr_view p) = Idle -> d_phase (dr_view p') = Idle)) }.

(** ** Transfers *)

Lemma land_bit v k : 0 <= k -> negb (Z.land v (2 ^ k) =? 0) = Z.testbit v k.
Proof.
  intros Hk. destruct (Z.testbit v k) eqn:E.
  - apply negb_true_iff, Z.eqb_neq. intros H. assert (Z.testbit (Z.land v (2 ^ k)) k = false) as Hb by (by rewrite H, Z.bits_0).
    rewrite Z.land_spec, E, Z.pow2_bits_true in Hb by done. done.
  - apply negb_false_iff, Z.eqb_eq, Z.bits_inj. intros i. rewrite Z.land_spec, Z.bits_0, Z.pow2_bits_eqb by done.
    destruct (Z.eqb_spec k i) as [<-|]; [by rewrite E|by rewrite andb_false_r].
Qed.

Section Transfers.
Context {P : Type} `{AD : AtaDrive P}.

Lemma status_ok (p : P) : exists v p', inb ATA_STATUS p = Some (v, p') /\ dr_view p' = dr_view p /\ dr_settle p' = pred (dr_settle p)
  /\ (dr_healthy p -> dr_healthy p')
  /\ negb (Z.land v ATA_STATUS_BSY =? 0) = negb (dr_settle p =? 0)%nat
  /\ negb (Z.land v ATA_STATUS_ERR =? 0) = (dr_settle p =? 0)%nat && match d_phase (dr_view p) with Failed => true | _ => false end
  /\ negb (Z.land v ATA_STATUS_DRQ =? 0) = (dr_settle p =? 0)%nat && wants_data (d_phase (dr_view p)).
Proof.
  unfold inb. pose proof (dr_status p) as H. destruct (port_inb ATA_STATUS p) as [v p']. destruct H as (Hb & Hv & Hs & Hh & H7 & H0 & H3).
  rewrite u8_small by (unfold is_byte; lia). exists v, p'. do 4 (split; [done|]). change ATA_STATUS_BSY with (2 ^ 7). change ATA_STATUS_ERR with (2 ^ 0). change ATA_STATUS_DRQ with (2 ^ 3).
  rewrite !land_bit by lia. split; [done|]. split.
  - destruct (Nat.eqb_spec (dr_settle p) 0) as [E|E], (d_phase (dr_view p)) eqn:Ep; cbn [andb];
      destruct (Z.testbit v 0); intuition congruence.
  - destruct (Nat.eqb_spec (dr_settle p) 0) as [E|E], (wants_data (d_phase (dr_view p))) eqn:Ep; cbn [andb];
      destruct (Z.testbit v 3); intuition congruence.
Qed.

(** [ata_wait] returns once the drive is ready, with the verdict on the last command. *)
Lemma wait_ok n (p : P) : (dr_settle p < n)%nat ->
  exists p', ata_wait_loop n p = Some (match d_phase (dr_view p) with Failed => -1 | _ => 0 end, p')
  /\ dr_view p' = dr_view p /\ dr_settle p' = O /\ (dr_healthy p -> dr_healthy p').
Proof.
  revert p. induction n as [|n IH]; intros p Hn; [lia|]. cbn [ata_wait_loop].
  destruct (status_ok p) as (v & p1 & E & Hv & Hs & Hh & H7 & H0 & _). rewrite (bind_ok _ _ _ _ _ E), H7, H0.
  destruct (dr_settle p) as [|k] eqn:Ek; simpl.
  - exists p1. split; [|done]. by destruct (d_phase (dr_view p)).
  - destruct (IH p1) as (p' & E' & Hv' & Hs' & Hh'); [lia|]. exists p'. rewrite E', Hv', Hv. split; [done|]. auto.
Qed.

Lemma drq_ok n (p : P) : (dr_settle p < n)%nat -> d_phase (dr_view p) <> Idle ->
  exists p', ata_wait_drq_loop n p = Some (match d_phase (dr_view p) with Failed => -1 | _ => 0 end, p')
  /\ dr_view p' = dr_view p /\ dr_settle p' = O /\ (dr_healthy p -> dr_healthy p').
Proof.
  revert p. induction n as [|n IH]; intros p Hn Hi; [lia|]. cbn [ata_wait_drq_loop].
  destruct (status_ok p) as (v & p1 & E & Hv & Hs & Hh & _ & H0 & H3). rewrite (bind_ok _ _ _ _ _ E), H0, H3.
  destruct (dr_settle p) as [|k] eqn:Ek; simpl.
  - exists p1. split; [|done]. by destruct (d_phase (dr_view p)).
  - destruct (IH p1) as (p' & E' & Hv' & Hs' & Hh'); [lia|by rewrite Hv|]. exists p'. rewrite E', Hv', Hv. split; [done|]. auto.
Qed.

Lemma task_ok (p : P) port v : task_port port -> dr_settle p = O ->
  exists p', outb port v p = Some (tt, p') /\ dr_view p' = set_reg port (u8 v) (dr_view p) /\ dr_settle p' = O /\ (dr_healthy p -> dr_healthy p').
Proof. intros Hp Hs. eexists. split; [done|]. apply dr_task; [done|done|apply u8_bound]. Qed.

(** [ata_setup] puts the low 28 bits of the sector number and the count in place. *)
Lemma setup_ok lba count (p : P) : dr_settle p = O -> 0 <= lba -> 0 < count < 256 ->
  exists p', ata_setup lba count p = Some (tt, p') /\ dr_settle p' = O /\ (dr_healthy p -> dr_healthy p')
  /\ d_phase (dr_view p') = d_phase (dr_view p) /\ d_byte (dr_view p') = d_byte (dr_view p) /\ d_sectors (dr_view p') = d_sectors (dr_view p)
  /\ lba_mode (dr_view p') /\ nsect (dr_view p') = count /\ lba28 (dr_view p') = lba mod 268435456.
Proof.
  intros Hs Hl Hc. unfold ata_setup.
  destruct (task_ok p ATA_DRIVE_SELECT (Z.lor 0xE0 (Z.land (Z.shiftr lba 24) 0x0F)) ltac:(done) Hs) as (p1 & E1 & V1 & S1 & H1). rewrite (bind_ok _ _ _ _ _ E1).
  destruct (task_ok p1 ATA_SECTOR_COUNT count ltac:(done) S1) as (p2 & E2 & V2 & S2 & H2). rewrite (bind_ok _ _ _ _ _ E2).
  destruct (task_ok p2 ATA_LBA_LOW (u8 (Z.land lba 0xFF)) ltac:(done) S2) as (p3 & E3 & V3 & S3 & H3). rewrite (bind_ok _ _ _ _ _ E3).
  destruct (task_ok p3 ATA_LBA_MID (u8 (Z.land (Z.shiftr lba 8) 0xFF)) ltac:(done) S3) as (p4 & E4 & V4 & S4 & H4). rewrite (bind_ok _ _ _ _ _ E4).
  destruct (task_ok p4 ATA_LBA_HIGH (u8 (Z.land (Z.shiftr lba 16) 0xFF)) ltac:(done) S4) as (p5 & E5 & V5 & S5 & H5).
  exists p5. split; [done|]. split; [done|]. split; [tauto|]. rewrite V5, V4, V3, V2, V1. do 3 (split; [done|]).
  assert (u8 (Z.lor 0xE0 (Z.land (Z.shiftr lba 24) 0x0F)) = 224 + (lba / 16777216) mod 16) as Hd.
  { pose proof (Z.mod_pos_bound (lba / 16777216) 16 ltac:(lia)). assert (Z.land (Z.shiftr lba 24) 0x0F = (lba / 16777216) mod 16) as ->.
    { change 0x0F with (Z.ones 4). by rewrite Z.land_ones, Z.shiftr_div_pow2 by lia. }
    pose proof (lor_shiftl_add ((lba / 16777216) mod 16) 14 4 ltac:(lia) ltac:(change (2 ^ 4) with 16; lia)) as E.
    change (Z.shiftl 14 4) with 0xE0 in E. change (2 ^ 4) with 16 in E. rewrite Z.lor_comm, E.
    rewrite u8_small by (unfold is_byte; lia). lia. }
  assert (forall k, 0 <= k -> u8 (u8 (Z.land (Z.shiftr lba k) 0xFF)) = (lba / 2 ^ k) mod 256) as Hb.
  { intros k Hk. change 0xFF with (Z.ones 8). rewrite Z.land_ones, Z.shiftr_div_pow2 by lia. change (2 ^ 8) with 256. unfold u8. by rewrite !Z.mod_mod by lia. }
  pose proof (Hb 0 ltac:(lia)) as B0. rewrite Z.shiftr_0_r, Z.div_1_r in B0. unfold lba_mode, nsect, lba28, set_reg. cbn [d_reg]. unfold upd.
  cbn -[u8 Z.land Z.lor Z.shiftr Z.div Z.modulo]. rewrite Hd, B0, !Hb by lia. change (2 ^ 8) with 256. change (2 ^ 16) with 65536.
  rewrite (u8_small count) by (unfold is_byte; lia). split; [zmod|]. split; [by zspec; lia|zmod].
Qed.


(** ** Reading *)

Lemma word_bytes a b : is_byte a -> is_byte b -> u8 (u16 (a + 256 * b)) = a /\ u8 (Z.shiftr (u16 (a + 256 * b)) 8) = b.
Proof. unfold is_byte, u8, u16. intros Ha Hb. rewrite Z.shiftr_div_pow2 by lia. change (2 ^ 8) with 256. split; zmod. Qed.

(** The rest of a sector: [n] words. *)
Lemma read_words_ok (n : nat) : forall k off buf (p : P) pos left, (n <= 256)%nat ->
  dr_settle p = O -> d_phase (dr_view p) = Sending pos left -> Z.of_nat n <= left -> left mod 256 = Z.of_nat n mod 256 -> (0 < n)%nat ->
  exists buf' p', read_words n k off buf p = Some (buf', p') /\ (dr_healthy p -> dr_healthy p')
  /\ (forall x, buf' x = blit buf (off + 2 * k) (d_byte (dr_view p)) pos (2 * Z.of_nat n) x)
  /\ (dr_view p' = set_phase (if left =? Z.of_nat n then Idle else Sending (pos + 2 * Z.of_nat n) (left - Z.of_nat n)) (dr_view p)
      \/ dr_view p' = set_phase Failed (dr_view p) /\ ~ dr_healthy p).
Proof.
  induction n as [|n IH]; intros k off buf p pos left Hn Hs Hp Hl Hm H0; [lia|]. cbn [read_words].
  pose proof (dr_inw p pos left Hs Hp ltac:(lia)) as Hw. unfold inw. destruct (port_inw ATA_DATA p) as [w p1] eqn:Ew.
  destruct Hw as (-> & Hv & Hs1 & Hh). erewrite bind_ok by (by rewrite Ew).
  destruct (word_bytes _ _ (dr_disk p pos) (dr_disk p (pos + 1))) as [-> ->].
  set (buf1 := buf.[_ <- _].[_ <- _]). assert (forall x, buf1 x = blit buf (off + 2 * k) (d_byte (dr_view p)) pos 2 x) as Hb1.
  { intros x. unfold buf1, upd, blit. zspec; simpl; try done; try lia; f_equal; lia. }
  destruct (decide (n = O)) as [->|Hn0].
  - cbn [read_words]. exists buf1, p1. split; [done|]. split; [done|]. split; [done|]. destruct Hv as [Hv|(_ & Hv & Hnh)]; [left|by right].
    rewrite Hv. unfold next_in. change (Z.of_nat 1) with 1. done.
  - assert (left mod 256 <> 1) as Hm1 by (rewrite Hm; zmod). destruct Hv as [Hv|[? _]]; [|done].
    assert (d_phase (dr_view p1) = Sending (pos + 2) (left - 1)) as Hp1.
    { rewrite Hv. cbn [d_phase set_phase]. unfold next_in. by destruct (Z.eqb_spec left 1); [lia|]. }
    destruct (IH (k + 1) off buf1 p1 (pos + 2) (left - 1)) as (buf' & p' & E & Hh' & Hb & Hv'); [lia|auto|done|lia|zmod|lia|].
    exists buf', p'. split; [exact E|]. split; [auto|]. rewrite Hv in Hb, Hv'. cbn [set_phase d_byte d_reg d_sectors] in Hb, Hv'. split.
    + intros x. rewrite Hb. unfold blit. zspec; simpl; try lia; try (f_equal; lia); rewrite Hb1; unfold blit; zspec; simpl; done || lia || (f_equal; lia).
    + destruct Hv' as [->|[-> Hnh]]; [left|right; split; [done|auto]]. unfold set_phase. cbn [d_reg d_byte d_sectors]. f_equal.
      destruct (Z.eqb_spec (left - 1) (Z.of_nat n)), (Z.eqb_spec left (Z.of_nat (S n))); try lia; [done|]. f_equal; lia.
Qed.

Context (fuel : nat) (Hfuel : (dr_patience < fuel)%nat).

Lemma settled (p : P) : (dr_settle p < fuel)%nat.
Proof. pose proof (dr_settles p). lia. Qed.

(** The phase after a transfer. *)
Definition ended (p p' : P) : Prop :=
  d_phase (dr_view p') = Idle \/ d_phase (dr_view p') = Failed /\ (d_phase (dr_view p) = Failed \/ ~ dr_healthy p).

Lemma read_sectors_ok (n : nat) : forall off buf (p : P) pos,
  d_phase (dr_view p) = Failed \/ d_phase (dr_view p) = (if (n =? 0)%nat then Idle else Sending pos (256 * Z.of_nat n)) ->
  exists r buf' p', read_sectors fuel n off buf p = Some ((r, buf'), p')
  /\ d_byte (dr_view p') = d_byte (dr_view p) /\ d_sectors (dr_view p') = d_sectors (dr_view p) /\ (dr_healthy p -> dr_healthy p') /\ ended p p'
  /\ (r = 0 /\ (forall x, buf' x = blit buf off (d_byte (dr_view p)) pos (512 * Z.of_nat n) x) \/ r = -1 /\ d_phase (dr_view p') = Failed).
Proof.
  induction n as [|n IH]; intros off buf p pos Hp; cbn [read_sectors].
  { exists 0, buf, p. do 4 (split; [done|]). split; [destruct Hp as [Hp|Hp]; [right; auto|by left]|]. left. split; [done|]. intros x. unfold blit. zspec; simpl; done || lia. }
  assert (d_phase (dr_view p) <> Idle) as Hni by (destruct Hp as [->| ->]; done).
  destruct (drq_ok fuel p (settled p) Hni) as (p1 & E1 & Hv1 & Hs1 & Hh1). unfold ata_wait_drq. rewrite (bind_ok _ _ _ _ _ E1).
  destruct Hp as [Hp|Hp]; rewrite Hp; cbn [negb Z.eqb Nat.eqb] in *.
  { exists (-1), buf, p1. unfold ended. rewrite Hv1. do 4 (split; [done|]). rewrite Hp. auto. }
  destruct (read_words_ok 256 0 off buf p1 pos (256 * Z.of_nat (S n))) as (buf1 & p2 & E2 & Hh2 & Hb2 & Hv2); [lia|done|by rewrite Hv1|lia|zmod|lia|].
  rewrite (bind_ok _ _ _ _ _ E2). rewrite Hv1 in Hb2, Hv2. change (Z.of_nat 256) with 256 in *.
  assert (d_byte (dr_view p2) = d_byte (dr_view p) /\ d_sectors (dr_view p2) = d_sectors (dr_view p)) as [Hd2 Hn2] by (destruct Hv2 as [->|[-> _]]; done).
  destruct (IH (off + 512) buf1 p2 (pos + 512)) as (r & buf' & p' & E' & Hd' & Hn' & Hh' & Hend & Hc').
  { destruct Hv2 as [->|[-> _]]; [right|by left]. cbn [set_phase d_phase]. destruct (Z.eqb_spec (256 * Z.of_nat (S n)) 256), (Nat.eqb_spec n 0); try lia; [done|].
    f_equal; lia. }
  exists r, buf', p'. split; [exact E'|]. split; [congruence|]. split; [congruence|]. split; [auto|]. split.
  - destruct Hend as [?|[Hf Hc]]; [by left|]. right. split; [done|]. right. intros Hh. destruct Hc as [Hc|Hc]; [|by apply Hc; auto].
    destruct Hv2 as [Hv2|[_ Hnh]]; [|by apply Hnh; auto]. rewrite Hv2 in Hc. cbn [set_phase d_phase] in Hc. zcase_in Hc; done.
  - destruct Hc' as [(-> & Hb')|?]; [left|by right]. split; [done|].
    intros x. rewrite Hb', Hd2. unfold blit. zspec; simpl; try lia; try (f_equal; lia); rewrite Hb2; unfold blit; zspec; simpl; done || lia || (f_equal; lia).
Qed.

(** [ata_read] on any drive: the sectors, or -1 with the drive in its failed state. *)
Lemma read_ok lba count buf (p : P) : 0 <= lba -> 0 < count < 256 ->
  let a := lba mod 268435456 in
  exists r buf' p', ata_read fuel lba count (Some buf) p = Some ((r, Some buf'), p')
  /\ d_byte (dr_view p') = d_byte (dr_view p) /\ d_sectors (dr_view p') = d_sectors (dr_view p) /\ (dr_healthy p -> dr_healthy p')
  /\ (r = 0 /\ (forall x, buf' x = blit buf 0 (d_byte (dr_view p)) (512 * a) (512 * count) x) \/ r = -1 /\ d_phase (dr_view p') = Failed)
  /\ (d_phase (dr_view p) = Failed -> r = -1)
  /\ (dr_healthy p -> d_phase (dr_view p) <> Failed -> a + count <= d_sectors (dr_view p) -> d_phase (dr_view p') <> Failed).
Proof.
  intros Hl Hc a. unfold ata_read, ata_wait. destruct (Z.eqb_spec count 0); [lia|].
  destruct (wait_ok fuel p (settled p)) as (p1 & E1 & Hv1 & Hs1 & Hh1). rewrite (bind_ok _ _ _ _ _ E1).
  assert (d_phase (dr_view p) = Failed \/ d_phase (dr_view p) <> Failed) as [Hf|Hf] by (destruct (d_phase (dr_view p)); auto).
  { rewrite Hf. cbn [negb Z.eqb]. exists (-1), buf, p1. rewrite Hv1. do 4 (split; [done|]). split; [by right|]. split; [done|]. tauto. }
  assert (match d_phase (dr_view p) with Failed => -1 | _ => 0 end = 0) as -> by (by destruct (d_phase (dr_view p))). cbn [negb Z.eqb].
  destruct (setup_ok lba count p1 Hs1 Hl Hc) as (p2 & E2 & Hs2 & Hh2 & _ & Hd2 & Hn2 & Hmode & Hcnt & Hlba). rewrite (bind_ok _ _ _ _ _ E2).
  fold a in Hlba. destruct (dr_read p2 Hs2 Hmode) as [Hcmd Hgood]. unfold outb at 1. change (u8 ATA_CMD_READ) with ATA_CMD_READ. cbv zeta in Hcmd, Hgood.
  set (p3 := port_outb ATA_COMMAND ATA_CMD_READ p2) in *. erewrite bind_ok by reflexivity. fold p3. rewrite Hcnt, Hlba in Hcmd, Hgood.
  assert (d_byte (dr_view p3) = d_byte (dr_view p) /\ d_sectors (dr_view p3) = d_sectors (dr_view p)) as [Hd3 Hn3].
  { rewrite <- Hv1, <- Hd2, <- Hn2. destruct Hcmd as [->|[_ ->]]; done. }
  destruct (read_sectors_ok (Z.to_nat count) 0 buf p3 (512 * a)) as (r & buf' & p' & E' & Hd' & Hn' & Hh' & Hend & Hc').
  { destruct Hcmd as [->|[_ ->]]; [by left|right]. cbn [set_phase d_phase]. destruct (Nat.eqb_spec (Z.to_nat count) 0); [lia|]. f_equal; lia. }
  rewrite (bind_ok _ _ _ _ _ E'). exists r, buf', p'. rewrite Hd3 in Hc'. replace (512 * Z.of_nat (Z.to_nat count)) with (512 * count) in Hc' by lia.
  split; [done|]. split; [congruence|]. split; [congruence|]. split; [intros Hh; by apply Hh', Hgood; auto|]. split; [done|]. split; [done|].
  intros Hh _ Hin. destruct (Hgood ltac:(auto)) as [Hh3 Hnf]. destruct Hend as [->|[_ [Hx|Hx]]]; [done| |tauto].
  exfalso. apply Hnf; [|done]. rewrite Hn2, Hv1. done.
Qed.

(** ** Writing *)

(** The drive reports no error after the last word of a command. *)
Definition prompt : Prop := forall (p : P) pos w,
  dr_settle p = O -> d_phase (dr_view p) = Taking pos 1 -> d_phase (dr_view (port_outw ATA_DATA w p)) <> Failed.

Lemma write_words_ok (n : nat) : forall k off buf (p : P) pos left, (n <= 256)%nat ->
  dr_settle p = O -> d_phase (dr_view p) = Taking pos left -> Z.of_nat n <= left -> left mod 256 = Z.of_nat n mod 256 -> (0 < n)%nat ->
  exists p', write_words n k off buf p = Some (tt, p') /\ (dr_healthy p -> dr_healthy p') /\ d_sectors (dr_view p') = d_sectors (dr_view p)
  /\ (d_phase (dr_view p') = (if left =? Z.of_nat n then Idle else Taking (pos + 2 * Z.of_nat n) (left - Z.of_nat n))
      /\ (forall x, d_byte (dr_view p') x = blit (d_byte (dr_view p)) pos (fun i => u8 (buf i)) (off + 2 * k) (2 * Z.of_nat n) x)
      \/ d_phase (dr_view p') = Failed /\ ~ dr_healthy p /\ (prompt -> left <> Z.of_nat n)).
Proof.
  induction n as [|n IH]; intros k off buf p pos left Hn Hs Hp Hl Hm H0; [lia|]. cbn [write_words].
  set (a := u8 (buf (off + 2 * k))). set (b := u8 (buf (off + 2 * k + 1))). pose proof (u8_bound (buf (off + 2 * k)) : 0 <= a < 256) as Ha.
  pose proof (u8_bound (buf (off + 2 * k + 1)) : 0 <= b < 256) as Hb. unfold outw at 1. erewrite bind_ok by reflexivity.
  assert (u16 (a + 256 * b) = a + 256 * b) as -> by (unfold u16; rewrite Z.mod_small; lia).
  destruct (dr_outw p pos left (a + 256 * b) Hs Hp ltac:(lia) ltac:(lia)) as (Hz1 & Hv & Hs1 & Hh). set (p1 := port_outw ATA_DATA (a + 256 * b) p) in *.
  replace ((a + 256 * b) mod 256) with a in Hv by zmod. replace ((a + 256 * b) / 256) with b in Hv by zmod.
  assert (forall x, (d_byte (dr_view p)).[pos <- a].[pos + 1 <- b] x = blit (d_byte (dr_view p)) pos (fun i => u8 (buf i)) (off + 2 * k) 2 x) as Hb1.
  { intros x. unfold upd, blit, a, b. zspec; simpl; try done; try lia; f_equal; f_equal; lia. }
  destruct (decide (n = O)) as [->|Hn0].
  - cbn [write_words]. exists p1. split; [done|]. split; [done|]. split; [done|]. destruct Hv as [[Hv Hd]|(_ & Hnh & Hf)]; [|right].
    2:{ split; [done|]. split; [done|]. intros Hpr ->. by eapply Hpr in Hf. }
    left. split; [by rewrite Hv|]. intros x. rewrite Hd. apply Hb1.
  - assert (left mod 256 <> 1) as Hm1 by (rewrite Hm; zmod). destruct Hv as [[Hv Hd1]|[? _]]; [|done].
    assert (d_phase (dr_view p1) = Taking (pos + 2) (left - 1)) as Hp1.
    { rewrite Hv. unfold next_out. by destruct (Z.eqb_spec left 1); [lia|]. }
    destruct (IH (k + 1) off buf p1 (pos + 2) (left - 1)) as (p' & E & Hh' & Hz & Hc); [lia|auto|done|lia|zmod|lia|].
    exists p'. split; [exact E|]. split; [auto|]. split; [congruence|]. destruct Hc as [[Hph Hd]|(Hf & Hnh & Hlate)]; [left|right; split; [done|]; split; [auto|]; intros Hpr%Hlate; lia]. split.
    + rewrite Hph. destruct (Z.eqb_spec (left - 1) (Z.of_nat n)), (Z.eqb_spec left (Z.of_nat (S n))); try lia; [done|]. f_equal; lia.
    + intros x. rewrite Hd. unfold blit at 1. zspec; simpl; try (rewrite Hd1, Hb1); unfold blit; zspec; simpl; done || lia || (f_equal; f_equal; lia).
Qed.


Lemma write_sectors_ok (n : nat) : forall off buf (p : P) pos,
  d_phase (dr_view p) = Failed \/ d_phase (dr_view p) = (if (n =? 0)%nat then Idle else Taking pos (256 * Z.of_nat n)) ->
  exists r p', write_sectors fuel n off buf p = Some (r, p') /\ d_sectors (dr_view p') = d_sectors (dr_view p) /\ (dr_healthy p -> dr_healthy p') /\ ended p p'
  /\ (d_phase (dr_view p) = Failed -> d_phase (dr_view p') = Failed /\ ((0 < n)%nat -> r = -1))
  /\ (r = 0 /\ (prompt -> d_phase (dr_view p) = Failed \/ d_phase (dr_view p') = Idle)
       /\ (d_phase (dr_view p') = Idle -> forall x, d_byte (dr_view p') x = blit (d_byte (dr_view p)) pos (fun i => u8 (buf i)) off (512 * Z.of_nat n) x)
      \/ r = -1 /\ d_phase (dr_view p') = Failed).
Proof.
  induction n as [|n IH]; intros off buf p pos Hp; cbn [write_sectors].
  { exists 0, p. do 3 (split; [done|]). split; [destruct Hp as [Hp|Hp]; [right; auto|by left]|]. split; [intros ->; split; [done|lia]|]. left. split; [done|].
    split; [done|]. intros _ x. unfold blit. zspec; simpl; done || lia. }
  assert (d_phase (dr_view p) <> Idle) as Hni by (destruct Hp as [->| ->]; done).
  destruct (drq_ok fuel p (settled p) Hni) as (p1 & E1 & Hv1 & Hs1 & Hh1). unfold ata_wait_drq. rewrite (bind_ok _ _ _ _ _ E1).
  destruct Hp as [Hp|Hp]; rewrite Hp; cbn [negb Z.eqb Nat.eqb] in *.
  { exists (-1), p1. unfold ended. rewrite Hv1. do 3 (split; [done|]). rewrite Hp. auto. }
  destruct (write_words_ok 256 0 off buf p1 pos (256 * Z.of_nat (S n))) as (p2 & E2 & Hh2 & Hn2 & Hc2); [lia|done|by rewrite Hv1|lia|zmod|lia|].
  rewrite (bind_ok _ _ _ _ _ E2). rewrite Hv1 in Hc2, Hn2. change (Z.of_nat 256) with 256 in *.
  destruct (IH (off + 512) buf p2 (pos + 512)) as (r & p' & E' & Hn' & Hh' & Hend & Hst & Hc').
  { destruct Hc2 as [[-> _]|[-> _]]; [right|by left]. destruct (Z.eqb_spec (256 * Z.of_nat (S n)) 256), (Nat.eqb_spec n 0); try lia; [done|]. f_equal; lia. }
  assert (d_phase (dr_view p2) = Failed -> ~ dr_healthy p /\ (prompt -> (0 < n)%nat)) as Hf2.
  { intros Hf. destruct Hc2 as [[Hx _]|(_ & Hnh & Hlate)]; [rewrite Hx in Hf; zcase_in Hf; done|]. split; [auto|]. intros Hpr%Hlate. lia. }
  exists r, p'. split; [exact E'|]. split; [congruence|]. split; [auto|]. split; [|split; [done|]].
  - destruct Hend as [?|[Hf Hc]]; [by left|]. right. split; [done|]. right. intros Hh. destruct Hc as [Hc|Hc]; [by apply Hf2 in Hc as [? _]|by apply Hc; auto].
  - destruct Hc' as [(-> & Hpr & Hb')|?]; [left|by right]. split; [done|]. split.
    + intros HP. right. destruct (Hpr HP) as [Hf|]; [|done]. destruct (Hf2 Hf) as [_ Hn0]. destruct (Hst Hf) as [_ Hr]. by specialize (Hr (Hn0 HP)).
    + intros Hi x. rewrite (Hb' Hi). destruct Hc2 as [[_ Hd2]|[Hf _]]; [|destruct (Hst Hf); congruence].
      unfold blit. zspec; simpl; try lia; try (f_equal; f_equal; lia); rewrite Hd2; unfold blit; zspec; simpl; done || lia || (f_equal; f_equal; lia).
Qed.

(** [ata_write] on any drive.  An error after the last word goes unnoticed. *)
Lemma ata_write_ok lba count buf (p : P) : 0 <= lba -> 0 < count < 256 ->
  let a := lba mod 268435456 in
  exists r p', ata_write fuel lba count (Some buf) p = Some (r, p')
  /\ d_sectors (dr_view p') = d_sectors (dr_view p) /\ (dr_healthy p -> dr_healthy p')
  /\ (r = 0 /\ (dr_healthy p \/ prompt -> forall x, d_byte (dr_view p') x = blit (d_byte (dr_view p)) (512 * a) (fun i => u8 (buf i)) 0 (512 * count) x)
      \/ r = -1 /\ d_phase (dr_view p') = Failed)
  /\ (d_phase (dr_view p) = Failed -> r = -1)
  /\ (dr_healthy p -> d_phase (dr_view p) <> Failed -> a + count <= d_sectors (dr_view p) -> d_phase (dr_view p') <> Failed).
Proof.
  intros Hl Hc a. unfold ata_write, ata_wait at 1. destruct (Z.eqb_spec count 0); [lia|].
  destruct (wait_ok fuel p (settled p)) as (p1 & E1 & Hv1 & Hs1 & Hh1). rewrite (bind_ok _ _ _ _ _ E1).
  assert (d_phase (dr_view p) = Failed \/ d_phase (dr_view p) <> Failed) as [Hf|Hf] by (destruct (d_phase (dr_view p)); auto).
  { rewrite Hf. cbn [negb Z.eqb]. exists (-1), p1. rewrite Hv1. do 3 (split; [done|]). split; [by right|]. split; [done|]. tauto. }
  assert (match d_phase (dr_view p) with Failed => -1 | _ => 0 end = 0) as -> by (by destruct (d_phase (dr_view p))). cbn [negb Z.eqb].
  destruct (setup_ok lba count p1 Hs1 Hl Hc) as (p2 & E2 & Hs2 & Hh2 & _ & Hd2 & Hn2 & Hmode & Hcnt & Hlba). rewrite (bind_ok _ _ _ _ _ E2).
  fold a in Hlba. destruct (dr_write p2 Hs2 Hmode) as [Hcmd Hgood]. unfold outb at 1. change (u8 ATA_CMD_WRITE) with ATA_CMD_WRITE. cbv zeta in Hcmd, Hgood.
  set (p3 := port_outb ATA_COMMAND ATA_CMD_WRITE p2) in *. erewrite bind_ok by reflexivity. fold p3. rewrite Hcnt, Hlba in Hcmd, Hgood.
  assert (d_byte (dr_view p3) = d_byte (dr_view p) /\ d_sectors (dr_view p3) = d_sectors (dr_view p)) as [Hd3 Hn3].
  { rewrite <- Hv1, <- Hd2, <- Hn2. destruct Hcmd as [->|[_ ->]]; done. }
  destruct (write_sectors_ok (Z.to_nat count) 0 buf p3 (512 * a)) as (r & p4 & E4 & Hn4 & Hh4 & Hend & Hst & Hc4).
  { destruct Hcmd as [->|[_ ->]]; [by left|right]. cbn [set_phase d_phase]. destruct (Nat.eqb_spec (Z.to_nat count) 0); [lia|]. f_equal; lia. }
  rewrite (bind_ok _ _ _ _ _ E4). rewrite Hd3 in Hc4. replace (512 * Z.of_nat (Z.to_nat count)) with (512 * count) in Hc4 by lia.
  assert (dr_healthy p -> dr_healthy p4) as Hh by (intros H; by apply Hh4, Hgood; auto).
  assert (dr_healthy p -> a + count <= d_sectors (dr_view p) -> d_phase (dr_view p4) <> Failed) as Hok.
  { intros H Hin. destruct (Hgood ltac:(auto)) as [Hh3 Hnf]. destruct Hend as [->|[_ [Hx|Hx]]]; [done| |tauto].
    exfalso. apply Hnf; [|done]. by rewrite Hn2, Hv1. }
  destruct Hc4 as [(-> & Hpr & Hb)|[-> Hf4]]; cbn [negb Z.eqb].
  2:{ exists (-1), p4. split; [done|]. split; [congruence|]. split; [done|]. split; [by right|]. split; [done|]. auto. }
  destruct (dr_flush p4) as (Hd5 & Hn5 & Hg5). unfold outb at 1. change (u8 0xE7) with 0xE7. cbv zeta in Hd5, Hn5, Hg5.
  set (p5 := port_outb ATA_COMMAND 0xE7 p4) in *. erewrite bind_ok by reflexivity. fold p5.
  destruct (wait_ok fuel p5 (settled p5)) as (p6 & E6 & Hv6 & Hs6 & Hh6). unfold ata_wait. rewrite (bind_ok _ _ _ _ _ E6).
  assert (d_phase (dr_view p3) <> Failed) as Hf3 by (intros Hx; destruct (Hst Hx) as [_ Hr]; specialize (Hr ltac:(lia)); done).
  exists 0, p6. rewrite Hv6. split; [done|]. split; [congruence|]. split; [intros H; by apply Hh6, Hg5; auto|]. split; [left; split; [done|]|split; [done|]].
  - intros Hcase x. rewrite Hd5. apply Hb. destruct Hcase as [H|HP]; [|by destruct (Hpr HP)].
    destruct Hend as [|[_ [?|Hnh]]]; [done|done|]. destruct Hnh. by apply Hgood; auto.
  - intros H _ Hin. destruct Hend as [Hi|[_ [?|Hnh]]]; [|done|destruct Hnh; by apply Hgood; auto].
    destruct (Hg5 (Hh H)) as [_ Hi5]. by rewrite Hi5.
Qed.

(** ** Detection *)

Lemma delay_ok (p : P) : dr_settle p = O ->
  exists p', ata_400ns_delay p = Some (tt, p') /\ dr_view p' = dr_view p /\ dr_settle p' = O /\ (dr_healthy p -> dr_healthy p').
Proof.
  assert (forall p : P, dr_settle p = O -> exists v p', inb 0x3F6 p = Some (v, p') /\ dr_view p' = dr_view p /\ dr_settle p' = O /\ (dr_healthy p -> dr_healthy p')) as Hin.
  { intros q Hq. unfold inb. pose proof (dr_alternate q Hq) as H. destruct (port_inb 0x3F6 q) as [v q']. by exists (u8 v), q'. }
  intros Hs. unfold ata_400ns_delay. destruct (Hin p Hs) as (v1 & p1 & E1 & V1 & S1 & H1). rewrite (bind_ok _ _ _ _ _ E1).
  destruct (Hin p1 S1) as (v2 & p2 & E2 & V2 & S2 & H2). rewrite (bind_ok _ _ _ _ _ E2).
  destruct (Hin p2 S2) as (v3 & p3 & E3 & V3 & S3 & H3). rewrite (bind_ok _ _ _ _ _ E3).
  destruct (Hin p3 S3) as (v4 & p4 & E4 & V4 & S4 & H4). rewrite (bind_ok _ _ _ _ _ E4).
  exists p4. split; [done|]. split; [congruence|]. split; [done|auto].
Qed.

Lemma ident_words (n : nat) : forall (p : P) lo, dr_settle p = O -> d_phase (dr_view p) = (if (n =? 0)%nat then Idle else Ident (Z.of_nat n)) ->
  exists p', for_st n lo (fun _ => let* _ := inw ATA_DATA in ret tt) p = Some (tt, p')
  /\ d_byte (dr_view p') = d_byte (dr_view p) /\ d_sectors (dr_view p') = d_sectors (dr_view p) /\ d_phase (dr_view p') = Idle /\ (dr_healthy p -> dr_healthy p').
Proof.
  induction n as [|n IH]; intros p lo Hs Hp; cbn [for_st]; [by exists p|].
  cbn [Nat.eqb] in Hp. pose proof (dr_ident p _ Hs Hp ltac:(lia)) as H. unfold inw at 1. destruct (port_inw ATA_DATA p) as [w p1] eqn:Ew. destruct H as (Hv & Hs1 & Hh1).
  erewrite bind_ok by (unfold bind; by rewrite Ew). destruct (decide (n = O)) as [->|Hn].
  - cbn [for_st]. exists p1. rewrite Hv. split; [done|]. split; [done|]. split; [done|]. split; [done|auto].
  - destruct (IH p1 (lo + 1)) as (p' & E & Hd & Hz & Hi & Hh'); [apply Hs1; lia| |].
    { rewrite Hv. cbn [set_phase d_phase]. destruct (Z.eqb_spec (Z.of_nat (S n)) 1), (Nat.eqb_spec n 0); try lia. f_equal. lia. }
    exists p'. split; [exact E|]. rewrite Hd, Hz, Hv. split; [done|]. split; [done|]. split; [done|auto].
Qed.

(** [ata_init] ends; a drive in order is found, and left ready for transfers. *)
Lemma init_ok (p : P) : dr_settle p = O ->
  exists r p', ata_init fuel p = Some (r, p') /\ d_byte (dr_view p') = d_byte (dr_view p) /\ d_sectors (dr_view p') = d_sectors (dr_view p)
  /\ (dr_healthy p -> d_phase (dr_view p) <> Failed -> r = 0 /\ d_phase (dr_view p') = Idle /\ dr_healthy p').
Proof.
  intros Hs. unfold ata_init.
  destruct (task_ok p ATA_DRIVE_SELECT 0xA0 ltac:(done) Hs) as (p1 & E1 & V1 & S1 & H1). rewrite (bind_ok _ _ _ _ _ E1).
  destruct (delay_ok p1 S1) as (p2 & E2 & V2 & S2 & H2). rewrite (bind_ok _ _ _ _ _ E2).
  assert (forall q : P, exists v q', inb ATA_STATUS q = Some (v, q') /\ v <> 0 /\ (dr_settle q = O -> d_phase (dr_view q) <> Failed -> v <> 0xFF)
    /\ dr_view q' = dr_view q /\ dr_settle q' = pred (dr_settle q) /\ (dr_healthy q -> dr_healthy q')) as Hst.
  { intros q. unfold inb. pose proof (dr_status q) as H. destruct (port_inb ATA_STATUS q) as [v q']. destruct H as (Hb & Hv & Hsq & Hhq & _ & H0 & _).
    rewrite u8_small by (unfold is_byte; lia). exists v, q'. split; [done|]. split; [lia|]. split; [|done]. intros Hq Hf ->. destruct (proj1 H0 eq_refl). done. }
  destruct (Hst p2) as (v3 & p3 & E3 & Hv3 & Hf3 & V3 & S3 & H3). rewrite (bind_ok _ _ _ _ _ E3).
  destruct (Z.eqb_spec v3 0); [done|]. destruct (Z.eqb_spec v3 0xFF) as [|_]; cbn [orb].
  { exists (-1), p3. split; [done|]. rewrite V3, V2, V1. split; [done|]. split; [done|]. intros _ Hnf. exfalso. apply Hf3; [done| |done]. rewrite V2, V1. done. }
  rewrite S2 in S3. cbn [pred] in S3.
  destruct (task_ok p3 ATA_SECTOR_COUNT 0 ltac:(done) S3) as (p4 & E4 & V4 & S4 & H4). rewrite (bind_ok _ _ _ _ _ E4).
  destruct (task_ok p4 ATA_LBA_LOW 0 ltac:(done) S4) as (p5 & E5 & V5 & S5 & H5). rewrite (bind_ok _ _ _ _ _ E5).
  destruct (task_ok p5 ATA_LBA_MID 0 ltac:(done) S5) as (p6 & E6 & V6 & S6 & H6). rewrite (bind_ok _ _ _ _ _ E6).
  destruct (task_ok p6 ATA_LBA_HIGH 0 ltac:(done) S6) as (p7 & E7 & V7 & S7 & H7). rewrite (bind_ok _ _ _ _ _ E7).
  destruct (dr_identify p7 S7) as [Hid Hg]. unfold outb at 1. change (u8 0xEC) with 0xEC. cbv zeta in Hid, Hg.
  set (p8 := port_outb ATA_COMMAND 0xEC p7) in *. erewrite bind_ok by reflexivity. fold p8.
  destruct (Hst p8) as (v9 & p9 & E9 & Hv9 & _ & V9 & S9 & H9). rewrite (bind_ok _ _ _ _ _ E9). destruct (Z.eqb_spec v9 0); [done|].
  destruct (wait_ok fuel p9 (settled p9)) as (p10 & E10 & V10 & S10 & H10). unfold ata_wait. rewrite (bind_ok _ _ _ _ _ E10).
  assert (dr_healthy p -> dr_healthy p8 /\ d_phase (dr_view p8) <> Failed) as Hh8 by (intros Hh; apply Hg; tauto).
  destruct Hid as [V8|V8].
  { rewrite V9, V8. cbn [set_phase d_phase negb Z.eqb]. exists (-1), p10. split; [done|]. rewrite V10, V9, V8, V7, V6, V5, V4, V3, V2, V1. split; [done|]. split; [done|].
    intros Hh. destruct (Hh8 Hh) as [_ Hx]. by rewrite V8 in Hx. }
  rewrite V9, V8. cbn [set_phase d_phase negb Z.eqb].
  assert (forall q port, task_port port -> dr_settle q = O -> d_reg (dr_view q) port = 0 ->
    exists q', inb port q = Some (0, q') /\ dr_view q' = dr_view q /\ dr_settle q' = O /\ (dr_healthy q -> dr_healthy q')) as Hreg.
  { intros q port Hp Hq Hr. unfold inb. pose proof (dr_regs q port Hp Hq) as H. destruct (port_inb port q) as [v q'].
    destruct H as (-> & Hv & Hsq & Hhq'). rewrite Hr. exists q'. split; [done|]. auto. }
  assert (d_reg (dr_view p10) ATA_LBA_MID = 0 /\ d_reg (dr_view p10) ATA_LBA_HIGH = 0) as [R1 R2].
  { rewrite V10, V9, V8, V7, V6. split; reflexivity. }
  destruct (Hreg p10 ATA_LBA_MID ltac:(done) S10 R1) as (p11 & E11 & V11 & S11 & H11). rewrite (bind_ok _ _ _ _ _ E11). cbn [negb Z.eqb].
  destruct (Hreg p11 ATA_LBA_HIGH ltac:(done) S11 ltac:(by rewrite V11)) as (p12 & E12 & V12 & S12 & H12).
  erewrite bind_ok by (by rewrite (bind_ok _ _ _ _ _ E12)). cbn [negb Z.eqb].
  assert (dr_view p12 = set_phase (Ident 256) (dr_view p7)) as V by congruence.
  destruct (drq_ok fuel p12 (settled p12)) as (p13 & E13 & V13 & S13 & H13); [by rewrite V|]. unfold ata_wait_drq. rewrite (bind_ok _ _ _ _ _ E13).
  rewrite V. cbn [set_phase d_phase negb Z.eqb].
  destruct (ident_words 256 p13 0 S13) as (p14 & E14 & Hd & Hz & Hi & Hh14); [by rewrite V13, V|]. rewrite (bind_ok _ _ _ _ _ E14).
  exists 0, p14. split; [done|]. rewrite Hd, Hz, V13, V, V7, V6, V5, V4, V3, V2, V1. split; [done|]. split; [done|].
  intros Hh _. destruct (Hh8 Hh) as [Hx _]. split; [done|]. split; [done|]. auto 10.
Qed.

(** ** Failed drives *)

Inductive request := RRead (lba count : Z) | RWrite (lba count : Z) (buf : Z -> Z).

Definition serve (r : request) : st P Z :=
  match r with
  | RRead lba count => let* x := ata_read fuel lba count (Some (fun _ => 0)) in ret x.1
  | RWrite lba count buf => ata_write fuel lba count (Some buf)
  end.

Fixpoint serve_all (rs : list request) : st P (list Z) :=
  match rs with
  | [] => ret []
  | r :: rs => let* x := serve r in let* xs := serve_all rs in ret (x :: xs)
  end.

Lemma serve_failed r (p : P) : d_phase (dr_view p) = Failed -> exists p', serve r p = Some (-1, p') /\ dr_view p' = dr_view p.
Proof.
  intros Hf. destruct (wait_ok fuel p (settled p)) as (p1 & E1 & Hv1 & _ & _). rewrite Hf in E1.
  destruct r as [lba count|lba count buf]; unfold serve, ata_read, ata_write; destruct (count =? 0); try by exists p.
  - erewrite bind_ok by (unfold ata_wait; by rewrite (bind_ok _ _ _ _ _ E1)). by exists p1.
  - unfold ata_wait. rewrite (bind_ok _ _ _ _ _ E1). by exists p1.
Qed.


End Transfers.


(** ** Theorems *)

Section Theorems.
Context {P : Type} `{AD : AtaDrive P}.


(** C32: After a command has failed the driver never sends another one: every transfer
    of any later sequence returns -1 and the drive stays as it is. *)
Theorem ata_failure_sticks (p : P) fuel rs :
  (dr_patience < fuel)%nat -> d_phase (dr_view p) = Failed ->
  exists p', serve_all fuel rs p = Some (map (fun _ => -1) rs, p') /\ dr_view p' = dr_view p.
Proof.
  intros Hfuel. revert p. induction rs as [|r rs IH]; intros p Hf; cbn [serve_all map]; [by exists p|].
  destruct (serve_failed fuel Hfuel r p Hf) as (p1 & E1 & V1). rewrite (bind_ok _ _ _ _ _ E1).
  destruct (IH p1) as (p2 & E2 & V2); [by rewrite V1|]. rewrite (bind_ok _ _ _ _ _ E2). exists p2. split; [done|congruence].
Qed.

(** ** The driver behind the file system *)

Definition served (fuel : nat) (lba n : Z) (p : P) : option (Z -> Z) * P :=
  match ata_read fuel lba n (Some (fun _ => 0)) p with
  | Some ((r, Some b), p') => (if r =? 0 then Some b else None, p')
  | Some (_, p') => (None, p')
  | None => (None, p)
  end.

Definition stored (fuel : nat) (lba n : Z) (buf : Z -> Z) (p : P) : Z * P :=
  match ata_write fuel lba n (Some buf) p with
  | Some (r, p') => (r, p')
  | None => (-1, p)
  end.

(** A drive without late errors is a block device. *)
#[program] Definition ata_block_dev (H : prompt) : BlockDev P := {|
  Disk.ata_read := served (S dr_patience);
  Disk.ata_write := stored (S dr_patience);
  bd_byte p := d_byte (dr_view p);
  bd_sectors p := d_sectors (dr_view p);
  bd_good p := dr_healthy p /\ d_phase (dr_view p) <> Failed |}.
Next Obligation. intros. apply dr_disk. Qed.
Next Obligation.
  intros _ lba n p Hn Hl Hin. cbn beta in Hin. pose proof (dr_size p). unfold served.
  destruct (read_ok (S dr_patience) (Nat.lt_succ_diag_r _) lba n (fun _ => 0) p Hl Hn) as (r & b & p' & E & Hd & Hz & _ & Hr & _ & _). rewrite E.
  split; [by rewrite Hd|]. split; [done|]. destruct Hr as [[-> Hb]|[-> _]]; cbn [Z.eqb]; [|done].
  intros i Hi. rewrite Hb, blit_in by lia. rewrite Z.mod_small by lia. f_equal. lia.
Qed.
Next Obligation.
  intros _ lba n p [Hh Hf] Hn Hl Hin. cbn beta in Hin. pose proof (dr_size p). unfold served.
  destruct (read_ok (S dr_patience) (Nat.lt_succ_diag_r _) lba n (fun _ => 0) p Hl Hn) as (r & b & p' & E & _ & _ & Hh' & Hr & _ & Hok). rewrite E.
  rewrite Z.mod_small in Hok by lia. specialize (Hok Hh Hf Hin). split; [auto|]. destruct Hr as [[-> _]|[_ ?]]; done.
Qed.
Next Obligation.
  intros H lba n buf p Hn Hl Hin. cbn beta in Hin. pose proof (dr_size p). unfold stored.
  destruct (ata_write_ok (S dr_patience) (Nat.lt_succ_diag_r _) lba n buf p Hl Hn) as (r & p' & E & Hz & _ & Hr & _ & _). rewrite E. split; [done|]. intros ->.
  destruct Hr as [[_ Hb]|[? _]]; [|done]. intros x. rewrite Hb by (by right). by rewrite Z.mod_small by lia.
Qed.
Next Obligation.
  intros _ lba n buf p [Hh Hf] Hn Hl Hin. cbn beta in Hin. pose proof (dr_size p). unfold stored.
  destruct (ata_write_ok (S dr_patience) (Nat.lt_succ_diag_r _) lba n buf p Hl Hn) as (r & p' & E & _ & Hh' & Hr & _ & Hok). rewrite E.
  rewrite Z.mod_small in Hok by lia. specialize (Hok Hh Hf Hin). split; [auto|]. destruct Hr as [[-> _]|[_ ?]]; done.
Qed.

End Theorems.


(** ** A drive in memory *)

Module PioDrive.

(** [busy] status reads until ready (the drive never takes more than [limit]), [lag] of
    them after each sector, [late] says that errors are reported after the last word. *)
Definition limit : nat := 8.
Record pio (late : bool) := mk_pio { reg : Z -> Z; ph : phase; bytes : Z -> Z; size : Z; busy : nat; lag : nat }.
Arguments mk_pio {late} _ _ _ _ _ _.
Arguments reg {late} _. Arguments ph {late} _. Arguments bytes {late} _. Arguments size {late} _. Arguments busy {late} _. Arguments lag {late} _.

Section Pio.
Context {late : bool}.
#[local] Abbreviation pio := (pio late).


Definition view (p : pio) : drive := mk_drive (reg p) (ph p) (fun x => u8 (bytes p x)) (Z.min (size p) 268435456).
Definition settle (p : pio) : nat := Nat.min (busy p) limit.
Definition set_busy (n : nat) (p : pio) : pio := mk_pio (reg p) (ph p) (bytes p) (size p) n (lag p).
Definition set_ph (f : phase) (p : pio) : pio := mk_pio (reg p) f (bytes p) (size p) (busy p) (lag p).
Definition store_word (pos w : Z) (p : pio) : pio :=
  mk_pio (reg p) (ph p) ((bytes p).[pos <- w mod 256].[pos + 1 <- w / 256]) (size p) (busy p) (lag p).
Definition set_r (port v : Z) (p : pio) : pio := mk_pio ((reg p).[port <- v]) (ph p) (bytes p) (size p) (busy p) (lag p).

Definition status (p : pio) : Z :=
  match settle p with
  | S _ => 0x80
  | O => match ph p with Idle => 0x40 | Failed => 0x41 | _ => 0x48 end
  end.

(** The start of a transfer command. *)
Definition start (f : Z -> Z -> phase) (p : pio) : pio :=
  let d := view p in
  if lba28 d + nsect d <=? d_sectors d then set_busy (lag p) (set_ph (f (512 * lba28 d) (256 * nsect d)) p) else set_ph Failed p.

Definition command (v : Z) (p : pio) : pio :=
  match settle p with
  | S _ => p
  | O => if v =? ATA_CMD_READ then start Sending p
         else if v =? ATA_CMD_WRITE then start Taking p
         else if v =? 0xEC then set_busy (lag p) (set_ph (Ident 256) p)
         else if v =? 0xE7 then set_busy (lag p) p
         else set_ph Failed p
  end.

Definition rest (left : Z) (p : pio) : pio := set_busy (if left mod 256 =? 1 then lag p else O) p.

#[export] Instance pio_ports : Ports pio := {
  port_inb port p := if port =? ATA_STATUS then (status p, set_busy (pred (settle p)) p) else (reg p port, p);
  port_outb port v p := if port =? ATA_COMMAND then command v p else set_r port v p;
  port_inw port p :=
    match ph p with
    | Sending pos n => (u8 (bytes p pos) + 256 * u8 (bytes p (pos + 1)), rest n (set_ph (next_in pos n) p))
    | Ident n => (0, set_busy O (set_ph (if n =? 1 then Idle else Ident (n - 1)) p))
    | _ => (0, p)
    end;
  port_outw port w p :=
    match ph p with
    | Taking pos n => if late && (n =? 1) then set_ph Failed p else rest n (set_ph (next_out pos n) (store_word pos w p))
    | _ => p
    end }.

Lemma start_ok f p : settle p = O -> let d := view p in
  (view (start f p) = set_phase Failed d
   \/ lba28 d + nsect d <= d_sectors d /\ view (start f p) = set_phase (f (512 * lba28 d) (256 * nsect d)) d)
  /\ (lba28 d + nsect d <= d_sectors d -> (forall a b, f a b <> Failed) -> d_phase (view (start f p)) <> Failed).
Proof.
  intros Hs d. unfold start. fold d. destruct (Z.leb_spec (lba28 d + nsect d) (d_sectors d)).
  - split; [by right|]. intros _ Hf. apply Hf.
  - split; [by left|]. lia.
Qed.

#[export] Program Instance pio_drive : AtaDrive pio := {
  dr_view := view;
  dr_settle := settle;
  dr_patience := limit;
  dr_healthy p := late = false
}.
Next Obligation. intros p. unfold settle. lia. Qed.
Next Obligation. intros p x. apply u8_bound. Qed.
Next Obligation. intros p. simpl. lia. Qed.
Next Obligation.
  intros p. cbn [port_inb pio_ports]. change (ATA_STATUS =? ATA_STATUS) with true. cbv iota.
  assert (settle (set_busy (pred (settle p)) p) = pred (settle p)) as -> by (unfold settle; cbn [busy set_busy]; lia).
  unfold status. split; [by destruct (settle p), (ph p)|]. split; [done|]. split; [done|]. split; [done|].
  cbn [view d_phase]. destruct (settle p) eqn:Es, (ph p); cbn; intuition congruence.
Qed.
Next Obligation.
  intros p port v Hp Hs Hv. cbn [port_outb pio_ports]. unfold task_port, ATA_SECTOR_COUNT, ATA_DRIVE_SELECT in Hp.
  destruct (Z.eqb_spec port ATA_COMMAND) as [->|]; [by destruct Hp|]. done.
Qed.
Next Obligation.
  intros p port Hp Hs. cbn [port_inb pio_ports]. unfold task_port, ATA_SECTOR_COUNT, ATA_DRIVE_SELECT in Hp.
  destruct (Z.eqb_spec port ATA_STATUS) as [->|]; [by destruct Hp|]. done.
Qed.
Next Obligation. done. Qed.
Next Obligation.
  intros p Hs. cbn [port_outb pio_ports]. change (ATA_COMMAND =? ATA_COMMAND) with true. cbv iota. unfold command. rewrite Hs.
  change (0xEC =? ATA_CMD_READ) with false. change (0xEC =? ATA_CMD_WRITE) with false. change (0xEC =? 0xEC) with true. cbv iota. split; [by right|done].
Qed.
Next Obligation.
  intros p n Hs Hp Hn. cbn [port_inw pio_ports]. change (ph p = Ident n) in Hp. rewrite Hp. done.
Qed.
Next Obligation.
  intros p Hs _. destruct (start_ok Sending p Hs) as [H1 H2]. cbv zeta in *. cbn [port_outb pio_ports]. change (ATA_COMMAND =? ATA_COMMAND) with true. cbv iota.
  unfold command. rewrite Hs. change (ATA_CMD_READ =? ATA_CMD_READ) with true. cbv iota. split; [done|]. intros Hl. split; [done|]. intros Hin. by apply H2.
Qed.
Next Obligation.
  intros p Hs _. destruct (start_ok Taking p Hs) as [H1 H2]. cbv zeta in *. cbn [port_outb pio_ports]. change (ATA_COMMAND =? ATA_COMMAND) with true. cbv iota.
  unfold command. rewrite Hs. change (ATA_CMD_WRITE =? ATA_CMD_READ) with false. change (ATA_CMD_WRITE =? ATA_CMD_WRITE) with true. cbv iota.
  split; [done|]. intros Hl. split; [done|]. intros Hin. by apply H2.
Qed.
Next Obligation.
  intros p pos n Hs Hp Hn. cbn [port_inw pio_ports]. change (ph p = Sending pos n) in Hp. rewrite Hp. split; [done|]. split; [by left|]. split; [|done].
  intros Hm. unfold rest. by destruct (Z.eqb_spec (n mod 256) 1).
Qed.
Next Obligation.
  intros p pos n w Hs Hp Hn Hw. cbn [port_outw pio_ports]. change (ph p = Taking pos n) in Hp. rewrite Hp. destruct (late && (n =? 1)) eqn:El.
  - apply andb_true_iff in El as [El ->%Z.eqb_eq]. split; [done|]. split; [right; split; [done|]; split; [congruence|done]|]. split; [done|congruence].
  - split; [done|]. split; [left; split; [done|]|split; [|done]].
    + intros x. cbn. unfold upd. zspec; try done; apply u8_small; unfold is_byte; zmod.
    + intros Hm. unfold rest. by destruct (Z.eqb_spec (n mod 256) 1).
Qed.
Next Obligation.
  intros p. cbn [port_outb pio_ports]. change (ATA_COMMAND =? ATA_COMMAND) with true. cbv iota. unfold command. destruct (settle p); done.
Qed.

End Pio.

(** 100 sectors, three status reads of delay. *)
Definition demo (late : bool) : pio late := mk_pio (fun _ => 0) Idle (fun x => x) 100 0 3.

(** Without late errors this is a block device. *)
Lemma prompt_drive : prompt (P := pio false).
Proof. intros p pos w _ Hp. change (ph p = Taking pos 1) in Hp. cbn [port_outw pio_ports]. by rewrite Hp. Qed.

End PioDrive.

Import PioDrive.


Lemma ata_failure_sticks_witness :
  let p := set_ph Failed (demo false) in
  exists p', serve_all 9 [RRead 0 1; RWrite 5 2 (fun _ => 1); RRead 3 255] p = Some ([-1; -1; -1], p').
Proof.
  intros p. destruct (ata_failure_sticks p 9 [RRead 0 1; RWrite 5 2 (fun _ => 1); RRead 3 255]) as (p' & E & _);
    [simpl; unfold limit; lia|reflexivity|]. exists p'. exact E.
Defined.

(** An error after the last sector is lost: [ata_write] returns 0, the last word of the
    sector is not on the disk. *)
Example late_error_unnoticed :
  match ata_write 9 7 1 (Some (fun _ => 170)) (demo true) with
  | Some (r, p) => r = 0 /\ d_byte (dr_view p) (512 * 7) = 170 /\ d_byte (dr_view p) (512 * 7 + 511) = 255
  | None => False
  end.
Proof. vm_compute. done. Qed.


End Ata.
