(* ===== verification/Cpu.v ===== *)
(** * Segments, gates and interrupt lines

    [src/cpu/gdt.c], [src/cpu/idt.c] (tables and interrupt dispatch), [src/drivers/pic.c],
    [src/cpu/fpu.c] and [src/kernel/usermode.c]: what the tables mean to the processor, and
    how an interrupt line reaches its handler. *)

From S2P Require Import Prelude Ports.

(** ** Segment descriptors *)

Module Gdt.

Definition GDT_ENTRIES : nat := 6.

Record gdt_entry := mk_gdt_entry {
  limit_low : Z; base_low : Z; base_middle : Z; access : Z; granularity : Z; base_high : Z }.

(** The task state: the fields the kernel sets, and the others, which stay zero. *)
Record tss_entry := mk_tss { esp0 : Z; ss0 : Z; iomap_base : Z }.
Definition sizeof_gdt_entry : Z := 8.
Definition sizeof_tss_entry : Z := 104.

(** The tables, and the registers [gdt_flush] and [ltr] load. *)
Record cpu := mk_cpu { gdt : list gdt_entry; tss : tss_entry; gdtr : Z * Z; tr : Z }.

Definition set_gdt (l : list gdt_entry) (s : cpu) : cpu := mk_cpu l (tss s) (gdtr s) (tr s).
Definition set_tss (t : tss_entry) (s : cpu) : cpu := mk_cpu (gdt s) t (gdtr s) (tr s).

(** The assignments to the fields of [gdt[num]]. *)
Definition descriptor (base limit access gran : Z) : gdt_entry :=
  mk_gdt_entry (u16 (Z.land limit 0xFFFF)) (u16 (Z.land base 0xFFFF)) (u8 (Z.land (Z.shiftr base 16) 0xFF)) (u8 access)
    (u8 (Z.lor (Z.land (Z.shiftr limit 16) 0x0F) (Z.land gran 0xF0))) (u8 (Z.land (Z.shiftr base 24) 0xFF)).

Definition gdt_set_entry (num base limit access gran : Z) : st cpu unit := fun s =>
  if (0 <=? num) && (num <? Z.of_nat (length (gdt s)))
  then Some (tt, set_gdt (<[Z.to_nat num := descriptor base limit access gran]> (gdt s)) s)
  else None.

Section Init.
(** Where the linker has put [gdt] and [tss]. *)
Context (gdt_addr tss_addr : Z).

(** [gdt_flush] (gdt_flush.s) loads the table register from [gp]; [ltr] the task register. *)
Definition gdt_flush (limit base : Z) : st cpu unit := modify (fun s => mk_cpu (gdt s) (tss s) (limit, base) (tr s)).
Definition ltr (selector : Z) : st cpu unit := modify (fun s => mk_cpu (gdt s) (tss s) (gdtr s) selector).

Definition gdt_init : st cpu unit :=
  let gp_limit := u16 (sizeof_gdt_entry * Z.of_nat GDT_ENTRIES - 1) in
  let gp_base := u32 gdt_addr in
  gdt_set_entry 0 0 0 0 0 ;;
  gdt_set_entry 1 0 0xFFFFFFFF 0x9A 0xCF ;;
  gdt_set_entry 2 0 0xFFFFFFFF 0x92 0xCF ;;
  gdt_set_entry 3 0 0xFFFFFFFF 0xFA 0xCF ;;
  gdt_set_entry 4 0 0xFFFFFFFF 0xF2 0xCF ;;
  let tss_base := u32 tss_addr in
  let tss_limit := sizeof_tss_entry - 1 in
  gdt_set_entry 5 tss_base tss_limit 0x89 0x00 ;;
  modify (fun s => set_tss (mk_tss 0 0x10 sizeof_tss_entry) s) ;;
  gdt_flush gp_limit gp_base ;;
  ltr (u16 0x28).

Definition tss_set_kernel_stack (stack : Z) : st cpu unit :=
  modify (fun s => set_tss (mk_tss stack (ss0 (tss s)) (iomap_base (tss s))) s).

End Init.

(** What the processor reads in a descriptor. *)
Definition seg_base (e : gdt_entry) : Z := base_low e + 65536 * base_middle e + 16777216 * base_high e.
Definition seg_limit (e : gdt_entry) : Z :=
  let raw := limit_low e + 65536 * (granularity e mod 16) in
  if Z.testbit (granularity e) 7 then raw * 4096 + 4095 else raw.
Definition seg_dpl (e : gdt_entry) : Z := (access e / 32) mod 4.
Definition seg_present (e : gdt_entry) : bool := Z.testbit (access e) 7.
(** Bits 0-4: code or data segment and its rights, or the kind of a system segment. *)
Definition seg_type (e : gdt_entry) : Z := access e mod 32.

Lemma land_byte x k : 0 <= k -> u8 (Z.land (Z.shiftr x k) 0xFF) = (x / 2 ^ k) mod 256.
Proof.
  intros Hk. change 0xFF with (Z.ones 8). rewrite Z.land_ones, Z.shiftr_div_pow2 by lia. change (2 ^ 8) with 256. unfold u8. by rewrite Z.mod_mod by lia.
Qed.

Lemma gran_byte limit gran : 0 <= limit -> is_byte gran ->
  u8 (Z.lor (Z.land (Z.shiftr limit 16) 0x0F) (Z.land gran 0xF0)) = (limit / 65536) mod 16 + 16 * (gran / 16).
Proof.
  unfold is_byte. intros Hl Hg. change 0x0F with (Z.ones 4). rewrite Z.land_ones, Z.shiftr_div_pow2 by lia. change (2 ^ 16) with 65536. change (2 ^ 4) with 16.
  assert (Z.land gran 0xF0 = gran / 16 * 16) as ->.
  { exact (land_mask_hi 4 8 gran ltac:(lia) ltac:(done)). }
  assert (0 <= (limit / 65536) mod 16 < 16) as Hm by zmod. pose proof (lor_shiftl_add ((limit / 65536) mod 16) (gran / 16) 4 ltac:(lia) Hm) as E.
  rewrite Z.shiftl_mul_pow2 in E by lia. change (2 ^ 4) with 16 in E. rewrite E, u8_small; [lia|]. unfold is_byte. zmod.
Qed.

(** The encoding: base, limit (20 bits) and flags read back. *)
Lemma descriptor_ok base limit acc gran : is_u32 base -> 0 <= limit -> is_byte acc -> is_byte gran ->
  let e := descriptor base limit acc gran in
  seg_base e = base /\ access e = acc
  /\ seg_limit e = (let raw := limit mod 1048576 in if Z.testbit gran 7 then raw * 4096 + 4095 else raw).
Proof.
  intros Hb Hl Ha Hg e. unfold is_u32 in Hb. unfold seg_base, seg_limit, e, descriptor. cbn [limit_low base_low base_middle access granularity base_high].
  assert (forall x, u16 (Z.land x 0xFFFF) = x mod 65536) as Hlow.
  { intros x. change 0xFFFF with (Z.ones 16). rewrite Z.land_ones by lia. change (2 ^ 16) with 65536. unfold u16. by rewrite Z.mod_mod by lia. }
  rewrite !Hlow, !land_byte, gran_byte by done. change (2 ^ 16) with 65536. change (2 ^ 24) with 16777216. unfold is_byte in *.
  split; [zmod|]. split; [by apply u8_small|]. assert (Z.testbit ((limit / 65536) mod 16 + 16 * (gran / 16)) 7 = Z.testbit gran 7) as ->.
  { rewrite !Z.testbit_eqb by lia. change (2 ^ 7) with 128. f_equal. zmod. }
  replace (limit mod 65536 + 65536 * (((limit / 65536) mod 16 + 16 * (gran / 16)) mod 16)) with (limit mod 1048576) by zmod. done.
Qed.

(** The descriptor a selector leads to. *)
Definition segment (s : cpu) (selector base limit dpl type : Z) : Prop :=
  exists e, gdt s !! Z.to_nat (selector / 8) = Some e /\ seg_present e = true
  /\ seg_base e = base /\ seg_limit e = limit /\ seg_dpl e = dpl /\ seg_type e = type.

(** After [gdt_init] the kernel's and the user's code and data selectors are flat 4 GiB
    segments of rings 0 and 3, the task register names a task state segment of 104
    bytes at [tss], the stack segment it holds for ring 0 is the kernel's data segment,
    and its I/O map lies behind its end, so that ring 3 has no port. *)
Lemma gdt_init_ok (gdt_addr tss_addr : Z) (s : cpu) :
  length (gdt s) = GDT_ENTRIES -> is_u32 tss_addr ->
  exists s', gdt_init gdt_addr tss_addr s = Some (tt, s')
  /\ gdtr s' = (8 * 6 - 1, u32 gdt_addr)
  /\ segment s' 0x08 0 0xFFFFFFFF 0 0x1A /\ segment s' 0x10 0 0xFFFFFFFF 0 0x12
  /\ segment s' 0x1B 0 0xFFFFFFFF 3 0x1A /\ segment s' 0x23 0 0xFFFFFFFF 3 0x12
  /\ segment s' (tr s') tss_addr 103 0 9
  /\ ss0 (tss s') = 0x10 /\ iomap_base (tss s') > 103.
Proof.
  intros Hlen Ht. destruct s as [g t r w]. cbn [gdt] in Hlen. do 6 (destruct g as [|? g]; [done|]). destruct g; [|done].
  eexists. split; [unfold gdt_init; do 5 (erewrite bind_ok by reflexivity); cbv zeta; do 3 (erewrite bind_ok by reflexivity); reflexivity|].
  cbn [gdtr tr tss ss0 iomap_base set_tss]. unfold segment. cbn [gdt set_gdt set_tss]. split; [done|]. rewrite (u32_small tss_addr) by done.
  destruct (descriptor_ok tss_addr 103 0x89 0 Ht ltac:(lia) ltac:(done) ltac:(done)) as (Eb & Ea & El).
  repeat apply conj; try (eexists; split; [reflexivity|]; repeat apply conj; reflexivity); [|done|done].
  eexists. split; [reflexivity|]. unfold seg_present, seg_dpl, seg_type. split; [reflexivity|]. split; [exact Eb|]. split; [exact El|]. split; reflexivity.
Qed.

End Gdt.

(** ** Interrupt gates *)

Module Idt.

Definition IDT_ENTRIES : nat := 256.

Record idt_entry := mk_idt_entry { base_low : Z; selector : Z; always0 : Z; flags : Z; base_high : Z }.
Definition sizeof_idt_entry : Z := 8.

Record tables := mk_tables { idt : list idt_entry; idtr : Z * Z }.

(** The assignments to the fields of [idt[num]]. *)
Definition gate (base selector flags : Z) : idt_entry :=
  mk_idt_entry (u16 (Z.land base 0xFFFF)) (u16 selector) 0 (u8 flags) (u16 (Z.land (Z.shiftr base 16) 0xFFFF)).

Definition idt_set_entry (num base selector flags : Z) : st tables unit := fun s =>
  if (0 <=? num) && (num <? Z.of_nat (length (idt s)))
  then Some (tt, mk_tables (<[Z.to_nat num := gate base selector flags]> (idt s)) (idtr s))
  else None.

Section Init.
(** Addresses of [idt] and of the stubs [isr0] .. [isr31], [irq0] .. [irq15] and
    [syscall_stub] (isr.s). *)
Context (idt_addr : Z) (isr irq : Z -> Z) (syscall_stub : Z).

Definition idt_flush (limit base : Z) : st tables unit := modify (fun s => mk_tables (idt s) (limit, base)).

Definition idt_init : st tables unit :=
  let ip_limit := u16 (sizeof_idt_entry * Z.of_nat IDT_ENTRIES - 1) in
  let ip_base := u32 idt_addr in
  for_st IDT_ENTRIES 0 (fun i => idt_set_entry i 0 0 0) ;;
  for_st 32 0 (fun i => idt_set_entry i (u32 (isr i)) 0x08 0x8E) ;;
  for_st 16 32 (fun i => idt_set_entry i (u32 (irq (i - 32))) 0x08 0x8E) ;;
  idt_set_entry 0x80 (u32 syscall_stub) 0x08 0xEE ;;
  idt_flush ip_limit ip_base.

End Init.

(** What the processor reads in a gate. *)
Definition gate_present (e : idt_entry) : bool := Z.testbit (flags e) 7.
Definition gate_dpl (e : idt_entry) : Z := (flags e / 32) mod 4.
Definition gate_type (e : idt_entry) : Z := flags e mod 32.
Definition gate_offset (e : idt_entry) : Z := base_low e + 65536 * base_high e.

(** [int v] at privilege level [cpl] goes through the gate. *)
Definition int_allowed (cpl : Z) (e : idt_entry) : bool := gate_present e && (cpl <=? gate_dpl e).

Lemma gate_offset_ok base sel fl : is_u32 base -> gate_offset (gate base sel fl) = base.
Proof.
  unfold is_u32, gate_offset, gate. intros Hb. cbn [base_low base_high]. change 0xFFFF with (Z.ones 16). rewrite !Z.land_ones, Z.shiftr_div_pow2 by lia.
  change (2 ^ 16) with 65536. unfold u16. zmod.
Qed.

Lemma in_range lo n v : lo <= v < lo + n -> (lo <=? v) && (v <? lo + n) = true.
Proof. intros. zspec; done || lia. Qed.

Lemma out_range lo n v : v < lo \/ lo + n <= v -> (lo <=? v) && (v <? lo + n) = false.
Proof. intros. zspec; done || lia. Qed.

(** A loop over consecutive vectors. *)
Lemma set_range (n : nat) lo f sel fl s : 0 <= lo -> lo + Z.of_nat n <= Z.of_nat (length (idt s)) ->
  exists s', for_st n lo (fun i => idt_set_entry i (f i) sel fl) s = Some (tt, s') /\ length (idt s') = length (idt s)
  /\ forall v, 0 <= v -> idt s' !! Z.to_nat v = if (lo <=? v) && (v <? lo + Z.of_nat n) then Some (gate (f v) sel fl) else idt s !! Z.to_nat v.
Proof.
  intros Hlo Hn. destruct (for_st_ind (fun i s' => length (idt s') = length (idt s)
    /\ forall v, 0 <= v -> idt s' !! Z.to_nat v = if (lo <=? v) && (v <? i) then Some (gate (f v) sel fl) else idt s !! Z.to_nat v)
    n lo (fun i => idt_set_entry i (f i) sel fl) s) as (s' & E & Hlen & Hv); [| |by exists s'].
  - split; [done|]. intros v Hv. zspec; simpl; done || lia.
  - intros i t Hi [Hlen Ht]. unfold idt_set_entry. destruct (Z.leb_spec 0 i), (Z.ltb_spec i (Z.of_nat (length (idt t)))); try lia. cbn [andb].
    eexists. split; [done|]. cbn [idt]. rewrite length_insert. split; [done|]. intros v Hv. destruct (decide (v = i)) as [->|Hne].
    + rewrite list_lookup_insert_eq by lia. zspec; simpl; done || lia.
    + rewrite list_lookup_insert_ne by lia. rewrite Ht by done. zspec; simpl; done || lia.
Qed.

Section Theorems.
Context (idt_addr : Z) (isr irq : Z -> Z) (syscall_stub : Z).

(** What stands behind a vector: its handler and the lowest privilege that may call it. *)
Definition expected (v : Z) : option (Z * Z) :=
  if v <? 32 then Some (u32 (isr v), 0)
  else if v <? 48 then Some (u32 (irq (v - 32)), 0)
  else if v =? 0x80 then Some (u32 syscall_stub, 3) else None.

Lemma idt_init_ok (s : tables) : length (idt s) = IDT_ENTRIES ->
  exists s', idt_init idt_addr isr irq syscall_stub s = Some (tt, s') /\ idtr s' = (8 * 256 - 1, u32 idt_addr)
  /\ forall v, 0 <= v < 256 -> exists e, idt s' !! Z.to_nat v = Some e
     /\ match expected v with
        | Some (addr, dpl) => gate_present e = true /\ gate_offset e = addr /\ selector e = 0x08 /\ gate_type e = 0xE /\ gate_dpl e = dpl
        | None => gate_present e = false
        end.
Proof.
  intros Hlen. unfold idt_init. unfold IDT_ENTRIES in *.
  destruct (set_range 256 0 (fun _ => 0) 0 0 s) as (s1 & E1 & L1 & V1); [lia|lia|]. rewrite (bind_ok _ _ _ _ _ E1).
  destruct (set_range 32 0 (fun i => u32 (isr i)) 0x08 0x8E s1) as (s2 & E2 & L2 & V2); [lia|lia|]. rewrite (bind_ok _ _ _ _ _ E2).
  destruct (set_range 16 32 (fun i => u32 (irq (i - 32))) 0x08 0x8E s2) as (s3 & E3 & L3 & V3); [lia|lia|]. rewrite (bind_ok _ _ _ _ _ E3).
  destruct (set_range 1 0x80 (fun _ => u32 syscall_stub) 0x08 0xEE s3) as (s4 & E4 & L4 & V4); [lia|lia|].
  assert (idt_set_entry 0x80 (u32 syscall_stub) 0x08 0xEE s3 = Some (tt, s4)) as E5.
  { cbn [for_st] in E4. unfold bind in E4. by destruct (idt_set_entry _ _ _ _ s3) as [[[] ?]|]. }
  rewrite (bind_ok _ _ _ _ _ E5). eexists. split; [reflexivity|]. split; [done|]. intros v Hv. cbn [idt]. rewrite V4, V3, V2, V1 by lia.
  assert (forall a, is_u32 (u32 a)) as Hu by (intros; apply u32_bound). unfold expected. change (Z.of_nat 256) with 256. change (Z.of_nat 32) with 32. change (Z.of_nat 16) with 16.
  destruct (Z.ltb_spec v 32); [|destruct (Z.ltb_spec v 48); [|destruct (Z.eqb_spec v 0x80)]].
  - rewrite (out_range 0x80), (out_range 32), in_range by lia. eexists. split; [done|]. by rewrite gate_offset_ok.
  - rewrite (out_range 0x80), in_range by lia. eexists. split; [done|]. by rewrite gate_offset_ok.
  - subst v. eexists. split; [reflexivity|]. by rewrite gate_offset_ok.
  - rewrite (out_range 0x80), (out_range 32), (out_range 0 32), in_range by lia. by eexists.
Qed.

(** After [idt_init] every exception and every interrupt line has an interrupt gate to
    its stub in the kernel's code segment, and software in ring 3 can enter the kernel
    through vector 0x80 only. *)
Theorem idt_init_correct (s : tables) : length (idt s) = IDT_ENTRIES ->
  exists s', idt_init idt_addr isr irq syscall_stub s = Some (tt, s') /\ idtr s' = (8 * 256 - 1, u32 idt_addr)
  /\ (forall v, 0 <= v < 48 -> exists e, idt s' !! Z.to_nat v = Some e /\ gate_present e = true /\ selector e = 0x08 /\ gate_type e = 0xE
        /\ gate_offset e = u32 (if v <? 32 then isr v else irq (v - 32)))
  /\ (forall v e, 0 <= v < 256 -> idt s' !! Z.to_nat v = Some e ->
        int_allowed 3 e = (v =? 0x80) /\ (v = 0x80 -> gate_offset e = u32 syscall_stub)).
Proof.
  intros Hlen. destruct (idt_init_ok s Hlen) as (s' & E & Hr & Hv). exists s'. do 2 (split; [done|]). split.
  - intros v Hb. destruct (Hv v ltac:(lia)) as (e & He & Hx). exists e. split; [done|]. unfold expected in Hx.
    destruct (Z.ltb_spec v 32); [|destruct (Z.ltb_spec v 48); [|lia]]; destruct Hx as (? & ? & ? & ? & ?); done.
  - intros v e Hb He. destruct (Hv v Hb) as (e' & He' & Hx). rewrite He in He'. injection He' as <-. unfold int_allowed. unfold expected in Hx.
    destruct (Z.ltb_spec v 32); [|destruct (Z.ltb_spec v 48); [|destruct (Z.eqb_spec v 0x80)]]; [destruct Hx as (-> & ? & ? & ? & ->)..|rewrite Hx]; (split; [zspec; done || lia|lia || done]).
Qed.

End Theorems.

Lemma idt_init_correct_witness :
  exists s', idt_init 0xC0103000 (fun v => 0xC0100000 + 16 * v) (fun v => 0xC0100400 + 16 * v) 0xC0100800
    (mk_tables (repeat (mk_idt_entry 0 0 0 0 0) 256) (0, 0)) = Some (tt, s')
  /\ exists e, idt s' !! 33%nat = Some e /\ gate_offset e = 0xC0100410.
Proof.
  destruct (idt_init_correct 0xC0103000 (fun v => 0xC0100000 + 16 * v) (fun v => 0xC0100400 + 16 * v) 0xC0100800
    (mk_tables (repeat (mk_idt_entry 0 0 0 0 0) 256) (0, 0))) as (s' & E & _ & H & _); [reflexivity|].
  exists s'. split; [exact E|]. destruct (H 33 ltac:(lia)) as (e & He & _ & _ & _ & Ho). exists e. split; [exact He|exact Ho].
Defined.

End Idt.

(** ** Interrupt controllers *)

Module Pic.

Definition PIC1_COMMAND : Z := 0x20.
Definition PIC1_DATA : Z := 0x21.
Definition PIC2_COMMAND : Z := 0xA0.
Definition PIC2_DATA : Z := 0xA1.
Definition PIC_EOI : Z := 0x20.

Section Driver.
Context {P : Type} `{PO : Ports P}.

Definition io_wait : st P unit := outb 0x80 0.

Definition pic_send_eoi (irq : Z) : st P unit :=
  (if 8 <=? irq then outb PIC2_COMMAND PIC_EOI else ret tt) ;;
  outb PIC1_COMMAND PIC_EOI.

Definition pic_remap : st P unit :=
  let* mask1 := inb PIC1_DATA in
  let* mask2 := inb PIC2_DATA in
  outb PIC1_COMMAND 0x11 ;; io_wait ;;
  outb PIC2_COMMAND 0x11 ;; io_wait ;;
  outb PIC1_DATA 0x20 ;; io_wait ;;
  outb PIC2_DATA 0x28 ;; io_wait ;;
  outb PIC1_DATA 0x04 ;; io_wait ;;
  outb PIC2_DATA 0x02 ;; io_wait ;;
  outb PIC1_DATA 0x01 ;; io_wait ;;
  outb PIC2_DATA 0x01 ;; io_wait ;;
  outb PIC1_DATA mask1 ;;
  outb PIC2_DATA mask2.

End Driver.

(** The 8259A as its data sheet describes it: vector base, mask, wiring, the lines being
    served, and the initialisation word it expects next. *)
Inductive stage := Ready | Word2 | Word3 | Word4.
Record chip := mk_chip { c_base : Z; c_mask : Z; c_link : Z; c_serving : Z -> bool; c_stage : stage }.

(** A non-specific end of interrupt clears the line of the highest priority. *)
Definition end_of_interrupt (c : chip) : chip :=
  match find_from (c_serving c) 0 8 with
  | Some n => mk_chip (c_base c) (c_mask c) (c_link c) ((c_serving c).[n <- false]) (c_stage c)
  | None => c
  end.

Definition chip_command (v : Z) (c : chip) : chip :=
  if Z.testbit v 4 then mk_chip (c_base c) 0 (c_link c) (fun _ => false) Word2
  else if v =? PIC_EOI then end_of_interrupt c else c.

Definition chip_data (v : Z) (c : chip) : chip :=
  match c_stage c with
  | Ready => mk_chip (c_base c) v (c_link c) (c_serving c) Ready
  | Word2 => mk_chip (v / 8 * 8) (c_mask c) (c_link c) (c_serving c) Word3
  | Word3 => mk_chip (c_base c) (c_mask c) v (c_serving c) Word4
  | Word4 => mk_chip (c_base c) (c_mask c) (c_link c) (c_serving c) Ready
  end.

(** A machine with a master and a slave behind the ports. *)
Class PicPair (P : Type) `{PO : Ports P} := {
  pc_view : P -> chip * chip;
  pc_command1 : forall p v, pc_view (port_outb PIC1_COMMAND v p) = (chip_command v (pc_view p).1, (pc_view p).2);
  pc_command2 : forall p v, pc_view (port_outb PIC2_COMMAND v p) = ((pc_view p).1, chip_command v (pc_view p).2);
  pc_data1 : forall p v, pc_view (port_outb PIC1_DATA v p) = (chip_data v (pc_view p).1, (pc_view p).2);
  pc_data2 : forall p v, pc_view (port_outb PIC2_DATA v p) = ((pc_view p).1, chip_data v (pc_view p).2);
  pc_other : forall p port v, port ∉ [PIC1_COMMAND; PIC1_DATA; PIC2_COMMAND; PIC2_DATA] -> pc_view (port_outb port v p) = pc_view p;
  pc_mask1 : forall p, c_stage (pc_view p).1 = Ready ->
    let '(v, p') := port_inb PIC1_DATA p in v = c_mask (pc_view p).1 /\ pc_view p' = pc_view p;
  pc_mask2 : forall p, c_stage (pc_view p).2 = Ready ->
    let '(v, p') := port_inb PIC2_DATA p in v = c_mask (pc_view p).2 /\ pc_view p' = pc_view p }.

(** Line [n] (0..15) raised and acknowledged by the processor: its vector, and the chips. *)
Definition vector (n : Z) (c : chip * chip) : Z := if n <? 8 then c_base c.1 + n else c_base c.2 + (n - 8).
Definition serve (n : Z) (c : chip) : chip := mk_chip (c_base c) (c_mask c) (c_link c) ((c_serving c).[n <- true]) (c_stage c).
Definition acknowledge (n : Z) (c : chip * chip) : chip * chip :=
  if n <? 8 then (serve n c.1, c.2) else (serve 2 c.1, serve (n - 8) c.2).

Definition quiet (c : chip) : Prop := forall n, 0 <= n < 8 -> c_serving c n = false.

Section Theorems.
Context {P : Type} `{PP : PicPair P}.

(** A port write seen by the controllers. *)
Lemma outb_view (p : P) port v : exists p', outb port v p = Some (tt, p') /\ p' = port_outb port (u8 v) p.
Proof. eexists. split; reflexivity. Qed.

Lemma pc_delay (p : P) v : pc_view (port_outb 0x80 v p) = pc_view p.
Proof. apply pc_other. set_solver. Qed.

Lemma remap_ok (p : P) : c_stage (pc_view p).1 = Ready -> c_stage (pc_view p).2 = Ready ->
  is_byte (c_mask (pc_view p).1) -> is_byte (c_mask (pc_view p).2) ->
  exists p', pic_remap p = Some (tt, p')
  /\ pc_view p' = (mk_chip 0x20 (c_mask (pc_view p).1) 4 (fun _ => false) Ready, mk_chip 0x28 (c_mask (pc_view p).2) 2 (fun _ => false) Ready).
Proof.
  intros R1 R2 M1 M2. unfold pic_remap, inb. pose proof (pc_mask1 p R1) as H1. destruct (port_inb PIC1_DATA p) as [m1 p1] eqn:E1. destruct H1 as [-> V1].
  erewrite bind_ok by (by rewrite E1). pose proof (pc_mask2 p1) as H2. rewrite V1 in H2. specialize (H2 R2).
  destruct (port_inb PIC2_DATA p1) as [m2 p2] eqn:E2. destruct H2 as [-> V2]. erewrite bind_ok by (by rewrite E2).
  unfold io_wait, outb. do 17 (erewrite bind_ok by reflexivity). eexists. split; [reflexivity|].
  rewrite !(u8_small (u8 _)) by apply u8_bound. rewrite !(u8_small (c_mask _)) by done.
  rewrite pc_data2, pc_data1. rewrite !pc_delay, !pc_data2, !pc_delay, !pc_data1, !pc_delay, !pc_data2, !pc_delay, !pc_data1, !pc_delay,
    !pc_data2, !pc_delay, !pc_data1, !pc_delay, !pc_command2, !pc_delay, !pc_command1. reflexivity.
Qed.

Lemma eoi_serve n c : 0 <= n < 8 -> quiet c -> c_stage c = Ready ->
  let c' := chip_command PIC_EOI (serve n c) in c_base c' = c_base c /\ c_mask c' = c_mask c /\ quiet c' /\ c_stage c' = Ready.
Proof.
  intros Hn Hq Hs c'. assert (find_from (c_serving (serve n c)) 0 8 = Some n) as E.
  { cbn [serve c_serving]. unfold upd. assert (n ∈ seqZ 0 8) as Hin by (apply elem_of_seqZ; lia). vm_compute in Hin.
    repeat (apply elem_of_cons in Hin as [->|Hin]); [..|by apply not_elem_of_nil in Hin]; cbn; rewrite ?Hq by lia; reflexivity. }
  unfold c', chip_command, PIC_EOI. change (Z.testbit 0x20 4) with false. change (0x20 =? 0x20) with true. cbv iota.
  unfold end_of_interrupt. rewrite E. cbn. split; [done|]. split; [done|]. split; [|done]. intros k Hk. cbn. unfold upd. destruct (Z.eqb_spec k n); [done|].
  cbn. by apply Hq.
Qed.

Lemma eoi_ok n (p : P) (c : chip * chip) : 0 <= n < 16 -> pc_view p = acknowledge n c -> quiet c.1 -> quiet c.2 -> c_stage c.1 = Ready -> c_stage c.2 = Ready ->
  exists p', pic_send_eoi n p = Some (tt, p') /\ quiet (pc_view p').1 /\ quiet (pc_view p').2.
Proof.
  intros Hn Hv Q1 Q2 S1 S2. unfold pic_send_eoi, acknowledge in *. destruct (Z.leb_spec 8 n), (Z.ltb_spec n 8); try lia; unfold outb.
  - do 1 (erewrite bind_ok by reflexivity). eexists. split; [reflexivity|]. rewrite pc_command1, pc_command2, Hv.
    destruct (eoi_serve 2 c.1) as (_ & _ & ? & _); [lia|done..|]. destruct (eoi_serve (n - 8) c.2) as (_ & _ & ? & _); [lia|done..|]. done.
  - erewrite bind_ok by reflexivity. eexists. split; [reflexivity|]. rewrite pc_command1, Hv.
    destruct (eoi_serve n c.1) as (_ & _ & ? & _); [lia|done..|]. done.
Qed.

End Theorems.

End Pic.

(** ** Interrupt dispatch *)

Module Irq.

Import Pic.

Section Dispatch.
Context {P H : Type} `{PO : Ports P}.

(** [irq_handlers], and the machine. *)
Definition lines : Type := list (option H) * P.

(** Running a handler. *)
Context (run : H -> st lines unit).

Definition on_ports {A} (m : st P A) : st lines A := fun s =>
  match m s.2 with Some (x, p) => Some (x, (s.1, p)) | None => None end.

Definition irq_register (irq : Z) (handler : H) : st lines unit := fun s =>
  if (0 <=? irq) && (irq <? Z.of_nat (length s.1)) then Some (tt, (<[Z.to_nat irq := Some handler]> s.1, s.2)) else None.

Definition irq_handler (int_no : Z) : st lines unit :=
  let irq := s32 (int_no - 32) in
  on_ports (pic_send_eoi (u8 irq)) ;;
  let* h := (fun s => if (0 <=? irq) && (irq <? Z.of_nat (length s.1)) then Some (s.1 !! Z.to_nat irq, s) else None) in
  match h with
  | Some (Some f) => run f
  | _ => ret tt
  end.

End Dispatch.

Lemma handler_ok {P H} `{PP : PicPair P} (run : H -> st (lines (P := P) (H := H)) unit) n tbl (q : P) c :
  0 <= n < 16 -> length tbl = 16%nat -> pc_view q = acknowledge n c -> quiet c.1 -> quiet c.2 -> c_stage c.1 = Ready -> c_stage c.2 = Ready ->
  exists q', quiet (pc_view q').1 /\ quiet (pc_view q').2
  /\ irq_handler run (32 + n) (tbl, q) = match tbl !! Z.to_nat n with Some (Some h) => run h (tbl, q') | _ => Some (tt, (tbl, q')) end.
Proof.
  intros Hn Hlen Hv Q1 Q2 S1 S2. destruct (eoi_ok n q c Hn Hv Q1 Q2 S1 S2) as (q' & E & H1 & H2). exists q'. split; [done|]. split; [done|].
  unfold irq_handler. replace (32 + n - 32) with n by lia. rewrite s32_small, u8_small by (unfold is_byte; lia).
  erewrite bind_ok; [|unfold on_ports; cbn [snd]; by rewrite E]. cbn [fst].
  erewrite bind_ok; [|cbn [fst]; rewrite Hlen; destruct (Z.leb_spec 0 n), (Z.ltb_spec n (Z.of_nat 16)); try lia; reflexivity].
  by destruct (tbl !! Z.to_nat n) as [[h|]|].
Qed.

Section Theorems.
Context {P H : Type} `{PP : PicPair P} (run : H -> st (lines (P := P) (H := H)) unit).
Context (idt_addr : Z) (isr irq : Z -> Z) (syscall_stub : Z).

(** C17: After [pic_remap] and [idt_init] the interrupt line [n] arrives at the stub
    [irq<n>], and [irq_handler], given the number that stub pushes, runs the
    handler registered for [n]; at that time both controllers have been told
    the end of the interrupt, so a handler that switches to another process blocks no line. *)
Theorem interrupt_routing (p : P) (s : Idt.tables) :
  c_stage (pc_view p).1 = Ready -> c_stage (pc_view p).2 = Ready ->
  is_byte (c_mask (pc_view p).1) -> is_byte (c_mask (pc_view p).2) -> length (Idt.idt s) = Idt.IDT_ENTRIES ->
  exists p' s', pic_remap p = Some (tt, p') /\ Idt.idt_init idt_addr isr irq syscall_stub s = Some (tt, s')
  /\ c_mask (pc_view p').1 = c_mask (pc_view p).1 /\ c_mask (pc_view p').2 = c_mask (pc_view p).2
  /\ forall n, 0 <= n < 16 ->
     let v := vector n (pc_view p') in
     v = 32 + n
     /\ (exists e, Idt.idt s' !! Z.to_nat v = Some e /\ Idt.gate_present e = true /\ Idt.gate_offset e = u32 (irq n))
     /\ forall tbl q, pc_view q = acknowledge n (pc_view p') -> length tbl = 16%nat ->
          exists q', quiet (pc_view q').1 /\ quiet (pc_view q').2
          /\ irq_handler run v (tbl, q) = match tbl !! Z.to_nat n with Some (Some h) => run h (tbl, q') | _ => Some (tt, (tbl, q')) end.
Proof.
  intros R1 R2 M1 M2 Hlen. destruct (remap_ok p R1 R2 M1 M2) as (p' & E & V).
  destruct (Idt.idt_init_ok idt_addr isr irq syscall_stub s Hlen) as (s' & E' & _ & Hg). exists p', s'. rewrite V. do 4 (split; [done|]).
  intros n Hn v. assert (v = 32 + n) as -> by (unfold v, vector; cbn; zcase; lia). split; [done|]. split.
  - destruct (Hg (32 + n) ltac:(lia)) as (e & He & Hx). unfold Idt.expected in Hx. destruct (Z.ltb_spec (32 + n) 32), (Z.ltb_spec (32 + n) 48); try lia.
    replace (32 + n - 32) with n in Hx by lia. exists e. destruct Hx as (? & ? & _). done.
  - intros tbl q Hq Hl. by eapply handler_ok.
Qed.

End Theorems.

(** ** Two controllers in memory *)

Module Demo.

Definition pair : Type := chip * chip.

#[export] Instance pair_ports : Ports pair := {
  port_inb port p := (if port =? PIC1_DATA then c_mask p.1 else if port =? PIC2_DATA then c_mask p.2 else 0, p);
  port_outb port v p :=
    if port =? PIC1_COMMAND then (chip_command v p.1, p.2) else if port =? PIC2_COMMAND then (p.1, chip_command v p.2)
    else if port =? PIC1_DATA then (chip_data v p.1, p.2) else if port =? PIC2_DATA then (p.1, chip_data v p.2) else p;
  port_inw port p := (0, p);
  port_outw port v p := p }.

#[export] Program Instance pair_pics : PicPair pair := { pc_view p := p }.
Solve All Obligations with try done.
Next Obligation.
  intros p port v H. unfold port_outb, pair_ports. rewrite !not_elem_of_cons in H. destruct H as (H1 & H2 & H3 & H4 & _).
  by rewrite !(proj2 (Z.eqb_neq _ _)).
Qed.

Definition bios : pair := (mk_chip 8 0xB8 4 (fun _ => false) Ready, mk_chip 0x70 0x8E 2 (fun _ => false) Ready).

End Demo.

Import Demo.

Lemma interrupt_routing_witness :
  let s := Idt.mk_tables (repeat (Idt.mk_idt_entry 0 0 0 0 0) 256) (0, 0) in
  exists p' s', pic_remap Demo.bios = Some (tt, p') /\ Idt.idt_init 0 (fun v => v) (fun v => 1000 + v) 500 s = Some (tt, s')
  /\ vector 12 (pc_view p') = 44 /\ exists e, Idt.idt s' !! 44%nat = Some e /\ Idt.gate_offset e = 1012.
Proof.
  intros s. destruct (interrupt_routing (fun (_ : unit) => ret tt) 0 (fun v => v) (fun v => 1000 + v) 500 Demo.bios s) as (p' & s' & E & E' & _ & _ & Hr);
    [reflexivity|reflexivity|vm_compute; split; congruence|vm_compute; split; congruence|reflexivity|].
  exists p', s'. split; [exact E|]. split; [exact E'|]. destruct (Hr 12 ltac:(lia)) as (Hv & (e & He & _ & Ho) & _). rewrite Hv in He.
  split; [exact Hv|]. exists e. split; [exact He|exact Ho].
Defined.

End Irq.

(** ** The floating-point unit *)

Module Fpu.

(** Copying a list element by element. *)
Lemma copy_list (l : list Z) (k : nat) : length l = k -> map (fun i => nth i l 0) (seq 0 k) = l.
Proof.
  intros <-. induction l as [|x l IH]; [done|]. cbn [length seq map nth]. f_equal. rewrite <- seq_shift, map_map. exact IH.
Qed.

Section Fpu.
(** The registers of the unit: their state after [fninit], the image [fsave] stores
    and what [frstor] loads from one. *)
Context {F : Type} (fresh : F) (image : F -> list Z) (load : list Z -> F).

Definition FPU_STATE_SIZE : nat := 108.

Record fpu := mk_fpu { cr0 : Z; regs : F; default_state : list Z }.

Definition fninit : st fpu unit := modify (fun s => mk_fpu (cr0 s) fresh (default_state s)).
(** [fsave] stores the registers and initialises the unit. *)
Definition fsave : st fpu (list Z) := fun s => Some (image (regs s), mk_fpu (cr0 s) fresh (default_state s)).

Definition fpu_init : st fpu unit :=
  let* c := gets cr0 in
  let c := Z.land c (Z.lnot (Z.shiftl 1 2)) in
  let c := Z.lor c (Z.shiftl 1 1) in
  let c := Z.lor c (Z.shiftl 1 5) in
  modify (fun s => mk_fpu c (regs s) (default_state s)) ;;
  fninit ;;
  let* im := fsave in
  modify (fun s => mk_fpu (cr0 s) (regs s) im) ;;
  fninit.

(** The copy loop of [fpu_seed_default]. *)
Definition fpu_seed_default : st fpu (list Z) := fun s =>
  Some (map (fun i => nth i (default_state s) 0) (seq 0 FPU_STATE_SIZE), s).

Definition fpu_save : st fpu (list Z) := fsave.
Definition fpu_restore (state : list Z) : st fpu unit := modify (fun s => mk_fpu (cr0 s) (load state) (default_state s)).

Context (Hsize : forall f, length (image f) = FPU_STATE_SIZE) (Hload : forall f, load (image f) = f).

(** After [fpu_init] floating-point instructions run (EM is clear, MP and NE are set, the
    other bits of CR0 are as before), and a process whose save area was filled by
    [fpu_seed_default] starts, when [fpu_restore] loads it, with a unit as after [fninit]. *)
Theorem fpu_init_correct (s : fpu) : 0 <= cr0 s ->
  exists s', fpu_init s = Some (tt, s')
  /\ (forall i, 0 <= i -> Z.testbit (cr0 s') i = if i =? 2 then false else if (i =? 1) || (i =? 5) then true else Z.testbit (cr0 s) i)
  /\ forall s1 : fpu, default_state s1 = default_state s' -> exists st' s2, fpu_seed_default s1 = Some (st', s1)
     /\ length st' = FPU_STATE_SIZE /\ fpu_restore st' s1 = Some (tt, s2) /\ regs s2 = fresh.
Proof.
  intros H0. eexists. split; [unfold fpu_init; erewrite bind_ok by reflexivity; cbv zeta; do 4 (erewrite bind_ok by reflexivity); reflexivity|]. split.
  - intros i Hi. cbn [cr0]. rewrite !Z.lor_spec, Z.land_spec, Z.lnot_spec, !Z.shiftl_1_l, !Z.pow2_bits_eqb by lia.
    zspec; subst; simpl; try lia; rewrite ?andb_true_r, ?orb_true_r, ?orb_false_r, ?andb_false_r; done.
  - intros s1 Hs1. eexists _, _. split; [reflexivity|]. split; [by rewrite length_map, length_seq|]. split; [reflexivity|]. cbn [regs]. rewrite Hs1. cbn [default_state].
    transitivity (load (image fresh)); [|apply Hload]. f_equal. by apply copy_list.
Qed.

End Fpu.

Lemma fpu_init_correct_witness :
  exists s', fpu_init 5 (fun z => z :: repeat 0 107) (mk_fpu 0x11 7 []) = Some (tt, s') /\ Z.testbit (cr0 s') 2 = false /\ Z.testbit (cr0 s') 5 = true.
Proof.
  destruct (fpu_init_correct 5 (fun z => z :: repeat 0 107) (fun l => nth 0 l 0)) with (s := mk_fpu 0x11 7 ([] : list Z)) as (s' & E & Hb & _);
    [reflexivity|reflexivity|vm_compute; congruence|].
  exists s'. split; [exact E|]. rewrite !Hb by lia. split; reflexivity.
Defined.

End Fpu.

(** ** Entering ring 3 *)

Module User.

Import Gdt.

Definition USER_CODE_SEG : Z := 0x1B.
Definition USER_DATA_SEG : Z := 0x23.

(** What [iret] pops, and the selector loaded into DS, ES, FS and GS before it. *)
Record iret_frame := mk_frame { f_eip : Z; f_cs : Z; f_eflags : Z; f_esp : Z; f_ss : Z; f_ds : Z }.

(** [jump_to_usermode] with the kernel's stack pointer and flags at the time: the frame it
    hands to [iret]. *)
Definition jump_to_usermode (eip esp kernel_esp eflags : Z) : st cpu iret_frame :=
  tss_set_kernel_stack kernel_esp ;;
  ret (mk_frame eip USER_CODE_SEG (Z.lor eflags 0x200) esp USER_DATA_SEG USER_DATA_SEG).

(** The processor's checks when [iret] goes to an outer ring: the code selector asks for
    the ring of a present code segment, the stack selector for a writable data segment of
    the same ring; and the data selectors name such a segment. *)
Definition enters (s : cpu) (f : iret_frame) (ring : Z) : Prop :=
  f_cs f mod 4 = ring /\ f_ss f mod 4 = ring
  /\ segment s (f_cs f) 0 0xFFFFFFFF ring 0x1A /\ segment s (f_ss f) 0 0xFFFFFFFF ring 0x12 /\ segment s (f_ds f) 0 0xFFFFFFFF ring 0x12.

(** C31: On the tables of [gdt_init], [jump_to_usermode] hands [iret] a frame that passes the
    processor's checks for ring 3, with interrupts enabled and the program's entry
    and stack, and the task state names the kernel stack for the way back. *)
Theorem jump_to_usermode_correct (gdt_addr tss_addr eip esp kernel_esp eflags : Z) (s : cpu) :
  length (gdt s) = GDT_ENTRIES -> is_u32 tss_addr ->
  exists s1 s2 f, gdt_init gdt_addr tss_addr s = Some (tt, s1) /\ jump_to_usermode eip esp kernel_esp eflags s1 = Some (f, s2)
  /\ enters s2 f 3 /\ Z.testbit (f_eflags f) 9 = true /\ f_eip f = eip /\ f_esp f = esp
  /\ segment s2 (tr s2) tss_addr 103 0 9 /\ esp0 (tss s2) = kernel_esp /\ segment s2 (ss0 (tss s2)) 0 0xFFFFFFFF 0 0x12.
Proof.
  intros Hlen Ht. destruct (gdt_init_ok gdt_addr tss_addr s Hlen Ht) as (s1 & E & _ & _ & H10 & H1B & H23 & Htr & Hss & _).
  eexists s1, _, _. split; [exact E|]. split; [reflexivity|]. split; [done|]. split; [|by rewrite <- Hss in H10].
  cbn [f_eflags]. by rewrite Z.lor_spec, orb_true_r.
Qed.

Lemma jump_to_usermode_correct_witness :
  exists s1 s2 f, gdt_init 0xC0101000 0xC0102000 (mk_cpu (repeat (mk_gdt_entry 0 0 0 0 0 0) 6) (mk_tss 0 0 0) (0, 0) 0) = Some (tt, s1)
  /\ jump_to_usermode 0x08048000 0xBFFFFFF0 0xC0200000 2 s1 = Some (f, s2) /\ enters s2 f 3.
Proof.
  destruct (jump_to_usermode_correct 0xC0101000 0xC0102000 0x08048000 0xBFFFFFF0 0xC0200000 2
    (mk_cpu (repeat (mk_gdt_entry 0 0 0 0 0 0) 6) (mk_tss 0 0 0) (0, 0) 0)) as (s1 & s2 & f & E1 & E2 & H & _);
    [reflexivity|vm_compute; split; congruence|]. exists s1, s2, f. split; [exact E1|]. split; [exact E2|exact H].
Defined.

End User.
