(* ===== verification/GordonArt.v ===== *)
(** * The mascot

    The bitmap of [src/display/gordon_art.h]: 198 rows of 16 bytes, one bit per pixel, the
    leftmost pixel of a byte in its highest bit. *)

From S2P Require Import Prelude.

Module GordonArt.

Definition GORDON_W : Z := 122.
Definition GORDON_H : Z := 198.
Definition GORDON_STRIDE : Z := 16.

Definition gordon_bitmap : list Z :=
  [0x00; 0x00; 0x00; 0x00; 0x00; 0x00; 0x00; 0x1F; 0xF8; 0x00; 0x00; 0x00;
   0x00; 0x00; 0x00; 0x00; 0x00; 0x00; 0x00; 0x00; 0x00; 0x00; 0x00; 0xFF;
   0xFF; 0x80; 0x00; 0x00; 0x00; 0x00; 0x00; 0x00; 0x00; 0x00; 0x00; 0x00;
   0x00; 0x00; 0x07; 0xE0; 0x3F; 0xE0; 0x00; 0x00; 0x00; 0x00; 0x00; 0x00;
   0x00; 0x00; 0x00; 0x00; 0x00; 0x00; 0x0F; 0x80; 0x1F; 0xF8; 0x00; 0x00;
   0x00; 0x00; 0x00; 0x00; 0x00; 0x00; 0x00; 0x00; 0x00; 0x00; 0x3F; 0x00;
   0x3F; 0xFC; 0x00; 0x00; 0x00; 0x00; 0x00; 0x00; 0x00; 0x00; 0x00; 0x00;
   0x00; 0x00; 0x7C; 0x03; 0xFF; 0xFE; 0x00; 0x00; 0x00; 0x00; 0x00; 0x00;
   0x00; 0x00; 0x00; 0x00; 0x00; 0x00; 0xFF; 0xEF; 0xE0; 0x3B; 0x00; 0x00;
   0x00; 0x00; 0x00; 0x00; 0x00; 0x00; 0x00; 0x00; 0x00; 0x01; 0xFF; 0xFF;
   0x00; 0x7E; 0x00; 0x00; 0x00; 0x00; 0x00; 0x00; 0x00; 0x00; 0x00; 0x00;
   0x00; 0x03; 0xFF; 0xFF; 0x80; 0xFB; 0x00; 0x00; 0x00; 0x00; 0x00; 0x00;
   0x00; 0x00; 0x00; 0x00; 0x00; 0x07; 0xFC; 0x3F; 0xC1; 0xFF; 0x80; 0x00;
   0x00; 0x00; 0x00; 0x00; 0x00; 0x00; 0x00; 0x00; 0x00; 0x07; 0xFC; 0x3F;
   0xE1; 0xA0; 0x80; 0x00; 0x00; 0x00; 0x00; 0x00; 0x00; 0x00; 0x00; 0x00;
   0x00; 0x07; 0x7C; 0x78; 0x33; 0x18; 0xC0; 0x00; 0x00; 0x00; 0x00; 0x00;
   0x00; 0x00; 0x00; 0x00; 0x00; 0x0F; 0x7E; 0xC8; 0x1F; 0x18; 0xF8; 0x00;
   0x00; 0x00; 0x00; 0x00; 0x00; 0x00; 0x00; 0x00; 0x00; 0x0F; 0x7F; 0xCC;
   0x11; 0x08; 0xFE; 0x00; 0x00; 0x00; 0x00; 0x00; 0x00; 0x00; 0x00; 0x00;
   0x00; 0x1F; 0x7E; 0xCC; 0x11; 0xF8; 0x81; 0x80; 0x00; 0x00; 0x00; 0x00;
   0x00; 0x00; 0x00; 0x00; 0x00; 0x1F; 0x00; 0xC0; 0x13; 0x8D; 0x80; 0x40;
   0x00; 0x00; 0x00; 0x00; 0x00; 0x00; 0x00; 0x00; 0x00; 0x3C; 0x00; 0xE0;
   0x30; 0x03; 0x03; 0x30; 0x00; 0x00; 0x00; 0x00; 0x00; 0x00; 0x00; 0x00;
   0x00; 0x38; 0x00; 0x60; 0x60; 0x03; 0x00; 0x90; 0x00; 0x00; 0x00; 0x00;
   0x00; 0x00; 0x00; 0x00; 0x00; 0x78; 0x00; 0x38; 0xC0; 0x03; 0x00; 0xD0;
   0x00; 0x00; 0x00; 0x00; 0x00; 0x00; 0x00; 0x00; 0x00; 0x58; 0x00; 0x0F;
   0x00; 0x03; 0x00; 0x48; 0x00; 0x00; 0x00; 0x00; 0x00; 0x00; 0x00; 0x00;
   0x00; 0xD8; 0x00; 0x00; 0x06; 0x06; 0x00; 0x28; 0x00; 0x00; 0x00; 0x00;
   0x00; 0x00; 0x00; 0x00; 0x00; 0xD0; 0x00; 0x70; 0x07; 0xFC; 0x00; 0x2C;
   0x00; 0x00; 0x00; 0x00; 0x00; 0x00; 0x00; 0x00; 0x00; 0x90; 0x00; 0x70;
   0x01; 0xF8; 0x00; 0x14; 0x00; 0x00; 0x00; 0x00; 0x00; 0x00; 0x00; 0x00;
   0x00; 0xB0; 0x00; 0x18; 0x00; 0x03; 0x80; 0x04; 0x00; 0x00; 0x00; 0x00;
   0x00; 0x00; 0x00; 0x00; 0x01; 0xF0; 0x00; 0x0E; 0x00; 0x01; 0x80; 0x04;
   0x00; 0x00; 0x00; 0x00; 0x00; 0x00; 0x00; 0x00; 0x01; 0x60; 0x00; 0x01;
   0xF0; 0x1F; 0x00; 0x06; 0x00; 0x00; 0x00; 0x00; 0x00; 0x00; 0x00; 0x00;
   0x01; 0x60; 0x00; 0x00; 0x1F; 0xF1; 0x80; 0x02; 0x00; 0x00; 0x00; 0x00;
   0x00; 0x00; 0x00; 0x00; 0x01; 0x20; 0x00; 0x00; 0x00; 0x00; 0x60; 0x06;
   0x00; 0x00; 0x00; 0x00; 0x00; 0x00; 0x00; 0x00; 0x01; 0xE0; 0x00; 0x00;
   0x00; 0x00; 0x30; 0x06; 0x00; 0x00; 0x00; 0x00; 0x00; 0x00; 0x00; 0x00;
   0x03; 0xE0; 0x00; 0x00; 0x00; 0x00; 0x30; 0x06; 0x00; 0x00; 0x00; 0x00;
   0x00; 0x00; 0x00; 0x00; 0x02; 0xE0; 0x00; 0x00; 0x00; 0x00; 0xE0; 0x06;
   0x00; 0x00; 0x00; 0x00; 0x00; 0x00; 0x00; 0x00; 0x02; 0x40; 0x00; 0x00;
   0x00; 0x00; 0xC0; 0x02; 0x00; 0x00; 0x00; 0x00; 0x00; 0x00; 0x00; 0x00;
   0x02; 0x40; 0x00; 0x00; 0x00; 0x07; 0x80; 0x07; 0x00; 0x00; 0x00; 0x00;
   0x00; 0x00; 0x00; 0x00; 0x02; 0x40; 0x00; 0x00; 0x00; 0x06; 0x00; 0x01;
   0x00; 0x00; 0x00; 0x00; 0x00; 0x00; 0x00; 0x00; 0x02; 0x40; 0x00; 0x00;
   0x00; 0x0C; 0x00; 0x01; 0x00; 0x00; 0x00; 0x00; 0x00; 0x00; 0x00; 0x00;
   0x02; 0x40; 0x00; 0x00; 0x00; 0x0C; 0x00; 0x01; 0x00; 0x00; 0x00; 0x00;
   0x00; 0x00; 0x00; 0x00; 0x02; 0xC0; 0x00; 0x00; 0x00; 0x07; 0x00; 0x01;
   0x00; 0x00; 0x00; 0x00; 0x00; 0x00; 0x00; 0x00; 0x02; 0xC0; 0x00; 0x00;
   0x00; 0x00; 0xC0; 0x01; 0x00; 0x00; 0x00; 0x00; 0x00; 0x00; 0x00; 0x00;
   0x03; 0xC0; 0x00; 0x00; 0x00; 0x00; 0x60; 0x05; 0x00; 0x00; 0x00; 0x00;
   0x00; 0x00; 0x00; 0x00; 0x03; 0xC0; 0x00; 0x00; 0x00; 0x00; 0x60; 0x01;
   0x00; 0x00; 0x00; 0x00; 0x00; 0x00; 0x00; 0x00; 0x03; 0xC0; 0x00; 0x06;
   0x00; 0x00; 0x30; 0x03; 0x00; 0x00; 0x00; 0x00; 0x00; 0x00; 0x00; 0x00;
   0x03; 0xC0; 0x00; 0x0E; 0x00; 0x00; 0x30; 0x03; 0x00; 0x00; 0x00; 0x00;
   0x00; 0x00; 0x00; 0x00; 0x03; 0xC0; 0x00; 0x0E; 0x00; 0x00; 0x10; 0x03;
   0x00; 0x00; 0x00; 0x00; 0x00; 0x00; 0x00; 0x00; 0x03; 0xC0; 0x00; 0x0E;
   0x00; 0x00; 0x30; 0x03; 0x00; 0x00; 0x00; 0x00; 0x00; 0x00; 0x00; 0x00;
   0x07; 0xC0; 0x00; 0x0E; 0x00; 0xC0; 0x30; 0x03; 0x00; 0x00; 0x00; 0x00;
   0x00; 0x00; 0x00; 0x00; 0x06; 0xC0; 0x00; 0x07; 0x00; 0xC0; 0x60; 0x03;
   0x00; 0x00; 0x00; 0x00; 0x00; 0x00; 0x00; 0x00; 0x0F; 0xC0; 0x00; 0x06;
   0x01; 0xC8; 0xE0; 0x03; 0x00; 0x00; 0x00; 0x00; 0x00; 0x00; 0x00; 0x00;
   0x1E; 0xC0; 0x00; 0x03; 0x03; 0x61; 0xC0; 0x03; 0x00; 0x00; 0x00; 0x00;
   0x00; 0x00; 0x00; 0x00; 0x1B; 0xC0; 0x00; 0x01; 0xFE; 0x3F; 0x00; 0x01;
   0x00; 0x00; 0x00; 0x00; 0x00; 0x00; 0x00; 0x00; 0x73; 0xC0; 0x00; 0x00;
   0x00; 0x00; 0x00; 0x01; 0xC0; 0x00; 0x00; 0x00; 0x00; 0x00; 0x00; 0x00;
   0xF0; 0xC0; 0x00; 0x00; 0x00; 0x00; 0x00; 0x01; 0x40; 0x00; 0x00; 0x00;
   0x00; 0x00; 0x00; 0x03; 0xB0; 0xE0; 0x00; 0x00; 0x00; 0x00; 0x00; 0x03;
   0x60; 0x00; 0x00; 0x00; 0x00; 0x00; 0x00; 0x0E; 0x18; 0x60; 0x00; 0x00;
   0x00; 0x00; 0x00; 0x02; 0x30; 0x00; 0x00; 0x00; 0x00; 0x00; 0x00; 0x18;
   0x0C; 0x30; 0x00; 0x00; 0x00; 0x00; 0x00; 0x06; 0x38; 0x00; 0x00; 0x00;
   0x00; 0x00; 0x00; 0x60; 0x04; 0x18; 0x00; 0x00; 0x00; 0x00; 0x00; 0x06;
   0x2E; 0x00; 0x00; 0x00; 0x00; 0x00; 0x01; 0xC3; 0xFE; 0x0C; 0x00; 0x00;
   0x00; 0x00; 0x00; 0x0C; 0x23; 0x80; 0x00; 0x00; 0x00; 0x00; 0x03; 0x06;
   0x0F; 0x06; 0x00; 0x00; 0x00; 0x00; 0x00; 0x08; 0x40; 0xC0; 0x00; 0x00;
   0x00; 0x00; 0x0C; 0x1C; 0x03; 0x83; 0x00; 0x00; 0x00; 0x00; 0x00; 0x10;
   0xC0; 0x20; 0x00; 0x00; 0x00; 0x00; 0x18; 0x30; 0x01; 0x81; 0x80; 0x00;
   0x00; 0x00; 0x00; 0x10; 0x80; 0x30; 0x00; 0x00; 0x00; 0x00; 0x30; 0x60;
   0x00; 0xC0; 0xC0; 0x00; 0x00; 0x00; 0x00; 0x71; 0x80; 0x08; 0x00; 0x00;
   0x00; 0x00; 0xC1; 0x80; 0x00; 0x60; 0x70; 0x00; 0x00; 0x00; 0x00; 0x61;
   0x00; 0x06; 0x00; 0x00; 0x00; 0x01; 0x83; 0x00; 0x00; 0x30; 0x18; 0x00;
   0x00; 0x00; 0x00; 0x43; 0x00; 0x03; 0x80; 0x00; 0x00; 0x01; 0x06; 0x00;
   0x00; 0x18; 0x0E; 0x00; 0x00; 0x00; 0x00; 0xC6; 0x00; 0x01; 0xC0; 0x00;
   0x00; 0x03; 0x0C; 0x00; 0x00; 0x04; 0x07; 0x00; 0x00; 0x00; 0x01; 0x86;
   0x00; 0x00; 0x40; 0x00; 0x00; 0x06; 0x18; 0x00; 0x00; 0x06; 0x01; 0xC0;
   0x00; 0x00; 0x07; 0x0C; 0x00; 0x00; 0x30; 0x00; 0x00; 0x18; 0x70; 0x00;
   0x00; 0x03; 0x80; 0x78; 0x00; 0x00; 0x1C; 0x18; 0x10; 0x00; 0x1F; 0x00;
   0x00; 0x20; 0x40; 0x00; 0x00; 0x00; 0x60; 0x0E; 0x00; 0x00; 0x30; 0x10;
   0x18; 0x00; 0x09; 0x80; 0x00; 0x60; 0x80; 0x00; 0x00; 0x00; 0x30; 0x03;
   0x80; 0x00; 0xE0; 0x30; 0x18; 0x00; 0x08; 0x80; 0x00; 0xC0; 0x00; 0x00;
   0x00; 0x00; 0x18; 0x00; 0xF0; 0x01; 0x80; 0x60; 0x18; 0x00; 0x0C; 0x80;
   0x01; 0xFF; 0xF0; 0x00; 0x00; 0x00; 0x06; 0x00; 0x0F; 0x03; 0x00; 0xC0;
   0x08; 0x00; 0x0C; 0xC0; 0x03; 0x80; 0x1E; 0x00; 0x00; 0x00; 0x03; 0x80;
   0x01; 0xE7; 0xE0; 0x80; 0x08; 0x00; 0x0C; 0xC0; 0x0E; 0x00; 0x01; 0xC0;
   0x00; 0x00; 0x00; 0xE0; 0x00; 0x7E; 0x31; 0x00; 0x0C; 0x00; 0x0C; 0x80;
   0x18; 0x03; 0x00; 0x60; 0x00; 0x00; 0x00; 0x38; 0x01; 0xFC; 0x1A; 0x00;
   0x0E; 0x00; 0x08; 0x80; 0x30; 0x78; 0x80; 0x38; 0x00; 0x00; 0x00; 0x0C;
   0x03; 0x0C; 0x1C; 0x00; 0x0E; 0x00; 0x08; 0x80; 0x27; 0xC0; 0x00; 0x0C;
   0x00; 0x00; 0x00; 0x07; 0x06; 0x0C; 0x08; 0x00; 0x0F; 0x00; 0x19; 0x00;
   0x3F; 0x00; 0x00; 0x06; 0x00; 0x00; 0x00; 0x01; 0xC4; 0x0E; 0x00; 0x00;
   0x07; 0x00; 0x11; 0x00; 0x38; 0x00; 0x00; 0x02; 0x00; 0x00; 0x00; 0x00;
   0x7C; 0x0E; 0x00; 0x00; 0x07; 0x80; 0x32; 0x00; 0x30; 0x03; 0xE0; 0x03;
   0x00; 0x20; 0x00; 0x00; 0x1C; 0x1E; 0x00; 0x00; 0x03; 0x80; 0x30; 0x00;
   0x60; 0x7E; 0x3E; 0x01; 0x80; 0x60; 0x00; 0x00; 0x04; 0x1F; 0x00; 0x00;
   0x01; 0xC0; 0x60; 0x40; 0x41; 0xC6; 0x03; 0x80; 0x80; 0xC0; 0x00; 0x00;
   0x00; 0x09; 0x00; 0x00; 0x01; 0xE0; 0xC0; 0x40; 0xC7; 0x0C; 0x00; 0xC0;
   0xC1; 0xC0; 0x00; 0x00; 0x00; 0x01; 0x80; 0x00; 0x00; 0xE1; 0x80; 0x40;
   0x8C; 0x18; 0x00; 0x60; 0x41; 0x80; 0x00; 0x00; 0x00; 0x00; 0x80; 0x00;
   0x00; 0xC7; 0x00; 0xC0; 0xF8; 0x70; 0x00; 0x38; 0x67; 0x00; 0x00; 0x00;
   0x00; 0x00; 0xC0; 0x00; 0x00; 0x7E; 0x07; 0x80; 0x70; 0x40; 0x00; 0x04;
   0x24; 0x00; 0x00; 0x00; 0x00; 0x00; 0x60; 0x00; 0x00; 0x20; 0x8E; 0x00;
   0x30; 0xC0; 0x00; 0x0E; 0xF8; 0x00; 0x00; 0x00; 0x00; 0x00; 0x60; 0x00;
   0x00; 0x37; 0x38; 0x40; 0x30; 0xC0; 0x00; 0x0A; 0xF0; 0x00; 0x00; 0x00;
   0x00; 0x00; 0x30; 0x00; 0x00; 0x3E; 0xF0; 0x40; 0x30; 0x80; 0x00; 0x0A;
   0x70; 0x00; 0x00; 0x00; 0x00; 0x00; 0x10; 0x00; 0x00; 0x1F; 0xC0; 0x40;
   0x10; 0x80; 0x00; 0x06; 0x60; 0x00; 0x00; 0x00; 0x00; 0x00; 0x18; 0x00;
   0x00; 0x0E; 0x00; 0xC0; 0x11; 0x80; 0x00; 0x07; 0x60; 0x00; 0x00; 0x00;
   0x00; 0x01; 0xF8; 0x00; 0x00; 0x0C; 0x00; 0xC0; 0x11; 0x80; 0x00; 0x01;
   0x60; 0x00; 0x00; 0x00; 0x00; 0x01; 0xFC; 0x00; 0x00; 0x06; 0x00; 0xC0;
   0x19; 0x00; 0x00; 0x03; 0x40; 0x00; 0x00; 0x00; 0x00; 0x00; 0xFF; 0x80;
   0x00; 0x07; 0x00; 0xC0; 0x19; 0x00; 0x00; 0x03; 0xC0; 0x00; 0x00; 0x00;
   0x00; 0x00; 0x7F; 0xF0; 0x00; 0x07; 0x00; 0x40; 0x09; 0x00; 0x00; 0x02;
   0xC0; 0x00; 0x00; 0x00; 0x00; 0x00; 0x7F; 0x00; 0x00; 0x03; 0x81; 0x40;
   0x0D; 0x00; 0x00; 0x03; 0x80; 0x00; 0x00; 0x00; 0x00; 0x00; 0x1A; 0x00;
   0x00; 0x03; 0x01; 0x80; 0x0D; 0x80; 0x00; 0x00; 0x80; 0x00; 0x00; 0x00;
   0x00; 0x00; 0x03; 0x00; 0x00; 0x01; 0x80; 0x80; 0x05; 0x80; 0x00; 0x01;
   0xC0; 0x00; 0x00; 0x00; 0x00; 0x00; 0x01; 0x80; 0x00; 0x01; 0x80; 0x80;
   0x07; 0x80; 0x00; 0x00; 0x40; 0x00; 0x00; 0x00; 0x00; 0x00; 0x00; 0x80;
   0x00; 0x00; 0x81; 0x00; 0x03; 0x80; 0x00; 0x00; 0x40; 0x00; 0x00; 0x00;
   0x00; 0x00; 0x00; 0xC0; 0x00; 0x00; 0xC1; 0x00; 0x03; 0xC0; 0x00; 0x00;
   0xE0; 0x00; 0x00; 0x00; 0x00; 0x00; 0x00; 0x60; 0x00; 0x00; 0x43; 0x00;
   0x01; 0x40; 0x00; 0x00; 0xA0; 0x00; 0x00; 0x00; 0x00; 0x00; 0x00; 0x20;
   0x00; 0x00; 0x42; 0x00; 0x01; 0xE0; 0x00; 0x00; 0x20; 0x00; 0x00; 0x00;
   0x00; 0x00; 0x00; 0x20; 0x00; 0x00; 0x26; 0x00; 0x00; 0xE0; 0x00; 0x00;
   0x30; 0x00; 0x00; 0x00; 0x00; 0x00; 0x00; 0x10; 0x00; 0x00; 0x26; 0x00;
   0x00; 0x70; 0x00; 0x00; 0x10; 0x00; 0x00; 0x00; 0x00; 0x00; 0x00; 0x10;
   0x00; 0x00; 0x26; 0x00; 0x00; 0x70; 0x00; 0x00; 0x10; 0x00; 0x00; 0x00;
   0x00; 0x00; 0x00; 0xF0; 0x00; 0x00; 0x22; 0x00; 0x00; 0x38; 0x00; 0x00;
   0x58; 0x00; 0x00; 0x00; 0x00; 0x00; 0x01; 0xB0; 0x00; 0x00; 0x23; 0x00;
   0x00; 0x18; 0x00; 0x00; 0x38; 0x00; 0x00; 0x00; 0x00; 0x00; 0x01; 0xF0;
   0x00; 0x00; 0x31; 0x00; 0x00; 0x1C; 0x00; 0x00; 0x38; 0x00; 0x00; 0x00;
   0x00; 0x00; 0x00; 0x18; 0x00; 0x00; 0x11; 0x00; 0x00; 0x1C; 0x00; 0x00;
   0x28; 0x00; 0x00; 0x00; 0x00; 0x00; 0x00; 0x18; 0x00; 0x00; 0x11; 0x00;
   0x00; 0x3E; 0x00; 0x40; 0x28; 0x00; 0x00; 0x00; 0x00; 0x00; 0x00; 0x08;
   0x00; 0x00; 0x11; 0x00; 0x00; 0x37; 0x00; 0xC0; 0x08; 0x00; 0x00; 0x00;
   0x00; 0x00; 0x00; 0x18; 0x00; 0x00; 0x11; 0x00; 0x00; 0x7F; 0x00; 0x80;
   0x08; 0x00; 0x00; 0x00; 0x00; 0x00; 0x00; 0x18; 0x00; 0x00; 0x13; 0x00;
   0x01; 0xFB; 0x01; 0x80; 0x08; 0x00; 0x00; 0x00; 0x00; 0x00; 0x00; 0x1C;
   0x00; 0x00; 0x32; 0x80; 0x01; 0xE1; 0x83; 0x80; 0x08; 0x00; 0x00; 0x00;
   0x00; 0x00; 0x00; 0x0C; 0x00; 0x00; 0x26; 0xC0; 0x01; 0x41; 0x83; 0x00;
   0x28; 0x00; 0x00; 0x00; 0x00; 0x00; 0x00; 0x0C; 0x00; 0x00; 0x24; 0x40;
   0x01; 0x63; 0xC7; 0x80; 0x08; 0x00; 0x00; 0x00; 0x00; 0x00; 0x00; 0x0C;
   0x00; 0x00; 0x24; 0xC0; 0x01; 0xFF; 0xFF; 0xC0; 0x28; 0x00; 0x00; 0x00;
   0x00; 0x00; 0x00; 0x0C; 0x00; 0x00; 0x64; 0x80; 0x00; 0x3E; 0x19; 0xF8;
   0x38; 0x00; 0x00; 0x00; 0x00; 0x00; 0x00; 0x18; 0x00; 0x00; 0x41; 0x80;
   0x00; 0x0E; 0x31; 0xFC; 0x38; 0x00; 0x00; 0x00; 0x00; 0x00; 0x00; 0x18;
   0x00; 0x10; 0xC1; 0x00; 0x00; 0x0E; 0x30; 0xC6; 0x30; 0x00; 0x00; 0x00;
   0x00; 0x00; 0x00; 0xF8; 0x00; 0x31; 0x83; 0x00; 0x00; 0x06; 0x31; 0xC2;
   0x50; 0x00; 0x00; 0x00; 0x00; 0x00; 0x00; 0xF0; 0x00; 0x33; 0xEE; 0x00;
   0x00; 0x07; 0x31; 0xC2; 0x70; 0x00; 0x00; 0x00; 0x00; 0x00; 0x00; 0xF0;
   0x00; 0x27; 0xF0; 0x00; 0x00; 0x03; 0x31; 0xC2; 0x20; 0x00; 0x00; 0x00;
   0x00; 0x00; 0x00; 0x10; 0x00; 0x2C; 0x00; 0x00; 0x00; 0x03; 0xF0; 0xC2;
   0x60; 0x00; 0x00; 0x00; 0x00; 0x00; 0x00; 0x10; 0x00; 0x7C; 0x00; 0x00;
   0x00; 0x03; 0x70; 0xE2; 0x40; 0x40; 0x00; 0x00; 0x00; 0x00; 0x00; 0x30;
   0x00; 0xFC; 0x00; 0x00; 0x00; 0x01; 0xF0; 0xE2; 0xC0; 0x60; 0x02; 0x00;
   0x00; 0x00; 0x00; 0x20; 0x03; 0xFC; 0x00; 0x00; 0x00; 0x01; 0xFC; 0xF1;
   0xF0; 0x30; 0x03; 0x00; 0x00; 0x00; 0x00; 0x60; 0x07; 0xFC; 0x00; 0x00;
   0x00; 0x01; 0xFF; 0xFF; 0xFF; 0x98; 0x01; 0xC0; 0x00; 0x00; 0x00; 0xC0;
   0x3F; 0xFC; 0x00; 0x00; 0x00; 0x01; 0xFF; 0xFF; 0xFF; 0xFC; 0x00; 0xE0;
   0x00; 0x00; 0x01; 0x80; 0xFF; 0xF4; 0x00; 0x00; 0x00; 0x01; 0xC7; 0xFF;
   0xFF; 0xFF; 0x00; 0x7C; 0x00; 0x00; 0x07; 0xFF; 0xFF; 0xF4; 0x00; 0x00;
   0x00; 0x01; 0xC2; 0xFF; 0xFF; 0xFF; 0xE0; 0x19; 0x00; 0x00; 0x3C; 0x3F;
   0xF3; 0xF8; 0x00; 0x00; 0x00; 0x01; 0xC0; 0x7F; 0xFF; 0xFF; 0xFF; 0xFE;
   0x00; 0x07; 0xE0; 0x1F; 0xF3; 0xF8; 0x00; 0x00; 0x00; 0x00; 0xE0; 0x0F;
   0xFF; 0xFF; 0xFD; 0xFF; 0xFF; 0xFF; 0x00; 0x3F; 0xF3; 0x78; 0x00; 0x00;
   0x00; 0x00; 0x70; 0x00; 0x7F; 0xFF; 0xFC; 0x7F; 0xFF; 0xF8; 0x00; 0x3F;
   0xF0; 0x70; 0x00; 0x00; 0x00; 0x00; 0x60; 0x00; 0x0F; 0xFF; 0xFC; 0x7F;
   0xFF; 0xF8; 0x00; 0x5F; 0x90; 0x70; 0x00; 0x00; 0x00; 0x00; 0x30; 0x00;
   0x00; 0x7F; 0xFC; 0x7F; 0xFF; 0xFC; 0x01; 0xFC; 0x00; 0xE0; 0x00; 0x00;
   0x00; 0x00; 0x18; 0x00; 0x00; 0x07; 0xFC; 0x7F; 0xFF; 0xFE; 0x00; 0xF0;
   0x00; 0xE0; 0x00; 0x00; 0x00; 0x00; 0x18; 0x00; 0x00; 0x00; 0x7C; 0x7F;
   0xFF; 0xFF; 0x87; 0xC0; 0x01; 0xE0; 0x00; 0x00; 0x00; 0x00; 0x0C; 0x00;
   0x00; 0x00; 0x0C; 0x7F; 0xFF; 0xFF; 0xFF; 0x00; 0x03; 0xC0; 0x00; 0x00;
   0x00; 0x00; 0x0E; 0x00; 0x00; 0x00; 0x00; 0x00; 0x00; 0x00; 0x00; 0x00;
   0x03; 0xC0; 0x00; 0x00; 0x00; 0x00; 0x06; 0x00; 0x00; 0x00; 0x00; 0x00;
   0x00; 0x00; 0x00; 0x00; 0x07; 0x80; 0x00; 0x00; 0x00; 0x00; 0x03; 0x00;
   0x00; 0x00; 0x00; 0x00; 0x00; 0x00; 0x00; 0x00; 0x0F; 0x00; 0x00; 0x00;
   0x00; 0x00; 0x03; 0x80; 0x00; 0x00; 0x00; 0x00; 0x00; 0x00; 0x00; 0x00;
   0x1F; 0x00; 0x00; 0x00; 0x00; 0x00; 0x01; 0x80; 0x00; 0x00; 0x00; 0x00;
   0x00; 0x00; 0x00; 0x00; 0x1E; 0x00; 0x00; 0x00; 0x00; 0x00; 0x00; 0xC0;
   0x00; 0x00; 0x00; 0x00; 0x00; 0x00; 0x00; 0x00; 0x3C; 0x00; 0x00; 0x00;
   0x00; 0x00; 0x00; 0xE0; 0x00; 0x00; 0x00; 0x00; 0x00; 0x00; 0x00; 0x00;
   0x38; 0x00; 0x00; 0x00; 0x00; 0x00; 0x00; 0x60; 0x00; 0x00; 0x00; 0x00;
   0x00; 0x00; 0x00; 0x00; 0x70; 0x00; 0x00; 0x00; 0x00; 0x00; 0x00; 0x30;
   0x00; 0x00; 0x00; 0x00; 0x00; 0x00; 0x00; 0x00; 0xE0; 0x00; 0x00; 0x00;
   0x00; 0x00; 0x00; 0x30; 0x00; 0x00; 0x00; 0x00; 0x00; 0x00; 0x00; 0x00;
   0xC0; 0x00; 0x00; 0x00; 0x00; 0x00; 0x00; 0x10; 0x00; 0x00; 0x00; 0x00;
   0x00; 0x00; 0x00; 0x03; 0x80; 0x00; 0x00; 0x00; 0x00; 0x00; 0x00; 0x10;
   0x00; 0x00; 0x00; 0x00; 0x00; 0x08; 0x00; 0x07; 0x00; 0x00; 0x00; 0x00;
   0x00; 0x00; 0x00; 0x10; 0x00; 0x00; 0x00; 0x00; 0x00; 0x18; 0x00; 0x07;
   0x00; 0x00; 0x00; 0x00; 0x00; 0x00; 0x00; 0x10; 0x00; 0x00; 0x00; 0x00;
   0x00; 0x30; 0x00; 0x05; 0x00; 0x00; 0x00; 0x00; 0x00; 0x00; 0x00; 0x18;
   0x00; 0x00; 0x00; 0x00; 0x01; 0xE0; 0x00; 0x05; 0x00; 0x00; 0x00; 0x00;
   0x00; 0x00; 0x00; 0x30; 0x00; 0x00; 0x00; 0x00; 0x07; 0x00; 0x00; 0x05;
   0x00; 0x00; 0x00; 0x00; 0x00; 0x00; 0x00; 0x30; 0x00; 0x00; 0x00; 0x00;
   0x3E; 0x00; 0x00; 0x05; 0x00; 0x00; 0x00; 0x00; 0x00; 0x00; 0x00; 0x30;
   0x00; 0x00; 0x00; 0x00; 0x60; 0x00; 0x00; 0x05; 0x00; 0x00; 0x00; 0x00;
   0x00; 0x00; 0x00; 0x70; 0x00; 0x00; 0x00; 0x00; 0x60; 0x00; 0x00; 0x05;
   0x00; 0x00; 0x00; 0x00; 0x00; 0x00; 0x00; 0x70; 0x00; 0x00; 0x00; 0x00;
   0x60; 0x00; 0x00; 0x07; 0x00; 0x00; 0x00; 0x00; 0x00; 0x00; 0x00; 0x70;
   0x00; 0x00; 0x00; 0x00; 0x60; 0x00; 0x00; 0x07; 0x00; 0x00; 0x00; 0x00;
   0x00; 0x00; 0x00; 0x70; 0x00; 0x00; 0x00; 0x00; 0x60; 0x00; 0x00; 0x07;
   0x00; 0x00; 0x00; 0x00; 0x00; 0x00; 0x00; 0x70; 0x00; 0x00; 0x00; 0x00;
   0xE0; 0x00; 0x00; 0x07; 0x00; 0x00; 0x00; 0x00; 0x00; 0x00; 0x00; 0x70;
   0x00; 0x00; 0x00; 0x00; 0xC0; 0x00; 0x00; 0x07; 0x00; 0x00; 0x00; 0x00;
   0x00; 0x00; 0x00; 0xE0; 0x00; 0x00; 0x00; 0x00; 0xC0; 0x00; 0x00; 0x07;
   0x00; 0x00; 0x00; 0x00; 0x00; 0x00; 0x00; 0xC0; 0x00; 0x00; 0x00; 0x00;
   0xC0; 0x00; 0x00; 0x03; 0x80; 0x00; 0x00; 0x00; 0x00; 0x00; 0x00; 0xC0;
   0x00; 0x00; 0x00; 0x00; 0xC0; 0x00; 0x00; 0x03; 0x80; 0x00; 0x00; 0x00;
   0x00; 0x00; 0x00; 0x80; 0x00; 0x00; 0x00; 0x00; 0xC0; 0x00; 0x00; 0x02;
   0x80; 0x00; 0x00; 0x00; 0x00; 0x00; 0x00; 0x80; 0x00; 0x00; 0x00; 0x00;
   0xE0; 0x00; 0x00; 0x03; 0x80; 0x00; 0x00; 0x00; 0x00; 0x00; 0x00; 0x80;
   0x00; 0x00; 0x00; 0x00; 0xE0; 0x00; 0x00; 0x03; 0xC0; 0x00; 0x00; 0x00;
   0x00; 0x00; 0x01; 0x80; 0x00; 0x00; 0x00; 0x00; 0x60; 0x00; 0x00; 0x03;
   0xC0; 0x00; 0x00; 0x00; 0x00; 0x00; 0x01; 0x80; 0x00; 0x00; 0x00; 0x00;
   0x60; 0x00; 0x00; 0x03; 0xC0; 0x00; 0x00; 0x00; 0x00; 0x00; 0x01; 0x80;
   0x00; 0x00; 0x00; 0x00; 0x60; 0x00; 0x00; 0x03; 0xC0; 0x00; 0x00; 0x00;
   0x00; 0x00; 0x01; 0x80; 0x00; 0x00; 0x00; 0x00; 0x60; 0x00; 0x00; 0x03;
   0x40; 0x00; 0x00; 0x00; 0x00; 0x00; 0x01; 0x80; 0x00; 0x00; 0x00; 0x00;
   0x60; 0x00; 0x00; 0x01; 0x40; 0x00; 0x00; 0x00; 0x00; 0x00; 0x01; 0x80;
   0x00; 0x00; 0x00; 0x00; 0x60; 0x00; 0x07; 0xFF; 0x60; 0x00; 0x00; 0x00;
   0x00; 0x00; 0x01; 0x80; 0x00; 0x00; 0x00; 0x00; 0x60; 0x00; 0x3F; 0xFF;
   0xE0; 0x00; 0x00; 0x00; 0x00; 0x00; 0x01; 0x80; 0x00; 0x00; 0x00; 0x00;
   0x60; 0x00; 0xFF; 0xFF; 0xE0; 0x00; 0x00; 0x00; 0x00; 0x00; 0x01; 0x80;
   0x00; 0x00; 0x07; 0xF8; 0x60; 0x01; 0xFF; 0xFF; 0xF8; 0x00; 0x00; 0x00;
   0x00; 0x00; 0x01; 0x80; 0x00; 0x00; 0x3F; 0xFC; 0x60; 0x07; 0xFF; 0xFF;
   0xFC; 0x00; 0x00; 0x00; 0x00; 0x00; 0x00; 0x80; 0x00; 0x00; 0xFF; 0xFF;
   0xE0; 0x0F; 0xFF; 0xFF; 0xFE; 0x00; 0x00; 0x00; 0x00; 0x00; 0x00; 0x80;
   0x00; 0x03; 0xFF; 0xFF; 0xF0; 0x1F; 0xFF; 0xFF; 0xFF; 0x00; 0x00; 0x00;
   0x00; 0x00; 0x00; 0x80; 0x00; 0x07; 0xFF; 0xFF; 0xF8; 0x3F; 0xFF; 0xFF;
   0xFF; 0x80; 0x00; 0x00; 0x00; 0x00; 0x00; 0xC0; 0x00; 0x3F; 0xFF; 0xFF;
   0xFF; 0xFF; 0xFF; 0xFF; 0xFF; 0xC0; 0x00; 0x00; 0x00; 0x00; 0x00; 0xC0;
   0x00; 0xFF; 0xFF; 0xFF; 0xFF; 0xFF; 0xFF; 0xFF; 0xFF; 0xE0; 0x00; 0x00;
   0x00; 0x00; 0x00; 0xF0; 0x03; 0xFF; 0xFF; 0xFF; 0xFF; 0xFF; 0xFF; 0xFF;
   0xFF; 0xE0; 0x00; 0x00; 0x00; 0x00; 0x00; 0x3F; 0xFF; 0xFF; 0xFF; 0xFF;
   0xFD; 0xFF; 0xFF; 0xFF; 0xFF; 0xA0; 0x00; 0x00; 0x00; 0x00; 0x00; 0x3F;
   0xFF; 0xFF; 0xFF; 0xFF; 0xFF; 0xFF; 0xFF; 0xFF; 0xFF; 0xE0; 0x00; 0x00;
   0x00; 0x00; 0x00; 0x7F; 0xFF; 0xFF; 0xFF; 0xFF; 0xFE; 0xFF; 0xFF; 0xFF;
   0xFF; 0xE0; 0x00; 0x00; 0x00; 0x00; 0x00; 0x7F; 0xFF; 0xFF; 0xFF; 0xFF;
   0xFE; 0xFF; 0xFF; 0xFF; 0xFF; 0xE0; 0x00; 0x00; 0x00; 0x00; 0x00; 0x7F;
   0xFF; 0xFF; 0xFF; 0xFF; 0xFF; 0x7F; 0xFF; 0xFF; 0xFF; 0xE0; 0x00; 0x00;
   0x00; 0x00; 0x00; 0x7F; 0xFF; 0xFF; 0xFF; 0xFF; 0xFF; 0x7F; 0xFF; 0xFF;
   0xFF; 0xE0; 0x00; 0x00; 0x00; 0x00; 0x00; 0x7F; 0xFF; 0xFF; 0xFF; 0xFF;
   0xFF; 0x7F; 0xFF; 0xFF; 0xFF; 0xE0; 0x00; 0x00; 0x00; 0x00; 0x00; 0x3F;
   0xFF; 0xFF; 0xFF; 0xFF; 0xFF; 0x7F; 0xFF; 0xFF; 0xFF; 0xC0; 0x00; 0x00;
   0x00; 0x00; 0x00; 0x3F; 0xFF; 0xFF; 0xFF; 0xFF; 0xFF; 0xFF; 0xFF; 0xFF;
   0xFE; 0x00; 0x00; 0x00; 0x00; 0x00; 0x00; 0x0F; 0xFF; 0xFF; 0xFF; 0xFF;
   0xFF; 0xDF; 0xFF; 0xFF; 0xC0; 0x00; 0x00; 0x00; 0x00; 0x00; 0x00; 0x03;
   0xFF; 0xFF; 0xFF; 0xFF; 0xFF; 0x80; 0x00; 0x00; 0x00; 0x00; 0x00; 0x00;
   0x00; 0x00; 0x00; 0x01; 0xFF; 0xFF; 0xFF; 0xFF; 0xFF; 0x00; 0x00; 0x00;
   0x00; 0x00; 0x00; 0x00; 0x00; 0x00; 0x00; 0x00; 0x7F; 0xFF; 0xFF; 0xFF;
   0xFC; 0x00; 0x00; 0x00; 0x00; 0x00; 0x00; 0x00; 0x00; 0x00; 0x00; 0x00;
   0x03; 0xFF; 0xFF; 0xFF; 0xE0; 0x00; 0x00; 0x00; 0x00; 0x00; 0x00; 0x00].

(** The array has the size its declaration states. *)
Lemma bitmap_size : length gordon_bitmap = 3168%nat.
Proof. vm_compute. reflexivity. Qed.

(** Every bit of the rectangle the drawing code reads is inside the array. *)
Lemma bitmap_index y x : 0 <= y < GORDON_H -> 0 <= x < GORDON_W ->
  is_Some (gordon_bitmap !! Z.to_nat (y * GORDON_STRIDE + Z.shiftr x 3)).
Proof.
  unfold GORDON_H, GORDON_W, GORDON_STRIDE. intros Hy Hx. apply lookup_lt_is_Some. rewrite bitmap_size, Z.shiftr_div_pow2 by lia. change (2 ^ 3) with 8.
  assert (0 <= x / 8 < 16) by zmod. lia.
Qed.

End GordonArt.
