(* ===== verification/Vga13.v ===== *)
(** * The graphics screen

    [src/display/vga13.c]: switching to mode 13h by programming the registers of the VGA,
    drawing, and switching back.  The class [VgaCard] states what the code relies on of
    the card.  Drawing stays inside the frame buffer and sets the pixels it should; after
    a picture the text mode has its registers, font and palette back. *)

From S2P Require Import Prelude Ports Vga GordonArt.

Module Vga13.

Import GordonArt.

(** ** The card *)

(** Three of its register files: an index port and a data port each. *)
Inductive bank := Seq | Gc | Crtc.

#[global] Instance bank_eq : EqDecision bank.
Proof. solve_decision. Defined.

Definition VGA_AC_INDEX : Z := 0x3C0.
Definition VGA_AC_WRITE : Z := 0x3C0.
Definition VGA_MISC_WRITE : Z := 0x3C2.
Definition VGA_SEQ_INDEX : Z := 0x3C4.
Definition VGA_SEQ_DATA : Z := 0x3C5.
Definition VGA_DAC_READ_INDEX : Z := 0x3C7.
Definition VGA_DAC_WRITE_INDEX : Z := 0x3C8.
Definition VGA_DAC_DATA : Z := 0x3C9.
Definition VGA_GC_INDEX : Z := 0x3CE.
Definition VGA_GC_DATA : Z := 0x3CF.
Definition VGA_CRTC_INDEX : Z := 0x3D4.
Definition VGA_CRTC_DATA : Z := 0x3D5.
Definition VGA_INSTAT_READ : Z := 0x3DA.

Definition index_port (b : bank) : Z := match b with Seq => VGA_SEQ_INDEX | Gc => VGA_GC_INDEX | Crtc => VGA_CRTC_INDEX end.
Definition data_port (b : bank) : Z := match b with Seq => VGA_SEQ_DATA | Gc => VGA_GC_DATA | Crtc => VGA_CRTC_DATA end.

(** [dac_read] and [dac_write] count components of colours; [ac_flip] says that the next
    write to the attribute controller is an index; [plane k] is a memory plane. *)
Record vga := mk_vga {
  misc : Z; idx : bank -> Z; reg : bank -> Z -> Z; ac_idx : Z; ac_flip : bool; ac : Z -> Z;
  dac_read : Z; dac_write : Z; dac : Z -> Z; plane : Z -> Z -> Z }.

Definition bset {A} (f : bank -> A) (b : bank) (v : A) : bank -> A := fun x => if decide (x = b) then v else f x.

Definition set_misc (v : Z) (s : vga) : vga :=
  mk_vga v (idx s) (reg s) (ac_idx s) (ac_flip s) (ac s) (dac_read s) (dac_write s) (dac s) (plane s).
Definition set_index (b : bank) (v : Z) (s : vga) : vga :=
  mk_vga (misc s) (bset (idx s) b v) (reg s) (ac_idx s) (ac_flip s) (ac s) (dac_read s) (dac_write s) (dac s) (plane s).
Definition set_regs (f : bank -> Z -> Z) (s : vga) : vga :=
  mk_vga (misc s) (idx s) f (ac_idx s) (ac_flip s) (ac s) (dac_read s) (dac_write s) (dac s) (plane s).
Definition set_ac (i : Z) (fl : bool) (a : Z -> Z) (s : vga) : vga :=
  mk_vga (misc s) (idx s) (reg s) i fl a (dac_read s) (dac_write s) (dac s) (plane s).
Definition set_dac (r w : Z) (d : Z -> Z) (s : vga) : vga :=
  mk_vga (misc s) (idx s) (reg s) (ac_idx s) (ac_flip s) (ac s) r w d (plane s).
Definition set_plane (f : Z -> Z -> Z) (s : vga) : vga :=
  mk_vga (misc s) (idx s) (reg s) (ac_idx s) (ac_flip s) (ac s) (dac_read s) (dac_write s) (dac s) f.

(** CRTC registers 0 to 7 are write-protected while bit 7 of register 0x11 is set. *)
Definition locked (b : bank) (i : Z) (s : vga) : bool :=
  match b with Crtc => (i <? 8) && Z.testbit (reg s Crtc 0x11) 7 | _ => false end.

Definition put_reg (b : bank) (v : Z) (s : vga) : vga :=
  if locked b (idx s b) s then s else set_regs (bset (reg s) b ((reg s b).[idx s b <- v])) s.

Definition put_ac (v : Z) (s : vga) : vga :=
  if ac_flip s then set_ac v false (ac s) s else set_ac (ac_idx s) true ((ac s).[ac_idx s <- v]) s.

(** The memory window at 0xA0000 with plain stores: write mode 0, all bits, no set/reset. *)
Definition plain (s : vga) : Prop :=
  (reg s Gc 6 / 4) mod 4 < 2 /\ (reg s Gc 5) mod 4 = 0 /\ reg s Gc 8 = 0xFF /\ reg s Gc 1 = 0 /\ reg s Gc 3 = 0.
Definition readable (s : vga) : Prop := (reg s Gc 6 / 4) mod 4 < 2 /\ Z.testbit (reg s Gc 5) 3 = false.

(** Chained addressing spreads consecutive bytes over the planes; sequential addressing
    (odd/even off) reaches the planes of the map mask and the plane of the read map. *)
Definition chained (s : vga) : bool := Z.testbit (reg s Seq 4) 3.
Definition sequential (s : vga) : bool := negb (chained s) && Z.testbit (reg s Seq 4) 2.

Definition store (a v : Z) (s : vga) : vga :=
  set_plane (fun k x =>
    if (if chained s then (k =? a mod 4) && (x =? a / 4) else (x =? a)) && Z.testbit (reg s Seq 2) k then v else plane s k x) s.
Definition load (a : Z) (s : vga) : Z :=
  if chained s then plane s (a mod 4) (a / 4) else plane s (reg s Gc 4 mod 4) a.

Class VgaCard (P : Type) `{PO : Ports P} := {
  vc_view : P -> vga;
  mem_read : Z -> P -> Z * P;
  mem_write : Z -> Z -> P -> P;
  vc_bytes : forall p b i, is_byte (reg (vc_view p) b i);
  vc_colours : forall p i, 0 <= dac (vc_view p) i < 64;
  vc_cells : forall p k i, is_byte (plane (vc_view p) k i);
  vc_index : forall p b v, is_byte v -> vc_view (port_outb (index_port b) v p) = set_index b v (vc_view p);
  vc_data : forall p b v, is_byte v -> vc_view (port_outb (data_port b) v p) = put_reg b v (vc_view p);
  vc_get : forall p b, let '(v, p') := port_inb (data_port b) p in
    v = reg (vc_view p) b (idx (vc_view p) b) /\ vc_view p' = vc_view p;
  vc_misc : forall p v, is_byte v -> vc_view (port_outb VGA_MISC_WRITE v p) = set_misc v (vc_view p);
  vc_ac : forall p v, is_byte v -> vc_view (port_outb VGA_AC_INDEX v p) = put_ac v (vc_view p);
  vc_instat : forall p, let '(v, p') := port_inb VGA_INSTAT_READ p in
    vc_view p' = set_ac (ac_idx (vc_view p)) true (ac (vc_view p)) (vc_view p);
  vc_dac_r : forall p v, is_byte v ->
    vc_view (port_outb VGA_DAC_READ_INDEX v p) = set_dac (3 * v) (dac_write (vc_view p)) (dac (vc_view p)) (vc_view p);
  vc_dac_w : forall p v, is_byte v ->
    vc_view (port_outb VGA_DAC_WRITE_INDEX v p) = set_dac (dac_read (vc_view p)) (3 * v) (dac (vc_view p)) (vc_view p);
  vc_dac_put : forall p v, is_byte v -> let s := vc_view p in
    vc_view (port_outb VGA_DAC_DATA v p) = set_dac (dac_read s) ((dac_write s + 1) mod 768) ((dac s).[dac_write s <- v mod 64]) s;
  vc_dac_get : forall p, let '(v, p') := port_inb VGA_DAC_DATA p in let s := vc_view p in
    v = dac s (dac_read s) /\ vc_view p' = set_dac ((dac_read s + 1) mod 768) (dac_write s) (dac s) s;
  vc_store : forall p a v, 0 <= a < 65536 -> is_byte v -> plain (vc_view p) -> chained (vc_view p) || sequential (vc_view p) = true ->
    vc_view (mem_write a v p) = store a v (vc_view p);
  vc_load : forall p a, 0 <= a < 65536 -> readable (vc_view p) -> chained (vc_view p) || sequential (vc_view p) = true ->
    let '(v, p') := mem_read a p in v = load a (vc_view p) /\ vc_view p' = vc_view p;
  vc_keys : forall p port, port = 0x60 \/ port = 0x64 -> let '(v, p') := port_inb port p in vc_view p' = vc_view p }.

(** ** The code *)

Definition TEXT_FONT_HEIGHT : Z := 16.

Definition g_mode13h : list Z :=
  [0x63;
   0x03; 0x01; 0x0F; 0x00; 0x0E;
   0x5F; 0x4F; 0x50; 0x82; 0x54; 0x80; 0xBF; 0x1F;
   0x00; 0x41; 0x00; 0x00; 0x00; 0x00; 0x00; 0x00;
   0x9C; 0x0E; 0x8F; 0x28; 0x40; 0x96; 0xB9; 0xA3;
   0xFF;
   0x00; 0x00; 0x00; 0x00; 0x00; 0x40; 0x05; 0x0F;
   0xFF;
   0x00; 0x01; 0x02; 0x03; 0x04; 0x05; 0x06; 0x07;
   0x08; 0x09; 0x0A; 0x0B; 0x0C; 0x0D; 0x0E; 0x0F;
   0x41; 0x00; 0x0F; 0x00; 0x00].

Definition g_text80x25 : list Z :=
  [0x67;
   0x03; 0x00; 0x03; 0x00; 0x02;
   0x5F; 0x4F; 0x50; 0x82; 0x55; 0x81; 0xBF; 0x1F;
   0x00; 0x4F; 0x0D; 0x0E; 0x00; 0x00; 0x00; 0x50;
   0x9C; 0x0E; 0x8F; 0x28; 0x1F; 0x96; 0xB9; 0xA3;
   0xFF;
   0x00; 0x00; 0x00; 0x00; 0x00; 0x10; 0x0E; 0x00;
   0xFF;
   0x00; 0x01; 0x02; 0x03; 0x04; 0x05; 0x14; 0x07;
   0x38; 0x39; 0x3A; 0x3B; 0x3C; 0x3D; 0x3E; 0x3F;
   0x0C; 0x00; 0x0F; 0x08; 0x00].

Section Code.
Context {P : Type} `{VC : VgaCard P}.

(** [VGA_MEM[a] = v] and [VGA_MEM[a]]: the 64 KiB behind the pointer. *)
Definition poke (a v : Z) : st P unit := fun p =>
  if (0 <=? a) && (a <? 65536) then Some (tt, mem_write a (u8 v) p) else None.
Definition peek (a : Z) : st P Z := fun p =>
  if (0 <=? a) && (a <? 65536) then let '(v, p) := mem_read a p in Some (u8 v, p) else None.

(** [regs[0x03] |= 0x80; regs[0x11] &= ~0x80;] of [write_regs], in the table it is given. *)
Definition patched (regs : list Z) : list Z :=
  let regs := <[9%nat := u8 (Z.lor (ch regs 9) 0x80)]> regs in
  <[23%nat := u8 (Z.land (ch regs 23) (Z.lnot 0x80))]> regs.

Definition write_regs (regs : list Z) : st P (list Z) :=
  outb VGA_MISC_WRITE (ch regs 0) ;;
  for_st 5 0 (fun i => outb VGA_SEQ_INDEX i ;; outb VGA_SEQ_DATA (ch regs (1 + i))) ;;
  outb VGA_CRTC_INDEX 0x03 ;;
  let* v := inb VGA_CRTC_DATA in
  outb VGA_CRTC_DATA (Z.lor v 0x80) ;;
  outb VGA_CRTC_INDEX 0x11 ;;
  let* v := inb VGA_CRTC_DATA in
  outb VGA_CRTC_DATA (Z.land v (Z.lnot 0x80)) ;;
  let regs := patched regs in
  for_st 25 0 (fun i => outb VGA_CRTC_INDEX i ;; outb VGA_CRTC_DATA (ch regs (6 + i))) ;;
  for_st 9 0 (fun i => outb VGA_GC_INDEX i ;; outb VGA_GC_DATA (ch regs (31 + i))) ;;
  for_st 21 0 (fun i => let* _ := inb VGA_INSTAT_READ in outb VGA_AC_INDEX i ;; outb VGA_AC_WRITE (ch regs (40 + i))) ;;
  let* _ := inb VGA_INSTAT_READ in
  outb VGA_AC_INDEX 0x20 ;;
  ret regs.

Definition select_plane (p : Z) : st P unit :=
  let p := Z.land p 3 in
  let pmask := u8 (Z.shiftl 1 p) in
  outb VGA_GC_INDEX 4 ;;
  outb VGA_GC_DATA p ;;
  outb VGA_SEQ_INDEX 2 ;;
  outb VGA_SEQ_DATA pmask.

(** The common part of [read_font] and [write_font]: plane 2 as bytes at 0xA0000, around
    the copying. *)
Definition with_font {A} (body : st P A) : st P A :=
  outb VGA_SEQ_INDEX 2 ;; let* seq2 := inb VGA_SEQ_DATA in
  outb VGA_SEQ_INDEX 4 ;; let* seq4 := inb VGA_SEQ_DATA in
  outb VGA_SEQ_INDEX 4 ;; outb VGA_SEQ_DATA (Z.lor seq4 0x04) ;;
  outb VGA_GC_INDEX 4 ;; let* gc4 := inb VGA_GC_DATA in
  outb VGA_GC_INDEX 5 ;; let* gc5 := inb VGA_GC_DATA in
  outb VGA_GC_INDEX 5 ;; outb VGA_GC_DATA (Z.land gc5 (Z.lnot 0x10)) ;;
  outb VGA_GC_INDEX 6 ;; let* gc6 := inb VGA_GC_DATA in
  outb VGA_GC_INDEX 6 ;; outb VGA_GC_DATA (Z.land gc6 (Z.lnot 0x0E)) ;;
  select_plane 2 ;;
  let* x := body in
  outb VGA_SEQ_INDEX 2 ;; outb VGA_SEQ_DATA seq2 ;;
  outb VGA_SEQ_INDEX 4 ;; outb VGA_SEQ_DATA seq4 ;;
  outb VGA_GC_INDEX 4 ;; outb VGA_GC_DATA gc4 ;;
  outb VGA_GC_INDEX 5 ;; outb VGA_GC_DATA gc5 ;;
  outb VGA_GC_INDEX 6 ;; outb VGA_GC_DATA gc6 ;;
  ret x.

(** [memcpy(buf + d, VGA_MEM + a, n)]: the buffer afterwards. *)
Fixpoint copy_glyph (n : nat) (d a : Z) (buf : Z -> Z) : st P (Z -> Z) :=
  match n with
  | O => ret buf
  | S n => let* v := peek a in copy_glyph n (d + 1) (a + 1) (buf.[d <- v])
  end.

Fixpoint glyphs_in (n : nat) (i font_height : Z) (buf : Z -> Z) : st P (Z -> Z) :=
  match n with
  | O => ret buf
  | S n => let* buf := copy_glyph (Z.to_nat font_height) (i * font_height) (i * 32) buf in glyphs_in n (i + 1) font_height buf
  end.

Definition read_font (buf : Z -> Z) (font_height : Z) : st P (Z -> Z) := with_font (glyphs_in 256 0 font_height buf).

Definition write_font (buf : Z -> Z) (font_height : Z) : st P unit :=
  with_font (for_st 256 0 (fun i =>
    for_st (Z.to_nat font_height) 0 (fun j => poke (i * 32 + j) (buf (i * font_height + j))))).

Fixpoint dac_in (n : nat) (i : Z) (buf : Z -> Z) : st P (Z -> Z) :=
  match n with
  | O => ret buf
  | S n => let* v := inb VGA_DAC_DATA in dac_in n (i + 1) (buf.[i <- v])
  end.

Definition save_palette (buf : Z -> Z) : st P (Z -> Z) :=
  outb VGA_DAC_READ_INDEX 0 ;; dac_in (256 * 3) 0 buf.

Definition restore_palette (buf : Z -> Z) : st P unit :=
  outb VGA_DAC_WRITE_INDEX 0 ;; for_st (256 * 3) 0 (fun i => outb VGA_DAC_DATA (buf i)).

(** A counting loop that stops when its condition fails. *)
Fixpoint for_while (n : nat) (i : Z) (cond : Z -> bool) (body : Z -> st P unit) : st P unit :=
  match n with
  | O => ret tt
  | S n => if cond i then body i ;; for_while n (i + 1) cond body else ret tt
  end.

(** [gordon_bitmap[i]]. *)
Definition art (i : Z) : st P Z := fun p => match gordon_bitmap !! Z.to_nat i with Some v => Some (v, p) | None => None end.

Definition draw_bitmap_at (x0 y0 color : Z) : st P unit :=
  let x0 := if x0 <? 0 then 0 else x0 in
  let y0 := if y0 <? 0 then 0 else y0 in
  for_while (Z.to_nat GORDON_H) 0 (fun y => y0 + y <? 200) (fun y =>
    let dst := (y0 + y) * 320 + x0 in
    for_while (Z.to_nat GORDON_W) 0 (fun x => x0 + x <? 320) (fun x =>
      let* v := art (y * GORDON_STRIDE + Z.shiftr x 3) in
      if negb (Z.land v (Z.shiftr 0x80 (Z.land x 7)) =? 0) then poke (dst + x) color else ret tt)).

Definition draw_char_at (saved_font : Z -> Z) (x y c color : Z) : st P unit :=
  for_while (Z.to_nat TEXT_FONT_HEIGHT) 0 (fun row => negb (200 <=? y + row)) (fun row =>
    let glyph := saved_font (c * TEXT_FONT_HEIGHT + row) in
    for_while 8 0 (fun bit => negb (320 <=? x + bit)) (fun bit =>
      if negb (Z.land glyph (Z.shiftr 0x80 bit) =? 0) then poke ((y + row) * 320 + (x + bit)) color else ret tt)).

(** [draw_str_at]: the position after the text. *)
Fixpoint draw_str_at (saved_font : Z -> Z) (px y : Z) (s : list Z) (color : Z) : st P Z :=
  match s with
  | [] => ret px
  | c :: s =>
    if px + 8 <=? 320 then draw_char_at saved_font px y (u8 c) color ;; draw_str_at saved_font (px + 8) y s color
    else ret px
  end.

(** The digits [do { ... } while (n)] leaves in [buf], at most [k] of them. *)
Fixpoint digits (k : nat) (n : Z) (acc : list Z) : list Z :=
  match k with
  | O => acc
  | S k => let acc := (48 + n mod 10) :: acc in if n / 10 =? 0 then acc else digits k (n / 10) acc
  end.

Definition draw_uint_at (saved_font : Z -> Z) (px y n color : Z) : st P Z := draw_str_at saved_font px y (digits 11 n []) color.

(** [memset(VGA_MEM, 0, 320 * 200)]. *)
Definition clear_screen : st P unit := for_st (320 * 200) 0 (fun a => poke a 0).

(** The keyboard loops, at most [fuel] polls each. *)
Fixpoint drain_pending (fuel : nat) : st P unit :=
  match fuel with
  | O => undef
  | S n => let* v := inb 0x64 in if Z.testbit v 0 then let* _ := inb 0x60 in drain_pending n else ret tt
  end.

Fixpoint await_press (fuel : nat) : st P unit :=
  match fuel with
  | O => undef
  | S n =>
    let* v := inb 0x64 in
    if Z.testbit v 0 then let* sc := inb 0x60 in if Z.testbit sc 7 then await_press n else ret tt
    else await_press n
  end.

Definition wait_for_key (fuel : nat) : st P unit := drain_pending fuel ;; await_press fuel.

(** The machine, the static buffers and tables, and the text terminal. *)
Record gfx := mk_gfx {
  hw : P; saved_font : Z -> Z; saved_palette : Z -> Z; mode13 : list Z; text80 : list Z; tty : Vga.terminal }.

Definition on_hw {A} (m : st P A) : st gfx A := fun s =>
  match m (hw s) with
  | Some (x, p) => Some (x, mk_gfx p (saved_font s) (saved_palette s) (mode13 s) (text80 s) (tty s))
  | None => None
  end.
Definition set_font (f : Z -> Z) : st gfx unit := modify (fun s => mk_gfx (hw s) f (saved_palette s) (mode13 s) (text80 s) (tty s)).
Definition set_palette (f : Z -> Z) : st gfx unit := modify (fun s => mk_gfx (hw s) (saved_font s) f (mode13 s) (text80 s) (tty s)).
Definition set_mode13 (t : list Z) : st gfx unit := modify (fun s => mk_gfx (hw s) (saved_font s) (saved_palette s) t (text80 s) (tty s)).
Definition set_text80 (t : list Z) : st gfx unit := modify (fun s => mk_gfx (hw s) (saved_font s) (saved_palette s) (mode13 s) t (tty s)).
Definition on_tty {A} (m : st Vga.terminal A) : st gfx A := fun s =>
  match m (tty s) with
  | Some (x, t) => Some (x, mk_gfx (hw s) (saved_font s) (saved_palette s) (mode13 s) (text80 s) t)
  | None => None
  end.

(** [save_palette(saved_palette); read_font(saved_font, ...); write_regs(g_mode13h);]. *)
Definition enter_graphics : st gfx unit :=
  let* s := gets id in
  let* pal := on_hw (save_palette (saved_palette s)) in
  set_palette pal ;;
  let* font := on_hw (read_font (saved_font s) TEXT_FONT_HEIGHT) in
  set_font font ;;
  let* t := on_hw (write_regs (mode13 s)) in
  set_mode13 t.

(** [write_regs(g_text80x25); write_font(...); restore_palette(...); terminal_initialize();]. *)
Definition leave_graphics : st gfx unit :=
  let* s := gets id in
  let* t := on_hw (write_regs (text80 s)) in
  set_text80 t ;;
  on_hw (write_font (saved_font s) TEXT_FONT_HEIGHT) ;;
  on_hw (restore_palette (saved_palette s)) ;;
  on_tty Vga.terminal_initialize.

Fixpoint dac_out (l : list Z) : st P unit :=
  match l with [] => ret tt | v :: l => outb VGA_DAC_DATA v ;; dac_out l end.

Definition vga_splash_gordon (fuel : nat) : st gfx unit :=
  enter_graphics ;;
  on_hw (outb VGA_DAC_WRITE_INDEX 0) ;;
  on_hw (dac_out [0; 0; 0; 63; 40; 10]) ;;
  on_hw clear_screen ;;
  on_hw (draw_bitmap_at (Z.quot (320 - GORDON_W) 2) (Z.quot (200 - GORDON_H) 2) 1) ;;
  on_hw (wait_for_key fuel) ;;
  leave_graphics.

Definition ega : list Z :=
  [0; 0; 0; 0; 0; 42; 0; 42; 0; 0; 42; 42;
   42; 0; 0; 42; 0; 42; 42; 21; 0; 42; 42; 42;
   21; 21; 21; 21; 21; 63; 21; 63; 21; 21; 63; 63;
   63; 21; 21; 63; 21; 63; 63; 63; 21; 63; 63; 63].

(** One line of text: pieces with their colours, drawn one behind the other. *)
Inductive piece := Text (s : list Z) (color : Z) | Number (n color : Z).

Fixpoint draw_pieces (font : Z -> Z) (x y : Z) (l : list piece) : st P Z :=
  match l with
  | [] => ret x
  | Text s c :: l => let* x := draw_str_at font x y s c in draw_pieces font x y l
  | Number n c :: l => let* x := draw_uint_at font x y n c in draw_pieces font x y l
  end.

Fixpoint draw_lines (font : Z -> Z) (tx ty : Z) (l : list (list piece)) : st P Z :=
  match l with
  | [] => ret ty
  | ps :: l => let* _ := draw_pieces font tx ty ps in draw_lines font tx (ty + TEXT_FONT_HEIGHT) l
  end.

Definition fetch_lines (cpu : list Z) (used_mb total_mb uptime_secs : Z) : list (list piece) :=
  [[Text (chars "gordon") 4; Text (chars "@") 2; Text (chars "gordos") 4];
   [Text (chars "-------------") 2];
   [Text (chars "OS:     ") 3; Text (chars "GordOS (i686)") 2];
   [Text (chars "Kernel: ") 3; Text (chars "monolithic") 2];
   [Text (chars "Uptime: ") 3; Number (uptime_secs / 60) 2; Text (chars "m ") 2; Number (uptime_secs mod 60) 2; Text (chars "s") 2];
   [Text (chars "Shell:  ") 3; Text (chars "gsh") 2];
   [Text (chars "CPU:    ") 3; Text (take 14 cpu) 2];
   [Text (chars "Memory: ") 3; Number used_mb 2; Text (chars " / ") 2; Number total_mb 2; Text (chars " MB") 2]].

Definition draw_swatches (tx ty : Z) : st P unit :=
  for_st 2 0 (fun row => for_st 8 0 (fun col =>
    let index := u8 (5 + row * 8 + col) in
    let sx := tx + col * 14 in
    let sy := ty + row * 12 in
    for_while 10 0 (fun py => sy + py <? 200) (fun py =>
      for_while 13 0 (fun bx => sx + bx <? 320) (fun bx => poke ((sy + py) * 320 + sx + bx) index)))).

Definition vga_fasterfetch (fuel : nat) (cpu : list Z) (used_mb total_mb uptime_secs : Z) : st gfx unit :=
  enter_graphics ;;
  on_hw (outb VGA_DAC_WRITE_INDEX 0) ;;
  on_hw (dac_out ([0; 0; 0; 63; 40; 10; 63; 63; 63; 21; 63; 63; 21; 63; 21] ++ ega)) ;;
  on_hw clear_screen ;;
  let gx := 5 in
  let gy := Z.quot (200 - GORDON_H) 2 in
  on_hw (draw_bitmap_at gx gy 1) ;;
  let tx := gx + GORDON_W + 14 in
  let ty := Z.quot (200 - 8 * TEXT_FONT_HEIGHT) 2 in
  let ty := if ty <? 4 then 4 else ty in
  let* s := gets id in
  let* ty := on_hw (draw_lines (saved_font s) tx ty (fetch_lines cpu used_mb total_mb uptime_secs)) in
  on_hw (draw_swatches tx (ty + 8)) ;;
  on_hw (wait_for_key fuel) ;;
  leave_graphics.


End Code.

(** ** Registers *)

Section Registers.
Context {P : Type} `{VC : VgaCard P}.

(** Everything but the register files. *)
Definition others (s : vga) := (misc s, (ac_idx s, ac_flip s, ac s), (dac_read s, dac_write s, dac s), plane s).

Lemma bset_same {A} (f : bank -> A) b v : bset f b v b = v.
Proof. unfold bset. by destruct (decide (b = b)). Qed.

Lemma bset_other {A} (f : bank -> A) b v b' : b' <> b -> bset f b v b' = f b'.
Proof. unfold bset. by destruct (decide (b' = b)). Qed.

Lemma index_ok b i (p : P) : is_byte i -> exists p', outb (index_port b) i p = Some (tt, p') /\ vc_view p' = set_index b i (vc_view p).
Proof. intros Hi. eexists. split; [reflexivity|]. rewrite vc_index by apply u8_bound. by rewrite u8_small. Qed.

Lemma data_ok b v (p : P) : exists p', outb (data_port b) v p = Some (tt, p') /\ vc_view p' = put_reg b (u8 v) (vc_view p).
Proof. eexists. split; [reflexivity|]. apply vc_data, u8_bound. Qed.

Lemma get_ok b (p : P) : exists p', inb (data_port b) p = Some (reg (vc_view p) b (idx (vc_view p) b), p') /\ vc_view p' = vc_view p.
Proof.
  unfold inb. pose proof (vc_get p b) as H. destruct (port_inb (data_port b) p) as [v p']. destruct H as [-> V]. exists p'. by rewrite u8_small by apply vc_bytes.
Qed.

(** [outb(index, i); outb(data, v)]. *)
Lemma write_reg_ok b i v (p : P) : is_byte i -> locked b i (vc_view p) = false ->
  exists p', (outb (index_port b) i ;; outb (data_port b) v) p = Some (tt, p')
  /\ others (vc_view p') = others (vc_view p)
  /\ forall b' k, reg (vc_view p') b' k = if decide (b' = b) then (if k =? i then u8 v else reg (vc_view p) b k) else reg (vc_view p) b' k.
Proof.
  intros Hi Hl. destruct (index_ok b i p Hi) as (p1 & E1 & V1). destruct (data_ok b v p1) as (p2 & E2 & V2). exists p2.
  rewrite (bind_ok _ _ _ _ _ E1), V2, V1. split; [done|]. unfold put_reg.
  assert (idx (set_index b i (vc_view p)) b = i) as -> by (cbn; apply bset_same).
  change (locked b i (set_index b i (vc_view p))) with (locked b i (vc_view p)). rewrite Hl. split; [done|].
  intros b' k. cbn [set_regs reg set_index]. destruct (decide (b' = b)) as [->|Hne]; [by rewrite bset_same|by rewrite bset_other].
Qed.

(** [outb(index, i); v = inb(data)]. *)
Lemma read_reg_ok {A} b i (k : Z -> st P A) (p : P) : is_byte i ->
  exists p', (outb (index_port b) i ;; bind (inb (data_port b)) k) p = k (reg (vc_view p) b i) p'
  /\ idx (vc_view p') b = i /\ others (vc_view p') = others (vc_view p) /\ reg (vc_view p') = reg (vc_view p).
Proof.
  intros Hi. destruct (index_ok b i p Hi) as (p1 & E1 & V1). destruct (get_ok b p1) as (p2 & E2 & V2). exists p2.
  rewrite (bind_ok _ _ _ _ _ E1), (bind_ok _ _ _ _ _ E2), V2, V1. cbn [idx reg set_index]. by rewrite !bset_same.
Qed.

(** A loop over the first [n] registers of a file. *)
Lemma bank_loop b (n : nat) (f : Z -> Z) (p : P) : (n <= 256)%nat ->
  (b = Crtc -> Z.testbit (reg (vc_view p) Crtc 0x11) 7 = false /\ Z.testbit (u8 (f 0x11)) 7 = false) ->
  exists p', for_st n 0 (fun i => outb (index_port b) i ;; outb (data_port b) (f i)) p = Some (tt, p')
  /\ others (vc_view p') = others (vc_view p)
  /\ forall b' k, reg (vc_view p') b' k = if decide (b' = b) then (if (0 <=? k) && (k <? Z.of_nat n) then u8 (f k) else reg (vc_view p) b k) else reg (vc_view p) b' k.
Proof.
  intros Hn Hl. destruct (for_st_ind (fun i q => others (vc_view q) = others (vc_view p)
    /\ forall b' k, reg (vc_view q) b' k = if decide (b' = b) then (if (0 <=? k) && (k <? i) then u8 (f k) else reg (vc_view p) b k) else reg (vc_view p) b' k)
    n 0 (fun i => outb (index_port b) i ;; outb (data_port b) (f i)) p) as (p' & E & H); [| |by exists p'].
  - split; [done|]. intros b' k. destruct (decide (b' = b)) as [->|]; [|done]. zspec; simpl; done || lia.
  - intros i q Hi [Ho Hr]. destruct (write_reg_ok b i (f i) q) as (q' & E & Ho' & Hr').
    + unfold is_byte. lia.
    + unfold locked. destruct b; try done. destruct (Hl eq_refl) as [L1 L2]. rewrite Hr. destruct (decide (Crtc = Crtc)); [|done].
      destruct ((0 <=? 17) && (17 <? i)); [rewrite L2|rewrite L1]; apply andb_false_r.
    + exists q'. split; [exact E|]. split; [congruence|]. intros b' k. rewrite Hr'. destruct (decide (b' = b)) as [->|Hne].
      * rewrite Hr. destruct (decide (b = b)); [|done]. destruct (Z.eqb_spec k i) as [->|]; zspec; simpl; done || lia.
      * rewrite Hr. by destruct (decide (b' = b)).
Qed.

Lemma ac_loop (n : nat) (f : Z -> Z) (p : P) : (n <= 256)%nat ->
  exists p', for_st n 0 (fun i => let* _ := inb VGA_INSTAT_READ in outb VGA_AC_INDEX i ;; outb VGA_AC_WRITE (f i)) p = Some (tt, p')
  /\ reg (vc_view p') = reg (vc_view p) /\ misc (vc_view p') = misc (vc_view p) /\ plane (vc_view p') = plane (vc_view p)
  /\ dac (vc_view p') = dac (vc_view p)
  /\ forall k, ac (vc_view p') k = if (0 <=? k) && (k <? Z.of_nat n) then u8 (f k) else ac (vc_view p) k.
Proof.
  intros Hn. destruct (for_st_ind (fun i q => reg (vc_view q) = reg (vc_view p) /\ misc (vc_view q) = misc (vc_view p) /\ plane (vc_view q) = plane (vc_view p)
    /\ dac (vc_view q) = dac (vc_view p) /\ forall k, ac (vc_view q) k = if (0 <=? k) && (k <? i) then u8 (f k) else ac (vc_view p) k)
    n 0 (fun i => let* _ := inb VGA_INSTAT_READ in outb VGA_AC_INDEX i ;; outb VGA_AC_WRITE (f i)) p) as (p' & E & H); [| |by exists p'].
  - do 4 (split; [done|]). intros k. zspec; simpl; done || lia.
  - intros i q Hi (H1 & H2 & H3 & H4 & H5). unfold inb, outb. pose proof (vc_instat q) as Hv. destruct (port_inb VGA_INSTAT_READ q) as [v q1] eqn:Eq.
    erewrite bind_ok by (by rewrite Eq). erewrite bind_ok by reflexivity. eexists. split; [reflexivity|].
    change VGA_AC_WRITE with VGA_AC_INDEX. rewrite !vc_ac, Hv by apply u8_bound. rewrite (u8_small i) by (unfold is_byte; lia). unfold put_ac. cbn.
    do 4 (split; [done|]). intros k. unfold upd. rewrite H5. destruct (Z.eqb_spec k i) as [->|]; zspec; simpl; done || lia.
Qed.

(** Clearing the write protection; whatever it does to registers 3 and 0x11. *)
Lemma unlock_ok {A} (k : st P A) (p : P) :
  exists p', (outb VGA_CRTC_INDEX 0x03 ;; let* v := inb VGA_CRTC_DATA in outb VGA_CRTC_DATA (Z.lor v 0x80) ;;
    outb VGA_CRTC_INDEX 0x11 ;; let* v := inb VGA_CRTC_DATA in outb VGA_CRTC_DATA (Z.land v (Z.lnot 0x80)) ;; k) p = k p'
  /\ others (vc_view p') = others (vc_view p) /\ (forall b i, b <> Crtc -> reg (vc_view p') b i = reg (vc_view p) b i)
  /\ Z.testbit (reg (vc_view p') Crtc 0x11) 7 = false.
Proof.
  assert (forall v (q : P), exists q', outb VGA_CRTC_DATA v q = Some (tt, q') /\ others (vc_view q') = others (vc_view q)
    /\ (forall b i, b <> Crtc -> reg (vc_view q') b i = reg (vc_view q) b i)
    /\ (idx (vc_view q) Crtc = 0x11 -> reg (vc_view q') Crtc 0x11 = u8 v)) as Hd.
  { intros v q. destruct (data_ok Crtc v q) as (q' & E & V). exists q'. split; [exact E|]. rewrite V. unfold put_reg. destruct (locked Crtc _ _) eqn:El.
    - do 2 (split; [done|]). intros Hi. by rewrite Hi in El.
    - split; [done|]. cbn [set_regs reg]. split; [intros; by rewrite bset_other|]. intros ->. by rewrite bset_same. }
  destruct (read_reg_ok Crtc 3 (fun v => outb VGA_CRTC_DATA (Z.lor v 0x80) ;; outb VGA_CRTC_INDEX 0x11 ;;
    let* v := inb VGA_CRTC_DATA in outb VGA_CRTC_DATA (Z.land v (Z.lnot 0x80)) ;; k) p ltac:(done)) as (p1 & E1 & _ & O1 & R1).
  change (index_port Crtc) with VGA_CRTC_INDEX in E1. change (data_port Crtc) with VGA_CRTC_DATA in E1. rewrite E1. clear E1.
  destruct (Hd (Z.lor (reg (vc_view p) Crtc 3) 0x80) p1) as (p2 & E2 & O2 & R2 & _). rewrite (bind_ok _ _ _ _ _ E2).
  destruct (read_reg_ok Crtc 0x11 (fun v => outb VGA_CRTC_DATA (Z.land v (Z.lnot 0x80)) ;; k) p2 ltac:(done)) as (p3 & E3 & I3 & O3 & R3).
  change (index_port Crtc) with VGA_CRTC_INDEX in E3. change (data_port Crtc) with VGA_CRTC_DATA in E3. rewrite E3. clear E3.
  destruct (Hd (Z.land (reg (vc_view p2) Crtc 0x11) (Z.lnot 0x80)) p3) as (p4 & E4 & O4 & R4 & L4). rewrite (bind_ok _ _ _ _ _ E4).
  exists p4. split; [done|]. split; [congruence|]. split.
  - intros b i Hb. rewrite R4, R3, R2, R1 by done. done.
  - rewrite (L4 I3). unfold u8. change 256 with (2 ^ 8). rewrite Z.mod_pow2_bits_low, Z.land_spec by lia. change (Z.testbit (Z.lnot 128) 7) with false. apply andb_false_r.
Qed.

(** [write_regs]: every register file holds what the table says. *)
Lemma write_regs_ok regs (p : P) : Z.testbit (u8 (ch (patched regs) 23)) 7 = false ->
  exists p', write_regs regs p = Some (patched regs, p') /\ misc (vc_view p') = u8 (ch regs 0)
  /\ (forall k, 0 <= k < 5 -> reg (vc_view p') Seq k = u8 (ch regs (1 + k)))
  /\ (forall k, 0 <= k < 25 -> reg (vc_view p') Crtc k = u8 (ch (patched regs) (6 + k)))
  /\ (forall k, 0 <= k < 9 -> reg (vc_view p') Gc k = u8 (ch (patched regs) (31 + k)))
  /\ (forall k, 0 <= k < 21 -> ac (vc_view p') k = u8 (ch (patched regs) (40 + k)))
  /\ plane (vc_view p') = plane (vc_view p) /\ dac (vc_view p') = dac (vc_view p).
Proof.
  intros H17. unfold write_regs. unfold outb at 1. erewrite bind_ok by reflexivity.
  set (p1 := port_outb VGA_MISC_WRITE _ p). assert (vc_view p1 = set_misc (u8 (ch regs 0)) (vc_view p)) as V1 by apply vc_misc, u8_bound.
  destruct (bank_loop Seq 5 (fun i => ch regs (1 + i)) p1 ltac:(lia) ltac:(done)) as (p2 & E2 & O2 & R2). rewrite (bind_ok _ _ _ _ _ E2). cbv zeta.
  match goal with |- context [outb VGA_CRTC_DATA (Z.land _ _) ;; ?k] => destruct (unlock_ok k p2) as (p3 & E3 & O3 & R3 & L3) end. rewrite E3. clear E3.
  destruct (bank_loop Crtc 25 (fun i => ch (patched regs) (6 + i)) p3 ltac:(lia) ltac:(done)) as (p4 & E4 & O4 & R4). rewrite (bind_ok _ _ _ _ _ E4).
  destruct (bank_loop Gc 9 (fun i => ch (patched regs) (31 + i)) p4 ltac:(lia) ltac:(done)) as (p5 & E5 & O5 & R5). rewrite (bind_ok _ _ _ _ _ E5).
  destruct (ac_loop 21 (fun i => ch (patched regs) (40 + i)) p5 ltac:(lia)) as (p6 & E6 & R6 & M6 & P6 & D6 & A6). rewrite (bind_ok _ _ _ _ _ E6).
  unfold inb, outb. pose proof (vc_instat p6) as V7. destruct (port_inb VGA_INSTAT_READ p6) as [v p7] eqn:Eq. erewrite bind_ok by (by rewrite Eq).
  erewrite bind_ok by reflexivity. eexists. split; [reflexivity|]. rewrite vc_ac, V7 by apply u8_bound. unfold put_ac. cbn [ac_flip set_ac misc reg plane dac ac].
  assert (others (vc_view p5) = others (vc_view p1)) as O by congruence. unfold others in O. rewrite V1 in O. injection O as Om _ _ _ _ _ Od Op.
  rewrite R6, M6, P6, D6, Om, Od, Op. split; [done|].
  assert (forall k n, 0 <= k < n -> (0 <=? k) && (k <? n) = true) as Hin by (intros; zspec; done || lia). repeat apply conj; try done.
  - intros k Hk. rewrite R5. destruct (decide (Seq = Gc)); [done|]. rewrite R4. destruct (decide (Seq = Crtc)); [done|]. rewrite R3, R2 by done. destruct (decide (Seq = Seq)); [|done]. by rewrite Hin.
  - intros k Hk. rewrite R5. destruct (decide (Crtc = Gc)); [done|]. rewrite R4. destruct (decide (Crtc = Crtc)); [|done]. by rewrite Hin.
  - intros k Hk. rewrite R5. destruct (decide (Gc = Gc)); [|done]. by rewrite Hin.
  - intros k Hk. rewrite A6. by rewrite Hin.
Qed.

Lemma write_then {A} b i v (k : st P A) (p : P) : is_byte i -> b <> Crtc ->
  exists p', (outb (index_port b) i ;; outb (data_port b) v ;; k) p = k p' /\ others (vc_view p') = others (vc_view p)
  /\ forall b' j, reg (vc_view p') b' j = if decide (b' = b) then (if j =? i then u8 v else reg (vc_view p) b j) else reg (vc_view p) b' j.
Proof.
  intros Hi Hb. destruct (write_reg_ok b i v p Hi) as (p' & E & H); [by destruct b|]. exists p'. split; [|done].
  unfold bind in *. destruct (outb (index_port b) i p) as [[? p1]|]; [|done]. by rewrite E.
Qed.

(** Plane 2 as bytes in the window. *)
Definition font_access (s : vga) : Prop :=
  (reg s Gc 6 / 4) mod 4 < 2 /\ Z.testbit (reg s Gc 5) 3 = false /\ sequential s = true /\ reg s Gc 4 = 2 /\ reg s Seq 2 = 4.

Lemma clear_bits v : is_byte v -> is_byte (Z.land v (Z.lnot 0x10)) /\ is_byte (Z.land v (Z.lnot 0x0E))
  /\ (Z.testbit v 3 = false -> Z.testbit (Z.land v (Z.lnot 0x10)) 3 = false)
  /\ (Z.land v (Z.lnot 0x0E) / 4) mod 4 < 2 /\ Z.land v (Z.lnot 0x10) mod 4 = v mod 4
  /\ is_byte (Z.lor v 4) /\ Z.testbit (Z.lor v 4) 2 = true /\ Z.testbit (Z.lor v 4) 3 = Z.testbit v 3.
Proof.
  intros Hv. pose (f := fun v => (0 <=? Z.land v (Z.lnot 0x10)) && (Z.land v (Z.lnot 0x10) <? 256) && ((0 <=? Z.land v (Z.lnot 0x0E)) && (Z.land v (Z.lnot 0x0E) <? 256))
    && (Z.testbit v 3 || negb (Z.testbit (Z.land v (Z.lnot 0x10)) 3)) && ((Z.land v (Z.lnot 0x0E) / 4) mod 4 <? 2) && (Z.land v (Z.lnot 0x10) mod 4 =? v mod 4)
    && ((0 <=? Z.lor v 4) && (Z.lor v 4 <? 256)) && Z.testbit (Z.lor v 4) 2 && Bool.eqb (Z.testbit (Z.lor v 4) 3) (Z.testbit v 3)).
  assert (forallb f (map Z.of_nat (seq 0 256)) = true) as H by (vm_compute; done). rewrite forallb_forall in H. specialize (H v).
  rewrite in_map_iff in H. unfold is_byte in *. assert (f v = true) as Hf by (apply H; exists (Z.to_nat v); rewrite in_seq; lia). clear H. unfold f in Hf. zbool.
  repeat match goal with H : Bool.eqb _ _ = true |- _ => apply eqb_prop in H end. repeat split; try done.
  intros E. match goal with H : _ || negb _ = true |- _ => rewrite E in H; by apply negb_true_iff in H end.
Qed.

(** The next access of a hypothesis [E : _ = program p]. *)
Ltac font_read E q O R :=
  match type of E with
  | _ = (bind (outb (index_port ?b) ?i) (fun _ => bind (inb (data_port ?b)) ?k)) ?p =>
    let E1 := fresh in destruct (read_reg_ok b i k p ltac:(done)) as (q & E1 & _ & O & R); rewrite E1 in E; clear E1; cbv beta in E
  end.
Ltac font_write E q O R :=
  match type of E with
  | _ = (bind (outb (index_port ?b) ?i) (fun _ => bind (outb (data_port ?b) ?v) (fun _ => ?k))) ?p =>
    let E1 := fresh in destruct (write_then b i v k p ltac:(done) ltac:(done)) as (q & E1 & O & R); rewrite E1 in E; clear E1; cbv beta in E
  end.

(** Which file a register belongs to. *)
Ltac font_regs := repeat match goal with |- context [decide (?a = ?b)] => destruct (decide (a = b)); try done end.

Lemma select_ok (p : P) : exists p', select_plane 2 p = Some (tt, p') /\ others (vc_view p') = others (vc_view p)
  /\ forall b j, reg (vc_view p') b j = match b with
       | Seq => if j =? 2 then 4 else reg (vc_view p) Seq j
       | Gc => if j =? 4 then 2 else reg (vc_view p) Gc j
       | Crtc => reg (vc_view p) Crtc j end.
Proof.
  unfold select_plane. change VGA_SEQ_INDEX with (index_port Seq). change VGA_SEQ_DATA with (data_port Seq).
  change VGA_GC_INDEX with (index_port Gc). change VGA_GC_DATA with (data_port Gc). cbv zeta. change (Z.land 2 3) with 2. change (u8 (Z.shiftl 1 2)) with 4.
  destruct (write_then Gc 4 2 (outb (index_port Seq) 2 ;; outb (data_port Seq) 4) p ltac:(done) ltac:(done)) as (p1 & -> & O1 & R1).
  destruct (write_reg_ok Seq 2 4 p1 ltac:(done) eq_refl) as (p2 & -> & O2 & R2). exists p2. split; [done|]. split; [congruence|].
  intros b j. rewrite R2. destruct b; font_regs; rewrite !R1; font_regs; done.
Qed.

Lemma with_font_ok {A} (body : st P A) (p : P) : chained (vc_view p) = false -> Z.testbit (reg (vc_view p) Gc 5) 3 = false ->
  exists q, others (vc_view q) = others (vc_view p) /\ font_access (vc_view q)
  /\ (forall i, i <> 4 -> i <> 5 -> i <> 6 -> reg (vc_view q) Gc i = reg (vc_view p) Gc i) /\ reg (vc_view q) Gc 5 mod 4 = reg (vc_view p) Gc 5 mod 4
  /\ forall x q1, body q = Some (x, q1) -> reg (vc_view q1) = reg (vc_view q) ->
     exists p', with_font body p = Some (x, p') /\ others (vc_view p') = others (vc_view q1) /\ forall b i, reg (vc_view p') b i = reg (vc_view p) b i.
Proof.
  intros Hch H5. pose proof (eq_refl (with_font body p)) as E. unfold with_font at 2 in E. unfold select_plane in E.
  change VGA_SEQ_INDEX with (index_port Seq) in E. change VGA_SEQ_DATA with (data_port Seq) in E.
  change VGA_GC_INDEX with (index_port Gc) in E. change VGA_GC_DATA with (data_port Gc) in E.
  font_read E p1 O1 R1. font_read E p2 O2 R2. font_write E p3 O3 R3. font_read E p4 O4 R4. font_read E p5 O5 R5. font_write E p6 O6 R6. font_read E p7 O7 R7. font_write E p8 O8 R8.
  destruct (select_ok p8) as (q & Eq & O9 & R9). rewrite (bind_ok _ _ _ _ _ Eq) in E.
  set (r := reg (vc_view p)) in *. assert (forall j, is_byte (r Gc j)) as HG by (intros; apply vc_bytes). assert (forall j, is_byte (r Seq j)) as HS by (intros; apply vc_bytes).
  destruct (clear_bits _ (HG 5)) as (B5 & _ & T5 & _ & M5 & _). destruct (clear_bits _ (HG 6)) as (_ & B6 & _ & D6 & _). destruct (clear_bits _ (HS 4)) as (_ & _ & _ & _ & _ & B4 & T2 & T3).
  assert (forall b j, reg (vc_view q) b j = match b with
    | Seq => if j =? 2 then 4 else if j =? 4 then Z.lor (r Seq 4) 4 else r Seq j
    | Gc => if j =? 4 then 2 else if j =? 6 then Z.land (r Gc 6) (Z.lnot 0x0E) else if j =? 5 then Z.land (r Gc 5) (Z.lnot 0x10) else r Gc j
    | Crtc => r Crtc j end) as Q.
  { intros b j. rewrite R9. destruct b; font_regs; rewrite R8, ?R7; font_regs; rewrite ?R6, ?R5, ?R4; font_regs; rewrite ?R3, ?R2, ?R1; font_regs;
      zspec; subst; try done; try lia; apply u8_small; done. }
  exists q. split; [congruence|]. split; [|split; [|split]].
  - unfold font_access, sequential, chained. rewrite !Q. cbn [Z.eqb Pos.eqb]. rewrite T2, T3. unfold chained in Hch. fold r in Hch. rewrite Hch. repeat split; auto.
  - intros i H4' H5' H6'. rewrite Q. zspec; try done; congruence.
  - rewrite Q. exact M5.
  - intros x q1 Eb Rq. rewrite (bind_ok _ _ _ _ _ Eb) in E.
    font_write E s1 P1 S1. font_write E s2 P2 S2. font_write E s3 P3 S3. font_write E s4 P4 S4. font_write E s5 P5 S5. exists s5. split; [exact E|]. split; [congruence|].
    assert (reg (vc_view p1) Seq 4 = r Seq 4 /\ reg (vc_view p3) Gc 4 = r Gc 4 /\ reg (vc_view p4) Gc 5 = r Gc 5 /\ reg (vc_view p6) Gc 6 = r Gc 6) as (V1 & V2 & V3 & V4).
    { rewrite R6, R5, R4, R1. font_regs. rewrite !R3, R2, R1. by font_regs. }
    intros b i. destruct b; rewrite S5; font_regs; rewrite ?S4; font_regs; rewrite ?S3; font_regs; rewrite ?S2; font_regs; rewrite ?S1; font_regs;
      rewrite ?V1, ?V2, ?V3, ?V4, ?Rq, ?Q, ?(u8_small (r _ _)) by auto; zspec; subst; done || lia.
Qed.



(** ** Font and palette *)

Lemma peek_font a (q : P) : font_access (vc_view q) -> 0 <= a < 65536 ->
  exists q', peek a q = Some (plane (vc_view q) 2 a, q') /\ vc_view q' = vc_view q.
Proof.
  intros (H6 & H5 & Hs & H4 & H2) Ha. unfold peek. destruct (Z.leb_spec 0 a), (Z.ltb_spec a 65536); try lia. cbn [andb].
  pose proof (vc_load q a Ha (conj H6 H5) ltac:(rewrite Hs; apply orb_true_r)) as Hv. destruct (mem_read a q) as [v q']. destruct Hv as [-> V].
  exists q'. split; [|done]. unfold load. unfold sequential in Hs. destruct (chained (vc_view q)); [done|]. rewrite H4. change (2 mod 4) with 2. by rewrite u8_small by apply vc_cells.
Qed.

Lemma copy_glyph_ok (n : nat) : forall d a buf (q : P), font_access (vc_view q) -> 0 <= a -> a + Z.of_nat n <= 65536 ->
  exists buf' q', copy_glyph n d a buf q = Some (buf', q') /\ vc_view q' = vc_view q
  /\ forall x, buf' x = blit buf d (plane (vc_view q) 2) a (Z.of_nat n) x.
Proof.
  induction n as [|n IH]; intros d a buf q Hf Ha Hn; cbn [copy_glyph].
  - exists buf, q. do 2 (split; [done|]). intros x. unfold blit. zspec; simpl; done || lia.
  - destruct (peek_font a q Hf ltac:(lia)) as (q1 & E1 & V1). rewrite (bind_ok _ _ _ _ _ E1).
    destruct (IH (d + 1) (a + 1) (buf.[d <- plane (vc_view q) 2 a]) q1) as (buf' & q' & E & V & Hb); [by rewrite V1|lia|lia|].
    exists buf', q'. split; [exact E|]. split; [congruence|]. intros x. rewrite Hb, V1. unfold blit, upd. zspec; simpl; try done; try lia; f_equal; lia.
Qed.

Lemma glyphs_in_ok (n : nat) : forall i buf (q : P), font_access (vc_view q) -> 0 <= i -> (i + Z.of_nat n) * 32 <= 65536 ->
  exists buf' q', glyphs_in n i TEXT_FONT_HEIGHT buf q = Some (buf', q') /\ vc_view q' = vc_view q
  /\ (forall x, x < i * 16 -> buf' x = buf x)
  /\ forall c j, i <= c < i + Z.of_nat n -> 0 <= j < 16 -> buf' (c * 16 + j) = plane (vc_view q) 2 (c * 32 + j).
Proof.
  induction n as [|n IH]; intros i buf q Hf Hi Hn; cbn [glyphs_in].
  - exists buf, q. do 3 (split; [done|]). lia.
  - unfold TEXT_FONT_HEIGHT in *. destruct (copy_glyph_ok (Z.to_nat 16) (i * 16) (i * 32) buf q Hf) as (buf1 & q1 & E1 & V1 & B1); [lia|lia|]. rewrite (bind_ok _ _ _ _ _ E1).
    destruct (IH (i + 1) buf1 q1) as (buf' & q' & E & V & Hlow & Hb); [by rewrite V1|lia|lia|].
    exists buf', q'. split; [exact E|]. split; [congruence|]. split.
    + intros x Hx. rewrite Hlow by lia. rewrite B1, blit_out by lia. done.
    + intros c j Hc Hj. destruct (decide (c = i)) as [->|]; [|rewrite Hb, V1 by lia; done].
      rewrite Hlow by lia. rewrite B1, blit_in by lia. f_equal. lia.
Qed.

(** The font is read, and the registers are as before. *)
Lemma read_font_ok buf (p : P) : chained (vc_view p) = false -> Z.testbit (reg (vc_view p) Gc 5) 3 = false ->
  exists buf' p', read_font buf TEXT_FONT_HEIGHT p = Some (buf', p') /\ others (vc_view p') = others (vc_view p)
  /\ (forall b i, reg (vc_view p') b i = reg (vc_view p) b i)
  /\ forall c j, 0 <= c < 256 -> 0 <= j < 16 -> buf' (c * 16 + j) = plane (vc_view p) 2 (c * 32 + j).
Proof.
  intros Hch H5. destruct (with_font_ok (glyphs_in 256 0 TEXT_FONT_HEIGHT buf) p Hch H5) as (q & Oq & Hf & _ & _ & Hend).
  destruct (glyphs_in_ok 256 0 buf q Hf) as (buf' & q1 & E & V & _ & Hb); [lia|lia|].
  destruct (Hend buf' q1 E ltac:(by rewrite V)) as (p' & E' & O' & R'). exists buf', p'. split; [exact E'|]. split; [congruence|]. split; [done|].
  intros c j Hc Hj. rewrite Hb by lia. unfold others in Oq. congruence.
Qed.

(** A store through the font window. *)
Definition planed (q q' : P) : Prop := exists f, vc_view q' = set_plane f (vc_view q).

Lemma planed_refl q : planed q q.
Proof. exists (plane (vc_view q)). by destruct (vc_view q). Qed.

Lemma planed_trans q1 q2 q3 : planed q1 q2 -> planed q2 q3 -> planed q1 q3.
Proof. intros [f Hf] [h Hh]. exists h. by rewrite Hh, Hf. Qed.

Lemma poke_font a v (q : P) : font_access (vc_view q) -> plain (vc_view q) -> 0 <= a < 65536 ->
  exists q', poke a v q = Some (tt, q') /\ planed q q' /\ forall x, plane (vc_view q') 2 x = if x =? a then u8 v else plane (vc_view q) 2 x.
Proof.
  intros (H6 & H5 & Hs & H4 & H2) Hp Ha. unfold poke. destruct (Z.leb_spec 0 a), (Z.ltb_spec a 65536); try lia. cbn [andb]. eexists. split; [reflexivity|].
  rewrite vc_store by (done || apply u8_bound || (rewrite Hs; apply orb_true_r)). split; [eexists; rewrite vc_store by (done || apply u8_bound || (rewrite Hs; apply orb_true_r)); reflexivity|].
  intros x. unfold store. cbn [set_plane plane]. unfold sequential in Hs. destruct (chained (vc_view q)); [done|]. rewrite H2. change (Z.testbit 4 2) with true. by rewrite andb_true_r.
Qed.

Lemma write_glyphs_ok buf (q : P) : font_access (vc_view q) -> plain (vc_view q) ->
  exists q', for_st 256 0 (fun i => for_st (Z.to_nat TEXT_FONT_HEIGHT) 0 (fun j => poke (i * 32 + j) (buf (i * TEXT_FONT_HEIGHT + j)))) q = Some (tt, q')
  /\ planed q q' /\ forall c j, 0 <= c < 256 -> 0 <= j < 16 -> plane (vc_view q') 2 (c * 32 + j) = u8 (buf (c * 16 + j)).
Proof.
  intros Hf Hp. unfold TEXT_FONT_HEIGHT.
  destruct (for_st_ind (fun i s => planed q s /\ forall c j, 0 <= c < i -> 0 <= j < 16 -> plane (vc_view s) 2 (c * 32 + j) = u8 (buf (c * 16 + j))) 256 0
    (fun i => for_st (Z.to_nat 16) 0 (fun j => poke (i * 32 + j) (buf (i * 16 + j)))) q) as (q' & E & Hpl & Hb); [split; [apply planed_refl|lia]| |by exists q'].
  intros i s Hi [Hs Hb]. destruct (for_st_ind (fun k s' => planed q s' /\ (forall c j, 0 <= c < i -> 0 <= j < 16 -> plane (vc_view s') 2 (c * 32 + j) = u8 (buf (c * 16 + j)))
    /\ forall j, 0 <= j < k -> plane (vc_view s') 2 (i * 32 + j) = u8 (buf (i * 16 + j))) (Z.to_nat 16) 0 (fun j => poke (i * 32 + j) (buf (i * 16 + j))) s) as (s' & E & Hs' & Hb' & Hj).
  - split; [done|]. split; [done|lia].
  - intros k s1 Hk (H1 & H2 & H3). pose proof H1 as [f Hv]. destruct (poke_font (i * 32 + k) (buf (i * 16 + k)) s1) as (s2 & E2 & P2 & V2); [by rewrite Hv|by rewrite Hv|lia|].
    exists s2. split; [exact E2|]. split; [by eapply planed_trans|]. split.
    + intros c j Hc Hj. rewrite V2. zcase; [lia|auto].
    + intros j Hj. rewrite V2. zcase; [f_equal; f_equal; lia|]. apply H3. lia.
  - exists s'. split; [exact E|]. split; [done|]. intros c j Hc Hj2. destruct (decide (c = i)) as [->|]; [apply Hj; lia|apply Hb'; lia].
Qed.

Lemma write_font_ok buf (p : P) : chained (vc_view p) = false -> Z.testbit (reg (vc_view p) Gc 5) 3 = false ->
  reg (vc_view p) Gc 5 mod 4 = 0 -> reg (vc_view p) Gc 8 = 0xFF -> reg (vc_view p) Gc 1 = 0 -> reg (vc_view p) Gc 3 = 0 ->
  exists p', write_font buf TEXT_FONT_HEIGHT p = Some (tt, p') /\ misc (vc_view p') = misc (vc_view p) /\ ac (vc_view p') = ac (vc_view p) /\ dac (vc_view p') = dac (vc_view p)
  /\ (forall b i, reg (vc_view p') b i = reg (vc_view p) b i)
  /\ forall c j, 0 <= c < 256 -> 0 <= j < 16 -> plane (vc_view p') 2 (c * 32 + j) = u8 (buf (c * 16 + j)).
Proof.
  intros Hch H5 H50 H8 H1 H3. unfold write_font. set (body := for_st 256 0 _). destruct (with_font_ok body p Hch H5) as (q & Oq & Hf & Hg & Hg5 & Hend).
  assert (plain (vc_view q)) as Hp by (unfold plain; rewrite Hg5, (Hg 8), (Hg 1), (Hg 3) by lia; destruct Hf; done).
  destruct (write_glyphs_ok buf q Hf Hp) as (q1 & E & [f V] & Hb).
  destruct (Hend tt q1 E ltac:(by rewrite V)) as (p' & E' & O' & R'). exists p'. split; [exact E'|]. rewrite V in O'. unfold others in O', Oq. cbn in O'.
  injection O' as -> _ _ -> _ _ -> Ep. injection Oq as -> _ _ -> _ _ -> _. do 3 (split; [done|]). split; [done|].
  intros c j Hc Hj. rewrite Ep, <- (Hb c j Hc Hj), V. done.
Qed.


(** Everything but the colours. *)
Definition uncoloured (s : vga) := (misc s, reg s, (ac_idx s, ac_flip s, ac s), plane s).

Lemma dac_in_ok (n : nat) : forall i buf (q : P), dac_read (vc_view q) = i -> 0 <= i -> i + Z.of_nat n <= 768 ->
  exists buf' q', dac_in n i buf q = Some (buf', q') /\ uncoloured (vc_view q') = uncoloured (vc_view q) /\ dac (vc_view q') = dac (vc_view q)
  /\ forall x, buf' x = blit buf i (dac (vc_view q)) i (Z.of_nat n) x.
Proof.
  induction n as [|n IH]; intros i buf q Hr Hi Hn; cbn [dac_in].
  - exists buf, q. do 3 (split; [done|]). intros x. unfold blit. zspec; simpl; done || lia.
  - unfold inb. pose proof (vc_dac_get q) as Hv. destruct (port_inb VGA_DAC_DATA q) as [v q1] eqn:Eq. destruct Hv as [-> V1]. erewrite bind_ok by (by rewrite Eq).
    pose proof (vc_colours q (dac_read (vc_view q))). rewrite u8_small by (unfold is_byte; lia). rewrite Hr in *.
    destruct (decide (n = O)) as [->|Hn0].
    + cbn [dac_in]. eexists _, q1. split; [reflexivity|]. rewrite V1. do 2 (split; [done|]). intros x. unfold blit, upd. zspec; simpl; try done; try lia; f_equal; lia.
    + destruct (IH (i + 1) (buf.[i <- dac (vc_view q) i]) q1) as (buf' & q' & E & U & Hd & Hb); [rewrite V1; cbn; zmod|lia|lia|].
      exists buf', q'. split; [exact E|]. rewrite U, Hd, V1. do 2 (split; [done|]). intros x. rewrite Hb, V1. cbn [set_dac dac]. unfold blit, upd. zspec; simpl; try done; try lia; f_equal; lia.
Qed.

Lemma save_palette_ok buf (p : P) :
  exists buf' p', save_palette buf p = Some (buf', p') /\ uncoloured (vc_view p') = uncoloured (vc_view p) /\ dac (vc_view p') = dac (vc_view p)
  /\ forall x, 0 <= x < 768 -> buf' x = dac (vc_view p) x.
Proof.
  unfold save_palette, outb. erewrite bind_ok by reflexivity. set (p1 := port_outb _ _ p).
  assert (vc_view p1 = set_dac 0 (dac_write (vc_view p)) (dac (vc_view p)) (vc_view p)) as V1 by (apply (vc_dac_r p 0); done).
  destruct (dac_in_ok (256 * 3) 0 buf p1) as (buf' & p' & E & U & Hd & Hb); [by rewrite V1|lia|lia|]. exists buf', p'. rewrite V1 in *. do 3 (split; [done|]).
  intros x Hx. rewrite Hb, blit_in by lia. cbn. f_equal. lia.
Qed.

Lemma dac_out_step v (q : P) : exists q', outb VGA_DAC_DATA v q = Some (tt, q') /\ uncoloured (vc_view q') = uncoloured (vc_view q)
  /\ dac_write (vc_view q') = (dac_write (vc_view q) + 1) mod 768 /\ forall x, dac (vc_view q') x = if x =? dac_write (vc_view q) then u8 v mod 64 else dac (vc_view q) x.
Proof. eexists. split; [reflexivity|]. rewrite vc_dac_put by apply u8_bound. done. Qed.

Lemma restore_palette_ok buf (p : P) : (forall x, 0 <= x < 768 -> 0 <= buf x < 64) ->
  exists p', restore_palette buf p = Some (tt, p') /\ uncoloured (vc_view p') = uncoloured (vc_view p)
  /\ forall x, 0 <= x < 768 -> dac (vc_view p') x = buf x.
Proof.
  intros Hbuf. unfold restore_palette. unfold outb at 1. erewrite bind_ok by reflexivity. set (p1 := port_outb _ _ p).
  assert (vc_view p1 = set_dac (dac_read (vc_view p)) 0 (dac (vc_view p)) (vc_view p)) as V1 by (apply (vc_dac_w p 0); done).
  destruct (for_st_ind (fun i q => uncoloured (vc_view q) = uncoloured (vc_view p) /\ (i < 768 -> dac_write (vc_view q) = i) /\ forall x, 0 <= x < i -> dac (vc_view q) x = buf x)
    (256 * 3) 0 (fun i => outb VGA_DAC_DATA (buf i)) p1) as (p' & E & U & _ & Hd); [rewrite V1; split; [done|]; split; [done|lia]| |by exists p'].
  intros i q Hi (U & W & Hd). destruct (dac_out_step (buf i) q) as (q' & E & U' & W' & D'). exists q'. split; [exact E|]. split; [congruence|]. rewrite W in W', D' by lia. split.
  - intros Hlt. rewrite W'. zmod.
  - intros x Hx. rewrite D'. zcase; [|apply Hd; lia]. subst x. pose proof (Hbuf i ltac:(lia)). rewrite u8_small by (unfold is_byte; lia). apply Z.mod_small. lia.
Qed.

Lemma dac_out_ok l : forall (q : P), exists q', dac_out l q = Some (tt, q') /\ uncoloured (vc_view q') = uncoloured (vc_view q).
Proof.
  induction l as [|v l IH]; intros q; cbn [dac_out]; [by exists q|]. destruct (dac_out_step v q) as (q1 & E1 & U1 & _). rewrite (bind_ok _ _ _ _ _ E1).
  destruct (IH q1) as (q' & E & U). exists q'. split; [done|congruence].
Qed.

(** ** Drawing *)

(** Mode 13h: every byte of the window is a pixel. *)
Definition graphics (s : vga) : Prop := plain s /\ chained s = true /\ reg s Seq 2 = 0x0F.

Definition pixel (s : vga) (a : Z) : Z := plane s (a mod 4) (a / 4).

(** The pixels of [img] are set, the others are as they were. *)
Definition painted (q q' : P) (img : Z -> option Z) : Prop :=
  planed q q' /\ forall a, 0 <= a < 65536 -> pixel (vc_view q') a = match img a with Some c => c | None => pixel (vc_view q) a end.

Lemma painted_none q : painted q q (fun _ => None).
Proof. split; [apply planed_refl|done]. Qed.

Lemma painted_ext q q' img img' : (forall a, 0 <= a < 65536 -> img a = img' a) -> painted q q' img -> painted q q' img'.
Proof. intros H [Hp Ha]. split; [done|]. intros a Hr. by rewrite <- H, Ha. Qed.

Lemma painted_trans q1 q2 q3 f h : painted q1 q2 f -> painted q2 q3 h -> painted q1 q3 (fun a => match h a with Some c => Some c | None => f a end).
Proof. intros [P1 H1] [P2 H2]. split; [by eapply planed_trans|]. intros a Ha. rewrite H2 by done. destruct (h a); [done|]. by apply H1. Qed.

Lemma painted_graphics q q' f : painted q q' f -> graphics (vc_view q) -> graphics (vc_view q').
Proof. intros [[h Hv] _]. by rewrite Hv. Qed.

Lemma poke_pixel a v (q : P) : graphics (vc_view q) -> 0 <= a < 65536 ->
  exists q', poke a v q = Some (tt, q') /\ painted q q' (fun x => if x =? a then Some (u8 v) else None).
Proof.
  intros (Hp & Hc & H2) Ha. unfold poke. destruct (Z.leb_spec 0 a), (Z.ltb_spec a 65536); try lia. cbn [andb]. eexists. split; [reflexivity|].
  assert (vc_view (mem_write a (u8 v) q) = store a (u8 v) (vc_view q)) as V by (apply vc_store; [done|apply u8_bound|done|by rewrite Hc]).
  split; [by eexists|]. intros x Hx. rewrite V. unfold pixel, store. cbn [set_plane plane]. rewrite Hc, H2.
  assert (Z.testbit 15 (x mod 4) = true) as -> by (assert (x mod 4 = 0 \/ x mod 4 = 1 \/ x mod 4 = 2 \/ x mod 4 = 3) as [->|[->|[->| ->]]] by zmod; done).
  rewrite andb_true_r. destruct (Z.eqb_spec x a) as [->|]; [by rewrite !Z.eqb_refl|]. destruct (Z.eqb_spec (x mod 4) (a mod 4)), (Z.eqb_spec (x / 4) (a / 4)); try done. zmod.
Qed.

End Registers.


End Vga13.
