(* ===== verification/Vga13Draw.v ===== *)
(** * Pictures

    What [src/display/vga13.c] draws, pixel by pixel, and that leaving the graphics mode
    gives the text mode back. *)

From S2P Require Import Prelude Ports Vga GordonArt Vga13.

Module Draw.
Import GordonArt Vga13.

(** An image: the pixels it sets, by their offset in the frame buffer. *)
Definition image := Z -> option Z.

Definition nothing : image := fun _ => None.

(** [h] drawn over [f]. *)
Definition atop (f h : image) : image := fun a => match h a with Some c => Some c | None => f a end.

(** A shape of [h] rows of [w] points at ([x], [y]), cut off at the edges of the screen. *)
Definition sprite (x y w h : Z) (on : Z -> Z -> bool) (color : Z) : image := fun a =>
  let row := a / 320 - y in
  let col := a mod 320 - x in
  if (0 <=? row) && (row <? h) && (a / 320 <? 200) && (0 <=? col) && (col <? w) && on row col then Some (u8 color) else None.

Definition glyph_on (font : Z -> Z) (c row bit : Z) : bool := negb (Z.land (font (c * TEXT_FONT_HEIGHT + row)) (Z.shiftr 0x80 bit) =? 0).
Definition bitmap_on (y x : Z) : bool := negb (Z.land (ch gordon_bitmap (y * GORDON_STRIDE + Z.shiftr x 3)) (Z.shiftr 0x80 (Z.land x 7)) =? 0).

(** Text from [px] on, up to the last whole character of the row. *)
Fixpoint text (font : Z -> Z) (px y : Z) (s : list Z) (color : Z) : image :=
  match s with
  | [] => nothing
  | c :: s => if px + 8 <=? 320 then atop (sprite px y 8 16 (glyph_on font (u8 c)) color) (text font (px + 8) y s color) else nothing
  end.

Fixpoint advance (px : Z) (s : list Z) : Z :=
  match s with [] => px | _ :: s => if px + 8 <=? 320 then advance (px + 8) s else px end.

Definition piece_text (p : piece) : list Z := match p with Text s _ => s | Number n _ => digits 11 n [] end.
Definition piece_color (p : piece) : Z := match p with Text _ c => c | Number _ c => c end.

(** A row of pieces, and a page of rows. *)
Fixpoint row_of (font : Z -> Z) (x y : Z) (l : list piece) : image :=
  match l with
  | [] => nothing
  | p :: l => atop (text font x y (piece_text p) (piece_color p)) (row_of font (advance x (piece_text p)) y l)
  end.

Fixpoint page (font : Z -> Z) (x y : Z) (l : list (list piece)) : image :=
  match l with
  | [] => nothing
  | r :: l => atop (row_of font x y r) (page font x (y + 16) l)
  end.

(** The images of a loop, later ones on top. *)
Fixpoint pile (n : nat) (i : Z) (cond : Z -> bool) (img : Z -> image) : image :=
  match n with
  | O => nothing
  | S n => if cond i then atop (img i) (pile n (i + 1) cond img) else nothing
  end.

(** A point that only one round can set. *)
Lemma pile_one n : forall lo cond img k a, (forall i, cond i = false -> cond (i + 1) = false) -> (forall i, lo <= i -> i <> k -> img i a = None) ->
  pile n lo cond img a = if (lo <=? k) && (k <? lo + Z.of_nat n) && cond k then img k a else None.
Proof.
  induction n as [|n IH]; intros lo cond img k a Hc Hi; cbn [pile].
  - zspec; simpl; done || lia.
  - destruct (cond lo) eqn:El.
    + unfold atop. rewrite (IH _ _ _ k) by (done || (intros; apply Hi; lia)). destruct (decide (k = lo)) as [->|Hk].
      * rewrite El. zspec; simpl; done || lia.
      * rewrite (Hi lo) by (done || lia). zspec; simpl; try lia; by destruct (cond k), (img k a).
    + destruct (decide (lo <= k)) as [Hle|]; [|zspec; simpl; done || lia].
      assert (cond k = false) as ->; [|by rewrite andb_false_r].
      replace k with (lo + Z.of_nat (Z.to_nat (k - lo))) by lia. induction (Z.to_nat (k - lo)) as [|m IHm]; [by replace (lo + Z.of_nat 0) with lo by lia|].
      replace (lo + Z.of_nat (S m)) with (lo + Z.of_nat m + 1) by lia. by apply Hc.
Qed.

Section Drawing.
Context {P : Type} `{VC : VgaCard P}.

Lemma for_while_painted n : forall lo cond (body : Z -> st P unit) (img : Z -> image) (q : P), graphics (vc_view q) ->
  (forall i (s : P), lo <= i < lo + Z.of_nat n -> cond i = true -> graphics (vc_view s) -> exists s', body i s = Some (tt, s') /\ painted s s' (img i)) ->
  exists q', for_while n lo cond body q = Some (tt, q') /\ painted q q' (pile n lo cond img).
Proof.
  induction n as [|n IH]; intros lo cond body img q Hg Hb; cbn [for_while pile]; [exists q; split; [done|apply painted_none]|].
  destruct (cond lo) eqn:El; [|exists q; split; [done|apply painted_none]].
  destruct (Hb lo q ltac:(lia) El Hg) as (q1 & E1 & P1). rewrite (bind_ok _ _ _ _ _ E1).
  destruct (IH (lo + 1) cond body img q1) as (q' & E & P2); [by eapply painted_graphics|intros; apply Hb; done || lia|].
  exists q'. split; [done|]. by eapply painted_trans.
Qed.

(** The two nested loops every drawing function has. *)
Lemma sprite_ok x y (w h : nat) (on : Z -> Z -> bool) color rc cc (cell : Z -> Z -> st P unit) (q : P) : graphics (vc_view q) -> 0 <= x -> 0 <= y ->
  (forall i, rc i = (y + i <? 200)) -> (forall i, cc i = (x + i <? 320)) ->
  (forall row col s, 0 <= row < Z.of_nat h -> 0 <= col < Z.of_nat w -> cell row col s = (if on row col then poke ((y + row) * 320 + (x + col)) color else ret tt) s) ->
  exists q', for_while h 0 rc (fun row => for_while w 0 cc (cell row)) q = Some (tt, q') /\ painted q q' (sprite x y (Z.of_nat w) (Z.of_nat h) on color).
Proof.
  intros Hg Hx Hy Hrc Hcc Hcell.
  pose (dot row col := fun a => if on row col && (a =? (y + row) * 320 + (x + col)) then Some (u8 color) else None : option Z).
  destruct (for_while_painted h 0 rc (fun row => for_while w 0 cc (cell row)) (fun row => pile w 0 cc (dot row)) q Hg) as (q' & E & Hp).
  - intros row s Hr Hrow Hs. rewrite Hrc in Hrow. zbool. apply for_while_painted; [done|].
    intros col s1 Hcol Hc Hs1. rewrite Hcc in Hc. zbool. rewrite Hcell by lia. unfold dot. destruct (on row col).
    + apply poke_pixel; [done|lia].
    + exists s1. split; [done|apply painted_none].
  - exists q'. split; [done|]. revert Hp. apply painted_ext. intros a Ha.
    assert (forall row, 0 <= row -> pile w 0 cc (dot row) a
      = if (a / 320 =? y + row) && (0 <=? a mod 320 - x) && (a mod 320 - x <? Z.of_nat w) && on row (a mod 320 - x) then Some (u8 color) else None) as Hrow.
    { intros row Hr. rewrite (pile_one w 0 cc (dot row) (a - (y + row) * 320 - x)).
      - unfold dot. rewrite Hcc. destruct (Z.eqb_spec (a / 320) (y + row)) as [Ed|Ed].
        + assert (a - (y + row) * 320 - x = a mod 320 - x) as -> by zmod. assert (0 <= a mod 320 < 320) by zmod.
          destruct (on row (a mod 320 - x)); zspec; simpl; try done; try lia; exfalso; zmod.
        + cbn [andb]. destruct (on row (a - (y + row) * 320 - x)); zspec; simpl; try done; exfalso; apply Ed; zmod.
      - intros i. rewrite !Hcc. zspec; done || lia.
      - intros i Hi Hne. unfold dot. destruct (on row i); [|done]. zcase; [lia|done]. }
    rewrite (pile_one h 0 rc _ (a / 320 - y)).
    + unfold sprite. rewrite Hrc. replace (y + (a / 320 - y)) with (a / 320) by lia. destruct (Z.leb_spec 0 (a / 320 - y)); [|done].
      rewrite Hrow by done. replace (y + (a / 320 - y)) with (a / 320) by lia. rewrite Z.eqb_refl. change (0 + Z.of_nat h) with (Z.of_nat h).
      destruct (a / 320 - y <? Z.of_nat h), (a / 320 <? 200); done.
    + intros i. rewrite !Hrc. zspec; done || lia.
    + intros row Hr Hne. rewrite Hrow by done. destruct (Z.eqb_spec (a / 320) (y + row)); [lia|done].
Qed.

Lemma draw_bitmap_ok x y color (q : P) : graphics (vc_view q) -> 0 <= x -> 0 <= y ->
  exists q', draw_bitmap_at x y color q = Some (tt, q') /\ painted q q' (sprite x y GORDON_W GORDON_H bitmap_on color).
Proof.
  intros Hg Hx Hy. unfold draw_bitmap_at. destruct (Z.ltb_spec x 0), (Z.ltb_spec y 0); try lia.
  apply (sprite_ok x y (Z.to_nat GORDON_W) (Z.to_nat GORDON_H) bitmap_on color _ _
    (fun row col => let* v := art (row * GORDON_STRIDE + Z.shiftr col 3) in
       if negb (Z.land v (Z.shiftr 0x80 (Z.land col 7)) =? 0) then poke ((y + row) * 320 + x + col) color else ret tt)); try done.
  intros row col s Hr Hc. rewrite Z.add_assoc. destruct (bitmap_index row col Hr Hc) as [v Hv]. unfold bitmap_on, ch.
  rewrite (nth_lookup_Some _ _ _ _ Hv). erewrite bind_ok by (unfold art; by rewrite Hv). done.
Qed.

Lemma draw_char_ok font x y c color (q : P) : graphics (vc_view q) -> 0 <= x -> 0 <= y ->
  exists q', draw_char_at font x y c color q = Some (tt, q') /\ painted q q' (sprite x y 8 16 (glyph_on font c) color).
Proof.
  intros Hg Hx Hy. apply (sprite_ok x y 8 (Z.to_nat TEXT_FONT_HEIGHT) (glyph_on font c) color _ _
    (fun row bit => if glyph_on font c row bit then poke ((y + row) * 320 + (x + bit)) color else ret tt)); try done;
    intros i; zspec; done || lia.
Qed.

Lemma draw_str_ok font s : forall px y color (q : P), graphics (vc_view q) -> 0 <= px -> 0 <= y ->
  exists q', draw_str_at font px y s color q = Some (advance px s, q') /\ painted q q' (text font px y s color).
Proof.
  induction s as [|c s IH]; intros px y color q Hg Hx Hy; cbn [draw_str_at text advance].
  - exists q. split; [done|apply painted_none].
  - destruct (px + 8 <=? 320); [|exists q; split; [done|apply painted_none]].
    destruct (draw_char_ok font px y (u8 c) color q Hg Hx Hy) as (q1 & E1 & P1). rewrite (bind_ok _ _ _ _ _ E1).
    destruct (IH (px + 8) y color q1) as (q' & E & P2); [by eapply painted_graphics|lia|done|].
    exists q'. split; [done|]. by eapply painted_trans.
Qed.

Lemma advance_le s : forall px, px <= advance px s.
Proof. induction s as [|c s IH]; intros px; cbn [advance]; [lia|]. destruct (px + 8 <=? 320); [|lia]. specialize (IH (px + 8)). lia. Qed.

Lemma draw_pieces_ok font l : forall x y (q : P), graphics (vc_view q) -> 0 <= x -> 0 <= y ->
  exists x' q', draw_pieces font x y l q = Some (x', q') /\ painted q q' (row_of font x y l).
Proof.
  induction l as [|p l IH]; intros x y q Hg Hx Hy; cbn [draw_pieces row_of]; [exists x, q; split; [done|apply painted_none]|].
  destruct (draw_str_ok font (piece_text p) x y (piece_color p) q Hg Hx Hy) as (q1 & E1 & P1).
  destruct (IH (advance x (piece_text p)) y q1) as (x' & q' & E & P2); [by eapply painted_graphics|pose proof (advance_le (piece_text p) x); lia|done|].
  exists x', q'. split; [|by eapply painted_trans]. destruct p; unfold draw_uint_at; cbn [piece_text piece_color] in *; by rewrite (bind_ok _ _ _ _ _ E1).
Qed.

Lemma draw_lines_ok font l : forall x y (q : P), graphics (vc_view q) -> 0 <= x -> 0 <= y ->
  exists q', draw_lines font x y l q = Some (y + 16 * Z.of_nat (length l), q') /\ painted q q' (page font x y l).
Proof.
  induction l as [|r l IH]; intros x y q Hg Hx Hy; cbn [draw_lines page]; [exists q; split; [cbn; by rewrite Z.add_0_r|apply painted_none]|].
  destruct (draw_pieces_ok font r x y q Hg Hx Hy) as (x' & q1 & E1 & P1). rewrite (bind_ok _ _ _ _ _ E1). unfold TEXT_FONT_HEIGHT.
  destruct (IH x (y + 16) q1) as (q' & E & P2); [by eapply painted_graphics|done|lia|].
  exists q'. split; [|by eapply painted_trans]. rewrite E. do 2 f_equal. cbn [length]. lia.
Qed.

Definition always (i : Z) : bool := true.

Lemma for_st_while n : forall lo (body : Z -> st P unit), for_st n lo body = for_while n lo always body.
Proof. induction n as [|n IH]; intros lo body; cbn [for_st for_while]; [done|]. by rewrite IH. Qed.

Lemma clear_screen_ok (q : P) : graphics (vc_view q) ->
  exists q', clear_screen q = Some (tt, q') /\ painted q q' (fun a => if a <? 64000 then Some 0 else None).
Proof.
  intros Hg. unfold clear_screen. rewrite for_st_while. remember (320 * 200)%nat as n eqn:En. assert (Z.of_nat n = 64000) as Hn by (rewrite En; vm_compute; done). clear En.
  destruct (for_while_painted n 0 always (fun a => poke a 0) (fun i a => if a =? i then Some 0 else None) q Hg) as (q' & E & Hp).
  - intros i s Hi _ Hs. apply (poke_pixel i 0 s Hs). lia.
  - exists q'. split; [done|]. revert Hp. apply painted_ext. intros a Ha. rewrite (pile_one n 0 always _ a).
    + unfold always. rewrite Hn, Z.eqb_refl. zspec; simpl; done || lia.
    + done.
    + intros i _ Hi. zcase; [lia|done].
Qed.

(** Two rows of eight coloured blocks. *)
Definition swatches (tx ty : Z) : image :=
  pile 2 0 always (fun row => pile 8 0 always (fun col => sprite (tx + col * 14) (ty + row * 12) 13 10 (fun _ _ => true) (u8 (5 + row * 8 + col)))).

Lemma draw_swatches_ok tx ty (q : P) : graphics (vc_view q) -> 0 <= tx -> 0 <= ty ->
  exists q', draw_swatches tx ty q = Some (tt, q') /\ painted q q' (swatches tx ty).
Proof.
  intros Hg Hx Hy. unfold draw_swatches. rewrite for_st_while. apply for_while_painted; [done|]. intros row s Hr _ Hs. rewrite for_st_while. apply for_while_painted; [done|].
  intros col s1 Hc _ Hs1. apply (sprite_ok (tx + col * 14) (ty + row * 12) 13 10 (fun _ _ => true) (u8 (5 + row * 8 + col)) _ _
    (fun py bx => poke ((ty + row * 12 + py) * 320 + (tx + col * 14) + bx) (u8 (5 + row * 8 + col)))); try done; try lia.
  intros py bx. cbn. by rewrite !Z.add_assoc.
Qed.

(** Polling the keyboard does not touch the card. *)
Lemma key_ok port (q : P) : port = 0x60 \/ port = 0x64 -> exists v q', inb port q = Some (v, q') /\ vc_view q' = vc_view q.
Proof. intros H. unfold inb. pose proof (vc_keys q port H) as Hk. destruct (port_inb port q) as [v q']. by eexists _, q'. Qed.

Lemma drain_view fuel : forall (q q' : P), drain_pending fuel q = Some (tt, q') -> vc_view q' = vc_view q.
Proof.
  induction fuel as [|n IH]; intros q q' H; cbn [drain_pending] in H; [done|]. destruct (key_ok 0x64 q ltac:(tauto)) as (v & q1 & E1 & V1). rewrite (bind_ok _ _ _ _ _ E1) in H.
  destruct (Z.testbit v 0); [|by injection H as <-]. destruct (key_ok 0x60 q1 ltac:(tauto)) as (w & q2 & E2 & V2). rewrite (bind_ok _ _ _ _ _ E2) in H. apply IH in H. congruence.
Qed.

Lemma press_view fuel : forall (q q' : P), await_press fuel q = Some (tt, q') -> vc_view q' = vc_view q.
Proof.
  induction fuel as [|n IH]; intros q q' H; cbn [await_press] in H; [done|]. destruct (key_ok 0x64 q ltac:(tauto)) as (v & q1 & E1 & V1). rewrite (bind_ok _ _ _ _ _ E1) in H.
  destruct (Z.testbit v 0); [|apply IH in H; congruence]. destruct (key_ok 0x60 q1 ltac:(tauto)) as (w & q2 & E2 & V2). rewrite (bind_ok _ _ _ _ _ E2) in H.
  destruct (Z.testbit w 7); [apply IH in H; congruence|]. injection H as <-. congruence.
Qed.

Lemma wait_view fuel (q q' : P) : wait_for_key fuel q = Some (tt, q') -> vc_view q' = vc_view q.
Proof.
  unfold wait_for_key, bind. destruct (drain_pending fuel q) as [[[] q1]|] eqn:E1; [|done]. intros H. apply drain_view in E1. apply press_view in H. congruence.
Qed.

End Drawing.

(** ** Entering and leaving *)

Section Modes.
Context {P : Type} `{VC : VgaCard P}.

(** The registers hold a table, but for the cursor position (CRTC 14 and 15), which the
    terminal keeps up to date. *)
Definition programmed (v : vga) (t : list Z) : Prop :=
  misc v = ch t 0
  /\ (forall k, 0 <= k < 5 -> reg v Seq k = ch t (1 + k))
  /\ (forall k, 0 <= k < 25 -> k <> 14 -> k <> 15 -> reg v Crtc k = ch t (6 + k))
  /\ (forall k, 0 <= k < 9 -> reg v Gc k = ch t (31 + k))
  /\ (forall k, 0 <= k < 21 -> ac v k = ch t (40 + k)).

Lemma u8_ch t k : Forall is_byte t -> u8 (ch t k) = ch t k.
Proof.
  intros Ht. apply u8_small. unfold ch. destruct (nth_in_or_default (Z.to_nat k) t 0) as [Hin| ->]; [|done].
  rewrite Forall_forall in Ht. by apply Ht, list_elem_of_In.
Qed.

(** The two tables are sequences of bytes that [write_regs] leaves as they are. *)
Definition settled (t : list Z) : Prop := Forall is_byte t /\ patched t = t /\ Z.testbit (ch t 23) 7 = false.

Lemma settled_mode13h : settled g_mode13h.
Proof. split; [|done]. unfold g_mode13h. repeat (constructor; [done|]). constructor. Qed.

Lemma settled_text80x25 : settled g_text80x25.
Proof. split; [|done]. unfold g_text80x25. repeat (constructor; [done|]). constructor. Qed.

Lemma write_table_ok t (p : P) : settled t ->
  exists p', write_regs t p = Some (t, p') /\ programmed (vc_view p') t /\ plane (vc_view p') = plane (vc_view p) /\ dac (vc_view p') = dac (vc_view p).
Proof.
  intros (Hb & Hp & H17). destruct (write_regs_ok t p) as (p' & E & Hm & Hs & Hc & Hg & Ha & Hpl & Hd); [by rewrite Hp, u8_ch|].
  rewrite Hp in *. exists p'. split; [done|]. split; [|done]. unfold programmed. rewrite Hm, u8_ch by done. split; [done|].
  split; [|split; [|split]]; intros; [rewrite Hs by done|rewrite Hc by done|rewrite Hg by done|rewrite Ha by done]; by apply u8_ch.
Qed.

Lemma programmed_graphics v : programmed v g_mode13h -> graphics v.
Proof.
  intros (_ & Hs & _ & Hg & _). unfold graphics, plain, chained. rewrite !Hs, !Hg by lia. cbn. repeat split; done || lia.
Qed.

(** The text mode as the BIOS or an earlier picture left it, and the static tables. *)
Definition text_mode (s : @gfx P) : Prop :=
  mode13 s = g_mode13h /\ text80 s = g_text80x25 /\ chained (vc_view (hw s)) = false /\ Z.testbit (reg (vc_view (hw s)) Gc 5) 3 = false.

Lemma on_hw_ok {A B} (m : st P A) (k : A -> st gfx B) (s : gfx) x p : m (hw s) = Some (x, p) ->
  (bind (on_hw m) k) s = k x (mk_gfx p (saved_font s) (saved_palette s) (mode13 s) (text80 s) (tty s)).
Proof. intros E. apply bind_ok. unfold on_hw. by rewrite E. Qed.

(** What is kept of the text mode [v] while a picture is shown. *)
Definition kept (v : vga) (s : @gfx P) : Prop :=
  text80 s = g_text80x25 /\ mode13 s = g_mode13h /\ (forall x, 0 <= x < 768 -> saved_palette s x = dac v x)
  /\ (forall c j, 0 <= c < 256 -> 0 <= j < 16 -> saved_font s (c * 16 + j) = plane v 2 (c * 32 + j)).

Lemma enter_graphics_ok (s : @gfx P) : text_mode s ->
  exists s1, enter_graphics s = Some (tt, s1) /\ graphics (vc_view (hw s1)) /\ programmed (vc_view (hw s1)) g_mode13h
  /\ kept (vc_view (hw s)) s1 /\ tty s1 = tty s.
Proof.
  intros (H13 & H80 & Hch & H5). unfold enter_graphics. erewrite bind_ok by reflexivity. unfold id.
  destruct (save_palette_ok (saved_palette s) (hw s)) as (pal & p1 & E1 & U1 & D1 & B1). rewrite (on_hw_ok _ _ _ _ _ E1).
  erewrite bind_ok by reflexivity. unfold uncoloured in U1. injection U1 as _ R1 _ _ _ F1.
  destruct (read_font_ok (saved_font s) p1) as (font & p2 & E2 & O2 & R2 & B2); [by unfold chained; rewrite R1|by rewrite R1|].
  erewrite on_hw_ok by exact E2. erewrite bind_ok by reflexivity. cbn [hw saved_palette text80 tty].
  destruct (write_table_ok g_mode13h p2 settled_mode13h) as (p3 & E3 & G3 & F3 & D3). rewrite H13. erewrite on_hw_ok by exact E3.
  eexists. split; [reflexivity|]. cbn. split; [by apply programmed_graphics|]. split; [done|]. split; [|done].
  split; [done|]. split; [done|]. split; [done|]. intros c j Hc Hj. cbn. rewrite B2 by done. by rewrite F1.
Qed.

(** The text mode is back: its registers, colours and font, and a blank terminal. *)
Definition restored (v : vga) (com : Serial.serial) (s : @gfx P) : Prop :=
  text_mode s /\ programmed (vc_view (hw s)) g_text80x25
  /\ (forall x, 0 <= x < 768 -> dac (vc_view (hw s)) x = dac v x)
  /\ (forall c j, 0 <= c < 256 -> 0 <= j < 16 -> plane (vc_view (hw s)) 2 (c * 32 + j) = plane v 2 (c * 32 + j))
  /\ Vga.refines (tty s) (Vga.tape_start com).

Lemma leave_graphics_ok v (s : @gfx P) : kept v s -> (forall i, 0 <= dac v i < 64) -> (forall k i, is_byte (plane v k i)) ->
  exists s', leave_graphics s = Some (tt, s') /\ restored v (Vga.com1 (tty s)) s'.
Proof.
  intros (H80 & H13 & Hpal & Hfont) Hcol Hcell. unfold leave_graphics. erewrite bind_ok by reflexivity. unfold id.
  destruct (write_table_ok g_text80x25 (hw s) settled_text80x25) as (p1 & E1 & T1 & _ & _). rewrite H80, (on_hw_ok _ _ _ _ _ E1).
  erewrite bind_ok by reflexivity. destruct T1 as (M1 & S1 & C1 & G1 & A1).
  destruct (write_font_ok (saved_font s) p1) as (p2 & E2 & M2 & A2 & D2 & R2 & F2).
  { unfold chained. by rewrite S1 by lia. }
  1-5: rewrite G1 by lia; done.
  erewrite on_hw_ok by exact E2. cbn [saved_font saved_palette mode13 text80 tty].
  destruct (restore_palette_ok (saved_palette s) p2) as (p3 & E3 & U3 & D3); [intros x Hx; by rewrite Hpal|].
  erewrite on_hw_ok by exact E3. cbn [saved_font saved_palette mode13 text80 tty]. unfold on_tty. cbn [tty].
  destruct (Vga.clear_ok (tty s) (Vga.tape_start (Vga.com1 (tty s))) eq_refl) as (t & Et & Ht). rewrite Et. eexists. split; [reflexivity|].
  unfold uncoloured in U3. injection U3 as M3 R3 _ _ A3 F3. unfold restored, text_mode, programmed, chained. cbn [hw mode13 text80 tty saved_font saved_palette].
  rewrite M3, R3, A3, F3, M2, A2. split; [|split; [|split; [|split]]].
  - split; [exact H13|]. split; [reflexivity|]. rewrite !R2, S1, G1 by lia. split; reflexivity.
  - split; [exact M1|]. split; [|split; [|split]]; intros k Hk; [|intros H14 H15| |]; rewrite ?R2; [exact (S1 k Hk)|exact (C1 k Hk H14 H15)|exact (G1 k Hk)|exact (A1 k Hk)].
  - intros x Hx. rewrite D3, Hpal by done. done.
  - intros c j Hc Hj. rewrite F2, Hfont by done. by apply u8_small.
  - exact Ht.
Qed.

(** The pixels of the screen: [img] on black. *)
Definition screen (v : vga) (img : image) : Prop := forall a, 0 <= a < 320 * 200 -> pixel v a = default 0 (img a).

(** The end of both functions, after the drawing. *)
Lemma picture_ok v fuel (s1 : @gfx P) p2 : kept v s1 -> (forall i, 0 <= dac v i < 64) -> (forall k i, is_byte (plane v k i)) -> wait_for_key fuel (hw s1) = Some (tt, p2) ->
  exists s', (on_hw (wait_for_key fuel) ;; leave_graphics) s1 = Some (tt, s') /\ restored v (Vga.com1 (tty s1)) s'.
Proof. intros Hk Hcol Hcell E. erewrite on_hw_ok by exact E. apply (leave_graphics_ok v (mk_gfx p2 _ _ _ _ _) Hk Hcol Hcell). Qed.

(** The beginning of both: the palette is set and the screen is black. *)
Lemma blank_screen_ok {B} (colours : list Z) (k : st gfx B) (s : @gfx P) : text_mode s ->
  exists s1, (enter_graphics ;; on_hw (outb VGA_DAC_WRITE_INDEX 0) ;; on_hw (dac_out colours) ;; on_hw clear_screen ;; k) s = k s1
  /\ graphics (vc_view (hw s1)) /\ screen (vc_view (hw s1)) nothing /\ kept (vc_view (hw s)) s1 /\ tty s1 = tty s.
Proof.
  intros Ht. destruct (enter_graphics_ok s Ht) as (s0 & E0 & G0 & _ & K0 & T0). rewrite (bind_ok _ _ _ _ _ E0).
  erewrite on_hw_ok by reflexivity. set (p1 := port_outb _ _ _).
  assert (vc_view p1 = set_dac (dac_read (vc_view (hw s0))) 0 (dac (vc_view (hw s0))) (vc_view (hw s0))) as V1 by (apply (vc_dac_w (hw s0) 0); done).
  destruct (dac_out_ok colours p1) as (p2 & E2 & U2). erewrite on_hw_ok by exact E2. unfold uncoloured in U2. injection U2 as _ R2 _ _ _ F2.
  destruct (clear_screen_ok p2) as (p3 & E3 & P3); [by unfold graphics, plain, chained in *; rewrite R2, V1|]. erewrite on_hw_ok by exact E3.
  eexists. split; [reflexivity|]. cbn [hw tty]. split; [eapply painted_graphics; [done|]; by unfold graphics, plain, chained in *; rewrite R2, V1|].
  split; [|exact (conj K0 T0)]. intros a Ha. destruct P3 as [_ P3]. rewrite P3 by lia. zcase; [done|lia].
Qed.

Lemma screen_painted (q q' : P) f h : screen (vc_view q) f -> painted q q' h -> screen (vc_view q') (atop f h).
Proof. intros Hs [_ Hp] a Ha. rewrite Hp by lia. unfold atop. destruct (h a); [done|]. by apply Hs. Qed.

End Modes.


(** ** The two pictures *)

Section Pictures.
Context {P : Type} `{VC : VgaCard P}.

Definition gordon_at (x : Z) : image := sprite x 1 GORDON_W GORDON_H bitmap_on 1.

Definition fetch_picture (font : Z -> Z) (cpu : list Z) (used_mb total_mb uptime_secs : Z) : image :=
  atop (atop (gordon_at 5) (page font 141 36 (fetch_lines cpu used_mb total_mb uptime_secs))) (swatches 141 172).

(** A function that shows [img font] on a screen, waits, and gives the text mode back. *)
Definition presents (f : nat -> st gfx unit) (img : (Z -> Z) -> image) (s : @gfx P) : Prop := forall fuel,
  exists s1, f fuel s = (on_hw (wait_for_key fuel) ;; leave_graphics) s1
  /\ screen (vc_view (hw s1)) (img (saved_font s1)) /\ kept (vc_view (hw s)) s1
  /\ forall p2, wait_for_key fuel (hw s1) = Some (tt, p2) ->
     exists s', f fuel s = Some (tt, s') /\ restored (vc_view (hw s)) (Vga.com1 (tty s)) s'.

Lemma presents_intro (f : nat -> st gfx unit) img (s : gfx) : (forall fuel, exists s1, f fuel s = (on_hw (wait_for_key fuel) ;; leave_graphics) s1
    /\ screen (vc_view (hw s1)) (img (saved_font s1)) /\ kept (vc_view (hw s)) s1 /\ tty s1 = tty s) -> presents f img s.
Proof.
  intros H fuel. destruct (H fuel) as (s1 & E & Hs & Hk & Ht). exists s1. split; [exact E|]. split; [exact Hs|]. split; [exact Hk|].
  intros p2 Ew. rewrite E, <- Ht. apply (picture_ok _ fuel s1 p2 Hk); [apply vc_colours|apply vc_cells|exact Ew].
Qed.

Lemma atop_nothing f a : atop nothing f a = f a.
Proof. unfold atop. by destruct (f a). Qed.

Lemma screen_ext v f h : (forall a, f a = h a) -> screen v f -> screen v h.
Proof. intros E Hs a Ha. rewrite <- E. by apply Hs. Qed.

Lemma gordon_presents (s : gfx) : text_mode s -> presents (vga_splash_gordon) (fun _ => gordon_at 99) s.
Proof.
  intros Ht. apply presents_intro. intros fuel. unfold vga_splash_gordon.
  match goal with |- context [on_hw clear_screen ;; ?k] => destruct (blank_screen_ok [0; 0; 0; 63; 40; 10] k s Ht) as (s1 & -> & G1 & S1 & K1 & T1) end.
  change (Z.quot (320 - GORDON_W) 2) with 99. change (Z.quot (200 - GORDON_H) 2) with 1.
  destruct (draw_bitmap_ok 99 1 1 (hw s1) G1 ltac:(lia) ltac:(lia)) as (p & E & Hp). erewrite on_hw_ok by exact E.
  eexists. split; [reflexivity|]. cbn [hw saved_font]. split; [|exact (conj K1 T1)].
  apply (screen_ext _ (atop nothing (gordon_at 99))); [apply atop_nothing|]. by apply (screen_painted (hw s1)).
Qed.

Lemma fasterfetch_presents cpu used_mb total_mb uptime_secs (s : gfx) : text_mode s ->
  presents (fun fuel => vga_fasterfetch fuel cpu used_mb total_mb uptime_secs) (fun font => fetch_picture font cpu used_mb total_mb uptime_secs) s.
Proof.
  intros Ht. apply presents_intro. intros fuel. unfold vga_fasterfetch.
  match goal with |- context [on_hw (dac_out ?c) ;; on_hw clear_screen ;; ?k] => destruct (blank_screen_ok c k s Ht) as (s1 & -> & G1 & S1 & K1 & T1) end.
  change (Z.quot (200 - GORDON_H) 2) with 1. change (Z.quot (200 - 8 * TEXT_FONT_HEIGHT) 2) with 36. change (36 <? 4) with false. change (5 + GORDON_W + 14) with 141. cbv iota.
  destruct (draw_bitmap_ok 5 1 1 (hw s1) G1 ltac:(lia) ltac:(lia)) as (p2 & E2 & P2). erewrite on_hw_ok by exact E2.
  assert (graphics (vc_view p2)) as G2 by (by eapply painted_graphics). erewrite bind_ok by reflexivity. unfold id. cbn [saved_font].
  destruct (draw_lines_ok (saved_font s1) (fetch_lines cpu used_mb total_mb uptime_secs) 141 36 p2 G2 ltac:(lia) ltac:(lia)) as (p3 & E3 & P3). erewrite on_hw_ok by exact E3.
  assert (graphics (vc_view p3)) as G3 by (by eapply painted_graphics). change (36 + 16 * Z.of_nat (length (fetch_lines _ _ _ _)) + 8) with 172.
  destruct (draw_swatches_ok 141 172 p3 G3 ltac:(lia) ltac:(lia)) as (p4 & E4 & P4). erewrite on_hw_ok by exact E4.
  eexists. split; [reflexivity|]. cbn [hw saved_font]. split; [|exact (conj K1 T1)]. unfold fetch_picture.
  apply (screen_painted p3 p4); [|exact P4]. apply (screen_painted p2 p3); [|exact P3].
  apply (screen_ext _ (atop nothing (gordon_at 5))); [apply atop_nothing|]. by apply (screen_painted (hw s1)).
Qed.

(** C29: from the text mode, [vga_splash_gordon] and [vga_fasterfetch] put exactly their
    picture on a black screen (the bitmap, the lines of text in the saved font cut at the
    right edge, the colour blocks, nothing outside the 320 by 200 pixels), wait for a key,
    and after it the text mode is back: the registers of [g_text80x25], all 256 colours,
    all 256 glyphs, a blank terminal, and the tables unchanged so that they can run again. *)
Theorem pictures_restore_text_mode cpu used_mb total_mb uptime_secs (s : @gfx P) : text_mode s ->
  presents (vga_splash_gordon) (fun _ => gordon_at 99) s
  /\ presents (fun fuel => vga_fasterfetch fuel cpu used_mb total_mb uptime_secs) (fun font => fetch_picture font cpu used_mb total_mb uptime_secs) s.
Proof. intros Ht. split; [by apply gordon_presents|by apply fasterfetch_presents]. Qed.

End Pictures.

(** ** A card in memory *)

Definition sound (s : vga) : Prop :=
  (forall b i, is_byte (reg s b i)) /\ (forall i, 0 <= dac s i < 64) /\ (forall k i, is_byte (plane s k i)).

(** With a keyboard that has a key ready at every second poll. *)
Record card := mk_card { face : vga; face_ok : sound face; polls : Z }.

Definition out_view (port v : Z) (s : vga) : vga :=
  if port =? VGA_SEQ_INDEX then set_index Seq v s else if port =? VGA_GC_INDEX then set_index Gc v s else if port =? VGA_CRTC_INDEX then set_index Crtc v s
  else if port =? VGA_SEQ_DATA then put_reg Seq v s else if port =? VGA_GC_DATA then put_reg Gc v s else if port =? VGA_CRTC_DATA then put_reg Crtc v s
  else if port =? VGA_MISC_WRITE then set_misc v s else if port =? VGA_AC_INDEX then put_ac v s
  else if port =? VGA_DAC_READ_INDEX then set_dac (3 * v) (dac_write s) (dac s) s
  else if port =? VGA_DAC_WRITE_INDEX then set_dac (dac_read s) (3 * v) (dac s) s
  else if port =? VGA_DAC_DATA then set_dac (dac_read s) ((dac_write s + 1) mod 768) ((dac s).[dac_write s <- v mod 64]) s
  else s.

Definition in_view (port : Z) (s : vga) : vga :=
  if port =? VGA_INSTAT_READ then set_ac (ac_idx s) true (ac s) s
  else if port =? VGA_DAC_DATA then set_dac ((dac_read s + 1) mod 768) (dac_write s) (dac s) s else s.

Definition in_value (port : Z) (c : card) : Z :=
  let s := face c in
  if port =? VGA_SEQ_DATA then reg s Seq (idx s Seq) else if port =? VGA_GC_DATA then reg s Gc (idx s Gc) else if port =? VGA_CRTC_DATA then reg s Crtc (idx s Crtc)
  else if port =? VGA_DAC_DATA then dac s (dac_read s) else if port =? 0x64 then polls c mod 2 else if port =? 0x60 then 0x1C else 0.

Lemma sound_reg b v s : is_byte v -> sound s -> sound (put_reg b v s).
Proof.
  intros Hv (Hr & Hd & Hp). unfold put_reg. destruct (locked _ _ _); [done|]. split; [|done]. intros b' i. cbn [set_regs reg]. unfold bset.
  destruct (decide (b' = b)); [|apply Hr]. unfold upd. destruct (i =? idx s b); [done|apply Hr].
Qed.

Lemma sound_ac v s : sound s -> sound (put_ac v s).
Proof. unfold put_ac. by destruct (ac_flip s). Qed.

Lemma sound_dac s r w i v : sound s -> sound (set_dac r w ((dac s).[i <- v mod 64]) s).
Proof. intros (Hr & Hd & Hp). split; [done|]. split; [|done]. intros k. cbn. unfold upd. destruct (k =? i); [|apply Hd]. zmod. Qed.

Lemma sound_out port v s : is_byte v -> sound s -> sound (out_view port v s).
Proof.
  intros Hv Hs. unfold out_view. repeat match goal with |- context [port =? ?c] => destruct (port =? c); [first [by apply sound_reg|by apply sound_ac|by apply sound_dac|exact Hs]|] end. exact Hs.
Qed.

Lemma sound_in port s : sound s -> sound (in_view port s).
Proof. intros Hs. unfold in_view. destruct (port =? VGA_INSTAT_READ); [exact Hs|]. destruct (port =? VGA_DAC_DATA); exact Hs. Qed.

Lemma sound_store a v s : is_byte v -> sound s -> sound (store a v s).
Proof. intros Hv (Hr & Hd & Hp). split; [done|]. split; [done|]. intros k i. cbn. destruct (_ && _); [done|apply Hp]. Qed.

#[global] Instance card_ports : Ports card := {
  port_inb port c := (in_value port c, mk_card (in_view port (face c)) (sound_in port _ (face_ok c)) (polls c + if port =? 0x64 then 1 else 0));
  port_outb port v c := mk_card (out_view port (u8 v) (face c)) (sound_out port _ _ (u8_bound v) (face_ok c)) (polls c);
  port_inw port c := (0, c);
  port_outw port v c := c }.

#[global] Program Instance card_vga : VgaCard card := {
  vc_view := face;
  mem_read a c := (load a (face c), c);
  mem_write a v c := mk_card (store a (u8 v) (face c)) (sound_store a _ _ (u8_bound v) (face_ok c)) (polls c) }.
Next Obligation. intros p. apply (face_ok p). Qed.
Next Obligation. intros p. apply (face_ok p). Qed.
Next Obligation. intros p. apply (face_ok p). Qed.
Next Obligation. intros p b v Hv. destruct b; cbn; by rewrite u8_small. Qed.
Next Obligation. intros p b v Hv. destruct b; cbn; by rewrite u8_small. Qed.
Next Obligation. intros p b. by destruct b. Qed.
Next Obligation. intros p v Hv. cbn. by rewrite u8_small. Qed.
Next Obligation. intros p v Hv. cbn. by rewrite u8_small. Qed.
Next Obligation. done. Qed.
Next Obligation. intros p v Hv. cbn. by rewrite u8_small. Qed.
Next Obligation. intros p v Hv. cbn. by rewrite u8_small. Qed.
Next Obligation. intros p v Hv. cbn. by rewrite u8_small. Qed.
Next Obligation. done. Qed.
Next Obligation. intros p a v Ha Hv _ _. cbn. by rewrite u8_small. Qed.
Next Obligation. done. Qed.
Next Obligation. intros p port [-> | ->]; done. Qed.


Lemma poll_ok (c : card) : exists c', inb 0x64 c = Some (polls c mod 2, c') /\ polls c' = polls c + 1.
Proof. exists (snd (port_inb 0x64 c)). split; [|reflexivity]. unfold inb. cbn. rewrite u8_small; [done|]. unfold is_byte. zmod. Qed.

Lemma code_ok (c : card) : exists c', inb 0x60 c = Some (0x1C, c') /\ polls c' = polls c.
Proof. eexists. split; [reflexivity|]. cbn. lia. Qed.

Lemma drain_ends n : forall c : card, (2 <= n)%nat -> exists c', drain_pending n c = Some (tt, c') /\ polls c' mod 2 = 1.
Proof.
  intros c Hn. destruct n as [|[|n]]; [lia|lia|]. cbn [drain_pending]. destruct (poll_ok c) as (c1 & E1 & P1). rewrite (bind_ok _ _ _ _ _ E1).
  assert (polls c mod 2 = 0 \/ polls c mod 2 = 1) as [H|H] by zmod; rewrite H; [exists c1; split; [done|]; rewrite P1; zmod|]. change (Z.testbit 1 0) with true. cbv iota.
  destruct (code_ok c1) as (c2 & E2 & P2). rewrite (bind_ok _ _ _ _ _ E2). destruct (poll_ok c2) as (c3 & E3 & P3). rewrite (bind_ok _ _ _ _ _ E3).
  assert (polls c2 mod 2 = 0) as -> by (rewrite P2, P1; zmod). exists c3. split; [done|]. rewrite P3, P2, P1. zmod.
Qed.

Lemma key_arrives (c : card) : exists c', wait_for_key 2 c = Some (tt, c').
Proof.
  unfold wait_for_key. destruct (drain_ends 2 c ltac:(lia)) as (c1 & E1 & H1). rewrite (bind_ok _ _ _ _ _ E1). cbn [await_press].
  destruct (poll_ok c1) as (c2 & E2 & _). rewrite (bind_ok _ _ _ _ _ E2), H1. change (Z.testbit 1 0) with true. cbv iota. destruct (code_ok c2) as (c3 & E3 & _). rewrite (bind_ok _ _ _ _ _ E3). by exists c3.
Qed.

(** A card in text mode, its font a pattern of stripes. *)
Definition fresh_face : vga :=
  mk_vga 0 (fun _ => 0) (fun b i => match b with Gc => if i =? 5 then 0x10 else 0 | _ => 0 end) 0 true (fun _ => 0) 0 0 (fun i => i mod 64) (fun k i => i mod 256).

Lemma fresh_ok : sound fresh_face.
Proof. split; [|split]; [intros [] i; cbn; zspec; done|intros i; cbn; zmod|intros k i; cbn; unfold is_byte; zmod]. Qed.

Definition fresh_gfx : @gfx card :=
  mk_gfx (mk_card fresh_face fresh_ok 7) (fun _ => 0) (fun _ => 0) g_mode13h g_text80x25 (Vga.mk_terminal 3 4 7 (fun _ => 0) 0 0 (Serial.mk_serial 1 [])).

Lemma pictures_restore_text_mode_witness : text_mode fresh_gfx
  /\ exists s', vga_fasterfetch 2 (chars "GenuineIntel") 12 64 3723 fresh_gfx = Some (tt, s')
     /\ programmed (face (hw s')) g_text80x25 /\ (forall x, 0 <= x < 768 -> dac (face (hw s')) x = x mod 64).
Proof.
  assert (text_mode fresh_gfx) as Ht by (repeat split). split; [exact Ht|].
  destruct (pictures_restore_text_mode (chars "GenuineIntel") 12 64 3723 fresh_gfx Ht) as [_ H].
  destruct (H 2%nat) as (s1 & _ & _ & _ & Hkey). destruct (key_arrives (hw s1)) as [c' Ec]. destruct (Hkey c' Ec) as (s' & E & _ & Hr & Hd & _).
  exists s'. split; [exact E|]. split; [exact Hr|exact Hd].
Defined.


End Draw.
