(* ===== verification/Splash.v ===== *)
(** * The welcome box

    [src/display/splash.c]: the framed text the kernel prints when it has started, on the
    terminal of [Vga]. *)

From S2P Require Import Prelude Vga.

Module Splash.
Import Vga.

Definition VGA_COLOR_LIGHT_MAGENTA : Z := 13.

(** [for (int i = 0; i < n; i++) terminal_putchar(c)]. *)
Definition put_times (n c : Z) : st terminal unit := for_st (Z.to_nat n) 0 (fun _ => terminal_putchar c).

Definition print_border (width : Z) : st terminal unit :=
  terminal_putchar 43 ;; put_times (width - 2) 45 ;; terminal_putchar 43 ;; terminal_putchar 10.

Definition print_empty_line (width : Z) : st terminal unit :=
  terminal_putchar 124 ;; put_times (width - 2) 32 ;; terminal_putchar 124 ;; terminal_putchar 10.

Definition print_bordered_line (str : list Z) (width : Z) : st terminal unit :=
  let len := Z.of_nat (length str) in
  let inner := width - 2 in
  let left_pad := Z.quot (inner - len) 2 in
  let right_pad := inner - len - left_pad in
  terminal_putchar 124 ;;
  put_times left_pad 32 ;;
  terminal_writestring str ;;
  put_times right_pad 32 ;;
  terminal_putchar 124 ;;
  terminal_putchar 10.

Definition splash_show : st terminal unit :=
  let box_width := 40 in
  let box_indent := Z.quot (80 - box_width) 2 in
  let INDENT := put_times box_indent 32 in
  terminal_setcolor (vga_entry_color VGA_COLOR_LIGHT_MAGENTA VGA_COLOR_BLACK) ;;
  put_times 1 10 ;;
  INDENT ;; print_border box_width ;;
  INDENT ;; print_empty_line box_width ;;
  INDENT ;; print_bordered_line (chars "Welcome to GordOS!") box_width ;;
  INDENT ;; print_bordered_line (chars "The OS that sucks") box_width ;;
  INDENT ;; print_bordered_line (chars "(For now :3)") box_width ;;
  INDENT ;; print_bordered_line (chars "Type help to get started") box_width ;;
  INDENT ;; print_empty_line box_width ;;
  INDENT ;; print_border box_width ;;
  terminal_putchar 10 ;;
  terminal_putchar 10 ;;
  terminal_setcolor (vga_entry_color 7 VGA_COLOR_BLACK).

(** ** What is printed *)

(** A program that does no more than write [s]. *)
Definition prints (m : st terminal unit) (s : list Z) : Prop := forall t, m t = terminal_write s t.

Lemma terminal_write_app s1 s2 t : terminal_write (s1 ++ s2) t = (terminal_write s1 ;; terminal_write s2) t.
Proof.
  revert t. induction s1 as [|c s1 IH]; intros t; [done|]. cbn [app terminal_write]. unfold bind at 1 2 3. destruct (terminal_putchar c t) as [[[] t1]|]; [|done]. apply IH.
Qed.

Lemma prints_seq m1 m2 s1 s2 : prints m1 s1 -> prints m2 s2 -> prints (m1 ;; m2) (s1 ++ s2).
Proof. intros H1 H2 t. rewrite terminal_write_app. unfold bind. rewrite H1. destruct (terminal_write s1 t) as [[[] t1]|]; [apply H2|done]. Qed.

Lemma prints_char c : prints (terminal_putchar c) [c].
Proof. intros t. change (terminal_write [c]) with (terminal_putchar c ;; ret tt). unfold bind. by destruct (terminal_putchar c t) as [[[] t1]|]. Qed.

Lemma prints_times n c : prints (put_times n c) (repeat c (Z.to_nat n)).
Proof.
  unfold put_times. generalize 0 as lo. induction (Z.to_nat n) as [|k IH]; intros lo; [done|].
  change (repeat c (S k)) with ([c] ++ repeat c k). apply prints_seq; [apply prints_char|apply IH].
Qed.

Lemma prints_string s : prints (terminal_writestring s) s.
Proof. done. Qed.

Create HintDb prints.
#[export] Hint Resolve prints_seq prints_char prints_times prints_string : prints.

(** A line of the box: [s] centred between bars; the odd blank goes to the right. *)
Definition centred (w : nat) (s : list Z) : list Z :=
  let pad := (w - 2 - length s)%nat in
  [124] ++ repeat 32 (pad / 2) ++ s ++ repeat 32 (pad - pad / 2) ++ [124; 10].

Lemma print_bordered_ok s w : (length s + 2 <= w)%nat -> prints (print_bordered_line s (Z.of_nat w)) (centred w s).
Proof.
  intros Hw. unfold print_bordered_line, centred. rewrite Z.quot_div_nonneg by lia.
  set (n := (w - 2 - length s)%nat). assert (Z.of_nat w - 2 - Z.of_nat (length s) = Z.of_nat n) as -> by lia.
  replace (n / 2)%nat with (Z.to_nat (Z.of_nat n / 2)) by (rewrite Z2Nat.inj_div, Nat2Z.id by lia; done).
  replace (n - Z.to_nat (Z.of_nat n / 2))%nat with (Z.to_nat (Z.of_nat n - Z.of_nat n / 2)) by (rewrite Z2Nat.inj_sub, Nat2Z.id by (apply Z.div_pos; lia); done).
  change [124; 10] with ([124] ++ [10]). auto 12 with prints.
Qed.

Lemma centred_length w s : (length s + 2 <= w)%nat -> length (centred w s) = S w.
Proof. intros Hw. unfold centred. rewrite !length_app, !repeat_length. cbn [length]. pose proof (Nat.Div0.div_le_upper_bound (w - 2 - length s) 2 (w - 2 - length s)). lia. Qed.

Definition box : list (list Z) :=
  [chars "+--------------------------------------+";
   chars "|                                      |";
   chars "|          Welcome to GordOS!          |";
   chars "|          The OS that sucks           |";
   chars "|             (For now :3)             |";
   chars "|       Type help to get started       |";
   chars "|                                      |";
   chars "+--------------------------------------+"].

Definition splash_text : list Z := [10] ++ concat (map (fun l => repeat 32 20 ++ l ++ [10]) box) ++ [10; 10].

(** A program that writes [s] and goes on with [k]. *)
Definition leads (m : st terminal unit) (s : list Z) (k : st terminal unit) : Prop := forall t, m t = (terminal_write s ;; k) t.

Lemma leads_nil k : leads k [] k.
Proof. done. Qed.

Lemma leads_cons m s1 k s2 k' : prints m s1 -> leads k s2 k' -> leads (m ;; k) (s1 ++ s2) k'.
Proof.
  intros Hm Hk t. unfold bind at 1 2. rewrite Hm, terminal_write_app. unfold bind. destruct (terminal_write s1 t) as [[[] t1]|]; [|done]. apply Hk.
Qed.

Lemma prints_border w : prints (print_border w) ([43] ++ repeat 45 (Z.to_nat (w - 2)) ++ [43] ++ [10]).
Proof. unfold print_border. auto 8 with prints. Qed.

Lemma prints_empty w : prints (print_empty_line w) ([124] ++ repeat 32 (Z.to_nat (w - 2)) ++ [124] ++ [10]).
Proof. unfold print_empty_line. auto 8 with prints. Qed.

Lemma splash_leads : exists m, leads m splash_text (terminal_setcolor 7) /\ splash_show = (terminal_setcolor 13 ;; m).
Proof.
  eexists. split; [|reflexivity]. eassert (splash_text = _) as ->; [|
    repeat first [apply leads_nil|apply leads_cons; [first [apply prints_times|apply prints_border|apply prints_empty|apply (print_bordered_ok _ 40); apply Nat.leb_le; reflexivity|apply prints_char]|]]].
  vm_compute. reflexivity.
Qed.

(** [splash_show] succeeds on every screen and writes the box in light magenta, every line
    indented by 20 and 40 wide, then goes back to light grey. *)
Lemma splash_show_ok t a : refines t a ->
  exists t', splash_show t = Some (tt, t') /\ refines t' (spec (SetColor 7) (spec (WriteString splash_text) (spec (SetColor 13) a))).
Proof.
  intros H. destruct splash_leads as (m & Hm & ->). destruct (run_ok (SetColor 13) t a H) as (t1 & E1 & H1). cbn [run] in E1. rewrite (bind_ok _ _ _ _ _ E1), Hm.
  destruct (run_ok (WriteString splash_text) t1 _ H1) as (t2 & E2 & H2). cbn [run] in E2. unfold terminal_writestring in E2. rewrite (bind_ok _ _ _ _ _ E2).
  apply (run_ok (SetColor 7) t2 _ H2).
Qed.

End Splash.
