(* ===== verification/Fetch.v ===== *)
(** * System information

    [cpu_get_name] and [cmd_fasterfetch] of [src/kernel/shell.c] with their copies
    [sc_cpu_name] and [sys_fasterfetch] in [src/kernel/syscall.c]: the name the processor
    reports, and the numbers on the information screen. *)

From S2P Require Import Prelude Ports Pmm Vga Vga13 Vga13Draw.

Module Fetch.

(** ** The processor's name *)

Section Name.
(** EAX, EBX, ECX and EDX as the CPUID instruction sets them for a leaf. *)
Context (cpuid : Z -> Z * Z * Z * Z).

(** [words[i] = w] in the buffer: four bytes, the lowest first. *)
Definition put_word (i w : Z) (name : Z -> Z) : Z -> Z :=
  name.[4 * i <- u8 w].[4 * i + 1 <- u8 (Z.shiftr w 8)].[4 * i + 2 <- u8 (Z.shiftr w 16)].[4 * i + 3 <- u8 (Z.shiftr w 24)].

Definition put_leaf (wi leaf : Z) (name : Z -> Z) : Z -> Z :=
  let '(a, b, c, d) := cpuid leaf in
  put_word (wi + 3) d (put_word (wi + 2) c (put_word (wi + 1) b (put_word wi a name))).

(** Accesses to [char name[49]]. *)
Definition name_at (name : Z -> Z) (i : Z) : option Z := if (0 <=? i) && (i <? 49) then Some (name i) else None.

(** [while (name[start] == ' ') start++]; [None] is a read outside the buffer. *)
Fixpoint skip_leading (fuel : nat) (name : Z -> Z) (start : Z) : option Z :=
  match fuel, name_at name start with
  | S n, Some c => if c =? 32 then skip_leading n name (start + 1) else Some start
  | _, _ => None
  end.

(** [while (name[start + k]) { name[k] = name[start + k]; k++; } name[k] = 0]. *)
Fixpoint move_down (fuel : nat) (start k : Z) (name : Z -> Z) : option (Z -> Z) :=
  match fuel, name_at name (start + k) with
  | S n, Some c => if negb (c =? 0) then move_down n start (k + 1) (name.[k <- c]) else Some (name.[k <- 0])
  | _, _ => None
  end.

(** Fifty rounds are enough: both loops stop at [name[48]] at the latest. *)
Definition cpu_get_name (name : Z -> Z) : option (Z -> Z) :=
  let '(max_ext, _, _, _) := cpuid 0x80000000 in
  if 0x80000004 <=? max_ext then
    let name := put_leaf 8 0x80000004 (put_leaf 4 0x80000003 (put_leaf 0 0x80000002 name)) in
    let name := name.[48 <- 0] in
    match skip_leading 50 name 0 with
    | Some start => if 0 <? start then move_down 50 start 0 name else Some name
    | None => None
    end
  else
    let '(_, b, c, d) := cpuid 0 in
    let name := put_word 2 c (put_word 1 d (put_word 0 b name)) in
    Some (name.[12 <- 0]).

(** The copy in syscall.c. *)
Definition sc_cpu_name (name : Z -> Z) : option (Z -> Z) := cpu_get_name name.

End Name.

(** ** Reference *)

(** The text of a buffer, up to its first NUL. *)
Fixpoint text_from (n : nat) (name : Z -> Z) (i : Z) : list Z :=
  match n with
  | O => []
  | S n => if name i =? 0 then [] else name i :: text_from n name (i + 1)
  end.

Fixpoint trim (l : list Z) : list Z :=
  match l with c :: l' => if c =? 32 then trim l' else l | [] => [] end.

Fixpoint until_nul (l : list Z) : list Z :=
  match l with c :: l => if c =? 0 then [] else c :: until_nul l | [] => [] end.

Definition bytes_of (w : Z) : list Z := [u8 w; u8 (Z.shiftr w 8); u8 (Z.shiftr w 16); u8 (Z.shiftr w 24)].

Definition leaf_bytes (cpuid : Z -> Z * Z * Z * Z) (leaf : Z) : list Z :=
  let '(a, b, c, d) := cpuid leaf in bytes_of a ++ bytes_of b ++ bytes_of c ++ bytes_of d.

(** What CPUID says: the brand string without leading blanks, else the vendor. *)
Definition cpu_name (cpuid : Z -> Z * Z * Z * Z) : list Z :=
  let '(max_ext, _, _, _) := cpuid 0x80000000 in
  if 0x80000004 <=? max_ext
  then until_nul (trim (leaf_bytes cpuid 0x80000002 ++ leaf_bytes cpuid 0x80000003 ++ leaf_bytes cpuid 0x80000004))
  else let '(_, b, c, d) := cpuid 0 in until_nul (bytes_of b ++ bytes_of d ++ bytes_of c).

(** ** Proofs *)

Lemma text_until name (n : nat) : forall i, text_from n name i = until_nul (map (fun j => name (i + Z.of_nat j)) (seq 0 n)).
Proof.
  induction n as [|n IH]; intros i; [done|]. cbn [text_from seq map until_nul]. rewrite Z.add_0_r. destruct (name i =? 0); [done|]. f_equal.
  rewrite IH, <- seq_shift, map_map. f_equal. apply map_ext. intros j. f_equal. lia.
Qed.

Lemma text_from_ext name name' n : forall i, (forall j, i <= j < i + Z.of_nat n -> name j = name' j) -> text_from n name i = text_from n name' i.
Proof.
  induction n as [|n IH]; intros i H; [done|]. cbn [text_from]. rewrite (H i) by lia. destruct (name' i =? 0); [done|]. f_equal. apply IH. intros j Hj. apply H. lia.
Qed.

(** The first loop: the blanks at the start are skipped. *)
Lemma skip_leading_ok name (n : nat) : forall i, 0 <= i -> i + Z.of_nat n = 48 -> name 48 = 0 -> forall fuel, (n < fuel)%nat ->
  exists s, skip_leading fuel name i = Some s /\ i <= s <= 48 /\ trim (map name (seqZ i (Z.of_nat n))) = map name (seqZ s (48 - s)).
Proof.
  induction n as [|n IH]; intros i Hi Hn H48 [|fuel] Hf; try lia; cbn [skip_leading]; unfold name_at; destruct (Z.leb_spec 0 i), (Z.ltb_spec i 49); try lia; cbn [andb].
  - replace i with 48 in * by lia. rewrite H48. exists 48. split; [done|]. split; [lia|]. done.
  - rewrite seqZ_cons by lia. cbn [map trim]. destruct (name i =? 32).
    + destruct (IH (i + 1)) with (fuel := fuel) as (s & E & Hs & Ht); [lia..|done|lia|]. exists s. split; [done|]. split; [lia|].
      rewrite <- Ht. f_equal. f_equal. f_equal; lia.
    + exists i. split; [done|]. split; [lia|]. replace (48 - i) with (Z.of_nat (S n)) by lia. rewrite (seqZ_cons i) by lia. done.
Qed.

(** The second loop: the text moves to the front. *)
Lemma move_ok start (n : nat) : forall k name fuel, 0 < start -> 0 <= k -> start + k + Z.of_nat n = 48 -> name 48 = 0 -> (n < fuel)%nat ->
  exists name', move_down fuel start k name = Some name'
  /\ text_from (S n) name' k = text_from (S n) name (start + k) /\ forall j, j < k -> name' j = name j.
Proof.
  induction n as [|n IH]; intros k name [|fuel] Hs Hk Hn H48 Hf; try lia; cbn [move_down]; unfold name_at; destruct (Z.leb_spec 0 (start + k)), (Z.ltb_spec (start + k) 49); try lia; cbn [andb].
  - replace (start + k) with 48 by lia. rewrite H48. cbn [Z.eqb negb]. eexists. split; [reflexivity|]. split.
    + cbn [text_from]. rewrite upd_same, H48. done.
    + intros j Hj. rewrite upd_other; [done|lia].
  - destruct (Z.eqb_spec (name (start + k)) 0) as [E|E]; cbn [negb].
    + eexists. split; [reflexivity|]. split.
      * cbn [text_from]. rewrite upd_same, E. done.
      * intros j Hj. rewrite upd_other; [done|lia].
    + destruct (IH (k + 1) (name.[k <- name (start + k)]) fuel) as (name' & E' & Ht & Hlow); [lia|lia|lia|rewrite upd_other; [done|lia]|lia|].
      exists name'. split; [done|]. split.
      * cbn [text_from] in Ht |- *. rewrite (Hlow k) by lia. rewrite upd_same. destruct (name (start + k) =? 0); [done|]. f_equal.
        replace (start + k + 1) with (start + (k + 1)) by lia. cbn [text_from]. rewrite Ht. symmetry.
        change (text_from (S n) name (start + (k + 1)) = text_from (S n) (name.[k <- name (start + k)]) (start + (k + 1))).
        apply text_from_ext. intros j Hj. rewrite upd_other; [done|lia].
      * intros j Hj. rewrite Hlow by lia. rewrite upd_other; [done|lia].
Qed.

Lemma text_length n name : forall i, (length (text_from n name i) <= n)%nat.
Proof. induction n as [|n IH]; intros i; cbn [text_from]; [done|]. destruct (name i =? 0); cbn [length]; [lia|]. specialize (IH (i + 1)). lia. Qed.

(** The text ends at a NUL, however far the reader would go. *)
Lemma text_stops n m name : forall i, name (i + Z.of_nat n) = 0 -> (n <= m)%nat -> text_from m name i = text_from n name i.
Proof.
  revert m. induction n as [|n IH]; intros m i H0 Hm.
  - destruct m as [|m]; [done|]. cbn [text_from]. rewrite Z.add_0_r in H0. by rewrite H0.
  - destruct m as [|m]; [lia|]. cbn [text_from]. destruct (name i =? 0); [done|]. f_equal. apply IH; [|lia]. rewrite <- H0. f_equal. lia.
Qed.

Lemma text_longer n m name i : (length (text_from n name i) < n)%nat -> (n <= m)%nat -> text_from m name i = text_from n name i.
Proof.
  revert m i. induction n as [|n IH]; intros m i Hl Hm; [by cbn in Hl; lia|]. destruct m as [|m]; [lia|]. cbn [text_from] in Hl |- *.
  destruct (name i =? 0); [done|]. f_equal. apply IH; [cbn [length] in Hl; lia|lia].
Qed.

Lemma text_seqZ n name i : text_from n name i = until_nul (map name (seqZ i (Z.of_nat n))).
Proof.
  revert i. induction n as [|n IH]; intros i; [done|]. rewrite seqZ_cons by lia. cbn [text_from map until_nul]. destruct (name i =? 0); [done|]. f_equal.
  rewrite IH. f_equal. f_equal. f_equal; lia.
Qed.

(** The front of the buffer after trimming. *)
Lemma trimmed_ok name1 (brand : list Z) : name1 48 = 0 -> map name1 (seqZ 0 48) = brand ->
  exists name', match skip_leading 50 name1 0 with Some start => if 0 <? start then move_down 50 start 0 name1 else Some name1 | None => None end = Some name'
  /\ text_from 49 name' 0 = until_nul (trim brand) /\ (length (text_from 49 name' 0) <= 48)%nat.
Proof.
  intros H48 <-. destruct (skip_leading_ok name1 48 0 ltac:(lia) ltac:(lia) H48 50 ltac:(lia)) as (s & -> & Hs & Ht). change (Z.of_nat 48) with 48 in Ht. rewrite Ht.
  destruct (Z.ltb_spec 0 s) as [H0|H0].
  - destruct (move_ok s (Z.to_nat (48 - s)) 0 name1 50 H0) as (name' & -> & E & _); [lia|lia|done|lia|]. exists name'. split; [done|].
    assert (text_from (S (Z.to_nat (48 - s))) name1 (s + 0) = text_from (Z.to_nat (48 - s)) name1 s) as E1.
    { rewrite Z.add_0_r. apply text_stops; [|lia]. rewrite <- H48. f_equal. lia. }
    pose proof (text_length (Z.to_nat (48 - s)) name1 s) as Hl. rewrite E1 in E.
    rewrite (text_longer (S (Z.to_nat (48 - s)))) by (rewrite ?E; lia). rewrite E. split; [|lia]. rewrite text_seqZ. f_equal. f_equal. f_equal. lia.
  - assert (s = 0) as -> by lia. exists name1. split; [done|]. rewrite (text_stops 48 49) by (done || lia). pose proof (text_length 48 name1 0). split; [|done]. by rewrite text_seqZ.
Qed.

Lemma cpu_get_name_ok cpuid name : exists name', cpu_get_name cpuid name = Some name'
  /\ text_from 49 name' 0 = cpu_name cpuid /\ (length (cpu_name cpuid) <= 48)%nat.
Proof.
  unfold cpu_get_name, cpu_name. destruct (cpuid 0x80000000) as [[[max_ext ?] ?] ?]. destruct (0x80000004 <=? max_ext).
  - set (name1 := (put_leaf cpuid 8 _ _).[48 <- 0]). set (brand := leaf_bytes cpuid 0x80000002 ++ _).
    destruct (trimmed_ok name1 brand) as (name' & E & Ht & Hl); [by unfold name1; rewrite upd_same| |exists name'; split; [exact E|by rewrite <- Ht]].
    unfold name1, brand, put_leaf, leaf_bytes. destruct (cpuid 0x80000002) as [[[? ?] ?] ?], (cpuid 0x80000003) as [[[? ?] ?] ?], (cpuid 0x80000004) as [[[? ?] ?] ?]. reflexivity.
  - destruct (cpuid 0) as [[[? b] c] d]. eexists. split; [reflexivity|]. set (name' := (put_word 2 c _).[12 <- 0]).
    assert (text_from 49 name' 0 = until_nul (bytes_of b ++ bytes_of d ++ bytes_of c)) as E.
    { rewrite (text_stops 12) by (done || lia). by rewrite text_seqZ. }
    rewrite E. split; [done|]. rewrite <- E. rewrite (text_stops 12) by (done || lia). pose proof (text_length 12 name' 0). lia.
Qed.

(** ** The commands *)

Section Commands.
Import Vga13 Draw.
Context {P : Type} `{VC : VgaCard P} (cpuid : Z -> Z * Z * Z * Z).

(** The graphics state with the page allocator and the timer's ticks, which the commands
    read, and the interrupt flag. *)
Record info := mk_info { i_gfx : @gfx P; i_pmm : Pmm.pmm_state; i_ticks : Z; i_if : bool }.

Definition on_gfx {A} (m : st gfx A) : st info A := fun s =>
  match m (i_gfx s) with Some (x, g) => Some (x, mk_info g (i_pmm s) (i_ticks s) (i_if s)) | None => None end.
Definition set_if (v : bool) : st info unit := modify (fun s => mk_info (i_gfx s) (i_pmm s) (i_ticks s) v).

Definition used_mb (m : Pmm.pmm_state) : Z := u32 (u32 (Pmm.pmm_total_pages m - Pmm.pmm_free_pages m) * 4) / 1024.
Definition total_mb (m : Pmm.pmm_state) : Z := u32 (Pmm.pmm_total_pages m * 4) / 1024.

(** [name0] is what the stack holds in [char cpu_name[49]]. *)
Definition sys_fasterfetch (fuel : nat) (name0 : Z -> Z) : st info Z := fun s =>
  match sc_cpu_name cpuid name0 with
  | None => None
  | Some name =>
    (on_gfx (vga_fasterfetch fuel (text_from 49 name 0) (used_mb (i_pmm s)) (total_mb (i_pmm s)) (i_ticks s / 1000)) ;; ret 0) s
  end.

Definition sys_peter (fuel : nat) : st info Z := on_gfx (vga_splash_gordon fuel) ;; ret 0.

Definition cmd_fasterfetch (fuel : nat) (name0 : Z -> Z) : st info unit := fun s =>
  match cpu_get_name cpuid name0 with
  | None => None
  | Some name =>
    (let* flags := gets i_if in
     set_if false ;;
     on_gfx (vga_fasterfetch fuel (text_from 49 name 0) (used_mb (i_pmm s)) (total_mb (i_pmm s)) (i_ticks s / 1000)) ;;
     set_if flags) s
  end.

Definition cmd_gordon (fuel : nat) : st info unit :=
  let* flags := gets i_if in
  set_if false ;;
  on_gfx (vga_splash_gordon fuel) ;;
  set_if flags.


End Commands.

(** A processor that reports "  GordCPU". *)
Definition demo_cpuid (leaf : Z) : Z * Z * Z * Z :=
  if leaf =? 0x80000000 then (0x80000008, 0, 0, 0)
  else if leaf =? 0x80000002 then (0x6F472020, 0x50436472, 0x00000055, 0) else (0, 0, 0, 0).



End Fetch.
