(* ===== verification/Boot.v ===== *)
(** * Starting the kernel

    [kernel_main] of [src/kernel/kernel.c] and [pit_init] of [src/drivers/pit.c]: the order
    in which the components are set up, on the machine the boot loader leaves.  It ends
    with the state from which the runs of [KernProps] start. *)

From S2P Require Import Prelude Ports Pmm Heap Disk Fat32 Sched SchedProps Pipe Paging Vfs Vga LineEdit Drivers ShellEdit Kern ShellCmd KernCalls KernProps Ata Cpu Splash.

Module Boot.

Import Fat32 Proc Sched SchedProps Paging Vfs Kern ShellCmd Vga.

Definition MULTIBOOT_BOOTLOADER_MAGIC : Z := 0x2BADB002.
Definition PIT_CHANNEL0 : Z := 0x40.
Definition PIT_COMMAND : Z := 0x43.

(** The functions [irq_register] is called with. *)
Inductive handler := pit_handler | keyboard_handler.

Section Boot.
(** The machine: a drive on the ports of the disk controller, and the rest of the
    ports with the interrupt controllers. *)
Context {D : Type} {DPorts : Ports D} {Drive : Ata.AtaDrive D} (Hprompt : Ata.prompt (P := D)).
Context {P : Type} {PPorts : Ports P} {Pics : Pic.PicPair P}.
Context {F : Type} (fninit_state : F) (fsave_image : F -> list Z).
Context `{L : Layout} `{M : Machine}.
(** Addresses from the linker and the assembly stubs, the memory the boot loader has
    filled, and the byte the serial port's self-test reads back. *)
Context (gdt_addr tss_addr idt_addr syscall_stub stack_top : Z) (isr irq : Z -> Z) (rd : Z -> Z) (mbi loopback : Z) (cmos : Z -> Z -> Z) (rtc_fuel : nat).

#[local] Instance drive_dev : BlockDev D := Ata.ata_block_dev Hprompt.

#[local] Existing Instance Heap.heap_kernel.
#[local] Existing Instance Heap.pmm_source.

Abbreviation memory := (Heap.heap * Pmm.pmm_state)%type.
Abbreviation kern := (kern (D := D) (A := memory)).

#[local] Instance host : ShellHost kern := kern_host cmos rtc_fuel.

(** The state of all components. *)
Record boot := mk_boot {
  b_kern : kern; b_tty : terminal; b_cpu : Gdt.cpu; b_idt : Idt.tables; b_fpu : Fpu.fpu (F := F);
  b_lines : Irq.lines (P := P) (H := handler); b_rate : Z; b_edit : LineEdit.edit }.

Definition on_k {X} (m : st kern X) : st boot X := fun b =>
  match m (b_kern b) with
  | Some (x, k) => Some (x, mk_boot k (b_tty b) (b_cpu b) (b_idt b) (b_fpu b) (b_lines b) (b_rate b) (b_edit b))
  | None => None
  end.
Definition on_tty {X} (m : st terminal X) : st boot X := fun b =>
  match m (b_tty b) with
  | Some (x, t) => Some (x, mk_boot (b_kern b) t (b_cpu b) (b_idt b) (b_fpu b) (b_lines b) (b_rate b) (b_edit b))
  | None => None
  end.
Definition on_cpu {X} (m : st Gdt.cpu X) : st boot X := fun b =>
  match m (b_cpu b) with
  | Some (x, c) => Some (x, mk_boot (b_kern b) (b_tty b) c (b_idt b) (b_fpu b) (b_lines b) (b_rate b) (b_edit b))
  | None => None
  end.
Definition on_idt {X} (m : st Idt.tables X) : st boot X := fun b =>
  match m (b_idt b) with
  | Some (x, c) => Some (x, mk_boot (b_kern b) (b_tty b) (b_cpu b) c (b_fpu b) (b_lines b) (b_rate b) (b_edit b))
  | None => None
  end.
Definition on_fpu {X} (m : st (Fpu.fpu (F := F)) X) : st boot X := fun b =>
  match m (b_fpu b) with
  | Some (x, c) => Some (x, mk_boot (b_kern b) (b_tty b) (b_cpu b) (b_idt b) c (b_lines b) (b_rate b) (b_edit b))
  | None => None
  end.
Definition on_lines {X} (m : st Irq.lines X) : st boot X := fun b =>
  match m (b_lines b) with
  | Some (x, c) => Some (x, mk_boot (b_kern b) (b_tty b) (b_cpu b) (b_idt b) (b_fpu b) c (b_rate b) (b_edit b))
  | None => None
  end.
Definition set_rate (r : Z) : st boot unit := modify (fun b =>
  mk_boot (b_kern b) (b_tty b) (b_cpu b) (b_idt b) (b_fpu b) (b_lines b) r (b_edit b)).
Definition on_shell {X} (m : st (LineEdit.edit * kern) X) : st boot X := fun b =>
  match m (b_edit b, b_kern b) with
  | Some (x, (e, k)) => Some (x, mk_boot k (b_tty b) (b_cpu b) (b_idt b) (b_fpu b) (b_lines b) (b_rate b) e)
  | None => None
  end.

Definition say (s : list Z) : st boot unit := on_tty (terminal_writestring s).
Definition ports {X} (m : st P X) : st boot X := on_lines (Irq.on_ports m).

(** The calls on the kernel's state: [pmm_init], [kmalloc_init] and the drive's. *)
Definition setup_pages : st kern unit := fun k =>
  match Pmm.pmm_init rd mbi (ps_pmm (mem (k_fs k))) with
  | Some m => Some (tt, set_fs (set_mem (ps_set m (mem (k_fs k))) (k_fs k)) k)
  | None => None
  end.
Definition setup_heap : st kern unit := modify (fun k => set_fs (set_mem (Heap.kmalloc_init, (mem (k_fs k)).2) (k_fs k)) k).
Definition ata_init : st kern Z := fun k =>
  match Ata.ata_init (S Ata.dr_patience) (dev (k_fs k)) with
  | Some (r, d) => Some (r, set_fs (set_dev d (k_fs k)) k)
  | None => None
  end.
(** [None] where the C function returns -1. *)
Definition fat32_mount : st kern (option geom) := fun k => let '(r, f) := fat32_init (k_fs k) in Some (r, set_fs f k).
Definition vfs_register (g : geom) : st kern unit := modify (fun k =>
  mk_kern (k_sched k) (k_fs k) (Some (fat32_vfs_ops g)) (k_vm k) (k_pipes k) (k_wbufs k) (k_exits k) (k_next_pid k)
    (k_kbd k) (k_ticks k) (k_stack k) (k_pending k) (k_shell k)).

Definition pit_init (frequency : Z) : st boot unit :=
  set_rate frequency ;;
  if frequency =? 0 then undef
  else
    let divisor := Pit.pit_divisor frequency in
    ports (outb PIT_COMMAND 0x36) ;;
    ports (outb PIT_CHANNEL0 (u8 (Z.land divisor 0xFF))) ;;
    ports (outb PIT_CHANNEL0 (u8 (Z.land (Z.shiftr divisor 8) 0xFF))) ;;
    on_lines (Irq.irq_register 0 pit_handler).

Definition keyboard_init : st boot unit := on_lines (Irq.irq_register 1 keyboard_handler).

Definition line (s : list Z) : list Z := s ++ [10].

(** Drive and file system. *)
Definition mount : st boot unit :=
  let* r := on_k ata_init in
  if r =? 0 then
    say (line (chars "ATA drive DETECTED")) ;;
    let* g := on_k fat32_mount in
    match g with
    | Some g => on_k (vfs_register g) ;; say (line (chars "FAT32 MOUNTED"))
    | None => say (line (chars "FAT32 mount FAILED"))
    end
  else say (line (chars "ATA init FAILED")).

(** The heap's self-test. *)
Definition try_heap : st boot unit :=
  let* a := on_k (Kern.kmalloc 64) in
  let* b := on_k (Kern.kmalloc 128) in
  on_k (Kern.kfree a) ;;
  let* c := on_k (Kern.kmalloc 32) in
  if negb (a =? 0) && negb (b =? 0) && negb (c =? 0) then say (line (chars "kmalloc OK")) else say (line (chars "kmalloc FAILED")).

(** [kernel_main] up to [pit_init]; [syscall_init] does nothing. *)
Definition kernel_setup (magic : Z) : st boot unit :=
  on_tty (modify (fun t => set_com1 (Serial.serial_init loopback (com1 t)).2 t)) ;;
  on_tty terminal_initialize ;;
  (if negb (magic =? MULTIBOOT_BOOTLOADER_MAGIC) then say (line (chars "WARNING: bad multiboot magic, memory map may be invalid")) else ret tt) ;;
  on_cpu (Gdt.gdt_init gdt_addr tss_addr) ;;
  ports Pic.pic_remap ;;
  on_idt (Idt.idt_init idt_addr isr irq syscall_stub) ;;
  on_fpu (Fpu.fpu_init fninit_state fsave_image) ;;
  on_k setup_pages ;;
  on_k (on_vm paging_init) ;;
  on_k setup_heap ;;
  on_k (on_sched scheduler_init) ;;
  on_k (on_sched (process_init kernel_task_addr boot_page_directory stack_top)) ;;
  say (line (chars "PMM Initialized")) ;;
  mount ;;
  try_heap ;;
  say (line (chars "Scheduler ready")) ;;
  on_tty Splash.splash_show ;;
  keyboard_init ;;
  pit_init 1000.

(** All of [kernel_main] before it enables interrupts and becomes the idle loop, which is
    the kernel task of [KernProps.runs]. *)
Definition kernel_main (magic : Z) : st boot unit :=
  kernel_setup magic ;;
  let* r := on_k shell_launch_ush in
  if negb (r =? 0) then on_shell ShellEdit.shell_init else ret tt.

(** ** What the boot loader leaves *)

(** .bss is zero, the BIOS has left the interrupt controllers in operation and the drive
    idle, and the multiboot information describes a memory map without overlaps. *)
Record powered (b : boot) : Prop := {
  pw_sched : k_sched (b_kern b) = bss;
  pw_pipes : k_pipes (b_kern b) = ∅;
  pw_wbufs : k_wbufs (b_kern b) = ∅;
  pw_pending : k_pending (b_kern b) = ∅;
  pw_vfs : k_vfs (b_kern b) = None;
  pw_pages : Pmm.free_pages (mem (k_fs (b_kern b))).2 = 0;
  pw_drive : Ata.dr_settle (dev (k_fs (b_kern b))) = O;
  pw_gdt : length (Gdt.gdt (b_cpu b)) = Gdt.GDT_ENTRIES;
  pw_idt : length (Idt.idt (b_idt b)) = Idt.IDT_ENTRIES;
  pw_irqs : length (b_lines b).1 = 16%nat;
  pw_master : Pic.c_stage (Pic.pc_view (b_lines b).2).1 = Pic.Ready;
  pw_slave : Pic.c_stage (Pic.pc_view (b_lines b).2).2 = Pic.Ready;
  pw_mask1 : is_byte (Pic.c_mask (Pic.pc_view (b_lines b).2).1);
  pw_mask2 : is_byte (Pic.c_mask (Pic.pc_view (b_lines b).2).2) }.

Record layout_ok : Prop := {
  lo_tss : is_u32 tss_addr;
  lo_task : kernel_task_addr <> 0;
  lo_map : exists es, is_u32 (rd (mbi + 48) + rd (mbi + 44))
    /\ Pmm.mmap_at rd (rd (mbi + 48)) es (rd (mbi + 48) + rd (mbi + 44)) /\ Forall Pmm.entry_ok es /\ Pmm.regions_disjoint es }.

(** What the screen shows: the messages, then the box. *)
Definition boot_calls (warned : bool) (disk heap : list Z) : list call :=
  (if warned then [WriteString (line (chars "WARNING: bad multiboot magic, memory map may be invalid"))] else [])
  ++ [WriteString (line (chars "PMM Initialized")); WriteString disk; WriteString heap; WriteString (line (chars "Scheduler ready"));
      SetColor 13; WriteString Splash.splash_text; SetColor 7].

(** ** Running the parts *)

Definition with_kern (k : kern) (b : boot) : boot := mk_boot k (b_tty b) (b_cpu b) (b_idt b) (b_fpu b) (b_lines b) (b_rate b) (b_edit b).
Definition with_tty (t : terminal) (b : boot) : boot := mk_boot (b_kern b) t (b_cpu b) (b_idt b) (b_fpu b) (b_lines b) (b_rate b) (b_edit b).

Lemma on_k_ok {X Y} (m : st kern X) (f : X -> st boot Y) b x k : m (b_kern b) = Some (x, k) -> (bind (on_k m) f) b = f x (with_kern k b).
Proof. intros E. apply bind_ok. unfold on_k. by rewrite E. Qed.

Lemma on_tty_ok {X Y} (m : st terminal X) (f : X -> st boot Y) b x t : m (b_tty b) = Some (x, t) -> (bind (on_tty m) f) b = f x (with_tty t b).
Proof. intros E. apply bind_ok. unfold on_tty. by rewrite E. Qed.

Lemma say_ok {Y} s (f : unit -> st boot Y) b a : refines (b_tty b) a ->
  exists t, (bind (say s) f) b = f tt (with_tty t b) /\ refines t (spec (WriteString s) a).
Proof. intros H. destruct (run_ok (WriteString s) _ _ H) as (t & E & Ht). exists t. split; [|done]. apply on_tty_ok. exact E. Qed.

Lemma paging_init_ok (v : vm) : exists v', paging_init v = Some (tt, v') /\ pmm v' = pmm v.
Proof.
  unfold paging_init, ensure_kernel_table, Paging.rd, modify, gets, bind. destruct (present _); [by eexists|]. unfold alloc_page_table.
  destruct (free_tables _) as [|x l]; [by eexists|]. destruct (x =? 0); by eexists.
Qed.

(** Pages, paging and heap: the kernel's memory after these three calls. *)
Lemma memory_ok {Y} (f : unit -> st boot Y) b : layout_ok -> Pmm.free_pages (mem (k_fs (b_kern b))).2 = 0 ->
  exists k, (on_k setup_pages ;; on_k (on_vm paging_init) ;; bind (on_k setup_heap) f) b = f tt (with_kern k b)
  /\ kh_ok (mem (k_fs k)) [] /\ k_sched k = k_sched (b_kern b) /\ k_pipes k = k_pipes (b_kern b) /\ k_wbufs k = k_wbufs (b_kern b)
  /\ k_pending k = k_pending (b_kern b) /\ dev (k_fs k) = dev (k_fs (b_kern b)) /\ k_vfs k = k_vfs (b_kern b).
Proof.
  intros [_ _ (es & H1 & H2 & H3 & H4)] Hf. destruct (Pmm.pmm_init_ok rd mbi es _ Hf H1 H2 H3 H4) as (m & d & E & Hm).
  erewrite on_k_ok by (unfold setup_pages; cbn [ps_pmm heap_pages]; by rewrite E). set (b1 := with_kern _ b).
  destruct (paging_init_ok (set_pmm (ps_pmm (mem (k_fs (b_kern b1)))) (k_vm (b_kern b1)))) as (v & Ev & Hv).
  erewrite on_k_ok by (unfold on_vm; by rewrite Ev). erewrite on_k_ok by reflexivity. eexists. split; [reflexivity|]. cbn.
  split; [|done]. exists []. split; [|done]. cbn. rewrite Hv. cbn. constructor. by exists d.
Qed.

(** The parts of the kernel's state the later calls leave alone. *)
Definition keeps (k k' : kern) : Prop :=
  k_sched k' = k_sched k /\ k_pipes k' = k_pipes k /\ k_wbufs k' = k_wbufs k /\ k_pending k' = k_pending k.

Lemma keeps_trans k1 k2 k3 : keeps k1 k2 -> keeps k2 k3 -> keeps k1 k3.
Proof. unfold keeps. intros (-> & -> & -> & ->) (-> & -> & -> & ->). done. Qed.

Lemma spec_app s1 s2 a : spec (WriteString (s1 ++ s2)) a = spec (WriteString s2) (spec (WriteString s1) a).
Proof. cbn. apply fold_left_app. Qed.

Definition disk_text (r : Z) (g : option geom) : list Z :=
  if r =? 0 then line (chars "ATA drive DETECTED") ++ line (match g with Some _ => chars "FAT32 MOUNTED" | None => chars "FAT32 mount FAILED" end)
  else line (chars "ATA init FAILED").

Lemma mount_ok {Y} (f : unit -> st boot Y) b a : Ata.dr_settle (dev (k_fs (b_kern b))) = O -> refines (b_tty b) a ->
  exists r g t k, (bind mount f) b = f tt (with_tty t (with_kern k b)) /\ refines t (spec (WriteString (disk_text r g)) a)
  /\ keeps (b_kern b) k /\ mem (k_fs k) = mem (k_fs (b_kern b))
  /\ k_vfs k = (if r =? 0 then match g with Some g => Some (fat32_vfs_ops g) | None => k_vfs (b_kern b) end else k_vfs (b_kern b))
  /\ (Ata.dr_healthy (dev (k_fs (b_kern b))) -> Ata.d_phase (Ata.dr_view (dev (k_fs (b_kern b)))) <> Ata.Failed -> r = 0).
Proof.
  intros Hd Ht. destruct (Ata.init_ok (S Ata.dr_patience) (Nat.lt_succ_diag_r _) (dev (k_fs (b_kern b))) Hd) as (r & d & E & _ & _ & Hr).
  set (k1 := set_fs (set_dev d (k_fs (b_kern b))) (b_kern b)).
  assert (ata_init (b_kern b) = Some (r, k1)) as E1 by (unfold ata_init; by rewrite E).
  unfold mount, bind at 1. rewrite (on_k_ok _ _ _ _ _ E1).
  destruct (Z.eqb_spec r 0) as [->|Hr0].
  - destruct (say_ok (line (chars "ATA drive DETECTED")) (fun _ => let* g := on_k fat32_mount in
      match g with Some g => on_k (vfs_register g) ;; say (line (chars "FAT32 MOUNTED")) | None => say (line (chars "FAT32 mount FAILED")) end) (with_kern k1 b) a Ht) as (t1 & -> & H1).
    set (b1 := with_tty t1 _). destruct (fat32_init (k_fs k1)) as [g fs1] eqn:Ef.
    assert (fat32_mount k1 = Some (g, set_fs fs1 k1)) as E2 by (unfold fat32_mount; by rewrite Ef). rewrite (on_k_ok fat32_mount _ b1 _ _ E2).
    assert (mem fs1 = mem (k_fs k1)) as Hm.
    { unfold fat32_init in Ef. destruct (Disk.ata_read 0 1 (dev (k_fs k1))) as [[bs|] d'];
        repeat match type of Ef with context [if ?c then _ else _] => destruct c end; by injection Ef as <- <-. }
    destruct g as [g|].
    + destruct (run_ok (WriteString (line (chars "FAT32 MOUNTED"))) _ _ H1) as (t2 & E3 & H2).
      exists 0, (Some g), t2, (mk_kern (k_sched k1) fs1 (Some (fat32_vfs_ops g)) (k_vm k1) (k_pipes k1) (k_wbufs k1) (k_exits k1) (k_next_pid k1) (k_kbd k1) (k_ticks k1) (k_stack k1) (k_pending k1) (k_shell k1)).
      split; [erewrite on_k_ok by reflexivity; unfold say, on_tty; cbn [b_tty with_kern b1 with_tty]; cbn [run] in E3; by rewrite E3|].
      split; [unfold disk_text; cbn [Z.eqb]; by rewrite spec_app|]. done.
    + destruct (run_ok (WriteString (line (chars "FAT32 mount FAILED"))) _ _ H1) as (t2 & E3 & H2).
      exists 0, None, t2, (set_fs fs1 k1). split; [unfold say, on_tty; cbn [b_tty with_kern b1 with_tty]; cbn [run] in E3; by rewrite E3|].
      split; [unfold disk_text; cbn [Z.eqb]; by rewrite spec_app|]. done.
  - destruct (run_ok (WriteString (line (chars "ATA init FAILED"))) _ _ Ht) as (t2 & E3 & H2).
    exists r, None, t2, k1. split; [unfold say, on_tty; cbn [b_tty with_kern]; cbn [run] in E3; by rewrite E3|].
    unfold disk_text. rewrite (proj2 (Z.eqb_neq _ _) Hr0). split; [done|]. do 3 (split; [done|]). intros Hh Hf. by destruct (Hr Hh Hf).
Qed.

Lemma boot_kmalloc_ok (n : Z) (k : kern) l : 0 <= n < 1048576 -> kh_ok (mem (k_fs k)) l ->
  exists p k', Kern.kmalloc n k = Some (p, k') /\ keeps k k' /\ k_vfs k' = k_vfs k /\ (if p =? 0 then kh_ok (mem (k_fs k')) l else kh_ok (mem (k_fs k')) (p :: l)).
Proof.
  intros Hn Hl. destruct (kh_malloc_spec n _ l Hn Hl) as (p & a & E & Ha & _).
  exists p, (set_fs (set_mem a (k_fs k)) k). split; [unfold Kern.kmalloc, on_fs, Fat32.kmalloc; by rewrite E|]. do 2 (split; [done|]).
  destruct Ha as [[-> Ha]|[Hp Ha]]; [done|]. by rewrite (proj2 (Z.eqb_neq _ _) Hp).
Qed.

Lemma boot_kfree_ok (p : Z) (k : kern) l : (if p =? 0 then kh_ok (mem (k_fs k)) l else kh_ok (mem (k_fs k)) (p :: l)) ->
  exists k', Kern.kfree p k = Some (tt, k') /\ keeps k k' /\ k_vfs k' = k_vfs k /\ kh_ok (mem (k_fs k')) l.
Proof.
  intros H. destruct (Z.eqb_spec p 0) as [->|Hp].
  - exists k. split; [|done]. destruct k as [? [? ? ? [? ?] ?]]. reflexivity.
  - destruct (kh_free_spec p _ l H) as (a & E & Ha & _). exists (set_fs (set_mem a (k_fs k)) k). split; [unfold Kern.kfree, on_fs, Fat32.kfree; by rewrite E|]. done.
Qed.

Lemma kh_ok_perm (a : memory) l l' : l ≡ₚ l' -> kh_ok a l -> kh_ok a l'.
Proof. intros Hp (ps & Hc & Hl). exists ps. split; [done|]. by rewrite Hl. Qed.

Lemma try_heap_ok {Y} (f : unit -> st boot Y) b a : kh_ok (mem (k_fs (b_kern b))) [] -> refines (b_tty b) a ->
  exists ok t k l, (bind try_heap f) b = f tt (with_tty t (with_kern k b)) /\ refines t (spec (WriteString (line (if ok : bool then chars "kmalloc OK" else chars "kmalloc FAILED"))) a)
  /\ keeps (b_kern b) k /\ k_vfs k = k_vfs (b_kern b) /\ kh_ok (mem (k_fs k)) l /\ (ok = true -> exists pb pc, l = [pc; pb]).
Proof.
  intros Hh Ht. destruct (boot_kmalloc_ok 64 (b_kern b) [] ltac:(lia) Hh) as (pa & k1 & E1 & K1 & V1 & H1).
  destruct (boot_kmalloc_ok 128 k1 (if pa =? 0 then [] else [pa]) ltac:(lia) ltac:(by destruct (pa =? 0))) as (pb & k2 & E2 & K2 & V2 & H2).
  set (lb := if pb =? 0 then [] else [pb]).
  destruct (boot_kfree_ok pa k2 lb) as (k3 & E3 & K3 & V3 & H3).
  { unfold lb. destruct (pa =? 0), (pb =? 0); try done. revert H2. apply kh_ok_perm. constructor. }
  destruct (boot_kmalloc_ok 32 k3 lb ltac:(lia) H3) as (pc & k4 & E4 & K4 & V4 & H4).
  set (ok := negb (pa =? 0) && negb (pb =? 0) && negb (pc =? 0)).
  destruct (run_ok (WriteString (line (if ok then chars "kmalloc OK" else chars "kmalloc FAILED"))) _ _ Ht) as (t & Et & Ht').
  exists ok, t, k4, (if pc =? 0 then lb else pc :: lb). split.
  - unfold try_heap, bind at 1. do 4 (erewrite on_k_ok by eassumption).
    fold ok. cbn [run] in Et. destruct ok; unfold say, on_tty; cbn [b_tty with_kern]; by rewrite Et.
  - split; [done|]. split; [eapply keeps_trans; [exact K1|]; eapply keeps_trans; [exact K2|]; by eapply keeps_trans|]. split; [congruence|].
    split; [by destruct (pc =? 0)|]. unfold ok, lb. intros Hok. zbool. destruct (Z.eqb_spec pa 0), (Z.eqb_spec pb 0), (Z.eqb_spec pc 0); try done. by exists pb, pc.
Qed.

(** Ports written by [ports] reach the machine behind the interrupt lines. *)
Lemma ports_ok {X Y} (m : st P X) (f : X -> st boot Y) b x p : m (b_lines b).2 = Some (x, p) ->
  (bind (ports m) f) b = f x (mk_boot (b_kern b) (b_tty b) (b_cpu b) (b_idt b) (b_fpu b) ((b_lines b).1, p) (b_rate b) (b_edit b)).
Proof. intros E. apply bind_ok. unfold ports, on_lines, Irq.on_ports. by rewrite E. Qed.

(** The last two calls: both handlers are registered, the controllers are untouched. *)
Lemma devices_ok b : length (b_lines b).1 = 16%nat ->
  exists b', (keyboard_init ;; pit_init 1000) b = Some (tt, b') /\ b_kern b' = b_kern b /\ b_tty b' = b_tty b /\ b_cpu b' = b_cpu b /\ b_idt b' = b_idt b
  /\ Pic.pc_view (b_lines b').2 = Pic.pc_view (b_lines b).2 /\ length (b_lines b').1 = 16%nat /\ b_rate b' = 1000
  /\ (b_lines b').1 !! 0%nat = Some (Some pit_handler) /\ (b_lines b').1 !! 1%nat = Some (Some keyboard_handler).
Proof.
  intros Hlen. unfold keyboard_init, pit_init. erewrite bind_ok by (unfold on_lines, Irq.irq_register; by rewrite Hlen).
  cbn [b_kern b_tty b_cpu b_idt b_fpu b_rate b_edit fst snd]. erewrite bind_ok by reflexivity. change (1000 =? 0) with false. cbv iota zeta.
  do 3 (erewrite ports_ok by reflexivity). unfold on_lines, Irq.irq_register. cbn [b_lines fst snd]. rewrite length_insert, Hlen. cbn [Z.leb Z.ltb Z.compare andb].
  eexists. split; [reflexivity|]. cbn [b_kern b_tty b_cpu b_idt b_lines b_rate fst snd]. do 4 (split; [done|]). rewrite !length_insert.
  split; [rewrite !Pic.pc_other by (unfold PIT_CHANNEL0, PIT_COMMAND, Pic.PIC1_COMMAND, Pic.PIC1_DATA, Pic.PIC2_COMMAND, Pic.PIC2_DATA; set_solver); done|].
  do 2 (split; [done|]). split; [apply list_lookup_insert_eq; rewrite length_insert; lia|].
  rewrite list_lookup_insert_ne by done. apply list_lookup_insert_eq. lia.
Qed.

(** Flat segments for rings 0 and 3, the task state, and a gate for every vector in use. *)
Definition tables_ready (b : boot) : Prop :=
  Gdt.segment (b_cpu b) 0x08 0 0xFFFFFFFF 0 0x1A /\ Gdt.segment (b_cpu b) 0x10 0 0xFFFFFFFF 0 0x12
  /\ Gdt.segment (b_cpu b) 0x1B 0 0xFFFFFFFF 3 0x1A /\ Gdt.segment (b_cpu b) 0x23 0 0xFFFFFFFF 3 0x12
  /\ Gdt.segment (b_cpu b) (Gdt.tr (b_cpu b)) tss_addr 103 0 9
  /\ forall v, 0 <= v < 256 -> exists e, Idt.idt (b_idt b) !! Z.to_nat v = Some e
     /\ match Idt.expected isr irq syscall_stub v with
        | Some (addr, dpl) => Idt.gate_present e = true /\ Idt.gate_offset e = addr /\ Idt.selector e = 0x08 /\ Idt.gate_type e = 0xE /\ Idt.gate_dpl e = dpl
        | None => Idt.gate_present e = false
        end.

(** Line [n] arrives at vector [32 + n]; the timer and the keyboard have their handlers. *)
Definition lines_ready (b : boot) : Prop :=
  (forall n, 0 <= n < 16 -> Pic.vector n (Pic.pc_view (b_lines b).2) = 32 + n)
  /\ (b_lines b).1 !! 0%nat = Some (Some pit_handler) /\ (b_lines b).1 !! 1%nat = Some (Some keyboard_handler) /\ b_rate b = 1000.

(** Processor tables and interrupt controllers. *)
Lemma processor_ok {Y} (f : unit -> st boot Y) b : layout_ok -> powered b ->
  exists c i fp p, (on_cpu (Gdt.gdt_init gdt_addr tss_addr) ;; ports Pic.pic_remap ;; on_idt (Idt.idt_init idt_addr isr irq syscall_stub) ;;
      bind (on_fpu (Fpu.fpu_init fninit_state fsave_image)) f) b
    = f tt (mk_boot (b_kern b) (b_tty b) c i fp ((b_lines b).1, p) (b_rate b) (b_edit b))
  /\ (forall k t l r e, tables_ready (mk_boot k t c i fp l r e)) /\ (forall n, 0 <= n < 16 -> Pic.vector n (Pic.pc_view p) = 32 + n).
Proof.
  intros Hl Hp. destruct (Gdt.gdt_init_ok gdt_addr tss_addr (b_cpu b) (pw_gdt b Hp) (lo_tss Hl)) as (c & E1 & _ & H1 & H2 & H3 & H4 & H5 & _).
  destruct (Pic.remap_ok (b_lines b).2) as (p & E2 & V2); [apply Hp..|].
  destruct (Idt.idt_init_ok idt_addr isr irq syscall_stub (b_idt b) (pw_idt b Hp)) as (i & E3 & _ & Hg).
  eexists c, i, _, p. split.
  - erewrite bind_ok by (unfold on_cpu; by rewrite E1). erewrite ports_ok by exact E2. erewrite bind_ok by (unfold on_idt; cbn [b_idt]; by rewrite E3).
    erewrite bind_ok by reflexivity. reflexivity.
  - split; [intros k t l r e; repeat (split; [done|]); exact Hg|]. intros n Hn. rewrite V2. unfold Pic.vector. cbn. zcase; lia.
Qed.

Lemma bind_assoc {S X Y Z'} (m : st S X) (f : X -> st S Y) (h : Y -> st S Z') s : bind (bind m f) h s = bind m (fun x => bind (f x) h) s.
Proof. unfold bind. by destruct (m s) as [[x s']|]. Qed.

Lemma booted_small (k : kern) : kernel_task_addr <> 0 -> KernProps.booted k -> KernCalls.small k /\ interruptible k.
Proof.
  intros Hk ((dir & top & E) & _ & _ & HN). split.
  - unfold KernCalls.small. rewrite (KernProps.process_init_procs _ _ _ _ Hk E), map_size_singleton. lia.
  - unfold interruptible. by rewrite HN, lookup_empty.
Qed.

(** Serial port and terminal, and the warning. *)
Lemma screen_ok {Y} magic (f : unit -> st boot Y) b :
  let com := (Serial.serial_init loopback (com1 (b_tty b))).2 in
  exists t, (on_tty (modify (fun t => set_com1 (Serial.serial_init loopback (com1 t)).2 t)) ;; on_tty terminal_initialize ;;
      bind (if negb (magic =? MULTIBOOT_BOOTLOADER_MAGIC) then say (line (chars "WARNING: bad multiboot magic, memory map may be invalid")) else ret tt) f) b = f tt (with_tty t b)
  /\ refines t (fold_left (fun a c => spec c a)
       (if negb (magic =? MULTIBOOT_BOOTLOADER_MAGIC) then [WriteString (line (chars "WARNING: bad multiboot magic, memory map may be invalid"))] else []) (tape_start com)).
Proof.
  intros com. erewrite on_tty_ok by reflexivity. set (b1 := with_tty _ b). destruct (clear_ok (b_tty b1) (tape_start com) eq_refl) as (t & E & Ht).
  rewrite (on_tty_ok _ _ _ _ _ E). destruct (negb _).
  - destruct (say_ok (line (chars "WARNING: bad multiboot magic, memory map may be invalid")) f (with_tty t b1) _ Ht) as (t1 & E1 & Ht1). exists t1. split; [exact E1|exact Ht1].
  - exists t. split; [reflexivity|exact Ht].
Qed.

(** [kernel_main] up to [pit_init]. *)
Lemma kernel_setup_ok magic b : layout_ok -> powered b ->
  exists b1 r g ok l, kernel_setup magic b = Some (tt, b1)
  /\ KernProps.booted (b_kern b1) /\ tables_ready b1 /\ lines_ready b1
  /\ kh_ok (mem (k_fs (b_kern b1))) l /\ ((ok : bool) = true -> length l = 2%nat)
  /\ k_vfs (b_kern b1) = (if r =? 0 then fat32_vfs_ops <$> g else None)
  /\ (Ata.dr_healthy (dev (k_fs (b_kern b))) -> Ata.d_phase (Ata.dr_view (dev (k_fs (b_kern b)))) <> Ata.Failed -> r = 0)
  /\ refines (b_tty b1) (fold_left (fun a c => spec c a)
       (boot_calls (negb (magic =? MULTIBOOT_BOOTLOADER_MAGIC)) (disk_text r g) (line (if ok then chars "kmalloc OK" else chars "kmalloc FAILED")))
       (tape_start (Serial.serial_init loopback (com1 (b_tty b))).2)).
Proof.
  intros Hl Hp. unfold kernel_setup.
  match goal with |- context [bind (if negb (magic =? _) then _ else _) ?f] => destruct (screen_ok magic f b) as (t1 & -> & H1) end.
  set (b1 := with_tty t1 b). assert (powered b1) as Hp1 by (destruct Hp; by split).
  match goal with |- context [bind (on_fpu _) ?f] => destruct (processor_ok f b1 Hl Hp1) as (c & i & fp & p & -> & Htab & Hvec) end.
  set (b2 := mk_boot _ _ c i fp _ _ _).
  match goal with |- context [bind (on_k setup_heap) ?f] => destruct (memory_ok f b2 Hl (pw_pages b Hp)) as (k3 & -> & Hh & Hs & Hpi & Hw & Hpe & Hdv & Hvf) end.
  erewrite on_k_ok by reflexivity. set (k4 := set_sched _ _).
  assert (k_sched k4 = bss) as Hs4 by (unfold k4; cbn; rewrite Hs; cbn; by rewrite (pw_sched b Hp)).
  destruct (process_init_ok kernel_task_addr boot_page_directory stack_top (lo_task Hl)) as (s5 & E5 & _).
  erewrite on_k_ok by (unfold on_sched at 1; cbn [b_kern with_kern]; rewrite Hs4, E5; reflexivity). set (k5 := set_sched s5 _).
  set (b5 := with_kern k5 _).
  match goal with |- context [bind (say (line (chars "PMM Initialized"))) ?f] => destruct (say_ok (line (chars "PMM Initialized")) f b5 _ H1) as (t6 & -> & H6) end.
  set (b6 := with_tty t6 _).
  match goal with |- context [bind mount ?f] => destruct (mount_ok f b6 _ ltac:(cbn; rewrite Hdv; exact (pw_drive b Hp)) H6) as (r & g & t7 & k7 & -> & H7 & K7 & M7 & V7 & Hr) end.
  set (b7 := with_tty t7 _).
  match goal with |- context [bind try_heap ?f] => destruct (try_heap_ok f b7 _ ltac:(cbn; rewrite M7; exact Hh) H7) as (ok & t8 & k8 & l & -> & H8 & K8 & V8 & Hh8 & Hok) end.
  set (b8 := with_tty t8 _).
  match goal with |- context [bind (say (line (chars "Scheduler ready"))) ?f] => destruct (say_ok (line (chars "Scheduler ready")) f b8 _ H8) as (t9 & -> & H9) end.
  destruct (Splash.splash_show_ok t9 _ H9) as (t10 & E10 & H10). erewrite on_tty_ok by exact E10. set (b10 := with_tty t10 _).
  destruct (devices_ok b10 ltac:(exact (pw_irqs b Hp))) as (b11 & -> & Hk & Ht & Hc & Hi & Hpv & Hlen & Hrt & Hh0 & Hh1).
  assert (KernProps.booted (b_kern b11)) as Hb.
  { rewrite Hk. destruct (keeps_trans _ _ _ K7 K8) as (J1 & J2 & J3 & J4). unfold KernProps.booted. cbn in J1, J2, J3, J4 |- *. rewrite J1, J2, J3, J4.
    split; [by exists boot_page_directory, stack_top|]. cbn in Hpi, Hw, Hpe. rewrite Hpi, Hw, Hpe. split; [apply (pw_pipes b Hp)|]. split; [apply (pw_wbufs b Hp)|apply (pw_pending b Hp)]. }
  exists b11, r, g, ok, l. split; [done|]. split; [exact Hb|]. split; [|split; [|split; [|split; [|split; [|split]]]]].
  - unfold tables_ready. rewrite Hc, Hi. exact (Htab (b_kern b11) (b_tty b11) (b_lines b11) (b_rate b11) (b_edit b11)).
  - split; [intros n Hn; rewrite Hpv; by apply Hvec|]. done.
  - rewrite Hk. exact Hh8.
  - intros E. destruct (Hok E) as (pb & pc & ->). done.
  - rewrite Hk. assert (k_vfs (b_kern b6) = None) as E6 by (cbn; rewrite Hvf; exact (pw_vfs b Hp)). rewrite E6 in V7.
    transitivity (k_vfs k7); [exact V8|]. rewrite V7. destruct (r =? 0); by destruct g.
  - cbn in Hr. rewrite Hdv in Hr. exact Hr.
  - rewrite Ht. unfold boot_calls. rewrite fold_left_app. exact H10.
Qed.


End Boot.

(** ** A machine that boots *)

Module Demo.

#[local] Instance layout : Layout := { boot_page_directory := 0xC0101000; user_page_tables := 0xC0110000 }.
#[local] Instance machine : Machine := {
  kernel_task_addr := 0xC0200000; process_bootstrap := 0xC0100400; fork_child_return := 0xC0100500;
  default_state := []; junk_fds := replicate MAX_FDS closed_fd }.
#[local] Existing Instance Ata.PioDrive.pio_ports.
#[local] Existing Instance Ata.PioDrive.pio_drive.
#[local] Existing Instance Irq.Demo.pair_ports.
#[local] Existing Instance Irq.Demo.pair_pics.

Abbreviation disk := (Ata.PioDrive.pio false).

Definition start_kern : Kern.kern (D := disk) (A := Heap.heap * Pmm.pmm_state) :=
  mk_kern bss (mk_fs 0 [] (Ata.PioDrive.demo false) (Heap.mk_heap 7 ∅, Pmm.mk_pmm (fun _ => 0) 0 0) []) None
    (mk_vm (fun _ => 0) [] (Pmm.mk_pmm (fun _ => 0) 0 0) (fun _ => 0) 0xC0101000) ∅ ∅
    (replicate MAX_EXIT_RECORDS (mk_exit 0 0 0 0)) 1 Kbd.kbd_init 0 (fun _ => 0) ∅ [].

Definition start : boot (D := disk) (P := Irq.Demo.pair) (F := Z) :=
  mk_boot start_kern (mk_terminal 0 0 0 (fun _ => 0) 0 0 (Serial.mk_serial 0 []))
    (Gdt.mk_cpu (replicate 6 (Gdt.mk_gdt_entry 0 0 0 0 0 0)) (Gdt.mk_tss 0 0 0) (0, 0) 0)
    (Idt.mk_tables (replicate 256 (Idt.mk_idt_entry 0 0 0 0 0)) (0, 0)) (Fpu.mk_fpu 0x11 0 [])
    (replicate 16 None, Irq.Demo.bios) 0 (LineEdit.mk_edit (fun _ => 0) 0 0 (fun _ _ => 0) 0 (-1)).

Lemma start_powered : powered start.
Proof. split; try reflexivity; (vm_compute; split; congruence). Qed.

Lemma start_layout : layout_ok 0xC0102000 Pmm.demo_rd 0x9000.
Proof.
  split; [unfold is_u32; lia|discriminate|]. exists [Pmm.read_mmap Pmm.demo_rd 0xA000].
  split; [vm_compute; split; congruence|]. split; [exact Pmm.demo_mmap|]. split; [constructor; [|constructor]; split; vm_compute; split; congruence|].
  intros q i j e f Hi Hj Hij. apply lookup_lt_Some in Hi, Hj. simpl in Hi, Hj. lia.
Qed.


End Demo.

End Boot.
